(* ===== verification/_CoqProject ===== *)
-Q . S2P
Prelude.v
Decimal.v
StrategyModels.v
Indicators.v
StrategyValidation.v
Entry.v
Stops.v
StrategyEngine.v
RiskModels.v
Constraints.v
RiskValidation.v
Sizing.v
RiskEngine.v
BtModels.v
BtData.v
BtPortfolio.v
PaperLifecycle.v
Metrics.v
BacktestEngine.v
BacktestInvariants.v
BacktestLookahead.v
EventFairness.v
PaperModels.v
PaperSession.v
Transitions.v
Timeframes.v
PaperRuntime.v
MarketModels.v
MarketValidation.v
MarketWalk.v
MarketGaps.v
MarketAggregation.v
MarketRepository.v
MarketBundle.v
PaperRepository.v
PaperAccounting.v
PaperExecution.v
PaperStops.v
PaperIntents.v
PaperScheduler.v
PaperContext.v
PaperEvents.v
PaperBridge.v
PaperRecovery.v
PaperLedger.v
PaperReconcile.v
PaperGates.v
PaperChain.v
PaperRecoverable.v
PaperFrame.v
PaperIntentLife.v
PaperRuns.v
PaperSchedule.v
PaperBridgeSafety.v
PaperPoll.v
WalkForward.v
CanonicalJson.v
ResearchJobs.v
ResearchLeases.v
GatePolicy.v
ResearchRegistry.v
GateVerdict.v
GateEvidence.v
ParameterGraph.v
ParameterArea.v
ContentHash.v
