(* ===== verification/Prelude.v ===== *)
(** * Verification of the trading bot

    This library models the decision core of the repository (the Python
    packages under services/) in Rocq and proves what makes it correct.  The
    definitions keep the names of the source; a doc comment at the head of each
    file names the source files it models, and this header is the map.

    ** The program

    The bot trades perpetual futures long only.  Closed daily, weekly and
    monthly candles go into the strategy engine, which answers with a signal.
    A signal becomes an intent that waits for the next daily open; there the
    risk engine accepts or rejects it against the real fill price and decides
    the quantity.  Positions leave through stops that trail the market.  The
    same pure steps serve the backtester (all in memory, one pass over
    history) and paper trading (a process with a database, a runtime state
    machine, a scheduler and a bridge of market events).  The research services
    run backtests as jobs, keep their sealed artifacts in a registry, repeat
    them over walk-forward windows and around their parameters, and judge a run
    against the gates of a versioned policy.

    ** Files

    Foundations.
    - Prelude: exceptions and the error monad [res], the total-correctness
      judgement [returns m P] (the call returns, and its result satisfies P),
      bounded [while] loops, insertion-ordered dicts, list indexing, monadic
      folds, and the tactics.
    - Decimal: Python's [decimal] in the default context, as rationals with
      explicit rounding to 28 significant digits, half to even ([rnd]); the
      operations [dadd], [dmul], [ddiv] and the like round exactly where the
      code computes.  Steps and ticks that are powers of ten ([pow10_step]).

    Strategy engine (services/strategy_engine/).
    - StrategyModels: the data of models.py.  Indicators: indicators.py.
      StrategyValidation: validation.py.  Entry: entry.py, regime.py, trend.py.
      Stops: stops.py.  StrategyEngine: the orchestrator engine.py.

    Risk engine (services/risk_engine/, services/trading_constraints/).
    - RiskModels, Constraints, RiskValidation, Sizing (rounding.py,
      portfolio.py, sizing.py), RiskEngine (engine.py).

    Backtester (services/backtester/).
    - BtModels (models.py and the runtime record of engine.py), BtData
      (data.py, intent.py), BtPortfolio (execution.py, portfolio.py),
      PaperLifecycle (paper_lifecycle.py, shared with paper trading), Metrics
      (metrics.py), BacktestEngine (engine.py), BacktestInvariants and
      BacktestLookahead (theorems about whole runs).

    Market data (services/market_data/).
    - Timeframes (timeframes.py), MarketModels (models.py), MarketValidation
      (validation.py, closed.py, stale.py, merge_policy.py), MarketWalk (walks
      over consecutive candle opens), MarketGaps (gaps.py), MarketAggregation
      (aggregation.py), MarketRepository (symbols.py, normalize.py,
      repository.py, ingest.py), MarketBundle (bundle.py, service.py),
      ContentHash (content_hash.py).

    Paper trading (services/paper_trading/).
    - PaperModels (enums.py, models.py, config.py and the database of
      db/orm.py), Transitions (transitions.py), PaperRuntime (runtime.py,
      readiness.py, the readiness step of application.py), EventFairness
      (event_fairness.py), PaperRepository (repository.py with the constraints
      of db/orm.py, ids.py, mappers.py), PaperSession (operations that keep
      what they wrote when they raise, savepoints, and the rules that carry an
      invariant through them).
    - PaperAccounting (accounting.py, portfolio.py, accounting_verification.py),
      PaperExecution (execution.py), PaperStops (stops.py), PaperIntents
      (lifecycle.py, evaluation.py, serialization.py), PaperRecovery
      (recovery.py).
    - PaperLedger: an abstract ledger of wallet, fills and positions with its
      steps and invariant.  PaperReconcile: the operations refine its steps;
      the reachable databases.  PaperChain and PaperRecoverable: the chain from
      an intent to its position, and the recovery of every reachable database.
      PaperGates: who may create an intent, and the parity with the backtester.
    - PaperScheduler (scheduler.py, scheduler_outcomes.py, lock.py),
      PaperContext (scheduler_context.py, constraint_validation.py,
      symbol_constraints.py), PaperEvents (events and detector of
      market_events.py), PaperBridge (MarketEventBridge of market_events.py and
      the committed poll of application.py).
    - PaperRuns: the abstract specification of what scheduler and bridge write.
      PaperFrame, PaperSchedule, PaperBridgeSafety and PaperPoll: the jobs, the
      bridge and whole histories of polls implement it.  PaperIntentLife: what
      becomes of an intent in the database.

    Research (services/research/).
    - WalkForward (walk_forward.py); CanonicalJson (the canonical texts and
      SHA-256, from validation_study.py and its users).
    - ResearchJobs (jobs.py, robustness_jobs.py and the transitions their
      services make in write_service.py, robustness_service.py): the operations
      of the job stores as sections that read, decide and write one file.
      ResearchLeases: the processes that share a store, with their locks.
    - ResearchRegistry (registry.py, the checksums of artifacts.py).
    - GatePolicy (gate_policy.py), GateVerdict (the verdict and the log of
      gate_evaluator.py), GateEvidence (its evidence, with metrics_contract.py,
      run_manifest.py and the seals of robustness.py).
    - ParameterGraph (parameter_stability.py; graph.py, policy.py and
      classify.py of parameter_area/), ParameterArea (evaluator.py, artifacts.py
      of parameter_area/).

    ** State and operations

    - A method that mutates an object is a function from the old state to the
      new one: the backtester's [_Runtime] record in BacktestEngine, the
      candle store of MarketRepository, the database [PaperStore] of
      PaperModels.  Where every caller rolls back or stops, an exception
      carries no state; the scheduler and the bridge go on after one, so their
      operations are in the monad [sx] of PaperSession, where an exception
      keeps what was written outside its savepoint.
    - A table is the list of its rows in insertion order.  A statement checks
      what PostgreSQL checks (CHECK, unique and foreign key constraints), and a
      row is read through the validators of its domain record, which may raise.
      Random ids and the clock are arguments; the scheduler and the bridge,
      which consult them again and again, take the answers from a [World], the
      n-th consultation giving the n-th answer.
    - [paper_step] of PaperReconcile is the step relation of paper trading: one
      constructor for each operation that writes the database.  [bridge_step] of
      PaperPoll is that of the process: committed polls, requests to recover a
      configuration failure, restarts, and writes of the rest of paper trading.
      The startup recovery reads the clock several times; the model gives it one
      reading.
    - [step] of ResearchLeases is the step relation of the processes that share a
      job store: an operation enters with its locks, loads its file, and ends by
      writing it, in any interleaving the locks allow.
    - A run directory is the map from relative paths to bytes; a log of JSON
      lines is the list of its lines, some of which may be unreadable.  A [str]
      is the string of its UTF-8 bytes, and SHA-256 is computed, so a theorem on
      digests names the collision that would break it.
    - An exception is a value [Raise e] of [res].  A theorem that says
      [returns] therefore also says that nothing is raised.
    - A dict whose order matters is an association list ([od_get], [od_set]);
      other dicts are finite maps, sets are finite sets of strings or times.
    - A datetime is an aware UTC instant in microseconds.  A Pydantic model is
      a record; the checks of its fields that the code relies on are hypotheses
      or are represented by the types.
    - Decimals are finite: the code's finiteness tests become tests that the
      value fits a float, which is what the code converts to.

    ** What the theorems show

    - No look-ahead: indicators are causal ([indicators_no_lookahead]), the
      verdict of the strategy depends on closed candles only
      ([evaluate_correct]), and a whole backtest up to a day is a function of
      what was known by then ([backtest_no_lookahead]).
    - Strategy: the engine's verdict is the rule, signal by signal
      ([evaluate_correct]); validation decides well-formedness
      ([validate_candle_series_decides]); breakout highs ([compute_high20_spec]);
      trailing stops only rise ([trailing_stop_ratchet]); rounding to a tick is
      the floor ([round_to_tick_floor]).
    - Risk: fail-closed evaluation whose approvals respect every limit
      ([risk_evaluate_safe]); the quantity search terminates with the largest
      admissible quantity ([risk_cap_largest]); constraint validation
      ([validate_symbol_constraints_core_correct]).
    - Backtester: every run completes and keeps its invariants ([run_correct]);
      intent ids are injective ([build_client_intent_id_inj]); drawdowns and
      metrics ([drawdown_curve_correct], [compute_metrics_consistent]); two
      things the shared lifecycle cannot do ([stop_exit_never_initial],
      [loss_limits_never_reached]).
    - Market data: a series report is VALID exactly for sound gapless series
      ([validate_series_decides], [detect_gaps_exact]); weeks and months are
      aggregated exactly from complete days ([aggregation_exact]); the
      repository refines first-write-wins and never rewrites a past candle
      ([ingest_refines_first_write], [repository_history_immutable]); raw candles
      and symbols are normalized ([normalize_canonical], [symbol_roundtrip]); a
      usable bundle passes the validation of the strategy
      ([usable_bundle_accepted]); the hash of a dataset identifies its candles
      ([content_hash_identifies]).
    - Paper ledger: whatever happens, the wallet is the one its fills imply
      ([accounting_reconciles]); one open position per symbol, with a stop that
      only rises and a settled close ([open_positions_unique]); every reachable
      database recovers to READY ([recovery_reaches_ready]); a fill happens once
      ([fill_idempotent]); intents are created fail-closed
      ([intent_creation_fail_closed]); a paper entry is the backtester's entry
      ([entry_parity]).
    - Paper trading control: the tables of transitions of intents, orders and the
      runtime ([intent_lifecycle], [order_lifecycle], [runtime_lifecycle]), and
      that every status an intent gets in the database follows its table
      ([intents_follow_lifecycle]); readiness is
      fail-closed and promotion follows it ([readiness_fail_closed],
      [readiness_step_correct]), except that a starting runtime cannot be
      promoted ([starting_promotion_raises]); event groups are a partition,
      visited fairly and retried soon ([groups_partition], [rotation_fair],
      [backoff_bounds]).
    - Scheduler and market events: a job runs once and its run records how it
      went ([job_runs_once], [run_job_records]); whatever polls, recovery
      requests, restarts and failures happen, the bridge only makes the writes
      of its specification ([bridge_refines]), a completed run is final
      ([completed_runs_final]), an acknowledged event is done
      ([acknowledged_events_done]) and not offered again
      ([settled_events_silent]).  Two of its keys are too coarse: the intraday
      stop check runs for the first live update of a day only
      ([later_live_updates_ignored]), and the close of a day is evaluated for
      one symbol only ([close_sequence_once]).
    - Time: candles of each timeframe partition time ([timeframes_partition]).
    - Research jobs: operations with the file lock are atomic whatever processes
      share the store, with one winner of a claim ([job_sections_atomic]); a job
      is run once under that discipline ([research_job_runs_once]); the
      operations without the file lock race ([job_races_across_processes]); a
      restart recovers exactly the abandoned jobs ([recover_orphans_exact]).
    - Research evidence: a run shown as complete is the registered one
      ([shown_run_is_sealed]) and an invalidation is final
      ([invalidation_is_final]); the hash of a policy binds its content
      ([policy_hash_binds]); a gate record follows from sealed evidence
      ([gate_record_sound]), verifies ([gate_record_verifies]), never changes
      ([gate_record_immutable]) and is made once ([evaluate_idempotent]).
    - Research plans: walk-forward folds are a closed form and do not leak
      ([plan_walk_forward_exact], [folds_do_not_leak]); the neighbors of a
      candidate move one parameter at a time ([neighborhood_one_at_a_time]), the
      measured plateau is the longest stable run ([plateau_longest]), the
      classifier is total ([labels_decided]), a plateau label is earned
      ([plateau_label_earned]), trust needs a pinned manifest
      ([trust_is_pinned]) but counts invalidated runs
      ([invalidated_evidence_trusted]), and the artifact is sealed
      ([area_artifact_sealed]).

    ** Bounds and fuel

    A few loops are not folds.  The one of
    [apply_risk_cap_after_rounding] ([loop]) runs its body at most 10^29 times,
    and [risk_cap_largest] shows that it stops before, since the quantity falls
    by at least one step each round and has at most 28 digits.  The walks over
    candle opens in gaps.py and aggregation.py have the fuel [walk_fuel] of
    MarketWalk, one step per day of the walked period, and [walk_total] shows
    that it is enough.  The month searches of walk_forward.py have
    [MONTHS_FUEL] steps, more than there are months in the years 1 to 9999, and
    [plan_walk_forward_exact] shows that they end.  The walks along an axis
    ([walk_left], [walk_right]) take at most one step per point, and [places]
    looks for the decimal places of a number up to the binary digits of its
    denominator.  Years printed in ids have four digits.  The
    verification of the accounting reads [POSITIONS_LIMIT] positions, and the
    theorems on it assume no more.

    ** What is not modelled

    Computations in binary floating point (CAGR, Sharpe and Sortino ratios),
    the texts of most error messages, network and database I/O, the HTTP API
    and the dashboard.  Of the database: the rounding of numeric columns (the
    columns keep the exact decimal), column widths, the soak run tag, and a
    transaction that PostgreSQL has aborted outside a savepoint.  Of the
    bridge: its log lines; the digest in the name of a live update is taken of
    the value of the low, not of its text.  Of market data: the providers,
    symbols that are not ASCII, and the partial state an exception leaves in
    the in-memory repository.  Of research: the HTTP API, the parsing of
    specifications and manifests (an argument of the theorems), the runner
    around the backtester, writing and comparing artifacts, the dataset export
    and catalogue, bootstrap and other floating point, scorecards, regimes,
    confidence, charts and reports.  A lock timeout shows as an operation that
    never enters. *)
From Stdlib Require Import ZArith Lia Sorting.Sorted Strings.Ascii.
From stdpp Require Import base list strings gmap sets relations.

(** ** Exceptions and the error monad

    A Python function that may raise is a function into [res]: [Ok] is a
    normal return, [Raise] carries the exception.  [LoopFuel] is not a Python
    exception: it marks a [while] loop that did not finish within the bound
    its model was given, and the termination theorems show it is never
    returned. *)

Inductive exn : Type :=
  | DivisionByZero
  | DivisionUndefined
  | InvalidOperation
  | ValueError (msg : string)
  | IndexError
  | KeyError (key : string)
  | AssertionError
  | InvalidTransition (msg : string)
  | LookupError (msg : string)
  | RuntimeError (msg : string)
  | IntegrityError (constraint : string)
  | NoResultFound
  | MultipleResultsFound
  | TypeError
  | OverflowError
  | FileNotFoundError (path : string)
  | GatePolicyError (msg : string)
  | GateEvaluationError (field reason : string)
  | ParameterAreaPolicyError (msg : string)
  | ParameterAreaError (msg : string)
  | LoopFuel.

Inductive res (A : Type) : Type :=
  | Ok (a : A)
  | Raise (e : exn).
Arguments Ok {_} _.
Arguments Raise {_} _.

#[export] Instance res_ret : MRet res := fun _ a => Ok a.
#[export] Instance res_bind : MBind res := fun _ _ f m =>
  match m with Ok a => f a | Raise e => Raise e end.
#[export] Instance res_fmap : FMap res := fun _ _ f m =>
  match m with Ok a => Ok (f a) | Raise e => Raise e end.

Definition or_raise {A} (e : exn) (o : option A) : res A :=
  match o with Some a => Ok a | None => Raise e end.

(** [returns m P]: the call [m] returns normally, with a result satisfying
    [P].  This is the total-correctness triple of the development. *)
Definition returns {A} (m : res A) (P : A -> Prop) : Prop :=
  exists a, m = Ok a /\ P a.

Section ResLaws.
Context {A B : Type}.

Lemma bind_ok (m : res A) (f : A -> res B) b :
  (m ≫= f) = Ok b <-> exists a, m = Ok a /\ f a = Ok b.
Proof. destruct m; cbn; naive_solver. Qed.

Lemma fmap_ok (m : res A) (f : A -> B) b :
  (f <$> m) = Ok b <-> exists a, m = Ok a /\ f a = b.
Proof. destruct m; cbn; naive_solver. Qed.

Lemma or_raise_ok e (o : option A) a : or_raise e o = Ok a <-> o = Some a.
Proof. destruct o; cbn; naive_solver. Qed.

Lemma returns_ret (a : A) (P : A -> Prop) : P a -> returns (Ok a) P.
Proof. by exists a. Qed.

Lemma returns_bind (m : res A) (f : A -> res B) (P : A -> Prop) (Q : B -> Prop) :
  returns m P -> (forall a, P a -> returns (f a) Q) -> returns (m ≫= f) Q.
Proof. intros (a & -> & Ha) Hf. cbn. by apply Hf. Qed.

Lemma returns_mono (m : res A) (P Q : A -> Prop) :
  returns m P -> (forall a, P a -> Q a) -> returns m Q.
Proof. intros (a & -> & Ha) HPQ. exists a; auto. Qed.
End ResLaws.

(** [inv_res] decomposes every hypothesis that says a monadic expression
    returned normally. *)
Ltac inv_res :=
  repeat match goal with
  | H : Ok _ = Ok _ |- _ => injection H as H; try subst
  | H : Raise _ = Ok _ |- _ => discriminate H
  | H : Ok _ = Raise _ |- _ => discriminate H
  | H : mret _ = Ok _ |- _ => unfold mret, res_ret in H
  | H : (_ ≫= _) = Ok _ |- _ =>
      apply bind_ok in H; destruct H as (? & ? & H)
  | H : (_ <$> _) = Ok _ |- _ =>
      apply fmap_ok in H; destruct H as (? & ? & H)
  | H : or_raise _ _ = Ok _ |- _ => apply or_raise_ok in H
  end.

(** Identify the results of the same call. *)
Ltac unify_res :=
  repeat match goal with
  | H1 : ?m = Ok ?a, H2 : ?m = Ok ?b |- _ =>
      rewrite H1 in H2; injection H2 as H2; try subst
  end.

(** ** Bounded [while] loops

    [loop n body s] runs [body] from state [s] for at most [n] rounds and
    stops as soon as [body] produces a result.  The bound is a binary number,
    so a bound of 10^29 costs nothing when the loop stops early. *)
Section Loop.
Context {S R : Type} (body : S -> S + R).

Fixpoint loop (n : positive) (s : S) : S + R :=
  match n with
  | xH => body s
  | xO p => match loop p s with inl s' => loop p s' | inr r => inr r end
  | xI p =>
      match body s with
      | inl s' =>
          match loop p s' with inl s'' => loop p s'' | inr r => inr r end
      | inr r => inr r
      end
  end.

Context (P : S -> Prop) (Q : R -> Prop).
Hypothesis body_inv :
  forall s, P s -> match body s with inl s' => P s' | inr r => Q r end.

Lemma loop_inv n s :
  P s -> match loop n s with inl s' => P s' | inr r => Q r end.
Proof.
  revert s. induction n as [p IH|p IH|]; intros s HP; cbn.
  - pose proof (body_inv s HP). destruct (body s) as [s'|r]; [|done].
    pose proof (IH s' H). destruct (loop p s') as [s''|r]; [|done]. by apply IH.
  - pose proof (IH s HP). destruct (loop p s) as [s'|r]; [|done]. by apply IH.
  - by apply body_inv.
Qed.

Context (m : S -> Z).
Hypothesis body_dec :
  forall s s', P s -> body s = inl s' -> (m s' + 1 <= m s)%Z.

Lemma loop_measure n s s' :
  P s -> loop n s = inl s' -> (m s' + Z.pos n <= m s)%Z.
Proof.
  revert s s'. induction n as [p IH|p IH|]; intros s s' HP H; cbn in H.
  - pose proof (body_inv s HP). destruct (body s) as [s1|r] eqn:E; [|done].
    pose proof (body_dec s s1 HP E).
    pose proof (loop_inv p s1 H0). destruct (loop p s1) as [s2|r] eqn:E1; [|done].
    pose proof (IH _ _ H0 E1). pose proof (IH _ _ H2 H). lia.
  - pose proof (loop_inv p s HP). destruct (loop p s) as [s1|r] eqn:E1; [|done].
    pose proof (IH _ _ HP E1). pose proof (IH _ _ H0 H). lia.
  - pose proof (body_dec s s' HP H). lia.
Qed.

(** A loop whose measure starts below the bound returns a result. *)
Lemma loop_total n s :
  P s -> (forall s, P s -> 0 <= m s)%Z -> (m s < Z.pos n)%Z ->
  exists r, loop n s = inr r /\ Q r.
Proof.
  intros HP Hpos Hlt. pose proof (loop_inv n s HP) as HI.
  destruct (loop n s) as [s'|r] eqn:E; [|by exists r].
  pose proof (loop_measure n s s' HP E). pose proof (Hpos s' HI). lia.
Qed.
End Loop.

(** ** Insertion-ordered dictionaries

    A Python [dict] iterates in insertion order; assigning to an existing key
    keeps its place.  Where the source iterates over a dict (and the order
    decides the order of rounded sums and of outputs), the model is an
    association list with these operations. *)
Section ODict.
Context {K V : Type} `{EqDecision K}.

Fixpoint od_get (d : list (K * V)) (k : K) : option V :=
  match d with
  | [] => None
  | (k', v) :: d' => if decide (k = k') then Some v else od_get d' k
  end.

Fixpoint od_set (d : list (K * V)) (k : K) (v : V) : list (K * V) :=
  match d with
  | [] => [(k, v)]
  | (k', v') :: d' =>
      if decide (k = k') then (k, v) :: d' else (k', v') :: od_set d' k v
  end.

Fixpoint od_del (d : list (K * V)) (k : K) : list (K * V) :=
  match d with
  | [] => []
  | (k', v') :: d' => if decide (k = k') then d' else (k', v') :: od_del d' k
  end.

Definition od_keys (d : list (K * V)) : list K := d.*1.
Definition od_values (d : list (K * V)) : list V := d.*2.

Lemma od_get_set_eq d k v : od_get (od_set d k v) k = Some v.
Proof.
  induction d as [|[k' v'] d IH]; cbn; repeat (case_decide; cbn; try done).
Qed.

Lemma od_get_set_ne d k k' v : k <> k' -> od_get (od_set d k v) k' = od_get d k'.
Proof.
  intros Hne. induction d as [|[k1 v1] d IH]; cbn;
    repeat (case_decide; cbn; try congruence).
Qed.

Lemma od_get_set d k k' v :
  od_get (od_set d k v) k' = if decide (k = k') then Some v else od_get d k'.
Proof. case_decide; [subst; apply od_get_set_eq | by apply od_get_set_ne]. Qed.

Lemma od_get_None d k : od_get d k = None <-> k ∉ od_keys d.
Proof.
  induction d as [|[k' v'] d IH]; cbn; [set_solver|].
  case_decide; set_solver.
Qed.

Lemma od_get_Some_keys d k v : od_get d k = Some v -> k ∈ od_keys d.
Proof.
  intros H. destruct (decide (k ∈ od_keys d)) as [|Hn]; [done|].
  apply od_get_None in Hn. congruence.
Qed.

Lemma od_get_values d k v : od_get d k = Some v -> v ∈ od_values d.
Proof.
  unfold od_values. induction d as [|[k' v'] d IH]; cbn; [done|].
  case_decide; set_solver.
Qed.

Lemma od_values_get d v :
  v ∈ od_values d -> NoDup (od_keys d) -> exists k, od_get d k = Some v.
Proof.
  unfold od_values, od_keys. induction d as [|[k' v'] d IH]; cbn; [set_solver|].
  intros [->|Hin]%elem_of_cons [Hn Hd]%NoDup_cons.
  - exists k'. by rewrite decide_True.
  - destruct (IH Hin Hd) as [k Hk]. exists k.
    rewrite decide_False; [done|]. intros ->.
    apply Hn. by apply od_get_Some_keys in Hk.
Qed.

Lemma od_keys_set d k v :
  od_keys (od_set d k v) =
    if decide (k ∈ od_keys d) then od_keys d else od_keys d ++ [k].
Proof.
  induction d as [|[k' v'] d IH]; [done|].
  change (od_keys ((k', v') :: d)) with (k' :: od_keys d). cbn [od_set].
  destruct (decide (k = k')) as [->|E].
  - clear IH. case_decide as Hk; [done|]. destruct Hk. apply list_elem_of_here.
  - change (od_keys ((k', v') :: od_set d k v)) with (k' :: od_keys (od_set d k v)).
    rewrite IH. repeat case_decide; set_solver.
Qed.

Lemma od_keys_set_NoDup d k v : NoDup (od_keys d) -> NoDup (od_keys (od_set d k v)).
Proof.
  intros Hd. rewrite od_keys_set. case_decide; [done|].
  apply NoDup_app. split_and!; [done|set_solver|apply NoDup_singleton].
Qed.

Lemma od_keys_del_sub d k k' : k' ∈ od_keys (od_del d k) -> k' ∈ od_keys d.
Proof.
  unfold od_keys. induction d as [|[k1 v1] d IH]; cbn; [done|].
  case_decide; set_solver.
Qed.

Lemma od_keys_del_NoDup d k : NoDup (od_keys d) -> NoDup (od_keys (od_del d k)).
Proof.
  induction d as [|[k' v'] d IH]; [done|].
  change (od_keys ((k', v') :: d)) with (k' :: od_keys d).
  intros [Hn Hd]%NoDup_cons. cbn [od_del]. case_decide; [done|].
  change (NoDup (k' :: od_keys (od_del d k))). apply NoDup_cons. split; [|by apply IH].
  intros Hin. apply Hn. by eapply od_keys_del_sub.
Qed.

Lemma od_get_del_ne d k k' : k <> k' -> od_get (od_del d k) k' = od_get d k'.
Proof.
  intros Hne. induction d as [|[k1 v1] d IH]; cbn; [done|].
  repeat (case_decide; cbn; try congruence).
Qed.

Lemma od_get_del_eq d k : NoDup (od_keys d) -> od_get (od_del d k) k = None.
Proof.
  induction d as [|[k' v'] d IH]; [done|].
  change (od_keys ((k', v') :: d)) with (k' :: od_keys d).
  intros [Hn Hd]%NoDup_cons. cbn. case_decide; subst.
  - by apply od_get_None.
  - cbn. rewrite decide_False by done. by apply IH.
Qed.

Lemma od_set_values d k v x :
  x ∈ od_values (od_set d k v) -> x = v \/ x ∈ od_values d.
Proof.
  unfold od_values. induction d as [|[k' v'] d IH]; cbn; [set_solver|].
  case_decide; set_solver.
Qed.

Lemma od_del_values d k x : x ∈ od_values (od_del d k) -> x ∈ od_values d.
Proof.
  unfold od_values. induction d as [|[k' v'] d IH]; cbn; [done|].
  case_decide; set_solver.
Qed.

Lemma od_get_is_Some d k : is_Some (od_get d k) <-> k ∈ od_keys d.
Proof.
  split; [intros [v Hv]; by eapply od_get_Some_keys|].
  intros Hk. destruct (od_get d k) as [v|] eqn:E; [by eexists|]. by apply od_get_None in E.
Qed.

(** Removing a key takes its value out of the values. *)
Lemma od_del_Permutation d k v : od_get d k = Some v -> od_values d ≡ₚ v :: od_values (od_del d k).
Proof.
  unfold od_values. induction d as [|[k' v'] d IH]; cbn; [done|]. case_decide; cbn.
  - by intros [= ->].
  - intros Hget. rewrite (IH Hget) at 1. by rewrite Permutation_swap.
Qed.

Lemma od_del_length d k : (length (od_del d k) <= length d)%nat.
Proof. induction d as [|[k' v'] d IH]; cbn; [done|]. case_decide; cbn; lia. Qed.

Lemma od_values_set_new d k v : k ∉ od_keys d -> od_values (od_set d k v) = od_values d ++ [v].
Proof.
  unfold od_values. induction d as [|[k' v'] d IH]; [done|].
  change (od_keys ((k', v') :: d)) with (k' :: od_keys d).
  intros [Hne Hk]%not_elem_of_cons. cbn. rewrite decide_False by done. cbn. by rewrite IH.
Qed.

(** Replacing the value of a key by one with the same [f] changes no [f]. *)
Lemma od_values_set_same {B} (f : V -> B) d k v v' :
  od_get d k = Some v -> f v' = f v -> f <$> od_values (od_set d k v') = f <$> od_values d.
Proof.
  unfold od_values. induction d as [|[k1 v1] d IH]; cbn; [done|]. case_decide; cbn.
  - by intros [= ->] ->.
  - intros Hget Hf. by rewrite (IH Hget Hf).
Qed.

(** A property of every entry is kept by the three operations. *)
Lemma od_set_Forall (P : K * V -> Prop) d k v : Forall P d -> P (k, v) -> Forall P (od_set d k v).
Proof.
  intros Hd Hv. induction Hd as [|[k' v'] d Hx Hd IH]; cbn; [by constructor|].
  case_decide; by constructor.
Qed.

Lemma od_del_Forall (P : K * V -> Prop) d k : Forall P d -> Forall P (od_del d k).
Proof.
  induction 1 as [|[k' v'] d Hx Hd IH]; cbn; [by constructor|]. case_decide; [done|by constructor].
Qed.

Lemma od_get_Forall (P : K * V -> Prop) d k v : Forall P d -> od_get d k = Some v -> P (k, v).
Proof.
  induction 1 as [|[k' v'] d Hx Hd IH]; cbn; [done|]. case_decide; [|done]. intros [= ->]. by subst.
Qed.
End ODict.
#[global] Arguments od_keys : simpl never.
#[global] Arguments od_values : simpl never.

(** Two dictionaries with the same keys keep them under the same operations. *)
Lemma od_keys_del_eq {K} `{EqDecision K} {V W} (d : list (K * V)) (d' : list (K * W)) k :
  od_keys d = od_keys d' -> od_keys (od_del d k) = od_keys (od_del d' k).
Proof.
  unfold od_keys. revert d'. induction d as [|[k1 v1] d IH]; intros [|[k2 v2] d'] H; cbn in *; try done.
  injection H as -> H. case_decide; [done|]. cbn. f_equal. by apply IH.
Qed.

Lemma od_keys_set_eq {K} `{EqDecision K} {V W} (d : list (K * V)) (d' : list (K * W)) k v w :
  od_keys d = od_keys d' -> od_keys (od_set d k v) = od_keys (od_set d' k w).
Proof. intros H. by rewrite !od_keys_set, H. Qed.

Lemma od_keys_set_id {K} `{EqDecision K} {V} (d : list (K * V)) k v : k ∈ od_keys d -> od_keys (od_set d k v) = od_keys d.
Proof. intros H. by rewrite od_keys_set, decide_True. Qed.

(** Two dicts with the same keys, related key by key, have related values. *)
Lemma od_values_Forall2 {K} `{EqDecision K} {V W} (R : V -> W -> Prop) (d : list (K * V)) (d' : list (K * W)) :
  od_keys d = od_keys d' -> NoDup (od_keys d) ->
  (forall k v w, od_get d k = Some v -> od_get d' k = Some w -> R v w) -> Forall2 R (od_values d) (od_values d').
Proof.
  unfold od_values, od_keys. revert d'. induction d as [|[k v] d IH]; intros [|[k' w] d'] Hk Hnd HR; cbn in *; try done.
  injection Hk as <- Hk. apply NoDup_cons in Hnd as [Hn Hnd]. constructor.
  - apply (HR k); by rewrite decide_True.
  - apply IH; [done..|]. intros k1 v1 w1 H1 H2. apply (HR k1).
    + rewrite decide_False; [done|]. intros <-. by apply Hn, (od_get_Some_keys d _ v1).
    + rewrite decide_False; [done|]. intros <-. apply Hn. rewrite Hk. by apply (od_get_Some_keys d' _ w1).
Qed.

(** ** Python list indexing

    [py_index l i] is [l[i]]: a negative index counts from the end, an index
    out of range raises. *)
Definition py_index {A} (l : list A) (i : Z) : res A :=
  let n := Z.of_nat (length l) in
  if (0 <=? i)%Z then or_raise IndexError (l !! Z.to_nat i)
  else if (- n <=? i)%Z then or_raise IndexError (l !! Z.to_nat (n + i))
  else Raise IndexError.

Lemma py_index_returns {A} (l : list A) i :
  (0 <= i < Z.of_nat (length l))%Z ->
  exists a, py_index l i = Ok a /\ l !! Z.to_nat i = Some a.
Proof.
  intros [H0 H1]. unfold py_index.
  destruct (Z.leb_spec 0 i); [|lia].
  destruct (lookup_lt_is_Some_2 l (Z.to_nat i)) as [a Ha]; [lia|].
  rewrite Ha. by exists a.
Qed.

Lemma py_index_ok {A} (l : list A) i a :
  (0 <= i)%Z -> py_index l i = Ok a -> l !! Z.to_nat i = Some a.
Proof.
  intros Hi. unfold py_index. destruct (Z.leb_spec 0 i); [|lia].
  apply or_raise_ok.
Qed.

(** ** Folds over the error monad *)
Section FoldM.
Context {A S : Type} (f : S -> A -> res S).

Fixpoint foldM (l : list A) (s : S) : res S :=
  match l with
  | [] => Ok s
  | a :: l' => s' ← f s a; foldM l' s'
  end.

Lemma foldM_inv (P : S -> Prop) l s s' :
  P s -> (forall s a s', a ∈ l -> P s -> f s a = Ok s' -> P s') ->
  foldM l s = Ok s' -> P s'.
Proof.
  revert s. induction l as [|a l IH]; intros s HP Hf H; cbn in H; [by inv_res|].
  inv_res. eapply IH; [..|done].
  - eapply Hf; [|done|done]. set_solver.
  - intros. eapply Hf; [|done|done]. set_solver.
Qed.

Lemma foldM_app l1 l2 s : foldM (l1 ++ l2) s = (foldM l1 s ≫= foldM l2).
Proof.
  revert s. induction l1 as [|a l1 IH]; intros s; cbn; [done|].
  destruct (f s a); cbn; [apply IH|done].
Qed.

Lemma foldM_returns (P : S -> Prop) l s :
  P s -> (forall s a, a ∈ l -> P s -> returns (f s a) P) -> returns (foldM l s) P.
Proof.
  revert s. induction l as [|a l IH]; intros s HP Hf; cbn; [by apply returns_ret|].
  eapply returns_bind; [apply Hf; [set_solver|done]|].
  intros s' HP'. apply IH; [done|]. intros; apply Hf; [set_solver|done].
Qed.
End FoldM.

Lemma foldM_ext {A S} (f g : S -> A -> res S) l s :
  (forall s a, a ∈ l -> f s a = g s a) -> foldM f l s = foldM g l s.
Proof.
  revert s. induction l as [|a l IH]; intros s Hfg; cbn; [done|].
  rewrite Hfg by set_solver. destruct (g s a) as [s'|e]; cbn; [|done].
  apply IH. intros; apply Hfg; set_solver.
Qed.

Section MapM.
Context {A B : Type} (f : A -> res B).

Lemma mapM_ok l k : mapM f l = Ok k <-> Forall2 (fun x y => f x = Ok y) l k.
Proof.
  split.
  - revert k. induction l as [|x l IH]; intros k H; cbn in H; inv_res; [constructor|].
    constructor; auto.
  - induction 1 as [|x y l k Hxy _ IH]; cbn; [done|]. rewrite Hxy. cbn. by rewrite IH.
Qed.

Lemma mapM_length l k : mapM f l = Ok k -> length k = length l.
Proof. intros H%mapM_ok. by apply Forall2_length in H. Qed.

Lemma mapM_returns l : (forall x, x ∈ l -> exists y, f x = Ok y) -> exists k, mapM f l = Ok k.
Proof.
  induction l as [|x l IH]; intros H; cbn; [by eexists|].
  destruct (H x) as [y ->]; [set_solver|]. cbn.
  destruct IH as [k ->]; [set_solver|]. cbn. by eexists.
Qed.

Lemma mapM_app_ok l1 l2 k :
  mapM f (l1 ++ l2) = Ok k -> exists k1 k2, k = k1 ++ k2 /\ mapM f l1 = Ok k1 /\ mapM f l2 = Ok k2.
Proof.
  intros H%mapM_ok. apply Forall2_app_inv_l in H as (k1 & k2 & H1 & H2 & ->).
  exists k1, k2. by rewrite !mapM_ok.
Qed.
End MapM.

Lemma mapM_ext {A B} (f g : A -> res B) l :
  (forall x, x ∈ l -> f x = g x) -> mapM f l = mapM g l.
Proof.
  induction l as [|x l IH]; intros H; cbn; [done|].
  rewrite H by set_solver. rewrite IH; [done|]. set_solver.
Qed.

(** ** Small tactics *)

(** Case split on the boolean test of an [if] in the goal or a hypothesis. *)
Ltac case_if :=
  match goal with
  | |- context [if ?b then _ else _] => destruct b eqn:?
  | H : context [if ?b then _ else _] |- _ => destruct b eqn:?
  end.

Ltac bsimpl :=
  repeat match goal with
  | H : _ && _ = true |- _ => apply andb_true_iff in H; destruct H
  | H : _ || _ = false |- _ => apply orb_false_iff in H; destruct H
  | H : negb _ = true |- _ => apply negb_true_iff in H
  | H : negb _ = false |- _ => apply negb_false_iff in H
  end.

Lemma elem_of_list_filter {A} (f : A -> bool) l x : x ∈ List.filter f l <-> x ∈ l /\ f x = true.
Proof. rewrite !list_elem_of_In. apply List.filter_In. Qed.

Lemma NoDup_fmap_filter {A B} (g : A -> B) (f : A -> bool) l : NoDup (g <$> l) -> NoDup (g <$> List.filter f l).
Proof.
  intros H. eapply sublist_NoDup; [exact H|]. apply fmap_sublist. induction l as [|x l IH]; cbn; [done|].
  cbn in H. apply NoDup_cons in H as [_ H]. case_match; by constructor; auto.
Qed.

(** Rows with distinct keys are told apart by their key. *)
Lemma key_row {A B} (key : A -> B) (l : list A) x y : NoDup (key <$> l) -> x ∈ l -> y ∈ l -> key x = key y -> x = y.
Proof.
  induction l as [|z l IH]; cbn; [by intros _ ?%elem_of_nil|].
  intros [Hz Hd]%NoDup_cons [->|Hx]%elem_of_cons [->|Hy]%elem_of_cons Hk; [done|..|by apply IH].
  - destruct Hz. rewrite Hk. by apply list_elem_of_fmap_2.
  - destruct Hz. rewrite <- Hk. by apply list_elem_of_fmap_2.
Qed.

(** ** Stable sorting by a key

    [sorted(l, key=...)] for an integer key: elements with equal keys keep
    their order. *)
Section SortBy.
Context {A : Type} (key : A -> Z).

Definition key_le (x y : A) : Prop := (key x <= key y)%Z.
Definition key_lt (x y : A) : Prop := (key x < key y)%Z.

Fixpoint insert_by (x : A) (l : list A) : list A :=
  match l with
  | [] => [x]
  | y :: l' => if (key x <=? key y)%Z then x :: l else y :: insert_by x l'
  end.

Definition sort_by (l : list A) : list A := foldr insert_by [] l.

Lemma insert_by_Permutation x l : insert_by x l ≡ₚ x :: l.
Proof.
  induction l as [|y l IH]; cbn; [done|]. destruct (_ <=? _)%Z; [done|].
  rewrite IH. apply Permutation_swap.
Qed.

Lemma sort_by_Permutation l : sort_by l ≡ₚ l.
Proof. induction l as [|x l IH]; cbn; [done|]. by rewrite insert_by_Permutation, IH. Qed.

Lemma elem_of_sort_by x l : x ∈ sort_by l <-> x ∈ l.
Proof. by rewrite sort_by_Permutation. Qed.

Lemma sort_by_nil l : sort_by l = [] <-> l = [].
Proof.
  split; [|by intros ->]. intros H. apply Permutation_nil_r. rewrite <- H. symmetry. apply sort_by_Permutation.
Qed.

Lemma insert_by_sorted x l : StronglySorted key_le l -> StronglySorted key_le (insert_by x l).
Proof.
  induction l as [|y l IH]; cbn; intros Hs; [by repeat constructor|].
  apply StronglySorted_inv in Hs as [Hs Hy]. destruct (Z.leb_spec (key x) (key y)) as [Hle|Hlt].
  - constructor; [by constructor|]. constructor; [done|].
    eapply Forall_impl; [exact Hy|]. unfold key_le. intros z Hz. cbv beta in *. lia.
  - constructor; [by apply IH|]. rewrite insert_by_Permutation. constructor; [unfold key_le; lia|done].
Qed.

Lemma sort_by_sorted l : StronglySorted key_le (sort_by l).
Proof. induction l; cbn; [constructor|by apply insert_by_sorted]. Qed.

(** A sorted list is left alone. *)
Lemma sort_by_id l : StronglySorted key_le l -> sort_by l = l.
Proof.
  induction l as [|x l IH]; [done|]. intros [Hs Hx]%StronglySorted_inv. change (sort_by (x :: l)) with (insert_by x (sort_by l)). rewrite (IH Hs).
  destruct l as [|y l]; [done|]. cbn. apply Forall_cons in Hx as [Hxy _]. unfold key_le in Hxy.
  by rewrite (proj2 (Z.leb_le _ _) Hxy).
Qed.

(** With distinct keys the order is strict, and only the set of elements
    matters. *)
Lemma sorted_strict l : NoDup (key <$> l) -> StronglySorted key_le l -> StronglySorted key_lt l.
Proof.
  induction l as [|x l IH]; [constructor|]. intros [Hn Hnd]%NoDup_cons [Hs Hx]%StronglySorted_inv.
  constructor; [by apply IH|]. rewrite Forall_forall in Hx |- *. intros y Hy.
  specialize (Hx y Hy). unfold key_le in Hx. unfold key_lt.
  assert (key x <> key y); [|lia]. intros E. apply Hn. rewrite E. by apply list_elem_of_fmap_2.
Qed.

Lemma sort_by_strict l : NoDup (key <$> l) -> StronglySorted key_lt (sort_by l).
Proof.
  intros Hnd. apply sorted_strict; [|apply sort_by_sorted]. by rewrite sort_by_Permutation.
Qed.

Lemma strict_sorted_unique l l' : StronglySorted key_lt l -> StronglySorted key_lt l' -> l ≡ₚ l' -> l = l'.
Proof.
  revert l'. induction l as [|x l IH]; intros l' Hs Hs' Hp; [by apply Permutation_nil_l|].
  destruct l' as [|x' l']; [by apply Permutation_nil_r in Hp|].
  apply StronglySorted_inv in Hs as [Hs Hx]. apply StronglySorted_inv in Hs' as [Hs' Hx'].
  assert (x = x') as <-.
  { assert (H1 : x ∈ x' :: l') by (rewrite <- Hp; apply list_elem_of_here).
    assert (H2 : x' ∈ x :: l) by (rewrite Hp; apply list_elem_of_here).
    apply elem_of_cons in H1 as [|H1]; [done|]. apply elem_of_cons in H2 as [|H2]; [done|].
    rewrite Forall_forall in Hx, Hx'. specialize (Hx x' H2). specialize (Hx' x H1). unfold key_lt in *. lia. }
  f_equal. apply IH; [done..|]. by eapply Permutation_cons_inv.
Qed.

Lemma sort_by_unique l l' : NoDup (key <$> l) -> l ≡ₚ l' -> sort_by l = sort_by l'.
Proof.
  intros Hnd Hp. apply strict_sorted_unique; [by apply sort_by_strict|apply sort_by_strict; by rewrite <- Hp|].
  by rewrite (sort_by_Permutation l), (sort_by_Permutation l').
Qed.

Lemma sorted_filter (R : A -> A -> Prop) (f : A -> bool) l : StronglySorted R l -> StronglySorted R (List.filter f l).
Proof.
  induction l as [|x l IH]; cbn; [done|]. intros [Hs Hx]%StronglySorted_inv. destruct (f x); [|by apply IH].
  constructor; [by apply IH|]. rewrite Forall_forall in Hx |- *. intros y Hy. apply Hx.
  by apply elem_of_list_filter in Hy as [Hy _].
Qed.

(** The ends of a sorted list. *)
Lemma sorted_head_le l x y : StronglySorted key_le l -> head l = Some x -> y ∈ l -> (key x <= key y)%Z.
Proof.
  destruct l as [|z l]; [done|]. intros [_ Hf]%StronglySorted_inv [= ->] [->|Hy]%elem_of_cons; [lia|].
  rewrite Forall_forall in Hf. by apply Hf.
Qed.

Lemma sorted_last_le l x y : StronglySorted key_le l -> last l = Some x -> y ∈ l -> (key y <= key x)%Z.
Proof.
  induction l as [|z l IH]; [done|]. intros [Hs Hf]%StronglySorted_inv Hl Hy. rewrite last_cons in Hl.
  destruct (last l) as [w|] eqn:E; [injection Hl as ->|].
  - apply elem_of_cons in Hy as [->|Hy]; [|by apply IH]. rewrite Forall_forall in Hf.
    apply Hf. by eapply last_Some_elem_of.
  - injection Hl as ->. apply last_None in E as ->. apply list_elem_of_singleton in Hy as ->. lia.
Qed.
End SortBy.

Lemma head_is_Some {A} (l : list A) : l <> [] -> exists x, head l = Some x /\ x ∈ l.
Proof. destruct l as [|x l]; [done|]. exists x. split; [done|apply list_elem_of_here]. Qed.

Lemma last_is_Some_elem {A} (l : list A) : l <> [] -> exists x, last l = Some x /\ x ∈ l.
Proof.
  intros Hl. destruct (last l) as [x|] eqn:E; [|by apply last_None in E].
  exists x. split; [done|by eapply last_Some_elem_of].
Qed.

(** ** [tuple(dict.fromkeys(l))]: the elements in order of first occurrence *)
Section FromKeys.
Context {A : Type} `{EqDecision A}.

Definition add_key (acc : list A) (x : A) : list A := if decide (x ∈ acc) then acc else acc ++ [x].
Definition fromkeys (l : list A) : list A := fold_left add_key l [].

Lemma fromkeys_fold acc l x : x ∈ fold_left add_key l acc <-> x ∈ acc \/ x ∈ l.
Proof.
  revert acc. induction l as [|y l IH]; intros acc; cbn; [set_solver|]. rewrite IH. unfold add_key.
  case_decide; set_solver.
Qed.

Lemma elem_of_fromkeys l x : x ∈ fromkeys l <-> x ∈ l.
Proof. unfold fromkeys. rewrite fromkeys_fold. set_solver. Qed.

Lemma fromkeys_nil l : fromkeys l = [] <-> l = [].
Proof.
  split; [|by intros ->]. intros H. destruct l as [|x l]; [done|].
  assert (Hx : x ∈ fromkeys (x :: l)) by (apply elem_of_fromkeys, list_elem_of_here).
  rewrite H in Hx. by apply elem_of_nil in Hx.
Qed.

Lemma NoDup_fromkeys l : NoDup (fromkeys l).
Proof.
  unfold fromkeys. assert (H : forall acc, NoDup acc -> NoDup (fold_left add_key l acc)); [|apply H; constructor].
  induction l as [|y l IH]; intros acc Hacc; cbn; [done|]. apply IH. unfold add_key. case_decide; [done|].
  apply NoDup_app. split_and!; [done|set_solver|apply NoDup_singleton].
Qed.
End FromKeys.

(** ** Sequences of steps *)

Lemma rtc_closed {S} (R : S -> S -> Prop) (P : S -> Prop) s t :
  (forall s t, P s -> R s t -> P t) -> rtc R s t -> P s -> P t.
Proof. intros HR. induction 1 as [|s u t Hs _ IH]; [done|]. intros HP. apply IH. by eapply HR. Qed.

(** ** [str.strip], on ASCII *)

Definition is_space (c : ascii) : bool :=
  let n := N_of_ascii c in ((9 <=? n) && (n <=? 13) || (28 <=? n) && (n <=? 32))%N.

Fixpoint lstrip (s : string) : string :=
  match s with
  | String c s' => if is_space c then lstrip s' else s
  | EmptyString => EmptyString
  end.

Fixpoint rstrip (s : string) : string :=
  match s with
  | String c s' =>
      match rstrip s' with
      | EmptyString => if is_space c then EmptyString else String c EmptyString
      | s'' => String c s''
      end
  | EmptyString => EmptyString
  end.

Definition strip (s : string) : string := rstrip (lstrip s).
