(* ===== verification/Decimal.v ===== *)
(** * Python's decimal.Decimal in the default context

    The repository computes every price, quantity and amount with
    [decimal.Decimal] in the default context: precision 28, ROUND_HALF_EVEN,
    with DivisionByZero and InvalidOperation trapped.  A finite [Decimal] is
    modelled by its value, a rational; [+], [-], [*], [/] and [abs] compute
    exactly and then round the result to 28 significant digits ([rnd]), as the
    context does.  Comparisons, [max] and [min] are exact.

    Not modelled: the exponent of a result (visible only in its printed form),
    the sign of zero, and the exponent limits (Emax = 999999, Emin = -999999).
    NaN and the infinities are excluded at the boundary: the Pydantic models
    refuse them. *)
From Stdlib Require Import ZArith QArith Qabs Qround Qpower Lia Lqa.
From stdpp Require Import base list strings sets.
From S2P Require Import Prelude.

Notation decimal := Q (only parsing).

Declare Scope decimal_scope.

(** ** Powers of ten and the decimal magnitude *)

Definition prec : Z := 28.

Definition p10 (e : Z) : Q := Qpower (10 # 1) e.

Fixpoint ndigits_aux (fuel : nat) (n : Z) : Z :=
  match fuel with
  | O => 1
  | S f => if (n <? 10)%Z then 1 else (1 + ndigits_aux f (n / 10))%Z
  end.

(** Number of decimal digits of a positive integer. *)
Definition ndigits (n : Z) : Z := ndigits_aux (Z.to_nat (Z.log2 n)) n.

(** [qlog10 q] is the exponent of the leading digit of [q > 0]. *)
Definition qlog10 (q : Q) : Z :=
  let d := (ndigits (Qnum q) - ndigits (Zpos (Qden q)))%Z in
  if Qle_bool (p10 d) q then d else (d - 1)%Z.

(** Nearest integer, ties to even. *)
Definition half_even (q : Q) : Z :=
  let n := Qnum q in
  let d := Zpos (Qden q) in
  let f := (n / d)%Z in
  match Z.compare (2 * (n mod d))%Z d with
  | Lt => f
  | Gt => (f + 1)%Z
  | Eq => if Z.even f then f else (f + 1)%Z
  end.

(** Round to [prec] significant digits, ROUND_HALF_EVEN. *)
Definition rnd (q0 : Q) : Q :=
  let q := Qred q0 in
  if (Qnum q =? 0)%Z then 0
  else
    let e := (qlog10 (Qabs q) - (prec - 1))%Z in
    Qred (inject_Z (half_even (q / p10 e)) * p10 e).

(** ** The operations the source uses *)

Definition dadd (x y : decimal) : decimal := rnd (x + y).
Definition dsub (x y : decimal) : decimal := rnd (x - y).
Definition dmul (x y : decimal) : decimal := rnd (x * y).
Definition dneg (x : decimal) : decimal := rnd (- x).
Definition dabs (x : decimal) : decimal := rnd (Qabs x).
Definition ddiv (x y : decimal) : res decimal :=
  if Qeq_bool y 0 then
    Raise (if Qeq_bool x 0 then DivisionUndefined else DivisionByZero)
  else Ok (rnd (x / y)).

Definition dleb (x y : decimal) : bool := Qle_bool x y.
Definition dltb (x y : decimal) : bool := negb (Qle_bool y x).
Definition deqb (x y : decimal) : bool := Qeq_bool x y.

(** The builtins [max(a, b)] and [min(a, b)] keep [a] unless [b] is strictly
    better. *)
Definition dmax (a b : decimal) : decimal := if dltb a b then b else a.
Definition dmin (a b : decimal) : decimal := if dltb b a then b else a.

(** [max] of a non-empty iterable raises on an empty one. *)
Definition dmaximum (l : list decimal) : res decimal :=
  match l with
  | [] => Raise (ValueError "max() iterable argument is empty"%string)
  | x :: l' => Ok (fold_left dmax l' x)
  end.

Definition dminimum (l : list decimal) : res decimal :=
  match l with
  | [] => Raise (ValueError "min() iterable argument is empty"%string)
  | x :: l' => Ok (fold_left dmin l' x)
  end.

(** [sum(iterable, Decimal("0"))]: every partial sum is rounded. *)
Definition dsum (l : list decimal) : decimal := fold_left dadd l 0%Q.

Definition d_of_Z (n : Z) : decimal := inject_Z n.
Definition d_of_nat (n : nat) : decimal := inject_Z (Z.of_nat n).

(** [to_integral_value(rounding=ROUND_DOWN)] truncates towards zero;
    [to_integral_value()] uses the context's ROUND_HALF_EVEN. *)
Definition trunc (x : Q) : Z := Z.quot (Qnum x) (Zpos (Qden x)).
Definition to_integral_down (x : decimal) : decimal := inject_Z (trunc x).
Definition to_integral_value (x : decimal) : decimal := inject_Z (half_even x).

(** [math.isfinite(float(x))] for a finite decimal: the correctly rounded
    conversion to binary64 overflows from 2^1024 - 2^970 on. *)
Definition float_finite (x : decimal) : bool :=
  dltb (Qabs x) (inject_Z (2 ^ 1024 - 2 ^ 970)).

(** The superscript marks the rounded operations and the exact boolean
    comparisons, so that they cannot be confused with those of [Q]. *)
Infix "+ᵈ" := dadd (at level 50, left associativity) : decimal_scope.
Infix "-ᵈ" := dsub (at level 50, left associativity) : decimal_scope.
Infix "*ᵈ" := dmul (at level 40, left associativity) : decimal_scope.
Infix "/ᵈ" := ddiv (at level 40, left associativity) : decimal_scope.
Infix "≤ᵈ" := dleb (at level 70, no associativity) : decimal_scope.
Infix "<ᵈ" := dltb (at level 70, no associativity) : decimal_scope.
Infix "=ᵈ" := deqb (at level 70, no associativity) : decimal_scope.
#[global] Open Scope decimal_scope.

Example rnd_third : rnd (1 # 3) = 3333333333333333333333333333 # 10000000000000000000000000000.
Proof. vm_compute. reflexivity. Qed.
Example rnd_tie : rnd (inject_Z 100000000000000000000000000005) = inject_Z 100000000000000000000000000000.
Proof. vm_compute. reflexivity. Qed.

Local Open Scope Q_scope.

(** ** Comparison lemmas *)

Lemma dleb_le x y : dleb x y = true <-> x <= y.
Proof. apply Qle_bool_iff. Qed.
Lemma dleb_gt x y : dleb x y = false <-> y < x.
Proof.
  unfold dleb. destruct (Qle_bool x y) eqn:E; split; intros H; try done.
  - apply Qle_bool_iff in E. lra.
  - apply Qnot_le_lt. intros H'. apply Qle_bool_iff in H'. congruence.
Qed.
Lemma dltb_lt x y : dltb x y = true <-> x < y.
Proof. unfold dltb. rewrite negb_true_iff. apply dleb_gt. Qed.
Lemma dltb_ge x y : dltb x y = false <-> y <= x.
Proof. unfold dltb. rewrite negb_false_iff. apply dleb_le. Qed.
Lemma deqb_eq x y : deqb x y = true <-> x == y.
Proof. apply Qeq_bool_iff. Qed.
Lemma deqb_neq x y : deqb x y = false <-> ~ x == y.
Proof.
  unfold deqb. destruct (Qeq_bool x y) eqn:E; split; intros H; try done.
  - apply Qeq_bool_iff in E. done.
  - by apply Qeq_bool_neq.
Qed.

Create HintDb dec discriminated.
#[export] Hint Rewrite dleb_le dleb_gt dltb_lt dltb_ge deqb_eq deqb_neq : dec.

(** Turn boolean comparisons of decimals into inequalities on rationals. *)
Ltac dec_bool := bsimpl; autorewrite with dec in *.
(** Decide linear goals about decimals from boolean hypotheses. *)
Ltac dec_lra := dec_bool; lra.

Lemma dmax_spec a b : a <= dmax a b /\ b <= dmax a b /\ (dmax a b = a \/ dmax a b = b).
Proof. unfold dmax. destruct (dltb a b) eqn:E; dec_bool; repeat split; auto; lra. Qed.
Lemma dmin_spec a b : dmin a b <= a /\ dmin a b <= b /\ (dmin a b = a \/ dmin a b = b).
Proof. unfold dmin. destruct (dltb b a) eqn:E; dec_bool; repeat split; auto; lra. Qed.
#[export] Instance Qle_preorder : PreOrder Qle.
Proof. split; [intros x; apply Qle_refl|intros x y z; apply Qle_trans]. Qed.

Lemma dmax_l a b : a <= dmax a b. Proof. apply dmax_spec. Qed.
Lemma dmax_r a b : b <= dmax a b. Proof. apply dmax_spec. Qed.
Lemma dmin_l a b : dmin a b <= a. Proof. apply dmin_spec. Qed.
Lemma dmin_r a b : dmin a b <= b. Proof. apply dmin_spec. Qed.
Lemma dmax_lub a b c : a <= c -> b <= c -> dmax a b <= c.
Proof. destruct (dmax_spec a b) as (_ & _ & [-> | ->]); auto. Qed.
#[export] Hint Resolve dmax_l dmax_r dmin_l dmin_r : dec.

Lemma dmaximum_spec l m :
  dmaximum l = Ok m -> m ∈ l /\ (forall x, x ∈ l -> x <= m).
Proof.
  destruct l as [|x l]; cbn; [done|]. intros [= <-].
  revert x. induction l as [|y l IH]; intros x; cbn.
  - split; [set_solver|]. intros z Hz. apply list_elem_of_singleton in Hz as ->. lra.
  - destruct (IH (dmax x y)) as [Hin Hub]. split.
    + apply elem_of_cons in Hin as [->|]; [|set_solver].
      destruct (dmax_spec x y) as (_ & _ & [-> | ->]); set_solver.
    + pose proof (Hub (dmax x y) ltac:(set_solver)).
      intros z Hz. apply elem_of_cons in Hz as [->|Hz].
      * pose proof (dmax_l x y). lra.
      * apply elem_of_cons in Hz as [->|Hz]; [pose proof (dmax_r x y); lra|].
        apply Hub. set_solver.
Qed.

Lemma dminimum_spec l m :
  dminimum l = Ok m -> m ∈ l /\ (forall x, x ∈ l -> m <= x).
Proof.
  destruct l as [|x l]; cbn; [done|]. intros [= <-].
  revert x. induction l as [|y l IH]; intros x; cbn.
  - split; [set_solver|]. intros z Hz. apply list_elem_of_singleton in Hz as ->. lra.
  - destruct (IH (dmin x y)) as [Hin Hlb]. split.
    + apply elem_of_cons in Hin as [->|]; [|set_solver].
      destruct (dmin_spec x y) as (_ & _ & [-> | ->]); set_solver.
    + pose proof (Hlb (dmin x y) ltac:(set_solver)).
      intros z Hz. apply elem_of_cons in Hz as [->|Hz].
      * pose proof (dmin_l x y). lra.
      * apply elem_of_cons in Hz as [->|Hz]; [pose proof (dmin_r x y); lra|].
        apply Hlb. set_solver.
Qed.

Lemma dminimum_returns l : l <> [] -> exists m, dminimum l = Ok m.
Proof. destruct l; [done|]. cbn. eauto. Qed.

Lemma dmaximum_returns l : l <> [] -> exists m, dmaximum l = Ok m.
Proof. destruct l; [done|]. cbn. eauto. Qed.

(** ** Powers of ten *)

Lemma p10_pos e : 0 < p10 e.
Proof. apply Qpower_0_lt. lra. Qed.
#[export] Hint Resolve p10_pos : dec.

Lemma p10_add a b : p10 (a + b) == p10 a * p10 b.
Proof. apply Qpower_plus. lra. Qed.

Lemma p10_sub a b : p10 (a - b) == p10 a / p10 b.
Proof. unfold Z.sub. rewrite p10_add. unfold p10 at 2. rewrite Qpower_opp. reflexivity. Qed.

Lemma p10_nonneg_Z e : (0 <= e)%Z -> p10 e == inject_Z (10 ^ e).
Proof. intros H. unfold p10. rewrite Zpower_Qpower by done. reflexivity. Qed.

Lemma p10_succ e : p10 (e + 1) == 10 * p10 e.
Proof. rewrite p10_add. change (p10 1) with (10 # 1). lra. Qed.

Lemma p10_le a b : (a <= b)%Z -> p10 a <= p10 b.
Proof. intros. apply Qpower_le_compat_l; [done|lra]. Qed.

Lemma p10_lt_inv a b : p10 a < p10 b -> (a < b)%Z.
Proof.
  intros H. destruct (Z_lt_le_dec a b) as [|Hle]; [done|].
  apply p10_le in Hle. lra.
Qed.

Lemma ndigits_spec n :
  (0 < n)%Z -> (10 ^ (ndigits n - 1) <= n < 10 ^ ndigits n)%Z /\ (1 <= ndigits n)%Z.
Proof.
  intros Hn. unfold ndigits.
  assert (Hf : (n < 2 ^ (Z.of_nat (Z.to_nat (Z.log2 n)) + 1))%Z).
  { rewrite Z2Nat.id by apply Z.log2_nonneg. rewrite Z.add_1_r. apply Z.log2_spec. lia. }
  remember (Z.to_nat (Z.log2 n)) as fuel eqn:Ef. clear Ef.
  revert n Hn Hf. induction fuel as [|f IH]; intros n Hn Hf; cbn [ndigits_aux].
  - change (2 ^ (Z.of_nat 0 + 1))%Z with 2%Z in Hf. split; cbn; lia.
  - destruct (Z.ltb_spec n 10); [split; cbn; lia|].
    assert (n / 10 < 2 ^ (Z.of_nat f + 1))%Z.
    { replace (Z.of_nat (S f) + 1)%Z with (Z.of_nat f + 1 + 1)%Z in Hf by lia.
      rewrite Z.pow_add_r in Hf by lia. change (2 ^ 1)%Z with 2%Z in Hf.
      apply Z.div_lt_upper_bound; lia. }
    destruct (IH (n / 10)%Z) as [[H1 H2] H3]; [apply Z.div_str_pos; lia|done|].
    set (k := ndigits_aux f (n / 10)) in *.
    replace (1 + k - 1)%Z with (k - 1 + 1)%Z by lia. replace (1 + k)%Z with (k + 1)%Z by lia.
    rewrite !Z.pow_add_r by lia. change (10 ^ 1)%Z with 10%Z.
    pose proof (Z.mod_pos_bound n 10 ltac:(lia)). pose proof (Z.div_mod n 10 ltac:(lia)).
    nia.
Qed.

Lemma qlog10_spec q : 0 < q -> p10 (qlog10 q) <= q /\ q < p10 (qlog10 q + 1).
Proof.
  intros Hq. unfold qlog10. destruct q as [n d]; cbn [Qnum Qden].
  assert (Hn : (0 < n)%Z) by (unfold Qlt in Hq; cbn in Hq; lia).
  destruct (ndigits_spec n Hn) as [[Hn1 Hn2] Hn3].
  destruct (ndigits_spec (Zpos d) ltac:(lia)) as [[Hd1 Hd2] Hd3].
  set (a := ndigits n) in *. set (b := ndigits (Zpos d)) in *.
  assert (Hnq1 : p10 (a - 1) <= inject_Z n) by (rewrite p10_nonneg_Z by lia; by rewrite <- Zle_Qle).
  assert (Hnq2 : inject_Z n < p10 a) by (rewrite p10_nonneg_Z by lia; by rewrite <- Zlt_Qlt).
  assert (Hdq1 : p10 (b - 1) <= inject_Z (Zpos d)) by (rewrite p10_nonneg_Z by lia; by rewrite <- Zle_Qle).
  assert (Hdq2 : inject_Z (Zpos d) < p10 b) by (rewrite p10_nonneg_Z by lia; by rewrite <- Zlt_Qlt).
  assert (Hq' : (n # d) == inject_Z n / inject_Z (Zpos d)) by (rewrite Qmake_Qdiv; reflexivity).
  assert (Hd0 : 0 < inject_Z (Zpos d)) by (pose proof (p10_pos (b - 1)); lra).
  destruct (Qle_bool _ _) eqn:E.
  - apply Qle_bool_iff in E. split; [done|]. rewrite Hq'.
    apply Qlt_shift_div_r; [done|].
    replace (a - b + 1)%Z with (a - (b - 1))%Z by lia. rewrite p10_sub.
    assert (p10 a == p10 a / p10 (b - 1) * p10 (b - 1)) as Ha.
    { field. pose proof (p10_pos (b - 1)). lra. }
    assert (0 < p10 a / p10 (b - 1)).
    { apply Qlt_shift_div_l; [apply p10_pos|]. pose proof (p10_pos a). lra. }
    nra.
  - replace (a - b - 1 + 1)%Z with (a - b)%Z by lia. split.
    + rewrite Hq'. apply Qle_shift_div_l; [done|].
      replace (a - b - 1)%Z with (a - 1 - b)%Z by lia. rewrite p10_sub.
      assert (p10 (a - 1) == p10 (a - 1) / p10 b * p10 b) as Ha.
      { field. pose proof (p10_pos b). lra. }
      assert (0 < p10 (a - 1) / p10 b).
      { apply Qlt_shift_div_l; [apply p10_pos|]. pose proof (p10_pos (a - 1)). lra. }
      nra.
    + apply Qnot_le_lt. intros H. apply Qle_bool_iff in H. congruence.
Qed.

Lemma qlog10_mono x y : 0 < x -> x <= y -> (qlog10 x <= qlog10 y)%Z.
Proof.
  intros Hx Hy. destruct (qlog10_spec x Hx), (qlog10_spec y ltac:(lra)).
  assert (p10 (qlog10 x) < p10 (qlog10 y + 1)) as H3%p10_lt_inv by lra. lia.
Qed.

(** ** Rounding to the nearest integer *)

Lemma half_even_spec q :
  let z := inject_Z (half_even q) in
  - (1 # 2) <= q - z /\ q - z <= 1 # 2 /\
  ((q - z == 1 # 2 \/ q - z == - (1 # 2)) -> Z.even (half_even q) = true).
Proof.
  destruct q as [n d]. unfold half_even; cbn [Qnum Qden].
  pose proof (Z.div_mod n (Zpos d) ltac:(lia)) as Hdm.
  pose proof (Z.mod_pos_bound n (Zpos d) ltac:(lia)) as Hb.
  set (f := (n / Zpos d)%Z) in *. set (r := (n mod Zpos d)%Z) in *.
  assert (Hq : forall z c : Z, (n # d) - inject_Z z == c # (2 * d) <-> (2 * (n - z * Zpos d) = c)%Z).
  { intros z c. unfold Qeq, Qminus, Qplus, Qopp, inject_Z; cbn. nia. }
  destruct (Z.compare_spec (2 * r) (Zpos d)) as [He|He|He].
  - destruct (Z.even f) eqn:Ev; unfold Qle, Qeq, Qminus, Qplus, Qopp, inject_Z; cbn.
    + split_and!; [lia|lia|done].
    + split_and!; [lia|lia|]. intros _.
      rewrite Z.even_add, Ev. done.
  - unfold Qle, Qeq, Qminus, Qplus, Qopp, inject_Z; cbn. split_and!; [lia|lia|]. intros [H|H]; lia.
  - unfold Qle, Qeq, Qminus, Qplus, Qopp, inject_Z; cbn. split_and!; [lia|lia|]. intros [H|H]; lia.
Qed.

Lemma half_even_mono x y : x <= y -> (half_even x <= half_even y)%Z.
Proof.
  intros Hxy. destruct (Z_le_gt_dec (half_even x) (half_even y)) as [|Hgt]; [done|].
  destruct (half_even_spec x) as (Hx1 & Hx2 & Hx3).
  destruct (half_even_spec y) as (Hy1 & Hy2 & Hy3).
  assert (Heq : half_even x = (half_even y + 1)%Z).
  { apply Z.le_antisymm; [|lia]. rewrite Zle_Qle, inject_Z_plus.
    change (inject_Z 1) with 1. lra. }
  rewrite Heq in Hgt, Hx1, Hx2, Hx3. rewrite inject_Z_plus in Hx1, Hx2, Hx3.
  change (inject_Z 1) with 1 in Hx1, Hx2, Hx3.
  assert (Ey : Z.even (half_even y) = true) by (apply Hy3; left; lra).
  assert (Ex : Z.even (half_even y + 1) = true) by (apply Hx3; right; lra).
  rewrite Z.even_add, Ey in Ex. done.
Qed.

#[export] Instance half_even_proper : Proper (Qeq ==> eq) half_even.
Proof. intros x y H. apply Z.le_antisymm; apply half_even_mono; lra. Qed.

Lemma half_even_Z z : half_even (inject_Z z) = z.
Proof.
  destruct (half_even_spec (inject_Z z)) as (H1 & H2 & _).
  unfold Qminus, Qle, Qplus, Qopp, inject_Z in *; cbn in *. lia.
Qed.

Lemma half_even_opp q : half_even (- q) = (- half_even q)%Z.
Proof.
  destruct q as [n d]. unfold half_even, Qopp; cbn [Qnum Qden].
  pose proof (Z.div_mod n (Zpos d) ltac:(lia)) as Hdm.
  pose proof (Z.mod_pos_bound n (Zpos d) ltac:(lia)) as Hb.
  destruct (Z.eq_dec (n mod Zpos d)%Z 0%Z) as [Hz|Hz].
  - rewrite Z.mod_opp_l_z, Z.div_opp_l_z, Hz by lia. cbn. done.
  - rewrite Z.mod_opp_l_nz, Z.div_opp_l_nz by lia.
    set (f := (n / Zpos d)%Z) in *. set (r := (n mod Zpos d)%Z) in *.
    destruct (Z.compare_spec (2 * (Zpos d - r)) (Zpos d)), (Z.compare_spec (2 * r) (Zpos d)); try lia.
    replace (- f - 1)%Z with (- (f + 1))%Z by lia.
    rewrite Z.even_opp, Z.even_add. destruct (Z.even f); cbn; lia.
Qed.

(** ** Rounding to 28 digits *)

(** A value the context can hold: at most 28 significant digits. *)
Definition representable (q : Q) : Prop :=
  exists m e, q == inject_Z m * p10 e /\ (Z.abs m <= 10 ^ prec)%Z.

#[export] Instance representable_proper : Proper (Qeq ==> iff) representable.
Proof. intros x y H. unfold representable. by setoid_rewrite H. Qed.

#[export] Instance rnd_proper : Proper (Qeq ==> eq) rnd.
Proof. intros x y H. unfold rnd. by rewrite (Qred_complete x y H). Qed.

(** The rounding of a non-zero value: its scale and its mantissa. *)
Definition scale (q : Q) : Z := (qlog10 (Qabs (Qred q)) - (prec - 1))%Z.

Lemma rnd_zero q : q == 0 -> rnd q = 0.
Proof. intros H. rewrite H. reflexivity. Qed.

Lemma rnd_nonzero q :
  ~ q == 0 -> rnd q == inject_Z (half_even (q / p10 (scale q))) * p10 (scale q).
Proof.
  intros H. unfold rnd. destruct (Z.eqb_spec (Qnum (Qred q)) 0) as [E|E].
  - destruct H. rewrite <- (Qred_correct q). destruct (Qred q); cbn in E; subst. reflexivity.
  - fold (scale q). etransitivity; [apply Qred_correct|].
    assert (Qred q / p10 (scale q) == q / p10 (scale q)) as -> by (by rewrite Qred_correct).
    reflexivity.
Qed.

Lemma Qabs_pos_neq q : ~ q == 0 -> 0 < Qabs q.
Proof.
  intros H. destruct (Qlt_le_dec 0 q); [rewrite Qabs_pos; lra|].
  rewrite Qabs_neg by lra. destruct (Qeq_dec q 0); [done|lra].
Qed.

Lemma scale_spec q :
  ~ q == 0 ->
  p10 (scale q) * p10 27 <= Qabs q /\ Qabs q < p10 (scale q) * p10 28.
Proof.
  intros H. pose proof (Qabs_pos_neq q H) as Hp.
  assert (Hp' : 0 < Qabs (Qred q)) by (by rewrite Qred_correct).
  destruct (qlog10_spec _ Hp') as [H1 H2].
  rewrite <- !p10_add. unfold scale, prec.
  set (l := qlog10 (Qabs (Qred q))) in *. rewrite Qred_correct in H1, H2.
  replace (l - (28 - 1) + 27)%Z with l by lia.
  replace (l - (28 - 1) + 28)%Z with (l + 1)%Z by lia. done.
Qed.

Lemma scale_mono x y : ~ x == 0 -> Qabs x <= Qabs y -> (scale x <= scale y)%Z.
Proof.
  intros Hx Hxy. unfold scale. apply Z.sub_le_mono_r, qlog10_mono.
  - rewrite Qred_correct. by apply Qabs_pos_neq.
  - by rewrite !Qred_correct.
Qed.

Lemma scale_opp q : scale (- q) = scale q.
Proof.
  unfold scale. rewrite Qred_opp. destruct (Qred q) as [n d].
  unfold Qabs, Qopp; cbn. by rewrite Z.abs_opp.
Qed.

Lemma rnd_opp q : rnd (- q) == - rnd q.
Proof.
  destruct (Qeq_dec q 0) as [H|H].
  - rewrite H. reflexivity.
  - rewrite !rnd_nonzero by lra. rewrite scale_opp.
    assert (- q / p10 (scale q) == - (q / p10 (scale q))) as -> by (field; pose proof (p10_pos (scale q)); lra).
    rewrite half_even_opp, inject_Z_opp. ring.
Qed.

(** The mantissa of a positive value lies between 10^27 and 10^28. *)
Lemma mantissa_bounds q :
  0 < q -> (10 ^ 27 <= half_even (q / p10 (scale q)) <= 10 ^ 28)%Z.
Proof.
  intros Hq. destruct (scale_spec q ltac:(lra)) as [H1 H2].
  rewrite Qabs_pos in H1, H2 by lra. pose proof (p10_pos (scale q)).
  rewrite <- (half_even_Z (10 ^ 27)), <- (half_even_Z (10 ^ 28)).
  split; apply half_even_mono; rewrite <- p10_nonneg_Z by lia.
  - apply Qle_shift_div_l; [done|]. lra.
  - apply Qle_shift_div_r; [done|]. lra.
Qed.

Lemma rnd_pos_bounds q :
  0 < q -> p10 (scale q) * p10 27 <= rnd q /\ rnd q <= p10 (scale q) * p10 28.
Proof.
  intros Hq. destruct (mantissa_bounds q Hq) as [H1 H2].
  rewrite rnd_nonzero by lra. pose proof (p10_pos (scale q)).
  rewrite Zle_Qle, <- p10_nonneg_Z in H1, H2 by lia. nra.
Qed.

Lemma rnd_positive q : 0 < q -> 0 < rnd q.
Proof.
  intros Hq. destruct (rnd_pos_bounds q Hq). pose proof (p10_pos (scale q)).
  pose proof (p10_pos 27). nra.
Qed.

Lemma rnd_mono_pos x y : 0 < x -> x <= y -> rnd x <= rnd y.
Proof.
  intros Hx Hxy. pose proof (p10_pos (scale x)). pose proof (p10_pos (scale y)).
  assert (Hs : (scale x <= scale y)%Z) by (apply scale_mono; [lra|rewrite !Qabs_pos; lra]).
  destruct (Z.eq_dec (scale x) (scale y)) as [He|He].
  - rewrite !rnd_nonzero by lra. rewrite <- He.
    apply Qmult_le_compat_r; [|lra]. rewrite <- Zle_Qle. apply half_even_mono.
    apply Qle_shift_div_l; [done|].
    assert (x / p10 (scale x) * p10 (scale x) == x) as -> by (field; lra). done.
  - destruct (rnd_pos_bounds x Hx) as [_ Hu]. destruct (rnd_pos_bounds y ltac:(lra)) as [Hl _].
    rewrite <- p10_add in Hu, Hl.
    pose proof (p10_le (scale x + 28) (scale y + 27) ltac:(lia)). lra.
Qed.

Lemma rnd_mono x y : x <= y -> rnd x <= rnd y.
Proof.
  intros Hxy. destruct (Qlt_le_dec 0 x); [by apply rnd_mono_pos|].
  destruct (Qlt_le_dec y 0).
  - assert (rnd (- y) <= rnd (- x)) as H by (apply rnd_mono_pos; lra).
    rewrite !rnd_opp in H. lra.
  - assert (rnd x <= 0).
    { destruct (Qlt_le_dec x 0); [|rewrite rnd_zero by lra; lra].
      pose proof (rnd_positive (- x) ltac:(lra)). rewrite rnd_opp in H. lra. }
    assert (0 <= rnd y).
    { destruct (Qlt_le_dec 0 y); [|rewrite rnd_zero by lra; lra].
      pose proof (rnd_positive y ltac:(lra)). lra. }
    lra.
Qed.

Lemma rnd_nonneg q : 0 <= q -> 0 <= rnd q.
Proof. intros H. apply rnd_mono in H. by rewrite (rnd_zero 0) in H by reflexivity. Qed.
Lemma rnd_nonpos q : q <= 0 -> rnd q <= 0.
Proof. intros H. apply rnd_mono in H. by rewrite (rnd_zero 0) in H by reflexivity. Qed.
Lemma rnd_negative q : q < 0 -> rnd q < 0.
Proof. intros H. pose proof (rnd_positive (- q) ltac:(lra)). rewrite rnd_opp in H0. lra. Qed.

#[export] Hint Resolve rnd_positive rnd_nonneg rnd_nonpos : dec.

(** *** Exactness: representable values are not changed *)

Lemma rnd_scaled_int q z : ~ q == 0 -> q == inject_Z z * p10 (scale q) -> rnd q == q.
Proof.
  intros Hq Hz. rewrite rnd_nonzero by done. pose proof (p10_pos (scale q)).
  assert (q / p10 (scale q) == inject_Z z) as ->.
  { rewrite Hz at 1. field. lra. }
  by rewrite half_even_Z.
Qed.

Lemma Qabs_inject_Z z : Qabs (inject_Z z) = inject_Z (Z.abs z).
Proof. reflexivity. Qed.

Lemma rnd_representable q : representable q -> rnd q == q.
Proof.
  intros (m & e & Hq & Hm). destruct (Qeq_dec q 0) as [Hz|Hz].
  { rewrite rnd_zero by done. by rewrite Hz. }
  destruct (scale_spec q Hz) as [Hs1 _]. pose proof (p10_pos (scale q)) as Hp.
  assert (Ha : Qabs q == inject_Z (Z.abs m) * p10 e).
  { rewrite Hq, Qabs_Qmult, Qabs_inject_Z, (Qabs_pos (p10 e)); [done|].
    pose proof (p10_pos e); lra. }
  rewrite Ha, <- p10_add in Hs1. pose proof (p10_pos e) as Hpe.
  destruct (Z_le_gt_dec (scale q) e) as [Hle|Hgt].
  - apply (rnd_scaled_int q (m * 10 ^ (e - scale q))); [done|].
    etransitivity; [exact Hq|]. rewrite inject_Z_mult, <- p10_nonneg_Z by lia.
    rewrite <- Qmult_assoc, <- p10_add. by replace (e - scale q + scale q)%Z with e by lia.
  - assert (He : (Z.abs m = 10 ^ prec /\ scale q = e + 1)%Z).
    { assert (Hm' : inject_Z (Z.abs m) <= p10 28).
      { rewrite p10_nonneg_Z by lia. by rewrite <- Zle_Qle. }
      assert (p10 (scale q + 27) <= p10 (e + 28)) as H1.
      { rewrite (p10_add e). nra. }
      destruct (Z_lt_le_dec (e + 1) (scale q)) as [Hl|Hl].
      - pose proof (p10_le (e + 29) (scale q + 27) ltac:(lia)) as H2.
        replace (e + 29)%Z with (e + 28 + 1)%Z in H2 by lia. rewrite p10_succ in H2.
        pose proof (p10_pos (e + 28)). lra.
      - split; [|lia]. apply Z.le_antisymm; [done|].
        rewrite Zle_Qle. change (inject_Z (10 ^ prec)) with (inject_Z (10 ^ 28)).
        rewrite <- p10_nonneg_Z by lia.
        replace (scale q + 27)%Z with (e + 28)%Z in Hs1 by lia. rewrite p10_add in Hs1. nra. }
    destruct He as [He1 He2]. apply (rnd_scaled_int q (m / 10)); [done|].
    rewrite He2, p10_succ. etransitivity; [exact Hq|].
    assert (m = (m / 10) * 10)%Z as Hm10.
    { destruct (Z.abs_eq_or_opp m) as [Ea|Ea]; rewrite Ea in He1.
      - by rewrite He1.
      - replace m with (- 10 ^ prec)%Z by lia. reflexivity. }
    rewrite Hm10 at 1. rewrite inject_Z_mult. change (inject_Z 10) with (10 # 1). ring.
Qed.

Lemma representable_rnd q : representable (rnd q).
Proof.
  destruct (Qeq_dec q 0) as [Hz|Hz].
  { rewrite rnd_zero by done. exists 0%Z, 0%Z. split; [reflexivity|done]. }
  exists (half_even (q / p10 (scale q))), (scale q). split; [by apply rnd_nonzero|].
  destruct (Qlt_le_dec 0 q).
  - destruct (mantissa_bounds q q0). unfold prec. lia.
  - destruct (Qeq_dec 0 q) as [He|He]; [by symmetry in He|].
    assert (Hlt : 0 < - q) by (destruct (Qlt_le_dec q 0); [lra|destruct He; lra]).
    destruct (mantissa_bounds (- q) Hlt) as [H1 H2]. rewrite scale_opp in H1, H2.
    assert (- q / p10 (scale q) == - (q / p10 (scale q))) as Ho.
    { field. pose proof (p10_pos (scale q)). lra. }
    rewrite Ho, half_even_opp in H1, H2. unfold prec. lia.
Qed.
#[export] Hint Resolve representable_rnd : dec.

Lemma rnd_idem q : rnd (rnd q) == rnd q.
Proof. apply rnd_representable, representable_rnd. Qed.

Lemma representable_zero : representable 0.
Proof. exists 0%Z, 0%Z. split; [reflexivity|done]. Qed.

Lemma representable_Z z : (Z.abs z <= 10 ^ prec)%Z -> representable (inject_Z z).
Proof. intros H. exists z, 0%Z. split; [|done]. change (p10 0) with (1 # 1). ring. Qed.

Lemma representable_shift q e : representable q -> representable (q * p10 e).
Proof.
  intros (m & e' & Hq & Hm). exists m, (e' + e)%Z. split; [|done].
  rewrite Hq, p10_add. ring.
Qed.

Lemma representable_opp q : representable q -> representable (- q).
Proof.
  intros (m & e' & Hq & Hm). exists (- m)%Z, e'. split; [|by rewrite Z.abs_opp].
  rewrite Hq, inject_Z_opp. ring.
Qed.

(** Rounding stays on the same side of every representable bound. *)
Lemma rnd_le_bound q b : representable b -> q <= b -> rnd q <= b.
Proof. intros Hb H. rewrite <- (rnd_representable b Hb). by apply rnd_mono. Qed.
Lemma rnd_ge_bound q b : representable b -> b <= q -> b <= rnd q.
Proof. intros Hb H. rewrite <- (rnd_representable b Hb) at 1. by apply rnd_mono. Qed.

(** *** Truncation *)

Lemma trunc_bounds x : 0 <= x -> inject_Z (trunc x) <= x /\ x < inject_Z (trunc x) + 1.
Proof.
  destruct x as [n d]. unfold Qle, Qlt, Qplus, trunc, inject_Z; cbn. intros H.
  pose proof (Z.quot_rem' n (Zpos d)). pose proof (Z.rem_bound_pos n (Zpos d) ltac:(lia) ltac:(lia)).
  lia.
Qed.

Lemma trunc_opp x : trunc (- x) = (- trunc x)%Z.
Proof. destruct x as [n d]. unfold trunc, Qopp; cbn. apply Z.quot_opp_l. lia. Qed.

Lemma trunc_mono x y : x <= y -> (trunc x <= trunc y)%Z.
Proof.
  destruct x as [n d], y as [n' d']. unfold Qle, trunc; cbn. intros H.
  rewrite <- (Z.quot_mul_cancel_r n (Zpos d) (Zpos d')) by lia.
  rewrite <- (Z.quot_mul_cancel_r n' (Zpos d') (Zpos d)) by lia.
  rewrite (Z.mul_comm (Zpos d') (Zpos d)). apply Z.quot_le_mono; lia.
Qed.

#[export] Instance trunc_proper : Proper (Qeq ==> eq) trunc.
Proof. intros x y H. apply Z.le_antisymm; apply trunc_mono; lra. Qed.

Lemma trunc_Z z : trunc (inject_Z z) = z.
Proof. unfold trunc; cbn. apply Z.quot_1_r. Qed.

Lemma trunc_nonneg x : 0 <= x -> (0 <= trunc x)%Z.
Proof. intros H. rewrite <- (trunc_Z 0). by apply trunc_mono. Qed.

(** The integer part of a representable value is representable. *)
Lemma trunc_representable q : representable q -> representable (inject_Z (trunc q)).
Proof.
  intros (m & e & Hq & Hm). rewrite Hq. destruct (Z_le_gt_dec 0 e) as [He|He].
  - rewrite p10_nonneg_Z, <- inject_Z_mult, trunc_Z by lia.
    exists m, e. split; [|done]. rewrite p10_nonneg_Z by lia. by rewrite inject_Z_mult.
  - apply representable_Z.
    assert (Hle : p10 e <= 1) by (change 1 with (p10 0); apply p10_le; lia).
    pose proof (p10_pos e) as Hpe.
    assert (forall k, (0 <= k <= 10 ^ prec)%Z -> (Z.abs (trunc (inject_Z k * p10 e)) <= 10 ^ prec)%Z) as Hk.
    { intros k [Hk1 Hk2]. assert (0 <= inject_Z k) by (change 0 with (inject_Z 0); by rewrite <- Zle_Qle).
      assert (0 <= inject_Z k * p10 e) by nra. assert (inject_Z k * p10 e <= inject_Z k) by nra.
      pose proof (trunc_nonneg _ H0). pose proof (trunc_mono _ _ H1). rewrite trunc_Z in H3. lia. }
    destruct (Z_le_gt_dec 0 m); [apply Hk; lia|].
    assert (inject_Z m * p10 e == - (inject_Z (- m) * p10 e)) as -> by (rewrite inject_Z_opp; ring).
    rewrite trunc_opp, Z.abs_opp. apply Hk. lia.
Qed.

(** ** Laws of the operations *)

Lemma ddiv_ok x y : ~ y == 0 -> ddiv x y = Ok (rnd (x / y)).
Proof. intros H. unfold ddiv. apply deqb_neq in H. unfold deqb in H. by rewrite H. Qed.

Lemma ddiv_pos_ok x y : 0 < y -> ddiv x y = Ok (rnd (x / y)).
Proof. intros H. apply ddiv_ok. lra. Qed.

Lemma ddiv_inv x y z : ddiv x y = Ok z -> ~ y == 0 /\ z = rnd (x / y).
Proof.
  unfold ddiv. destruct (Qeq_bool y 0) eqn:E; [done|]. intros [= <-].
  split; [|done]. by apply Qeq_bool_neq.
Qed.

Lemma Qdiv_le_mono x y z : 0 < z -> x <= y -> x / z <= y / z.
Proof.
  intros Hz H. apply Qle_shift_div_l; [done|].
  assert (x / z * z == x) as -> by (field; lra). done.
Qed.

Lemma Qdiv_nonneg x z : 0 < z -> 0 <= x -> 0 <= x / z.
Proof. intros Hz H. apply Qle_shift_div_l; [done|]. lra. Qed.

Lemma Qdiv_pos x z : 0 < z -> 0 < x -> 0 < x / z.
Proof. intros Hz H. apply Qlt_shift_div_l; [done|]. lra. Qed.
#[export] Hint Resolve Qdiv_nonneg Qdiv_pos : dec.

#[export] Instance dadd_proper : Proper (Qeq ==> Qeq ==> eq) dadd.
Proof. intros x x' Hx y y' Hy. unfold dadd. by rewrite Hx, Hy. Qed.
#[export] Instance dsub_proper : Proper (Qeq ==> Qeq ==> eq) dsub.
Proof. intros x x' Hx y y' Hy. unfold dsub. by rewrite Hx, Hy. Qed.
#[export] Instance dmul_proper : Proper (Qeq ==> Qeq ==> eq) dmul.
Proof. intros x x' Hx y y' Hy. unfold dmul. by rewrite Hx, Hy. Qed.

Lemma dmul_nonneg x y : 0 <= x -> 0 <= y -> 0 <= dmul x y.
Proof. intros. apply rnd_nonneg. nra. Qed.
Lemma dmul_pos x y : 0 < x -> 0 < y -> 0 < dmul x y.
Proof. intros. apply rnd_positive. nra. Qed.
Lemma dadd_nonneg x y : 0 <= x -> 0 <= y -> 0 <= dadd x y.
Proof. intros. apply rnd_nonneg. lra. Qed.
Lemma dsub_nonneg x y : y <= x -> 0 <= dsub x y.
Proof. intros. apply rnd_nonneg. lra. Qed.
Lemma dsub_pos x y : y < x -> 0 < dsub x y.
Proof. intros. apply rnd_positive. lra. Qed.
Lemma dabs_nonneg x : 0 <= dabs x.
Proof. apply rnd_nonneg, Qabs_nonneg. Qed.
#[export] Hint Resolve dmul_nonneg dmul_pos dadd_nonneg dsub_nonneg dsub_pos dabs_nonneg : dec.

(** Subtracting a non-negative amount never increases a representable
    value. *)
Lemma dsub_le x y : representable x -> 0 <= y -> dsub x y <= x.
Proof. intros Hx Hy. apply rnd_le_bound; [done|]. lra. Qed.
Lemma dadd_ge x y : representable x -> 0 <= y -> x <= dadd x y.
Proof. intros Hx Hy. apply rnd_ge_bound; [done|]. lra. Qed.

Lemma dmul_mono_l x x' y : 0 <= y -> x <= x' -> dmul x y <= dmul x' y.
Proof. intros. apply rnd_mono. nra. Qed.
Lemma dmul_mono_r x y y' : 0 <= x -> y <= y' -> dmul x y <= dmul x y'.
Proof. intros. apply rnd_mono. nra. Qed.

Lemma dsum_snoc l x : dsum (l ++ [x]) = dadd (dsum l) x.
Proof. unfold dsum. by rewrite fold_left_app. Qed.

Lemma dsum_nonneg l : Forall (fun x => 0 <= x) l -> 0 <= dsum l.
Proof.
  intros H. induction l as [|x l IH] using rev_ind; [unfold dsum; cbn; lra|].
  apply Forall_app in H as [Hl Hx]. rewrite dsum_snoc.
  apply Forall_cons in Hx as [Hx _]. apply dadd_nonneg; auto.
Qed.

Lemma dsum_positive l : l <> [] -> Forall (fun x => 0 < x) l -> 0 < dsum l.
Proof.
  intros Hne H. destruct l as [|x l _] using rev_ind; [done|].
  apply Forall_app in H as [Hl Hx]. apply Forall_cons in Hx as [Hx _].
  rewrite dsum_snoc. apply rnd_positive.
  assert (0 <= dsum l); [|lra]. apply dsum_nonneg. eapply Forall_impl; [exact Hl|]. cbn. intros; lra.
Qed.

Lemma d_of_nat_pos n : (0 < n)%nat -> 0 < d_of_nat n.
Proof. intros H. unfold d_of_nat. change 0 with (inject_Z 0). rewrite <- Zlt_Qlt. lia. Qed.
#[export] Hint Resolve d_of_nat_pos : dec.

Lemma representable_one : representable 1.
Proof. by apply (representable_Z 1). Qed.

Lemma dsum_representable l : representable (dsum l).
Proof.
  induction l as [|x l _] using rev_ind; [apply representable_zero|].
  rewrite dsum_snoc. apply representable_rnd.
Qed.

(** ** Rounding down to a multiple of a step

    The source writes this three times ([round_to_tick] in the strategy and
    risk engines, [floor_to_step] in the risk engine): divide, truncate,
    multiply back. *)
Section StepFloor.
Context (s : Q) (Hs : 0 < s).

Definition step_floor (v : Q) : Q := dmul (inject_Z (trunc (rnd (v / s)))) s.

Lemma step_floor_mono v w : v <= w -> step_floor v <= step_floor w.
Proof.
  intros H. apply dmul_mono_l; [lra|]. rewrite <- Zle_Qle.
  apply trunc_mono, rnd_mono. by apply Qdiv_le_mono.
Qed.

Lemma step_floor_nonneg v : 0 <= v -> 0 <= step_floor v.
Proof.
  intros H. apply dmul_nonneg; [|lra].
  change 0 with (inject_Z 0). rewrite <- Zle_Qle. auto using trunc_nonneg with dec.
Qed.

Lemma step_floor_representable v : representable (step_floor v).
Proof. apply representable_rnd. Qed.

(** The multiples of the step that the context represents exactly. *)
Definition on_grid (v : Q) : Prop :=
  exists k, v == inject_Z k * s /\ representable (inject_Z k) /\ representable v.

Lemma step_floor_on_grid_id v : on_grid v -> step_floor v == v.
Proof.
  intros (k & Hv & Hk & Hr). unfold step_floor, dmul.
  assert (v / s == inject_Z k) as -> by (rewrite Hv; field; lra).
  rewrite (rnd_representable _ Hk), trunc_Z, <- Hv. by apply rnd_representable.
Qed.

Lemma on_grid_le_floor g v : on_grid g -> g <= v -> g <= step_floor v.
Proof.
  intros Hg H. rewrite <- (step_floor_on_grid_id g Hg). by apply step_floor_mono.
Qed.
End StepFloor.

#[export] Hint Resolve step_floor_nonneg step_floor_representable : dec.

(** Steps that are powers of ten, the only ones Hyperliquid's [szDecimals]
    produce: every division and product by them is exact. *)
Definition pow10_step (s : Q) : Prop := exists j, s == p10 j.

Section Pow10.
Context (s : Q) (Hs : pow10_step s).

Lemma pow10_step_pos : 0 < s.
Proof. destruct Hs as [j ->]. apply p10_pos. Qed.

Lemma pow10_mul v : representable v -> representable (v * s).
Proof. destruct Hs as [j ->]. apply representable_shift. Qed.

Lemma pow10_div v : representable v -> representable (v / s).
Proof.
  destruct Hs as [j Hj]. intros H.
  assert (v / s == v * p10 (- j)) as ->.
  { unfold Qdiv. rewrite Hj. unfold p10. by rewrite Qpower_opp. }
  by apply representable_shift.
Qed.

(** The result of [step_floor] is always on the grid. *)
Lemma pow10_floor_grid v : on_grid s (step_floor s v).
Proof.
  pose proof (trunc_representable _ (representable_rnd (v / s))) as Hk.
  exists (trunc (rnd (v / s))). split_and!; [|done|apply step_floor_representable].
  unfold step_floor, dmul. apply rnd_representable. by apply pow10_mul.
Qed.

Lemma pow10_floor_idem v : step_floor s (step_floor s v) == step_floor s v.
Proof. apply step_floor_on_grid_id; [apply pow10_step_pos|apply pow10_floor_grid]. Qed.

(** On representable values it is the mathematical truncation. *)
Lemma pow10_floor_exact v :
  representable v -> step_floor s v == inject_Z (trunc (v / s)) * s.
Proof.
  intros Hv. unfold step_floor, dmul.
  rewrite (rnd_representable (v / s)) by (by apply pow10_div).
  apply rnd_representable, pow10_mul, trunc_representable. by apply pow10_div.
Qed.

Lemma pow10_floor_bounds v :
  representable v -> 0 <= v -> step_floor s v <= v /\ v < step_floor s v + s.
Proof.
  intros Hv H0. rewrite pow10_floor_exact by done. pose proof pow10_step_pos as Hp.
  destruct (trunc_bounds (v / s)) as [H1 H2]; [by apply Qdiv_nonneg|].
  assert (v == v / s * s) as Hvs by (field; lra). set (k := inject_Z _) in *.
  assert (k * s <= v / s * s) by nra. assert (v / s * s < (k + 1) * s) by nra. lra.
Qed.
End Pow10.
