(* ===== verification/StrategyModels.v ===== *)
(** * Data of the strategy engine (services/strategy_engine/models.py)

    The Pydantic models as records and the string enums as inductive types.
    A [datetime] is always an aware UTC instant here: microseconds since the
    epoch, a [Z].  The [details] dictionary of an error holds printed values;
    the model keeps the value that is printed. *)
From Stdlib Require Import ZArith QArith.
From stdpp Require Import base list strings.
From S2P Require Import Prelude Decimal.

Notation datetime := Z (only parsing).

(** [timedelta(seconds=n)] in microseconds. *)
Definition seconds (n : Z) : Z := (n * 1000000)%Z.

Inductive Timeframe := DAILY | WEEKLY | MONTHLY.
#[export] Instance Timeframe_eq : EqDecision Timeframe.
Proof. solve_decision. Defined.

Inductive ReasonCode :=
  | RC_ENTRY_BREAKOUT_20D
  | RC_ENTRY_PULLBACK_EMA20
  | RC_EXIT_STOP_INITIAL
  | RC_EXIT_STOP_TRAILING
  | RC_EXIT_STOP_GAP
  | RC_EXIT_REGIME_MONTHLY
  | RC_EXIT_MANUAL
  | RC_REJECT_REGIME
  | RC_REJECT_TREND
  | RC_REJECT_VOLUME
  | RC_REJECT_WARMUP
  | RC_REJECT_DATA
  | RC_REJECT_DUPLICATE_SYMBOL
  | RC_REJECT_RISK_TRADE
  | RC_REJECT_RISK_PORTFOLIO
  | RC_REJECT_MAX_POSITIONS
  | RC_REJECT_LEVERAGE
  | RC_REJECT_NO_SIGNAL
  | RC_RISK_APPROVED.
#[export] Instance ReasonCode_eq : EqDecision ReasonCode.
Proof. solve_decision. Defined.

Inductive EntryType := BREAKOUT | PULLBACK.
#[export] Instance EntryType_eq : EqDecision EntryType.
Proof. solve_decision. Defined.

Inductive SignalIntentKind :=
  | LONG_ENTRY | NO_ENTRY | SK_INVALID_DATA | SK_INSUFFICIENT_HISTORY.
#[export] Instance SignalIntentKind_eq : EqDecision SignalIntentKind.
Proof. solve_decision. Defined.

Inductive DataQualityStatus := DQ_OK | DQ_INVALID_DATA | DQ_INSUFFICIENT_HISTORY.
#[export] Instance DataQualityStatus_eq : EqDecision DataQualityStatus.
Proof. solve_decision. Defined.

Record Candle := {
  c_symbol : string;
  c_timeframe : Timeframe;
  c_open_time : datetime;
  c_close_time : datetime;
  c_open : decimal;
  c_high : decimal;
  c_low : decimal;
  c_close : decimal;
  c_volume : decimal;
  c_is_closed : bool;
}.

Record CandleSeries := {
  cs_symbol : string;
  cs_timeframe : Timeframe;
  cs_candles : list Candle;
}.

Definition cs_length (s : CandleSeries) : nat := length (cs_candles s).

(** The integer periods are natural numbers: the model does not cover negative
    periods, which the source does not forbid and never uses. *)
Record StrategyParameters := {
  sp_strategy_version : string;
  sp_monthly_ema_period : nat;
  sp_weekly_ema_fast : nat;
  sp_weekly_ema_slow : nat;
  sp_daily_ema_period : nat;
  sp_breakout_lookback : nat;
  sp_atr_period : nat;
  sp_volume_sma_period : nat;
  sp_volume_ratio_min : decimal;
  sp_pullback_ema_tolerance : decimal;
  sp_stop_initial_atr_mult : decimal;
  sp_trail_atr_mult : decimal;
}.

Definition STRATEGY_VERSION : string := "1.0.0".

Definition default_strategy_parameters : StrategyParameters := {|
  sp_strategy_version := STRATEGY_VERSION;
  sp_monthly_ema_period := 20;
  sp_weekly_ema_fast := 20;
  sp_weekly_ema_slow := 50;
  sp_daily_ema_period := 20;
  sp_breakout_lookback := 20;
  sp_atr_period := 14;
  sp_volume_sma_period := 20;
  sp_volume_ratio_min := 1 # 1;
  sp_pullback_ema_tolerance := 5 # 1000;
  sp_stop_initial_atr_mult := 5 # 2;
  sp_trail_atr_mult := 3 # 1;
|}.

Record IndicatorSnapshot := {
  is_evaluation_index : Z;
  is_ema20_daily : option decimal;
  is_ema20_weekly : option decimal;
  is_ema50_weekly : option decimal;
  is_ema20_monthly : option decimal;
  is_atr14_daily : option decimal;
  is_volume_sma20 : option decimal;
  is_volume_ratio : option decimal;
  is_high20 : option decimal;
  is_monthly_close : option decimal;
}.

Record RegimeResult := {
  rr_regime_long : bool;
  rr_monthly_close : option decimal;
  rr_ema20_monthly : option decimal;
  rr_reason_code : option ReasonCode;
}.

Record TrendResult := {
  tr_trend_confirmed : bool;
  tr_ema20_weekly : option decimal;
  tr_ema50_weekly : option decimal;
  tr_reason_code : option ReasonCode;
}.

Record PullbackConditions := {
  p1_close_above_ema : bool;
  p2_low_touches_ema : bool;
  p3_prior_close_above_ema : bool;
  p4_regime_long : bool;
  p5_trend_confirmed : bool;
  p6_volume_ok : bool;
}.

Definition no_pullback : PullbackConditions :=
  Build_PullbackConditions false false false false false false.

Record EntrySetupResult := {
  es_breakout_entry : bool;
  es_pullback_entry : bool;
  es_breakout_price_condition : bool;
  es_close_above_ema20 : bool;
  es_volume_ok : bool;
  es_pullback_conditions : PullbackConditions;
  es_high20 : option decimal;
  es_ema_touch_upper : option decimal;
}.

Record SignalIntent := {
  si_kind : SignalIntentKind;
  si_entry_type : option EntryType;
  si_entry_price : option decimal;
  si_stop_initial : option decimal;
  si_primary_reason_code : option ReasonCode;
}.

(** A value printed into an error's [details]. *)
Inductive detail :=
  | DStr (s : string)
  | DTime (t : datetime)
  | DTimeframe (t : Timeframe)
  | DInt (n : Z)
  | DDec (d : decimal).

Record StrategyError := {
  se_code : ReasonCode;
  se_message : string;
  se_details : list (string * detail);
}.

Record StrategyEvaluation := {
  ev_symbol : string;
  ev_evaluation_time : datetime;
  ev_strategy_version : string;
  ev_parameters : StrategyParameters;
  ev_monthly_regime : RegimeResult;
  ev_weekly_trend : TrendResult;
  ev_breakout_result : EntrySetupResult;
  ev_pullback_result : EntrySetupResult;
  ev_indicators : IndicatorSnapshot;
  ev_volume_ratio : option decimal;
  ev_atr : option decimal;
  ev_selected_entry_type : option EntryType;
  ev_signal_intent : SignalIntent;
  ev_reason_codes : list ReasonCode;
  ev_data_quality_status : DataQualityStatus;
  ev_errors : list StrategyError;
}.

Record TrailingStopState := {
  ts_entry_price : decimal;
  ts_stop_initial : decimal;
  ts_highest_close : decimal;
  ts_trail_stop : decimal;
  ts_effective_stop : decimal;
}.
