(* ===== verification/Indicators.v ===== *)
(** * Technical indicators (services/strategy_engine/indicators.py)

    Each indicator maps a series to a series of the same length whose first
    entries are [None] while the indicator warms up.  The theorems at the end
    say that no indicator looks ahead, what the breakout level is, and the
    ranges of the values. *)
From Stdlib Require Import ZArith QArith Lqa Lia.
From stdpp Require Import base list sets strings.
From S2P Require Import Prelude Decimal StrategyModels.

(** ** Definitions *)

Fixpoint ema_tail (alpha prev : decimal) (closes : list decimal) : list (option decimal) :=
  match closes with
  | [] => []
  | c :: closes' =>
      let prev' := alpha *ᵈ c +ᵈ (d_of_Z 1 -ᵈ alpha) *ᵈ prev in
      Some prev' :: ema_tail alpha prev' closes'
  end.

Definition compute_ema (closes : list decimal) (period : nat) : res (list (option decimal)) :=
  if decide (period = 0%nat) then Raise (ValueError "period must be positive")
  else
    let n := length closes in
    if decide (n < period)%nat then Ok (replicate n None)
    else
      alpha ← d_of_Z 2 /ᵈ d_of_nat (period + 1);
      seed ← dsum (take period closes) /ᵈ d_of_nat period;
      Ok (replicate (period - 1) None ++ Some seed :: ema_tail alpha seed (drop period closes)).

Definition true_range (prev_close high low : decimal) : decimal :=
  dmax (dmax (high -ᵈ low) (dabs (high -ᵈ prev_close))) (dabs (low -ᵈ prev_close)).

Fixpoint true_range_tail (prev_close : decimal) (candles : list Candle) : list (option decimal) :=
  match candles with
  | [] => []
  | c :: candles' =>
      Some (true_range prev_close (c_high c) (c_low c)) :: true_range_tail (c_close c) candles'
  end.

Definition compute_true_range (candles : list Candle) : list (option decimal) :=
  match candles with
  | [] => []
  | c :: candles' => None :: true_range_tail (c_close c) candles'
  end.

Fixpoint atr_tail (p_minus_1 p atr : decimal) (trs : list (option decimal)) : res (list (option decimal)) :=
  match trs with
  | [] => Ok []
  | None :: trs' => r ← atr_tail p_minus_1 p atr trs'; Ok (None :: r)
  | Some tr_i :: trs' =>
      atr' ← (atr *ᵈ p_minus_1 +ᵈ tr_i) /ᵈ p;
      r ← atr_tail p_minus_1 p atr' trs';
      Ok (Some atr' :: r)
  end.

Definition compute_wilder_atr (candles : list Candle) (period : nat) : res (list (option decimal)) :=
  let tr := compute_true_range candles in
  let n := length candles in
  if decide (n <= period)%nat then Ok (replicate n None)
  else
    match mapM (fun o => o) (take period (drop 1 tr)) with
    | None => Ok (replicate n None)
    | Some seed_values =>
        atr ← dsum seed_values /ᵈ d_of_nat period;
        r ← atr_tail (d_of_Z (Z.of_nat period - 1)) (d_of_nat period) atr (drop (period + 1) tr);
        Ok (replicate period None ++ Some atr :: r)
    end.

(** With [period = 0] the source's loop starts at index -1 on an empty window
    and divides 0 by 0. *)
Definition compute_volume_sma (volumes : list decimal) (period : nat) : res (list (option decimal)) :=
  let n := length volumes in
  if decide (n < period)%nat then Ok (replicate n None)
  else if decide (period = 0%nat) then Raise DivisionUndefined
  else
    r ← mapM (fun i => Some <$> dsum (take period (drop (i + 1 - period) volumes)) /ᵈ d_of_nat period)
          (seq (period - 1) (n - (period - 1)));
    Ok (replicate (period - 1) None ++ r).

Definition volume_ratio_at (v : decimal) (denom : option decimal) : res (option decimal) :=
  match denom with
  | None => Ok None
  | Some d => if d =ᵈ 0%Q then Ok None else Some <$> v /ᵈ d
  end.

Definition compute_volume_ratio (volumes : list decimal) (period : nat) : res (list (option decimal)) :=
  sma ← compute_volume_sma volumes period;
  mapM (fun p => volume_ratio_at p.1 p.2) (zip volumes sma).

Definition compute_high20 (highs : list decimal) (lookback : nat) : res (list (option decimal)) :=
  let n := length highs in
  r ← mapM (fun t => Some <$> dmaximum (take lookback (drop (t - lookback) highs)))
        (seq lookback (n - lookback));
  Ok (replicate (min lookback n) None ++ r).

Definition compute_highest_close_since_entry
    (closes : list decimal) (entry_index end_index : Z) : res decimal :=
  if (entry_index <? 0)%Z || (Z.of_nat (length closes) <=? end_index)%Z || (end_index <? entry_index)%Z
  then Raise (ValueError "Invalid index range for highest close")
  else dmaximum (take (Z.to_nat (end_index + 1 - entry_index)) (drop (Z.to_nat entry_index) closes)).

(** ** Shape lemmas *)

(** An indicator is causal when extending the series does not change the
    values already computed. *)
Definition causal {A} (f : list A -> res (list (option decimal))) : Prop :=
  forall l l' r r', f l = Ok r -> f (l ++ l') = Ok r' -> take (length l) r' = r.

(** The values of a series that are present satisfy [P]. *)
Definition all_some (P : decimal -> Prop) (r : list (option decimal)) : Prop :=
  forall i x, r !! i = Some (Some x) -> P x.

Lemma all_some_nil P : all_some P [].
Proof. by intros i x H. Qed.

Lemma all_some_none P r : all_some P r -> all_some P (None :: r).
Proof. intros H [|i] x Hx; [done|]. by apply (H i). Qed.

Lemma all_some_cons (P : decimal -> Prop) a r : P a -> all_some P r -> all_some P (Some a :: r).
Proof. intros Ha H [|i] x Hx; cbn in Hx; [by simplify_eq|]. by apply (H i). Qed.

Lemma all_some_pad P n r : all_some P r -> all_some P (replicate n None ++ r).
Proof. intros H. induction n as [|n IH]; cbn; [done|]. by apply all_some_none. Qed.

Lemma all_some_none_all P n : all_some P (replicate n None).
Proof. rewrite <- (app_nil_r (replicate n None)). apply all_some_pad, all_some_nil. Qed.
#[local] Hint Resolve all_some_nil all_some_none all_some_cons all_some_pad all_some_none_all : core.

Lemma ema_tail_length a p l : length (ema_tail a p l) = length l.
Proof. revert p. induction l as [|c l IH]; intros p; cbn; [done|]. by rewrite IH. Qed.

Lemma ema_tail_prefix a p l l' : take (length l) (ema_tail a p (l ++ l')) = ema_tail a p l.
Proof. revert p. induction l as [|c l IH]; intros p; cbn; [done|]. by rewrite IH. Qed.

Lemma take_pad {B} (x : B) n m r : (n <= m)%nat -> take n (replicate m x ++ r) = replicate n x.
Proof.
  intros H. rewrite take_app_le by (rewrite length_replicate; lia).
  rewrite take_replicate. f_equal. lia.
Qed.

Lemma take_pad_ge {B} (x : B) n m r :
  (m <= n)%nat -> take n (replicate m x ++ r) = replicate m x ++ take (n - m) r.
Proof. intros H. rewrite take_app_ge by (rewrite length_replicate; lia). by rewrite length_replicate. Qed.

Lemma compute_ema_length l p r : compute_ema l p = Ok r -> length r = length l.
Proof.
  unfold compute_ema. repeat case_decide; intros Hr; inv_res.
  - apply length_replicate.
  - rewrite length_app, length_replicate. cbn. rewrite ema_tail_length, length_drop. lia.
Qed.

Lemma compute_ema_causal p : causal (fun l => compute_ema l p).
Proof.
  intros l l' r r'. unfold compute_ema. rewrite length_app.
  repeat case_decide; intros Hr Hr'; inv_res; try lia.
  - rewrite take_replicate. f_equal. lia.
  - apply take_pad. lia.
  - rewrite (take_app_le l l') in * by lia. unify_res.
    rewrite take_pad_ge by lia. f_equal.
    replace (length l - (p - 1))%nat with (S (length l - p)) by lia. cbn. f_equal.
    rewrite drop_app_le by lia. rewrite <- (ema_tail_prefix _ _ (drop p l) l'), length_drop. done.
Qed.

(** The shape shared by the windowed indicators: [w] undefined entries, then
    one value per index computed from the values before and at it. *)
Definition windowed {A} (w : nat) (g : list A -> nat -> res (option decimal)) (l : list A)
    : res (list (option decimal)) :=
  r ← mapM (g l) (seq w (length l - w));
  Ok (replicate (min w (length l)) None ++ r).

Lemma windowed_causal {A} w (g : list A -> nat -> res (option decimal)) :
  (forall l l' i, (w <= i < length l)%nat -> g (l ++ l') i = g l i) -> causal (windowed w g).
Proof.
  intros Hg l l' r r'. unfold windowed. rewrite length_app.
  intros (k & Hk & Hr)%bind_ok (k' & Hk' & Hr')%bind_ok. inv_res.
  destruct (decide (length l < w)%nat).
  - replace (length l - w)%nat with 0%nat in Hk by lia. cbn in Hk. inv_res.
    rewrite app_nil_r, (Nat.min_r w (length l)) by lia. apply take_pad. lia.
  - rewrite !Nat.min_l, take_pad_ge by lia. f_equal.
    replace (length l + length l' - w)%nat with (length l - w + length l')%nat in Hk' by lia.
    rewrite seq_app in Hk'. apply mapM_app_ok in Hk' as (k1 & k2 & -> & Hk1 & Hk2).
    rewrite (mapM_ext _ (g l)) in Hk1.
    + assert (k1 = k) as -> by congruence. rewrite take_app_length'; [done|].
      apply mapM_length in Hk1. rewrite length_seq in Hk1. lia.
    + intros i [Hi1 Hi2]%elem_of_seq. apply Hg. lia.
Qed.

Lemma windowed_length {A} w (g : list A -> nat -> res (option decimal)) l r :
  windowed w g l = Ok r -> length r = length l.
Proof.
  unfold windowed. intros (k & H & Hr)%bind_ok. inv_res.
  apply mapM_length in H. rewrite length_seq in H.
  rewrite length_app, length_replicate. lia.
Qed.

Lemma windowed_lookup {A} w (g : list A -> nat -> res (option decimal)) l r i :
  windowed w g l = Ok r -> (w <= i < length l)%nat -> exists o, r !! i = Some o /\ g l i = Ok o.
Proof.
  unfold windowed. intros (k & H & Hr)%bind_ok Hi. inv_res. apply mapM_ok in H.
  destruct (Forall2_lookup_l _ _ _ (i - w)%nat i H) as (o & Ho & Hg).
  { rewrite lookup_seq. lia. }
  exists o. split; [|done]. rewrite lookup_app_r; rewrite length_replicate; [|lia].
  rewrite Nat.min_l by lia. done.
Qed.

(** ** The windowed indicators *)

Lemma window_app {A} (l l' : list A) p i :
  (i < length l)%nat -> (p <= i + 1)%nat ->
  take p (drop (i + 1 - p) (l ++ l')) = take p (drop (i + 1 - p) l).
Proof. intros H Hp. rewrite drop_app_le, take_app_le; [done|rewrite length_drop|]; lia. Qed.

Definition sma_at (p : nat) (l : list decimal) (i : nat) : res (option decimal) :=
  Some <$> dsum (take p (drop (i + 1 - p) l)) /ᵈ d_of_nat p.

Lemma compute_volume_sma_windowed l p :
  (0 < p)%nat -> compute_volume_sma l p = windowed (p - 1) (sma_at p) l.
Proof.
  intros Hp. unfold compute_volume_sma, windowed. case_decide.
  - replace (length l - (p - 1))%nat with 0%nat by lia. cbn.
    rewrite app_nil_r, Nat.min_r by lia. done.
  - rewrite decide_False by lia. by rewrite Nat.min_l by lia.
Qed.

Lemma compute_volume_sma_causal p : causal (fun l => compute_volume_sma l p).
Proof.
  destruct (decide (p = 0)%nat) as [->|Hp].
  { intros l l' r r'. unfold compute_volume_sma. rewrite decide_False by lia. by rewrite decide_True. }
  intros l l' r r'. rewrite !compute_volume_sma_windowed by lia.
  apply windowed_causal. clear. intros l l' i Hi. unfold sma_at. by rewrite window_app by lia.
Qed.

Lemma compute_volume_sma_length l p r : compute_volume_sma l p = Ok r -> length r = length l.
Proof.
  destruct (decide (p = 0)%nat) as [->|Hp].
  { unfold compute_volume_sma. rewrite decide_False by lia. by rewrite decide_True. }
  rewrite compute_volume_sma_windowed by lia. apply windowed_length.
Qed.

Lemma compute_volume_ratio_length l p r : compute_volume_ratio l p = Ok r -> length r = length l.
Proof.
  unfold compute_volume_ratio. intros (sma & Hs & Hr)%bind_ok.
  apply mapM_length in Hr. rewrite length_zip_with, (compute_volume_sma_length _ _ _ Hs) in Hr. lia.
Qed.

Lemma compute_volume_ratio_causal p : causal (fun l => compute_volume_ratio l p).
Proof.
  intros l l' r r' (sma & Hs & Hr)%bind_ok (sma' & Hs' & Hr')%bind_ok.
  pose proof (compute_volume_sma_causal p l l' _ _ Hs Hs') as Hc.
  pose proof (compute_volume_sma_length _ _ _ Hs) as Hlen.
  rewrite <- (take_drop (length l) sma'), Hc, zip_with_app in Hr' by done.
  apply mapM_app_ok in Hr' as (k1 & k2 & -> & Hk1 & Hk2).
  assert (k1 = r) as -> by congruence. apply take_app_length'. apply mapM_length in Hk1. rewrite length_zip_with in Hk1. lia.
Qed.

Definition high_at (lookback : nat) (l : list decimal) (t : nat) : res (option decimal) :=
  Some <$> dmaximum (take lookback (drop (t - lookback) l)).

Lemma compute_high20_windowed l lb : compute_high20 l lb = windowed lb (high_at lb) l.
Proof. done. Qed.

Lemma compute_high20_causal lb : causal (fun l => compute_high20 l lb).
Proof.
  apply windowed_causal. intros l l' i Hi. unfold high_at.
  rewrite drop_app_le, take_app_le; [done|rewrite length_drop|]; lia.
Qed.

(** ** Average true range *)

Lemma true_range_tail_prefix p l l' :
  take (length l) (true_range_tail p (l ++ l')) = true_range_tail p l.
Proof. revert p. induction l as [|c l IH]; intros p; cbn; [done|]. by rewrite IH. Qed.

Lemma true_range_tail_length p l : length (true_range_tail p l) = length l.
Proof. revert p. induction l as [|c l IH]; intros p; cbn; [done|]. by rewrite IH. Qed.

Lemma compute_true_range_prefix l l' :
  take (length l) (compute_true_range (l ++ l')) = compute_true_range l.
Proof. destruct l; cbn; [done|]. by rewrite true_range_tail_prefix. Qed.

Lemma compute_true_range_length l : length (compute_true_range l) = length l.
Proof. destruct l; cbn; [done|]. by rewrite true_range_tail_length. Qed.

Lemma atr_tail_app p1 p a l l' r :
  atr_tail p1 p a (l ++ l') = Ok r -> exists r1 r2, r = r1 ++ r2 /\ atr_tail p1 p a l = Ok r1.
Proof.
  revert a r. induction l as [|[t|] l IH]; intros a r H; cbn in *.
  - by exists [], r.
  - apply bind_ok in H as (a' & Ha & H). apply bind_ok in H as (k & Hk & H). inv_res.
    destruct (IH _ _ Hk) as (r1 & r2 & -> & Hr1). rewrite Ha. cbn. rewrite Hr1. by exists (Some a' :: r1), r2.
  - apply bind_ok in H as (k & Hk & H). inv_res.
    destruct (IH _ _ Hk) as (r1 & r2 & -> & Hr1). rewrite Hr1. by exists (None :: r1), r2.
Qed.

Lemma atr_tail_length p1 p a l r : atr_tail p1 p a l = Ok r -> length r = length l.
Proof.
  revert a r. induction l as [|[t|] l IH]; intros a r H; cbn in *; inv_res; [done|..];
    cbn; f_equal; eauto.
Qed.

Lemma compute_true_range_app l l' :
  compute_true_range (l ++ l') = compute_true_range l ++ drop (length l) (compute_true_range (l ++ l')).
Proof. by rewrite <- (compute_true_range_prefix l l') at 1; rewrite take_drop. Qed.

Lemma compute_wilder_atr_causal p : causal (fun l => compute_wilder_atr l p).
Proof.
  intros l l' r r'. unfold compute_wilder_atr.
  rewrite compute_true_range_app, length_app. set (tr := compute_true_range l).
  assert (Htr : length tr = length l) by apply compute_true_range_length.
  generalize (drop (length l) (compute_true_range (l ++ l'))) as rest. intros rest.
  case_decide as Hn.
  - intros Hr Hr'. inv_res. repeat case_match; inv_res;
      first [by rewrite take_replicate, Nat.min_l by lia | by apply take_pad].
  - rewrite decide_False by lia. rewrite drop_app_le, take_app_le by (rewrite ?length_drop; lia).
    destruct (mapM _ _) as [vals|]; [|intros; inv_res; by rewrite take_replicate, Nat.min_l by lia].
    intros (a & Ha & (k & Hk & Hr)%bind_ok)%bind_ok (a' & Ha' & (k' & Hk' & Hr')%bind_ok)%bind_ok.
    assert (a' = a) as -> by congruence. inv_res. rewrite take_pad_ge by lia. f_equal.
    rewrite drop_app_le in Hk' by lia.
    apply atr_tail_app in Hk' as (r1 & r2 & -> & Hr1). assert (r1 = k) as -> by congruence.
    apply atr_tail_length in Hk. rewrite length_drop in Hk.
    replace (length l - p)%nat with (S (length k)) by lia. cbn. by rewrite take_app_length.
Qed.

Lemma compute_wilder_atr_length l p r : compute_wilder_atr l p = Ok r -> length r = length l.
Proof.
  unfold compute_wilder_atr. case_decide as Hn.
  { intros; inv_res. apply length_replicate. }
  case_match; [|intros; inv_res; apply length_replicate].
  intros (a & Ha & (k & Hk & Hr)%bind_ok)%bind_ok. inv_res.
  apply atr_tail_length in Hk. rewrite length_drop, compute_true_range_length in Hk.
  rewrite length_app, length_replicate. cbn. lia.
Qed.

(** ** No look-ahead *)

(** [C37] The value an indicator takes at index [t] depends only on the series
    up to [t]: appending later candles to the input never changes a value
    already computed.  This holds of all five indicator series - EMA, Wilder ATR,
    volume SMA, volume ratio and the high of the last twenty days - with any
    period. *)
Theorem indicators_no_lookahead period :
  causal (fun closes => compute_ema closes period) /\
  causal (fun candles => compute_wilder_atr candles period) /\
  causal (fun volumes => compute_volume_sma volumes period) /\
  causal (fun volumes => compute_volume_ratio volumes period) /\
  causal (fun highs => compute_high20 highs period).
Proof.
  split_and!.
  - apply compute_ema_causal.
  - apply compute_wilder_atr_causal.
  - apply compute_volume_sma_causal.
  - apply compute_volume_ratio_causal.
  - apply compute_high20_causal.
Qed.

(** ** Values *)
Local Open Scope Q_scope.

(** The breakout level at [t] is the maximum of the [lookback] highs
    before [t] and excludes the high of [t] itself; before index [lookback] it
    is undefined. *)
Theorem compute_high20_spec highs lookback r t :
  compute_high20 highs lookback = Ok r -> (t < length highs)%nat ->
  ((t < lookback)%nat -> r !! t = Some None) /\
  ((lookback <= t)%nat -> exists m,
     r !! t = Some (Some m) /\
     (exists j, (t - lookback <= j < t)%nat /\ highs !! j = Some m) /\
     (forall j h, (t - lookback <= j < t)%nat -> highs !! j = Some h -> h <= m)).
Proof.
  rewrite compute_high20_windowed. intros Hr Ht. split.
  - intros Hlt. unfold windowed in Hr. apply bind_ok in Hr as (k & _ & Hr). inv_res.
    rewrite lookup_app_l by (rewrite length_replicate; lia). apply lookup_replicate. split; [done|lia].
  - intros Hge. destruct (windowed_lookup _ _ _ _ t Hr ltac:(lia)) as (o & Ho & Hg).
    unfold high_at in Hg. apply fmap_ok in Hg as (m & Hm & <-). exists m. split; [done|].
    apply dmaximum_spec in Hm as [Hin Hub]. split.
    + apply list_elem_of_lookup in Hin as [j Hj]. apply lookup_take_Some in Hj as [Hj Hlt].
      rewrite lookup_drop in Hj. exists (t - lookback + j)%nat. split; [lia|done].
    + intros j h Hj Hh. apply Hub. apply list_elem_of_lookup. exists (j - (t - lookback))%nat.
      apply lookup_take_Some. split; [|lia]. rewrite lookup_drop.
      by replace (t - lookback + (j - (t - lookback)))%nat with j by lia.
Qed.

Lemma compute_high20_spec_witness :
  exists r, compute_high20 [3#1; 7#1; 5#1; 4#1] 2 = Ok r /\
  exists m, r !! 3%nat = Some (Some m) /\
    (exists j, (1 <= j < 3)%nat /\ [3#1; 7#1; 5#1; 4#1] !! j = Some m).
Proof.
  eexists. split; [vm_compute; reflexivity|].
  destruct (compute_high20_spec [3#1; 7#1; 5#1; 4#1] 2 [None; None; Some (7#1); Some (7#1)] 3)
    as [_ H]; [vm_compute; reflexivity|cbn; lia|].
  destruct H as (m & Hm & Hj & _); [lia|]. exists m. split; [exact Hm|exact Hj].
Defined.

(** *** Ranges and totality *)

Lemma ema_alpha_range p :
  (0 < p)%nat -> exists a, ddiv (d_of_Z 2) (d_of_nat (p + 1)) = Ok a /\ 0 < a /\ a <= 1.
Proof.
  intros Hp. assert (Hd : 0 < d_of_nat (p + 1)) by (apply d_of_nat_pos; lia).
  exists (rnd (d_of_Z 2 / d_of_nat (p + 1))). rewrite ddiv_pos_ok by done. split_and!; [done|..].
  - apply rnd_positive, Qdiv_pos; [done|]. reflexivity.
  - apply rnd_le_bound; [apply representable_one|]. apply Qle_shift_div_r; [done|].
    unfold d_of_Z, d_of_nat. rewrite Qmult_1_l, <- Zle_Qle. lia.
Qed.

Lemma ema_tail_positive a prev l :
  0 < a -> a <= 1 -> 0 < prev -> Forall (fun c => 0 < c) l -> all_some (fun x => 0 < x) (ema_tail a prev l).
Proof.
  intros Ha Ha1 Hprev Hl. revert prev Hprev. induction Hl as [|c l Hc _ IH]; intros prev Hprev; cbn; [auto|].
  assert (Hn : 0 < dadd (dmul a c) (dmul (dsub (d_of_Z 1) a) prev)).
  { apply rnd_positive. pose proof (dmul_pos a c Ha Hc).
    assert (0 <= dmul (dsub (d_of_Z 1) a) prev); [|lra].
    apply dmul_nonneg; [|lra]. by apply dsub_nonneg. }
  apply all_some_cons; [done|by apply IH].
Qed.

Lemma compute_ema_positive closes p r :
  Forall (fun c => 0 < c) closes -> compute_ema closes p = Ok r -> all_some (fun x => 0 < x) r.
Proof.
  intros Hc. unfold compute_ema. case_decide; [done|]. case_decide; [intros; inv_res; auto|].
  destruct (ema_alpha_range p) as (a & -> & Ha0 & Ha1); [lia|]. cbn.
  intros (seed & Hs & Hr)%bind_ok. inv_res. apply ddiv_inv in Hs as [_ ->].
  assert (0 < rnd (dsum (take p closes) / d_of_nat p)).
  { apply rnd_positive, Qdiv_pos; [apply d_of_nat_pos; lia|]. apply dsum_positive.
    - destruct closes, p; cbn in *; try lia; done.
    - by apply Forall_take. }
  apply all_some_pad, all_some_cons; [done|]. apply ema_tail_positive; [done..|]. by apply Forall_drop.
Qed.

Lemma compute_ema_returns closes p : (0 < p)%nat -> exists r, compute_ema closes p = Ok r.
Proof.
  intros Hp. unfold compute_ema. rewrite decide_False by lia. case_decide; [by eexists|].
  destruct (ema_alpha_range p Hp) as (a & -> & _). cbn.
  rewrite ddiv_pos_ok by (apply d_of_nat_pos; lia). cbn. by eexists.
Qed.

Lemma true_range_nonneg pc h l : l <= h -> 0 <= true_range pc h l.
Proof.
  intros H. unfold true_range.
  pose proof (dmax_l (dmax (dsub h l) (dabs (dsub h pc))) (dabs (dsub l pc))).
  pose proof (dmax_l (dsub h l) (dabs (dsub h pc))). pose proof (dsub_nonneg h l H). lra.
Qed.

(** True ranges of well-formed candles: the first is undefined, the others are
    defined and non-negative. *)
Lemma true_range_tail_some pc l :
  Forall (fun c => c_low c <= c_high c) l ->
  exists ts, true_range_tail pc l = Some <$> ts /\ Forall (fun t => 0 <= t) ts.
Proof.
  intros H. revert pc. induction H as [|c l Hc _ IH]; intros pc; cbn; [by exists []|].
  destruct (IH (c_close c)) as (ts & -> & Hts).
  exists (true_range pc (c_high c) (c_low c) :: ts). split; [done|].
  constructor; [by apply true_range_nonneg|done].
Qed.

Lemma mapM_id_some {A} (l : list A) : mapM (fun o => o) (Some <$> l) = Some l.
Proof. induction l as [|x l IH]; cbn; [done|]. by rewrite IH. Qed.

Lemma atr_tail_nonneg p1 p a ts :
  0 <= p1 -> 0 < p -> 0 <= a -> Forall (fun t => 0 <= t) ts ->
  returns (atr_tail p1 p a (Some <$> ts)) (all_some (fun x => 0 <= x)).
Proof.
  intros H1 Hp Ha Hts. revert a Ha. induction Hts as [|t ts Ht _ IH]; intros a Ha; cbn;
    [by apply returns_ret|].
  rewrite ddiv_pos_ok by done. cbn. set (a' := rnd _).
  assert (Ha' : 0 <= a') by (apply rnd_nonneg, Qdiv_nonneg; auto with dec).
  eapply returns_bind; [by apply IH|]. intros r Hr. apply returns_ret. by apply all_some_cons.
Qed.

Lemma compute_wilder_atr_nonneg candles p :
  (0 < p)%nat -> Forall (fun c => c_low c <= c_high c) candles ->
  returns (compute_wilder_atr candles p) (all_some (fun x => 0 <= x)).
Proof.
  intros Hp Hc. unfold compute_wilder_atr. case_decide as Hn; [by apply returns_ret|].
  destruct candles as [|c0 l]; [cbn in Hn; lia|]. apply Forall_cons in Hc as [_ Hl]. cbn.
  destruct (true_range_tail_some (c_close c0) l Hl) as (ts & -> & Hts).
  rewrite drop_0, <- fmap_take, mapM_id_some.
  assert (Hd : 0 < d_of_nat p) by auto with dec. rewrite ddiv_pos_ok by done. cbn.
  assert (Hs : 0 <= rnd (dsum (take p ts) / d_of_nat p)).
  { apply rnd_nonneg, Qdiv_nonneg; [done|]. apply dsum_nonneg. by apply Forall_take. }
  rewrite Nat.add_1_r. cbn. rewrite <- fmap_drop. eapply returns_bind.
  - apply atr_tail_nonneg; [|done..|by apply Forall_drop].
    unfold d_of_Z. change 0 with (inject_Z 0). rewrite <- Zle_Qle. lia.
  - intros r Hr. apply returns_ret, all_some_pad. by apply all_some_cons.
Qed.

Lemma windowed_all_some {A} w (g : list A -> nat -> res (option decimal)) P l :
  (forall i, (w <= i < length l)%nat -> returns (g l i) (from_option P True)) ->
  returns (windowed w g l) (all_some P).
Proof.
  intros Hg. unfold windowed.
  destruct (mapM_returns (g l) (seq w (length l - w))) as [k Hk].
  { intros i Hi%elem_of_seq. destruct (Hg i) as (o & Ho & _); [lia|]. eauto. }
  rewrite Hk. cbn. apply returns_ret, all_some_pad. intros i x Hx.
  apply mapM_ok in Hk. destruct (Forall2_lookup_r _ _ _ _ _ Hk Hx) as (j & Hj & Hgj).
  apply lookup_seq in Hj as [-> Hj]. destruct (Hg (w + i)%nat) as (o & Ho & HP); [lia|].
  rewrite Hgj in Ho. inv_res. done.
Qed.

Lemma compute_volume_sma_nonneg volumes p :
  (0 < p)%nat -> Forall (fun v => 0 <= v) volumes ->
  returns (compute_volume_sma volumes p) (all_some (fun x => 0 <= x)).
Proof.
  intros Hp Hv. rewrite compute_volume_sma_windowed by done. apply windowed_all_some.
  intros i Hi. unfold sma_at. rewrite ddiv_pos_ok by auto with dec. cbn. apply returns_ret. cbn.
  apply rnd_nonneg, Qdiv_nonneg; [by auto with dec|]. apply dsum_nonneg. by apply Forall_take, Forall_drop.
Qed.

Lemma compute_volume_ratio_nonneg volumes p :
  (0 < p)%nat -> Forall (fun v => 0 <= v) volumes ->
  returns (compute_volume_ratio volumes p) (all_some (fun x => 0 <= x)).
Proof.
  intros Hp Hv. unfold compute_volume_ratio.
  destruct (compute_volume_sma_nonneg volumes p Hp Hv) as (sma & -> & Hs). cbn.
  assert (Hg : forall v o, v ∈ volumes -> o ∈ sma -> returns (volume_ratio_at v o) (from_option (fun x => 0 <= x) True)).
  { intros v [d|] Hvi Ho; cbn; [|by apply returns_ret].
    case_if; [by apply returns_ret|]. apply list_elem_of_lookup in Ho as [i Hi].
    pose proof (Hs i d Hi) as Hd. cbn in Hd. dec_bool. rewrite ddiv_ok by done. apply returns_ret. cbn.
    rewrite Forall_forall in Hv. pose proof (Hv v Hvi) as Hv0. cbn in Hv0.
    assert (0 < d) by (destruct (Qlt_le_dec 0 d); [done|destruct Heqb; lra]). auto with dec. }
  destruct (mapM_returns (fun p => volume_ratio_at p.1 p.2) (zip volumes sma)) as [k Hk].
  { intros [v o] Hin. destruct (Hg v o) as (y & Hy & _); [..|eauto].
    - by eapply elem_of_zip_l. - by eapply elem_of_zip_r. }
  exists k. split; [done|]. intros i x Hx. apply mapM_ok in Hk.
  destruct (Forall2_lookup_r _ _ _ _ _ Hk Hx) as ([v o] & Hj & Hgj).
  apply list_elem_of_lookup_2 in Hj. destruct (Hg v o) as (y & Hy & HP).
  - by eapply elem_of_zip_l. - by eapply elem_of_zip_r.
  - cbn in Hgj. rewrite Hgj in Hy. inv_res. done.
Qed.

Lemma compute_high20_returns highs lb :
  (0 < lb)%nat -> exists r, compute_high20 highs lb = Ok r.
Proof.
  intros Hlb. rewrite compute_high20_windowed.
  destruct (windowed_all_some lb (high_at lb) (fun _ => True) highs) as (r & Hr & _); [|by eexists].
  intros i Hi. unfold high_at. destruct (dmaximum_returns (take lb (drop (i - lb) highs))) as [m ->].
  - intros H%(f_equal length). rewrite length_take, length_drop in H. cbn in H. lia.
  - by apply returns_ret.
Qed.
