(* ===== verification/StrategyValidation.v ===== *)
(** * Candle series validation (services/strategy_engine/validation.py)

    [validate_candle_series] is translated as a scan that collects the errors
    of each candle; [series_wf] is the declarative meaning of an empty error
    list, and the main theorem relates the two. *)
From Stdlib Require Import ZArith QArith Qabs Lqa Lia Sorting.Sorted.
From stdpp Require Import base list sets gmap strings.
From S2P Require Import Prelude Decimal StrategyModels.

(** ** Definitions *)

Definition _is_finite_decimal (value : decimal) : bool := float_finite value.

Definition data_error (message : string) (details : list (string * detail)) : StrategyError :=
  {| se_code := RC_REJECT_DATA; se_message := message; se_details := details |}.

Definition open_time_detail (c : Candle) : list (string * detail) :=
  [("open_time"%string, DTime (c_open_time c))].

(** The first of the five numeric fields that does not fit a float. *)
Fixpoint first_not_finite (fields : list (string * decimal)) : option string :=
  match fields with
  | [] => None
  | (name, val) :: fields' =>
      if _is_finite_decimal val then first_not_finite fields' else Some name
  end.

Definition ohlcv_fields (c : Candle) : list (string * decimal) :=
  [("open", c_open c); ("high", c_high c); ("low", c_low c);
   ("close", c_close c); ("volume", c_volume c)]%string.

Definition _validate_ohlc (c : Candle) : option StrategyError :=
  let o := c_open c in let h := c_high c in let low := c_low c in let cl := c_close c in
  match first_not_finite (ohlcv_fields c) with
  | Some name => Some (data_error (name +:+ " is NaN or Infinity") (open_time_detail c))
  | None =>
      if (o ≤ᵈ 0%Q) || (h ≤ᵈ 0%Q) || (low ≤ᵈ 0%Q) || (cl ≤ᵈ 0%Q) then
        Some (data_error "OHLC values must be greater than zero" (open_time_detail c))
      else if (h <ᵈ o) || (h <ᵈ cl) || (h <ᵈ low) then
        Some (data_error "high must be >= open, close, and low" (open_time_detail c))
      else if (o <ᵈ low) || (cl <ᵈ low) || (h <ᵈ low) then
        Some (data_error "low must be <= open, close, and high" (open_time_detail c))
      else if c_volume c <ᵈ 0%Q then
        Some (data_error "volume must be >= 0" (open_time_detail c))
      else None
  end.

(** The errors one candle adds, in the source's order; [seen] is the set of
    open times met so far and [prev] the previous one. *)
Definition validate_candle (series : CandleSeries) (evaluation_time : datetime)
    (seen : gset Z) (prev : option datetime) (c : Candle) : list StrategyError :=
  (if decide (c_symbol c = cs_symbol series) then [] else
     [data_error "Symbol mismatch in candle series"
        [("expected", DStr (cs_symbol series)); ("actual", DStr (c_symbol c))]%string]) ++
  (if decide (c_timeframe c = cs_timeframe series) then [] else
     [data_error "Timeframe mismatch in candle" (open_time_detail c)]) ++
  (if c_is_closed c then [] else
     [data_error "Open (unclosed) candle not allowed" (open_time_detail c)]) ++
  (if (evaluation_time <? c_close_time c)%Z then
     [data_error "Evaluation time before candle close_time"
        [("open_time", DTime (c_open_time c)); ("close_time", DTime (c_close_time c));
         ("evaluation_time", DTime evaluation_time)]%string]
   else []) ++
  (if decide (c_open_time c ∈ seen) then
     [data_error "Duplicate candle timestamp" (open_time_detail c)] else []) ++
  (match prev with
   | Some p =>
       if (c_open_time c <=? p)%Z then
         [data_error "Candles not strictly chronologically sorted by open_time" (open_time_detail c)]
       else []
   | None => []
   end) ++
  (match _validate_ohlc c with Some e => [e] | None => [] end).

Fixpoint validate_candles (series : CandleSeries) (evaluation_time : datetime)
    (seen : gset Z) (prev : option datetime) (candles : list Candle) : list StrategyError :=
  match candles with
  | [] => []
  | c :: candles' =>
      validate_candle series evaluation_time seen prev c ++
      validate_candles series evaluation_time ({[c_open_time c]} ∪ seen) (Some (c_open_time c)) candles'
  end.

Definition min_candles_for_warmup (timeframe : Timeframe) (params : option StrategyParameters) : nat :=
  let p := default default_strategy_parameters params in
  match timeframe with
  | DAILY =>
      max (max (max (sp_daily_ema_period p) (sp_atr_period p + 1)) (sp_volume_sma_period p))
          (sp_breakout_lookback p + 1)
  | WEEKLY => max (sp_weekly_ema_slow p) (sp_weekly_ema_fast p + 1)
  | MONTHLY => sp_monthly_ema_period p
  end.

Definition check_warmup_complete (daily_count weekly_count monthly_count : nat)
    (params : option StrategyParameters) : bool :=
  let p := Some (default default_strategy_parameters params) in
  (min_candles_for_warmup DAILY p <=? daily_count)%nat &&
  (min_candles_for_warmup WEEKLY p <=? weekly_count)%nat &&
  (min_candles_for_warmup MONTHLY p <=? monthly_count)%nat.

Definition validate_candle_series (series : CandleSeries) (evaluation_time : datetime)
    (expected_timeframe : option Timeframe) : DataQualityStatus * list StrategyError :=
  let tf_errors :=
    match expected_timeframe with
    | Some tf =>
        if decide (cs_timeframe series = tf) then [] else
          [data_error "Incorrect timeframe"
             [("expected", DTimeframe tf); ("actual", DTimeframe (cs_timeframe series))]%string]
    | None => []
    end in
  match cs_candles series with
  | [] => (DQ_INVALID_DATA, tf_errors ++ [data_error "Empty candle series" []])
  | candles =>
      match tf_errors ++ validate_candles series evaluation_time ∅ None candles with
      | [] =>
          let min_required := min_candles_for_warmup (cs_timeframe series) None in
          if (length candles <? min_required)%nat then
            (DQ_INSUFFICIENT_HISTORY,
             [{| se_code := RC_REJECT_WARMUP;
                 se_message := "Insufficient history for timeframe";
                 se_details := [("timeframe", DTimeframe (cs_timeframe series));
                                ("required", DInt (Z.of_nat min_required));
                                ("actual", DInt (Z.of_nat (length candles)))]%string |}])
          else (DQ_OK, [])
      | errors => (DQ_INVALID_DATA, errors)
      end
  end.

(** ** Meaning *)
Local Open Scope Q_scope.

(** What a valid candle is. *)
Record candle_wf (c : Candle) : Prop := {
  cw_finite : forall f, f ∈ ohlcv_fields c -> float_finite f.2 = true;
  cw_low_pos : 0 < c_low c;
  cw_low_open : c_low c <= c_open c;
  cw_low_close : c_low c <= c_close c;
  cw_open_high : c_open c <= c_high c;
  cw_close_high : c_close c <= c_high c;
  cw_volume : 0 <= c_volume c;
}.

(** A candle that belongs to a series and is closed at time [t]. *)
Definition candle_in_series (s : CandleSeries) (t : datetime) (c : Candle) : Prop :=
  c_symbol c = cs_symbol s /\ c_timeframe c = cs_timeframe s /\
  c_is_closed c = true /\ (c_close_time c <= t)%Z /\ candle_wf c.

(** What a valid series is at an evaluation time: the right timeframe, not
    empty, every candle of the series' symbol and timeframe, closed, closed
    no later than the evaluation time and well formed, and the open times
    strictly increasing. *)
Record series_wf (s : CandleSeries) (evaluation_time : datetime) (tf : Timeframe) : Prop := {
  sw_timeframe : cs_timeframe s = tf;
  sw_nonempty : cs_candles s <> [];
  sw_candles : Forall (candle_in_series s evaluation_time) (cs_candles s);
  sw_sorted : StronglySorted Z.lt (c_open_time <$> cs_candles s);
}.

Lemma first_not_finite_none fields :
  first_not_finite fields = None <-> (forall f, f ∈ fields -> float_finite f.2 = true).
Proof.
  induction fields as [|[name val] fields IH]; cbn; [set_solver|].
  unfold _is_finite_decimal. destruct (float_finite val) eqn:E.
  - rewrite IH. split; [|set_solver]. intros H f [->|Hf]%elem_of_cons; [done|auto].
  - split; [done|]. intros H. specialize (H (name, val) (list_elem_of_here _ _)). cbn in H. congruence.
Qed.

Lemma validate_ohlc_none c : _validate_ohlc c = None <-> candle_wf c.
Proof.
  unfold _validate_ohlc. destruct (first_not_finite _) eqn:Ef.
  - split; [done|]. intros [Hfin _ _ _ _ _ _]. apply first_not_finite_none in Hfin. congruence.
  - rewrite first_not_finite_none in Ef. split.
    + intros H. repeat case_if; try done. dec_bool. constructor; auto; lra.
    + intros [_ H1 H2 H3 H4 H5 H6].
      repeat match goal with
      | |- context [if ?b then _ else _] =>
          let E := fresh in assert (b = false) as E;
            [repeat (apply orb_false_iff; split); dec_bool; lra|rewrite E]
      end. done.
Qed.

Lemma validate_candle_nil s t seen prev c :
  validate_candle s t seen prev c = [] <->
  candle_in_series s t c /\ c_open_time c ∉ seen /\
  (forall p, prev = Some p -> p < c_open_time c)%Z.
Proof.
  unfold validate_candle, candle_in_series. rewrite <- validate_ohlc_none.
  repeat rewrite app_nil. split.
  - intros (H1 & H2 & H3 & H4 & H5 & H6 & H7). repeat case_decide; try done.
    destruct (c_is_closed c); [|done]. destruct (Z.ltb_spec t (c_close_time c)); [done|].
    destruct (_validate_ohlc c); [done|]. split_and!; try done.
    intros p ->. destruct (Z.leb_spec (c_open_time c) p); [done|lia].
  - intros ((H1 & H2 & H3 & H4 & H5) & H6 & H7).
    rewrite !decide_True, decide_False by done. rewrite H3, H5.
    destruct (Z.ltb_spec t (c_close_time c)); [lia|]. split_and!; try done.
    destruct prev as [p|]; [|done]. specialize (H7 p eq_refl).
    destruct (Z.leb_spec (c_open_time c) p); [lia|done].
Qed.

(** Condition on the accumulators of the scan: every open time met so far is
    at most the previous one. *)
Definition seen_ok (seen : gset Z) (prev : option datetime) : Prop :=
  forall u, u ∈ seen -> exists p, prev = Some p /\ (u <= p)%Z.

Lemma seen_ok_step seen prev t :
  seen_ok seen prev -> (forall p, prev = Some p -> p < t)%Z -> seen_ok ({[t]} ∪ seen) (Some t).
Proof.
  intros Hs Hp u [->%elem_of_singleton|Hu]%elem_of_union; exists t; split; try done.
  destruct (Hs u Hu) as (p & Hprev & Hle). specialize (Hp p Hprev). lia.
Qed.

Lemma validate_candles_nil s t seen prev l :
  seen_ok seen prev ->
  validate_candles s t seen prev l = [] <->
  Forall (candle_in_series s t) l /\ StronglySorted Z.lt (c_open_time <$> l) /\
  (forall p, prev = Some p -> Forall (fun u => p < u)%Z (c_open_time <$> l)).
Proof.
  revert seen prev. induction l as [|c l IH]; intros seen prev Hseen; cbn.
  { split; [|done]. intros _. split_and!; constructor. }
  rewrite app_nil, validate_candle_nil, Forall_cons. split.
  - intros ((Hc & _ & Hp) & H). apply IH in H as (Hl & Hs & Hlt); [|by eapply seen_ok_step].
    specialize (Hlt _ eq_refl). split_and!; [done..|by constructor|].
    intros p ->. specialize (Hp p eq_refl). constructor; [done|].
    eapply Forall_impl; [exact Hlt|]. cbn. lia.
  - intros ((Hc & Hl) & [Hs Hlt]%StronglySorted_inv & Hp).
    assert (Hpc : forall p, prev = Some p -> (p < c_open_time c)%Z).
    { intros p Hprev. by apply Hp, Forall_cons in Hprev as [? _]. }
    split.
    + split; [done|]. split; [|done]. intros Hin. destruct (Hseen _ Hin) as (p & Hprev & Hle).
      specialize (Hpc p Hprev). lia.
    + apply IH; [by eapply seen_ok_step|]. split_and!; [done..|]. by intros p [= <-].
Qed.

(** ** The validator decides well-formedness *)

(** The validator accepts exactly the well-formed series that are long
    enough, reports a well-formed but short series as insufficient history,
    and reports everything else as invalid data with at least one error:
    validation fails closed. *)
Lemma validate_candle_series_status s t tf :
  let '(status, errors) := validate_candle_series s t (Some tf) in
  match status with
  | DQ_OK => series_wf s t tf /\ (min_candles_for_warmup tf None <= cs_length s)%nat /\ errors = []
  | DQ_INSUFFICIENT_HISTORY =>
      series_wf s t tf /\ (cs_length s < min_candles_for_warmup tf None)%nat /\ errors <> []
  | DQ_INVALID_DATA => ~ series_wf s t tf /\ errors <> []
  end.
Proof.
  unfold validate_candle_series, cs_length.
  assert (Hempty : seen_ok ∅ None) by (intros u Hu; set_solver).
  pose proof (validate_candles_nil s t ∅ None (cs_candles s) Hempty) as Hnil.
  destruct (cs_candles s) as [|c l] eqn:El.
  { split; [intros H; by apply sw_nonempty in H|]. intros [_ ?]%app_nil. done. }
  assert (Hne : cs_candles s <> []) by congruence.
  rewrite <- El in *. clear El. destruct (_ ++ _) as [|e es] eqn:Ee.
  - apply app_nil in Ee as [Htf Hc]. case_decide; [|done]. subst tf.
    apply Hnil in Hc as (Hc & Hs & _).
    assert (Hwf : series_wf s t (cs_timeframe s)) by (constructor; done).
    case_if; rewrite ?Nat.ltb_lt, ?Nat.ltb_ge in *; split_and!; done.
  - split; [|done]. intros [Htf _ Hc Hs]. rewrite decide_True in Ee by done. cbn in Ee.
    destruct Hnil as [_ Hnil]. rewrite Hnil in Ee; [done|]. split_and!; done.
Qed.

Lemma validate_wf s t tf :
  (validate_candle_series s t (Some tf)).1 <> DQ_INVALID_DATA -> series_wf s t tf.
Proof.
  pose proof (validate_candle_series_status s t tf) as H.
  destruct (validate_candle_series s t (Some tf)) as [[] errs]; cbn; intuition congruence.
Qed.

Lemma validate_not_wf s t tf :
  (validate_candle_series s t (Some tf)).1 = DQ_INVALID_DATA -> ~ series_wf s t tf.
Proof.
  pose proof (validate_candle_series_status s t tf) as H.
  destruct (validate_candle_series s t (Some tf)) as [[] errs]; cbn; intuition congruence.
Qed.

Lemma validate_errors s t tf :
  (validate_candle_series s t (Some tf)).2 = [] <-> (validate_candle_series s t (Some tf)).1 = DQ_OK.
Proof.
  pose proof (validate_candle_series_status s t tf) as H.
  destruct (validate_candle_series s t (Some tf)) as [[] errs]; cbn; intuition congruence.
Qed.

(** Validation decides well-formedness and fails closed: the three
    statuses are, exactly, a well-formed series that is long enough, a
    well-formed series that is too short, and a series that is not well
    formed; only the first comes without errors. *)
Theorem validate_candle_series_decides s t tf :
  let '(status, errors) := validate_candle_series s t (Some tf) in
  (status = DQ_OK <-> series_wf s t tf /\ (min_candles_for_warmup tf None <= cs_length s)%nat) /\
  (status = DQ_INSUFFICIENT_HISTORY <->
     series_wf s t tf /\ (cs_length s < min_candles_for_warmup tf None)%nat) /\
  (status = DQ_INVALID_DATA <-> ~ series_wf s t tf) /\
  (errors = [] <-> status = DQ_OK).
Proof.
  pose proof (validate_candle_series_status s t tf) as H.
  destruct (validate_candle_series s t (Some tf)) as [[] errs]; intuition (try congruence; try lia).
Qed.
