(* ===== verification/Entry.v ===== *)
(** * Regime, trend and entry setups
    (services/strategy_engine/regime.py, trend.py, entry.py)

    The three filters and the two entry setups as total functions of the
    indicator values at the evaluated candle; [None] is an indicator that has
    not warmed up. *)
From Stdlib Require Import ZArith QArith Lqa.
From stdpp Require Import base list strings.
From S2P Require Import Prelude Decimal StrategyModels.

(** ** Definitions *)

Definition evaluate_monthly_regime (monthly_close ema20_monthly : option decimal) : RegimeResult :=
  match monthly_close, ema20_monthly with
  | Some close, Some ema =>
      let regime_long := ema <ᵈ close in
      {| rr_regime_long := regime_long;
         rr_monthly_close := monthly_close;
         rr_ema20_monthly := ema20_monthly;
         rr_reason_code := if regime_long then None else Some RC_REJECT_REGIME |}
  | _, _ =>
      {| rr_regime_long := false;
         rr_monthly_close := monthly_close;
         rr_ema20_monthly := ema20_monthly;
         rr_reason_code := Some RC_REJECT_WARMUP |}
  end.

Definition evaluate_weekly_trend (ema20_weekly ema50_weekly : option decimal) : TrendResult :=
  match ema20_weekly, ema50_weekly with
  | Some fast, Some slow =>
      let trend_confirmed := slow <ᵈ fast in
      {| tr_trend_confirmed := trend_confirmed;
         tr_ema20_weekly := ema20_weekly;
         tr_ema50_weekly := ema50_weekly;
         tr_reason_code := if trend_confirmed then None else Some RC_REJECT_TREND |}
  | _, _ =>
      {| tr_trend_confirmed := false;
         tr_ema20_weekly := ema20_weekly;
         tr_ema50_weekly := ema50_weekly;
         tr_reason_code := Some RC_REJECT_WARMUP |}
  end.

Definition evaluate_volume_ok (volume_ratio : option decimal) (volume_ratio_min : decimal) : bool :=
  match volume_ratio with
  | None => false
  | Some r => volume_ratio_min ≤ᵈ r
  end.

(** [x is not None and limit < close]. *)
Definition above (close : decimal) (limit : option decimal) : bool :=
  match limit with None => false | Some l => l <ᵈ close end.

Definition evaluate_breakout_setup (close_t : decimal) (high20 ema20_daily : option decimal)
    (regime : RegimeResult) (trend : TrendResult) (volume_ok : bool) : EntrySetupResult :=
  let price_cond := above close_t high20 in
  let above_ema := above close_t ema20_daily in
  {| es_breakout_entry :=
       price_cond && above_ema && rr_regime_long regime && tr_trend_confirmed trend && volume_ok;
     es_pullback_entry := false;
     es_breakout_price_condition := price_cond;
     es_close_above_ema20 := above_ema;
     es_volume_ok := volume_ok;
     es_pullback_conditions := no_pullback;
     es_high20 := high20;
     es_ema_touch_upper := None |}.

Definition evaluate_pullback_setup (close_t low_t : decimal)
    (close_prev ema20_daily ema20_daily_prev : option decimal)
    (regime : RegimeResult) (trend : TrendResult) (volume_ok : bool)
    (params : StrategyParameters) : EntrySetupResult :=
  match ema20_daily with
  | None =>
      {| es_breakout_entry := false;
         es_pullback_entry := false;
         es_breakout_price_condition := false;
         es_close_above_ema20 := false;
         es_volume_ok := volume_ok;
         es_pullback_conditions := no_pullback;
         es_high20 := None;
         es_ema_touch_upper := None |}
  | Some ema =>
      let ema_touch_upper := ema *ᵈ (d_of_Z 1 +ᵈ sp_pullback_ema_tolerance params) in
      let p1 := ema <ᵈ close_t in
      let p2 := low_t ≤ᵈ ema_touch_upper in
      let p3 := match close_prev with None => false | Some c => above c ema20_daily_prev end in
      let p4 := rr_regime_long regime in
      let p5 := tr_trend_confirmed trend in
      let p6 := volume_ok in
      {| es_breakout_entry := false;
         es_pullback_entry := p1 && p2 && p3 && p4 && p5 && p6;
         es_breakout_price_condition := false;
         es_close_above_ema20 := p1;
         es_volume_ok := volume_ok;
         es_pullback_conditions := Build_PullbackConditions p1 p2 p3 p4 p5 p6;
         es_high20 := None;
         es_ema_touch_upper := Some ema_touch_upper |}
  end.

(** The two price arguments of the source's function are unused there too. *)
Definition resolve_entry_priority (breakout pullback : EntrySetupResult)
    (entry_price : decimal) (stop_initial : option decimal) : option (EntryType * ReasonCode) :=
  if es_breakout_entry breakout then Some (BREAKOUT, RC_ENTRY_BREAKOUT_20D)
  else if es_pullback_entry pullback then Some (PULLBACK, RC_ENTRY_PULLBACK_EMA20)
  else None.

(** ** Lemmas *)
Local Open Scope Q_scope.

Lemma above_true c l : above c l = true <-> exists x, l = Some x /\ x < c.
Proof.
  destruct l as [x|]; cbn; split.
  - intros H. exists x. by dec_bool.
  - intros (y & [= ->] & H). by dec_bool.
  - done.
  - by intros (y & H & _).
Qed.

Lemma regime_long_spec mc ema :
  rr_regime_long (evaluate_monthly_regime mc ema) = true <->
  exists c e, mc = Some c /\ ema = Some e /\ e < c.
Proof.
  destruct mc as [c|], ema as [e|]; cbn; (split; [intros H|]); try done; try (by intros (? & ? & ? & ? & _)).
  - exists c, e. by dec_bool.
  - intros (c' & e' & [= ->] & [= ->] & H). by dec_bool.
Qed.

Lemma trend_confirmed_spec fast slow :
  tr_trend_confirmed (evaluate_weekly_trend fast slow) = true <->
  exists f s, fast = Some f /\ slow = Some s /\ s < f.
Proof.
  destruct fast as [f|], slow as [s|]; cbn; (split; [intros H|]); try done; try (by intros (? & ? & ? & ? & _)).
  - exists f, s. by dec_bool.
  - intros (c' & e' & [= ->] & [= ->] & H). by dec_bool.
Qed.

Lemma volume_ok_spec r m :
  evaluate_volume_ok r m = true <-> exists v, r = Some v /\ m <= v.
Proof.
  destruct r as [v|]; cbn; split.
  - intros H. exists v. by dec_bool.
  - intros (y & [= ->] & H). by dec_bool.
  - done.
  - by intros (y & H & _).
Qed.

(** A setup is the conjunction of its conditions. *)
Lemma breakout_entry_spec c high ema r t v :
  es_breakout_entry (evaluate_breakout_setup c high ema r t v) = true <->
  (exists h, high = Some h /\ h < c) /\ (exists e, ema = Some e /\ e < c) /\
  rr_regime_long r = true /\ tr_trend_confirmed t = true /\ v = true.
Proof. cbn. rewrite !andb_true_iff, !above_true. tauto. Qed.

Lemma pullback_entry_spec c low cp ema emap r t v p :
  es_pullback_entry (evaluate_pullback_setup c low cp ema emap r t v p) = true <->
  exists e, ema = Some e /\ e < c /\
    low <= dmul e (dadd (d_of_Z 1) (sp_pullback_ema_tolerance p)) /\
    (exists c' e', cp = Some c' /\ emap = Some e' /\ e' < c') /\
    rr_regime_long r = true /\ tr_trend_confirmed t = true /\ v = true.
Proof.
  destruct ema as [e|]; cbn; [|split; [done|by intros (? & ? & _)]].
  rewrite !andb_true_iff. split.
  - intros (((((H1 & H2) & H3) & H4) & H5) & H6). exists e. dec_bool.
    split_and!; try done. destruct cp as [c'|]; [|done].
    apply above_true in H3 as (e' & -> & H3). by exists c', e'.
  - intros (e0 & [= <-] & H1 & H2 & (c' & e' & -> & -> & H3) & H4 & H5 & H6).
    split_and!; try done; cbn; by dec_bool.
Qed.
