(* ===== verification/Stops.v ===== *)
(** * ATR stops (services/strategy_engine/stops.py)

    Tick rounding, the initial stop and the trailing stop state machine.  A
    trailing stop is run over a list of daily bars (close and ATR) by
    [trail_run]. *)
From Stdlib Require Import ZArith QArith Lqa.
From stdpp Require Import base list strings.
From S2P Require Import Prelude Decimal StrategyModels.

(** ** Definitions *)

Definition round_to_tick (price tick_size : decimal) : res decimal :=
  if tick_size ≤ᵈ 0%Q then Raise (ValueError "tick_size must be positive")
  else
    q ← price /ᵈ tick_size;
    let steps := to_integral_down q in
    Ok (steps *ᵈ tick_size).

(** [if tick_size is not None: stop = round_to_tick(stop, tick_size)]. *)
Definition round_optional (stop : decimal) (tick_size : option decimal) : res decimal :=
  match tick_size with
  | Some tick => round_to_tick stop tick
  | None => Ok stop
  end.

Definition compute_initial_stop (entry_price atr14 : decimal) (params : StrategyParameters)
    (tick_size : option decimal) : res decimal :=
  let stop := entry_price -ᵈ (sp_stop_initial_atr_mult params *ᵈ atr14) in
  round_optional stop tick_size.

Definition initialize_trailing_stop (entry_price atr14_at_entry stop_initial : decimal)
    (params : StrategyParameters) (tick_size : option decimal) : res TrailingStopState :=
  let highest_close := entry_price in
  let trail_stop := highest_close -ᵈ (sp_trail_atr_mult params *ᵈ atr14_at_entry) in
  let trail_stop := dmax trail_stop stop_initial in
  trail_stop ← round_optional trail_stop tick_size;
  let effective := dmax stop_initial trail_stop in
  Ok {| ts_entry_price := entry_price;
        ts_stop_initial := stop_initial;
        ts_highest_close := highest_close;
        ts_trail_stop := trail_stop;
        ts_effective_stop := effective |}.

Definition update_trailing_stop (state : TrailingStopState) (close_t atr14_daily_t : decimal)
    (params : StrategyParameters) (tick_size : option decimal) : res TrailingStopState :=
  let atr_current := atr14_daily_t in
  let highest_close := dmax (ts_highest_close state) close_t in
  let trail_candidate := highest_close -ᵈ (sp_trail_atr_mult params *ᵈ atr_current) in
  let trail_stop := dmax (ts_trail_stop state) trail_candidate in
  let trail_stop := dmax trail_stop (ts_stop_initial state) in
  trail_stop ← round_optional trail_stop tick_size;
  let effective_stop := dmax (ts_stop_initial state) trail_stop in
  Ok {| ts_entry_price := ts_entry_price state;
        ts_stop_initial := ts_stop_initial state;
        ts_highest_close := highest_close;
        ts_trail_stop := trail_stop;
        ts_effective_stop := effective_stop |}.

(** A bar is the close and the ATR of a closed day. *)
Definition trail_run (params : StrategyParameters) (tick_size : option decimal)
    (bars : list (decimal * decimal)) (state : TrailingStopState) : res TrailingStopState :=
  foldM (fun st bar => update_trailing_stop st bar.1 bar.2 params tick_size) bars state.

(** ** Tick rounding *)
Local Open Scope Q_scope.

Lemma round_to_tick_eq p t : 0 < t -> round_to_tick p t = Ok (step_floor t p).
Proof.
  intros Ht. unfold round_to_tick. destruct (t ≤ᵈ 0) eqn:E; [dec_bool; lra|].
  by rewrite ddiv_pos_ok.
Qed.

Lemma round_to_tick_inv p t r : round_to_tick p t = Ok r -> 0 < t /\ r = step_floor t p.
Proof.
  intros H. assert (Ht : 0 < t).
  { unfold round_to_tick in H. destruct (t ≤ᵈ 0) eqn:E; [done|by dec_bool]. }
  rewrite round_to_tick_eq in H by done. by inv_res.
Qed.

Definition multiple_of (t x : Q) : Prop := exists k, x == inject_Z k * t.

(** For a tick size that is a power of ten (the only ones the exchange
    uses) rounding never fails, and a non-negative price of at most 28 digits
    goes to the largest multiple of the tick that is not above it. *)
Theorem round_to_tick_floor p t :
  pow10_step t -> representable p -> 0 <= p ->
  returns (round_to_tick p t) (fun r =>
    multiple_of t r /\ r <= p /\ (forall m, multiple_of t m -> m <= p -> m <= r)).
Proof.
  intros Ht Hp H0. pose proof (pow10_step_pos t Ht) as Hpos. rewrite round_to_tick_eq by done.
  apply returns_ret. destruct (pow10_floor_bounds t Ht p Hp H0) as [H1 H2].
  destruct (pow10_floor_grid t Ht p) as (k & Hk & _).
  split_and!; [by exists k|done|]. intros m [j Hj] Hm. rewrite Hj, Hk in *.
  assert (j < k + 1)%Z; [|apply Qmult_le_compat_r; [rewrite <- Zle_Qle; lia|lra]].
  rewrite Zlt_Qlt, inject_Z_plus. change (inject_Z 1) with 1. nra.
Qed.

Lemma round_to_tick_floor_witness :
  returns (round_to_tick (1234567 # 1000) (1 # 100)) (fun r =>
    multiple_of (1 # 100) r /\ r <= 1234567 # 1000 /\
    (forall m, multiple_of (1 # 100) m -> m <= 1234567 # 1000 -> m <= r)).
Proof.
  apply round_to_tick_floor.
  - exists (-2)%Z. reflexivity.
  - exists 1234567%Z, (-3)%Z. split; [reflexivity|vm_compute; discriminate].
  - vm_compute. discriminate.
Defined.

(** The tick sizes the engine is used with: none, or a power of ten. *)
Definition valid_tick (tick_size : option decimal) : Prop :=
  match tick_size with Some t => pow10_step t | None => True end.

(** Values that tick rounding does not change. *)
Definition tick_fixed (tick_size : option decimal) (v : decimal) : Prop :=
  match tick_size with Some t => on_grid t v | None => True end.

Section ValidTick.
Context (tick : option decimal) (Htick : valid_tick tick).

Lemma round_optional_returns v : returns (round_optional v tick) (tick_fixed tick).
Proof.
  destruct tick as [t|]; cbn in *; [|by apply returns_ret].
  rewrite round_to_tick_eq by (by apply pow10_step_pos).
  apply returns_ret. by apply pow10_floor_grid.
Qed.

(** Rounding does not go below a value that is on the grid. *)
Lemma round_optional_ge g v r :
  tick_fixed tick g -> g <= v -> round_optional v tick = Ok r -> g <= r.
Proof.
  destruct tick as [t|]; cbn in *; intros Hg Hle Hr; [|by inv_res].
  apply round_to_tick_inv in Hr as [Ht ->]. by apply on_grid_le_floor.
Qed.

(** Rounding does not go above a non-negative bound. *)
Lemma round_optional_le b v r :
  representable v -> v <= b -> 0 <= b -> round_optional v tick = Ok r -> r <= b.
Proof.
  destruct tick as [t|]; cbn in *; intros Hv Hle Hb Hr; [|by inv_res].
  apply round_to_tick_inv in Hr as [Ht ->].
  destruct (Qlt_le_dec v 0) as [Hneg|Hnn].
  - transitivity 0; [|done]. etransitivity; [apply (step_floor_mono t Ht v 0); lra|].
    unfold step_floor, dmul. apply rnd_nonpos.
    assert (0 / t == 0) as -> by (field; lra). rewrite rnd_zero by reflexivity.
    change (trunc 0) with 0%Z. change (inject_Z 0) with 0. lra.
  - destruct (pow10_floor_bounds t Htick v Hv Hnn). lra.
Qed.
End ValidTick.

(** ** The trailing stop *)

Lemma dmax_representable a b : representable a -> representable b -> representable (dmax a b).
Proof. by destruct (dmax_spec a b) as (_ & _ & [-> | ->]). Qed.

(** The invariant of the trailing stop of a position entered at [entry] with
    initial stop [initial]. *)
Record trail_inv (entry initial : decimal) (tick : option decimal) (st : TrailingStopState) : Prop := {
  ti_entry : ts_entry_price st = entry;
  ti_initial : ts_stop_initial st = initial;
  ti_fixed : tick_fixed tick (ts_trail_stop st);
  ti_effective : ts_effective_stop st = dmax (ts_stop_initial st) (ts_trail_stop st);
  ti_high : entry <= ts_highest_close st;
}.

Lemma initialize_trailing_stop_inv entry atr initial params tick :
  valid_tick tick ->
  returns (initialize_trailing_stop entry atr initial params tick) (trail_inv entry initial tick).
Proof.
  intros Ht. unfold initialize_trailing_stop.
  eapply returns_bind; [by apply round_optional_returns|]. intros t Hfix.
  apply returns_ret. by split; cbn; try lra.
Qed.

Lemma update_trailing_stop_inv entry initial tick params st c atr :
  valid_tick tick -> trail_inv entry initial tick st ->
  returns (update_trailing_stop st c atr params tick) (fun st' =>
    trail_inv entry initial tick st' /\ ts_trail_stop st <= ts_trail_stop st' /\
    ts_highest_close st' = dmax (ts_highest_close st) c).
Proof.
  intros Ht [He Hi Hf Hef Hh]. unfold update_trailing_stop.
  set (v := dmax (dmax _ _) _).
  destruct (round_optional_returns tick Ht v) as (t & Hr & Hfix). rewrite Hr. cbn.
  apply returns_ret. split_and!; [|cbn|done].
  - split; cbn; auto. etransitivity; [exact Hh|]. apply dmax_l.
  - eapply round_optional_ge; [done|exact Hf| |exact Hr].
    unfold v. etransitivity; [|apply dmax_l]. apply dmax_l.
Qed.

Lemma trail_inv_effective_mono entry initial tick st st' :
  trail_inv entry initial tick st -> trail_inv entry initial tick st' ->
  ts_trail_stop st <= ts_trail_stop st' -> ts_effective_stop st <= ts_effective_stop st'.
Proof.
  intros [_ Hi _ He _] [_ Hi' _ He' _] H. rewrite He, He', Hi, Hi'.
  apply dmax_lub; [apply dmax_l|]. etransitivity; [exact H|apply dmax_r].
Qed.

Lemma trail_run_inv entry initial tick params bars st :
  valid_tick tick -> trail_inv entry initial tick st ->
  returns (trail_run params tick bars st) (fun st' =>
    trail_inv entry initial tick st' /\ ts_trail_stop st <= ts_trail_stop st' /\
    ts_highest_close st' = fold_left dmax bars.*1 (ts_highest_close st)).
Proof.
  intros Ht. unfold trail_run. revert st. induction bars as [|[c atr] bars IH]; intros st Hst; cbn.
  { apply returns_ret. split_and!; [done|lra|done]. }
  eapply returns_bind; [by apply update_trailing_stop_inv|].
  intros st1 (H1 & Hle & Hh). eapply returns_mono; [by apply IH|].
  intros st2 (H2 & Hle2 & Hh2). split_and!; [done|lra|]. by rewrite Hh2, Hh.
Qed.

(** [C35] The trailing stop is a ratchet: from the state made at entry, any
    sequence of daily updates returns, each further sequence of updates never
    lowers the effective stop, which never goes below the initial stop; the
    recorded high is the maximum of the entry price and the closes seen. *)
Theorem trailing_stop_ratchet entry atr initial params tick bars more :
  valid_tick tick ->
  returns (initialize_trailing_stop entry atr initial params tick ≫= trail_run params tick bars) (fun st1 =>
    initial <= ts_effective_stop st1 /\ ts_stop_initial st1 = initial /\
    ts_highest_close st1 = fold_left dmax bars.*1 entry /\
    returns (trail_run params tick more st1) (fun st2 =>
      ts_effective_stop st1 <= ts_effective_stop st2 /\ ts_stop_initial st2 = initial)).
Proof.
  intros Ht. destruct (initialize_trailing_stop_inv entry atr initial params tick Ht) as (st0 & H0 & Hinv0).
  rewrite H0. cbn. eapply returns_mono; [by apply trail_run_inv|].
  intros st1 (H1 & _ & Hh1). split_and!.
  - rewrite (ti_effective _ _ _ _ H1), (ti_initial _ _ _ _ H1). apply dmax_l.
  - by apply (ti_initial _ _ _ _ H1).
  - rewrite Hh1. f_equal. unfold initialize_trailing_stop in H0. by apply bind_ok in H0 as (? & _ & [= <-]).
  - eapply returns_mono; [by apply trail_run_inv|]. intros st2 (H2 & Hle & _).
    split; [by eapply trail_inv_effective_mono|]. by apply (ti_initial _ _ _ _ H2).
Qed.

Lemma trailing_stop_ratchet_witness :
  let r := initialize_trailing_stop (100 # 1) (2 # 1) (95 # 1) default_strategy_parameters (Some (1 # 10))
    ≫= trail_run default_strategy_parameters (Some (1 # 10)) [((110 # 1), (2 # 1))] in
  returns r (fun st1 =>
    (95 # 1) <= ts_effective_stop st1 /\ ts_stop_initial st1 = 95 # 1 /\
    ts_highest_close st1 = fold_left dmax ([((110 # 1), (2 # 1))] : list (Q * Q)).*1 (100 # 1) /\
    returns (trail_run default_strategy_parameters (Some (1 # 10)) [((90 # 1), (9 # 1))] st1) (fun st2 =>
      ts_effective_stop st1 <= ts_effective_stop st2 /\ ts_stop_initial st2 = 95 # 1)).
Proof. apply trailing_stop_ratchet. exists (-1)%Z. reflexivity. Defined.

(** The stop follows the price from below: with a non-negative ATR it is never
    above the highest close. *)
Lemma trail_below_high entry initial tick params st c atr st' :
  valid_tick tick -> trail_inv entry initial tick st ->
  representable (ts_trail_stop st) -> representable initial -> 0 <= sp_trail_atr_mult params -> 0 <= atr ->
  representable c -> representable (ts_highest_close st) ->
  0 <= entry -> initial <= entry -> ts_trail_stop st <= ts_highest_close st ->
  update_trailing_stop st c atr params tick = Ok st' ->
  ts_trail_stop st' <= ts_highest_close st' /\ ts_effective_stop st' <= ts_highest_close st'.
Proof.
  intros Ht [He Hi Hf Hef Hh] Hr1 Hr2 Hm Ha Hc Hrh H0 Hie Hle H.
  unfold update_trailing_stop in H. rewrite Hi in H. apply bind_ok in H as (t & Hr & Hst).
  inv_res. cbn. set (hc := dmax (ts_highest_close st) c) in *.
  pose proof (dmax_l (ts_highest_close st) c) as Hl. fold hc in Hl.
  assert (Hhc : representable hc) by (by apply dmax_representable).
  assert (t <= hc).
  { eapply round_optional_le; [done| | | |exact Hr]; [..|lra].
    - repeat apply dmax_representable; [done|apply representable_rnd|done].
    - repeat apply dmax_lub; [lra| |lra]. apply dsub_le; [done|]. by apply dmul_nonneg. }
  split; [done|]. apply dmax_lub; lra.
Qed.
