(* ===== verification/StrategyEngine.v ===== *)
(** * The strategy engine (services/strategy_engine/engine.py)

    [evaluate] is the orchestrator: it validates the three series, computes
    the indicators of the last candle ([compute_view]) and decides the signal
    ([evaluate_view]). *)
From Stdlib Require Import ZArith QArith Lqa Lia Sorting.Sorted.
From stdpp Require Import base list sets strings.
From S2P Require Import Prelude Decimal StrategyModels Indicators StrategyValidation Entry Stops.

(** ** Definitions *)

Definition _last_index (series : CandleSeries) : Z := Z.of_nat (length (cs_candles series)) - 1.
Definition _closes (series : CandleSeries) : list decimal := c_close <$> cs_candles series.
Definition _highs (series : CandleSeries) : list decimal := c_high <$> cs_candles series.
Definition _volumes (series : CandleSeries) : list decimal := c_volume <$> cs_candles series.

Definition _empty_regime : RegimeResult :=
  {| rr_regime_long := false; rr_monthly_close := None; rr_ema20_monthly := None;
     rr_reason_code := Some RC_REJECT_WARMUP |}.
Definition _empty_trend : TrendResult :=
  {| tr_trend_confirmed := false; tr_ema20_weekly := None; tr_ema50_weekly := None;
     tr_reason_code := Some RC_REJECT_WARMUP |}.
Definition _empty_setup : EntrySetupResult :=
  {| es_breakout_entry := false; es_pullback_entry := false; es_breakout_price_condition := false;
     es_close_above_ema20 := false; es_volume_ok := false; es_pullback_conditions := no_pullback;
     es_high20 := None; es_ema_touch_upper := None |}.
Definition empty_snapshot : IndicatorSnapshot :=
  {| is_evaluation_index := -1; is_ema20_daily := None; is_ema20_weekly := None;
     is_ema50_weekly := None; is_ema20_monthly := None; is_atr14_daily := None;
     is_volume_sma20 := None; is_volume_ratio := None; is_high20 := None; is_monthly_close := None |}.

(** The optional keyword arguments of the source come last, as options. *)
Definition _build_no_entry_evaluation (symbol : string) (evaluation_time : datetime)
    (parameters : StrategyParameters) (data_quality_status : DataQualityStatus)
    (signal_kind : SignalIntentKind) (reason_codes : list ReasonCode) (errors : list StrategyError)
    (monthly_regime : option RegimeResult) (weekly_trend : option TrendResult)
    (indicators : option IndicatorSnapshot) (breakout_result pullback_result : option EntrySetupResult)
    (volume_ratio atr : option decimal) : StrategyEvaluation :=
  {| ev_symbol := symbol;
     ev_evaluation_time := evaluation_time;
     ev_strategy_version := STRATEGY_VERSION;
     ev_parameters := parameters;
     ev_monthly_regime := default _empty_regime monthly_regime;
     ev_weekly_trend := default _empty_trend weekly_trend;
     ev_breakout_result := default _empty_setup breakout_result;
     ev_pullback_result := default _empty_setup pullback_result;
     ev_indicators := default empty_snapshot indicators;
     ev_volume_ratio := volume_ratio;
     ev_atr := atr;
     ev_selected_entry_type := None;
     ev_signal_intent :=
       {| si_kind := signal_kind; si_entry_type := None; si_entry_price := None;
          si_stop_initial := None; si_primary_reason_code := head reason_codes |};
     ev_reason_codes := reason_codes;
     ev_data_quality_status := data_quality_status;
     ev_errors := errors |}.

(** What the engine reads off the three series at the last candle. *)
Record View := {
  v_candle : Candle;
  v_close_prev : option decimal;
  v_ema_prev : option decimal;
  v_monthly_close : decimal;
  v_indicators : IndicatorSnapshot;
}.

Definition compute_view (daily weekly monthly : CandleSeries) (params : StrategyParameters) : res View :=
  let t := _last_index daily in
  let daily_closes := _closes daily in
  candle_t ← py_index (cs_candles daily) t;
  ema20_daily_series ← compute_ema daily_closes (sp_daily_ema_period params);
  atr14_series ← compute_wilder_atr (cs_candles daily) (sp_atr_period params);
  volume_ratio_series ← compute_volume_ratio (_volumes daily) (sp_volume_sma_period params);
  high20_series ← compute_high20 (_highs daily) (sp_breakout_lookback params);
  let weekly_closes := _closes weekly in
  ema20_weekly_series ← compute_ema weekly_closes (sp_weekly_ema_fast params);
  ema50_weekly_series ← compute_ema weekly_closes (sp_weekly_ema_slow params);
  let w_idx := _last_index weekly in
  let monthly_closes := _closes monthly in
  ema20_monthly_series ← compute_ema monthly_closes (sp_monthly_ema_period params);
  let m_idx := _last_index monthly in
  ema20_daily ← py_index ema20_daily_series t;
  ema20_daily_prev ← (if (1 <=? t)%Z then py_index ema20_daily_series (t - 1) else Ok None);
  atr14 ← py_index atr14_series t;
  volume_ratio ← py_index volume_ratio_series t;
  high20 ← py_index high20_series t;
  ema20_weekly ← py_index ema20_weekly_series w_idx;
  ema50_weekly ← py_index ema50_weekly_series w_idx;
  ema20_monthly ← py_index ema20_monthly_series m_idx;
  monthly_close ← py_index monthly_closes m_idx;
  close_prev ← (if (1 <=? t)%Z then Some <$> py_index daily_closes (t - 1) else Ok None);
  Ok {| v_candle := candle_t;
        v_close_prev := close_prev;
        v_ema_prev := ema20_daily_prev;
        v_monthly_close := monthly_close;
        v_indicators :=
          {| is_evaluation_index := t;
             is_ema20_daily := ema20_daily;
             is_ema20_weekly := ema20_weekly;
             is_ema50_weekly := ema50_weekly;
             is_ema20_monthly := ema20_monthly;
             is_atr14_daily := atr14;
             is_volume_sma20 := None;
             is_volume_ratio := volume_ratio;
             is_high20 := high20;
             is_monthly_close := Some monthly_close |} |}.

(** The reason codes of an evaluation without a setup. *)
Definition no_entry_reasons (regime : RegimeResult) (trend : TrendResult) (volume_ok : bool) : list ReasonCode :=
  let reason_codes :=
    (if rr_regime_long regime then [] else option_list (rr_reason_code regime)) ++
    (if tr_trend_confirmed trend then [] else option_list (tr_reason_code trend)) ++
    (if volume_ok then [] else [RC_REJECT_VOLUME]) in
  match reason_codes with [] => [RC_REJECT_NO_SIGNAL] | _ => reason_codes end.

(** The indicators the decision needs, or [None] when one has not warmed up
    or the ATR is not positive. *)
Definition warm (ind : IndicatorSnapshot) : option (decimal * decimal * decimal) :=
  match is_ema20_daily ind, is_atr14_daily ind, is_volume_ratio ind,
        is_ema20_weekly ind, is_ema50_weekly ind, is_ema20_monthly ind with
  | Some ema20_daily, Some atr14, Some volume_ratio, Some _, Some _, Some _ =>
      if atr14 ≤ᵈ 0%Q then None else Some (ema20_daily, atr14, volume_ratio)
  | _, _, _, _, _, _ => None
  end.

Definition evaluate_view (symbol : string) (evaluation_time : datetime) (params : StrategyParameters)
    (all_errors : list StrategyError) (view : View) : res StrategyEvaluation :=
  let ind := v_indicators view in
  let regime := evaluate_monthly_regime (Some (v_monthly_close view)) (is_ema20_monthly ind) in
  let trend := evaluate_weekly_trend (is_ema20_weekly ind) (is_ema50_weekly ind) in
  match warm ind with
  | None =>
      Ok (_build_no_entry_evaluation symbol evaluation_time params DQ_INSUFFICIENT_HISTORY
            SK_INSUFFICIENT_HISTORY [RC_REJECT_WARMUP] all_errors (Some regime) (Some trend)
            (Some ind) None None (is_volume_ratio ind) (is_atr14_daily ind))
  | Some (ema20_daily, atr14, volume_ratio) =>
      let volume_ok := evaluate_volume_ok (Some volume_ratio) (sp_volume_ratio_min params) in
      let close_t := c_close (v_candle view) in
      let breakout_result :=
        evaluate_breakout_setup close_t (is_high20 ind) (Some ema20_daily) regime trend volume_ok in
      let pullback_result :=
        evaluate_pullback_setup close_t (c_low (v_candle view)) (v_close_prev view) (Some ema20_daily)
          (v_ema_prev view) regime trend volume_ok params in
      let entry_price := close_t in
      stop_initial ← compute_initial_stop entry_price atr14 params None;
      match resolve_entry_priority breakout_result pullback_result entry_price (Some stop_initial) with
      | Some (selected_entry_type, primary_reason) =>
          if entry_price ≤ᵈ stop_initial then
            Ok (_build_no_entry_evaluation symbol evaluation_time params DQ_OK NO_ENTRY
                  [RC_REJECT_DATA] all_errors (Some regime) (Some trend) (Some ind)
                  (Some breakout_result) (Some pullback_result) (Some volume_ratio) (Some atr14))
          else
            Ok {| ev_symbol := symbol;
                  ev_evaluation_time := evaluation_time;
                  ev_strategy_version := STRATEGY_VERSION;
                  ev_parameters := params;
                  ev_monthly_regime := regime;
                  ev_weekly_trend := trend;
                  ev_breakout_result := breakout_result;
                  ev_pullback_result := pullback_result;
                  ev_indicators := ind;
                  ev_volume_ratio := Some volume_ratio;
                  ev_atr := Some atr14;
                  ev_selected_entry_type := Some selected_entry_type;
                  ev_signal_intent :=
                    {| si_kind := LONG_ENTRY;
                       si_entry_type := Some selected_entry_type;
                       si_entry_price := Some entry_price;
                       si_stop_initial := Some stop_initial;
                       si_primary_reason_code := Some primary_reason |};
                  ev_reason_codes := [primary_reason];
                  ev_data_quality_status := DQ_OK;
                  ev_errors := all_errors |}
      | None =>
          let reason_codes := no_entry_reasons regime trend volume_ok in
          Ok {| ev_symbol := symbol;
                ev_evaluation_time := evaluation_time;
                ev_strategy_version := STRATEGY_VERSION;
                ev_parameters := params;
                ev_monthly_regime := regime;
                ev_weekly_trend := trend;
                ev_breakout_result := breakout_result;
                ev_pullback_result := pullback_result;
                ev_indicators := ind;
                ev_volume_ratio := Some volume_ratio;
                ev_atr := Some atr14;
                ev_selected_entry_type := None;
                ev_signal_intent :=
                  {| si_kind := NO_ENTRY; si_entry_type := None; si_entry_price := None;
                     si_stop_initial := None; si_primary_reason_code := last reason_codes |};
                ev_reason_codes := reason_codes;
                ev_data_quality_status := DQ_OK;
                ev_errors := all_errors |}
      end
  end.

Definition evaluate (daily weekly monthly : CandleSeries) (evaluation_time : datetime)
    (parameters : option StrategyParameters) : res StrategyEvaluation :=
  let params := default default_strategy_parameters parameters in
  let symbol := cs_symbol daily in
  match list_find (fun series => cs_symbol series <> symbol) [weekly; monthly] with
  | Some (_, series) =>
      Ok (_build_no_entry_evaluation symbol evaluation_time params DQ_INVALID_DATA SK_INVALID_DATA
            [RC_REJECT_DATA]
            [data_error "Symbol mismatch across timeframes"
               [("daily", DStr (cs_symbol daily)); ("other", DStr (cs_symbol series))]%string]
            None None None None None None None)
  | None =>
      let '(daily_status, daily_errors) :=
        validate_candle_series daily evaluation_time (Some DAILY) in
      let '(weekly_status, weekly_errors) :=
        validate_candle_series weekly evaluation_time (Some WEEKLY) in
      let '(monthly_status, monthly_errors) :=
        validate_candle_series monthly evaluation_time (Some MONTHLY) in
      let all_errors := daily_errors ++ weekly_errors ++ monthly_errors in
      if decide (DQ_INVALID_DATA ∈ [daily_status; weekly_status; monthly_status]) then
        Ok (_build_no_entry_evaluation symbol evaluation_time params DQ_INVALID_DATA SK_INVALID_DATA
              [RC_REJECT_DATA] all_errors None None None None None None None)
      else if (bool_decide (daily_status = DQ_INSUFFICIENT_HISTORY)
               || bool_decide (weekly_status <> DQ_OK) || bool_decide (monthly_status <> DQ_OK))
              && negb (check_warmup_complete (cs_length daily) (cs_length weekly) (cs_length monthly) (Some params))
      then
        Ok (_build_no_entry_evaluation symbol evaluation_time params DQ_INSUFFICIENT_HISTORY
              SK_INSUFFICIENT_HISTORY [RC_REJECT_WARMUP] all_errors None None None None None None None)
      else
        view ← compute_view daily weekly monthly params;
        evaluate_view symbol evaluation_time params all_errors view
  end.

(** ** Meaning *)
Local Open Scope Q_scope.

(** Inputs the engine accepts: one symbol, three well-formed series. *)
Record inputs_wf (daily weekly monthly : CandleSeries) (t : datetime) : Prop := {
  iw_weekly_symbol : cs_symbol weekly = cs_symbol daily;
  iw_monthly_symbol : cs_symbol monthly = cs_symbol daily;
  iw_daily : series_wf daily t DAILY;
  iw_weekly : series_wf weekly t WEEKLY;
  iw_monthly : series_wf monthly t MONTHLY;
}.

(** Parameters the indicators are defined for: positive periods. *)
Record params_wf (p : StrategyParameters) : Prop := {
  pw_monthly : (0 < sp_monthly_ema_period p)%nat;
  pw_fast : (0 < sp_weekly_ema_fast p)%nat;
  pw_slow : (0 < sp_weekly_ema_slow p)%nat;
  pw_daily : (0 < sp_daily_ema_period p)%nat;
  pw_lookback : (0 < sp_breakout_lookback p)%nat;
  pw_atr : (0 < sp_atr_period p)%nat;
  pw_volume : (0 < sp_volume_sma_period p)%nat;
}.

(** [m] computes a series whose last value is [x]. *)
Definition last_value (m : res (list (option decimal))) (x : option decimal) : Prop :=
  exists r, m = Ok r /\ last r = Some x.

(** [x] is the value before the last one of the series [m] computes, [None]
    for a series of one value. *)
Definition prev_value (m : res (list (option decimal))) (x : option decimal) : Prop :=
  exists r, m = Ok r /\ x = mjoin (last (removelast r)).

(** What the view of three series is. *)
Record view_of (daily weekly monthly : CandleSeries) (p : StrategyParameters) (v : View) : Prop := {
  vo_candle : last (cs_candles daily) = Some (v_candle v);
  vo_close_prev : v_close_prev v = last (removelast (_closes daily));
  vo_monthly_close : last (_closes monthly) = Some (v_monthly_close v);
  vo_ema : last_value (compute_ema (_closes daily) (sp_daily_ema_period p)) (is_ema20_daily (v_indicators v));
  vo_ema_prev : prev_value (compute_ema (_closes daily) (sp_daily_ema_period p)) (v_ema_prev v);
  vo_atr : last_value (compute_wilder_atr (cs_candles daily) (sp_atr_period p)) (is_atr14_daily (v_indicators v));
  vo_volume : last_value (compute_volume_ratio (_volumes daily) (sp_volume_sma_period p)) (is_volume_ratio (v_indicators v));
  vo_high : last_value (compute_high20 (_highs daily) (sp_breakout_lookback p)) (is_high20 (v_indicators v));
  vo_fast : last_value (compute_ema (_closes weekly) (sp_weekly_ema_fast p)) (is_ema20_weekly (v_indicators v));
  vo_slow : last_value (compute_ema (_closes weekly) (sp_weekly_ema_slow p)) (is_ema50_weekly (v_indicators v));
  vo_monthly : last_value (compute_ema (_closes monthly) (sp_monthly_ema_period p)) (is_ema20_monthly (v_indicators v));
}.

Lemma py_index_last {A B} (l : list A) (l' : list B) :
  length l = length l' -> l' <> [] ->
  exists x, py_index l (Z.of_nat (length l') - 1) = Ok x /\ last l = Some x.
Proof.
  intros Hlen Hne. assert (length l' <> 0)%nat by (by destruct l').
  destruct (py_index_returns l (Z.of_nat (length l') - 1)) as (x & Hx & Hl); [lia|].
  exists x. split; [done|]. rewrite last_lookup, <- Hl. f_equal. lia.
Qed.

Lemma last_removelast_lookup {A} (l : list A) : last (removelast l) = if decide (length l <= 1)%nat then None else l !! (length l - 2)%nat.
Proof.
  destruct l as [|x l _] using rev_ind; [done|]. rewrite removelast_last, length_app. cbn.
  destruct l as [|y l _] using rev_ind; [by rewrite decide_True by (cbn; lia)|].
  rewrite length_app. cbn. rewrite decide_False by lia. rewrite last_snoc.
  rewrite lookup_app_l by (rewrite length_app; cbn; lia).
  by rewrite list_lookup_middle by lia.
Qed.

Lemma py_index_prev {A B} (l : list A) (l' : list B) :
  length l = length l' -> (2 <= length l')%nat ->
  exists x, py_index l (Z.of_nat (length l') - 1 - 1) = Ok x /\ last (removelast l) = Some x.
Proof.
  intros Hlen H2.
  destruct (py_index_returns l (Z.of_nat (length l') - 1 - 1)) as (x & Hx & Hl); [lia|].
  exists x. split; [done|]. rewrite last_removelast_lookup, decide_False by lia. rewrite <- Hl. f_equal. lia.
Qed.

Section WfSeries.
Context (s : CandleSeries) (t : datetime) (tf : Timeframe) (Hwf : series_wf s t tf).

Lemma series_wf_closes : Forall (fun x => 0 < x) (_closes s).
Proof.
  apply Forall_fmap. eapply Forall_impl; [apply (sw_candles _ _ _ Hwf)|].
  intros c (_ & _ & _ & _ & Hc). cbn. destruct Hc. lra.
Qed.

Lemma series_wf_lows : Forall (fun c => c_low c <= c_high c) (cs_candles s).
Proof.
  eapply Forall_impl; [apply (sw_candles _ _ _ Hwf)|].
  intros c (_ & _ & _ & _ & Hc). cbn. destruct Hc. lra.
Qed.

Lemma series_wf_volumes : Forall (fun v => 0 <= v) (_volumes s).
Proof.
  apply Forall_fmap. eapply Forall_impl; [apply (sw_candles _ _ _ Hwf)|].
  intros c (_ & _ & _ & _ & Hc). cbn. by destruct Hc.
Qed.
End WfSeries.

(** A causal indicator of a non-empty series has a last value. *)
Lemma last_value_index (m : res (list (option decimal))) (s : CandleSeries) r :
  m = Ok r -> length r = length (cs_candles s) -> cs_candles s <> [] ->
  exists x, py_index r (_last_index s) = Ok x /\ last_value m x.
Proof.
  intros Hm Hlen Hne. destruct (py_index_last r (cs_candles s) Hlen Hne) as (x & Hx & Hl).
  exists x. split; [done|]. by exists r.
Qed.

Lemma compute_high20_length l lb r : compute_high20 l lb = Ok r -> length r = length l.
Proof. rewrite compute_high20_windowed. apply windowed_length. Qed.

Lemma compute_view_returns daily weekly monthly t p :
  inputs_wf daily weekly monthly t -> params_wf p ->
  returns (compute_view daily weekly monthly p) (view_of daily weekly monthly p).
Proof.
  intros [_ _ Hd Hw Hm] [P1 P2 P3 P4 P5 P6 P7].
  pose proof (sw_nonempty _ _ _ Hd) as Nd. pose proof (sw_nonempty _ _ _ Hw) as Nw.
  pose proof (sw_nonempty _ _ _ Hm) as Nm.
  assert (Ld : length (_closes daily) = length (cs_candles daily)) by apply length_fmap.
  destruct (py_index_last (cs_candles daily) (cs_candles daily) eq_refl Nd) as (c & Hc & Hcl).
  destruct (compute_ema_returns (_closes daily) _ P4) as [r1 H1].
  destruct (compute_wilder_atr_nonneg _ _ P6 (series_wf_lows _ _ _ Hd)) as (r2 & H2 & _).
  destruct (compute_volume_ratio_nonneg _ _ P7 (series_wf_volumes _ _ _ Hd)) as (r3 & H3 & _).
  destruct (compute_high20_returns (_highs daily) _ P5) as [r4 H4].
  destruct (compute_ema_returns (_closes weekly) _ P2) as [r5 H5].
  destruct (compute_ema_returns (_closes weekly) _ P3) as [r6 H6].
  destruct (compute_ema_returns (_closes monthly) _ P1) as [r7 H7].
  pose proof (compute_ema_length _ _ _ H1) as L1. rewrite Ld in L1.
  destruct (last_value_index _ daily r1 H1 L1 Nd) as (x1 & E1 & V1).
  destruct (last_value_index _ daily r2 H2 (compute_wilder_atr_length _ _ _ H2) Nd) as (x2 & E2 & V2).
  destruct (last_value_index _ daily r3 H3) as (x3 & E3 & V3);
    [by rewrite (compute_volume_ratio_length _ _ _ H3); apply length_fmap|done|].
  destruct (last_value_index _ daily r4 H4) as (x4 & E4 & V4);
    [by rewrite (compute_high20_length _ _ _ H4); apply length_fmap|done|].
  destruct (last_value_index _ weekly r5 H5) as (x5 & E5 & V5);
    [by rewrite (compute_ema_length _ _ _ H5); apply length_fmap|done|].
  destruct (last_value_index _ weekly r6 H6) as (x6 & E6 & V6);
    [by rewrite (compute_ema_length _ _ _ H6); apply length_fmap|done|].
  destruct (last_value_index _ monthly r7 H7) as (x7 & E7 & V7);
    [by rewrite (compute_ema_length _ _ _ H7); apply length_fmap|done|].
  destruct (py_index_last (_closes monthly) (cs_candles monthly)) as (mc & Hmc & Hmcl);
    [apply length_fmap|done|].
  assert (Hprev : exists cp ep,
    (if (1 <=? _last_index daily)%Z then py_index r1 (_last_index daily - 1) else Ok None) = Ok ep /\
    (if (1 <=? _last_index daily)%Z then Some <$> py_index (_closes daily) (_last_index daily - 1) else Ok None) = Ok cp /\
    cp = last (removelast (_closes daily)) /\
    prev_value (compute_ema (_closes daily) (sp_daily_ema_period p)) ep).
  { unfold _last_index. destruct (Z.leb_spec 1 (Z.of_nat (length (cs_candles daily)) - 1)).
    - destruct (py_index_prev r1 (cs_candles daily)) as (ep & -> & Hep); [done|lia|].
      destruct (py_index_prev (_closes daily) (cs_candles daily)) as (cp & -> & Hcp); [done|lia|].
      exists (Some cp), ep. split_and!; [done..|]. exists r1. by rewrite Hep.
    - exists None, None. split_and!; [done..| |].
      + rewrite last_removelast_lookup, decide_True; [done|]. lia.
      + exists r1. by rewrite last_removelast_lookup, decide_True by lia. }
  destruct Hprev as (cp & ep & Hep & Hcp & Hcpl & Hepv).
  unfold compute_view. unfold _last_index in Hc, Hmc |- *.
  fold (_last_index daily) (_last_index weekly) (_last_index monthly) in *.
  rewrite Hc. cbn. rewrite H1. cbn. rewrite H2. cbn. rewrite H3. cbn. rewrite H4. cbn.
  rewrite H5. cbn. rewrite H6. cbn. rewrite H7. cbn. rewrite E1. cbn. rewrite Hep. cbn.
  rewrite E2. cbn. rewrite E3. cbn. rewrite E4. cbn. rewrite E5. cbn. rewrite E6. cbn. rewrite E7. cbn.
  rewrite Hmc. cbn. rewrite Hcp. cbn. apply returns_ret. by split.
Qed.

(** *** The entry rule *)

(** The conditions both setups share, on the indicators at the last candle. *)
Record filters_pass (p : StrategyParameters) (v : View) (ema atr : decimal) : Prop := {
  fp_ema : is_ema20_daily (v_indicators v) = Some ema;
  fp_atr : is_atr14_daily (v_indicators v) = Some atr;
  fp_atr_pos : 0 < atr;
  fp_regime : exists e, is_ema20_monthly (v_indicators v) = Some e /\ e < v_monthly_close v;
  fp_trend : exists f s, is_ema20_weekly (v_indicators v) = Some f /\
                         is_ema50_weekly (v_indicators v) = Some s /\ s < f;
  fp_volume : exists r, is_volume_ratio (v_indicators v) = Some r /\ sp_volume_ratio_min p <= r;
  fp_above : ema < c_close (v_candle v);
}.

Definition breakout_holds (v : View) : Prop :=
  exists h, is_high20 (v_indicators v) = Some h /\ h < c_close (v_candle v).

Definition pullback_holds (p : StrategyParameters) (v : View) (ema : decimal) : Prop :=
  c_low (v_candle v) <= dmul ema (dadd (d_of_Z 1) (sp_pullback_ema_tolerance p)) /\
  exists c e, v_close_prev v = Some c /\ v_ema_prev v = Some e /\ e < c.

(** [si] is the long entry the rule derives from [v]: a breakout if there is
    one, else a pullback, with the stop [mult * ATR] below the close. *)
Definition entry_signal (p : StrategyParameters) (v : View) (si : SignalIntent) : Prop :=
  exists ema atr ty,
    filters_pass p v ema atr /\
    match ty with BREAKOUT => breakout_holds v | PULLBACK => ~ breakout_holds v /\ pullback_holds p v ema end /\
    let stop := dsub (c_close (v_candle v)) (dmul (sp_stop_initial_atr_mult p) atr) in
    stop < c_close (v_candle v) /\
    si = {| si_kind := LONG_ENTRY;
            si_entry_type := Some ty;
            si_entry_price := Some (c_close (v_candle v));
            si_stop_initial := Some stop;
            si_primary_reason_code :=
              Some match ty with BREAKOUT => RC_ENTRY_BREAKOUT_20D | PULLBACK => RC_ENTRY_PULLBACK_EMA20 end |}.

Lemma warm_some ind ema atr r :
  warm ind = Some (ema, atr, r) <->
  is_ema20_daily ind = Some ema /\ is_atr14_daily ind = Some atr /\ is_volume_ratio ind = Some r /\
  0 < atr /\ is_Some (is_ema20_weekly ind) /\ is_Some (is_ema50_weekly ind) /\ is_Some (is_ema20_monthly ind).
Proof.
  unfold warm. split.
  - intros H. repeat case_match; try done. dec_bool. simplify_eq. split_and!; eauto.
  - intros (-> & -> & -> & H & [? ->] & [? ->] & [? ->]).
    destruct (atr ≤ᵈ 0) eqn:E; [dec_bool; lra|done].
Qed.

(** The setups the code tests, in terms of the rule. *)
Lemma setup_shared p v ema atr r :
  warm (v_indicators v) = Some (ema, atr, r) ->
  (filters_pass p v ema atr <->
   rr_regime_long (evaluate_monthly_regime (Some (v_monthly_close v)) (is_ema20_monthly (v_indicators v))) = true /\
   tr_trend_confirmed (evaluate_weekly_trend (is_ema20_weekly (v_indicators v)) (is_ema50_weekly (v_indicators v))) = true /\
   evaluate_volume_ok (Some r) (sp_volume_ratio_min p) = true /\ ema < c_close (v_candle v)).
Proof.
  intros (He & Ha & Hr & Hpos & _)%warm_some.
  rewrite regime_long_spec, trend_confirmed_spec, volume_ok_spec. split.
  - intros [_ _ _ (e & E1 & E2) T (r' & R1 & R2) Hab]. rewrite Hr in R1. simplify_eq.
    split_and!; [by exists (v_monthly_close v), e|done|by exists r'|done].
  - intros ((c & e & [= <-] & E & Hlt) & T & (r' & [= <-] & R) & Hab). constructor; eauto.
Qed.

Lemma filters_pass_det p v ema atr ema' atr' :
  filters_pass p v ema atr -> filters_pass p v ema' atr' -> ema = ema' /\ atr = atr'.
Proof. intros [] []. split; congruence. Qed.

Lemma filters_pass_warm p v ema atr :
  filters_pass p v ema atr -> exists r, warm (v_indicators v) = Some (ema, atr, r).
Proof.
  intros [He Ha Hp (e & E & _) (f & s & F & S & _) (r & R & _) _]. exists r. apply warm_some.
  split_and!; eauto.
Qed.

Lemma no_entry_reasons_nonempty r t v : no_entry_reasons r t v <> [].
Proof. unfold no_entry_reasons. by destruct (_ ++ _). Qed.

(** What an evaluation says of a view. *)
Definition view_verdict (p : StrategyParameters) (v : View) (ev : StrategyEvaluation) : Prop :=
  match si_kind (ev_signal_intent ev) with
  | LONG_ENTRY =>
      ev_data_quality_status ev = DQ_OK /\ entry_signal p v (ev_signal_intent ev)
  | NO_ENTRY =>
      ev_data_quality_status ev = DQ_OK /\ ev_reason_codes ev <> [] /\
      (forall si, ~ entry_signal p v si)
  | SK_INSUFFICIENT_HISTORY =>
      ev_data_quality_status ev = DQ_INSUFFICIENT_HISTORY /\ warm (v_indicators v) = None
  | SK_INVALID_DATA => False
  end.

Lemma evaluate_view_verdict symbol t p errs v :
  returns (evaluate_view symbol t p errs v) (view_verdict p v).
Proof.
  unfold evaluate_view. destruct (warm (v_indicators v)) as [[[ema atr] r]|] eqn:Hw; [|by apply returns_ret].
  pose proof (setup_shared p v ema atr r Hw) as Hs.
  set (rg := evaluate_monthly_regime _ _) in *. set (tr := evaluate_weekly_trend _ _) in *.
  set (vo := evaluate_volume_ok _ _) in *. cbn [compute_initial_stop round_optional mbind res_bind].
  set (stop := dsub _ _). set (cl := c_close (v_candle v)) in *.
  pose proof (breakout_entry_spec cl (is_high20 (v_indicators v)) (Some ema) rg tr vo) as Hb.
  pose proof (pullback_entry_spec cl (c_low (v_candle v)) (v_close_prev v) (Some ema) (v_ema_prev v) rg tr vo p) as Hp.
  set (b := evaluate_breakout_setup _ _ _ _ _ _) in *. set (pb := evaluate_pullback_setup _ _ _ _ _ _ _ _ _) in *.
  assert (Hb' : es_breakout_entry b = true <-> filters_pass p v ema atr /\ breakout_holds v).
  { rewrite Hb, Hs. unfold breakout_holds. fold cl. naive_solver. }
  assert (Hp' : es_pullback_entry pb = true <-> filters_pass p v ema atr /\ pullback_holds p v ema).
  { rewrite Hp, Hs. unfold pullback_holds. split.
    - intros (e & [= <-] & H1 & H2 & H3 & H4). tauto.
    - intros (H1 & H2 & H3). exists ema. tauto. }
  assert (Hnone : stop < cl -> forall si, entry_signal p v si ->
      es_breakout_entry b = true \/ es_pullback_entry pb = true).
  { intros Hlt si (ema' & atr' & ty & Hf & Hty & _).
    destruct (filters_pass_warm _ _ _ _ Hf) as (r' & Hw'). rewrite Hw in Hw'. simplify_eq.
    rewrite Hb', Hp'. destruct ty; tauto. }
  assert (Hstop : forall si, entry_signal p v si -> stop < cl).
  { intros si (ema' & atr' & ty & Hf & _ & Hlt & _).
    destruct (filters_pass_warm _ _ _ _ Hf) as (r' & Hw'). rewrite Hw in Hw'. by simplify_eq. }
  unfold resolve_entry_priority.
  destruct (es_breakout_entry b) eqn:Eb; [|destruct (es_pullback_entry pb) eqn:Ep].
  3: { apply returns_ret. unfold view_verdict. cbn. split_and!; [done|apply no_entry_reasons_nonempty|].
       intros si Hsi. by destruct (Hnone (Hstop si Hsi) si Hsi). }
  all: destruct (cl ≤ᵈ stop) eqn:El; dec_bool; apply returns_ret; unfold view_verdict; cbn;
    [split_and!; [done..|]; intros si Hsi; pose proof (Hstop si Hsi); lra|split; [done|]].
  - destruct (proj1 Hb' eq_refl) as [Hf Hbr]. by exists ema, atr, BREAKOUT.
  - destruct (proj1 Hp' eq_refl) as [Hf Hpb]. exists ema, atr, PULLBACK. split_and!; try done.
    intros Hbr. assert (false = true) by (by apply Hb'). done.
Qed.

(** *** The whole evaluation *)

Lemma symbols_agree daily weekly monthly :
  list_find (fun s => cs_symbol s <> cs_symbol daily) [weekly; monthly] = None <->
  cs_symbol weekly = cs_symbol daily /\ cs_symbol monthly = cs_symbol daily.
Proof.
  rewrite list_find_None, !Forall_cons. split.
  - intros (H1 & H2 & _). split; by apply dec_stable.
  - intros [H1 H2]. split_and!; [tauto|tauto|constructor].
Qed.

(** What the engine promises of its result. *)
Definition engine_verdict (daily weekly monthly : CandleSeries) (t : datetime)
    (p : StrategyParameters) (ev : StrategyEvaluation) : Prop :=
  match si_kind (ev_signal_intent ev) with
  | SK_INVALID_DATA =>
      ~ inputs_wf daily weekly monthly t /\ ev_data_quality_status ev = DQ_INVALID_DATA /\ ev_errors ev <> []
  | SK_INSUFFICIENT_HISTORY =>
      inputs_wf daily weekly monthly t /\ ev_data_quality_status ev = DQ_INSUFFICIENT_HISTORY /\
      (check_warmup_complete (cs_length daily) (cs_length weekly) (cs_length monthly) (Some p) = false \/
       exists v, view_of daily weekly monthly p v /\ warm (v_indicators v) = None)
  | _ =>
      inputs_wf daily weekly monthly t /\
      exists v, view_of daily weekly monthly p v /\ view_verdict p v ev
  end.

Lemma engine_verdict_view daily weekly monthly t p v ev :
  inputs_wf daily weekly monthly t -> view_of daily weekly monthly p v -> view_verdict p v ev ->
  engine_verdict daily weekly monthly t p ev.
Proof.
  intros Hi Hv Hev. unfold engine_verdict. unfold view_verdict in Hev at 1.
  destruct (si_kind (ev_signal_intent ev)) eqn:E.
  - split; [done|]. exists v. split; [done|]. unfold view_verdict. by rewrite E.
  - split; [done|]. exists v. split; [done|]. unfold view_verdict. by rewrite E.
  - done.
  - destruct Hev. split_and!; [done..|]. right. by exists v.
Qed.

Lemma evaluate_verdict daily weekly monthly t p :
  params_wf p ->
  returns (evaluate daily weekly monthly t (Some p)) (engine_verdict daily weekly monthly t p).
Proof.
  intros Hp. unfold evaluate. cbn [default from_option].
  destruct (list_find _ _) as [[i s]|] eqn:Ef.
  { apply returns_ret. split_and!; [|done|done]. intros [H1 H2 _ _ _].
    by rewrite (proj2 (symbols_agree _ _ _) (conj H1 H2)) in Ef. }
  apply symbols_agree in Ef as [Hw Hm].
  pose proof (validate_not_wf daily t DAILY) as Sd. pose proof (validate_not_wf weekly t WEEKLY) as Sw.
  pose proof (validate_not_wf monthly t MONTHLY) as Sm.
  pose proof (validate_wf daily t DAILY) as Wd. pose proof (validate_wf weekly t WEEKLY) as Ww.
  pose proof (validate_wf monthly t MONTHLY) as Wm.
  pose proof (validate_errors daily t DAILY) as Ed. pose proof (validate_errors weekly t WEEKLY) as Ew.
  pose proof (validate_errors monthly t MONTHLY) as Em.
  destruct (validate_candle_series daily t _) as [sd ed], (validate_candle_series weekly t _) as [sw ew],
    (validate_candle_series monthly t _) as [sm em]. cbn [fst snd] in *.
  destruct (decide (DQ_INVALID_DATA ∈ [sd; sw; sm])) as [Hin|Hnin].
  { apply returns_ret. unfold engine_verdict. cbn. split_and!; [|done|].
    - intros [_ _ H1 H2 H3]. set_solver.
    - intros [->%Ed [->%Ew ->%Em]%app_nil]%app_nil. set_solver. }
  assert (Hwf : inputs_wf daily weekly monthly t).
  { constructor; [done..| | |]; [apply Wd|apply Ww|apply Wm]; intros ->; set_solver. }
  destruct (_ && _) eqn:Ewu.
  - apply returns_ret. split_and!; [done..|]. left. by bsimpl.
  - eapply returns_bind; [by eapply compute_view_returns|]. intros v Hv.
    eapply returns_mono; [apply evaluate_view_verdict|]. intros ev. by apply engine_verdict_view.
Qed.

(** [C13] The engine never raises, and its verdict is the strategy's rule.  It
    answers "invalid data" exactly when the three series are not well formed
    at the evaluation time or their symbols differ (so a candle that closes
    after the evaluation time is never used), "insufficient history" only
    when the warm-up is incomplete or an indicator is undefined, a long entry
    only when the entry rule derives that very signal from the indicators of
    the last candles, and "no entry" only when the rule derives none. *)
Theorem evaluate_correct daily weekly monthly t p :
  params_wf p ->
  returns (evaluate daily weekly monthly t (Some p)) (engine_verdict daily weekly monthly t p).
Proof. apply evaluate_verdict. Qed.

(** A rising market: candle [i] of a series opens at [10 + i]. *)
Definition rising_candle (tf : Timeframe) (day : Z) (i : nat) : Candle :=
  let o := d_of_nat (10 + i) in
  {| c_symbol := "BTC"; c_timeframe := tf;
     c_open_time := Z.of_nat i * seconds (86400 * day);
     c_close_time := Z.of_nat (i + 1) * seconds (86400 * day) - 1;
     c_open := o; c_high := dadd o (3 # 2); c_low := dsub o (1 # 2); c_close := dadd o (3 # 2);
     c_volume := 5; c_is_closed := true |}.
Definition rising_series (tf : Timeframe) (day : Z) (n : nat) : CandleSeries :=
  {| cs_symbol := "BTC"; cs_timeframe := tf; cs_candles := rising_candle tf day <$> seq 0 n |}.

Lemma evaluate_correct_witness :
  let p := default_strategy_parameters in
  let daily := rising_series DAILY 1 30 in
  let weekly := rising_series WEEKLY 7 60 in
  let monthly := rising_series MONTHLY 30 24 in
  let t := seconds (86400 * 1000) in
  (si_kind ∘ ev_signal_intent <$> evaluate daily weekly monthly t (Some p)) = Ok LONG_ENTRY /\
  returns (evaluate daily weekly monthly t (Some p)) (engine_verdict daily weekly monthly t p).
Proof.
  intros p daily weekly monthly t. split; [vm_compute; reflexivity|].
  apply evaluate_correct. constructor; cbn; lia.
Defined.
