(* ===== verification/RiskModels.v ===== *)
(** * Data of the risk engine (services/risk_engine/models.py, constants.py) *)
From Stdlib Require Import ZArith QArith.
From stdpp Require Import base list strings.
From S2P Require Import Prelude Decimal StrategyModels.

Definition RISK_SPECIFICATION_VERSION : string := "1.0.0".
Definition DEFAULT_RISK_PER_TRADE_PCT : decimal := 5 # 1000.
Definition DEFAULT_MAX_PORTFOLIO_RISK_PCT : decimal := 2 # 100.
Definition DEFAULT_MAX_OPEN_POSITIONS : Z := 3.
Definition DEFAULT_MAX_LEVERAGE : decimal := 2 # 1.
Definition DEFAULT_RISK_ROUNDING_TOLERANCE : decimal := 1 # 1000.

Inductive TradeSide := LONG | SHORT.
#[export] Instance TradeSide_eq : EqDecision TradeSide.
Proof. solve_decision. Defined.

Inductive MarketDataStatus := MD_OK | MD_INVALID | MD_STALE | MD_INCOMPLETE.
#[export] Instance MarketDataStatus_eq : EqDecision MarketDataStatus.
Proof. solve_decision. Defined.

Inductive BotSystemState :=
  | BOT_OFF | BOT_WARMUP | BOT_ACTIVE | BOT_PAUSED | BOT_DEGRADED | BOT_ERROR | BOT_UNKNOWN.
#[export] Instance BotSystemState_eq : EqDecision BotSystemState.
Proof. solve_decision. Defined.

Record LossLimitConfig := {
  ll_daily_loss_limit_enabled : bool;
  ll_max_daily_loss_pct : option decimal;
  ll_weekly_loss_limit_enabled : bool;
  ll_max_weekly_loss_pct : option decimal;
  ll_drawdown_limit_enabled : bool;
  ll_max_drawdown_pct : option decimal;
}.

Definition default_loss_limits : LossLimitConfig := {|
  ll_daily_loss_limit_enabled := false; ll_max_daily_loss_pct := None;
  ll_weekly_loss_limit_enabled := false; ll_max_weekly_loss_pct := None;
  ll_drawdown_limit_enabled := false; ll_max_drawdown_pct := None |}.

Record RiskParameters := {
  rp_risk_specification_version : string;
  rp_strategy_version : string;
  rp_risk_per_trade_pct : decimal;
  rp_max_portfolio_risk_pct : decimal;
  rp_max_open_positions : Z;
  rp_max_leverage : decimal;
  rp_risk_rounding_tolerance : decimal;
  rp_loss_limits : LossLimitConfig;
}.

Definition default_risk_parameters : RiskParameters := {|
  rp_risk_specification_version := RISK_SPECIFICATION_VERSION;
  rp_strategy_version := STRATEGY_VERSION;
  rp_risk_per_trade_pct := DEFAULT_RISK_PER_TRADE_PCT;
  rp_max_portfolio_risk_pct := DEFAULT_MAX_PORTFOLIO_RISK_PCT;
  rp_max_open_positions := DEFAULT_MAX_OPEN_POSITIONS;
  rp_max_leverage := DEFAULT_MAX_LEVERAGE;
  rp_risk_rounding_tolerance := DEFAULT_RISK_ROUNDING_TOLERANCE;
  rp_loss_limits := default_loss_limits |}.

Record SymbolConstraints := {
  sc_quantity_step : decimal;
  sc_minimum_quantity : decimal;
  sc_minimum_notional : decimal;
  sc_price_tick_size : decimal;
}.

Record AccountState := {
  ac_equity_usd : decimal;
  ac_available_margin_usd : decimal;
  ac_daily_realized_pnl_usd : decimal;
  ac_weekly_realized_pnl_usd : decimal;
  ac_peak_equity_usd : option decimal;
}.

Record PositionState := {
  ps_symbol : string;
  ps_entry_price : decimal;
  ps_position_size : decimal;
  ps_stop_initial : decimal;
  ps_trail_stop : decimal;
  ps_mark_price : decimal;
}.

Record OpenOrderState := {
  oo_symbol : string;
  oo_client_intent_id : string;
  oo_side : TradeSide;
  oo_is_entry : bool;
}.

Record TradeProposal := {
  tp_symbol : string;
  tp_side : TradeSide;
  tp_entry_price : decimal;
  tp_stop_price : decimal;
  tp_client_intent_id : string;
  tp_signal_intent_kind : SignalIntentKind;
  tp_strategy_approved : bool;
  tp_market_data_status : MarketDataStatus;
  tp_bot_system_state : BotSystemState;
  tp_atr14 : option decimal;
}.

Record PositionSizingResult := {
  sz_risk_budget_usd : decimal;
  sz_stop_distance_usd : decimal;
  sz_raw_quantity : decimal;
  sz_rounded_quantity : decimal;
  sz_actual_trade_risk_usd : decimal;
  sz_actual_trade_risk_pct : decimal;
}.

Record PortfolioRiskSnapshot := {
  pf_current_open_risk_usd : decimal;
  pf_current_open_risk_pct : decimal;
  pf_projected_portfolio_risk_usd : decimal;
  pf_projected_portfolio_risk_pct : decimal;
  pf_total_notional_usd : decimal;
  pf_projected_notional_usd : decimal;
  pf_effective_leverage : decimal;
}.

Record RiskError := {
  re_code : ReasonCode;
  re_message : string;
  re_details : list (string * detail);
}.

Record RiskDecision := {
  rd_approved : bool;
  rd_symbol : string;
  rd_requested_entry_price : decimal;
  rd_requested_stop_price : decimal;
  rd_raw_quantity : option decimal;
  rd_rounded_quantity : option decimal;
  rd_actual_trade_risk_usd : option decimal;
  rd_actual_trade_risk_pct : option decimal;
  rd_current_open_risk_usd : option decimal;
  rd_projected_portfolio_risk_usd : option decimal;
  rd_projected_portfolio_risk_pct : option decimal;
  rd_required_margin_usd : option decimal;
  rd_effective_leverage : option decimal;
  rd_reason_codes : list ReasonCode;
  rd_strategy_version : string;
  rd_risk_specification_version : string;
  rd_errors : list RiskError;
}.
