(* ===== verification/Constraints.v ===== *)
(** * Symbol constraints (services/trading_constraints/validation.py)

    The checks every entry point runs on the exchange's constraints of a
    symbol before a size is computed from them. *)
From Stdlib Require Import ZArith QArith Lqa.
From stdpp Require Import base list strings.
From S2P Require Import Prelude Decimal StrategyModels RiskModels.

(** ** Definitions *)

Definition INVALID_TICK_SIZE : string := "INVALID_TICK_SIZE".
Definition INVALID_QUANTITY_STEP : string := "INVALID_QUANTITY_STEP".
Definition INVALID_MIN_QUANTITY : string := "INVALID_MIN_QUANTITY".
Definition INVALID_MIN_NOTIONAL : string := "INVALID_MIN_NOTIONAL".
Definition PRECISION_MISMATCH : string := "PRECISION_MISMATCH".

Record ConstraintValidationError := {
  ce_field : string;
  ce_code : string;
  ce_message : string;
}.

Definition _decimal_is_finite (value : decimal) : bool := float_finite value.

(** [quotient == quotient.to_integral_value()] with the rounded quotient. *)
Definition _is_step_aligned (value step : decimal) : res bool :=
  if step ≤ᵈ 0%Q then Ok false
  else
    quotient ← value /ᵈ step;
    Ok (quotient =ᵈ to_integral_value quotient).

Fixpoint check_positive_fields (fields : list (string * decimal * string)) : option ConstraintValidationError :=
  match fields with
  | [] => None
  | (field_name, value, code) :: fields' =>
      if negb (_decimal_is_finite value) then
        Some {| ce_field := field_name; ce_code := code; ce_message := field_name +:+ " must be finite" |}
      else if value ≤ᵈ 0%Q then
        Some {| ce_field := field_name; ce_code := code; ce_message := field_name +:+ " must be > 0" |}
      else check_positive_fields fields'
  end.

Definition positive_fields (constraints : SymbolConstraints) : list (string * decimal * string) :=
  [("price_tick_size", sc_price_tick_size constraints, INVALID_TICK_SIZE);
   ("quantity_step", sc_quantity_step constraints, INVALID_QUANTITY_STEP);
   ("minimum_quantity", sc_minimum_quantity constraints, INVALID_MIN_QUANTITY)]%string.

Definition validate_symbol_constraints_core (constraints : SymbolConstraints)
    : res (option ConstraintValidationError) :=
  match check_positive_fields (positive_fields constraints) with
  | Some err => Ok (Some err)
  | None =>
      let min_notional := sc_minimum_notional constraints in
      if negb (_decimal_is_finite min_notional) then
        Ok (Some {| ce_field := "minimum_notional"; ce_code := INVALID_MIN_NOTIONAL;
                    ce_message := "minimum_notional must be finite" |})
      else if min_notional <ᵈ 0%Q then
        Ok (Some {| ce_field := "minimum_notional"; ce_code := INVALID_MIN_NOTIONAL;
                    ce_message := "minimum_notional must be >= 0" |})
      else
        let step := sc_quantity_step constraints in
        let min_qty := sc_minimum_quantity constraints in
        if min_qty <ᵈ step then
          Ok (Some {| ce_field := "minimum_quantity"; ce_code := PRECISION_MISMATCH;
                      ce_message := "minimum_quantity below quantity_step" |})
        else
          aligned ← _is_step_aligned min_qty step;
          if negb aligned then
            Ok (Some {| ce_field := "minimum_quantity"; ce_code := PRECISION_MISMATCH;
                        ce_message := "minimum_quantity not aligned to quantity_step" |})
          else Ok None
  end.

(** ** Meaning *)
Local Open Scope Q_scope.

(** What the checks establish: the three sizes are positive, the minimum
    notional is not negative, all four fit a float, and the minimum quantity
    is at least one step and a whole number of steps up to the precision of
    the division. *)
Record constraints_wf (c : SymbolConstraints) : Prop := {
  cc_finite : float_finite (sc_price_tick_size c) = true /\ float_finite (sc_quantity_step c) = true /\
              float_finite (sc_minimum_quantity c) = true /\ float_finite (sc_minimum_notional c) = true;
  cc_tick : 0 < sc_price_tick_size c;
  cc_step : 0 < sc_quantity_step c;
  cc_notional : 0 <= sc_minimum_notional c;
  cc_min : sc_quantity_step c <= sc_minimum_quantity c;
  cc_aligned : exists k, rnd (sc_minimum_quantity c / sc_quantity_step c) == inject_Z k;
}.

Lemma integral_eq x : x == to_integral_value x <-> exists k, x == inject_Z k.
Proof.
  unfold to_integral_value. split; [by eexists|]. intros [k Hk].
  by rewrite Hk at 2; rewrite half_even_Z.
Qed.

Lemma step_aligned_spec v s :
  0 < s -> exists b, _is_step_aligned v s = Ok b /\ (b = true <-> exists k, rnd (v / s) == inject_Z k).
Proof.
  intros Hs. unfold _is_step_aligned. destruct (s ≤ᵈ 0) eqn:E; [dec_bool; lra|].
  rewrite ddiv_pos_ok by done. cbn. eexists. split; [done|]. by rewrite deqb_eq, integral_eq.
Qed.

Lemma check_positive_fields_none l :
  check_positive_fields l = None <->
  Forall (fun f => float_finite f.1.2 = true /\ 0 < f.1.2) l.
Proof.
  induction l as [|[[n v] code] l IH]; cbn; [done|]. rewrite Forall_cons. cbn.
  unfold _decimal_is_finite. destruct (float_finite v); cbn; [|naive_solver].
  destruct (v ≤ᵈ 0) eqn:E; dec_bool; [|naive_solver]. split; [done|]. intros [[_ ?] _]. lra.
Qed.

(** The validator never raises, and finds nothing exactly when the
    constraints are well formed. *)
Lemma validate_core_spec c :
  exists r, validate_symbol_constraints_core c = Ok r /\ (r = None <-> constraints_wf c).
Proof.
  unfold validate_symbol_constraints_core.
  destruct (check_positive_fields _) as [e|] eqn:Ef.
  { eexists. split; [done|]. split; [done|]. intros [(F1 & F2 & F3 & F4) ? ? ? ? _].
    assert (check_positive_fields (positive_fields c) = None); [|congruence].
    apply check_positive_fields_none. repeat constructor; cbn; try done. lra. }
  apply check_positive_fields_none in Ef.
  apply Forall_cons in Ef as [[F1 T] Ef]. apply Forall_cons in Ef as [[F2 S] Ef].
  apply Forall_cons in Ef as [[F3 M] _]. cbn in *. unfold _decimal_is_finite.
  destruct (float_finite (sc_minimum_notional c)) eqn:F4; cbn.
  2: { eexists. split; [done|]. split; [done|]. intros [(_ & _ & _ & ?) _ _ _ _ _]. congruence. }
  destruct (sc_minimum_notional c <ᵈ 0) eqn:N; dec_bool.
  { eexists. split; [done|]. split; [done|]. intros []. lra. }
  destruct (sc_minimum_quantity c <ᵈ sc_quantity_step c) eqn:Q; dec_bool.
  { eexists. split; [done|]. split; [done|]. intros []. lra. }
  destruct (step_aligned_spec (sc_minimum_quantity c) _ S) as (b & -> & Hb). cbn.
  destruct b; cbn; (eexists; split; [done|]); (split; [|done || intros []]); try done.
  - intros _. constructor; try done. by apply Hb.
  - by apply Hb in cc_aligned0.
Qed.

(** With a power-of-ten quantity step, the constraints of a symbol are
    accepted exactly when all four numbers fit a float, the tick is positive,
    the minimum notional is not negative and the minimum quantity is a
    positive whole number of steps; anything else is reported, never raised. *)
Theorem validate_symbol_constraints_core_correct c :
  pow10_step (sc_quantity_step c) -> representable (sc_minimum_quantity c) ->
  returns (validate_symbol_constraints_core c) (fun r =>
    r = None <->
    Forall (fun v => float_finite v = true)
      [sc_price_tick_size c; sc_quantity_step c; sc_minimum_quantity c; sc_minimum_notional c] /\
    0 < sc_price_tick_size c /\ 0 <= sc_minimum_notional c /\
    exists k, (0 < k)%Z /\ sc_minimum_quantity c == inject_Z k * sc_quantity_step c).
Proof.
  intros Hs Hr. destruct (validate_core_spec c) as (r & -> & Hspec). apply returns_ret.
  pose proof (pow10_step_pos _ Hs) as Hpos. rewrite Hspec, !Forall_cons. split.
  - intros [(F1 & F2 & F3 & F4) T S N M (k & Hk)]. split_and!; try done. exists k.
    rewrite rnd_representable in Hk by (by apply pow10_div).
    assert (Hm : sc_minimum_quantity c == inject_Z k * sc_quantity_step c) by (rewrite <- Hk; field; lra).
    split; [|done]. rewrite Hm in M. change 0%Z with (0)%Z. rewrite Zlt_Qlt. change (inject_Z 0) with 0. nra.
  - intros ((F1 & F2 & F3 & F4 & _) & T & N & (k & Hk & Hm)). constructor; try done.
    + rewrite Hm. assert (1 <= inject_Z k) by (change 1 with (inject_Z 1); rewrite <- Zle_Qle; lia). nra.
    + exists k. rewrite rnd_representable by (by apply pow10_div). rewrite Hm. field. lra.
Qed.

Lemma validate_symbol_constraints_core_correct_witness :
  let c := {| sc_quantity_step := 1 # 1000; sc_minimum_quantity := 5 # 1000;
              sc_minimum_notional := 10; sc_price_tick_size := 1 # 10 |} in
  returns (validate_symbol_constraints_core c) (fun r =>
    r = None <->
    Forall (fun v => float_finite v = true)
      [sc_price_tick_size c; sc_quantity_step c; sc_minimum_quantity c; sc_minimum_notional c] /\
    0 < sc_price_tick_size c /\ 0 <= sc_minimum_notional c /\
    exists k, (0 < k)%Z /\ sc_minimum_quantity c == inject_Z k * sc_quantity_step c).
Proof.
  intros c. apply validate_symbol_constraints_core_correct.
  - exists (-3)%Z. reflexivity.
  - exists 5%Z, (-3)%Z. split; [reflexivity|vm_compute; discriminate].
Defined.
