(* ===== verification/RiskValidation.v ===== *)
(** * Input validation of the risk engine (services/risk_engine/validation.py)

    Each check returns the first error it finds, or [None]; the lemmas say
    what holds of an input without errors. *)
From Stdlib Require Import ZArith QArith Lqa Lia.
From stdpp Require Import base list sets gmap strings.
From S2P Require Import Prelude Decimal StrategyModels RiskModels Constraints.

(** ** Definitions *)

Definition _is_finite (value : decimal) : bool := float_finite value.

Definition risk_error (message : string) (details : list (string * detail)) : RiskError :=
  {| re_code := RC_REJECT_DATA; re_message := message; re_details := details |}.

Definition validate_account (account : AccountState) : option RiskError :=
  if negb (_is_finite (ac_equity_usd account)) || negb (_is_finite (ac_available_margin_usd account)) then
    Some (risk_error "Account values must be finite" [])
  else if ac_equity_usd account ≤ᵈ 0%Q then
    Some (risk_error "Equity must be greater than zero" [])
  else if ac_available_margin_usd account <ᵈ 0%Q then
    Some (risk_error "Available margin must not be negative" [])
  else None.

Definition validate_constraints (constraints : SymbolConstraints) : res (option RiskError) :=
  violation ← validate_symbol_constraints_core constraints;
  match violation with
  | None => Ok None
  | Some v =>
      Ok (Some (risk_error (ce_message v)
                  [("field", DStr (ce_field v)); ("code", DStr (ce_code v))]%string))
  end.

Fixpoint check_decimal_limits (limits : list (string * decimal * decimal)) : option RiskError :=
  match limits with
  | [] => None
  | (name, value, frozen_maximum) :: limits' =>
      if negb (_is_finite value) || (value ≤ᵈ 0%Q) || (frozen_maximum <ᵈ value) then
        Some (risk_error ("Invalid " +:+ name +:+ " for Specification Freeze 1.0")
                [(name, DDec value); ("maximum"%string, DDec frozen_maximum)])
      else check_decimal_limits limits'
  end.

Definition decimal_limits (params : RiskParameters) : list (string * decimal * decimal) :=
  [("risk_per_trade_pct", rp_risk_per_trade_pct params, DEFAULT_RISK_PER_TRADE_PCT);
   ("max_portfolio_risk_pct", rp_max_portfolio_risk_pct params, DEFAULT_MAX_PORTFOLIO_RISK_PCT);
   ("max_leverage", rp_max_leverage params, DEFAULT_MAX_LEVERAGE)]%string.

Definition validate_parameters (params : RiskParameters) : option RiskError :=
  match check_decimal_limits (decimal_limits params) with
  | Some err => Some err
  | None =>
      if (rp_max_open_positions params <=? 0)%Z
         || (DEFAULT_MAX_OPEN_POSITIONS <? rp_max_open_positions params)%Z then
        Some (risk_error "Invalid max_open_positions for Specification Freeze 1.0" [])
      else if negb (_is_finite (rp_risk_rounding_tolerance params))
              || (rp_risk_rounding_tolerance params <ᵈ 0%Q) then
        Some (risk_error "Invalid risk_rounding_tolerance" [])
      else None
  end.

Fixpoint check_position_values (symbol : string) (values : list (string * decimal)) : option RiskError :=
  match values with
  | [] => None
  | (name, value) :: values' =>
      if negb (_is_finite value) || (value ≤ᵈ 0%Q) then
        Some (risk_error ("Invalid open-position " +:+ name)
                [("symbol"%string, DStr symbol); (name, DDec value)])
      else check_position_values symbol values'
  end.

Definition position_values (position : PositionState) : list (string * decimal) :=
  [("entry_price", ps_entry_price position); ("position_size", ps_position_size position);
   ("stop_initial", ps_stop_initial position); ("trail_stop", ps_trail_stop position);
   ("mark_price", ps_mark_price position)]%string.

Fixpoint check_open_positions (seen_symbols : gset string) (positions : list PositionState) : option RiskError :=
  match positions with
  | [] => None
  | position :: positions' =>
      if bool_decide (ps_symbol position = "") || bool_decide (ps_symbol position ∈ seen_symbols) then
        Some (risk_error "Invalid or duplicate symbol in open positions" [])
      else
        match check_position_values (ps_symbol position) (position_values position) with
        | Some err => Some err
        | None =>
            if ps_entry_price position ≤ᵈ ps_stop_initial position then
              Some (risk_error "Open-position initial stop must be below entry price"
                      [("symbol"%string, DStr (ps_symbol position))])
            else check_open_positions ({[ps_symbol position]} ∪ seen_symbols) positions'
        end
  end.

Definition validate_open_positions (positions : list PositionState) : option RiskError :=
  check_open_positions ∅ positions.

Definition status_value (s : MarketDataStatus) : string :=
  match s with MD_OK => "OK" | MD_INVALID => "INVALID" | MD_STALE => "STALE" | MD_INCOMPLETE => "INCOMPLETE" end.

Definition bot_state_value (s : BotSystemState) : string :=
  match s with
  | BOT_OFF => "OFF" | BOT_WARMUP => "WARMUP" | BOT_ACTIVE => "ACTIVE" | BOT_PAUSED => "PAUSED"
  | BOT_DEGRADED => "DEGRADED" | BOT_ERROR => "ERROR" | BOT_UNKNOWN => "UNKNOWN"
  end.

(** [errors] collects every problem of the proposal. *)
Definition validate_proposal (proposal : TradeProposal) : list RiskError :=
  let invalid (val : decimal) := negb (_is_finite val) || (val ≤ᵈ 0%Q) in
  (if decide (tp_side proposal = LONG) then [] else
     [risk_error "V1 is long-only; short proposals rejected" []]) ++
  (if invalid (tp_entry_price proposal) then [risk_error "Invalid entry_price" []] else []) ++
  (if invalid (tp_stop_price proposal) then [risk_error "Invalid stop_price" []] else []) ++
  (match tp_atr14 proposal with
   | Some atr => if invalid atr then [risk_error "Invalid ATR14" []] else []
   | None => []
   end) ++
  (if decide (tp_signal_intent_kind proposal = LONG_ENTRY) then [] else
     [{| re_code := RC_REJECT_NO_SIGNAL; re_message := "Signal intent must be LONG_ENTRY"; re_details := [] |}]) ++
  (if tp_strategy_approved proposal then [] else
     [{| re_code := RC_REJECT_NO_SIGNAL; re_message := "Strategy approval missing"; re_details := [] |}]) ++
  (if decide (tp_market_data_status proposal = MD_OK) then [] else
     [risk_error "Market data not OK"
        [("status"%string, DStr (status_value (tp_market_data_status proposal)))]]) ++
  (if decide (tp_bot_system_state proposal = BOT_ACTIVE) then [] else
     [risk_error "Bot system state does not allow entries"
        [("state"%string, DStr (bot_state_value (tp_bot_system_state proposal)))]]).

Definition validate_long_stop (entry_price stop_price : decimal) : option RiskError :=
  if entry_price ≤ᵈ stop_price then Some (risk_error "Long stop must be below entry price" [])
  else
    let distance := entry_price -ᵈ stop_price in
    if distance ≤ᵈ 0%Q then Some (risk_error "Stop distance must be positive" []) else None.

(** One of the two loss limits: [pnl] against the equity. *)
Definition check_loss (label : string) (enabled : bool) (max_loss_pct : option decimal)
    (pnl equity : decimal) : res (option RiskError) :=
  if enabled then
    match max_loss_pct with
    | None => Ok (Some (risk_error (label +:+ " loss limit configuration or account value invalid") []))
    | Some m =>
        if negb (_is_finite m) || (m <ᵈ 0%Q) || negb (_is_finite pnl) then
          Ok (Some (risk_error (label +:+ " loss limit configuration or account value invalid") []))
        else if pnl <ᵈ 0%Q then
          loss_pct ← dabs pnl /ᵈ equity;
          if m <ᵈ loss_pct then Ok (Some (risk_error (label +:+ " loss limit reached") [])) else Ok None
        else Ok None
    end
  else Ok None.

Definition check_drawdown (enabled : bool) (max_drawdown_pct peak_equity_usd : option decimal)
    (equity : decimal) : res (option RiskError) :=
  if enabled then
    match max_drawdown_pct, peak_equity_usd with
    | Some m, Some peak =>
        if negb (_is_finite m) || (m <ᵈ 0%Q) || negb (_is_finite peak) || (peak ≤ᵈ 0%Q) then
          Ok (Some (risk_error "Drawdown limit enabled but configuration incomplete" []))
        else
          drawdown ← (peak -ᵈ equity) /ᵈ peak;
          if m <ᵈ drawdown then Ok (Some (risk_error "Drawdown limit reached" [])) else Ok None
    | _, _ => Ok (Some (risk_error "Drawdown limit enabled but configuration incomplete" []))
    end
  else Ok None.

Definition check_loss_limits (account : AccountState) (params : RiskParameters) : res (option RiskError) :=
  let cfg := rp_loss_limits params in
  daily ← check_loss "Daily" (ll_daily_loss_limit_enabled cfg) (ll_max_daily_loss_pct cfg)
            (ac_daily_realized_pnl_usd account) (ac_equity_usd account);
  match daily with
  | Some err => Ok (Some err)
  | None =>
      weekly ← check_loss "Weekly" (ll_weekly_loss_limit_enabled cfg) (ll_max_weekly_loss_pct cfg)
                 (ac_weekly_realized_pnl_usd account) (ac_equity_usd account);
      match weekly with
      | Some err => Ok (Some err)
      | None => check_drawdown (ll_drawdown_limit_enabled cfg) (ll_max_drawdown_pct cfg)
                  (ac_peak_equity_usd account) (ac_equity_usd account)
      end
  end.

(** ** Meaning *)
Local Open Scope Q_scope.

Lemma valid_value_spec v :
  negb (_is_finite v) || (v ≤ᵈ 0) = false <-> float_finite v = true /\ 0 < v.
Proof.
  unfold _is_finite. rewrite orb_false_iff, negb_false_iff, dleb_gt. done.
Qed.

Record account_wf (a : AccountState) : Prop := {
  aw_finite : float_finite (ac_equity_usd a) = true /\ float_finite (ac_available_margin_usd a) = true;
  aw_equity : 0 < ac_equity_usd a;
  aw_margin : 0 <= ac_available_margin_usd a;
}.

Lemma validate_account_none a : validate_account a = None <-> account_wf a.
Proof.
  unfold validate_account, _is_finite. split.
  - intros H. repeat case_if; try done. dec_bool. by constructor.
  - intros [[-> ->] H1 H2]. cbn.
    destruct (ac_equity_usd a ≤ᵈ 0) eqn:E; [dec_bool; lra|].
    destruct (ac_available_margin_usd a <ᵈ 0) eqn:E'; [dec_bool; lra|done].
Qed.

(** The parameters never exceed the specification's frozen limits. *)
Record risk_params_wf (p : RiskParameters) : Prop := {
  rw_trade : 0 < rp_risk_per_trade_pct p <= DEFAULT_RISK_PER_TRADE_PCT;
  rw_portfolio : 0 < rp_max_portfolio_risk_pct p <= DEFAULT_MAX_PORTFOLIO_RISK_PCT;
  rw_leverage : 0 < rp_max_leverage p <= DEFAULT_MAX_LEVERAGE;
  rw_positions : (0 < rp_max_open_positions p <= DEFAULT_MAX_OPEN_POSITIONS)%Z;
  rw_tolerance : 0 <= rp_risk_rounding_tolerance p;
}.

Lemma check_decimal_limits_none l :
  check_decimal_limits l = None <->
  Forall (fun f => float_finite f.1.2 = true /\ 0 < f.1.2 /\ f.1.2 <= f.2) l.
Proof.
  induction l as [|[[n v] m] l IH]; cbn; [done|]. rewrite Forall_cons. cbn.
  destruct (negb (_is_finite v) || (v ≤ᵈ 0) || (m <ᵈ v)) eqn:E.
  - split; [done|]. intros [(F & H1 & H2) _]. apply orb_true_iff in E as [E|E]; [|dec_bool; lra].
    apply not_false_iff_true in E. destruct E. by apply valid_value_spec.
  - apply orb_false_iff in E as [E1 E2]. apply valid_value_spec in E1. dec_bool. tauto.
Qed.

Lemma validate_parameters_none p : validate_parameters p = None -> risk_params_wf p.
Proof.
  unfold validate_parameters. destruct (check_decimal_limits _) eqn:El; [done|].
  apply check_decimal_limits_none in El.
  apply Forall_cons in El as [(_ & H1) El]. apply Forall_cons in El as [(_ & H2) El].
  apply Forall_cons in El as [(_ & H3) _]. intros H. repeat case_if; try done. dec_bool.
  constructor; try done. rewrite ?Z.leb_gt, ?Z.ltb_ge in *. lia.
Qed.

(** What the engine assumes of the open positions. *)
Definition position_wf (p : PositionState) : Prop :=
  ps_symbol p <> ""%string /\ Forall (fun v => 0 < v)
    [ps_entry_price p; ps_position_size p; ps_stop_initial p; ps_trail_stop p; ps_mark_price p] /\
  ps_stop_initial p < ps_entry_price p.

Lemma check_position_values_none s l :
  check_position_values s l = None -> Forall (fun v => 0 < v) l.*2.
Proof.
  induction l as [|[n v] l IH]; cbn; [constructor|].
  destruct (negb (_is_finite v) || (v ≤ᵈ 0)) eqn:E; [done|].
  apply valid_value_spec in E as [_ Hv]. intros H. constructor; auto.
Qed.

Lemma check_open_positions_none seen l :
  check_open_positions seen l = None ->
  Forall position_wf l /\ NoDup (ps_symbol <$> l) /\ (forall p, p ∈ l -> ps_symbol p ∉ seen).
Proof.
  revert seen. induction l as [|p l IH]; intros seen H.
  { split_and!; [constructor|constructor|set_solver]. }
  cbn [check_open_positions] in H. destruct (_ || _) eqn:Es; [done|]. apply orb_false_iff in Es as [E1 E2].
  apply bool_decide_eq_false in E1, E2.
  destruct (check_position_values _ _) eqn:Ev; [done|]. apply check_position_values_none in Ev.
  destruct (ps_entry_price p ≤ᵈ ps_stop_initial p) eqn:Ep; [done|]. dec_bool.
  apply IH in H as (Hl & Hnd & Hseen). split_and!.
  - by constructor.
  - cbn. constructor; [|done]. intros (q & Hq & Hin)%list_elem_of_fmap.
    apply (Hseen q Hin). rewrite <- Hq. set_solver.
  - intros q [->|Hin]%elem_of_cons; [done|]. specialize (Hseen q Hin). set_solver.
Qed.

Record proposal_wf (p : TradeProposal) : Prop := {
  tw_side : tp_side p = LONG;
  tw_entry : 0 < tp_entry_price p;
  tw_stop : 0 < tp_stop_price p;
  tw_atr : forall a, tp_atr14 p = Some a -> 0 < a;
  tw_kind : tp_signal_intent_kind p = LONG_ENTRY;
  tw_strategy : tp_strategy_approved p = true;
  tw_data : tp_market_data_status p = MD_OK;
  tw_bot : tp_bot_system_state p = BOT_ACTIVE;
}.

Lemma if_nil {A} (b : bool) (x : A) : (if b then [x] else []) = [] <-> b = false.
Proof. by destruct b. Qed.

Lemma if_nil' {A} (b : bool) (x : A) : (if b then [] else [x]) = [] <-> b = true.
Proof. by destruct b. Qed.

Lemma decide_nil {A} (P : Prop) `{Decision P} (x : A) : (if decide P then [] else [x]) = [] <-> P.
Proof. by case_decide. Qed.

Lemma validate_proposal_nil p : validate_proposal p = [] -> proposal_wf p.
Proof.
  unfold validate_proposal. rewrite !app_nil, !if_nil, if_nil', !decide_nil, !valid_value_spec.
  intros (H1 & (_ & H2) & (_ & H3) & H4 & H5 & H6 & H7 & H8). constructor; try done.
  intros a Ha. rewrite Ha in H4. apply if_nil in H4. by apply valid_value_spec in H4 as [_ ?].
Qed.

Lemma validate_long_stop_none e s : validate_long_stop e s = None <-> s < e.
Proof.
  unfold validate_long_stop. split.
  - intros H. repeat case_if; try done. by dec_bool.
  - intros H. destruct (e ≤ᵈ s) eqn:E; [dec_bool; lra|].
    destruct ((e -ᵈ s) ≤ᵈ 0) eqn:E'; [|done]. dec_bool. pose proof (dsub_pos e s H). lra.
Qed.

(** A loss limit that is switched on is configured and not exceeded. *)
Definition loss_within (enabled : bool) (limit : option decimal) (pnl equity : decimal) : Prop :=
  enabled = true -> exists m, limit = Some m /\ 0 <= m /\ (pnl < 0 -> rnd (dabs pnl / equity) <= m).

Definition drawdown_within (enabled : bool) (limit peak : option decimal) (equity : decimal) : Prop :=
  enabled = true -> exists m pk, limit = Some m /\ peak = Some pk /\ 0 <= m /\ 0 < pk /\
                                 rnd (dsub pk equity / pk) <= m.

Record losses_within (a : AccountState) (c : LossLimitConfig) : Prop := {
  lw_daily : loss_within (ll_daily_loss_limit_enabled c) (ll_max_daily_loss_pct c)
               (ac_daily_realized_pnl_usd a) (ac_equity_usd a);
  lw_weekly : loss_within (ll_weekly_loss_limit_enabled c) (ll_max_weekly_loss_pct c)
               (ac_weekly_realized_pnl_usd a) (ac_equity_usd a);
  lw_drawdown : drawdown_within (ll_drawdown_limit_enabled c) (ll_max_drawdown_pct c)
               (ac_peak_equity_usd a) (ac_equity_usd a);
}.

Lemma check_loss_spec label en m pnl eq :
  0 < eq -> returns (check_loss label en m pnl eq) (fun r => r = None -> loss_within en m pnl eq).
Proof.
  intros He. unfold check_loss, loss_within. destruct en; [|by apply returns_ret].
  destruct m as [m|]; [|by apply returns_ret]. case_if; [by apply returns_ret|]. dec_bool.
  case_if; dec_bool.
  - rewrite ddiv_pos_ok by done. cbn. case_if; apply returns_ret; [done|]. dec_bool. eauto.
  - apply returns_ret. intros _ _. exists m. split_and!; try done. lra.
Qed.

Lemma check_drawdown_spec en m pk eq :
  returns (check_drawdown en m pk eq) (fun r => r = None -> drawdown_within en m pk eq).
Proof.
  unfold check_drawdown, drawdown_within. destruct en; [|by apply returns_ret].
  destruct m as [m|], pk as [pk|]; try by apply returns_ret.
  case_if; [by apply returns_ret|]. dec_bool. rewrite ddiv_pos_ok by done. cbn.
  case_if; apply returns_ret; [done|]. dec_bool. intros _ _. by exists m, pk.
Qed.

Lemma check_loss_limits_spec a p :
  0 < ac_equity_usd a ->
  returns (check_loss_limits a p) (fun r => r = None -> losses_within a (rp_loss_limits p)).
Proof.
  intros He. unfold check_loss_limits.
  eapply returns_bind; [by apply check_loss_spec|]. intros [e|] H1; [by apply returns_ret|].
  eapply returns_bind; [by apply check_loss_spec|]. intros [e|] H2; [by apply returns_ret|].
  eapply returns_mono; [by apply check_drawdown_spec|]. intros r H3 Hr. constructor; auto.
Qed.

Lemma validate_constraints_spec c :
  returns (validate_constraints c) (fun r => r = None -> constraints_wf c).
Proof.
  unfold validate_constraints. destruct (validate_core_spec c) as (r & -> & Hr). cbn.
  destruct r; apply returns_ret; [done|]. intros _. by apply Hr.
Qed.
