(* ===== verification/Sizing.v ===== *)
(** * Position sizing (services/risk_engine/rounding.py, sizing.py, portfolio.py)

    The quantity arithmetic of the risk engine.  The [while] loop of
    [apply_risk_cap_after_rounding] is run with a bound computed from its
    arguments: one round per step in the starting quantity, which
    [risk_cap_correct] shows is enough. *)
From Stdlib Require Import ZArith QArith Lqa Lia.
From stdpp Require Import base list strings.
From S2P Require Import Prelude Decimal StrategyModels RiskModels.

(** ** Definitions *)

Definition floor_to_step (value step : decimal) : res decimal :=
  if step ≤ᵈ 0%Q then Raise (ValueError "step must be positive")
  else
    q ← value /ᵈ step;
    let steps := to_integral_down q in
    Ok (steps *ᵈ step).

Definition round_to_tick (price tick_size : decimal) : res decimal :=
  if tick_size ≤ᵈ 0%Q then Raise (ValueError "tick_size must be positive")
  else
    q ← price /ᵈ tick_size;
    let steps := to_integral_down q in
    Ok (steps *ᵈ tick_size).

Definition effective_stop (stop_initial trail_stop : decimal) : decimal := dmax stop_initial trail_stop.

Definition open_risk_usd (position : PositionState) : decimal :=
  let eff := effective_stop (ps_stop_initial position) (ps_trail_stop position) in
  let distance := dmax 0%Q (ps_entry_price position -ᵈ eff) in
  ps_position_size position *ᵈ distance.

Definition current_open_risk_usd (positions : list PositionState) : decimal :=
  dsum (open_risk_usd <$> positions).

Definition total_notional_usd (positions : list PositionState) : decimal :=
  dsum ((fun p => ps_position_size p *ᵈ ps_mark_price p) <$> positions).

Definition build_portfolio_snapshot (equity_usd : decimal) (positions : list PositionState)
    (new_entry_price new_quantity new_stop_distance : decimal) : res PortfolioRiskSnapshot :=
  let current := current_open_risk_usd positions in
  let actual_new_risk := new_quantity *ᵈ new_stop_distance in
  let projected := current +ᵈ actual_new_risk in
  let total_notional := total_notional_usd positions in
  let projected_notional := total_notional +ᵈ (new_quantity *ᵈ new_entry_price) in
  let equity := if 0%Q <ᵈ equity_usd then equity_usd else d_of_Z 1 in
  current_pct ← current /ᵈ equity;
  projected_pct ← projected /ᵈ equity;
  leverage ← projected_notional /ᵈ equity;
  Ok {| pf_current_open_risk_usd := current;
        pf_current_open_risk_pct := current_pct;
        pf_projected_portfolio_risk_usd := projected;
        pf_projected_portfolio_risk_pct := projected_pct;
        pf_total_notional_usd := total_notional;
        pf_projected_notional_usd := projected_notional;
        pf_effective_leverage := leverage |}.

Definition compute_stop_distance (entry_price stop_price : decimal) : decimal := entry_price -ᵈ stop_price.
Definition compute_risk_budget (equity_usd : decimal) (params : RiskParameters) : decimal :=
  equity_usd *ᵈ rp_risk_per_trade_pct params.
Definition compute_raw_quantity (risk_budget_usd stop_distance_usd : decimal) : res decimal :=
  risk_budget_usd /ᵈ stop_distance_usd.

Definition trade_limit (params : RiskParameters) : decimal :=
  rp_risk_per_trade_pct params *ᵈ (d_of_Z 1 +ᵈ rp_risk_rounding_tolerance params).

(** One round of the loop: [inl] is the next quantity, [inr] the result. *)
Definition risk_cap_body (stop_distance_usd equity_usd risk_budget_usd quantity_step minimum_quantity : decimal)
    (params : RiskParameters) (qty : decimal) : decimal + res (option decimal) :=
  if minimum_quantity ≤ᵈ qty then
    let actual_risk := qty *ᵈ stop_distance_usd in
    match actual_risk /ᵈ equity_usd with
    | Raise e => inr (Raise e)
    | Ok actual_pct =>
        if (actual_risk ≤ᵈ risk_budget_usd) && (actual_pct ≤ᵈ trade_limit params) then inr (Ok (Some qty))
        else
          match floor_to_step (qty -ᵈ quantity_step) quantity_step with
          | Raise e => inr (Raise e)
          | Ok next_qty => if next_qty =ᵈ qty then inr (Ok None) else inl next_qty
          end
    end
  else inr (Ok None).

Definition risk_cap_fuel (quantity step : decimal) : positive := Z.to_pos (trunc (quantity / step)%Q + 2).

Definition apply_risk_cap_after_rounding (quantity stop_distance_usd equity_usd risk_budget_usd
    quantity_step minimum_quantity : decimal) (params : RiskParameters) : res (option decimal) :=
  match loop (risk_cap_body stop_distance_usd equity_usd risk_budget_usd quantity_step minimum_quantity params)
          (risk_cap_fuel quantity quantity_step) quantity with
  | inl _ => Raise LoopFuel
  | inr r => r
  end.

Definition zero_sizing (risk_budget stop_distance raw_qty : decimal) : PositionSizingResult :=
  {| sz_risk_budget_usd := risk_budget; sz_stop_distance_usd := stop_distance; sz_raw_quantity := raw_qty;
     sz_rounded_quantity := 0%Q; sz_actual_trade_risk_usd := 0%Q; sz_actual_trade_risk_pct := 0%Q |}.

Definition compute_position_sizing (equity_usd entry_price stop_price quantity_step minimum_quantity : decimal)
    (params : RiskParameters) : res (option PositionSizingResult) :=
  let stop_distance := compute_stop_distance entry_price stop_price in
  if stop_distance ≤ᵈ 0%Q then Ok None
  else
    let risk_budget := compute_risk_budget equity_usd params in
    raw_qty ← compute_raw_quantity risk_budget stop_distance;
    rounded ← floor_to_step raw_qty quantity_step;
    if rounded ≤ᵈ 0%Q then Ok (Some (zero_sizing risk_budget stop_distance raw_qty))
    else
      final ← apply_risk_cap_after_rounding rounded stop_distance equity_usd risk_budget quantity_step
                minimum_quantity params;
      match final with
      | None => Ok (Some (zero_sizing risk_budget stop_distance raw_qty))
      | Some final_qty =>
          let actual_risk := final_qty *ᵈ stop_distance in
          actual_pct ← actual_risk /ᵈ equity_usd;
          Ok (Some {| sz_risk_budget_usd := risk_budget;
                      sz_stop_distance_usd := stop_distance;
                      sz_raw_quantity := raw_qty;
                      sz_rounded_quantity := final_qty;
                      sz_actual_trade_risk_usd := actual_risk;
                      sz_actual_trade_risk_pct := actual_pct |})
      end.

Definition cap_quantity_for_leverage (quantity entry_price equity_usd total_notional_usd quantity_step
    max_leverage : decimal) : res decimal :=
  let projected_notional := total_notional_usd +ᵈ (quantity *ᵈ entry_price) in
  projected_leverage ← projected_notional /ᵈ equity_usd;
  if projected_leverage ≤ᵈ max_leverage then Ok quantity
  else
    let max_new_notional := (max_leverage *ᵈ equity_usd) -ᵈ total_notional_usd in
    if max_new_notional ≤ᵈ 0%Q then Ok 0%Q
    else
      q ← max_new_notional /ᵈ entry_price;
      capped ← floor_to_step q quantity_step;
      Ok (dmin quantity capped).

Definition cap_quantity_for_margin (quantity entry_price available_margin_usd max_leverage
    quantity_step : decimal) : res decimal :=
  if available_margin_usd <ᵈ 0%Q then Ok 0%Q
  else
    let notional := quantity *ᵈ entry_price in
    required_margin ← notional /ᵈ max_leverage;
    if required_margin ≤ᵈ available_margin_usd then Ok quantity
    else
      let max_notional := available_margin_usd *ᵈ max_leverage in
      if max_notional ≤ᵈ 0%Q then Ok 0%Q
      else
        q ← max_notional /ᵈ entry_price;
        floored ← floor_to_step q quantity_step;
        Ok (dmin quantity floored).

(** ** Lemmas *)
Local Open Scope Q_scope.

Lemma floor_to_step_eq v s : 0 < s -> floor_to_step v s = Ok (step_floor s v).
Proof.
  intros Hs. unfold floor_to_step. destruct (s ≤ᵈ 0) eqn:E; [dec_bool; lra|]. by rewrite ddiv_pos_ok.
Qed.

Lemma sizing_round_to_tick_eq p t : 0 < t -> round_to_tick p t = Ok (step_floor t p).
Proof.
  intros Ht. unfold round_to_tick. destruct (t ≤ᵈ 0) eqn:E; [dec_bool; lra|]. by rewrite ddiv_pos_ok.
Qed.

(** Integers times a step, and the order between them. *)
Lemma steps_lt a b s : 0 < s -> inject_Z a * s < inject_Z b * s <-> (a < b)%Z.
Proof. intros Hs. rewrite Zlt_Qlt. split; intros; nra. Qed.
Lemma steps_le a b s : 0 < s -> inject_Z a * s <= inject_Z b * s <-> (a <= b)%Z.
Proof. intros Hs. rewrite Zle_Qle. split; intros; nra. Qed.
Lemma steps_pos k s : 0 < s -> 0 < inject_Z k * s <-> (0 < k)%Z.
Proof. intros Hs. rewrite <- (steps_lt 0 k s Hs). change (inject_Z 0) with 0. split; lra. Qed.
Lemma steps_sub k s : inject_Z k * s - s == inject_Z (k - 1) * s.
Proof. unfold Z.sub. rewrite inject_Z_plus, inject_Z_opp. change (inject_Z 1) with 1. ring. Qed.
Lemma steps_div k s : 0 < s -> inject_Z k * s / s == inject_Z k.
Proof. intros. field. lra. Qed.

#[export] Instance on_grid_proper s : Proper (Qeq ==> iff) (on_grid s).
Proof. intros x y H. unfold on_grid. by setoid_rewrite H. Qed.

Section RiskCap.
Context (stop_distance_usd equity_usd risk_budget_usd step minimum_quantity : decimal).
Context (params : RiskParameters).
Hypothesis step_pow10 : pow10_step step.
Hypothesis equity_pos : 0 < equity_usd.
Hypothesis minimum_pos : 0 < minimum_quantity.

Let step_pos : 0 < step := pow10_step_pos step step_pow10.

(** A quantity whose risk respects the budget and the percentage limit. *)
Definition feasible (q : decimal) : Prop :=
  dmul q stop_distance_usd <= risk_budget_usd /\
  rnd (dmul q stop_distance_usd / equity_usd) <= trade_limit params.

#[export] Instance feasible_proper : Proper (Qeq ==> iff) feasible.
Proof. intros x y H. unfold feasible. by rewrite H. Qed.

(** One step down from a grid quantity of at most 10^28 steps. *)
Lemma prev_step k :
  (0 < k <= 10 ^ 28)%Z -> step_floor step (dsub (inject_Z k * step) step) == inject_Z (k - 1) * step.
Proof.
  intros Hk. assert (Hr : representable (inject_Z (k - 1))).
  { apply representable_Z. unfold prec. lia. }
  assert (Hd : dsub (inject_Z k * step) step == inject_Z (k - 1) * step).
  { unfold dsub. rewrite steps_sub. by apply rnd_representable, pow10_mul. }
  etransitivity; [|apply step_floor_on_grid_id; [exact step_pos|]].
  - unfold step_floor, dmul. by rewrite Hd.
  - exists (k - 1)%Z. split_and!; [reflexivity|done|by apply pow10_mul].
Qed.

(** Whatever the quantity, the next one is not larger and stays on the grid. *)
Lemma next_step_le q : on_grid step q -> step_floor step (dsub q step) <= q.
Proof.
  intros Hq. rewrite <- (step_floor_on_grid_id step step_pos q Hq) at 2.
  apply step_floor_mono; [done|]. apply dsub_le; [by destruct Hq as (? & _ & _ & ?)|lra].
Qed.

Lemma next_step_nonneg q : on_grid step q -> 0 < q -> 0 <= step_floor step (dsub q step).
Proof.
  intros (k & Hq & _) H0. apply step_floor_nonneg; [done|]. apply dsub_nonneg. rewrite Hq in *.
  apply steps_pos in H0; [|done]. rewrite <- (Qmult_1_l step) at 1. apply (steps_le 1 k step); [done|lia].
Qed.

Section Run.
Context (quantity : decimal).
Hypothesis quantity_grid : on_grid step quantity.
Hypothesis quantity_nonneg : 0 <= quantity.

(** The quantities tried before [q] are infeasible, as long as the search
    does not start above 10^28 steps. *)
Definition tried (q : decimal) : Prop :=
  quantity <= inject_Z (10 ^ 28) * step ->
  forall j, q < inject_Z j * step -> inject_Z j * step <= quantity -> ~ feasible (inject_Z j * step).

Definition cap_inv (q : decimal) : Prop :=
  on_grid step q /\ 0 <= q /\ q <= quantity /\ tried q.

Definition cap_post (r : res (option decimal)) : Prop :=
  exists o, r = Ok o /\
  match o with
  | Some q => on_grid step q /\ minimum_quantity <= q <= quantity /\ feasible q /\ tried q
  | None => quantity <= inject_Z (10 ^ 28) * step ->
            forall j, minimum_quantity <= inject_Z j * step -> inject_Z j * step <= quantity ->
                      ~ feasible (inject_Z j * step)
  end.

Let body := risk_cap_body stop_distance_usd equity_usd risk_budget_usd step minimum_quantity params.

(** What one round does. *)
Lemma risk_cap_body_eq q :
  body q =
    if minimum_quantity ≤ᵈ q then
      if (dmul q stop_distance_usd ≤ᵈ risk_budget_usd)
         && (rnd (dmul q stop_distance_usd / equity_usd) ≤ᵈ trade_limit params) then inr (Ok (Some q))
      else if step_floor step (dsub q step) =ᵈ q then inr (Ok None)
      else inl (step_floor step (dsub q step))
    else inr (Ok None).
Proof.
  unfold body, risk_cap_body. by rewrite ddiv_pos_ok, floor_to_step_eq.
Qed.

Lemma tried_step q :
  cap_inv q -> 0 < q -> ~ feasible q -> tried (step_floor step (dsub q step)).
Proof.
  intros ((k & Hq & Hk & _) & _ & Hle & Ht) Hpos Hnf Hb j Hj1 Hj2.
  assert (0 < k)%Z by (apply (steps_pos k step); [done|]; rewrite <- Hq; lra).
  assert (k <= 10 ^ 28)%Z by (apply (steps_le _ _ step); [done|]; rewrite <- Hq; lra).
  assert (Hprev : step_floor step (dsub q step) == inject_Z (k - 1) * step).
  { etransitivity; [|by apply prev_step]. unfold step_floor, dmul, dsub. by rewrite Hq. }
  rewrite Hprev in Hj1. apply steps_lt in Hj1; [|done].
  destruct (Z.eq_dec j k) as [->|Hjk]; [by rewrite <- Hq|].
  apply Ht; [done| |done]. rewrite Hq. apply steps_lt; [done|]. lia.
Qed.

Lemma risk_cap_body_inv q :
  cap_inv q -> match body q with inl q' => cap_inv q' | inr r => cap_post r end.
Proof.
  intros Hinv. pose proof Hinv as (Hg & H0 & Hle & Ht). rewrite risk_cap_body_eq.
  destruct (minimum_quantity ≤ᵈ q) eqn:Em; dec_bool.
  2: { exists None. split; [done|]. intros Hb j Hj1 Hj2. apply Ht; [done|lra|done]. }
  destruct (_ && _) eqn:Ef.
  { dec_bool. exists (Some q). done. }
  assert (Hnf : ~ feasible q).
  { intros [H1 H2]. apply dleb_le in H1, H2. by rewrite H1, H2 in Ef. }
  assert (Hpos : 0 < q) by lra.
  pose proof (tried_step q Hinv Hpos Hnf) as Ht'.
  destruct (step_floor step (dsub q step) =ᵈ q) eqn:En; dec_bool.
  - exists None. split; [done|]. intros Hb. exfalso.
    destruct Hg as (k & Hq & _). assert (0 < k)%Z by (apply (steps_pos k step); [done|]; rewrite <- Hq; lra).
    assert (k <= 10 ^ 28)%Z by (apply (steps_le _ _ step); [done|]; rewrite <- Hq; lra).
    assert (q == inject_Z (k - 1) * step) as Hq'.
    { rewrite <- En at 1. etransitivity; [|by apply prev_step]. unfold step_floor, dmul, dsub. by rewrite Hq. }
    assert (k <= k - 1)%Z; [|lia]. apply (steps_le _ _ step); [done|]. lra.
  - pose proof (next_step_le q Hg). split_and!; [by apply pow10_floor_grid|by apply next_step_nonneg|lra|done].
Qed.

Lemma risk_cap_body_dec q q' :
  cap_inv q -> body q = inl q' -> (trunc (q' / step)%Q + 1 <= trunc (q / step)%Q)%Z.
Proof.
  intros (Hg & H0 & Hle & Ht). rewrite risk_cap_body_eq. intros Hb.
  destruct (minimum_quantity ≤ᵈ q); [|done]. destruct (_ && _); [done|].
  destruct (step_floor step (dsub q step) =ᵈ q) eqn:En; [done|]. injection Hb as <-. dec_bool.
  pose proof (next_step_le q Hg) as Hn.
  destruct (pow10_floor_grid step step_pow10 (dsub q step)) as (k' & Hk' & _).
  destruct Hg as (k & Hk & _).
  assert (Hd : forall x j, x == inject_Z j * step -> trunc (x / step) = j).
  { intros x j Hx. rewrite Hx, steps_div by done. apply trunc_Z. }
  rewrite (Hd _ _ Hk'), (Hd _ _ Hk). assert (k' < k)%Z; [|lia].
  apply (steps_lt _ _ step); [done|]. rewrite <- Hk, <- Hk'.
  destruct (Qle_lt_or_eq _ _ Hn); [done|]. by destruct En.
Qed.

(** The loop stops, with the largest feasible quantity of the grid. *)
Lemma risk_cap_correct :
  cap_post (apply_risk_cap_after_rounding quantity stop_distance_usd equity_usd risk_budget_usd
              step minimum_quantity params).
Proof.
  unfold apply_risk_cap_after_rounding. fold body.
  destruct (loop_total body cap_inv cap_post risk_cap_body_inv (fun q => trunc (q / step)%Q)
              risk_cap_body_dec (risk_cap_fuel quantity step) quantity) as (r & -> & Hr).
  - split_and!; [done|done|lra|]. intros _ j H1 H2. lra.
  - intros q (_ & H0 & _). apply trunc_nonneg. by apply Qdiv_nonneg.
  - unfold risk_cap_fuel. pose proof (trunc_nonneg (quantity / step)) as Ht.
    specialize (Ht (Qdiv_nonneg _ _ step_pos quantity_nonneg)).
    rewrite Z2Pos.id; lia.
  - done.
Qed.
End Run.
End RiskCap.

Lemma on_grid_zero s : on_grid s 0.
Proof. exists 0%Z. split_and!; [change (inject_Z 0) with 0; ring|apply representable_zero..]. Qed.

Lemma dmin_grid s a b : on_grid s a -> on_grid s b -> on_grid s (dmin a b).
Proof. by destruct (dmin_spec a b) as (_ & _ & [-> | ->]). Qed.

Lemma dmin_glb a b c : c <= a -> c <= b -> c <= dmin a b.
Proof. by destruct (dmin_spec a b) as (_ & _ & [-> | ->]). Qed.

(** [r] is a quantity of the grid, no larger than [q]. *)
Definition reduced (s q r : decimal) : Prop := on_grid s r /\ 0 <= r /\ r <= q.

Lemma reduced_refl s q : on_grid s q -> 0 <= q -> reduced s q q.
Proof. intros. split_and!; [done|done|lra]. Qed.
Lemma reduced_zero s q : 0 <= q -> reduced s q 0.
Proof. intros. split_and!; [apply on_grid_zero|lra|done]. Qed.
Lemma reduced_trans s a b c : reduced s a b -> reduced s b c -> reduced s a c.
Proof. intros (_ & _ & ?) (? & ? & ?). split_and!; [done|done|lra]. Qed.
#[export] Hint Resolve reduced_refl reduced_zero : dec.

Lemma reduced_min s q v :
  pow10_step s -> on_grid s q -> 0 <= q -> 0 <= v -> reduced s q (dmin q (step_floor s v)).
Proof.
  intros Hs Hg H0 Hv. split_and!; [apply dmin_grid; [done|by apply pow10_floor_grid]| |apply dmin_l].
  apply dmin_glb; [done|]. apply step_floor_nonneg; [by apply pow10_step_pos|done].
Qed.

(** The two caps only ever reduce the quantity. *)
Lemma cap_leverage_reduces q e eq tot s m :
  pow10_step s -> 0 < e -> 0 < eq -> on_grid s q -> 0 <= q ->
  returns (cap_quantity_for_leverage q e eq tot s m) (reduced s q).
Proof.
  intros Hs He Heq Hg Hq. unfold cap_quantity_for_leverage. rewrite (ddiv_pos_ok _ eq), (ddiv_pos_ok _ e) by done. cbn.
  case_if; [apply returns_ret; auto with dec|]. case_if; [apply returns_ret; auto with dec|]. dec_bool.
  rewrite floor_to_step_eq by (by apply pow10_step_pos). cbn.
  apply returns_ret, reduced_min; auto with dec. apply rnd_nonneg, Qdiv_nonneg; [done|lra].
Qed.

Lemma cap_margin_reduces q e av m s :
  pow10_step s -> 0 < e -> 0 < m -> on_grid s q -> 0 <= q ->
  returns (cap_quantity_for_margin q e av m s) (reduced s q).
Proof.
  intros Hs He Hm Hg Hq. unfold cap_quantity_for_margin. case_if; [apply returns_ret; auto with dec|].
  rewrite (ddiv_pos_ok _ m), (ddiv_pos_ok _ e) by done. cbn.
  case_if; [apply returns_ret; auto with dec|]. case_if; [apply returns_ret; auto with dec|]. dec_bool.
  rewrite floor_to_step_eq by (by apply pow10_step_pos). cbn.
  apply returns_ret, reduced_min; auto with dec. apply rnd_nonneg, Qdiv_nonneg; [done|lra].
Qed.

(** The quantity the sizing proposes is on the grid and not negative. *)
Lemma compute_position_sizing_returns eq e sp s mq p :
  pow10_step s -> 0 < eq -> 0 < mq -> 0 <= rp_risk_per_trade_pct p -> sp < e ->
  returns (compute_position_sizing eq e sp s mq p) (fun o =>
    exists r, o = Some r /\ sz_stop_distance_usd r = dsub e sp /\
              on_grid s (sz_rounded_quantity r) /\ 0 <= sz_rounded_quantity r).
Proof.
  intros Hs Heq Hmq Hp Hlt. unfold compute_position_sizing, compute_stop_distance, compute_raw_quantity.
  pose proof (dsub_pos e sp Hlt) as Hd. pose proof (pow10_step_pos s Hs) as Hsp.
  case_if; [dec_bool; lra|]. rewrite ddiv_pos_ok by done. cbn. rewrite floor_to_step_eq by done. cbn.
  case_if.
  { apply returns_ret. eexists. split_and!; [done|done|apply on_grid_zero|cbn; lra]. }
  dec_bool. set (raw := rnd _) in *.
  destruct (risk_cap_correct (dsub e sp) eq (compute_risk_budget eq p) s mq p Hs Heq Hmq (step_floor s raw))
    as (o & -> & Ho); [by apply pow10_floor_grid|lra|]. cbn. destruct o as [q|].
  - rewrite ddiv_pos_ok by done. cbn. apply returns_ret.
    destruct Ho as (Hg & Hq & _). eexists. split_and!; [done|done|done|]. cbn. lra.
  - apply returns_ret. eexists. split_and!; [done|done|apply on_grid_zero|cbn; lra].
Qed.

Lemma build_portfolio_snapshot_returns eq ps e q d :
  0 < eq ->
  build_portfolio_snapshot eq ps e q d = Ok
    {| pf_current_open_risk_usd := current_open_risk_usd ps;
       pf_current_open_risk_pct := rnd (current_open_risk_usd ps / eq);
       pf_projected_portfolio_risk_usd := dadd (current_open_risk_usd ps) (dmul q d);
       pf_projected_portfolio_risk_pct := rnd (dadd (current_open_risk_usd ps) (dmul q d) / eq);
       pf_total_notional_usd := total_notional_usd ps;
       pf_projected_notional_usd := dadd (total_notional_usd ps) (dmul q e);
       pf_effective_leverage := rnd (dadd (total_notional_usd ps) (dmul q e) / eq) |}.
Proof.
  intros H. unfold build_portfolio_snapshot. apply dltb_lt in H as Hb. rewrite Hb.
  by rewrite !ddiv_pos_ok.
Qed.

(** [C36] The risk-cap loop stops, for every power-of-ten step, and finds the
    largest quantity: its result is a multiple of the step between the minimum
    and the starting quantity, its risk is within the budget and the limit,
    and no larger multiple's is; without a result, no multiple from the
    minimum up qualifies (both maximality claims for a start of at most 10^28
    steps, the quantities the decimal context represents exactly). *)
Theorem risk_cap_largest quantity dist equity budget step minimum params :
  pow10_step step -> on_grid step quantity -> 0 <= quantity -> 0 < equity -> 0 < minimum ->
  returns (apply_risk_cap_after_rounding quantity dist equity budget step minimum params) (fun o =>
    let feasible q := dmul q dist <= budget /\ rnd (dmul q dist / equity) <= trade_limit params in
    let exact := quantity <= inject_Z (10 ^ 28) * step in
    match o with
    | Some q => on_grid step q /\ minimum <= q <= quantity /\ feasible q /\
                (exact -> forall j, q < inject_Z j * step <= quantity -> ~ feasible (inject_Z j * step))
    | None => exact -> forall j, minimum <= inject_Z j * step <= quantity -> ~ feasible (inject_Z j * step)
    end).
Proof.
  intros Hs Hg Hq He Hm.
  destruct (risk_cap_correct dist equity budget step minimum params Hs He Hm quantity Hg Hq) as (o & -> & Ho).
  apply returns_ret. destruct o as [q|].
  - destruct Ho as (H1 & H2 & H3 & H4). split; [done|]. split; [done|]. split; [exact H3|].
    intros Hx j [Hj1 Hj2]. by apply H4.
  - intros ? ? Hx j [Hj1 Hj2]. by apply Ho.
Qed.

Lemma risk_cap_largest_witness :
  let p := default_risk_parameters in
  let o := apply_risk_cap_after_rounding (12 # 100) 100 1000 5 (1 # 100) (2 # 100) p in
  (fun r => from_option (fun q => q =ᵈ 5 # 100) false r) <$> o = Ok true /\
  returns o (fun o =>
    let feasible q := dmul q 100 <= 5 /\ rnd (dmul q 100 / 1000) <= trade_limit p in
    let exact := (12 # 100) <= inject_Z (10 ^ 28) * (1 # 100) in
    match o with
    | Some q => on_grid (1 # 100) q /\ (2 # 100) <= q <= (12 # 100) /\ feasible q /\
                (exact -> forall j, q < inject_Z j * (1 # 100) <= (12 # 100) -> ~ feasible (inject_Z j * (1 # 100)))
    | None => exact -> forall j, (2 # 100) <= inject_Z j * (1 # 100) <= (12 # 100) -> ~ feasible (inject_Z j * (1 # 100))
    end).
Proof.
  intros p o. split; [vm_compute; reflexivity|]. apply risk_cap_largest.
  - exists (-2)%Z. reflexivity.
  - exists 12%Z. split_and!; [reflexivity|by apply representable_Z|].
    exists 12%Z, (-2)%Z. split; [reflexivity|vm_compute; discriminate].
  - vm_compute. discriminate.
  - reflexivity.
  - reflexivity.
Defined.
