(* ===== verification/RiskEngine.v ===== *)
(** * The risk engine (services/risk_engine/engine.py)

    [evaluate] checks a trade proposal against the account, the exchange's
    constraints, the open positions and orders and the intents already
    processed, sizes it, and approves or rejects it. *)
From Stdlib Require Import ZArith QArith Lqa Lia.
From stdpp Require Import base list sets gmap strings.
From S2P Require Import Prelude Decimal StrategyModels RiskModels Constraints RiskValidation Sizing.

(** ** Definitions *)

Definition _reject (proposal : TradeProposal) (reason_codes : list ReasonCode) (errors : list RiskError)
    (params : RiskParameters) (current_open_risk_usd : option decimal) : RiskDecision :=
  {| rd_approved := false;
     rd_symbol := tp_symbol proposal;
     rd_requested_entry_price := tp_entry_price proposal;
     rd_requested_stop_price := tp_stop_price proposal;
     rd_raw_quantity := None;
     rd_rounded_quantity := None;
     rd_actual_trade_risk_usd := None;
     rd_actual_trade_risk_pct := None;
     rd_current_open_risk_usd := current_open_risk_usd;
     rd_projected_portfolio_risk_usd := None;
     rd_projected_portfolio_risk_pct := None;
     rd_required_margin_usd := None;
     rd_effective_leverage := None;
     rd_reason_codes := reason_codes;
     rd_strategy_version := rp_strategy_version params;
     rd_risk_specification_version := rp_risk_specification_version params;
     rd_errors := errors |}.

(** The rejection with one error, the shape of every early return. *)
Definition reject_one (proposal : TradeProposal) (params : RiskParameters) (current : option decimal)
    (code : ReasonCode) (message : string) : RiskDecision :=
  _reject proposal [code] [{| re_code := code; re_message := message; re_details := [] |}] params current.

Definition reject_error (proposal : TradeProposal) (params : RiskParameters) (err : RiskError) : RiskDecision :=
  _reject proposal [re_code err] [err] params None.

(** The last part of [RiskEngine.evaluate]: the checks of the projected
    portfolio, for a sized quantity. *)
Definition approve_quantity (proposal : TradeProposal) (account : AccountState)
    (constraints : SymbolConstraints) (open_positions : list PositionState) (p : RiskParameters)
    (stop_price : decimal) (sizing : PositionSizingResult) (quantity : decimal) : res RiskDecision :=
  let entry_price := tp_entry_price proposal in
  let stop_distance := sz_stop_distance_usd sizing in
  if quantity <ᵈ sc_minimum_quantity constraints then
    Ok (reject_one proposal p None RC_REJECT_RISK_TRADE "Minimum quantity not met")
  else
    let notional := quantity *ᵈ entry_price in
    if notional <ᵈ sc_minimum_notional constraints then
      Ok (reject_one proposal p None RC_REJECT_RISK_TRADE "Minimum notional not met")
    else
      portfolio ← build_portfolio_snapshot (ac_equity_usd account) open_positions entry_price quantity stop_distance;
      let max_portfolio_risk_usd := ac_equity_usd account *ᵈ rp_max_portfolio_risk_pct p in
      let current := Some (pf_current_open_risk_usd portfolio) in
      if max_portfolio_risk_usd <ᵈ pf_projected_portfolio_risk_usd portfolio then
        Ok (reject_one proposal p current RC_REJECT_RISK_PORTFOLIO "Projected portfolio risk exceeds limit")
      else if rp_max_leverage p <ᵈ pf_effective_leverage portfolio then
        Ok (reject_one proposal p current RC_REJECT_LEVERAGE "Effective leverage exceeds max_leverage")
      else
        required_margin ← notional /ᵈ rp_max_leverage p;
        if ac_available_margin_usd account <ᵈ required_margin then
          Ok (reject_one proposal p current RC_REJECT_LEVERAGE "Insufficient available margin")
        else
          let actual_risk := quantity *ᵈ stop_distance in
          actual_pct ← actual_risk /ᵈ ac_equity_usd account;
          Ok {| rd_approved := true;
                rd_symbol := tp_symbol proposal;
                rd_requested_entry_price := entry_price;
                rd_requested_stop_price := stop_price;
                rd_raw_quantity := Some (sz_raw_quantity sizing);
                rd_rounded_quantity := Some quantity;
                rd_actual_trade_risk_usd := Some actual_risk;
                rd_actual_trade_risk_pct := Some actual_pct;
                rd_current_open_risk_usd := current;
                rd_projected_portfolio_risk_usd := Some (pf_projected_portfolio_risk_usd portfolio);
                rd_projected_portfolio_risk_pct := Some (pf_projected_portfolio_risk_pct portfolio);
                rd_required_margin_usd := Some required_margin;
                rd_effective_leverage := Some (pf_effective_leverage portfolio);
                rd_reason_codes := [RC_RISK_APPROVED];
                rd_strategy_version := rp_strategy_version p;
                rd_risk_specification_version := rp_risk_specification_version p;
                rd_errors := [] |}.

(** The sizing part, for a proposal that passed the collision checks. *)
Definition size_proposal (proposal : TradeProposal) (account : AccountState)
    (constraints : SymbolConstraints) (open_positions : list PositionState) (p : RiskParameters)
    (stop_price : decimal) : res RiskDecision :=
  let entry_price := tp_entry_price proposal in
  sizing ← compute_position_sizing (ac_equity_usd account) entry_price stop_price
             (sc_quantity_step constraints) (sc_minimum_quantity constraints) p;
  match sizing with
  | None => Ok (reject_one proposal p None RC_REJECT_DATA "Invalid stop distance")
  | Some sizing =>
      if sz_rounded_quantity sizing ≤ᵈ 0%Q then
        Ok (reject_one proposal p None RC_REJECT_RISK_TRADE "Quantity zero after rounding")
      else
        let quantity := sz_rounded_quantity sizing in
        let stop_distance := sz_stop_distance_usd sizing in
        let risk_budget := compute_risk_budget (ac_equity_usd account) p in
        let existing_notional := total_notional_usd open_positions in
        quantity ← cap_quantity_for_leverage quantity entry_price (ac_equity_usd account) existing_notional
                     (sc_quantity_step constraints) (rp_max_leverage p);
        quantity ← cap_quantity_for_margin quantity entry_price (ac_available_margin_usd account)
                     (rp_max_leverage p) (sc_quantity_step constraints);
        capped ← apply_risk_cap_after_rounding quantity stop_distance (ac_equity_usd account) risk_budget
                   (sc_quantity_step constraints) (sc_minimum_quantity constraints) p;
        match capped with
        | Some capped =>
            if capped ≤ᵈ 0%Q then
              Ok (reject_one proposal p None RC_REJECT_LEVERAGE "Quantity insufficient after leverage/margin reduction")
            else approve_quantity proposal account constraints open_positions p stop_price sizing capped
        | None =>
            Ok (reject_one proposal p None RC_REJECT_LEVERAGE "Quantity insufficient after leverage/margin reduction")
        end
  end.

Definition evaluate (proposal : TradeProposal) (account : AccountState) (constraints : SymbolConstraints)
    (open_positions : list PositionState) (open_orders : list OpenOrderState)
    (processed_intent_ids : gset string) (params : option RiskParameters) : res RiskDecision :=
  let p := default default_risk_parameters params in
  match validate_parameters p with
  | Some err => Ok (reject_error proposal p err)
  | None =>
  match validate_account account with
  | Some err => Ok (reject_error proposal p err)
  | None =>
  constraint_err ← validate_constraints constraints;
  match constraint_err with
  | Some err => Ok (reject_error proposal p err)
  | None =>
  match validate_proposal proposal with
  | (_ :: _) as errs => Ok (_reject proposal (re_code <$> errs) errs p None)
  | [] =>
  match validate_open_positions open_positions with
  | Some err => Ok (reject_error proposal p err)
  | None =>
  loss_err ← check_loss_limits account p;
  match loss_err with
  | Some err => Ok (reject_error proposal p err)
  | None =>
  let entry_price := tp_entry_price proposal in
  stop_price ← round_to_tick (tp_stop_price proposal) (sc_price_tick_size constraints);
  match validate_long_stop entry_price stop_price with
  | Some err => Ok (reject_error proposal p err)
  | None =>
  if bool_decide (tp_client_intent_id proposal ∈ processed_intent_ids) then
    Ok (reject_one proposal p None RC_REJECT_DATA "Duplicate client_intent_id already processed")
  else if existsb (fun pos => bool_decide (ps_symbol pos = tp_symbol proposal)) open_positions then
    Ok (reject_one proposal p None RC_REJECT_DUPLICATE_SYMBOL "Position already open for symbol")
  else if existsb (fun o => bool_decide (oo_symbol o = tp_symbol proposal) && oo_is_entry o) open_orders then
    Ok (reject_one proposal p None RC_REJECT_DUPLICATE_SYMBOL "Conflicting open entry order for symbol")
  else if (rp_max_open_positions p <=? Z.of_nat (length open_positions))%Z then
    Ok (reject_one proposal p None RC_REJECT_MAX_POSITIONS "Maximum open positions reached")
  else size_proposal proposal account constraints open_positions p stop_price
  end end end end end end end.

(** ** Meaning *)
Local Open Scope Q_scope.

(** A rejection carries its reasons and no quantity. *)
Record rejected (d : RiskDecision) : Prop := {
  rj_approved : rd_approved d = false;
  rj_reasons : rd_reason_codes d <> [];
  rj_codes : rd_reason_codes d = re_code <$> rd_errors d;
  rj_quantity : rd_rounded_quantity d = None;
}.

(** The limits the approved quantity [q] with stop [stop] respects; [p] are
    the parameters, themselves within the frozen limits. *)
Record within_limits (proposal : TradeProposal) (account : AccountState) (c : SymbolConstraints)
    (positions : list PositionState) (p : RiskParameters) (stop q : decimal) : Prop := {
  wl_grid : on_grid (sc_quantity_step c) q;
  wl_minimum : sc_minimum_quantity c <= q;
  wl_notional : sc_minimum_notional c <= dmul q (tp_entry_price proposal);
  wl_trade_risk : dmul q (dsub (tp_entry_price proposal) stop) <= compute_risk_budget (ac_equity_usd account) p;
  wl_trade_pct : rnd (dmul q (dsub (tp_entry_price proposal) stop) / ac_equity_usd account) <= trade_limit p;
  wl_portfolio_risk :
    dadd (current_open_risk_usd positions) (dmul q (dsub (tp_entry_price proposal) stop)) <=
      dmul (ac_equity_usd account) (rp_max_portfolio_risk_pct p);
  wl_leverage :
    rnd (dadd (total_notional_usd positions) (dmul q (tp_entry_price proposal)) / ac_equity_usd account) <=
      rp_max_leverage p;
  wl_margin :
    rnd (dmul q (tp_entry_price proposal) / rp_max_leverage p) <= ac_available_margin_usd account;
}.

(** What an approval certifies of the inputs and of the order. *)
Record approved (proposal : TradeProposal) (account : AccountState) (c : SymbolConstraints)
    (positions : list PositionState) (orders : list OpenOrderState) (processed : gset string)
    (p : RiskParameters) (d : RiskDecision) : Prop := {
  ap_params : risk_params_wf p;
  ap_account : account_wf account;
  ap_constraints : constraints_wf c;
  ap_proposal : proposal_wf proposal;
  ap_positions : Forall position_wf positions /\ NoDup (ps_symbol <$> positions);
  ap_losses : losses_within account (rp_loss_limits p);
  ap_new : tp_client_intent_id proposal ∉ processed;
  ap_symbol : tp_symbol proposal ∉ ps_symbol <$> positions;
  ap_orders : forall o, o ∈ orders -> oo_symbol o = tp_symbol proposal -> oo_is_entry o = false;
  ap_count : (Z.of_nat (length positions) < rp_max_open_positions p)%Z;
  ap_order : exists q,
    rd_symbol d = tp_symbol proposal /\ rd_requested_entry_price d = tp_entry_price proposal /\
    rd_requested_stop_price d = step_floor (sc_price_tick_size c) (tp_stop_price proposal) /\
    rd_requested_stop_price d < tp_entry_price proposal /\
    rd_rounded_quantity d = Some q /\
    rd_actual_trade_risk_usd d = Some (dmul q (dsub (tp_entry_price proposal) (rd_requested_stop_price d))) /\
    within_limits proposal account c positions p (rd_requested_stop_price d) q;
}.

Lemma reject_one_rejected pr p c code m : rejected (reject_one pr p c code m).
Proof. by split. Qed.

Lemma reject_error_rejected pr p err : rejected (reject_error pr p err).
Proof. by split. Qed.
#[local] Hint Resolve reject_one_rejected reject_error_rejected : core.

(** What the sizing part adds to an approval. *)
Definition order_ok (proposal : TradeProposal) (account : AccountState) (c : SymbolConstraints)
    (positions : list PositionState) (p : RiskParameters) (stop : decimal) (d : RiskDecision) : Prop :=
  rejected d \/
  rd_approved d = true /\ rd_symbol d = tp_symbol proposal /\
  rd_requested_entry_price d = tp_entry_price proposal /\ rd_requested_stop_price d = stop /\
  exists q, rd_rounded_quantity d = Some q /\
    rd_actual_trade_risk_usd d = Some (dmul q (dsub (tp_entry_price proposal) stop)) /\
    within_limits proposal account c positions p stop q.

Lemma approve_quantity_ok pr a c ps p stop sz q :
  0 < ac_equity_usd a -> 0 < rp_max_leverage p ->
  sz_stop_distance_usd sz = dsub (tp_entry_price pr) stop ->
  on_grid (sc_quantity_step c) q ->
  dmul q (dsub (tp_entry_price pr) stop) <= compute_risk_budget (ac_equity_usd a) p ->
  rnd (dmul q (dsub (tp_entry_price pr) stop) / ac_equity_usd a) <= trade_limit p ->
  returns (approve_quantity pr a c ps p stop sz q) (order_ok pr a c ps p stop).
Proof.
  intros He Hl Hsd Hg Hb Hpct. unfold approve_quantity. rewrite Hsd.
  case_if; [apply returns_ret; by left|]. case_if; [apply returns_ret; by left|].
  rewrite build_portfolio_snapshot_returns by done. cbn.
  case_if; [apply returns_ret; by left|]. case_if; [apply returns_ret; by left|].
  rewrite (ddiv_pos_ok _ (rp_max_leverage p)), (ddiv_pos_ok _ (ac_equity_usd a)) by done. cbn.
  case_if; [apply returns_ret; by left|]. apply returns_ret. right. cbn.
  split_and!; [done..|]. exists q. split_and!; [done..|]. dec_bool. by constructor.
Qed.

Lemma size_proposal_ok pr a c ps p stop :
  pow10_step (sc_quantity_step c) -> risk_params_wf p -> account_wf a -> constraints_wf c ->
  0 < tp_entry_price pr -> stop < tp_entry_price pr ->
  returns (size_proposal pr a c ps p stop) (order_ok pr a c ps p stop).
Proof.
  intros Hs [[Hp _] _ [Hl _] _ _] [_ He _] Hc Hen Hst. unfold size_proposal.
  pose proof (cc_step _ Hc) as Hsp. pose proof (cc_min _ Hc) as Hmin.
  eapply returns_bind; [apply compute_position_sizing_returns; [done|done|lra|lra|done]|].
  intros o (sz & -> & Hsd & Hg & H0). cbn.
  case_if; [apply returns_ret; by left|].
  eapply returns_bind; [by apply cap_leverage_reduces|]. intros q1 R1.
  eapply returns_bind; [apply cap_margin_reduces; [done|done|done|apply R1|apply R1]|]. intros q2 R2.
  destruct (risk_cap_correct (sz_stop_distance_usd sz) (ac_equity_usd a)
    (compute_risk_budget (ac_equity_usd a) p) (sc_quantity_step c) (sc_minimum_quantity c) p Hs He ltac:(lra) q2)
    as (r & -> & Hr); [apply R2|apply R2|]. cbn.
  destruct r as [q|]; [|apply returns_ret; by left].
  case_if; [apply returns_ret; by left|].
  destruct Hr as (Hqg & _ & [Hf1 Hf2] & _). rewrite Hsd in Hf1, Hf2.
  by apply approve_quantity_ok.
Qed.

Lemma existsb_false {A} (f : A -> bool) l : existsb f l = false -> forall x, x ∈ l -> f x = false.
Proof.
  intros H x Hx. apply not_true_is_false. intros Hf.
  rewrite (proj2 (existsb_exists f l)) in H; [done|]. exists x. split; [|done]. by apply list_elem_of_In.
Qed.

Lemma evaluate_decides proposal account c positions orders processed p :
  pow10_step (sc_quantity_step c) ->
  returns (evaluate proposal account c positions orders processed (Some p)) (fun d =>
    if rd_approved d then approved proposal account c positions orders processed p d else rejected d).
Proof.
  intros Hs. unfold evaluate. cbn [default from_option id].
  assert (Hrej : forall d, rejected d -> returns (Ok d) (fun d =>
      if rd_approved d then approved proposal account c positions orders processed p d else rejected d)).
  { intros d Hd. apply returns_ret. by rewrite (rj_approved _ Hd). }
  destruct (validate_parameters p) eqn:Ep; [by apply Hrej; auto|]. apply validate_parameters_none in Ep.
  destruct (validate_account account) eqn:Ea; [by apply Hrej; auto|]. apply validate_account_none in Ea.
  eapply returns_bind; [apply validate_constraints_spec|]. intros [err|] Ec; [by apply Hrej; auto|]. specialize (Ec eq_refl).
  destruct (validate_proposal proposal) as [|err errs] eqn:Epr; [|by apply Hrej].
  apply validate_proposal_nil in Epr.
  destruct (validate_open_positions positions) eqn:Eo; [by apply Hrej; auto|].
  apply check_open_positions_none in Eo as (Ho1 & Ho2 & _).
  eapply returns_bind; [apply check_loss_limits_spec, Ea|]. intros [err|] El; [by apply Hrej; auto|]. specialize (El eq_refl).
  rewrite sizing_round_to_tick_eq by apply Ec. cbn. set (stop := step_floor _ _).
  destruct (validate_long_stop _ stop) eqn:Est; [by apply Hrej; auto|]. apply validate_long_stop_none in Est.
  case_bool_decide as Hid; [by apply Hrej; auto|].
  destruct (existsb _ positions) eqn:Exp; [by apply Hrej; auto|]. destruct (existsb _ orders) eqn:Exo; [by apply Hrej; auto|].
  destruct (Z.leb_spec (rp_max_open_positions p) (Z.of_nat (length positions))); [by apply Hrej; auto|].
  eapply returns_mono; [apply size_proposal_ok; try done; apply Epr|].
  intros d [Hd|(-> & Hsy & Hen & Hst & q & Hq & Hr & Hl)]; [by rewrite (rj_approved _ Hd)|].
  constructor; try done.
  - intros (pos & Hsym & Hin)%list_elem_of_fmap. pose proof (existsb_false _ _ Exp pos Hin) as Hb.
    by apply bool_decide_eq_false in Hb.
  - intros o Hin Hsym. pose proof (existsb_false _ _ Exo o Hin) as Hb. cbn in Hb.
    by rewrite bool_decide_eq_true_2 in Hb.
  - exists q. by rewrite Hst.
Qed.

(** [C8] The risk engine is fail-closed and never raises (for a power-of-ten
    quantity step): every decision is either a rejection that names its
    reasons and carries no quantity, or an approval, and then every input is
    valid, the parameters are within the frozen limits, the intent is new, the
    symbol has no position and no pending entry, the number of positions is
    below the maximum, the stop is the tick-rounded stop and below the entry,
    and the quantity is a multiple of the step that respects the minimum
    quantity and notional, the per-trade budget, the portfolio risk limit, the
    leverage limit and the available margin. *)
Theorem risk_evaluate_safe proposal account c positions orders processed p :
  pow10_step (sc_quantity_step c) ->
  returns (evaluate proposal account c positions orders processed (Some p)) (fun d =>
    if rd_approved d then approved proposal account c positions orders processed p d else rejected d).
Proof. apply evaluate_decides. Qed.

Definition example_constraints : SymbolConstraints :=
  {| sc_quantity_step := 1 # 1000; sc_minimum_quantity := 1 # 1000;
     sc_minimum_notional := 10; sc_price_tick_size := 1 # 10 |}.
Definition example_proposal : TradeProposal :=
  {| tp_symbol := "BTC"; tp_side := LONG; tp_entry_price := 100; tp_stop_price := 9512 # 100;
     tp_client_intent_id := "id-1"; tp_signal_intent_kind := LONG_ENTRY; tp_strategy_approved := true;
     tp_market_data_status := MD_OK; tp_bot_system_state := BOT_ACTIVE; tp_atr14 := Some 2 |}.
Definition example_account : AccountState :=
  {| ac_equity_usd := 10000; ac_available_margin_usd := 10000; ac_daily_realized_pnl_usd := 0;
     ac_weekly_realized_pnl_usd := 0; ac_peak_equity_usd := None |}.

Lemma risk_evaluate_safe_witness :
  let d := evaluate example_proposal example_account example_constraints [] [] ∅ (Some default_risk_parameters) in
  rd_approved <$> d = Ok true /\
  returns d (fun d =>
    if rd_approved d then
      approved example_proposal example_account example_constraints [] [] ∅ default_risk_parameters d
    else rejected d).
Proof.
  intros d. split; [vm_compute; reflexivity|]. apply risk_evaluate_safe. exists (-3)%Z. reflexivity.
Defined.
