(* ===== verification/BtModels.v ===== *)
(** * Data of the backtester (services/backtester/models.py and the runtime
    state of engine.py)

    A dictionary the source iterates over ([positions], [active_trades], the
    candles of a day) is an insertion-ordered association list; one it only
    looks keys up in is a [gmap]. *)
From Stdlib Require Import ZArith QArith.
From stdpp Require Import base list gmap strings.
From S2P Require Import Prelude Decimal StrategyModels RiskModels.

Inductive OrderStatus := OS_PENDING | OS_FILLED | OS_REJECTED | OS_CANCELLED.
#[export] Instance OrderStatus_eq : EqDecision OrderStatus.
Proof. solve_decision. Defined.

Inductive ExitReason := STOP_INITIAL | STOP_TRAILING | STOP_GAP | END_OF_BACKTEST.
#[export] Instance ExitReason_eq : EqDecision ExitReason.
Proof. solve_decision. Defined.

Record FeeModel := { fm_entry_fee_rate : decimal; fm_exit_fee_rate : decimal }.
Record SlippageModel := { sm_slippage_bps : decimal }.
Record FundingEvent := { fe_timestamp : datetime; fe_funding_rate : decimal }.
Record FundingModel := { fn_enabled : bool; fn_assumed_rate : option decimal }.

(** The audit metadata of core_metadata.py; its two enums have one value. *)
Inductive AccountingModel := PERPETUAL_MARGIN.
Inductive AuditStatus := PAPER_TRADING_APPROVED.
Record CoreEngineMetadata := {
  cm_strategy_version : string;
  cm_risk_version : string;
  cm_backtester_version : string;
  cm_accounting_model : AccountingModel;
  cm_audit_status : AuditStatus;
}.
Definition CORE_ENGINE_METADATA : CoreEngineMetadata :=
  {| cm_strategy_version := "1.0"; cm_risk_version := "1.0"; cm_backtester_version := "1.0";
     cm_accounting_model := PERPETUAL_MARGIN; cm_audit_status := PAPER_TRADING_APPROVED |}.
Definition BACKTESTER_VERSION : string := "1.0.0".
Definition DEFAULT_SYMBOLS : list string := ["BTC"; "ETH"; "SOL"]%string.

(** A data-quality warning; the source prints it, the model keeps its parts. *)
Inductive warning :=
  | WText (text : string)
  | WDuplicate (symbol : string) (open_time : datetime)
  | WUnsorted (symbol : string) (open_time : datetime)
  | WOpen (symbol : string) (open_time : datetime).

Record BacktestConfig := {
  bc_symbols : list string;
  bc_initial_cash : decimal;
  bc_strategy_params : StrategyParameters;
  bc_risk_params : RiskParameters;
  bc_fee_model : FeeModel;
  bc_slippage_model : SlippageModel;
  bc_funding_model : FundingModel;
  bc_symbol_constraints : gmap string SymbolConstraints;
  bc_initial_processed_intent_ids : list string;
  bc_backtester_version : string;
  bc_core_metadata : CoreEngineMetadata;
}.

Record HistoricalDataBundle := {
  hb_daily : gmap string (list Candle);
  hb_weekly : gmap string (list Candle);
  hb_monthly : gmap string (list Candle);
  hb_funding : gmap string (list FundingEvent);
  hb_data_quality_warnings : list warning;
}.

Record PendingIntent := {
  pi_client_intent_id : string;
  pi_symbol : string;
  pi_strategy_version : string;
  pi_entry_type : EntryType;
  pi_strategy_reason_codes : list ReasonCode;
  pi_signal_time : datetime;
  pi_order_time : datetime;
  pi_signal_close_price : decimal;
  pi_stop_price : decimal;
  pi_atr14 : decimal;
  pi_strategy_evaluation : StrategyEvaluation;
}.

Record SimulatedOrder := {
  so_client_intent_id : string;
  so_symbol : string;
  so_status : OrderStatus;
  so_quantity : option decimal;
  so_reference_price : option decimal;
}.

Record TrailingStopSnapshot := {
  tn_time : datetime;
  tn_trail_stop : decimal;
  tn_effective_stop : decimal;
}.

Record SimulatedPosition := {
  pos_symbol : string;
  pos_quantity : decimal;
  pos_entry_price : decimal;
  pos_entry_time : datetime;
  pos_initial_stop : decimal;
  pos_trail_stop : decimal;
  pos_effective_stop : decimal;
  pos_highest_close : decimal;
  pos_entry_atr14 : decimal;
  pos_client_intent_id : string;
  pos_margin_reserved : decimal;
}.

Record PortfolioState := {
  po_cash : decimal;
  po_positions : list SimulatedPosition;
  po_pending_intents : list PendingIntent;
  po_total_fees : decimal;
  po_total_funding : decimal;
  po_total_slippage : decimal;
  po_realized_pnl : decimal;
}.

Record BacktestTrade := {
  bt_symbol : string;
  bt_client_intent_id : string;
  bt_strategy_version : string;
  bt_entry_type : EntryType;
  bt_strategy_reason_codes : list ReasonCode;
  bt_risk_reason_codes : list ReasonCode;
  bt_signal_time : datetime;
  bt_order_time : datetime;
  bt_entry_time : datetime;
  bt_entry_reference_price : decimal;
  bt_entry_fill_price : decimal;
  bt_quantity : decimal;
  bt_initial_stop : decimal;
  bt_trailing_stop_history : list TrailingStopSnapshot;
  bt_exit_time : option datetime;
  bt_exit_reason : option ExitReason;
  bt_exit_reference_price : option decimal;
  bt_exit_fill_price : option decimal;
  bt_gross_pnl : option decimal;
  bt_fees : decimal;
  bt_funding : decimal;
  bt_slippage_cost : decimal;
  bt_net_pnl : option decimal;
  bt_initial_risk_usd : option decimal;
  bt_r_multiple : option decimal;
  bt_holding_period_days : option Z;
}.

Record EquitySnapshot := {
  eq_time : datetime;
  eq_cash : decimal;
  eq_equity : decimal;
  eq_unrealized_pnl : decimal;
  eq_open_positions : nat;
}.

Record DrawdownSnapshot := {
  dd_time : datetime;
  dd_equity : decimal;
  dd_peak_equity : decimal;
  dd_drawdown_pct : decimal;
}.

Record RiskRejectionRecord := {
  rx_time : datetime;
  rx_symbol : string;
  rx_client_intent_id : string;
  rx_reason_codes : list ReasonCode;
  rx_strategy_reason_codes : list ReasonCode;
}.

(** [PortfolioState]'s methods. *)
Definition used_margin_usd (p : PortfolioState) : decimal := dsum (pos_margin_reserved <$> po_positions p).

(** [mark_prices.get(pos.symbol, pos.entry_price)]. *)
Definition mark_of (mark_prices : gmap string decimal) (pos : SimulatedPosition) : decimal :=
  default (pos_entry_price pos) (mark_prices !! pos_symbol pos).

Definition unrealized_of (mark_prices : gmap string decimal) (positions : list SimulatedPosition) : decimal :=
  dsum ((fun pos => pos_quantity pos *ᵈ (mark_of mark_prices pos -ᵈ pos_entry_price pos)) <$> positions).

Definition unrealized_pnl_usd (p : PortfolioState) (mark_prices : gmap string decimal) : decimal :=
  unrealized_of mark_prices (po_positions p).

Definition equity_usd (p : PortfolioState) (mark_prices : gmap string decimal) : decimal :=
  po_cash p +ᵈ unrealized_pnl_usd p mark_prices.

Definition available_margin_usd (p : PortfolioState) (mark_prices : gmap string decimal) : decimal :=
  dmax 0%Q (equity_usd p mark_prices -ᵈ used_margin_usd p).

(** The engine's mutable state. *)
Record _Runtime := {
  rt_cash : decimal;
  rt_positions : list (string * SimulatedPosition);
  rt_pending_intents : list PendingIntent;
  rt_processed_intent_ids : gset string;
  rt_intent_orders : gmap string SimulatedOrder;
  rt_active_trades : list (string * BacktestTrade);
  rt_closed_trades : list BacktestTrade;
  rt_evaluations : list StrategyEvaluation;
  rt_rejections : list RiskRejectionRecord;
  rt_equity_curve : list EquitySnapshot;
  rt_total_fees : decimal;
  rt_total_funding : decimal;
  rt_total_slippage : decimal;
  rt_realized_pnl : decimal;
  rt_trail_history : gmap string (list TrailingStopSnapshot);
  rt_peak_equity : decimal;
}.

(** One setter per field the engine assigns. *)
Definition set_cash (rt : _Runtime) (v : decimal) : _Runtime :=
  Build__Runtime v (rt_positions rt) (rt_pending_intents rt) (rt_processed_intent_ids rt)
    (rt_intent_orders rt) (rt_active_trades rt) (rt_closed_trades rt) (rt_evaluations rt)
    (rt_rejections rt) (rt_equity_curve rt) (rt_total_fees rt) (rt_total_funding rt)
    (rt_total_slippage rt) (rt_realized_pnl rt) (rt_trail_history rt) (rt_peak_equity rt).
Definition set_positions (rt : _Runtime) (v : list (string * SimulatedPosition)) : _Runtime :=
  Build__Runtime (rt_cash rt) v (rt_pending_intents rt) (rt_processed_intent_ids rt)
    (rt_intent_orders rt) (rt_active_trades rt) (rt_closed_trades rt) (rt_evaluations rt)
    (rt_rejections rt) (rt_equity_curve rt) (rt_total_fees rt) (rt_total_funding rt)
    (rt_total_slippage rt) (rt_realized_pnl rt) (rt_trail_history rt) (rt_peak_equity rt).
Definition set_pending_intents (rt : _Runtime) (v : list PendingIntent) : _Runtime :=
  Build__Runtime (rt_cash rt) (rt_positions rt) v (rt_processed_intent_ids rt) (rt_intent_orders rt)
    (rt_active_trades rt) (rt_closed_trades rt) (rt_evaluations rt) (rt_rejections rt)
    (rt_equity_curve rt) (rt_total_fees rt) (rt_total_funding rt) (rt_total_slippage rt)
    (rt_realized_pnl rt) (rt_trail_history rt) (rt_peak_equity rt).
Definition set_processed_intent_ids (rt : _Runtime) (v : gset string) : _Runtime :=
  Build__Runtime (rt_cash rt) (rt_positions rt) (rt_pending_intents rt) v (rt_intent_orders rt)
    (rt_active_trades rt) (rt_closed_trades rt) (rt_evaluations rt) (rt_rejections rt)
    (rt_equity_curve rt) (rt_total_fees rt) (rt_total_funding rt) (rt_total_slippage rt)
    (rt_realized_pnl rt) (rt_trail_history rt) (rt_peak_equity rt).
Definition set_intent_orders (rt : _Runtime) (v : gmap string SimulatedOrder) : _Runtime :=
  Build__Runtime (rt_cash rt) (rt_positions rt) (rt_pending_intents rt) (rt_processed_intent_ids rt) v
    (rt_active_trades rt) (rt_closed_trades rt) (rt_evaluations rt) (rt_rejections rt)
    (rt_equity_curve rt) (rt_total_fees rt) (rt_total_funding rt) (rt_total_slippage rt)
    (rt_realized_pnl rt) (rt_trail_history rt) (rt_peak_equity rt).
Definition set_active_trades (rt : _Runtime) (v : list (string * BacktestTrade)) : _Runtime :=
  Build__Runtime (rt_cash rt) (rt_positions rt) (rt_pending_intents rt) (rt_processed_intent_ids rt)
    (rt_intent_orders rt) v (rt_closed_trades rt) (rt_evaluations rt) (rt_rejections rt)
    (rt_equity_curve rt) (rt_total_fees rt) (rt_total_funding rt) (rt_total_slippage rt)
    (rt_realized_pnl rt) (rt_trail_history rt) (rt_peak_equity rt).
Definition set_closed_trades (rt : _Runtime) (v : list BacktestTrade) : _Runtime :=
  Build__Runtime (rt_cash rt) (rt_positions rt) (rt_pending_intents rt) (rt_processed_intent_ids rt)
    (rt_intent_orders rt) (rt_active_trades rt) v (rt_evaluations rt) (rt_rejections rt)
    (rt_equity_curve rt) (rt_total_fees rt) (rt_total_funding rt) (rt_total_slippage rt)
    (rt_realized_pnl rt) (rt_trail_history rt) (rt_peak_equity rt).
Definition set_evaluations (rt : _Runtime) (v : list StrategyEvaluation) : _Runtime :=
  Build__Runtime (rt_cash rt) (rt_positions rt) (rt_pending_intents rt) (rt_processed_intent_ids rt)
    (rt_intent_orders rt) (rt_active_trades rt) (rt_closed_trades rt) v (rt_rejections rt)
    (rt_equity_curve rt) (rt_total_fees rt) (rt_total_funding rt) (rt_total_slippage rt)
    (rt_realized_pnl rt) (rt_trail_history rt) (rt_peak_equity rt).
Definition set_rejections (rt : _Runtime) (v : list RiskRejectionRecord) : _Runtime :=
  Build__Runtime (rt_cash rt) (rt_positions rt) (rt_pending_intents rt) (rt_processed_intent_ids rt)
    (rt_intent_orders rt) (rt_active_trades rt) (rt_closed_trades rt) (rt_evaluations rt) v
    (rt_equity_curve rt) (rt_total_fees rt) (rt_total_funding rt) (rt_total_slippage rt)
    (rt_realized_pnl rt) (rt_trail_history rt) (rt_peak_equity rt).
Definition set_equity_curve (rt : _Runtime) (v : list EquitySnapshot) : _Runtime :=
  Build__Runtime (rt_cash rt) (rt_positions rt) (rt_pending_intents rt) (rt_processed_intent_ids rt)
    (rt_intent_orders rt) (rt_active_trades rt) (rt_closed_trades rt) (rt_evaluations rt)
    (rt_rejections rt) v (rt_total_fees rt) (rt_total_funding rt) (rt_total_slippage rt)
    (rt_realized_pnl rt) (rt_trail_history rt) (rt_peak_equity rt).
Definition set_total_fees (rt : _Runtime) (v : decimal) : _Runtime :=
  Build__Runtime (rt_cash rt) (rt_positions rt) (rt_pending_intents rt) (rt_processed_intent_ids rt)
    (rt_intent_orders rt) (rt_active_trades rt) (rt_closed_trades rt) (rt_evaluations rt)
    (rt_rejections rt) (rt_equity_curve rt) v (rt_total_funding rt) (rt_total_slippage rt)
    (rt_realized_pnl rt) (rt_trail_history rt) (rt_peak_equity rt).
Definition set_total_funding (rt : _Runtime) (v : decimal) : _Runtime :=
  Build__Runtime (rt_cash rt) (rt_positions rt) (rt_pending_intents rt) (rt_processed_intent_ids rt)
    (rt_intent_orders rt) (rt_active_trades rt) (rt_closed_trades rt) (rt_evaluations rt)
    (rt_rejections rt) (rt_equity_curve rt) (rt_total_fees rt) v (rt_total_slippage rt)
    (rt_realized_pnl rt) (rt_trail_history rt) (rt_peak_equity rt).
Definition set_total_slippage (rt : _Runtime) (v : decimal) : _Runtime :=
  Build__Runtime (rt_cash rt) (rt_positions rt) (rt_pending_intents rt) (rt_processed_intent_ids rt)
    (rt_intent_orders rt) (rt_active_trades rt) (rt_closed_trades rt) (rt_evaluations rt)
    (rt_rejections rt) (rt_equity_curve rt) (rt_total_fees rt) (rt_total_funding rt) v
    (rt_realized_pnl rt) (rt_trail_history rt) (rt_peak_equity rt).
Definition set_realized_pnl (rt : _Runtime) (v : decimal) : _Runtime :=
  Build__Runtime (rt_cash rt) (rt_positions rt) (rt_pending_intents rt) (rt_processed_intent_ids rt)
    (rt_intent_orders rt) (rt_active_trades rt) (rt_closed_trades rt) (rt_evaluations rt)
    (rt_rejections rt) (rt_equity_curve rt) (rt_total_fees rt) (rt_total_funding rt)
    (rt_total_slippage rt) v (rt_trail_history rt) (rt_peak_equity rt).
Definition set_trail_history (rt : _Runtime) (v : gmap string (list TrailingStopSnapshot)) : _Runtime :=
  Build__Runtime (rt_cash rt) (rt_positions rt) (rt_pending_intents rt) (rt_processed_intent_ids rt)
    (rt_intent_orders rt) (rt_active_trades rt) (rt_closed_trades rt) (rt_evaluations rt)
    (rt_rejections rt) (rt_equity_curve rt) (rt_total_fees rt) (rt_total_funding rt)
    (rt_total_slippage rt) (rt_realized_pnl rt) v (rt_peak_equity rt).
Definition set_peak_equity (rt : _Runtime) (v : decimal) : _Runtime :=
  Build__Runtime (rt_cash rt) (rt_positions rt) (rt_pending_intents rt) (rt_processed_intent_ids rt)
    (rt_intent_orders rt) (rt_active_trades rt) (rt_closed_trades rt) (rt_evaluations rt)
    (rt_rejections rt) (rt_equity_curve rt) (rt_total_fees rt) (rt_total_funding rt)
    (rt_total_slippage rt) (rt_realized_pnl rt) (rt_trail_history rt) v.
