(* ===== verification/BtData.v ===== *)
(** * Historical data and intent ids (services/backtester/data.py, intent.py)

    The slicing functions decide which candles an evaluation may see.  The id
    of an intent prints the evaluation time with [strftime]: the model computes
    the civil date from the day count of the epoch. *)
From Stdlib Require Import ZArith QArith Lia Ascii Strings.String.
From stdpp Require Import base list sets gmap strings.
From S2P Require Import Prelude Decimal StrategyModels RiskModels BtModels.

(** ** Definitions *)

Definition is_closed_by (as_of : datetime) (c : Candle) : bool :=
  c_is_closed c && (c_close_time c <=? as_of)%Z.

Definition slice_closed_candles (candles : list Candle) (as_of : datetime) : list Candle :=
  List.filter (is_closed_by as_of) candles.

Definition build_candle_series (symbol : string) (timeframe : Timeframe) (candles : list Candle)
    (as_of : datetime) : CandleSeries :=
  {| cs_symbol := symbol; cs_timeframe := timeframe; cs_candles := slice_closed_candles candles as_of |}.

Definition evaluation_time_for_daily (candle : Candle) : datetime := (c_close_time candle + seconds 5)%Z.

Fixpoint chronological_warnings (seen : gset Z) (prev : option datetime) (candles : list Candle) : list warning :=
  match candles with
  | [] => []
  | c :: candles' =>
      (if bool_decide (c_open_time c ∈ seen) then [WDuplicate (c_symbol c) (c_open_time c)] else []) ++
      (match prev with
       | Some p => if (c_open_time c <=? p)%Z then [WUnsorted (c_symbol c) (c_open_time c)] else []
       | None => []
       end) ++
      (if c_is_closed c then [] else [WOpen (c_symbol c) (c_open_time c)]) ++
      chronological_warnings ({[c_open_time c]} ∪ seen) (Some (c_open_time c)) candles'
  end.

Definition validate_chronological (candles : list Candle) : list warning :=
  chronological_warnings ∅ None candles.

(** *** Printing a time *)

(** The civil date of a day counted from 1970-01-01, with the year starting
    on 1 March during the computation. *)
Definition civil_from_days (days : Z) : Z * Z * Z :=
  let z := (days + 719468)%Z in
  let era := (z / 146097)%Z in
  let doe := (z mod 146097)%Z in
  let yoe := ((doe - doe / 1460 + doe / 36524 - doe / 146096) / 365)%Z in
  let doy := (doe - (365 * yoe + yoe / 4 - yoe / 100))%Z in
  let mp := ((5 * doy + 2) / 153)%Z in
  let d := (doy - (153 * mp + 2) / 5 + 1)%Z in
  let m := (if mp <? 10 then mp + 3 else mp - 9)%Z in
  let y := (yoe + era * 400 + (if m <=? 2 then 1 else 0))%Z in
  (y, m, d).

Definition digit (n : Z) : ascii := ascii_of_N (Z.to_N (48 + n mod 10)).

(** Decimal digits of [n], zero-padded to [width]; [n] has at most that many. *)
Fixpoint pad_digits (width : nat) (n : Z) : string :=
  match width with
  | O => EmptyString
  | S w => (pad_digits w (n / 10) ++ String (digit n) EmptyString)%string
  end.

(** [strftime("%Y-%m-%dT%H:%M:%SZ")], for years of at most four digits. *)
Definition strftime_utc (t : datetime) : string :=
  let s := (t / 1000000)%Z in
  let '(y, m, d) := civil_from_days (s / 86400) in
  let tod := (s mod 86400)%Z in
  (pad_digits 4 y ++ "-" ++ pad_digits 2 m ++ "-" ++ pad_digits 2 d ++ "T" ++
   pad_digits 2 (tod / 3600) ++ ":" ++ pad_digits 2 (tod / 60 mod 60) ++ ":" ++
   pad_digits 2 (tod mod 60) ++ "Z")%string.

Definition entry_type_value (e : EntryType) : string :=
  match e with BREAKOUT => "BREAKOUT" | PULLBACK => "PULLBACK" end.

Definition build_client_intent_id (symbol strategy_version : string) (signal_time : datetime)
    (entry_type : EntryType) : string :=
  (symbol ++ ":" ++ strategy_version ++ ":" ++ strftime_utc signal_time ++ ":" ++ entry_type_value entry_type)%string.

(** Two dates checked by evaluation. *)
Lemma strftime_epoch : strftime_utc 0 = "1970-01-01T00:00:00Z".
Proof. reflexivity. Qed.
Lemma strftime_leap : strftime_utc (seconds (951782400 + 86399)) = "2000-02-29T23:59:59Z".
Proof. reflexivity. Qed.

(** ** Slicing *)

Lemma elem_of_slice c l t :
  c ∈ slice_closed_candles l t <-> c ∈ l /\ c_is_closed c = true /\ (c_close_time c <= t)%Z.
Proof.
  unfold slice_closed_candles, is_closed_by.
  rewrite list_elem_of_In, List.filter_In, <- list_elem_of_In, andb_true_iff, Z.leb_le. done.
Qed.

(** Candles that close later do not appear in a slice. *)
Lemma slice_app_future l f t :
  Forall (fun c => (t < c_close_time c)%Z) f -> slice_closed_candles (l ++ f) t = slice_closed_candles l t.
Proof.
  intros Hf. unfold slice_closed_candles. rewrite List.filter_app.
  replace (List.filter (is_closed_by t) f) with (@nil Candle); [apply app_nil_r|].
  induction Hf as [|c f Hc _ IH]; cbn; [done|].
  unfold is_closed_by at 1. destruct (Z.leb_spec (c_close_time c) t); [lia|]. by rewrite andb_false_r.
Qed.

(** ** Injectivity of the printed time and of the id *)

(** Bounds of the year of the era, the day of the year and the month. *)
Lemma yoe_bounds doe :
  (0 <= doe < 146097 -> 0 <= (doe - doe / 1460 + doe / 36524 - doe / 146096) / 365 < 400)%Z.
Proof. intros H. Z.to_euclidean_division_equations; lia. Qed.

Lemma doy_bounds doe yoe :
  (0 <= doe < 146097 -> yoe = (doe - doe / 1460 + doe / 36524 - doe / 146096) / 365 ->
   0 <= doe - (365 * yoe + yoe / 4 - yoe / 100) <= 365)%Z.
Proof. intros H Hy. pose proof (yoe_bounds doe H). Z.to_euclidean_division_equations; lia. Qed.

Lemma month_bounds doy mp :
  (0 <= doy <= 365 -> mp = (5 * doy + 2) / 153 ->
   0 <= mp < 12 /\ 1 <= doy - (153 * mp + 2) / 5 + 1 < 32)%Z.
Proof. intros H Hm. Z.to_euclidean_division_equations; lia. Qed.

(** The day count is recovered from the date. *)
Definition days_from_civil (date : Z * Z * Z) : Z :=
  let '(y, m, d) := date in
  let y' := (if m <=? 2 then y - 1 else y)%Z in
  let mp := (if m <=? 2 then m + 9 else m - 3)%Z in
  let doy := ((153 * mp + 2) / 5 + d - 1)%Z in
  let yoe := (y' mod 400)%Z in
  ((y' / 400) * 146097 + (yoe * 365 + yoe / 4 - yoe / 100 + doy) - 719468)%Z.

Record date_ok (date : Z * Z * Z) : Prop := {
  do_month : (1 <= date.1.2 <= 12)%Z;
  do_day : (1 <= date.2 <= 31)%Z;
}.

Lemma civil_from_days_ok days :
  date_ok (civil_from_days days) /\ days_from_civil (civil_from_days days) = days.
Proof.
  pose proof (Z.mod_pos_bound (days + 719468) 146097 ltac:(lia)) as Hdoe.
  unfold civil_from_days, days_from_civil.
  pose proof (Z.div_mod (days + 719468) 146097 ltac:(lia)) as Hdm.
  set (era := ((days + 719468) / 146097)%Z) in *. set (doe := ((days + 719468) mod 146097)%Z) in *.
  set (yoe := ((doe - doe / 1460 + doe / 36524 - doe / 146096) / 365)%Z) in *.
  set (doy := (doe - (365 * yoe + yoe / 4 - yoe / 100))%Z) in *.
  set (mp := ((5 * doy + 2) / 153)%Z) in *.
  set (d := (doy - (153 * mp + 2) / 5 + 1)%Z) in *.
  pose proof (yoe_bounds doe Hdoe) as Hyoe. fold yoe in Hyoe.
  pose proof (doy_bounds doe yoe Hdoe eq_refl) as Hdoy. fold doy in Hdoy.
  destruct (month_bounds doy mp Hdoy eq_refl) as [Hmp Hd]. fold d in Hd.
  set (m := (if (mp <? 10)%Z then (mp + 3)%Z else (mp - 9)%Z)).
  assert (Hm : (m <=? 2)%Z = negb (mp <? 10)%Z).
  { unfold m. destruct (Z.ltb_spec mp 10); cbn; [apply Z.leb_gt|apply Z.leb_le]; lia. }
  split.
  { split; cbn; [|lia]. unfold m. destruct (Z.ltb_spec mp 10); lia. }
  rewrite Hm. unfold m. destruct (Z.ltb_spec mp 10) as [Hlt|Hge]; cbn [negb].
  - replace (yoe + era * 400 + 0)%Z with (yoe + era * 400)%Z by lia.
    rewrite Z_div_plus_full, Z_mod_plus_full, (Z.div_small yoe), (Z.mod_small yoe) by lia.
    replace (mp + 3 - 3)%Z with mp by lia. unfold d, doy. lia.
  - replace (yoe + era * 400 + 1 - 1)%Z with (yoe + era * 400)%Z by lia.
    rewrite Z_div_plus_full, Z_mod_plus_full, (Z.div_small yoe), (Z.mod_small yoe) by lia.
    replace (mp - 9 + 9)%Z with mp by lia. unfold d, doy. lia.
Qed.

Lemma civil_from_days_inj a b : civil_from_days a = civil_from_days b -> a = b.
Proof.
  intros H. rewrite <- (proj2 (civil_from_days_ok a)), <- (proj2 (civil_from_days_ok b)). by rewrite H.
Qed.

Lemma append_inv a b x y :
  String.length a = String.length b -> (a ++ x = b ++ y)%string -> a = b /\ x = y.
Proof.
  revert b. induction a as [|c a IH]; intros [|c' b] Hl H; cbn in *; try lia; [done|].
  injection H as -> H. destruct (IH b) as [-> ->]; [lia|done|done].
Qed.

Lemma length_append a b : String.length (a ++ b) = (String.length a + String.length b)%nat.
Proof.
  induction a as [|c a IH]; [done|].
  change (S (String.length (a ++ b)) = S (String.length a + String.length b))%nat. by rewrite IH.
Qed.

Lemma pad_digits_length w n : String.length (pad_digits w n) = w.
Proof. revert n. induction w as [|w IH]; intros n; [done|]. cbn [pad_digits]. rewrite length_append, IH. cbn. lia. Qed.

Lemma strftime_utc_length t : String.length (strftime_utc t) = 20%nat.
Proof.
  unfold strftime_utc. destruct (civil_from_days _) as [[y m] d].
  by rewrite !length_append, !pad_digits_length.
Qed.

Lemma digit_inj a b : digit a = digit b -> (a mod 10 = b mod 10)%Z.
Proof.
  unfold digit. intros H%(f_equal N_of_ascii).
  pose proof (Z.mod_pos_bound a 10 ltac:(lia)). pose proof (Z.mod_pos_bound b 10 ltac:(lia)).
  rewrite !N_ascii_embedding in H by lia. lia.
Qed.

Lemma pad_digits_inj w a b :
  (0 <= a < 10 ^ Z.of_nat w)%Z -> (0 <= b < 10 ^ Z.of_nat w)%Z -> pad_digits w a = pad_digits w b -> a = b.
Proof.
  revert a b. induction w as [|w IH]; intros a b Ha Hb H; [cbn in *; lia|].
  rewrite Nat2Z.inj_succ, Z.pow_succ_r in Ha, Hb by lia. cbn [pad_digits] in H.
  apply append_inv in H as [H1 H2]; [|by rewrite !pad_digits_length].
  apply IH in H1; [|split; [apply Z.div_pos|apply Z.div_lt_upper_bound]; lia..].
  injection H2 as H2%digit_inj. rewrite (Z.div_mod a 10), (Z.div_mod b 10) by lia. congruence.
Qed.

(** Years the model of [strftime] covers. *)
Definition printable (t : datetime) : Prop := (1000 <= (civil_from_days (t / 1000000 / 86400)).1.1 <= 9999)%Z.

Ltac split_fields :=
  repeat match goal with
  | H : (pad_digits _ _ ++ _ = pad_digits _ _ ++ _)%string |- _ =>
      apply append_inv in H; [|by rewrite !pad_digits_length];
      destruct H as [?%pad_digits_inj H]; [|lia..]
  | H : (?a ++ _ = ?a ++ _)%string |- _ => apply append_inv in H as [_ H]; [|done]
  end.

Lemma strftime_utc_inj t t' :
  printable t -> printable t' -> strftime_utc t = strftime_utc t' -> (t / 1000000 = t' / 1000000)%Z.
Proof.
  unfold printable, strftime_utc. set (s := (t / 1000000)%Z). set (s' := (t' / 1000000)%Z).
  destruct (civil_from_days_ok (s / 86400)) as [[Hm Hd] _].
  destruct (civil_from_days_ok (s' / 86400)) as [[Hm' Hd'] _].
  pose proof (civil_from_days_inj (s / 86400) (s' / 86400)) as Hinj.
  destruct (civil_from_days (s / 86400)) as [[y m] d], (civil_from_days (s' / 86400)) as [[y' m'] d'].
  cbn [fst snd] in *. intros Hy Hy' H.
  pose proof (Z.mod_pos_bound s 86400 ltac:(lia)). pose proof (Z.mod_pos_bound s' 86400 ltac:(lia)).
  pose proof (Z.mod_pos_bound (s mod 86400 / 60) 60 ltac:(lia)).
  pose proof (Z.mod_pos_bound (s' mod 86400 / 60) 60 ltac:(lia)).
  pose proof (Z.mod_pos_bound (s mod 86400) 60 ltac:(lia)).
  pose proof (Z.mod_pos_bound (s' mod 86400) 60 ltac:(lia)).
  assert (0 <= s mod 86400 / 3600 < 24)%Z by (Z.to_euclidean_division_equations; lia).
  assert (0 <= s' mod 86400 / 3600 < 24)%Z by (Z.to_euclidean_division_equations; lia).
  split_fields. subst. specialize (Hinj eq_refl).
  Z.to_euclidean_division_equations; lia.
Qed.

(** A part of an id without the separator. *)
Fixpoint no_colon (s : string) : bool :=
  match s with
  | EmptyString => true
  | String c s' => negb (Ascii.eqb c ":"%char) && no_colon s'
  end.

Lemma split_at_colon a b x y :
  no_colon a = true -> no_colon b = true -> (a ++ ":" ++ x = b ++ ":" ++ y)%string -> a = b /\ x = y.
Proof.
  revert b. induction a as [|c a IH]; intros [|c' b] Ha Hb H; cbn in Ha, Hb.
  - by injection H.
  - injection H as <- _. done.
  - injection H as -> _. done.
  - bsimpl. injection H as -> H. by destruct (IH b) as [-> ->].
Qed.

(** The client intent id identifies the signal: two ids are equal only
    when symbol, strategy version, entry type and the second of the signal
    time agree (for symbols and versions without a colon and years of four
    digits). *)
Theorem build_client_intent_id_inj sym ver t e sym' ver' t' e' :
  no_colon sym = true -> no_colon ver = true -> no_colon sym' = true -> no_colon ver' = true ->
  printable t -> printable t' ->
  build_client_intent_id sym ver t e = build_client_intent_id sym' ver' t' e' ->
  sym = sym' /\ ver = ver' /\ (t / 1000000 = t' / 1000000)%Z /\ e = e'.
Proof.
  intros Hs Hv Hs' Hv' Ht Ht' H. unfold build_client_intent_id in H.
  apply split_at_colon in H as [-> H]; [|done..]. apply split_at_colon in H as [-> H]; [|done..].
  apply append_inv in H as [Hts H]; [|by rewrite !strftime_utc_length].
  split_and!; [done|done|by apply strftime_utc_inj|]. by destruct e, e'.
Qed.

Lemma build_client_intent_id_inj_witness :
  let t := seconds 1700000000 in
  build_client_intent_id "BTC" "1.0.0" t BREAKOUT = "BTC:1.0.0:2023-11-14T22:13:20Z:BREAKOUT"%string /\
  (build_client_intent_id "BTC" "1.0.0" t BREAKOUT = build_client_intent_id "BTC" "1.0.0" (t + 7) BREAKOUT ->
   "BTC" = "BTC" /\ "1.0.0" = "1.0.0" /\ (t / 1000000 = (t + 7) / 1000000)%Z /\ BREAKOUT = BREAKOUT)%string.
Proof.
  intros t. split; [vm_compute; reflexivity|].
  apply build_client_intent_id_inj; try reflexivity; vm_compute; split; discriminate.
Defined.
