(* ===== verification/BtPortfolio.v ===== *)
(** * Execution costs and perpetual accounting
    (services/backtester/execution.py, portfolio.py) *)
From Stdlib Require Import ZArith QArith Qabs Lqa Lia.
From stdpp Require Import base list sets gmap strings.
From S2P Require Import Prelude Decimal StrategyModels RiskModels RiskValidation Sizing BtModels.

(** ** Definitions *)

Definition apply_entry_slippage (reference : decimal) (model : SlippageModel) : res decimal :=
  s ← sm_slippage_bps model /ᵈ d_of_Z 10000;
  Ok (reference *ᵈ (d_of_Z 1 +ᵈ s)).

Definition apply_exit_slippage (reference : decimal) (model : SlippageModel) : res decimal :=
  s ← sm_slippage_bps model /ᵈ d_of_Z 10000;
  Ok (reference *ᵈ (d_of_Z 1 -ᵈ s)).

Definition compute_fee (notional rate : decimal) : decimal := notional *ᵈ rate.

Definition compute_slippage_cost (reference fill quantity : decimal) : decimal :=
  dabs (fill -ᵈ reference) *ᵈ quantity.

Definition compute_funding_payment (notional funding_rate : decimal) : decimal := notional *ᵈ funding_rate.

Definition mark_prices_from_candles (positions : list SimulatedPosition) (closes : gmap string decimal)
    : gmap string decimal :=
  fold_left (fun marks p => <[pos_symbol p := default (pos_entry_price p) (closes !! pos_symbol p)]> marks)
    positions ∅.

Definition mark_at_open (day_candles : list (string * Candle)) (prior_closes : gmap string decimal)
    (pos : SimulatedPosition) : decimal :=
  match od_get day_candles (pos_symbol pos) with
  | Some candle => c_open candle
  | None => default (pos_entry_price pos) (prior_closes !! pos_symbol pos)
  end.

Definition resolve_marks_at_open (positions : list SimulatedPosition) (day_candles : list (string * Candle))
    (prior_closes : gmap string decimal) : gmap string decimal :=
  fold_left (fun marks pos => <[pos_symbol pos := mark_at_open day_candles prior_closes pos]> marks) positions ∅.

Definition compute_used_margin (positions : list SimulatedPosition) : decimal :=
  dsum (pos_margin_reserved <$> positions).

Definition compute_unrealized_pnl (positions : list SimulatedPosition) (mark_prices : gmap string decimal) : decimal :=
  unrealized_of mark_prices positions.

Definition compute_equity (wallet_balance : decimal) (positions : list SimulatedPosition)
    (mark_prices : gmap string decimal) : decimal :=
  wallet_balance +ᵈ compute_unrealized_pnl positions mark_prices.

Definition compute_available_margin (wallet_balance : decimal) (positions : list SimulatedPosition)
    (mark_prices : gmap string decimal) : decimal :=
  let equity := compute_equity wallet_balance positions mark_prices in
  let used := compute_used_margin positions in
  dmax 0%Q (equity -ᵈ used).

Definition position_margin (notional max_leverage : decimal) : res decimal :=
  if max_leverage ≤ᵈ 0%Q then Ok notional else notional /ᵈ max_leverage.

Definition to_position_state (mark_prices : gmap string decimal) (p : SimulatedPosition) : option PositionState :=
  let mark := mark_of mark_prices p in
  if (pos_quantity p ≤ᵈ 0%Q) || (mark ≤ᵈ 0%Q) then None
  else Some {| ps_symbol := pos_symbol p;
               ps_entry_price := pos_entry_price p;
               ps_position_size := pos_quantity p;
               ps_stop_initial := pos_initial_stop p;
               ps_trail_stop := pos_trail_stop p;
               ps_mark_price := mark |}.

Definition to_position_states (positions : list SimulatedPosition) (mark_prices : gmap string decimal)
    : list PositionState :=
  omap (to_position_state mark_prices) positions.

Definition to_open_orders (pending : list PendingIntent) : list OpenOrderState :=
  (fun i => {| oo_symbol := pi_symbol i;
               oo_client_intent_id := pi_client_intent_id i;
               oo_side := LONG;
               oo_is_entry := true |}) <$> pending.

(** The optional keyword arguments of the source keep their defaults in every
    call. *)
Definition build_portfolio_state (wallet_balance : decimal) (positions : list SimulatedPosition) : PortfolioState :=
  {| po_cash := wallet_balance; po_positions := positions; po_pending_intents := [];
     po_total_fees := 0%Q; po_total_funding := 0%Q; po_total_slippage := 0%Q; po_realized_pnl := 0%Q |}.

(** The source's [max_leverage] argument is unused there too. *)
Definition build_account_state (portfolio : PortfolioState) (mark_prices : gmap string decimal)
    (max_leverage : decimal) : AccountState :=
  let equity := equity_usd portfolio mark_prices in
  let used := used_margin_usd portfolio in
  let available := dmax 0%Q (equity -ᵈ used) in
  {| ac_equity_usd := equity;
     ac_available_margin_usd := available;
     ac_daily_realized_pnl_usd := 0%Q;
     ac_weekly_realized_pnl_usd := 0%Q;
     ac_peak_equity_usd := Some equity |}.

Definition current_open_risk (positions : list SimulatedPosition) (marks : gmap string decimal) : decimal :=
  current_open_risk_usd (to_position_states positions marks).

(** [{c.open_time: (i, c) for i, c in enumerate(candles)}]: a later candle
    replaces an earlier one with the same open time. *)
Definition index_candles (candles : list Candle) : gmap Z (nat * Candle) :=
  fold_left (fun m ic => <[c_open_time ic.2 := ic]> m) (imap pair candles) ∅.

(** The latest key before [before_open]; the order of the scan is immaterial. *)
Definition latest_before (before_open : datetime) (times : list datetime) : option datetime :=
  fold_left (fun prior ot =>
    if (ot <? before_open)%Z && match prior with None => true | Some p => (p <? ot)%Z end
    then Some ot else prior) times None.

Definition prior_closes_from_timeline (daily_by_sym : gmap string (gmap Z (nat * Candle)))
    (symbols : list string) (before_open : datetime) : gmap string decimal :=
  fold_left (fun result sym =>
    let by_time := default ∅ (daily_by_sym !! sym) in
    match latest_before before_open (map_to_list by_time).*1 with
    | Some prior =>
        match by_time !! prior with
        | Some (_, c) => <[sym := c_close c]> result
        | None => result
        end
    | None => result
    end) symbols ∅.

(** ** Lemmas *)
Local Open Scope Q_scope.

(** Slippage never favours the strategy, and its size is bounded by the
    rate. *)
Lemma entry_slippage_worsens p bps :
  0 <= p -> representable p -> 0 <= bps ->
  returns (apply_entry_slippage p {| sm_slippage_bps := bps |}) (fun fill => p <= fill).
Proof.
  intros Hp Hr Hb. unfold apply_entry_slippage. cbn. rewrite ddiv_pos_ok by reflexivity. cbn.
  apply returns_ret, rnd_ge_bound; [done|].
  assert (1 <= dadd (d_of_Z 1) (rnd (bps / d_of_Z 10000))); [|nra].
  apply dadd_ge; [apply representable_one|]. apply rnd_nonneg, Qdiv_nonneg; [reflexivity|done].
Qed.

Lemma exit_slippage_worsens p bps :
  0 <= p -> representable p -> 0 <= bps -> bps <= 10000 ->
  returns (apply_exit_slippage p {| sm_slippage_bps := bps |}) (fun fill => 0 <= fill <= p).
Proof.
  intros Hp Hr Hb Hb1. unfold apply_exit_slippage. cbn. rewrite ddiv_pos_ok by reflexivity. cbn.
  set (s := rnd _).
  assert (0 <= s) by (apply rnd_nonneg, Qdiv_nonneg; [reflexivity|done]).
  assert (s <= 1) by (apply rnd_le_bound; [apply representable_one|apply Qle_shift_div_r; [reflexivity|]; by rewrite Qmult_1_l]).
  assert (dsub (d_of_Z 1) s <= 1) by (apply dsub_le; [apply representable_one|done]).
  assert (0 <= dsub (d_of_Z 1) s) by (by apply dsub_nonneg).
  apply returns_ret. split; [by apply dmul_nonneg|]. apply rnd_le_bound; [done|]. nra.
Qed.
