(* ===== verification/PaperLifecycle.v ===== *)
(** * Shared lifecycle calculations (services/backtester/paper_lifecycle.py)

    The pure steps of an entry, a stop and an exit, used by the backtester and
    by paper trading. *)
From Stdlib Require Import ZArith QArith Qabs Lqa Lia.
From stdpp Require Import base list sets gmap strings.
From S2P Require Import Prelude Decimal StrategyModels Stops RiskModels RiskValidation Sizing BtModels BtPortfolio.
From S2P Require RiskEngine.

(** ** Definitions *)

Record EntryFillComputation := {
  ef_open_ref : decimal;
  ef_fill_price : decimal;
  ef_stop_initial : decimal;
  ef_slippage_cost : decimal;
}.

Record EntryAccounting := {
  ea_quantity : decimal;
  ea_notional : decimal;
  ea_fee : decimal;
  ea_slippage_cost : decimal;
  ea_margin_reserved : decimal;
  ea_initial_risk_usd : decimal;
  ea_trail_state : TrailingStopState;
}.

Record StopTriggerResult := {
  st_exit_reference : decimal;
  st_exit_reason : ExitReason;
}.

Record ExitAccounting := {
  xa_fill_price : decimal;
  xa_fee : decimal;
  xa_slippage_cost : decimal;
  xa_gross_pnl : decimal;
  xa_net_wallet_delta : decimal;
}.

Definition slippage_model_from_bps (slippage_bps : decimal) : SlippageModel :=
  {| sm_slippage_bps := slippage_bps |}.

Definition compute_entry_fill_prices (open_ref atr14 slippage_bps : decimal)
    (strategy_params : StrategyParameters) (price_tick_size : decimal) : res EntryFillComputation :=
  let model := slippage_model_from_bps slippage_bps in
  fill_price ← apply_entry_slippage open_ref model;
  stop_initial ← compute_initial_stop fill_price atr14 strategy_params (Some price_tick_size);
  let slip_cost := compute_slippage_cost open_ref fill_price (d_of_Z 1) in
  Ok {| ef_open_ref := open_ref;
        ef_fill_price := fill_price;
        ef_stop_initial := stop_initial;
        ef_slippage_cost := slip_cost |}.

Definition evaluate_entry_risk_decision (symbol : string) (fill_price stop_initial : decimal)
    (client_intent_id : string) (atr14 : decimal) (constraints : SymbolConstraints) (wallet_cash : decimal)
    (open_positions : list SimulatedPosition) (pending_intents : list PendingIntent)
    (processed_intent_ids : gset string) (day_candles : list (string * Candle))
    (prior_closes : gmap string decimal) (risk_params : RiskParameters)
    (market_data_status : MarketDataStatus) (bot_system_state : BotSystemState) : res RiskDecision :=
  let marks := resolve_marks_at_open open_positions day_candles prior_closes in
  let portfolio := build_portfolio_state wallet_cash open_positions in
  let account := build_account_state portfolio marks (rp_max_leverage risk_params) in
  let proposal :=
    {| tp_symbol := symbol;
       tp_side := LONG;
       tp_entry_price := fill_price;
       tp_stop_price := stop_initial;
       tp_client_intent_id := client_intent_id;
       tp_signal_intent_kind := LONG_ENTRY;
       tp_strategy_approved := true;
       tp_market_data_status := market_data_status;
       tp_bot_system_state := bot_system_state;
       tp_atr14 := Some atr14 |} in
  RiskEngine.evaluate proposal account constraints (to_position_states open_positions marks)
    (to_open_orders pending_intents) processed_intent_ids (Some risk_params).

Definition compute_entry_accounting (fill_price open_ref quantity stop_initial fee_rate slippage_bps
    max_leverage : decimal) (strategy_params : StrategyParameters) (price_tick_size atr14 : decimal)
    : res EntryAccounting :=
  let notional := fill_price *ᵈ quantity in
  let fee := compute_fee notional fee_rate in
  let slip := compute_slippage_cost open_ref fill_price quantity in
  margin ← position_margin notional max_leverage;
  trail_state ← initialize_trailing_stop fill_price atr14 stop_initial strategy_params (Some price_tick_size);
  let initial_risk := quantity *ᵈ (fill_price -ᵈ stop_initial) in
  Ok {| ea_quantity := quantity;
        ea_notional := notional;
        ea_fee := fee;
        ea_slippage_cost := slip;
        ea_margin_reserved := margin;
        ea_initial_risk_usd := initial_risk;
        ea_trail_state := trail_state |}.

Definition filter_rejection_reason_codes (decision : RiskDecision) : list ReasonCode :=
  match List.filter (fun c => bool_decide (c <> RC_RISK_APPROVED)) (rd_reason_codes decision) with
  | [] => rd_reason_codes decision
  | codes => codes
  end.

Definition compute_gap_stop_at_open (candle : Candle) (effective_stop : decimal) : option StopTriggerResult :=
  if c_open candle <ᵈ effective_stop then
    Some {| st_exit_reference := c_open candle; st_exit_reason := STOP_GAP |}
  else None.

Definition compute_intraday_stop (candle : Candle) (effective_stop initial_stop trail_stop : decimal)
    : option StopTriggerResult :=
  if c_low candle ≤ᵈ effective_stop then
    let reason := if initial_stop ≤ᵈ trail_stop then STOP_TRAILING else STOP_INITIAL in
    Some {| st_exit_reference := effective_stop; st_exit_reason := reason |}
  else None.

Definition compute_stop_trigger (candle : Candle) (effective_stop initial_stop trail_stop : decimal)
    : option StopTriggerResult :=
  match compute_gap_stop_at_open candle effective_stop with
  | Some gap => Some gap
  | None => compute_intraday_stop candle effective_stop initial_stop trail_stop
  end.

Definition compute_exit_accounting (exit_reference quantity entry_price slippage_bps fee_rate : decimal)
    : res ExitAccounting :=
  let model := slippage_model_from_bps slippage_bps in
  fill_price ← apply_exit_slippage exit_reference model;
  let notional := fill_price *ᵈ quantity in
  let fee := compute_fee notional fee_rate in
  let slip := compute_slippage_cost exit_reference fill_price quantity in
  let gross := (fill_price -ᵈ entry_price) *ᵈ quantity in
  let net_delta := gross -ᵈ fee in
  Ok {| xa_fill_price := fill_price;
        xa_fee := fee;
        xa_slippage_cost := slip;
        xa_gross_pnl := gross;
        xa_net_wallet_delta := net_delta |}.

Definition compute_trailing_stop_update (state : TrailingStopState) (daily_close atr14 : decimal)
    (strategy_params : StrategyParameters) (price_tick_size : decimal) : res TrailingStopState :=
  update_trailing_stop state daily_close atr14 strategy_params (Some price_tick_size).

Definition build_simulated_position_from_entry (symbol : string) (quantity fill_price : decimal)
    (entry_time : datetime) (accounting : EntryAccounting) (atr14 : decimal) (client_intent_id : string)
    : SimulatedPosition :=
  let trail := ea_trail_state accounting in
  {| pos_symbol := symbol;
     pos_quantity := quantity;
     pos_entry_price := fill_price;
     pos_entry_time := entry_time;
     pos_initial_stop := ts_stop_initial trail;
     pos_trail_stop := ts_trail_stop trail;
     pos_effective_stop := ts_effective_stop trail;
     pos_highest_close := ts_highest_close trail;
     pos_entry_atr14 := atr14;
     pos_client_intent_id := client_intent_id;
     pos_margin_reserved := ea_margin_reserved accounting |}.

(** ** Stops *)
Local Open Scope Q_scope.

Lemma entry_stop_on_grid open_ref atr bps p tick r :
  pow10_step tick -> compute_entry_fill_prices open_ref atr bps p tick = Ok r ->
  on_grid tick (ef_stop_initial r).
Proof.
  intros Ht H. unfold compute_entry_fill_prices in H.
  apply bind_ok in H as (fill & _ & H). apply bind_ok in H as (stop & Hs & H). inv_res. cbn.
  unfold compute_initial_stop in Hs. cbn in Hs. apply round_to_tick_inv in Hs as [_ ->].
  by apply pow10_floor_grid.
Qed.

(** With an initial stop on the tick grid the trailing stop starts at or above
    it, and stays there. *)
Lemma trail_above_initial entry atr initial p tick bars st :
  pow10_step tick -> on_grid tick initial ->
  (initialize_trailing_stop entry atr initial p (Some tick) ≫= trail_run p (Some tick) bars) = Ok st ->
  initial <= ts_trail_stop st /\ ts_stop_initial st = initial.
Proof.
  intros Ht Hg H. apply bind_ok in H as (st0 & H0 & H).
  destruct (initialize_trailing_stop_inv entry atr initial p (Some tick) Ht) as (st0' & H0' & Hinv).
  rewrite H0 in H0'. injection H0' as <-.
  destruct (trail_run_inv entry initial (Some tick) p bars st0 Ht Hinv) as (st' & H' & Hinv' & Hle & _).
  rewrite H in H'. injection H' as <-. split; [|by apply (ti_initial _ _ _ _ Hinv')].
  etransitivity; [|exact Hle]. unfold initialize_trailing_stop in H0.
  apply bind_ok in H0 as (t & Hr & H0). inv_res. cbn.
  eapply (round_optional_ge (Some tick)); [exact Ht|exact Hg| |exact Hr]. apply dmax_r.
Qed.

(** A position opened by the lifecycle never exits with the reason
    "initial stop": its initial stop is rounded to the tick, so the trailing
    stop is at or above it from the first bar on, and every stop exit is a gap
    or a trailing exit, at or below the effective stop. *)
Theorem stop_exit_never_initial open_ref atr0 atr bps p tick r bars st candle t :
  pow10_step tick ->
  compute_entry_fill_prices open_ref atr0 bps p tick = Ok r ->
  (initialize_trailing_stop (ef_fill_price r) atr (ef_stop_initial r) p (Some tick)
     ≫= trail_run p (Some tick) bars) = Ok st ->
  compute_stop_trigger candle (ts_effective_stop st) (ts_stop_initial st) (ts_trail_stop st) = Some t ->
  st_exit_reason t <> STOP_INITIAL /\ st_exit_reference t <= ts_effective_stop st.
Proof.
  intros Ht Hr Hrun Htr. pose proof (entry_stop_on_grid _ _ _ _ _ _ Ht Hr) as Hg.
  destruct (trail_above_initial _ _ _ _ _ _ _ Ht Hg Hrun) as [Hle Hi].
  unfold compute_stop_trigger, compute_gap_stop_at_open, compute_intraday_stop in Htr.
  rewrite Hi in Htr. destruct (c_open candle <ᵈ _) eqn:E; [|destruct (_ ≤ᵈ ts_effective_stop st); [|done]].
  - injection Htr as <-. cbn. dec_bool. split; [done|lra].
  - apply dleb_le in Hle. rewrite Hle in Htr. injection Htr as <-. cbn. split; [done|lra].
Qed.

(** ** Loss limits *)

Lemma deq_div_self x : ~ x == 0 -> rnd (dsub x x / x) == 0.
Proof.
  intros Hx. assert (dsub x x == 0) as Hd.
  { unfold dsub. by rewrite rnd_zero by ring. }
  rewrite rnd_zero; [done|]. rewrite Hd. field. done.
Qed.

(** Configured limits: those switched on have a finite, non-negative bound. *)
Definition limit_configured (enabled : bool) (limit : option decimal) : Prop :=
  enabled = true -> exists m, limit = Some m /\ float_finite m = true /\ 0 <= m.

Lemma check_loss_zero label en m equity :
  limit_configured en m -> check_loss label en m 0 equity = Ok None.
Proof.
  unfold check_loss. destruct en; [|done]. intros Hc. destruct (Hc eq_refl) as (x & -> & Hf & Hx).
  unfold _is_finite. rewrite Hf. replace (x <ᵈ 0) with false by (symmetry; by apply dltb_ge). done.
Qed.

(** The loss limits of the risk parameters have no effect on entries of
    the lifecycle: the account it builds has no realized loss and its own
    equity as the peak, so no configured daily, weekly or drawdown limit is
    ever reached, whatever was lost before. *)
Theorem loss_limits_never_reached portfolio marks lev p :
  let account := build_account_state portfolio marks lev in
  let cfg := rp_loss_limits p in
  0 < ac_equity_usd account -> float_finite (ac_equity_usd account) = true ->
  limit_configured (ll_daily_loss_limit_enabled cfg) (ll_max_daily_loss_pct cfg) ->
  limit_configured (ll_weekly_loss_limit_enabled cfg) (ll_max_weekly_loss_pct cfg) ->
  limit_configured (ll_drawdown_limit_enabled cfg) (ll_max_drawdown_pct cfg) ->
  check_loss_limits account p = Ok None.
Proof.
  cbn. intros Heq Hfin Hd Hw Hdd. unfold check_loss_limits. cbn.
  rewrite !check_loss_zero by done. cbn. unfold check_drawdown.
  destruct (ll_drawdown_limit_enabled _); [|done]. destruct (Hdd eq_refl) as (m & -> & Hf & Hm).
  unfold _is_finite. rewrite Hf, Hfin. cbn.
  replace (m <ᵈ 0) with false by (symmetry; by apply dltb_ge).
  replace (equity_usd portfolio marks ≤ᵈ 0) with false by (symmetry; by apply dleb_gt). cbn.
  rewrite ddiv_pos_ok by done. cbn.
  replace (m <ᵈ rnd _) with false; [done|]. symmetry. apply dltb_ge.
  rewrite deq_div_self by lra. done.
Qed.

Definition example_candle : Candle :=
  {| c_symbol := "BTC"; c_timeframe := DAILY; c_open_time := 0; c_close_time := 0;
     c_open := 100; c_high := 101; c_low := 90; c_close := 95; c_volume := 1; c_is_closed := true |}.

(** An entry at 100.05 with ATR 2, one bar up to 104, then a fall to 90. *)
Lemma stop_exit_never_initial_witness :
  let p := default_strategy_parameters in
  let r := {| ef_open_ref := 100; ef_fill_price := 2001 # 20; ef_stop_initial := 95; ef_slippage_cost := 1 # 20 |} in
  let st := {| ts_entry_price := 2001 # 20; ts_stop_initial := 95; ts_highest_close := 104;
               ts_trail_stop := 98; ts_effective_stop := 98 |} in
  let t := {| st_exit_reference := 98; st_exit_reason := STOP_TRAILING |} in
  st_exit_reason t <> STOP_INITIAL /\ st_exit_reference t <= ts_effective_stop st.
Proof.
  intros p r st t.
  apply (stop_exit_never_initial 100 2 2 5 p (1 # 10) r [(104, 2)] st example_candle t).
  - exists (-1)%Z. reflexivity.
  - vm_compute. reflexivity.
  - vm_compute. reflexivity.
  - vm_compute. reflexivity.
Defined.

(** All three limits on at 1%, and an account that holds nothing but cash. *)
Lemma loss_limits_never_reached_witness :
  let p := {| rp_risk_specification_version := RISK_SPECIFICATION_VERSION; rp_strategy_version := STRATEGY_VERSION;
              rp_risk_per_trade_pct := DEFAULT_RISK_PER_TRADE_PCT;
              rp_max_portfolio_risk_pct := DEFAULT_MAX_PORTFOLIO_RISK_PCT;
              rp_max_open_positions := DEFAULT_MAX_OPEN_POSITIONS; rp_max_leverage := DEFAULT_MAX_LEVERAGE;
              rp_risk_rounding_tolerance := DEFAULT_RISK_ROUNDING_TOLERANCE;
              rp_loss_limits :=
                {| ll_daily_loss_limit_enabled := true; ll_max_daily_loss_pct := Some (1 # 100);
                   ll_weekly_loss_limit_enabled := true; ll_max_weekly_loss_pct := Some (1 # 100);
                   ll_drawdown_limit_enabled := true; ll_max_drawdown_pct := Some (1 # 100) |} |} in
  check_loss_limits (build_account_state (build_portfolio_state 5000 []) ∅ 2) p = Ok None.
Proof.
  intros p. apply loss_limits_never_reached.
  - vm_compute. reflexivity.
  - vm_compute. reflexivity.
  - intros _. exists (1 # 100). split_and!; [reflexivity|vm_compute; reflexivity|vm_compute; discriminate].
  - intros _. exists (1 # 100). split_and!; [reflexivity|vm_compute; reflexivity|vm_compute; discriminate].
  - intros _. exists (1 # 100). split_and!; [reflexivity|vm_compute; reflexivity|vm_compute; discriminate].
Defined.
