(* ===== verification/Metrics.v ===== *)
(** * Backtest metrics (services/backtester/metrics.py)

    The decimal part of the metrics: returns, drawdowns, win rates, profit
    factor, expectancies, streaks and the per-symbol and per-entry-type
    tables.  CAGR, Sharpe and Sortino are computed in binary floating point
    (powers and square roots) and are not modelled. *)
From Stdlib Require Import ZArith QArith Qabs Lqa Lia.
From stdpp Require Import base list sets gmap strings sorting.
From S2P Require Import Prelude Decimal StrategyModels RiskModels BtModels.

(** ** Definitions *)

(** The division cannot raise: its divisor is not zero. *)
Definition _safe_div (num den : decimal) : option decimal :=
  if den =ᵈ 0%Q then None
  else match num /ᵈ den with Ok q => Some q | Raise _ => None end.

(** [compute_drawdown_curve], with the peak as the accumulator. *)
Fixpoint drawdown_from (peak : decimal) (curve : list EquitySnapshot) : list DrawdownSnapshot :=
  match curve with
  | [] => []
  | snap :: curve' =>
      let peak := dmax peak (eq_equity snap) in
      let dd := default 0%Q (_safe_div (peak -ᵈ eq_equity snap) peak) in
      {| dd_time := eq_time snap;
         dd_equity := eq_equity snap;
         dd_peak_equity := peak;
         dd_drawdown_pct := dd |} :: drawdown_from peak curve'
  end.

Definition compute_drawdown_curve (curve : list EquitySnapshot) : list DrawdownSnapshot := drawdown_from 0%Q curve.

Record SymbolMetrics := {
  ym_symbol : string;
  ym_trade_count : nat;
  ym_net_pnl : decimal;
  ym_win_rate : option decimal;
}.

Record EntryTypeMetrics := {
  em_entry_type : EntryType;
  em_trade_count : nat;
  em_net_pnl : decimal;
  em_win_rate : option decimal;
}.

Record BacktestMetrics := {
  bm_total_return_pct : option decimal;
  bm_max_drawdown_pct : option decimal;
  bm_win_rate : option decimal;
  bm_profit_factor : option decimal;
  bm_expectancy_usd : option decimal;
  bm_expectancy_r : option decimal;
  bm_average_winner : option decimal;
  bm_average_loser : option decimal;
  bm_average_r_multiple : option decimal;
  bm_max_win_streak : nat;
  bm_max_loss_streak : nat;
  bm_time_in_market_pct : option decimal;
  bm_trade_count : nat;
  bm_total_fees : decimal;
  bm_total_funding : decimal;
  bm_total_slippage : decimal;
  bm_per_symbol : list SymbolMetrics;
  bm_per_entry_type : list EntryTypeMetrics;
}.

Definition is_closed_trade (t : BacktestTrade) : bool :=
  match bt_net_pnl t with Some _ => true | None => false end.

Definition is_winner (t : BacktestTrade) : bool :=
  match bt_net_pnl t with Some p => 0%Q <ᵈ p | None => false end.

Definition is_loser (t : BacktestTrade) : bool :=
  match bt_net_pnl t with Some p => p ≤ᵈ 0%Q | None => false end.

(** [t.net_pnl for t in trades if t.net_pnl]: zero is skipped. *)
Definition nonzero_pnls (trades : list BacktestTrade) : list decimal :=
  List.filter (fun p => negb (p =ᵈ 0%Q)) (omap bt_net_pnl trades).

Record streaks := {
  sk_max_win : nat;
  sk_max_loss : nat;
  sk_win : nat;
  sk_loss : nat;
}.

Definition streak_step (s : streaks) (t : BacktestTrade) : streaks :=
  let '(win, loss) :=
    if is_winner t then (S (sk_win s), 0%nat) else (0%nat, S (sk_loss s)) in
  {| sk_max_win := max (sk_max_win s) win; sk_max_loss := max (sk_max_loss s) loss;
     sk_win := win; sk_loss := loss |}.

Definition trade_streaks (closed : list BacktestTrade) : streaks :=
  fold_left streak_step closed {| sk_max_win := 0; sk_max_loss := 0; sk_win := 0; sk_loss := 0 |}.

Definition symbol_metrics (closed : list BacktestTrade) (sym : string) : SymbolMetrics :=
  let sym_trades := List.filter (fun t => bool_decide (bt_symbol t = sym)) closed in
  let sym_wins := List.filter is_winner sym_trades in
  {| ym_symbol := sym;
     ym_trade_count := length sym_trades;
     ym_net_pnl := dsum (nonzero_pnls sym_trades);
     ym_win_rate :=
       match sym_trades with
       | [] => None
       | _ => _safe_div (d_of_nat (length sym_wins)) (d_of_nat (length sym_trades))
       end |}.

Definition entry_type_metrics (closed : list BacktestTrade) (et : EntryType) : option EntryTypeMetrics :=
  let et_trades := List.filter (fun t => bool_decide (bt_entry_type t = et)) closed in
  match et_trades with
  | [] => None
  | _ =>
      let et_wins := List.filter is_winner et_trades in
      Some {| em_entry_type := et;
              em_trade_count := length et_trades;
              em_net_pnl := dsum (nonzero_pnls et_trades);
              em_win_rate := _safe_div (d_of_nat (length et_wins)) (d_of_nat (length et_trades)) |}
  end.

(** [None] on an empty list, the average otherwise. *)
Definition average (values : list decimal) (count : nat) : option decimal :=
  match count with O => None | _ => _safe_div (dsum values) (d_of_nat count) end.

(** [sorted({...})] of the symbols. *)
Definition sorted_symbols (closed : list BacktestTrade) : list string :=
  merge_sort String.le (elements (list_to_set (bt_symbol <$> closed) : gset string)).

Definition compute_metrics (trades : list BacktestTrade) (equity_curve : list EquitySnapshot)
    (start_capital end_capital total_fees total_funding total_slippage : decimal) : BacktestMetrics :=
  let closed := List.filter is_closed_trade trades in
  let trade_count := length closed in
  let winners := List.filter is_winner closed in
  let losers := List.filter is_loser closed in
  let win_rate :=
    match trade_count with
    | O => None
    | _ => _safe_div (d_of_nat (length winners)) (d_of_nat trade_count)
    end in
  let gross_profit := dsum (nonzero_pnls winners) in
  let gross_loss := dabs (dsum (nonzero_pnls losers)) in
  let profit_factor := if 0%Q <ᵈ gross_loss then _safe_div gross_profit gross_loss else None in
  let net_pnls := omap bt_net_pnl closed in
  let r_vals := omap bt_r_multiple closed in
  let dd_curve := compute_drawdown_curve equity_curve in
  let max_dd := match dmaximum (dd_drawdown_pct <$> dd_curve) with Ok m => m | Raise _ => 0%Q end in
  let in_market := length (List.filter (fun s => (0 <? eq_open_positions s)%nat) equity_curve) in
  let s := trade_streaks closed in
  {| bm_total_return_pct := _safe_div (end_capital -ᵈ start_capital) start_capital;
     bm_max_drawdown_pct := Some max_dd;
     bm_win_rate := win_rate;
     bm_profit_factor := profit_factor;
     bm_expectancy_usd := average net_pnls trade_count;
     bm_expectancy_r := average r_vals (length r_vals);
     bm_average_winner := average (nonzero_pnls winners) (length winners);
     bm_average_loser := average (nonzero_pnls losers) (length losers);
     bm_average_r_multiple := average r_vals (length r_vals);
     bm_max_win_streak := sk_max_win s;
     bm_max_loss_streak := sk_max_loss s;
     bm_time_in_market_pct :=
       match equity_curve with
       | [] => None
       | _ => _safe_div (d_of_nat in_market) (d_of_nat (length equity_curve))
       end;
     bm_trade_count := trade_count;
     bm_total_fees := total_fees;
     bm_total_funding := total_funding;
     bm_total_slippage := total_slippage;
     bm_per_symbol := symbol_metrics closed <$> sorted_symbols closed;
     bm_per_entry_type := omap (entry_type_metrics closed) [BREAKOUT; PULLBACK] |}.

(** ** Drawdowns *)
Local Open Scope Q_scope.

Lemma safe_div_pos n d : 0 < d -> _safe_div n d = Some (rnd (n / d)).
Proof.
  intros Hd. unfold _safe_div. replace (d =ᵈ 0) with false; [by rewrite ddiv_pos_ok|].
  symmetry. apply deqb_neq. lra.
Qed.

Lemma safe_div_zero n d : d == 0 -> _safe_div n d = None.
Proof. intros Hd. unfold _safe_div. apply deqb_eq in Hd. by rewrite Hd. Qed.

(** One point of the curve: the drawdown of equity [e] below a peak. *)
Definition drawdown_of (peak e : decimal) : decimal := default 0 (_safe_div (dsub peak e) peak).

Lemma drawdown_of_bounds peak e :
  0 <= peak -> e <= peak ->
  0 <= drawdown_of peak e /\ (0 <= e -> representable peak -> drawdown_of peak e <= 1) /\
  (0 < peak -> (drawdown_of peak e == 0 <-> e == peak)).
Proof.
  intros H0 He. unfold drawdown_of. destruct (Qlt_le_dec 0 peak) as [Hp|Hp].
  - rewrite safe_div_pos by done. cbn. split_and!.
    + apply rnd_nonneg, Qdiv_nonneg; [done|]. by apply dsub_nonneg.
    + intros Hep Hr. apply rnd_le_bound; [apply representable_one|]. apply Qle_shift_div_r; [done|].
      rewrite Qmult_1_l. by apply dsub_le.
    + intros _. split; intros Heq.
      * destruct (Qlt_le_dec e peak) as [Hlt|]; [|lra].
        assert (0 < rnd (dsub peak e / peak)); [|lra]. apply rnd_positive, Qdiv_pos; [done|]. by apply dsub_pos.
      * assert (Hz : dsub peak e == 0) by (unfold dsub; by rewrite rnd_zero by lra).
        rewrite rnd_zero; [done|]. rewrite Hz. field. lra.
  - rewrite safe_div_zero by lra. cbn. split_and!; [lra|lra|lra].
Qed.

Lemma drawdown_from_lookup peak curve i snap :
  curve !! i = Some snap ->
  exists d, drawdown_from peak curve !! i = Some d /\
    dd_time d = eq_time snap /\ dd_equity d = eq_equity snap /\
    dd_peak_equity d = fold_left dmax (eq_equity <$> take (S i) curve) peak /\
    dd_drawdown_pct d = drawdown_of (dd_peak_equity d) (eq_equity snap).
Proof.
  revert peak i. induction curve as [|s curve IH]; intros peak i Hi; [done|].
  destruct i as [|i]; cbn in Hi |- *.
  - injection Hi as <-. eexists. split; [done|]. cbn. done.
  - destruct (IH (dmax peak (eq_equity s)) i Hi) as (d & Hd & H1 & H2 & H3 & H4). by exists d.
Qed.

Lemma fold_dmax_ge l x : x <= fold_left dmax l x /\ (forall y, y ∈ l -> y <= fold_left dmax l x).
Proof.
  revert x. induction l as [|z l IH]; intros x; cbn; [split; [lra|set_solver]|].
  destruct (IH (dmax x z)) as [H1 H2]. pose proof (dmax_l x z). pose proof (dmax_r x z).
  split; [lra|]. intros y [->|Hy]%elem_of_cons; [lra|by apply H2].
Qed.

Lemma fold_dmax_in l x : fold_left dmax l x = x \/ fold_left dmax l x ∈ l.
Proof.
  revert x. induction l as [|z l IH]; intros x; cbn; [by left|].
  destruct (IH (dmax x z)) as [->|]; [|set_solver].
  destruct (dmax_spec x z) as (_ & _ & [-> | ->]); set_solver.
Qed.

(** The drawdown curve follows the equity curve point by point: the
    recorded peak is the maximum of the equities so far (and zero), the
    drawdown is never negative, is at most one while equity is not negative,
    and is zero exactly at the peak. *)
Theorem drawdown_curve_correct curve i snap :
  curve !! i = Some snap ->
  Forall (fun s => representable (eq_equity s)) curve ->
  exists d, compute_drawdown_curve curve !! i = Some d /\ dd_equity d = eq_equity snap /\
    (forall j s, (j <= i)%nat -> curve !! j = Some s -> eq_equity s <= dd_peak_equity d) /\
    (dd_peak_equity d = 0 \/ exists j s, (j <= i)%nat /\ curve !! j = Some s /\ dd_peak_equity d = eq_equity s) /\
    0 <= dd_drawdown_pct d /\ (0 <= eq_equity snap -> dd_drawdown_pct d <= 1) /\
    (0 < dd_peak_equity d -> (dd_drawdown_pct d == 0 <-> eq_equity snap == dd_peak_equity d)).
Proof.
  intros Hi Hrep. destruct (drawdown_from_lookup 0 curve i snap Hi) as (d & Hd & _ & He & Hp & Hdd).
  set (eqs := eq_equity <$> take (S i) curve) in *.
  assert (Hin : forall x, x ∈ eqs <-> exists j s, (j <= i)%nat /\ curve !! j = Some s /\ x = eq_equity s).
  { intros x. unfold eqs. rewrite list_elem_of_fmap. setoid_rewrite elem_of_take. split.
    - intros (s & -> & j & Hj & Hlt). exists j, s. split_and!; [lia|done..].
    - intros (j & s & Hj & Hs & ->). exists s. split; [done|]. exists j. split; [done|lia]. }
  destruct (fold_dmax_ge eqs 0) as [H0 Hub]. rewrite <- Hp in H0, Hub.
  assert (Hcur : eq_equity snap <= dd_peak_equity d) by (apply Hub, Hin; by exists i, snap).
  assert (Hrp : representable (dd_peak_equity d)).
  { rewrite Hp. destruct (fold_dmax_in eqs 0) as [->|Hx]; [apply representable_zero|].
    apply Hin in Hx as (j & s & _ & Hs & ->). rewrite Forall_forall in Hrep.
    apply Hrep. by eapply list_elem_of_lookup_2. }
  destruct (drawdown_of_bounds _ _ H0 Hcur) as (B1 & B2 & B3). rewrite <- Hdd in B1, B2, B3.
  exists d. split_and!; try done.
  - intros j s Hj Hs. apply Hub, Hin. by exists j, s.
  - destruct (fold_dmax_in eqs 0) as [Hz|Hx]; [left; congruence|right].
    rewrite <- Hp in Hx. by apply Hin in Hx.
  - intros. by apply B2.
Qed.

Definition snap_of (t : Z) (e : decimal) : EquitySnapshot :=
  {| eq_time := t; eq_cash := e; eq_equity := e; eq_unrealized_pnl := 0; eq_open_positions := 0 |}.

Lemma drawdown_curve_correct_witness :
  let curve := [snap_of 0 100; snap_of 1 120; snap_of 2 90] in
  (dd_drawdown_pct <$> compute_drawdown_curve curve) = [0; 0; 1 # 4] /\
  exists d, compute_drawdown_curve curve !! 2%nat = Some d /\ dd_equity d = 90 /\
    (forall j s, (j <= 2)%nat -> curve !! j = Some s -> eq_equity s <= dd_peak_equity d) /\
    (dd_peak_equity d = 0 \/ exists j s, (j <= 2)%nat /\ curve !! j = Some s /\ dd_peak_equity d = eq_equity s) /\
    0 <= dd_drawdown_pct d /\ (0 <= 90 -> dd_drawdown_pct d <= 1) /\
    (0 < dd_peak_equity d -> (dd_drawdown_pct d == 0 <-> 90 == dd_peak_equity d)).
Proof.
  intros curve. split; [vm_compute; reflexivity|].
  apply (drawdown_curve_correct curve 2 (snap_of 2 90)); [reflexivity|].
  repeat constructor; cbn; by apply (representable_Z _).
Defined.

(** ** Counts *)

(** Splitting a list by a key: the parts of the keys of [L] add up. *)
Lemma sum_by_key {K} `{EqDecision K} (key : BacktestTrade -> K) (closed : list BacktestTrade) (L : list K) :
  NoDup L -> (forall t, t ∈ closed -> key t ∈ L) ->
  sum_list_with (fun k => length (List.filter (fun t => bool_decide (key t = k)) closed)) L = length closed.
Proof.
  intros Hnd. induction closed as [|t closed IH]; intros Hin.
  { cbn. clear. induction L as [|k L IH]; cbn; [done|]. by rewrite IH. }
  cbn [length]. rewrite <- IH by (intros; apply Hin; set_solver).
  assert (Ht : key t ∈ L) by (apply Hin; set_solver). clear IH Hin.
  induction Hnd as [|k L Hk Hnd IH]; [set_solver|]. cbn in IH |- *.
  destruct (decide (key t = k)) as [Heq|Hne].
  - rewrite bool_decide_eq_true_2 by done. cbn. f_equal. f_equal.
    clear IH Ht. induction L as [|k' L IHL]; cbn; [done|].
    rewrite bool_decide_eq_false_2 by set_solver. f_equal. apply IHL; [set_solver|].
    by apply NoDup_cons in Hnd as [_ ?].
  - rewrite bool_decide_eq_false_2 by done. rewrite IH by set_solver. lia.
Qed.

Lemma sorted_symbols_spec closed :
  NoDup (sorted_symbols closed) /\ (forall s, s ∈ sorted_symbols closed <-> s ∈ bt_symbol <$> closed).
Proof.
  unfold sorted_symbols. set (l := elements _).
  assert (Hp : merge_sort String.le l ≡ₚ l) by apply merge_sort_Permutation. split.
  - rewrite Hp. apply NoDup_elements.
  - intros s. rewrite Hp. unfold l. by rewrite elem_of_elements, elem_of_list_to_set.
Qed.

(** The streaks seen so far are bounded by the number of trades. *)
Lemma trade_streaks_bound closed s n :
  (sk_max_win s <= n /\ sk_max_loss s <= n /\ sk_win s <= n /\ sk_loss s <= n)%nat ->
  let s' := fold_left streak_step closed s in
  (sk_max_win s' <= n + length closed /\ sk_max_loss s' <= n + length closed)%nat.
Proof.
  revert s n. induction closed as [|t closed IH]; intros s n H; cbn; [lia|].
  replace (n + S (length closed))%nat with (S n + length closed)%nat by lia. apply IH.
  unfold streak_step. destruct (is_winner t); cbn; lia.
Qed.

Lemma filter_length_le {A} (f : A -> bool) l : (length (List.filter f l) <= length l)%nat.
Proof. induction l as [|x l IH]; cbn; [done|]. destruct (f x); cbn; lia. Qed.

Lemma rate_bounds n m : (n <= m)%nat -> (0 < m)%nat ->
  exists r, _safe_div (d_of_nat n) (d_of_nat m) = Some r /\ 0 <= r <= 1.
Proof.
  intros Hle Hm. rewrite safe_div_pos by (by apply d_of_nat_pos). eexists. split; [done|].
  assert (0 <= d_of_nat n) by (unfold d_of_nat; change 0 with (inject_Z 0); rewrite <- Zle_Qle; lia).
  assert (d_of_nat n <= d_of_nat m) by (unfold d_of_nat; rewrite <- Zle_Qle; lia).
  pose proof (d_of_nat_pos m Hm). split; [by apply rnd_nonneg, Qdiv_nonneg|].
  apply rnd_le_bound; [apply representable_one|]. apply Qle_shift_div_r; [done|]. by rewrite Qmult_1_l.
Qed.

Lemma sum_list_with_fmap {A B} (f : A -> B) (g : B -> nat) l : sum_list_with g (f <$> l) = sum_list_with (fun x => g (f x)) l.
Proof. induction l as [|x l IH]; cbn; [done|]. by rewrite IH. Qed.

(** The tables of the metrics partition the closed trades: the counts
    per symbol and per entry type each add up to the trade count, every rate
    lies between zero and one, and no streak is longer than the number of
    trades. *)
Theorem compute_metrics_consistent trades curve start_c end_c fees funding slip :
  let m := compute_metrics trades curve start_c end_c fees funding slip in
  bm_trade_count m = length (List.filter is_closed_trade trades) /\
  sum_list_with ym_trade_count (bm_per_symbol m) = bm_trade_count m /\
  sum_list_with em_trade_count (bm_per_entry_type m) = bm_trade_count m /\
  from_option (fun r => 0 <= r <= 1) True (bm_win_rate m) /\
  from_option (fun r => 0 <= r <= 1) True (bm_time_in_market_pct m) /\
  (bm_max_win_streak m <= bm_trade_count m)%nat /\ (bm_max_loss_streak m <= bm_trade_count m)%nat.
Proof.
  cbn [compute_metrics bm_trade_count bm_per_symbol bm_per_entry_type bm_win_rate bm_time_in_market_pct
       bm_max_win_streak bm_max_loss_streak].
  set (closed := List.filter is_closed_trade trades).
  destruct (trade_streaks_bound closed {| sk_max_win := 0; sk_max_loss := 0; sk_win := 0; sk_loss := 0 |} 0)
    as [S1 S2]; [cbn; lia|].
  destruct (sorted_symbols_spec closed) as [Hnd Hin].
  split_and!; [done| | | | |exact S1|exact S2].
  - rewrite sum_list_with_fmap. apply (sum_by_key bt_symbol); [done|].
    intros t Ht. apply Hin. by apply list_elem_of_fmap_2.
  - transitivity (sum_list_with (fun k => length (List.filter (fun t => bool_decide (bt_entry_type t = k)) closed))
      [BREAKOUT; PULLBACK]).
    + cbn. unfold entry_type_metrics.
      destruct (List.filter (fun t => bool_decide (bt_entry_type t = BREAKOUT)) closed) eqn:E1;
        destruct (List.filter (fun t => bool_decide (bt_entry_type t = PULLBACK)) closed) eqn:E2; cbn; lia.
    + apply (sum_by_key bt_entry_type).
      * repeat constructor; set_solver.
      * intros t _. destruct (bt_entry_type t); set_solver.
  - destruct (length closed) eqn:El; cbn; [done|].
    destruct (rate_bounds (length (List.filter is_winner closed)) (S n)) as (r & -> & Hr);
      [rewrite <- El; apply filter_length_le|lia|done].
  - destruct curve as [|s curve]; [done|].
    destruct (rate_bounds (length (List.filter (fun s => (0 <? eq_open_positions s)%nat) (s :: curve)))
      (length (s :: curve))) as (r & -> & Hr); [apply filter_length_le|cbn; lia|done].
Qed.
