(* ===== verification/BacktestEngine.v ===== *)
(** * The event-driven backtester (services/backtester/engine.py)

    [process_day] is the body of the main loop for one open time, on the
    runtime state [_Runtime]; [run] folds it over the timeline.  Each method
    that mutates the runtime is a function from a runtime to a runtime in the
    error monad. *)
From Stdlib Require Import ZArith QArith Qabs Lqa Lia Sorting.Sorted.
From stdpp Require Import base list sets gmap strings sorting.
From S2P Require Import Prelude Decimal StrategyModels Stops StrategyValidation RiskModels RiskValidation Sizing.
From S2P Require Import BtModels BtData BtPortfolio PaperLifecycle Metrics.
From S2P Require StrategyEngine RiskEngine.

(** ** Definitions *)

Definition candles_of (m : gmap string (list Candle)) (sym : string) : list Candle := default [] (m !! sym).

Definition _get_constraints (config : BacktestConfig) (symbol : string) : res SymbolConstraints :=
  or_raise (ValueError ("Missing symbol constraints for " +:+ symbol)) (bc_symbol_constraints config !! symbol).

Definition _mark_terminal_intent (rt : _Runtime) (intent : PendingIntent) (status : OrderStatus)
    (quantity reference_price : option decimal) : _Runtime :=
  let rt := set_processed_intent_ids rt ({[pi_client_intent_id intent]} ∪ rt_processed_intent_ids rt) in
  set_intent_orders rt
    (<[pi_client_intent_id intent :=
         {| so_client_intent_id := pi_client_intent_id intent;
            so_symbol := pi_symbol intent;
            so_status := status;
            so_quantity := quantity;
            so_reference_price := reference_price |}]> (rt_intent_orders rt)).

Definition _safe_r (initial_risk : option decimal) (net_pnl : decimal) : res (option decimal) :=
  match initial_risk with
  | None => Ok None
  | Some r => if r =ᵈ 0%Q then Ok None else Some <$> net_pnl /ᵈ r
  end.

(** [trade.model_copy(update={...})] of an exit. *)
Definition close_trade (trade : BacktestTrade) (exit_time : datetime) (reason : ExitReason)
    (exit_ref fill gross fees slippage net : decimal) (r_multiple : option decimal) (days : Z)
    (history : list TrailingStopSnapshot) : BacktestTrade :=
  {| bt_symbol := bt_symbol trade;
     bt_client_intent_id := bt_client_intent_id trade;
     bt_strategy_version := bt_strategy_version trade;
     bt_entry_type := bt_entry_type trade;
     bt_strategy_reason_codes := bt_strategy_reason_codes trade;
     bt_risk_reason_codes := bt_risk_reason_codes trade;
     bt_signal_time := bt_signal_time trade;
     bt_order_time := bt_order_time trade;
     bt_entry_time := bt_entry_time trade;
     bt_entry_reference_price := bt_entry_reference_price trade;
     bt_entry_fill_price := bt_entry_fill_price trade;
     bt_quantity := bt_quantity trade;
     bt_initial_stop := bt_initial_stop trade;
     bt_trailing_stop_history := history;
     bt_exit_time := Some exit_time;
     bt_exit_reason := Some reason;
     bt_exit_reference_price := Some exit_ref;
     bt_exit_fill_price := Some fill;
     bt_gross_pnl := Some gross;
     bt_fees := fees;
     bt_funding := bt_funding trade;
     bt_slippage_cost := slippage;
     bt_net_pnl := Some net;
     bt_initial_risk_usd := bt_initial_risk_usd trade;
     bt_r_multiple := r_multiple;
     bt_holding_period_days := Some days |}.

(** The microseconds of a day; [timedelta.days] is the floor. *)
Definition DAY : Z := seconds 86400.

Definition exit_trigger (candle : Candle) (pos : SimulatedPosition) (at_open : bool) : option StopTriggerResult :=
  if at_open then compute_gap_stop_at_open candle (pos_effective_stop pos)
  else compute_stop_trigger candle (pos_effective_stop pos) (pos_initial_stop pos) (pos_trail_stop pos).

Definition _check_stop_exit (rt : _Runtime) (config : BacktestConfig) (symbol : string) (candle : Candle)
    (at_open : bool) : res _Runtime :=
  match od_get (rt_positions rt) symbol with
  | None => Ok rt
  | Some pos =>
      match exit_trigger candle pos at_open with
      | None => Ok rt
      | Some trigger =>
          let exit_ref := st_exit_reference trigger in
          let reason := st_exit_reason trigger in
          exit_accounting ← compute_exit_accounting exit_ref (pos_quantity pos) (pos_entry_price pos)
                              (sm_slippage_bps (bc_slippage_model config))
                              (fm_exit_fee_rate (bc_fee_model config));
          let fill := xa_fill_price exit_accounting in
          let fee := xa_fee exit_accounting in
          let slip := xa_slippage_cost exit_accounting in
          let gross := xa_gross_pnl exit_accounting in
          let rt := set_cash rt (rt_cash rt +ᵈ xa_net_wallet_delta exit_accounting) in
          let rt := set_total_fees rt (rt_total_fees rt +ᵈ fee) in
          let rt := set_total_slippage rt (rt_total_slippage rt +ᵈ slip) in
          rt ← match od_get (rt_active_trades rt) symbol with
               | None => Ok rt
               | Some trade =>
                   let rt := set_active_trades rt (od_del (rt_active_trades rt) symbol) in
                   let total_trade_fees := bt_fees trade +ᵈ fee in
                   let total_slip := bt_slippage_cost trade +ᵈ slip in
                   let net := (gross -ᵈ total_trade_fees) -ᵈ bt_funding trade in
                   r_mult ← _safe_r (bt_initial_risk_usd trade) net;
                   let days := ((c_open_time candle - bt_entry_time trade) / DAY)%Z in
                   let closed := close_trade trade (c_open_time candle) reason exit_ref fill gross
                                   total_trade_fees total_slip net r_mult days
                                   (default [] (rt_trail_history rt !! symbol)) in
                   let rt := set_closed_trades rt (rt_closed_trades rt ++ [closed]) in
                   Ok (set_realized_pnl rt (rt_realized_pnl rt +ᵈ net))
               end;
          let rt := set_positions rt (od_del (rt_positions rt) symbol) in
          Ok (set_trail_history rt (delete symbol (rt_trail_history rt)))
      end
  end.

Definition reject_intent (rt : _Runtime) (candle : Candle) (symbol : string) (intent : PendingIntent)
    (codes : list ReasonCode) : _Runtime :=
  let rt := _mark_terminal_intent rt intent OS_REJECTED None None in
  set_rejections rt (rt_rejections rt ++
    [{| rx_time := c_open_time candle;
        rx_symbol := symbol;
        rx_client_intent_id := pi_client_intent_id intent;
        rx_reason_codes := codes;
        rx_strategy_reason_codes := pi_strategy_reason_codes intent |}]).

Definition open_trade (symbol : string) (candle : Candle) (intent : PendingIntent) (decision : RiskDecision)
    (fill qty stop_init : decimal) (accounting : EntryAccounting) (history : list TrailingStopSnapshot) : BacktestTrade :=
  {| bt_symbol := symbol;
     bt_client_intent_id := pi_client_intent_id intent;
     bt_strategy_version := pi_strategy_version intent;
     bt_entry_type := pi_entry_type intent;
     bt_strategy_reason_codes := pi_strategy_reason_codes intent;
     bt_risk_reason_codes := rd_reason_codes decision;
     bt_signal_time := pi_signal_time intent;
     bt_order_time := pi_order_time intent;
     bt_entry_time := c_open_time candle;
     bt_entry_reference_price := c_open candle;
     bt_entry_fill_price := fill;
     bt_quantity := qty;
     bt_initial_stop := stop_init;
     bt_trailing_stop_history := history;
     bt_exit_time := None;
     bt_exit_reason := None;
     bt_exit_reference_price := None;
     bt_exit_fill_price := None;
     bt_gross_pnl := None;
     bt_fees := ea_fee accounting;
     bt_funding := 0%Q;
     bt_slippage_cost := ea_slippage_cost accounting;
     bt_net_pnl := None;
     bt_initial_risk_usd := Some (ea_initial_risk_usd accounting);
     bt_r_multiple := None;
     bt_holding_period_days := None |}.

(** The state after an approved entry, before the gap check at the open. *)
Definition book_entry (rt : _Runtime) (symbol : string) (candle : Candle) (intent : PendingIntent)
    (decision : RiskDecision) (fill qty stop_init : decimal) (accounting : EntryAccounting) : _Runtime :=
  let rt := set_cash rt (rt_cash rt -ᵈ ea_fee accounting) in
  let rt := set_total_fees rt (rt_total_fees rt +ᵈ ea_fee accounting) in
  let rt := set_total_slippage rt (rt_total_slippage rt +ᵈ ea_slippage_cost accounting) in
  let pos := build_simulated_position_from_entry symbol qty fill (c_open_time candle) accounting
               (pi_atr14 intent) (pi_client_intent_id intent) in
  let rt := set_positions rt (od_set (rt_positions rt) symbol pos) in
  let history := [{| tn_time := c_open_time candle;
                     tn_trail_stop := pos_trail_stop pos;
                     tn_effective_stop := pos_effective_stop pos |}] in
  let rt := set_trail_history rt (<[symbol := history]> (rt_trail_history rt)) in
  let trade := open_trade symbol candle intent decision fill qty stop_init accounting history in
  let rt := set_active_trades rt (od_set (rt_active_trades rt) symbol trade) in
  _mark_terminal_intent rt intent OS_FILLED (Some qty) (Some (c_open candle)).

(** One round of the loop of [_fill_pending_at_open]. *)
Definition fill_intent (config : BacktestConfig) (symbol : string) (candle : Candle)
    (day_candles : list (string * Candle)) (prior_closes : gmap string decimal)
    (rt : _Runtime) (intent : PendingIntent) : res _Runtime :=
  if bool_decide (pi_client_intent_id intent ∈ rt_processed_intent_ids rt) then Ok rt
  else
    constraints ← _get_constraints config symbol;
    let open_ref := c_open candle in
    fill_prices ← compute_entry_fill_prices open_ref (pi_atr14 intent)
                    (sm_slippage_bps (bc_slippage_model config)) (bc_strategy_params config)
                    (sc_price_tick_size constraints);
    let fill := ef_fill_price fill_prices in
    let stop_init := ef_stop_initial fill_prices in
    decision ← evaluate_entry_risk_decision symbol fill stop_init (pi_client_intent_id intent)
                 (pi_atr14 intent) constraints (rt_cash rt) (od_values (rt_positions rt))
                 (rt_pending_intents rt) (rt_processed_intent_ids rt) day_candles prior_closes
                 (bc_risk_params config) MD_OK BOT_ACTIVE;
    match rd_approved decision, rd_rounded_quantity decision with
    | true, Some qty =>
        accounting ← compute_entry_accounting fill open_ref qty stop_init
                       (fm_entry_fee_rate (bc_fee_model config)) (sm_slippage_bps (bc_slippage_model config))
                       (rp_max_leverage (bc_risk_params config)) (bc_strategy_params config)
                       (sc_price_tick_size constraints) (pi_atr14 intent);
        if rt_cash rt <ᵈ ea_fee accounting then
          Ok (reject_intent rt candle symbol intent [RC_REJECT_LEVERAGE])
        else
          let rt := book_entry rt symbol candle intent decision fill qty stop_init accounting in
          _check_stop_exit rt config symbol candle true
    | _, _ => Ok (reject_intent rt candle symbol intent (filter_rejection_reason_codes decision))
    end.

Definition is_for (symbol : string) (p : PendingIntent) : bool := bool_decide (pi_symbol p = symbol).

Definition _fill_pending_at_open (config : BacktestConfig) (day_candles : list (string * Candle))
    (prior_closes : gmap string decimal) (rt : _Runtime) (symbol : string) (candle : Candle) : res _Runtime :=
  let to_fill := List.filter (is_for symbol) (rt_pending_intents rt) in
  let rt := set_pending_intents rt (List.filter (fun p => negb (is_for symbol p)) (rt_pending_intents rt)) in
  foldM (fill_intent config symbol candle day_candles prior_closes) to_fill rt.

Definition add_funding (trade : BacktestTrade) (payment : decimal) : BacktestTrade :=
  {| bt_symbol := bt_symbol trade;
     bt_client_intent_id := bt_client_intent_id trade;
     bt_strategy_version := bt_strategy_version trade;
     bt_entry_type := bt_entry_type trade;
     bt_strategy_reason_codes := bt_strategy_reason_codes trade;
     bt_risk_reason_codes := bt_risk_reason_codes trade;
     bt_signal_time := bt_signal_time trade;
     bt_order_time := bt_order_time trade;
     bt_entry_time := bt_entry_time trade;
     bt_entry_reference_price := bt_entry_reference_price trade;
     bt_entry_fill_price := bt_entry_fill_price trade;
     bt_quantity := bt_quantity trade;
     bt_initial_stop := bt_initial_stop trade;
     bt_trailing_stop_history := bt_trailing_stop_history trade;
     bt_exit_time := bt_exit_time trade;
     bt_exit_reason := bt_exit_reason trade;
     bt_exit_reference_price := bt_exit_reference_price trade;
     bt_exit_fill_price := bt_exit_fill_price trade;
     bt_gross_pnl := bt_gross_pnl trade;
     bt_fees := bt_fees trade;
     bt_funding := bt_funding trade +ᵈ payment;
     bt_slippage_cost := bt_slippage_cost trade;
     bt_net_pnl := bt_net_pnl trade;
     bt_initial_risk_usd := bt_initial_risk_usd trade;
     bt_r_multiple := bt_r_multiple trade;
     bt_holding_period_days := bt_holding_period_days trade |}.

(** One payment: debited from the wallet, added to the totals and the trade. *)
Definition pay_funding (symbol : string) (rt : _Runtime) (payment : decimal) : _Runtime :=
  let rt := set_cash rt (rt_cash rt -ᵈ payment) in
  let rt := set_total_funding rt (rt_total_funding rt +ᵈ payment) in
  match od_get (rt_active_trades rt) symbol with
  | Some trade => set_active_trades rt (od_set (rt_active_trades rt) symbol (add_funding trade payment))
  | None => rt
  end.

Definition in_window (candle : Candle) (ev : FundingEvent) : bool :=
  (c_open_time candle <=? fe_timestamp ev)%Z && (fe_timestamp ev <=? c_close_time candle)%Z.

Definition _apply_funding (config : BacktestConfig) (bundle : HistoricalDataBundle) (rt : _Runtime)
    (symbol : string) (candle : Candle) : _Runtime :=
  match od_get (rt_positions rt) symbol with
  | None => rt
  | Some pos =>
      let notional := pos_quantity pos *ᵈ pos_entry_price pos in
      match fn_assumed_rate (bc_funding_model config) with
      | Some rate => pay_funding symbol rt (compute_funding_payment notional rate)
      | None =>
          let events := default [] (hb_funding bundle !! symbol) in
          fold_left (fun rt ev =>
            if in_window candle ev then pay_funding symbol rt (compute_funding_payment notional (fe_funding_rate ev))
            else rt) events rt
      end
  end.

(** [x or Decimal("0")]. *)
Definition or_zero (x : option decimal) : decimal := default 0%Q x.

Definition _strategy_and_queue (config : BacktestConfig) (bundle : HistoricalDataBundle) (rt : _Runtime)
    (symbol : string) (eval_time : datetime) : res _Runtime :=
  let daily := build_candle_series symbol DAILY (candles_of (hb_daily bundle) symbol) eval_time in
  let weekly := build_candle_series symbol WEEKLY (candles_of (hb_weekly bundle) symbol) eval_time in
  let monthly := build_candle_series symbol MONTHLY (candles_of (hb_monthly bundle) symbol) eval_time in
  evaluation ← StrategyEngine.evaluate daily weekly monthly eval_time (Some (bc_strategy_params config));
  let rt := set_evaluations rt (rt_evaluations rt ++ [evaluation]) in
  let intent := ev_signal_intent evaluation in
  match si_kind intent, ev_selected_entry_type evaluation, si_stop_initial intent, ev_atr evaluation with
  | LONG_ENTRY, Some entry_type, Some stop_initial, Some atr =>
      let intent_id := build_client_intent_id symbol (ev_strategy_version evaluation) eval_time entry_type in
      if bool_decide (intent_id ∈ rt_processed_intent_ids rt) then Ok rt
      else if bool_decide (is_Some (od_get (rt_positions rt) symbol)) then Ok rt
      else if existsb (is_for symbol) (rt_pending_intents rt) then Ok rt
      else
        Ok (set_pending_intents rt (rt_pending_intents rt ++
          [{| pi_client_intent_id := intent_id;
              pi_symbol := symbol;
              pi_strategy_version := ev_strategy_version evaluation;
              pi_entry_type := entry_type;
              pi_strategy_reason_codes := ev_reason_codes evaluation;
              pi_signal_time := eval_time;
              pi_order_time := eval_time;
              pi_signal_close_price := or_zero (si_entry_price intent);
              pi_stop_price := stop_initial;
              pi_atr14 := atr;
              pi_strategy_evaluation := evaluation |}]))
  | _, _, _, _ => Ok rt
  end.

(** [next((e for e in reversed(rt.evaluations) if e.symbol == symbol), None)]. *)
Definition last_evaluation (rt : _Runtime) (symbol : string) : option StrategyEvaluation :=
  find (fun e => bool_decide (ev_symbol e = symbol)) (rev (rt_evaluations rt)).

(** [e.atr if e and e.atr else entry_atr]: an ATR of zero is not used. *)
Definition trailing_atr (rt : _Runtime) (symbol : string) (pos : SimulatedPosition) : decimal :=
  match last_evaluation rt symbol with
  | Some e =>
      match ev_atr e with
      | Some atr => if atr =ᵈ 0%Q then pos_entry_atr14 pos else atr
      | None => pos_entry_atr14 pos
      end
  | None => pos_entry_atr14 pos
  end.

Definition with_stops (pos : SimulatedPosition) (updated : TrailingStopState) : SimulatedPosition :=
  {| pos_symbol := pos_symbol pos;
     pos_quantity := pos_quantity pos;
     pos_entry_price := pos_entry_price pos;
     pos_entry_time := pos_entry_time pos;
     pos_initial_stop := pos_initial_stop pos;
     pos_trail_stop := ts_trail_stop updated;
     pos_effective_stop := ts_effective_stop updated;
     pos_highest_close := ts_highest_close updated;
     pos_entry_atr14 := pos_entry_atr14 pos;
     pos_client_intent_id := pos_client_intent_id pos;
     pos_margin_reserved := pos_margin_reserved pos |}.

Definition _update_trailing (config : BacktestConfig) (bundle : HistoricalDataBundle) (rt : _Runtime)
    (symbol : string) (candle : Candle) (eval_time : datetime) : res _Runtime :=
  match od_get (rt_positions rt) symbol with
  | None => Ok rt
  | Some pos =>
      match slice_closed_candles (candles_of (hb_daily bundle) symbol) eval_time with
      | [] => Ok rt
      | _ :: _ =>
          let atr := trailing_atr rt symbol pos in
          let state :=
            {| ts_entry_price := pos_entry_price pos;
               ts_stop_initial := pos_initial_stop pos;
               ts_highest_close := pos_highest_close pos;
               ts_trail_stop := pos_trail_stop pos;
               ts_effective_stop := pos_effective_stop pos |} in
          constraints ← _get_constraints config symbol;
          updated ← compute_trailing_stop_update state (c_close candle) atr (bc_strategy_params config)
                      (sc_price_tick_size constraints);
          let rt := set_positions rt (od_set (rt_positions rt) symbol (with_stops pos updated)) in
          Ok (set_trail_history rt
                (<[symbol := default [] (rt_trail_history rt !! symbol) ++
                    [{| tn_time := eval_time;
                        tn_trail_stop := ts_trail_stop updated;
                        tn_effective_stop := ts_effective_stop updated |}]]> (rt_trail_history rt)))
      end
  end.

Definition _build_timeline (bundle : HistoricalDataBundle) (symbols : list string) : list datetime :=
  let times := concat ((fun sym => c_open_time <$> candles_of (hb_daily bundle) sym) <$> symbols) in
  merge_sort Z.le (elements (list_to_set times : gset Z)).

(** [daily_by_sym] for the configured symbols. *)
Definition index_daily (bundle : HistoricalDataBundle) (symbols : list string) : gmap string (gmap Z (nat * Candle)) :=
  fold_left (fun m sym => <[sym := index_candles (candles_of (hb_daily bundle) sym)]> m) symbols ∅.

(** [daily_by_sym[sym].get(open_time)]. *)
Definition candle_at (daily_by_sym : gmap string (gmap Z (nat * Candle))) (sym : string) (open_time : datetime)
    : option Candle :=
  snd <$> (default ∅ (daily_by_sym !! sym) !! open_time).

Definition build_day_candles (daily_by_sym : gmap string (gmap Z (nat * Candle))) (symbols : list string)
    (open_time : datetime) : list (string * Candle) :=
  fold_left (fun d sym =>
    match candle_at daily_by_sym sym open_time with
    | Some c => od_set d sym c
    | None => d
    end) symbols [].

(** A [for sym in config.symbols] loop that skips the symbols without a candle
    on this day. *)
Definition for_symbols (symbols : list string) (day_candles : list (string * Candle))
    (f : _Runtime -> string -> Candle -> res _Runtime) (rt : _Runtime) : res _Runtime :=
  foldM (fun rt sym =>
    match od_get day_candles sym with
    | None => Ok rt
    | Some candle => f rt sym candle
    end) symbols rt.

Definition closes_of (day_candles : list (string * Candle)) : gmap string decimal :=
  list_to_map (prod_map id c_close <$> day_candles).

(** The end-of-day part of the loop body: mark the positions, raise the peak,
    record the equity. *)
Definition record_equity (closes : gmap string decimal) (eval_time : datetime) (rt : _Runtime) : _Runtime :=
  let positions := od_values (rt_positions rt) in
  let marks := mark_prices_from_candles positions closes in
  let unrealized := compute_unrealized_pnl positions marks in
  let equity := rt_cash rt +ᵈ unrealized in
  let rt := set_peak_equity rt (dmax (rt_peak_equity rt) equity) in
  set_equity_curve rt (rt_equity_curve rt ++
    [{| eq_time := eval_time;
        eq_cash := rt_cash rt;
        eq_equity := equity;
        eq_unrealized_pnl := unrealized;
        eq_open_positions := length (rt_positions rt) |}]).

(** The body of the main loop. *)
Definition process_day (config : BacktestConfig) (bundle : HistoricalDataBundle)
    (daily_by_sym : gmap string (gmap Z (nat * Candle))) (rt : _Runtime) (open_time : datetime) : res _Runtime :=
  let symbols := bc_symbols config in
  let day_candles := build_day_candles daily_by_sym symbols open_time in
  match day_candles with
  | [] => Ok rt
  | (_, first_candle) :: _ =>
      let closes := closes_of day_candles in
      let prior_closes := prior_closes_from_timeline daily_by_sym symbols open_time in
      rt ← for_symbols symbols day_candles (_fill_pending_at_open config day_candles prior_closes) rt;
      rt ← for_symbols symbols day_candles (fun rt sym c => _check_stop_exit rt config sym c false) rt;
      rt ← (if fn_enabled (bc_funding_model config) then
              for_symbols symbols day_candles (fun rt sym c => Ok (_apply_funding config bundle rt sym c)) rt
            else Ok rt);
      let eval_time := evaluation_time_for_daily first_candle in
      rt ← for_symbols symbols day_candles
             (fun rt sym c => _strategy_and_queue config bundle rt sym (evaluation_time_for_daily c)) rt;
      rt ← for_symbols symbols day_candles
             (fun rt sym c => _update_trailing config bundle rt sym c eval_time) rt;
      Ok (record_equity closes eval_time rt)
  end.

Record BacktestResult := {
  br_config : BacktestConfig;
  br_data_start : option datetime;
  br_data_end : option datetime;
  br_start_capital : decimal;
  br_end_capital : decimal;
  br_trades : list BacktestTrade;
  br_open_positions : list SimulatedPosition;
  br_equity_curve : list EquitySnapshot;
  br_drawdown_curve : list DrawdownSnapshot;
  br_risk_rejections : list RiskRejectionRecord;
  br_strategy_evaluations : list StrategyEvaluation;
  br_total_fees : decimal;
  br_total_funding : decimal;
  br_total_slippage : decimal;
  br_data_quality_warnings : list warning;
  br_model_assumptions : list string;
  br_funding_enabled : bool;
  br_metrics : BacktestMetrics;
  br_processed_intent_ids : list string;
}.

Definition initial_runtime (config : BacktestConfig) : _Runtime :=
  {| rt_cash := bc_initial_cash config;
     rt_positions := [];
     rt_pending_intents := [];
     rt_processed_intent_ids := list_to_set (bc_initial_processed_intent_ids config);
     rt_intent_orders := ∅;
     rt_active_trades := [];
     rt_closed_trades := [];
     rt_evaluations := [];
     rt_rejections := [];
     rt_equity_curve := [];
     rt_total_fees := 0%Q;
     rt_total_funding := 0%Q;
     rt_total_slippage := 0%Q;
     rt_realized_pnl := 0%Q;
     rt_trail_history := ∅;
     rt_peak_equity := bc_initial_cash config |}.

Definition _empty_result (config : BacktestConfig) (warnings : list warning)
    (start_time end_time : option datetime) : BacktestResult :=
  {| br_config := config;
     br_data_start := start_time;
     br_data_end := end_time;
     br_start_capital := bc_initial_cash config;
     br_end_capital := bc_initial_cash config;
     br_trades := [];
     br_open_positions := [];
     br_equity_curve := [];
     br_drawdown_curve := [];
     br_risk_rejections := [];
     br_strategy_evaluations := [];
     br_total_fees := 0%Q;
     br_total_funding := 0%Q;
     br_total_slippage := 0%Q;
     br_data_quality_warnings := warnings;
     br_model_assumptions := ["No data timeline."%string];
     br_funding_enabled := fn_enabled (bc_funding_model config);
     br_metrics := compute_metrics [] [] (bc_initial_cash config) (bc_initial_cash config) 0%Q 0%Q 0%Q;
     br_processed_intent_ids := [] |}.

Definition INTRABAR_ASSUMPTION : string := "ENTRY_AT_OPEN_THEN_STOP_SAME_CANDLE".

Definition model_assumptions : list string :=
  ["Perpetual margin accounting: wallet balance excludes reserved margin.";
   "Entry fill at next daily open after signal close, not at signal close.";
   "Risk evaluation uses actual fill price and fill-based initial stop.";
   "Open-fill marks use bar open or prior close, never same-day close.";
   "Intrabar assumption: " +:+ INTRABAR_ASSUMPTION;
   "Funding notional = quantity × entry_price (V1 model assumption).";
   "Symbol processing order follows BacktestConfig.symbols.";
   "Weekly/monthly candles filtered to closed only as of evaluation time.";
   "M4 portfolio gate ordering deferred (conservative leverage reduction)."]%string.

Definition all_warnings (bundle : HistoricalDataBundle) (symbols : list string) : list warning :=
  hb_data_quality_warnings bundle ++
  concat ((fun sym =>
    validate_chronological (candles_of (hb_daily bundle) sym) ++
    validate_chronological (candles_of (hb_weekly bundle) sym) ++
    validate_chronological (candles_of (hb_monthly bundle) sym)) <$> symbols).

(** The loop over the timeline. *)
Definition run_days (config : BacktestConfig) (bundle : HistoricalDataBundle) (timeline : list datetime)
    (rt : _Runtime) : res _Runtime :=
  foldM (process_day config bundle (index_daily bundle (bc_symbols config))) timeline rt.

Definition end_marks (daily_by_sym : gmap string (gmap Z (nat * Candle))) (symbols : list string)
    (last_time : datetime) : gmap string decimal :=
  fold_left (fun m sym =>
    match candle_at daily_by_sym sym last_time with
    | Some c => <[sym := c_close c]> m
    | None => m
    end) symbols ∅.

Definition run (bundle : HistoricalDataBundle) (config : BacktestConfig) : res BacktestResult :=
  let warnings := all_warnings bundle (bc_symbols config) in
  let timeline := _build_timeline bundle (bc_symbols config) in
  match head timeline, last timeline with
  | Some data_start, Some data_end =>
      rt ← run_days config bundle timeline (initial_runtime config);
      let marks := end_marks (index_daily bundle (bc_symbols config)) (bc_symbols config) data_end in
      let end_equity := compute_equity (rt_cash rt) (od_values (rt_positions rt)) marks in
      let metrics := compute_metrics (rt_closed_trades rt) (rt_equity_curve rt) (bc_initial_cash config)
                       end_equity (rt_total_fees rt) (rt_total_funding rt) (rt_total_slippage rt) in
      Ok {| br_config := config;
            br_data_start := Some data_start;
            br_data_end := Some data_end;
            br_start_capital := bc_initial_cash config;
            br_end_capital := end_equity;
            br_trades := rt_closed_trades rt ++ od_values (rt_active_trades rt);
            br_open_positions := od_values (rt_positions rt);
            br_equity_curve := rt_equity_curve rt;
            br_drawdown_curve := compute_drawdown_curve (rt_equity_curve rt);
            br_risk_rejections := rt_rejections rt;
            br_strategy_evaluations := rt_evaluations rt;
            br_total_fees := rt_total_fees rt;
            br_total_funding := rt_total_funding rt;
            br_total_slippage := rt_total_slippage rt;
            br_data_quality_warnings := warnings;
            br_model_assumptions := model_assumptions;
            br_funding_enabled := fn_enabled (bc_funding_model config);
            br_metrics := metrics;
            br_processed_intent_ids := merge_sort String.le (elements (rt_processed_intent_ids rt)) |}
  | _, _ => Ok (_empty_result config warnings None None)
  end.
