(* ===== verification/BacktestInvariants.v ===== *)
(** * Invariants of the backtester's runtime

    One invariant of [_Runtime], preserved by every method of the engine and
    hence by a whole run; each lemma also shows that the method returns. *)
From Stdlib Require Import ZArith QArith Qabs Lqa Lia Sorting.Sorted.
From stdpp Require Import base list sets gmap strings sorting.
From S2P Require Import Prelude Decimal StrategyModels Stops StrategyValidation RiskModels RiskValidation Sizing.
From S2P Require Import BtModels BtData BtPortfolio PaperLifecycle Metrics BacktestEngine.
From S2P Require StrategyEngine RiskEngine.
Local Open Scope Q_scope.

(** ** Hypotheses on the inputs *)

(** Configurations the engine is run with: positive indicator periods, and for
    every configured symbol constraints whose step and tick are powers of ten. *)
Record config_ok (config : BacktestConfig) : Prop := {
  co_strategy : StrategyEngine.params_wf (bc_strategy_params config);
  co_constraints : forall sym, sym ∈ bc_symbols config -> exists c,
    bc_symbol_constraints config !! sym = Some c /\
    pow10_step (sc_quantity_step c) /\ pow10_step (sc_price_tick_size c);
}.

(** Daily candles have positive opens and closes. *)
Definition bundle_pos (bundle : HistoricalDataBundle) : Prop :=
  forall sym c, c ∈ candles_of (hb_daily bundle) sym -> 0 < c_open c /\ 0 < c_close c.

(** ** The invariant *)

(** The trailing-stop state stored in a position. *)
Definition trail_state_of (p : SimulatedPosition) : TrailingStopState :=
  {| ts_entry_price := pos_entry_price p;
     ts_stop_initial := pos_initial_stop p;
     ts_highest_close := pos_highest_close p;
     ts_trail_stop := pos_trail_stop p;
     ts_effective_stop := pos_effective_stop p |}.

(** A position under its symbol: a positive size and entry, and a trailing stop
    in its invariant, on the tick grid, at or above the initial stop. *)
Record pos_ok (config : BacktestConfig) (kp : string * SimulatedPosition) : Prop := {
  po_symbol : pos_symbol kp.2 = kp.1;
  po_quantity : 0 < pos_quantity kp.2;
  po_entry : 0 < pos_entry_price kp.2;
  po_trail : exists c, bc_symbol_constraints config !! kp.1 = Some c /\ pow10_step (sc_price_tick_size c) /\
    trail_inv (pos_entry_price kp.2) (pos_initial_stop kp.2) (Some (sc_price_tick_size c)) (trail_state_of kp.2);
  po_above : pos_initial_stop kp.2 <= pos_trail_stop kp.2;
}.

(** A closed trade was stopped out by a gap or by the trailing stop, and its
    result is the price difference on its quantity less its fees and funding. *)
Definition closed_ok (t : BacktestTrade) : Prop :=
  (bt_exit_reason t = Some STOP_GAP \/ bt_exit_reason t = Some STOP_TRAILING) /\
  exists fill gross, bt_exit_fill_price t = Some fill /\ bt_gross_pnl t = Some gross /\
    gross = (fill -ᵈ bt_entry_fill_price t) *ᵈ bt_quantity t /\
    bt_net_pnl t = Some ((gross -ᵈ bt_fees t) -ᵈ bt_funding t).

(** The open trade of a position. *)
Record trade_of (p : SimulatedPosition) (t : BacktestTrade) : Prop := {
  to_symbol : bt_symbol t = pos_symbol p;
  to_id : bt_client_intent_id t = pos_client_intent_id p;
  to_quantity : bt_quantity t = pos_quantity p;
  to_entry : bt_entry_fill_price t = pos_entry_price p;
  to_stop : bt_initial_stop t = pos_initial_stop p;
  to_open : bt_net_pnl t = None;
}.

Definition trade_ids (rt : _Runtime) : list string :=
  bt_client_intent_id <$> (rt_closed_trades rt ++ od_values (rt_active_trades rt)).

Record rt_inv (config : BacktestConfig) (rt : _Runtime) : Prop := {
  ri_keys : od_keys (rt_positions rt) = od_keys (rt_active_trades rt);
  ri_nodup : NoDup (od_keys (rt_positions rt));
  ri_symbols : forall k, k ∈ od_keys (rt_positions rt) -> k ∈ bc_symbols config;
  ri_positions : Forall (pos_ok config) (rt_positions rt);
  ri_count : (length (rt_positions rt) <= Z.to_nat (rp_max_open_positions (bc_risk_params config)))%nat;
  ri_pending_nodup : NoDup (pi_symbol <$> rt_pending_intents rt);
  ri_pending_flat : forall p, p ∈ rt_pending_intents rt -> pi_symbol p ∉ od_keys (rt_positions rt);
  ri_trades : NoDup (trade_ids rt);
  ri_processed : forall id, id ∈ trade_ids rt -> id ∈ rt_processed_intent_ids rt;
  ri_orders : forall id o, rt_intent_orders rt !! id = Some o -> id ∈ rt_processed_intent_ids rt;
  ri_closed : Forall closed_ok (rt_closed_trades rt);
  ri_match : forall k p t, od_get (rt_positions rt) k = Some p -> od_get (rt_active_trades rt) k = Some t ->
    trade_of p t;
}.

Lemma initial_runtime_inv config : rt_inv config (initial_runtime config).
Proof.
  constructor; cbn; try apply NoDup_nil_2; try apply Forall_nil_2; try set_solver; try done; try lia.
Qed.

Lemma od_keys_length {V} (d : list (string * V)) : length (od_keys d) = length d.
Proof. apply length_fmap. Qed.

(** ** Exits *)

Lemma safe_r_returns r net : exists o, _safe_r r net = Ok o.
Proof.
  unfold _safe_r. destruct r as [r|]; [|by eexists]. destruct (r =ᵈ 0) eqn:E; [by eexists|].
  dec_bool. rewrite ddiv_ok by done. by eexists.
Qed.

Lemma exit_accounting_returns ref q e bps fee : exists x, compute_exit_accounting ref q e bps fee = Ok x /\
  xa_gross_pnl x = (xa_fill_price x -ᵈ e) *ᵈ q.
Proof.
  unfold compute_exit_accounting, apply_exit_slippage. cbn. rewrite ddiv_pos_ok by reflexivity. eexists.
  by split.
Qed.

(** The stops of a position in the invariant exit by gap or trailing. *)
Lemma exit_trigger_reason config k p candle b t :
  pos_ok config (k, p) -> exit_trigger candle p b = Some t ->
  st_exit_reason t = STOP_GAP \/ st_exit_reason t = STOP_TRAILING.
Proof.
  intros Hp. pose proof (po_above _ _ Hp) as Ha. cbn in Ha. apply dleb_le in Ha.
  unfold exit_trigger, compute_stop_trigger, compute_gap_stop_at_open, compute_intraday_stop. rewrite Ha.
  destruct b, (c_open candle <ᵈ pos_effective_stop p), (c_low candle ≤ᵈ pos_effective_stop p);
    intros Ht; simplify_eq; cbn; auto.
Qed.

Lemma check_stop_exit_inv config rt sym candle b :
  rt_inv config rt ->
  returns (_check_stop_exit rt config sym candle b) (fun rt' =>
    rt_inv config rt' /\ rt_pending_intents rt' = rt_pending_intents rt /\
    (forall k, k ∈ od_keys (rt_positions rt') -> k ∈ od_keys (rt_positions rt))).
Proof.
  intros Hinv. unfold _check_stop_exit.
  destruct (od_get (rt_positions rt) sym) as [pos|] eqn:Ep; [|by apply returns_ret].
  destruct (exit_trigger candle pos b) as [trig|] eqn:Et; [|by apply returns_ret].
  destruct (exit_accounting_returns (st_exit_reference trig) (pos_quantity pos) (pos_entry_price pos)
    (sm_slippage_bps (bc_slippage_model config)) (fm_exit_fee_rate (bc_fee_model config))) as (x & -> & Hgross).
  cbn. pose proof Hinv as [I1 I2 I3 I4 I5 I6 I7 I8 I9 I10 I11 I12].
  pose proof (od_get_Forall _ _ _ _ I4 Ep) as Hpos.
  assert (Hk : sym ∈ od_keys (rt_positions rt)) by (by eapply od_get_Some_keys).
  rewrite I1 in Hk. apply od_get_is_Some in Hk as [trade Htr]. rewrite Htr. cbn.
  set (net := _ -ᵈ bt_funding trade). destruct (safe_r_returns (bt_initial_risk_usd trade) net) as [r ->].
  cbn. apply returns_ret. split; [|split; [done|]]; cbn.
  2: { intros k. apply od_keys_del_sub. }
  set (closed := close_trade _ _ _ _ _ _ _ _ _ _ _ _).
  pose proof (od_del_Permutation _ _ _ Htr) as Hperm.
  match goal with |- rt_inv _ ?r => set (rt' := r) end.
  assert (Hids : trade_ids rt' ≡ₚ trade_ids rt).
  { unfold trade_ids. cbn. rewrite Hperm, !fmap_app, <- app_assoc. done. }
  constructor; cbn.
  - by apply od_keys_del_eq.
  - by apply od_keys_del_NoDup.
  - intros k Hk%od_keys_del_sub. by apply I3.
  - by apply od_del_Forall.
  - pose proof (od_del_length (rt_positions rt) sym). lia.
  - done.
  - intros p Hp Hk%od_keys_del_sub. by apply (I7 p).
  - change (NoDup (trade_ids rt')). by rewrite Hids.
  - intros id. change (id ∈ trade_ids rt' -> id ∈ rt_processed_intent_ids rt). rewrite Hids. by apply I9.
  - done.
  - apply Forall_app. split; [done|]. constructor; [|constructor]. split.
    { destruct (exit_trigger_reason _ _ _ _ _ _ Hpos Et) as [Hr|Hr]; cbn; rewrite Hr; auto. }
    exists (xa_fill_price x), (xa_gross_pnl x). destruct (I12 _ _ _ Ep Htr) as [_ _ Hq He _ _]. cbn.
    by rewrite Hq, He.
  - intros k p t. destruct (decide (sym = k)) as [<-|Hne]; [by rewrite od_get_del_eq|].
    rewrite !od_get_del_ne by done. apply I12.
Qed.

(** ** Entries *)

(** The prices known at the open of a day are positive. *)
Record open_prices_ok (day_candles : list (string * Candle)) (prior_closes : gmap string decimal) : Prop := {
  op_open : forall sym c, od_get day_candles sym = Some c -> 0 < c_open c;
  op_prior : forall sym m, prior_closes !! sym = Some m -> 0 < m;
}.

Lemma resolve_marks_positive positions day_candles prior_closes :
  open_prices_ok day_candles prior_closes -> Forall (fun p => 0 < pos_entry_price p) positions ->
  forall p, p ∈ positions -> 0 < mark_of (resolve_marks_at_open positions day_candles prior_closes) p.
Proof.
  intros [Ho Hpr] Hpos.
  assert (Hm : forall p, 0 < pos_entry_price p -> 0 < mark_at_open day_candles prior_closes p).
  { intros p Hp. unfold mark_at_open. destruct (od_get day_candles (pos_symbol p)) eqn:E; [by eapply Ho|].
    destruct (prior_closes !! pos_symbol p) eqn:E2; cbn; [by eapply Hpr|done]. }
  assert (Hall : forall marks : gmap string decimal, (forall k m, marks !! k = Some m -> 0 < m) ->
    forall k m, fold_left (fun marks pos => <[pos_symbol pos := mark_at_open day_candles prior_closes pos]> marks)
                  positions marks !! k = Some m -> 0 < m).
  { induction Hpos as [|p l Hp Hl IH]; cbn; intros marks Hmarks; [done|]. apply IH.
    intros k m [[<- <-]|[_ H]]%lookup_insert_Some; [by apply Hm|by eapply Hmarks]. }
  intros p Hp. unfold mark_of, resolve_marks_at_open.
  destruct (_ !! pos_symbol p) eqn:E; cbn.
  - eapply Hall; [|exact E]. intros k m H. by rewrite lookup_empty in H.
  - rewrite Forall_forall in Hpos. by apply Hpos.
Qed.

(** With positive sizes and marks no position is left out of the states the
    risk engine sees. *)
Lemma to_position_states_all positions marks :
  Forall (fun p => 0 < pos_quantity p) positions -> (forall p, p ∈ positions -> 0 < mark_of marks p) ->
  ps_symbol <$> to_position_states positions marks = pos_symbol <$> positions.
Proof.
  intros Hq Hm. unfold to_position_states. induction Hq as [|p l Hp Hl IH]; cbn; [done|].
  unfold to_position_state at 1. assert (0 < mark_of marks p) as Hmp by (apply Hm; set_solver).
  replace (pos_quantity p ≤ᵈ 0) with false by (symmetry; by apply dleb_gt).
  replace (mark_of marks p ≤ᵈ 0) with false by (symmetry; by apply dleb_gt). cbn.
  f_equal. apply IH. intros q Hin. apply Hm. set_solver.
Qed.

Lemma pos_symbols config rt : rt_inv config rt -> pos_symbol <$> od_values (rt_positions rt) = od_keys (rt_positions rt).
Proof.
  intros H. pose proof (ri_positions _ _ H) as Hp. unfold od_values, od_keys. clear H.
  induction Hp as [|[k p] l Hx Hl IH]; cbn; [done|]. rewrite IH. f_equal. by apply (po_symbol _ _ Hx).
Qed.

Lemma od_values_Forall {V} (P : V -> Prop) (d : list (string * V)) : Forall (fun kv => P kv.2) d -> Forall P (od_values d).
Proof. intros H. unfold od_values. by apply Forall_fmap. Qed.

(** What an approval of the risk engine gives the engine that books it. *)
Lemma entry_decision config rt sym fill stop id atr c day_candles prior_closes d :
  rt_inv config rt -> pow10_step (sc_quantity_step c) -> open_prices_ok day_candles prior_closes ->
  evaluate_entry_risk_decision sym fill stop id atr c (rt_cash rt) (od_values (rt_positions rt))
    (rt_pending_intents rt) (rt_processed_intent_ids rt) day_candles prior_closes (bc_risk_params config)
    MD_OK BOT_ACTIVE = Ok d ->
  rd_approved d = true ->
  exists q, rd_rounded_quantity d = Some q /\ 0 < q /\ 0 < fill /\ sym ∉ od_keys (rt_positions rt) /\
    (length (rt_positions rt) < Z.to_nat (rp_max_open_positions (bc_risk_params config)))%nat.
Proof.
  intros Hinv Hs Hop Hd Ha. unfold evaluate_entry_risk_decision in Hd.
  set (marks := resolve_marks_at_open _ _ _) in *. set (positions := od_values _) in *.
  match type of Hd with RiskEngine.evaluate ?pr ?ac _ ?ps ?os ?ids _ = _ =>
    destruct (RiskEngine.evaluate_decides pr ac c ps os ids (bc_risk_params config) Hs) as (d' & Hd' & Happ) end.
  rewrite Hd in Hd'. injection Hd' as <-. rewrite Ha in Happ.
  assert (Hall : ps_symbol <$> to_position_states positions marks = pos_symbol <$> positions).
  { pose proof (ri_positions _ _ Hinv) as Hpos. apply to_position_states_all.
    - apply od_values_Forall. eapply Forall_impl; [exact Hpos|]. intros kp Hkp. apply Hkp.
    - intros p Hp. apply resolve_marks_positive; [done| |done].
      apply od_values_Forall. eapply Forall_impl; [exact Hpos|]. intros kp Hkp. apply Hkp. }
  destruct Happ as [_ _ Hc Hpr _ _ _ Hsym _ Hcount (q & _ & _ & _ & _ & Hq & _ & Hw)].
  exists q. split_and!; [done| |by apply Hpr| |].
  - pose proof (RiskEngine.wl_minimum _ _ _ _ _ _ _ Hw). destruct Hc. lra.
  - rewrite Hall in Hsym. unfold positions in Hsym. by rewrite (pos_symbols config rt Hinv) in Hsym.
  - assert (Hlen : length (to_position_states positions marks) = length (rt_positions rt)).
    { rewrite <- (length_fmap ps_symbol), Hall, length_fmap. unfold positions, od_values. apply length_fmap. }
    rewrite Hlen in Hcount. lia.
Qed.

Lemma entry_fill_returns open_ref atr bps p tick :
  pow10_step tick -> exists r, compute_entry_fill_prices open_ref atr bps p tick = Ok r.
Proof.
  intros Ht. unfold compute_entry_fill_prices, apply_entry_slippage, compute_initial_stop. cbn.
  rewrite ddiv_pos_ok by reflexivity. cbn. rewrite Stops.round_to_tick_eq by (by apply pow10_step_pos).
  by eexists.
Qed.

Lemma entry_accounting_trail fill ref q stop fee bps lev p tick atr :
  pow10_step tick -> on_grid tick stop ->
  returns (compute_entry_accounting fill ref q stop fee bps lev p tick atr) (fun a =>
    trail_inv fill stop (Some tick) (ea_trail_state a) /\ stop <= ts_trail_stop (ea_trail_state a)).
Proof.
  intros Ht Hg. unfold compute_entry_accounting.
  assert (Hm : exists m, position_margin (dmul fill q) lev = Ok m).
  { unfold position_margin. destruct (lev ≤ᵈ 0) eqn:E; [by eexists|]. dec_bool.
    rewrite ddiv_pos_ok by done. by eexists. }
  destruct Hm as [m ->]. cbn [mbind res_bind].
  destruct (initialize_trailing_stop_inv fill atr stop p (Some tick) Ht) as (st & Hst & Hinv).
  rewrite Hst. cbn [mbind res_bind]. apply returns_ret. cbn. split; [done|].
  apply (trail_above_initial fill atr stop p tick [] st Ht Hg). by rewrite Hst.
Qed.

Lemma mark_terminal_inv config rt i s q r :
  rt_inv config rt -> rt_inv config (_mark_terminal_intent rt i s q r).
Proof.
  intros [I1 I2 I3 I4 I5 I6 I7 I8 I9 I10 I11 I12]. constructor; try done.
  - intros id Hid. cbn. set_solver.
  - intros id o Ho. cbn in *. apply lookup_insert_Some in Ho as [[<- _]|[_ Ho]]; [set_solver|].
    apply I10 in Ho. set_solver.
Qed.

Lemma reject_intent_inv config rt c sym i codes : rt_inv config rt -> rt_inv config (reject_intent rt c sym i codes).
Proof. intros H. by destruct (mark_terminal_inv config rt i OS_REJECTED None None H). Qed.

Lemma book_entry_inv config rt sym c candle i d fill q stop a :
  rt_inv config rt -> sym ∈ bc_symbols config ->
  bc_symbol_constraints config !! sym = Some c -> pow10_step (sc_price_tick_size c) ->
  sym ∉ od_keys (rt_positions rt) ->
  (length (rt_positions rt) < Z.to_nat (rp_max_open_positions (bc_risk_params config)))%nat ->
  (forall p, p ∈ rt_pending_intents rt -> pi_symbol p <> sym) ->
  pi_client_intent_id i ∉ rt_processed_intent_ids rt ->
  0 < q -> 0 < fill ->
  trail_inv fill stop (Some (sc_price_tick_size c)) (ea_trail_state a) -> stop <= ts_trail_stop (ea_trail_state a) ->
  rt_inv config (book_entry rt sym candle i d fill q stop a).
Proof.
  intros [I1 I2 I3 I4 I5 I6 I7 I8 I9 I10 I11 I12] Hsym Hc Ht Hnew Hcount Hpend Hid Hq Hfill Htr Hab.
  unfold book_entry. match goal with |- context [open_trade ?a1 ?a2 ?a3 ?a4 ?a5 ?a6 ?a7 ?a8 ?a9] => set (trade := open_trade a1 a2 a3 a4 a5 a6 a7 a8 a9) end.
  set (pos := build_simulated_position_from_entry _ _ _ _ _ _ _).
  match goal with |- rt_inv _ ?r => set (rt' := r) end.
  assert (Hkeys : od_keys (rt_positions rt') = od_keys (rt_positions rt) ++ [sym]).
  { change (rt_positions rt') with (od_set (rt_positions rt) sym pos). by rewrite od_keys_set, decide_False. }
  assert (Hids : trade_ids rt' = trade_ids rt ++ [pi_client_intent_id i]).
  { unfold trade_ids. change (rt_active_trades rt') with (od_set (rt_active_trades rt) sym trade).
    change (rt_closed_trades rt') with (rt_closed_trades rt). rewrite od_values_set_new by (by rewrite <- I1).
    by rewrite app_assoc, !fmap_app. }
  constructor.
  - by apply od_keys_set_eq.
  - by apply od_keys_set_NoDup.
  - intros k. rewrite Hkeys. intros [Hk|Hk%list_elem_of_singleton]%elem_of_app; [by apply I3|by subst].
  - apply od_set_Forall; [done|]. constructor; cbn; try done.
    + exists c. split_and!; [done|done|].
      destruct Htr as [T1 T2 T3 T4 T5]. by constructor.
    + by rewrite (ti_initial _ _ _ _ Htr).
  - rewrite <- od_keys_length, Hkeys, length_app, od_keys_length. cbn. lia.
  - done.
  - intros p Hp. rewrite Hkeys. intros [Hk|Hk%list_elem_of_singleton]%elem_of_app.
    + by apply (I7 p).
    + by apply (Hpend p).
  - rewrite Hids. apply NoDup_app. split_and!; [done| |apply NoDup_singleton].
    intros id Hin Heq%list_elem_of_singleton. subst. by apply Hid, I9.
  - intros id. rewrite Hids. cbn. intros [Hin%I9|Heq%list_elem_of_singleton]%elem_of_app; set_solver.
  - intros id o Ho. cbn in *. apply lookup_insert_Some in Ho as [[<- _]|[_ Ho]]; [set_solver|].
    apply I10 in Ho. set_solver.
  - done.
  - intros k p t. cbn. rewrite !od_get_set. case_decide; [|apply I12]. intros [= <-] [= <-].
    constructor; try done. symmetry. apply (ti_initial _ _ _ _ Htr).
Qed.

Lemma fill_intent_inv config sym candle day_candles prior_closes rt i :
  config_ok config -> sym ∈ bc_symbols config -> open_prices_ok day_candles prior_closes ->
  rt_inv config rt -> (forall p, p ∈ rt_pending_intents rt -> pi_symbol p <> sym) ->
  returns (fill_intent config sym candle day_candles prior_closes rt i) (fun rt' =>
    rt_inv config rt' /\ rt_pending_intents rt' = rt_pending_intents rt).
Proof.
  intros Hcfg Hsym Hop Hinv Hpend. unfold fill_intent.
  case_bool_decide as Hid; [by apply returns_ret|].
  destruct (co_constraints _ Hcfg sym Hsym) as (c & Hc & Hstep & Htick).
  unfold _get_constraints. rewrite Hc. cbn.
  destruct (entry_fill_returns (c_open candle) (pi_atr14 i) (sm_slippage_bps (bc_slippage_model config))
    (bc_strategy_params config) (sc_price_tick_size c) Htick) as [r Hr]. rewrite Hr. cbn.
  pose proof (entry_stop_on_grid _ _ _ _ _ _ Htick Hr) as Hgrid.
  assert (Hdec : exists d, evaluate_entry_risk_decision sym (ef_fill_price r) (ef_stop_initial r)
    (pi_client_intent_id i) (pi_atr14 i) c (rt_cash rt) (od_values (rt_positions rt)) (rt_pending_intents rt)
    (rt_processed_intent_ids rt) day_candles prior_closes (bc_risk_params config) MD_OK BOT_ACTIVE = Ok d).
  { unfold evaluate_entry_risk_decision. match goal with |- context [RiskEngine.evaluate ?pr ?ac _ ?ps ?os ?ids _] =>
      destruct (RiskEngine.evaluate_decides pr ac c ps os ids (bc_risk_params config) Hstep) as (d & -> & _) end.
    by exists d. }
  destruct Hdec as [d Hd]. rewrite Hd. cbn.
  destruct (rd_approved d) eqn:Ha; [|apply returns_ret; split; [by apply reject_intent_inv|done]].
  destruct (entry_decision _ _ _ _ _ _ _ _ _ _ _ Hinv Hstep Hop Hd Ha) as (q & -> & Hq & Hf & Hnew & Hcount).
  eapply returns_bind; [by apply entry_accounting_trail|]. intros a [Htr Hab].
  case_if; [apply returns_ret; split; [by apply reject_intent_inv|done]|].
  eapply returns_mono; [apply check_stop_exit_inv; eapply book_entry_inv; eauto|].
  intros rt' (Hinv' & Hp & _). split; [done|]. by rewrite Hp.
Qed.

Lemma elem_of_filter_bool {A} (f : A -> bool) l x : x ∈ List.filter f l <-> x ∈ l /\ f x = true.
Proof. by rewrite list_elem_of_In, List.filter_In, <- list_elem_of_In. Qed.

Lemma is_for_spec sym p : is_for sym p = true <-> pi_symbol p = sym.
Proof. unfold is_for. apply bool_decide_eq_true. Qed.

Lemma fill_pending_inv config sym candle day_candles prior_closes rt :
  config_ok config -> sym ∈ bc_symbols config -> open_prices_ok day_candles prior_closes ->
  rt_inv config rt ->
  returns (_fill_pending_at_open config day_candles prior_closes rt sym candle) (rt_inv config).
Proof.
  intros Hcfg Hsym Hop Hinv. unfold _fill_pending_at_open.
  set (keep := List.filter (fun p => negb (is_for sym p)) (rt_pending_intents rt)).
  eapply returns_mono.
  - apply (foldM_returns _ (fun rt' => rt_inv config rt' /\ rt_pending_intents rt' = keep)).
    + split; [|done]. destruct Hinv as [I1 I2 I3 I4 I5 I6 I7 I8 I9 I10 I11 I12]. constructor; try done; cbn.
      * by apply NoDup_fmap_filter.
      * intros p [Hp _]%elem_of_filter_bool. by apply I7.
    + intros rt' i _ [Hinv' Hp]. eapply returns_mono; [eapply fill_intent_inv; eauto|].
      * intros p. rewrite Hp. intros [_ Hf%negb_true_iff]%elem_of_filter_bool Heq.
        apply is_for_spec in Heq. congruence.
      * cbn. intros rt'' [H1 H2]. by rewrite H2.
  - by intros rt' [H _].
Qed.

(** ** Funding, signals and trailing stops *)

Lemma pay_funding_inv config sym rt payment : rt_inv config rt -> rt_inv config (pay_funding sym rt payment).
Proof.
  intros [I1 I2 I3 I4 I5 I6 I7 I8 I9 I10 I11 I12]. unfold pay_funding. cbn.
  destruct (od_get (rt_active_trades rt) sym) as [t|] eqn:E; [|by constructor].
  match goal with |- rt_inv _ ?r => set (rt' := r) end.
  assert (Hids : trade_ids rt' = trade_ids rt).
  { unfold trade_ids. rewrite !fmap_app. f_equal.
    by apply (od_values_set_same bt_client_intent_id _ _ t). }
  constructor; try done.
  - cbn. rewrite od_keys_set_id by (by eapply od_get_Some_keys). done.
  - by rewrite Hids.
  - intros id. rewrite Hids. apply I9.
  - intros k p t'. cbn. rewrite od_get_set. case_decide as Hk; [|apply I12]. subst k.
    intros Hp [= <-]. by destruct (I12 _ _ _ Hp E).
Qed.

Lemma apply_funding_inv config bundle rt sym candle :
  rt_inv config rt -> rt_inv config (_apply_funding config bundle rt sym candle).
Proof.
  intros H. unfold _apply_funding. destruct (od_get _ sym); [|done].
  destruct (fn_assumed_rate _); [by apply pay_funding_inv|].
  generalize dependent rt. induction (default [] _) as [|ev l IH]; intros rt H; cbn; [done|].
  apply IH. case_if; [by apply pay_funding_inv|done].
Qed.

Lemma strategy_and_queue_inv config bundle rt sym t :
  config_ok config -> rt_inv config rt ->
  returns (_strategy_and_queue config bundle rt sym t) (rt_inv config).
Proof.
  intros Hcfg Hinv. unfold _strategy_and_queue.
  match goal with |- context [StrategyEngine.evaluate ?d ?w ?m _ _] =>
    destruct (StrategyEngine.evaluate_verdict d w m t _ (co_strategy _ Hcfg)) as (ev & Hev & _) end.
  rewrite Hev. cbn [mbind res_bind].
  assert (H0 : rt_inv config (set_evaluations rt (rt_evaluations rt ++ [ev]))) by (by destruct Hinv).
  repeat case_match; try (by apply returns_ret).
  apply returns_ret. destruct Hinv as [I1 I2 I3 I4 I5 I6 I7 I8 I9 I10 I11 I12]. constructor; try done; cbn.
  - rewrite fmap_app. apply NoDup_app. split_and!; [done| |apply NoDup_singleton].
    intros s (p & -> & Hp)%list_elem_of_fmap Hs%list_elem_of_singleton. cbn in Hs.
    match goal with H : existsb _ _ = false |- _ => pose proof (RiskEngine.existsb_false _ _ H p Hp) as Hf end.
    apply is_for_spec in Hs. congruence.
  - intros p [Hp|Hp%list_elem_of_singleton]%elem_of_app; [by apply I7|]. subst p. cbn.
    intros Hk%od_get_is_Some. by case_bool_decide.
Qed.

Lemma update_trailing_inv config bundle rt sym candle t :
  config_ok config -> rt_inv config rt ->
  returns (_update_trailing config bundle rt sym candle t) (rt_inv config).
Proof.
  intros Hcfg Hinv. unfold _update_trailing.
  destruct (od_get (rt_positions rt) sym) as [pos|] eqn:Ep; [|by apply returns_ret].
  destruct (slice_closed_candles _ t) as [|c0 l0]; [by apply returns_ret|].
  pose proof Hinv as [I1 I2 I3 I4 I5 I6 I7 I8 I9 I10 I11 I12].
  pose proof (od_get_Forall _ _ _ _ I4 Ep) as [P1 P2 P3 (c & Hc & Ht & Htr) P5].
  cbn [fst snd] in *.
  unfold _get_constraints. rewrite Hc. cbn [or_raise mbind res_bind].
  destruct (update_trailing_stop_inv _ _ (Some (sc_price_tick_size c)) (bc_strategy_params config) _ (c_close candle)
    (trailing_atr rt sym pos) Ht Htr) as (st' & Hst & Htr' & Hle & _).
  unfold compute_trailing_stop_update. match goal with |- context [update_trailing_stop ?s] => change s with (trail_state_of pos) end.
  rewrite Hst. cbn [mbind res_bind].
  apply returns_ret. assert (Hk : sym ∈ od_keys (rt_positions rt)) by (by eapply od_get_Some_keys).
  constructor; try done; cbn; rewrite ?od_keys_set_id by done; try done.
  - apply od_set_Forall; [done|]. constructor; cbn; try done.
    + exists c. split_and!; [done|done|]. destruct Htr' as [T1 T2 T3 T4 T5].
      constructor; cbn; rewrite ?T1; try done. by rewrite T4, T2.
    + etransitivity; [exact P5|exact Hle].
  - rewrite <- od_keys_length, od_keys_set_id, od_keys_length by done. done.
  - intros k p t'. rewrite od_get_set. case_decide as Hks; [|apply I12]. subst k.
    intros [= <-] Hp. by destruct (I12 _ _ _ Ep Hp).
Qed.

(** ** The indices of a day *)

Lemma index_candles_lookup l t i c : index_candles l !! t = Some (i, c) -> c ∈ l /\ c_open_time c = t.
Proof.
  unfold index_candles.
  assert (H : forall (k : list (nat * Candle)) (m : gmap Z (nat * Candle)),
    (forall t i c, m !! t = Some (i, c) -> c ∈ l /\ c_open_time c = t) ->
    (forall ic, ic ∈ k -> ic.2 ∈ l) ->
    forall t i c, fold_left (fun m ic => <[c_open_time ic.2 := ic]> m) k m !! t = Some (i, c) ->
    c ∈ l /\ c_open_time c = t).
  { induction k as [|ic k IH]; cbn; intros m Hm Hk t' i' c'; [apply Hm|].
    apply IH; [|set_solver]. intros t1 i1 c1 [[Ht Hic]|[_ H]]%lookup_insert_Some; [|by eapply Hm].
    subst ic. cbn in Ht. split; [|done]. apply (Hk (i1, c1)). set_solver. }
  apply H; [intros t' i' c' Hl; by rewrite lookup_empty in Hl|].
  intros [j d] (k & Hk)%list_elem_of_lookup. rewrite list_lookup_imap in Hk.
  apply fmap_Some in Hk as (x & Hx & [= <- <-]). by eapply list_elem_of_lookup_2.
Qed.

Lemma index_daily_lookup bundle symbols sym :
  index_daily bundle symbols !! sym =
    if decide (sym ∈ symbols) then Some (index_candles (candles_of (hb_daily bundle) sym)) else None.
Proof.
  unfold index_daily.
  assert (H : forall m : gmap string (gmap Z (nat * Candle)),
    fold_left (fun m sym => <[sym := index_candles (candles_of (hb_daily bundle) sym)]> m) symbols m !! sym =
    if decide (sym ∈ symbols) then Some (index_candles (candles_of (hb_daily bundle) sym)) else m !! sym).
  { induction symbols as [|s l IH]; intros m; cbn [fold_left].
    - by rewrite decide_False by set_solver.
    - rewrite IH. destruct (decide (sym ∈ l)).
      + by rewrite decide_True by set_solver.
      + destruct (decide (sym = s)) as [->|].
        * rewrite lookup_insert_eq. by rewrite decide_True by set_solver.
        * rewrite lookup_insert_ne by done. by rewrite decide_False by set_solver. }
  rewrite H. case_decide; [done|]. apply lookup_empty.
Qed.

Lemma candle_at_elem bundle symbols sym t c :
  candle_at (index_daily bundle symbols) sym t = Some c ->
  c ∈ candles_of (hb_daily bundle) sym /\ c_open_time c = t.
Proof.
  unfold candle_at. rewrite index_daily_lookup. case_decide; cbn.
  - intros ([i c'] & Hl & ->)%fmap_Some. by eapply index_candles_lookup.
  - intros (x & Hl & _)%fmap_Some. by rewrite lookup_empty in Hl.
Qed.

Lemma build_day_candles_get index symbols t sym c :
  od_get (build_day_candles index symbols t) sym = Some c -> candle_at index sym t = Some c.
Proof.
  unfold build_day_candles.
  assert (H : forall d, (forall s c, od_get d s = Some c -> candle_at index s t = Some c) ->
    forall s c, od_get (fold_left (fun d sym =>
      match candle_at index sym t with Some c => od_set d sym c | None => d end) symbols d) s = Some c ->
    candle_at index s t = Some c).
  { induction symbols as [|s0 l IH]; cbn; intros d Hd; [done|]. apply IH.
    destruct (candle_at index s0 t) eqn:E; [|done].
    intros s c'. rewrite od_get_set. case_decide; [intros [= <-]; by subst|by apply Hd]. }
  apply H. by intros.
Qed.

Lemma prior_closes_elem bundle symbols t sym m :
  prior_closes_from_timeline (index_daily bundle symbols) symbols t !! sym = Some m ->
  exists c, c ∈ candles_of (hb_daily bundle) sym /\ c_close c = m.
Proof.
  unfold prior_closes_from_timeline. set (index := index_daily bundle symbols).
  match goal with |- fold_left ?f _ _ !! _ = _ -> _ => set (step := f) end.
  assert (H : forall l (res : gmap string decimal),
    (forall s m, res !! s = Some m -> exists c, c ∈ candles_of (hb_daily bundle) s /\ c_close c = m) ->
    forall s m, fold_left step l res !! s = Some m -> exists c, c ∈ candles_of (hb_daily bundle) s /\ c_close c = m).
  { induction l as [|s0 l IH]; cbn; intros r Hr; [done|]. apply IH. unfold step.
    destruct (latest_before t _) as [pr|]; [|done].
    destruct (default ∅ (index !! s0) !! pr) as [[i c]|] eqn:E; [|done].
    intros s m' [[<- <-]|[_ Hm]]%lookup_insert_Some; [|by apply Hr].
    exists c. split; [|done]. apply (candle_at_elem bundle symbols s0 pr). unfold candle_at. fold index. by rewrite E. }
  apply H. intros s m' Hm. by rewrite lookup_empty in Hm.
Qed.

Lemma day_open_prices_ok bundle symbols t :
  bundle_pos bundle ->
  open_prices_ok (build_day_candles (index_daily bundle symbols) symbols t)
    (prior_closes_from_timeline (index_daily bundle symbols) symbols t).
Proof.
  intros Hb. split.
  - intros sym c Hc%build_day_candles_get. apply candle_at_elem in Hc as [Hc _]. by apply (Hb sym).
  - intros sym m (c & Hc & <-)%prior_closes_elem. by apply (Hb sym).
Qed.

(** ** A day and a run *)

Lemma for_symbols_returns (P : _Runtime -> Prop) symbols day f rt :
  P rt -> (forall rt sym c, sym ∈ symbols -> od_get day sym = Some c -> P rt -> returns (f rt sym c) P) ->
  returns (for_symbols symbols day f rt) P.
Proof.
  intros H0 Hf. unfold for_symbols. apply foldM_returns; [done|].
  intros rt' sym Hs Hrt. destruct (od_get day sym) eqn:E; [by apply Hf|by apply returns_ret].
Qed.

Lemma record_equity_inv config closes t rt : rt_inv config rt -> rt_inv config (record_equity closes t rt).
Proof. intros H. by destruct H. Qed.

Lemma process_day_inv config bundle rt t :
  config_ok config -> bundle_pos bundle -> rt_inv config rt ->
  returns (process_day config bundle (index_daily bundle (bc_symbols config)) rt t) (rt_inv config).
Proof.
  intros Hcfg Hb Hinv. unfold process_day.
  pose proof (day_open_prices_ok bundle (bc_symbols config) t Hb) as Hop.
  destruct (build_day_candles _ _ t) as [|[s0 c0] day] eqn:Ed; [by apply returns_ret|].
  eapply returns_bind.
  { apply for_symbols_returns; [exact Hinv|]. intros rt' sym c Hs _ Hrt. by apply fill_pending_inv. }
  intros rt1 H1. eapply returns_bind.
  { apply for_symbols_returns; [exact H1|]. intros rt' sym c _ _ Hrt.
    eapply returns_mono; [by apply check_stop_exit_inv|]. by intros rt'' [H _]. }
  intros rt2 H2. eapply (returns_bind _ _ (rt_inv config)).
  { destruct (fn_enabled _); [|by apply returns_ret].
    apply for_symbols_returns; [exact H2|]. intros rt' sym c _ _ Hrt. by apply returns_ret, apply_funding_inv. }
  intros rt3 H3. eapply returns_bind.
  { apply for_symbols_returns; [exact H3|]. intros rt' sym c _ _ Hrt. by apply strategy_and_queue_inv. }
  intros rt4 H4. eapply returns_bind.
  { apply for_symbols_returns; [exact H4|]. intros rt' sym c _ _ Hrt. by apply update_trailing_inv. }
  intros rt5 H5. by apply returns_ret, record_equity_inv.
Qed.

Lemma run_days_inv config bundle timeline rt :
  config_ok config -> bundle_pos bundle -> rt_inv config rt ->
  returns (run_days config bundle timeline rt) (rt_inv config).
Proof. intros Hcfg Hb Hinv. apply foldM_returns; [done|]. intros. by apply process_day_inv. Qed.

(** The state of an open position at the end of a run. *)
Definition open_position_ok (p : SimulatedPosition) : Prop :=
  0 < pos_quantity p /\ 0 < pos_entry_price p /\ pos_initial_stop p <= pos_trail_stop p /\
  pos_effective_stop p = dmax (pos_initial_stop p) (pos_trail_stop p).

(** [C2] A backtest always completes, and its result respects the engine's
    rules: no intent is traded twice, at most one position per configured
    symbol and no more positions than the risk parameters allow are open,
    every open position has a positive size, a trailing stop at or above the
    initial one and its own open trade with the same quantity, entry price and
    intent, every closed trade was stopped out by a gap or by its trailing stop
    and its net result is its price difference less fees and funding, and the
    intents of all trades are recorded as processed. *)
Theorem run_correct bundle config :
  config_ok config -> bundle_pos bundle ->
  returns (run bundle config) (fun r =>
    NoDup (bt_client_intent_id <$> br_trades r) /\
    NoDup (pos_symbol <$> br_open_positions r) /\
    (forall p, p ∈ br_open_positions r -> pos_symbol p ∈ bc_symbols config) /\
    (length (br_open_positions r) <= Z.to_nat (rp_max_open_positions (bc_risk_params config)))%nat /\
    Forall open_position_ok (br_open_positions r) /\
    (exists closed opened, br_trades r = closed ++ opened /\ Forall closed_ok closed /\
       Forall2 trade_of (br_open_positions r) opened) /\
    (forall t, t ∈ br_trades r -> bt_client_intent_id t ∈ br_processed_intent_ids r)).
Proof.
  intros Hcfg Hb. unfold run.
  destruct (head _) as [t0|]; [destruct (last _) as [t1|]|].
  2, 3: apply returns_ret; cbn; split_and!; try (by constructor); try set_solver; [lia|exists [], []; by split_and!].
  destruct (run_days_inv config bundle (_build_timeline bundle (bc_symbols config)) (initial_runtime config)
    Hcfg Hb (initial_runtime_inv config)) as (rt & -> & Hinv).
  cbn [mbind res_bind]. apply returns_ret. cbn.
  pose proof (pos_symbols _ _ Hinv) as Hsym. destruct Hinv as [I1 I2 I3 I4 I5 I6 I7 I8 I9 I10 I11 I12].
  split_and!.
  - exact I8.
  - by rewrite Hsym.
  - intros p Hp. apply I3. rewrite <- Hsym. by apply list_elem_of_fmap_2.
  - unfold od_values. by rewrite length_fmap.
  - apply od_values_Forall. eapply Forall_impl; [exact I4|].
    intros [k p] [P1 P2 P3 (c & _ & _ & Htr) P5]. split_and!; try done. apply (ti_effective _ _ _ _ Htr).
  - exists (rt_closed_trades rt), (od_values (rt_active_trades rt)). split_and!; [done|done|].
    by apply od_values_Forall2.
  - intros t Ht. rewrite merge_sort_Permutation. apply elem_of_elements, I9. by apply list_elem_of_fmap_2.
Qed.

(** One symbol, forty rising days after two years of history. *)
Definition shift_candle (days : Z) (c : Candle) : Candle :=
  {| c_symbol := c_symbol c; c_timeframe := c_timeframe c;
     c_open_time := c_open_time c + seconds (86400 * days);
     c_close_time := c_close_time c + seconds (86400 * days);
     c_open := c_open c; c_high := c_high c; c_low := c_low c; c_close := c_close c;
     c_volume := c_volume c; c_is_closed := c_is_closed c |}.

Definition example_daily : list Candle := shift_candle 720 <$> cs_candles (StrategyEngine.rising_series DAILY 1 40).

Definition example_config : BacktestConfig :=
  {| bc_symbols := ["BTC"%string];
     bc_initial_cash := 100000;
     bc_strategy_params := default_strategy_parameters;
     bc_risk_params := default_risk_parameters;
     bc_fee_model := {| fm_entry_fee_rate := 5 # 10000; fm_exit_fee_rate := 5 # 10000 |};
     bc_slippage_model := {| sm_slippage_bps := 5 |};
     bc_funding_model := {| fn_enabled := true; fn_assumed_rate := Some (1 # 10000) |};
     bc_symbol_constraints := {[ "BTC"%string := RiskEngine.example_constraints ]};
     bc_initial_processed_intent_ids := [];
     bc_backtester_version := BACKTESTER_VERSION;
     bc_core_metadata := CORE_ENGINE_METADATA |}.

Definition example_bundle : HistoricalDataBundle :=
  {| hb_daily := {[ "BTC"%string := example_daily ]};
     hb_weekly := {[ "BTC"%string := cs_candles (StrategyEngine.rising_series WEEKLY 7 60) ]};
     hb_monthly := {[ "BTC"%string := cs_candles (StrategyEngine.rising_series MONTHLY 30 24) ]};
     hb_funding := ∅;
     hb_data_quality_warnings := [] |}.

Lemma example_config_ok : config_ok example_config.
Proof.
  split.
  - constructor; cbn; lia.
  - intros sym ->%list_elem_of_singleton. eexists. split; [reflexivity|].
    split; [exists (-3)%Z|exists (-1)%Z]; reflexivity.
Qed.

Lemma example_bundle_pos : bundle_pos example_bundle.
Proof.
  intros sym c Hc. unfold candles_of in Hc. cbn in Hc.
  destruct (decide (sym = "BTC"%string)) as [->|Hne].
  - change (c ∈ example_daily) in Hc. apply list_elem_of_fmap in Hc as (c' & -> & Hc).
    apply list_elem_of_fmap in Hc as (i & -> & _).
    pose proof (d_of_nat_pos (10 + i) ltac:(lia)) as Hpos. split; [done|].
    change (0 < dadd (d_of_nat (10 + i)) (3 # 2)). apply rnd_positive.
    apply (Qlt_le_trans _ (0 + (3 # 2))); [done|].
    apply Qplus_le_compat; [by apply Qlt_le_weak|apply Qle_refl].
  - rewrite lookup_singleton_ne in Hc by done. set_solver.
Qed.

Lemma run_correct_witness :
  returns (run example_bundle example_config) (fun r =>
    NoDup (bt_client_intent_id <$> br_trades r) /\
    NoDup (pos_symbol <$> br_open_positions r) /\
    (forall p, p ∈ br_open_positions r -> pos_symbol p ∈ bc_symbols example_config) /\
    (length (br_open_positions r) <= Z.to_nat (rp_max_open_positions (bc_risk_params example_config)))%nat /\
    Forall open_position_ok (br_open_positions r) /\
    (exists closed opened, br_trades r = closed ++ opened /\ Forall closed_ok closed /\
       Forall2 trade_of (br_open_positions r) opened) /\
    (forall t, t ∈ br_trades r -> bt_client_intent_id t ∈ br_processed_intent_ids r)).
Proof. apply run_correct; [apply example_config_ok|apply example_bundle_pos]. Defined.
