(* ===== verification/BacktestLookahead.v ===== *)
(** * The backtest does not look ahead

    Two bundles that agree on everything known at a time [T] produce the same
    states for the days that end by [T], and the records of those days are
    never changed later.  [logs_le] orders runtimes by their append-only
    records. *)
From Stdlib Require Import ZArith QArith Lia Sorting.Sorted.
From stdpp Require Import base list sets gmap strings sorting.
From S2P Require Import Prelude Decimal StrategyModels Stops RiskModels BtModels BtData BtPortfolio PaperLifecycle.
From S2P Require Import Metrics BacktestEngine BacktestInvariants.

(** ** Agreement up to a time *)

(** A candle is known by [T] when it has opened or closed by then. *)
Definition known (T : datetime) (c : Candle) : bool := (c_open_time c <=? T)%Z || (c_close_time c <=? T)%Z.

Definition candles_agree (T : datetime) (l l' : list Candle) : Prop :=
  List.filter (known T) l = List.filter (known T) l'.

Definition event_known (T : datetime) (e : FundingEvent) : bool := (fe_timestamp e <=? T)%Z.

Record agree_until (T : datetime) (b b' : HistoricalDataBundle) : Prop := {
  au_daily : forall sym, candles_agree T (candles_of (hb_daily b) sym) (candles_of (hb_daily b') sym);
  au_weekly : forall sym, candles_agree T (candles_of (hb_weekly b) sym) (candles_of (hb_weekly b') sym);
  au_monthly : forall sym, candles_agree T (candles_of (hb_monthly b) sym) (candles_of (hb_monthly b') sym);
  au_funding : forall sym,
    List.filter (event_known T) (default [] (hb_funding b !! sym)) =
    List.filter (event_known T) (default [] (hb_funding b' !! sym));
}.

Lemma agree_until_sym T b b' : agree_until T b b' -> agree_until T b' b.
Proof. intros [H1 H2 H3 H4]. constructor; intros sym; symmetry; [apply H1|apply H2|apply H3|apply H4]. Qed.

Lemma filter_filter_sub {A} (f g : A -> bool) l :
  (forall x, f x = true -> g x = true) -> List.filter f l = List.filter f (List.filter g l).
Proof.
  intros H. induction l as [|x l IH]; cbn; [done|].
  destruct (g x) eqn:Eg; cbn; [by rewrite IH|]. destruct (f x) eqn:Ef; [|done]. apply H in Ef. congruence.
Qed.

Lemma candles_agree_filter T f l l' :
  candles_agree T l l' -> (forall c, f c = true -> known T c = true) -> List.filter f l = List.filter f l'.
Proof. intros H Hf. by rewrite (filter_filter_sub f (known T) l Hf), (filter_filter_sub f (known T) l' Hf), H. Qed.

(** The slices the strategy sees at a time up to [T] agree. *)
Lemma slice_agree T t l l' :
  candles_agree T l l' -> (t <= T)%Z -> slice_closed_candles l t = slice_closed_candles l' t.
Proof.
  intros H Ht. apply (candles_agree_filter T); [done|]. intros c. unfold is_closed_by, known.
  intros [_ Hc%Z.leb_le]%andb_true_iff. apply orb_true_iff. right. apply Z.leb_le. lia.
Qed.

(** ** The indices of a day *)

Definition opens_at (t : datetime) (c : Candle) : bool := (c_open_time c =? t)%Z.

Lemma index_candles_snoc l x :
  index_candles (l ++ [x]) = <[c_open_time x := (length l, x)]> (index_candles l).
Proof. unfold index_candles. rewrite imap_app, fold_left_app. cbn. by rewrite Nat.add_0_r. Qed.

Lemma index_candles_last l t : snd <$> index_candles l !! t = last (List.filter (opens_at t) l).
Proof.
  induction l as [|x l IH] using rev_ind; [done|].
  rewrite index_candles_snoc, List.filter_app. cbn. unfold opens_at at 2.
  destruct (Z.eqb_spec (c_open_time x) t) as [<-|Hne].
  - by rewrite lookup_insert_eq, last_snoc.
  - by rewrite lookup_insert_ne, app_nil_r.
Qed.

Lemma candle_at_spec b symbols sym t :
  candle_at (index_daily b symbols) sym t =
    if decide (sym ∈ symbols) then last (List.filter (opens_at t) (candles_of (hb_daily b) sym)) else None.
Proof.
  unfold candle_at. rewrite index_daily_lookup. case_decide; cbn; [apply index_candles_last|].
  by rewrite lookup_empty.
Qed.

Lemma candle_at_agree T b b' symbols sym t :
  agree_until T b b' -> (t <= T)%Z ->
  candle_at (index_daily b symbols) sym t = candle_at (index_daily b' symbols) sym t.
Proof.
  intros H Ht. rewrite !candle_at_spec. case_decide; [|done]. f_equal.
  apply (candles_agree_filter T); [apply H|]. intros c Hc%Z.eqb_eq. unfold known.
  apply orb_true_iff. left. apply Z.leb_le. lia.
Qed.

Lemma fold_left_ext {A B} (f g : A -> B -> A) l a :
  (forall a x, x ∈ l -> f a x = g a x) -> fold_left f l a = fold_left g l a.
Proof.
  revert a. induction l as [|x l IH]; intros a H; cbn; [done|].
  rewrite H by set_solver. apply IH. intros; apply H; set_solver.
Qed.

Lemma build_day_candles_agree T b b' symbols t :
  agree_until T b b' -> (t <= T)%Z ->
  build_day_candles (index_daily b symbols) symbols t = build_day_candles (index_daily b' symbols) symbols t.
Proof.
  intros H Ht. unfold build_day_candles. apply fold_left_ext. intros d sym _.
  by rewrite (candle_at_agree T b b').
Qed.

(** [latest_before] is the greatest key below the bound. *)
Definition is_latest (bound : datetime) (P : Z -> Prop) (r : option datetime) : Prop :=
  match r with
  | Some p => P p /\ (p < bound)%Z /\ forall q, P q -> (q < bound)%Z -> (q <= p)%Z
  | None => forall q, P q -> ~ (q < bound)%Z
  end.

Lemma is_latest_unique bound (P Q : Z -> Prop) r r' :
  (forall q, (q < bound)%Z -> P q <-> Q q) -> is_latest bound P r -> is_latest bound Q r' -> r = r'.
Proof.
  intros HPQ. destruct r as [p|], r' as [q|]; cbn; [| | |done].
  - intros (P1 & P2 & P3) (Q1 & Q2 & Q3). f_equal.
    apply Z.le_antisymm; [apply Q3|apply P3]; try done; by apply HPQ.
  - intros (P1 & P2 & P3) Q1. exfalso. apply (Q1 p); [by apply HPQ|done].
  - intros P1 (Q1 & Q2 & Q3). exfalso. apply (P1 q); [by apply HPQ|done].
Qed.

Lemma latest_before_spec bound times : is_latest bound (fun t => t ∈ times) (latest_before bound times).
Proof.
  unfold latest_before.
  match goal with |- is_latest _ _ (fold_left ?f _ _) => set (step := f) end.
  induction times as [|t times IH] using rev_ind; [intros q Hq; set_solver|].
  rewrite fold_left_app. cbn. set (r := fold_left step times None) in *. unfold step.
  assert (Hin : forall q, q ∈ times ++ [t] <-> q ∈ times \/ q = t) by set_solver.
  destruct (Z.ltb_spec t bound) as [Hb|Hb]; cbn.
  - destruct r as [p|]; cbn in *.
    + destruct IH as (I1 & I2 & I3). destruct (Z.ltb_spec p t); cbn; split_and!; try done.
      1, 3: set_solver.
      all: intros q [Hq| ->]%Hin Hlt; [specialize (I3 q Hq Hlt); lia|lia].
    + split_and!; [set_solver|done|]. intros q [Hq| ->]%Hin Hlt; [by destruct (IH q)|lia].
  - destruct r as [p|]; cbn in *.
    + destruct IH as (I1 & I2 & I3). split_and!; [set_solver|done|].
      intros q [Hq| ->]%Hin Hlt; [by apply I3|lia].
    + intros q [Hq| ->]%Hin; [by apply IH|lia].
Qed.

Lemma prior_closes_agree T b b' symbols t :
  agree_until T b b' -> (t <= T)%Z ->
  prior_closes_from_timeline (index_daily b symbols) symbols t =
  prior_closes_from_timeline (index_daily b' symbols) symbols t.
Proof.
  intros H Ht. unfold prior_closes_from_timeline. apply fold_left_ext. intros res sym _.
  set (m := default ∅ (index_daily b symbols !! sym)). set (m' := default ∅ (index_daily b' symbols !! sym)).
  assert (Hm : forall q, (q < t)%Z -> snd <$> m !! q = snd <$> m' !! q).
  { intros q Hq. apply (candle_at_agree T b b' symbols sym q); [done|lia]. }
  assert (Hl : latest_before t (map_to_list m).*1 = latest_before t (map_to_list m').*1).
  { eapply is_latest_unique; [|apply latest_before_spec..]. intros q Hq. specialize (Hm q Hq).
    rewrite !list_elem_of_fmap. split; intros ([k ic] & -> & Hk%elem_of_map_to_list);
      cbn in *; rewrite Hk in Hm; cbn in Hm; try (symmetry in Hm; apply fmap_Some in Hm as (ic' & Hk' & _));
      try apply fmap_Some in Hm as (ic' & Hk' & _);
      exists (k, ic'); (split; [done|]); by apply elem_of_map_to_list. }
  rewrite <- Hl. pose proof (latest_before_spec t (map_to_list m).*1) as Hs.
  destruct (latest_before t (map_to_list m).*1) as [p|]; [|done]. destruct Hs as (_ & Hp & _).
  specialize (Hm p Hp). destruct (m !! p) as [[i c]|], (m' !! p) as [[i' c']|]; cbn in Hm; by simplify_eq.
Qed.

(** ** The steps of a day *)

Lemma fold_left_filter {A B} (f : A -> B -> A) (p : B -> bool) l a :
  fold_left (fun a x => if p x then f a x else a) l a = fold_left f (List.filter p l) a.
Proof. revert a. induction l as [|x l IH]; intros a; cbn; [done|]. destruct (p x); cbn; apply IH. Qed.

Lemma apply_funding_agree T config b b' rt sym candle :
  agree_until T b b' -> (c_close_time candle <= T)%Z ->
  _apply_funding config b rt sym candle = _apply_funding config b' rt sym candle.
Proof.
  intros H Hc. unfold _apply_funding. destruct (od_get _ sym) as [pos|]; [|done].
  destruct (fn_assumed_rate _); [done|].
  match goal with |- fold_left (fun a x => if in_window _ x then @?f a x else a) _ _ = _ =>
    rewrite !(fold_left_filter f (in_window candle)) end.
  f_equal. assert (Hf : forall e, in_window candle e = true -> event_known T e = true).
  { unfold in_window, event_known. intros e [_ He%Z.leb_le]%andb_true_iff. apply Z.leb_le. lia. }
  by rewrite (filter_filter_sub _ _ (default [] (hb_funding b !! sym)) Hf),
    (filter_filter_sub _ _ (default [] (hb_funding b' !! sym)) Hf), (au_funding _ _ _ H sym).
Qed.

Lemma strategy_and_queue_agree T config b b' rt sym t :
  agree_until T b b' -> (t <= T)%Z ->
  _strategy_and_queue config b rt sym t = _strategy_and_queue config b' rt sym t.
Proof.
  intros H Ht. unfold _strategy_and_queue, build_candle_series.
  by rewrite (slice_agree T t _ _ (au_daily _ _ _ H sym) Ht), (slice_agree T t _ _ (au_weekly _ _ _ H sym) Ht),
    (slice_agree T t _ _ (au_monthly _ _ _ H sym) Ht).
Qed.

Lemma update_trailing_agree T config b b' rt sym candle t :
  agree_until T b b' -> (t <= T)%Z ->
  _update_trailing config b rt sym candle t = _update_trailing config b' rt sym candle t.
Proof.
  intros H Ht. unfold _update_trailing. by rewrite (slice_agree T t _ _ (au_daily _ _ _ H sym) Ht).
Qed.

Lemma for_symbols_ext symbols day f g rt :
  (forall rt sym c, od_get day sym = Some c -> f rt sym c = g rt sym c) ->
  for_symbols symbols day f rt = for_symbols symbols day g rt.
Proof.
  intros H. unfold for_symbols. apply foldM_ext. intros rt' sym _.
  destruct (od_get day sym) eqn:E; [by apply H|done].
Qed.

(** The evaluation of every candle that opens by [D] is over by [T]. *)
Definition days_end_by (D T : datetime) (b : HistoricalDataBundle) : Prop :=
  (D <= T)%Z /\ forall sym c, c ∈ candles_of (hb_daily b) sym -> (c_open_time c <= D)%Z ->
    (evaluation_time_for_daily c <= T)%Z.

Lemma process_day_agree D T config b b' rt t :
  agree_until T b b' -> days_end_by D T b -> (t <= D)%Z ->
  process_day config b (index_daily b (bc_symbols config)) rt t =
  process_day config b' (index_daily b' (bc_symbols config)) rt t.
Proof.
  intros H [HDT Hd] Ht. unfold process_day.
  rewrite <- (build_day_candles_agree T b b'), <- (prior_closes_agree T b b') by (done || lia).
  destruct (build_day_candles _ _ t) as [|[s0 c0] day] eqn:Ed; [done|].
  assert (Hev : forall sym c, od_get ((s0, c0) :: day) sym = Some c -> (evaluation_time_for_daily c <= T)%Z).
  { intros sym c Hc. rewrite <- Ed in Hc. apply build_day_candles_get, candle_at_elem in Hc as [Hin Hop].
    apply (Hd sym c); [done|lia]. }
  assert (H0 : (evaluation_time_for_daily c0 <= T)%Z).
  { apply (Hev s0). cbn. by rewrite decide_True. }
  destruct (for_symbols _ _ (_fill_pending_at_open _ _ _) rt) as [rt1|e]; [|done]. cbn [mbind res_bind].
  destruct (for_symbols _ _ _ rt1) as [rt2|e]; [|done]. cbn [mbind res_bind].
  rewrite (for_symbols_ext _ _ _ (fun rt sym c => Ok (_apply_funding config b' rt sym c))).
  2: { intros rt' sym c Hc. f_equal. apply (apply_funding_agree T); [done|].
       specialize (Hev sym c Hc). unfold evaluation_time_for_daily, seconds in Hev. lia. }
  destruct (if fn_enabled _ then _ else _) as [rt3|e]; [|done]. cbn [mbind res_bind].
  rewrite (for_symbols_ext _ _ _ (fun rt sym c => _strategy_and_queue config b' rt sym (evaluation_time_for_daily c))).
  2: { intros rt' sym c Hc. apply (strategy_and_queue_agree T); [done|]. by apply (Hev sym). }
  destruct (for_symbols _ _ _ rt3) as [rt4|e]; [|done]. cbn [mbind res_bind].
  rewrite (for_symbols_ext _ _ _ (fun rt sym c => _update_trailing config b' rt sym c (evaluation_time_for_daily c0)));
    [done|].
  intros rt' sym c Hc. by apply (update_trailing_agree T).
Qed.

(** ** The timeline *)

Definition day_by (D : datetime) (t : datetime) : bool := (t <=? D)%Z.

Lemma elem_of_timeline b symbols t :
  t ∈ _build_timeline b symbols <->
  exists sym c, sym ∈ symbols /\ c ∈ candles_of (hb_daily b) sym /\ c_open_time c = t.
Proof.
  unfold _build_timeline. rewrite merge_sort_Permutation, elem_of_elements, elem_of_list_to_set.
  rewrite list_elem_of_In, in_concat. split.
  - intros (l & (sym & -> & Hs)%list_elem_of_In%list_elem_of_fmap & (c & -> & Hc)%list_elem_of_In%list_elem_of_fmap).
    by exists sym, c.
  - intros (sym & c & Hs & Hc & <-). exists (c_open_time <$> candles_of (hb_daily b) sym).
    split; apply list_elem_of_In.
    + by apply (list_elem_of_fmap_2 (fun sym => c_open_time <$> candles_of (hb_daily b) sym)).
    + by apply list_elem_of_fmap_2.
Qed.

Lemma timeline_sorted b symbols : StronglySorted Z.le (_build_timeline b symbols).
Proof. unfold _build_timeline. apply (StronglySorted_merge_sort Z.le). Qed.

Lemma timeline_NoDup b symbols : NoDup (_build_timeline b symbols).
Proof. unfold _build_timeline. rewrite merge_sort_Permutation. apply NoDup_elements. Qed.

Lemma sorted_split D l :
  StronglySorted Z.le l -> l = List.filter (day_by D) l ++ List.filter (fun t => negb (day_by D t)) l.
Proof.
  induction 1 as [|t l Hl IH Ht]; cbn; [done|].
  destruct (day_by D t) eqn:E; cbn; [f_equal; exact IH|]. apply Z.leb_gt in E.
  assert (Hnil : List.filter (day_by D) l = []).
  { clear IH Hl. induction Ht as [|x l Hx _ IHl]; cbn; [done|].
    unfold day_by at 1. destruct (Z.leb_spec x D); [lia|done]. }
  rewrite Hnil. cbn. f_equal. by rewrite Hnil in IH.
Qed.

Lemma filter_sorted (f : Z -> bool) l : StronglySorted Z.le l -> StronglySorted Z.le (List.filter f l).
Proof.
  induction 1 as [|t l Hl IH Ht]; cbn; [constructor|]. destruct (f t); [|done]. constructor; [done|].
  rewrite Forall_forall in *. intros x [Hx _]%elem_of_filter_bool. by apply Ht.
Qed.

Lemma filter_NoDup {A} (f : A -> bool) l : NoDup l -> NoDup (List.filter f l).
Proof.
  intros H. rewrite <- (list_fmap_id (List.filter f l)). apply NoDup_fmap_filter. by rewrite list_fmap_id.
Qed.

Lemma known_days_sub T b b' symbols t :
  agree_until T b b' -> (t <= T)%Z -> t ∈ _build_timeline b symbols -> t ∈ _build_timeline b' symbols.
Proof.
  intros H Ht. rewrite !elem_of_timeline. intros (sym & c & Hs & Hc & Ho). exists sym, c. split_and!; [done| |done].
  assert (Hk : c ∈ List.filter (known T) (candles_of (hb_daily b) sym)).
  { apply elem_of_filter_bool. split; [done|]. unfold known. apply orb_true_iff. left. apply Z.leb_le. lia. }
  rewrite (au_daily _ _ _ H sym) in Hk. by apply elem_of_filter_bool in Hk as [? _].
Qed.

Lemma timeline_agree D T b b' symbols :
  agree_until T b b' -> (D <= T)%Z ->
  List.filter (day_by D) (_build_timeline b symbols) = List.filter (day_by D) (_build_timeline b' symbols).
Proof.
  intros H HD. apply (StronglySorted_unique Z.le); [apply filter_sorted, timeline_sorted..|].
  apply NoDup_Permutation; [apply filter_NoDup, timeline_NoDup..|].
  intros t. rewrite !elem_of_filter_bool. unfold day_by. rewrite Z.leb_le.
  split; intros [Hin Ht]; (split; [|done]).
  - apply (known_days_sub T b b'); [done|lia|done].
  - apply (known_days_sub T b' b); [by apply agree_until_sym|lia|done].
Qed.

(** ** Records are only appended to *)

Record logs_le (r r' : _Runtime) : Prop := {
  lo_evaluations : rt_evaluations r `prefix_of` rt_evaluations r';
  lo_closed : rt_closed_trades r `prefix_of` rt_closed_trades r';
  lo_rejections : rt_rejections r `prefix_of` rt_rejections r';
  lo_equity : rt_equity_curve r `prefix_of` rt_equity_curve r';
}.

#[export] Instance logs_le_preorder : PreOrder logs_le.
Proof.
  split.
  - intros r. by constructor.
  - intros r1 r2 r3 [A1 A2 A3 A4] [B1 B2 B3 B4]. constructor; by etransitivity.
Qed.

(** An operation that only touches the other fields, or appends to a record. *)
Ltac logs := constructor; cbn; first [reflexivity | by apply prefix_app_r].

Lemma check_stop_exit_logs rt config sym candle b rt' :
  _check_stop_exit rt config sym candle b = Ok rt' -> logs_le rt rt'.
Proof.
  unfold _check_stop_exit. destruct (od_get _ sym); [|by intros [= <-]].
  destruct (exit_trigger _ _ _); [|by intros [= <-]].
  intros (x & _ & (rt1 & H1 & [= <-])%bind_ok)%bind_ok.
  transitivity rt1; [|logs]. destruct (od_get _ sym); [|injection H1 as <-; logs].
  apply bind_ok in H1 as (r & _ & [= <-]). logs.
Qed.

Lemma reject_intent_logs rt candle sym i codes : logs_le rt (reject_intent rt candle sym i codes).
Proof. logs. Qed.

Lemma fill_intent_logs config sym candle day prior rt i rt' :
  fill_intent config sym candle day prior rt i = Ok rt' -> logs_le rt rt'.
Proof.
  unfold fill_intent. case_bool_decide as Hid; [by intros [= <-]|].
  intros (c & _ & (r & _ & (d & _ & H)%bind_ok)%bind_ok)%bind_ok.
  destruct (rd_approved d), (rd_rounded_quantity d); try (injection H as <-; apply reject_intent_logs).
  apply bind_ok in H as (a & _ & H). case_if; [injection H as <-; apply reject_intent_logs|].
  etransitivity; [|by eapply check_stop_exit_logs]. logs.
Qed.

(** A loop of such operations appends too. *)
Lemma foldM_logs {A} (f : _Runtime -> A -> res _Runtime) l rt rt' :
  (forall rt a rt', f rt a = Ok rt' -> logs_le rt rt') -> foldM f l rt = Ok rt' -> logs_le rt rt'.
Proof.
  intros Hf. apply (foldM_inv f (logs_le rt)); [reflexivity|].
  intros s a s' _ Hs H. etransitivity; [exact Hs|by eapply Hf].
Qed.

Lemma for_symbols_logs symbols day f rt rt' :
  (forall rt sym c rt', f rt sym c = Ok rt' -> logs_le rt rt') ->
  for_symbols symbols day f rt = Ok rt' -> logs_le rt rt'.
Proof.
  intros Hf. apply foldM_logs. intros r sym r'. destruct (od_get day sym); [apply Hf|by intros [= <-]].
Qed.

Lemma apply_funding_logs config b rt sym candle : logs_le rt (_apply_funding config b rt sym candle).
Proof.
  assert (Hpay : forall rt p, logs_le rt (pay_funding sym rt p)).
  { intros r p. unfold pay_funding. destruct (od_get _ sym); logs. }
  unfold _apply_funding. destruct (od_get _ sym); [|reflexivity]. destruct (fn_assumed_rate _); [apply Hpay|].
  generalize rt. induction (default [] _) as [|e l IH]; intros r; cbn; [reflexivity|].
  etransitivity; [|apply IH]. case_if; [apply Hpay|reflexivity].
Qed.

Lemma strategy_and_queue_logs config b rt sym t rt' :
  _strategy_and_queue config b rt sym t = Ok rt' -> logs_le rt rt'.
Proof.
  unfold _strategy_and_queue. intros (ev & _ & H)%bind_ok.
  repeat case_match; injection H as <-; logs.
Qed.

Lemma update_trailing_logs config b rt sym candle t rt' :
  _update_trailing config b rt sym candle t = Ok rt' -> logs_le rt rt'.
Proof.
  unfold _update_trailing. destruct (od_get _ sym); [|by intros [= <-]].
  destruct (slice_closed_candles _ t); [by intros [= <-]|].
  intros (cs & _ & (u & _ & [= <-])%bind_ok)%bind_ok. logs.
Qed.

Lemma process_day_logs config b index rt t rt' :
  process_day config b index rt t = Ok rt' -> logs_le rt rt'.
Proof.
  unfold process_day. destruct (build_day_candles _ _ _) as [|[s c] day]; [by intros [= <-]|].
  intros (r1 & H1 & (r2 & H2 & (r3 & H3 & (r4 & H4 & (r5 & H5 & [= <-])%bind_ok)%bind_ok)%bind_ok)%bind_ok)%bind_ok.
  transitivity r1.
  { eapply for_symbols_logs; [|exact H1]. intros r sym c' r' Hr.
    apply (foldM_logs _ _ _ _ (fill_intent_logs _ _ _ _ _)) in Hr. etransitivity; [|exact Hr]. logs. }
  transitivity r2; [eapply for_symbols_logs; [|exact H2]; intros r sym c' r' Hr; exact (check_stop_exit_logs _ _ _ _ _ _ Hr)|].
  transitivity r3.
  { case_if; [|by injection H3 as <-]. eapply for_symbols_logs; [|exact H3].
    intros r sym c' r' [= <-]. apply apply_funding_logs. }
  transitivity r4; [eapply for_symbols_logs; [|exact H4]; intros r sym c' r' Hr; exact (strategy_and_queue_logs _ _ _ _ _ _ Hr)|].
  transitivity r5; [eapply for_symbols_logs; [|exact H5]; intros r sym c' r' Hr; exact (update_trailing_logs _ _ _ _ _ _ _ Hr)|].
  logs.
Qed.

Lemma run_days_logs config b days rt rt' : run_days config b days rt = Ok rt' -> logs_le rt rt'.
Proof. apply foldM_logs, process_day_logs. Qed.

(** ** The property *)

(** [h] is a state of the run that produced [r]: its records are the first
    records of the result. *)
Record history_of (h : _Runtime) (r : BacktestResult) : Prop := {
  hi_evaluations : rt_evaluations h `prefix_of` br_strategy_evaluations r;
  hi_trades : rt_closed_trades h `prefix_of` br_trades r;
  hi_rejections : rt_rejections h `prefix_of` br_risk_rejections r;
  hi_equity : rt_equity_curve h `prefix_of` br_equity_curve r;
}.

Lemma run_history D config b r :
  run b config = Ok r ->
  exists h, run_days config b (List.filter (day_by D) (_build_timeline b (bc_symbols config)))
    (initial_runtime config) = Ok h /\ history_of h r.
Proof.
  unfold run. pose proof (sorted_split D _ (timeline_sorted b (bc_symbols config))) as Hsplit.
  set (days := List.filter _ _) in *. set (tl := _build_timeline b _) in *.
  destruct (head tl) as [t0|] eqn:Eh; [destruct (last tl) as [t1|] eqn:El|].
  2: { apply last_None in El. by rewrite El in Eh. }
  2: { intros [= <-]. assert (days = []) as ->.
       { destruct tl; [|done]. by symmetry in Hsplit; apply app_nil in Hsplit as [-> _]. }
       exists (initial_runtime config). split; [done|]. constructor; cbn; reflexivity. }
  intros (rt & Hrun & [= <-])%bind_ok. rewrite Hsplit in Hrun. unfold run_days in Hrun.
  rewrite foldM_app in Hrun. apply bind_ok in Hrun as (h & Hh & Hrest).
  exists h. split; [exact Hh|]. apply run_days_logs in Hrest as [L1 L2 L3 L4]. constructor; cbn; try done.
  by apply prefix_app_r.
Qed.


(** The history of the example, and the one without its last ten days. *)
Definition example_bundle_short : HistoricalDataBundle :=
  {| hb_daily := {[ "BTC"%string := take 30 example_daily ]};
     hb_weekly := hb_weekly example_bundle;
     hb_monthly := hb_monthly example_bundle;
     hb_funding := ∅;
     hb_data_quality_warnings := [] |}.

Lemma candles_of_btc l sym : sym <> "BTC"%string -> candles_of {[ "BTC"%string := l ]} sym = [].
Proof. intros H. unfold candles_of. by rewrite lookup_singleton_ne. Qed.

Lemma candles_of_btc_eq l : candles_of {[ "BTC"%string := l ]} "BTC" = l.
Proof. unfold candles_of. by rewrite lookup_singleton_eq. Qed.

(** Two histories of the example symbol that agree on its candles. *)
Lemma candles_agree_btc T l l' sym :
  candles_agree T l l' -> candles_agree T (candles_of {[ "BTC"%string := l ]} sym) (candles_of {[ "BTC"%string := l' ]} sym).
Proof.
  intros H. destruct (decide (sym = "BTC"%string)) as [->|Hne].
  - by rewrite !candles_of_btc_eq.
  - by rewrite !candles_of_btc.
Qed.

