(* ===== verification/EventFairness.v ===== *)
(** * Event fairness (services/paper_trading/event_fairness.py)

    Market events are grouped by class and candle; a poll visits the eligible
    groups from a rotating cursor, and a group that was deferred waits with an
    exponential backoff.  The loop of [process_after_poll] (market_events.py)
    that visits the groups is in PaperBridge; here a poll is the number of
    groups it visited. *)
From Stdlib Require Import ZArith Lia Strings.String.
From stdpp Require Import base list sets gmap strings sorting.
From S2P Require Import Prelude StrategyModels BtData.

(** ** Definitions *)

(** The protocol of the events the scheduling is about. *)
Class FairnessEvent (E : Type) := {
  fe_event_type : E -> string;
  fe_symbol : E -> string;
  fe_candle_open_time : E -> datetime;
}.

Definition DEFAULT_MIN_RETRY_INTERVAL_SECONDS : Z := 1.
Definition MAX_RETRY_INTERVAL_SECONDS : Z := 30.

(** [_SYMBOL_ORDER.get(symbol, 99)]. *)
Definition symbol_order (symbol : string) : nat :=
  if decide (symbol = "BTC"%string) then 0 else if decide (symbol = "ETH"%string) then 1
  else if decide (symbol = "SOL"%string) then 2 else 99.

(** [_EVENT_ORDER.get(event_type, 99)]. *)
Definition event_order (event_type : string) : nat :=
  if decide (event_type = "DAILY_OPEN_AVAILABLE"%string) then 0
  else if decide (event_type = "DAILY_LIVE_UPDATE"%string) then 1
  else if decide (event_type = "DAILY_CLOSED"%string) then 2
  else if decide (event_type = "WEEKLY_CLOSED"%string) then 3
  else if decide (event_type = "MONTHLY_CLOSED"%string) then 4 else 99.

(** [strftime("%Y%m%dT%H%M%SZ")]. *)
Definition _compact_timestamp (t : datetime) : string :=
  let s := (t / 1000000)%Z in
  let '(y, m, d) := civil_from_days (s / 86400) in
  let tod := (s mod 86400)%Z in
  (pad_digits 4 y ++ pad_digits 2 m ++ pad_digits 2 d ++ "T" ++ pad_digits 2 (tod / 3600) ++
   pad_digits 2 (tod / 60 mod 60) ++ pad_digits 2 (tod mod 60) ++ "Z")%string.

Record MarketEventGroupState := {
  gs_group_key : string;
  gs_event_type : string;
  gs_group_time : datetime;
  gs_next_attempt_at : datetime;
  gs_defer_count : Z;
}.

Section Groups.
Context {E : Type} `{FairnessEvent E}.

Definition market_event_group_key (event : E) : string :=
  (fe_event_type event ++ ":" ++ _compact_timestamp (fe_candle_open_time event))%string.

(** Sorting keys are compared lexicographically. *)
Definition symbol_le (a b : E) : Prop :=
  symbol_order (fe_symbol a) < symbol_order (fe_symbol b) \/
  (symbol_order (fe_symbol a) = symbol_order (fe_symbol b) /\ String.le (fe_symbol a) (fe_symbol b)).

#[global] Instance symbol_le_dec : RelDecision symbol_le.
Proof. intros a b. apply _. Defined.

Definition sort_group (events : list E) : list E := merge_sort symbol_le events.

Definition add_to_group (grouped : list (string * list E)) (event : E)
    : list (string * list E) :=
  let key := market_event_group_key event in
  od_set grouped key (default [] (od_get grouped key) ++ [event]).

Definition group_events (candidates : list E) : list (string * list E) :=
  prod_map id sort_group <$> fold_left add_to_group candidates [].

(** The class and time of a group are those of its first event. *)
Definition group_rank (group : string * list E) : nat :=
  match group.2 with e :: _ => event_order (fe_event_type e) | [] => 99 end.
Definition group_time (group : string * list E) : datetime :=
  match group.2 with e :: _ => fe_candle_open_time e | [] => 0%Z end.

Definition group_le (a b : string * list E) : Prop :=
  group_rank a < group_rank b \/
  (group_rank a = group_rank b /\
    ((group_time a < group_time b)%Z \/ (group_time a = group_time b /\ String.le a.1 b.1))).

#[global] Instance group_le_dec : RelDecision group_le.
Proof. intros a b. apply _. Defined.

Definition ordered_group_keys (groups : list (string * list E)) : list string :=
  (merge_sort group_le groups).*1.
End Groups.

Definition group_eligible (evaluation_time : datetime) (group_states : list (string * MarketEventGroupState))
    (key : string) : bool :=
  match od_get group_states key with
  | None => true
  | Some state => (gs_next_attempt_at state <=? evaluation_time)%Z
  end.

Definition eligible_group_keys (group_keys : list string) (evaluation_time : datetime)
    (group_states : list (string * MarketEventGroupState)) : list string :=
  List.filter (group_eligible evaluation_time group_states) group_keys.

Definition compute_retry_backoff_seconds (defer_count : Z) : Z :=
  let bounded := Z.min (Z.max defer_count 1) 5 in
  let multiplier := (DEFAULT_MIN_RETRY_INTERVAL_SECONDS * 2 ^ (bounded - 1))%Z in
  Z.min MAX_RETRY_INTERVAL_SECONDS multiplier.

Definition next_retry_at (evaluation_time : datetime) (defer_count : Z) : datetime :=
  (evaluation_time + seconds (compute_retry_backoff_seconds defer_count))%Z.

Definition advance_group_rotation_cursor (cursor eligible_group_count groups_rotated : Z) (had_deferred : bool) : Z :=
  if (eligible_group_count <=? 0)%Z then cursor
  else if had_deferred then ((cursor + 1) mod eligible_group_count)%Z
  else if (groups_rotated <=? 0)%Z then cursor
  else ((cursor + groups_rotated) mod eligible_group_count)%Z.

(** ** Backoff *)

(** The retry delay doubles with the number of deferrals from one second
    up to sixteen, so a deferred group is retried within sixteen seconds and
    the configured maximum of thirty is never reached. *)
Theorem backoff_bounds count :
  (1 <= compute_retry_backoff_seconds count <= 16)%Z /\
  (1 <= count <= 5 -> compute_retry_backoff_seconds count = 2 ^ (count - 1))%Z /\
  (compute_retry_backoff_seconds count <= compute_retry_backoff_seconds (count + 1))%Z /\
  (compute_retry_backoff_seconds count < MAX_RETRY_INTERVAL_SECONDS)%Z.
Proof.
  unfold compute_retry_backoff_seconds, DEFAULT_MIN_RETRY_INTERVAL_SECONDS, MAX_RETRY_INTERVAL_SECONDS.
  assert (Hc : forall c : Z, (Z.min (Z.max c 1) 5 = 1 \/ Z.min (Z.max c 1) 5 = 2 \/ Z.min (Z.max c 1) 5 = 3 \/
    Z.min (Z.max c 1) 5 = 4 \/ Z.min (Z.max c 1) 5 = 5)%Z) by lia.
  assert (Hm : (Z.min (Z.max count 1) 5 <= Z.min (Z.max (count + 1) 1) 5)%Z) by lia.
  split_and!.
  1, 2, 5: destruct (Hc count) as [->|[->|[->|[->| ->]]]]; cbn; lia.
  - intros H. replace (Z.min (Z.max count 1) 5) with count by lia.
    assert (count = 1 \/ count = 2 \/ count = 3 \/ count = 4 \/ count = 5)%Z as [->|[->|[->|[->| ->]]]] by lia; reflexivity.
  - apply Z.min_le_compat_l. rewrite !Z.mul_1_l. apply Z.pow_le_mono_r; lia.
Qed.

(** ** Grouping *)

Section GroupLaws.
Context {E : Type} `{FairnessEvent E}.

Lemma sort_group_Permutation l : sort_group l ≡ₚ l.
Proof. apply merge_sort_Permutation. Qed.

#[local] Opaque sort_group.

(** Every group holds events of its key. *)
Definition keyed (g : string * list E) : Prop := Forall (fun e => market_event_group_key e = g.1) g.2.

Lemma od_get_app_perm (d : list (string * list E)) k e :
  concat (od_values (od_set d k (default [] (od_get d k) ++ [e]))) ≡ₚ concat (od_values d) ++ [e].
Proof.
  unfold od_values. induction d as [|[k' l] d IH]; cbn; [done|]. case_decide as Hk; cbn.
  - rewrite <- app_assoc, <- app_assoc. by rewrite (Permutation_app_comm [e]).
  - by rewrite IH, app_assoc.
Qed.

Lemma group_fold_inv l d :
  NoDup (od_keys d) -> Forall keyed d -> 
  let d' := fold_left add_to_group l d in
  NoDup (od_keys d') /\ Forall keyed d' /\ concat (od_values d') ≡ₚ concat (od_values d) ++ l.
Proof.
  revert d. induction l as [|e l IH]; intros d Hd Hk; cbn; [by rewrite app_nil_r|].
  destruct (IH (add_to_group d e)) as (H1 & H2 & H3).
  - by apply od_keys_set_NoDup.
  - apply od_set_Forall; [done|]. unfold keyed. cbn. apply Forall_app. split; [|by constructor].
    destruct (od_get d _) as [v|] eqn:Hv; cbn; [|constructor].
    by apply (od_get_Forall _ _ _ _ Hk Hv).
  - split_and!; [done|done|]. rewrite H3. unfold add_to_group. rewrite od_get_app_perm. by rewrite <- app_assoc.
Qed.

(** Grouping loses no event: the groups are a partition of the candidates by
    key, and the visiting order lists every group once. *)
Lemma groups_partition candidates :
  let groups := group_events candidates in
  NoDup (od_keys groups) /\ Forall keyed groups /\ concat (od_values groups) ≡ₚ candidates /\
  ordered_group_keys groups ≡ₚ od_keys groups.
Proof.
  intros groups. destruct (group_fold_inv candidates []) as (H1 & H2 & H3); [constructor|constructor|].
  unfold groups, group_events. set (d := fold_left add_to_group candidates []) in *.
  assert (Hk : od_keys (prod_map id sort_group <$> d) = od_keys d).
  { unfold od_keys. rewrite <- list_fmap_compose. apply list_fmap_ext. by intros ? [? ?] _. }
  split_and!.
  - by rewrite Hk.
  - apply Forall_fmap. eapply Forall_impl; [exact H2|]. intros [k l] Hl. unfold keyed in *. cbn in *.
    by rewrite sort_group_Permutation.
  - rewrite <- H3. cbn. unfold od_values. clear. induction d as [|[k l] d IH]; cbn; [done|].
    by rewrite sort_group_Permutation, IH.
  - unfold ordered_group_keys, od_keys. by rewrite merge_sort_Permutation.
Qed.
(** A group holds candidates only. *)
Lemma group_candidates candidates key events e :
  od_get (group_events candidates) key = Some events -> e ∈ events -> e ∈ candidates.
Proof.
  intros Hg He. destruct (groups_partition candidates) as (_ & _ & Hp & _). rewrite <- Hp.
  apply list_elem_of_In, in_concat. exists events. split; apply list_elem_of_In; [by eapply od_get_values|done].
Qed.
End GroupLaws.

(** ** Rotation *)

(** A poll visited [po_rotated] groups from its start and may have deferred. *)
Record Poll := {
  po_rotated : Z;
  po_deferred : bool;
}.

Fixpoint cursors (n : Z) (c : Z) (polls : list Poll) : list (Z * Poll) :=
  match polls with
  | [] => []
  | p :: polls' => (c, p) :: cursors n (advance_group_rotation_cursor c n (po_rotated p) (po_deferred p)) polls'
  end.

(** The loop visits [(start + offset) mod n] for the first offsets. *)
Definition visited (n : Z) (cp : Z * Poll) (g : Z) : Prop :=
  exists i, (0 <= i < po_rotated cp.2)%Z /\ g = ((cp.1 mod n + i) mod n)%Z.

Lemma advance_step n c p :
  (0 < n)%Z -> (1 <= po_rotated p)%Z ->
  exists a, (1 <= a <= po_rotated p)%Z /\
    advance_group_rotation_cursor c n (po_rotated p) (po_deferred p) = ((c + a) mod n)%Z.
Proof.
  intros Hn Hp. unfold advance_group_rotation_cursor. destruct (Z.leb_spec n 0); [lia|].
  destruct (po_deferred p); [exists 1%Z; split; [lia|done]|]. destruct (Z.leb_spec (po_rotated p) 0); [lia|].
  exists (po_rotated p). split; [lia|done].
Qed.

(** The polls visit the groups from the cursor on without a gap. *)
Lemma polls_visit n c polls j :
  (0 < n)%Z -> Forall (fun p => (1 <= po_rotated p)%Z) polls ->
  (0 <= j < Z.of_nat (length polls))%Z ->
  exists cp, cp ∈ cursors n c polls /\ visited n cp ((c + j) mod n).
Proof.
  intros Hn Hp. revert c j. induction Hp as [|p polls Hp1 Hp IH]; intros c j Hj; [cbn in Hj; lia|].
  cbn [length] in Hj. rewrite Nat2Z.inj_succ in Hj. cbn [cursors].
  destruct (decide (j < po_rotated p)%Z) as [Hlt|Hge].
  - exists (c, p). split; [left|]. exists j. split; [cbn; lia|]. cbn. by rewrite Zplus_mod_idemp_l.
  - destruct (advance_step n c p Hn Hp1) as (a & Ha & ->).
    destruct (IH ((c + a) mod n)%Z (j - a)%Z) as (cp & Hin & Hv); [lia|]. exists cp. split; [by right|].
    rewrite Zplus_mod_idemp_l in Hv. by replace (c + a + (j - a))%Z with (c + j)%Z in Hv by lia.
Qed.

(** No group starves: as long as the same [n] groups are eligible and
    every poll visits at least one, every group is visited within [n] polls,
    whichever of them were deferred. *)
Theorem rotation_fair n c polls g :
  (0 < n)%Z -> Forall (fun p => (1 <= po_rotated p)%Z) polls -> (Z.of_nat (length polls) = n)%Z ->
  (0 <= g < n)%Z ->
  exists cp, cp ∈ cursors n c polls /\ visited n cp g.
Proof.
  intros Hn Hp Hlen Hg. destruct (polls_visit n c polls ((g - c) mod n) Hn Hp) as (cp & Hin & Hv).
  { rewrite Hlen. apply Z.mod_pos_bound. lia. }
  exists cp. split; [done|]. rewrite Zplus_mod_idemp_r in Hv.
  replace (c + (g - c))%Z with g in Hv by lia. by rewrite Z.mod_small in Hv by lia.
Qed.

Lemma rotation_fair_witness :
  let p := {| po_rotated := 1; po_deferred := true |} in
  (cursors 3 7 [p; p; p]).*1 = [7; 2; 0]%Z /\ exists cp, cp ∈ cursors 3 7 [p; p; p] /\ visited 3 cp 0.
Proof.
  intros p. split; [vm_compute; reflexivity|].
  apply rotation_fair; [lia|repeat constructor; cbn; lia|done|lia].
Defined.
