(* ===== verification/PaperModels.v ===== *)
(** * Paper trading data (services/paper_trading/enums.py, models.py, config.py, db/orm.py)

    The enums, the domain records and the database.  A row and the domain
    record made of it have the same fields, so one record stands for both; the
    validators of the domain record run when a row is read
    ([position_row_to_domain] and the like, in PaperRepository).  The store is
    the database of the program: one list per table in insertion order, a
    dictionary by primary key for the group states of the events, and the
    singleton rows.  Amounts are kept as they are
    written: a column NUMERIC(38, 18) is exact for values of at most eighteen
    fractional digits, and the rounding of other values is not modelled. *)
From Stdlib Require Import ZArith QArith.
From stdpp Require Import base list gmap strings.
From S2P Require Import Prelude Decimal StrategyModels EventFairness.

(** ** Enums *)

Inductive RuntimeStatus :=
  | RS_STOPPED | RS_STARTING | RS_RECOVERING | RS_SYNCING | RS_READY
  | RS_DEGRADED | RS_PAUSED | RS_KILLED | RS_SHUTTING_DOWN | RS_FAILED.

Inductive TradeIntentStatus :=
  | IS_CREATED | IS_APPROVED | IS_SCHEDULED | IS_SUBMITTED_TO_PAPER_ENGINE | IS_PARTIALLY_FILLED
  | IS_FILLED | IS_CANCELLED | IS_REJECTED | IS_EXPIRED | IS_FAILED.

Inductive PaperOrderStatus :=
  | PO_PENDING | PO_OPEN | PO_PARTIALLY_FILLED | PO_FILLED | PO_CANCELLED | PO_REJECTED | PO_EXPIRED.

Inductive PaperPositionStatus := PP_OPEN | PP_CLOSING | PP_CLOSED.
Inductive PaperOrderType := MARKET_AT_OPEN | STOP_MARKET.
Inductive PaperSide := PS_LONG.
Inductive PaperFillKind := FK_ENTRY | FK_EXIT.
Inductive SignalType := ST_BREAKOUT | ST_PULLBACK.
Inductive KillSwitchClosePolicy := FREEZE | CLOSE_AT_NEXT_OPEN.
Inductive SchedulerRunStatus := SR_PENDING | SR_RUNNING | SR_COMPLETED | SR_FAILED | SR_SKIPPED.

#[export] Instance RuntimeStatus_eq_dec : EqDecision RuntimeStatus.
Proof. solve_decision. Defined.
#[export] Instance TradeIntentStatus_eq_dec : EqDecision TradeIntentStatus.
Proof. solve_decision. Defined.
#[export] Instance PaperOrderStatus_eq_dec : EqDecision PaperOrderStatus.
Proof. solve_decision. Defined.
#[export] Instance PaperPositionStatus_eq_dec : EqDecision PaperPositionStatus.
Proof. solve_decision. Defined.
#[export] Instance PaperSide_eq_dec : EqDecision PaperSide.
Proof. solve_decision. Defined.
#[export] Instance PaperFillKind_eq_dec : EqDecision PaperFillKind.
Proof. solve_decision. Defined.
#[export] Instance SignalType_eq_dec : EqDecision SignalType.
Proof. solve_decision. Defined.
#[export] Instance KillSwitchClosePolicy_eq_dec : EqDecision KillSwitchClosePolicy.
Proof. solve_decision. Defined.
#[export] Instance SchedulerRunStatus_eq_dec : EqDecision SchedulerRunStatus.
Proof. solve_decision. Defined.

(** The values of the string enums, as messages and payloads show them. *)
Definition runtime_status_value (s : RuntimeStatus) : string :=
  match s with
  | RS_STOPPED => "STOPPED" | RS_STARTING => "STARTING" | RS_RECOVERING => "RECOVERING"
  | RS_SYNCING => "SYNCING" | RS_READY => "READY" | RS_DEGRADED => "DEGRADED" | RS_PAUSED => "PAUSED"
  | RS_KILLED => "KILLED" | RS_SHUTTING_DOWN => "SHUTTING_DOWN" | RS_FAILED => "FAILED"
  end.

Definition intent_status_value (s : TradeIntentStatus) : string :=
  match s with
  | IS_CREATED => "CREATED" | IS_APPROVED => "APPROVED" | IS_SCHEDULED => "SCHEDULED"
  | IS_SUBMITTED_TO_PAPER_ENGINE => "SUBMITTED_TO_PAPER_ENGINE" | IS_PARTIALLY_FILLED => "PARTIALLY_FILLED"
  | IS_FILLED => "FILLED" | IS_CANCELLED => "CANCELLED" | IS_REJECTED => "REJECTED"
  | IS_EXPIRED => "EXPIRED" | IS_FAILED => "FAILED"
  end.

Definition order_status_value (s : PaperOrderStatus) : string :=
  match s with
  | PO_PENDING => "PENDING" | PO_OPEN => "OPEN" | PO_PARTIALLY_FILLED => "PARTIALLY_FILLED"
  | PO_FILLED => "FILLED" | PO_CANCELLED => "CANCELLED" | PO_REJECTED => "REJECTED" | PO_EXPIRED => "EXPIRED"
  end.

(** ** Domain records *)

Definition UUID := string.

(** The values of a JSON column. *)
Inductive json :=
  | JNull
  | JBool (b : bool)
  | JInt (z : Z)
  | JStr (s : string)
  | JDec (d : decimal)
  | JList (l : list json)
  | JObj (o : list (string * json)).

Record RuntimeState := {
  rs_instance_id : UUID;
  rs_status : RuntimeStatus;
  rs_last_error : option string;
  rs_started_at : option datetime;
  rs_heartbeat_at : datetime;
  rs_kill_switch : bool;
  rs_paused : bool;
  rs_current_cycle_id : option UUID;
  rs_version : Z;
}.

Record StrategyEvaluationRecord := {
  se_evaluation_id : UUID;
  se_symbol : string;
  se_evaluation_time : datetime;
  se_daily_candle_open_time : datetime;
  se_weekly_candle_key : datetime;
  se_monthly_candle_key : datetime;
  se_daily_candle_key : datetime;
  se_strategy_version : string;
  se_regime_result : list (string * json);
  se_entry_result : list (string * json);
  se_rejection_reasons : list string;
  se_deterministic_input_hash : string;
  se_created_at : datetime;
}.

Record TradeIntent := {
  ti_intent_id : UUID;
  ti_idempotency_key : string;
  ti_symbol : string;
  ti_side : PaperSide;
  ti_signal_type : SignalType;
  ti_signal_time : datetime;
  ti_scheduled_fill_time : datetime;
  ti_requested_entry : decimal;
  ti_requested_stop : decimal;
  ti_requested_quantity : option decimal;
  ti_approved_quantity : option decimal;
  ti_risk_amount : option decimal;
  ti_status : TradeIntentStatus;
  ti_strategy_evaluation_id : UUID;
  ti_rejection_reason : option (list (string * json));
  ti_created_at : datetime;
  ti_updated_at : datetime;
}.

Record PaperOrder := {
  or_paper_order_id : UUID;
  or_intent_id : UUID;
  or_symbol : string;
  or_side : PaperSide;
  or_order_type : PaperOrderType;
  or_requested_quantity : decimal;
  or_remaining_quantity : decimal;
  or_expected_fill_time : datetime;
  or_status : PaperOrderStatus;
  or_created_at : datetime;
  or_updated_at : datetime;
}.

Record PaperFill := {
  fi_fill_id : UUID;
  fi_paper_order_id : option UUID;
  fi_position_id : option UUID;
  fi_fill_kind : PaperFillKind;
  fi_symbol : string;
  fi_side : PaperSide;
  fi_quantity : decimal;
  fi_market_open_price : decimal;
  fi_slippage : decimal;
  fi_fill_price : decimal;
  fi_fee : decimal;
  fi_fill_time : datetime;
  fi_candle_key : datetime;
  fi_deterministic_fill_key : string;
  fi_fill_sequence : Z;
}.

Record PaperPosition := {
  pp_position_id : UUID;
  pp_symbol : string;
  pp_status : PaperPositionStatus;
  pp_quantity : decimal;
  pp_average_entry_price : decimal;
  pp_initial_stop : decimal;
  pp_current_stop : decimal;
  pp_highest_close_since_entry : decimal;
  pp_entry_atr14 : decimal;
  pp_realized_pnl : decimal;
  pp_unrealized_pnl : decimal;
  pp_margin_reserved : decimal;
  pp_entry_intent_id : UUID;
  pp_opened_at : datetime;
  pp_closed_at : option datetime;
  pp_version : Z;
}.

Record PositionStopEvent := {
  sv_stop_event_id : UUID;
  sv_position_id : UUID;
  sv_previous_stop : decimal;
  sv_new_stop : decimal;
  sv_highest_close : decimal;
  sv_atr : decimal;
  sv_evaluation_time : datetime;
  sv_reason : string;
}.

Record PortfolioSnapshot := {
  sn_snapshot_id : UUID;
  sn_evaluation_time : datetime;
  sn_cash : decimal;
  sn_margin_used : decimal;
  sn_equity : decimal;
  sn_unrealized_pnl : decimal;
  sn_realized_pnl : decimal;
  sn_total_open_risk : decimal;
  sn_open_position_count : nat;
  sn_idempotency_key : string;
}.

Record FundingEventRecord := {
  fr_funding_event_id : UUID;
  fr_position_id : UUID;
  fr_symbol : string;
  fr_funding_rate : decimal;
  fr_notional : decimal;
  fr_amount : decimal;
  fr_funding_time : datetime;
  fr_deterministic_key : string;
}.

Record SchedulerRun := {
  sr_run_id : UUID;
  sr_job_name : string;
  sr_scheduled_for : datetime;
  sr_started_at : option datetime;
  sr_completed_at : option datetime;
  sr_status : SchedulerRunStatus;
  sr_error : option string;
  sr_idempotency_key : string;
  sr_recovery_of_run_id : option UUID;
  sr_resolved_by_run_id : option UUID;
}.

Record PaperWalletState := {
  wa_wallet_id : UUID;
  wa_cash : decimal;
  wa_total_realized_pnl : decimal;
  wa_total_fees : decimal;
  wa_total_funding : decimal;
  wa_total_slippage : decimal;
  wa_version : Z;
  wa_updated_at : datetime;
}.

(** The random id of an audit event is left out: nothing reads it. *)
Record AuditEvent := {
  ae_event_type : string;
  ae_aggregate_type : string;
  ae_aggregate_id : UUID;
  ae_cycle_id : option UUID;
  ae_payload_json : list (string * json);
  ae_created_at : datetime;
}.

Record PaperExecutionConfig := {
  xc_fee_rate : decimal;
  xc_slippage_bps : decimal;
  xc_max_leverage : decimal;
}.

(** The fields of [PaperTradingConfig] the domain reads; the others configure
    the process, the API and the database connection. *)
Record PaperTradingConfig := {
  pc_paper_initial_equity : decimal;
  pc_paper_fee_rate : decimal;
  pc_paper_slippage_bps : decimal;
  pc_paper_max_leverage : decimal;
  pc_evaluation_delay_seconds : Z;
  pc_fill_delay_seconds : Z;
  pc_heartbeat_interval_seconds : Z;
  pc_stale_runtime_threshold_seconds : Z;
  pc_scheduler_enabled : bool;
  pc_kill_switch_close_policy : KillSwitchClosePolicy;
  pc_funding_enabled : bool;
  pc_symbols : list string;
}.

Definition ALLOWED_SYMBOLS : list string := ["BTC"; "ETH"; "SOL"]%string.

Definition from_trading_config (config : PaperTradingConfig) : PaperExecutionConfig :=
  {| xc_fee_rate := pc_paper_fee_rate config;
     xc_slippage_bps := pc_paper_slippage_bps config;
     xc_max_leverage := pc_paper_max_leverage config |}.

(** ** The database *)

Record PaperStore := {
  db_runtime : option RuntimeState;
  db_wallet : option PaperWalletState;
  db_evaluations : list StrategyEvaluationRecord;
  db_intents : list TradeIntent;
  db_orders : list PaperOrder;
  db_fills : list PaperFill;
  db_positions : list PaperPosition;
  db_stop_events : list PositionStopEvent;
  db_snapshots : list PortfolioSnapshot;
  db_funding : list FundingEventRecord;
  db_scheduler_runs : list SchedulerRun;
  db_audit : list AuditEvent;
  db_group_states : list (string * MarketEventGroupState);
  db_group_rotation_cursor : option Z;
}.

Definition with_runtime (s : PaperStore) (r : RuntimeState) : PaperStore :=
  {| db_runtime := Some r; db_wallet := db_wallet s; db_evaluations := db_evaluations s;
     db_intents := db_intents s; db_orders := db_orders s; db_fills := db_fills s;
     db_positions := db_positions s; db_stop_events := db_stop_events s; db_snapshots := db_snapshots s;
     db_funding := db_funding s; db_scheduler_runs := db_scheduler_runs s; db_audit := db_audit s;
     db_group_states := db_group_states s; db_group_rotation_cursor := db_group_rotation_cursor s |}.

Definition with_wallet (s : PaperStore) (w : PaperWalletState) : PaperStore :=
  {| db_runtime := db_runtime s; db_wallet := Some w; db_evaluations := db_evaluations s;
     db_intents := db_intents s; db_orders := db_orders s; db_fills := db_fills s;
     db_positions := db_positions s; db_stop_events := db_stop_events s; db_snapshots := db_snapshots s;
     db_funding := db_funding s; db_scheduler_runs := db_scheduler_runs s; db_audit := db_audit s;
     db_group_states := db_group_states s; db_group_rotation_cursor := db_group_rotation_cursor s |}.

Definition with_evaluations (s : PaperStore) (e : list StrategyEvaluationRecord) : PaperStore :=
  {| db_runtime := db_runtime s; db_wallet := db_wallet s; db_evaluations := e;
     db_intents := db_intents s; db_orders := db_orders s; db_fills := db_fills s;
     db_positions := db_positions s; db_stop_events := db_stop_events s; db_snapshots := db_snapshots s;
     db_funding := db_funding s; db_scheduler_runs := db_scheduler_runs s; db_audit := db_audit s;
     db_group_states := db_group_states s; db_group_rotation_cursor := db_group_rotation_cursor s |}.

Definition with_intents (s : PaperStore) (i : list TradeIntent) : PaperStore :=
  {| db_runtime := db_runtime s; db_wallet := db_wallet s; db_evaluations := db_evaluations s;
     db_intents := i; db_orders := db_orders s; db_fills := db_fills s;
     db_positions := db_positions s; db_stop_events := db_stop_events s; db_snapshots := db_snapshots s;
     db_funding := db_funding s; db_scheduler_runs := db_scheduler_runs s; db_audit := db_audit s;
     db_group_states := db_group_states s; db_group_rotation_cursor := db_group_rotation_cursor s |}.

Definition with_orders (s : PaperStore) (o : list PaperOrder) : PaperStore :=
  {| db_runtime := db_runtime s; db_wallet := db_wallet s; db_evaluations := db_evaluations s;
     db_intents := db_intents s; db_orders := o; db_fills := db_fills s;
     db_positions := db_positions s; db_stop_events := db_stop_events s; db_snapshots := db_snapshots s;
     db_funding := db_funding s; db_scheduler_runs := db_scheduler_runs s; db_audit := db_audit s;
     db_group_states := db_group_states s; db_group_rotation_cursor := db_group_rotation_cursor s |}.

Definition with_fills (s : PaperStore) (f : list PaperFill) : PaperStore :=
  {| db_runtime := db_runtime s; db_wallet := db_wallet s; db_evaluations := db_evaluations s;
     db_intents := db_intents s; db_orders := db_orders s; db_fills := f;
     db_positions := db_positions s; db_stop_events := db_stop_events s; db_snapshots := db_snapshots s;
     db_funding := db_funding s; db_scheduler_runs := db_scheduler_runs s; db_audit := db_audit s;
     db_group_states := db_group_states s; db_group_rotation_cursor := db_group_rotation_cursor s |}.

Definition with_positions (s : PaperStore) (p : list PaperPosition) : PaperStore :=
  {| db_runtime := db_runtime s; db_wallet := db_wallet s; db_evaluations := db_evaluations s;
     db_intents := db_intents s; db_orders := db_orders s; db_fills := db_fills s;
     db_positions := p; db_stop_events := db_stop_events s; db_snapshots := db_snapshots s;
     db_funding := db_funding s; db_scheduler_runs := db_scheduler_runs s; db_audit := db_audit s;
     db_group_states := db_group_states s; db_group_rotation_cursor := db_group_rotation_cursor s |}.

Definition with_stop_events (s : PaperStore) (e : list PositionStopEvent) : PaperStore :=
  {| db_runtime := db_runtime s; db_wallet := db_wallet s; db_evaluations := db_evaluations s;
     db_intents := db_intents s; db_orders := db_orders s; db_fills := db_fills s;
     db_positions := db_positions s; db_stop_events := e; db_snapshots := db_snapshots s;
     db_funding := db_funding s; db_scheduler_runs := db_scheduler_runs s; db_audit := db_audit s;
     db_group_states := db_group_states s; db_group_rotation_cursor := db_group_rotation_cursor s |}.

Definition with_snapshots (s : PaperStore) (n : list PortfolioSnapshot) : PaperStore :=
  {| db_runtime := db_runtime s; db_wallet := db_wallet s; db_evaluations := db_evaluations s;
     db_intents := db_intents s; db_orders := db_orders s; db_fills := db_fills s;
     db_positions := db_positions s; db_stop_events := db_stop_events s; db_snapshots := n;
     db_funding := db_funding s; db_scheduler_runs := db_scheduler_runs s; db_audit := db_audit s;
     db_group_states := db_group_states s; db_group_rotation_cursor := db_group_rotation_cursor s |}.

Definition with_funding (s : PaperStore) (f : list FundingEventRecord) : PaperStore :=
  {| db_runtime := db_runtime s; db_wallet := db_wallet s; db_evaluations := db_evaluations s;
     db_intents := db_intents s; db_orders := db_orders s; db_fills := db_fills s;
     db_positions := db_positions s; db_stop_events := db_stop_events s; db_snapshots := db_snapshots s;
     db_funding := f; db_scheduler_runs := db_scheduler_runs s; db_audit := db_audit s;
     db_group_states := db_group_states s; db_group_rotation_cursor := db_group_rotation_cursor s |}.

Definition with_runs (s : PaperStore) (r : list SchedulerRun) : PaperStore :=
  {| db_runtime := db_runtime s; db_wallet := db_wallet s; db_evaluations := db_evaluations s;
     db_intents := db_intents s; db_orders := db_orders s; db_fills := db_fills s;
     db_positions := db_positions s; db_stop_events := db_stop_events s; db_snapshots := db_snapshots s;
     db_funding := db_funding s; db_scheduler_runs := r; db_audit := db_audit s;
     db_group_states := db_group_states s; db_group_rotation_cursor := db_group_rotation_cursor s |}.

Definition with_audit (s : PaperStore) (a : list AuditEvent) : PaperStore :=
  {| db_runtime := db_runtime s; db_wallet := db_wallet s; db_evaluations := db_evaluations s;
     db_intents := db_intents s; db_orders := db_orders s; db_fills := db_fills s;
     db_positions := db_positions s; db_stop_events := db_stop_events s; db_snapshots := db_snapshots s;
     db_funding := db_funding s; db_scheduler_runs := db_scheduler_runs s; db_audit := a;
     db_group_states := db_group_states s; db_group_rotation_cursor := db_group_rotation_cursor s |}.

Definition with_group_states (s : PaperStore) (g : list (string * MarketEventGroupState)) : PaperStore :=
  {| db_runtime := db_runtime s; db_wallet := db_wallet s; db_evaluations := db_evaluations s;
     db_intents := db_intents s; db_orders := db_orders s; db_fills := db_fills s;
     db_positions := db_positions s; db_stop_events := db_stop_events s; db_snapshots := db_snapshots s;
     db_funding := db_funding s; db_scheduler_runs := db_scheduler_runs s; db_audit := db_audit s;
     db_group_states := g; db_group_rotation_cursor := db_group_rotation_cursor s |}.

Definition with_group_rotation_cursor (s : PaperStore) (c : Z) : PaperStore :=
  {| db_runtime := db_runtime s; db_wallet := db_wallet s; db_evaluations := db_evaluations s;
     db_intents := db_intents s; db_orders := db_orders s; db_fills := db_fills s;
     db_positions := db_positions s; db_stop_events := db_stop_events s; db_snapshots := db_snapshots s;
     db_funding := db_funding s; db_scheduler_runs := db_scheduler_runs s; db_audit := db_audit s;
     db_group_states := db_group_states s; db_group_rotation_cursor := Some c |}.
