(* ===== verification/PaperSession.v ===== *)
(** * The database session

    Code that keeps running after an exception, with what was written before
    it.  An operation maps its state to a result and a new state, which it also
    leaves behind when it raises; [transaction] is the context manager
    [transaction_scope] (db/transaction.py): a savepoint whose exception
    undoes the writes to the database, and only those.  An operation whose
    exception rolls everything back is a function into [res] in the other
    files; [writes] runs it as one statement. *)
From Stdlib Require Import ZArith.
From stdpp Require Import base list strings.
From S2P Require Import Prelude PaperModels.

(** The exceptions of market_event_errors.py, and every other one. *)
Inductive error :=
  | Base (e : exn)
  | RetryableContextNotReady (message : string)
  | PermanentConfigurationFailure (message code : string)
  | FillNotDue
  | DailyEvaluationNotDue
  | RetryableSchedulerDeferred (message : string)
  | DailyOpenSequenceFailure (subjob_name message : string).

Inductive result (A : Type) : Type :=
  | Done (a : A)
  | Failed (e : error).
Arguments Done {_} _.
Arguments Failed {_} _.

#[export] Instance result_ret : MRet result := fun _ a => Done a.
#[export] Instance result_bind : MBind result := fun _ _ f m =>
  match m with Done a => f a | Failed e => Failed e end.

(** A function that knows nothing of those exceptions. *)
Definition lift {A} (m : res A) : result A :=
  match m with Ok a => Done a | Raise e => Failed (Base e) end.

Definition sx (S A : Type) : Type := S -> result A * S.

#[export] Instance sx_ret S : MRet (sx S) := fun A a s => (Done a, s).
#[export] Instance sx_bind S : MBind (sx S) := fun A B f m s =>
  match m s with
  | (Done a, s') => f a s'
  | (Failed e, s') => (Failed e, s')
  end.

(** A state with a database in it. *)
Class HasStore (S : Type) := {
  store_of : S -> PaperStore;
  put_store : PaperStore -> S -> S;
  store_put db s : store_of (put_store db s) = db;
}.

#[export] Program Instance session_store : HasStore PaperStore := {| store_of s := s; put_store db _ := db |}.
Next Obligation. done. Qed.

Section Operations.
Context {S : Type}.

Definition raise {A} (e : error) : sx S A := fun s => (Failed e, s).
Definition from_result {A} (m : result A) : sx S A := fun s => (m, s).
Definition from_res {A} (m : res A) : sx S A := from_result (lift m).
Definition gets {A} (f : S -> A) : sx S A := fun s => (Done (f s), s).
Definition modify (f : S -> S) : sx S unit := fun s => (Done tt, f s).

(** try: m except: handler *)
Definition try_except {A} (m : sx S A) (handler : error -> sx S A) : sx S A := fun s =>
  match m s with
  | (Done a, s') => (Done a, s')
  | (Failed e, s') => handler e s'
  end.

(** try: m finally: cleanup, for a cleanup that does not raise. *)
Definition try_finally {A} (m : sx S A) (cleanup : S -> S) : sx S A := fun s =>
  let '(r, s') := m s in (r, cleanup s').

Fixpoint foldS {A B} (f : B -> A -> sx S B) (l : list A) (b : B) : sx S B :=
  match l with
  | [] => mret b
  | a :: l => b ← f b a; foldS f l b
  end.
End Operations.

Section Database.
Context {S : Type} `{HasStore S}.

Definition reads {A} (f : PaperStore -> res A) : sx S A := fun s => (lift (f (store_of s)), s).

Definition writes {A} (f : PaperStore -> res (A * PaperStore)) : sx S A := fun s =>
  match f (store_of s) with
  | Ok (a, db) => (Done a, put_store db s)
  | Raise e => (Failed (Base e), s)
  end.

Definition transaction {A} (m : sx S A) : sx S A := fun s =>
  match m s with
  | (Done a, s') => (Done a, s')
  | (Failed e, s') => (Failed e, put_store (store_of s) s')
  end.

(** An operation on the session alone. *)
Definition in_session {A} (m : sx PaperStore A) : sx S A := fun s =>
  let '(r, db) := m (store_of s) in (r, put_store db s).
End Database.

(** ** Specifications

    [hoare P m Q E]: from a state with [P] the operation returns with [Q] or
    raises with [E], which sees the exception.  [keeps I m]: it keeps [I] either
    way. *)

Definition hoare {S A} (P : S -> Prop) (m : sx S A) (Q : A -> S -> Prop) (E : error -> S -> Prop) : Prop :=
  forall s, P s -> match m s with (Done a, s') => Q a s' | (Failed e, s') => E e s' end.

Definition keeps {S A} (I : S -> Prop) (m : sx S A) : Prop := hoare I m (fun _ => I) (fun _ => I).

Section Rules.
Context {S : Type}.
Implicit Types (P I : S -> Prop) (E : error -> S -> Prop).

Lemma hoare_mono {A} P P' (m : sx S A) (Q Q' : A -> S -> Prop) E E' :
  hoare P m Q E -> (forall s, P' s -> P s) -> (forall a s, Q a s -> Q' a s) -> (forall e s, E e s -> E' e s) -> hoare P' m Q' E'.
Proof. intros H HP HQ HE s Hs. specialize (H s (HP s Hs)). destruct (m s) as [[a|e] s']; auto. Qed.

(** A fact that the state shows. *)
Lemma hoare_fact {A} P (m : sx S A) (Q : A -> S -> Prop) E (F : Prop) :
  (forall s, P s -> F) -> (F -> hoare P m Q E) -> hoare P m Q E.
Proof. intros HF Hm s Hs. exact (Hm (HF s Hs) s Hs). Qed.

Lemma hoare_ret {A} P (a : A) E : hoare P (mret a) (fun b s => b = a /\ P s) E.
Proof. by intros s Hs. Qed.

Lemma hoare_bind {A B} P (m : sx S A) (f : A -> sx S B) R Q E :
  hoare P m R E -> (forall a, hoare (R a) (f a) Q E) -> hoare P (m ≫= f) Q E.
Proof.
  intros Hm Hf s Hs. specialize (Hm s Hs). cbn. unfold mbind, sx_bind. destruct (m s) as [[a|e] s']; [|done]. by apply Hf.
Qed.

(** The first operation may promise more of its exceptions. *)
Lemma hoare_seq {A B} P (m : sx S A) (f : A -> sx S B) R Q E' E :
  hoare P m R E' -> (forall e s, E' e s -> E e s) -> (forall a, hoare (R a) (f a) Q E) -> hoare P (m ≫= f) Q E.
Proof. intros Hm HE Hf. eapply hoare_bind; [|exact Hf]. eapply hoare_mono; [exact Hm|..]; auto. Qed.

Lemma hoare_and {A} P P' (m : sx S A) (Q Q' : A -> S -> Prop) E E' :
  hoare P m Q E -> hoare P' m Q' E' ->
  hoare (fun s => P s /\ P' s) m (fun a s => Q a s /\ Q' a s) (fun e s => E e s /\ E' e s).
Proof. intros H H' s [Hs Hs']. specialize (H s Hs). specialize (H' s Hs'). by destruct (m s) as [[a|e] s']. Qed.

Lemma hoare_try {A} P (m : sx S A) h Q E E' :
  hoare P m Q E' -> (forall e, hoare (E' e) (h e) Q E) -> hoare P (try_except m h) Q E.
Proof. intros Hm Hh s Hs. specialize (Hm s Hs). unfold try_except. destruct (m s) as [[a|e] s']; [done|]. by apply Hh. Qed.

Lemma hoare_fold_in {A B} (J : B -> S -> Prop) (f : B -> A -> sx S B) l b E :
  (forall b a, a ∈ l -> hoare (J b) (f b a) J E) -> hoare (J b) (foldS f l b) J E.
Proof.
  revert b. induction l as [|a l IH]; intros b Hf; cbn; [by intros s Hs|].
  eapply hoare_bind; [apply Hf; by left|]. intros b'. apply IH. intros b0 a0 Ha. apply Hf. by right.
Qed.

Lemma hoare_fold {A B} (J : B -> S -> Prop) (f : B -> A -> sx S B) l b E :
  (forall b a, hoare (J b) (f b a) J E) -> hoare (J b) (foldS f l b) J E.
Proof. intros Hf. by apply hoare_fold_in. Qed.

Lemma keeps_ret {A} I (a : A) : keeps I (mret a).
Proof. by intros s Hs. Qed.
Lemma keeps_raise {A} I e : keeps I (raise (A := A) e).
Proof. by intros s Hs. Qed.
Lemma keeps_res {A} I (m : res A) : keeps I (from_res m).
Proof. intros s Hs. cbn. by destruct m. Qed.
Lemma keeps_result {A} I (m : result A) : keeps I (from_result m).
Proof. intros s Hs. cbn. by destruct m. Qed.
Lemma keeps_gets {A} I (f : S -> A) : keeps I (gets f).
Proof. by intros s Hs. Qed.
Lemma keeps_modify I f : (forall s, I s -> I (f s)) -> keeps I (modify f).
Proof. intros H s Hs. cbn. auto. Qed.
Lemma keeps_bind {A B} I (m : sx S A) (f : A -> sx S B) : keeps I m -> (forall a, keeps I (f a)) -> keeps I (m ≫= f).
Proof. intros. by eapply hoare_bind. Qed.
Lemma keeps_try {A} I (m : sx S A) h : keeps I m -> (forall e, keeps I (h e)) -> keeps I (try_except m h).
Proof. intros. by eapply hoare_try. Qed.
Lemma keeps_finally {A} I (m : sx S A) c : keeps I m -> (forall s, I s -> I (c s)) -> keeps I (try_finally m c).
Proof. intros Hm Hc s Hs. specialize (Hm s Hs). unfold try_finally. destruct (m s) as [[a|e] s']; auto. Qed.
Lemma keeps_fold {A B} I (f : B -> A -> sx S B) l b : (forall b a, keeps I (f b a)) -> keeps I (foldS f l b).
Proof. intros Hf. by apply (hoare_fold (fun _ => I) f l b (fun _ => I)). Qed.
End Rules.

(** Rules for an invariant of the database. *)
Section DatabaseRules.
Context {S : Type} `{HasStore S}.

Definition on_store (I : PaperStore -> Prop) (s : S) : Prop := I (store_of s).

Lemma hoare_reads {A} P (f : PaperStore -> res A) E :
  (forall e s, P s -> E (Base e) s) -> hoare P (reads f) (fun a s => P s /\ f (store_of s) = Ok a) E.
Proof. intros HE s Hs. cbn. destruct (f (store_of s)) eqn:?; cbn; auto. Qed.

Lemma keeps_reads {A} (I : S -> Prop) (f : PaperStore -> res A) : keeps I (reads f).
Proof. intros s Hs. cbn. by destruct (f _). Qed.

Lemma keeps_writes {A} (I : PaperStore -> Prop) (f : PaperStore -> res (A * PaperStore)) :
  (forall db a db', I db -> f db = Ok (a, db') -> I db') -> keeps (on_store I) (writes f).
Proof.
  intros Hf s Hs. unfold writes. destruct (f (store_of s)) as [[a db]|e] eqn:E; [|done].
  unfold on_store. rewrite store_put. by eapply Hf.
Qed.

(** The savepoint makes an exception harmless for what was true before. *)
Lemma keeps_transaction {A} (I : PaperStore -> Prop) (m : sx S A) :
  hoare (on_store I) m (fun _ => on_store I) (fun _ _ => True) -> keeps (on_store I) (transaction m).
Proof.
  intros Hm s Hs. specialize (Hm s Hs). unfold transaction. destruct (m s) as [[a|e] s']; [done|].
  unfold on_store. by rewrite store_put.
Qed.

Lemma keeps_in_session {A} (I : PaperStore -> Prop) (m : sx PaperStore A) :
  keeps I m -> keeps (on_store I) (in_session m).
Proof.
  intros Hm s Hs. specialize (Hm (store_of s) Hs). unfold in_session. destruct (m (store_of s)) as [[a|e] db];
  unfold on_store; by rewrite store_put.
Qed.
End DatabaseRules.

(** An operation of the session that keeps an invariant leaves a state with it. *)
Lemma keeps_run {S A} (I : S -> Prop) (m : sx S A) s r s' : keeps I m -> I s -> m s = (r, s') -> I s'.
Proof. intros Hm Hs E. specialize (Hm s Hs). rewrite E in Hm. by destruct r. Qed.

(** *** Sequences on the session *)

Section SessionRules.
Context (I : PaperStore -> Prop).

Lemma hoare_from_keeps {A} (P : PaperStore -> Prop) (m : sx PaperStore A) :
  (forall s, P s -> I s) -> keeps I m -> hoare P m (fun _ => I) (fun _ => I).
Proof. intros HP Hm. eapply hoare_mono; [exact Hm|..]; done. Qed.

Lemma hoare_from_res {A B} (P : PaperStore -> Prop) (m : res A) (k : A -> sx PaperStore B) :
  (forall s, P s -> I s) -> (forall a, m = Ok a -> hoare P (k a) (fun _ => I) (fun _ => I)) -> hoare P (from_res m ≫= k) (fun _ => I) (fun _ => I).
Proof.
  intros HP Hk s Hs. unfold mbind, sx_bind, from_res, from_result. destruct m as [a|e]; [|by apply HP]. by apply Hk.
Qed.

Lemma hoare_write {A B} (P : PaperStore -> Prop) (f : PaperStore -> res (A * PaperStore)) (k : A -> sx PaperStore B) :
  (forall s, P s -> I s) -> (forall s a s', P s -> f s = Ok (a, s') -> I s') -> (forall a, keeps I (k a)) ->
  hoare P (writes f ≫= k) (fun _ => I) (fun _ => I).
Proof.
  intros HP Hf Hk s Hs. unfold mbind, sx_bind, writes. cbn. destruct (f s) as [[a s']|e] eqn:E; [|by apply HP].
  apply Hk. by eapply Hf.
Qed.
End SessionRules.
