(* ===== verification/Transitions.v ===== *)
(** * State transitions (services/paper_trading/transitions.py)

    The transition tables of intents, orders and the runtime, and what a
    sequence of validated transitions can do.  A table is a function to the
    list of its row; a status without a row has the empty list. *)
From Stdlib Require Import ZArith Lia.
From stdpp Require Import base list relations strings.
From S2P Require Import Prelude PaperModels.

(** ** Definitions *)

Definition TERMINAL_INTENT_STATUSES : list TradeIntentStatus :=
  [IS_REJECTED; IS_CANCELLED; IS_EXPIRED; IS_FAILED; IS_FILLED].

Definition TERMINAL_ORDER_STATUSES : list PaperOrderStatus := [PO_REJECTED; PO_CANCELLED; PO_EXPIRED; PO_FILLED].

Definition _INTENT_TRANSITIONS (s : TradeIntentStatus) : list TradeIntentStatus :=
  match s with
  | IS_CREATED => [IS_APPROVED; IS_SCHEDULED; IS_REJECTED; IS_CANCELLED; IS_FAILED]
  | IS_APPROVED =>
      [IS_SCHEDULED; IS_SUBMITTED_TO_PAPER_ENGINE; IS_REJECTED; IS_CANCELLED; IS_FAILED; IS_EXPIRED]
  | IS_SCHEDULED =>
      [IS_SUBMITTED_TO_PAPER_ENGINE; IS_FILLED; IS_REJECTED; IS_CANCELLED; IS_FAILED; IS_EXPIRED]
  | IS_SUBMITTED_TO_PAPER_ENGINE => [IS_FILLED; IS_REJECTED; IS_FAILED]
  | _ => []
  end.

Definition _ORDER_TRANSITIONS (s : PaperOrderStatus) : list PaperOrderStatus :=
  match s with
  | PO_PENDING => [PO_OPEN; PO_REJECTED; PO_CANCELLED; PO_EXPIRED]
  | PO_OPEN => [PO_FILLED; PO_REJECTED; PO_CANCELLED; PO_EXPIRED]
  | _ => []
  end.

Definition _RUNTIME_TRANSITIONS (s : RuntimeStatus) : list RuntimeStatus :=
  match s with
  | RS_STOPPED => [RS_STARTING]
  | RS_STARTING => [RS_RECOVERING; RS_SYNCING; RS_FAILED]
  | RS_RECOVERING => [RS_SYNCING; RS_READY; RS_DEGRADED; RS_FAILED]
  | RS_SYNCING => [RS_READY; RS_DEGRADED; RS_FAILED]
  | RS_READY => [RS_DEGRADED; RS_FAILED; RS_PAUSED; RS_KILLED; RS_SHUTTING_DOWN]
  | RS_DEGRADED => [RS_RECOVERING; RS_READY; RS_PAUSED; RS_KILLED; RS_SHUTTING_DOWN; RS_FAILED]
  | RS_PAUSED => [RS_READY; RS_SHUTTING_DOWN]
  | RS_KILLED => [RS_SHUTTING_DOWN]
  | RS_SHUTTING_DOWN => [RS_STOPPED; RS_FAILED]
  | RS_FAILED => []
  end.

Definition validate_intent_transition (current target : TradeIntentStatus) : res unit :=
  if decide (current = target) then Ok tt
  else if decide (current ∈ TERMINAL_INTENT_STATUSES) then
    Raise (InvalidTransition ("intent already terminal: " +:+ intent_status_value current))
  else if decide (target ∈ _INTENT_TRANSITIONS current) then Ok tt
  else Raise (InvalidTransition ("invalid intent transition " +:+ intent_status_value current +:+ " -> " +:+
                                 intent_status_value target)).

Definition validate_order_transition (current target : PaperOrderStatus) : res unit :=
  if decide (current = target) then Ok tt
  else if decide (current ∈ TERMINAL_ORDER_STATUSES) then
    Raise (InvalidTransition ("order already terminal: " +:+ order_status_value current))
  else if decide (target ∈ _ORDER_TRANSITIONS current) then Ok tt
  else Raise (InvalidTransition ("invalid order transition " +:+ order_status_value current +:+ " -> " +:+
                                 order_status_value target)).

Definition validate_runtime_transition (current target : RuntimeStatus) : res unit :=
  if decide (current = target) then Ok tt
  else if decide (target ∈ _RUNTIME_TRANSITIONS current) then Ok tt
  else Raise (InvalidTransition ("invalid runtime transition " +:+ runtime_status_value current +:+ " -> " +:+
                                 runtime_status_value target)).

(** A validated change of status. *)
Definition intent_step (s t : TradeIntentStatus) : Prop := s <> t /\ validate_intent_transition s t = Ok tt.
Definition order_step (s t : PaperOrderStatus) : Prop := s <> t /\ validate_order_transition s t = Ok tt.
Definition runtime_step (s t : RuntimeStatus) : Prop := s <> t /\ validate_runtime_transition s t = Ok tt.

(** ** Sequences of steps *)

(** Steps that lower a rank: their number is bounded by the rank. *)
Lemma nsteps_rank {S} (R : S -> S -> Prop) (rank : S -> nat) n s t :
  (forall s t, R s t -> rank t < rank s) -> nsteps R n s t -> n + rank t <= rank s.
Proof. intros HR. induction 1 as [|n s u t Hs _ IH]; [lia|]. apply HR in Hs. lia. Qed.

Definition intent_rank (s : TradeIntentStatus) : nat :=
  match s with
  | IS_CREATED => 4 | IS_APPROVED => 3 | IS_SCHEDULED => 2 | IS_SUBMITTED_TO_PAPER_ENGINE => 1 | _ => 0
  end.

Definition order_rank (s : PaperOrderStatus) : nat :=
  match s with PO_PENDING => 2 | PO_OPEN => 1 | _ => 0 end.

(** Case analysis over the two statuses of a step. *)
Ltac by_status :=
  intros s t; destruct s, t; intros; destruct_and?; try done; try (cbn; lia);
  try (match goal with H : _ = Ok tt |- _ => by vm_compute in H end); cbn; auto; set_solver.

Lemma intent_step_rank s t : intent_step s t -> intent_rank t < intent_rank s.
Proof. revert s t. unfold intent_step. by_status. Qed.

Lemma order_step_rank s t : order_step s t -> order_rank t < order_rank s.
Proof. revert s t. unfold order_step. by_status. Qed.

(** ** The lifecycles *)

(** Steps between two given statuses are decided by evaluation. *)
Ltac step := split; [discriminate|vm_compute; reflexivity].

(** What the table of intents allows (that the program keeps to it is a theorem
    of PaperIntentLife): an intent changes status at most four times, a terminal status is
    never left, [FILLED] is entered only from [SCHEDULED] or [SUBMITTED], the
    four live statuses below can still be filled, and [PARTIALLY_FILLED], which
    has no row, is never entered from another status and leads nowhere. *)
Theorem intent_lifecycle :
  (forall n s t, nsteps intent_step n s t -> n <= 4) /\
  (forall s t, s ∈ TERMINAL_INTENT_STATUSES -> rtc intent_step s t -> t = s) /\
  (forall s, intent_step s IS_FILLED -> s = IS_SCHEDULED \/ s = IS_SUBMITTED_TO_PAPER_ENGINE) /\
  (forall s, s ∈ [IS_CREATED; IS_APPROVED; IS_SCHEDULED; IS_SUBMITTED_TO_PAPER_ENGINE] -> rtc intent_step s IS_FILLED) /\
  (forall s t, s <> IS_PARTIALLY_FILLED -> rtc intent_step s t -> t <> IS_PARTIALLY_FILLED).
Proof.
  split_and!.
  - intros n s t H. apply (nsteps_rank _ intent_rank) in H; [|apply intent_step_rank]. destruct s; cbn in *; lia.
  - intros s t Hs H. refine (rtc_closed _ (fun u => u = s) _ _ _ H eq_refl). intros u v -> [Hne Hv].
    unfold validate_intent_transition in Hv. by rewrite decide_False, decide_True in Hv.
  - intros s [Hne H]. destruct s; auto; by vm_compute in H.
  - assert (H1 : rtc intent_step IS_SUBMITTED_TO_PAPER_ENGINE IS_FILLED) by (apply rtc_once; step).
    assert (H2 : rtc intent_step IS_SCHEDULED IS_FILLED) by (apply rtc_once; step).
    assert (H3 : forall s, intent_step s IS_SCHEDULED -> rtc intent_step s IS_FILLED) by (intros; by eapply rtc_l).
    intros s Hs. repeat (apply elem_of_cons in Hs as [->|Hs]); [apply H3; step..|done|done|by apply not_elem_of_nil in Hs].
  - intros s t Hs H. refine (rtc_closed _ (fun u => u <> IS_PARTIALLY_FILLED) _ _ _ H Hs).
    intros u v Hu [Hne Hv] ->. destruct u; by vm_compute in Hv.
Qed.

(** An order changes status at most twice, a terminal status is never
    left, and an order is filled only while it is open. *)
Theorem order_lifecycle :
  (forall n s t, nsteps order_step n s t -> n <= 2) /\
  (forall s t, s ∈ TERMINAL_ORDER_STATUSES -> rtc order_step s t -> t = s) /\
  (forall s, order_step s PO_FILLED -> s = PO_OPEN) /\
  rtc order_step PO_PENDING PO_FILLED.
Proof.
  split_and!.
  - intros n s t H. apply (nsteps_rank _ order_rank) in H; [|apply order_step_rank]. destruct s; cbn in *; lia.
  - intros s t Hs H. refine (rtc_closed _ (fun u => u = s) _ _ _ H eq_refl). intros u v -> [Hne Hv].
    unfold validate_order_transition in Hv. by rewrite decide_False, decide_True in Hv.
  - intros s [Hne H]. destruct s; auto; by vm_compute in H.
  - apply (rtc_l _ _ PO_OPEN); [step|]. apply rtc_once. step.
Qed.

(** Steps that do not enter one of the given statuses. *)
Definition runtime_step_avoiding (l : list RuntimeStatus) (s t : RuntimeStatus) : Prop :=
  runtime_step s t /\ t ∉ l.

(** A set closed under those steps, decided by evaluation. *)
Ltac closed_set H P :=
  refine (rtc_closed _ (fun u => u ∈ P) _ _ _ H _); [|set_solver];
  let u := fresh in let v := fresh in
  intros u v Hu [[_ Hv] Hl]; destruct u, v; try set_solver; by vm_compute in Hv.

(** The runtime becomes ready only through the startup sequence: a
    stopped, killed or stopping runtime is not ready before it has been
    starting, a starting runtime not before it has been recovering or syncing,
    a killed one can only shut down, a failed one stays failed, and every
    other one can become ready again. *)
Theorem runtime_lifecycle :
  (forall s, s ∈ [RS_STOPPED; RS_SHUTTING_DOWN; RS_KILLED] ->
     ~ rtc (runtime_step_avoiding [RS_STARTING]) s RS_READY) /\
  ~ rtc (runtime_step_avoiding [RS_RECOVERING; RS_SYNCING]) RS_STARTING RS_READY /\
  (forall t, runtime_step RS_KILLED t -> t = RS_SHUTTING_DOWN) /\
  (forall t, rtc runtime_step RS_FAILED t -> t = RS_FAILED) /\
  (forall s, s <> RS_FAILED -> rtc runtime_step s RS_READY).
Proof.
  split_and!.
  - intros s Hs H. assert (RS_READY ∈ [RS_STOPPED; RS_SHUTTING_DOWN; RS_KILLED; RS_FAILED]); [|set_solver].
    closed_set H [RS_STOPPED; RS_SHUTTING_DOWN; RS_KILLED; RS_FAILED].
  - intros H. assert (RS_READY ∈ [RS_STARTING; RS_FAILED]); [|set_solver]. closed_set H [RS_STARTING; RS_FAILED].
  - intros t [Hne H]. destruct t; auto; by vm_compute in H.
  - intros t H. refine (rtc_closed _ (fun u => u = RS_FAILED) _ _ _ H eq_refl).
    intros u v -> [Hne Hv]. destruct v; auto; by vm_compute in Hv.
  - assert (Hs : rtc runtime_step RS_SYNCING RS_READY) by (apply rtc_once; step).
    assert (Hst : rtc runtime_step RS_STARTING RS_READY) by (apply (rtc_l _ _ RS_SYNCING); [step|done]).
    assert (Hsp : rtc runtime_step RS_STOPPED RS_READY) by (apply (rtc_l _ _ RS_STARTING); [step|done]).
    assert (Hsd : rtc runtime_step RS_SHUTTING_DOWN RS_READY) by (apply (rtc_l _ _ RS_STOPPED); [step|done]).
    assert (Hk : rtc runtime_step RS_KILLED RS_READY) by (apply (rtc_l _ _ RS_SHUTTING_DOWN); [step|done]).
    intros s Hne. destruct s; try done; apply rtc_once; step.
Qed.
