(* ===== verification/Timeframes.v ===== *)
(** * UTC timeframe boundaries (services/market_data/timeframes.py)

    A [datetime] is a number of microseconds since the epoch, so the date and
    time fields are computed from it: the day count, the weekday (1970-01-01
    was a Thursday) and the civil date of [BtData]. *)
From Stdlib Require Import ZArith Lia.
From stdpp Require Import base list strings.
From S2P Require Import Prelude StrategyModels BtData.

Local Open Scope Z_scope.

(** ** Definitions *)

Definition DAY_US : Z := seconds 86400.

(** The whole days before [t]. *)
Definition day_number (t : datetime) : Z := t / DAY_US.

(** [t.weekday()], Monday being zero. *)
Definition weekday (t : datetime) : Z := (day_number t + 3) mod 7.

Definition year_of (t : datetime) : Z := (civil_from_days (day_number t)).1.1.
Definition month_of (t : datetime) : Z := (civil_from_days (day_number t)).1.2.
Definition day_of (t : datetime) : Z := (civil_from_days (day_number t)).2.
Definition hour_of (t : datetime) : Z := t mod DAY_US / seconds 3600.

Definition daily_open (day : datetime) : datetime := day_number day * DAY_US.

Definition daily_close (open_time : datetime) : datetime := day_number open_time * DAY_US + seconds 86399.

Definition weekly_open_containing (day : datetime) : datetime :=
  let day := daily_open day in
  day - weekday day * DAY_US.

Definition weekly_close (open_time : datetime) : res datetime :=
  if (weekday open_time =? 0) then Ok (open_time + 6 * DAY_US + seconds 86399)
  else Raise (ValueError "weekly open_time must be Monday 00:00 UTC").

Definition monthly_open (year month : Z) : datetime := days_from_civil (year, month, 1) * DAY_US.

(** The first day of the month after the one of [open_time]. *)
Definition next_month (open_time : datetime) : datetime :=
  if month_of open_time =? 12 then monthly_open (year_of open_time + 1) 1
  else monthly_open (year_of open_time) (month_of open_time + 1).

Definition monthly_close (open_time : datetime) : res datetime :=
  if (day_of open_time =? 1) && (hour_of open_time =? 0) then Ok (next_month open_time - seconds 1)
  else Raise (ValueError "monthly open_time must be first day 00:00 UTC").

Definition expected_close_time (open_time : datetime) (timeframe : Timeframe) : res datetime :=
  match timeframe with
  | DAILY => Ok (daily_close open_time)
  | WEEKLY => weekly_close open_time
  | MONTHLY => monthly_close open_time
  end.

Definition next_open_time (open_time : datetime) (timeframe : Timeframe) : datetime :=
  match timeframe with
  | DAILY => open_time + DAY_US
  | WEEKLY => open_time + 7 * DAY_US
  | MONTHLY => next_month open_time
  end.

Definition is_valid_timeframe_duration (open_time close_time : datetime) (timeframe : Timeframe) : res bool :=
  expected ← expected_close_time open_time timeframe;
  Ok (close_time =? expected).

Definition is_candle_closed (close_time evaluation_time : datetime) : bool := close_time <=? evaluation_time.

(** ** Civil dates of first days *)

(** Within an era of four hundred years the day number of the first of a
    month determines the year and the month; checked for all of them. *)
Definition first_day_ok (yoe mp : Z) : bool :=
  let doy := (153 * mp + 2) / 5 in
  let doe := yoe * 365 + yoe / 4 - yoe / 100 + doy in
  ((doe - doe / 1460 + doe / 36524 - doe / 146096) / 365 =? yoe) &&
  ((5 * doy + 2) / 153 =? mp) && (0 <=? doe) && (doe <? 146097).

Lemma first_days_ok :
  forallb (fun y => forallb (fun m => first_day_ok (Z.of_nat y) (Z.of_nat m)) (seq 0 12)) (seq 0 400) = true.
Proof. vm_compute. reflexivity. Qed.

Lemma first_day_spec yoe mp : 0 <= yoe < 400 -> 0 <= mp < 12 -> first_day_ok yoe mp = true.
Proof.
  intros Hy Hm. pose proof first_days_ok as H. rewrite forallb_forall in H.
  specialize (H (Z.to_nat yoe) ltac:(apply in_seq; lia)). cbn beta in H. rewrite forallb_forall in H.
  specialize (H (Z.to_nat mp) ltac:(apply in_seq; lia)). cbn beta in H.
  rewrite Z2Nat.id, Z2Nat.id in H by lia. exact H.
Qed.

Lemma civil_of_first y m : 1 <= m <= 12 -> civil_from_days (days_from_civil (y, m, 1)) = (y, m, 1).
Proof.
  intros Hm. unfold days_from_civil.
  set (y' := if m <=? 2 then y - 1 else y). set (mp := if m <=? 2 then m + 9 else m - 3).
  assert (Hmp : 0 <= mp < 12) by (unfold mp; destruct (Z.leb_spec m 2); lia).
  pose proof (Z.mod_pos_bound y' 400 ltac:(lia)) as Hyoe.
  pose proof (first_day_spec (y' mod 400) mp Hyoe Hmp) as Hf. unfold first_day_ok in Hf.
  set (yoe := y' mod 400) in *. set (doy := (153 * mp + 2) / 5) in *.
  set (doe := yoe * 365 + yoe / 4 - yoe / 100 + doy) in *.
  apply andb_true_iff in Hf as [Hf H4%Z.ltb_lt]. apply andb_true_iff in Hf as [Hf H3%Z.leb_le].
  apply andb_true_iff in Hf as [H1%Z.eqb_eq H2%Z.eqb_eq].
  unfold civil_from_days.
  replace (y' / 400 * 146097 + (yoe * 365 + yoe / 4 - yoe / 100 + (doy + 1 - 1)) - 719468 + 719468)
    with (doe + y' / 400 * 146097) by (unfold doe; lia).
  rewrite Z_div_plus_full, Z_mod_plus_full, (Z.div_small doe), (Z.mod_small doe), Z.add_0_l by lia.
  rewrite H1. replace (doe - (365 * yoe + yoe / 4 - yoe / 100)) with doy by (unfold doe; lia). rewrite H2.
  replace (doy - (153 * mp + 2) / 5 + 1) with 1 by (unfold doy; lia).
  assert (Hy : yoe + y' / 400 * 400 = y') by (unfold yoe; pose proof (Z.div_mod y' 400 ltac:(lia)); lia).
  rewrite Hy. unfold mp, y'. destruct (Z.leb_spec m 2); cbn.
  - destruct (Z.ltb_spec (m + 9) 10); [lia|]. replace (m + 9 - 9) with m by lia.
    destruct (Z.leb_spec m 2); [|lia]. f_equal. f_equal. lia.
  - destruct (Z.ltb_spec (m - 3) 10); [|lia]. replace (m - 3 + 3) with m by lia.
    destruct (Z.leb_spec m 2); [lia|]. f_equal. f_equal. lia.
Qed.

(** *** The order of the first days

    Years are counted from March here: [year_start y] is the day number of
    1 March of year [y]. *)
Definition year_start (y : Z) : Z := 365 * y + y / 4 - y / 100 + y / 400 - 719468.

Lemma days_from_civil_start y m d :
  days_from_civil (y, m, d) =
    year_start (if m <=? 2 then y - 1 else y) + (153 * (if m <=? 2 then m + 9 else m - 3) + 2) / 5 + d - 1.
Proof.
  unfold days_from_civil, year_start. set (y' := if m <=? 2 then y - 1 else y).
  set (mp := if m <=? 2 then m + 9 else m - 3).
  assert (H : y' / 400 * 146097 + (y' mod 400 * 365 + y' mod 400 / 4 - y' mod 400 / 100) =
    365 * y' + y' / 4 - y' / 100 + y' / 400) by (Z.to_euclidean_division_equations; lia).
  lia.
Qed.

Lemma year_start_succ y : 365 <= year_start (y + 1) - year_start y <= 366.
Proof. unfold year_start. Z.to_euclidean_division_equations; lia. Qed.

(** The first day of the month with index [k] = 12 * year + (month - 1). *)
Definition first_of (k : Z) : Z := days_from_civil (k / 12, k mod 12 + 1, 1).

Lemma first_of_succ k : first_of k < first_of (k + 1).
Proof.
  unfold first_of. pose proof (Z.mod_pos_bound k 12 ltac:(lia)).
  pose proof (Z.div_mod k 12 ltac:(lia)). set (y := k / 12) in *. set (m := k mod 12) in *.
  rewrite !days_from_civil_start.
  destruct (decide (m = 11)) as [E|E].
  - replace (k + 1) with (0 + (y + 1) * 12) by lia. rewrite Z_div_plus_full, Z_mod_plus_full by lia.
    change (0 / 12) with 0. change (0 mod 12) with 0. rewrite E. cbn [Z.leb Z.compare].
    change (11 + 1 <=? 2) with false. change (0 + 1 <=? 2) with true. cbn iota.
    replace (0 + (y + 1) - 1) with y by lia. Z.to_euclidean_division_equations; lia.
  - replace (k + 1) with (m + 1 + y * 12) by lia. rewrite Z_div_plus_full, Z_mod_plus_full by lia.
    rewrite (Z.div_small (m + 1)), (Z.mod_small (m + 1)), Z.add_0_l by lia.
    pose proof (year_start_succ (y - 1)). replace (y - 1 + 1) with y in * by lia.
    destruct (Z.leb_spec (m + 1) 2), (Z.leb_spec (m + 1 + 1) 2); Z.to_euclidean_division_equations; lia.
Qed.

Lemma first_of_mono j k : j < k -> first_of (j + 1) <= first_of k.
Proof.
  intros Hjk. assert (H : forall n, first_of (j + 1) <= first_of (j + 1 + Z.of_nat n)).
  { induction n as [|n IH]; [rewrite Z.add_0_r; lia|].
    pose proof (first_of_succ (j + 1 + Z.of_nat n)). rewrite Nat2Z.inj_succ.
    replace (j + 1 + Z.succ (Z.of_nat n)) with (j + 1 + Z.of_nat n + 1) by lia. lia. }
  specialize (H (Z.to_nat (k - j - 1))). rewrite Z2Nat.id in H by lia.
  by replace (j + 1 + (k - j - 1)) with k in H by lia.
Qed.

(** The last day of the year that starts in March. *)
Lemma year_end doe :
  0 <= doe < 146097 ->
  let yoe := (doe - doe / 1460 + doe / 36524 - doe / 146096) / 365 in
  doe < 365 * (yoe + 1) + (yoe + 1) / 4 - (yoe + 1) / 100 + (yoe + 1) / 400.
Proof. intros H. cbn. Z.to_euclidean_division_equations; lia. Qed.

(** The index of the month of a day. *)
Definition month_index (n : Z) : Z :=
  let '(y, m, _) := civil_from_days n in 12 * y + (m - 1).

Lemma first_of_index y m : 1 <= m <= 12 -> first_of (12 * y + (m - 1)) = days_from_civil (y, m, 1).
Proof.
  intros Hm. unfold first_of. replace (12 * y + (m - 1)) with (m - 1 + y * 12) by lia.
  rewrite Z_div_plus_full, Z_mod_plus_full, (Z.div_small (m - 1)), (Z.mod_small (m - 1)) by lia.
  replace (0 + y) with y by lia. by replace (m - 1 + 1) with m by lia.
Qed.

Lemma first_of_next y m :
  1 <= m <= 12 -> first_of (12 * y + (m - 1) + 1) = days_from_civil (if m =? 12 then (y + 1, 1, 1) else (y, m + 1, 1)).
Proof.
  intros Hm. destruct (Z.eqb_spec m 12) as [->|Hne].
  - rewrite <- first_of_index by lia. f_equal. lia.
  - rewrite <- first_of_index by lia. f_equal. lia.
Qed.

Lemma month_contains n : first_of (month_index n) <= n < first_of (month_index n + 1).
Proof.
  unfold month_index. destruct (civil_from_days_ok n) as [[Hmo Hda] Hn].
  destruct (civil_from_days n) as [[y m] d] eqn:E. cbn [fst snd] in Hmo, Hda.
  rewrite first_of_index by lia. rewrite first_of_next by lia.
  split. { rewrite <- Hn. rewrite !days_from_civil_start. lia. }
  unfold civil_from_days in E.
  pose proof (Z.mod_pos_bound (n + 719468) 146097 ltac:(lia)) as Hdoe.
  pose proof (Z.div_mod (n + 719468) 146097 ltac:(lia)) as Hdm.
  set (era := (n + 719468) / 146097) in *. set (doe := (n + 719468) mod 146097) in *.
  pose proof (year_end doe Hdoe) as Hye. cbn zeta in Hye. pose proof (yoe_bounds doe Hdoe) as Hyoe.
  pose proof (doy_bounds doe _ Hdoe eq_refl) as Hdoy.
  set (yoe := (doe - doe / 1460 + doe / 36524 - doe / 146096) / 365) in *.
  set (doy := doe - (365 * yoe + yoe / 4 - yoe / 100)) in *.
  destruct (month_bounds doy _ Hdoy eq_refl) as [Hmp _].
  set (mp := (5 * doy + 2) / 153) in *.
  assert (Hmpd : doy < (153 * (mp + 1) + 2) / 5) by (unfold mp; Z.to_euclidean_division_equations; lia).
  assert (Hys : n = year_start (yoe + era * 400) + doy).
  { unfold year_start, doy. assert (0 <= yoe < 400) by lia.
    assert ((yoe + era * 400) / 4 = yoe / 4 + era * 100) by (Z.to_euclidean_division_equations; lia).
    assert ((yoe + era * 400) / 100 = yoe / 100 + era * 4) by (Z.to_euclidean_division_equations; lia).
    assert ((yoe + era * 400) / 400 = era) by (Z.to_euclidean_division_equations; lia). lia. }
  assert (Hnext : n < year_start (yoe + era * 400 + 1)).
  { rewrite Hys. unfold year_start, doy.
    assert ((yoe + era * 400 + 1) / 4 = (yoe + 1) / 4 + era * 100) by (Z.to_euclidean_division_equations; lia).
    assert ((yoe + era * 400 + 1) / 100 = (yoe + 1) / 100 + era * 4) by (Z.to_euclidean_division_equations; lia).
    assert ((yoe + era * 400 + 1) / 400 = (yoe + 1) / 400 + era) by (Z.to_euclidean_division_equations; lia).
    assert ((yoe + era * 400) / 4 = yoe / 4 + era * 100) by (Z.to_euclidean_division_equations; lia).
    assert ((yoe + era * 400) / 100 = yoe / 100 + era * 4) by (Z.to_euclidean_division_equations; lia).
    assert ((yoe + era * 400) / 400 = era) by (Z.to_euclidean_division_equations; lia). lia. }
  clearbody mp doy yoe doe era. injection E as Ey Em Ed. subst y m.
  destruct (Z.ltb_spec mp 10) as [Hlt|Hge].
  - replace (mp + 3 <=? 2) with false by (symmetry; apply Z.leb_gt; lia).
    destruct (Z.eqb_spec (mp + 3) 12) as [Heq|Hne]; rewrite days_from_civil_start.
    + replace mp with 9 in * by lia. change (1 <=? 2) with true. cbn iota.
      replace (yoe + era * 400 + 0 + 1 - 1) with (yoe + era * 400) by lia. change ((153 * (1 + 9) + 2) / 5) with ((153 * (9 + 1) + 2) / 5). lia.
    + replace (mp + 3 + 1 <=? 2) with false by (symmetry; apply Z.leb_gt; lia).
      replace (mp + 3 + 1 - 3) with (mp + 1) by lia. replace (yoe + era * 400 + 0) with (yoe + era * 400) by lia. lia.
  - replace (mp - 9 <=? 2) with true by (symmetry; apply Z.leb_le; lia).
    destruct (Z.eqb_spec (mp - 9) 12) as [Heq|Hne]; [lia|]. rewrite days_from_civil_start.
    destruct (Z.leb_spec (mp - 9 + 1) 2).
    + replace (mp - 9 + 1 + 9) with (mp + 1) by lia.
      replace (yoe + era * 400 + 1 - 1) with (yoe + era * 400) by lia. lia.
    + replace mp with 11 in * by lia. replace (11 - 9 + 1 - 3) with 0 by lia. 
      change ((153 * 0 + 2) / 5) with 0. lia.
Qed.

(** ** Partition of time *)

(** The opens of a timeframe: midnights, Monday midnights, first days. *)
Definition is_open (tf : Timeframe) (o : datetime) : Prop :=
  o mod DAY_US = 0 /\
  match tf with
  | DAILY => True
  | WEEKLY => weekday o = 0
  | MONTHLY => day_of o = 1
  end.

(** The open of the candle that contains [t]. *)
Definition open_containing (tf : Timeframe) (t : datetime) : datetime :=
  match tf with
  | DAILY => daily_open t
  | WEEKLY => weekly_open_containing t
  | MONTHLY => monthly_open (year_of t) (month_of t)
  end.

Lemma day_number_mul n : day_number (n * DAY_US) = n.
Proof. unfold day_number. apply Z_div_mult_full. discriminate. Qed.

Lemma mul_mod_day n : (n * DAY_US) mod DAY_US = 0.
Proof. apply Z_mod_mult. Qed.

(** Midnights are the multiples of a day; comparisons of times with midnights
    are comparisons of day numbers. *)
Lemma midnight o : o mod DAY_US = 0 -> o = day_number o * DAY_US.
Proof. intros H. unfold day_number. pose proof (Z.div_mod o DAY_US ltac:(discriminate)). lia. Qed.

Lemma day_le n t : n * DAY_US <= t <-> n <= day_number t.
Proof.
  unfold day_number, DAY_US, seconds. pose proof (Z.div_mod t (86400 * 1000000) ltac:(lia)).
  pose proof (Z.mod_pos_bound t (86400 * 1000000) ltac:(lia)). lia.
Qed.

Lemma day_lt n t : t < n * DAY_US <-> day_number t < n.
Proof. pose proof (day_le n t). lia. Qed.

Lemma weekly_open_eq t : weekly_open_containing t = (day_number t - (day_number t + 3) mod 7) * DAY_US.
Proof. unfold weekly_open_containing, weekday, daily_open. rewrite day_number_mul. lia. Qed.

Lemma monthly_open_eq t : monthly_open (year_of t) (month_of t) = first_of (month_index (day_number t)) * DAY_US.
Proof.
  unfold monthly_open, year_of, month_of, month_index.
  destruct (civil_from_days_ok (day_number t)) as [[Hm _] _].
  destruct (civil_from_days (day_number t)) as [[y m] d]. cbn [fst snd] in *. by rewrite first_of_index.
Qed.

(** A first day is the first day of its month. *)
Lemma first_of_month_index n : (civil_from_days n).2 = 1 -> n = first_of (month_index n).
Proof.
  unfold month_index. destruct (civil_from_days_ok n) as [[Hm _] Hn].
  destruct (civil_from_days n) as [[y m] d]. cbn [fst snd] in *. intros ->. by rewrite first_of_index.
Qed.

Lemma month_index_first k : month_index (first_of k) = k /\ (civil_from_days (first_of k)).2 = 1.
Proof.
  unfold month_index, first_of. pose proof (Z.mod_pos_bound k 12 ltac:(lia)). pose proof (Z.div_mod k 12 ltac:(lia)).
  rewrite civil_of_first by lia. cbn. split; [lia|done].
Qed.

Lemma next_month_eq o : next_month o = first_of (month_index (day_number o) + 1) * DAY_US.
Proof.
  unfold next_month, monthly_open, year_of, month_of, month_index.
  destruct (civil_from_days_ok (day_number o)) as [[Hm _] _].
  destruct (civil_from_days (day_number o)) as [[y m] d]. cbn [fst snd] in *.
  rewrite first_of_next by lia. by destruct (m =? 12).
Qed.

(** [t] lies in the candle opening at [o]. *)
Definition in_candle (tf : Timeframe) (o t : datetime) : Prop := o <= t < next_open_time o tf.

Lemma open_containing_spec tf t : is_open tf (open_containing tf t) /\ in_candle tf (open_containing tf t) t.
Proof.
  unfold is_open, in_candle. destruct tf; cbn [open_containing next_open_time].
  - unfold daily_open. split; [split; [apply mul_mod_day|done]|].
    replace (day_number t * DAY_US + DAY_US) with ((day_number t + 1) * DAY_US) by lia.
    rewrite day_le, day_lt. lia.
  - rewrite weekly_open_eq. set (n := day_number t). pose proof (Z.mod_pos_bound (n + 3) 7 ltac:(lia)).
    split; [split; [apply mul_mod_day|]|].
    + unfold weekday. rewrite day_number_mul. Z.to_euclidean_division_equations; lia.
    + replace ((n - (n + 3) mod 7) * DAY_US + 7 * DAY_US) with ((n - (n + 3) mod 7 + 7) * DAY_US) by lia.
      rewrite day_le, day_lt. fold n. lia.
  - rewrite monthly_open_eq. set (n := day_number t). pose proof (month_contains n).
    split; [split; [apply mul_mod_day|]|].
    + unfold day_of. rewrite day_number_mul. apply month_index_first.
    + rewrite next_month_eq, day_number_mul, (proj1 (month_index_first _)), day_le, day_lt. fold n. lia.
Qed.

Lemma open_unique tf o t : is_open tf o -> in_candle tf o t -> o = open_containing tf t.
Proof.
  intros [Hmid Ho] Hin. apply midnight in Hmid. unfold in_candle in Hin. rewrite Hmid in Hin |- *.
  set (n := day_number o) in *. destruct tf; cbn [open_containing next_open_time] in *.
  - replace (n * DAY_US + DAY_US) with ((n + 1) * DAY_US) in Hin by lia.
    rewrite day_le, day_lt in Hin. unfold daily_open. f_equal. lia.
  - replace (n * DAY_US + 7 * DAY_US) with ((n + 7) * DAY_US) in Hin by lia.
    rewrite day_le, day_lt in Hin. rewrite weekly_open_eq. f_equal. unfold weekday in Ho. fold n in Ho.
    Z.to_euclidean_division_equations; lia.
  - unfold day_of in Ho. fold n in Ho. apply first_of_month_index in Ho. set (k := month_index n) in *.
    rewrite next_month_eq, day_number_mul, day_le, day_lt in Hin. fold k in Hin. rewrite Ho in Hin.
    rewrite monthly_open_eq, Ho. f_equal. f_equal. pose proof (month_contains (day_number t)) as Ht.
    set (j := month_index (day_number t)) in *.
    destruct (Z.lt_trichotomy j k) as [Hjk|[->|Hjk]]; [|done|]; apply first_of_mono in Hjk; lia.
Qed.

Lemma next_is_open tf o : is_open tf o -> is_open tf (next_open_time o tf).
Proof.
  intros [Hmid Ho]. apply midnight in Hmid. rewrite Hmid. set (n := day_number o) in *.
  unfold is_open. destruct tf; cbn [next_open_time].
  - replace (n * DAY_US + DAY_US) with ((n + 1) * DAY_US) by lia. split; [apply mul_mod_day|done].
  - replace (n * DAY_US + 7 * DAY_US) with ((n + 7) * DAY_US) by lia. split; [apply mul_mod_day|].
    unfold weekday in *. fold n in Ho. rewrite day_number_mul. Z.to_euclidean_division_equations; lia.
  - rewrite next_month_eq. split; [apply mul_mod_day|]. unfold day_of. rewrite day_number_mul. apply month_index_first.
Qed.

(** The close of a candle is one second before the next open. *)
Lemma close_before_next tf o : is_open tf o -> expected_close_time o tf = Ok (next_open_time o tf - seconds 1).
Proof.
  intros [Hmid Ho]. pose proof (midnight o Hmid) as Hm. destruct tf; cbn [expected_close_time next_open_time].
  - f_equal. unfold daily_close. rewrite Hm at 2. unfold DAY_US, seconds. lia.
  - unfold weekly_close. rewrite Ho. cbn [Z.eqb]. f_equal. unfold DAY_US, seconds. lia.
  - unfold monthly_close, hour_of. rewrite Ho, Hmid. done.
Qed.

(** The candles of a timeframe partition time: every instant lies in
    exactly one candle, which opens at the open the code computes for it, the
    next open is again an open, and the expected close is one second before
    it. *)
Theorem timeframes_partition tf t :
  let o := open_containing tf t in
  is_open tf o /\ in_candle tf o t /\ is_open tf (next_open_time o tf) /\
  expected_close_time o tf = Ok (next_open_time o tf - seconds 1) /\
  (forall o', is_open tf o' -> in_candle tf o' t -> o' = o).
Proof.
  intros o. destruct (open_containing_spec tf t) as [Ho Hin]. fold o in Ho, Hin.
  split_and!; [done|done| | |].
  - by apply next_is_open.
  - by apply close_before_next.
  - intros o' Ho' Hin'. by apply open_unique.
Qed.

(** A leap day: the month of February 2024 ends on the 29th. *)
Example february_2024 :
  monthly_close (monthly_open 2024 2) = Ok (monthly_open 2024 3 - seconds 1) /\
  strftime_utc (monthly_open 2024 3 - seconds 1) = "2024-02-29T23:59:59Z".
Proof. split; vm_compute; reflexivity. Qed.
