(* ===== verification/PaperRuntime.v ===== *)
(** * The paper trading runtime (services/paper_trading/runtime.py, readiness.py,
    recovery.py, application.py, and the runtime part of repository.py)

    The runtime row with its optimistic version check, the readiness checks and
    the startup recovery.  An operation takes the store and returns the new
    one; an exception carries no store, because the callers roll the session
    back.  What the process finds outside the store (the database connection,
    the schema version, the advisory lock, the market data) is an argument. *)
From Stdlib Require Import ZArith QArith Lia Strings.String.
From stdpp Require Import base list relations strings.
From S2P Require Import Prelude Decimal StrategyModels PaperModels Transitions.

(** ** Definitions *)

(** *** The repository *)

(** The keyword arguments of [update_runtime_state]. *)
Record RuntimeUpdate := {
  ru_status : option RuntimeStatus;
  ru_last_error : option string;
  ru_started_at : option datetime;
  ru_heartbeat_at : option datetime;
  ru_kill_switch : option bool;
  ru_paused : option bool;
  ru_current_cycle_id : option UUID;
  ru_expected_version : option Z;
}.

(** A given argument replaces the column. *)
Definition or_keep {A} (new : option A) (old : A) : A := default old new.
Definition or_keep_option {A} (new old : option A) : option A := match new with Some a => Some a | None => old end.

Definition updated_row (row : RuntimeState) (u : RuntimeUpdate) : RuntimeState :=
  {| rs_instance_id := rs_instance_id row;
     rs_status := or_keep (ru_status u) (rs_status row);
     rs_last_error := or_keep_option (ru_last_error u) (rs_last_error row);
     rs_started_at := or_keep_option (ru_started_at u) (rs_started_at row);
     rs_heartbeat_at := or_keep (ru_heartbeat_at u) (rs_heartbeat_at row);
     rs_kill_switch := or_keep (ru_kill_switch u) (rs_kill_switch row);
     rs_paused := or_keep (ru_paused u) (rs_paused row);
     rs_current_cycle_id := or_keep_option (ru_current_cycle_id u) (rs_current_cycle_id row);
     rs_version := rs_version row + 1 |}.

Definition version_conflict (expected : option Z) (version : Z) : bool :=
  match expected with Some v => negb (version =? v)%Z | None => false end.

Definition update_runtime_state (s : PaperStore) (u : RuntimeUpdate) : res (RuntimeState * PaperStore) :=
  row ← or_raise (LookupError "runtime_state singleton not seeded") (db_runtime s);
  if version_conflict (ru_expected_version u) (rs_version row) then
    Raise (ValueError "runtime_state version conflict")
  else
    let row := updated_row row u in
    Ok (row, with_runtime s row).

Definition append_audit_event (s : PaperStore) (e : AuditEvent) : PaperStore := with_audit s (db_audit s ++ [e]).

Definition get_running_scheduler_runs (s : PaperStore) : list SchedulerRun :=
  List.filter (fun r => bool_decide (sr_status r = SR_RUNNING)) (db_scheduler_runs s).

Definition PERMANENT_CONFIGURATION_ERROR_CODES : list string :=
  ["PERMANENT_CONFIGURATION_FAILURE"; "PERMANENT_CONFIGURATION_INVALID_TICK_SIZE";
   "PERMANENT_CONFIGURATION_INVALID_QUANTITY_STEP"; "PERMANENT_CONFIGURATION_INVALID_MIN_QUANTITY";
   "PERMANENT_CONFIGURATION_INVALID_MIN_NOTIONAL"; "PERMANENT_CONFIGURATION_SYMBOL_MISMATCH";
   "PERMANENT_CONFIGURATION_PRECISION_MISMATCH"]%string.

(** [LIKE 'prefix%'] and [LIKE '%infix%']. *)
Definition like_prefix (p s : string) : bool := String.prefix p s.
Definition like_infix (p s : string) : bool := match String.index 0 p s with Some _ => true | None => false end.

Definition list_permanent_configuration_failures (s : PaperStore) : list SchedulerRun :=
  List.filter (fun r =>
    bool_decide (sr_status r = SR_FAILED) && like_prefix "me:" (sr_job_name r) &&
    match sr_error r with Some e => bool_decide (e ∈ PERMANENT_CONFIGURATION_ERROR_CODES) | None => false end &&
    match sr_recovery_of_run_id r with None => true | Some _ => false end &&
    match sr_resolved_by_run_id r with None => true | Some _ => false end &&
    negb (like_infix ":recovery:" (sr_job_name r))) (db_scheduler_runs s).

(** *** RuntimeService *)

Definition get_state (s : PaperStore) : res RuntimeState :=
  or_raise (LookupError "runtime_state not seeded") (db_runtime s).

Record RuntimeTransitionResult := {
  tr_previous : RuntimeStatus;
  tr_current : RuntimeStatus;
  tr_state : RuntimeState;
}.

Definition cycle_json (cycle_id : option UUID) : json :=
  match cycle_id with Some c => JStr c | None => JNull end.

Definition transition (s : PaperStore) (now : datetime) (target : RuntimeStatus) (last_error : option string)
    (cycle_id : option UUID) : res (RuntimeTransitionResult * PaperStore) :=
  current ← get_state s;
  _ ← validate_runtime_transition (rs_status current) target;
  '(updated, s) ← update_runtime_state s
    {| ru_status := Some target;
       ru_last_error := or_keep_option last_error (rs_last_error current);
       ru_started_at := if decide (target = RS_STARTING) then Some now else None;
       ru_heartbeat_at := Some now;
       ru_kill_switch := None; ru_paused := None; ru_current_cycle_id := None;
       ru_expected_version := Some (rs_version current) |};
  let s := append_audit_event s
    {| ae_event_type := "RUNTIME_STATUS_CHANGED";
       ae_aggregate_type := "runtime_state";
       ae_aggregate_id := rs_instance_id updated;
       ae_cycle_id := cycle_id;
       ae_payload_json := [("from", JStr (runtime_status_value (rs_status current)));
                           ("to", JStr (runtime_status_value target));
                           ("cycle_id", cycle_json cycle_id)]%string;
       ae_created_at := now |} in
  Ok ({| tr_previous := rs_status current; tr_current := target; tr_state := updated |}, s).


Definition heartbeat (s : PaperStore) (now : datetime) : res (RuntimeState * PaperStore) :=
  current ← get_state s;
  update_runtime_state s
    {| ru_status := None; ru_last_error := None; ru_started_at := None; ru_heartbeat_at := Some now;
       ru_kill_switch := None; ru_paused := None; ru_current_cycle_id := None;
       ru_expected_version := Some (rs_version current) |}.

Definition set_paused (s : PaperStore) (now : datetime) (paused : bool) : res (RuntimeState * PaperStore) :=
  current ← get_state s;
  '(updated, s) ← update_runtime_state s
    {| ru_status := None; ru_last_error := None; ru_started_at := None; ru_heartbeat_at := None;
       ru_kill_switch := None; ru_paused := Some paused; ru_current_cycle_id := None;
       ru_expected_version := Some (rs_version current) |};
  Ok (updated, append_audit_event s
    {| ae_event_type := if paused then "RUNTIME_PAUSED" else "RUNTIME_RESUMED";
       ae_aggregate_type := "runtime_state";
       ae_aggregate_id := rs_instance_id updated;
       ae_cycle_id := None;
       ae_payload_json := [("paused", JBool paused)]%string;
       ae_created_at := now |}).

Definition set_kill_switch (s : PaperStore) (now : datetime) (enabled : bool) : res (RuntimeState * PaperStore) :=
  current ← get_state s;
  '(updated, s) ← update_runtime_state s
    {| ru_status := None; ru_last_error := None; ru_started_at := None; ru_heartbeat_at := None;
       ru_kill_switch := Some enabled; ru_paused := None; ru_current_cycle_id := None;
       ru_expected_version := Some (rs_version current) |};
  Ok (updated, append_audit_event s
    {| ae_event_type := if enabled then "KILL_SWITCH_ENABLED" else "KILL_SWITCH_DISABLED";
       ae_aggregate_type := "runtime_state";
       ae_aggregate_id := rs_instance_id updated;
       ae_cycle_id := None;
       ae_payload_json := [("kill_switch", JBool enabled)]%string;
       ae_created_at := now |}).

(** *** ReadinessService *)

Record ReadinessSnapshot := {
  rp_process_liveness : bool;
  rp_runtime_readiness : bool;
  rp_entry_readiness : bool;
  rp_reasons : list string;
}.

Record PromotionReadinessSnapshot := {
  pr_ready : bool;
  pr_reasons : list string;
}.

(** The outcome of reading the schema version. *)
Inductive SchemaCheck := SchemaAtHead | SchemaNotAtHead | SchemaCheckFailed.

(** What a readiness check finds outside the store. *)
Record Probe := {
  pb_market_data_ready : bool;
  pb_database_reachable : bool;
  pb_schema : SchemaCheck;
  pb_advisory_lock : option bool;
  pb_scheduler_active : bool;
  pb_recovery_active : bool;
  pb_now : datetime;
}.

Definition _PROMOTABLE_RUNTIME_STATUSES : list RuntimeStatus := [RS_STARTING; RS_RECOVERING; RS_SYNCING; RS_DEGRADED].

(** A check appends its reason when it fails; the result is the conjunction. *)
Definition failing (checks : list (bool * string)) : list string :=
  snd <$> List.filter (fun c => negb c.1) checks.

Definition _heartbeat_fresh (config : PaperTradingConfig) (now : datetime) (runtime : RuntimeState) : bool :=
  (now - rs_heartbeat_at runtime <=? seconds (pc_stale_runtime_threshold_seconds config))%Z.

Definition schema_at_head (c : SchemaCheck) : bool := match c with SchemaAtHead => true | _ => false end.
Definition schema_reason (c : SchemaCheck) : string :=
  match c with SchemaCheckFailed => "migration_check_failed" | _ => "migration_not_at_head" end.

Definition _orphan_scheduler_run (s : PaperStore) : bool :=
  match get_running_scheduler_runs s with [] => false | _ => true end.

Definition _permanent_configuration_failure (s : PaperStore) : bool :=
  match list_permanent_configuration_failures s with [] => false | _ => true end.

Definition operational_checks (config : PaperTradingConfig) (s : PaperStore) (pb : Probe) (runtime : RuntimeState)
    : list (bool * string) :=
  [(pb_market_data_ready pb, "market_data_not_ready");
   (pb_database_reachable pb, "database_unreachable");
   (schema_at_head (pb_schema pb), schema_reason (pb_schema pb));
   (default true (pb_advisory_lock pb), "advisory_lock_not_held");
   (negb (pc_scheduler_enabled config) || pb_scheduler_active pb, "scheduler_not_active");
   (negb (pb_recovery_active pb), "recovery_active");
   (negb (_orphan_scheduler_run s), "orphan_scheduler_run");
   (negb (_permanent_configuration_failure s), "permanent_configuration_failure");
   (_heartbeat_fresh config (pb_now pb) runtime, "stale_heartbeat")]%string.

Definition all_pass (checks : list (bool * string)) : bool := forallb fst checks.

Definition _operational_readiness (config : PaperTradingConfig) (s : PaperStore) (pb : Probe) (runtime : RuntimeState)
    : bool * list string :=
  let checks := operational_checks config s pb runtime in (all_pass checks, failing checks).

(** A truthy [last_error]: neither [None] nor empty. *)
Definition has_error (e : option string) : bool :=
  match e with Some s => negb (bool_decide (s = ""%string)) | None => false end.

Definition runtime_checks (config : PaperTradingConfig) (s : PaperStore) (pb : Probe) (runtime : RuntimeState)
    : list (bool * string) :=
  operational_checks config s pb runtime ++
  [(bool_decide (rs_status runtime = RS_READY), "runtime_not_ready");
   (negb (has_error (rs_last_error runtime)), "last_error_set")]%string.

Definition _runtime_readiness (config : PaperTradingConfig) (s : PaperStore) (pb : Probe) (runtime : RuntimeState)
    : bool * list string :=
  let checks := runtime_checks config s pb runtime in (all_pass checks, failing checks).

Definition entry_checks (s : PaperStore) (runtime : RuntimeState) : list (bool * string) :=
  [(negb (rs_paused runtime), "paused");
   (negb (rs_kill_switch runtime), "kill_switch");
   (negb (_permanent_configuration_failure s), "permanent_configuration_failure")]%string.

Definition _entry_readiness (s : PaperStore) (runtime : RuntimeState) : bool * list string :=
  let checks := entry_checks s runtime in (all_pass checks, failing checks).

Definition _process_liveness (runtime : RuntimeState) : bool * list string :=
  if decide (rs_status runtime ∈ [RS_FAILED; RS_STOPPED]) then (false, ["runtime_not_live"%string]) else (true, []).

(** The entry checks only run when the runtime is ready. *)
Definition evaluate_readiness (config : PaperTradingConfig) (s : PaperStore) (pb : Probe) : ReadinessSnapshot :=
  match db_runtime s with
  | None =>
      {| rp_process_liveness := false; rp_runtime_readiness := false; rp_entry_readiness := false;
         rp_reasons := ["runtime_state_missing"%string] |}
  | Some runtime =>
      let '(liveness, r1) := _process_liveness runtime in
      let '(runtime_ready, r2) := _runtime_readiness config s pb runtime in
      let '(entry_ready, r3) := if runtime_ready then _entry_readiness s runtime else (false, []) in
      {| rp_process_liveness := liveness; rp_runtime_readiness := runtime_ready; rp_entry_readiness := entry_ready;
         rp_reasons := r1 ++ r2 ++ r3 |}
  end.

Definition evaluate_ready_promotion (config : PaperTradingConfig) (s : PaperStore) (pb : Probe)
    : PromotionReadinessSnapshot :=
  match db_runtime s with
  | None => {| pr_ready := false; pr_reasons := ["runtime_state_missing"%string] |}
  | Some runtime =>
      if decide (rs_status runtime ∈ _PROMOTABLE_RUNTIME_STATUSES) then
        let '(ready, reasons) := _operational_readiness config s pb runtime in
        {| pr_ready := ready; pr_reasons := reasons |}
      else {| pr_ready := false; pr_reasons := ["runtime_not_promotable"%string] |}
  end.

(** *** The readiness step of the application loop *)

(** What the loop knows of the market event bridge and its own tasks. *)
Record Bridge := {
  br_overflow : bool;
  br_backlog : bool;
  br_permanent : bool;
  br_deferred : bool;
  br_heartbeat_healthy : bool;
  br_last_loop_error : option string;
}.

Definition nonempty (s : string) : bool := negb (bool_decide (s = ""%string)).

(** [x or default]. *)
Definition or_else (x y : string) : string := if nonempty x then x else y.

Definition loop_error_or (br : Bridge) (d : string) : string :=
  match br_last_loop_error br with Some e => or_else e d | None => d end.

Definition _readiness_failure_reason (br : Bridge) (promotion_reasons evaluate_reasons : list string) : string :=
  if negb (br_heartbeat_healthy br) then "runtime_heartbeat_unhealthy"
  else if br_permanent br then "permanent_configuration_failure"
  else if br_backlog br then
    (if br_deferred br then "deferred_market_events"
     else if br_overflow br then "event_queue_overflow" else "event_backlog")
  else match promotion_reasons, evaluate_reasons with
       | _ :: _, _ => String.concat "," promotion_reasons
       | [], _ :: _ => String.concat "," evaluate_reasons
       | [], [] => loop_error_or br "not_ready"
       end.

Definition not_ready_reason (br : Bridge) (snapshot : ReadinessSnapshot) : string :=
  if br_permanent br then "permanent_configuration_failure"
  else if br_backlog br then
    (if br_deferred br then "deferred_market_events"
     else if br_overflow br then "event_queue_overflow" else "event_backlog")
  else or_else (String.concat "," (rp_reasons snapshot)) (loop_error_or br "not_ready").

(** [_evaluate_runtime_readiness]: promote, degrade or leave the runtime.  The
    probe's market data flag is the one of the runtime object. *)
Definition _evaluate_runtime_readiness (config : PaperTradingConfig) (pb : Probe) (br : Bridge) (s : PaperStore)
    : res PaperStore :=
  let pb := {| pb_market_data_ready := pb_market_data_ready pb && negb (br_overflow br);
               pb_database_reachable := pb_database_reachable pb;
               pb_schema := pb_schema pb;
               pb_advisory_lock := pb_advisory_lock pb;
               pb_scheduler_active := pb_scheduler_active pb;
               pb_recovery_active := pb_recovery_active pb;
               pb_now := pb_now pb |} in
  let promotion := evaluate_ready_promotion config s pb in
  let snapshot := evaluate_readiness config s pb in
  let runtime_ready := rp_runtime_readiness snapshot && negb (br_backlog br) && br_heartbeat_healthy br in
  let promotion_ready :=
    pr_ready promotion && negb (br_backlog br) && negb (br_permanent br) && br_heartbeat_healthy br in
  state ← get_state s;
  if promotion_ready && bool_decide (rs_status state ∈ _PROMOTABLE_RUNTIME_STATUSES) then
    snd <$> transition s (pb_now pb) RS_READY (Some ""%string) None
  else if bool_decide (rs_status state = RS_DEGRADED) && negb promotion_ready then
    let reason := _readiness_failure_reason br (pr_reasons promotion) (rp_reasons snapshot) in
    if nonempty reason && negb (bool_decide (rs_last_error state = Some reason)) then
      snd <$> transition s (pb_now pb) RS_DEGRADED (Some reason) None
    else Ok s
  else if (negb runtime_ready || br_permanent br) && bool_decide (rs_status state = RS_READY) then
    snd <$> transition s (pb_now pb) RS_DEGRADED (Some (not_ready_reason br snapshot)) None
  else Ok s.

(** ** Writes of the runtime row *)

Lemma update_runtime_state_ok s u r :
  db_runtime s = Some r -> ru_expected_version u = Some (rs_version r) ->
  update_runtime_state s u = Ok (updated_row r u, with_runtime s (updated_row r u)).
Proof.
  intros Hr Hv. unfold update_runtime_state. rewrite Hr. cbn. rewrite Hv. cbn. by rewrite Z.eqb_refl.
Qed.

(** A status change keeps the operator's controls and the start time, counts
    the version up, and appends one audit event; nothing else changes. *)
Record transitioned (s s' : PaperStore) (r r' : RuntimeState) (now : datetime) (target : RuntimeStatus)
    (last_error : option string) : Prop := {
  tn_store : s' = append_audit_event (with_runtime s r') (List.last (db_audit s')
    {| ae_event_type := ""; ae_aggregate_type := ""; ae_aggregate_id := ""; ae_cycle_id := None;
       ae_payload_json := []; ae_created_at := 0 |});
  tn_status : rs_status r' = target;
  tn_error : rs_last_error r' = or_keep_option last_error (rs_last_error r);
  tn_controls : rs_paused r' = rs_paused r /\ rs_kill_switch r' = rs_kill_switch r;
  tn_heartbeat : rs_heartbeat_at r' = now;
  tn_version : rs_version r' = (rs_version r + 1)%Z;
}.

Lemma transition_ok s now target e cycle r :
  db_runtime s = Some r -> validate_runtime_transition (rs_status r) target = Ok tt ->
  returns (transition s now target e cycle) (fun x =>
    tr_previous x.1 = rs_status r /\ transitioned s x.2 r (tr_state x.1) now target e).
Proof.
  intros Hr Hv. unfold transition, get_state. rewrite Hr. cbn [or_raise mbind res_bind]. rewrite Hv.
  cbn [mbind res_bind]. rewrite (update_runtime_state_ok _ _ r) by done. cbn [mbind res_bind].
  apply returns_ret. cbn. split; [done|]. constructor; try done.
  - cbn. by rewrite last_last.
  - cbn. by destruct e, (rs_last_error r).
Qed.

Lemma transition_invalid s now target e cycle r :
  db_runtime s = Some r -> validate_runtime_transition (rs_status r) target <> Ok tt ->
  exists msg, transition s now target e cycle = Raise (InvalidTransition msg).
Proof.
  intros Hr Hv. unfold transition, get_state. rewrite Hr. cbn [or_raise mbind res_bind].
  unfold validate_runtime_transition in *. destruct (decide _); [done|]. destruct (decide _); [done|].
  by eexists.
Qed.

(** ** Readiness *)

Lemma failing_nil checks : failing checks = [] <-> all_pass checks = true.
Proof.
  unfold failing, all_pass. induction checks as [|[b n] l IH]; cbn; [done|].
  destruct b; cbn; [done|]. split; done.
Qed.

(** What must hold of the runtime row and its surroundings for new risk. *)
Record entry_conditions (config : PaperTradingConfig) (s : PaperStore) (pb : Probe) (r : RuntimeState) : Prop := {
  ec_status : rs_status r = RS_READY;
  ec_error : has_error (rs_last_error r) = false;
  ec_paused : rs_paused r = false;
  ec_kill : rs_kill_switch r = false;
  ec_market : pb_market_data_ready pb = true;
  ec_database : pb_database_reachable pb = true;
  ec_schema : pb_schema pb = SchemaAtHead;
  ec_lock : pb_advisory_lock pb <> Some false;
  ec_scheduler : pc_scheduler_enabled config = true -> pb_scheduler_active pb = true;
  ec_recovery : pb_recovery_active pb = false;
  ec_orphans : get_running_scheduler_runs s = [];
  ec_permanent : list_permanent_configuration_failures s = [];
  ec_heartbeat : (pb_now pb - rs_heartbeat_at r <= seconds (pc_stale_runtime_threshold_seconds config))%Z;
}.

Lemma operational_pass config s pb r :
  all_pass (operational_checks config s pb r) = true <->
  pb_market_data_ready pb = true /\ pb_database_reachable pb = true /\ pb_schema pb = SchemaAtHead /\
  pb_advisory_lock pb <> Some false /\ (pc_scheduler_enabled config = true -> pb_scheduler_active pb = true) /\
  pb_recovery_active pb = false /\ get_running_scheduler_runs s = [] /\
  list_permanent_configuration_failures s = [] /\
  (pb_now pb - rs_heartbeat_at r <= seconds (pc_stale_runtime_threshold_seconds config))%Z.
Proof.
  unfold all_pass, operational_checks, _heartbeat_fresh, _orphan_scheduler_run, _permanent_configuration_failure.
  cbn [forallb fst]. rewrite !andb_true_iff, Z.leb_le.
  assert (H1 : schema_at_head (pb_schema pb) = true <-> pb_schema pb = SchemaAtHead) by (by destruct (pb_schema pb)).
  assert (H2 : default true (pb_advisory_lock pb) = true <-> pb_advisory_lock pb <> Some false)
    by (destruct (pb_advisory_lock pb) as [[]|]; naive_solver).
  assert (H3 : negb (pc_scheduler_enabled config) || pb_scheduler_active pb = true <->
    (pc_scheduler_enabled config = true -> pb_scheduler_active pb = true))
    by (destruct (pc_scheduler_enabled config), (pb_scheduler_active pb); naive_solver).
  assert (H4 : negb (match get_running_scheduler_runs s with [] => false | _ => true end) = true <->
    get_running_scheduler_runs s = []) by (by destruct (get_running_scheduler_runs s)).
  assert (H5 : negb (match list_permanent_configuration_failures s with [] => false | _ => true end) = true <->
    list_permanent_configuration_failures s = []) by (by destruct (list_permanent_configuration_failures s)).
  rewrite H1, H2, H3, H4, H5, negb_true_iff. tauto.
Qed.

Lemma runtime_pass config s pb r :
  all_pass (runtime_checks config s pb r) = true <->
  all_pass (operational_checks config s pb r) = true /\ rs_status r = RS_READY /\ has_error (rs_last_error r) = false.
Proof.
  unfold runtime_checks, all_pass. rewrite forallb_app. cbn [forallb fst].
  rewrite !andb_true_iff, negb_true_iff, bool_decide_eq_true. tauto.
Qed.

(** [C40] Readiness is fail-closed: entries are ready exactly when every
    condition holds (the runtime is ready without an error, neither paused nor
    killed, its heartbeat is fresh, and market data, database, schema, lock,
    scheduler and run history are in order); a paused or killed runtime can
    still be ready for everything else; and every refusal names a reason. *)
Theorem readiness_fail_closed config s pb :
  let snapshot := evaluate_readiness config s pb in
  (rp_entry_readiness snapshot = true <-> exists r, db_runtime s = Some r /\ entry_conditions config s pb r) /\
  (rp_entry_readiness snapshot = true -> rp_runtime_readiness snapshot = true) /\
  (rp_entry_readiness snapshot = false -> rp_reasons snapshot <> []).
Proof.
  unfold evaluate_readiness. destruct (db_runtime s) as [r|]; [|by cbn; split_and!; naive_solver].
  destruct (_process_liveness r) as [liv r1] eqn:El. unfold _runtime_readiness, _entry_readiness.
  pose proof (runtime_pass config s pb r) as Hr. pose proof (operational_pass config s pb r) as Ho.
  pose proof (failing_nil (runtime_checks config s pb r)) as Hf.
  pose proof (failing_nil (entry_checks s r)) as Hfe.
  destruct (all_pass (runtime_checks config s pb r)) eqn:Er;
    cbn [rp_entry_readiness rp_runtime_readiness rp_reasons].
  - destruct Hr as [Hr _]. destruct (Hr eq_refl) as (Hop & Hst & Herr). apply Ho in Hop. clear Hr Ho.
    destruct Hop as (O1 & O2 & O3 & O4 & O5 & O6 & O7 & O8 & O9).
    assert (He : all_pass (entry_checks s r) = true <-> rs_paused r = false /\ rs_kill_switch r = false).
    { unfold all_pass, entry_checks, _permanent_configuration_failure. rewrite O8. cbn [forallb fst].
      rewrite !andb_true_iff, !negb_true_iff. cbn. tauto. }
    split_and!; [|done|].
    + rewrite He. split.
      * intros [Hp Hk]. exists r. by split.
      * intros (r' & [= <-] & [? ? Hp Hk]). done.
    + intros Hn Hnil. apply app_eq_nil in Hnil as [_ Hnil]. apply app_eq_nil in Hnil as [_ Hnil].
      apply Hfe in Hnil. congruence.
  - split_and!; [|done|].
    + split; [done|]. intros (r' & [= <-] & [E1 E2 E3 E4 E5 E6 E7 E8 E9 E10 E11 E12 E13]).
      destruct Hr as [_ Hr]. exfalso. apply diff_false_true, Hr. split; [|done]. by apply Ho.
    + intros _ Hnil. apply app_eq_nil in Hnil as [_ Hnil]. apply app_eq_nil in Hnil as [Hnil _].
      apply Hf in Hnil. done.
Qed.

(** ** The readiness step of the loop *)

(** The probe the step uses: an event overflow counts as missing data. *)
Definition effective_probe (pb : Probe) (br : Bridge) : Probe :=
  {| pb_market_data_ready := pb_market_data_ready pb && negb (br_overflow br);
     pb_database_reachable := pb_database_reachable pb;
     pb_schema := pb_schema pb;
     pb_advisory_lock := pb_advisory_lock pb;
     pb_scheduler_active := pb_scheduler_active pb;
     pb_recovery_active := pb_recovery_active pb;
     pb_now := pb_now pb |}.

(** The loop finds nothing wrong with the process or the bridge. *)
Definition healthy (config : PaperTradingConfig) (s : PaperStore) (pb : Probe) (br : Bridge) (r : RuntimeState) : bool :=
  all_pass (operational_checks config s (effective_probe pb br) r) &&
  negb (br_backlog br) && negb (br_permanent br) && br_heartbeat_healthy br.

(** What the step makes of a runtime row: a promotable row of a healthy process
    becomes ready, a ready row with an error or of an unhealthy process is
    degraded, and the others keep their status. *)
Definition status_after (ok : bool) (r : RuntimeState) : RuntimeStatus :=
  match rs_status r with
  | RS_READY => if ok && negb (has_error (rs_last_error r)) then RS_READY else RS_DEGRADED
  | RS_RECOVERING | RS_SYNCING | RS_DEGRADED => if ok then RS_READY else rs_status r
  | st => st
  end.

Lemma transition_status s now target e r :
  db_runtime s = Some r -> validate_runtime_transition (rs_status r) target = Ok tt ->
  returns (snd <$> transition s now target e None) (fun s' => exists r', db_runtime s' = Some r' /\
    rs_status r' = target /\ rs_paused r' = rs_paused r /\ rs_kill_switch r' = rs_kill_switch r /\
    db_scheduler_runs s' = db_scheduler_runs s).
Proof.
  intros Hr Hv. destruct (transition_ok s now target e None r Hr Hv) as ([x s'] & -> & _ & H).
  cbn [snd fst fmap res_fmap] in *. apply returns_ret. destruct H as [Hs H1 _ [H2 H3] _ _].
  exists (tr_state x). rewrite Hs. by split_and!.
Qed.

Lemma promotion_ready_eq config s pb br r :
  db_runtime s = Some r -> rs_status r ∈ _PROMOTABLE_RUNTIME_STATUSES ->
  pr_ready (evaluate_ready_promotion config s (effective_probe pb br)) && negb (br_backlog br) &&
    negb (br_permanent br) && br_heartbeat_healthy br = healthy config s pb br r.
Proof.
  intros Hr Hs. unfold evaluate_ready_promotion. rewrite Hr, decide_True by done. done.
Qed.

Lemma runtime_ready_eq config s pb br r :
  db_runtime s = Some r -> rs_status r = RS_READY ->
  negb (rp_runtime_readiness (evaluate_readiness config s (effective_probe pb br)) && negb (br_backlog br) &&
    br_heartbeat_healthy br) || br_permanent br =
  negb (healthy config s pb br r && negb (has_error (rs_last_error r))).
Proof.
  intros Hr Hs. unfold evaluate_readiness. rewrite Hr.
  destruct (_process_liveness r) as [liv r1]. unfold _runtime_readiness.
  assert (H : all_pass (runtime_checks config s (effective_probe pb br) r) =
    all_pass (operational_checks config s (effective_probe pb br) r) && negb (has_error (rs_last_error r))).
  { apply eq_true_iff_eq. rewrite runtime_pass, andb_true_iff, negb_true_iff. tauto. }
  rewrite H. unfold healthy. set (p := all_pass _).
  set (q := if p && _ then _ else _). destruct q as [e r3]. cbn [rp_runtime_readiness].
  destruct p, (has_error _), (br_backlog br), (br_permanent br), (br_heartbeat_healthy br); reflexivity.
Qed.

(** The readiness step of the loop: a recovering, syncing or degraded
    runtime becomes ready exactly when every operational check passes and the
    event bridge is in order, a ready one stays ready only as long as they do
    and it has no error, every other status is kept, and the step never touches
    the pause and kill controls. *)
Theorem readiness_step_correct config pb br s r :
  db_runtime s = Some r -> rs_status r <> RS_STARTING ->
  returns (_evaluate_runtime_readiness config pb br s) (fun s' => exists r', db_runtime s' = Some r' /\
    rs_status r' = status_after (healthy config s pb br r) r /\
    rs_paused r' = rs_paused r /\ rs_kill_switch r' = rs_kill_switch r /\
    db_scheduler_runs s' = db_scheduler_runs s).
Proof.
  intros Hr Hst. unfold _evaluate_runtime_readiness. fold (effective_probe pb br).
  unfold get_state. rewrite Hr. cbn [or_raise mbind res_bind].
  assert (Hself : forall st, rs_status r = st -> st = status_after (healthy config s pb br r) r ->
    returns (Ok s) (fun s' => exists r', db_runtime s' = Some r' /\ rs_status r' = status_after (healthy config s pb br r) r /\
    rs_paused r' = rs_paused r /\ rs_kill_switch r' = rs_kill_switch r /\ db_scheduler_runs s' = db_scheduler_runs s)).
  { intros st H1 H2. apply returns_ret. exists r. split_and!; try done. congruence. }
  assert (Hgo : forall target e, validate_runtime_transition (rs_status r) target = Ok tt ->
    target = status_after (healthy config s pb br r) r ->
    returns (snd <$> transition s (pb_now (effective_probe pb br)) target e None) (fun s' => exists r', db_runtime s' = Some r' /\
      rs_status r' = status_after (healthy config s pb br r) r /\
      rs_paused r' = rs_paused r /\ rs_kill_switch r' = rs_kill_switch r /\ db_scheduler_runs s' = db_scheduler_runs s)).
  { intros target e Hv Ht. rewrite <- Ht. by apply transition_status. }
  destruct (decide (rs_status r ∈ _PROMOTABLE_RUNTIME_STATUSES)) as [Hp|Hp].
  - rewrite (promotion_ready_eq _ _ _ _ r Hr Hp), (bool_decide_eq_true_2 _ Hp), andb_true_r.
    destruct (healthy config s pb br r) eqn:Eh.
    + apply Hgo; unfold status_after; unfold _PROMOTABLE_RUNTIME_STATUSES in Hp; destruct (rs_status r); try done; set_solver.
    + rewrite andb_true_r. case_bool_decide as Hd.
      * destruct (nonempty _ && _); [apply Hgo|eapply Hself; [exact Hd|]]; unfold status_after; by rewrite ?Hd.
      * rewrite (bool_decide_eq_false_2 (rs_status r = RS_READY)), andb_false_r
          by (intros H; rewrite H in Hp; unfold _PROMOTABLE_RUNTIME_STATUSES in Hp; set_solver).
        eapply Hself; [done|]. unfold status_after. unfold _PROMOTABLE_RUNTIME_STATUSES in Hp.
        destruct (rs_status r); try done; set_solver.
  - rewrite (bool_decide_eq_false_2 _ Hp), andb_false_r.
    rewrite (bool_decide_eq_false_2 (rs_status r = RS_DEGRADED))
      by (intros H; rewrite H in Hp; unfold _PROMOTABLE_RUNTIME_STATUSES in Hp; set_solver).
    cbn [andb]. destruct (decide (rs_status r = RS_READY)) as [Hrd|Hrd].
    + rewrite (runtime_ready_eq _ _ _ _ r Hr Hrd), (bool_decide_eq_true_2 _ Hrd), andb_true_r.
      destruct (_ && negb (has_error _)) eqn:E; cbn [negb].
      * eapply Hself; [exact Hrd|]. unfold status_after. by rewrite Hrd, E.
      * apply Hgo; unfold status_after; rewrite ?Hrd, ?E; done.
    + rewrite (bool_decide_eq_false_2 _ Hrd), andb_false_r. eapply Hself; [done|].
      unfold status_after. unfold _PROMOTABLE_RUNTIME_STATUSES in Hp. destruct (rs_status r); try done; set_solver.
Qed.

(** The code lists a starting runtime as promotable, but its transition
    table does not allow it: when such a runtime passes every check, the step
    raises instead of promoting it. *)
Theorem starting_promotion_raises config pb br s r :
  db_runtime s = Some r -> rs_status r = RS_STARTING -> healthy config s pb br r = true ->
  RS_STARTING ∈ _PROMOTABLE_RUNTIME_STATUSES /\
  exists msg, _evaluate_runtime_readiness config pb br s = Raise (InvalidTransition msg).
Proof.
  intros Hr Hst Hh. assert (Hp : rs_status r ∈ _PROMOTABLE_RUNTIME_STATUSES) by (rewrite Hst; by left).
  split; [by left|]. unfold _evaluate_runtime_readiness. fold (effective_probe pb br).
  unfold get_state. rewrite Hr. cbn [or_raise mbind res_bind].
  rewrite (promotion_ready_eq _ _ _ _ r Hr Hp), (bool_decide_eq_true_2 _ Hp), Hh. cbn [andb].
  destruct (transition_invalid s (pb_now (effective_probe pb br)) RS_READY (Some ""%string) None r Hr) as [msg Hm].
  { rewrite Hst. vm_compute. discriminate. }
  exists msg. by rewrite Hm.
Qed.

(** A runtime in a given status, with nothing wrong around it. *)
Definition example_runtime (status : RuntimeStatus) : RuntimeState :=
  {| rs_instance_id := "00000000-0000-0000-0000-000000000001"; rs_status := status; rs_last_error := None;
     rs_started_at := None; rs_heartbeat_at := 0; rs_kill_switch := false; rs_paused := true;
     rs_current_cycle_id := None; rs_version := 1 |}.

Definition empty_store (r : RuntimeState) : PaperStore :=
  {| db_runtime := Some r; db_wallet := None; db_evaluations := []; db_intents := []; db_orders := [];
     db_fills := []; db_positions := []; db_stop_events := []; db_snapshots := []; db_funding := [];
     db_scheduler_runs := []; db_audit := []; db_group_states := []; db_group_rotation_cursor := None |}.

Definition example_trading_config : PaperTradingConfig :=
  {| pc_paper_initial_equity := 10000; pc_paper_fee_rate := 5 # 10000; pc_paper_slippage_bps := 5;
     pc_paper_max_leverage := 2; pc_evaluation_delay_seconds := 5; pc_fill_delay_seconds := 0;
     pc_heartbeat_interval_seconds := 30; pc_stale_runtime_threshold_seconds := 300;
     pc_scheduler_enabled := true; pc_kill_switch_close_policy := FREEZE; pc_funding_enabled := false;
     pc_symbols := ALLOWED_SYMBOLS |}.

Definition example_probe : Probe :=
  {| pb_market_data_ready := true; pb_database_reachable := true; pb_schema := SchemaAtHead;
     pb_advisory_lock := Some true; pb_scheduler_active := true; pb_recovery_active := false;
     pb_now := seconds 10 |}.

Definition example_bridge : Bridge :=
  {| br_overflow := false; br_backlog := false; br_permanent := false; br_deferred := false;
     br_heartbeat_healthy := true; br_last_loop_error := None |}.

Lemma readiness_step_correct_witness :
  let r := example_runtime RS_DEGRADED in
  returns (_evaluate_runtime_readiness example_trading_config example_probe example_bridge (empty_store r))
    (fun s' => exists r', db_runtime s' = Some r' /\
      rs_status r' = status_after (healthy example_trading_config (empty_store r) example_probe example_bridge r) r /\
      rs_paused r' = rs_paused r /\ rs_kill_switch r' = rs_kill_switch r /\
      db_scheduler_runs s' = db_scheduler_runs (empty_store r)) /\
  status_after (healthy example_trading_config (empty_store r) example_probe example_bridge r) r = RS_READY.
Proof. intros r. split; [apply readiness_step_correct; [done|discriminate]|vm_compute; reflexivity]. Defined.

Lemma starting_promotion_raises_witness :
  RS_STARTING ∈ _PROMOTABLE_RUNTIME_STATUSES /\
  exists msg, _evaluate_runtime_readiness example_trading_config example_probe example_bridge
    (empty_store (example_runtime RS_STARTING)) = Raise (InvalidTransition msg).
Proof. apply (starting_promotion_raises _ _ _ _ (example_runtime RS_STARTING)); [done|done|vm_compute; reflexivity]. Defined.
