(* ===== verification/MarketModels.v ===== *)
(** * Data of the market data service (services/market_data/models.py)

    A [MarketTimeframe] has the same canonical values as the strategy engine's
    [Timeframe] and is modelled by it.  The decimals of a candle are finite
    rationals, as everywhere in this library.  The messages of a report are
    values instead of texts. *)
From Stdlib Require Import ZArith QArith.
From stdpp Require Import base list strings.
From S2P Require Import Prelude Decimal StrategyModels.

Inductive MarketSymbol := BTC | ETH | SOL.
#[export] Instance MarketSymbol_eq : EqDecision MarketSymbol.
Proof. solve_decision. Defined.

(** [list(MarketSymbol)] *)
Definition market_symbols : list MarketSymbol := [BTC; ETH; SOL].

(** [symbol.value] *)
Definition symbol_value (s : MarketSymbol) : string :=
  match s with BTC => "BTC" | ETH => "ETH" | SOL => "SOL" end.

Inductive MdStatus := VALID | STALE | INCOMPLETE | INVALID | DISCONNECTED.
#[export] Instance MdStatus_eq : EqDecision MdStatus.
Proof. solve_decision. Defined.

Inductive MarketDataReasonCode :=
  | MD_VALID
  | MD_STALE
  | MD_INCOMPLETE
  | MD_INVALID
  | MD_DISCONNECTED
  | MD_DUPLICATE_IDENTICAL
  | MD_DUPLICATE_CONFLICT
  | MD_GAP_DETECTED
  | MD_BACKFILL_FAILED
  | MD_OPEN_CANDLE_EXCLUDED
  | MD_FUTURE_CANDLE
  | MD_INVALID_OHLC
  | MD_INVALID_VOLUME
  | MD_INVALID_TIMEFRAME
  | MD_UNKNOWN_SYMBOL.
#[export] Instance MarketDataReasonCode_eq : EqDecision MarketDataReasonCode.
Proof. solve_decision. Defined.

Record CandleKey := {
  ck_symbol : MarketSymbol;
  ck_timeframe : Timeframe;
  ck_open_time : datetime;
}.
#[export] Instance CandleKey_eq : EqDecision CandleKey.
Proof. solve_decision. Defined.

(** Provider payload before normalization. *)
Record RawCandle := {
  rc_provider_symbol : string;
  rc_timeframe : Timeframe;
  rc_open_time : datetime;
  rc_close_time : datetime;
  rc_open : decimal;
  rc_high : decimal;
  rc_low : decimal;
  rc_close : decimal;
  rc_volume : decimal;
  rc_is_closed : bool;
}.

(** Validated internal candle representation. *)
Record NormalizedCandle := {
  nc_symbol : MarketSymbol;
  nc_timeframe : Timeframe;
  nc_open_time : datetime;
  nc_close_time : datetime;
  nc_open : decimal;
  nc_high : decimal;
  nc_low : decimal;
  nc_close : decimal;
  nc_volume : decimal;
  nc_is_closed : bool;
}.

(** The property [key]. *)
Definition nc_key (c : NormalizedCandle) : CandleKey :=
  {| ck_symbol := nc_symbol c; ck_timeframe := nc_timeframe c; ck_open_time := nc_open_time c |}.

Definition to_strategy_candle (c : NormalizedCandle) : Candle := {|
  c_symbol := symbol_value (nc_symbol c);
  c_timeframe := nc_timeframe c;
  c_open_time := nc_open_time c;
  c_close_time := nc_close_time c;
  c_open := nc_open c;
  c_high := nc_high c;
  c_low := nc_low c;
  c_close := nc_close c;
  c_volume := nc_volume c;
  c_is_closed := nc_is_closed c;
|}.

Definition with_is_closed (b : bool) (c : NormalizedCandle) : NormalizedCandle := {|
  nc_symbol := nc_symbol c; nc_timeframe := nc_timeframe c;
  nc_open_time := nc_open_time c; nc_close_time := nc_close_time c;
  nc_open := nc_open c; nc_high := nc_high c; nc_low := nc_low c; nc_close := nc_close c;
  nc_volume := nc_volume c; nc_is_closed := b;
|}.

Record CandleGap := {
  cg_symbol : MarketSymbol;
  cg_timeframe : Timeframe;
  cg_missing_open_time : datetime;
  cg_expected_close_time : datetime;
}.

Record CandleConflict := {
  cc_key : CandleKey;
  cc_existing : NormalizedCandle;
  cc_incoming : NormalizedCandle;
}.

Inductive DqMessage :=
  | MNoCandles
  | MNotSorted
  | MMismatch (open_time : datetime)
  | MOverlappingInterval (open_time : datetime)
  | MOverlapOrUnsorted (open_time : datetime)
  | MInsufficientHistory
  | MProblem (code : MarketDataReasonCode)
  | MConflicts (n : nat).

Record DataQualityReport := {
  dr_status : MdStatus;
  dr_reason_codes : list MarketDataReasonCode;
  dr_gaps : list CandleGap;
  dr_conflicts : list CandleConflict;
  dr_missing_ranges : list (datetime * datetime);
  dr_last_known_candle : option NormalizedCandle;
  dr_expected_next_open : option datetime;
  dr_evaluation_time : datetime;
  dr_messages : list DqMessage;
}.

(** The property [is_valid]. *)
Definition dr_is_valid (r : DataQualityReport) : bool := bool_decide (dr_status r = VALID).

(** Closed candles ready for the strategy engine. *)
Record StrategyDataBundle := {
  sb_symbol : MarketSymbol;
  sb_evaluation_time : datetime;
  sb_daily : CandleSeries;
  sb_weekly : CandleSeries;
  sb_monthly : CandleSeries;
  sb_report : DataQualityReport;
}.

(** The property [is_usable]. *)
Definition sb_is_usable (b : StrategyDataBundle) : bool := dr_is_valid (sb_report b).
