(* ===== verification/MarketValidation.v ===== *)
(** * Validation of normalized candles (services/market_data/validation.py)

    Also closed.py (closed-candle filter), stale.py (staleness) and
    merge_policy.py (native candles against aggregated ones).

    The main theorem says what a VALID report promises: [series_ok] is the
    declarative meaning, and [validate_series] returns a VALID report exactly
    for the series that have it.  A weekly or monthly candle that does not open
    at a boundary makes the validation raise, as in the source. *)
From Stdlib Require Import ZArith QArith Lia Sorting.Sorted.
From stdpp Require Import base list strings.
From S2P Require Import Prelude Decimal StrategyModels BtData Timeframes MarketModels.

Local Open Scope Z_scope.

(** ** Definitions *)

(** [value.is_finite()]: the decimals of the model are finite. *)
Definition _is_finite_decimal (value : decimal) : bool := true.

Definition validate_raw_candle (raw : RawCandle) : list MarketDataReasonCode :=
  if negb (forallb _is_finite_decimal [rc_open raw; rc_high raw; rc_low raw; rc_close raw]) then [MD_INVALID_OHLC]
  else if negb (_is_finite_decimal (rc_volume raw)) then [MD_INVALID_VOLUME]
  else if rc_volume raw <ᵈ 0%Q then [MD_INVALID_VOLUME] else [].

Definition validate_candle_structure (candle : NormalizedCandle) : res (list MarketDataReasonCode) :=
  let o := nc_open candle in let h := nc_high candle in let low := nc_low candle in let c := nc_close candle in
  let codes0 := if bool_decide (symbol_value (nc_symbol candle) ∈ symbol_value <$> market_symbols) then []
    else [MD_UNKNOWN_SYMBOL] in
  if negb (forallb _is_finite_decimal [o; h; low; c]) then Ok (fromkeys (codes0 ++ [MD_INVALID_OHLC]))
  else if negb (_is_finite_decimal (nc_volume candle)) then Ok (fromkeys (codes0 ++ [MD_INVALID_VOLUME]))
  else
    duration_ok ← is_valid_timeframe_duration (nc_open_time candle) (nc_close_time candle) (nc_timeframe candle);
    Ok (fromkeys (codes0 ++
      (if (o ≤ᵈ 0%Q) || (h ≤ᵈ 0%Q) || (low ≤ᵈ 0%Q) || (c ≤ᵈ 0%Q) then [MD_INVALID_OHLC] else []) ++
      (if nc_volume candle <ᵈ 0%Q then [MD_INVALID_VOLUME] else []) ++
      (if (h <ᵈ o) || (h <ᵈ c) || (h <ᵈ low) then [MD_INVALID_OHLC] else []) ++
      (if (o <ᵈ low) || (c <ᵈ low) || (h <ᵈ low) then [MD_INVALID_OHLC] else []) ++
      (if nc_close_time candle <=? nc_open_time candle then [MD_INVALID_TIMEFRAME] else []) ++
      (if duration_ok : bool then [] else [MD_INVALID_TIMEFRAME]))).

Definition validate_single_candle (candle : NormalizedCandle) (evaluation_time : datetime)
  : res (list MarketDataReasonCode) :=
  codes ← validate_candle_structure candle;
  Ok (fromkeys (codes ++
    (if negb (is_candle_closed (nc_close_time candle) evaluation_time) then
       if evaluation_time <? nc_close_time candle then [MD_FUTURE_CANDLE] else [MD_OPEN_CANDLE_EXCLUDED]
     else []))).

Definition candles_equal (a b : NormalizedCandle) : bool :=
  bool_decide (nc_symbol a = nc_symbol b) &&
  bool_decide (nc_timeframe a = nc_timeframe b) &&
  (nc_open_time a =? nc_open_time b) &&
  (nc_close_time a =? nc_close_time b) &&
  deqb (nc_open a) (nc_open b) &&
  deqb (nc_high a) (nc_high b) &&
  deqb (nc_low a) (nc_low b) &&
  deqb (nc_close a) (nc_close b) &&
  deqb (nc_volume a) (nc_volume b) &&
  Bool.eqb (nc_is_closed a) (nc_is_closed b).

Definition sort_candles (candles : list NormalizedCandle) : list NormalizedCandle := sort_by nc_open_time candles.

(** The loop of [detect_conflicts] over the sorted candles. *)
Definition conflict_step (symbol : MarketSymbol) (timeframe : Timeframe)
    (s : list (CandleKey * NormalizedCandle) * list CandleConflict) (candle : NormalizedCandle)
  : list (CandleKey * NormalizedCandle) * list CandleConflict :=
  let '(by_key, conflicts) := s in
  if bool_decide (nc_symbol candle = symbol) && bool_decide (nc_timeframe candle = timeframe) then
    let key := nc_key candle in
    match od_get by_key key with
    | Some existing =>
        if negb (candles_equal existing candle) then
          (by_key, conflicts ++ [{| cc_key := key; cc_existing := existing; cc_incoming := candle |}])
        else (od_set by_key key candle, conflicts)
    | None => (od_set by_key key candle, conflicts)
    end
  else s.

Definition detect_conflicts (candles : list NormalizedCandle) (symbol : MarketSymbol) (timeframe : Timeframe)
  : list CandleConflict :=
  (fold_left (conflict_step symbol timeframe) (sort_candles candles) ([], [])).2.

(** [list(a) != list(b)] negated: candle by candle equality. *)
Fixpoint candle_lists_equal (a b : list NormalizedCandle) : bool :=
  match a, b with
  | [], [] => true
  | x :: a', y :: b' => candles_equal x y && candle_lists_equal a' b'
  | _, _ => false
  end.

(** The local variables of the loop of [validate_series]. *)
Record SeriesScan := {
  ss_codes : list MarketDataReasonCode;
  ss_messages : list DqMessage;
  ss_seen_opens : list datetime;
  ss_last_open : option datetime;
  ss_last_candle : option NormalizedCandle;
}.

Definition validate_step (symbol : MarketSymbol) (timeframe : Timeframe) (evaluation_time : datetime)
    (s : SeriesScan) (candle : NormalizedCandle) : res SeriesScan :=
  let mismatch := negb (bool_decide (nc_symbol candle = symbol) && bool_decide (nc_timeframe candle = timeframe)) in
  let o := nc_open_time candle in
  single_codes ← validate_single_candle candle evaluation_time;
  let overlap := match ss_last_candle s with Some last => o <=? nc_close_time last | None => false end in
  let unsorted := match ss_last_open s with Some last => o <=? last | None => false end in
  Ok {|
    ss_codes := ss_codes s ++ (if mismatch then [MD_INVALID] else []) ++ single_codes ++
      (if bool_decide (o ∈ ss_seen_opens s) then [MD_DUPLICATE_CONFLICT] else []) ++
      (if overlap then [MD_INVALID] else []) ++ (if unsorted then [MD_INVALID] else []);
    ss_messages := ss_messages s ++ (if mismatch then [MMismatch o] else []) ++
      (if overlap then [MOverlappingInterval o] else []) ++ (if unsorted then [MOverlapOrUnsorted o] else []);
    ss_seen_opens := o :: ss_seen_opens s;
    ss_last_open := Some o;
    ss_last_candle := Some candle;
  |}.

Definition invalid_codes : list MarketDataReasonCode :=
  [MD_INVALID_OHLC; MD_INVALID_VOLUME; MD_INVALID_TIMEFRAME; MD_DUPLICATE_CONFLICT; MD_UNKNOWN_SYMBOL].

(** The status and the reason codes of a report. *)
Definition series_status (unique_codes : list MarketDataReasonCode) : MdStatus * list MarketDataReasonCode :=
  if existsb (fun c => bool_decide (c ∈ invalid_codes)) unique_codes then (INVALID, unique_codes)
  else if bool_decide (MD_GAP_DETECTED ∈ unique_codes) then (INCOMPLETE, unique_codes)
  else if existsb (fun c => bool_decide (c ∈ [MD_FUTURE_CANDLE; MD_OPEN_CANDLE_EXCLUDED])) unique_codes
  then (INVALID, unique_codes)
  else if bool_decide (unique_codes = []) then (VALID, [MD_VALID])
  else (INVALID, unique_codes).

Definition no_candles_report (evaluation_time : datetime) : DataQualityReport := {|
  dr_status := INCOMPLETE; dr_reason_codes := [MD_INCOMPLETE]; dr_gaps := []; dr_conflicts := [];
  dr_missing_ranges := []; dr_last_known_candle := None; dr_expected_next_open := None;
  dr_evaluation_time := evaluation_time; dr_messages := [MNoCandles];
|}.

Definition validate_series (candles : list NormalizedCandle) (symbol : MarketSymbol) (timeframe : Timeframe)
    (evaluation_time : datetime) (gaps : list CandleGap) (conflicts : list CandleConflict) : res DataQualityReport :=
  if bool_decide (candles = []) then Ok (no_candles_report evaluation_time) else
  let sorted_candles := sort_candles candles in
  let unsorted := negb (candle_lists_equal sorted_candles candles) in
  s ← foldM (validate_step symbol timeframe evaluation_time) sorted_candles
    {| ss_codes := if unsorted then [MD_INVALID] else [];
       ss_messages := if unsorted then [MNotSorted] else [];
       ss_seen_opens := []; ss_last_open := None; ss_last_candle := None |};
  let '(status, codes) := series_status (fromkeys (ss_codes s ++
    (if bool_decide (gaps = []) then [] else [MD_GAP_DETECTED]) ++
    (if bool_decide (conflicts = []) then [] else [MD_DUPLICATE_CONFLICT]))) in
  Ok {|
    dr_status := status;
    dr_reason_codes := codes;
    dr_gaps := gaps;
    dr_conflicts := conflicts;
    dr_missing_ranges := (fun g => (cg_missing_open_time g, cg_expected_close_time g)) <$> gaps;
    dr_last_known_candle := ss_last_candle s;
    dr_expected_next_open := (fun c => next_open_time (nc_open_time c) timeframe) <$> ss_last_candle s;
    dr_evaluation_time := evaluation_time;
    dr_messages := ss_messages s;
  |}.

(** *** closed.py *)

Definition filter_closed_candles (candles : list NormalizedCandle) (evaluation_time : datetime)
  : list NormalizedCandle :=
  List.filter (fun c => is_candle_closed (nc_close_time c) evaluation_time) candles.

Definition mark_closed_state (candle : NormalizedCandle) (evaluation_time : datetime) : NormalizedCandle :=
  let closed := is_candle_closed (nc_close_time candle) evaluation_time in
  if Bool.eqb (nc_is_closed candle) closed then candle else with_is_closed closed candle.

(** *** stale.py *)

Definition is_candle_data_stale (last_candle : option NormalizedCandle) (evaluation_time : datetime) : res bool :=
  match last_candle with
  | None => Ok true
  | Some last =>
      let next_open := next_open_time (nc_open_time last) (nc_timeframe last) in
      expected_next_close ← expected_close_time next_open (nc_timeframe last);
      if negb (is_candle_closed expected_next_close evaluation_time) then Ok false
      else Ok (nc_open_time last <? next_open)
  end.

(** *** merge_policy.py *)

Definition of_series (symbol : MarketSymbol) (timeframe : Timeframe) (c : NormalizedCandle) : bool :=
  bool_decide (nc_symbol c = symbol) && bool_decide (nc_timeframe c = timeframe).

(** [{c.open_time: c for c in native if ...}]. *)
Definition by_open_time (native : list NormalizedCandle) (symbol : MarketSymbol) (timeframe : Timeframe)
  : list (datetime * NormalizedCandle) :=
  fold_left (fun d c => od_set d (nc_open_time c) c) (List.filter (of_series symbol timeframe) native) [].

Definition merge_step (symbol : MarketSymbol) (timeframe : Timeframe)
    (s : list (datetime * NormalizedCandle) * list CandleConflict) (agg : NormalizedCandle)
  : list (datetime * NormalizedCandle) * list CandleConflict :=
  let '(by_open, conflicts) := s in
  if negb (of_series symbol timeframe agg) then s else
  match od_get by_open (nc_open_time agg) with
  | None => (od_set by_open (nc_open_time agg) agg, conflicts)
  | Some existing =>
      if candles_equal existing agg then s else
      (by_open, conflicts ++ [{|
         cc_key := {| ck_symbol := symbol; ck_timeframe := timeframe; ck_open_time := nc_open_time agg |};
         cc_existing := existing; cc_incoming := agg |}])
  end.

Definition merge_native_and_aggregated (native aggregated : list NormalizedCandle) (symbol : MarketSymbol)
    (timeframe : Timeframe) : list NormalizedCandle * list CandleConflict :=
  let '(by_open, conflicts) :=
    fold_left (merge_step symbol timeframe) aggregated (by_open_time native symbol timeframe, []) in
  (sort_candles (od_values by_open), conflicts).

(** ** What a valid report promises *)

Record structure_ok (c : NormalizedCandle) : Prop := {
  st_positive : (0 < nc_open c /\ 0 < nc_high c /\ 0 < nc_low c /\ 0 < nc_close c)%Q;
  st_volume : (0 <= nc_volume c)%Q;
  st_high : (nc_open c <= nc_high c /\ nc_close c <= nc_high c /\ nc_low c <= nc_high c)%Q;
  st_low : (nc_low c <= nc_open c /\ nc_low c <= nc_close c)%Q;
  st_order : nc_open_time c < nc_close_time c;
  st_duration : expected_close_time (nc_open_time c) (nc_timeframe c) = Ok (nc_close_time c);
}.

Record candle_ok (symbol : MarketSymbol) (timeframe : Timeframe) (t : datetime) (c : NormalizedCandle) : Prop := {
  co_symbol : nc_symbol c = symbol;
  co_timeframe : nc_timeframe c = timeframe;
  co_structure : structure_ok c;
  co_closed : nc_close_time c <= t;
}.

Definition before (a b : NormalizedCandle) : Prop := nc_close_time a < nc_open_time b.

Record series_ok (symbol : MarketSymbol) (timeframe : Timeframe) (t : datetime) (candles : list NormalizedCandle)
    : Prop := {
  so_nonempty : candles <> [];
  so_candles : Forall (candle_ok symbol timeframe t) candles;
  so_sorted : StronglySorted before candles;
}.

(** *** Helper lemmas *)

Lemma opt_code_nil {A} (b : bool) (x : A) : (if b then [x] else []) = [] <-> b = false.
Proof. by destruct b. Qed.

Lemma opt_code_nil_else {A} (b : bool) (x : A) : (if b then [] else [x]) = [] <-> b = true.
Proof. by destruct b. Qed.

Lemma symbol_known s : bool_decide (symbol_value s ∈ symbol_value <$> market_symbols) = true.
Proof. by destruct s. Qed.

Lemma structure_codes c codes :
  validate_candle_structure c = Ok codes ->
  (exists close, expected_close_time (nc_open_time c) (nc_timeframe c) = Ok close) /\ (codes = [] <-> structure_ok c).
Proof.
  unfold validate_candle_structure. rewrite symbol_known. cbn [forallb _is_finite_decimal andb negb].
  intros (b & Hb & Hr)%bind_ok. unfold is_valid_timeframe_duration in Hb.
  apply bind_ok in Hb as (close & Hclose & [= <-]). split; [by exists close|].
  injection Hr as <-. rewrite fromkeys_nil. cbn [app]. rewrite !app_nil, !opt_code_nil, opt_code_nil_else, !orb_false_iff.
  rewrite !dleb_gt, !dltb_ge, Z.leb_gt, Z.eqb_eq. split.
  - intros (Hp & Hv & Hh & Hl & Ho & <-). constructor; [tauto|done|tauto|tauto|done|done].
  - intros [Hp Hv Hh Hl Ho Hd]. rewrite Hd in Hclose. injection Hclose as <-. split_and!; first [done | tauto].
Qed.

Lemma structure_returns c :
  (exists close, expected_close_time (nc_open_time c) (nc_timeframe c) = Ok close) ->
  exists codes, validate_candle_structure c = Ok codes.
Proof.
  intros [close Hclose]. unfold validate_candle_structure, is_valid_timeframe_duration. rewrite Hclose.
  cbn. by eexists.
Qed.

Lemma single_codes c t codes :
  validate_single_candle c t = Ok codes ->
  (exists close, expected_close_time (nc_open_time c) (nc_timeframe c) = Ok close) /\
  (codes = [] <-> structure_ok c /\ nc_close_time c <= t).
Proof.
  unfold validate_single_candle. intros (k & Hk & Hr)%bind_ok. injection Hr as <-.
  apply structure_codes in Hk as [Hc Hk]. split; [done|].
  rewrite fromkeys_nil, app_nil, Hk. unfold is_candle_closed.
  destruct (Z.leb_spec (nc_close_time c) t); cbn [negb].
  - naive_solver lia.
  - destruct (Z.ltb_spec t (nc_close_time c)); [|lia]. split; [naive_solver|lia].
Qed.

(** Equality of the code coincides with membership of the same instant. *)
Lemma candles_equal_refl c : candles_equal c c = true.
Proof.
  unfold candles_equal, deqb. rewrite !bool_decide_eq_true_2, !Z.eqb_refl, Bool.eqb_reflx by done.
  by rewrite !(proj2 (Qeq_bool_iff _ _)) by reflexivity.
Qed.

Lemma candle_lists_equal_refl l : candle_lists_equal l l = true.
Proof. induction l as [|c l IH]; cbn; [done|]. by rewrite candles_equal_refl. Qed.

Lemma candle_lists_equal_opens l l' :
  candle_lists_equal l l' = true -> nc_open_time <$> l = nc_open_time <$> l'.
Proof.
  revert l'. induction l as [|c l IH]; intros [|c' l']; cbn; [done..|].
  intros [Hc Hl]%andb_true_iff. unfold candles_equal in Hc. bsimpl. f_equal; [by apply Z.eqb_eq|by apply IH].
Qed.

(** *** The scan of [validate_series] *)

(** What the scan remembers of the candles it has passed. *)
Record scan_inv (s : SeriesScan) : Prop := {
  si_open : ss_last_open s = nc_open_time <$> ss_last_candle s;
  si_seen : forall o, o ∈ ss_seen_opens s -> exists last, ss_last_candle s = Some last /\ o <= nc_open_time last;
}.

Definition after_last (s : SeriesScan) (c : NormalizedCandle) : Prop :=
  forall last, ss_last_candle s = Some last -> before last c.

(** The open times of the candles given to the scan are ordered. *)
Definition opens_after (s : SeriesScan) (l : list NormalizedCandle) : Prop :=
  forall last, ss_last_candle s = Some last -> Forall (fun c => nc_open_time last <= nc_open_time c) l.

Lemma validate_step_inv symbol timeframe t s c s' :
  scan_inv s -> opens_after s [c] -> validate_step symbol timeframe t s c = Ok s' ->
  scan_inv s' /\ ss_last_candle s' = Some c.
Proof.
  intros [Ho Hseen] Hafter (k & Hk & Hr)%bind_ok. injection Hr as <-. split; [|done].
  constructor; cbn; [done|]. intros o [->|Hin]%elem_of_cons; exists c; (split; [done|]); [lia|].
  destruct (Hseen o Hin) as (last & Hl & Hle). specialize (Hafter last Hl).
  apply Forall_cons in Hafter as [Hc _]. lia.
Qed.

Lemma validate_step_codes symbol timeframe t s c s' :
  scan_inv s -> (forall last, ss_last_candle s = Some last -> nc_open_time last < nc_close_time last) ->
  validate_step symbol timeframe t s c = Ok s' ->
  (ss_codes s' = [] <-> ss_codes s = [] /\ candle_ok symbol timeframe t c /\ after_last s c).
Proof.
  intros [Ho Hseen] Hlast (k & Hk & Hr)%bind_ok. injection Hr as <-. cbn.
  apply single_codes in Hk as [_ Hk]. rewrite !app_nil, !opt_code_nil, Hk, negb_false_iff, andb_true_iff.
  rewrite !bool_decide_eq_true, bool_decide_eq_false. rewrite Ho. split.
  - intros (Hc & [Hsym Htf] & [Hst Hcl] & _ & Hover & _). split_and!; [done|by constructor|].
    intros last Hl. rewrite Hl in Hover. unfold before. by apply Z.leb_gt in Hover.
  - intros (Hc & [Hsym Htf Hst Hcl] & Hbefore). split_and!; [done..| | |].
    + intros Hin. destruct (Hseen _ Hin) as (last & Hl & Hle).
      specialize (Hbefore last Hl). specialize (Hlast last Hl). unfold before in Hbefore. lia.
    + destruct (ss_last_candle s) as [last|] eqn:Hl; [|done]. apply Z.leb_gt. by apply Hbefore.
    + destruct (ss_last_candle s) as [last|] eqn:Hl; [|done]. cbn. apply Z.leb_gt.
      specialize (Hbefore last Hl). specialize (Hlast last eq_refl). unfold before in Hbefore. lia.
Qed.

Lemma validate_step_mono symbol timeframe t s c s' :
  validate_step symbol timeframe t s c = Ok s' -> ss_codes s' = [] -> ss_codes s = [].
Proof. intros (k & _ & Hr)%bind_ok. injection Hr as <-. cbn. by intros [H _]%app_nil. Qed.

Lemma scan_mono symbol timeframe t l s s' :
  foldM (validate_step symbol timeframe t) l s = Ok s' -> ss_codes s' = [] -> ss_codes s = [].
Proof.
  revert s. induction l as [|c l IH]; intros s H Hc; [by injection H as <-|].
  cbn in H. apply bind_ok in H as (s1 & H1 & H). eapply validate_step_mono; [exact H1|]. by eapply IH.
Qed.

(** The scan of an ordered list leaves no code exactly when every candle is
    sound and each one closes before the next one opens. *)
Lemma scan_codes symbol timeframe t l s s' :
  scan_inv s -> opens_after s l -> StronglySorted (key_le nc_open_time) l ->
  (forall last, ss_last_candle s = Some last -> nc_open_time last < nc_close_time last) ->
  foldM (validate_step symbol timeframe t) l s = Ok s' ->
  (ss_codes s' = [] <-> ss_codes s = [] /\ Forall (candle_ok symbol timeframe t) l /\
     StronglySorted before l /\ Forall (after_last s) l).
Proof.
  revert s. induction l as [|c l IH]; intros s Hinv Hafter Hs Hlast H.
  { injection H as <-. split; [|naive_solver]. intros Hc. split_and!; try done; constructor. }
  cbn in H. apply bind_ok in H as (s1 & H1 & H). apply StronglySorted_inv in Hs as [Hs Hcl].
  destruct (validate_step_inv symbol timeframe t s c s1 Hinv) as [Hinv1 Hl1]; [|done|].
  { intros last Hl. specialize (Hafter last Hl). apply Forall_cons in Hafter as [Hc _]. by constructor. }
  assert (Hafter1 : opens_after s1 l).
  { intros last Hl. rewrite Hl1 in Hl. by injection Hl as <-. }
  split.
  - intros Hnil. pose proof (scan_mono _ _ _ _ _ _ H Hnil) as Hnil1.
    apply (validate_step_codes symbol timeframe t s c s1 Hinv Hlast H1) in Hnil1 as (Hs0 & Hc & Hb).
    pose proof (st_order _ (co_structure _ _ _ _ Hc)) as Hord.
    apply (IH s1 Hinv1 Hafter1 Hs) in Hnil as (_ & Hf & Hss & Hal);
      [|intros last Hl; rewrite Hl1 in Hl; by injection Hl as <-|done].
    split_and!; [done|by constructor| |].
    + constructor; [done|]. eapply Forall_impl; [exact Hal|]. intros c' Hc'. by apply Hc'.
    + constructor; [done|]. eapply Forall_impl; [exact Hal|]. intros c' Hc' last Hl.
      specialize (Hb last Hl). specialize (Hc' c Hl1). unfold before in *. lia.
  - intros (Hs0 & [Hc Hf]%Forall_cons & [Hss Hbc]%StronglySorted_inv & [Hb Hal]%Forall_cons).
    pose proof (st_order _ (co_structure _ _ _ _ Hc)) as Hord.
    apply (IH s1 Hinv1 Hafter1 Hs); [intros last Hl; rewrite Hl1 in Hl; by injection Hl as <-|done|].
    split_and!; [|done..|].
    + by apply (validate_step_codes symbol timeframe t s c s1 Hinv Hlast H1).
    + eapply Forall_impl; [exact Hbc|]. intros c' Hc' last Hl. rewrite Hl1 in Hl. by injection Hl as <-.
Qed.

Lemma series_status_valid codes : (series_status codes).1 = VALID <-> codes = [].
Proof.
  unfold series_status. split; [|by intros ->].
  repeat case_match; cbn; try done. intros _. by eapply bool_decide_eq_true_1.
Qed.

Lemma before_sorted l :
  Forall (fun c => nc_open_time c < nc_close_time c) l -> StronglySorted before l -> StronglySorted (key_le nc_open_time) l.
Proof.
  induction l as [|c l IH]; [constructor|]. intros [Hc Hf]%Forall_cons [Hs Hb]%StronglySorted_inv.
  constructor; [by apply IH|]. eapply Forall_impl; [exact Hb|]. unfold before, key_le. intros c' H. cbv beta in *. lia.
Qed.

Lemma opens_sorted l l' :
  nc_open_time <$> l = nc_open_time <$> l' ->
  StronglySorted (key_le nc_open_time) l -> StronglySorted (key_le nc_open_time) l'.
Proof.
  revert l'. induction l as [|c l IH]; intros [|c' l'] H Hs; cbn in H; try done.
  injection H as Hc H. apply StronglySorted_inv in Hs as [Hs Hf]. constructor; [by apply IH|].
  rewrite Forall_forall in Hf |- *. intros x Hx. assert (Hx' : nc_open_time x ∈ nc_open_time <$> l).
  { rewrite H. by apply list_elem_of_fmap_2. }
  apply list_elem_of_fmap in Hx' as (y & Hxy & Hy). specialize (Hf y Hy). unfold key_le in *. lia.
Qed.

(** A report is VALID exactly for a sound series without gaps and conflicts. *)
Lemma validate_series_ok symbol timeframe t candles gaps conflicts r :
  validate_series candles symbol timeframe t gaps conflicts = Ok r ->
  (dr_status r = VALID <-> series_ok symbol timeframe t candles /\ gaps = [] /\ conflicts = []).
Proof.
  unfold validate_series. destruct (decide (candles = [])) as [->|Hne].
  { rewrite bool_decide_eq_true_2 by done. intros [= <-]. cbn. split; [done|]. by intros ([Hn _ _] & _). }
  rewrite bool_decide_eq_false_2 by done. intros (s & Hs & Hr)%bind_ok.
  pose proof (series_status_valid (fromkeys (ss_codes s ++ (if bool_decide (gaps = []) then [] else [MD_GAP_DETECTED]) ++
    (if bool_decide (conflicts = []) then [] else [MD_DUPLICATE_CONFLICT])))) as Hst.
  destruct (series_status _) as [status codes]. cbn [fst] in Hst. injection Hr as <-. cbn [dr_status].
  rewrite Hst, fromkeys_nil, !app_nil, !opt_code_nil_else, !bool_decide_eq_true.
  set (s0 := Build_SeriesScan _ _ _ _ _) in Hs.
  assert (Hinv : scan_inv s0) by (constructor; cbn; [done|intros o Ho; by apply elem_of_nil in Ho]).
  rewrite (scan_codes symbol timeframe t (sort_candles candles) s0 s Hinv); [|done|apply sort_by_sorted|done|done].
  cbn [ss_codes s0]. split.
  - intros ((Hsort & Hf & Hss & _) & Hg & Hc). split_and!; [|done..].
    apply opt_code_nil, negb_false_iff, candle_lists_equal_opens in Hsort.
    assert (Hid : sort_candles candles = candles).
    { apply sort_by_id. eapply opens_sorted; [exact Hsort|apply sort_by_sorted]. }
    rewrite Hid in Hf, Hss. by constructor.
  - intros ([_ Hf Hss] & Hg & Hc). split; [|by split].
    assert (Hid : sort_candles candles = candles).
    { apply sort_by_id, before_sorted; [|done]. eapply Forall_impl; [exact Hf|].
      intros c Hco. exact (st_order _ (co_structure _ _ _ _ Hco)). }
    rewrite Hid, candle_lists_equal_refl. split_and!; [done..|].
    apply Forall_forall. intros c _ last Hl. done.
Qed.

(** The scan only raises when an expected close does. *)
Lemma scan_returns symbol timeframe t l s :
  Forall (fun c => exists close, expected_close_time (nc_open_time c) (nc_timeframe c) = Ok close) l ->
  exists s', foldM (validate_step symbol timeframe t) l s = Ok s'.
Proof.
  revert s. induction l as [|c l IH]; intros s Hf; [by eexists|]. apply Forall_cons in Hf as [Hc Hf].
  destruct (structure_returns c Hc) as [k Hk].
  assert (H1 : exists s1, validate_step symbol timeframe t s c = Ok s1).
  { unfold validate_step, validate_single_candle. rewrite Hk. by eexists. }
  destruct H1 as [s1 H1]. cbn [foldM]. rewrite H1. apply IH, Hf.
Qed.

Lemma validate_series_returns symbol timeframe t candles gaps conflicts :
  Forall (fun c => exists close, expected_close_time (nc_open_time c) (nc_timeframe c) = Ok close) candles ->
  exists r, validate_series candles symbol timeframe t gaps conflicts = Ok r.
Proof.
  intros Hf. unfold validate_series. case_bool_decide; [by eexists|].
  edestruct (scan_returns symbol timeframe t (sort_candles candles)) as [s Hs].
  { unfold sort_candles. rewrite sort_by_Permutation. exact Hf. }
  rewrite Hs. cbn. destruct (series_status _). by eexists.
Qed.

(** Fail-closed series validation: for candles that open at boundaries of
    their timeframe [validate_series] returns a report, and the report is VALID
    exactly when the series is non-empty, of the given symbol and timeframe,
    every candle is sound and closed at the evaluation time, each closes before
    the next one opens, and neither gaps nor conflicts were passed. *)
Theorem validate_series_decides symbol timeframe t candles gaps conflicts :
  Forall (fun c => is_open (nc_timeframe c) (nc_open_time c)) candles ->
  returns (validate_series candles symbol timeframe t gaps conflicts) (fun r =>
    dr_is_valid r = true <-> series_ok symbol timeframe t candles /\ gaps = [] /\ conflicts = []).
Proof.
  intros Hf. destruct (validate_series_returns symbol timeframe t candles gaps conflicts) as [r Hr].
  { eapply Forall_impl; [exact Hf|]. intros c Hc. eexists. by apply close_before_next. }
  exists r. split; [done|]. unfold dr_is_valid. rewrite bool_decide_eq_true.
  exact (validate_series_ok _ _ _ _ _ _ _ Hr).
Qed.

(** ** Examples *)

(** A sound candle of any timeframe. *)
Definition example_candle (tf : Timeframe) (o : datetime) : NormalizedCandle := {|
  nc_symbol := BTC; nc_timeframe := tf;
  nc_open_time := o; nc_close_time := next_open_time o tf - seconds 1;
  nc_open := 100 # 1; nc_high := 110 # 1; nc_low := 90 # 1; nc_close := 105 # 1; nc_volume := 1000 # 1;
  nc_is_closed := true;
|}.

Lemma validate_series_decides_witness :
  returns (validate_series [example_candle DAILY 0; example_candle DAILY DAY_US] BTC DAILY (2 * DAY_US) [] []) (fun r =>
    dr_is_valid r = true <->
      series_ok BTC DAILY (2 * DAY_US) [example_candle DAILY 0; example_candle DAILY DAY_US] /\ @nil CandleGap = [] /\ @nil CandleConflict = []).
Proof. apply validate_series_decides. repeat constructor. Defined.

(** The candle's own minutes are not checked: a daily candle that opens at five
    in the morning and closes at the end of the day has the expected duration. *)
Example late_daily_is_sound :
  let c := {| nc_symbol := BTC; nc_timeframe := DAILY; nc_open_time := seconds 18000; nc_close_time := seconds 86399;
    nc_open := 100 # 1; nc_high := 110 # 1; nc_low := 90 # 1; nc_close := 105 # 1; nc_volume := 1000 # 1;
    nc_is_closed := true |} in
  validate_candle_structure c = Ok [] /\ ~ is_open DAILY (nc_open_time c).
Proof. split; [vm_compute; reflexivity|]. intros [H _]. vm_compute in H. discriminate. Qed.

(** The same prices conflict when only the transport flag differs. *)
Example flag_conflicts :
  let native := with_is_closed false (example_candle WEEKLY (-3 * DAY_US)) in
  let aggregated := example_candle WEEKLY (-3 * DAY_US) in
  (merge_native_and_aggregated [native] [aggregated] BTC WEEKLY).2 <> [].
Proof. vm_compute. discriminate. Qed.
