(* ===== verification/MarketWalk.v ===== *)
(** * Walks over the opens of a timeframe

    Gap detection and aggregation (services/market_data/gaps.py and
    aggregation.py) advance a cursor with [next_open_time] and collect results
    on the way.  This file has the order of the opens and one lemma,
    [walk_total], about every such loop: it terminates, and it has visited
    exactly the opens in its range, in order. *)
From Stdlib Require Import ZArith Lia Sorting.Sorted.
From stdpp Require Import base list strings.
From S2P Require Import Prelude StrategyModels BtData Timeframes.

Local Open Scope Z_scope.

(** More rounds than there are days up to [stop]. *)
Definition walk_fuel (cursor stop : datetime) : positive := Z.to_pos ((stop - cursor) / DAY_US + 2).

(** A [while] loop with a cursor and the results so far. *)
Definition run_walk {B} (body : datetime * list B -> (datetime * list B) + res (list B))
    (stop cursor : datetime) (acc : list B) : res (list B) :=
  match loop body (walk_fuel cursor stop) (cursor, acc) with
  | inr r => r
  | inl _ => Raise LoopFuel
  end.

(** ** The order of opens *)

Lemma next_open_later tf o : is_open tf o -> o + DAY_US <= next_open_time o tf.
Proof.
  intros [Hmid Ho]. pose proof (midnight o Hmid) as Hm. destruct tf; cbn [next_open_time]; [lia|unfold DAY_US, seconds; lia|].
  rewrite next_month_eq. set (n := day_number o) in *. unfold day_of in Ho. fold n in Ho.
  apply first_of_month_index in Ho. pose proof (first_of_succ (month_index n)) as Hs. rewrite <- Ho in Hs.
  rewrite Hm. unfold DAY_US, seconds. nia.
Qed.

(** The next open is the least later one. *)
Lemma next_open_least tf o o' : is_open tf o -> is_open tf o' -> o < o' -> next_open_time o tf <= o'.
Proof.
  intros Ho Ho' Hlt. destruct (Z.le_gt_cases (next_open_time o tf) o') as [|Hgt]; [done|].
  assert (H1 : o = open_containing tf o') by (apply open_unique; [done|unfold in_candle; lia]).
  assert (H2 : o' = open_containing tf o').
  { apply open_unique; [done|]. pose proof (next_open_later tf o' Ho'). unfold in_candle, DAY_US, seconds in *. lia. }
  lia.
Qed.

Definition close_of (tf : Timeframe) (o : datetime) : datetime := next_open_time o tf - seconds 1.

Lemma close_of_mono tf o o' : is_open tf o -> is_open tf o' -> o < o' -> close_of tf o < close_of tf o'.
Proof.
  intros Ho Ho' Hlt. pose proof (next_open_least tf o o' Ho Ho' Hlt). pose proof (next_open_later tf o' Ho').
  unfold close_of, DAY_US, seconds in *. lia.
Qed.

Lemma open_lt_close tf o : is_open tf o -> o < close_of tf o.
Proof. intros Ho. pose proof (next_open_later tf o Ho). unfold close_of, DAY_US, seconds in *. lia. Qed.

(** ** The loops list opens *)

(** [lists_opens tf lo P l]: [l] is the ordered list of the opens from [lo]
    that satisfy [P]. *)
Record lists_opens (tf : Timeframe) (lo : datetime) (P : datetime -> Prop) (l : list datetime) : Prop := {
  lo_sorted : StronglySorted Z.lt l;
  lo_elem : forall o, o ∈ l <-> is_open tf o /\ lo <= o /\ P o;
}.

Lemma lists_opens_nil tf lo P : (forall o, is_open tf o -> lo <= o -> ~ P o) -> lists_opens tf lo P [].
Proof. intros H. constructor; [constructor|]. intros o. split; [by intros ?%elem_of_nil|naive_solver]. Qed.

Lemma lists_opens_ext tf lo (P Q : datetime -> Prop) l :
  (forall o, is_open tf o -> lo <= o -> P o <-> Q o) -> lists_opens tf lo P l -> lists_opens tf lo Q l.
Proof. intros H [Hs He]. constructor; [done|]. intros o. rewrite He. naive_solver. Qed.

Lemma sorted_snoc l (x : Z) : StronglySorted Z.lt l -> Forall (fun y => y < x) l -> StronglySorted Z.lt (l ++ [x]).
Proof.
  induction l as [|y l IH]; cbn; [by repeat constructor|]. intros [Hs Hy]%StronglySorted_inv [Hyx Hl]%Forall_cons.
  constructor; [by apply IH|]. apply Forall_app. split; [done|by constructor].
Qed.

Lemma lists_opens_snoc tf lo o l :
  is_open tf o -> lo <= o -> lists_opens tf lo (fun x => x < o) l ->
  lists_opens tf lo (fun x => x < next_open_time o tf) (l ++ [o]).
Proof.
  intros Ho Hle [Hs He]. constructor.
  - apply sorted_snoc; [done|]. apply Forall_forall. intros x (_ & _ & Hx)%He. exact Hx.
  - intros x. rewrite elem_of_app, list_elem_of_singleton, He. split.
    + pose proof (next_open_later tf o Ho). unfold DAY_US, seconds in *.
      intros [(Hx & Hlo & Hlt)| ->]; split_and!; try done; lia.
    + intros (Hx & Hlo & Hlt). destruct (Z.lt_trichotomy x o) as [?|[?|Hgt]]; [by left|by right|].
      pose proof (next_open_least tf o x Ho Hx Hgt). lia.
Qed.

(** ** Loops *)

Section Walk.
Context {B : Type} (tf : Timeframe) (f : datetime -> option B).

(** The results so far are those of the opens before the cursor. *)
Definition walk_state (lo : datetime) (acc0 : list B) (s : datetime * list B) : Prop :=
  is_open tf s.1 /\ lo <= s.1 /\
  exists l, s.2 = acc0 ++ omap f l /\ lists_opens tf lo (fun o => o < s.1) l.

Definition walk_result (lo : datetime) (acc0 : list B) (P : datetime -> Prop) (r : res (list B)) : Prop :=
  exists l, r = Ok (acc0 ++ omap f l) /\ lists_opens tf lo P l.

Lemma walk_state_init lo acc0 : is_open tf lo -> walk_state lo acc0 (lo, acc0).
Proof.
  intros Ho. split_and!; [done|cbn; lia|]. exists []. split; [by rewrite app_nil_r|].
  apply lists_opens_nil. cbn. lia.
Qed.

Lemma walk_state_next lo acc0 cursor acc :
  walk_state lo acc0 (cursor, acc) ->
  walk_state lo acc0 (next_open_time cursor tf, acc ++ option_list (f cursor)).
Proof.
  intros (Ho & Hle & l & Hg & Hl). cbn [fst snd] in *. pose proof (next_open_later tf cursor Ho).
  split_and!; [by apply next_is_open|cbn; unfold DAY_US, seconds in *; lia|]. exists (l ++ [cursor]). split.
  - cbn. rewrite Hg, omap_app, <- app_assoc. cbn. by destruct (f cursor).
  - by apply lists_opens_snoc.
Qed.

(** The measure: the days left. *)
Definition days_left (stop : datetime) (s : datetime * list B) : Z := Z.max 0 ((stop - s.1) / DAY_US + 1).

Lemma days_left_dec stop lo acc0 cursor acc acc' :
  walk_state lo acc0 (cursor, acc) -> cursor <= stop ->
  days_left stop (next_open_time cursor tf, acc') + 1 <= days_left stop (cursor, acc).
Proof.
  intros (Ho & _) Hle. cbn [fst] in Ho. pose proof (next_open_later tf cursor Ho) as Hn. unfold days_left. cbn [fst].
  unfold DAY_US, seconds in *. Z.to_euclidean_division_equations; lia.
Qed.

(** A loop whose body either stops with the right results or records the one at
    the cursor and advances, which keeps [I] true of the cursor. *)
Lemma walk_total (body : datetime * list B -> (datetime * list B) + res (list B))
    (stop lo : datetime) (acc0 : list B) (I P : datetime -> Prop) :
  is_open tf lo -> I lo ->
  (forall s, walk_state lo acc0 s -> I s.1 ->
    match body s with
    | inl s' => s.1 <= stop /\ s' = (next_open_time s.1 tf, s.2 ++ option_list (f s.1)) /\ I (next_open_time s.1 tf)
    | inr r => walk_result lo acc0 P r
    end) ->
  walk_result lo acc0 P (run_walk body stop lo acc0).
Proof.
  intros Hlo HI Hbody. unfold run_walk.
  destruct (loop_total body (fun s => walk_state lo acc0 s /\ I s.1) (walk_result lo acc0 P)) with (m := days_left stop)
    (n := walk_fuel lo stop) (s := (lo, acc0)) as (r & Hr & HQ).
  - intros s [Hs Hi]. specialize (Hbody s Hs Hi). destruct (body s) as [s'|r]; [|done].
    destruct Hbody as (_ & -> & Hn). destruct s as [cursor acc]. split; [by apply walk_state_next|done].
  - intros s s' [Hs Hi] E. specialize (Hbody s Hs Hi). rewrite E in Hbody. destruct Hbody as (Hle & -> & _).
    destruct s as [cursor acc]. by eapply days_left_dec.
  - split; [by apply walk_state_init|done].
  - intros s _. unfold days_left. lia.
  - unfold days_left, walk_fuel. cbn [fst]. destruct (Z.le_gt_cases (-1) ((stop - lo) / DAY_US)).
    + rewrite Z2Pos.id by lia. lia.
    + replace (Z.max 0 _) with 0 by lia. lia.
  - by rewrite Hr.
Qed.

Lemma state_result lo acc0 cursor acc (P : datetime -> Prop) :
  walk_state lo acc0 (cursor, acc) -> (forall o, is_open tf o -> lo <= o -> o < cursor <-> P o) ->
  walk_result lo acc0 P (Ok acc).
Proof.
  intros (_ & _ & l & Hg & Hl) HP. cbn [fst snd] in *. exists l. split; [by rewrite Hg|].
  eapply lists_opens_ext; [|exact Hl]. exact HP.
Qed.
End Walk.

Lemma expected_close_open tf o : is_open tf o -> expected_close_time o tf = Ok (close_of tf o).
Proof. apply close_before_next. Qed.

Lemma omap_total {A B} (g : A -> B) (l : list A) : omap (fun o => Some (g o)) l = g <$> l.
Proof. induction l as [|o l IH]; cbn; [done|]. by rewrite IH. Qed.

Lemma omap_filter_none {A B} (g : A -> option B) (p : A -> bool) (l : list A) :
  (forall x, x ∈ l -> p x = false -> g x = None) -> omap g l = omap g (List.filter p l).
Proof.
  induction l as [|x l IH]; intros H; cbn; [done|].
  assert (IH' : omap g l = omap g (List.filter p l)) by (apply IH; intros y Hy; apply H; by right).
  destruct (p x) eqn:E; cbn; [by rewrite IH'|]. rewrite (H x (list_elem_of_here x l) E). exact IH'.
Qed.
