(* ===== verification/MarketGaps.v ===== *)
(** * Gap detection (services/market_data/gaps.py)

    The two [while] loops of [detect_gaps] walk the opens of a timeframe with
    [next_open_time].  Each round advances by at least a day, so the number of
    days to the end of the loop bounds its rounds ([walk_fuel]).

    [missing_open] is the reference definition: the opens after the first
    candle that no candle has and whose candle should be there.  The main
    theorem says that the loops list exactly those, in order. *)
From Stdlib Require Import ZArith QArith Lia Sorting.Sorted.
From stdpp Require Import base list strings.
From S2P Require Import Prelude Decimal StrategyModels BtData Timeframes MarketWalk.
From S2P Require Import MarketModels MarketValidation.

Local Open Scope Z_scope.

(** ** Definitions *)

Definition gap_at (symbol : MarketSymbol) (timeframe : Timeframe) (cursor close : datetime) : CandleGap :=
  {| cg_symbol := symbol; cg_timeframe := timeframe; cg_missing_open_time := cursor; cg_expected_close_time := close |}.

(** One round of the loop between two candles; it ends at [stop]. *)
Definition between_body (symbol : MarketSymbol) (timeframe : Timeframe) (stop : datetime)
    (s : datetime * list CandleGap) : (datetime * list CandleGap) + res (list CandleGap) :=
  let '(cursor, gaps) := s in
  if cursor <? stop then
    match expected_close_time cursor timeframe with
    | Ok close => inl (next_open_time cursor timeframe, gaps ++ [gap_at symbol timeframe cursor close])
    | Raise e => inr (Raise e)
    end
  else inr (Ok gaps).

(** One round of the loop after the last candle. *)
Definition trailing_body (symbol : MarketSymbol) (timeframe : Timeframe) (evaluation_time : datetime)
    (s : datetime * list CandleGap) : (datetime * list CandleGap) + res (list CandleGap) :=
  let '(cursor, gaps) := s in
  if cursor <=? evaluation_time then
    match expected_close_time cursor timeframe with
    | Ok close =>
        if evaluation_time <? close then inr (Ok gaps)
        else inl (next_open_time cursor timeframe, gaps ++ [gap_at symbol timeframe cursor close])
    | Raise e => inr (Raise e)
    end
  else inr (Ok gaps).

(** The loop over consecutive candles, and the one after the last. *)
Fixpoint detect_sorted (symbol : MarketSymbol) (timeframe : Timeframe) (evaluation_time : datetime)
    (sorted_candles : list NormalizedCandle) (gaps : list CandleGap) : res (list CandleGap) :=
  match sorted_candles with
  | [] => Ok gaps
  | [last] =>
      run_walk (trailing_body symbol timeframe evaluation_time) evaluation_time
        (next_open_time (nc_open_time last) timeframe) gaps
  | current :: ((nxt :: _) as rest) =>
      gaps ← run_walk (between_body symbol timeframe (nc_open_time nxt)) (nc_open_time nxt)
        (next_open_time (nc_open_time current) timeframe) gaps;
      detect_sorted symbol timeframe evaluation_time rest gaps
  end.

Definition detect_gaps (candles : list NormalizedCandle) (symbol : MarketSymbol) (timeframe : Timeframe)
    (evaluation_time : datetime) : res (list CandleGap) :=
  detect_sorted symbol timeframe evaluation_time (sort_candles candles) [].

(** ** The loops list opens *)

(** The gap of an open. *)
Definition open_gap (symbol : MarketSymbol) (tf : Timeframe) (o : datetime) : CandleGap := gap_at symbol tf o (close_of tf o).

Section Loops.
Context (symbol : MarketSymbol) (tf : Timeframe).

Notation gap_option := (fun o => Some (open_gap symbol tf o)).

(** The loop between two candles lists the opens strictly between them. *)
Lemma between_lists gaps0 current nxt :
  is_open tf current -> is_open tf nxt -> current < nxt ->
  walk_result tf gap_option (next_open_time current tf) gaps0 (fun o => o < nxt)
    (run_walk (between_body symbol tf nxt) nxt (next_open_time current tf) gaps0).
Proof.
  intros Hc Hn Hlt. apply (walk_total _ _ _ _ _ _ (fun c => c <= nxt));
    [by apply next_is_open|by apply next_open_least|]. intros [cursor gaps] Hs Hle.
  pose proof Hs as (Ho & _). cbn [fst snd] in *. unfold between_body.
  destruct (Z.ltb_spec cursor nxt) as [Hcn|Hcn].
  - rewrite expected_close_open by done. split_and!; [lia|done|by apply next_open_least].
  - eapply state_result; [exact Hs|]. intros o _ _. lia.
Qed.

(** The loop after the last candle lists the opens whose candle has closed. *)
Lemma trailing_lists gaps0 last t :
  is_open tf last ->
  walk_result tf gap_option (next_open_time last tf) gaps0 (fun o => close_of tf o <= t)
    (run_walk (trailing_body symbol tf t) t (next_open_time last tf) gaps0).
Proof.
  intros Hlast. apply (walk_total _ _ _ _ _ _ (fun c => forall o, is_open tf o -> o < c ->
    next_open_time last tf <= o -> close_of tf o <= t)); [by apply next_is_open|lia|].
  intros [cursor gaps] Hs HI. pose proof Hs as (Ho & Hle & _). cbn [fst snd] in *. unfold trailing_body.
  pose proof (open_lt_close tf cursor Ho) as Hoc.
  assert (Hstop : t < close_of tf cursor -> walk_result tf gap_option (next_open_time last tf) gaps0 (fun o => close_of tf o <= t) (Ok gaps)).
  { intros Ht. eapply state_result; [exact Hs|]. intros o Hoo Hlo. split; [by intros; apply HI|].
    intros Hcl. destruct (Z.lt_trichotomy o cursor) as [?|[->|Hgt]]; [done|lia|].
    pose proof (close_of_mono tf cursor o Ho Hoo Hgt). lia. }
  destruct (Z.leb_spec cursor t) as [Hct|Hct]; [|apply Hstop; lia].
  rewrite expected_close_open by done. destruct (Z.ltb_spec t (close_of tf cursor)) as [Hlt|Hge]; [by apply Hstop|].
  split_and!; [lia|done|]. intros o Hoo Hlt Hlo.
  destruct (Z.lt_trichotomy o cursor) as [?|[->|Hgt]]; [by apply HI|done|].
  pose proof (next_open_least tf cursor o Ho Hoo Hgt). lia.
Qed.
End Loops.

(** ** The reference definition *)

(** The candles are of one timeframe: each opens at a boundary, and later than
    the one before. *)
Definition aligned (tf : Timeframe) (l : list NormalizedCandle) : Prop :=
  Forall (fun c => is_open tf (nc_open_time c)) l /\ StronglySorted (key_lt nc_open_time) l.

(** A candle of the timeframe is missing at [o]: it would come after the first
    candle [first], no candle opens there, and either a later candle exists or
    the missing one would have closed by [t]. *)
Definition missing_open (tf : Timeframe) (t : datetime) (l : list NormalizedCandle) (o : datetime) : Prop :=
  is_open tf o /\ o ∉ nc_open_time <$> l /\
  (exists c, c ∈ l /\ nc_open_time c < o) /\
  ((exists c, c ∈ l /\ o < nc_open_time c) \/ close_of tf o <= t).

Lemma lists_sorted tf lo P l : lists_opens tf lo P l -> Forall (fun o => lo <= o) l.
Proof. intros [_ He]. apply Forall_forall. intros o (_ & Ho & _)%He. exact Ho. Qed.

Lemma sorted_app l1 l2 :
  StronglySorted Z.lt l1 -> StronglySorted Z.lt l2 -> (forall x y, x ∈ l1 -> y ∈ l2 -> x < y) ->
  StronglySorted Z.lt (l1 ++ l2).
Proof.
  intros H1 H2 H. induction l1 as [|x l1 IH]; cbn; [done|]. apply StronglySorted_inv in H1 as [H1 Hx].
  constructor.
  - apply IH; [done|]. intros a b Ha Hb. apply H; [by right|done].
  - apply Forall_app. split; [done|]. apply Forall_forall. intros y Hy. apply H; [by left|done].
Qed.

Lemma aligned_cons tf c l :
  aligned tf (c :: l) ->
  is_open tf (nc_open_time c) /\ aligned tf l /\ forall x, x ∈ l -> nc_open_time c < nc_open_time x.
Proof.
  intros [[Hc Hf]%Forall_cons [Hs Hl]%StronglySorted_inv]. split_and!; [done|by split|].
  by apply Forall_forall.
Qed.

Lemma missing_last tf t c o :
  is_open tf (nc_open_time c) ->
  missing_open tf t [c] o <-> is_open tf o /\ next_open_time (nc_open_time c) tf <= o /\ close_of tf o <= t.
Proof.
  intros Hc. unfold missing_open. pose proof (next_open_later tf _ Hc) as Hn. unfold DAY_US, seconds in Hn.
  split.
  - intros (Ho & _ & (c1 & ->%list_elem_of_singleton & Hlt) & Hor). split_and!; [done|by apply next_open_least|].
    destruct Hor as [(c2 & ->%list_elem_of_singleton & Hgt)|Hle]; [lia|done].
  - intros (Ho & Hle & Ht). split_and!; [done| | |by right].
    + cbn. rewrite list_elem_of_singleton. lia.
    + exists c. split; [by apply list_elem_of_singleton|lia].
Qed.

Lemma missing_cons tf t c n l o :
  aligned tf (c :: n :: l) ->
  missing_open tf t (c :: n :: l) o <->
    (is_open tf o /\ next_open_time (nc_open_time c) tf <= o /\ o < nc_open_time n) \/ missing_open tf t (n :: l) o.
Proof.
  intros (Hc & Hnl & Hall)%aligned_cons. pose proof (next_open_later tf _ Hc) as Hlater. unfold DAY_US, seconds in Hlater.
  assert (Hn : forall x, x ∈ n :: l -> nc_open_time n <= nc_open_time x).
  { apply aligned_cons in Hnl as (_ & _ & Hl). intros x [->|Hx]%elem_of_cons; [lia|]. specialize (Hl x Hx). lia. }
  pose proof (Hall n (list_elem_of_here n l)) as Hcn. unfold missing_open. split.
  - intros (Ho & Hnin & (c1 & Hc1 & Hlt) & Hor). rewrite fmap_cons, not_elem_of_cons in Hnin. destruct Hnin as [Hoc Hnin].
    assert (Hco : nc_open_time c < o).
    { apply elem_of_cons in Hc1 as [->|Hc1]; [done|]. specialize (Hall c1 Hc1). lia. }
    assert (Hon : o <> nc_open_time n) by (intros ->; apply Hnin, list_elem_of_fmap_2, list_elem_of_here).
    destruct (Z.lt_trichotomy o (nc_open_time n)) as [Hl|[?|Hg]]; [left|done|right].
    + split_and!; [done|by apply next_open_least|done].
    + split_and!; [done..|by exists n; split; [apply list_elem_of_here|]|].
      destruct Hor as [(c2 & [->|Hc2]%elem_of_cons & Hgt)|Hle]; [lia|left; by exists c2|by right].
  - intros [(Ho & Hle & Hlt)|(Ho & Hnin & (c1 & Hc1 & Hlt) & Hor)].
    + split_and!; [done| |exists c; split; [apply list_elem_of_here|lia]|].
      * intros (x & -> & [->|Hx]%elem_of_cons)%list_elem_of_fmap; [lia|]. specialize (Hn x Hx). lia.
      * left. exists n. split; [by right; left|done].
    + pose proof (Hn c1 Hc1). split_and!; [done| |exists c; split; [apply list_elem_of_here|lia]|].
      * rewrite fmap_cons, not_elem_of_cons. split; [lia|done].
      * destruct Hor as [(c2 & Hc2 & Hgt)|Hle]; [left; exists c2; split; [by right|done]|by right].
Qed.

Lemma detect_sorted_cons symbol tf t c n l gaps :
  detect_sorted symbol tf t (c :: n :: l) gaps =
    (run_walk (between_body symbol tf (nc_open_time n)) (nc_open_time n) (next_open_time (nc_open_time c) tf) gaps
       ≫= detect_sorted symbol tf t (n :: l)).
Proof. reflexivity. Qed.

Lemma detect_sorted_lists symbol tf t l gaps0 :
  aligned tf l ->
  exists os, detect_sorted symbol tf t l gaps0 = Ok (gaps0 ++ (open_gap symbol tf <$> os)) /\
    StronglySorted Z.lt os /\ forall o, o ∈ os <-> missing_open tf t l o.
Proof.
  revert gaps0. induction l as [|c l IH]; intros gaps0 Hal.
  { exists []. split_and!; [by rewrite app_nil_r|constructor|]. intros o. split; [by intros ?%elem_of_nil|].
    by intros (_ & _ & (c & ?%elem_of_nil & _) & _). }
  destruct (aligned_cons _ _ _ Hal) as (Hc & Hl & Hall). destruct l as [|n l].
  - destruct (trailing_lists symbol tf gaps0 (nc_open_time c) t Hc) as (os & Hr & Hos).
    rewrite omap_total in Hr. exists os. split_and!; [exact Hr|apply Hos|]. intros o. rewrite missing_last by done. apply Hos.
  - destruct (aligned_cons _ _ _ Hl) as (Hn & _ & Hnall). pose proof (Hall n (list_elem_of_here n l)) as Hcn.
    rewrite detect_sorted_cons. destruct (between_lists symbol tf gaps0 _ _ Hc Hn Hcn) as (os1 & -> & Hos1).
    cbn [mbind res_bind]. rewrite omap_total.
    destruct (IH (gaps0 ++ (open_gap symbol tf <$> os1)) Hl) as (os2 & -> & Hs2 & Hos2).
    exists (os1 ++ os2). split_and!.
    + by rewrite fmap_app, app_assoc.
    + apply sorted_app; [apply Hos1|done|]. intros x y (_ & _ & Hx)%Hos1 (_ & _ & (c1 & Hc1 & Hy) & _)%Hos2.
      apply elem_of_cons in Hc1 as [->|Hc1]; [lia|]. specialize (Hnall c1 Hc1). lia.
    + intros o. rewrite elem_of_app, missing_cons, Hos2 by done. destruct Hos1 as [_ He]. rewrite He. done.
Qed.

(** The loops return for any aligned candles at different times. *)
Lemma detect_gaps_lists symbol tf t candles :
  Forall (fun c => is_open tf (nc_open_time c)) candles -> NoDup (nc_open_time <$> candles) ->
  exists os, detect_gaps candles symbol tf t = Ok (open_gap symbol tf <$> os) /\
    StronglySorted Z.lt os /\ forall o, o ∈ os <-> missing_open tf t candles o.
Proof.
  intros Hf Hnd. unfold detect_gaps. set (l := sort_candles candles).
  assert (Hp : l ≡ₚ candles) by apply sort_by_Permutation.
  assert (Hal : aligned tf l).
  { split; [by rewrite Hp|]. by apply sort_by_strict. }
  destruct (detect_sorted_lists symbol tf t l [] Hal) as (os & Hr & Hs & Hos). exists os. split_and!; [done|done|].
  intros o. rewrite Hos. unfold missing_open. by setoid_rewrite Hp.
Qed.

(** [C38] Gap detection is complete and exact: for candles that open at
    boundaries of the timeframe, in any order but at different times, both loops
    terminate and [detect_gaps] reports, in chronological order and with the
    expected close, exactly the opens at which a closed candle is missing after
    the first one. *)
Theorem detect_gaps_exact symbol tf t candles :
  Forall (fun c => is_open tf (nc_open_time c)) candles ->
  NoDup (nc_open_time <$> candles) ->
  returns (detect_gaps candles symbol tf t) (fun gaps =>
    StronglySorted Z.lt (cg_missing_open_time <$> gaps) /\
    (forall o, o ∈ cg_missing_open_time <$> gaps <-> missing_open tf t candles o) /\
    Forall (fun g => g = gap_at symbol tf (cg_missing_open_time g) (next_open_time (cg_missing_open_time g) tf - seconds 1)) gaps).
Proof.
  intros Hf Hnd. destruct (detect_gaps_lists symbol tf t candles Hf Hnd) as (os & Hr & Hs & Hos).
  exists (open_gap symbol tf <$> os). split; [done|].
  assert (Hm : cg_missing_open_time <$> (open_gap symbol tf <$> os) = os).
  { rewrite <- list_fmap_compose. apply list_fmap_id. }
  rewrite Hm. split_and!; [done|done|].
  apply Forall_forall. intros g (o & -> & _)%list_elem_of_fmap. done.
Qed.

(** Days one and two are missing between days zero and three; at the end of day
    four, day four is missing as well. *)
Example gaps_found :
  match detect_gaps [example_candle DAILY (3 * DAY_US); example_candle DAILY 0] BTC DAILY (5 * DAY_US - seconds 1) with
  | Ok gaps => cg_missing_open_time <$> gaps
  | Raise _ => []
  end = [DAY_US; 2 * DAY_US; 4 * DAY_US].
Proof. vm_compute. reflexivity. Qed.

Lemma detect_gaps_exact_witness :
  let candles := [example_candle DAILY (3 * DAY_US); example_candle DAILY 0] in
  let t := 5 * DAY_US - seconds 1 in
  returns (detect_gaps candles BTC DAILY t) (fun gaps =>
    StronglySorted Z.lt (cg_missing_open_time <$> gaps) /\
    (forall o, o ∈ cg_missing_open_time <$> gaps <-> missing_open DAILY t candles o) /\
    Forall (fun g => g = gap_at BTC DAILY (cg_missing_open_time g) (next_open_time (cg_missing_open_time g) DAILY - seconds 1)) gaps).
Proof.
  apply detect_gaps_exact; [repeat constructor|].
  apply NoDup_cons. split; [|apply NoDup_singleton]. intros H%list_elem_of_singleton. vm_compute in H. discriminate.
Defined.
