(* ===== verification/MarketAggregation.v ===== *)
(** * Weekly and monthly candles from daily ones (services/market_data/aggregation.py)

    A bucket is aggregated only when its candle has closed and every day of it
    is present.  [complete_bucket] and [aggregates] say this declaratively; the
    main theorem gives both aggregation functions this meaning.  The [while]
    loops over weeks, months and days are walks ([MarketWalk]). *)
From Stdlib Require Import ZArith QArith Lia Sorting.Sorted.
From stdpp Require Import base list sets gmap strings.
From S2P Require Import Prelude Decimal StrategyModels BtData Timeframes MarketWalk.
From S2P Require Import MarketModels MarketValidation.

Local Open Scope Z_scope.

(** ** Definitions *)

Definition in_bucket (bucket_open bucket_close : datetime) (d : NormalizedCandle) : bool :=
  (bucket_open <=? nc_open_time d) && (nc_open_time d <=? bucket_close).

Definition _aggregate_bucket (dailies : list NormalizedCandle) (symbol : MarketSymbol) (timeframe : Timeframe)
    (bucket_open bucket_close evaluation_time : datetime) (required_days : gset Z) : res (option NormalizedCandle) :=
  if negb (is_candle_closed bucket_close evaluation_time) then Ok None else
  let members := List.filter (in_bucket bucket_open bucket_close) dailies in
  if bool_decide (members = []) then Ok None else
  let present : gset Z := list_to_set ((fun d => daily_open (nc_open_time d)) <$> members) in
  if negb (bool_decide (present = required_days)) then Ok None else
  let ordered := sort_candles members in
  first ← or_raise IndexError (head ordered);
  final ← or_raise IndexError (last ordered);
  high ← dmaximum (nc_high <$> ordered);
  low ← dminimum (nc_low <$> ordered);
  Ok (Some {|
    nc_symbol := symbol; nc_timeframe := timeframe;
    nc_open_time := bucket_open; nc_close_time := bucket_close;
    nc_open := nc_open first; nc_high := high; nc_low := low; nc_close := nc_close final;
    nc_volume := dsum (nc_volume <$> ordered); nc_is_closed := true;
  |}).

Definition _day_range (start : datetime) (count : Z) : gset Z :=
  list_to_set ((fun i => start + i * DAY_US) <$> seqZ 0 count).

Definition month_day_body (stop : datetime) (s : datetime * list datetime)
  : (datetime * list datetime) + res (list datetime) :=
  let '(cursor, days) := s in
  if cursor <=? stop then inl (cursor + DAY_US, days ++ [cursor]) else inr (Ok days).

Definition _month_day_range (month_start : datetime) : res (gset Z) :=
  close ← monthly_close month_start;
  (* close.replace(hour=0, minute=0, second=0) keeps the microsecond *)
  let stop := daily_open close + close mod 1000000 in
  days ← run_walk (month_day_body stop) stop month_start [];
  Ok (list_to_set days).

Definition of_symbol (symbol : MarketSymbol) (d : NormalizedCandle) : bool := bool_decide (nc_symbol d = symbol).

Definition weekly_body (dailies : list NormalizedCandle) (symbol : MarketSymbol) (evaluation_time last_day : datetime)
    (s : datetime * list NormalizedCandle) : (datetime * list NormalizedCandle) + res (list NormalizedCandle) :=
  let '(week_start, weeks) := s in
  if week_start <=? last_day then
    match
      week_close ← weekly_close week_start;
      _aggregate_bucket dailies symbol WEEKLY week_start week_close evaluation_time (_day_range week_start 7)
    with
    | Ok agg => inl (week_start + 7 * DAY_US, weeks ++ option_list agg)
    | Raise e => inr (Raise e)
    end
  else inr (Ok weeks).

Definition aggregate_weekly_from_daily (dailies : list NormalizedCandle) (symbol : MarketSymbol)
    (evaluation_time : datetime) : res (list NormalizedCandle) :=
  let dailies := sort_candles (List.filter (of_symbol symbol) dailies) in
  match head dailies, last dailies with
  | Some first, Some final =>
      let last_day := daily_open (nc_open_time final) in
      run_walk (weekly_body dailies symbol evaluation_time last_day) last_day
        (weekly_open_containing (daily_open (nc_open_time first))) []
  | _, _ => Ok []
  end.

Definition monthly_body (dailies : list NormalizedCandle) (symbol : MarketSymbol) (evaluation_time last_day : datetime)
    (s : datetime * list NormalizedCandle) : (datetime * list NormalizedCandle) + res (list NormalizedCandle) :=
  let '(cursor, months) := s in
  if cursor <=? last_day then
    match
      close ← monthly_close cursor;
      required ← _month_day_range cursor;
      _aggregate_bucket dailies symbol MONTHLY cursor close evaluation_time required
    with
    | Ok agg => inl (next_month cursor, months ++ option_list agg)
    | Raise e => inr (Raise e)
    end
  else inr (Ok months).

Definition aggregate_monthly_from_daily (dailies : list NormalizedCandle) (symbol : MarketSymbol)
    (evaluation_time : datetime) : res (list NormalizedCandle) :=
  let dailies := sort_candles (List.filter (of_symbol symbol) dailies) in
  match head dailies, last dailies with
  | Some first, Some final =>
      let last_day := daily_open (nc_open_time final) in
      run_walk (monthly_body dailies symbol evaluation_time last_day) last_day
        (monthly_open (year_of (nc_open_time first)) (month_of (nc_open_time first))) []
  | _, _ => Ok []
  end.

(** ** The meaning of an aggregation *)

(** The bucket of [tf] opening at [o] has closed, and every day of it is there. *)
Definition complete_bucket (tf : Timeframe) (t : datetime) (dailies : list NormalizedCandle) (o : datetime) : Prop :=
  is_open tf o /\ close_of tf o <= t /\
  forall d, is_open DAILY d -> in_candle tf o d -> d ∈ nc_open_time <$> dailies.

(** The days of the bucket opening at [o]. *)
Definition bucket_days (tf : Timeframe) (o : datetime) (dailies : list NormalizedCandle) : list NormalizedCandle :=
  List.filter (in_bucket o (close_of tf o)) dailies.

(** [w] aggregates the days of its bucket: first open, highest high, lowest
    low, last close, total volume. *)
Record aggregates (symbol : MarketSymbol) (tf : Timeframe) (dailies : list NormalizedCandle) (w : NormalizedCandle)
    : Prop := {
  ag_symbol : nc_symbol w = symbol;
  ag_timeframe : nc_timeframe w = tf;
  ag_close_time : nc_close_time w = close_of tf (nc_open_time w);
  ag_closed : nc_is_closed w = true;
  ag_open : exists d, d ∈ dailies /\ nc_open_time d = nc_open_time w /\ nc_open w = nc_open d;
  ag_close : exists d, d ∈ dailies /\ nc_open_time d = next_open_time (nc_open_time w) tf - DAY_US /\ nc_close w = nc_close d;
  ag_high_in : exists d, d ∈ bucket_days tf (nc_open_time w) dailies /\ nc_high w = nc_high d;
  ag_high : forall d, d ∈ bucket_days tf (nc_open_time w) dailies -> (nc_high d <= nc_high w)%Q;
  ag_low_in : exists d, d ∈ bucket_days tf (nc_open_time w) dailies /\ nc_low w = nc_low d;
  ag_low : forall d, d ∈ bucket_days tf (nc_open_time w) dailies -> (nc_low w <= nc_low d)%Q;
  ag_volume : nc_volume w = dsum (nc_volume <$> sort_candles (bucket_days tf (nc_open_time w) dailies));
}.

(** [ws] are the aggregates of all complete buckets, in order. *)
Record exact_aggregates (symbol : MarketSymbol) (tf : Timeframe) (t : datetime) (dailies ws : list NormalizedCandle)
    : Prop := {
  ea_sorted : StronglySorted Z.lt (nc_open_time <$> ws);
  ea_complete : forall o, o ∈ nc_open_time <$> ws <-> complete_bucket tf t dailies o;
  ea_each : Forall (aggregates symbol tf dailies) ws;
}.

(** ** Days and buckets *)

Lemma daily_open_midnight d : is_open DAILY d -> daily_open d = d.
Proof. intros [Hd _]. symmetry. by apply midnight. Qed.

Lemma midnight_lt d n : d mod DAY_US = 0 -> n mod DAY_US = 0 -> d < n <-> d <= n - DAY_US.
Proof. unfold DAY_US, seconds. intros. Z.to_euclidean_division_equations; lia. Qed.

(** A midnight lies in the candle opening at [o] when it lies between its open
    and its close. *)
Lemma in_bucket_spec tf o d :
  is_open tf o -> is_open DAILY (nc_open_time d) ->
  in_bucket o (close_of tf o) d = true <-> in_candle tf o (nc_open_time d).
Proof.
  intros Ho [Hd _]. pose proof (proj1 (next_is_open tf o Ho)) as Hn.
  unfold in_bucket, in_candle. rewrite andb_true_iff, !Z.leb_le. pose proof (midnight_lt _ _ Hd Hn) as Hlt.
  unfold close_of, DAY_US, seconds in *. lia.
Qed.

Lemma elem_of_bucket tf o dailies d :
  is_open tf o -> Forall (fun d => is_open DAILY (nc_open_time d)) dailies ->
  d ∈ bucket_days tf o dailies <-> d ∈ dailies /\ in_candle tf o (nc_open_time d).
Proof.
  intros Ho Hf. unfold bucket_days. rewrite elem_of_list_filter. rewrite Forall_forall in Hf.
  split; intros [Hd Hin]; (split; [done|]); by apply (in_bucket_spec tf o d Ho (Hf d Hd)).
Qed.

Lemma day_range_spec o d : is_open WEEKLY o -> d ∈ _day_range o 7 <-> is_open DAILY d /\ in_candle WEEKLY o d.
Proof.
  intros [Ho _]. unfold _day_range, is_open, in_candle. cbn [next_open_time].
  rewrite elem_of_list_to_set, list_elem_of_fmap. setoid_rewrite elem_of_seqZ.
  split.
  - intros (i & -> & Hi). unfold DAY_US, seconds in *. split; [split; [|done]|lia].
    Z.to_euclidean_division_equations; lia.
  - intros [[Hd _] Hin]. exists ((d - o) / DAY_US). unfold DAY_US, seconds in *.
    split; Z.to_euclidean_division_equations; lia.
Qed.

Lemma month_day_range_spec o :
  is_open MONTHLY o ->
  returns (_month_day_range o) (fun R => forall d, d ∈ R <-> is_open DAILY d /\ in_candle MONTHLY o d).
Proof.
  intros Ho. unfold _month_day_range. pose proof (expected_close_open MONTHLY o Ho) as Hclose.
  cbn [expected_close_time] in Hclose. rewrite Hclose. cbn [mbind res_bind].
  assert (Hd0 : is_open DAILY o) by (split; [apply Ho|done]).
  pose proof (next_open_later MONTHLY o Ho) as Hlater.
  destruct (next_is_open MONTHLY o Ho) as [Hn _]. unfold close_of. set (n := next_open_time o MONTHLY) in *.
  assert (Hstop : daily_open (n - seconds 1) + (n - seconds 1) mod 1000000 = n - DAY_US).
  { unfold daily_open, day_number, DAY_US, seconds in *. Z.to_euclidean_division_equations; lia. }
  rewrite Hstop.
  destruct (walk_total DAILY Some (month_day_body (n - DAY_US)) (n - DAY_US) o [] (fun c => c <= n)
    (fun d => d < n) Hd0) as (l & -> & Hl).
  - unfold DAY_US, seconds in *. lia.
  - intros [cursor days] Hs Hle. pose proof Hs as ((Hc & _) & Hlo & _). cbn [fst snd] in *. unfold month_day_body.
    destruct (Z.leb_spec cursor (n - DAY_US)) as [H|H].
    + split_and!; [done|done|]. cbn [next_open_time]. lia.
    + eapply state_result; [exact Hs|]. intros d [Hd _] _. pose proof (midnight_lt _ _ Hc Hn).
      pose proof (midnight_lt _ _ Hd Hn). split; [lia|]. intros Hdn. unfold DAY_US, seconds in *.
      Z.to_euclidean_division_equations; lia.
  - cbn [mbind res_bind app]. eexists. split; [done|]. intros d. rewrite elem_of_list_to_set.
    assert (Hom : omap Some l = l) by (rewrite (omap_total (fun o => o)); apply list_fmap_id).
    rewrite Hom. destruct Hl as [_ ->]. unfold in_candle. fold n. naive_solver lia.
Qed.

(** ** One bucket *)

Section Bucket.
Context (symbol : MarketSymbol) (tf : Timeframe) (t : datetime) (dailies : list NormalizedCandle).
Hypothesis daily_opens : Forall (fun d => is_open DAILY (nc_open_time d)) dailies.

(** The days of a bucket are all there when the set of days present is the
    set of days required. *)
Lemma present_iff o R :
  is_open tf o -> (forall d, d ∈ R <-> is_open DAILY d /\ in_candle tf o d) ->
  (list_to_set ((fun d => daily_open (nc_open_time d)) <$> bucket_days tf o dailies) : gset Z) = R <->
  (forall d, is_open DAILY d -> in_candle tf o d -> d ∈ nc_open_time <$> dailies).
Proof.
  intros Ho HR.
  assert (Hpres : forall d, d ∈ (list_to_set ((fun d => daily_open (nc_open_time d)) <$> bucket_days tf o dailies) : gset Z) <->
    d ∈ nc_open_time <$> dailies /\ in_candle tf o d).
  { intros d. rewrite elem_of_list_to_set, list_elem_of_fmap, list_elem_of_fmap. rewrite Forall_forall in daily_opens.
    setoid_rewrite (elem_of_bucket tf o dailies); [|done|by apply Forall_forall]. split.
    - intros (c & -> & Hc & Hin). rewrite (daily_open_midnight _ (daily_opens c Hc)). split; [by exists c|done].
    - intros [(c & -> & Hc) Hin]. exists c. by rewrite (daily_open_midnight _ (daily_opens c Hc)). }
  split.
  - intros Heq d Hd Hin. apply (proj1 (Hpres d)). rewrite Heq. by apply HR.
  - intros Hall. apply set_eq. intros d. rewrite Hpres, HR. split.
    + intros [Hd Hin]. split; [|done]. apply list_elem_of_fmap in Hd as (c & -> & Hc).
      rewrite Forall_forall in daily_opens. by apply daily_opens.
    + intros [Hd Hin]. split; [by apply Hall|done].
Qed.

Lemma bucket_spec o R :
  is_open tf o -> (forall d, d ∈ R <-> is_open DAILY d /\ in_candle tf o d) ->
  returns (_aggregate_bucket dailies symbol tf o (close_of tf o) t R) (fun r =>
    match r with
    | Some w => complete_bucket tf t dailies o /\ nc_open_time w = o /\ aggregates symbol tf dailies w
    | None => ~ complete_bucket tf t dailies o
    end).
Proof.
  intros Ho HR. unfold _aggregate_bucket, is_candle_closed. fold (bucket_days tf o dailies).
  destruct (Z.leb_spec (close_of tf o) t) as [Ht|Ht]; cbn [negb];
    [|exists None; split; [done|]; intros (_ & Hc & _); lia].
  pose proof (present_iff o R Ho HR) as Hpres. pose proof (next_open_later tf o Ho) as Hlater.
  pose proof (proj1 (next_is_open tf o Ho)) as Hn.
  assert (Hdo : is_open DAILY o) by (split; [apply Ho|done]).
  assert (Hoin : in_candle tf o o) by (unfold in_candle, DAY_US, seconds in *; lia).
  assert (Hdl : is_open DAILY (next_open_time o tf - DAY_US)).
  { split; [|done]. unfold DAY_US, seconds in *. Z.to_euclidean_division_equations; lia. }
  assert (Hlin : in_candle tf o (next_open_time o tf - DAY_US)) by (unfold in_candle, DAY_US, seconds in *; lia).
  set (members := bucket_days tf o dailies) in *.
  assert (Hmem : forall d, d ∈ members <-> d ∈ dailies /\ in_candle tf o (nc_open_time d))
    by (intros d; by apply elem_of_bucket).
  (* the member that opens at a given day *)
  assert (Hday : forall x, complete_bucket tf t dailies o -> is_open DAILY x -> in_candle tf o x ->
    exists d, d ∈ members /\ nc_open_time d = x).
  { intros x (_ & _ & Hall) Hx Hin. specialize (Hall x Hx Hin).
    apply list_elem_of_fmap in Hall as (d & -> & Hd). exists d. by rewrite Hmem. }
  destruct (decide (members = [])) as [Hnil|Hne].
  { rewrite bool_decide_eq_true_2 by done. exists None. split; [done|]. intros Hc.
    destruct (Hday o Hc Hdo Hoin) as (d & Hd & _). rewrite Hnil in Hd. by apply elem_of_nil in Hd. }
  rewrite bool_decide_eq_false_2 by done. case_bool_decide as Heq; cbn [negb];
    [|exists None; split; [done|]; intros (_ & _ & Hall); by apply Heq, Hpres].
  assert (Hc : complete_bucket tf t dailies o) by (split_and!; [done|done|by apply Hpres]).
  set (ordered := sort_candles members). assert (Hp : ordered ≡ₚ members) by apply sort_by_Permutation.
  assert (Hone : ordered <> []) by (intros E; apply Hne; by apply sort_by_nil in E).
  assert (Hsort : StronglySorted (key_le nc_open_time) ordered) by apply sort_by_sorted.
  destruct (head_is_Some ordered Hone) as (first & Hfirst & Hfin).
  destruct (last_is_Some_elem ordered Hone) as (final & Hfinal & Hlfin).
  assert (Hne' : forall f : NormalizedCandle -> decimal, f <$> ordered <> []) by (intros f E; by apply fmap_nil_inv in E).
  destruct (dmaximum_returns _ (Hne' nc_high)) as [high Hhigh]. destruct (dminimum_returns _ (Hne' nc_low)) as [low Hlow].
  rewrite Hfirst, Hfinal, Hhigh, Hlow. eexists. split; [reflexivity|]. split_and!; [done|done|].
  apply dmaximum_spec in Hhigh as [Hhin Hhub]. apply dminimum_spec in Hlow as [Hlin' Hllb].
  rewrite Hp in Hfin, Hlfin, Hhin, Hlin'. setoid_rewrite Hp in Hhub. setoid_rewrite Hp in Hllb.
  constructor; cbn [nc_symbol nc_timeframe nc_open_time nc_close_time nc_open nc_high nc_low nc_close nc_volume nc_is_closed];
    fold members; [done..| | | | | | |done].
  - exists first. pose proof (proj1 (Hmem first) Hfin) as [Hd [Hlo _]]. split_and!; [done| |done].
    destruct (Hday o Hc Hdo Hoin) as (d & Hdm & Hdo'). rewrite <- Hp in Hdm.
    pose proof (sorted_head_le nc_open_time ordered first d Hsort Hfirst Hdm). lia.
  - exists final. pose proof (proj1 (Hmem final) Hlfin) as [Hd [_ Hhi]]. split_and!; [done| |done].
    destruct (Hday _ Hc Hdl Hlin) as (d & Hdm & Hdo'). rewrite <- Hp in Hdm.
    pose proof (sorted_last_le nc_open_time ordered final d Hsort Hfinal Hdm).
    rewrite Forall_forall in daily_opens. destruct (daily_opens final Hd) as [Hfm _].
    apply (midnight_lt _ _ Hfm Hn) in Hhi. lia.
  - apply list_elem_of_fmap in Hhin as (d & -> & Hd). by exists d.
  - intros d Hd. by apply Hhub, list_elem_of_fmap_2.
  - apply list_elem_of_fmap in Hlin' as (d & -> & Hd). by exists d.
  - intros d Hd. by apply Hllb, list_elem_of_fmap_2.
Qed.
End Bucket.

(** ** The walk over the buckets *)

Section BucketWalk.
Context (symbol : MarketSymbol) (tf : Timeframe) (t : datetime) (dailies : list NormalizedCandle).
Context (agg : datetime -> option NormalizedCandle).
Hypothesis agg_spec : forall o, is_open tf o ->
  match agg o with
  | Some w => complete_bucket tf t dailies o /\ nc_open_time w = o /\ aggregates symbol tf dailies w
  | None => ~ complete_bucket tf t dailies o
  end.

Lemma omap_agg_elem l o :
  Forall (is_open tf) l -> o ∈ nc_open_time <$> omap agg l <-> o ∈ l /\ complete_bucket tf t dailies o.
Proof.
  intros Hl. rewrite list_elem_of_fmap. setoid_rewrite list_elem_of_omap. rewrite Forall_forall in Hl. split.
  - intros (w & -> & o' & Ho' & Hw). specialize (agg_spec o' (Hl o' Ho')). rewrite Hw in agg_spec.
    destruct agg_spec as (Hc & -> & _). done.
  - intros [Ho Hc]. specialize (agg_spec o (Hl o Ho)). destruct (agg o) as [w|] eqn:E; [|done].
    destruct agg_spec as (_ & Hw & _). exists w. split; [done|by exists o].
Qed.

Lemma omap_agg_sorted l :
  Forall (is_open tf) l -> StronglySorted Z.lt l -> StronglySorted Z.lt (nc_open_time <$> omap agg l).
Proof.
  induction l as [|o l IH]; [constructor|]. intros [Ho Hl]%Forall_cons [Hs Hf]%StronglySorted_inv. cbn.
  pose proof (agg_spec o Ho) as Hspec. destruct (agg o) as [w|]; [|by apply IH]. cbn.
  destruct Hspec as (_ & -> & _). constructor; [by apply IH|]. apply Forall_forall. intros o' Ho'.
  apply (omap_agg_elem l o' Hl) in Ho' as [Ho' _]. rewrite Forall_forall in Hf. by apply Hf.
Qed.

Lemma omap_agg_each l : Forall (is_open tf) l -> Forall (aggregates symbol tf dailies) (omap agg l).
Proof.
  intros Hl. apply Forall_forall. intros w (o & Ho & Hw)%list_elem_of_omap. rewrite Forall_forall in Hl.
  specialize (agg_spec o (Hl o Ho)). rewrite Hw in agg_spec. apply agg_spec.
Qed.

(** Walking from a time before the first day to the last day visits every
    complete bucket. *)
Lemma bucket_walk (body : datetime * list NormalizedCandle -> (datetime * list NormalizedCandle) + res (list NormalizedCandle))
    (lo last_day : datetime) :
  is_open tf lo ->
  (forall o, complete_bucket tf t dailies o -> lo <= o <= last_day) ->
  (forall o ws, is_open tf o -> body (o, ws) =
     if o <=? last_day then inl (next_open_time o tf, ws ++ option_list (agg o)) else inr (Ok ws)) ->
  returns (run_walk body last_day lo []) (exact_aggregates symbol tf t dailies).
Proof.
  intros Hlo Hrange Hbody.
  destruct (walk_total tf agg body last_day lo [] (fun _ => True) (fun o => o <= last_day) Hlo I) as (l & -> & [Hs He]).
  - intros [o ws] Hst _. pose proof Hst as (Ho & Hle & _). cbn [fst snd] in *. rewrite Hbody by done.
    destruct (Z.leb_spec o last_day) as [H|H]; [done|].
    destruct Hst as (_ & _ & l & Hws & [Hs He]). cbn [fst snd] in *.
    (* opens past the last day belong to no complete bucket *)
    exists (List.filter (fun x => x <=? last_day) l). split.
    + f_equal. rewrite Hws. f_equal. apply omap_filter_none. intros x Hx Hgt. apply Z.leb_gt in Hgt.
      apply He in Hx as (Hx & _ & _). specialize (agg_spec x Hx). destruct (agg x) as [w|]; [|done].
      destruct agg_spec as (Hc & _). apply Hrange in Hc. lia.
    + constructor; [by apply sorted_filter|]. intros x. rewrite elem_of_list_filter, He, Z.leb_le.
      split; [tauto|]. intros (Hx & Hlx & Hxl). split_and!; [done|done|lia|done].
  - assert (Hl : Forall (is_open tf) l) by (apply Forall_forall; intros o (Ho & _)%He; exact Ho).
    exists (omap agg l). split; [done|]. constructor.
    + by apply omap_agg_sorted.
    + intros o. rewrite omap_agg_elem by done. rewrite He. split; [tauto|]. intros Hc.
      pose proof (Hrange o Hc). split; [|done]. destruct Hc as (Ho & _). split_and!; [done|lia|lia].
    + by apply omap_agg_each.
Qed.
End BucketWalk.

Lemma complete_bucket_day tf t dailies o : complete_bucket tf t dailies o -> o ∈ nc_open_time <$> dailies.
Proof.
  intros (Ho & _ & Hall). apply Hall; [split; [apply Ho|done]|]. pose proof (next_open_later tf o Ho).
  unfold in_candle, DAY_US, seconds in *. lia.
Qed.

(** The bounds of the walk: the candle of the first day, and the last day. *)
Lemma walk_range tf t dailies first final o :
  Forall (fun d => is_open DAILY (nc_open_time d)) dailies -> StronglySorted (key_le nc_open_time) dailies ->
  head dailies = Some first -> last dailies = Some final -> complete_bucket tf t dailies o ->
  open_containing tf (nc_open_time first) <= o <= daily_open (nc_open_time final).
Proof.
  intros Hf Hs Hfirst Hfinal Hc. destruct (open_containing_spec tf (nc_open_time first)) as [_ [Hlo _]].
  apply complete_bucket_day in Hc. apply list_elem_of_fmap in Hc as (d & -> & Hd).
  pose proof (sorted_head_le nc_open_time dailies first d Hs Hfirst Hd).
  pose proof (sorted_last_le nc_open_time dailies final d Hs Hfinal Hd).
  rewrite Forall_forall in Hf. rewrite daily_open_midnight by (by apply Hf, last_Some_elem_of). lia.
Qed.

Lemma exact_nil symbol tf t : exact_aggregates symbol tf t [] [].
Proof.
  constructor; [constructor| |constructor]. intros o. split; [by intros ?%elem_of_nil|].
  intros Hc%complete_bucket_day. by apply elem_of_nil in Hc.
Qed.

(** The aggregate of a bucket, once its days are known. *)
Definition bucket_at (dailies : list NormalizedCandle) (symbol : MarketSymbol) (tf : Timeframe) (t : datetime)
    (days : datetime -> res (gset Z)) (o : datetime) : option NormalizedCandle :=
  match (R ← days o; _aggregate_bucket dailies symbol tf o (close_of tf o) t R) with Ok r => r | Raise _ => None end.

Lemma bucket_at_ok symbol tf t dailies days o :
  Forall (fun d => is_open DAILY (nc_open_time d)) dailies -> is_open tf o ->
  returns (days o) (fun R => forall d, d ∈ R <-> is_open DAILY d /\ in_candle tf o d) ->
  (R ← days o; _aggregate_bucket dailies symbol tf o (close_of tf o) t R) = Ok (bucket_at dailies symbol tf t days o) /\
  match bucket_at dailies symbol tf t days o with
  | Some w => complete_bucket tf t dailies o /\ nc_open_time w = o /\ aggregates symbol tf dailies w
  | None => ~ complete_bucket tf t dailies o
  end.
Proof.
  intros Hf Ho (R & HR & Hd). unfold bucket_at. rewrite HR. cbn [mbind res_bind].
  by destruct (bucket_spec symbol tf t dailies Hf o R Ho Hd) as (r & -> & Hr).
Qed.

Section Exact.
Context (symbol : MarketSymbol) (t : datetime) (dailies : list NormalizedCandle).
Hypothesis daily_opens : Forall (fun d => is_open DAILY (nc_open_time d)) dailies.
Hypothesis sorted : StronglySorted (key_le nc_open_time) dailies.

Lemma weekly_walk first final :
  head dailies = Some first -> last dailies = Some final ->
  returns (run_walk (weekly_body dailies symbol t (daily_open (nc_open_time final))) (daily_open (nc_open_time final))
    (weekly_open_containing (daily_open (nc_open_time first))) []) (exact_aggregates symbol WEEKLY t dailies).
Proof.
  intros Hfirst Hfinal. set (days := fun o => Ok (_day_range o 7)).
  assert (Hday : forall o, is_open WEEKLY o -> returns (days o) (fun R => forall d, d ∈ R <-> is_open DAILY d /\ in_candle WEEKLY o d)).
  { intros o Ho. eexists. split; [done|]. intros d. by apply day_range_spec. }
  assert (Hfo : daily_open (nc_open_time first) = nc_open_time first).
  { apply daily_open_midnight. rewrite Forall_forall in daily_opens. apply daily_opens. by apply head_Some_elem_of. }
  rewrite Hfo. change (weekly_open_containing (nc_open_time first)) with (open_containing WEEKLY (nc_open_time first)).
  apply (bucket_walk symbol WEEKLY t dailies (bucket_at dailies symbol WEEKLY t days)).
  - intros o Ho. apply bucket_at_ok; [done..|by apply Hday].
  - apply open_containing_spec.
  - intros o Hc. by eapply walk_range.
  - intros o ws Ho. unfold weekly_body. case_if; [|done].
    pose proof (expected_close_open WEEKLY o Ho) as Hclose. cbn [expected_close_time] in Hclose. rewrite Hclose.
    destruct (bucket_at_ok symbol WEEKLY t dailies days o daily_opens Ho (Hday o Ho)) as [Hb _].
    unfold days in Hb at 1. cbn [mbind res_bind] in Hb |- *. by rewrite Hb.
Qed.

Lemma monthly_walk first final :
  head dailies = Some first -> last dailies = Some final ->
  returns (run_walk (monthly_body dailies symbol t (daily_open (nc_open_time final))) (daily_open (nc_open_time final))
    (monthly_open (year_of (nc_open_time first)) (month_of (nc_open_time first))) []) (exact_aggregates symbol MONTHLY t dailies).
Proof.
  intros Hfirst Hfinal.
  change (monthly_open (year_of (nc_open_time first)) (month_of (nc_open_time first))) with (open_containing MONTHLY (nc_open_time first)).
  apply (bucket_walk symbol MONTHLY t dailies (bucket_at dailies symbol MONTHLY t _month_day_range)).
  - intros o Ho. apply bucket_at_ok; [done..|by apply month_day_range_spec].
  - apply open_containing_spec.
  - intros o Hc. by eapply walk_range.
  - intros o ws Ho. unfold monthly_body. case_if; [|done].
    pose proof (expected_close_open MONTHLY o Ho) as Hclose. cbn [expected_close_time] in Hclose. rewrite Hclose.
    destruct (bucket_at_ok symbol MONTHLY t dailies _month_day_range o daily_opens Ho (month_day_range_spec o Ho)) as [Hb _].
    cbn [mbind res_bind] in Hb |- *. by rewrite Hb.
Qed.
End Exact.

(** The daily candles of a symbol in order, as both functions use them. *)
Definition symbol_days (symbol : MarketSymbol) (dailies : list NormalizedCandle) : list NormalizedCandle :=
  sort_candles (List.filter (of_symbol symbol) dailies).

Lemma aggregation_returns symbol t dailies :
  Forall (fun d => is_open DAILY (nc_open_time d)) dailies ->
  returns (aggregate_weekly_from_daily dailies symbol t) (exact_aggregates symbol WEEKLY t (symbol_days symbol dailies)) /\
  returns (aggregate_monthly_from_daily dailies symbol t) (exact_aggregates symbol MONTHLY t (symbol_days symbol dailies)).
Proof.
  intros Hf. unfold aggregate_weekly_from_daily, aggregate_monthly_from_daily. fold (symbol_days symbol dailies).
  set (ds := symbol_days symbol dailies).
  assert (Hds : Forall (fun d => is_open DAILY (nc_open_time d)) ds).
  { unfold ds, symbol_days, sort_candles. rewrite sort_by_Permutation. rewrite Forall_forall in Hf |- *.
    intros d [Hd _]%elem_of_list_filter. by apply Hf. }
  assert (Hs : StronglySorted (key_le nc_open_time) ds) by apply sort_by_sorted.
  destruct (head ds) as [first|] eqn:Hfirst.
  - destruct (last ds) as [final|] eqn:Hfinal; [|by apply last_None in Hfinal; rewrite Hfinal in Hfirst].
    split; [by apply weekly_walk|by apply monthly_walk].
  - destruct ds; [|done]. split; exists []; (split; [done|apply exact_nil]).
Qed.

(** [C15] Aggregation is exact and does not look ahead: for daily candles that
    open at midnight both functions return, in order, one candle for every week
    (month) that has closed by the evaluation time and whose days are all
    present, and no other; each has the open of the first day, the close of the
    last, the extreme high and low, and the summed volume of its days. *)
Theorem aggregation_exact symbol t dailies :
  Forall (fun d => is_open DAILY (nc_open_time d)) dailies ->
  returns (aggregate_weekly_from_daily dailies symbol t) (exact_aggregates symbol WEEKLY t (symbol_days symbol dailies)) /\
  returns (aggregate_monthly_from_daily dailies symbol t) (exact_aggregates symbol MONTHLY t (symbol_days symbol dailies)).
Proof. apply aggregation_returns. Qed.

(** ** Example *)

(** The week from Monday 1970-01-05 with one more day. *)
Definition example_week : list NormalizedCandle := (fun n => example_candle DAILY (n * DAY_US)) <$> seqZ 4 8.

Example week_aggregated :
  match aggregate_weekly_from_daily example_week BTC (20 * DAY_US) with
  | Ok ws => (fun w => (nc_open_time w, nc_close_time w, Qred (nc_volume w))) <$> ws
  | Raise _ => []
  end = [(4 * DAY_US, 11 * DAY_US - seconds 1, 7000 # 1)].
Proof. vm_compute. reflexivity. Qed.

Lemma aggregation_exact_witness :
  returns (aggregate_weekly_from_daily example_week BTC (20 * DAY_US))
    (exact_aggregates BTC WEEKLY (20 * DAY_US) (symbol_days BTC example_week)) /\
  returns (aggregate_monthly_from_daily example_week BTC (20 * DAY_US))
    (exact_aggregates BTC MONTHLY (20 * DAY_US) (symbol_days BTC example_week)).
Proof. apply aggregation_exact. repeat constructor. Defined.
