(* ===== verification/MarketRepository.v ===== *)
(** * The candle repository and its ingest paths

    services/market_data/repository.py (the in-memory repository), symbols.py,
    normalize.py and ingest.py.  The dictionary of the repository is kept in
    insertion order; an operation maps a repository to the new one.  Strings
    are ASCII: [strip] and [upper] act on ASCII characters.  When a validation
    raises in the middle of a batch, the source keeps the candles stored so far,
    the model stops with the exception alone. *)
From Stdlib Require Import ZArith QArith Lia Sorting.Sorted Strings.String Strings.Ascii.
From stdpp Require Import base list sets strings.
From S2P Require Import Prelude Decimal StrategyModels BtData Timeframes MarketWalk.
From S2P Require Import MarketModels MarketValidation MarketGaps.

Local Open Scope Z_scope.

(** ** Symbols *)

Definition upper_ascii (c : ascii) : ascii :=
  let n := N_of_ascii c in if ((97 <=? n) && (n <=? 122))%N then ascii_of_N (n - 32) else c.

Fixpoint upper (s : string) : string :=
  match s with
  | String c s' => String (upper_ascii c) (upper s')
  | EmptyString => EmptyString
  end.

Definition HYPERLIQUID_PROVIDER_SYMBOLS (s : MarketSymbol) : string :=
  match s with BTC => "BTC" | ETH => "ETH" | SOL => "SOL" end.

Definition PROVIDER_TO_INTERNAL : list (string * MarketSymbol) :=
  ((fun s => (HYPERLIQUID_PROVIDER_SYMBOLS s, s)) <$> market_symbols) ++
  [("BTC-USD", BTC); ("ETH-USD", ETH); ("SOL-USD", SOL); ("BTCUSDT", BTC); ("ETHUSDT", ETH); ("SOLUSDT", SOL)]%string.

Definition resolve_internal_symbol (provider_symbol : string) : res MarketSymbol :=
  let normalized := upper (strip provider_symbol) in
  match od_get PROVIDER_TO_INTERNAL normalized with
  | Some s => Ok s
  | None =>
      match List.find (fun s => bool_decide (symbol_value s = normalized)) market_symbols with
      | Some s => Ok s
      | None => Raise (ValueError ("Unknown provider symbol: " ++ provider_symbol)%string)
      end
  end.

Definition to_provider_symbol (symbol : MarketSymbol) (provider : string) : res string :=
  if decide (provider = "hyperliquid"%string) then Ok (HYPERLIQUID_PROVIDER_SYMBOLS symbol)
  else Raise (ValueError ("Unsupported provider: " ++ provider)%string).

(** ** Normalization *)

Definition _canonical_time_bounds (raw : RawCandle) : res (datetime * datetime) :=
  let open_time := rc_open_time raw in
  match rc_timeframe raw with
  | DAILY => let canonical_open := daily_open open_time in Ok (canonical_open, daily_close canonical_open)
  | WEEKLY =>
      let canonical_open := weekly_open_containing open_time in
      close ← weekly_close canonical_open; Ok (canonical_open, close)
  | MONTHLY =>
      let canonical_open := monthly_open (year_of open_time) (month_of open_time) in
      close ← monthly_close canonical_open; Ok (canonical_open, close)
  end.

Definition normalize_raw_candle (raw : RawCandle) (evaluation_time : datetime) : res NormalizedCandle :=
  symbol ← resolve_internal_symbol (rc_provider_symbol raw);
  bounds ← _canonical_time_bounds raw;
  let '(open_time, close_time) := bounds in
  Ok {|
    nc_symbol := symbol; nc_timeframe := rc_timeframe raw;
    nc_open_time := open_time; nc_close_time := close_time;
    nc_open := rc_open raw; nc_high := rc_high raw; nc_low := rc_low raw; nc_close := rc_close raw;
    nc_volume := rc_volume raw;
    nc_is_closed := rc_is_closed raw && is_candle_closed close_time evaluation_time;
  |}.

Definition normalize_batch (raws : list RawCandle) (evaluation_time : datetime) (expected_symbol : option MarketSymbol)
  : res (list NormalizedCandle) :=
  normalized ← mapM (fun r => normalize_raw_candle r evaluation_time) raws;
  match expected_symbol with
  | Some sym =>
      if forallb (fun c => bool_decide (nc_symbol c = sym)) normalized then Ok normalized
      else Raise (ValueError "Expected symbol")
  | None => Ok normalized
  end.

(** ** The repository *)

Record CandleRepository := {
  cr_store : list (CandleKey * NormalizedCandle);
  cr_conflicts : list CandleConflict;
}.

Definition empty_repository : CandleRepository := {| cr_store := []; cr_conflicts := [] |}.

Definition store_candle (r : CandleRepository) (c : NormalizedCandle) : CandleRepository :=
  {| cr_store := od_set (cr_store r) (nc_key c) c; cr_conflicts := cr_conflicts r |}.

Definition record_conflict (r : CandleRepository) (conflict : CandleConflict) : CandleRepository :=
  {| cr_store := cr_store r; cr_conflicts := cr_conflicts r ++ [conflict] |}.

(** [upsert] returns the new repository, whether the candle was added, and the
    conflict found. *)
Definition upsert (r : CandleRepository) (candle : NormalizedCandle)
  : CandleRepository * bool * option CandleConflict :=
  match od_get (cr_store r) (nc_key candle) with
  | None => (store_candle r candle, true, None)
  | Some existing =>
      if candles_equal existing candle then (r, false, None) else
      let conflict := {| cc_key := nc_key candle; cc_existing := existing; cc_incoming := candle |} in
      (record_conflict r conflict, false, Some conflict)
  end.

Definition upsert_live (r : CandleRepository) (candle : NormalizedCandle) (evaluation_time : datetime)
  : CandleRepository * bool * option CandleConflict :=
  match od_get (cr_store r) (nc_key candle) with
  | None => (store_candle r candle, true, None)
  | Some existing =>
      if candles_equal existing candle then (r, false, None)
      else if negb (nc_is_closed existing) && nc_is_closed candle then (store_candle r candle, true, None)
      else if negb (is_candle_closed (nc_close_time existing) evaluation_time) then (store_candle r candle, true, None)
      else
        let conflict := {| cc_key := nc_key candle; cc_existing := existing; cc_incoming := candle |} in
        (record_conflict r conflict, false, Some conflict)
  end.

(** One candle of [upsert_many]. *)
Definition upsert_many_step (s : CandleRepository * nat * list CandleConflict) (candle : NormalizedCandle)
  : CandleRepository * nat * list CandleConflict :=
  let '(r, inserted, conflicts) := s in
  let '(r', added, conflict) := upsert r candle in
  (r', (if added : bool then S inserted else inserted), conflicts ++ option_list conflict).

Definition upsert_many (r : CandleRepository) (candles : list NormalizedCandle)
  : CandleRepository * nat * list CandleConflict :=
  fold_left upsert_many_step candles (r, 0%nat, []).

Definition in_range (symbol : MarketSymbol) (timeframe : Timeframe) (start stop : option datetime)
    (entry : CandleKey * NormalizedCandle) : bool :=
  let '(k, c) := entry in
  bool_decide (ck_symbol k = symbol) && bool_decide (ck_timeframe k = timeframe) &&
  match start with None => true | Some s => s <=? nc_open_time c end &&
  match stop with None => true | Some e => nc_open_time c <=? e end.

Definition get_range (r : CandleRepository) (symbol : MarketSymbol) (timeframe : Timeframe)
    (start stop : option datetime) : list NormalizedCandle :=
  sort_candles (snd <$> List.filter (in_range symbol timeframe start stop) (cr_store r)).

Definition get_latest (r : CandleRepository) (symbol : MarketSymbol) (timeframe : Timeframe) : option NormalizedCandle :=
  last (get_range r symbol timeframe None None).

Definition get_closed_before (r : CandleRepository) (symbol : MarketSymbol) (timeframe : Timeframe)
    (evaluation_time : datetime) : list NormalizedCandle :=
  List.filter (fun c => is_candle_closed (nc_close_time c) evaluation_time) (get_range r symbol timeframe None None).

(** The method [detect_gaps] of the repository. *)
Definition repository_gaps (r : CandleRepository) (symbol : MarketSymbol) (timeframe : Timeframe)
    (evaluation_time : datetime) : res (list CandleGap) :=
  detect_gaps (get_closed_before r symbol timeframe evaluation_time) symbol timeframe evaluation_time.

(** ** Ingest *)

Record IngestResult := {
  ir_inserted : nat;
  ir_identical_skipped : nat;
  ir_rejected : list (list MarketDataReasonCode);
  ir_conflicts : list CandleConflict;
  ir_reason_codes : list MarketDataReasonCode;
}.

Definition no_ingest : IngestResult :=
  {| ir_inserted := 0; ir_identical_skipped := 0; ir_rejected := []; ir_conflicts := []; ir_reason_codes := [] |}.

Definition reject (codes : list MarketDataReasonCode) (i : IngestResult) : IngestResult :=
  {| ir_inserted := ir_inserted i; ir_identical_skipped := ir_identical_skipped i;
     ir_rejected := ir_rejected i ++ [codes]; ir_conflicts := ir_conflicts i;
     ir_reason_codes := ir_reason_codes i ++ codes |}.

(** The bookkeeping after an upsert. *)
Definition count_upsert (added : bool) (conflict : option CandleConflict) (i : IngestResult) : IngestResult :=
  match conflict with
  | Some c =>
      {| ir_inserted := ir_inserted i; ir_identical_skipped := ir_identical_skipped i; ir_rejected := ir_rejected i;
         ir_conflicts := ir_conflicts i ++ [c]; ir_reason_codes := ir_reason_codes i ++ [MD_DUPLICATE_CONFLICT] |}
  | None =>
      if added then
        {| ir_inserted := S (ir_inserted i); ir_identical_skipped := ir_identical_skipped i; ir_rejected := ir_rejected i;
           ir_conflicts := ir_conflicts i; ir_reason_codes := ir_reason_codes i |}
      else
        {| ir_inserted := ir_inserted i; ir_identical_skipped := S (ir_identical_skipped i); ir_rejected := ir_rejected i;
           ir_conflicts := ir_conflicts i; ir_reason_codes := ir_reason_codes i ++ [MD_DUPLICATE_IDENTICAL] |}
  end.

Definition unique_reason_codes (i : IngestResult) : IngestResult :=
  {| ir_inserted := ir_inserted i; ir_identical_skipped := ir_identical_skipped i; ir_rejected := ir_rejected i;
     ir_conflicts := ir_conflicts i; ir_reason_codes := fromkeys (ir_reason_codes i) |}.

Definition ingest_step (s : CandleRepository * IngestResult) (candle : NormalizedCandle)
  : res (CandleRepository * IngestResult) :=
  let '(r, i) := s in
  codes ← validate_candle_structure candle;
  if bool_decide (codes = []) then
    let '(r', added, conflict) := upsert r candle in Ok (r', count_upsert added conflict i)
  else Ok (r, reject codes i).

Definition ingest_normalized (r : CandleRepository) (candles : list NormalizedCandle)
  : res (CandleRepository * IngestResult) :=
  s ← foldM ingest_step candles (r, no_ingest);
  Ok (s.1, unique_reason_codes s.2).

Definition ingest_live_step (evaluation_time : datetime) (s : CandleRepository * IngestResult) (raw : RawCandle)
  : res (CandleRepository * IngestResult) :=
  let '(r, i) := s in
  if bool_decide (validate_raw_candle raw = []) then
    normalized ← normalize_raw_candle raw evaluation_time;
    struct_codes ← validate_candle_structure normalized;
    if bool_decide (struct_codes = []) then
      let '(r', added, conflict) := upsert_live r normalized evaluation_time in Ok (r', count_upsert added conflict i)
    else Ok (r, reject struct_codes i)
  else Ok (r, reject (validate_raw_candle raw) i).

Definition ingest_live_raw (r : CandleRepository) (raws : list RawCandle) (evaluation_time : datetime)
  : res (CandleRepository * IngestResult) :=
  s ← foldM (ingest_live_step evaluation_time) raws (r, no_ingest);
  Ok (s.1, unique_reason_codes s.2).

Definition ingest_raw_batch (r : CandleRepository) (raws : list RawCandle) (evaluation_time : datetime)
  : res (CandleRepository * IngestResult) :=
  normalized ← normalize_batch (List.filter (fun raw => bool_decide (validate_raw_candle raw = [])) raws) evaluation_time None;
  ingest_normalized r normalized.

(** ** The repository as a map *)

Record repo_wf (r : CandleRepository) : Prop := {
  rw_keys : NoDup (od_keys (cr_store r));
  rw_entry : Forall (fun e => e.1 = nc_key e.2) (cr_store r);
}.

Lemma empty_wf : repo_wf empty_repository.
Proof. constructor; [apply NoDup_nil_2|constructor]. Qed.

Lemma store_wf r c : repo_wf r -> repo_wf (store_candle r c).
Proof.
  intros [Hk He]. constructor; cbn; [by apply od_keys_set_NoDup|]. by apply od_set_Forall.
Qed.

Lemma upsert_wf r c : repo_wf r -> repo_wf (upsert r c).1.1.
Proof. intros H. unfold upsert. repeat case_match; try done; [by destruct H|by apply store_wf]. Qed.

Lemma upsert_live_wf r c t : repo_wf r -> repo_wf (upsert_live r c t).1.1.
Proof. intros H. unfold upsert_live. repeat case_match; try done; try (by apply store_wf). by destruct H. Qed.

(** An entry of a well-formed store is found under its key. *)
Lemma entry_get (d : list (CandleKey * NormalizedCandle)) k c :
  NoDup (od_keys d) -> (k, c) ∈ d <-> od_get d k = Some c.
Proof.
  unfold od_keys. induction d as [|[k' c'] d IH]; cbn; [split; [by intros ?%elem_of_nil|done]|].
  intros [Hn Hnd]%NoDup_cons. rewrite elem_of_cons. case_decide as E.
  - subst k'. split; [|intros [= ->]; by left]. intros [[= ->]|Hin]; [done|]. destruct Hn.
    by apply (list_elem_of_fmap_2 fst) in Hin.
  - rewrite <- IH by done. split; [intros [[= -> ->]|]; done|by right].
Qed.

Lemma elem_of_get_range r symbol timeframe start stop c :
  repo_wf r ->
  c ∈ get_range r symbol timeframe start stop <->
    od_get (cr_store r) (nc_key c) = Some c /\ nc_symbol c = symbol /\ nc_timeframe c = timeframe /\
    (forall s, start = Some s -> s <= nc_open_time c) /\ (forall e, stop = Some e -> nc_open_time c <= e).
Proof.
  intros [Hk He]. unfold get_range, sort_candles. rewrite elem_of_sort_by, list_elem_of_fmap.
  setoid_rewrite elem_of_list_filter. rewrite Forall_forall in He.
  assert (Hb : forall b e, in_range symbol timeframe start stop (b, e) = true <->
    ck_symbol b = symbol /\ ck_timeframe b = timeframe /\
    (forall s, start = Some s -> s <= nc_open_time e) /\ (forall x, stop = Some x -> nc_open_time e <= x)).
  { intros b e. unfold in_range. rewrite !andb_true_iff, !bool_decide_eq_true.
    assert (Hs : match start with None => true | Some s => s <=? nc_open_time e end = true <->
      forall s, start = Some s -> s <= nc_open_time e) by (destruct start; rewrite ?Z.leb_le; naive_solver).
    assert (Hx : match stop with None => true | Some x => nc_open_time e <=? x end = true <->
      forall x, stop = Some x -> nc_open_time e <= x) by (destruct stop; rewrite ?Z.leb_le; naive_solver).
    rewrite Hs, Hx. tauto. }
  split.
  - intros ([k e] & -> & Hin & Hr). pose proof (He _ Hin) as Hke. cbn in Hke. subst k. cbn [snd].
    apply Hb in Hr as (Hs & Ht & Hr). apply (entry_get _ _ _ Hk) in Hin. done.
  - intros (Hg & Hs & Ht & Hr). exists (nc_key c, c). split; [done|]. split; [by apply entry_get|]. by apply Hb.
Qed.

(** The candles of a series have different open times. *)
Lemma get_range_NoDup r symbol timeframe start stop :
  repo_wf r -> NoDup (nc_open_time <$> get_range r symbol timeframe start stop).
Proof.
  intros [Hk He]. unfold get_range, sort_candles. rewrite sort_by_Permutation. rewrite <- list_fmap_compose.
  unfold od_keys in Hk. induction (cr_store r) as [|[k c] d IH]; cbn [List.filter]; [apply NoDup_nil_2|].
  apply Forall_cons in He as [Hkc He]. cbn in Hk. apply NoDup_cons in Hk as [Hn Hk]. specialize (IH Hk He).
  destruct (in_range symbol timeframe start stop (k, c)) eqn:E; [|done]. cbn. apply NoDup_cons. split; [|done].
  intros ([k' c'] & Ho & [Hin Hr]%elem_of_list_filter)%list_elem_of_fmap. cbn in Ho, Hkc. apply Hn.
  rewrite Forall_forall in He. pose proof (He _ Hin) as Hkc'. cbn in Hkc'. unfold in_range in E, Hr. bsimpl.
  repeat match goal with H : bool_decide _ = true |- _ => apply bool_decide_eq_true in H end.
  assert (k = k') as ->; [|by apply (list_elem_of_fmap_2 fst) in Hin].
  subst k k'. unfold nc_key in *. cbn in *. congruence.
Qed.

Lemma elem_of_closed_before r symbol timeframe t c :
  repo_wf r ->
  c ∈ get_closed_before r symbol timeframe t <->
    od_get (cr_store r) (nc_key c) = Some c /\ nc_symbol c = symbol /\ nc_timeframe c = timeframe /\ nc_close_time c <= t.
Proof.
  intros Hwf. unfold get_closed_before. rewrite elem_of_list_filter, elem_of_get_range by done.
  unfold is_candle_closed. rewrite Z.leb_le. naive_solver.
Qed.

Lemma closed_before_strict r symbol timeframe t :
  repo_wf r -> StronglySorted (key_lt nc_open_time) (get_closed_before r symbol timeframe t).
Proof.
  intros Hwf. apply sorted_filter. apply sorted_strict; [by apply get_range_NoDup|apply sort_by_sorted].
Qed.

(** ** First write wins *)

(** The candle passes [validate_candle_structure]. *)
Definition sound (c : NormalizedCandle) : bool :=
  match validate_candle_structure c with Ok [] => true | _ => false end.

(** The specification of the store after a sequence of candles: the first
    sound candle of each key. *)
Definition first_sound (cs : list NormalizedCandle) (k : CandleKey) : option NormalizedCandle :=
  List.find (fun c => bool_decide (nc_key c = k) && sound c) cs.

(** The ingest of several batches, one after the other. *)
Definition ingest_batches (r : CandleRepository) (batches : list (list NormalizedCandle)) : res CandleRepository :=
  foldM (fun r batch => fst <$> ingest_normalized r batch) batches r.

(** What the store and the conflicts of [r] say of the candles [cs] ingested. *)
Record first_write (cs : list NormalizedCandle) (r : CandleRepository) : Prop := {
  fw_wf : repo_wf r;
  fw_store : forall k, od_get (cr_store r) k = first_sound cs k;
  fw_conflicts : forall c, c ∈ cs -> sound c = true ->
    exists e, first_sound cs (nc_key c) = Some e /\
      (candles_equal e c = true \/ {| cc_key := nc_key c; cc_existing := e; cc_incoming := c |} ∈ cr_conflicts r);
  fw_real : forall x, x ∈ cr_conflicts r ->
    cc_incoming x ∈ cs /\ sound (cc_incoming x) = true /\ cc_key x = nc_key (cc_incoming x) /\ od_get (cr_store r) (cc_key x) = Some (cc_existing x) /\
    candles_equal (cc_existing x) (cc_incoming x) = false;
}.

Lemma first_sound_snoc cs c k :
  first_sound (cs ++ [c]) k =
    match first_sound cs k with
    | Some e => Some e
    | None => if bool_decide (nc_key c = k) && sound c then Some c else None
    end.
Proof.
  unfold first_sound. induction cs as [|d cs IH]; cbn; [done|]. by destruct (bool_decide (nc_key d = k) && sound d).
Qed.

Lemma first_sound_snoc_unsound cs c k : sound c = false -> first_sound (cs ++ [c]) k = first_sound cs k.
Proof. intros H. rewrite first_sound_snoc, H, andb_false_r. by destruct (first_sound cs k). Qed.

Lemma first_write_init : first_write [] empty_repository.
Proof.
  constructor; [apply empty_wf|done| |]; [intros c Hc%elem_of_nil|intros x Hx%elem_of_nil]; done.
Qed.

Lemma first_write_unsound cs r c : first_write cs r -> sound c = false -> first_write (cs ++ [c]) r.
Proof.
  intros [Hwf Hs Hc Hr] Hun. constructor; [done| | |].
  - intros k. by rewrite first_sound_snoc_unsound.
  - intros d [Hd| ->%list_elem_of_singleton]%elem_of_app Hsd; [|congruence].
    rewrite first_sound_snoc_unsound by done. by apply Hc.
  - intros x Hx. destruct (Hr x Hx) as (H1 & H2). split; [apply elem_of_app; by left|done].
Qed.

Lemma first_write_sound cs r c : first_write cs r -> sound c = true -> first_write (cs ++ [c]) (upsert r c).1.1.
Proof.
  intros [Hwf Hs Hc Hr] Hsound. pose proof (upsert_wf r c Hwf) as Hwf'. unfold upsert in *.
  pose proof (Hs (nc_key c)) as Hk. destruct (od_get (cr_store r) (nc_key c)) as [e|] eqn:E.
  - assert (Hsame : forall k, first_sound (cs ++ [c]) k = first_sound cs k).
    { intros k. rewrite first_sound_snoc. destruct (first_sound cs k) eqn:Ek; [done|]. rewrite Hsound, andb_true_r.
      case_bool_decide; [|done]. congruence. }
    destruct (candles_equal e c) eqn:Eq; cbn [fst snd] in *; constructor; try done.
    + intros k. by rewrite Hsame.
    + intros d [Hd| ->%list_elem_of_singleton]%elem_of_app Hsd; rewrite Hsame; [by apply Hc|].
      exists e. split; [done|by left].
    + intros x Hx. destruct (Hr x Hx) as (H1 & H2). split; [apply elem_of_app; by left|done].
    + intros k. by rewrite Hsame.
    + intros d Hd Hsd. rewrite Hsame. cbn. apply elem_of_app in Hd as [Hd| ->%list_elem_of_singleton].
      * destruct (Hc d Hd Hsd) as (e' & He' & Hor). exists e'. split; [done|]. rewrite elem_of_app. tauto.
      * exists e. split; [done|]. right. rewrite elem_of_app, list_elem_of_singleton. by right.
    + intros x [Hx| ->%list_elem_of_singleton]%elem_of_app; rewrite elem_of_app; cbn.
      * destruct (Hr x Hx) as (H1 & H2). split; [by left|done].
      * split_and!; [right; by apply list_elem_of_singleton|done..].
  - cbn [fst snd] in *.
    assert (Hget : forall k, od_get (cr_store (store_candle r c)) k = first_sound (cs ++ [c]) k).
    { intros k. cbn. rewrite od_get_set, first_sound_snoc, Hsound, andb_true_r. case_decide as Ek.
      - subst k. rewrite <- Hk. by rewrite bool_decide_eq_true_2.
      - rewrite Hs, bool_decide_eq_false_2 by done. by destruct (first_sound cs k). }
    constructor; [done|done| |].
    + intros d [Hd| ->%list_elem_of_singleton]%elem_of_app Hsd.
      * destruct (Hc d Hd Hsd) as (e & He & Hor). exists e. by rewrite first_sound_snoc, He.
      * exists c. rewrite first_sound_snoc, <- Hk, Hsound, andb_true_r, bool_decide_eq_true_2 by done.
        split; [done|]. left. apply candles_equal_refl.
    + intros x Hx. destruct (Hr x Hx) as (H1 & H1' & H2 & H3 & H4). cbn. split_and!; [apply elem_of_app; by left|done|done| |done].
      rewrite od_get_set. case_decide as Ek; [|done]. rewrite <- Ek, E in H3. done.
Qed.

Lemma ingest_step_first_write cs r i c r' i' :
  first_write cs r -> ingest_step (r, i) c = Ok (r', i') -> first_write (cs ++ [c]) r'.
Proof.
  intros Hfw (codes & Hcodes & H)%bind_ok.
  assert (Hs : sound c = bool_decide (codes = [])) by (unfold sound; rewrite Hcodes; by destruct codes).
  case_bool_decide.
  - pose proof (first_write_sound cs r c Hfw Hs) as Hf. destruct (upsert r c) as [[r1 added] conflict].
    by injection H as <- <-.
  - injection H as <- <-. by apply first_write_unsound.
Qed.

Lemma ingest_first_write cs r candles r' i' :
  first_write cs r -> ingest_normalized r candles = Ok (r', i') -> first_write (cs ++ candles) r'.
Proof.
  intros Hfw ((r1 & i1) & H & Hr)%bind_ok. cbn in Hr. injection Hr as <- _.
  revert cs r Hfw H. generalize no_ingest as i. induction candles as [|c l IH]; intros i cs r Hfw H.
  { injection H as <- _. by rewrite app_nil_r. }
  cbn in H. apply bind_ok in H as ([r2 i2] & H2 & H). rewrite cons_middle, app_assoc.
  eapply IH; [|exact H]. by eapply ingest_step_first_write.
Qed.

Lemma ingest_batches_first_write cs r batches r' :
  first_write cs r -> ingest_batches r batches = Ok r' -> first_write (cs ++ concat batches) r'.
Proof.
  unfold ingest_batches. revert cs r. induction batches as [|b batches IH]; intros cs r Hfw H.
  { injection H as <-. by rewrite app_nil_r. }
  cbn in H. apply bind_ok in H as (r1 & H1 & H). apply fmap_ok in H1 as ([r2 i2] & H1 & <-).
  cbn. rewrite app_assoc. eapply IH; [|exact H]. by eapply ingest_first_write.
Qed.

(** Batches of aligned candles never raise. *)
Lemma ingest_step_returns s c :
  is_open (nc_timeframe c) (nc_open_time c) -> exists s', ingest_step s c = Ok s'.
Proof.
  intros Hc. destruct s as [r i]. unfold ingest_step.
  destruct (structure_returns c) as [k Hk]; [eexists; by apply close_before_next|]. rewrite Hk. cbn.
  case_bool_decide; [|by eexists]. destruct (upsert r c) as [[r' added] conflict]. by eexists.
Qed.

Lemma ingest_returns r candles :
  Forall (fun c => is_open (nc_timeframe c) (nc_open_time c)) candles ->
  exists r' i, ingest_normalized r candles = Ok (r', i).
Proof.
  intros Hf. unfold ingest_normalized.
  assert (H : forall s, exists s', foldM ingest_step candles s = Ok s').
  { induction candles as [|c l IH]; intros s; [by eexists|]. apply Forall_cons in Hf as [Hc Hf].
    destruct (ingest_step_returns s c Hc) as [s1 H1]. cbn. rewrite H1. by apply IH. }
  destruct (H (r, no_ingest)) as [[r1 i1] H1]. rewrite H1. by eexists _, _.
Qed.

Lemma ingest_batches_returns r batches :
  Forall (Forall (fun c => is_open (nc_timeframe c) (nc_open_time c))) batches -> exists r', ingest_batches r batches = Ok r'.
Proof.
  unfold ingest_batches. revert r. induction batches as [|b batches IH]; intros r Hf; [by eexists|].
  apply Forall_cons in Hf as [Hb Hf]. destruct (ingest_returns r b Hb) as (r1 & i & H1). cbn. rewrite H1. cbn.
  by apply IH.
Qed.

(** [C16] The repository implements first-write-wins: ingesting any batches of
    aligned candles into an empty repository stores exactly the first sound
    candle of each key, records as a conflict every later sound candle that
    differs from it and nothing else, and a query returns in strict
    chronological order exactly the stored candles of the series that have
    closed. *)
Theorem ingest_refines_first_write batches :
  Forall (Forall (fun c => is_open (nc_timeframe c) (nc_open_time c))) batches ->
  returns (ingest_batches empty_repository batches) (fun r =>
    (forall k, od_get (cr_store r) k = first_sound (concat batches) k) /\
    (forall x, x ∈ cr_conflicts r <->
       exists c e, c ∈ concat batches /\ sound c = true /\ first_sound (concat batches) (nc_key c) = Some e /\
         candles_equal e c = false /\ x = {| cc_key := nc_key c; cc_existing := e; cc_incoming := c |}) /\
    (forall symbol timeframe t,
       StronglySorted (key_lt nc_open_time) (get_closed_before r symbol timeframe t) /\
       forall c, c ∈ get_closed_before r symbol timeframe t <->
         first_sound (concat batches) (nc_key c) = Some c /\ nc_symbol c = symbol /\ nc_timeframe c = timeframe /\
         nc_close_time c <= t)).
Proof.
  intros Hf. destruct (ingest_batches_returns empty_repository batches Hf) as [r Hr]. exists r. split; [done|].
  pose proof (ingest_batches_first_write [] empty_repository batches r first_write_init Hr) as [Hwf Hs Hc Hreal].
  cbn [app] in *. split_and!; [done| |].
  - intros x. split.
    + intros Hx. destruct (Hreal x Hx) as (H1 & H1' & H2 & H3 & H4). exists (cc_incoming x), (cc_existing x).
      rewrite Hs in H3. split_and!; [done|done|by rewrite <- H2|done|]. by destruct x; cbn in *; subst.
    + intros (c & e & Hin & Hsound & Hfirst & Hne & ->). destruct (Hc c Hin Hsound) as (e' & He' & Hor).
      rewrite Hfirst in He'. injection He' as <-. destruct Hor as [Heq|]; [congruence|done].
  - intros symbol timeframe t. split; [by apply closed_before_strict|]. intros c. by rewrite elem_of_closed_before, Hs.
Qed.

(** ** Closed history is immutable *)

(** The operations that write to the repository, the live ones at a time. *)
Inductive RepositoryWrite :=
  | WUpsert (c : NormalizedCandle)
  | WUpsertLive (c : NormalizedCandle) (evaluation_time : datetime).

Definition write (r : CandleRepository) (w : RepositoryWrite) : CandleRepository :=
  match w with
  | WUpsert c => (upsert r c).1.1
  | WUpsertLive c t => (upsert_live r c t).1.1
  end.

Definition written (w : RepositoryWrite) : NormalizedCandle :=
  match w with WUpsert c | WUpsertLive c _ => c end.

(** The write happens at [t] or later. *)
Definition not_before (t : datetime) (w : RepositoryWrite) : Prop :=
  match w with WUpsert _ => True | WUpsertLive _ t' => t <= t' end.

(** [c] is stored, closed, and its period is over by [t]. *)
Record settled (t : datetime) (r : CandleRepository) (c : NormalizedCandle) : Prop := {
  sd_stored : od_get (cr_store r) (nc_key c) = Some c;
  sd_closed : nc_is_closed c = true;
  sd_over : nc_close_time c <= t;
}.

Lemma store_other r c d : nc_key d <> nc_key c -> od_get (cr_store (store_candle r d)) (nc_key c) = od_get (cr_store r) (nc_key c).
Proof. intros H. cbn. by rewrite od_get_set, decide_False. Qed.

Lemma write_settled t r c w :
  settled t r c -> not_before t w ->
  settled t (write r w) c /\ cr_conflicts r ⊆ cr_conflicts (write r w) /\
  (nc_key (written w) = nc_key c -> candles_equal c (written w) = false ->
     {| cc_key := nc_key c; cc_existing := c; cc_incoming := written w |} ∈ cr_conflicts (write r w)).
Proof.
  intros [Hs Hc Ho] Ht. destruct (decide (nc_key (written w) = nc_key c)) as [Hk|Hk].
  - assert (Hw : write r w = r /\ candles_equal c (written w) = true \/
      write r w = record_conflict r {| cc_key := nc_key c; cc_existing := c; cc_incoming := written w |}).
    { destruct w as [d|d t']; cbn [write written not_before] in *; unfold upsert, upsert_live; rewrite Hk, Hs;
        destruct (candles_equal c d) eqn:E; cbn [fst snd]; [by left|by right|by left|right].
      rewrite Hc. cbn [negb andb]. unfold is_candle_closed.
      destruct (Z.leb_spec (nc_close_time c) t'); [done|lia]. }
    destruct Hw as [[-> Heq]| ->].
    + split_and!; [done|done|]. intros _ Hne. congruence.
    + split_and!; [by constructor| |].
      * intros x Hx. cbn. apply elem_of_app. by left.
      * intros _ _. cbn. apply elem_of_app. right. by apply list_elem_of_singleton.
  - assert (Hw : od_get (cr_store (write r w)) (nc_key c) = od_get (cr_store r) (nc_key c) /\
      cr_conflicts r ⊆ cr_conflicts (write r w)).
    { destruct w as [d|d t']; cbn [write written] in *; unfold upsert, upsert_live;
        repeat case_match; cbn [fst snd]; (split; [first [done | by apply store_other]|]);
        cbn [cr_conflicts store_candle record_conflict]; set_solver. }
    destruct Hw as [Hw1 Hw2]. split_and!; [|done|done]. by constructor; [rewrite Hw1|..].
Qed.

(** [C39] Closed history is immutable: once a closed candle whose period is over
    is stored, no sequence of later ordinary or live writes changes or removes
    it, conflicts are never forgotten, and every write that disagrees with it
    is on record as a conflict. *)
Theorem repository_history_immutable t r c ws :
  settled t r c -> Forall (not_before t) ws ->
  settled t (fold_left write ws r) c /\ cr_conflicts r ⊆ cr_conflicts (fold_left write ws r) /\
  (forall w, w ∈ ws -> nc_key (written w) = nc_key c -> candles_equal c (written w) = false ->
     {| cc_key := nc_key c; cc_existing := c; cc_incoming := written w |} ∈ cr_conflicts (fold_left write ws r)).
Proof.
  revert r. induction ws as [|w ws IH]; intros r Hs Hf; cbn.
  { split_and!; [done|done|]. by intros w ?%elem_of_nil. }
  apply Forall_cons in Hf as [Hw Hf]. destruct (write_settled t r c w Hs Hw) as (Hs' & Hsub & Hconf).
  destruct (IH (write r w) Hs' Hf) as (Hs'' & Hsub' & Hconf'). split_and!; [done|set_solver|].
  intros w' [->|Hin]%elem_of_cons; [|by apply Hconf']. intros Hk Hne. by apply Hsub', Hconf.
Qed.

(** ** Normalization *)

Lemma canonical_bounds raw :
  _canonical_time_bounds raw =
    Ok (open_containing (rc_timeframe raw) (rc_open_time raw),
        close_of (rc_timeframe raw) (open_containing (rc_timeframe raw) (rc_open_time raw))).
Proof.
  destruct (open_containing_spec (rc_timeframe raw) (rc_open_time raw)) as [Ho _].
  assert (E : _canonical_time_bounds raw =
    (close ← expected_close_time (open_containing (rc_timeframe raw) (rc_open_time raw)) (rc_timeframe raw);
     Ok (open_containing (rc_timeframe raw) (rc_open_time raw), close))).
  { unfold _canonical_time_bounds. destruct (rc_timeframe raw);
      cbn [open_containing expected_close_time mbind res_bind]; reflexivity. }
  rewrite E, (expected_close_open _ _ Ho). reflexivity.
Qed.

(** Normalization is canonical: a raw candle of a known symbol becomes the
    candle of the unique period of its timeframe that contains its open time,
    aligned with the boundaries, so that ingesting it never raises; it counts as
    closed only when that period is over; an unknown symbol raises. *)
Theorem normalize_canonical raw t :
  (forall symbol, resolve_internal_symbol (rc_provider_symbol raw) = Ok symbol ->
     returns (normalize_raw_candle raw t) (fun c =>
       nc_symbol c = symbol /\ nc_timeframe c = rc_timeframe raw /\
       is_open (nc_timeframe c) (nc_open_time c) /\ in_candle (nc_timeframe c) (nc_open_time c) (rc_open_time raw) /\
       expected_close_time (nc_open_time c) (nc_timeframe c) = Ok (nc_close_time c) /\
       (nc_is_closed c = true <-> rc_is_closed raw = true /\ nc_close_time c <= t) /\
       forall r, exists r', ingest_normalized r [c] = Ok r')) /\
  (forall e, resolve_internal_symbol (rc_provider_symbol raw) = Raise e -> normalize_raw_candle raw t = Raise e).
Proof.
  unfold normalize_raw_candle. rewrite canonical_bounds. split.
  - intros symbol ->. cbn [mbind res_bind]. eexists. split; [reflexivity|].
    cbn [nc_symbol nc_timeframe nc_open_time nc_close_time nc_is_closed].
    destruct (open_containing_spec (rc_timeframe raw) (rc_open_time raw)) as [Ho Hin].
    split_and!; [done|done|done|done|by apply expected_close_open| |].
    + unfold is_candle_closed. by rewrite andb_true_iff, Z.leb_le.
    + intros r. edestruct ingest_returns as (r' & i & H); [|by exists (r', i)]. by constructor.
  - intros e ->. done.
Qed.

Definition all_space (w : string) : Prop := forallb is_space (list_ascii_of_string w) = true.

Lemma lstrip_space w s : all_space w -> lstrip (w ++ s)%string = lstrip s.
Proof.
  unfold all_space. induction w as [|a w IH]; [done|]. cbn [list_ascii_of_string forallb].
  intros [Ha Hw]%andb_true_iff. change ((String a w) ++ s)%string with (String a (w ++ s)). cbn [lstrip].
  rewrite Ha. by apply IH.
Qed.

Lemma rstrip_space w : all_space w -> rstrip w = ""%string.
Proof.
  unfold all_space. induction w as [|a w IH]; [done|]. cbn [list_ascii_of_string forallb].
  intros [Ha Hw]%andb_true_iff. cbn [rstrip]. rewrite IH by done. by rewrite Ha.
Qed.

Lemma rstrip_app p w : all_space w -> rstrip (p ++ w)%string = rstrip p.
Proof.
  intros Hw. induction p as [|a p IH]; [by apply rstrip_space|].
  change ((String a p) ++ w)%string with (String a (p ++ w)). cbn [rstrip]. by rewrite IH.
Qed.

(** Symbols survive the round trip to the provider: what
    [to_provider_symbol] sends, [resolve_internal_symbol] reads back, whatever
    white space surrounds it. *)
Theorem symbol_roundtrip symbol w1 w2 :
  all_space w1 -> all_space w2 ->
  returns (to_provider_symbol symbol "hyperliquid") (fun p =>
    resolve_internal_symbol (w1 ++ p ++ w2) = Ok symbol).
Proof.
  intros H1 H2. exists (HYPERLIQUID_PROVIDER_SYMBOLS symbol). split; [done|].
  unfold resolve_internal_symbol, strip. rewrite lstrip_space by done.
  assert (E : lstrip (HYPERLIQUID_PROVIDER_SYMBOLS symbol ++ w2)%string = (HYPERLIQUID_PROVIDER_SYMBOLS symbol ++ w2)%string)
    by (by destruct symbol).
  rewrite E, rstrip_app by done. by destruct symbol.
Qed.

(** ** Examples *)

Lemma symbol_roundtrip_witness :
  returns (to_provider_symbol ETH "hyperliquid") (fun p => resolve_internal_symbol ("  " ++ p ++ " ") = Ok ETH).
Proof. apply symbol_roundtrip; reflexivity. Defined.

(** A second candle for the same day with another close. *)
Definition example_rival : NormalizedCandle := {|
  nc_symbol := BTC; nc_timeframe := DAILY; nc_open_time := 0; nc_close_time := DAY_US - seconds 1;
  nc_open := 100 # 1; nc_high := 110 # 1; nc_low := 90 # 1; nc_close := 106 # 1; nc_volume := 1000 # 1;
  nc_is_closed := true;
|}.

Example rival_conflicts :
  match ingest_batches empty_repository [[example_candle DAILY 0]; [example_rival]] with
  | Ok r => length (cr_conflicts r)
  | Raise _ => 0%nat
  end = 1%nat.
Proof. vm_compute. reflexivity. Qed.

Lemma ingest_refines_first_write_witness :
  let batches := [[example_candle DAILY 0]; [example_rival]] in
  returns (ingest_batches empty_repository batches) (fun r =>
    (forall k, od_get (cr_store r) k = first_sound (concat batches) k) /\
    (forall x, x ∈ cr_conflicts r <->
       exists c e, c ∈ concat batches /\ sound c = true /\ first_sound (concat batches) (nc_key c) = Some e /\
         candles_equal e c = false /\ x = {| cc_key := nc_key c; cc_existing := e; cc_incoming := c |}) /\
    (forall symbol timeframe t,
       StronglySorted (key_lt nc_open_time) (get_closed_before r symbol timeframe t) /\
       forall c, c ∈ get_closed_before r symbol timeframe t <->
         first_sound (concat batches) (nc_key c) = Some c /\ nc_symbol c = symbol /\ nc_timeframe c = timeframe /\
         nc_close_time c <= t)).
Proof. apply ingest_refines_first_write. repeat constructor. Defined.

Lemma repository_history_immutable_witness :
  let c := example_candle DAILY 0 in
  let r := (upsert empty_repository c).1.1 in
  let ws := [WUpsertLive example_rival (2 * DAY_US); WUpsert example_rival] in
  settled DAY_US (fold_left write ws r) c /\ cr_conflicts r ⊆ cr_conflicts (fold_left write ws r) /\
  (forall w, w ∈ ws -> nc_key (written w) = nc_key c -> candles_equal c (written w) = false ->
     {| cc_key := nc_key c; cc_existing := c; cc_incoming := written w |} ∈ cr_conflicts (fold_left write ws r)).
Proof.
  apply repository_history_immutable.
  - constructor; [reflexivity|reflexivity|]. vm_compute. discriminate.
  - repeat constructor. vm_compute. discriminate.
Defined.
