(* ===== verification/MarketBundle.v ===== *)
(** * Strategy bundles and the market data service

    services/market_data/bundle.py, service.py, dataset_quality.py and
    quarantine.py.  The historical and backfill providers, which talk to the
    network, are arguments.  Minimum counts are natural numbers.

    The main theorem composes the service with the strategy engine: a bundle
    that calls itself usable is accepted by the engine's own validation. *)
From Stdlib Require Import ZArith QArith Lia Sorting.Sorted.
From stdpp Require Import base list sets strings.
From S2P Require Import Prelude Decimal StrategyModels BtData StrategyValidation Timeframes MarketWalk.
From S2P Require Import MarketModels MarketValidation MarketGaps MarketAggregation MarketRepository.

Local Open Scope Z_scope.

(** ** bundle.py *)

Definition status_priority (s : MdStatus) : Z :=
  match s with INVALID => 4 | INCOMPLETE => 3 | STALE => 2 | DISCONNECTED => 2 | VALID => 0 end.

(** [max(reports, key=...)] keeps the first of the worst. *)
Definition worse (a b : DataQualityReport) : DataQualityReport :=
  if status_priority (dr_status a) <? status_priority (dr_status b) then b else a.

Definition _merge_reports (reports : list DataQualityReport) : res DataQualityReport :=
  match reports with
  | [] => Raise (ValueError "No reports to merge")
  | r0 :: rest =>
      let worst := fold_left worse rest r0 in
      let final := List.last rest r0 in
      Ok {|
        dr_status := dr_status worst;
        dr_reason_codes := if bool_decide (dr_status worst = VALID) then [MD_VALID]
          else fromkeys (reports ≫= dr_reason_codes);
        dr_gaps := reports ≫= dr_gaps;
        dr_conflicts := reports ≫= dr_conflicts;
        dr_missing_ranges := reports ≫= dr_missing_ranges;
        dr_last_known_candle := dr_last_known_candle final;
        dr_expected_next_open := dr_expected_next_open final;
        dr_evaluation_time := dr_evaluation_time r0;
        dr_messages := reports ≫= dr_messages;
      |}
  end.

Definition _conflicts_for (conflicts : list CandleConflict) (symbol : MarketSymbol) (timeframe : Timeframe)
  : list CandleConflict :=
  List.filter (fun c => bool_decide (ck_symbol (cc_key c) = symbol) && bool_decide (ck_timeframe (cc_key c) = timeframe))
    conflicts.

Definition _gap_check_time (closed : list NormalizedCandle) (evaluation_time : datetime) (timeframe : Timeframe)
  : datetime :=
  match last closed with
  | Some c => if bool_decide (timeframe = DAILY) then evaluation_time else Z.min evaluation_time (nc_close_time c)
  | None => evaluation_time
  end.

Definition _resolve_higher_timeframe (repository : CandleRepository) (daily_closed : list NormalizedCandle)
    (symbol : MarketSymbol) (timeframe : Timeframe) (evaluation_time : datetime) (aggregate_higher_timeframes : bool)
  : res (list NormalizedCandle * list CandleConflict) :=
  let native := get_closed_before repository symbol timeframe evaluation_time in
  if negb aggregate_higher_timeframes then Ok (native, []) else
  match timeframe with
  | DAILY => Ok (native, [])
  | WEEKLY =>
      aggregated ← aggregate_weekly_from_daily daily_closed symbol evaluation_time;
      Ok (merge_native_and_aggregated native aggregated symbol timeframe)
  | MONTHLY =>
      aggregated ← aggregate_monthly_from_daily daily_closed symbol evaluation_time;
      Ok (merge_native_and_aggregated native aggregated symbol timeframe)
  end.

(** [candles[-minimum:] if minimum else candles] *)
Definition last_n {A} (minimum : nat) (candles : list A) : list A :=
  if bool_decide (minimum = 0%nat) then candles else drop (length candles - minimum) candles.

Definition _to_series (candles : list NormalizedCandle) (symbol : string) (timeframe : Timeframe) (minimum : nat)
  : CandleSeries := {|
  cs_symbol := symbol;
  cs_timeframe := timeframe;
  cs_candles := (fun c => to_strategy_candle (with_is_closed true c)) <$> last_n minimum candles;
|}.

(** The report of a higher timeframe. *)
Definition higher_report (closed : list NormalizedCandle) (symbol : MarketSymbol) (timeframe : Timeframe)
    (evaluation_time : datetime) (conflicts : list CandleConflict) : res DataQualityReport :=
  gaps ← detect_gaps closed symbol timeframe (_gap_check_time closed evaluation_time timeframe);
  validate_series closed symbol timeframe evaluation_time gaps conflicts.

Definition insufficient_report (merged : DataQualityReport) (evaluation_time : datetime) : DataQualityReport := {|
  dr_status := if bool_decide (dr_status merged = INVALID) then INVALID else INCOMPLETE;
  dr_reason_codes := fromkeys (dr_reason_codes merged ++ [MD_INCOMPLETE]);
  dr_gaps := dr_gaps merged;
  dr_conflicts := dr_conflicts merged;
  dr_missing_ranges := dr_missing_ranges merged;
  dr_last_known_candle := dr_last_known_candle merged;
  dr_expected_next_open := dr_expected_next_open merged;
  dr_evaluation_time := evaluation_time;
  dr_messages := dr_messages merged ++ [MInsufficientHistory];
|}.

Definition get_strategy_bundle (repository : CandleRepository) (symbol : MarketSymbol) (evaluation_time : datetime)
    (daily_minimum weekly_minimum monthly_minimum : nat) (aggregate_higher_timeframes : bool)
  : res StrategyDataBundle :=
  let repo_conflicts := cr_conflicts repository in
  let daily_closed := get_closed_before repository symbol DAILY evaluation_time in
  daily_gaps ← detect_gaps daily_closed symbol DAILY evaluation_time;
  daily_report ← validate_series daily_closed symbol DAILY evaluation_time daily_gaps
    (_conflicts_for repo_conflicts symbol DAILY);
  weekly ← _resolve_higher_timeframe repository daily_closed symbol WEEKLY evaluation_time aggregate_higher_timeframes;
  monthly ← _resolve_higher_timeframe repository daily_closed symbol MONTHLY evaluation_time aggregate_higher_timeframes;
  let weekly_closed := filter_closed_candles weekly.1 evaluation_time in
  let monthly_closed := filter_closed_candles monthly.1 evaluation_time in
  weekly_report ← higher_report weekly_closed symbol WEEKLY evaluation_time
    (_conflicts_for repo_conflicts symbol WEEKLY ++ weekly.2);
  monthly_report ← higher_report monthly_closed symbol MONTHLY evaluation_time
    (_conflicts_for repo_conflicts symbol MONTHLY ++ monthly.2);
  merged ← _merge_reports [daily_report; weekly_report; monthly_report];
  let insufficient := (length daily_closed <? daily_minimum)%nat || (length weekly_closed <? weekly_minimum)%nat ||
    (length monthly_closed <? monthly_minimum)%nat in
  Ok {|
    sb_symbol := symbol;
    sb_evaluation_time := evaluation_time;
    sb_daily := _to_series daily_closed (symbol_value symbol) DAILY daily_minimum;
    sb_weekly := _to_series weekly_closed (symbol_value symbol) WEEKLY weekly_minimum;
    sb_monthly := _to_series monthly_closed (symbol_value symbol) MONTHLY monthly_minimum;
    sb_report := if insufficient then insufficient_report merged evaluation_time else merged;
  |}.

(** ** service.py *)

Definition _report_from_ingest (result : IngestResult) (evaluation_time : datetime) : DataQualityReport := {|
  dr_status := if bool_decide (ir_conflicts result = []) then
      if bool_decide (ir_rejected result = []) then VALID else INVALID
    else INVALID;
  dr_reason_codes := if bool_decide (ir_reason_codes result = []) then [MD_INVALID] else ir_reason_codes result;
  dr_gaps := [];
  dr_conflicts := ir_conflicts result;
  dr_missing_ranges := [];
  dr_last_known_candle := None;
  dr_expected_next_open := None;
  dr_evaluation_time := evaluation_time;
  dr_messages := [];
|}.

Definition with_status_codes (status : MdStatus) (codes : list MarketDataReasonCode) (r : DataQualityReport)
  : DataQualityReport := {|
  dr_status := status; dr_reason_codes := codes; dr_gaps := dr_gaps r; dr_conflicts := dr_conflicts r;
  dr_missing_ranges := dr_missing_ranges r; dr_last_known_candle := dr_last_known_candle r;
  dr_expected_next_open := dr_expected_next_open r; dr_evaluation_time := dr_evaluation_time r;
  dr_messages := dr_messages r;
|}.

Definition _merge_backfill_reason_codes (report : DataQualityReport) (gaps : list CandleGap) : DataQualityReport :=
  let codes := dr_reason_codes report in
  let codes := if negb (bool_decide (gaps = [])) && negb (bool_decide (MD_GAP_DETECTED ∈ codes))
    then MD_GAP_DETECTED :: codes else codes in
  let codes := if bool_decide (MD_BACKFILL_FAILED ∈ codes) then codes else codes ++ [MD_BACKFILL_FAILED] in
  with_status_codes INCOMPLETE (fromkeys codes) report.

Definition plain_report (status : MdStatus) (codes : list MarketDataReasonCode) (conflicts : list CandleConflict)
    (evaluation_time : datetime) : DataQualityReport := {|
  dr_status := status; dr_reason_codes := codes; dr_gaps := []; dr_conflicts := conflicts; dr_missing_ranges := [];
  dr_last_known_candle := None; dr_expected_next_open := None; dr_evaluation_time := evaluation_time; dr_messages := [];
|}.

Definition ingest_raw (repository : CandleRepository) (raws : list RawCandle) (evaluation_time : datetime)
    (expected_symbol : option MarketSymbol) : res (CandleRepository * nat * option DataQualityReport) :=
  let rejected_codes := raws ≫= validate_raw_candle in
  let valid_raws := List.filter (fun raw => bool_decide (validate_raw_candle raw = [])) raws in
  if negb (bool_decide (rejected_codes = [])) && bool_decide (valid_raws = []) then
    Ok (repository, 0%nat, Some (plain_report INVALID (fromkeys rejected_codes) [] evaluation_time))
  else
    normalized ← normalize_batch valid_raws evaluation_time expected_symbol;
    ingested ← ingest_normalized repository normalized;
    let '(repository, result) := ingested in
    let all_codes := fromkeys (rejected_codes ++ ir_reason_codes result) in
    if negb (bool_decide (rejected_codes = [])) then
      Ok (repository, ir_inserted result, Some (plain_report INVALID all_codes (ir_conflicts result) evaluation_time))
    else if bool_decide (ir_rejected result = []) && bool_decide (ir_conflicts result = []) then
      Ok (repository, ir_inserted result, None)
    else
      let sym := match expected_symbol with Some s => s | None => match head normalized with Some c => nc_symbol c | None => BTC end end in
      let tf := match head normalized with Some c => nc_timeframe c | None => DAILY end in
      if bool_decide (ir_conflicts result = []) then
        Ok (repository, ir_inserted result, Some (_report_from_ingest result evaluation_time))
      else
        report ← validate_series (get_closed_before repository sym tf evaluation_time) sym tf evaluation_time []
          (ir_conflicts result);
        Ok (repository, ir_inserted result, Some report).

(** The backfill provider. *)
Definition BackfillProvider : Type := MarketSymbol -> Timeframe -> list CandleGap -> list RawCandle.

Definition attempt_backfill (repository : CandleRepository) (backfill : option BackfillProvider) (symbol : MarketSymbol)
    (timeframe : Timeframe) (evaluation_time : datetime) : res (CandleRepository * DataQualityReport) :=
  let candles := get_closed_before repository symbol timeframe evaluation_time in
  gaps ← detect_gaps candles symbol timeframe evaluation_time;
  match backfill with
  | None =>
      report ← validate_series candles symbol timeframe evaluation_time gaps [];
      Ok (repository, _merge_backfill_reason_codes report gaps)
  | Some backfill_gaps =>
      if bool_decide (gaps = []) then
        report ← validate_series candles symbol timeframe evaluation_time [] []; Ok (repository, report)
      else
        let raws := backfill_gaps symbol timeframe gaps in
        if bool_decide (raws = []) then
          report ← validate_series candles symbol timeframe evaluation_time gaps [];
          Ok (repository, _merge_backfill_reason_codes report gaps)
        else
          ingested ← ingest_raw repository raws evaluation_time (Some symbol);
          let repository := ingested.1.1 in
          let refreshed := get_closed_before repository symbol timeframe evaluation_time in
          remaining_gaps ← detect_gaps refreshed symbol timeframe evaluation_time;
          report ← validate_series refreshed symbol timeframe evaluation_time remaining_gaps
            (_conflicts_for (cr_conflicts repository) symbol timeframe);
          Ok (repository, if bool_decide (remaining_gaps = []) then report
            else _merge_backfill_reason_codes report remaining_gaps)
  end.

Definition backfill_step (backfill : option BackfillProvider) (symbol : MarketSymbol) (evaluation_time : datetime)
    (repository : CandleRepository) (timeframe : Timeframe) : res CandleRepository :=
  fst <$> attempt_backfill repository backfill symbol timeframe evaluation_time.

Definition build_strategy_bundle (repository : CandleRepository) (provider : option BackfillProvider)
    (symbol : MarketSymbol) (evaluation_time : datetime) (daily_minimum weekly_minimum monthly_minimum : nat)
    (backfill aggregate_higher_timeframes : bool) : res (CandleRepository * StrategyDataBundle) :=
  repository ← (if backfill then
      foldM (backfill_step provider symbol evaluation_time) [DAILY; WEEKLY; MONTHLY] repository
    else Ok repository);
  bundle ← get_strategy_bundle repository symbol evaluation_time daily_minimum weekly_minimum monthly_minimum
    aggregate_higher_timeframes;
  Ok (repository, bundle).

(** ** Reports and series *)

Lemma merge_valid r1 r2 r3 m :
  _merge_reports [r1; r2; r3] = Ok m -> dr_status m = VALID ->
  dr_status r1 = VALID /\ dr_status r2 = VALID /\ dr_status r3 = VALID.
Proof.
  intros [= <-]. cbn. unfold worse.
  destruct (dr_status r1) eqn:E1, (dr_status r2) eqn:E2; cbn; rewrite ?E1, ?E2;
    destruct (dr_status r3) eqn:E3; cbn; rewrite ?E1, ?E2, ?E3; cbn; done.
Qed.

Lemma elem_of_last_n {A} n (l : list A) x : x ∈ last_n n l -> x ∈ l.
Proof. unfold last_n. case_bool_decide; [done|]. apply subseteq_drop. Qed.

Lemma last_n_length {A} n (l : list A) : (n <= length l)%nat -> (0 < n)%nat -> length (last_n n l) = n.
Proof. intros H Hn. unfold last_n. rewrite bool_decide_eq_false_2 by lia. rewrite length_drop. lia. Qed.

Lemma sorted_drop {A} (R : A -> A -> Prop) n l : StronglySorted R l -> StronglySorted R (drop n l).
Proof.
  revert n. induction l as [|x l IH]; intros [|n] H; cbn; try done. apply IH. by apply StronglySorted_inv in H as [H _].
Qed.

Lemma sorted_last_n {A} (R : A -> A -> Prop) n l : StronglySorted R l -> StronglySorted R (last_n n l).
Proof. intros H. unfold last_n. case_bool_decide; [done|by apply sorted_drop]. Qed.

Definition fits_float (c : Candle) : Prop := forall f, f ∈ ohlcv_fields c -> float_finite f.2 = true.

(** A sound series of the market data service is a well-formed series of the
    strategy engine. *)
Lemma to_series_wf symbol tf t l n :
  series_ok symbol tf t l -> (0 < n)%nat -> (n <= length l)%nat ->
  Forall fits_float (cs_candles (_to_series l (symbol_value symbol) tf n)) ->
  series_wf (_to_series l (symbol_value symbol) tf n) t tf /\
  cs_length (_to_series l (symbol_value symbol) tf n) = n.
Proof.
  intros [Hne Hc Hs] Hn Hlen Hfit. unfold cs_length, _to_series in *. cbn [cs_candles cs_symbol cs_timeframe] in *.
  assert (Hl : length ((fun c => to_strategy_candle (with_is_closed true c)) <$> last_n n l) = n)
    by (rewrite length_fmap; by apply last_n_length).
  split; [|done]. rewrite Forall_forall in Hc; rewrite Forall_forall in Hfit.
  constructor; cbn [cs_candles cs_symbol cs_timeframe]; [done| | |].
  - intros E. rewrite E in Hl. cbn in Hl. lia.
  - apply Forall_forall. intros c Hin. pose proof (Hfit c Hin) as Hf.
    apply list_elem_of_fmap in Hin as (d & -> & Hd). apply elem_of_last_n in Hd.
    destruct (Hc d Hd) as [Hsym Htf [Hp Hv Hh Hlo Ho Hdur] Hcl]. unfold candle_in_series. cbn.
    split_and!; [by f_equal|done|done|done|]. by constructor; [exact Hf|apply Hp|apply Hlo|apply Hlo|apply Hh|apply Hh|].
  - rewrite <- list_fmap_compose. cbn.
    assert (Hb : StronglySorted before (last_n n l)) by (by apply sorted_last_n).
    assert (Hin : forall c, c ∈ last_n n l -> nc_open_time c < nc_close_time c).
    { intros c Hin%elem_of_last_n. exact (st_order _ (co_structure _ _ _ _ (Hc c Hin))). }
    revert Hb Hin. generalize (last_n n l) as k. induction k as [|c k IH]; cbn; intros Hb Hin; [constructor|].
    apply StronglySorted_inv in Hb as [Hb Hf]. constructor; [apply IH; [done|intros; apply Hin; by right]|].
    rewrite Forall_forall in Hf. apply Forall_forall. intros x (y & -> & Hy)%list_elem_of_fmap.
    specialize (Hf y Hy). specialize (Hin c (list_elem_of_here c k)). unfold before in Hf. cbn. lia.
Qed.

Lemma to_series_accepted symbol tf t l n :
  series_ok symbol tf t l -> (min_candles_for_warmup tf None <= n)%nat -> (n <= length l)%nat ->
  Forall fits_float (cs_candles (_to_series l (symbol_value symbol) tf n)) ->
  (validate_candle_series (_to_series l (symbol_value symbol) tf n) t (Some tf)).1 = DQ_OK.
Proof.
  intros Hok Hn Hlen Hfit. assert (Hpos : (0 < n)%nat) by (destruct tf; cbn in Hn; lia).
  destruct (to_series_wf symbol tf t l n Hok Hpos Hlen Hfit) as [Hwf Hl].
  set (s := _to_series l (symbol_value symbol) tf n) in *. pose proof (validate_candle_series_status s t tf) as H.
  destruct (validate_candle_series s t (Some tf)) as [[] errs]; cbn in *; [done| |]; exfalso.
  - destruct H as [H _]. by apply H.
  - destruct H as (_ & H & _). lia.
Qed.

(** ** The repository of a bundle *)

(** Every stored candle opens at a boundary of its timeframe. *)
Definition repo_aligned (r : CandleRepository) : Prop :=
  Forall (fun e => is_open (nc_timeframe e.2) (nc_open_time e.2)) (cr_store r).

Lemma upsert_aligned r c :
  repo_aligned r -> is_open (nc_timeframe c) (nc_open_time c) -> repo_aligned (upsert r c).1.1.
Proof.
  intros H Hc. unfold upsert. repeat case_match; cbn [fst snd]; try done. unfold repo_aligned. cbn.
  by apply od_set_Forall.
Qed.

Lemma closed_before_aligned r symbol tf t c :
  repo_wf r -> repo_aligned r -> c ∈ get_closed_before r symbol tf t -> is_open tf (nc_open_time c).
Proof.
  intros Hwf Ha (Hg & _ & <- & _)%elem_of_closed_before; [|done].
  exact (od_get_Forall _ _ _ _ Ha Hg).
Qed.

Lemma closed_before_opens_NoDup r symbol tf t : repo_wf r -> NoDup (nc_open_time <$> get_closed_before r symbol tf t).
Proof.
  intros Hwf. pose proof (get_range_NoDup r symbol tf None None Hwf) as H. unfold get_closed_before.
  revert H. generalize (get_range r symbol tf None None) as l. induction l as [|c l IH]; cbn; [done|].
  intros [Hn Hnd]%NoDup_cons. destruct (is_candle_closed _ _); [|by apply IH]. cbn. apply NoDup_cons. split; [|by apply IH].
  intros (d & Hd & [Hin _]%elem_of_list_filter)%list_elem_of_fmap. apply Hn. rewrite Hd. by apply list_elem_of_fmap_2.
Qed.

(** The merge of native and aggregated candles keeps one candle per open, and
    takes every candle from one of the two. *)
Definition merged_dict (P : NormalizedCandle -> Prop) (d : list (datetime * NormalizedCandle)) : Prop :=
  NoDup (od_keys d) /\ Forall (fun e => e.1 = nc_open_time e.2 /\ P e.2) d.

Lemma merged_dict_set P d c : merged_dict P d -> P c -> merged_dict P (od_set d (nc_open_time c) c).
Proof. intros [H1 H2] Hc. split; [by apply od_keys_set_NoDup|]. by apply od_set_Forall. Qed.

Lemma merged_dict_values P d : merged_dict P d -> NoDup (nc_open_time <$> od_values d) /\ Forall P (od_values d).
Proof.
  intros [H1 H2]. assert (E : nc_open_time <$> od_values d = od_keys d).
  { clear H1. unfold od_values, od_keys. induction d as [|[k c] d IH]; [done|].
    apply Forall_cons in H2 as [[Hk _] H2]. cbn in *. by rewrite (IH H2), Hk. }
  rewrite E. split; [done|]. unfold od_values. rewrite Forall_fmap. eapply Forall_impl; [exact H2|]. by intros e [_ He].
Qed.

Lemma merge_values P native aggregated symbol tf :
  Forall P native -> Forall P aggregated ->
  let merged := (merge_native_and_aggregated native aggregated symbol tf).1 in
  NoDup (nc_open_time <$> merged) /\ Forall P merged.
Proof.
  intros Hn Ha. unfold merge_native_and_aggregated.
  assert (H0 : merged_dict P (by_open_time native symbol tf)).
  { unfold by_open_time. assert (Hf : Forall P (List.filter (of_series symbol tf) native)).
    { rewrite Forall_forall in Hn |- *. intros c [Hc _]%elem_of_list_filter. by apply Hn. }
    revert Hf. generalize (List.filter (of_series symbol tf) native) as l.
    assert (Hd : merged_dict P []) by (split; [apply NoDup_nil_2|constructor]). revert Hd.
    generalize (@nil (datetime * NormalizedCandle)) as d. intros d Hd l. revert d Hd.
    induction l as [|c l IH]; intros d Hd Hf; [done|]. apply Forall_cons in Hf as [Hc Hf]. cbn.
    apply IH; [by apply merged_dict_set|done]. }
  assert (H : merged_dict P (fold_left (merge_step symbol tf) aggregated (by_open_time native symbol tf, [])).1).
  { revert H0. generalize (by_open_time native symbol tf) as d. generalize (@nil CandleConflict) as k.
    induction aggregated as [|c l IH]; intros k d Hd; [done|]. apply Forall_cons in Ha as [Hc Ha]. cbn [fold_left].
    unfold merge_step at 2. repeat case_match; try (by apply IH). apply IH; [done|]. by apply merged_dict_set. }
  destruct (fold_left _ _ _) as [d k]. cbn [fst] in *. apply merged_dict_values in H as [H1 H2].
  unfold sort_candles. by rewrite sort_by_Permutation.
Qed.

(** ** The bundle *)

Section Bundle.
Context (r : CandleRepository) (symbol : MarketSymbol) (t : datetime) (agg : bool).
Hypothesis wf : repo_wf r.
Hypothesis al : repo_aligned r.

Definition opens_at (tf : Timeframe) (c : NormalizedCandle) : Prop :=
  is_open tf (nc_open_time c) /\ nc_timeframe c = tf.

Lemma closed_opens tf : Forall (opens_at tf) (get_closed_before r symbol tf t).
Proof.
  apply Forall_forall. intros c Hc. split; [by eapply closed_before_aligned|]. by apply (elem_of_closed_before r symbol tf t c wf) in Hc as (_ & _ & Htf & _).
Qed.

Lemma opens_at_open tf l : Forall (opens_at tf) l -> Forall (fun c => is_open tf (nc_open_time c)) l.
Proof. intros H. eapply Forall_impl; [exact H|]. by intros c [Hc _]. Qed.

Lemma aggregates_open tf dailies ws : exact_aggregates symbol tf t dailies ws -> Forall (opens_at tf) ws.
Proof.
  intros [_ Hc He]. rewrite Forall_forall in He. apply Forall_forall. intros c Hin.
  destruct (proj1 (Hc (nc_open_time c)) (list_elem_of_fmap_2 _ _ _ Hin)) as [Ho _].
  split; [done|]. apply (ag_timeframe _ _ _ _ (He c Hin)).
Qed.

(** What each higher timeframe contributes. *)
Lemma resolve_returns tf :
  returns (_resolve_higher_timeframe r (get_closed_before r symbol DAILY t) symbol tf t agg) (fun m =>
    NoDup (nc_open_time <$> m.1) /\ Forall (opens_at tf) m.1).
Proof.
  assert (Hn : NoDup (nc_open_time <$> get_closed_before r symbol tf t) /\ Forall (opens_at tf) (get_closed_before r symbol tf t))
    by (split; [by apply closed_before_opens_NoDup|apply closed_opens]).
  unfold _resolve_higher_timeframe. destruct agg; cbn [negb]; [|eexists; by split].
  destruct (aggregation_returns symbol t (get_closed_before r symbol DAILY t) (opens_at_open DAILY _ (closed_opens DAILY))) as [(ws & Hw & Ew) (ms & Hm & Em)].
  destruct tf; [eexists; by split| |].
  - rewrite Hw. eexists. split; [reflexivity|]. apply merge_values; [apply closed_opens|]. by eapply aggregates_open.
  - rewrite Hm. eexists. split; [reflexivity|]. apply merge_values; [apply closed_opens|]. by eapply aggregates_open.
Qed.

Lemma filter_closed_keeps tf l :
  NoDup (nc_open_time <$> l) -> Forall (opens_at tf) l ->
  NoDup (nc_open_time <$> filter_closed_candles l t) /\ Forall (opens_at tf) (filter_closed_candles l t).
Proof.
  unfold filter_closed_candles. intros Hnd Hf. split.
  - induction l as [|c l IH]; cbn; [done|]. apply NoDup_cons in Hnd as [Hn Hnd]. apply Forall_cons in Hf as [_ Hf].
    destruct (is_candle_closed _ _); [|by apply IH]. cbn. apply NoDup_cons. split; [|by apply IH].
    intros (d & Hd & [Hin _]%elem_of_list_filter)%list_elem_of_fmap. apply Hn. rewrite Hd. by apply list_elem_of_fmap_2.
  - rewrite Forall_forall in Hf |- *. intros c [Hc _]%elem_of_list_filter. by apply Hf.
Qed.

Lemma gaps_and_report tf l tg conflicts :
  NoDup (nc_open_time <$> l) -> Forall (opens_at tf) l ->
  returns (gaps ← detect_gaps l symbol tf tg; validate_series l symbol tf t gaps conflicts) (fun rep =>
    dr_status rep = VALID -> series_ok symbol tf t l).
Proof.
  intros Hnd Hf. destruct (detect_gaps_lists symbol tf tg l (opens_at_open tf l Hf) Hnd) as (os & -> & _).
  cbn [mbind res_bind].
  destruct (validate_series_returns symbol tf t l (open_gap symbol tf <$> os) conflicts) as [rep Hrep].
  { eapply Forall_impl; [exact Hf|]. intros c [Hc ->]. eexists. by apply close_before_next. }
  exists rep. split; [done|]. intros Hv. by apply (validate_series_ok _ _ _ _ _ _ _ Hrep) in Hv as [Hok _].
Qed.
End Bundle.

(** A bundle's series passes the validation of the strategy engine. *)
Definition accepted (s : CandleSeries) (t : datetime) (tf : Timeframe) : Prop :=
  series_wf s t tf /\ (validate_candle_series s t (Some tf)).1 = DQ_OK.

(** [C14] The service and the strategy engine fit together: for a repository of
    aligned candles [get_strategy_bundle] returns a bundle, and when the bundle
    says it is usable, the minimum counts cover the warm-up and the prices fit a
    float, the engine's validation accepts all three series - in particular every
    candle of them is closed at the evaluation time. *)
Theorem usable_bundle_accepted r symbol t dn wn mn agg :
  repo_wf r -> repo_aligned r ->
  (min_candles_for_warmup DAILY None <= dn)%nat -> (min_candles_for_warmup WEEKLY None <= wn)%nat ->
  (min_candles_for_warmup MONTHLY None <= mn)%nat ->
  returns (get_strategy_bundle r symbol t dn wn mn agg) (fun b =>
    sb_is_usable b = true ->
    Forall fits_float (cs_candles (sb_daily b) ++ cs_candles (sb_weekly b) ++ cs_candles (sb_monthly b)) ->
    accepted (sb_daily b) t DAILY /\ accepted (sb_weekly b) t WEEKLY /\ accepted (sb_monthly b) t MONTHLY).
Proof.
  intros Hwf Hal Hdn Hwn Hmn. unfold get_strategy_bundle.
  set (daily := get_closed_before r symbol DAILY t).
  destruct (gaps_and_report symbol t DAILY daily t (_conflicts_for (cr_conflicts r) symbol DAILY)) as (drep & Hdr & Hdok);
    [by apply closed_before_opens_NoDup|by apply closed_opens|].
  destruct (resolve_returns r symbol t agg Hwf Hal WEEKLY) as (weekly & Hw & [Hwnd Hwf']).
  destruct (resolve_returns r symbol t agg Hwf Hal MONTHLY) as (monthly & Hm & [Hmnd Hmf]).
  fold daily in Hw, Hm. apply bind_ok in Hdr as (dgaps & -> & Hdr). cbn [mbind res_bind]. rewrite Hdr.
  cbn [mbind res_bind]. rewrite Hw. cbn [mbind res_bind]. rewrite Hm. cbn [mbind res_bind].
  apply (filter_closed_keeps t WEEKLY) in Hwf' as [Hwnd' Hwf']; [|done].
  apply (filter_closed_keeps t MONTHLY) in Hmf as [Hmnd' Hmf]; [|done].
  set (wcl := filter_closed_candles weekly.1 t) in *. set (mcl := filter_closed_candles monthly.1 t) in *.
  destruct (gaps_and_report symbol t WEEKLY wcl (_gap_check_time wcl t WEEKLY)
    (_conflicts_for (cr_conflicts r) symbol WEEKLY ++ weekly.2) Hwnd' Hwf') as (wrep & Hwr & Hwok).
  destruct (gaps_and_report symbol t MONTHLY mcl (_gap_check_time mcl t MONTHLY)
    (_conflicts_for (cr_conflicts r) symbol MONTHLY ++ monthly.2) Hmnd' Hmf) as (mrep & Hmr & Hmok).
  unfold higher_report. rewrite Hwr. cbn [mbind res_bind]. rewrite Hmr.
  eexists. split; [reflexivity|]. unfold sb_is_usable, dr_is_valid. cbn [sb_report sb_daily sb_weekly sb_monthly].
  intros Hus Hfit. apply bool_decide_eq_true in Hus. rewrite !Forall_app in Hfit. destruct Hfit as (Hfd & Hfw & Hfm).
  destruct (((length daily <? dn) || (length wcl <? wn) || (length mcl <? mn)))%nat eqn:Hins.
  { unfold insufficient_report in Hus. cbn in Hus. by case_bool_decide. }
  apply orb_false_iff in Hins as [[Hd Hwl]%orb_false_iff Hml]. apply Nat.ltb_ge in Hd, Hwl, Hml.
  destruct (merge_valid drep wrep mrep _ eq_refl Hus) as (Hvd & Hvw & Hvm).
  assert (Hacc : forall tf l n, series_ok symbol tf t l -> (min_candles_for_warmup tf None <= n)%nat -> (n <= length l)%nat ->
    Forall fits_float (cs_candles (_to_series l (symbol_value symbol) tf n)) ->
    accepted (_to_series l (symbol_value symbol) tf n) t tf).
  { intros tf l n Hok Hn Hl Hf. split; [|by apply to_series_accepted]. apply to_series_wf; [done| |done|done].
    destruct tf; cbn in Hn; lia. }
  split_and!; apply Hacc; auto.
Qed.

(** ** Example

    The repository of 1 September 1971: the days of the last three months, and
    before them the weeks and the months as the provider sent them.  The bundle
    aggregates the last twelve weeks and the last three months from the days. *)

Definition keep_candle (r : CandleRepository) (c : NormalizedCandle) : CandleRepository := (upsert r c).1.1.

Definition example_candles : list NormalizedCandle :=
  ((fun n => example_candle DAILY (n * DAY_US)) <$> seqZ 516 92) ++
  ((fun n => example_candle WEEKLY ((4 + 7 * n) * DAY_US)) <$> seqZ 36 38) ++
  ((fun n => example_candle MONTHLY (monthly_open (1970 + n / 12) (1 + n mod 12))) <$> seqZ 0 17).

Definition example_repository : CandleRepository := foldl keep_candle empty_repository example_candles.

Lemma kept_sound l r :
  repo_wf r -> repo_aligned r -> Forall (fun c => is_open (nc_timeframe c) (nc_open_time c)) l ->
  repo_wf (foldl keep_candle r l) /\ repo_aligned (foldl keep_candle r l).
Proof.
  revert r. induction l as [|c l IH]; intros r Hw Ha Hl; [done|]. apply Forall_cons in Hl as [Hc Hl]. cbn.
  apply IH; [by apply upsert_wf|by apply upsert_aligned|done].
Qed.

Definition opens (c : NormalizedCandle) : bool :=
  (nc_open_time c mod DAY_US =? 0)%Z &&
  match nc_timeframe c with
  | DAILY => true
  | WEEKLY => (weekday (nc_open_time c) =? 0)%Z
  | MONTHLY => (day_of (nc_open_time c) =? 1)%Z
  end.

Lemma example_opens : Forall (fun c => is_open (nc_timeframe c) (nc_open_time c)) example_candles.
Proof.
  assert (H : forallb opens example_candles = true) by (vm_compute; reflexivity).
  rewrite forallb_forall in H. apply Forall_forall. intros c Hc%list_elem_of_In. specialize (H c Hc). unfold opens in H.
  apply andb_true_iff in H as [H1 H2]. apply Z.eqb_eq in H1. split; [done|].
  destruct (nc_timeframe c); [done|by apply Z.eqb_eq..].
Qed.

(** A bundle that is usable, with prices that fit a float, decided. *)
Definition sound_bundle (b : res StrategyDataBundle) : bool :=
  match b with
  | Ok b => sb_is_usable b &&
            forallb (fun c => forallb (fun f => float_finite f.2) (ohlcv_fields c))
              (cs_candles (sb_daily b) ++ cs_candles (sb_weekly b) ++ cs_candles (sb_monthly b))
  | Raise _ => false
  end.

Lemma sound_bundle_ok b :
  sound_bundle (Ok b) = true ->
  sb_is_usable b = true /\
  Forall fits_float (cs_candles (sb_daily b) ++ cs_candles (sb_weekly b) ++ cs_candles (sb_monthly b)).
Proof.
  intros [Hu Hf]%andb_true_iff. split; [done|]. apply Forall_forall. intros c Hc f Hin.
  rewrite forallb_forall in Hf. specialize (Hf c (proj1 (list_elem_of_In _ _) Hc)).
  rewrite forallb_forall in Hf. by apply Hf, list_elem_of_In.
Qed.

Lemma example_bundle_sound :
  sound_bundle (get_strategy_bundle example_repository BTC (608 * DAY_US) 21 50 20 true) = true.
Proof. vm_compute. reflexivity. Qed.

Lemma usable_bundle_accepted_witness :
  returns (get_strategy_bundle example_repository BTC (608 * DAY_US) 21 50 20 true) (fun b =>
    sb_is_usable b = true /\ accepted (sb_daily b) (608 * DAY_US) DAILY /\
    accepted (sb_weekly b) (608 * DAY_US) WEEKLY /\ accepted (sb_monthly b) (608 * DAY_US) MONTHLY).
Proof.
  destruct (kept_sound example_candles empty_repository) as [Hw Ha]; [apply empty_wf|constructor|apply example_opens|].
  destruct (usable_bundle_accepted example_repository BTC (608 * DAY_US) 21 50 20 true) as (b & Hb & Hok); [done|done|cbn; lia..|].
  pose proof example_bundle_sound as Hs. rewrite Hb in Hs. apply sound_bundle_ok in Hs as [Hu Hf].
  exists b. split; [exact Hb|]. split; [exact Hu|]. by apply Hok.
Defined.
