(* ===== verification/PaperRepository.v ===== *)
(** * The paper trading repository (services/paper_trading/repository.py,
    mappers.py, ids.py, and the constraints of db/orm.py)

    The tables of the ledger as operations on [PaperStore].  An insert is the
    statement of the source: the CHECK constraints of the table, the arbiter
    columns of ON CONFLICT DO NOTHING, the other unique constraints and the
    foreign keys, in the order in which PostgreSQL tests them; a violated
    constraint raises [IntegrityError].  A select without ORDER BY returns the
    rows in insertion order.  The random ids are arguments, taken from the row
    that is inserted, and [now] is what the clock returns where the code reads
    it.  Column widths and the soak run of a scheduler run are not modelled. *)
From Stdlib Require Import ZArith QArith Lia Strings.String.
From stdpp Require Import base list strings sets.
From S2P Require Import Prelude Decimal StrategyModels BtData EventFairness PaperModels Transitions PaperRuntime.

Local Open Scope string_scope.

(** ** Keys (ids.py) *)

Definition format_utc_timestamp (dt : datetime) : string := strftime_utc dt.

Definition signal_type_to_entry_type (t : SignalType) : EntryType :=
  match t with ST_BREAKOUT => BREAKOUT | ST_PULLBACK => PULLBACK end.

Definition entry_type_to_signal_type (t : EntryType) : SignalType :=
  match t with BREAKOUT => ST_BREAKOUT | PULLBACK => ST_PULLBACK end.

Definition strategy_evaluation_key (strategy_version symbol : string) (daily_candle_open_time : datetime) : string :=
  strategy_version ++ ":" ++ symbol ++ ":" ++ format_utc_timestamp daily_candle_open_time.

Definition trade_intent_key (symbol strategy_version : string) (signal_time : datetime) (signal_type : SignalType)
    : string :=
  build_client_intent_id symbol strategy_version signal_time (signal_type_to_entry_type signal_type).

(** The fill sequence is a digit: every caller passes 0. *)
Definition paper_fill_key (paper_order_id : UUID) (fill_candle_open_time : datetime) (fill_sequence : Z) : string :=
  paper_order_id ++ ":" ++ format_utc_timestamp fill_candle_open_time ++ ":" ++ pad_digits 1 fill_sequence.

Definition paper_exit_fill_key (position_id : UUID) (fill_time : datetime) : string :=
  "exit:" ++ position_id ++ ":" ++ format_utc_timestamp fill_time.

Definition funding_event_key (position_id : UUID) (funding_time : datetime) : string :=
  position_id ++ ":" ++ format_utc_timestamp funding_time.

Definition scheduler_run_key (job_name : string) (scheduled_for : datetime) : string :=
  job_name ++ ":" ++ format_utc_timestamp scheduled_for.

Definition stop_update_key (position_id : UUID) (evaluation_time : datetime) : string :=
  position_id ++ ":" ++ format_utc_timestamp evaluation_time.

(** ** Rows to domain records (mappers.py and the validators of models.py) *)

Definition order_row_to_domain (row : PaperOrder) : res PaperOrder :=
  if or_remaining_quantity row <ᵈ 0%Q then Raise (ValueError "remaining_quantity must be >= 0") else Ok row.

Definition fill_refs_ok (row : PaperFill) : bool :=
  match fi_fill_kind row with
  | FK_ENTRY => bool_decide (is_Some (fi_paper_order_id row))
  | FK_EXIT => bool_decide (is_Some (fi_position_id row))
  end.

Definition fill_row_to_domain (row : PaperFill) : res PaperFill :=
  if (fi_quantity row ≤ᵈ 0%Q) || (fi_market_open_price row ≤ᵈ 0%Q) || (fi_fill_price row ≤ᵈ 0%Q) then
    Raise (ValueError "quantity and prices must be > 0")
  else if (fi_fill_sequence row <? 0)%Z then Raise (ValueError "fill_sequence must be >= 0")
  else if negb (fill_refs_ok row) then Raise (ValueError "fill requires its reference")
  else Ok row.

Definition closed_at_ok (row : PaperPosition) : bool :=
  match pp_status row, pp_closed_at row with
  | PP_CLOSED, Some _ => true
  | PP_CLOSED, None => false
  | _, Some _ => false
  | _, None => true
  end.

Definition position_row_to_domain (row : PaperPosition) : res PaperPosition :=
  if (pp_quantity row ≤ᵈ 0%Q) || (pp_average_entry_price row ≤ᵈ 0%Q) || (pp_entry_atr14 row ≤ᵈ 0%Q) then
    Raise (ValueError "quantity, average_entry_price and entry_atr14 must be > 0")
  else if (pp_version row <? 1)%Z then Raise (ValueError "version must be >= 1")
  else if pp_current_stop row <ᵈ pp_initial_stop row then Raise (ValueError "current_stop must be >= initial_stop")
  else if pp_average_entry_price row ≤ᵈ pp_initial_stop row then
    Raise (ValueError "initial_stop must be below average_entry_price for LONG")
  else if negb (closed_at_ok row) then Raise (ValueError "closed_at must be set exactly when status is CLOSED")
  else Ok row.

Definition stop_event_row_to_domain (row : PositionStopEvent) : res PositionStopEvent :=
  if sv_new_stop row <ᵈ sv_previous_stop row then Raise (ValueError "new_stop must be >= previous_stop") else Ok row.

Definition wallet_row_to_domain (row : PaperWalletState) : res PaperWalletState :=
  if (wa_version row <? 1)%Z then Raise (ValueError "version must be >= 1") else Ok row.

(** [dict(row.rejection_reason) if row.rejection_reason else None]. *)
Definition intent_row_to_domain (row : TradeIntent) : TradeIntent :=
  {| ti_intent_id := ti_intent_id row; ti_idempotency_key := ti_idempotency_key row; ti_symbol := ti_symbol row;
     ti_side := ti_side row; ti_signal_type := ti_signal_type row; ti_signal_time := ti_signal_time row;
     ti_scheduled_fill_time := ti_scheduled_fill_time row; ti_requested_entry := ti_requested_entry row;
     ti_requested_stop := ti_requested_stop row; ti_requested_quantity := ti_requested_quantity row;
     ti_approved_quantity := ti_approved_quantity row; ti_risk_amount := ti_risk_amount row;
     ti_status := ti_status row; ti_strategy_evaluation_id := ti_strategy_evaluation_id row;
     ti_rejection_reason := match ti_rejection_reason row with Some [] => None | r => r end;
     ti_created_at := ti_created_at row; ti_updated_at := ti_updated_at row |}.

(** ** Statements *)

Definition scalar_one_or_none {A} (rows : list A) : res (option A) :=
  match rows with
  | [] => Ok None
  | [a] => Ok (Some a)
  | _ => Raise MultipleResultsFound
  end.

Definition scalar_one {A} (rows : list A) : res A :=
  match rows with
  | [] => Raise NoResultFound
  | [a] => Ok a
  | _ => Raise MultipleResultsFound
  end.

(** [session.get] on a primary key. *)
Definition get_by {A} (key : A -> UUID) (rows : list A) (id : UUID) : option A :=
  List.find (fun r => bool_decide (key r = id)) rows.

(** UPDATE ... WHERE. *)
Definition update_where {A} (cond : A -> bool) (f : A -> A) (rows : list A) : list A :=
  (fun r => if cond r then f r else r) <$> rows.

(** The constraints of a table: CHECK, unique, foreign keys. *)
Record Constraint (R : Type) := {
  ct_check : R -> bool;
  ct_unique : R -> R -> bool;
  ct_references : R -> bool;
}.
Arguments ct_check {R}.
Arguments ct_unique {R}.
Arguments ct_references {R}.

(** [session.add(row); session.flush()]. *)
Definition insert {R} (c : Constraint R) (rows : list R) (row : R) : res (list R) :=
  if negb (ct_check c row) then Raise (IntegrityError "check")
  else if existsb (ct_unique c row) rows then Raise (IntegrityError "unique")
  else if negb (ct_references c row) then Raise (IntegrityError "foreign key")
  else Ok (rows ++ [row])%list.

(** INSERT ... ON CONFLICT DO NOTHING RETURNING, and the SELECT of the existing
    row when nothing was inserted: the row, whether it is new, the table. *)
Definition insert_or_get {R} (c : Constraint R) (conflict : R -> R -> bool) (rows : list R) (row : R)
    : res (R * bool * list R) :=
  if negb (ct_check c row) then Raise (IntegrityError "check")
  else match List.filter (conflict row) rows with
       | [] => rows ← insert c rows row; Ok (row, true, rows)
       | existing => r ← scalar_one existing; Ok (r, false, rows)
       end.

(** ** Constraints of the tables (db/orm.py) *)

Definition has_id {A} (key : A -> UUID) (rows : list A) (id : UUID) : bool :=
  existsb (fun r => bool_decide (key r = id)) rows.

Definition has_id_opt {A} (key : A -> UUID) (rows : list A) (id : option UUID) : bool :=
  match id with Some i => has_id key rows i | None => true end.

Definition same_evaluation (a b : StrategyEvaluationRecord) : bool :=
  bool_decide (se_strategy_version b = se_strategy_version a) && bool_decide (se_symbol b = se_symbol a) &&
  (se_daily_candle_open_time b =? se_daily_candle_open_time a)%Z.

Definition evaluation_constraint (s : PaperStore) : Constraint StrategyEvaluationRecord :=
  {| ct_check := fun _ => true;
     ct_unique := fun a b => bool_decide (se_evaluation_id b = se_evaluation_id a) || same_evaluation a b;
     ct_references := fun _ => true |}.

Definition same_signal (a b : TradeIntent) : bool :=
  bool_decide (ti_strategy_evaluation_id b = ti_strategy_evaluation_id a) &&
  bool_decide (ti_symbol b = ti_symbol a) && bool_decide (ti_side b = ti_side a) &&
  bool_decide (ti_signal_type b = ti_signal_type a).

Definition intent_constraint (s : PaperStore) : Constraint TradeIntent :=
  {| ct_check := fun _ => true;
     ct_unique := fun a b => bool_decide (ti_intent_id b = ti_intent_id a) ||
                             bool_decide (ti_idempotency_key b = ti_idempotency_key a) || same_signal a b;
     ct_references := fun a => has_id se_evaluation_id (db_evaluations s) (ti_strategy_evaluation_id a) |}.

Definition same_intent (a b : PaperOrder) : bool := bool_decide (or_intent_id b = or_intent_id a).

Definition order_constraint (s : PaperStore) : Constraint PaperOrder :=
  {| ct_check := fun a => (0%Q ≤ᵈ or_remaining_quantity a) && (0%Q <ᵈ or_requested_quantity a);
     ct_unique := fun a b => bool_decide (or_paper_order_id b = or_paper_order_id a) || same_intent a b;
     ct_references := fun a => has_id ti_intent_id (db_intents s) (or_intent_id a) |}.

Definition same_fill_key (a b : PaperFill) : bool :=
  bool_decide (fi_deterministic_fill_key b = fi_deterministic_fill_key a).

(** NULLs are distinct in a unique constraint. *)
Definition same_order_fill (a b : PaperFill) : bool :=
  match fi_paper_order_id a with
  | Some o => bool_decide (fi_paper_order_id b = Some o) && (fi_candle_key b =? fi_candle_key a)%Z &&
              (fi_fill_sequence b =? fi_fill_sequence a)%Z
  | None => false
  end.

Definition same_exit_fill (a b : PaperFill) : bool :=
  match fi_position_id a with
  | Some p => bool_decide (fi_position_id b = Some p) && (fi_candle_key b =? fi_candle_key a)%Z &&
              (fi_fill_sequence b =? fi_fill_sequence a)%Z && bool_decide (fi_fill_kind b = FK_EXIT)
  | None => false
  end.

Definition fill_kind_refs (a : PaperFill) : bool :=
  match fi_fill_kind a with
  | FK_ENTRY => bool_decide (is_Some (fi_paper_order_id a)) && bool_decide (fi_position_id a = None)
  | FK_EXIT => bool_decide (is_Some (fi_position_id a))
  end.

Definition fill_constraint (s : PaperStore) : Constraint PaperFill :=
  {| ct_check := fun a => (0%Q <ᵈ fi_quantity a) && (0%Q <ᵈ fi_fill_price a) && fill_kind_refs a;
     ct_unique := fun a b => bool_decide (fi_fill_id b = fi_fill_id a) || same_fill_key a b || same_order_fill a b;
     ct_references := fun a => has_id_opt or_paper_order_id (db_orders s) (fi_paper_order_id a) &&
                               has_id_opt pp_position_id (db_positions s) (fi_position_id a) |}.

(** [status IN ('OPEN', 'CLOSING')]. *)
Definition is_open_position (p : PaperPosition) : bool :=
  match pp_status p with PP_OPEN | PP_CLOSING => true | PP_CLOSED => false end.

Definition same_open_symbol (a b : PaperPosition) : bool :=
  is_open_position a && is_open_position b && bool_decide (pp_symbol b = pp_symbol a).

Definition position_check (a : PaperPosition) : bool :=
  (0%Q <ᵈ pp_quantity a) && (0%Q <ᵈ pp_average_entry_price a) && (0%Q <ᵈ pp_entry_atr14 a) &&
  (pp_initial_stop a ≤ᵈ pp_current_stop a) && (1 <=? pp_version a)%Z.

Definition position_constraint (s : PaperStore) : Constraint PaperPosition :=
  {| ct_check := position_check;
     ct_unique := fun a b => bool_decide (pp_position_id b = pp_position_id a) || same_open_symbol a b;
     ct_references := fun a => has_id ti_intent_id (db_intents s) (pp_entry_intent_id a) |}.

Definition same_stop_event (a b : PositionStopEvent) : bool :=
  bool_decide (sv_position_id b = sv_position_id a) && (sv_evaluation_time b =? sv_evaluation_time a)%Z.

Definition stop_event_constraint (s : PaperStore) : Constraint PositionStopEvent :=
  {| ct_check := fun a => sv_previous_stop a ≤ᵈ sv_new_stop a;
     ct_unique := fun a b => bool_decide (sv_stop_event_id b = sv_stop_event_id a) || same_stop_event a b;
     ct_references := fun a => has_id pp_position_id (db_positions s) (sv_position_id a) |}.

Definition same_snapshot (a b : PortfolioSnapshot) : bool :=
  bool_decide (sn_idempotency_key b = sn_idempotency_key a).

Definition snapshot_constraint : Constraint PortfolioSnapshot :=
  {| ct_check := fun _ => true;
     ct_unique := fun a b => bool_decide (sn_snapshot_id b = sn_snapshot_id a) || same_snapshot a b;
     ct_references := fun _ => true |}.

Definition same_funding (a b : FundingEventRecord) : bool :=
  bool_decide (fr_position_id b = fr_position_id a) && (fr_funding_time b =? fr_funding_time a)%Z.

Definition funding_constraint (s : PaperStore) : Constraint FundingEventRecord :=
  {| ct_check := fun _ => true;
     ct_unique := fun a b => bool_decide (fr_funding_event_id b = fr_funding_event_id a) || same_funding a b ||
                             bool_decide (fr_deterministic_key b = fr_deterministic_key a);
     ct_references := fun a => has_id pp_position_id (db_positions s) (fr_position_id a) |}.

Definition is_run (job_name : string) (scheduled_for : datetime) (r : SchedulerRun) : bool :=
  bool_decide (sr_job_name r = job_name) && (sr_scheduled_for r =? scheduled_for)%Z.

Definition same_run (a b : SchedulerRun) : bool := is_run (sr_job_name a) (sr_scheduled_for a) b.

Definition scheduler_run_constraint (s : PaperStore) : Constraint SchedulerRun :=
  {| ct_check := fun _ => true;
     ct_unique := fun a b => bool_decide (sr_run_id b = sr_run_id a) || same_run a b ||
                             bool_decide (sr_idempotency_key b = sr_idempotency_key a);
     ct_references := fun a => has_id_opt sr_run_id (db_scheduler_runs s) (sr_recovery_of_run_id a) &&
                               has_id_opt sr_run_id (db_scheduler_runs s) (sr_resolved_by_run_id a) |}.

(** ** The wallet *)

Definition get_wallet (s : PaperStore) : res (option PaperWalletState) :=
  match db_wallet s with
  | Some row => w ← wallet_row_to_domain row; Ok (Some w)
  | None => Ok None
  end.

(** The keyword arguments of [update_wallet]. *)
Record WalletDelta := {
  wd_cash_delta : decimal;
  wd_realized_pnl_delta : decimal;
  wd_fees_delta : decimal;
  wd_funding_delta : decimal;
  wd_slippage_delta : decimal;
}.

Definition no_delta : WalletDelta :=
  {| wd_cash_delta := 0%Q; wd_realized_pnl_delta := 0%Q; wd_fees_delta := 0%Q; wd_funding_delta := 0%Q;
     wd_slippage_delta := 0%Q |}.

Definition apply_delta (row : PaperWalletState) (d : WalletDelta) (updated_at : datetime) : PaperWalletState :=
  {| wa_wallet_id := wa_wallet_id row;
     wa_cash := wa_cash row +ᵈ wd_cash_delta d;
     wa_total_realized_pnl := wa_total_realized_pnl row +ᵈ wd_realized_pnl_delta d;
     wa_total_fees := wa_total_fees row +ᵈ wd_fees_delta d;
     wa_total_funding := wa_total_funding row +ᵈ wd_funding_delta d;
     wa_total_slippage := wa_total_slippage row +ᵈ wd_slippage_delta d;
     wa_version := wa_version row + 1;
     wa_updated_at := updated_at |}.

Definition update_wallet (s : PaperStore) (now : datetime) (d : WalletDelta) (expected_version : option Z)
    (updated_at : option datetime) : res (PaperWalletState * PaperStore) :=
  row ← or_raise (LookupError "paper_wallet singleton not seeded") (db_wallet s);
  if version_conflict expected_version (wa_version row) then Raise (ValueError "paper_wallet version conflict")
  else
    let row := apply_delta row d (default now updated_at) in
    w ← wallet_row_to_domain row;
    Ok (w, with_wallet s row).

(** ** Inserts *)

Definition insert_or_get_strategy_evaluation (s : PaperStore) (row : StrategyEvaluationRecord)
    : res (StrategyEvaluationRecord * bool * PaperStore) :=
  '(r, created, rows) ← insert_or_get (evaluation_constraint s) same_evaluation (db_evaluations s) row;
  Ok (r, created, with_evaluations s rows).

Definition insert_or_get_trade_intent (s : PaperStore) (row : TradeIntent) : res (TradeIntent * bool * PaperStore) :=
  '(r, created, rows) ← insert_or_get (intent_constraint s) same_signal (db_intents s) row;
  Ok (intent_row_to_domain r, created, with_intents s rows).

Definition insert_or_get_paper_order (s : PaperStore) (row : PaperOrder) : res (PaperOrder * bool * PaperStore) :=
  '(r, created, rows) ← insert_or_get (order_constraint s) same_intent (db_orders s) row;
  r ← order_row_to_domain r;
  Ok (r, created, with_orders s rows).

(** The fill of the same order and candle, or of the same exit, comes before
    the fill of the same key. *)
Definition existing_fill (s : PaperStore) (row : PaperFill) : res (option PaperFill) :=
  entry ← match fi_paper_order_id row with
          | Some _ => scalar_one_or_none (List.filter (same_order_fill row) (db_fills s))
          | None => Ok None
          end;
  match entry with
  | Some f => Ok (Some f)
  | None =>
      match fi_position_id row, fi_fill_kind row with
      | Some _, FK_EXIT => scalar_one_or_none (List.filter (same_exit_fill row) (db_fills s))
      | _, _ => Ok None
      end
  end.

Definition insert_or_get_paper_fill (s : PaperStore) (row : PaperFill) : res (PaperFill * bool * PaperStore) :=
  existing ← existing_fill s row;
  match existing with
  | Some f => f ← fill_row_to_domain f; Ok (f, false, s)
  | None =>
      '(r, created, rows) ← insert_or_get (fill_constraint s) same_fill_key (db_fills s) row;
      r ← fill_row_to_domain r;
      Ok (r, created, with_fills s rows)
  end.

Definition insert_or_get_stop_event (s : PaperStore) (row : PositionStopEvent)
    : res (PositionStopEvent * bool * PaperStore) :=
  '(r, created, rows) ← insert_or_get (stop_event_constraint s) same_stop_event (db_stop_events s) row;
  r ← stop_event_row_to_domain r;
  Ok (r, created, with_stop_events s rows).

Definition insert_or_get_funding_event (s : PaperStore) (row : FundingEventRecord)
    : res (FundingEventRecord * bool * PaperStore) :=
  '(r, created, rows) ← insert_or_get (funding_constraint s) same_funding (db_funding s) row;
  Ok (r, created, with_funding s rows).

Definition list_funding_events (s : PaperStore) : list FundingEventRecord := db_funding s.

Definition insert_or_get_scheduler_run (s : PaperStore) (row : SchedulerRun) : res (SchedulerRun * bool * PaperStore) :=
  '(r, created, rows) ← insert_or_get (scheduler_run_constraint s) same_run (db_scheduler_runs s) row;
  Ok (r, created, with_runs s rows).

Definition insert_or_get_portfolio_snapshot (s : PaperStore) (row : PortfolioSnapshot)
    : res (PortfolioSnapshot * bool * PaperStore) :=
  '(r, created, rows) ← insert_or_get snapshot_constraint same_snapshot (db_snapshots s) row;
  Ok (r, created, with_snapshots s rows).

Definition create_portfolio_snapshot (s : PaperStore) (row : PortfolioSnapshot) : res (PortfolioSnapshot * PaperStore) :=
  rows ← insert snapshot_constraint (db_snapshots s) row;
  Ok (row, with_snapshots s rows).

(** ** Positions *)

Definition create_position (s : PaperStore) (row : PaperPosition) : res (PaperPosition * PaperStore) :=
  rows ← insert (position_constraint s) (db_positions s) row;
  r ← position_row_to_domain row;
  Ok (r, with_positions s rows).

Definition other_position (a b : PaperPosition) : bool := negb (bool_decide (pp_position_id b = pp_position_id a)).

(** The UPDATE that a flush sends for a changed row. *)
Definition flush_position (s : PaperStore) (row : PaperPosition) : res PaperStore :=
  if negb (position_check row) then Raise (IntegrityError "check")
  else if existsb (fun b => other_position row b && same_open_symbol row b) (db_positions s) then
    Raise (IntegrityError "uq_paper_positions_open_symbol")
  else Ok (with_positions s
             (update_where (fun b => bool_decide (pp_position_id b = pp_position_id row)) (fun _ => row) (db_positions s))).

(** [session.merge] of a row that is not in the table inserts it. *)
Definition update_position (s : PaperStore) (row : PaperPosition) : res (PaperPosition * PaperStore) :=
  s ← match get_by pp_position_id (db_positions s) (pp_position_id row) with
      | Some _ => flush_position s row
      | None => rows ← insert (position_constraint s) (db_positions s) row; Ok (with_positions s rows)
      end;
  merged ← or_raise AssertionError (get_by pp_position_id (db_positions s) (pp_position_id row));
  r ← position_row_to_domain merged;
  Ok (r, s).

Definition get_open_positions (s : PaperStore) : res (list PaperPosition) :=
  mapM position_row_to_domain (List.filter is_open_position (db_positions s)).

Definition get_open_position_for_symbol (s : PaperStore) (symbol : string) : res (option PaperPosition) :=
  row ← scalar_one_or_none
    (List.filter (fun p => bool_decide (pp_symbol p = symbol) && is_open_position p) (db_positions s));
  match row with
  | Some r => r ← position_row_to_domain r; Ok (Some r)
  | None => Ok None
  end.

Definition get_position (s : PaperStore) (position_id : UUID) : res (option PaperPosition) :=
  match get_by pp_position_id (db_positions s) position_id with
  | Some r => r ← position_row_to_domain r; Ok (Some r)
  | None => Ok None
  end.

Definition list_all_positions (s : PaperStore) : res (list PaperPosition) := mapM position_row_to_domain (db_positions s).

(** A dict from the symbol to the number of open positions. *)
Definition count_open_positions_by_symbol (s : PaperStore) : list (string * Z) :=
  fold_left (fun counts p =>
    od_set counts (pp_symbol p) (default 0%Z (od_get counts (pp_symbol p)) + 1)%Z)
    (List.filter is_open_position (db_positions s)) [].

(** ** Intents and orders *)

Definition is_nonterminal (i : TradeIntent) : bool := negb (bool_decide (ti_status i ∈ TERMINAL_INTENT_STATUSES)).

Definition get_nonterminal_intent_for_symbol (s : PaperStore) (symbol : string) : res (option TradeIntent) :=
  row ← scalar_one_or_none (List.filter (fun i => bool_decide (ti_symbol i = symbol) && is_nonterminal i) (db_intents s));
  Ok (option_map intent_row_to_domain row).

Definition is_scheduled_for (symbol : string) (scheduled_fill_time : datetime) (i : TradeIntent) : bool :=
  bool_decide (ti_symbol i = symbol) && (ti_scheduled_fill_time i =? scheduled_fill_time)%Z &&
  bool_decide (ti_status i ∈ [IS_SCHEDULED; IS_SUBMITTED_TO_PAPER_ENGINE]).

Definition get_scheduled_intents_for_symbol (s : PaperStore) (symbol : string) (scheduled_fill_time : datetime)
    : list TradeIntent :=
  intent_row_to_domain <$>
  sort_by ti_created_at (List.filter (is_scheduled_for symbol scheduled_fill_time) (db_intents s)).

Definition get_intent (s : PaperStore) (intent_id : UUID) : option TradeIntent :=
  intent_row_to_domain <$> get_by ti_intent_id (db_intents s) intent_id.

Definition list_all_intents (s : PaperStore) : list TradeIntent := intent_row_to_domain <$> db_intents s.

(** The optional values are written when they are given. *)
Definition intent_with_status (status : TradeIntentStatus) (approved_quantity : option decimal)
    (rejection_reason : option (list (string * json))) (updated_at : datetime) (i : TradeIntent) : TradeIntent :=
  {| ti_intent_id := ti_intent_id i; ti_idempotency_key := ti_idempotency_key i; ti_symbol := ti_symbol i;
     ti_side := ti_side i; ti_signal_type := ti_signal_type i; ti_signal_time := ti_signal_time i;
     ti_scheduled_fill_time := ti_scheduled_fill_time i; ti_requested_entry := ti_requested_entry i;
     ti_requested_stop := ti_requested_stop i; ti_requested_quantity := ti_requested_quantity i;
     ti_approved_quantity := or_keep_option approved_quantity (ti_approved_quantity i);
     ti_risk_amount := ti_risk_amount i;
     ti_status := status; ti_strategy_evaluation_id := ti_strategy_evaluation_id i;
     ti_rejection_reason := or_keep_option rejection_reason (ti_rejection_reason i);
     ti_created_at := ti_created_at i; ti_updated_at := updated_at |}.

Definition update_intent_status (s : PaperStore) (now : datetime) (intent_id : UUID) (status : TradeIntentStatus)
    (approved_quantity : option decimal) (rejection_reason : option (list (string * json)))
    (updated_at : option datetime) : res (TradeIntent * PaperStore) :=
  let s := with_intents s
    (update_where (fun i => bool_decide (ti_intent_id i = intent_id))
       (intent_with_status status approved_quantity rejection_reason (default now updated_at)) (db_intents s)) in
  row ← or_raise AssertionError (get_by ti_intent_id (db_intents s) intent_id);
  Ok (intent_row_to_domain row, s).

Definition get_order_for_intent (s : PaperStore) (intent_id : UUID) : res (option PaperOrder) :=
  row ← scalar_one_or_none (List.filter (fun o => bool_decide (or_intent_id o = intent_id)) (db_orders s));
  match row with
  | Some o => o ← order_row_to_domain o; Ok (Some o)
  | None => Ok None
  end.

Definition list_all_orders (s : PaperStore) : res (list PaperOrder) := mapM order_row_to_domain (db_orders s).

Definition order_with_status (status : PaperOrderStatus) (remaining_quantity : option decimal) (updated_at : datetime)
    (o : PaperOrder) : PaperOrder :=
  {| or_paper_order_id := or_paper_order_id o; or_intent_id := or_intent_id o; or_symbol := or_symbol o;
     or_side := or_side o; or_order_type := or_order_type o; or_requested_quantity := or_requested_quantity o;
     or_remaining_quantity := default (or_remaining_quantity o) remaining_quantity;
     or_expected_fill_time := or_expected_fill_time o; or_status := status; or_created_at := or_created_at o;
     or_updated_at := updated_at |}.

Definition update_order_status (s : PaperStore) (now : datetime) (paper_order_id : UUID) (status : PaperOrderStatus)
    (remaining_quantity : option decimal) (updated_at : option datetime) : res (PaperOrder * PaperStore) :=
  let rows := update_where (fun o => bool_decide (or_paper_order_id o = paper_order_id))
    (order_with_status status remaining_quantity (default now updated_at)) (db_orders s) in
  if negb (forallb (ct_check (order_constraint s)) rows) then Raise (IntegrityError "check")
  else
    row ← or_raise AssertionError (get_by or_paper_order_id rows paper_order_id);
    o ← order_row_to_domain row;
    Ok (o, with_orders s rows).

(** ** Fills and stop events *)

Definition get_fills_for_order (s : PaperStore) (paper_order_id : UUID) : res (list PaperFill) :=
  mapM fill_row_to_domain
    (sort_by fi_fill_sequence
       (List.filter (fun f => bool_decide (fi_paper_order_id f = Some paper_order_id)) (db_fills s))).

Definition list_all_fills (s : PaperStore) : res (list PaperFill) := mapM fill_row_to_domain (db_fills s).

Definition list_stop_events_for_position (s : PaperStore) (position_id : UUID) : res (list PositionStopEvent) :=
  mapM stop_event_row_to_domain
    (sort_by sv_evaluation_time
       (List.filter (fun e => bool_decide (sv_position_id e = position_id)) (db_stop_events s))).

(** ** Scheduler runs *)

Definition RETRYABLE_MARKET_EVENT_ERROR_CODES : list string :=
  ["RETRYABLE_CONTEXT_NOT_READY"; "FILL_NOT_DUE"; "RETRYABLE_SCHEDULER_DEFERRED"].

Definition is_retryable_market_event_error (error : option string) : bool :=
  match error with Some e => bool_decide (e ∈ RETRYABLE_MARKET_EVENT_ERROR_CODES) | None => false end.

Definition is_permanent_configuration_error (error : option string) : bool :=
  match error with Some e => bool_decide (e ∈ PERMANENT_CONFIGURATION_ERROR_CODES) | None => false end.

Definition get_scheduler_run (s : PaperStore) (job_name : string) (scheduled_for : datetime) : res (option SchedulerRun) :=
  scalar_one_or_none (List.filter (is_run job_name scheduled_for) (db_scheduler_runs s)).

Definition run_completed (status : SchedulerRunStatus) (completed_at : datetime) (error : option string)
    (r : SchedulerRun) : SchedulerRun :=
  {| sr_run_id := sr_run_id r; sr_job_name := sr_job_name r; sr_scheduled_for := sr_scheduled_for r;
     sr_started_at := sr_started_at r; sr_completed_at := Some completed_at; sr_status := status; sr_error := error;
     sr_idempotency_key := sr_idempotency_key r; sr_recovery_of_run_id := sr_recovery_of_run_id r;
     sr_resolved_by_run_id := sr_resolved_by_run_id r |}.

Definition complete_scheduler_run (s : PaperStore) (job_name : string) (scheduled_for : datetime)
    (status : SchedulerRunStatus) (completed_at : datetime) (error : option string) : res (SchedulerRun * PaperStore) :=
  let rows := update_where (is_run job_name scheduled_for) (run_completed status completed_at error) (db_scheduler_runs s) in
  row ← scalar_one (List.filter (is_run job_name scheduled_for) rows);
  Ok (row, with_runs s rows).

Definition is_recovery_of (original_run_id : UUID) (r : SchedulerRun) : bool :=
  bool_decide (sr_recovery_of_run_id r = Some original_run_id).

Definition count_recovery_attempts (s : PaperStore) (original_run_id : UUID) : nat :=
  length (List.filter (is_recovery_of original_run_id) (db_scheduler_runs s)).

(** [ORDER BY started_at DESC], where NULL comes first. *)
Definition latest_first (r : SchedulerRun) : Z :=
  match sr_started_at r with Some t => (- t)%Z | None => (- (10 ^ 30))%Z end.

Definition is_active_attempt (r : SchedulerRun) : bool :=
  bool_decide (sr_status r = SR_RUNNING) ||
  bool_decide (sr_status r = SR_SKIPPED) && is_retryable_market_event_error (sr_error r).

Definition get_active_recovery_attempt (s : PaperStore) (original_run_id : UUID) : option SchedulerRun :=
  List.find is_active_attempt (sort_by latest_first (List.filter (is_recovery_of original_run_id) (db_scheduler_runs s))).

Definition run_reactivated (started_at : datetime) (r : SchedulerRun) : SchedulerRun :=
  {| sr_run_id := sr_run_id r; sr_job_name := sr_job_name r; sr_scheduled_for := sr_scheduled_for r;
     sr_started_at := Some started_at; sr_completed_at := None; sr_status := SR_RUNNING; sr_error := None;
     sr_idempotency_key := sr_idempotency_key r; sr_recovery_of_run_id := sr_recovery_of_run_id r;
     sr_resolved_by_run_id := sr_resolved_by_run_id r |}.

Definition reactivate_scheduler_run (s : PaperStore) (job_name : string) (scheduled_for started_at : datetime) : PaperStore :=
  with_runs s (update_where (is_run job_name scheduled_for) (run_reactivated started_at) (db_scheduler_runs s)).

(** [run_id] is the random id of the new run. *)
Definition create_recovery_attempt (s : PaperStore) (run_id : UUID) (original_run : SchedulerRun)
    (recovery_job_name : string) (started_at : datetime) : res (SchedulerRun * bool * PaperStore) :=
  insert_or_get_scheduler_run s
    {| sr_run_id := run_id; sr_job_name := recovery_job_name; sr_scheduled_for := sr_scheduled_for original_run;
       sr_started_at := Some started_at; sr_completed_at := None; sr_status := SR_RUNNING; sr_error := None;
       sr_idempotency_key := scheduler_run_key recovery_job_name (sr_scheduled_for original_run);
       sr_recovery_of_run_id := Some (sr_run_id original_run); sr_resolved_by_run_id := None |}.

Definition run_resolved (recovery_run_id : UUID) (r : SchedulerRun) : SchedulerRun :=
  {| sr_run_id := sr_run_id r; sr_job_name := sr_job_name r; sr_scheduled_for := sr_scheduled_for r;
     sr_started_at := sr_started_at r; sr_completed_at := sr_completed_at r; sr_status := sr_status r;
     sr_error := sr_error r; sr_idempotency_key := sr_idempotency_key r;
     sr_recovery_of_run_id := sr_recovery_of_run_id r; sr_resolved_by_run_id := Some recovery_run_id |}.

Definition mark_run_resolved (s : PaperStore) (original_run_id recovery_run_id : UUID) : res PaperStore :=
  let unresolved r := bool_decide (sr_run_id r = original_run_id) && bool_decide (sr_resolved_by_run_id r = None) in
  if existsb unresolved (db_scheduler_runs s) && negb (has_id sr_run_id (db_scheduler_runs s) recovery_run_id) then
    Raise (IntegrityError "foreign key")
  else Ok (with_runs s (update_where unresolved (run_resolved recovery_run_id) (db_scheduler_runs s))).

Definition is_running_run (job_name : string) (scheduled_for : datetime) (r : SchedulerRun) : bool :=
  is_run job_name scheduled_for r && bool_decide (sr_status r = SR_RUNNING) && bool_decide (sr_completed_at r = None).

(** Deleting a run another run refers to violates its foreign key. *)
Definition delete_scheduler_run_if_running (s : PaperStore) (job_name : string) (scheduled_for : datetime)
    : res (bool * PaperStore) :=
  let gone := List.filter (is_running_run job_name scheduled_for) (db_scheduler_runs s) in
  let left := List.filter (fun r => negb (is_running_run job_name scheduled_for r)) (db_scheduler_runs s) in
  let refers r := existsb (fun g => bool_decide (sr_recovery_of_run_id r = Some (sr_run_id g)) ||
                                    bool_decide (sr_resolved_by_run_id r = Some (sr_run_id g))) gone in
  if existsb refers left then Raise (IntegrityError "foreign key")
  else Ok (match gone with [] => false | _ => true end, with_runs s left).

Definition fail_orphan_scheduler_runs (s : PaperStore) (completed_at : datetime) : nat * PaperStore :=
  let running r := bool_decide (sr_status r = SR_RUNNING) in
  (length (List.filter running (db_scheduler_runs s)),
   with_runs s (update_where running
     (run_completed SR_FAILED completed_at (Some "orphan_run_marked_failed_on_recovery")) (db_scheduler_runs s))).

(** ** Fairness of the market events *)

Definition get_fairness_group_rotation_cursor (s : PaperStore) : Z := default 0%Z (db_group_rotation_cursor s).

Definition set_fairness_group_rotation_cursor (s : PaperStore) (cursor : Z) : PaperStore := with_group_rotation_cursor s cursor.

Definition list_market_event_group_states (s : PaperStore) : list (string * MarketEventGroupState) := db_group_states s.

Definition upsert_market_event_group_deferred (s : PaperStore) (state : MarketEventGroupState) : PaperStore :=
  with_group_states s (od_set (db_group_states s) (gs_group_key state) state).

Definition delete_market_event_group_state (s : PaperStore) (group_key : string) : PaperStore :=
  with_group_states s (od_del (db_group_states s) group_key).

(** ** Pages

    The lists of the read API are keyset pages, newest first: ORDER BY time
    DESC, id DESC with a cursor on both columns.  The canonical text of a UUID
    is ordered like its bytes. *)

Section Page.
Context {R : Type} (time : R -> datetime) (id : R -> UUID).

Definition key_lt_page (t : datetime) (i : UUID) (r : R) : bool :=
  (time r <? t)%Z || ((time r =? t)%Z && String.ltb (id r) i).

Definition newer (a b : R) : bool := key_lt_page (time a) (id a) b.

Fixpoint insert_page (x : R) (l : list R) : list R :=
  match l with
  | [] => [x]
  | y :: l' => if newer y x then y :: insert_page x l' else x :: l
  end.

Definition sort_page (l : list R) : list R := foldr insert_page [] l.

Fixpoint take_limit (limit : Z) (l : list R) : list R :=
  match l with
  | [] => []
  | x :: l => if (limit <=? 0)%Z then [] else x :: take_limit (limit - 1) l
  end.

(** The cursor counts when both of its parts are given. *)
Definition after_cursor (after_time : option datetime) (after_id : option UUID) (r : R) : bool :=
  match after_time, after_id with Some t, Some i => key_lt_page t i r | _, _ => true end.

Definition list_page (limit : Z) (after_time : option datetime) (after_id : option UUID) (rows : list R) : list R :=
  take_limit limit (sort_page (List.filter (after_cursor after_time after_id) rows)).
End Page.

Definition list_scheduler_runs (s : PaperStore) (limit : Z) (after_scheduled_for : option datetime)
    (after_run_id : option UUID) : list SchedulerRun :=
  list_page sr_scheduled_for sr_run_id limit after_scheduled_for after_run_id (db_scheduler_runs s).

Definition list_evaluations (s : PaperStore) (limit : Z) (after_created_at : option datetime)
    (after_evaluation_id : option UUID) : list StrategyEvaluationRecord :=
  list_page se_created_at se_evaluation_id limit after_created_at after_evaluation_id (db_evaluations s).

Definition list_intents (s : PaperStore) (limit : Z) (after_created_at : option datetime)
    (after_intent_id : option UUID) : list TradeIntent :=
  intent_row_to_domain <$> list_page ti_created_at ti_intent_id limit after_created_at after_intent_id (db_intents s).

Definition list_orders (s : PaperStore) (limit : Z) (after_created_at : option datetime)
    (after_order_id : option UUID) : res (list PaperOrder) :=
  mapM order_row_to_domain (list_page or_created_at or_paper_order_id limit after_created_at after_order_id (db_orders s)).

Definition list_fills (s : PaperStore) (limit : Z) (after_fill_time : option datetime)
    (after_fill_id : option UUID) : res (list PaperFill) :=
  mapM fill_row_to_domain (list_page fi_fill_time fi_fill_id limit after_fill_time after_fill_id (db_fills s)).

Definition list_positions (s : PaperStore) (limit : Z) (after_opened_at : option datetime)
    (after_position_id : option UUID) (status : option PaperPositionStatus) (open_only : bool) : res (list PaperPosition) :=
  let rows := if open_only then List.filter is_open_position (db_positions s)
              else match status with
                   | Some st => List.filter (fun p => bool_decide (pp_status p = st)) (db_positions s)
                   | None => db_positions s
                   end in
  mapM position_row_to_domain (list_page pp_opened_at pp_position_id limit after_opened_at after_position_id rows).

Definition list_stop_events (s : PaperStore) (limit : Z) (after_evaluation_time : option datetime)
    (after_stop_event_id : option UUID) : res (list PositionStopEvent) :=
  mapM stop_event_row_to_domain
    (list_page sv_evaluation_time sv_stop_event_id limit after_evaluation_time after_stop_event_id (db_stop_events s)).

Definition list_portfolio_snapshots (s : PaperStore) (limit : Z) (after_evaluation_time : option datetime)
    (after_snapshot_id : option UUID) : list PortfolioSnapshot :=
  list_page sn_evaluation_time sn_snapshot_id limit after_evaluation_time after_snapshot_id (db_snapshots s).

(** [ORDER BY evaluation_time DESC LIMIT 1]. *)
Definition get_latest_portfolio_snapshot (s : PaperStore) : option PortfolioSnapshot :=
  head (sort_by (fun n => (- sn_evaluation_time n)%Z) (db_snapshots s)).
