(* ===== verification/PaperAccounting.v ===== *)
(** * Paper portfolio accounting (services/paper_trading/accounting.py, portfolio.py,
    accounting_verification.py)

    A persisted position seen by the shared accounting, portfolio snapshots, and
    the reconstruction of the wallet from the fills. *)
From Stdlib Require Import ZArith QArith Lia.
From stdpp Require Import base list gmap sets strings.
From S2P Require Import Prelude Decimal StrategyModels RiskModels RiskValidation Sizing.
From S2P Require Import BtModels BtData BtPortfolio PaperModels PaperRuntime PaperRepository.

(** ** Adapters (accounting.py) *)

Definition paper_position_to_simulated (position : PaperPosition) : SimulatedPosition :=
  {| pos_symbol := pp_symbol position;
     pos_quantity := pp_quantity position;
     pos_entry_price := pp_average_entry_price position;
     pos_entry_time := pp_opened_at position;
     pos_initial_stop := pp_initial_stop position;
     pos_trail_stop := pp_current_stop position;
     pos_effective_stop := pp_current_stop position;
     pos_highest_close := pp_highest_close_since_entry position;
     pos_entry_atr14 := pp_entry_atr14 position;
     pos_client_intent_id := pp_entry_intent_id position;
     pos_margin_reserved := pp_margin_reserved position |}.

Definition build_account_from_paper_state (wallet : PaperWalletState) (open_positions : list PaperPosition)
    (mark_prices : gmap string decimal) (risk_params : RiskParameters) : AccountState :=
  let portfolio :=
    {| po_cash := wa_cash wallet; po_positions := paper_position_to_simulated <$> open_positions;
       po_pending_intents := []; po_total_fees := wa_total_fees wallet; po_total_funding := wa_total_funding wallet;
       po_total_slippage := wa_total_slippage wallet; po_realized_pnl := wa_total_realized_pnl wallet |} in
  build_account_state portfolio mark_prices (rp_max_leverage risk_params).

Definition compute_paper_equity (wallet : PaperWalletState) (open_positions : list PaperPosition)
    (mark_prices : gmap string decimal) : decimal :=
  compute_equity (wa_cash wallet) (paper_position_to_simulated <$> open_positions) mark_prices.

Definition compute_paper_unrealized_pnl (open_positions : list PaperPosition) (mark_prices : gmap string decimal)
    : decimal :=
  compute_unrealized_pnl (paper_position_to_simulated <$> open_positions) mark_prices.

Definition compute_paper_open_risk (open_positions : list PaperPosition) (mark_prices : gmap string decimal) : decimal :=
  current_open_risk_usd (to_position_states (paper_position_to_simulated <$> open_positions) mark_prices).

Definition compute_paper_margin_used (open_positions : list PaperPosition) : decimal :=
  compute_used_margin (paper_position_to_simulated <$> open_positions).

Definition resolve_marks_for_paper_positions (open_positions : list PaperPosition)
    (day_candles : list (string * Candle)) (prior_closes : gmap string decimal) : gmap string decimal :=
  resolve_marks_at_open (paper_position_to_simulated <$> open_positions) day_candles prior_closes.

(** ** Snapshots (portfolio.py) *)

Definition portfolio_snapshot_key (event : string) (evaluation_time : datetime) : string :=
  ("portfolio:" ++ event ++ ":" ++ strftime_utc evaluation_time)%string.

(** Every caller leaves the wallet and the positions to the repository. *)
Definition capture_snapshot (s : PaperStore) (snapshot_id : UUID) (evaluation_time : datetime) (event : string)
    (day_candles : list (string * Candle)) (prior_closes : gmap string decimal) (cycle_id : option UUID)
    : res (PortfolioSnapshot * bool * PaperStore) :=
  wallet ← get_wallet s;
  wallet ← or_raise (LookupError "paper_wallet not seeded") wallet;
  open_positions ← get_open_positions s;
  let marks := resolve_marks_for_paper_positions open_positions day_candles prior_closes in
  let unrealized := compute_paper_unrealized_pnl open_positions marks in
  let equity := compute_paper_equity wallet open_positions marks in
  let margin_used := compute_paper_margin_used open_positions in
  let open_risk := compute_paper_open_risk open_positions marks in
  let row := {| sn_snapshot_id := snapshot_id;
                sn_evaluation_time := evaluation_time;
                sn_cash := wa_cash wallet;
                sn_margin_used := margin_used;
                sn_equity := equity;
                sn_unrealized_pnl := unrealized;
                sn_realized_pnl := wa_total_realized_pnl wallet;
                sn_total_open_risk := open_risk;
                sn_open_position_count := length open_positions;
                sn_idempotency_key := portfolio_snapshot_key event evaluation_time |} in
  '(snapshot, created, s) ← insert_or_get_portfolio_snapshot s row;
  let s := if (created : bool) then append_audit_event s
             {| ae_event_type := "PORTFOLIO_SNAPSHOT";
                ae_aggregate_type := "portfolio_snapshot";
                ae_aggregate_id := sn_snapshot_id snapshot;
                ae_cycle_id := cycle_id;
                ae_payload_json := [("event", JStr event); ("equity", JDec equity)]%string;
                ae_created_at := evaluation_time |}
           else s in
  Ok (snapshot, created, s).

(** ** Reconstruction (accounting_verification.py) *)

Record ReconstructedWallet := {
  rw_cash : decimal;
  rw_total_fees : decimal;
  rw_total_slippage : decimal;
  rw_total_realized_pnl : decimal;
  rw_open_margin : decimal;
  rw_total_funding : decimal;
}.

(** The four running totals of the loop over the fills. *)
Record Totals := {
  to_cash : decimal;
  to_fees : decimal;
  to_slippage : decimal;
  to_realized : decimal;
}.

(** [positions_by_id.get(id)]: the last position of the list with this id. *)
Definition position_by_id (positions : list PaperPosition) (id : UUID) : option PaperPosition :=
  get_by pp_position_id (rev positions) id.

Definition exit_gross (fill : PaperFill) (position : PaperPosition) : decimal :=
  (fi_fill_price fill -ᵈ pp_average_entry_price position) *ᵈ fi_quantity fill.

Definition add_fill (positions : list PaperPosition) (t : Totals) (fill : PaperFill) : Totals :=
  let fees := to_fees t +ᵈ fi_fee fill in
  let slippage := to_slippage t +ᵈ fi_slippage fill in
  let unchanged := {| to_cash := to_cash t; to_fees := fees; to_slippage := slippage; to_realized := to_realized t |} in
  match fi_fill_kind fill with
  | FK_ENTRY =>
      {| to_cash := to_cash t -ᵈ fi_fee fill; to_fees := fees; to_slippage := slippage; to_realized := to_realized t |}
  | FK_EXIT =>
      match fi_position_id fill with
      | None => unchanged
      | Some id =>
          match position_by_id positions id with
          | None => unchanged
          | Some position =>
              let net_pnl := exit_gross fill position -ᵈ fi_fee fill in
              {| to_cash := to_cash t +ᵈ net_pnl; to_fees := fees; to_slippage := slippage;
                 to_realized := to_realized t +ᵈ net_pnl |}
          end
      end
  end.

Definition initial_totals (initial_cash : decimal) : Totals :=
  {| to_cash := initial_cash; to_fees := 0%Q; to_slippage := 0%Q; to_realized := 0%Q |}.

Definition POSITIONS_LIMIT : Z := 10000.

Definition reconstruct_wallet (s : PaperStore) (initial_cash : decimal) : res ReconstructedWallet :=
  positions ← list_positions s POSITIONS_LIMIT None None None false;
  fills ← list_all_fills s;
  let t := fold_left (add_fill positions) fills (initial_totals initial_cash) in
  let total_funding := dsum (fr_amount <$> list_funding_events s) in
  let cash := to_cash t +ᵈ total_funding in
  open_positions ← get_open_positions s;
  Ok {| rw_cash := cash;
        rw_total_fees := to_fees t;
        rw_total_slippage := to_slippage t;
        rw_total_realized_pnl := to_realized t;
        rw_open_margin := dsum (pp_margin_reserved <$> open_positions);
        rw_total_funding := total_funding |}.

Definition count_key (counts : list (string * Z)) (key : string) : list (string * Z) :=
  od_set counts key (default 0%Z (od_get counts key) + 1)%Z.

(** One issue per key that was counted more than once. *)
Definition duplicates (what : string) (counts : list (string * Z)) : list string :=
  (fun kc => (what ++ kc.1)%string) <$> List.filter (fun kc => (1 <? kc.2)%Z) counts.

Definition wallet_issues (wallet : PaperWalletState) (r : ReconstructedWallet) : list string :=
  (if wa_cash wallet =ᵈ rw_cash r then [] else ["wallet cash mismatch"%string]) ++
  (if wa_total_fees wallet =ᵈ rw_total_fees r then [] else ["wallet fees mismatch"%string]) ++
  (if wa_total_slippage wallet =ᵈ rw_total_slippage r then [] else ["wallet slippage mismatch"%string]) ++
  (if wa_total_realized_pnl wallet =ᵈ rw_total_realized_pnl r then [] else ["wallet realized_pnl mismatch"%string]) ++
  (if wa_total_funding wallet =ᵈ rw_total_funding r then [] else ["wallet funding mismatch"%string]) ++
  (if negb (wa_total_funding wallet =ᵈ 0%Q) && (rw_total_funding r =ᵈ 0%Q)
   then ["wallet total_funding nonzero without funding events"%string] else []).

Definition exit_position_ids (fills : list PaperFill) : list UUID :=
  omap (fun f => match fi_fill_kind f with FK_EXIT => fi_position_id f | FK_ENTRY => None end) fills.

Definition exit_counts (fills : list PaperFill) : list (string * Z) := fold_left count_key (exit_position_ids fills) [].

Definition missing_position_ids (fills : list PaperFill) : list string :=
  omap (fun f => match fi_fill_kind f, fi_position_id f with
                 | FK_EXIT, None => Some ("EXIT fill " ++ fi_fill_id f ++ " missing position_id")%string
                 | _, _ => None
                 end) fills.

Definition is_exit_of (id : UUID) (f : PaperFill) : bool :=
  bool_decide (fi_fill_kind f = FK_EXIT) && bool_decide (fi_position_id f = Some id).

Definition position_issues (fills : list PaperFill) (counts : list (string * Z)) (position : PaperPosition) : list string :=
  match pp_status position with
  | PP_CLOSED =>
      (if pp_margin_reserved position =ᵈ 0%Q then [] else ["closed position still reserves margin"%string]) ++
      (if pp_quantity position ≤ᵈ 0%Q then ["closed position has non-positive quantity"%string] else []) ++
      (if (default 0 (od_get counts (pp_position_id position)) =? 0)%Z
       then ["closed position missing canonical EXIT fill"%string] else []) ++
      match List.find (is_exit_of (pp_position_id position)) fills with
      | Some exit_fill =>
          if pp_realized_pnl position =ᵈ exit_gross exit_fill position -ᵈ fi_fee exit_fill then []
          else ["position realized_pnl mismatch"%string]
      | None => []
      end
  | _ => if pp_margin_reserved position ≤ᵈ 0%Q then ["open position has no margin reserved"%string] else []
  end.

Definition verify_accounting_independent (s : PaperStore) (initial_cash : decimal) : res (list string) :=
  wallet ← get_wallet s;
  match wallet with
  | None => Ok ["wallet missing"%string]
  | Some wallet =>
      reconstructed ← reconstruct_wallet s initial_cash;
      let funding_keys := fold_left count_key (fr_deterministic_key <$> list_funding_events s) [] in
      fills ← list_all_fills s;
      let exits := exit_counts fills in
      positions ← list_positions s POSITIONS_LIMIT None None None false;
      Ok (wallet_issues wallet reconstructed ++
          duplicates "duplicate funding event key " funding_keys ++
          missing_position_ids fills ++
          duplicates "duplicate EXIT fill for position " exits ++
          concat (position_issues fills exits <$> positions))
  end.
