(* ===== verification/PaperExecution.v ===== *)
(** * Paper fills (services/paper_trading/execution.py)

    The pure computation of an entry and the service that books it.  The
    transaction of the source is the error monad: when a step raises, the store
    of the caller is kept.  The random ids of the rows and the clock readings
    are arguments. *)
From Stdlib Require Import ZArith QArith Lia Strings.String.
From stdpp Require Import base list gmap sets strings.
From S2P Require Import Prelude Decimal StrategyModels RiskModels Constraints BtModels BtData BtPortfolio PaperLifecycle.
From S2P Require Import PaperModels Transitions PaperRuntime PaperRepository PaperAccounting.

(** ** Definitions *)

(** [str(code)] of a reason code. *)
Definition reason_code_value (c : ReasonCode) : string :=
  match c with
  | RC_ENTRY_BREAKOUT_20D => "RC_ENTRY_BREAKOUT_20D" | RC_ENTRY_PULLBACK_EMA20 => "RC_ENTRY_PULLBACK_EMA20"
  | RC_EXIT_STOP_INITIAL => "RC_EXIT_STOP_INITIAL" | RC_EXIT_STOP_TRAILING => "RC_EXIT_STOP_TRAILING"
  | RC_EXIT_STOP_GAP => "RC_EXIT_STOP_GAP" | RC_EXIT_REGIME_MONTHLY => "RC_EXIT_REGIME_MONTHLY"
  | RC_EXIT_MANUAL => "RC_EXIT_MANUAL" | RC_REJECT_REGIME => "RC_REJECT_REGIME"
  | RC_REJECT_TREND => "RC_REJECT_TREND" | RC_REJECT_VOLUME => "RC_REJECT_VOLUME"
  | RC_REJECT_WARMUP => "RC_REJECT_WARMUP" | RC_REJECT_DATA => "RC_REJECT_DATA"
  | RC_REJECT_DUPLICATE_SYMBOL => "RC_REJECT_DUPLICATE_SYMBOL" | RC_REJECT_RISK_TRADE => "RC_REJECT_RISK_TRADE"
  | RC_REJECT_RISK_PORTFOLIO => "RC_REJECT_RISK_PORTFOLIO"
  | RC_REJECT_MAX_POSITIONS => "RC_REJECT_MAX_POSITIONS" | RC_REJECT_LEVERAGE => "RC_REJECT_LEVERAGE"
  | RC_REJECT_NO_SIGNAL => "RC_REJECT_NO_SIGNAL" | RC_RISK_APPROVED => "RC_RISK_APPROVED"
  end.

Record EntryExecutionInput := {
  ei_intent : TradeIntent;
  ei_open_ref : decimal;
  ei_atr14 : decimal;
  ei_candle_open_time : datetime;
  ei_constraints : SymbolConstraints;
  ei_wallet_cash : decimal;
  ei_open_positions : list PaperPosition;
  ei_pending_intents : list PendingIntent;
  ei_processed_intent_ids : gset string;
  ei_day_candles : list (string * Candle);
  ei_prior_closes : gmap string decimal;
  ei_strategy_params : StrategyParameters;
  ei_risk_params : RiskParameters;
  ei_execution_config : PaperExecutionConfig;
}.

Record EntryExecutionRejected := {
  er_reason_codes : list string;
  er_detail : string;
}.

Record EntryExecutionApproved := {
  eap_fill_prices : EntryFillComputation;
  eap_accounting : EntryAccounting;
  eap_quantity : decimal;
  eap_reason_codes : list string;
}.

Inductive EntryExecutionResult :=
  | EntryRejected (r : EntryExecutionRejected)
  | EntryApproved (a : EntryExecutionApproved).

Record TransactionalFillResult := {
  tf_created : bool;
  tf_fill : option PaperFill;
  tf_order : option PaperOrder;
  tf_position : option PaperPosition;
  tf_intent : TradeIntent;
}.

(** What [execute_scheduled_paper_fill] returns. *)
Inductive FillOutcome :=
  | FillRejected (r : EntryExecutionRejected)
  | FillResult (r : TransactionalFillResult).

(** [MissingSymbolConstraintsError] is a [ValueError]. *)
Definition validate_symbol_constraints (constraints : option SymbolConstraints) : res SymbolConstraints :=
  match constraints with
  | None => Raise (ValueError "SymbolConstraints must be explicitly provided")
  | Some c =>
      violation ← validate_symbol_constraints_core c;
      match violation with
      | Some v => Raise (ValueError ("Invalid SymbolConstraints: " +:+ ce_message v))
      | None => Ok c
      end
  end.

Definition rejected_because (detail : string) : EntryExecutionResult :=
  EntryRejected {| er_reason_codes := []; er_detail := detail |}.

Definition compute_entry_execution (inputs : EntryExecutionInput) : res EntryExecutionResult :=
  constraints ← validate_symbol_constraints (Some (ei_constraints inputs));
  if ei_open_ref inputs ≤ᵈ 0%Q then Ok (rejected_because "invalid open price")
  else
    fill_prices ← compute_entry_fill_prices (ei_open_ref inputs) (ei_atr14 inputs)
                    (xc_slippage_bps (ei_execution_config inputs)) (ei_strategy_params inputs)
                    (sc_price_tick_size constraints);
    decision ← evaluate_entry_risk_decision (ti_symbol (ei_intent inputs)) (ef_fill_price fill_prices)
                 (ef_stop_initial fill_prices) (ti_idempotency_key (ei_intent inputs)) (ei_atr14 inputs) constraints
                 (ei_wallet_cash inputs) (paper_position_to_simulated <$> ei_open_positions inputs)
                 (ei_pending_intents inputs) (ei_processed_intent_ids inputs) (ei_day_candles inputs)
                 (ei_prior_closes inputs) (ei_risk_params inputs) MD_OK BOT_ACTIVE;
    match rd_approved decision, rd_rounded_quantity decision with
    | true, Some quantity =>
        accounting ← compute_entry_accounting (ef_fill_price fill_prices) (ei_open_ref inputs) quantity
                       (ef_stop_initial fill_prices) (xc_fee_rate (ei_execution_config inputs))
                       (xc_slippage_bps (ei_execution_config inputs)) (xc_max_leverage (ei_execution_config inputs))
                       (ei_strategy_params inputs) (sc_price_tick_size constraints) (ei_atr14 inputs);
        if ei_wallet_cash inputs <ᵈ ea_fee accounting then Ok (rejected_because "insufficient cash for fee")
        else Ok (EntryApproved
               {| eap_fill_prices := fill_prices;
                  eap_accounting := accounting;
                  eap_quantity := quantity;
                  eap_reason_codes := reason_code_value <$> rd_reason_codes decision |})
    | _, _ =>
        Ok (EntryRejected
              {| er_reason_codes := reason_code_value <$> filter_rejection_reason_codes decision;
                 er_detail := "risk rejected" |})
    end.

Definition compute_stop_exit (candle : Candle) (position : SimulatedPosition) : option StopTriggerResult :=
  compute_stop_trigger candle (pos_effective_stop position) (pos_initial_stop position) (pos_trail_stop position).

Definition compute_exit (exit_reference : decimal) (position : SimulatedPosition) (fee_rate slippage_bps : decimal)
    : res ExitAccounting :=
  compute_exit_accounting exit_reference (pos_quantity position) (pos_entry_price position) slippage_bps fee_rate.

Definition compute_trailing_update (state : TrailingStopState) (daily_close atr14 : decimal)
    (strategy_params : StrategyParameters) (price_tick_size : decimal) : res TrailingStopState :=
  compute_trailing_stop_update state daily_close atr14 strategy_params price_tick_size.

(** *** PaperFillService *)

Definition _load_existing_fill (s : PaperStore) (intent : TradeIntent) (candle_open_time : datetime)
    : res (option TransactionalFillResult) :=
  order ← scalar_one_or_none (List.filter (fun o => bool_decide (or_intent_id o = ti_intent_id intent)) (db_orders s));
  match order with
  | None => Ok None
  | Some order_row =>
      let fill_key := paper_fill_key (or_paper_order_id order_row) candle_open_time 0 in
      fill ← scalar_one_or_none
               (List.filter (fun f => bool_decide (fi_deterministic_fill_key f = fill_key)) (db_fills s));
      match fill with
      | None => Ok None
      | Some fill_row =>
          let intent_row := get_intent s (ti_intent_id intent) in
          position ← scalar_one_or_none
                       (List.filter (fun p => bool_decide (pp_entry_intent_id p = ti_intent_id intent)) (db_positions s));
          fill ← fill_row_to_domain fill_row;
          order ← order_row_to_domain order_row;
          position ← match position with
                     | Some p => p ← position_row_to_domain p; Ok (Some p)
                     | None => Ok None
                     end;
          Ok (Some {| tf_created := false; tf_fill := Some fill; tf_order := Some order; tf_position := position;
                      tf_intent := default intent intent_row |})
      end
  end.

(** The ids drawn for the rows of one entry. *)
Record EntryIds := {
  id_order : UUID;
  id_fill : UUID;
  id_position : UUID;
}.

Definition entry_order (ids : EntryIds) (intent : TradeIntent) (quantity : decimal) (candle_open_time : datetime)
    : PaperOrder :=
  {| or_paper_order_id := id_order ids; or_intent_id := ti_intent_id intent; or_symbol := ti_symbol intent;
     or_side := PS_LONG; or_order_type := MARKET_AT_OPEN; or_requested_quantity := quantity;
     or_remaining_quantity := 0%Q; or_expected_fill_time := candle_open_time; or_status := PO_FILLED;
     or_created_at := candle_open_time; or_updated_at := candle_open_time |}.

Definition entry_fill (ids : EntryIds) (order_id : UUID) (intent : TradeIntent) (calc : EntryExecutionApproved)
    (open_ref : decimal) (candle_open_time : datetime) : PaperFill :=
  {| fi_fill_id := id_fill ids; fi_paper_order_id := Some order_id; fi_position_id := None; fi_fill_kind := FK_ENTRY;
     fi_symbol := ti_symbol intent; fi_side := PS_LONG; fi_quantity := eap_quantity calc;
     fi_market_open_price := open_ref; fi_slippage := ea_slippage_cost (eap_accounting calc);
     fi_fill_price := ef_fill_price (eap_fill_prices calc); fi_fee := ea_fee (eap_accounting calc);
     fi_fill_time := candle_open_time; fi_candle_key := candle_open_time;
     fi_deterministic_fill_key := paper_fill_key order_id candle_open_time 0; fi_fill_sequence := 0 |}.

(** The columns the source leaves to the server start at their defaults. *)
Definition entry_position (ids : EntryIds) (intent : TradeIntent) (calc : EntryExecutionApproved)
    (candle_open_time : datetime) (atr14 : decimal) : PaperPosition :=
  let trail := ea_trail_state (eap_accounting calc) in
  {| pp_position_id := id_position ids; pp_symbol := ti_symbol intent; pp_status := PP_OPEN;
     pp_quantity := eap_quantity calc; pp_average_entry_price := ef_fill_price (eap_fill_prices calc);
     pp_initial_stop := ts_stop_initial trail; pp_current_stop := ts_effective_stop trail;
     pp_highest_close_since_entry := ts_highest_close trail; pp_entry_atr14 := atr14;
     pp_realized_pnl := 0%Q; pp_unrealized_pnl := 0%Q;
     pp_margin_reserved := ea_margin_reserved (eap_accounting calc); pp_entry_intent_id := ti_intent_id intent;
     pp_opened_at := candle_open_time; pp_closed_at := None; pp_version := 1 |}.

Definition _persist_successful_fill (s : PaperStore) (now : datetime) (ids : EntryIds) (intent : TradeIntent)
    (calc : EntryExecutionApproved) (open_ref : decimal) (candle_open_time : datetime) (atr14 : decimal)
    (cycle_id : option UUID) : res (TransactionalFillResult * PaperStore) :=
  '(order, order_created, s) ← insert_or_get_paper_order s (entry_order ids intent (eap_quantity calc) candle_open_time);
  '(fill, fill_created, s) ← insert_or_get_paper_fill s
    (entry_fill ids (or_paper_order_id order) intent calc open_ref candle_open_time);
  if negb fill_created then
    let intent_row := get_intent s (ti_intent_id intent) in
    position ← scalar_one_or_none
                 (List.filter (fun p => bool_decide (pp_entry_intent_id p = ti_intent_id intent)) (db_positions s));
    position ← match position with
               | Some p => p ← position_row_to_domain p; Ok (Some p)
               | None => Ok None
               end;
    Ok ({| tf_created := false; tf_fill := Some fill; tf_order := Some order; tf_position := position;
           tf_intent := default intent intent_row |}, s)
  else
    let accounting := eap_accounting calc in
    '(_, s) ← update_wallet s now
      {| wd_cash_delta := dneg (ea_fee accounting); wd_realized_pnl_delta := 0%Q; wd_fees_delta := ea_fee accounting;
         wd_funding_delta := 0%Q; wd_slippage_delta := ea_slippage_cost accounting |} None None;
    '(position, s) ← create_position s (entry_position ids intent calc candle_open_time atr14);
    '(updated_intent, s) ← update_intent_status s now (ti_intent_id intent) IS_FILLED (Some (eap_quantity calc)) None None;
    let s := append_audit_event s
      {| ae_event_type := "PAPER_FILL_EXECUTED";
         ae_aggregate_type := "paper_fill";
         ae_aggregate_id := fi_fill_id fill;
         ae_cycle_id := cycle_id;
         ae_payload_json := [("intent_id", JStr (ti_intent_id intent)); ("symbol", JStr (ti_symbol intent));
                             ("quantity", JDec (eap_quantity calc));
                             ("fill_price", JDec (ef_fill_price (eap_fill_prices calc))); ("atr14", JDec atr14)]%string;
         ae_created_at := now |} in
    Ok ({| tf_created := order_created && fill_created; tf_fill := Some fill; tf_order := Some order;
           tf_position := Some position; tf_intent := updated_intent |}, s).

Definition rejection_json (r : EntryExecutionRejected) : list (string * json) :=
  [("reason_codes", JList (JStr <$> er_reason_codes r)); ("detail", JStr (er_detail r))]%string.

(** The market inputs of one fill. *)
Record FillInputs := {
  fx_atr14 : decimal;
  fx_open_ref : decimal;
  fx_candle_open_time : datetime;
  fx_constraints : SymbolConstraints;
  fx_strategy_params : StrategyParameters;
  fx_risk_params : RiskParameters;
  fx_execution_config : PaperExecutionConfig;
  fx_day_candles : list (string * Candle);
  fx_prior_closes : gmap string decimal;
}.

Definition entry_input (intent : TradeIntent) (fx : FillInputs) (wallet_cash : decimal)
    (open_positions : list PaperPosition) (pending_intents : list PendingIntent) (processed_intent_ids : gset string)
    : EntryExecutionInput :=
  {| ei_intent := intent; ei_open_ref := fx_open_ref fx; ei_atr14 := fx_atr14 fx;
     ei_candle_open_time := fx_candle_open_time fx; ei_constraints := fx_constraints fx;
     ei_wallet_cash := wallet_cash; ei_open_positions := open_positions; ei_pending_intents := pending_intents;
     ei_processed_intent_ids := processed_intent_ids; ei_day_candles := fx_day_candles fx;
     ei_prior_closes := fx_prior_closes fx; ei_strategy_params := fx_strategy_params fx;
     ei_risk_params := fx_risk_params fx; ei_execution_config := fx_execution_config fx |}.

Definition reject_fill (s : PaperStore) (now : datetime) (intent : TradeIntent) (r : EntryExecutionRejected)
    (cycle_id : option UUID) : res PaperStore :=
  '(_, s) ← update_intent_status s now (ti_intent_id intent) IS_REJECTED None (Some (rejection_json r)) None;
  Ok (append_audit_event s
    {| ae_event_type := "INTENT_REJECTED";
       ae_aggregate_type := "trade_intent";
       ae_aggregate_id := ti_intent_id intent;
       ae_cycle_id := cycle_id;
       ae_payload_json := [("detail", JStr (er_detail r)); ("reason_codes", JList (JStr <$> er_reason_codes r))]%string;
       ae_created_at := now |}).

Definition execute_scheduled_paper_fill (s : PaperStore) (now : datetime) (ids : EntryIds) (intent : TradeIntent)
    (fx : FillInputs) (processed_intent_ids : gset string) (pending_intents : list PendingIntent)
    (cycle_id : option UUID) : res (FillOutcome * PaperStore) :=
  _ ← validate_symbol_constraints (Some (fx_constraints fx));
  existing ← _load_existing_fill s intent (fx_candle_open_time fx);
  match existing with
  | Some r => Ok (FillResult r, s)
  | None =>
      open_positions ← get_open_positions s;
      if existsb (fun p => bool_decide (pp_symbol p = ti_symbol intent)) open_positions then
        Ok (FillRejected {| er_reason_codes := []; er_detail := "position already open for symbol" |}, s)
      else
        wallet ← get_wallet s;
        wallet ← or_raise (LookupError "paper_wallet not seeded") wallet;
        calc ← compute_entry_execution
                 (entry_input intent fx (wa_cash wallet) open_positions pending_intents processed_intent_ids);
        match calc with
        | EntryRejected r =>
            s ← reject_fill s now intent r cycle_id;
            Ok (FillRejected r, s)
        | EntryApproved a =>
            '(r, s) ← _persist_successful_fill s now ids intent a (fx_open_ref fx) (fx_candle_open_time fx)
                        (fx_atr14 fx) cycle_id;
            Ok (FillResult r, s)
        end
  end.
