(* ===== verification/PaperStops.v ===== *)
(** * Stops of paper positions (services/paper_trading/stops.py)

    The daily trailing update and the closes by a stop, for the symbols in
    their processing order.  They run on the session: an exception keeps the
    updates and closes booked before it.  The candles, the evaluation ATRs and the
    constraints are maps by symbol; [ids] gives the random ids drawn for a
    symbol. *)
From Stdlib Require Import ZArith QArith Lia Strings.String.
From stdpp Require Import base list gmap sets strings.
From S2P Require Import Prelude Decimal StrategyModels RiskModels BtModels BtData BtPortfolio PaperLifecycle.
From S2P Require Import PaperModels PaperSession PaperRuntime PaperRepository PaperAccounting PaperExecution.

(** ** Definitions *)

Definition SYMBOL_PROCESSING_ORDER : list string := ["BTC"; "ETH"; "SOL"]%string.

Record StopUpdateResult := {
  su_position_id : UUID;
  su_updated : bool;
  su_previous_stop : option decimal;
  su_new_stop : option decimal;
}.

Record StopCloseResult := {
  sx_position_id : UUID;
  sx_closed : bool;
  sx_symbol : string;
}.

Record StopIds := {
  id_stop_event : UUID;
  id_exit_fill : UUID;
  id_snapshot : UUID;
}.

Definition not_updated (position : PaperPosition) : StopUpdateResult :=
  {| su_position_id := pp_position_id position; su_updated := false; su_previous_stop := None; su_new_stop := None |}.

Definition not_closed (position : PaperPosition) : StopCloseResult :=
  {| sx_position_id := pp_position_id position; sx_closed := false; sx_symbol := pp_symbol position |}.

Definition trailing_state (position : PaperPosition) : TrailingStopState :=
  {| ts_entry_price := pp_average_entry_price position;
     ts_stop_initial := pp_initial_stop position;
     ts_highest_close := pp_highest_close_since_entry position;
     ts_trail_stop := pp_current_stop position;
     ts_effective_stop := pp_current_stop position |}.

Definition row_with_stop (row : PaperPosition) (current_stop highest_close : decimal) : PaperPosition :=
  {| pp_position_id := pp_position_id row; pp_symbol := pp_symbol row; pp_status := pp_status row;
     pp_quantity := pp_quantity row; pp_average_entry_price := pp_average_entry_price row;
     pp_initial_stop := pp_initial_stop row; pp_current_stop := current_stop;
     pp_highest_close_since_entry := highest_close; pp_entry_atr14 := pp_entry_atr14 row;
     pp_realized_pnl := pp_realized_pnl row; pp_unrealized_pnl := pp_unrealized_pnl row;
     pp_margin_reserved := pp_margin_reserved row; pp_entry_intent_id := pp_entry_intent_id row;
     pp_opened_at := pp_opened_at row; pp_closed_at := pp_closed_at row; pp_version := pp_version row + 1 |}.

Definition trailing_event (id : UUID) (position : PaperPosition) (updated : TrailingStopState) (atr : decimal)
    (evaluation_time : datetime) : PositionStopEvent :=
  {| sv_stop_event_id := id; sv_position_id := pp_position_id position;
     sv_previous_stop := pp_current_stop position; sv_new_stop := ts_effective_stop updated;
     sv_highest_close := ts_highest_close updated; sv_atr := atr; sv_evaluation_time := evaluation_time;
     sv_reason := "TRAILING_UPDATE" |}.

(** The transaction of one update: whether the stop event is new. *)
Definition book_trailing_update (s : PaperStore) (id : UUID) (position : PaperPosition) (updated : TrailingStopState)
    (atr : decimal) (evaluation_time : datetime) (cycle_id : option UUID) : res (bool * PaperStore) :=
  '(_, created, s) ← insert_or_get_stop_event s (trailing_event id position updated atr evaluation_time);
  if negb created then Ok (false, s)
  else
    row ← or_raise AssertionError (get_by pp_position_id (db_positions s) (pp_position_id position));
    s ← flush_position s (row_with_stop row (ts_effective_stop updated) (ts_highest_close updated));
    Ok (true, append_audit_event s
      {| ae_event_type := "TRAILING_STOP_UPDATED";
         ae_aggregate_type := "paper_position";
         ae_aggregate_id := pp_position_id position;
         ae_cycle_id := cycle_id;
         ae_payload_json := [("previous_stop", JDec (pp_current_stop position));
                             ("new_stop", JDec (ts_effective_stop updated))]%string;
         ae_created_at := evaluation_time |}).

(** One symbol of [update_daily_trailing_stops]: at most one result. *)
Definition update_trailing_for_symbol (evaluation_time : datetime) (daily_candles : list (string * Candle))
    (evaluation_atr_by_symbol : gmap string decimal) (constraints_by_symbol : gmap string SymbolConstraints)
    (strategy_params : StrategyParameters) (cycle_id : option UUID) (ids : string -> StopIds)
    (results : list StopUpdateResult) (symbol : string) : sx PaperStore (list StopUpdateResult) :=
  position ← reads (fun s => get_open_position_for_symbol s symbol);
  match position with
  | None => mret results
  | Some position =>
      match od_get daily_candles symbol with
      | None => mret (results ++ [not_updated position])
      | Some candle =>
          if negb (c_is_closed candle) then mret (results ++ [not_updated position])
          else match constraints_by_symbol !! symbol with
          | None => mret (results ++ [not_updated position])
          | Some constraints =>
              let atr := default (pp_entry_atr14 position) (evaluation_atr_by_symbol !! symbol) in
              updated_state ← from_res (compute_trailing_update (trailing_state position) (c_close candle) atr
                                          strategy_params (sc_price_tick_size constraints));
              if ts_effective_stop updated_state ≤ᵈ pp_current_stop position then
                mret (results ++ [{| su_position_id := pp_position_id position; su_updated := false;
                                     su_previous_stop := Some (pp_current_stop position);
                                     su_new_stop := Some (pp_current_stop position) |}])
              else
                created ← writes (fun s => book_trailing_update s (id_stop_event (ids symbol)) position updated_state
                                             atr evaluation_time cycle_id);
                if negb created then mret (results ++ [not_updated position])
                else
                  _ ← writes (fun s => capture_snapshot s (id_snapshot (ids symbol)) evaluation_time
                                         "trailing_stop_update" [] ∅ cycle_id);
                  mret (results ++ [{| su_position_id := pp_position_id position; su_updated := true;
                                       su_previous_stop := Some (pp_current_stop position);
                                       su_new_stop := Some (ts_effective_stop updated_state) |}])
          end
      end
  end.

Definition update_daily_trailing_stops (evaluation_time : datetime)
    (daily_candles : list (string * Candle)) (evaluation_atr_by_symbol : gmap string decimal)
    (constraints_by_symbol : gmap string SymbolConstraints) (strategy_params : StrategyParameters)
    (cycle_id : option UUID) (ids : string -> StopIds) : sx PaperStore (list StopUpdateResult) :=
  foldS (update_trailing_for_symbol evaluation_time daily_candles evaluation_atr_by_symbol constraints_by_symbol
           strategy_params cycle_id ids) SYMBOL_PROCESSING_ORDER [].

(** [Decimal(str(value))] of a value of a JSON column. *)
Definition decimal_of_json (value : json) : res decimal :=
  match value with
  | JDec d => Ok d
  | JInt z => Ok (inject_Z z)
  | _ => Raise InvalidOperation
  end.

Definition atr_for_trailing_update (position : PaperPosition) (latest_evaluation : option StrategyEvaluationRecord)
    (entry_result_atr : option decimal) : res decimal :=
  let from_evaluation :=
    match latest_evaluation with
    | None => Ok (pp_entry_atr14 position)
    | Some evaluation =>
        match od_get (se_entry_result evaluation) "atr"%string with
        | None | Some JNull => Ok (pp_entry_atr14 position)
        | Some atr_raw => decimal_of_json atr_raw
        end
    end in
  match entry_result_atr with
  | Some atr => if 0%Q <ᵈ atr then Ok atr else from_evaluation
  | None => from_evaluation
  end.

Definition row_with_status (row : PaperPosition) (status : PaperPositionStatus) : PaperPosition :=
  {| pp_position_id := pp_position_id row; pp_symbol := pp_symbol row; pp_status := status;
     pp_quantity := pp_quantity row; pp_average_entry_price := pp_average_entry_price row;
     pp_initial_stop := pp_initial_stop row; pp_current_stop := pp_current_stop row;
     pp_highest_close_since_entry := pp_highest_close_since_entry row; pp_entry_atr14 := pp_entry_atr14 row;
     pp_realized_pnl := pp_realized_pnl row; pp_unrealized_pnl := pp_unrealized_pnl row;
     pp_margin_reserved := pp_margin_reserved row; pp_entry_intent_id := pp_entry_intent_id row;
     pp_opened_at := pp_opened_at row; pp_closed_at := pp_closed_at row; pp_version := pp_version row |}.

Definition closed_row (row : PaperPosition) (closed_at : datetime) (realized_pnl : decimal) : PaperPosition :=
  {| pp_position_id := pp_position_id row; pp_symbol := pp_symbol row; pp_status := PP_CLOSED;
     pp_quantity := pp_quantity row; pp_average_entry_price := pp_average_entry_price row;
     pp_initial_stop := pp_initial_stop row; pp_current_stop := pp_current_stop row;
     pp_highest_close_since_entry := pp_highest_close_since_entry row; pp_entry_atr14 := pp_entry_atr14 row;
     pp_realized_pnl := realized_pnl; pp_unrealized_pnl := 0%Q; pp_margin_reserved := 0%Q;
     pp_entry_intent_id := pp_entry_intent_id row; pp_opened_at := pp_opened_at row;
     pp_closed_at := Some closed_at; pp_version := pp_version row + 1 |}.

Definition exit_reason_value (r : ExitReason) : string :=
  match r with
  | STOP_INITIAL => "RC_EXIT_STOP_INITIAL" | STOP_TRAILING => "RC_EXIT_STOP_TRAILING"
  | STOP_GAP => "RC_EXIT_STOP_GAP"
  | END_OF_BACKTEST => "END_OF_BACKTEST"
  end.

Definition exit_fill (id : UUID) (position : PaperPosition) (trigger : StopTriggerResult) (x : ExitAccounting)
    (process_time : datetime) : PaperFill :=
  {| fi_fill_id := id; fi_paper_order_id := None; fi_position_id := Some (pp_position_id position);
     fi_fill_kind := FK_EXIT; fi_symbol := pp_symbol position; fi_side := PS_LONG;
     fi_quantity := pp_quantity position; fi_market_open_price := st_exit_reference trigger;
     fi_slippage := xa_slippage_cost x; fi_fill_price := xa_fill_price x; fi_fee := xa_fee x;
     fi_fill_time := process_time; fi_candle_key := process_time;
     fi_deterministic_fill_key := paper_exit_fill_key (pp_position_id position) process_time; fi_fill_sequence := 0 |}.

Definition stop_trigger (candle : Candle) (position : SimulatedPosition) (at_open intraday_only : bool)
    : option StopTriggerResult :=
  if at_open then compute_gap_stop_at_open candle (pos_effective_stop position)
  else if intraday_only then
    compute_intraday_stop candle (pos_effective_stop position) (pos_initial_stop position) (pos_trail_stop position)
  else compute_stop_trigger candle (pos_effective_stop position) (pos_initial_stop position) (pos_trail_stop position).

(** The transaction of [_close_if_stopped] after the trigger. *)
Definition book_exit (s : PaperStore) (now : datetime) (id : UUID) (position : PaperPosition)
    (trigger : StopTriggerResult) (x : ExitAccounting) (process_time : datetime) (cycle_id : option UUID)
    : res (bool * PaperStore) :=
  match get_by pp_position_id (db_positions s) (pp_position_id position) with
  | None => Ok (false, s)
  | Some row =>
      if bool_decide (pp_status row = PP_CLOSED) then Ok (false, s)
      else
        '(_, fill_created, s) ← insert_or_get_paper_fill s (exit_fill id position trigger x process_time);
        if negb fill_created then Ok (false, s)
        else
          let row := row_with_status row PP_CLOSING in
          s ← flush_position s row;
          '(_, s) ← update_wallet s now
            {| wd_cash_delta := xa_net_wallet_delta x; wd_realized_pnl_delta := xa_gross_pnl x -ᵈ xa_fee x;
               wd_fees_delta := xa_fee x; wd_funding_delta := 0%Q; wd_slippage_delta := xa_slippage_cost x |}
            None (Some process_time);
          s ← flush_position s (closed_row row process_time (xa_gross_pnl x -ᵈ xa_fee x));
          let s := append_audit_event s
            {| ae_event_type := "POSITION_CLOSED_STOP";
               ae_aggregate_type := "paper_position";
               ae_aggregate_id := pp_position_id position;
               ae_cycle_id := cycle_id;
               ae_payload_json := [("exit_reference", JDec (st_exit_reference trigger));
                                   ("exit_reason", JStr (exit_reason_value (st_exit_reason trigger)));
                                   ("fill_price", JDec (xa_fill_price x))]%string;
               ae_created_at := process_time |} in
          Ok (true, s)
  end.

Definition _close_if_stopped (config : PaperTradingConfig) (now : datetime) (ids : StopIds)
    (position : PaperPosition) (candle : Candle) (process_time : datetime) (constraints : option SymbolConstraints)
    (cycle_id : option UUID) (at_open intraday_only : bool) : sx PaperStore StopCloseResult :=
  match constraints with
  | None => mret (not_closed position)
  | Some _ =>
      match stop_trigger candle (paper_position_to_simulated position) at_open intraday_only with
      | None => mret (not_closed position)
      | Some trigger =>
          exit_accounting ← from_res (compute_exit_accounting (st_exit_reference trigger) (pp_quantity position)
            (pp_average_entry_price position) (pc_paper_slippage_bps config) (pc_paper_fee_rate config));
          closed ← writes (fun s => book_exit s now (id_exit_fill ids) position trigger exit_accounting process_time cycle_id);
          if negb closed then mret (not_closed position)
          else
            _ ← writes (fun s => capture_snapshot s (id_snapshot ids) process_time "position_close" [] ∅ cycle_id);
            mret {| sx_position_id := pp_position_id position; sx_closed := true; sx_symbol := pp_symbol position |}
      end
  end.

(** One symbol of [process_stop_triggers_for_daily_candle] and, when
    [intraday_only], of [process_intraday_stop_triggers], which skips closed
    candles. *)
Definition stop_trigger_for_symbol (config : PaperTradingConfig) (now process_time : datetime)
    (candles : list (string * Candle)) (constraints_by_symbol : gmap string SymbolConstraints)
    (cycle_id : option UUID) (at_open intraday_only : bool) (ids : string -> StopIds)
    (results : list StopCloseResult) (symbol : string) : sx PaperStore (list StopCloseResult) :=
  position ← reads (fun s => get_open_position_for_symbol s symbol);
  match position, od_get candles symbol with
  | Some position, Some candle =>
      if intraday_only && c_is_closed candle then mret results
      else
        outcome ← _close_if_stopped config now (ids symbol) position candle process_time
                    (constraints_by_symbol !! symbol) cycle_id at_open intraday_only;
        mret (results ++ [outcome])
  | _, _ => mret results
  end.

Definition process_stop_triggers_for_daily_candle (config : PaperTradingConfig)
    (now process_time : datetime) (daily_candles : list (string * Candle))
    (constraints_by_symbol : gmap string SymbolConstraints) (cycle_id : option UUID) (at_open : bool)
    (ids : string -> StopIds) : sx PaperStore (list StopCloseResult) :=
  foldS (stop_trigger_for_symbol config now process_time daily_candles constraints_by_symbol cycle_id at_open false ids)
    SYMBOL_PROCESSING_ORDER [].

Definition process_intraday_stop_triggers (config : PaperTradingConfig)
    (now process_time : datetime) (preview_candles : list (string * Candle))
    (constraints_by_symbol : gmap string SymbolConstraints) (cycle_id : option UUID)
    (ids : string -> StopIds) : sx PaperStore (list StopCloseResult) :=
  foldS (stop_trigger_for_symbol config now process_time preview_candles constraints_by_symbol cycle_id false true ids)
    SYMBOL_PROCESSING_ORDER [].
