(* ===== verification/PaperIntents.v ===== *)
(** * Intents of paper trading (services/paper_trading/lifecycle.py, evaluation.py,
    serialization.py)

    A daily evaluation becomes a scheduled intent behind the entry gates, and at
    the next daily open the scheduled intents are authorized again and filled,
    symbol by symbol.  [market_data_ready] is a callable that may raise: its
    outcome is an option, and the code reads a failure as "not ready".
    Pydantic's [model_dump] and the SHA-256 of the canonical JSON are
    parameters. *)
From Stdlib Require Import ZArith QArith Lia Strings.String.
From stdpp Require Import base list gmap sets strings.
From S2P Require Import Prelude Decimal StrategyModels RiskModels BtModels BtData PaperLifecycle Timeframes MarketModels.
From S2P Require Import PaperModels PaperSession Transitions PaperRuntime PaperRepository PaperAccounting PaperExecution PaperStops.
From S2P Require StrategyEngine.

(** ** Authorization and gates *)

Record EntryGateContext := {
  eg_entry_ready : bool;
  eg_market_data_ready : bool;
  eg_paused : bool;
  eg_kill_switch : bool;
  eg_open_position_count : nat;
  eg_has_symbol_position : bool;
  eg_has_nonterminal_intent : bool;
}.

Record EntryAuthorization := {
  au_allowed : bool;
  au_reasons : list string;
  au_paused : bool;
  au_kill_switch : bool;
}.

(** Each entry is a blocking condition and its reason. *)
Definition blocking (conditions : list (bool * string)) : list string :=
  snd <$> List.filter fst conditions.

Definition authorization_conditions (config : PaperTradingConfig) (runtime : RuntimeState) (market_data_ready : bool)
    (evaluated_at : datetime) : list (bool * string) :=
  [(negb (bool_decide (rs_status runtime = RS_READY)), "runtime_not_ready");
   (has_error (rs_last_error runtime), "last_error_set");
   ((seconds (pc_stale_runtime_threshold_seconds config) <? evaluated_at - rs_heartbeat_at runtime)%Z,
     "stale_heartbeat");
   (negb market_data_ready, "market_data_not_ready");
   (rs_paused runtime, "paused");
   (rs_kill_switch runtime, "kill_switch")]%string.

Definition no_reasons (reasons : list string) : bool := match reasons with [] => true | _ => false end.

(** Locking the runtime row changes nothing in a single session. *)
Definition evaluate_final_entry_authorization (s : PaperStore) (config : PaperTradingConfig) (market_data_ready : bool)
    (evaluated_at : datetime) : EntryAuthorization :=
  match db_runtime s with
  | None =>
      {| au_allowed := false; au_reasons := ["runtime_state_missing"%string]; au_paused := false;
         au_kill_switch := false |}
  | Some runtime =>
      let reasons := blocking (authorization_conditions config runtime market_data_ready evaluated_at) in
      {| au_allowed := no_reasons reasons; au_reasons := reasons; au_paused := rs_paused runtime;
         au_kill_switch := rs_kill_switch runtime |}
  end.

Definition DEFAULT_GATE_MAX_OPEN_POSITIONS : nat := 3.

(** [atr is None or atr <= 0]. *)
Definition missing_atr (atr : option decimal) : bool := match atr with Some a => a ≤ᵈ 0%Q | None => true end.

Definition gate_conditions (symbol : string) (entry_gates : EntryGateContext) (strategy_eval : StrategyEvaluation)
    (max_open_positions : nat) : list (bool * string) :=
  [(negb (bool_decide (symbol ∈ ALLOWED_SYMBOLS)), "unsupported_symbol");
   (negb (eg_entry_ready entry_gates), "runtime_not_entry_ready");
   (negb (eg_market_data_ready entry_gates), "market_data_not_ready");
   (eg_paused entry_gates, "paused");
   (eg_kill_switch entry_gates, "kill_switch");
   (eg_has_symbol_position entry_gates, "existing_position");
   (eg_has_nonterminal_intent entry_gates, "existing_nonterminal_intent");
   (Nat.leb max_open_positions (eg_open_position_count entry_gates), "max_open_positions");
   (negb (bool_decide (si_kind (ev_signal_intent strategy_eval) = LONG_ENTRY)), "no_long_entry_signal");
   (bool_decide (ev_selected_entry_type strategy_eval = None), "no_selected_entry_type");
   (negb (bool_decide (is_Some (si_stop_initial (ev_signal_intent strategy_eval)))), "missing_stop");
   (missing_atr (ev_atr strategy_eval), "missing_atr");
   (negb (tr_trend_confirmed (ev_weekly_trend strategy_eval)), "weekly_trend_not_confirmed")]%string.

Definition check_entry_gates (symbol : string) (entry_gates : EntryGateContext) (strategy_eval : StrategyEvaluation)
    (max_open_positions : nat) : list string :=
  blocking (gate_conditions symbol entry_gates strategy_eval max_open_positions).

Definition build_entry_gate_context (s : PaperStore) (symbol : string) (entry_ready market_data_ready runtime_paused
    runtime_kill_switch : bool) : res EntryGateContext :=
  open_positions ← get_open_positions s;
  nonterminal ← get_nonterminal_intent_for_symbol s symbol;
  Ok {| eg_entry_ready := entry_ready; eg_market_data_ready := market_data_ready; eg_paused := runtime_paused;
        eg_kill_switch := runtime_kill_switch; eg_open_position_count := length open_positions;
        eg_has_symbol_position := existsb (fun p => bool_decide (pp_symbol p = symbol)) open_positions;
        eg_has_nonterminal_intent := bool_decide (is_Some nonterminal) |}.

(** ** Creation of intents *)

Definition _next_daily_open_after_signal (daily_candle_open_time : datetime) : datetime :=
  next_open_time daily_candle_open_time DAILY.

(** The gates with the outcome of the final authorization. *)
Definition authorized_gates (entry_gates : EntryGateContext) (authorization : EntryAuthorization) : EntryGateContext :=
  {| eg_entry_ready := eg_entry_ready entry_gates && au_allowed authorization;
     eg_market_data_ready := eg_market_data_ready entry_gates;
     eg_paused := au_paused authorization;
     eg_kill_switch := au_kill_switch authorization;
     eg_open_position_count := eg_open_position_count entry_gates;
     eg_has_symbol_position := eg_has_symbol_position entry_gates;
     eg_has_nonterminal_intent := eg_has_nonterminal_intent entry_gates |}.

Definition new_intent (intent_id : UUID) (evaluation : StrategyEvaluationRecord) (strategy_eval : StrategyEvaluation)
    (entry_type : EntryType) (entry stop : decimal) (created_at : datetime) : TradeIntent :=
  let signal_type := entry_type_to_signal_type entry_type in
  {| ti_intent_id := intent_id;
     ti_idempotency_key := trade_intent_key (se_symbol evaluation) (ev_strategy_version strategy_eval)
                             (se_evaluation_time evaluation) signal_type;
     ti_symbol := se_symbol evaluation;
     ti_side := PS_LONG;
     ti_signal_type := signal_type;
     ti_signal_time := se_evaluation_time evaluation;
     ti_scheduled_fill_time := _next_daily_open_after_signal (se_daily_candle_open_time evaluation);
     ti_requested_entry := entry;
     ti_requested_stop := stop;
     ti_requested_quantity := None; ti_approved_quantity := None; ti_risk_amount := None;
     ti_status := IS_SCHEDULED;
     ti_strategy_evaluation_id := se_evaluation_id evaluation;
     ti_rejection_reason := None;
     ti_created_at := created_at;
     ti_updated_at := created_at |}.

Definition create_intent_from_evaluation (s : PaperStore) (intent_id : UUID) (evaluation : StrategyEvaluationRecord)
    (strategy_eval : StrategyEvaluation) (entry_gates : EntryGateContext) (config : PaperTradingConfig)
    (created_at authorization_at : datetime) (market_data_ready : option bool)
    : res (option TradeIntent * bool * list string * PaperStore) :=
  let authorization := evaluate_final_entry_authorization s config (default false market_data_ready) authorization_at in
  let entry_gates := authorized_gates entry_gates authorization in
  let blocked := check_entry_gates (se_symbol evaluation) entry_gates strategy_eval DEFAULT_GATE_MAX_OPEN_POSITIONS in
  let blocked := fromkeys (blocked ++ au_reasons authorization) in
  if negb (no_reasons blocked) then Ok (None, false, blocked, s)
  else
    entry_type ← or_raise AssertionError (ev_selected_entry_type strategy_eval);
    entry ← or_raise AssertionError (si_entry_price (ev_signal_intent strategy_eval));
    stop ← or_raise AssertionError (si_stop_initial (ev_signal_intent strategy_eval));
    '(intent, created, s) ← insert_or_get_trade_intent s
      (new_intent intent_id evaluation strategy_eval entry_type entry stop created_at);
    Ok (Some intent, created, [], s).

(** ** Fills at the open *)

Record FillProcessingContext := {
  fc_inputs : FillInputs;
  fc_processed_intent_ids : gset string;
}.

Record FillBatchResult := {
  fb_symbol : string;
  fb_processed : nat;
  fb_filled : nat;
  fb_rejected : nat;
  fb_skipped : nat;
}.

Definition fc_candle_open_time (ctx : FillProcessingContext) : datetime := fx_candle_open_time (fc_inputs ctx).

(** [StrategyEvaluation.model_construct]: the fields it leaves unset, which
    nothing reads, hold empty values. *)
Definition bare_evaluation (symbol : string) (evaluation_time : datetime) (strategy_version : string)
    (parameters : StrategyParameters) : StrategyEvaluation :=
  {| ev_symbol := symbol; ev_evaluation_time := evaluation_time; ev_strategy_version := strategy_version;
     ev_parameters := parameters;
     ev_monthly_regime := StrategyEngine._empty_regime; ev_weekly_trend := StrategyEngine._empty_trend;
     ev_breakout_result := StrategyEngine._empty_setup; ev_pullback_result := StrategyEngine._empty_setup;
     ev_indicators := StrategyEngine.empty_snapshot; ev_volume_ratio := None; ev_atr := None; ev_selected_entry_type := None;
     ev_signal_intent := {| si_kind := NO_ENTRY; si_entry_type := None; si_entry_price := None;
                            si_stop_initial := None; si_primary_reason_code := None |};
     ev_reason_codes := []; ev_data_quality_status := DQ_OK; ev_errors := [] |}.

Definition pending_of (ctx : FillProcessingContext) (candle_open_time : datetime) (intent : TradeIntent) : PendingIntent :=
  {| pi_client_intent_id := ti_idempotency_key intent;
     pi_symbol := ti_symbol intent;
     pi_strategy_version := "paper-v1";
     pi_entry_type := BREAKOUT;
     pi_strategy_reason_codes := [];
     pi_signal_time := ti_signal_time intent;
     pi_order_time := candle_open_time;
     pi_signal_close_price := ti_requested_entry intent;
     pi_stop_price := ti_requested_stop intent;
     pi_atr14 := fx_atr14 (fc_inputs ctx);
     pi_strategy_evaluation := bare_evaluation (ti_symbol intent) (ti_signal_time intent) "paper-v1"
                                 (fx_strategy_params (fc_inputs ctx)) |}.

(** [order[order.index(symbol) + 1:]]. *)
Fixpoint symbols_after (current : string) (order : list string) : list string :=
  match order with
  | [] => []
  | sym :: order => if decide (sym = current) then order else symbols_after current order
  end.

Definition batch_pending (s : PaperStore) (candle_open_time : datetime) (skip_intent_keys : gset string)
    (symbol : string) (ctx : FillProcessingContext) : list PendingIntent :=
  if negb (fc_candle_open_time ctx =? candle_open_time)%Z then []
  else pending_of ctx candle_open_time <$>
       List.filter (fun i => (ti_scheduled_fill_time i =? candle_open_time)%Z &&
                             negb (bool_decide (ti_idempotency_key i ∈ skip_intent_keys)))
         (get_scheduled_intents_for_symbol s symbol candle_open_time).

Definition _pending_intents_for_open_batch (s : PaperStore) (candle_open_time : datetime) (current_symbol : string)
    (symbol_contexts : list (string * FillProcessingContext)) (skip_intent_keys : gset string) : list PendingIntent :=
  concat ((fun symbol =>
    match od_get symbol_contexts symbol with
    | None => []
    | Some ctx => batch_pending s candle_open_time skip_intent_keys symbol ctx
    end) <$> symbols_after current_symbol SYMBOL_PROCESSING_ORDER).

(** The counters of one symbol and the intents processed so far. *)
Record BatchState := {
  bs_processed_ids : gset string;
  bs_processed : nat;
  bs_filled : nat;
  bs_rejected : nat;
  bs_skipped : nat;
}.

Definition skip_one (st : BatchState) (processed : nat) : BatchState :=
  {| bs_processed_ids := bs_processed_ids st; bs_processed := processed;
     bs_filled := bs_filled st; bs_rejected := bs_rejected st; bs_skipped := S (bs_skipped st) |}.

(** The counter of an outcome: a result without a position counts as skipped. *)
Definition count_outcome (st : BatchState) (key : string) (outcome : FillOutcome) : BatchState :=
  let ids := bs_processed_ids st ∪ {[key]} in
  let counted filled rejected skipped :=
    {| bs_processed_ids := ids; bs_processed := S (bs_processed st); bs_filled := filled;
       bs_rejected := rejected; bs_skipped := skipped |} in
  match outcome with
  | FillRejected _ => counted (bs_filled st) (S (bs_rejected st)) (bs_skipped st)
  | FillResult r =>
      match tf_position r with
      | Some _ => counted (S (bs_filled st)) (bs_rejected st) (bs_skipped st)
      | None => counted (bs_filled st) (bs_rejected st) (S (bs_skipped st))
      end
  end.

(** What the batch knows of the outside: the outcome of [market_data_ready()]
    for each intent, the ids drawn for its rows and the clock. *)
Record BatchEnv := {
  be_config : PaperTradingConfig;
  be_process_time : datetime;
  be_now : datetime;
  be_market_data_ready : UUID -> option bool;
  be_ids : UUID -> EntryIds;
  be_cycle_id : option UUID;
}.

Definition reasons_json (reasons : list string) : list (string * json) := [("reason_codes", JList (JStr <$> reasons))]%string.

(** The transaction of one intent. *)
Definition submit_intent (env : BatchEnv) (symbol_contexts : list (string * FillProcessingContext)) (symbol : string)
    (ctx : FillProcessingContext) (processed_ids : gset string) (intent : TradeIntent) (s : PaperStore)
    : res (option FillOutcome * PaperStore) :=
  let ready := default false (be_market_data_ready env (ti_intent_id intent)) in
  let authorization := evaluate_final_entry_authorization s (be_config env) ready (be_process_time env) in
  if negb (au_allowed authorization) then
    _ ← validate_intent_transition (ti_status intent) IS_CANCELLED;
    '(_, s) ← update_intent_status s (be_now env) (ti_intent_id intent) IS_CANCELLED None
                (Some (reasons_json (au_reasons authorization))) (Some (be_process_time env));
    Ok (None, s)
  else
    _ ← validate_intent_transition (ti_status intent) IS_SUBMITTED_TO_PAPER_ENGINE;
    '(_, s) ← update_intent_status s (be_now env) (ti_intent_id intent) IS_SUBMITTED_TO_PAPER_ENGINE None None
                (Some (be_process_time env));
    '(outcome, s) ← execute_scheduled_paper_fill s (be_now env) (be_ids env (ti_intent_id intent)) intent
      (fc_inputs ctx) processed_ids
      (_pending_intents_for_open_batch s (fc_candle_open_time ctx) symbol symbol_contexts processed_ids)
      (be_cycle_id env);
    Ok (Some outcome, s).

Definition process_intent (env : BatchEnv) (symbol_contexts : list (string * FillProcessingContext)) (symbol : string)
    (ctx : FillProcessingContext) (st : BatchState) (intent : TradeIntent) : sx PaperStore BatchState :=
  if negb (ti_scheduled_fill_time intent =? fc_candle_open_time ctx)%Z then mret (skip_one st (bs_processed st))
  else
    outcome ← writes (submit_intent env symbol_contexts symbol ctx (bs_processed_ids st) intent);
    match outcome with
    | None => mret (skip_one st (S (bs_processed st)))
    | Some outcome => mret (count_outcome st (ti_idempotency_key intent) outcome)
    end.

Definition empty_result (symbol : string) : FillBatchResult :=
  {| fb_symbol := symbol; fb_processed := 0; fb_filled := 0; fb_rejected := 0; fb_skipped := 0 |}.

Definition process_symbol (env : BatchEnv) (fill_delay_seconds : Z)
    (symbol_contexts : list (string * FillProcessingContext))
    (acc : list FillBatchResult * gset string) (symbol : string) : sx PaperStore (list FillBatchResult * gset string) :=
  let '(results, processed_ids) := acc in
  match od_get symbol_contexts symbol with
  | None => mret (results ++ [empty_result symbol], processed_ids)
  | Some ctx =>
      let due_time := (fc_candle_open_time ctx + seconds fill_delay_seconds)%Z in
      if (be_process_time env <? due_time)%Z then mret (results ++ [empty_result symbol], processed_ids)
      else
        intents ← gets (fun s => get_scheduled_intents_for_symbol s symbol (fc_candle_open_time ctx));
        st ← foldS (process_intent env symbol_contexts symbol ctx) intents
               {| bs_processed_ids := processed_ids; bs_processed := 0; bs_filled := 0;
                  bs_rejected := 0; bs_skipped := 0 |};
        mret (results ++ [{| fb_symbol := symbol; fb_processed := bs_processed st; fb_filled := bs_filled st;
                             fb_rejected := bs_rejected st; fb_skipped := bs_skipped st |}],
              bs_processed_ids st)
  end.

(** Each intent is a transaction of its own: an exception keeps the intents
    processed before it. *)
Definition process_scheduled_intents_for_open (env : BatchEnv) (fill_delay_seconds : Z)
    (symbol_contexts : list (string * FillProcessingContext)) : sx PaperStore (list FillBatchResult) :=
  '(results, _) ← foldS (process_symbol env fill_delay_seconds symbol_contexts) SYMBOL_PROCESSING_ORDER ([], ∅);
  mret results.

Definition evaluation_time_from_daily_candle (candle : Candle) (delay_seconds : Z) : datetime :=
  let base := evaluation_time_for_daily candle in
  if (delay_seconds =? 5)%Z then base else (c_close_time candle + seconds delay_seconds)%Z.

(** ** The daily evaluation (evaluation.py, serialization.py) *)

Record EvaluationResult := {
  er_evaluation : StrategyEvaluationRecord;
  er_created : bool;
  er_intent : option TradeIntent;
  er_intent_created : bool;
  er_blocked_reasons : list string;
}.

Definition signal_kind_value (k : SignalIntentKind) : string :=
  match k with
  | LONG_ENTRY => "LONG_ENTRY" | NO_ENTRY => "NO_ENTRY" | SK_INVALID_DATA => "INVALID_DATA"
  | SK_INSUFFICIENT_HISTORY => "INSUFFICIENT_HISTORY"
  end.

Definition signal_type_value (t : SignalType) : string :=
  match t with ST_BREAKOUT => "BREAKOUT" | ST_PULLBACK => "PULLBACK" end.

Definition entry_type_json (t : option EntryType) : json :=
  match t with Some e => JStr (entry_type_value e) | None => JNull end.

Definition decimal_json (d : option decimal) : json := match d with Some x => JDec x | None => JNull end.

(** [isoformat()] of a UTC instant. *)
Definition isoformat (t : datetime) : string :=
  let s := (t / 1000000)%Z in
  let '(y, m, d) := civil_from_days (s / 86400) in
  let tod := (s mod 86400)%Z in
  let micro := (t mod 1000000)%Z in
  (pad_digits 4 y ++ "-" ++ pad_digits 2 m ++ "-" ++ pad_digits 2 d ++ "T" ++
   pad_digits 2 (tod / 3600) ++ ":" ++ pad_digits 2 (tod / 60 mod 60) ++ ":" ++ pad_digits 2 (tod mod 60) ++
   (if (micro =? 0)%Z then "" else "." ++ pad_digits 6 micro) ++ "+00:00")%string.

Definition evaluation_rejection_reasons (evaluation : StrategyEvaluation) : list string :=
  reason_code_value <$> ev_reason_codes evaluation.

Definition evaluation_hash_payload (evaluation : StrategyEvaluation) (daily_candle_open_time : string)
    : list (string * json) :=
  [("symbol", JStr (ev_symbol evaluation));
   ("strategy_version", JStr (ev_strategy_version evaluation));
   ("evaluation_time", JStr (isoformat (ev_evaluation_time evaluation)));
   ("daily_candle_open_time", JStr daily_candle_open_time);
   ("signal_kind", JStr (signal_kind_value (si_kind (ev_signal_intent evaluation))));
   ("selected_entry_type", entry_type_json (ev_selected_entry_type evaluation));
   ("atr", decimal_json (ev_atr evaluation));
   ("reason_codes", JList (JStr <$> evaluation_rejection_reasons evaluation))]%string.

Definition is_evaluation_due (daily_close_time process_time : datetime) (evaluation_delay_seconds : Z) : bool :=
  (daily_close_time + seconds evaluation_delay_seconds <=? process_time)%Z.

Definition last_open (candles : list Candle) (otherwise : datetime) : datetime :=
  match last candles with Some c => c_open_time c | None => otherwise end.

Section Evaluation.
Variable dump_regime : RegimeResult -> list (string * json).
Variable dump_setup : EntrySetupResult -> json.
Variable dump_signal : SignalIntent -> json.
Variable deterministic_input_hash : list (string * json) -> string.

Definition evaluation_to_regime_result (evaluation : StrategyEvaluation) : list (string * json) :=
  dump_regime (ev_monthly_regime evaluation).

Definition evaluation_to_entry_result (evaluation : StrategyEvaluation) : list (string * json) :=
  [("breakout", dump_setup (ev_breakout_result evaluation));
   ("pullback", dump_setup (ev_pullback_result evaluation));
   ("selected_entry_type", entry_type_json (ev_selected_entry_type evaluation));
   ("signal_intent", dump_signal (ev_signal_intent evaluation));
   ("atr", decimal_json (ev_atr evaluation));
   ("volume_ratio", decimal_json (ev_volume_ratio evaluation))]%string.

Definition evaluation_row (evaluation_id : UUID) (symbol : string) (evaluation_time : datetime)
    (bundle : StrategyDataBundle) (daily_open : datetime) (strategy_eval : StrategyEvaluation)
    : StrategyEvaluationRecord :=
  {| se_evaluation_id := evaluation_id;
     se_symbol := symbol;
     se_evaluation_time := evaluation_time;
     se_daily_candle_open_time := daily_open;
     se_weekly_candle_key := last_open (cs_candles (sb_weekly bundle)) daily_open;
     se_monthly_candle_key := last_open (cs_candles (sb_monthly bundle)) daily_open;
     se_daily_candle_key := daily_open;
     se_strategy_version := ev_strategy_version strategy_eval;
     se_regime_result := evaluation_to_regime_result strategy_eval;
     se_entry_result := evaluation_to_entry_result strategy_eval;
     se_rejection_reasons := evaluation_rejection_reasons strategy_eval;
     se_deterministic_input_hash := deterministic_input_hash (evaluation_hash_payload strategy_eval (isoformat daily_open));
     se_created_at := evaluation_time |}.

(** The evaluation and the intent are one transaction. *)
Definition record_evaluation (s : PaperStore) (intent_id : UUID) (row : StrategyEvaluationRecord)
    (strategy_eval : StrategyEvaluation) (config : PaperTradingConfig) (entry_gates : EntryGateContext)
    (authorization_at : datetime) (market_data_ready : option bool) (cycle_id : option UUID)
    : res (EvaluationResult * PaperStore) :=
  let created_at := se_created_at row in
  '(evaluation, created, s) ← insert_or_get_strategy_evaluation s row;
  let kind := si_kind (ev_signal_intent strategy_eval) in
  let s := append_audit_event s
    {| ae_event_type := "STRATEGY_EVALUATION_RECORDED";
       ae_aggregate_type := "strategy_evaluation";
       ae_aggregate_id := se_evaluation_id evaluation;
       ae_cycle_id := cycle_id;
       ae_payload_json := [("symbol", JStr (se_symbol row)); ("created", JBool created);
                           ("signal_kind", JStr (signal_kind_value kind))]%string;
       ae_created_at := created_at |} in
  if negb (bool_decide (kind = LONG_ENTRY)) then
    Ok ({| er_evaluation := evaluation; er_created := created; er_intent := None; er_intent_created := false;
           er_blocked_reasons := [] |}, s)
  else
    '(intent, intent_created, blocked, s) ← create_intent_from_evaluation s intent_id evaluation strategy_eval
      entry_gates config created_at authorization_at market_data_ready;
    let s := match intent with
             | Some i =>
                 if (intent_created : bool) then append_audit_event s
                   {| ae_event_type := "TRADE_INTENT_CREATED";
                      ae_aggregate_type := "trade_intent";
                      ae_aggregate_id := ti_intent_id i;
                      ae_cycle_id := cycle_id;
                      ae_payload_json := [("symbol", JStr (se_symbol row));
                                          ("signal_type", JStr (signal_type_value (ti_signal_type i)));
                                          ("scheduled_fill_time", JStr (isoformat (ti_scheduled_fill_time i)))]%string;
                      ae_created_at := created_at |}
                 else s
             | None => s
             end in
    Ok ({| er_evaluation := evaluation; er_created := created; er_intent := intent; er_intent_created := intent_created;
           er_blocked_reasons := blocked |}, s).

Definition evaluate_symbol_for_daily_close (s : PaperStore) (evaluation_id intent_id : UUID) (symbol : string)
    (evaluation_time : datetime) (bundle : StrategyDataBundle) (strategy_params : StrategyParameters)
    (config : PaperTradingConfig) (entry_gates : EntryGateContext) (authorization_at : datetime)
    (market_data_ready : option bool) (cycle_id : option UUID) : res (EvaluationResult * PaperStore) :=
  if negb (bool_decide (symbol ∈ ALLOWED_SYMBOLS)) then Raise (ValueError ("unsupported symbol: " +:+ symbol))
  else if negb (sb_is_usable bundle) then Raise (ValueError "market data not ready")
  else match last (cs_candles (sb_daily bundle)) with
  | None => Raise (ValueError "no closed daily candles available")
  | Some last_daily =>
      if (evaluation_time <? evaluation_time_for_daily last_daily)%Z then
        Raise (ValueError "evaluation_time before daily close event")
      else
        strategy_eval ← StrategyEngine.evaluate (sb_daily bundle) (sb_weekly bundle) (sb_monthly bundle)
                          evaluation_time (Some strategy_params);
        record_evaluation s intent_id
          (evaluation_row evaluation_id symbol evaluation_time bundle (c_open_time last_daily) strategy_eval)
          strategy_eval config entry_gates authorization_at market_data_ready cycle_id
  end.
End Evaluation.
