(* ===== verification/PaperScheduler.v ===== *)
(** * The scheduler (services/paper_trading/scheduler.py, scheduler_outcomes.py)

    Idempotent jobs on the session.  The state is the database, the contexts
    that were registered for the next jobs, whether jobs are enabled, and
    whether the advisory lock is held.  What the program takes from outside is
    a [World]: the n-th consultation of the clock, of the random ids, of the
    market data and of the lock, and the text of an exception; the state counts
    the consultations.  Instants are UTC-aware. *)
From Stdlib Require Import ZArith QArith Lia Strings.String.
From stdpp Require Import base list gmap sets strings.
From S2P Require Import Prelude Decimal StrategyModels RiskModels BtModels BtData MarketModels EventFairness.
From S2P Require Import PaperModels PaperSession Transitions PaperRuntime PaperRepository PaperAccounting PaperExecution.
From S2P Require Import PaperStops PaperIntents.

(** ** Definitions *)

Record World := {
  wo_now : nat -> datetime;
  wo_uuid : nat -> UUID;
  wo_market_data_ready : nat -> option bool;
  wo_intent_market_data_ready : nat -> UUID -> option bool;
  wo_entry_ids : nat -> UUID -> EntryIds;
  wo_stop_ids : nat -> string -> StopIds;
  wo_lock_granted : nat -> bool;
  wo_probe : nat -> Probe;
  wo_session_healthy : nat -> bool;
  wo_commit : nat -> bool;
  wo_low_digest : decimal -> string;
  wo_describe : exn -> string;
  wo_dump_regime : RegimeResult -> list (string * json);
  wo_dump_setup : EntrySetupResult -> json;
  wo_dump_signal : SignalIntent -> json;
  wo_input_hash : list (string * json) -> string;
}.

Inductive SchedulerJobName :=
  | READINESS_CHECK | DAILY_SIGNAL_EVALUATION | NEXT_OPEN_FILL_PROCESSING | DAILY_STOP_UPDATE
  | STOP_TRIGGER_PROCESSING | INTRADAY_STOP_PROCESSING | FUNDING_PROCESSING | PORTFOLIO_SNAPSHOT | RUNTIME_HEARTBEAT.

Definition scheduler_job_names : list SchedulerJobName :=
  [READINESS_CHECK; DAILY_SIGNAL_EVALUATION; NEXT_OPEN_FILL_PROCESSING; DAILY_STOP_UPDATE; STOP_TRIGGER_PROCESSING;
   INTRADAY_STOP_PROCESSING; FUNDING_PROCESSING; PORTFOLIO_SNAPSHOT; RUNTIME_HEARTBEAT].

(** The value of the name. *)
Definition job_value (j : SchedulerJobName) : string :=
  match j with
  | READINESS_CHECK => "readiness_check" | DAILY_SIGNAL_EVALUATION => "daily_signal_evaluation"
  | NEXT_OPEN_FILL_PROCESSING => "next_open_fill_processing" | DAILY_STOP_UPDATE => "daily_stop_update"
  | STOP_TRIGGER_PROCESSING => "stop_trigger_processing" | INTRADAY_STOP_PROCESSING => "intraday_stop_processing"
  | FUNDING_PROCESSING => "funding_processing" | PORTFOLIO_SNAPSHOT => "portfolio_snapshot"
  | RUNTIME_HEARTBEAT => "runtime_heartbeat"
  end.

Record JobRunOutcome := {
  jo_job_name : string;
  jo_scheduled_for : datetime;
  jo_status : SchedulerRunStatus;
  jo_skipped : bool;
  jo_error : option string;
}.

(** The keyword arguments registered for the evaluation of a symbol. *)
Record EvaluationInputs := {
  en_bundle : StrategyDataBundle;
  en_strategy_params : StrategyParameters;
  en_config : PaperTradingConfig;
  en_entry_gates : EntryGateContext;
}.

(** The keyword arguments registered for the stop jobs, each one given or not. *)
Record StopContext := {
  sk_daily_candles : option (list (string * Candle));
  sk_preview_candles : option (list (string * Candle));
  sk_evaluation_atr_by_symbol : option (gmap string decimal);
  sk_constraints_by_symbol : option (gmap string SymbolConstraints);
  sk_strategy_params : option StrategyParameters;
}.

Definition no_stop_context : StopContext :=
  {| sk_daily_candles := None; sk_preview_candles := None; sk_evaluation_atr_by_symbol := None;
     sk_constraints_by_symbol := None; sk_strategy_params := None |}.

Record SchedulerState := {
  ss_store : PaperStore;
  ss_jobs_enabled : bool;
  ss_lock_held : bool;
  ss_pending_evaluation : option (list (string * EvaluationInputs));
  ss_pending_fill_contexts : option (list (string * FillProcessingContext));
  ss_pending_stop_context : option StopContext;
  ss_consultations : nat;
}.

Definition with_ss_store (db : PaperStore) (s : SchedulerState) : SchedulerState :=
  {| ss_store := db; ss_jobs_enabled := ss_jobs_enabled s; ss_lock_held := ss_lock_held s;
     ss_pending_evaluation := ss_pending_evaluation s; ss_pending_fill_contexts := ss_pending_fill_contexts s;
     ss_pending_stop_context := ss_pending_stop_context s; ss_consultations := ss_consultations s |}.

Definition with_lock (held : bool) (s : SchedulerState) : SchedulerState :=
  {| ss_store := ss_store s; ss_jobs_enabled := ss_jobs_enabled s; ss_lock_held := held;
     ss_pending_evaluation := ss_pending_evaluation s; ss_pending_fill_contexts := ss_pending_fill_contexts s;
     ss_pending_stop_context := ss_pending_stop_context s; ss_consultations := ss_consultations s |}.

Definition with_consultation (s : SchedulerState) : SchedulerState :=
  {| ss_store := ss_store s; ss_jobs_enabled := ss_jobs_enabled s; ss_lock_held := ss_lock_held s;
     ss_pending_evaluation := ss_pending_evaluation s; ss_pending_fill_contexts := ss_pending_fill_contexts s;
     ss_pending_stop_context := ss_pending_stop_context s; ss_consultations := S (ss_consultations s) |}.

Definition set_jobs_enabled (enabled : bool) (s : SchedulerState) : SchedulerState :=
  {| ss_store := ss_store s; ss_jobs_enabled := enabled; ss_lock_held := ss_lock_held s;
     ss_pending_evaluation := ss_pending_evaluation s; ss_pending_fill_contexts := ss_pending_fill_contexts s;
     ss_pending_stop_context := ss_pending_stop_context s; ss_consultations := ss_consultations s |}.

Definition register_evaluation_context (symbols : list (string * EvaluationInputs)) (s : SchedulerState) : SchedulerState :=
  {| ss_store := ss_store s; ss_jobs_enabled := ss_jobs_enabled s; ss_lock_held := ss_lock_held s;
     ss_pending_evaluation := Some symbols; ss_pending_fill_contexts := ss_pending_fill_contexts s;
     ss_pending_stop_context := ss_pending_stop_context s; ss_consultations := ss_consultations s |}.

Definition register_fill_contexts (contexts : list (string * FillProcessingContext)) (s : SchedulerState) : SchedulerState :=
  {| ss_store := ss_store s; ss_jobs_enabled := ss_jobs_enabled s; ss_lock_held := ss_lock_held s;
     ss_pending_evaluation := ss_pending_evaluation s; ss_pending_fill_contexts := Some contexts;
     ss_pending_stop_context := ss_pending_stop_context s; ss_consultations := ss_consultations s |}.

Definition register_stop_context (context : StopContext) (s : SchedulerState) : SchedulerState :=
  {| ss_store := ss_store s; ss_jobs_enabled := ss_jobs_enabled s; ss_lock_held := ss_lock_held s;
     ss_pending_evaluation := ss_pending_evaluation s; ss_pending_fill_contexts := ss_pending_fill_contexts s;
     ss_pending_stop_context := Some context; ss_consultations := ss_consultations s |}.

#[export] Program Instance scheduler_store : HasStore SchedulerState :=
  {| store_of := ss_store; put_store := with_ss_store |}.
Next Obligation. done. Qed.

Notation sched := (sx SchedulerState).

Definition consult {A} (f : nat -> A) : sched A := fun s => (Done (f (ss_consultations s)), with_consultation s).

(** *** The advisory lock (lock.py) *)

Definition try_acquire (world : World) : sched bool :=
  held ← gets ss_lock_held;
  if (held : bool) then mret true
  else
    granted ← consult (wo_lock_granted world);
    _ ← modify (with_lock granted);
    mret granted.

Definition release : SchedulerState -> SchedulerState := with_lock false.

(** [str(exc)]: the message of the exceptions of this program and of the
    built-in ones with a message; the text of the others comes from outside. *)
Definition str_exn (world : World) (e : error) : string :=
  match e with
  | Base (ValueError m) | Base (RuntimeError m) | Base (LookupError m) | Base (InvalidTransition m)
  | RetryableContextNotReady m | PermanentConfigurationFailure m _ | RetryableSchedulerDeferred m
  | DailyOpenSequenceFailure _ m => m
  | FillNotDue => "entry fill not yet due"
  | DailyEvaluationNotDue => "daily evaluation not yet due"
  | Base e => wo_describe world e
  end.

(** [error or default]: an empty text counts as none. *)
Definition error_or (error : option string) (d : string) : string :=
  match error with Some e => or_else e d | None => d end.

Section Scheduler.
Variable world : World.
Variable config : PaperTradingConfig.

Definition now : sched datetime := consult (wo_now world).

(** *** The handlers *)

(** [market_data_ready()] may raise. *)
Definition market_data_ready : sched bool :=
  ready ← consult (wo_market_data_ready world);
  from_res (or_raise (RuntimeError "market_data_ready") ready).

Definition with_readiness_inputs (pb : Probe) (market_data_ready scheduler_active : bool) : Probe :=
  {| pb_market_data_ready := market_data_ready; pb_database_reachable := pb_database_reachable pb;
     pb_schema := pb_schema pb; pb_advisory_lock := None; pb_scheduler_active := scheduler_active;
     pb_recovery_active := pb_recovery_active pb; pb_now := pb_now pb |}.

(** The snapshot is not used. *)
Definition _job_readiness_check : sched unit :=
  ready ← market_data_ready;
  enabled ← gets ss_jobs_enabled;
  pb ← consult (wo_probe world);
  _ ← reads (fun db => Ok (evaluate_readiness config db (with_readiness_inputs pb ready enabled)));
  mret tt.

Definition _evaluation_time_for (scheduled_for : datetime) : datetime :=
  (scheduled_for + seconds (pc_evaluation_delay_seconds config))%Z.

Definition evaluate_symbol (evaluation_time : datetime) (symbols : list (string * EvaluationInputs)) (_ : unit)
    (symbol : string) : sched unit :=
  match od_get symbols symbol with
  | None => mret tt
  | Some inputs =>
      evaluation_id ← consult (wo_uuid world);
      intent_id ← consult (wo_uuid world);
      authorization_at ← now;
      ready ← consult (wo_market_data_ready world);
      _ ← writes (fun db => evaluate_symbol_for_daily_close (wo_dump_regime world) (wo_dump_setup world)
                              (wo_dump_signal world) (wo_input_hash world) db evaluation_id intent_id symbol
                              evaluation_time (en_bundle inputs) (en_strategy_params inputs) (en_config inputs)
                              (en_entry_gates inputs) authorization_at ready None);
      mret tt
  end.

Definition _job_daily_signal_evaluation (scheduled_for : datetime) : sched unit :=
  ctx ← gets ss_pending_evaluation;
  foldS (evaluate_symbol (_evaluation_time_for scheduled_for) (default [] ctx)) SYMBOL_PROCESSING_ORDER tt.

Definition _job_next_open_fill_processing (cycle_id : option UUID) : sched unit :=
  contexts ← gets ss_pending_fill_contexts;
  process_time ← now;
  db_now ← now;
  ready ← consult (wo_intent_market_data_ready world);
  ids ← consult (wo_entry_ids world);
  _ ← in_session (process_scheduled_intents_for_open
        {| be_config := config; be_process_time := process_time; be_now := db_now; be_market_data_ready := ready;
           be_ids := ids; be_cycle_id := cycle_id |}
        (pc_fill_delay_seconds config) (default [] contexts));
  mret tt.

(** [f( **ctx)] with a missing or an unknown keyword is a [TypeError]. *)
Definition _job_daily_stop_update (scheduled_for : datetime) : sched unit :=
  ctx ← gets ss_pending_stop_context;
  let ctx := default no_stop_context ctx in
  match sk_daily_candles ctx, sk_preview_candles ctx, sk_evaluation_atr_by_symbol ctx, sk_constraints_by_symbol ctx,
        sk_strategy_params ctx with
  | Some daily_candles, None, Some atrs, Some constraints, Some params =>
      ids ← consult (wo_stop_ids world);
      _ ← in_session (update_daily_trailing_stops (_evaluation_time_for scheduled_for) daily_candles atrs constraints
                        params None ids);
      mret tt
  | _, _, _, _, _ => raise (Base TypeError)
  end.

Definition _job_stop_trigger_processing : sched unit :=
  ctx ← gets ss_pending_stop_context;
  process_time ← now;
  let ctx := default no_stop_context ctx in
  match sk_daily_candles ctx, sk_preview_candles ctx, sk_evaluation_atr_by_symbol ctx, sk_constraints_by_symbol ctx,
        sk_strategy_params ctx with
  | Some daily_candles, None, None, Some constraints, None =>
      db_now ← now;
      ids ← consult (wo_stop_ids world);
      _ ← in_session (process_stop_triggers_for_daily_candle config db_now process_time daily_candles constraints None
                        true ids);
      mret tt
  | _, _, _, _, _ => raise (Base TypeError)
  end.

Definition _job_intraday_stop_processing (cycle_id : option UUID) : sched unit :=
  ctx ← gets ss_pending_stop_context;
  let ctx := default no_stop_context ctx in
  match sk_preview_candles ctx with
  | None | Some [] => raise (Base (ValueError "missing intraday preview_candles context"))
  | Some preview_candles =>
      process_time ← now;
      match sk_daily_candles ctx, sk_evaluation_atr_by_symbol ctx, sk_constraints_by_symbol ctx, sk_strategy_params ctx with
      | None, None, Some constraints, None =>
          db_now ← now;
          ids ← consult (wo_stop_ids world);
          _ ← in_session (process_intraday_stop_triggers config db_now process_time preview_candles constraints cycle_id ids);
          mret tt
      | _, _, _, _ => raise (Base TypeError)
      end
  end.

Definition _job_funding_processing : sched unit :=
  raise (Base (RuntimeError "funding processing is not implemented in paper trading V1")).

Definition _job_portfolio_snapshot (scheduled_for : datetime) (cycle_id : option UUID) : sched unit :=
  id ← consult (wo_uuid world);
  _ ← writes (fun db => capture_snapshot db id (_evaluation_time_for scheduled_for) "scheduled_snapshot" [] ∅ cycle_id);
  mret tt.

Definition _job_runtime_heartbeat : sched unit :=
  t ← now;
  _ ← writes (fun db => heartbeat db t);
  mret tt.

Definition handlers (job_name : string) : option (datetime -> option UUID -> sched unit) :=
  match List.find (fun j => bool_decide (job_value j = job_name)) scheduler_job_names with
  | None => None
  | Some READINESS_CHECK => Some (fun _ _ => _job_readiness_check)
  | Some DAILY_SIGNAL_EVALUATION => Some (fun scheduled_for _ => _job_daily_signal_evaluation scheduled_for)
  | Some NEXT_OPEN_FILL_PROCESSING => Some (fun _ cycle_id => _job_next_open_fill_processing cycle_id)
  | Some DAILY_STOP_UPDATE => Some (fun scheduled_for _ => _job_daily_stop_update scheduled_for)
  | Some STOP_TRIGGER_PROCESSING => Some (fun _ _ => _job_stop_trigger_processing)
  | Some INTRADAY_STOP_PROCESSING => Some (fun _ cycle_id => _job_intraday_stop_processing cycle_id)
  | Some FUNDING_PROCESSING => Some (fun _ _ => _job_funding_processing)
  | Some PORTFOLIO_SNAPSHOT => Some _job_portfolio_snapshot
  | Some RUNTIME_HEARTBEAT => Some (fun _ _ => _job_runtime_heartbeat)
  end.

(** *** Jobs *)

Definition skipped_because (job_name : string) (scheduled_for : datetime) (error : string) : JobRunOutcome :=
  {| jo_job_name := job_name; jo_scheduled_for := scheduled_for; jo_status := SR_SKIPPED; jo_skipped := true;
     jo_error := Some error |}.

Definition already_completed (job_name : string) (scheduled_for : datetime) : JobRunOutcome :=
  {| jo_job_name := job_name; jo_scheduled_for := scheduled_for; jo_status := SR_COMPLETED; jo_skipped := true;
     jo_error := None |}.

(** A run that starts now. *)
Definition new_run (run_id : UUID) (job_name : string) (scheduled_for started_at : datetime) : SchedulerRun :=
  {| sr_run_id := run_id; sr_job_name := job_name; sr_scheduled_for := scheduled_for;
     sr_started_at := Some started_at; sr_completed_at := None; sr_status := SR_RUNNING; sr_error := None;
     sr_idempotency_key := scheduler_run_key job_name scheduled_for;
     sr_recovery_of_run_id := None; sr_resolved_by_run_id := None |}.

Definition insert_run (run_id : UUID) (job_name : string) (scheduled_for started_at : datetime) (db : PaperStore)
    : res (SchedulerRun * bool * PaperStore) :=
  insert_or_get_scheduler_run db (new_run run_id job_name scheduled_for started_at).

Definition _complete_run (job_name : string) (scheduled_for : datetime) (status : SchedulerRunStatus)
    (error : option string) : sched SchedulerRun :=
  completed_at ← now;
  writes (fun db => complete_scheduler_run db job_name scheduled_for status completed_at error).

Definition _persisted_job_outcome (job_name : string) (scheduled_for : datetime) (skipped : bool)
    (error : option string) : sched JobRunOutcome :=
  run ← reads (fun db => get_scheduler_run db job_name scheduled_for);
  match run with
  | Some run =>
      mret {| jo_job_name := job_name; jo_scheduled_for := scheduled_for; jo_status := sr_status run;
              jo_skipped := skipped; jo_error := sr_error run |}
  | None =>
      mret {| jo_job_name := job_name; jo_scheduled_for := scheduled_for; jo_status := SR_FAILED;
              jo_skipped := false; jo_error := Some (error_or error "scheduler_run_missing") |}
  end.

(** The handler of a run that was started, and the end of the run. *)
Definition execute_handler (job_name : string) (scheduled_for : datetime) (cycle_id : option UUID)
    (handler : datetime -> option UUID -> sched unit) : sched JobRunOutcome :=
  try_except
    (_ ← handler scheduled_for cycle_id;
     _ ← _complete_run job_name scheduled_for SR_COMPLETED None;
     _persisted_job_outcome job_name scheduled_for false None)
    (fun exc =>
     _ ← _complete_run job_name scheduled_for SR_FAILED (Some (str_exn world exc));
     _persisted_job_outcome job_name scheduled_for false (Some (str_exn world exc))).

(** The run starts, unless another one was completed in the meantime. *)
Definition start_job (job_name : string) (scheduled_for : datetime) (cycle_id : option UUID) : sched JobRunOutcome :=
  started ← now;
  run_id ← consult (wo_uuid world);
  '(run, created) ← writes (fun db => insert_run run_id job_name scheduled_for started db);
  if negb created && bool_decide (sr_status run = SR_COMPLETED) then mret (already_completed job_name scheduled_for)
  else match handlers job_name with
  | None =>
      _ ← _complete_run job_name scheduled_for SR_FAILED (Some "unknown_job");
      mret {| jo_job_name := job_name; jo_scheduled_for := scheduled_for; jo_status := SR_FAILED;
              jo_skipped := false; jo_error := Some "unknown_job" |}
  | Some handler => execute_handler job_name scheduled_for cycle_id handler
  end.

Definition _run_job (job_name : string) (scheduled_for : datetime) (cycle_id : option UUID) : sched JobRunOutcome :=
  enabled ← gets ss_jobs_enabled;
  if negb enabled && negb (bool_decide (job_name = job_value READINESS_CHECK)) then
    mret (skipped_because job_name scheduled_for "scheduler_not_ready")
  else
    existing ← reads (fun db => get_scheduler_run db job_name scheduled_for);
    match sr_status <$> existing with
    | Some SR_COMPLETED => mret (already_completed job_name scheduled_for)
    | Some SR_RUNNING => mret (skipped_because job_name scheduled_for "already_running")
    | _ => start_job job_name scheduled_for cycle_id
    end.

(** A standalone job is a transaction; inside a transaction of the caller the
    caller decides. *)
Definition run_job (in_transaction : bool) (job_name : string) (scheduled_for : datetime) (cycle_id : option UUID)
    : sched JobRunOutcome :=
  let run := _run_job job_name scheduled_for cycle_id in
  if in_transaction then run else transaction run.

(** *** Sequences under the advisory lock *)

Definition run_jobs (in_transaction : bool) (jobs : list SchedulerJobName) (scheduled_for : datetime)
    (cycle_id : option UUID) : sched (list JobRunOutcome) :=
  foldS (fun outcomes job =>
    outcome ← run_job in_transaction (job_value job) scheduled_for cycle_id;
    mret (outcomes ++ [outcome])) jobs [].

Definition under_lock (first : SchedulerJobName) (scheduled_for : datetime) (body : sched (list JobRunOutcome))
    : sched (list JobRunOutcome) :=
  already_held ← gets ss_lock_held;
  acquired ← try_acquire world;
  if negb acquired then mret [skipped_because (job_value first) scheduled_for "advisory_lock_not_acquired"]
  else try_finally body (fun s => if (already_held : bool) then s else release s).

Definition _run_open_subsequence (in_transaction : bool) (scheduled_for : datetime) (cycle_id : option UUID)
    (job : SchedulerJobName) : sched (list JobRunOutcome) :=
  under_lock job scheduled_for (run_jobs in_transaction [job] scheduled_for cycle_id).

Definition run_daily_open_gap_stop (in_transaction : bool) (scheduled_for : datetime) (cycle_id : option UUID) :=
  _run_open_subsequence in_transaction scheduled_for cycle_id STOP_TRIGGER_PROCESSING.

Definition run_daily_open_fill (in_transaction : bool) (scheduled_for : datetime) (cycle_id : option UUID) :=
  _run_open_subsequence in_transaction scheduled_for cycle_id NEXT_OPEN_FILL_PROCESSING.

Definition run_daily_open_snapshot (in_transaction : bool) (scheduled_for : datetime) (cycle_id : option UUID) :=
  _run_open_subsequence in_transaction scheduled_for cycle_id PORTFOLIO_SNAPSHOT.

Definition run_daily_open_sequence (in_transaction : bool) (scheduled_for : datetime) (cycle_id : option UUID)
    : sched (list JobRunOutcome) :=
  gap ← run_daily_open_gap_stop in_transaction scheduled_for cycle_id;
  let due := (scheduled_for + seconds (pc_fill_delay_seconds config))%Z in
  t ← now;
  if (t <? due)%Z then
    mret (gap ++ [skipped_because (job_value NEXT_OPEN_FILL_PROCESSING) scheduled_for "fill_not_due"])
  else
    fill ← run_daily_open_fill in_transaction scheduled_for cycle_id;
    snap ← run_daily_open_snapshot in_transaction scheduled_for cycle_id;
    mret (gap ++ fill ++ snap).

Definition run_daily_close_sequence (in_transaction : bool) (scheduled_for : datetime) (cycle_id : option UUID)
    : sched (list JobRunOutcome) :=
  under_lock DAILY_SIGNAL_EVALUATION scheduled_for
    (let due := (scheduled_for + seconds (pc_evaluation_delay_seconds config))%Z in
     t ← now;
     if (t <? due)%Z then mret [skipped_because (job_value DAILY_SIGNAL_EVALUATION) scheduled_for "evaluation_not_due"]
     else run_jobs in_transaction [DAILY_SIGNAL_EVALUATION; DAILY_STOP_UPDATE; PORTFOLIO_SNAPSHOT] scheduled_for cycle_id).
End Scheduler.

(** *** Outcomes *)

Definition RETRYABLE_SKIP_ERRORS : list string :=
  ["advisory_lock_not_acquired"; "scheduler_not_ready"; "already_running"; "fill_not_due"; "evaluation_not_due"].

Definition is_idempotent_completed (outcome : JobRunOutcome) : bool :=
  bool_decide (jo_status outcome = SR_COMPLETED) && jo_skipped outcome && bool_decide (jo_error outcome = None).

Definition is_fresh_completed (outcome : JobRunOutcome) : bool :=
  bool_decide (jo_status outcome = SR_COMPLETED) && negb (jo_skipped outcome).

Definition is_retryable_skip (outcome : JobRunOutcome) : bool :=
  jo_skipped outcome &&
  match jo_error outcome with Some e => bool_decide (e ∈ RETRYABLE_SKIP_ERRORS) | None => false end.

Definition is_terminal_job_success (outcome : JobRunOutcome) : bool :=
  is_idempotent_completed outcome || is_fresh_completed outcome.

Fixpoint require_successful_jobs (outcomes : list JobRunOutcome) : result unit :=
  match outcomes with
  | [] => Done tt
  | outcome :: outcomes =>
      if bool_decide (jo_status outcome = SR_FAILED) then
        Failed (Base (RuntimeError (error_or (jo_error outcome) "scheduler job failed")))
      else if is_retryable_skip outcome then
        Failed (RetryableSchedulerDeferred (error_or (jo_error outcome) "scheduler_deferred"))
      else require_successful_jobs outcomes
  end.
