(* ===== verification/PaperContext.v ===== *)
(** * Contexts of the scheduler jobs (services/paper_trading/scheduler_context.py,
    constraint_validation.py, symbol_constraints.py)

    What the market event bridge registers before it runs a job, assembled from
    the candle repository, the database and the symbol constraints.  A missing
    context is [RetryableContextNotReady], a wrong configuration
    [PermanentConfigurationFailure].  The log line of a deferral is left out. *)
From Stdlib Require Import ZArith QArith Lia Strings.String.
From stdpp Require Import base list gmap sets strings.
From S2P Require Import Prelude Decimal StrategyModels RiskModels Constraints BtModels BtData Timeframes MarketModels.
From S2P Require Import MarketRepository MarketBundle.
From S2P Require Import PaperModels PaperSession PaperRuntime PaperRepository PaperAccounting PaperExecution PaperStops.
From S2P Require Import PaperIntents PaperScheduler.
From S2P Require StrategyEngine.

Local Open Scope string_scope.

(** ** Symbol constraints *)

Definition PERMANENT_CONFIGURATION_FAILURE : string := "PERMANENT_CONFIGURATION_FAILURE".

(** The code of a violation, the general one for codes the table leaves out. *)
Definition _PRODUCTION_ERROR_CODES : list (string * string) :=
  [(INVALID_TICK_SIZE, "PERMANENT_CONFIGURATION_INVALID_TICK_SIZE");
   (INVALID_QUANTITY_STEP, "PERMANENT_CONFIGURATION_INVALID_QUANTITY_STEP");
   (INVALID_MIN_QUANTITY, "PERMANENT_CONFIGURATION_INVALID_MIN_QUANTITY");
   (INVALID_MIN_NOTIONAL, "PERMANENT_CONFIGURATION_INVALID_MIN_NOTIONAL");
   (PRECISION_MISMATCH, "PERMANENT_CONFIGURATION_PRECISION_MISMATCH")].

Definition validate_production_symbol_constraints (symbol : string) (constraints : SymbolConstraints)
    (expected_symbol : option string) : result unit :=
  match expected_symbol with
  | Some expected =>
      if negb (bool_decide (symbol = expected)) then
        Failed (PermanentConfigurationFailure ("symbol mismatch: expected " ++ expected ++ ", got " ++ symbol)
                 "PERMANENT_CONFIGURATION_SYMBOL_MISMATCH")
      else Done tt
  | None => Done tt
  end ≫= fun _ =>
  violation ← lift (validate_symbol_constraints_core constraints);
  match violation with
  | None => Done tt
  | Some v =>
      Failed (PermanentConfigurationFailure ("invalid " ++ ce_field v ++ " for " ++ symbol ++ ": " ++ ce_message v)
               (default PERMANENT_CONFIGURATION_FAILURE (od_get _PRODUCTION_ERROR_CODES (ce_code v))))
  end.

Definition require_valid_production_constraints (symbol : string) (constraints : option SymbolConstraints)
    : result SymbolConstraints :=
  match constraints with
  | None =>
      Failed (PermanentConfigurationFailure ("missing symbol constraints for " ++ symbol) PERMANENT_CONFIGURATION_FAILURE)
  | Some constraints =>
      _ ← validate_production_symbol_constraints symbol constraints (Some symbol);
      Done constraints
  end.

(** [Decimal(1).scaleb(-n)]. *)
Definition tenth_power (n : Z) : decimal := (1 # Z.to_pos (10 ^ n))%Q.

Definition constraints_from_sz_decimals (sz_decimals : Z) : res SymbolConstraints :=
  if (sz_decimals <? 0)%Z || (6 <? sz_decimals)%Z then Raise (ValueError "invalid sz_decimals")
  else
    let quantity_step := tenth_power sz_decimals in
    let price_tick := tenth_power (6 - sz_decimals) in
    Ok {| sc_quantity_step := quantity_step; sc_minimum_quantity := quantity_step;
          sc_minimum_notional := 10%Q; sc_price_tick_size := price_tick |}.

(** [StaticSymbolConstraintsProvider.get] and
    [HyperliquidSymbolConstraintsProvider.get] look up this map. *)
Definition SymbolConstraintsProvider : Type := list (string * SymbolConstraints).

Definition static_provider (constraints : list (string * SymbolConstraints)) : res SymbolConstraintsProvider :=
  if forallb (fun sym => bool_decide (sym ∈ ALLOWED_SYMBOLS)) (od_keys constraints) then Ok constraints
  else Raise (ValueError "unsupported symbols in constraints").

Definition provider_step (sz_decimals_by_coin : list (string * Z)) (by_symbol : SymbolConstraintsProvider)
    (symbol : MarketSymbol) : res SymbolConstraintsProvider :=
  coin ← to_provider_symbol symbol "hyperliquid";
  match od_get sz_decimals_by_coin (upper coin) with
  | None => Ok by_symbol
  | Some sz =>
      constraints ← constraints_from_sz_decimals sz;
      Ok (od_set by_symbol (symbol_value symbol) constraints)
  end.

Definition hyperliquid_provider (sz_decimals_by_coin : list (string * Z)) : res SymbolConstraintsProvider :=
  foldM (provider_step sz_decimals_by_coin) market_symbols [].

Definition provider_get (provider : SymbolConstraintsProvider) (symbol : string) : option SymbolConstraints :=
  od_get provider symbol.

Definition provider_require (provider : SymbolConstraintsProvider) (symbol : string) : res SymbolConstraints :=
  or_raise (ValueError ("missing SymbolConstraints for " ++ symbol)) (provider_get provider symbol).

(** ** ProductionContextBuilder *)

Definition MIN_DAILY_CANDLES : nat := 21.
Definition MIN_WEEKLY_CANDLES : nat := 50.
Definition MIN_MONTHLY_CANDLES : nat := 20.

(** [MarketSymbol(symbol)]. *)
Definition market_symbol (symbol : string) : res MarketSymbol :=
  or_raise (ValueError ("'" ++ symbol ++ "' is not a valid MarketSymbol"))
    (List.find (fun m => bool_decide (symbol_value m = symbol)) market_symbols).

Record ContextBuilder := {
  cb_config : PaperTradingConfig;
  cb_constraints : SymbolConstraintsProvider;
  cb_strategy_params : StrategyParameters;
  cb_risk_params : RiskParameters;
  cb_execution_config : PaperExecutionConfig;
}.

Definition default_context_risk_params (config : PaperTradingConfig) : RiskParameters :=
  {| rp_risk_specification_version := rp_risk_specification_version default_risk_parameters;
     rp_strategy_version := rp_strategy_version default_risk_parameters;
     rp_risk_per_trade_pct := 5 # 1000; rp_max_portfolio_risk_pct := 2 # 100;
     rp_max_open_positions := rp_max_open_positions default_risk_parameters;
     rp_max_leverage := pc_paper_max_leverage config;
     rp_risk_rounding_tolerance := rp_risk_rounding_tolerance default_risk_parameters;
     rp_loss_limits := rp_loss_limits default_risk_parameters |}.

(** The constructor: an argument that is not given takes its default. *)
Definition context_builder (config : PaperTradingConfig) (constraints : SymbolConstraintsProvider)
    (strategy_params : option StrategyParameters) (risk_params : option RiskParameters)
    (execution_config : option PaperExecutionConfig) : ContextBuilder :=
  {| cb_config := config; cb_constraints := constraints;
     cb_strategy_params := default default_strategy_parameters strategy_params;
     cb_risk_params := default (default_context_risk_params config) risk_params;
     cb_execution_config := default (from_trading_config config) execution_config |}.

Section Builder.
Variable world : World.
Variable builder : ContextBuilder.
Variable candles : CandleRepository.

(** The bundle is not backfilled, so the repository stays as it is. *)
Definition _bundle (symbol : string) (evaluation_time : datetime) : res StrategyDataBundle :=
  symbol ← market_symbol symbol;
  '(_, bundle) ← build_strategy_bundle candles None symbol evaluation_time MIN_DAILY_CANDLES MIN_WEEKLY_CANDLES
                   MIN_MONTHLY_CANDLES false false;
  Ok bundle.

(** Entry ready, paused, kill switch. *)
Definition _runtime_gates (db : PaperStore) : bool * bool * bool :=
  match db_runtime db with
  | None => (false, false, false)
  | Some runtime =>
      let paused := rs_paused runtime in
      let kill := rs_kill_switch runtime in
      (bool_decide (rs_status runtime = RS_READY) && negb kill && negb paused, paused, kill)
  end.

Definition _require_valid_constraints (symbol : string) : result SymbolConstraints :=
  require_valid_production_constraints symbol (provider_get (cb_constraints builder) symbol).

Definition validate_symbol_configuration (symbol : string) : result unit :=
  _ ← _require_valid_constraints symbol;
  Done tt.

Definition not_usable (symbol : string) (t : datetime) : error :=
  RetryableContextNotReady ("strategy bundle not usable for " ++ symbol ++ " at " ++ isoformat t).

Definition build_evaluation_context (symbol : string) (evaluation_time : datetime)
    : sched (list (string * EvaluationInputs)) :=
  _ ← from_result (_require_valid_constraints symbol);
  bundle ← from_res (_bundle symbol evaluation_time);
  if negb (sb_is_usable bundle) then raise (not_usable symbol evaluation_time)
  else
    '(entry_ready, paused, kill) ← reads (fun db => Ok (_runtime_gates db));
    ready ← market_data_ready world;
    entry_gates ← reads (fun db => build_entry_gate_context db symbol entry_ready ready paused kill);
    mret [(symbol, {| en_bundle := bundle; en_strategy_params := cb_strategy_params builder;
                      en_config := cb_config builder; en_entry_gates := entry_gates |})].

(** The evaluations are the latest hundred. *)
Definition latest_evaluation_of (symbol : string) (db : PaperStore) : option StrategyEvaluationRecord :=
  List.find (fun e => bool_decide (se_symbol e = symbol)) (list_evaluations db 100 None None).

Definition atr_by_symbol (symbol : string) (db : PaperStore) : res (gmap string decimal) :=
  position ← get_open_position_for_symbol db symbol;
  match position with
  | None => Ok ∅
  | Some position =>
      atr ← atr_for_trailing_update position (latest_evaluation_of symbol db) None;
      Ok {[ symbol := atr ]}
  end.

Definition build_stop_context_for_close (symbol : string) (evaluation_time : datetime) : sched StopContext :=
  constraints ← from_result (_require_valid_constraints symbol);
  bundle ← from_res (_bundle symbol evaluation_time);
  match last (cs_candles (sb_daily bundle)) with
  | None => raise (RetryableContextNotReady ("daily history missing for " ++ symbol ++ " at " ++ isoformat evaluation_time))
  | Some last_daily =>
      if negb (c_is_closed last_daily) then raise (RetryableContextNotReady ("latest daily candle not closed for " ++ symbol))
      else
        atrs ← reads (atr_by_symbol symbol);
        mret {| sk_daily_candles := Some [(symbol, last_daily)]; sk_preview_candles := None;
                sk_evaluation_atr_by_symbol := Some atrs;
                sk_constraints_by_symbol := Some {[ symbol := constraints ]};
                sk_strategy_params := Some (cb_strategy_params builder) |}
  end.

(** The open is all that is known of the candle. *)
Definition _open_only_strategy_candle (c : NormalizedCandle) : Candle :=
  {| c_symbol := symbol_value (nc_symbol c); c_timeframe := nc_timeframe c; c_open_time := nc_open_time c;
     c_close_time := nc_close_time c; c_open := nc_open c; c_high := nc_open c; c_low := nc_open c;
     c_close := nc_open c; c_volume := nc_volume c; c_is_closed := false |}.

Definition _gap_check_strategy_candle (c : NormalizedCandle) : Candle :=
  {| c_symbol := symbol_value (nc_symbol c); c_timeframe := nc_timeframe c; c_open_time := nc_open_time c;
     c_close_time := nc_close_time c; c_open := nc_open c; c_high := nc_high c; c_low := nc_open c;
     c_close := nc_close c; c_volume := nc_volume c; c_is_closed := nc_is_closed c |}.

Definition prior_close_step (open_time : datetime) (closes : gmap string decimal) (symbol : string)
    : res (gmap string decimal) :=
  m ← market_symbol symbol;
  match last (get_closed_before candles m DAILY open_time) with
  | None => Ok closes
  | Some c => Ok (<[symbol := nc_close c]> closes)
  end.

Definition build_open_contexts (symbol : string) (open_candle : NormalizedCandle)
    : result (list (string * FillProcessingContext) * StopContext) :=
  constraints ← _require_valid_constraints symbol;
  let prior_eval_time := nc_open_time open_candle in
  bundle ← lift (_bundle symbol prior_eval_time);
  if negb (sb_is_usable bundle) || bool_decide (cs_candles (sb_daily bundle) = []) then
    Failed (not_usable symbol prior_eval_time)
  else
    strategy_eval ← lift (StrategyEngine.evaluate (sb_daily bundle) (sb_weekly bundle) (sb_monthly bundle)
                            prior_eval_time (Some (cb_strategy_params builder)));
    match ev_atr strategy_eval with
    | None => Failed (RetryableContextNotReady ("atr14 not available for " ++ symbol ++ " at " ++ isoformat prior_eval_time))
    | Some atr14 =>
        if atr14 ≤ᵈ 0%Q then
          Failed (RetryableContextNotReady ("atr14 not available for " ++ symbol ++ " at " ++ isoformat prior_eval_time))
        else
          prior_closes ← lift (foldM (prior_close_step (nc_open_time open_candle)) (pc_symbols (cb_config builder)) ∅);
          let fill_ctx :=
            {| fc_inputs :=
                 {| fx_atr14 := atr14; fx_open_ref := nc_open open_candle; fx_candle_open_time := nc_open_time open_candle;
                    fx_constraints := constraints; fx_strategy_params := cb_strategy_params builder;
                    fx_risk_params := cb_risk_params builder; fx_execution_config := cb_execution_config builder;
                    fx_day_candles := [(symbol, _open_only_strategy_candle open_candle)];
                    fx_prior_closes := prior_closes |};
               fc_processed_intent_ids := ∅ |} in
          let stop_ctx :=
            {| sk_daily_candles := Some [(symbol, _gap_check_strategy_candle open_candle)];
               sk_preview_candles := None; sk_evaluation_atr_by_symbol := None;
               sk_constraints_by_symbol := Some {[ symbol := constraints ]}; sk_strategy_params := None |} in
          Done ([(symbol, fill_ctx)], stop_ctx)
    end.

Definition build_intraday_stop_context (symbol : string) (live_candle : NormalizedCandle) : result StopContext :=
  constraints ← _require_valid_constraints symbol;
  if nc_is_closed live_candle then Failed (RetryableContextNotReady ("live candle closed for " ++ symbol))
  else
    Done {| sk_daily_candles := None; sk_preview_candles := Some [(symbol, to_strategy_candle live_candle)];
          sk_evaluation_atr_by_symbol := None; sk_constraints_by_symbol := Some {[ symbol := constraints ]};
          sk_strategy_params := None |}.
End Builder.
