(* ===== verification/PaperEvents.v ===== *)
(** * Market events (services/paper_trading/market_events.py: events and detector)

    An event is a candle of the repository in a state of its life.  The
    detector offers the same candidates again until they are acknowledged, which
    happens after the commit only.  Offering writes nothing: the tracker of a
    symbol that has none is empty.  The digest of a low is taken of its value,
    not of its text. *)
From Stdlib Require Import ZArith QArith Lia Strings.String.
From stdpp Require Import base list gmap sets strings sorting.
From S2P Require Import Prelude Decimal StrategyModels BtData Timeframes EventFairness MarketModels MarketRepository.
From S2P Require Import PaperModels PaperSession PaperRuntime PaperRepository PaperScheduler PaperContext.

(** ** Events *)

Inductive MarketEventType :=
  | DAILY_OPEN_AVAILABLE | DAILY_LIVE_UPDATE | DAILY_CLOSED | WEEKLY_CLOSED | MONTHLY_CLOSED.

#[export] Instance MarketEventType_eq_dec : EqDecision MarketEventType.
Proof. solve_decision. Defined.

Definition event_type_value (t : MarketEventType) : string :=
  match t with
  | DAILY_OPEN_AVAILABLE => "DAILY_OPEN_AVAILABLE" | DAILY_LIVE_UPDATE => "DAILY_LIVE_UPDATE"
  | DAILY_CLOSED => "DAILY_CLOSED" | WEEKLY_CLOSED => "WEEKLY_CLOSED" | MONTHLY_CLOSED => "MONTHLY_CLOSED"
  end.

Record MarketEvent := {
  me_event_type : MarketEventType;
  me_symbol : string;
  me_candle_open_time : datetime;
  me_provider_received_at : datetime;
  me_observed_low : option decimal;
}.

Definition me_scheduled_for (e : MarketEvent) : datetime := me_candle_open_time e.

#[export] Instance MarketEvent_fairness : FairnessEvent MarketEvent :=
  {| fe_event_type e := event_type_value (me_event_type e); fe_symbol := me_symbol;
     fe_candle_open_time := me_candle_open_time |}.

(** ["me:<class>:<symbol>:<time>"]. *)
Definition event_job (class symbol : string) (open_time : datetime) : string :=
  ("me:" ++ class ++ ":" ++ symbol ++ ":" ++ _compact_timestamp open_time)%string.

Definition market_event_job_name (world : World) (event : MarketEvent) : res string :=
  let job class := event_job class (me_symbol event) (me_candle_open_time event) in
  match me_event_type event with
  | DAILY_OPEN_AVAILABLE => Ok (job "do")
  | DAILY_LIVE_UPDATE =>
      low ← or_raise AssertionError (me_observed_low event);
      Ok (job "dl" ++ ":" ++ wo_low_digest world low)%string
  | DAILY_CLOSED => Ok (job "dc")
  | WEEKLY_CLOSED => Ok (job "wc")
  | MONTHLY_CLOSED => Ok (job "mc")
  end.

Definition daily_open_gap_job_name (symbol : string) (open_time : datetime) : string := event_job "do:gap" symbol open_time.
Definition daily_open_fill_job_name (symbol : string) (open_time : datetime) : string := event_job "do:fill" symbol open_time.
Definition daily_open_snapshot_job_name (symbol : string) (open_time : datetime) : string := event_job "do:snap" symbol open_time.

(** The decimal text of a natural number. *)
Fixpoint decimal_text (fuel : nat) (n : Z) : string :=
  match fuel with
  | O => ""
  | S fuel => if (n <? 10)%Z then String (digit n) "" else decimal_text fuel (n / 10) +:+ String (digit n) ""
  end.

Definition market_event_recovery_job_name (event : MarketEvent) (generation : nat) : res string :=
  let job class := Ok (event_job (class ++ ":recovery") (me_symbol event) (me_candle_open_time event) ++ ":" ++
                       decimal_text (S generation) (Z.of_nat generation))%string in
  match me_event_type event with
  | DAILY_OPEN_AVAILABLE => job "do"%string
  | DAILY_CLOSED => job "dc"%string
  | WEEKLY_CLOSED => job "wc"%string
  | MONTHLY_CLOSED => job "mc"%string
  | DAILY_LIVE_UPDATE => Raise (ValueError "recovery not supported for event type: DAILY_LIVE_UPDATE")
  end.

(** ** Trackers *)

Record SymbolSeriesTracker := {
  tk_daily_open_ack_time : option datetime;
  tk_daily_open_terminal_failed_time : option datetime;
  tk_daily_live_ack_low : option decimal;
  tk_daily_closed_ack_time : option datetime;
  tk_daily_closed_terminal_failed_time : option datetime;
  tk_weekly_closed_ack_time : option datetime;
  tk_weekly_closed_terminal_failed_time : option datetime;
  tk_monthly_closed_ack_time : option datetime;
  tk_monthly_closed_terminal_failed_time : option datetime;
}.

Definition new_tracker : SymbolSeriesTracker :=
  {| tk_daily_open_ack_time := None; tk_daily_open_terminal_failed_time := None; tk_daily_live_ack_low := None;
     tk_daily_closed_ack_time := None; tk_daily_closed_terminal_failed_time := None;
     tk_weekly_closed_ack_time := None; tk_weekly_closed_terminal_failed_time := None;
     tk_monthly_closed_ack_time := None; tk_monthly_closed_terminal_failed_time := None |}.

Record MarketEventDetector := {
  de_symbols : list string;
  de_evaluation_delay_seconds : Z;
  de_trackers : list (string * SymbolSeriesTracker);
}.

Definition _tracker (d : MarketEventDetector) (symbol : string) : SymbolSeriesTracker :=
  default new_tracker (od_get (de_trackers d) symbol).

Definition update_tracker (d : MarketEventDetector) (symbol : string) (f : SymbolSeriesTracker -> SymbolSeriesTracker)
    : MarketEventDetector :=
  {| de_symbols := de_symbols d; de_evaluation_delay_seconds := de_evaluation_delay_seconds d;
     de_trackers := od_set (de_trackers d) symbol (f (_tracker d symbol)) |}.

(** The fields of one class of event: acknowledged and failed for good. *)
Definition with_daily_open (ack failed : option datetime) (low : option decimal) (t : SymbolSeriesTracker) :=
  {| tk_daily_open_ack_time := ack; tk_daily_open_terminal_failed_time := failed; tk_daily_live_ack_low := low;
     tk_daily_closed_ack_time := tk_daily_closed_ack_time t;
     tk_daily_closed_terminal_failed_time := tk_daily_closed_terminal_failed_time t;
     tk_weekly_closed_ack_time := tk_weekly_closed_ack_time t;
     tk_weekly_closed_terminal_failed_time := tk_weekly_closed_terminal_failed_time t;
     tk_monthly_closed_ack_time := tk_monthly_closed_ack_time t;
     tk_monthly_closed_terminal_failed_time := tk_monthly_closed_terminal_failed_time t |}.

Definition with_daily_closed (ack failed : option datetime) (t : SymbolSeriesTracker) :=
  {| tk_daily_open_ack_time := tk_daily_open_ack_time t;
     tk_daily_open_terminal_failed_time := tk_daily_open_terminal_failed_time t;
     tk_daily_live_ack_low := tk_daily_live_ack_low t;
     tk_daily_closed_ack_time := ack; tk_daily_closed_terminal_failed_time := failed;
     tk_weekly_closed_ack_time := tk_weekly_closed_ack_time t;
     tk_weekly_closed_terminal_failed_time := tk_weekly_closed_terminal_failed_time t;
     tk_monthly_closed_ack_time := tk_monthly_closed_ack_time t;
     tk_monthly_closed_terminal_failed_time := tk_monthly_closed_terminal_failed_time t |}.

Definition with_weekly_closed (ack failed : option datetime) (t : SymbolSeriesTracker) :=
  {| tk_daily_open_ack_time := tk_daily_open_ack_time t;
     tk_daily_open_terminal_failed_time := tk_daily_open_terminal_failed_time t;
     tk_daily_live_ack_low := tk_daily_live_ack_low t;
     tk_daily_closed_ack_time := tk_daily_closed_ack_time t;
     tk_daily_closed_terminal_failed_time := tk_daily_closed_terminal_failed_time t;
     tk_weekly_closed_ack_time := ack; tk_weekly_closed_terminal_failed_time := failed;
     tk_monthly_closed_ack_time := tk_monthly_closed_ack_time t;
     tk_monthly_closed_terminal_failed_time := tk_monthly_closed_terminal_failed_time t |}.

Definition with_monthly_closed (ack failed : option datetime) (t : SymbolSeriesTracker) :=
  {| tk_daily_open_ack_time := tk_daily_open_ack_time t;
     tk_daily_open_terminal_failed_time := tk_daily_open_terminal_failed_time t;
     tk_daily_live_ack_low := tk_daily_live_ack_low t;
     tk_daily_closed_ack_time := tk_daily_closed_ack_time t;
     tk_daily_closed_terminal_failed_time := tk_daily_closed_terminal_failed_time t;
     tk_weekly_closed_ack_time := tk_weekly_closed_ack_time t;
     tk_weekly_closed_terminal_failed_time := tk_weekly_closed_terminal_failed_time t;
     tk_monthly_closed_ack_time := ack; tk_monthly_closed_terminal_failed_time := failed |}.

Definition acknowledge_completed (d : MarketEventDetector) (event : MarketEvent) : MarketEventDetector :=
  let open_time := Some (me_candle_open_time event) in
  update_tracker d (me_symbol event) (fun t =>
    match me_event_type event with
    | DAILY_OPEN_AVAILABLE => with_daily_open open_time None (me_observed_low event) t
    | DAILY_LIVE_UPDATE =>
        with_daily_open (tk_daily_open_ack_time t) (tk_daily_open_terminal_failed_time t) (me_observed_low event) t
    | DAILY_CLOSED => with_daily_closed open_time None t
    | WEEKLY_CLOSED => with_weekly_closed open_time None t
    | MONTHLY_CLOSED => with_monthly_closed open_time None t
    end).

(** Set or clear the time of the final failure. *)
Definition set_terminal_failed (d : MarketEventDetector) (event : MarketEvent) (failed : option datetime) (msg : string)
    : res MarketEventDetector :=
  let update f := Ok (update_tracker d (me_symbol event) f) in
  match me_event_type event with
  | DAILY_OPEN_AVAILABLE => update (fun t => with_daily_open (tk_daily_open_ack_time t) failed (tk_daily_live_ack_low t) t)
  | DAILY_CLOSED => update (fun t => with_daily_closed (tk_daily_closed_ack_time t) failed t)
  | WEEKLY_CLOSED => update (fun t => with_weekly_closed (tk_weekly_closed_ack_time t) failed t)
  | MONTHLY_CLOSED => update (fun t => with_monthly_closed (tk_monthly_closed_ack_time t) failed t)
  | DAILY_LIVE_UPDATE => Raise (ValueError msg)
  end.

Definition acknowledge_terminal_failed (d : MarketEventDetector) (event : MarketEvent) : res MarketEventDetector :=
  set_terminal_failed d event (Some (me_candle_open_time event)) "terminal failure ack unsupported for DAILY_LIVE_UPDATE".

Definition clear_terminal_failed (d : MarketEventDetector) (event : MarketEvent) : res MarketEventDetector :=
  set_terminal_failed d event None "terminal failure clear unsupported for DAILY_LIVE_UPDATE".

(** ** Detection *)

Definition candle_event (t : MarketEventType) (candle : NormalizedCandle) (evaluation_time : datetime)
    (low : option decimal) : MarketEvent :=
  {| me_event_type := t; me_symbol := symbol_value (nc_symbol candle); me_candle_open_time := nc_open_time candle;
     me_provider_received_at := evaluation_time; me_observed_low := low |}.

Definition at_time (t : option datetime) (open_time : datetime) : bool := bool_decide (t = Some open_time).

Definition same_low (t : option decimal) (low : decimal) : bool :=
  match t with Some l => Qeq_bool l low | None => false end.

Definition detect_open (tracker : SymbolSeriesTracker) (candle : NormalizedCandle) (evaluation_time : datetime)
    : list MarketEvent :=
  let open_time := nc_open_time candle in
  if negb (nc_is_closed candle) && negb (at_time (tk_daily_open_ack_time tracker) open_time) then
    if negb (at_time (tk_daily_open_terminal_failed_time tracker) open_time) then
      [candle_event DAILY_OPEN_AVAILABLE candle evaluation_time (Some (nc_low candle))]
    else []
  else if at_time (tk_daily_open_ack_time tracker) open_time && negb (nc_is_closed candle) &&
          negb (same_low (tk_daily_live_ack_low tracker) (nc_low candle)) then
    [candle_event DAILY_LIVE_UPDATE candle evaluation_time (Some (nc_low candle))]
  else [].

Definition _detect_daily (evaluation_delay_seconds : Z) (tracker : SymbolSeriesTracker) (candle : NormalizedCandle)
    (evaluation_time : datetime) : list MarketEvent :=
  let open_time := nc_open_time candle in
  let closed := is_candle_closed (nc_close_time candle) evaluation_time && nc_is_closed candle in
  let due := (nc_close_time candle + seconds evaluation_delay_seconds)%Z in
  detect_open tracker candle evaluation_time ++
  (if closed && (due <=? evaluation_time)%Z && negb (at_time (tk_daily_closed_ack_time tracker) open_time) &&
      negb (at_time (tk_daily_closed_terminal_failed_time tracker) open_time)
   then [candle_event DAILY_CLOSED candle evaluation_time None] else []).

Definition _detect_higher_close (ack failed : option datetime) (candle : NormalizedCandle) (evaluation_time : datetime)
    (event_type : MarketEventType) : list MarketEvent :=
  if negb (is_candle_closed (nc_close_time candle) evaluation_time) || negb (nc_is_closed candle) then []
  else if at_time ack (nc_open_time candle) || at_time failed (nc_open_time candle) then []
  else [candle_event event_type candle evaluation_time None].

Definition _detect_symbol (d : MarketEventDetector) (candles : CandleRepository) (evaluation_time : datetime)
    (symbol : string) : res (list MarketEvent) :=
  ms ← market_symbol symbol;
  let tracker := _tracker d symbol in
  let latest tf f := match get_latest candles ms tf with Some candle => f candle | None => [] end in
  Ok (latest DAILY (fun c => _detect_daily (de_evaluation_delay_seconds d) tracker c evaluation_time) ++
      latest WEEKLY (fun c => _detect_higher_close (tk_weekly_closed_ack_time tracker)
                                (tk_weekly_closed_terminal_failed_time tracker) c evaluation_time WEEKLY_CLOSED) ++
      latest MONTHLY (fun c => _detect_higher_close (tk_monthly_closed_ack_time tracker)
                                 (tk_monthly_closed_terminal_failed_time tracker) c evaluation_time MONTHLY_CLOSED)).

Definition detect_candidates (d : MarketEventDetector) (candles : CandleRepository) (evaluation_time : datetime)
    : res (list MarketEvent) :=
  events ← mapM (_detect_symbol d candles evaluation_time) (de_symbols d);
  Ok (concat events).

(** ** Order *)

Definition market_event_le (a b : MarketEvent) : Prop :=
  let key e := (symbol_order (me_symbol e), event_order (event_type_value (me_event_type e)), me_candle_open_time e) in
  let '(sa, ea, ta) := key a in
  let '(sb, eb, tb) := key b in
  sa < sb \/ (sa = sb /\ (ea < eb \/ (ea = eb /\ (ta <= tb)%Z))).

#[export] Instance market_event_le_dec : RelDecision market_event_le.
Proof. intros a b. apply _. Defined.

Definition _sort_market_events (events : list MarketEvent) : list MarketEvent := merge_sort market_event_le events.
