(* ===== verification/PaperBridge.v ===== *)
(** * The market event bridge (services/paper_trading/market_events.py:
    MarketEventBridge; application.py: the committed poll)

    A poll detects the candidates, visits their groups from the rotation
    cursor, turns each event into scheduler jobs whose run it records, and
    reports what to acknowledge after the commit.  The bridge always works
    inside the transaction of the application.  Log lines are left out; the
    describing function of a deferral is only called for one. *)
From Stdlib Require Import ZArith QArith Lia Strings.String.
From stdpp Require Import base list gmap sets strings.
From S2P Require Import Prelude Decimal StrategyModels BtData EventFairness MarketModels MarketRepository.
From S2P Require Import PaperModels PaperSession PaperRuntime PaperRepository PaperScheduler PaperContext PaperEvents.

Local Open Scope string_scope.

(** ** State and results *)

Record RecoveryContext := {
  rx_original_run_id : UUID;
  rx_original_job_name : string;
  rx_recovery_job_name : string;
  rx_recovery_run_id : UUID;
  rx_scheduled_for : datetime;
  rx_generation : nat;
}.

Record EventProcessOutcome := {
  eo_event : MarketEvent;
  eo_job_name : string;
  eo_status : SchedulerRunStatus;
  eo_skipped : bool;
  eo_error : option string;
  eo_deferred : bool;
  eo_retryable : bool;
  eo_terminal_failed : bool;
}.

Record BridgePollResult := {
  bp_outcomes : list EventProcessOutcome;
  bp_events_to_ack : list MarketEvent;
  bp_events_terminal_failed : list MarketEvent;
  bp_deferred_events : bool;
  bp_permanent_failures : list EventProcessOutcome;
}.

Definition no_poll : BridgePollResult :=
  {| bp_outcomes := []; bp_events_to_ack := []; bp_events_terminal_failed := []; bp_deferred_events := false;
     bp_permanent_failures := [] |}.

Record BridgeState := {
  br_scheduler : SchedulerState;
  br_detector : MarketEventDetector;
  br_queue_overflow : bool;
  br_deferred_events : bool;
  br_recovery_pending : list ((string * datetime) * RecoveryContext);
  br_last_loop_error : option string;
}.

Definition with_br_scheduler (ss : SchedulerState) (s : BridgeState) : BridgeState :=
  {| br_scheduler := ss; br_detector := br_detector s; br_queue_overflow := br_queue_overflow s;
     br_deferred_events := br_deferred_events s; br_recovery_pending := br_recovery_pending s;
     br_last_loop_error := br_last_loop_error s |}.

Definition with_detector (d : MarketEventDetector) (s : BridgeState) : BridgeState :=
  {| br_scheduler := br_scheduler s; br_detector := d; br_queue_overflow := br_queue_overflow s;
     br_deferred_events := br_deferred_events s; br_recovery_pending := br_recovery_pending s;
     br_last_loop_error := br_last_loop_error s |}.

Definition with_queue_overflow (b : bool) (s : BridgeState) : BridgeState :=
  {| br_scheduler := br_scheduler s; br_detector := br_detector s; br_queue_overflow := b;
     br_deferred_events := br_deferred_events s; br_recovery_pending := br_recovery_pending s;
     br_last_loop_error := br_last_loop_error s |}.

Definition with_deferred_events (b : bool) (s : BridgeState) : BridgeState :=
  {| br_scheduler := br_scheduler s; br_detector := br_detector s; br_queue_overflow := br_queue_overflow s;
     br_deferred_events := b; br_recovery_pending := br_recovery_pending s; br_last_loop_error := br_last_loop_error s |}.

Definition with_recovery_pending (p : list ((string * datetime) * RecoveryContext)) (s : BridgeState) : BridgeState :=
  {| br_scheduler := br_scheduler s; br_detector := br_detector s; br_queue_overflow := br_queue_overflow s;
     br_deferred_events := br_deferred_events s; br_recovery_pending := p; br_last_loop_error := br_last_loop_error s |}.

Definition with_last_loop_error (e : option string) (s : BridgeState) : BridgeState :=
  {| br_scheduler := br_scheduler s; br_detector := br_detector s; br_queue_overflow := br_queue_overflow s;
     br_deferred_events := br_deferred_events s; br_recovery_pending := br_recovery_pending s; br_last_loop_error := e |}.

#[export] Program Instance bridge_store : HasStore BridgeState :=
  {| store_of s := ss_store (br_scheduler s); put_store db s := with_br_scheduler (with_ss_store db (br_scheduler s)) s |}.
Next Obligation. done. Qed.

Notation bridge := (sx BridgeState).

(** An operation of the scheduler. *)
Definition in_scheduler {A} (m : sched A) : bridge A := fun s =>
  let '(r, ss) := m (br_scheduler s) in (r, with_br_scheduler ss s).

Definition has_event_backlog (s : BridgeState) : bool := br_queue_overflow s || br_deferred_events s.

Definition has_permanent_failures (s : BridgeState) : bool :=
  match list_permanent_configuration_failures (store_of s) with [] => false | _ => true end.

(** The class attribute [code]. *)
Definition exn_code (e : error) : string :=
  match e with
  | RetryableContextNotReady _ => "RETRYABLE_CONTEXT_NOT_READY"
  | PermanentConfigurationFailure _ code => code
  | FillNotDue => "FILL_NOT_DUE"
  | DailyEvaluationNotDue => "DAILY_EVALUATION_NOT_DUE"
  | RetryableSchedulerDeferred _ => "RETRYABLE_SCHEDULER_DEFERRED"
  | _ => ""
  end.

Definition DEFAULT_MAX_EVENTS_PER_POLL : nat := 256.

Section Bridge.
Variable world : World.
Variable config : PaperTradingConfig.
Variable builder : ContextBuilder.
Variable candles : CandleRepository.
Variable max_events_per_poll : nat.

Definition clock_now : bridge datetime := in_scheduler (now world).

(** ** Runs of the events *)

Definition find_run (job_name : string) (scheduled_for : datetime) : bridge (option SchedulerRun) :=
  reads (fun db => get_scheduler_run db job_name scheduled_for).

Definition _ensure_scheduler_run (job_name : string) (scheduled_for : datetime) : bridge (SchedulerRun * bool) :=
  started ← clock_now;
  run_id ← in_scheduler (consult (wo_uuid world));
  writes (insert_run run_id job_name scheduled_for started).

Definition _complete_market_event (job_name : string) (scheduled_for : datetime) (status : SchedulerRunStatus)
    (error : option string) : bridge unit :=
  completed_at ← clock_now;
  _ ← writes (fun db => complete_scheduler_run db job_name scheduled_for status completed_at error);
  mret tt.

Definition _release_uncommitted_scheduler_run (job_name : string) (scheduled_for : datetime) (error : error) : bridge unit :=
  existing ← find_run job_name scheduled_for;
  match existing with
  | None => mret tt
  | Some run =>
      match sr_recovery_of_run_id run with
      | Some _ =>
          completed_at ← clock_now;
          _ ← writes (fun db => complete_scheduler_run db job_name scheduled_for SR_SKIPPED completed_at
                                  (Some (exn_code error)));
          mret tt
      | None =>
          _ ← writes (fun db => delete_scheduler_run_if_running db job_name scheduled_for);
          mret tt
      end
  end.

Definition _reactivate_recovery_attempt (recovery_job : string) (scheduled_for : datetime) : bridge unit :=
  existing ← find_run recovery_job scheduled_for;
  match existing with
  | None => _ ← _ensure_scheduler_run recovery_job scheduled_for; mret tt
  | Some run =>
      if bool_decide (sr_status run = SR_SKIPPED) && is_retryable_market_event_error (sr_error run) then
        started_at ← clock_now;
        writes (fun db => Ok (tt, reactivate_scheduler_run db recovery_job scheduled_for started_at))
      else if negb (bool_decide (sr_status run = SR_RUNNING)) then
        _ ← _ensure_scheduler_run recovery_job scheduled_for; mret tt
      else mret tt
  end.

Definition is_completed_run (run : option SchedulerRun) : bool :=
  match run with Some r => bool_decide (sr_status r = SR_COMPLETED) | None => false end.

Definition _fail_daily_open_parent (parent_job : string) (scheduled_for : datetime) (error : string) : bridge unit :=
  existing ← find_run parent_job scheduled_for;
  if is_completed_run existing then mret tt
  else
    _ ← match existing with
        | None => _ ← _ensure_scheduler_run parent_job scheduled_for; mret tt
        | Some _ => mret tt
        end;
    _complete_market_event parent_job scheduled_for SR_FAILED (Some error).

Definition _ensure_parent_run_completed (job_name : string) (scheduled_for : datetime) : bridge unit :=
  existing ← find_run job_name scheduled_for;
  if is_completed_run existing then mret tt
  else
    _ ← match existing with
        | None => _ ← _ensure_scheduler_run job_name scheduled_for; mret tt
        | Some _ => mret tt
        end;
    _complete_market_event job_name scheduled_for SR_COMPLETED None.

Definition _daily_open_terminal_complete (symbol : string) (scheduled_for : datetime) : bridge bool :=
  gap ← find_run (daily_open_gap_job_name symbol scheduled_for) scheduled_for;
  fill ← find_run (daily_open_fill_job_name symbol scheduled_for) scheduled_for;
  snap ← find_run (daily_open_snapshot_job_name symbol scheduled_for) scheduled_for;
  mret (is_completed_run gap && is_completed_run fill && is_completed_run snap).

(** ** Outcomes *)

Definition outcome (event : MarketEvent) (job_name : string) (status : SchedulerRunStatus) (skipped : bool)
    (error : option string) : EventProcessOutcome :=
  {| eo_event := event; eo_job_name := job_name; eo_status := status; eo_skipped := skipped; eo_error := error;
     eo_deferred := false; eo_retryable := false; eo_terminal_failed := false |}.

(** Failed for good. *)
Definition terminal_outcome (event : MarketEvent) (job_name : string) (skipped : bool) (error : option string)
    : EventProcessOutcome :=
  {| eo_event := event; eo_job_name := job_name; eo_status := SR_FAILED; eo_skipped := skipped; eo_error := error;
     eo_deferred := false; eo_retryable := false; eo_terminal_failed := true |}.

Definition _terminal_failed_outcome (event : MarketEvent) (job_name : string) (error : option string) :=
  terminal_outcome event job_name true error.

(** The callers do not defer. *)
Definition _persisted_outcome (event : MarketEvent) (job_name : string) (scheduled_for : datetime) (skipped : bool)
    : bridge EventProcessOutcome :=
  run ← find_run job_name scheduled_for;
  match run with
  | None => raise (Base (RuntimeError ("scheduler run missing after processing: " ++ job_name)))
  | Some run => mret (outcome event job_name (sr_status run) skipped (sr_error run))
  end.

Definition _deferred_outcome (event : MarketEvent) (error : error) (release_job_name : option string)
    : bridge EventProcessOutcome :=
  job_name ← from_res (market_event_job_name world event);
  _ ← _release_uncommitted_scheduler_run (default job_name release_job_name) (me_scheduled_for event) error;
  mret {| eo_event := event; eo_job_name := job_name; eo_status := SR_SKIPPED; eo_skipped := true;
          eo_error := Some (exn_code error); eo_deferred := true; eo_retryable := true; eo_terminal_failed := false |}.

Definition _mark_permanent_failure (event : MarketEvent) (job_name : string) (scheduled_for : datetime) (exc : error)
    : bridge EventProcessOutcome :=
  _ ← _complete_market_event job_name scheduled_for SR_FAILED (Some (exn_code exc));
  mret (terminal_outcome event job_name false (Some (exn_code exc))).

Definition _should_ack (o : EventProcessOutcome) : bool :=
  bool_decide (eo_status o = SR_COMPLETED) && negb (eo_deferred o) && negb (eo_retryable o).

(** ** Recovery of a permanent failure *)

Definition _active_recovery_context (job_name : string) (scheduled_for : datetime) : bridge (option RecoveryContext) :=
  pending ← gets (fun s => od_get (br_recovery_pending s) (job_name, scheduled_for));
  match pending with
  | Some context => mret (Some context)
  | None =>
      existing ← find_run job_name scheduled_for;
      match existing with
      | None => mret None
      | Some run =>
          attempt ← reads (fun db => Ok (get_active_recovery_attempt db (sr_run_id run)));
          match attempt with
          | None => mret None
          | Some attempt =>
              generation ← reads (fun db => Ok (count_recovery_attempts db (sr_run_id run)));
              let context :=
                {| rx_original_run_id := sr_run_id run; rx_original_job_name := job_name;
                   rx_recovery_job_name := sr_job_name attempt; rx_recovery_run_id := sr_run_id attempt;
                   rx_scheduled_for := scheduled_for; rx_generation := generation |} in
              _ ← modify (fun s => with_recovery_pending
                                     (od_set (br_recovery_pending s) (job_name, scheduled_for) context) s);
              mret (Some context)
          end
      end
  end.

Definition pop_recovery (job_name : string) (scheduled_for : datetime) : bridge unit :=
  modify (fun s => with_recovery_pending (od_del (br_recovery_pending s) (job_name, scheduled_for)) s).

(** A run that failed for good and was not recovered. *)
Definition is_permanent_failure (run : SchedulerRun) : bool :=
  bool_decide (sr_status run = SR_FAILED) && is_permanent_configuration_error (sr_error run) &&
  bool_decide (sr_resolved_by_run_id run = None).

Definition _maybe_short_circuit_permanent_failure (event : MarketEvent) (job_name : string) (scheduled_for : datetime)
    : bridge (option EventProcessOutcome) :=
  existing ← find_run job_name scheduled_for;
  match existing with
  | None => mret None
  | Some run =>
      if negb (is_permanent_failure run) then mret None
      else
        recovery ← _active_recovery_context job_name scheduled_for;
        match recovery with
        | Some _ => mret None
        | None => mret (Some (_terminal_failed_outcome event job_name (sr_error run)))
        end
  end.

Definition recover_permanent_configuration (event : MarketEvent) : bridge unit :=
  held ← gets (fun s => ss_lock_held (br_scheduler s));
  if negb held then raise (Base (RuntimeError "advisory lock required for permanent failure recovery"))
  else
    job_name ← from_res (market_event_job_name world event);
    let scheduled_for := me_scheduled_for event in
    existing ← find_run job_name scheduled_for;
    match existing with
    | None => raise (Base (ValueError ("no recoverable permanent failure for " ++ job_name)))
    | Some run =>
        if negb (bool_decide (sr_status run = SR_FAILED)) then
          raise (Base (ValueError ("no recoverable permanent failure for " ++ job_name)))
        else if negb (is_permanent_configuration_error (sr_error run)) then
          raise (Base (ValueError ("scheduler run is not a permanent configuration failure: " ++ job_name)))
        else if negb (bool_decide (sr_resolved_by_run_id run = None)) then
          raise (Base (ValueError ("permanent failure already recovered for " ++ job_name)))
        else
          _ ← from_result (validate_symbol_configuration builder (me_symbol event));
          detector ← gets br_detector;
          detector ← from_res (clear_terminal_failed detector event);
          _ ← modify (with_detector detector);
          attempts ← reads (fun db => Ok (count_recovery_attempts db (sr_run_id run)));
          let generation := S attempts in
          recovery_job_name ← from_res (market_event_recovery_job_name event generation);
          started_at ← clock_now;
          run_id ← in_scheduler (consult (wo_uuid world));
          '(attempt, _) ← writes (fun db => create_recovery_attempt db run_id run recovery_job_name started_at);
          modify (fun s => with_recovery_pending
            (od_set (br_recovery_pending s) (job_name, scheduled_for)
               {| rx_original_run_id := sr_run_id run; rx_original_job_name := job_name;
                  rx_recovery_job_name := recovery_job_name; rx_recovery_run_id := sr_run_id attempt;
                  rx_scheduled_for := scheduled_for; rx_generation := generation |}) s)
    end.

(** ** Handlers *)

Definition _latest_daily (symbol : string) : res (option NormalizedCandle) :=
  ms ← market_symbol symbol;
  Ok (get_latest candles ms DAILY).

(** The latest daily candle, when it is the one of the event. *)
Definition event_candle (event : MarketEvent) (msg : string) : result NormalizedCandle :=
  candle ← lift (_latest_daily (me_symbol event));
  match candle with
  | None => Failed (RetryableContextNotReady msg)
  | Some candle =>
      if negb (nc_open_time candle =? me_candle_open_time event)%Z then Failed (RetryableContextNotReady msg) else Done candle
  end.

Definition _fill_phase_due (scheduled_for : datetime) : bridge bool :=
  let due := (scheduled_for + seconds (pc_fill_delay_seconds config))%Z in
  t ← clock_now;
  mret (due <=? t)%Z.

Definition _run_open_subjob (job_name : string) (scheduled_for : datetime) (runner : sched (list JobRunOutcome))
    : bridge unit :=
  existing ← find_run job_name scheduled_for;
  if is_completed_run existing then mret tt
  else
    _ ← _ensure_scheduler_run job_name scheduled_for;
    try_except
      (outcomes ← in_scheduler runner;
       _ ← from_result (require_successful_jobs outcomes);
       if negb (forallb is_terminal_job_success outcomes) then
         raise (RetryableSchedulerDeferred "scheduler_subjob_not_completed")
       else _complete_market_event job_name scheduled_for SR_COMPLETED None)
      (fun exc =>
       match exc with
       | RetryableSchedulerDeferred _ =>
           _ ← _release_uncommitted_scheduler_run job_name scheduled_for exc;
           raise exc
       | DailyOpenSequenceFailure _ _ => raise exc
       | _ => raise (DailyOpenSequenceFailure job_name (str_exn world exc))
       end).

Definition _handle_daily_open (event : MarketEvent) : bridge unit :=
  candle ← from_result (event_candle event "daily open candle missing at processing time");
  '(fill_contexts, stop_context) ← from_result (build_open_contexts builder candles (me_symbol event) candle);
  _ ← in_scheduler (modify (register_fill_contexts fill_contexts));
  _ ← in_scheduler (modify (register_stop_context stop_context));
  let scheduled_for := me_candle_open_time event in
  let symbol := me_symbol event in
  _ ← transaction (_run_open_subjob (daily_open_gap_job_name symbol scheduled_for) scheduled_for
        (run_daily_open_gap_stop world config true scheduled_for None));
  due ← _fill_phase_due scheduled_for;
  if negb due then raise FillNotDue
  else
    transaction
      (_ ← _run_open_subjob (daily_open_fill_job_name symbol scheduled_for) scheduled_for
             (run_daily_open_fill world config true scheduled_for None);
       _run_open_subjob (daily_open_snapshot_job_name symbol scheduled_for) scheduled_for
         (run_daily_open_snapshot world config true scheduled_for None)).

(** [candle.model_copy(update={"low": low})]. *)
Definition with_low (c : NormalizedCandle) (low : decimal) : NormalizedCandle :=
  {| nc_symbol := nc_symbol c; nc_timeframe := nc_timeframe c; nc_open_time := nc_open_time c;
     nc_close_time := nc_close_time c; nc_open := nc_open c; nc_high := nc_high c; nc_low := low;
     nc_close := nc_close c; nc_volume := nc_volume c; nc_is_closed := nc_is_closed c |}.

Definition observed_candle (event : MarketEvent) (candle : NormalizedCandle) : NormalizedCandle :=
  match me_observed_low event with
  | Some low => if Qeq_bool (nc_low candle) low then candle else with_low candle low
  | None => candle
  end.

Definition _handle_daily_live (event : MarketEvent) : bridge unit :=
  candle ← from_result (event_candle event "daily live candle missing at processing time");
  stop_context ← from_result (build_intraday_stop_context builder (me_symbol event) (observed_candle event candle));
  _ ← in_scheduler (modify (register_stop_context stop_context));
  o ← in_scheduler (run_job world config true (job_value INTRADAY_STOP_PROCESSING) (me_candle_open_time event) None);
  if bool_decide (jo_status o = SR_FAILED) then
    raise (Base (RuntimeError (error_or (jo_error o) "intraday stop processing failed")))
  else from_result (require_successful_jobs [o]).

Definition _handle_daily_closed (event : MarketEvent) : bridge unit :=
  candle ← from_result (event_candle event "daily closed candle missing at processing time");
  let due := (nc_close_time candle + seconds (pc_evaluation_delay_seconds config))%Z in
  t ← clock_now;
  if (t <? due)%Z then raise DailyEvaluationNotDue
  else
    eval_context ← in_scheduler (build_evaluation_context world builder candles (me_symbol event) due);
    stop_context ← in_scheduler (build_stop_context_for_close builder candles (me_symbol event) due);
    _ ← in_scheduler (modify (register_evaluation_context eval_context));
    _ ← in_scheduler (modify (register_stop_context stop_context));
    outcomes ← in_scheduler (run_daily_close_sequence world config true (nc_close_time candle) None);
    from_result (require_successful_jobs outcomes).

(** ** One event *)

Definition _complete_marker_event (event : MarketEvent) (job_name : string) (scheduled_for : datetime)
    : bridge EventProcessOutcome :=
  existing ← find_run job_name scheduled_for;
  if is_completed_run existing then mret (outcome event job_name SR_COMPLETED true None)
  else
    '(run, created) ← _ensure_scheduler_run job_name scheduled_for;
    if negb created && bool_decide (sr_status run = SR_COMPLETED) then mret (outcome event job_name SR_COMPLETED true None)
    else
      _ ← _complete_market_event job_name scheduled_for SR_COMPLETED None;
      _persisted_outcome event job_name scheduled_for (negb created).

Definition _persist_daily_open_failure_audit (parent_job : string) (scheduled_for : datetime)
    (subjob_name message : string) : bridge unit :=
  _ ← _fail_daily_open_parent parent_job scheduled_for message;
  if bool_decide (subjob_name = parent_job) then mret tt
  else
    existing ← find_run subjob_name scheduled_for;
    _ ← match existing with
        | None => _ ← _ensure_scheduler_run subjob_name scheduled_for; mret tt
        | Some _ => mret tt
        end;
    _complete_market_event subjob_name scheduled_for SR_FAILED (Some message).

Definition _process_daily_open_recovery (event : MarketEvent) (recovery : RecoveryContext) : bridge EventProcessOutcome :=
  let scheduled_for := rx_scheduled_for recovery in
  let recovery_job := rx_recovery_job_name recovery in
  let parent_job := rx_original_job_name recovery in
  let failed error o :=
    _ ← _complete_market_event recovery_job scheduled_for SR_FAILED (Some error);
    _ ← pop_recovery parent_job scheduled_for;
    mret o in
  _ ← _reactivate_recovery_attempt recovery_job scheduled_for;
  try_except
    (_ ← _handle_daily_open event;
     _ ← _complete_market_event recovery_job scheduled_for SR_COMPLETED None;
     _ ← writes (fun db => db ← mark_run_resolved db (rx_original_run_id recovery) (rx_recovery_run_id recovery); Ok (tt, db));
     _ ← pop_recovery parent_job scheduled_for;
     mret (outcome event parent_job SR_COMPLETED false None))
    (fun exc =>
     match exc with
     | FillNotDue | RetryableContextNotReady _ | RetryableSchedulerDeferred _ =>
         _deferred_outcome event exc (Some recovery_job)
     | PermanentConfigurationFailure _ code =>
         failed code (terminal_outcome event parent_job false (Some code))
     | DailyOpenSequenceFailure _ message => failed message (outcome event parent_job SR_FAILED false (Some message))
     | _ => failed (str_exn world exc) (outcome event parent_job SR_FAILED false (Some (str_exn world exc)))
     end).

Definition _process_daily_open (event : MarketEvent) : bridge EventProcessOutcome :=
  let scheduled_for := me_scheduled_for event in
  parent_job ← from_res (market_event_job_name world event);
  short_circuit ← _maybe_short_circuit_permanent_failure event parent_job scheduled_for;
  match short_circuit with
  | Some o => mret o
  | None =>
      recovery ← _active_recovery_context parent_job scheduled_for;
      match recovery with
      | Some recovery => _process_daily_open_recovery event recovery
      | None =>
          complete ← _daily_open_terminal_complete (me_symbol event) scheduled_for;
          if (complete : bool) then
            _ ← _ensure_parent_run_completed parent_job scheduled_for;
            _persisted_outcome event parent_job scheduled_for true
          else
            _ ← _ensure_scheduler_run parent_job scheduled_for;
            try_except
              (_ ← _handle_daily_open event;
               _ ← _complete_market_event parent_job scheduled_for SR_COMPLETED None;
               _persisted_outcome event parent_job scheduled_for false)
              (fun exc =>
               match exc with
               | FillNotDue | RetryableContextNotReady _ | RetryableSchedulerDeferred _ => _deferred_outcome event exc None
               | PermanentConfigurationFailure _ _ => _mark_permanent_failure event parent_job scheduled_for exc
               | DailyOpenSequenceFailure subjob_name message =>
                   _ ← _persist_daily_open_failure_audit parent_job scheduled_for subjob_name message;
                   _persisted_outcome event parent_job scheduled_for false
               | _ =>
                   _ ← _persist_daily_open_failure_audit parent_job scheduled_for parent_job (str_exn world exc);
                   _persisted_outcome event parent_job scheduled_for false
               end)
      end
  end.

(** The handler of a daily event and the end of its run. *)
Definition process_daily (event : MarketEvent) (job_name : string) (scheduled_for : datetime) (handler : bridge unit)
    : bridge EventProcessOutcome :=
  try_except
    (_ ← handler;
     _ ← _complete_market_event job_name scheduled_for SR_COMPLETED None;
     _persisted_outcome event job_name scheduled_for false)
    (fun exc =>
     match exc with
     | RetryableContextNotReady _ | RetryableSchedulerDeferred _ | DailyEvaluationNotDue => _deferred_outcome event exc None
     | PermanentConfigurationFailure _ _ => _mark_permanent_failure event job_name scheduled_for exc
     | _ =>
         _ ← _complete_market_event job_name scheduled_for SR_FAILED (Some (str_exn world exc));
         _persisted_outcome event job_name scheduled_for false
     end).

Definition _process_event (event : MarketEvent) : bridge EventProcessOutcome :=
  job_name ← from_res (market_event_job_name world event);
  let scheduled_for := me_scheduled_for event in
  if bool_decide (me_event_type event = DAILY_OPEN_AVAILABLE) then _process_daily_open event
  else
    short_circuit ← _maybe_short_circuit_permanent_failure event job_name scheduled_for;
    match short_circuit with
    | Some o => mret o
    | None =>
        existing ← find_run job_name scheduled_for;
        if is_completed_run existing then mret (outcome event job_name SR_COMPLETED true None)
        else match me_event_type event with
        | WEEKLY_CLOSED | MONTHLY_CLOSED => _complete_marker_event event job_name scheduled_for
        | t =>
            '(run, created) ← _ensure_scheduler_run job_name scheduled_for;
            if negb created && bool_decide (sr_status run = SR_COMPLETED) then
              mret (outcome event job_name SR_COMPLETED true None)
            else
              process_daily event job_name scheduled_for
                match t with
                | DAILY_LIVE_UPDATE => _handle_daily_live event
                | DAILY_CLOSED => _handle_daily_closed event
                | _ => raise (Base (ValueError "unsupported event"))
                end
        end
    end.

(** ** The poll *)

Definition _clear_group_fairness_state (group_key : string) : bridge unit :=
  writes (fun db => Ok (tt, delete_market_event_group_state db group_key)).

(** The states of the groups are a copy that the poll updates. *)
Definition _record_group_deferred (event : MarketEvent) (group_key : string) (evaluation_time : datetime)
    (group_states : list (string * MarketEventGroupState)) : bridge (list (string * MarketEventGroupState)) :=
  let existing := od_get group_states group_key in
  let defer_count := match existing with Some state => (gs_defer_count state + 1)%Z | None => 1%Z end in
  let state :=
    {| gs_group_key := group_key; gs_event_type := event_type_value (me_event_type event);
       gs_group_time := me_candle_open_time event; gs_next_attempt_at := next_retry_at evaluation_time defer_count;
       gs_defer_count := defer_count |} in
  _ ← writes (fun db => Ok (tt, upsert_market_event_group_deferred db state));
  mret (od_set group_states group_key state).

(** The local variables of the loop. *)
Record PollProgress := {
  pg_outcomes : list EventProcessOutcome;
  pg_events_to_ack : list MarketEvent;
  pg_events_terminal_failed : list MarketEvent;
  pg_permanent_failures : list EventProcessOutcome;
  pg_processed_count : nat;
  pg_had_deferred : bool;
  pg_groups_rotated : Z;
  pg_group_states : list (string * MarketEventGroupState);
}.

Definition start_progress (group_states : list (string * MarketEventGroupState)) : PollProgress :=
  {| pg_outcomes := []; pg_events_to_ack := []; pg_events_terminal_failed := []; pg_permanent_failures := [];
     pg_processed_count := 0; pg_had_deferred := false; pg_groups_rotated := 0; pg_group_states := group_states |}.

Definition rotate_group (p : PollProgress) : PollProgress :=
  {| pg_outcomes := pg_outcomes p; pg_events_to_ack := pg_events_to_ack p;
     pg_events_terminal_failed := pg_events_terminal_failed p; pg_permanent_failures := pg_permanent_failures p;
     pg_processed_count := pg_processed_count p; pg_had_deferred := pg_had_deferred p;
     pg_groups_rotated := (pg_groups_rotated p + 1)%Z; pg_group_states := pg_group_states p |}.

Definition is_deferred (o : EventProcessOutcome) : bool := eo_deferred o || eo_retryable o.

Definition is_permanent (o : EventProcessOutcome) : bool :=
  negb (is_deferred o) && bool_decide (eo_status o = SR_FAILED) && negb (eo_deferred o).

Definition add_when {A} (b : bool) (l : list A) (x : A) : list A := if b then l ++ [x] else l.

(** The bookkeeping of one outcome. *)
Definition note_outcome (p : PollProgress) (event : MarketEvent) (o : EventProcessOutcome)
    (group_states : list (string * MarketEventGroupState)) : PollProgress :=
  {| pg_outcomes := pg_outcomes p ++ [o];
     pg_events_to_ack := add_when (_should_ack o) (pg_events_to_ack p) event;
     pg_events_terminal_failed := add_when (eo_terminal_failed o) (pg_events_terminal_failed p) event;
     pg_permanent_failures := add_when (is_permanent o) (pg_permanent_failures p) o;
     pg_processed_count := S (pg_processed_count p);
     pg_had_deferred := pg_had_deferred p || is_deferred o;
     pg_groups_rotated := pg_groups_rotated p;
     pg_group_states := group_states |}.

(** One event of a group; the flag says that the group is blocked. *)
Definition poll_event (evaluation_time : datetime) (group_key : string) (acc : PollProgress * bool)
    (event : MarketEvent) : bridge (PollProgress * bool) :=
  let '(p, group_blocked) := acc in
  if (max_events_per_poll <=? pg_processed_count p)%nat || group_blocked then mret (p, group_blocked)
  else
    o ← _process_event event;
    _ ← (if eo_terminal_failed o then _clear_group_fairness_state group_key else mret tt);
    if is_deferred o then
      _ ← modify (with_deferred_events true);
      group_states ← _record_group_deferred event group_key evaluation_time (pg_group_states p);
      mret (note_outcome p event o group_states, true)
    else
      _ ← (if (bool_decide (eo_status o = SR_FAILED) || bool_decide (eo_status o = SR_COMPLETED)) && negb (eo_deferred o)
           then _clear_group_fairness_state group_key else mret tt);
      mret (note_outcome p event o (pg_group_states p), false).

Definition poll_group (evaluation_time : datetime) (grouped : list (string * list MarketEvent)) (p : PollProgress)
    (group_key : string) : bridge PollProgress :=
  if (max_events_per_poll <=? pg_processed_count p)%nat then mret p
  else
    events ← from_res (or_raise (KeyError group_key) (od_get grouped group_key));
    '(p, _) ← foldS (poll_event evaluation_time group_key) events (rotate_group p, false);
    mret p.

(** [keys[(start + offset) % n] for offset in range(n)]. *)
Definition rotated {A} (start : nat) (keys : list A) : list A := drop start keys ++ take start keys.

Definition poll_groups (evaluation_time : datetime) (candidates : list MarketEvent) : bridge PollProgress :=
  let grouped := group_events candidates in
  group_states ← reads (fun db => Ok (list_market_event_group_states db));
  let eligible_keys := eligible_group_keys (ordered_group_keys grouped) evaluation_time group_states in
  rotation_cursor ← reads (fun db => Ok (get_fairness_group_rotation_cursor db));
  _ ← modify (with_queue_overflow (max_events_per_poll <? length candidates)%nat);
  let n := Z.of_nat (length eligible_keys) in
  p ← foldS (poll_group evaluation_time grouped) (rotated (Z.to_nat (rotation_cursor mod n)) eligible_keys)
        (start_progress group_states);
  let new_cursor := advance_group_rotation_cursor rotation_cursor n (pg_groups_rotated p) (pg_had_deferred p) in
  _ ← writes (fun db => Ok (tt, set_fairness_group_rotation_cursor db new_cursor));
  mret p.

Definition process_after_poll (evaluation_time : datetime) : bridge BridgePollResult :=
  _ ← modify (with_deferred_events false);
  ready ← in_scheduler (market_data_ready world);
  held ← gets (fun s => ss_lock_held (br_scheduler s));
  if negb ready || negb held then mret no_poll
  else
    healthy ← in_scheduler (consult (wo_session_healthy world));
    if negb healthy then mret no_poll
    else
      detector ← gets br_detector;
      candidates ← from_res (detect_candidates detector candles evaluation_time);
      p ← poll_groups evaluation_time (_sort_market_events candidates);
      deferred ← gets br_deferred_events;
      mret {| bp_outcomes := pg_outcomes p; bp_events_to_ack := pg_events_to_ack p;
              bp_events_terminal_failed := pg_events_terminal_failed p; bp_deferred_events := deferred;
              bp_permanent_failures := pg_permanent_failures p |}.

(** ** After the commit *)

Definition acknowledge_committed (events : list MarketEvent) : bridge unit :=
  modify (fun s => with_detector (fold_left acknowledge_completed events (br_detector s)) s).

Definition acknowledge_terminal_failed_committed (events : list MarketEvent) : bridge unit :=
  foldS (fun _ event =>
    detector ← gets br_detector;
    detector ← from_res (acknowledge_terminal_failed detector event);
    modify (with_detector detector)) events tt.

(** The error of the last event that failed, then the first permanent one. *)
Definition loop_error (result : BridgePollResult) (last_error : option string) : option string :=
  let e := fold_left (fun e o => if negb (is_deferred o) && bool_decide (eo_status o = SR_FAILED) then eo_error o else e)
             (bp_outcomes result) last_error in
  match bp_permanent_failures result with
  | [] => e
  | o :: _ => eo_error o
  end.

(** The poll and the commit of its transaction, which may fail. *)
Definition committed_poll (evaluation_time : datetime) : bridge BridgePollResult :=
  transaction
    (result ← process_after_poll evaluation_time;
     _ ← modify (fun s => with_last_loop_error (loop_error result (br_last_loop_error s)) s);
     committed ← in_scheduler (consult (wo_commit world));
     if negb committed then raise (Base (RuntimeError "commit")) else mret result).

Definition _process_committed_market_event_poll (evaluation_time : datetime) : bridge unit :=
  result ← committed_poll evaluation_time;
  _ ← acknowledge_committed (bp_events_to_ack result);
  acknowledge_terminal_failed_committed (bp_events_terminal_failed result).
End Bridge.
