(* ===== verification/PaperRecovery.v ===== *)
(** * Startup recovery (services/paper_trading/recovery.py, state_verification.py)

    The consistency checks over the database, the controlled repairs and the
    recovery of the runtime.  A check returns the issues it appends; reading a
    row that its domain record rejects raises.  The advisory lock, the schema
    version and the clock are arguments. *)
From Stdlib Require Import ZArith QArith Lia Strings.String.
From stdpp Require Import base list gmap sets strings pretty.
From S2P Require Import Prelude Decimal StrategyModels BtData.
From S2P Require Import PaperModels Transitions PaperRuntime PaperRepository PaperAccounting.

(** ** Data *)

Inductive IssueSeverity := AUTO_REPAIRABLE | MANUAL | FATAL.
#[export] Instance IssueSeverity_eq_dec : EqDecision IssueSeverity.
Proof. solve_decision. Defined.

Record ConsistencyIssue := {
  ci_code : string;
  ci_severity : IssueSeverity;
  ci_message : string;
  ci_details : list (string * json);
}.

Record RecoveryResult := {
  rr_success : bool;
  rr_final_status : RuntimeStatus;
  rr_issues : list ConsistencyIssue;
  rr_repairs_applied : list string;
  rr_entry_readiness : bool;
}.

Definition issue (code : string) (severity : IssueSeverity) (message : string) (details : list (string * json))
    : ConsistencyIssue :=
  {| ci_code := code; ci_severity := severity; ci_message := message; ci_details := details |}.

Definition when {A} (b : bool) (a : A) : list A := if b then [a] else [].

(** ** Consistency checks *)

Definition _check_orphan_scheduler_runs (s : PaperStore) : list ConsistencyIssue :=
  (fun run => issue "orphan_scheduler_run" AUTO_REPAIRABLE "Scheduler run stuck in RUNNING"
     [("run_id", JStr (sr_run_id run)); ("job_name", JStr (sr_job_name run))]%string) <$> get_running_scheduler_runs s.

Definition _check_stale_heartbeat (config : PaperTradingConfig) (now : datetime) (s : PaperStore) : list ConsistencyIssue :=
  match db_runtime s with
  | None => []
  | Some runtime =>
      let age := (now - rs_heartbeat_at runtime)%Z in
      when (seconds (pc_stale_runtime_threshold_seconds config) <? age)%Z
        (issue "stale_runtime_heartbeat" AUTO_REPAIRABLE "Runtime heartbeat is stale"
           [("age_seconds", JInt (age / 1000000))]%string)
  end.

Definition _check_multiple_open_positions (s : PaperStore) : list ConsistencyIssue :=
  (fun sc => issue "multiple_open_positions" FATAL ("Multiple open positions for " +:+ sc.1)
     [("symbol", JStr sc.1); ("count", JInt sc.2)]%string) <$>
  List.filter (fun sc => (1 <? sc.2)%Z) (count_open_positions_by_symbol s).

Definition _fill_economic_chain_consistent_for_order (s : PaperStore) (order_id : UUID) : res bool :=
  fills ← get_fills_for_order s order_id;
  match fills with
  | [] => Ok false
  | fill :: _ =>
      if negb (bool_decide (fi_fill_kind fill = FK_ENTRY)) then Ok false
      else match get_by or_paper_order_id (db_orders s) order_id with
      | None => Ok false
      | Some order =>
          position ← get_open_position_for_symbol s (fi_symbol fill);
          match position with
          | None => Ok false
          | Some position =>
              if negb (bool_decide (pp_entry_intent_id position = or_intent_id order)) then Ok false
              else if negb (pp_quantity position =ᵈ fi_quantity fill) then Ok false
              else if negb (pp_average_entry_price position =ᵈ fi_fill_price fill) then Ok false
              else
                wallet ← get_wallet s;
                Ok (match wallet with Some _ => true | None => false end)
          end
      end
  end.

Definition _fill_economic_chain_consistent_for_intent (s : PaperStore) (intent_id : UUID) : res bool :=
  order ← get_order_for_intent s intent_id;
  match order with
  | None => Ok false
  | Some order => _fill_economic_chain_consistent_for_order s (or_paper_order_id order)
  end.

Definition is_terminal (st : TradeIntentStatus) : bool := bool_decide (st ∈ TERMINAL_INTENT_STATUSES).

Definition intent_detail (intent : TradeIntent) : list (string * json) := [("intent_id", JStr (ti_intent_id intent))]%string.
Definition order_detail (order : PaperOrder) : list (string * json) := [("paper_order_id", JStr (or_paper_order_id order))]%string.

(** One intent of [_check_intent_order_fill_chain]. *)
Definition check_intent_chain (s : PaperStore) (intent : TradeIntent) : res (list ConsistencyIssue) :=
  order ← get_order_for_intent s (ti_intent_id intent);
  fills ← match order with
          | Some o => get_fills_for_order s (or_paper_order_id o)
          | None => Ok []
          end;
  let has_fills := match fills with [] => false | _ => true end in
  i1 ← if bool_decide (ti_status intent = IS_FILLED) && negb has_fills then
         Ok [issue "filled_intent_without_fill" MANUAL "FILLED intent has no fill row" (intent_detail intent)]
       else if has_fills && negb (is_terminal (ti_status intent)) then
         ok ← _fill_economic_chain_consistent_for_intent s (ti_intent_id intent);
         Ok [if (ok : bool) then
               issue "filled_intent_without_status" AUTO_REPAIRABLE "Fill exists but intent not terminal" (intent_detail intent)
             else issue "fill_without_economic_chain" FATAL "Fill exists without consistent position/wallet chain"
                    (intent_detail intent)]
       else Ok [];
  i2 ← match order with
       | Some o =>
           if bool_decide (or_status o = PO_OPEN) && has_fills then
             ok ← _fill_economic_chain_consistent_for_order s (or_paper_order_id o);
             Ok [if (ok : bool) then
                   issue "open_order_with_fill" AUTO_REPAIRABLE "OPEN order has fill rows"
                     (order_detail o ++ [("remaining_quantity", JDec 0%Q)]%string)
                 else issue "fill_without_economic_chain" FATAL "OPEN order fill lacks economic chain consistency"
                        (order_detail o)]
           else Ok []
       | None => Ok []
       end;
  let i3 := when (is_terminal (ti_status intent) && negb (bool_decide (ti_status intent = IS_FILLED)) &&
                  bool_decide (order = None) &&
                  negb (bool_decide (ti_status intent ∈ [IS_REJECTED; IS_CANCELLED])))
              (issue "terminal_intent_without_order" MANUAL "Terminal intent missing order" (intent_detail intent)) in
  Ok (i1 ++ i2 ++ i3).

Definition _check_intent_order_fill_chain (s : PaperStore) : res (list ConsistencyIssue) :=
  issues ← mapM (check_intent_chain s) (list_all_intents s);
  Ok (concat issues).

Definition position_detail (position : PaperPosition) : list (string * json) :=
  [("position_id", JStr (pp_position_id position))]%string.
Definition fill_detail (fill : PaperFill) : list (string * json) := [("fill_id", JStr (fi_fill_id fill))]%string.

(** One position of [_check_position_references]. *)
Definition check_position_reference (s : PaperStore) (position : PaperPosition) : res (list ConsistencyIssue) :=
  let intent := get_intent s (pp_entry_intent_id position) in
  let i1 := when (bool_decide (intent = None) && is_open_position position)
              (issue "position_without_entry_intent" FATAL "Open position missing entry intent" (position_detail position)) in
  order ← match intent with Some _ => get_order_for_intent s (pp_entry_intent_id position) | None => Ok None end;
  fills ← match order with Some o => get_fills_for_order s (or_paper_order_id o) | None => Ok [] end;
  let i2 := when (is_open_position position && match fills with [] => true | _ => false end)
              (issue "position_without_entry_fill" FATAL "Position missing entry fill" (position_detail position)) in
  let i3 := when (bool_decide (pp_status position = PP_CLOSING))
              (issue "closing_position_pending_exit" MANUAL "CLOSING position requires exit processing"
                 (position_detail position)) in
  Ok (i1 ++ i2 ++ i3).

(** One fill of [_check_position_references]. *)
Definition check_fill_reference (s : PaperStore) (fill : PaperFill) : res (list ConsistencyIssue) :=
  match fi_fill_kind fill with
  | FK_EXIT =>
      Ok (when (bool_decide (fi_position_id fill = None))
            (issue "exit_fill_without_position" FATAL "EXIT fill missing position_id" (fill_detail fill)))
  | FK_ENTRY =>
      match fi_paper_order_id fill with
      | None => Ok [issue "entry_fill_without_order" FATAL "ENTRY fill missing paper_order_id" (fill_detail fill)]
      | Some order_id =>
          match get_by or_paper_order_id (db_orders s) order_id with
          | None => Ok [issue "fill_without_order" FATAL "Fill references missing order" (fill_detail fill)]
          | Some order_row =>
              position_row ← scalar_one_or_none
                (List.filter (fun p => bool_decide (pp_entry_intent_id p = or_intent_id order_row)) (db_positions s));
              Ok (when (match position_row with None => bool_decide (or_status order_row = PO_FILLED) | Some _ => false end)
                    (issue "fill_without_position" FATAL "Filled order has no position row" (fill_detail fill)))
          end
      end
  end.

Definition _check_position_references (s : PaperStore) : res (list ConsistencyIssue) :=
  positions ← list_all_positions s;
  i1 ← mapM (check_position_reference s) positions;
  fills ← list_all_fills s;
  i2 ← mapM (check_fill_reference s) fills;
  Ok (concat i1 ++ concat i2).

Definition check_position_stops (s : PaperStore) (position : PaperPosition) : res (list ConsistencyIssue) :=
  events ← list_stop_events_for_position s (pp_position_id position);
  Ok (when (pp_current_stop position <ᵈ pp_initial_stop position)
        (issue "current_stop_below_initial" FATAL "current_stop < initial_stop" (position_detail position)) ++
      when (pp_highest_close_since_entry position <ᵈ pp_average_entry_price position)
        (issue "highest_close_below_entry" MANUAL "highest_close_since_entry below average_entry_price"
           (position_detail position)) ++
      concat ((fun e => when (sv_new_stop e <ᵈ sv_previous_stop e)
                 (issue "invalid_stop_history" FATAL "Stop history not monotonic"
                    [("stop_event_id", JStr (sv_stop_event_id e))]%string)) <$> events)).

Definition _check_stop_invariants (s : PaperStore) : res (list ConsistencyIssue) :=
  positions ← list_all_positions s;
  issues ← mapM (check_position_stops s) positions;
  Ok (concat issues).

Definition check_fill_key (acc : list ConsistencyIssue * list (string * string)) (fill : PaperFill)
    : list ConsistencyIssue * list (string * string) :=
  let '(issues, seen) := acc in
  let key := fi_deterministic_fill_key fill in
  (issues ++ when (bool_decide (is_Some (od_get seen key)))
     (issue "duplicate_deterministic_fill" FATAL "Duplicate deterministic fill key"
        (fill_detail fill ++ [("key", JStr key)]%string)),
   od_set seen key (fi_fill_id fill)).

Definition _check_duplicate_fills (s : PaperStore) : res (list ConsistencyIssue) :=
  fills ← list_all_fills s;
  Ok (fold_left check_fill_key fills ([], [])).1.

Definition run_consistency_checks (config : PaperTradingConfig) (now : datetime) (s : PaperStore)
    : res (list ConsistencyIssue) :=
  let i1 := _check_orphan_scheduler_runs s in
  let i2 := _check_stale_heartbeat config now s in
  let i3 := _check_multiple_open_positions s in
  i4 ← _check_intent_order_fill_chain s;
  i5 ← _check_position_references s;
  i6 ← _check_stop_invariants s;
  i7 ← _check_duplicate_fills s;
  Ok (i1 ++ i2 ++ i3 ++ i4 ++ i5 ++ i6 ++ i7).

Definition run_accounting_verification (config : PaperTradingConfig) (s : PaperStore) : res (option ConsistencyIssue) :=
  mismatches ← verify_accounting_independent s (pc_paper_initial_equity config);
  match mismatches with
  | [] => Ok None
  | _ => Ok (Some (issue "accounting_reconciliation_mismatch" MANUAL "Independent accounting reconciliation failed"
                     [("mismatches", JList (JStr <$> mismatches))]%string))
  end.

(** ** Repairs *)

(** [UUID(issue.details[key])]. *)
Definition detail_id (i : ConsistencyIssue) (key : string) : res UUID :=
  match od_get (ci_details i) key with Some (JStr id) => Ok id | _ => Raise (KeyError key) end.

Definition decimal_of_nat_text (n : nat) : string := pretty.pretty (N.of_nat n).

Definition repair_issue (now : datetime) (acc : list string * PaperStore) (i : ConsistencyIssue)
    : res (list string * PaperStore) :=
  let '(repairs, s) := acc in
  if negb (bool_decide (ci_severity i = AUTO_REPAIRABLE)) then Ok (repairs, s)
  else if bool_decide (ci_code i = "orphan_scheduler_run"%string) then
    let '(count, s) := fail_orphan_scheduler_runs s now in
    Ok (repairs ++ when (negb (Nat.eqb count 0))
          ("marked_" +:+ decimal_of_nat_text count +:+ "_orphan_scheduler_runs_failed"), s)
  else if bool_decide (ci_code i = "open_order_with_fill"%string) then
    order_id ← detail_id i "paper_order_id";
    ok ← _fill_economic_chain_consistent_for_order s order_id;
    if negb ok then Ok (repairs, s)
    else
      '(_, s) ← update_order_status s now order_id PO_FILLED (Some 0%Q) (Some now);
      Ok (repairs ++ ["order_" +:+ order_id +:+ "_set_filled"], s)
  else if bool_decide (ci_code i = "filled_intent_without_status"%string) then
    intent_id ← detail_id i "intent_id";
    ok ← _fill_economic_chain_consistent_for_intent s intent_id;
    if negb ok then Ok (repairs, s)
    else
      '(_, s) ← update_intent_status s now intent_id IS_FILLED None None (Some now);
      Ok (repairs ++ ["intent_" +:+ intent_id +:+ "_set_filled"], s)
  else if bool_decide (ci_code i = "stale_runtime_heartbeat"%string) then
    match db_runtime s with
    | None => Ok (repairs, s)
    | Some runtime =>
        '(_, s) ← update_runtime_state s
          {| ru_status := None; ru_last_error := None; ru_started_at := None; ru_heartbeat_at := Some now;
             ru_kill_switch := None; ru_paused := None; ru_current_cycle_id := None;
             ru_expected_version := Some (rs_version runtime) |};
        Ok (repairs ++ ["runtime_heartbeat_refreshed"%string], s)
    end
  else Ok (repairs, s).

Definition apply_auto_repairs (now : datetime) (s : PaperStore) (issues : list ConsistencyIssue)
    : res (list string * PaperStore) :=
  foldM (repair_issue now) issues ([], s).

(** ** Recovery *)

Definition runtime_event (event_type : string) (runtime : RuntimeState) (payload : list (string * json)) (now : datetime)
    : AuditEvent :=
  {| ae_event_type := event_type; ae_aggregate_type := "runtime_state"; ae_aggregate_id := rs_instance_id runtime;
     ae_cycle_id := None; ae_payload_json := payload; ae_created_at := now |}.

Definition _fail_recovery (s : PaperStore) (now : datetime) (code : string) : res PaperStore :=
  '(_, s) ← transition s now RS_FAILED (Some code) None;
  runtime ← get_state s;
  Ok (append_audit_event s (runtime_event "RECOVERY_FAILED" runtime [("code", JStr code)]%string now)).

Definition _record_accounting_incident (s : PaperStore) (now : datetime) (i : ConsistencyIssue) : res PaperStore :=
  runtime ← get_state s;
  Ok (append_audit_event s (runtime_event "ACCOUNTING_RECONCILIATION_INCIDENT" runtime
        [("code", JStr (ci_code i)); ("mismatches", default JNull (od_get (ci_details i) "mismatches"))]%string now)).

Definition _build_result (s : PaperStore) (status : RuntimeStatus) (issues : list ConsistencyIssue)
    (repairs : list string) : res RecoveryResult :=
  runtime ← get_state s;
  Ok {| rr_success := bool_decide (status ∈ [RS_READY; RS_DEGRADED]);
        rr_final_status := status;
        rr_issues := issues;
        rr_repairs_applied := repairs;
        rr_entry_readiness := bool_decide (status = RS_READY) && negb (rs_paused runtime) && negb (rs_kill_switch runtime) |}.

Definition of_severity (sev : IssueSeverity) (issues : list ConsistencyIssue) : list ConsistencyIssue :=
  List.filter (fun i => bool_decide (ci_severity i = sev)) issues.

(** Check, repair, check again, verify the accounting. *)
Definition check_and_repair (config : PaperTradingConfig) (now : datetime) (s : PaperStore)
    : res (list ConsistencyIssue * list string * PaperStore) :=
  issues ← run_consistency_checks config now s;
  '(repairs, s) ← apply_auto_repairs now s issues;
  issues ← run_consistency_checks config now s;
  accounting_issue ← run_accounting_verification config s;
  match accounting_issue with
  | Some a => s ← _record_accounting_incident s now a; Ok (issues ++ [a], repairs, s)
  | None => Ok (issues, repairs, s)
  end.

Definition finish (s : PaperStore) (status : RuntimeStatus) (issues : list ConsistencyIssue) (repairs : list string)
    : res (RecoveryResult * PaperStore) :=
  r ← _build_result s status issues repairs; Ok (r, s).

Definition degrade (s : PaperStore) (now : datetime) (reason : string) (issues : list ConsistencyIssue)
    (repairs : list string) : res (RecoveryResult * PaperStore) :=
  '(_, s) ← transition s now RS_DEGRADED (Some reason) None;
  finish s RS_DEGRADED issues repairs.

(** The runtime was ready when the process died. *)
Definition recover_ready (config : PaperTradingConfig) (now : datetime) (s : PaperStore) (market_data_ready : bool)
    : res (RecoveryResult * PaperStore) :=
  '(issues, repairs, s) ← check_and_repair config now s;
  match of_severity FATAL issues, of_severity MANUAL issues with
  | f :: _, _ => s ← _fail_recovery s now (ci_code f); finish s RS_FAILED issues repairs
  | [], m :: _ => degrade s now (ci_code m) issues repairs
  | [], [] =>
      if negb market_data_ready then degrade s now "market_data_not_ready" issues repairs
      else finish s RS_READY issues repairs
  end.

(** Every other status goes through RECOVERING and SYNCING. *)
Definition recover_other (config : PaperTradingConfig) (now : datetime) (s : PaperStore) (runtime : RuntimeState)
    (market_data_ready migration_at_head : bool) (snapshot_id : UUID) : res (RecoveryResult * PaperStore) :=
  s ← (if decide (rs_status runtime = RS_STOPPED)
       then '(_, s) ← transition s now RS_STARTING None None; Ok s else Ok s);
  '(_, s) ← transition s now RS_RECOVERING None None;
  if negb migration_at_head then
    s ← _fail_recovery s now "migration_not_at_head";
    finish s RS_FAILED [issue "migration_not_at_head" FATAL "schema" []] []
  else
    '(issues, repairs, s) ← check_and_repair config now s;
    match of_severity FATAL issues with
    | f :: _ => s ← _fail_recovery s now (ci_code f); finish s RS_FAILED issues repairs
    | [] =>
        '(_, s) ← transition s now RS_SYNCING None None;
        if negb market_data_ready then degrade s now "market_data_not_ready" issues repairs
        else match of_severity MANUAL issues with
        | m :: _ => degrade s now (ci_code m) issues repairs
        | [] =>
            '(_, s) ← transition s now RS_READY (Some ""%string) None;
            '(_, _, s) ← capture_snapshot s snapshot_id now "recovery" [] ∅ None;
            finish s RS_READY issues repairs
        end
    end.

(** What the process brings to the recovery: the advisory lock, whether a
    recovery is already running, the schema version. *)
Record RecoveryEnv := {
  re_lock_held : bool;
  re_recovery_active : bool;
  re_migration_at_head : bool;
  re_market_data_ready : bool;
  re_now : datetime;
  re_snapshot_id : UUID;
}.

Definition recover_on_startup (config : PaperTradingConfig) (env : RecoveryEnv) (s : PaperStore)
    : res (RecoveryResult * PaperStore) :=
  if negb (re_lock_held env) then Raise (RuntimeError "advisory lock required for recovery")
  else if re_recovery_active env then Raise (RuntimeError "recovery already in progress")
  else
    runtime ← get_state s;
    if decide (rs_status runtime = RS_READY) then recover_ready config (re_now env) s (re_market_data_ready env)
    else recover_other config (re_now env) s runtime (re_market_data_ready env) (re_migration_at_head env)
           (re_snapshot_id env).

(** The module's entry point records the outcome. *)
Definition recover_and_record (config : PaperTradingConfig) (env : RecoveryEnv) (s : PaperStore)
    : res (RecoveryResult * PaperStore) :=
  '(result, s) ← recover_on_startup config env s;
  match db_runtime s with
  | None => Ok (result, s)
  | Some runtime =>
      Ok (result, append_audit_event s (runtime_event "RECOVERY_COMPLETED" runtime
            [("final_status", JStr (runtime_status_value (rr_final_status result)));
             ("repairs", JList (JStr <$> rr_repairs_applied result));
             ("issue_count", JInt (Z.of_nat (length (rr_issues result))))]%string (re_now env)))
  end.
