(* ===== verification/PaperLedger.v ===== *)
(** * The ledger of paper trading: wallet, fills and positions

    What the program does to the wallet, the fills and the positions, as three
    kinds of step on the store; the invariant these steps keep; and the proof
    that the independent verification of the accounting finds nothing to report
    in a state with the invariant. *)
From Stdlib Require Import ZArith QArith Qabs Lqa Lia.
From stdpp Require Import base list gmap sets strings relations.
From S2P Require Import Prelude Decimal StrategyModels BtModels BtData PaperModels Transitions PaperRuntime PaperRepository.
From S2P Require Import PaperAccounting PaperStops.

Local Open Scope Q_scope.

(** Rounded arithmetic is never unfolded in these proofs. *)
#[local] Opaque rnd.

(** ** Statements *)

Section Statements.
Context {R : Type} (c : Constraint R) (conflict : R -> R -> bool).

(** What a successful insert of a row establishes. *)
Record inserted (rows : list R) (row : R) (rows' : list R) : Prop := {
  in_rows : rows' = rows ++ [row];
  in_check : ct_check c row = true;
  in_unique : forall r, r ∈ rows -> ct_unique c row r = false;
  in_references : ct_references c row = true;
}.

Lemma insert_ok rows row rows' : insert c rows row = Ok rows' -> inserted rows row rows'.
Proof.
  unfold insert. destruct (ct_check c row) eqn:E1; [|done]. destruct (existsb _ rows) eqn:E2; [done|].
  destruct (ct_references c row) eqn:E3; [|done]. cbn. intros [= <-]. split; [done|done| |done].
  intros r Hr. apply not_true_is_false. intros Hu. rewrite (proj2 (existsb_exists _ _)) in E2; [done|].
  exists r. split; [by apply list_elem_of_In|done].
Qed.

Lemma scalar_one_ok (rows : list R) r : scalar_one rows = Ok r -> rows = [r].
Proof. destruct rows as [|? [|]]; cbn; congruence. Qed.

Lemma insert_or_get_ok rows row r b rows' :
  insert_or_get c conflict rows row = Ok (r, b, rows') ->
  if b then r = row /\ inserted rows row rows' else rows' = rows /\ r ∈ rows /\ conflict row r = true.
Proof.
  unfold insert_or_get. destruct (ct_check c row); [|done]. cbn [negb].
  destruct (List.filter _ rows) as [|x l] eqn:E.
  - intros (rows1 & H1 & H2)%bind_ok. injection H2 as <- <- <-. split; [done|by apply insert_ok].
  - intros (x1 & Hx & H2)%bind_ok. injection H2 as <- <- <-. apply scalar_one_ok in Hx. rewrite Hx in E.
    assert (Hin : x1 ∈ List.filter (conflict row) rows) by (rewrite E; by left).
    apply elem_of_list_filter in Hin as [? ?]. done.
Qed.
End Statements.

Lemma get_by_ok {A} (key : A -> UUID) rows id r : get_by key rows id = Some r -> r ∈ rows /\ key r = id.
Proof.
  intros H. apply find_some in H as [Hin Hk]. apply bool_decide_eq_true in Hk. split; [by apply list_elem_of_In|done].
Qed.

Lemma get_by_unique {A} (key : A -> UUID) rows r : NoDup (key <$> rows) -> r ∈ rows -> get_by key rows (key r) = Some r.
Proof.
  induction rows as [|x rows IH]; [by intros _ ?%elem_of_nil|]. cbn. intros [Hx Hnd]%NoDup_cons Hr.
  case_bool_decide as Hk.
  - apply elem_of_cons in Hr as [->|Hr]; [done|]. destruct Hx. rewrite Hk. by apply list_elem_of_fmap_2.
  - apply elem_of_cons in Hr as [->|Hr]; [done|]. by apply IH.
Qed.

Lemma get_by_None {A} (key : A -> UUID) rows id : get_by key rows id = None <-> id ∉ key <$> rows.
Proof.
  induction rows as [|x rows IH]; cbn; [split; [intros _; apply not_elem_of_nil|done]|].
  case_bool_decide as Hk; [split; [done|]; intros []; rewrite Hk; by left|].
  unfold get_by in IH. rewrite IH, not_elem_of_cons. naive_solver.
Qed.

(** An update by id, seen through [get_by]. *)
Lemma get_by_update {A} (key : A -> UUID) rows r' id :
  NoDup (key <$> rows) -> key r' ∈ key <$> rows ->
  get_by key (update_where (fun b => bool_decide (key b = key r')) (fun _ => r') rows) id =
  if decide (id = key r') then Some r' else get_by key rows id.
Proof.
  induction rows as [|x rows IH]; cbn; [by intros _ ?%elem_of_nil|]. intros [Hx Hnd]%NoDup_cons Hr.
  destruct (decide (key x = key r')) as [Hk|Hk].
  - rewrite (bool_decide_eq_true_2 _ Hk). case_bool_decide as Hi; [subst id; by rewrite decide_True by done|].
    rewrite decide_False by congruence. rewrite bool_decide_eq_false_2 by congruence.
    assert (Hno : update_where (fun b => bool_decide (key b = key r')) (fun _ => r') rows = rows); [|by rewrite <- Hno at 2].
    unfold update_where. rewrite <- (list_fmap_id rows) at 2. apply list_fmap_ext. intros i y Hy.
    rewrite bool_decide_eq_false_2; [done|]. intros Hyk. destruct Hx. rewrite Hk, <- Hyk.
    by apply list_elem_of_fmap_2, (list_elem_of_lookup_2 _ i).
  - rewrite (bool_decide_eq_false_2 _ Hk). assert (Hr' : key r' ∈ key <$> rows) by (apply elem_of_cons in Hr as [?|?]; [congruence|done]).
    case_bool_decide as Hi; [by rewrite decide_False by congruence|]. by apply IH.
Qed.

Lemma keys_update {A} (key : A -> UUID) rows r' :
  key <$> update_where (fun b => bool_decide (key b = key r')) (fun _ => r') rows = key <$> rows.
Proof.
  unfold update_where. rewrite <- list_fmap_compose. apply list_fmap_ext. intros i x _. cbn.
  case_bool_decide; [congruence|done].
Qed.

Lemma elem_of_update {A} (cond : A -> bool) f rows y :
  y ∈ update_where cond f rows -> (y ∈ rows /\ cond y = false) \/ exists x, x ∈ rows /\ cond x = true /\ y = f x.
Proof.
  unfold update_where. intros (x & -> & Hx)%list_elem_of_fmap. destruct (cond x) eqn:E; [right|left]; eauto.
Qed.

(** ** Readable rows *)

(** The text of a random id: 36 characters without a colon. *)
Definition uuid_text (id : UUID) : Prop := String.length id = 36%nat /\ no_colon id = true.

Definition readable_position (p : PaperPosition) : Prop := position_row_to_domain p = Ok p.
Definition readable_fill (f : PaperFill) : Prop := fill_row_to_domain f = Ok f.

Record position_wf (p : PaperPosition) : Prop := {
  pw_quantity : 0 < pp_quantity p;
  pw_entry : 0 < pp_average_entry_price p;
  pw_atr : 0 < pp_entry_atr14 p;
  pw_version : (1 <= pp_version p)%Z;
  pw_stop : pp_initial_stop p <= pp_current_stop p;
  pw_below_entry : pp_initial_stop p < pp_average_entry_price p;
  pw_closed_at : closed_at_ok p = true;
}.

Lemma position_read p : position_wf p <-> readable_position p.
Proof.
  unfold readable_position, position_row_to_domain. split.
  - intros [Hq He Ha Hv Hs Hb Hc]. rewrite (proj2 (dleb_gt _ _) Hq), (proj2 (dleb_gt _ _) He), (proj2 (dleb_gt _ _) Ha).
    cbn [orb]. rewrite (proj2 (Z.ltb_ge _ _)) by lia. rewrite (proj2 (dltb_ge _ _) Hs), (proj2 (dleb_gt _ _) Hb), Hc. done.
  - destruct (_ || _ || _) eqn:E1; [done|]. destruct (_ <? _)%Z eqn:E2; [done|].
    destruct (_ <ᵈ _) eqn:E3; [done|]. destruct (_ ≤ᵈ pp_initial_stop p) eqn:E4; [done|].
    destruct (closed_at_ok p) eqn:E5; [|done]. intros _. apply orb_false_iff in E1 as [[? ?]%orb_false_iff ?].
    apply Z.ltb_ge in E2. dec_bool. by split.
Qed.

Lemma position_row_ok p q : position_row_to_domain p = Ok q -> q = p /\ readable_position p.
Proof.
  intros H. assert (q = p) as ->; [|done]. revert H. unfold position_row_to_domain. repeat case_match; congruence.
Qed.

Lemma fill_row_ok f g : fill_row_to_domain f = Ok g -> g = f /\ readable_fill f.
Proof. intros H. assert (g = f) as ->; [|done]. revert H. unfold fill_row_to_domain. repeat case_match; congruence. Qed.

Lemma order_row_ok o q : order_row_to_domain o = Ok q -> q = o.
Proof. unfold order_row_to_domain. case_match; congruence. Qed.

Lemma wallet_row_ok w v : wallet_row_to_domain w = Ok v -> v = w /\ (1 <= wa_version w)%Z.
Proof. unfold wallet_row_to_domain. destruct (_ <? _)%Z eqn:E; [done|]. intros [= ->]. by apply Z.ltb_ge in E. Qed.

Lemma mapM_readable {A} (read : A -> res A) l :
  Forall (fun x => read x = Ok x) l -> mapM read l = Ok l.
Proof. intros H. apply mapM_ok. induction H; by constructor. Qed.

(** ** Steps of the ledger

    A program step leaves the ledger alone or makes one of three steps. *)

Definition same_ledger (s s' : PaperStore) : Prop :=
  db_wallet s' = db_wallet s /\ db_fills s' = db_fills s /\ db_positions s' = db_positions s /\ db_funding s' = db_funding s.

Definition replace_position (p : PaperPosition) (rows : list PaperPosition) : list PaperPosition :=
  update_where (fun b => bool_decide (pp_position_id b = pp_position_id p)) (fun _ => p) rows.

Definition entry_delta (f : PaperFill) : WalletDelta :=
  {| wd_cash_delta := dneg (fi_fee f); wd_realized_pnl_delta := 0; wd_fees_delta := fi_fee f;
     wd_funding_delta := 0; wd_slippage_delta := fi_slippage f |}.

(** The net result of an exit fill at the entry price of its position. *)
Definition exit_net (f : PaperFill) (row : PaperPosition) : decimal := dsub (exit_gross f row) (fi_fee f).

Definition exit_delta (f : PaperFill) (row : PaperPosition) : WalletDelta :=
  {| wd_cash_delta := exit_net f row; wd_realized_pnl_delta := exit_net f row; wd_fees_delta := fi_fee f;
     wd_funding_delta := 0; wd_slippage_delta := fi_slippage f |}.

(** The wallet took a delta. *)
Definition paid (d : WalletDelta) (s s' : PaperStore) : Prop :=
  exists w t, db_wallet s = Some w /\ db_wallet s' = Some (apply_delta w d t).

Inductive ledger_step (s s' : PaperStore) : Prop :=
  | LedgerEntry f p :
      fi_fill_kind f = FK_ENTRY -> readable_fill f -> representable (fi_fee f) ->
      readable_position p -> pp_status p = PP_OPEN -> 0 < pp_margin_reserved p ->
      pp_position_id p ∉ pp_position_id <$> db_positions s ->
      pp_symbol p ∉ pp_symbol <$> List.filter is_open_position (db_positions s) ->
      paid (entry_delta f) s s' ->
      db_fills s' = db_fills s ++ [f] -> db_positions s' = db_positions s ++ [p] -> db_funding s' = db_funding s ->
      ledger_step s s'
  | LedgerExit f row t :
      row ∈ db_positions s -> is_open_position row = true ->
      fi_fill_kind f = FK_EXIT -> fi_position_id f = Some (pp_position_id row) -> readable_fill f ->
      paid (exit_delta f row) s s' ->
      db_fills s' = db_fills s ++ [f] ->
      db_positions s' = replace_position (closed_row row t (exit_net f row)) (db_positions s) ->
      db_funding s' = db_funding s -> ledger_step s s'
  | LedgerTrail row stop high :
      row ∈ db_positions s -> is_open_position row = true -> pp_initial_stop row <= stop ->
      db_wallet s' = db_wallet s -> db_fills s' = db_fills s ->
      db_positions s' = replace_position (row_with_stop row stop high) (db_positions s) ->
      db_funding s' = db_funding s -> ledger_step s s'
  | LedgerSame : same_ledger s s' -> ledger_step s s'.

(** ** The invariant *)

Definition wallet_totals (w : PaperWalletState) : Totals :=
  {| to_cash := wa_cash w; to_fees := wa_total_fees w; to_slippage := wa_total_slippage w;
     to_realized := wa_total_realized_pnl w |}.

Definition fills_totals (initial : decimal) (s : PaperStore) : Totals :=
  fold_left (add_fill (db_positions s)) (db_fills s) (initial_totals initial).

Record totals_eq (a b : Totals) : Prop := {
  te_cash : to_cash a == to_cash b;
  te_fees : to_fees a == to_fees b;
  te_slippage : to_slippage a == to_slippage b;
  te_realized : to_realized a == to_realized b;
}.

(** A closed position has its exit fill and its result, an open one none. *)
Record settled (fills : list PaperFill) (p : PaperPosition) : Prop := {
  sl_readable : readable_position p;
  sl_open : is_open_position p = true -> 0 < pp_margin_reserved p /\ pp_position_id p ∉ exit_position_ids fills;
  sl_closed : is_open_position p = false -> pp_margin_reserved p == 0 /\
    exists f, f ∈ fills /\ is_exit_of (pp_position_id p) f = true /\ pp_realized_pnl p = exit_net f p;
}.

Record ledger_inv (initial : decimal) (s : PaperStore) : Prop := {
  li_initial : representable initial;
  li_ids : NoDup (pp_position_id <$> db_positions s);
  li_symbols : NoDup (pp_symbol <$> List.filter is_open_position (db_positions s));
  li_positions : Forall (settled (db_fills s)) (db_positions s);
  li_fills : Forall readable_fill (db_fills s);
  li_exits : NoDup (exit_position_ids (db_fills s));
  li_known : forall id, id ∈ exit_position_ids (db_fills s) -> id ∈ pp_position_id <$> db_positions s;
  li_funding : db_funding s = [];
  li_wallet : exists w, db_wallet s = Some w /\ (1 <= wa_version w)%Z /\ wa_total_funding w == 0 /\
    totals_eq (wallet_totals w) (fills_totals initial s);
}.

(** *** Totals *)

Lemma get_by_perm {A} (key : A -> UUID) l l' id :
  l ≡ₚ l' -> NoDup (key <$> l) -> get_by key l id = get_by key l' id.
Proof.
  intros Hp Hnd. assert (Hk : key <$> l ≡ₚ key <$> l') by (by rewrite Hp). destruct (get_by key l id) as [r|] eqn:E.
  - apply get_by_ok in E as [Hr <-]. symmetry. apply get_by_unique; [by rewrite <- Hk|by rewrite <- Hp].
  - symmetry. apply get_by_None. apply get_by_None in E. by rewrite <- Hk.
Qed.

(** The loop over the fills depends on the positions through the entry prices
    of the exited ones. *)
Definition price_at (positions : list PaperPosition) (id : UUID) : option decimal :=
  option_map pp_average_entry_price (position_by_id positions id).

Lemma price_at_get P id : NoDup (pp_position_id <$> P) -> price_at P id = option_map pp_average_entry_price (get_by pp_position_id P id).
Proof.
  intros Hnd. unfold price_at, position_by_id. rewrite (get_by_perm _ P (rev P)); [done|apply Permutation_rev|done].
Qed.

Lemma exit_ids_app l k : exit_position_ids (l ++ k) = exit_position_ids l ++ exit_position_ids k.
Proof. apply omap_app. Qed.

Lemma exit_ids_elem f l id : fi_fill_kind f = FK_EXIT -> fi_position_id f = Some id -> f ∈ l -> id ∈ exit_position_ids l.
Proof. intros Hk Hp Hf. apply list_elem_of_omap. exists f. by rewrite Hk. Qed.

Lemma add_fill_ext P Q t f :
  (forall id, fi_fill_kind f = FK_EXIT -> fi_position_id f = Some id -> price_at P id = price_at Q id) ->
  add_fill P t f = add_fill Q t f.
Proof.
  intros H. unfold add_fill. destruct (fi_fill_kind f) eqn:Ek; [done|]. destruct (fi_position_id f) as [id|] eqn:Ep; [|done].
  specialize (H id eq_refl eq_refl). unfold price_at in H. unfold exit_gross.
  destruct (position_by_id P id), (position_by_id Q id); cbn in H; [|discriminate H..|reflexivity].
  injection H as H. rewrite H. reflexivity.
Qed.

Lemma fold_totals_ext P Q fills t :
  (forall id, id ∈ exit_position_ids fills -> price_at P id = price_at Q id) ->
  fold_left (add_fill P) fills t = fold_left (add_fill Q) fills t.
Proof.
  revert t. induction fills as [|f fills IH]; [done|]. intros t H. cbn [fold_left].
  rewrite (add_fill_ext P Q).
  - apply IH. intros id Hid. apply H. change (f :: fills) with ([f] ++ fills). rewrite exit_ids_app. apply elem_of_app. by right.
  - intros id Hk Hp. apply H, (exit_ids_elem f); [done|done|by left].
Qed.

(** Amounts the loop has touched are in the precision of the context. *)
Lemma add_fill_representable P t f :
  representable (to_cash t) -> representable (to_realized t) ->
  representable (to_cash (add_fill P t f)) /\ representable (to_realized (add_fill P t f)).
Proof.
  intros Hc Hr. unfold add_fill. repeat case_match; cbn [to_cash to_realized]; split; first [assumption|apply representable_rnd].
Qed.

Lemma totals_representable P fills t :
  representable (to_cash t) -> representable (to_realized t) ->
  representable (to_cash (fold_left (add_fill P) fills t)) /\ representable (to_realized (fold_left (add_fill P) fills t)).
Proof.
  revert t. induction fills as [|f fills IH]; [done|]. intros t Hc Hr. cbn [fold_left].
  destruct (add_fill_representable P t f Hc Hr). by apply IH.
Qed.

Lemma fills_totals_representable initial s :
  representable initial ->
  representable (to_cash (fills_totals initial s)) /\ representable (to_realized (fills_totals initial s)).
Proof. intros H. apply totals_representable; [done|apply representable_zero]. Qed.

Lemma dadd_zero x : representable x -> dadd x 0 == x.
Proof. intros H. unfold dadd. rewrite Qplus_0_r. by apply rnd_representable. Qed.

Lemma dadd_dneg x y : representable y -> dadd x (dneg y) = dsub x y.
Proof.
  intros H. unfold dadd, dsub, dneg. apply rnd_proper. rewrite rnd_representable by (by apply representable_opp). reflexivity.
Qed.

(** The wallet follows the totals of an added fill. *)
Lemma totals_entry P w d f t ts :
  fi_fill_kind f = FK_ENTRY -> d = entry_delta f -> representable (fi_fee f) -> representable (to_realized ts) ->
  totals_eq (wallet_totals w) ts -> totals_eq (wallet_totals (apply_delta w d t)) (add_fill P ts f).
Proof.
  intros Hk -> Hf Hr [Hc Hfe Hs Hre]. unfold add_fill. rewrite Hk. cbn in *. split; cbn.
  - rewrite dadd_dneg by exact Hf. by rewrite Hc.
  - by rewrite Hfe.
  - by rewrite Hs.
  - rewrite Hre. by apply dadd_zero.
Qed.

Lemma totals_exit P w row f t ts :
  fi_fill_kind f = FK_EXIT -> fi_position_id f = Some (pp_position_id row) ->
  price_at P (pp_position_id row) = Some (pp_average_entry_price row) ->
  totals_eq (wallet_totals w) ts -> totals_eq (wallet_totals (apply_delta w (exit_delta f row) t)) (add_fill P ts f).
Proof.
  intros Hk Hp Hat [Hc Hfe Hs Hre]. unfold add_fill. rewrite Hk, Hp. unfold price_at in Hat.
  destruct (position_by_id P _) as [q|]; [|done]. injection Hat as Hq.
  assert (Hn : exit_net f row = dsub (exit_gross f q) (fi_fee f)) by (unfold exit_net, exit_gross; by rewrite Hq).
  rewrite <- Hn. cbn in Hc, Hfe, Hs, Hre. split; cbn; rewrite ?Hc, ?Hfe, ?Hs, ?Hre; reflexivity.
Qed.

(** *** Replacing a position *)

Section Replace.
Context (rows : list PaperPosition) (row p : PaperPosition).
Hypothesis Hnd : NoDup (pp_position_id <$> rows).
Hypothesis Hrow : row ∈ rows.
Hypothesis Hid : pp_position_id p = pp_position_id row.

Lemma replaced_key : pp_position_id p ∈ pp_position_id <$> rows.
Proof. rewrite Hid. by apply list_elem_of_fmap_2. Qed.

(** Every other row stays. *)
Lemma elem_of_replace b : b ∈ replace_position p rows -> b = p \/ (b ∈ rows /\ pp_position_id b <> pp_position_id row).
Proof.
  intros [[Hb Hc]|(x & _ & _ & ->)]%elem_of_update; [|by left]. right. split; [done|].
  apply bool_decide_eq_false in Hc. congruence.
Qed.

Lemma replace_price id :
  pp_average_entry_price p = pp_average_entry_price row -> price_at (replace_position p rows) id = price_at rows id.
Proof.
  intros Ha. unfold replace_position. rewrite !price_at_get by (by rewrite ?keys_update).
  rewrite get_by_update by (done || apply replaced_key). case_decide as Hi; [|done].
  rewrite Hi, Hid, (get_by_unique _ _ row) by done. cbn. by rewrite Ha.
Qed.

Lemma replace_symbols :
  pp_symbol p = pp_symbol row -> (is_open_position p = true -> is_open_position row = true) ->
  pp_symbol <$> List.filter is_open_position (replace_position p rows) `sublist_of`
  pp_symbol <$> List.filter is_open_position rows.
Proof.
  intros Hs Ho. assert (Hall : forall b, b ∈ rows -> pp_position_id b = pp_position_id p -> b = row).
  { intros b Hb He. apply (key_row pp_position_id rows); try done. congruence. }
  clear Hnd Hrow. unfold replace_position. induction rows as [|x l IH]; [done|]. cbn.
  assert (IH' := IH (fun b Hb => Hall b (list_elem_of_further _ _ _ Hb))).
  destruct (decide (pp_position_id x = pp_position_id p)) as [Hx|Hx].
  - rewrite (bool_decide_eq_true_2 _ Hx). pose proof (Hall x (list_elem_of_here _ _) Hx) as ->.
    destruct (is_open_position p) eqn:E1.
    + rewrite (Ho eq_refl). cbn. rewrite Hs. by constructor.
    + destruct (is_open_position row); cbn; [by constructor|done].
  - rewrite (bool_decide_eq_false_2 _ Hx). destruct (is_open_position x); cbn; [by constructor|done].
Qed.
End Replace.

(** *** Every step keeps the invariant *)

Lemma paid_wallet d s s' w :
  paid d s s' -> db_wallet s = Some w -> (1 <= wa_version w)%Z -> wa_total_funding w == 0 -> wd_funding_delta d = 0 ->
  exists t, db_wallet s' = Some (apply_delta w d t) /\ (1 <= wa_version (apply_delta w d t))%Z /\
            wa_total_funding (apply_delta w d t) == 0.
Proof.
  intros (w0 & t & Hw & Hw') Hw0 Hv Hf Hd. rewrite Hw0 in Hw. injection Hw as <-. exists t. split; [done|]. cbn. split; [lia|].
  rewrite Hf, Hd. apply dadd_zero, representable_zero.
Qed.

Lemma settled_mono fills f p :
  (is_open_position p = true -> pp_position_id p ∉ exit_position_ids [f]) ->
  settled fills p -> settled (fills ++ [f]) p.
Proof.
  intros Hf [Hr Ho Hc]. split; [done| |].
  - intros Hop. destruct (Ho Hop) as [Hm Hn]. split; [done|]. rewrite exit_ids_app, elem_of_app. intros [?|?]; [done|by apply Hf in Hop].
  - intros Hcl. destruct (Hc Hcl) as [Hm (g & Hg & Hx)]. split; [done|]. exists g. split; [apply elem_of_app; by left|done].
Qed.

Lemma entry_no_exit f : fi_fill_kind f = FK_ENTRY -> exit_position_ids [f] = [].
Proof. intros H. cbn. by rewrite H. Qed.

Lemma exit_one f id : fi_fill_kind f = FK_EXIT -> fi_position_id f = Some id -> exit_position_ids [f] = [id].
Proof. intros H Hp. cbn. by rewrite H, Hp. Qed.

Lemma open_status p : pp_status p = PP_OPEN -> is_open_position p = true.
Proof. unfold is_open_position. by intros ->. Qed.

Lemma NoDup_snoc {A} (l : list A) x : NoDup l -> x ∉ l -> NoDup (l ++ [x]).
Proof.
  intros Hl Hx. apply NoDup_app. split_and!; [done| |apply NoDup_singleton]. by intros y Hy ->%list_elem_of_singleton.
Qed.

Lemma inv_entry initial s s' f p :
  ledger_inv initial s ->
  fi_fill_kind f = FK_ENTRY -> readable_fill f -> representable (fi_fee f) ->
  readable_position p -> pp_status p = PP_OPEN -> 0 < pp_margin_reserved p ->
  pp_position_id p ∉ pp_position_id <$> db_positions s ->
  pp_symbol p ∉ pp_symbol <$> List.filter is_open_position (db_positions s) ->
  paid (entry_delta f) s s' ->
  db_fills s' = db_fills s ++ [f] -> db_positions s' = db_positions s ++ [p] -> db_funding s' = db_funding s ->
  ledger_inv initial s'.
Proof.
  intros [Hi Hids Hsym Hpos Hfl Hex Hkn Hfu (w & Hw & Hv & Hwf & Ht)] Hk Hrf Hfee Hrp Hst Hm Hid Hsy Hpaid Hf' Hp' Hfu'.
  assert (Hids' : NoDup (pp_position_id <$> (db_positions s ++ [p]))) by (rewrite fmap_app; by apply NoDup_snoc).
  assert (Hpr : forall id, id ∈ exit_position_ids (db_fills s) -> price_at (db_positions s ++ [p]) id = price_at (db_positions s) id).
  { intros id (q & -> & Hq)%Hkn%list_elem_of_fmap. rewrite (price_at_get _ _ Hids'), (price_at_get _ _ Hids).
    rewrite !(get_by_unique _ _ q) by (done || apply elem_of_app; by left). done. }
  destruct (paid_wallet _ _ _ _ Hpaid Hw Hv Hwf eq_refl) as (t & Hw' & Hv' & Hwf').
  split; rewrite ?Hf', ?Hp', ?Hfu'; try done.
  - rewrite List.filter_app, fmap_app. cbn. rewrite (open_status p Hst). by apply NoDup_snoc.
  - apply Forall_app. split.
    + eapply Forall_impl; [exact Hpos|]. intros q Hq. apply settled_mono; [|done]. intros _. rewrite entry_no_exit by done. apply not_elem_of_nil.
    + constructor; [|constructor]. split; [done| |rewrite (open_status p Hst); discriminate]. intros _. split; [done|].
      rewrite exit_ids_app, entry_no_exit, app_nil_r by done. intros Hin%Hkn. done.
  - apply Forall_app. split; [done|]. by constructor.
  - by rewrite exit_ids_app, entry_no_exit, app_nil_r.
  - intros id. rewrite exit_ids_app, entry_no_exit, app_nil_r by done. intros Hin%Hkn. rewrite fmap_app. apply elem_of_app. by left.
  - exists (apply_delta w (entry_delta f) t). split_and!; try done. unfold fills_totals. rewrite Hf', Hp', fold_left_app. cbn [fold_left].
    rewrite (fold_totals_ext _ (db_positions s)) by exact Hpr.
    by apply totals_entry; [..|apply fills_totals_representable|].
Qed.

Lemma settled_other fills p q :
  pp_position_id q <> pp_position_id p -> forall f, exit_position_ids [f] = [pp_position_id p] ->
  settled fills q -> settled (fills ++ [f]) q.
Proof. intros Hne f Hf. apply settled_mono. intros _. rewrite Hf. by intros Hin%list_elem_of_singleton. Qed.

Lemma closed_readable row t net : readable_position row -> readable_position (closed_row row t net).
Proof. rewrite <- !position_read. intros [Hq He Ha Hv Hs Hb Hc]. split; cbn; try done. lia. Qed.

Lemma trailed_readable row stop high :
  readable_position row -> pp_initial_stop row <= stop -> readable_position (row_with_stop row stop high).
Proof.
  rewrite <- !position_read. intros [Hq He Ha Hv Hs Hb Hc] Hle. split; cbn; try done. lia.
Qed.

Section RowSteps.
Context (initial : decimal) (s s' : PaperStore) (row : PaperPosition).
Hypothesis Hinv : ledger_inv initial s.
Hypothesis Hrow : row ∈ db_positions s.
Hypothesis Hopen : is_open_position row = true.

Lemma row_settled : settled (db_fills s) row.
Proof. pose proof (li_positions _ _ Hinv) as H. rewrite Forall_forall in H. by apply H. Qed.

Lemma inv_exit f t :
  fi_fill_kind f = FK_EXIT -> fi_position_id f = Some (pp_position_id row) -> readable_fill f ->
  paid (exit_delta f row) s s' -> db_fills s' = db_fills s ++ [f] ->
  db_positions s' = replace_position (closed_row row t (exit_net f row)) (db_positions s) ->
  db_funding s' = db_funding s -> ledger_inv initial s'.
Proof.
  intros Hk Hfp Hrf Hpaid Hf' Hp' Hfu'. destruct row_settled as [Hrr Hro _]. destruct (Hro Hopen) as [_ Hnx].
  destruct Hinv as [Hi Hids Hsym Hpos Hfl Hex Hkn Hfu (w & Hw & Hv & Hwf & Ht)].
  set (p := closed_row row t (exit_net f row)) in *. assert (Hid : pp_position_id p = pp_position_id row) by done.
  assert (Hone : exit_position_ids [f] = [pp_position_id row]) by (by apply exit_one).
  assert (Hpr : forall id, price_at (replace_position p (db_positions s)) id = price_at (db_positions s) id) by
    (intros id; by apply (replace_price _ row)).
  destruct (paid_wallet _ _ _ _ Hpaid Hw Hv Hwf eq_refl) as (u & Hw' & Hv' & Hwf').
  split; rewrite ?Hf', ?Hp', ?Hfu'; try done.
  - unfold replace_position. by rewrite keys_update.
  - eapply sublist_NoDup; [exact Hsym|]. by apply (replace_symbols _ row).
  - apply Forall_forall. intros q [->|[Hq Hne]]%(elem_of_replace _ row p); try done.
    + split; [by apply closed_readable|done|]. intros _. split; [done|]. exists f. split_and!; [apply elem_of_app; right; by left| |done].
      unfold is_exit_of. by rewrite Hk, Hfp, !bool_decide_eq_true_2.
    + rewrite Forall_forall in Hpos. apply (settled_other _ row); [done|done|]. by apply Hpos.
  - apply Forall_app. split; [done|]. by constructor.
  - rewrite exit_ids_app, Hone. by apply NoDup_snoc.
  - intros id. unfold replace_position. rewrite keys_update, exit_ids_app, Hone, elem_of_app, list_elem_of_singleton.
    intros [?| ->]; [by apply Hkn|]. by apply list_elem_of_fmap_2.
  - exists (apply_delta w (exit_delta f row) u). split_and!; try done. unfold fills_totals. rewrite Hf', Hp', fold_left_app. cbn [fold_left].
    rewrite (fold_totals_ext _ (db_positions s)) by (intros ? _; apply Hpr). apply totals_exit; try done.
    rewrite Hpr, price_at_get, (get_by_unique _ _ row) by done. done.
Qed.

Lemma inv_trail stop high :
  pp_initial_stop row <= stop -> db_wallet s' = db_wallet s -> db_fills s' = db_fills s ->
  db_positions s' = replace_position (row_with_stop row stop high) (db_positions s) ->
  db_funding s' = db_funding s -> ledger_inv initial s'.
Proof.
  intros Hle Hw' Hf' Hp' Hfu'. pose proof row_settled as [Hrr Hro _].
  destruct Hinv as [Hi Hids Hsym Hpos Hfl Hex Hkn Hfu (w & Hw & Hv & Hwf & Ht)].
  set (p := row_with_stop row stop high) in *.
  split; rewrite ?Hf', ?Hp', ?Hfu'; try done.
  - unfold replace_position. by rewrite keys_update.
  - eapply sublist_NoDup; [exact Hsym|]. by apply (replace_symbols _ row).
  - apply Forall_forall. intros q [->|[Hq Hne]]%(elem_of_replace _ row p); try done.
    + split; [by apply trailed_readable|by intros _; apply Hro|]. intros Hc. cbn in Hc.
      unfold is_open_position in *. cbn in Hc. by rewrite Hc in Hopen.
    + rewrite Forall_forall in Hpos. by apply Hpos.
  - intros id Hin. unfold replace_position. rewrite keys_update. by apply Hkn.
  - exists w. split_and!; try done; [by rewrite Hw'|]. unfold fills_totals. rewrite Hf', Hp'.
    rewrite (fold_totals_ext _ (db_positions s)); [done|]. intros id _. by apply (replace_price _ row).
Qed.
End RowSteps.

Lemma inv_same initial s s' : same_ledger s s' -> ledger_inv initial s -> ledger_inv initial s'.
Proof.
  intros (Hw & Hf & Hp & Hfu) [Hi Hids Hsym Hpos Hfl Hex Hkn Hfu0 Hwal].
  split; rewrite ?Hf, ?Hp, ?Hfu, ?Hw; try done.
  destruct Hwal as (w & ? & ? & ? & ?). exists w. split_and!; try done. unfold fills_totals. by rewrite Hf, Hp.
Qed.

Lemma ledger_step_inv initial s s' : ledger_inv initial s -> ledger_step s s' -> ledger_inv initial s'.
Proof.
  intros Hinv []; [by eapply inv_entry|by eapply inv_exit|by eapply inv_trail|by eapply inv_same].
Qed.

Lemma ledger_steps_inv initial s s' : rtc ledger_step s s' -> ledger_inv initial s -> ledger_inv initial s'.
Proof. intros H. apply (rtc_closed _ _ _ _ (ledger_step_inv initial) H). Qed.

(** ** Verification of a state with the invariant *)

Section Page.
Context {R : Type} (time : R -> datetime) (id : R -> UUID).

Lemma insert_page_Permutation x l : insert_page time id x l ≡ₚ x :: l.
Proof. induction l as [|y l IH]; cbn; [done|]. case_match; [|done]. rewrite IH. by constructor. Qed.

Lemma sort_page_Permutation l : sort_page time id l ≡ₚ l.
Proof. induction l as [|x l IH]; cbn; [done|]. by rewrite insert_page_Permutation, IH. Qed.

Lemma take_limit_all (limit : Z) (l : list R) : (Z.of_nat (length l) <= limit)%Z -> take_limit limit l = l.
Proof.
  revert limit. induction l as [|x l IH]; [done|]. intros limit H. cbn in *.
  rewrite (proj2 (Z.leb_gt _ _)) by lia. rewrite IH by lia. done.
Qed.

Lemma list_page_all limit rows :
  (Z.of_nat (length rows) <= limit)%Z -> list_page time id limit None None rows ≡ₚ rows.
Proof.
  intros H. unfold list_page. replace (List.filter _ rows) with rows.
  - rewrite take_limit_all; [apply sort_page_Permutation|]. by rewrite sort_page_Permutation.
  - clear H. induction rows as [|x l IH]; cbn; congruence.
Qed.
End Page.

(** Counting distinct keys counts each of them once. *)
Lemma count_keys_NoDup ids counts :
  NoDup (ids ++ od_keys counts) -> Forall (fun kc => kc.2 = 1%Z) counts ->
  let r := fold_left count_key ids counts in
  Forall (fun kc => kc.2 = 1%Z) r /\ forall id, id ∈ od_keys r <-> id ∈ ids \/ id ∈ od_keys counts.
Proof.
  revert counts. induction ids as [|x ids IH]; [cbn; intros; split; [done|]; set_solver|].
  intros counts Hnd Hv. cbn [fold_left]. cbn in Hnd. apply NoDup_cons in Hnd as [Hx Hnd].
  assert (Hn : x ∉ od_keys counts) by set_solver. assert (Hc : od_get counts x = None) by (by apply od_get_None).
  assert (Hk : od_keys (count_key counts x) = od_keys counts ++ [x]) by (unfold count_key; by rewrite od_keys_set, decide_False).
  destruct (IH (count_key counts x)) as [H1 H2].
  - rewrite Hk, app_assoc. by apply NoDup_snoc.
  - unfold count_key. rewrite Hc. by apply od_set_Forall.
  - split; [done|]. intros id. rewrite H2, Hk. set_solver.
Qed.

Lemma exit_counts_spec fills :
  NoDup (exit_position_ids fills) ->
  Forall (fun kc => kc.2 = 1%Z) (exit_counts fills) /\
  forall id, id ∈ od_keys (exit_counts fills) <-> id ∈ exit_position_ids fills.
Proof.
  intros H. destruct (count_keys_NoDup (exit_position_ids fills) []) as [H1 H2]; [by rewrite app_nil_r|constructor|].
  split; [done|]. intros id. unfold exit_counts. rewrite H2. cbn. rewrite elem_of_nil. tauto.
Qed.

Lemma duplicates_none what counts : Forall (fun kc => kc.2 = 1%Z) counts -> duplicates what counts = [].
Proof.
  intros H. unfold duplicates. replace (List.filter _ counts) with (@nil (string * Z)); [done|].
  induction H as [|kc counts Hkc _ IH]; cbn; [done|]. by rewrite Hkc.
Qed.

Lemma missing_none fills : Forall readable_fill fills -> missing_position_ids fills = [].
Proof.
  induction 1 as [|f fills Hf _ IH]; [done|]. cbn. unfold readable_fill, fill_row_to_domain, fill_refs_ok in Hf.
  destruct (fi_fill_kind f) eqn:Ek; [done|]. destruct (fi_position_id f) eqn:Ep; [done|].
  rewrite bool_decide_eq_false_2 in Hf by (by intros []). cbn in Hf. by repeat case_match.
Qed.

Lemma deqb_iff x y : deqb x y = true <-> x == y.
Proof. apply Qeq_bool_iff. Qed.

Lemma wallet_issues_none w r :
  wa_cash w == rw_cash r -> wa_total_fees w == rw_total_fees r -> wa_total_slippage w == rw_total_slippage r ->
  wa_total_realized_pnl w == rw_total_realized_pnl r -> wa_total_funding w == 0 -> rw_total_funding r == 0 ->
  wallet_issues w r = [].
Proof.
  intros H1 H2 H3 H4 H5 H6. unfold wallet_issues.
  assert (H7 : wa_total_funding w == rw_total_funding r) by (by rewrite H5, H6).
  apply deqb_iff in H1, H2, H3, H4, H5, H7. by rewrite H1, H2, H3, H4, H5, H7.
Qed.

(** The exit fill of a closed position is unique, so the one that is found is
    the one that was booked. *)
Lemma exit_fill_unique fills f g id :
  NoDup (exit_position_ids fills) -> f ∈ fills -> g ∈ fills -> is_exit_of id f = true -> is_exit_of id g = true -> f = g.
Proof.
  assert (Hin : forall l h, h ∈ l -> is_exit_of id h = true -> id ∈ exit_position_ids l).
  { intros l h Hh [Hk Hp]%andb_true_iff. apply bool_decide_eq_true in Hk, Hp. by apply (exit_ids_elem h). }
  assert (Hcons : forall h l, is_exit_of id h = true -> exit_position_ids (h :: l) = id :: exit_position_ids l).
  { intros h l [Hk Hp]%andb_true_iff. apply bool_decide_eq_true in Hk, Hp. cbn. by rewrite Hk, Hp. }
  induction fills as [|h fills IH]; [by intros _ ?%elem_of_nil|]. intros Hnd Hf Hg Ef Eg.
  destruct (is_exit_of id h) eqn:Eh.
  - rewrite (Hcons h) in Hnd by done. apply NoDup_cons in Hnd as [Hn _].
    apply elem_of_cons in Hf as [->|Hf]; [|by destruct Hn; eapply Hin]. apply elem_of_cons in Hg as [->|Hg]; [done|].
    destruct Hn. by eapply Hin.
  - apply elem_of_cons in Hf as [->|Hf]; [congruence|]. apply elem_of_cons in Hg as [->|Hg]; [congruence|].
    apply IH; try done. change (h :: fills) with ([h] ++ fills) in Hnd. rewrite exit_ids_app in Hnd.
    by apply NoDup_app in Hnd as (_ & _ & Hnd).
Qed.

Lemma position_issues_none fills p :
  NoDup (exit_position_ids fills) -> settled fills p -> position_issues fills (exit_counts fills) p = [].
Proof.
  intros Hnd [Hr Ho Hc]. apply position_read in Hr. destruct (exit_counts_spec fills Hnd) as [Hone Hkeys].
  unfold position_issues. destruct (is_open_position p) eqn:E.
  - destruct (Ho eq_refl) as [Hm _]. apply dleb_gt in Hm. unfold is_open_position in E. destruct (pp_status p); by rewrite ?Hm.
  - destruct (Hc eq_refl) as (Hm & f & Hf & Hx & Hpnl). replace (pp_status p) with PP_CLOSED by (unfold is_open_position in E; by destruct (pp_status p)).
    apply deqb_iff in Hm. rewrite Hm, (proj2 (dleb_gt _ _) (pw_quantity _ Hr)). cbn [app].
    assert (Hid : pp_position_id p ∈ exit_position_ids fills).
    { pose proof Hx as [Hk Hp]%andb_true_iff. apply bool_decide_eq_true in Hk, Hp. by apply (exit_ids_elem f). }
    apply Hkeys, od_get_is_Some in Hid as [n Hn]. pose proof (od_get_Forall _ _ _ _ Hone Hn) as Hn1. cbn in Hn1. subst n.
    rewrite Hn. cbn. destruct (List.find _ fills) as [g|] eqn:Eg.
    + apply find_some in Eg as [Hg Hgx]. apply list_elem_of_In in Hg. rewrite (exit_fill_unique fills g f (pp_position_id p)) by done.
      fold (exit_net f p). rewrite (proj2 (deqb_iff _ _)); [done|]. by rewrite Hpnl.
    + apply list_elem_of_In in Hf. by rewrite (find_none _ _ Eg f Hf) in Hx.
Qed.

Section Verify.
Context (initial : decimal) (s : PaperStore).
Hypothesis Hinv : ledger_inv initial s.

Lemma positions_readable : Forall (fun p => position_row_to_domain p = Ok p) (db_positions s).
Proof. eapply Forall_impl; [apply (li_positions _ _ Hinv)|]. intros p Hp. apply Hp. Qed.

Lemma get_wallet_inv : exists w, get_wallet s = Ok (Some w) /\ wa_total_funding w == 0 /\
  totals_eq (wallet_totals w) (fills_totals initial s).
Proof.
  destruct (li_wallet _ _ Hinv) as (w & Hw & Hv & Hf & Ht). exists w. split; [|done].
  unfold get_wallet, wallet_row_to_domain. rewrite Hw. by rewrite (proj2 (Z.ltb_ge _ _)) by lia.
Qed.

Lemma get_open_positions_inv : get_open_positions s = Ok (List.filter is_open_position (db_positions s)).
Proof.
  apply (mapM_readable position_row_to_domain). apply Forall_forall. intros p [Hp _]%elem_of_list_filter.
  pose proof positions_readable as H. rewrite Forall_forall in H. by apply H.
Qed.

Lemma list_all_fills_inv : list_all_fills s = Ok (db_fills s).
Proof. apply (mapM_readable fill_row_to_domain), (li_fills _ _ Hinv). Qed.

(** All the positions, in some order. *)
Lemma list_positions_inv :
  (Z.of_nat (length (db_positions s)) <= POSITIONS_LIMIT)%Z ->
  exists l, list_positions s POSITIONS_LIMIT None None None false = Ok l /\ l ≡ₚ db_positions s.
Proof.
  intros Hlen. unfold list_positions. cbn [app]. eexists. split; [|by apply list_page_all].
  apply (mapM_readable position_row_to_domain). rewrite list_page_all by done. apply positions_readable.
Qed.

Lemma verify_ok :
  (Z.of_nat (length (db_positions s)) <= POSITIONS_LIMIT)%Z -> verify_accounting_independent s initial = Ok [].
Proof.
  intros Hlen. destruct get_wallet_inv as (w & Hw & Hwf & [Hc Hfe Hs Hre]).
  destruct (list_positions_inv Hlen) as (l & Hl & Hperm). unfold verify_accounting_independent, reconstruct_wallet.
  rewrite Hw. cbn [mbind res_bind]. rewrite Hl, list_all_fills_inv, get_open_positions_inv. cbn [mbind res_bind].
  unfold list_funding_events. rewrite (li_funding _ _ Hinv).
  rewrite (fold_totals_ext l (db_positions s)); fold (fills_totals initial s).
  2: { intros id _. pose proof (li_ids _ _ Hinv) as Hids. rewrite !price_at_get by (by rewrite ?Hperm).
       rewrite (get_by_perm _ l (db_positions s)); [done|done|by rewrite Hperm]. }
  rewrite wallet_issues_none; cbn [rw_cash rw_total_fees rw_total_slippage rw_total_realized_pnl rw_total_funding]; try done.
  2: { rewrite dadd_zero; [done|]. apply fills_totals_representable, (li_initial _ _ Hinv). }
  destruct (exit_counts_spec _ (li_exits _ _ Hinv)) as [Hone _].
  rewrite (duplicates_none _ (exit_counts _)) by done. rewrite missing_none by apply (li_fills _ _ Hinv).
  rewrite duplicates_none by constructor. cbn [app]. f_equal.
  assert (Hall : Forall (fun p => position_issues (db_fills s) (exit_counts (db_fills s)) p = []) l).
  { rewrite Hperm. eapply Forall_impl; [apply (li_positions _ _ Hinv)|]. intros p Hp.
    apply position_issues_none; [apply (li_exits _ _ Hinv)|done]. }
  clear -Hall. induction Hall as [|p l Hp _ IH]; cbn; [done|]. by rewrite Hp.
Qed.
End Verify.
