(* ===== verification/PaperReconcile.v ===== *)
(** * Paper trading keeps its books (services/paper_trading/)

    Every operation of PaperExecution, PaperStops, PaperIntents, PaperRecovery
    and PaperRuntime refines the steps of the ledger, so that in every state the
    program can reach the independent verification of the accounting agrees with
    the wallet. *)
From Stdlib Require Import ZArith QArith Lqa Lia.
From stdpp Require Import base list gmap sets strings relations.
From S2P Require Import Prelude Decimal StrategyModels RiskModels BtModels BtData BtPortfolio PaperLifecycle MarketModels.
From S2P Require Import PaperModels PaperSession Transitions PaperRuntime PaperRepository PaperAccounting PaperExecution PaperStops.
From S2P Require Import PaperIntents PaperRecovery PaperLedger.
From S2P Require RiskEngine.

Local Open Scope Q_scope.
#[local] Opaque rnd.

(** ** The operations as steps of the ledger *)

Lemma open_position_ok s symbol p :
  get_open_position_for_symbol s symbol = Ok (Some p) ->
  p ∈ db_positions s /\ is_open_position p = true /\ pp_symbol p = symbol /\ readable_position p.
Proof.
  unfold get_open_position_for_symbol. intros ([r|] & Hr & H)%bind_ok; [|done].
  apply bind_ok in H as (q & Hq & H). injection H as ->. apply position_row_ok in Hq as [-> Hrd].
  destruct (List.filter _ _) as [|x [|]] eqn:E; try done. injection Hr as ->.
  assert (Hin : r ∈ List.filter (fun p => bool_decide (pp_symbol p = symbol) && is_open_position p) (db_positions s)) by (rewrite E; by left).
  apply elem_of_list_filter in Hin as [Hin [Hs Ho]%andb_true_iff]. by apply bool_decide_eq_true in Hs.
Qed.

Lemma update_wallet_ok s now d v t w s' :
  update_wallet s now d v t = Ok (w, s') ->
  exists w0, db_wallet s = Some w0 /\ s' = with_wallet s (apply_delta w0 d (default now t)).
Proof.
  unfold update_wallet. intros (w0 & Hw0 & H)%bind_ok. apply or_raise_ok in Hw0. case_match; [done|].
  apply bind_ok in H as (w1 & _ & H). injection H as _ <-. by exists w0.
Qed.

Lemma flush_position_ok s row s' :
  flush_position s row = Ok s' -> position_check row = true /\ s' = with_positions s (replace_position row (db_positions s)).
Proof. unfold flush_position. destruct (position_check row) eqn:E; [|done]. cbn. case_match; [done|]. by intros [= <-]. Qed.

Lemma fill_inserted_ok s row f s' :
  insert_or_get_paper_fill s row = Ok (f, true, s') ->
  f = row /\ readable_fill row /\ s' = with_fills s (db_fills s ++ [row]).
Proof.
  unfold insert_or_get_paper_fill. intros (e & _ & H)%bind_ok. destruct e as [g|].
  - by apply bind_ok in H as (g' & _ & H).
  - apply bind_ok in H as ([[r b] rows] & Hi & H). apply bind_ok in H as (r' & Hr & H). injection H as <- -> <-.
    apply insert_or_get_ok in Hi as [-> [-> _ _ _]]. apply fill_row_ok in Hr as [-> Hrd]. done.
Qed.

Lemma fill_existing_ok s row f s' :
  insert_or_get_paper_fill s row = Ok (f, false, s') -> db_fills s' = db_fills s /\ s' = with_fills s (db_fills s) \/ s' = s.
Proof.
  unfold insert_or_get_paper_fill. intros (e & _ & H)%bind_ok. destruct e as [g|].
  - apply bind_ok in H as (g' & _ & H). injection H as _ <-. by right.
  - apply bind_ok in H as ([[r b] rows] & Hi & H). apply bind_ok in H as (r' & Hr & H). injection H as _ -> <-.
    apply insert_or_get_ok in Hi as [-> _]. by left.
Qed.

Lemma capture_snapshot_same s id t event candles closes c n b s' :
  capture_snapshot s id t event candles closes c = Ok (n, b, s') -> same_ledger s s'.
Proof.
  unfold capture_snapshot. intros (w & _ & H)%bind_ok. apply bind_ok in H as (w' & _ & H).
  apply bind_ok in H as (ps & _ & H). apply bind_ok in H as ([[sn cr] s1] & Hi & H). injection H as _ _ <-.
  unfold insert_or_get_portfolio_snapshot in Hi. apply bind_ok in Hi as ([[r b'] rows] & _ & Hi). injection Hi as _ <- <-.
  by destruct b'.
Qed.

Lemma step_same s s' : same_ledger s s' -> rtc ledger_step s s'.
Proof. intros H. by apply rtc_once, LedgerSame. Qed.

(** The row the session finds is the position that was read. *)
Lemma row_of_position initial s p row :
  ledger_inv initial s -> p ∈ db_positions s -> get_by pp_position_id (db_positions s) (pp_position_id p) = Some row -> row = p.
Proof. intros Hinv Hp Hr. rewrite get_by_unique in Hr by (apply Hinv || done). by injection Hr. Qed.

Lemma book_trailing_steps initial s id p st atr t c b s' :
  ledger_inv initial s -> p ∈ db_positions s -> is_open_position p = true ->
  book_trailing_update s id p st atr t c = Ok (b, s') -> rtc ledger_step s s'.
Proof.
  intros Hinv Hin Ho H. unfold book_trailing_update in H. apply bind_ok in H as ([[ev created] s1] & Hi & H).
  unfold insert_or_get_stop_event in Hi. apply bind_ok in Hi as ([[r b'] rows] & _ & Hi). apply bind_ok in Hi as (r' & _ & Hi).
  injection Hi as _ -> <-. destruct (negb created); [injection H as _ <-; by apply step_same|].
  apply bind_ok in H as (row & Hrow & H). apply or_raise_ok in Hrow. cbn in Hrow.
  apply (row_of_position initial) in Hrow as ->; [|done..].
  apply bind_ok in H as (s2 & Hf & H). apply flush_position_ok in Hf as [Hchk ->]. injection H as _ <-.
  apply rtc_once. apply (LedgerTrail _ _ p (ts_effective_stop st) (ts_highest_close st)); try done.
  unfold position_check in Hchk. cbn in Hchk. apply andb_true_iff in Hchk as [[_ Hle]%andb_true_iff _]. by apply dleb_le.
Qed.

(** *** Closes by a stop *)

Lemma exit_accounting_fields ref q e bps rate x :
  compute_exit_accounting ref q e bps rate = Ok x ->
  xa_gross_pnl x = dmul (dsub (xa_fill_price x) e) q /\ xa_net_wallet_delta x = dsub (xa_gross_pnl x) (xa_fee x).
Proof. unfold compute_exit_accounting. intros (fill & _ & H)%bind_ok. injection H as <-. done. Qed.

Lemma book_exit_steps initial s now id p trigger x t c closed s' :
  ledger_inv initial s -> p ∈ db_positions s -> is_open_position p = true ->
  xa_gross_pnl x = dmul (dsub (xa_fill_price x) (pp_average_entry_price p)) (pp_quantity p) ->
  xa_net_wallet_delta x = dsub (xa_gross_pnl x) (xa_fee x) ->
  book_exit s now id p trigger x t c = Ok (closed, s') -> rtc ledger_step s s'.
Proof.
  intros Hinv Hin Ho Hg Hn H. unfold book_exit in H.
  destruct (get_by _ _ _) as [row|] eqn:Er; [|injection H as _ <-; done].
  apply (row_of_position initial) in Er as ->; [|done..]. case_match; [injection H as _ <-; done|].
  apply bind_ok in H as ([[f created] s1] & Hi & H). destruct created; cbn [negb] in H.
  2: { injection H as _ <-. apply fill_existing_ok in Hi as [[Hf ->]| ->]; [|done]. by apply step_same. }
  apply fill_inserted_ok in Hi as (-> & Hrd & ->).
  apply bind_ok in H as (s2 & H2 & H). apply flush_position_ok in H2 as [_ ->].
  apply bind_ok in H as ([w s3] & H3 & H). apply update_wallet_ok in H3 as (w0 & Hw & ->). cbn in Hw.
  apply bind_ok in H as (s4 & H4 & H). apply flush_position_ok in H4 as [_ ->]. injection H as _ <-.
  apply rtc_once. apply (LedgerExit _ _ (exit_fill id p trigger x t) p t); try done.
  - exists w0, t. split; [done|]. cbn. unfold exit_delta, exit_net, exit_gross. cbn. by rewrite Hn, Hg.
  - cbn. unfold exit_net, exit_gross. cbn. rewrite <- Hg. unfold replace_position, update_where. rewrite <- list_fmap_compose.
    apply list_fmap_ext. intros i b _. cbn. destruct (decide (pp_position_id b = pp_position_id p)) as [He|He].
    + rewrite (bool_decide_eq_true_2 _ He). cbn. by rewrite bool_decide_eq_true_2.
    + rewrite !(bool_decide_eq_false_2 _ He). done.
Qed.

(** *** An invariant of the session operations

    What an invariant must be kept by to be kept by the trailing updates and
    the stop closes, also when they raise halfway. *)

Section SessionInvariant.
Context (I : PaperStore -> Prop).
Hypothesis I_snapshot : forall s id t event candles closes c n b s',
  I s -> capture_snapshot s id t event candles closes c = Ok (n, b, s') -> I s'.

(** The open position of a symbol was just read. *)
Definition with_open_position (symbol : string) (p : PaperPosition) (s : PaperStore) : Prop :=
  I s /\ get_open_position_for_symbol s symbol = Ok (Some p).

Lemma keeps_open_position {A} symbol (k : option PaperPosition -> sx PaperStore A) :
  keeps I (k None) -> (forall p, hoare (with_open_position symbol p) (k (Some p)) (fun _ => I) (fun _ => I)) ->
  keeps I (reads (fun s => get_open_position_for_symbol s symbol) ≫= k).
Proof.
  intros Hn Hs. eapply hoare_bind; [by apply hoare_reads|]. intros [p|].
  - eapply hoare_mono; [apply Hs|..]; done.
  - eapply hoare_mono; [apply Hn|..]; try done. by intros s [? _].
Qed.

Lemma opened_inv symbol p s : with_open_position symbol p s -> I s.
Proof. by intros [? _]. Qed.

Lemma keeps_snapshot {A} id t event candles closes c (k : PortfolioSnapshot * bool -> sx PaperStore A) :
  (forall a, keeps I (k a)) -> keeps I (writes (fun s => capture_snapshot s id t event candles closes c) ≫= k).
Proof. intros Hk. apply hoare_write; [done| |done]. intros s [n b] s'. apply I_snapshot. Qed.

Lemma trailing_keeps t candles atrs constraints params c ids :
  (forall s symbol p tick close st id atr b s', with_open_position symbol p s ->
     compute_trailing_update (trailing_state p) close atr params tick = Ok st ->
     book_trailing_update s id p st atr t c = Ok (b, s') -> I s') ->
  keeps I (update_daily_trailing_stops t candles atrs constraints params c ids).
Proof.
  intros Hb. apply keeps_fold. intros results symbol. unfold update_trailing_for_symbol.
  apply keeps_open_position; [apply keeps_ret|]. intros p. pose proof (opened_inv symbol p) as HI.
  destruct (od_get candles symbol) as [candle|]; [|by apply hoare_from_keeps, keeps_ret].
  destruct (negb _); [by apply hoare_from_keeps, keeps_ret|].
  destruct (constraints !! symbol) as [con|]; [|by apply hoare_from_keeps, keeps_ret].
  apply hoare_from_res; [done|]. intros st Hst. case_match; [by apply hoare_from_keeps, keeps_ret|].
  apply hoare_write; [done|by intros; eapply Hb|]. intros created. destruct (negb created); [apply keeps_ret|].
  apply keeps_snapshot. intros []. apply keeps_ret.
Qed.

Lemma triggers_keeps config now t candles constraints c b1 b2 ids l results :
  (forall s symbol p id trigger x b s', with_open_position symbol p s ->
     compute_exit_accounting (st_exit_reference trigger) (pp_quantity p) (pp_average_entry_price p)
       (pc_paper_slippage_bps config) (pc_paper_fee_rate config) = Ok x ->
     book_exit s now id p trigger x t c = Ok (b, s') -> I s') ->
  keeps I (foldS (stop_trigger_for_symbol config now t candles constraints c b1 b2 ids) l results).
Proof.
  intros Hb. apply keeps_fold. intros results' symbol. unfold stop_trigger_for_symbol.
  apply keeps_open_position; [apply keeps_ret|]. intros p. pose proof (opened_inv symbol p) as HI.
  destruct (od_get candles symbol) as [candle|]; [|by apply hoare_from_keeps, keeps_ret].
  case_match; [by apply hoare_from_keeps, keeps_ret|].
  eapply hoare_bind; [|intros out; apply keeps_ret]. unfold _close_if_stopped.
  destruct (constraints !! symbol) as [con|]; [|by apply hoare_from_keeps, keeps_ret].
  destruct (stop_trigger _ _ _ _) as [trigger|]; [|by apply hoare_from_keeps, keeps_ret].
  apply hoare_from_res; [done|]. intros x Hx. apply hoare_write; [done|by intros; eapply Hb|].
  intros closed. destruct (negb closed); [apply keeps_ret|]. apply keeps_snapshot. intros []. apply keeps_ret.
Qed.
End SessionInvariant.

(** *** Entries *)

Lemma intent_status_same s now id st q r t i s' : update_intent_status s now id st q r t = Ok (i, s') -> same_ledger s s'.
Proof. unfold update_intent_status. intros (row & _ & H)%bind_ok. injection H as _ <-. done. Qed.

Lemma rnd_pos q : 0 < q -> 0 < rnd q.
Proof. intros H. pose proof (dmul_pos q 1 H ltac:(lra)) as H1. unfold dmul in H1. rewrite Qmult_1_r in H1. exact H1. Qed.

Lemma margin_pos notional lev m : 0 < notional -> position_margin notional lev = Ok m -> 0 < m.
Proof.
  intros Hn H. unfold position_margin in H. destruct (lev ≤ᵈ 0) eqn:E; [by injection H as <-|].
  apply dleb_gt in E. apply ddiv_inv in H as [_ ->]. by apply rnd_pos, Qdiv_pos.
Qed.

(** What the calculation promises of an approved entry. *)
Record approved_ok (a : EntryExecutionApproved) : Prop := {
  ap_fee : representable (ea_fee (eap_accounting a));
  ap_margin : 0 < eap_quantity a -> 0 < ef_fill_price (eap_fill_prices a) -> 0 < ea_margin_reserved (eap_accounting a);
}.

Lemma compute_entry_approved inputs a : compute_entry_execution inputs = Ok (EntryApproved a) -> approved_ok a.
Proof.
  unfold compute_entry_execution. intros (con & _ & H)%bind_ok. case_match; [done|].
  apply bind_ok in H as (prices & _ & H). apply bind_ok in H as (d & _ & H).
  destruct (rd_approved d), (rd_rounded_quantity d) as [q|]; try done.
  apply bind_ok in H as (acc & Hacc & H). case_match; [done|]. injection H as <-.
  unfold compute_entry_accounting in Hacc. apply bind_ok in Hacc as (m & Hm & Hacc).
  apply bind_ok in Hacc as (tr & _ & Hacc). injection Hacc as <-. split; cbn.
  - apply representable_rnd.
  - intros Hq Hp. eapply margin_pos; [|exact Hm]. by apply dmul_pos.
Qed.

Lemma readable_fill_pos f : readable_fill f -> 0 < fi_quantity f /\ 0 < fi_fill_price f.
Proof.
  unfold readable_fill, fill_row_to_domain. destruct (_ || _ || _) eqn:E; [done|]. intros _.
  apply orb_false_iff in E as [[Hq _]%orb_false_iff Hp]. dec_bool. done.
Qed.

Lemma position_inserted s p q s' :
  create_position s p = Ok (q, s') ->
  q = p /\ readable_position p /\ s' = with_positions s (db_positions s ++ [p]) /\
  pp_position_id p ∉ pp_position_id <$> db_positions s /\
  (is_open_position p = true -> pp_symbol p ∉ pp_symbol <$> List.filter is_open_position (db_positions s)).
Proof.
  unfold create_position. intros (rows & Hi & H)%bind_ok. apply bind_ok in H as (r & Hr & H). injection H as -> <-.
  apply position_row_ok in Hr as [-> Hrd]. apply insert_ok in Hi as [-> _ Hu _]. split_and!; try done.
  - intros (r & He & Hr)%list_elem_of_fmap. specialize (Hu r Hr). cbn in Hu. apply orb_false_iff in Hu as [Hu _].
    by apply bool_decide_eq_false in Hu.
  - intros Ho (r & He & Hr)%list_elem_of_fmap. apply elem_of_list_filter in Hr as [Hr Hor]. specialize (Hu r Hr). cbn in Hu.
    apply orb_false_iff in Hu as [_ Hu]. unfold same_open_symbol in Hu. rewrite Ho, Hor in Hu. by apply bool_decide_eq_false in Hu.
Qed.

Lemma persist_steps s now ids i a open_ref t atr c r s' :
  approved_ok a -> _persist_successful_fill s now ids i a open_ref t atr c = Ok (r, s') -> rtc ledger_step s s'.
Proof.
  intros [Hfee Hmargin] H. unfold _persist_successful_fill in H.
  apply bind_ok in H as ([[o oc] s1] & Ho & H). unfold insert_or_get_paper_order in Ho.
  apply bind_ok in Ho as ([[o' b] rows] & _ & Ho). apply bind_ok in Ho as (o2 & _ & Ho). injection Ho as -> <- <-.
  apply bind_ok in H as ([[f created] s2] & Hf & H). destruct created; cbn [negb] in H.
  2: { apply bind_ok in H as (p0 & _ & H). apply bind_ok in H as (p1 & _ & H). injection H as _ <-. apply step_same.
       apply fill_existing_ok in Hf as [[Hf ->]| ->]; done. }
  apply fill_inserted_ok in Hf as (-> & Hrd & ->).
  apply bind_ok in H as ([w s3] & Hw & H). apply update_wallet_ok in Hw as (w0 & Hw & ->). cbn in Hw.
  apply bind_ok in H as ([p s4] & Hp & H). apply position_inserted in Hp as (-> & Hrp & -> & Hid & Hsym). cbn in Hid, Hsym.
  apply bind_ok in H as ([ui s5] & Hi & H). injection H as _ <-. apply intent_status_same in Hi as (Hi1 & Hi2 & Hi3 & Hi4).
  destruct (readable_fill_pos _ Hrd) as [Hq Hpr].
  apply rtc_once.
  apply (LedgerEntry _ _ (entry_fill ids (or_paper_order_id o) i a open_ref t) (entry_position ids i a t atr)); try done.
  - by apply Hmargin.
  - by apply Hsym.
  - exists w0, (default now None). split; [done|]. cbn. by rewrite Hi1.
Qed.

Lemma fill_steps s now ids i fx processed pending c out s' :
  execute_scheduled_paper_fill s now ids i fx processed pending c = Ok (out, s') -> rtc ledger_step s s'.
Proof.
  unfold execute_scheduled_paper_fill. intros (con & _ & H)%bind_ok. apply bind_ok in H as ([ex|] & _ & H); [injection H as _ <-; done|].
  apply bind_ok in H as (ps & _ & H). case_match; [injection H as _ <-; done|].
  apply bind_ok in H as (w & _ & H). apply bind_ok in H as (w' & _ & H). apply bind_ok in H as (calc & Hc & H). destruct calc as [r|a].
  - apply bind_ok in H as (s1 & Hr & H). injection H as _ <-. unfold reject_fill in Hr.
    apply bind_ok in Hr as ([ri s2] & Hr & H). injection H as <-. apply intent_status_same in Hr. by apply step_same.
  - apply bind_ok in H as ([r s1] & Hp & H). injection H as _ <-. apply compute_entry_approved in Hc. by eapply persist_steps.
Qed.

(** *** The batch at the open *)

Lemma submit_intent_steps env ctxs symbol ctx ids i s out s' :
  submit_intent env ctxs symbol ctx ids i s = Ok (out, s') -> rtc ledger_step s s'.
Proof.
  unfold submit_intent. intros H. case_match.
  - apply bind_ok in H as (u & _ & H). apply bind_ok in H as ([i' s1] & Hi & H). injection H as _ <-.
    apply step_same. by eapply intent_status_same.
  - apply bind_ok in H as (u & _ & H). apply bind_ok in H as ([i' s1] & Hi & H). apply bind_ok in H as ([o s2] & Hf & H).
    injection H as _ <-. eapply rtc_l; [by eapply LedgerSame, intent_status_same|]. by apply fill_steps in Hf.
Qed.

(** A batch keeps what each of its transactions keeps. *)
Lemma batch_keeps (I : PaperStore -> Prop) env delay ctxs :
  (forall s symbol ctx ids i out s', I s -> submit_intent env ctxs symbol ctx ids i s = Ok (out, s') -> I s') ->
  keeps I (process_scheduled_intents_for_open env delay ctxs).
Proof.
  intros Hi. apply keeps_bind; [|intros [results ids]; apply keeps_ret]. apply keeps_fold. intros [results ids] symbol. unfold process_symbol.
  destruct (od_get ctxs symbol) as [ctx|]; [|apply keeps_ret]. destruct (_ <? _)%Z; [apply keeps_ret|].
  apply keeps_bind; [apply keeps_gets|]. intros intents. apply keeps_bind; [|intros st; apply keeps_ret].
  apply keeps_fold. intros st i. unfold process_intent. destruct (negb _); [apply keeps_ret|].
  apply hoare_write; [done| |intros [out|]; apply keeps_ret]. intros s out s' Ha H. by eapply Hi.
Qed.

(** *** The session operations make steps, also when they raise *)

Section SessionSteps.
Context (initial : decimal) (s0 : PaperStore) (Hinv : ledger_inv initial s0).

Definition after (s : PaperStore) : Prop := rtc ledger_step s0 s.

Lemma after_inv s : after s -> ledger_inv initial s.
Proof. intros H. by eapply ledger_steps_inv. Qed.

Lemma after_snapshot s id t event candles closes c n b s' :
  after s -> capture_snapshot s id t event candles closes c = Ok (n, b, s') -> after s'.
Proof. intros H Hc. eapply rtc_r; [exact H|]. by eapply LedgerSame, capture_snapshot_same. Qed.

Lemma trailing_steps t candles atrs constraints params c ids :
  keeps after (update_daily_trailing_stops t candles atrs constraints params c ids).
Proof.
  apply trailing_keeps; [apply after_snapshot|]. intros s symbol p tick close st id atr b s' [Ha Hp] _ H.
  apply open_position_ok in Hp as (Hin & Ho & _ & _). unfold after. etransitivity; [exact Ha|].
  by eapply book_trailing_steps; [apply after_inv|..].
Qed.

Lemma triggers_steps config now t candles constraints c b1 b2 ids l results :
  keeps after (foldS (stop_trigger_for_symbol config now t candles constraints c b1 b2 ids) l results).
Proof.
  apply triggers_keeps; [apply after_snapshot|]. intros s symbol p id trigger x b s' [Ha Hp] Hx H.
  apply open_position_ok in Hp as (Hin & Ho & _ & _). apply exit_accounting_fields in Hx as [Hg Hn]. unfold after. etransitivity; [exact Ha|].
  by eapply book_exit_steps; [apply after_inv|..].
Qed.

Lemma batch_steps env delay ctxs : keeps after (process_scheduled_intents_for_open env delay ctxs).
Proof.
  apply batch_keeps. intros s symbol ctx ids i out s' Ha H. unfold after. etransitivity; [exact Ha|].
  by eapply submit_intent_steps.
Qed.
End SessionSteps.

(** *** Operations that leave the ledger alone *)

Lemma same_ledger_trans s1 s2 s3 : same_ledger s1 s2 -> same_ledger s2 s3 -> same_ledger s1 s3.
Proof. intros (?&?&?&?) (?&?&?&?). split_and!; congruence. Qed.

Lemma update_runtime_same s u r s' : update_runtime_state s u = Ok (r, s') -> same_ledger s s'.
Proof.
  unfold update_runtime_state. intros (row & _ & H)%bind_ok. case_match; [done|]. by injection H as _ <-.
Qed.

Lemma transition_same s now target e c r s' : transition s now target e c = Ok (r, s') -> same_ledger s s'.
Proof.
  unfold transition. intros H. apply bind_ok in H as (cur & _ & H). apply bind_ok in H as (u & _ & H).
  apply bind_ok in H as ([st s1] & Hu & H). injection H as _ <-. by apply update_runtime_same in Hu.
Qed.

Lemma heartbeat_same s now r s' : heartbeat s now = Ok (r, s') -> same_ledger s s'.
Proof. unfold heartbeat. intros (cur & _ & H)%bind_ok. by apply update_runtime_same in H. Qed.

Lemma set_paused_same s now b r s' : set_paused s now b = Ok (r, s') -> same_ledger s s'.
Proof.
  unfold set_paused. intros (cur & _ & H)%bind_ok. apply bind_ok in H as ([st s1] & Hu & H). injection H as _ <-.
  by apply update_runtime_same in Hu.
Qed.

Lemma set_kill_switch_same s now b r s' : set_kill_switch s now b = Ok (r, s') -> same_ledger s s'.
Proof.
  unfold set_kill_switch. intros (cur & _ & H)%bind_ok. apply bind_ok in H as ([st s1] & Hu & H). injection H as _ <-.
  by apply update_runtime_same in Hu.
Qed.

Lemma order_status_same s now id st q t o s' : update_order_status s now id st q t = Ok (o, s') -> same_ledger s s'.
Proof.
  unfold update_order_status. intros H. case_match; [done|]. apply bind_ok in H as (row & _ & H).
  apply bind_ok in H as (o' & _ & H). injection H as _ <-. done.
Qed.

Lemma repair_same now acc i acc' : repair_issue now acc i = Ok acc' -> same_ledger acc.2 acc'.2.
Proof.
  destruct acc as [repairs s]. unfold repair_issue. intros H. cbn [snd].
  case_match; [injection H as <-; done|]. case_match; [injection H as <-; done|]. case_match.
  { apply bind_ok in H as (id & _ & H). apply bind_ok in H as (ok & _ & H). case_match; [injection H as <-; done|].
    apply bind_ok in H as ([o s1] & Ho & H). injection H as <-. by eapply order_status_same. }
  case_match.
  { apply bind_ok in H as (id & _ & H). apply bind_ok in H as (ok & _ & H). case_match; [injection H as <-; done|].
    apply bind_ok in H as ([o s1] & Ho & H). injection H as <-. by eapply intent_status_same. }
  case_match; [|injection H as <-; done]. destruct (db_runtime s); [|injection H as <-; done].
  apply bind_ok in H as ([o s1] & Ho & H). injection H as <-. by eapply update_runtime_same.
Qed.

Lemma repairs_same now s issues repairs s' : apply_auto_repairs now s issues = Ok (repairs, s') -> same_ledger s s'.
Proof.
  intros H. refine (foldM_inv (repair_issue now) (fun acc => same_ledger s acc.2) issues ([], s) (repairs, s') _ _ H); [done|].
  intros acc i acc' _ Ha Hi. eapply same_ledger_trans; [exact Ha|by eapply repair_same].
Qed.

Lemma check_and_repair_same config now s issues repairs s' :
  check_and_repair config now s = Ok (issues, repairs, s') -> same_ledger s s'.
Proof.
  unfold check_and_repair. intros (i1 & _ & H)%bind_ok. apply bind_ok in H as ([r s1] & Hr & H).
  apply bind_ok in H as (i2 & _ & H). apply bind_ok in H as (a & _ & H). apply repairs_same in Hr. destruct a as [a|].
  - apply bind_ok in H as (s2 & Hs2 & H). injection H as _ _ <-. unfold _record_accounting_incident in Hs2.
    apply bind_ok in Hs2 as (rt & _ & Hs2). injection Hs2 as <-. done.
  - injection H as _ _ <-. done.
Qed.

Lemma fail_same s now code s' : _fail_recovery s now code = Ok s' -> same_ledger s s'.
Proof.
  unfold _fail_recovery. intros ([r s1] & Ht & H)%bind_ok. apply bind_ok in H as (rt & _ & H). injection H as <-.
  by apply transition_same in Ht.
Qed.

Lemma finish_same s st issues repairs r s' : finish s st issues repairs = Ok (r, s') -> s' = s.
Proof. unfold finish. intros (x & _ & H)%bind_ok. by injection H as _ <-. Qed.

Lemma degrade_same s now reason issues repairs r s' : degrade s now reason issues repairs = Ok (r, s') -> same_ledger s s'.
Proof.
  unfold degrade. intros ([x s1] & Ht & H)%bind_ok. apply finish_same in H as ->. by apply transition_same in Ht.
Qed.

Lemma recover_ready_same config now s m r s' : recover_ready config now s m = Ok (r, s') -> same_ledger s s'.
Proof.
  unfold recover_ready. intros ([[issues repairs] s1] & Hc & H)%bind_ok. apply check_and_repair_same in Hc.
  eapply same_ledger_trans; [exact Hc|]. destruct (of_severity FATAL issues) as [|f l].
  - destruct (of_severity MANUAL issues); [|by eapply degrade_same].
    destruct (negb m); [by eapply degrade_same|]. by apply finish_same in H as ->.
  - apply bind_ok in H as (s2 & Hf & H). apply finish_same in H as ->. by eapply fail_same.
Qed.

Lemma recover_other_same config now s rt m head id r s' :
  recover_other config now s rt m head id = Ok (r, s') -> same_ledger s s'.
Proof.
  unfold recover_other. intros (s1 & H1 & H)%bind_ok.
  assert (Hs1 : same_ledger s s1).
  { case_decide; [|by injection H1 as <-]. apply bind_ok in H1 as ([x s2] & Ht & H1). injection H1 as <-. by eapply transition_same. }
  clear H1. eapply same_ledger_trans; [exact Hs1|]. apply bind_ok in H as ([x s2] & Ht & H).
  eapply same_ledger_trans; [by eapply transition_same|]. destruct (negb head).
  { apply bind_ok in H as (s3 & Hf & H). apply finish_same in H as ->. by eapply fail_same. }
  apply bind_ok in H as ([[issues repairs] s3] & Hc & H). eapply same_ledger_trans; [by eapply check_and_repair_same|].
  destruct (of_severity FATAL issues) as [|f l].
  2: { apply bind_ok in H as (s4 & Hf & H). apply finish_same in H as ->. by eapply fail_same. }
  apply bind_ok in H as ([y s4] & Ht' & H). eapply same_ledger_trans; [by eapply transition_same|].
  destruct (negb m); [by eapply degrade_same|]. destruct (of_severity MANUAL issues); [|by eapply degrade_same].
  apply bind_ok in H as ([z s5] & Hz & H). eapply same_ledger_trans; [by eapply transition_same|].
  apply bind_ok in H as ([[sn b] s6] & Hn & H). apply finish_same in H as ->. by eapply capture_snapshot_same.
Qed.

Lemma recover_same config env s r s' : recover_and_record config env s = Ok (r, s') -> same_ledger s s'.
Proof.
  unfold recover_and_record. intros ([res s1] & H1 & H)%bind_ok.
  assert (Hs1 : same_ledger s s1).
  { clear H. unfold recover_on_startup in H1. case_match; [done|]. case_match; [done|]. apply bind_ok in H1 as (rt & _ & H1).
    case_decide; [by eapply recover_ready_same|by eapply recover_other_same]. }
  destruct (db_runtime s1); injection H as _ <-; exact Hs1.
Qed.

Lemma evaluation_same d1 d2 d3 h s id1 id2 symbol t bundle params config gates at_ ready c r s' :
  evaluate_symbol_for_daily_close d1 d2 d3 h s id1 id2 symbol t bundle params config gates at_ ready c = Ok (r, s') ->
  same_ledger s s'.
Proof.
  unfold evaluate_symbol_for_daily_close. intros H. case_match; [done|]. case_match; [done|].
  destruct (last _) as [cd|]; [|done]. case_match; [done|]. apply bind_ok in H as (ev & _ & H). unfold record_evaluation in H.
  apply bind_ok in H as ([[e b] s1] & He & H). unfold insert_or_get_strategy_evaluation in He.
  apply bind_ok in He as ([[e' b'] rows] & _ & He). injection He as _ _ <-.
  case_match; [injection H as _ <-; done|]. apply bind_ok in H as ([[[i b2] bl] s2] & Hi & H). injection H as _ <-.
  assert (Hs2 : same_ledger s s2).
  { unfold create_intent_from_evaluation in Hi. case_match; [injection Hi as _ _ _ <-; done|].
    apply bind_ok in Hi as (et & _ & Hi). apply bind_ok in Hi as (en & _ & Hi). apply bind_ok in Hi as (st & _ & Hi).
    apply bind_ok in Hi as ([[ti b3] s3] & Ht & Hi). injection Hi as _ _ _ <-. unfold insert_or_get_trade_intent in Ht.
    apply bind_ok in Ht as ([[ti' b4] rows'] & _ & Ht). injection Ht as _ _ <-. done. }
  destruct i; [|exact Hs2]. destruct b2; exact Hs2.
Qed.

(** ** Reachable states *)

(** The operations of the program.  Those on the session end in a result or
    an exception, and both leave a state.  Those on the scheduler runs, the
    event groups and the audit log change their own table only.  A fill is part of the batch at an open,
    whose order ids are random. *)
Inductive paper_step (s : PaperStore) : PaperStore -> Prop :=
  | StepEvaluate d1 d2 d3 h id1 id2 symbol t bundle params config gates at_ ready c r s' :
      evaluate_symbol_for_daily_close d1 d2 d3 h s id1 id2 symbol t bundle params config gates at_ ready c = Ok (r, s') ->
      paper_step s s'
  | StepOpen env delay ctxs out s' :
      (forall id, uuid_text (id_order (be_ids env id))) ->
      process_scheduled_intents_for_open env delay ctxs s = (out, s') -> paper_step s s'
  | StepTrailing t candles atrs constraints params c ids out s' :
      update_daily_trailing_stops t candles atrs constraints params c ids s = (out, s') -> paper_step s s'
  | StepDailyStops config now t candles constraints c at_open ids out s' :
      process_stop_triggers_for_daily_candle config now t candles constraints c at_open ids s = (out, s') -> paper_step s s'
  | StepIntradayStops config now t candles constraints c ids out s' :
      process_intraday_stop_triggers config now t candles constraints c ids s = (out, s') -> paper_step s s'
  | StepSnapshot id t event candles closes c n b s' :
      capture_snapshot s id t event candles closes c = Ok (n, b, s') -> paper_step s s'
  | StepRecover config env r s' : recover_and_record config env s = Ok (r, s') -> paper_step s s'
  | StepTransition now target e c r s' : transition s now target e c = Ok (r, s') -> paper_step s s'
  | StepHeartbeat now r s' : heartbeat s now = Ok (r, s') -> paper_step s s'
  | StepPaused now b r s' : set_paused s now b = Ok (r, s') -> paper_step s s'
  | StepKillSwitch now b r s' : set_kill_switch s now b = Ok (r, s') -> paper_step s s'
  | StepRuns rows : paper_step s (with_runs s rows)
  | StepGroups rows : paper_step s (with_group_states s rows)
  | StepCursor cursor : paper_step s (with_group_rotation_cursor s cursor)
  | StepAudit rows : paper_step s (with_audit s rows).

Lemma paper_step_refines initial s s' : ledger_inv initial s -> paper_step s s' -> rtc ledger_step s s'.
Proof.
  intros Hinv []; try by apply step_same.
  - by eapply step_same, evaluation_same.
  - eapply (keeps_run _ _ _ _ _ (batch_steps s _ _ _)); [apply rtc_refl|eassumption].
  - eapply (keeps_run _ _ _ _ _ (trailing_steps initial s Hinv _ _ _ _ _ _ _)); [apply rtc_refl|eassumption].
  - eapply (keeps_run _ _ _ _ _ (triggers_steps initial s Hinv _ _ _ _ _ _ _ _ _ _ _)); [apply rtc_refl|eassumption].
  - eapply (keeps_run _ _ _ _ _ (triggers_steps initial s Hinv _ _ _ _ _ _ _ _ _ _ _)); [apply rtc_refl|eassumption].
  - by eapply step_same, capture_snapshot_same.
  - by eapply step_same, recover_same.
  - by eapply step_same, transition_same.
  - by eapply step_same, heartbeat_same.
  - by eapply step_same, set_paused_same.
  - by eapply step_same, set_kill_switch_same.
Qed.

(** The migration seeds the wallet with the initial equity. *)
Record seeded (initial : decimal) (s : PaperStore) : Prop := {
  sd_fills : db_fills s = [];
  sd_positions : db_positions s = [];
  sd_funding : db_funding s = [];
  sd_wallet : exists w, db_wallet s = Some w /\ (1 <= wa_version w)%Z /\ wa_cash w == initial /\
    wa_total_fees w == 0 /\ wa_total_slippage w == 0 /\ wa_total_realized_pnl w == 0 /\ wa_total_funding w == 0;
}.

Lemma seeded_inv initial s : representable initial -> seeded initial s -> ledger_inv initial s.
Proof.
  intros Hi [Hf Hp Hfu (w & Hw & Hv & Hc & Hfe & Hs & Hr & Hfn)]. split; rewrite ?Hf, ?Hp; try done; try apply NoDup_nil; try apply Forall_nil; try done.
  exists w. split_and!; try done. unfold fills_totals. rewrite Hf. by split.
Qed.

Lemma reachable_inv initial s s' : ledger_inv initial s -> rtc paper_step s s' -> ledger_inv initial s'.
Proof.
  intros Hinv H. refine (rtc_closed _ (ledger_inv initial) _ _ _ H Hinv).
  intros u v Hu Huv. eapply ledger_steps_inv; [by eapply paper_step_refines|done].
Qed.

(** [C3] Paper trading keeps its books: from a seeded database, whatever
    evaluations, opens, fills, trailing updates, stop closes, snapshots,
    recoveries and control changes happen, and in whatever order, the wallet
    stays the one rebuilt from the fills and positions: the independent
    verification runs and finds no issue (for at most the ten thousand positions it reads). *)
Theorem accounting_reconciles initial s0 s :
  representable initial -> seeded initial s0 -> rtc paper_step s0 s ->
  (Z.of_nat (length (db_positions s)) <= POSITIONS_LIMIT)%Z ->
  verify_accounting_independent s initial = Ok [].
Proof. intros Hi Hs Hr Hl. apply verify_ok; [|done]. eapply reachable_inv; [by apply seeded_inv|done]. Qed.

Lemma scalar_one_or_none_unique {A B} (key : A -> B) (l : list A) :
  NoDup (key <$> l) -> (forall x y, x ∈ l -> y ∈ l -> key x = key y) -> exists o, scalar_one_or_none l = Ok o /\ forall x, x ∈ l -> o = Some x.
Proof.
  intros Hnd Hk. destruct l as [|x [|y l]]; cbn.
  - exists None. split; [done|]. by intros x ?%elem_of_nil.
  - exists (Some x). split; [done|]. by intros y ->%list_elem_of_singleton.
  - exfalso. cbn in Hnd. apply NoDup_cons in Hnd as [Hn _]. apply Hn. rewrite (Hk x y) by set_solver. by left.
Qed.

(** The query for the open position of a symbol has one answer at most. *)
Lemma open_position_returns initial s symbol :
  ledger_inv initial s ->
  returns (get_open_position_for_symbol s symbol) (fun o =>
    match o with
    | Some p => p ∈ db_positions s /\ is_open_position p = true /\ pp_symbol p = symbol
    | None => forall p, p ∈ db_positions s -> is_open_position p = true -> pp_symbol p <> symbol
    end).
Proof.
  intros Hinv. set (rows := List.filter (fun p => bool_decide (pp_symbol p = symbol) && is_open_position p) (db_positions s)).
  assert (Hrows : forall p, p ∈ rows <-> p ∈ db_positions s /\ pp_symbol p = symbol /\ is_open_position p = true).
  { intros p. unfold rows. rewrite elem_of_list_filter, andb_true_iff, bool_decide_eq_true. done. }
  destruct (scalar_one_or_none_unique pp_symbol rows) as (o & Ho & Hall).
  - pose proof (NoDup_fmap_filter pp_symbol (fun p => bool_decide (pp_symbol p = symbol)) _ (li_symbols _ _ Hinv)) as Hnd.
    unfold rows. clear -Hnd. induction (db_positions s) as [|x l IH]; [done|]. cbn in *.
    destruct (is_open_position x) eqn:E; cbn in *; [|rewrite andb_false_r; auto].
    destruct (bool_decide _); cbn in *; [|auto]. apply NoDup_cons in Hnd as [Hn Hnd]. apply NoDup_cons. split; [|auto].
    intros (y & Hy & Hin)%list_elem_of_fmap. apply Hn. rewrite Hy. apply list_elem_of_fmap_2.
    apply elem_of_list_filter in Hin as [Hin [? ?]%andb_true_iff]. rewrite !elem_of_list_filter. done.
  - intros x y [_ [<- _]]%Hrows [_ [<- _]]%Hrows. done.
  - unfold get_open_position_for_symbol. fold rows. rewrite Ho. cbn [mbind res_bind]. destruct o as [p|].
    + assert (Hp : p ∈ rows).
      { destruct rows as [|x [|]]; try done. injection Ho as ->. by left. }
      apply Hrows in Hp as (Hin & Hs & Hop). pose proof (li_positions _ _ Hinv) as Hpos. rewrite Forall_forall in Hpos.
      pose proof (sl_readable _ _ (Hpos p Hin)) as Hrd. unfold readable_position in Hrd. rewrite Hrd. cbn. by apply returns_ret.
    + apply returns_ret. intros p Hin Hop Hs. by discriminate (Hall p (proj2 (Hrows p) (conj Hin (conj Hs Hop)))).
Qed.

(** [C18] In every reachable state at most one position is open per symbol,
    the query for it never fails, every position keeps its stop at or above its
    initial stop, and no open position was exited while every closed one has
    its exit fill and that fill's result. *)
Theorem open_positions_unique initial s0 s :
  representable initial -> seeded initial s0 -> rtc paper_step s0 s ->
  NoDup (pp_symbol <$> List.filter is_open_position (db_positions s)) /\
  (forall p, p ∈ db_positions s -> pp_initial_stop p <= pp_current_stop p /\ settled (db_fills s) p) /\
  (forall symbol, returns (get_open_position_for_symbol s symbol) (fun o =>
     match o with
     | Some p => p ∈ db_positions s /\ is_open_position p = true /\ pp_symbol p = symbol
     | None => forall p, p ∈ db_positions s -> is_open_position p = true -> pp_symbol p <> symbol
     end)).
Proof.
  intros Hi Hs Hr. pose proof (reachable_inv _ _ _ (seeded_inv _ _ Hi Hs) Hr) as Hinv. split_and!.
  - apply Hinv.
  - intros p Hp. pose proof (li_positions _ _ Hinv) as Hpos. rewrite Forall_forall in Hpos. specialize (Hpos p Hp).
    split; [|done]. apply pw_stop, position_read, Hpos.
  - intros symbol. by apply open_position_returns with initial.
Qed.

(** ** An example run

    A BTC intent is filled at the open of a day at 100, and the position is
    closed by an intraday low of 90. *)

Definition example_intent : TradeIntent :=
  {| ti_intent_id := "i1"; ti_idempotency_key := "BTC:1.0.0:1970-01-01T00:00:00Z:BREAKOUT"; ti_symbol := "BTC";
     ti_side := PS_LONG; ti_signal_type := ST_BREAKOUT; ti_signal_time := 0; ti_scheduled_fill_time := 0;
     ti_requested_entry := 100; ti_requested_stop := 95; ti_requested_quantity := None; ti_approved_quantity := None;
     ti_risk_amount := None; ti_status := IS_SCHEDULED; ti_strategy_evaluation_id := "e1";
     ti_rejection_reason := None; ti_created_at := 0; ti_updated_at := 0 |}.

Definition example_wallet (cash : decimal) : PaperWalletState :=
  {| wa_wallet_id := "w"; wa_cash := cash; wa_total_realized_pnl := 0; wa_total_fees := 0; wa_total_funding := 0;
     wa_total_slippage := 0; wa_version := 1; wa_updated_at := 0 |}.

Definition example_store : PaperStore :=
  with_intents (with_wallet (empty_store
    {| rs_instance_id := "r"; rs_status := RS_READY; rs_last_error := None; rs_started_at := None; rs_heartbeat_at := 0;
       rs_kill_switch := false; rs_paused := false; rs_current_cycle_id := None; rs_version := 1 |})
    (example_wallet 10000)) [example_intent].

Definition example_day (low : decimal) (closed : bool) : Candle :=
  {| c_symbol := "BTC"; c_timeframe := DAILY; c_open_time := 0; c_close_time := seconds 86399;
     c_open := 100; c_high := 101; c_low := low; c_close := 95; c_volume := 1; c_is_closed := closed |}.

Definition example_inputs : FillInputs :=
  {| fx_atr14 := 2; fx_open_ref := 100; fx_candle_open_time := 0; fx_constraints := RiskEngine.example_constraints;
     fx_strategy_params := default_strategy_parameters; fx_risk_params := default_risk_parameters;
     fx_execution_config := from_trading_config example_trading_config;
     fx_day_candles := [("BTC"%string, example_day 99 false)]; fx_prior_closes := ∅ |}.

Definition example_env : BatchEnv :=
  {| be_config := example_trading_config; be_process_time := 0; be_now := 0;
     be_market_data_ready := fun _ => Some true;
     be_ids := fun _ => {| id_order := "11111111-2222-4333-8444-555555555555"; id_fill := "f1"; id_position := "p1" |}; be_cycle_id := None |}.

Definition example_contexts : list (string * FillProcessingContext) :=
  [("BTC"%string, {| fc_inputs := example_inputs; fc_processed_intent_ids := ∅ |})].

Definition example_opened : PaperStore :=
  (process_scheduled_intents_for_open example_env 0 example_contexts example_store).2.

Definition example_closed : PaperStore :=
  (process_intraday_stop_triggers example_trading_config (seconds 60) (seconds 60)
     [("BTC"%string, example_day 90 false)] {[ "BTC"%string := RiskEngine.example_constraints ]} None
     (fun _ => {| id_stop_event := "v1"; id_exit_fill := "f2"; id_snapshot := "n1" |}) example_opened).2.

Lemma example_seeded : seeded 10000 example_store.
Proof. split; [done|done|done|]. exists (example_wallet 10000). by split_and!. Qed.

Lemma example_run : rtc paper_step example_store example_closed.
Proof.
  eapply rtc_l; [|apply rtc_once].
  - eapply (StepOpen _ example_env 0 example_contexts _ example_opened); [by split|]. apply surjective_pairing.
  - eapply (StepIntradayStops _ example_trading_config). apply surjective_pairing.
Qed.

Lemma representable_10000 : representable 10000.
Proof. by apply (representable_Z 10000). Qed.

Lemma accounting_reconciles_witness :
  verify_accounting_independent example_closed 10000 = Ok [] /\
  (pp_status <$> db_positions example_closed) = [PP_CLOSED].
Proof.
  split; [|vm_compute; reflexivity].
  apply (accounting_reconciles 10000 example_store); [apply representable_10000|apply example_seeded|apply example_run|].
  vm_compute. discriminate.
Defined.

Lemma open_positions_unique_witness :
  NoDup (pp_symbol <$> List.filter is_open_position (db_positions example_closed)) /\
  (forall p, p ∈ db_positions example_closed -> pp_initial_stop p <= pp_current_stop p /\ settled (db_fills example_closed) p) /\
  (forall symbol, returns (get_open_position_for_symbol example_closed symbol) (fun o =>
     match o with
     | Some p => p ∈ db_positions example_closed /\ is_open_position p = true /\ pp_symbol p = symbol
     | None => forall p, p ∈ db_positions example_closed -> is_open_position p = true -> pp_symbol p <> symbol
     end)).
Proof.
  apply (open_positions_unique 10000 example_store); [apply representable_10000|apply example_seeded|apply example_run].
Defined.
