(* ===== verification/PaperGates.v ===== *)
(** * New risk is fail-closed (services/paper_trading/lifecycle.py, execution.py)

    What has to hold before an intent is created, what happens to the scheduled
    intents when the authorization is missing at the open, and the parity of a
    paper entry with an entry of the backtester. *)
From Stdlib Require Import ZArith QArith Lqa Lia.
From stdpp Require Import base list gmap sets strings relations.
From S2P Require Import Prelude Decimal StrategyModels RiskModels Constraints BtModels BtData BtPortfolio PaperLifecycle BacktestEngine.
From S2P Require Import Timeframes PaperModels Transitions PaperRuntime PaperRepository PaperAccounting PaperExecution PaperStops.
From S2P Require Import PaperIntents PaperLedger PaperReconcile.
From S2P Require RiskEngine BacktestInvariants.

Local Open Scope Q_scope.
#[local] Opaque rnd.

(** ** Authorization and gates *)

Lemma blocking_nil l : blocking l = [] <-> Forall (fun c => c.1 = false) l.
Proof.
  unfold blocking. induction l as [|[b r] l IH]; cbn; [done|]. rewrite Forall_cons. destruct b; cbn; naive_solver.
Qed.

(** The runtime allows new risk. *)
Record runtime_authorized (config : PaperTradingConfig) (s : PaperStore) (ready : bool) (at_ : datetime) : Prop := {
  ra_runtime : exists r, db_runtime s = Some r /\ rs_status r = RS_READY /\ has_error (rs_last_error r) = false /\
    (at_ - rs_heartbeat_at r <= seconds (pc_stale_runtime_threshold_seconds config))%Z /\
    rs_paused r = false /\ rs_kill_switch r = false;
  ra_ready : ready = true;
}.

Lemma no_reasons_iff l : no_reasons l = true <-> l = [].
Proof. by destruct l. Qed.

Lemma authorization_iff config s ready at_ :
  let a := evaluate_final_entry_authorization s config ready at_ in
  (au_allowed a = true <-> runtime_authorized config s ready at_) /\ (au_allowed a = true <-> au_reasons a = []).
Proof.
  unfold evaluate_final_entry_authorization. destruct (db_runtime s) as [r|] eqn:Er; cbn [au_allowed au_reasons].
  2: { split; [|done]. split; [done|]. intros [(r & Hr & _) _]. congruence. }
  rewrite no_reasons_iff. split; [|done]. rewrite blocking_nil. unfold authorization_conditions.
  rewrite !Forall_cons. cbn. rewrite negb_false_iff, bool_decide_eq_true, Z.ltb_ge, negb_false_iff. split.
  - intros (H1 & H2 & H3 & H4 & H5 & H6 & _). split; [|done]. by exists r.
  - intros [(r' & Hr & H1 & H2 & H3 & H4 & H5) H6]. rewrite Er in Hr. injection Hr as <-. done.
Qed.

(** The strategy's signal and the portfolio allow an entry of the symbol. *)
Record entry_wanted (symbol : string) (gates : EntryGateContext) (ev : StrategyEvaluation) : Prop := {
  ew_symbol : symbol ∈ ALLOWED_SYMBOLS;
  ew_ready : eg_entry_ready gates = true;
  ew_data : eg_market_data_ready gates = true;
  ew_position : eg_has_symbol_position gates = false;
  ew_intent : eg_has_nonterminal_intent gates = false;
  ew_count : (eg_open_position_count gates < 3)%nat;
  ew_signal : si_kind (ev_signal_intent ev) = LONG_ENTRY;
  ew_type : ev_selected_entry_type ev <> None;
  ew_stop : is_Some (si_stop_initial (ev_signal_intent ev));
  ew_atr : exists a, ev_atr ev = Some a /\ 0 < a;
  ew_trend : tr_trend_confirmed (ev_weekly_trend ev) = true;
}.

Lemma gates_iff symbol gates ev auth :
  check_entry_gates symbol (authorized_gates gates auth) ev DEFAULT_GATE_MAX_OPEN_POSITIONS = [] <->
  entry_wanted symbol gates ev /\ au_allowed auth = true /\ au_paused auth = false /\ au_kill_switch auth = false.
Proof.
  unfold check_entry_gates. rewrite blocking_nil. unfold gate_conditions. rewrite !Forall_cons, Forall_nil.
  cbn [fst authorized_gates eg_entry_ready eg_market_data_ready eg_paused eg_kill_switch eg_open_position_count
    eg_has_symbol_position eg_has_nonterminal_intent]. unfold DEFAULT_GATE_MAX_OPEN_POSITIONS.
  rewrite !negb_false_iff, !andb_true_iff, !bool_decide_eq_false, !bool_decide_eq_true, Nat.leb_gt.
  assert (Hatr : missing_atr (ev_atr ev) = false <-> exists a, ev_atr ev = Some a /\ 0 < a).
  { unfold missing_atr. destruct (ev_atr ev) as [a|]; [|split; [done|by intros (? & ? & _)]]. rewrite dleb_gt. naive_solver. }
  rewrite Hatr. split.
  - intros (?&[? ?]&?&?&?&?&?&?&?&?&?&?&?&_). by split_and!.
  - intros ([] & ? & ? & ?). split_and!; done.
Qed.

(** [C19] An intent is created or found only when the runtime is ready, has no
    error, a fresh heartbeat and neither pause nor kill switch, the market data
    is ready (a failing readiness call counts as not ready), and the strategy
    and the portfolio want the entry; otherwise the call returns the reasons,
    at least one, and changes nothing.  A created intent is scheduled for the
    daily open after its candle. *)
Theorem intent_creation_fail_closed s id evaluation ev gates config created_at at_ ready :
  let allowed := runtime_authorized config s (default false ready) at_ /\ entry_wanted (se_symbol evaluation) gates ev in
  (~ allowed -> exists reasons, reasons <> [] /\
     create_intent_from_evaluation s id evaluation ev gates config created_at at_ ready = Ok (None, false, reasons, s)) /\
  (forall o created reasons s',
     create_intent_from_evaluation s id evaluation ev gates config created_at at_ ready = Ok (o, created, reasons, s') ->
     (is_Some o <-> allowed) /\ (reasons = [] <-> allowed) /\
     (created = true -> exists i, o = Some i /\ db_intents s' = db_intents s ++ [i] /\ ti_status i = IS_SCHEDULED /\
        ti_symbol i = se_symbol evaluation /\
        ti_scheduled_fill_time i = (se_daily_candle_open_time evaluation + DAY_US)%Z)).
Proof.
  intros allowed. set (auth := evaluate_final_entry_authorization s config (default false ready) at_).
  destruct (authorization_iff config s (default false ready) at_) as [Hauth Hreasons]. fold auth in Hauth, Hreasons.
  set (blocked := fromkeys (check_entry_gates (se_symbol evaluation) (authorized_gates gates auth) ev
                              DEFAULT_GATE_MAX_OPEN_POSITIONS ++ au_reasons auth)).
  assert (Hb : blocked = [] <-> allowed).
  { unfold blocked, allowed. rewrite fromkeys_nil, app_nil, gates_iff, <- Hauth, <- Hreasons. split; [tauto|].
    intros [Ha Hw]. split_and!; try done; apply Hauth in Ha as [(r & Hr & _ & _ & _ & Hp & Hk) _];
      unfold auth, evaluate_final_entry_authorization; by rewrite Hr. }
  unfold create_intent_from_evaluation. fold auth. fold blocked. split.
  - intros Hn. exists blocked. rewrite <- Hb in Hn. split; [done|]. by destruct blocked.
  - intros o created reasons s' H. destruct (no_reasons blocked) eqn:E; cbn [negb] in H.
    + apply no_reasons_iff, Hb in E. apply bind_ok in H as (ty & _ & H). apply bind_ok in H as (en & _ & H).
      apply bind_ok in H as (st & _ & H). apply bind_ok in H as ([[i c] s1] & Hi & H). injection H as <- <- <- <-.
      split; [split; [done|by intros _; eexists]|]. split; [done|]. intros ->.
      unfold insert_or_get_trade_intent in Hi. apply bind_ok in Hi as ([[r b] rows] & Hi & Hj). injection Hj as <- -> <-.
      apply insert_or_get_ok in Hi as [-> [-> _ _ _]]. eexists. by split_and!.
    + injection H as <- <- <- <-. assert (Hn : blocked <> []) by (intros Hx; by rewrite Hx in E).
      rewrite Hb in Hn. split; [split; [by intros []|done]|]. split; [rewrite Hb; done|done].
Qed.

(** ** Parity with the backtester *)

(** What the risk decision reads of a position. *)
Definition risk_view (p : SimulatedPosition) :=
  (pos_symbol p, pos_quantity p, pos_entry_price p, pos_initial_stop p, pos_trail_stop p, pos_margin_reserved p).

Section View.
Context (l l' : list SimulatedPosition).
Hypothesis Hview : risk_view <$> l = risk_view <$> l'.

Lemma view_fold {A} (f : A -> SimulatedPosition -> A) a :
  (forall a p q, risk_view p = risk_view q -> f a p = f a q) -> fold_left f l a = fold_left f l' a.
Proof.
  intros Hf. revert a l' Hview. induction l as [|p k IH]; intros a [|q k'] H; cbn in H; try done.
  injection H as Hs Hq He Hi Ht Hm Hk. cbn. rewrite (Hf a p q) by (unfold risk_view; congruence). by apply IH.
Qed.

Lemma view_omap {B} (f : SimulatedPosition -> option B) :
  (forall p q, risk_view p = risk_view q -> f p = f q) -> omap f l = omap f l'.
Proof.
  intros Hf. revert l' Hview. induction l as [|p k IH]; intros [|q k'] H; cbn in H; try done.
  injection H as Hs Hq He Hi Ht Hm Hk. cbn. rewrite (Hf p q) by (unfold risk_view; congruence). by rewrite (IH k').
Qed.

Lemma view_fmap {B} (f : SimulatedPosition -> B) :
  (forall p q, risk_view p = risk_view q -> f p = f q) -> f <$> l = f <$> l'.
Proof.
  intros Hf. revert l' Hview. induction l as [|p k IH]; intros [|q k'] H; cbn in H; try done.
  injection H as Hs Hq He Hi Ht Hm Hk. cbn. rewrite (Hf p q) by (unfold risk_view; congruence). by rewrite (IH k').
Qed.
End View.

Lemma decision_view l l' symbol price stop id atr con cash pending pending' processed candles closes params md bot :
  risk_view <$> l = risk_view <$> l' -> to_open_orders pending = to_open_orders pending' ->
  evaluate_entry_risk_decision symbol price stop id atr con cash l pending processed candles closes params md bot =
  evaluate_entry_risk_decision symbol price stop id atr con cash l' pending' processed candles closes params md bot.
Proof.
  intros Hl Hp. unfold evaluate_entry_risk_decision. rewrite Hp.
  assert (Hm : resolve_marks_at_open l candles closes = resolve_marks_at_open l' candles closes).
  { apply view_fold; [done|]. unfold risk_view, mark_at_open. intros a p q [= -> Hq -> Hi Ht Hm]. done. }
  rewrite Hm. set (marks := resolve_marks_at_open l' candles closes).
  assert (Hs : to_position_states l marks = to_position_states l' marks).
  { apply view_omap; [done|]. unfold risk_view, to_position_state, mark_of. intros p q [= -> -> -> -> -> Hg]. done. }
  assert (Ha : build_account_state (build_portfolio_state cash l) marks (rp_max_leverage params) =
               build_account_state (build_portfolio_state cash l') marks (rp_max_leverage params)).
  { unfold build_account_state, equity_usd, unrealized_pnl_usd, unrealized_of, used_margin_usd. cbn.
    rewrite (view_fmap l l' Hl (fun pos => dmul (pos_quantity pos) (dsub (mark_of marks pos) (pos_entry_price pos)))).
    - rewrite (view_fmap l l' Hl pos_margin_reserved); [done|]. by intros p q [= _ _ _ _ _ ->].
    - unfold mark_of. intros p q [= -> -> -> _ _ _]. done. }
  by rewrite Hs, Ha.
Qed.

(** The same entry, as paper trading and as the backtester see it. *)
Record same_entry (inputs : EntryExecutionInput) (config : BacktestConfig) (rt : _Runtime) (candle : Candle)
    (intent : PendingIntent) : Prop := {
  sa_id : pi_client_intent_id intent = ti_idempotency_key (ei_intent inputs);
  sa_new : ti_idempotency_key (ei_intent inputs) ∉ rt_processed_intent_ids rt;
  sa_open : ei_open_ref inputs = c_open candle;
  sa_atr : ei_atr14 inputs = pi_atr14 intent;
  sa_cash : ei_wallet_cash inputs = rt_cash rt;
  sa_positions : risk_view <$> (paper_position_to_simulated <$> ei_open_positions inputs) = risk_view <$> od_values (rt_positions rt);
  sa_pending : to_open_orders (ei_pending_intents inputs) = to_open_orders (rt_pending_intents rt);
  sa_processed : ei_processed_intent_ids inputs = rt_processed_intent_ids rt;
  sa_constraints : _get_constraints config (ti_symbol (ei_intent inputs)) = Ok (ei_constraints inputs);
  sa_strategy : ei_strategy_params inputs = bc_strategy_params config;
  sa_risk : ei_risk_params inputs = bc_risk_params config;
  sa_execution : xc_slippage_bps (ei_execution_config inputs) = sm_slippage_bps (bc_slippage_model config) /\
    xc_fee_rate (ei_execution_config inputs) = fm_entry_fee_rate (bc_fee_model config) /\
    xc_max_leverage (ei_execution_config inputs) = rp_max_leverage (bc_risk_params config);
}.


Definition example_entry : EntryExecutionInput := entry_input example_intent example_inputs 100000 [] [] ∅.

Definition example_pending : PendingIntent :=
  pending_of {| fc_inputs := example_inputs; fc_processed_intent_ids := ∅ |} 0 example_intent.

