(* ===== verification/PaperChain.v ===== *)
(** * Intents, orders, fills and positions stay linked (services/paper_trading/)

    The chain from an intent over its order and its fill to its position, as an
    invariant of the database; the steps the program makes on it; and what the
    consistency checks of the recovery say of a database with the invariant. *)
From Stdlib Require Import ZArith QArith Lqa Lia.
From stdpp Require Import base list gmap sets strings relations.
From S2P Require Import Prelude Decimal StrategyModels BtModels BtData PaperModels Transitions PaperRuntime PaperRepository.
From S2P Require Import PaperAccounting PaperRecovery PaperLedger.

Local Open Scope Q_scope.
#[local] Opaque rnd.

(** ** The invariant *)

(** The statuses an intent of the implemented lifecycle has. *)
Definition LIVE_INTENT_STATUSES : list TradeIntentStatus := [IS_SCHEDULED; IS_SUBMITTED_TO_PAPER_ENGINE].

Definition entry_fill_of (o : PaperOrder) (f : PaperFill) : Prop :=
  fi_fill_kind f = FK_ENTRY /\ fi_paper_order_id f = Some (or_paper_order_id o).

(** What an order stands for: a filled intent, an entry fill and a position. *)
Record order_linked (s : PaperStore) (o : PaperOrder) : Prop := {
  ol_status : or_status o = PO_FILLED;
  ol_readable : order_row_to_domain o = Ok o;
  ol_intent : exists i, i ∈ db_intents s /\ ti_intent_id i = or_intent_id o /\ ti_status i = IS_FILLED;
  ol_fill : exists f, f ∈ db_fills s /\ entry_fill_of o f;
  ol_position : exists p, p ∈ db_positions s /\ pp_entry_intent_id p = or_intent_id o;
}.

Record intent_linked (s : PaperStore) (i : TradeIntent) : Prop := {
  il_status : ti_status i ∈ [IS_SCHEDULED; IS_SUBMITTED_TO_PAPER_ENGINE; IS_FILLED; IS_CANCELLED; IS_REJECTED];
  il_filled : ti_status i = IS_FILLED -> exists o, o ∈ db_orders s /\ or_intent_id o = ti_intent_id i;
}.

Record position_linked (s : PaperStore) (p : PaperPosition) : Prop := {
  pl_order : exists o, o ∈ db_orders s /\ or_intent_id o = pp_entry_intent_id p;
  pl_status : pp_status p <> PP_CLOSING;
  pl_high : pp_average_entry_price p <= pp_highest_close_since_entry p;
}.

(** What a fill stands for, and how its key is built. *)
Definition fill_linked (s : PaperStore) (f : PaperFill) : Prop :=
  match fi_fill_kind f with
  | FK_ENTRY => exists o, o ∈ db_orders s /\ fi_paper_order_id f = Some (or_paper_order_id o) /\
      uuid_text (or_paper_order_id o) /\ exists t, fi_deterministic_fill_key f = paper_fill_key (or_paper_order_id o) t 0
  | FK_EXIT => fi_paper_order_id f = None /\ is_Some (fi_position_id f) /\
      exists id t, fi_deterministic_fill_key f = paper_exit_fill_key id t
  end.

(** The tables beside the chain. *)
Record side_inv (s : PaperStore) : Prop := {
  sd_stops : Forall (fun e => sv_previous_stop e <= sv_new_stop e) (db_stop_events s);
  sd_snapshots : NoDup (sn_idempotency_key <$> db_snapshots s);
}.

Record chain_inv (s : PaperStore) : Prop := {
  ch_intents : NoDup (ti_intent_id <$> db_intents s);
  ch_order_ids : NoDup (or_paper_order_id <$> db_orders s);
  ch_order_intents : NoDup (or_intent_id <$> db_orders s);
  ch_position_intents : NoDup (pp_entry_intent_id <$> db_positions s);
  ch_keys : NoDup (fi_deterministic_fill_key <$> db_fills s);
  ch_orders : forall o, o ∈ db_orders s -> order_linked s o;
  ch_intent : forall i, i ∈ db_intents s -> intent_linked s i;
  ch_positions : forall p, p ∈ db_positions s -> position_linked s p;
  ch_fills : forall f, f ∈ db_fills s -> fill_linked s f;
  ch_side : side_inv s;
}.

(** ** The consistency checks *)

Section Checks.
Context (initial : decimal) (s : PaperStore).
Hypothesis Hbook : ledger_inv initial s.
Hypothesis Hchain : chain_inv s.

Lemma scalar_unique {A B} (key : A -> B) `{EqDecision B} (rows : list A) r :
  NoDup (key <$> rows) -> r ∈ rows -> scalar_one_or_none (List.filter (fun x => bool_decide (key x = key r)) rows) = Ok (Some r).
Proof.
  induction rows as [|x rows IH]; [by intros _ ?%elem_of_nil|]. cbn. intros [Hx Hnd]%NoDup_cons Hr.
  destruct (decide (key x = key r)) as [Hk|Hk].
  - rewrite (bool_decide_eq_true_2 _ Hk). assert (x = r) as ->.
    { apply elem_of_cons in Hr as [->|Hr]; [done|]. destruct Hx. rewrite Hk. by apply list_elem_of_fmap_2. }
    replace (List.filter _ rows) with (@nil A); [done|]. symmetry. clear -Hx. induction rows as [|y rows IH]; [done|]. cbn.
    cbn in Hx. apply not_elem_of_cons in Hx as [Hy Hx]. rewrite bool_decide_eq_false_2 by congruence. by apply IH.
  - rewrite (bool_decide_eq_false_2 _ Hk). apply elem_of_cons in Hr as [->|Hr]; [done|]. by apply IH.
Qed.

Lemma scalar_none {A B} (key : A -> B) `{EqDecision B} (rows : list A) k :
  k ∉ key <$> rows -> scalar_one_or_none (List.filter (fun x => bool_decide (key x = k)) rows) = Ok None.
Proof.
  intros H. replace (List.filter _ rows) with (@nil A); [done|]. symmetry. induction rows as [|y rows IH]; [done|]. cbn in *.
  apply not_elem_of_cons in H as [Hy H]. rewrite bool_decide_eq_false_2 by congruence. by apply IH.
Qed.

Lemma order_for_intent_some o : o ∈ db_orders s -> get_order_for_intent s (or_intent_id o) = Ok (Some o).
Proof.
  intros Ho. unfold get_order_for_intent. rewrite (scalar_unique or_intent_id) by (apply Hchain || done). cbn.
  by rewrite (ol_readable _ _ (ch_orders _ Hchain o Ho)).
Qed.

Lemma order_for_intent_none id : id ∉ or_intent_id <$> db_orders s -> get_order_for_intent s id = Ok None.
Proof. intros H. unfold get_order_for_intent. by rewrite (scalar_none or_intent_id). Qed.

(** Every query for the order of an intent answers. *)
Lemma order_for_intent id :
  (exists o, o ∈ db_orders s /\ or_intent_id o = id /\ get_order_for_intent s id = Ok (Some o)) \/
  (id ∉ or_intent_id <$> db_orders s /\ get_order_for_intent s id = Ok None).
Proof.
  destruct (decide (id ∈ or_intent_id <$> db_orders s)) as [Hin|Hn].
  - apply list_elem_of_fmap in Hin as (o & -> & Ho). left. exists o. split_and!; [done|done|by apply order_for_intent_some].
  - right. split; [done|by apply order_for_intent_none].
Qed.

Lemma fills_for_order o : o ∈ db_orders s -> exists f l, get_fills_for_order s (or_paper_order_id o) = Ok (f :: l).
Proof.
  intros Ho. destruct (ol_fill _ _ (ch_orders _ Hchain o Ho)) as (f & Hf & Hk & Hp). unfold get_fills_for_order.
  set (rows := sort_by _ _). assert (Hrows : Forall (fun x => fill_row_to_domain x = Ok x) rows).
  { apply Forall_forall. intros x Hx. unfold rows in Hx. rewrite elem_of_sort_by, elem_of_list_filter in Hx.
    pose proof (li_fills _ _ Hbook) as H. rewrite Forall_forall in H. apply H, Hx. }
  assert (Hin : f ∈ rows) by (unfold rows; rewrite elem_of_sort_by, elem_of_list_filter, bool_decide_eq_true; done).
  rewrite (mapM_readable fill_row_to_domain) by done. destruct rows as [|g l]; [by apply elem_of_nil in Hin|]. by exists g, l.
Qed.

Lemma row_domain_id i : ti_intent_id (intent_row_to_domain i) = ti_intent_id i /\ ti_status (intent_row_to_domain i) = ti_status i.
Proof. done. Qed.

Lemma check_intent_none i : i ∈ db_intents s -> check_intent_chain s (intent_row_to_domain i) = Ok [].
Proof.
  intros Hi. destruct (ch_intent _ Hchain i Hi) as [Hst Hfl]. unfold check_intent_chain.
  change (ti_intent_id (intent_row_to_domain i)) with (ti_intent_id i). change (ti_status (intent_row_to_domain i)) with (ti_status i).
  destruct (order_for_intent (ti_intent_id i)) as [(o & Ho & Hid & Hq)|[Hn Hq]]; rewrite Hq; cbn [mbind res_bind].
  - destruct (fills_for_order o Ho) as (f & l & Hf). rewrite Hf. cbn [mbind res_bind].
    destruct (ch_orders _ Hchain o Ho) as [Hos _ (j & Hj & Hjid & Hjs) _ _].
    assert (j = i) as -> by (apply (key_row ti_intent_id (db_intents s)); [apply Hchain|done|done|congruence]).
    rewrite Hjs. cbn. rewrite Hos. done.
  - cbn [negb]. assert (Hne : ti_status i <> IS_FILLED).
    { intros Hs. destruct (Hfl Hs) as (o & Ho & Hid). apply Hn. rewrite <- Hid. by apply list_elem_of_fmap_2. }
    rewrite (bool_decide_eq_false_2 _ Hne). cbn. unfold when.
    repeat (apply elem_of_cons in Hst as [Hst|Hst]; [rewrite Hst; done|]). by apply elem_of_nil in Hst.
Qed.

Lemma check_position_none p : p ∈ db_positions s -> check_position_reference s p = Ok [].
Proof.
  intros Hp. destruct (ch_positions _ Hchain p Hp) as [(o & Ho & Hid) Hst _]. unfold check_position_reference.
  destruct (ch_orders _ Hchain o Ho) as [_ _ (i & Hi & Hii & _) _ _]. unfold get_intent.
  rewrite <- Hid, <- Hii, (get_by_unique _ _ i) by (apply Hchain || done). rewrite Hii. cbn.
  rewrite (order_for_intent_some o Ho). cbn. destruct (fills_for_order o Ho) as (f & l & Hf). rewrite Hf. cbn.
  rewrite (bool_decide_eq_false_2 _ Hst). unfold when. by rewrite andb_false_r.
Qed.

Lemma check_fill_none f : f ∈ db_fills s -> check_fill_reference s f = Ok [].
Proof.
  intros Hf. pose proof (ch_fills _ Hchain f Hf) as Hl. unfold fill_linked in Hl. unfold check_fill_reference.
  destruct (fi_fill_kind f).
  - destruct Hl as (o & Ho & Hp & _). rewrite Hp, (get_by_unique _ _ o) by (apply Hchain || done).
    destruct (ol_position _ _ (ch_orders _ Hchain o Ho)) as (p & Hin & Hid). rewrite <- Hid.
    rewrite (scalar_unique pp_entry_intent_id) by (apply Hchain || done). done.
  - destruct Hl as [_ [[x Hx] _]]. by rewrite Hx.
Qed.

Lemma check_stops_none p : p ∈ db_positions s -> check_position_stops s p = Ok [].
Proof.
  intros Hp. unfold check_position_stops, list_stop_events_for_position.
  set (rows := sort_by _ _). assert (Hrows : Forall (fun e => sv_previous_stop e <= sv_new_stop e) rows).
  { apply Forall_forall. intros x Hx. unfold rows in Hx. rewrite elem_of_sort_by, elem_of_list_filter in Hx.
    pose proof (sd_stops _ (ch_side _ Hchain)) as H. rewrite Forall_forall in H. apply H, Hx. }
  rewrite (mapM_readable stop_event_row_to_domain).
  2: { eapply Forall_impl; [exact Hrows|]. intros e He. unfold stop_event_row_to_domain. by rewrite (proj2 (dltb_ge _ _) He). }
  cbn. pose proof (li_positions _ _ Hbook) as Hpos. rewrite Forall_forall in Hpos. destruct (Hpos p Hp) as [Hr _ _].
  apply position_read in Hr. rewrite (proj2 (dltb_ge _ _) (pw_stop _ Hr)).
  rewrite (proj2 (dltb_ge _ _) (pl_high _ _ (ch_positions _ Hchain p Hp))). cbn. f_equal.
  clear -Hrows. induction Hrows as [|e l He _ IH]; cbn; [done|]. rewrite (proj2 (dltb_ge _ _) He). done.
Qed.

Lemma duplicate_fills_none : _check_duplicate_fills s = Ok [].
Proof.
  unfold _check_duplicate_fills. rewrite (list_all_fills_inv initial) by done. cbn. f_equal.
  assert (Hgen : forall fills seen, NoDup ((fi_deterministic_fill_key <$> fills) ++ od_keys seen) ->
    (fold_left check_fill_key fills ([], seen)).1 = []).
  { induction fills as [|f fills IH]; [done|]. intros seen Hnd. cbn in *. apply NoDup_cons in Hnd as [Hf Hnd].
    assert (Hn : fi_deterministic_fill_key f ∉ od_keys seen) by set_solver.
    rewrite (proj2 (od_get_None _ _) Hn). cbn. apply IH. rewrite od_keys_set, decide_False by done.
    rewrite app_assoc. by apply NoDup_snoc. }
  apply Hgen. cbn. rewrite app_nil_r. apply Hchain.
Qed.

Lemma open_counts_eq l counts :
  fold_left (fun counts p => od_set counts (pp_symbol p) (default 0 (od_get counts (pp_symbol p)) + 1)%Z) l counts =
  fold_left count_key (pp_symbol <$> l) counts.
Proof. revert counts. induction l as [|p l IH]; [done|]. intros counts. cbn. by rewrite IH. Qed.

Lemma multiple_open_none : _check_multiple_open_positions s = [].
Proof.
  unfold _check_multiple_open_positions, count_open_positions_by_symbol. rewrite open_counts_eq.
  destruct (count_keys_NoDup (pp_symbol <$> List.filter is_open_position (db_positions s)) []) as [Hone _];
    [rewrite app_nil_r; apply Hbook|constructor|].
  replace (List.filter _ _) with (@nil (string * Z)); [done|]. clear -Hone.
  induction Hone as [|kc counts Hkc _ IH]; cbn; [done|]. by rewrite Hkc.
Qed.

Lemma mapM_empty {A B} (f : A -> res (list B)) l : (forall x, x ∈ l -> f x = Ok []) -> exists k, mapM f l = Ok k /\ concat k = [].
Proof.
  induction l as [|x l IH]; [by exists []|]. intros H. destruct IH as (k & Hk & Hc); [intros y Hy; apply H; by right|].
  exists ([] :: k). cbn. rewrite (H x) by (by left). cbn. by rewrite Hk.
Qed.

(** Only the two repairable kinds of issue can be found. *)
Lemma consistency_checks config now :
  run_consistency_checks config now s = Ok (_check_orphan_scheduler_runs s ++ _check_stale_heartbeat config now s).
Proof.
  unfold run_consistency_checks, _check_intent_order_fill_chain, _check_position_references, _check_stop_invariants.
  rewrite multiple_open_none, duplicate_fills_none.
  destruct (mapM_empty (check_intent_chain s) (list_all_intents s)) as (k1 & Hk1 & Hc1).
  { intros i (j & -> & Hj)%list_elem_of_fmap. by apply check_intent_none. }
  rewrite Hk1. cbn [mbind res_bind]. unfold list_all_positions.
  rewrite (mapM_readable position_row_to_domain) by (by apply (positions_readable initial)). cbn [mbind res_bind].
  destruct (mapM_empty (check_position_reference s) (db_positions s) check_position_none) as (k2 & Hk2 & Hc2). rewrite Hk2.
  cbn [mbind res_bind]. rewrite (list_all_fills_inv initial) by done. cbn [mbind res_bind].
  destruct (mapM_empty (check_fill_reference s) (db_fills s) check_fill_none) as (k3 & Hk3 & Hc3). rewrite Hk3.
  cbn [mbind res_bind].
  destruct (mapM_empty (check_position_stops s) (db_positions s) check_stops_none) as (k4 & Hk4 & Hc4). rewrite Hk4.
  cbn [mbind res_bind]. rewrite Hc1, Hc2, Hc3, Hc4, !app_nil_r. done.
Qed.
End Checks.

(** ** Steps that keep the invariant *)

(** The four tables of the chain. *)
Definition same_chain (s s' : PaperStore) : Prop :=
  db_intents s' = db_intents s /\ db_orders s' = db_orders s /\ db_fills s' = db_fills s /\ db_positions s' = db_positions s.

Lemma order_linked_mono s s' o :
  (forall i, i ∈ db_intents s -> ti_intent_id i = or_intent_id o -> i ∈ db_intents s') ->
  (forall f, f ∈ db_fills s -> f ∈ db_fills s') ->
  (forall p, p ∈ db_positions s -> exists q, q ∈ db_positions s' /\ pp_entry_intent_id q = pp_entry_intent_id p) ->
  order_linked s o -> order_linked s' o.
Proof.
  intros Hi Hf Hp [Hs Hr (i & Hin & Hid & Hst) (f & Hfin & He) (p & Hpin & Hpe)]. split; [done|done| | |].
  - exists i. split_and!; [by apply Hi|done|done].
  - exists f. split; [by apply Hf|done].
  - destruct (Hp p Hpin) as (q & Hq & Hqe). exists q. split; [done|congruence].
Qed.

Lemma position_linked_mono s s' p :
  (forall o, o ∈ db_orders s -> o ∈ db_orders s') -> position_linked s p -> position_linked s' p.
Proof. intros Ho [(o & Hin & He) Hs Hh]. split; [|done|done]. exists o. split; [by apply Ho|done]. Qed.

Lemma fill_linked_mono s s' f : (forall o, o ∈ db_orders s -> o ∈ db_orders s') -> fill_linked s f -> fill_linked s' f.
Proof.
  intros Ho. unfold fill_linked. destruct (fi_fill_kind f); [|done]. intros (o & Hin & He). exists o. split; [by apply Ho|done].
Qed.

Lemma intent_linked_mono s s' i : (forall o, o ∈ db_orders s -> o ∈ db_orders s') -> intent_linked s i -> intent_linked s' i.
Proof. intros Ho [Hs Hf]. split; [done|]. intros H. destruct (Hf H) as (o & Hin & He). exists o. split; [by apply Ho|done]. Qed.

Lemma update_false {A} (cond : A -> bool) f rows x : x ∈ rows -> cond x = false -> x ∈ update_where cond f rows.
Proof. intros Hx Hc. apply list_elem_of_fmap. exists x. by rewrite Hc. Qed.

Lemma update_true {A} (cond : A -> bool) f rows x : x ∈ rows -> cond x = true -> f x ∈ update_where cond f rows.
Proof. intros Hx Hc. apply list_elem_of_fmap. exists x. by rewrite Hc. Qed.

Lemma update_keys {A} (key : A -> UUID) (cond : A -> bool) f rows :
  (forall x, key (f x) = key x) -> key <$> update_where cond f rows = key <$> rows.
Proof.
  intros H. unfold update_where. rewrite <- list_fmap_compose. apply list_fmap_ext. intros i x _. cbn. destruct (cond x); [apply H|done].
Qed.

(** The key of an entry names its order: no other fill has it. *)
Lemma append_ext (a b x y : string) : String.length a = String.length b -> (a +:+ x = b +:+ y)%string -> a = b.
Proof. intros Hl H. by apply append_inv in H as [-> _]. Qed.

Lemma exit_key_colon id id' t t' : uuid_text id -> paper_fill_key id t 0 <> paper_exit_fill_key id' t'.
Proof.
  unfold paper_fill_key, paper_exit_fill_key. intros [Hl Hc] H.
  do 5 (destruct id as [|? id]; [done|]). by simplify_eq/=.
Qed.

Lemma entry_key_fresh s o t :
  chain_inv s -> uuid_text o -> o ∉ or_paper_order_id <$> db_orders s ->
  paper_fill_key o t 0 ∉ fi_deterministic_fill_key <$> db_fills s.
Proof.
  intros Hinv Hu Ho (f & Hk & Hf)%list_elem_of_fmap. pose proof (ch_fills _ Hinv f Hf) as Hl. unfold fill_linked in Hl.
  destruct (fi_fill_kind f).
  - destruct Hl as (o' & Hin & _ & Hu' & t' & Hk'). rewrite Hk' in Hk. unfold paper_fill_key in Hk.
    apply append_ext in Hk; [|by destruct Hu as [-> _], Hu' as [-> _]]. apply Ho. rewrite Hk. by apply list_elem_of_fmap_2.
  - destruct Hl as (_ & _ & id & t' & Hk'). rewrite Hk' in Hk. by eapply exit_key_colon.
Qed.

Section Steps.
Context (s s' : PaperStore).
Hypothesis Hinv : chain_inv s.

Lemma chain_side : same_chain s s' -> side_inv s' -> chain_inv s'.
Proof.
  intros (Hi & Ho & Hf & Hp) Hs. destruct Hinv as [H1 H2 H3 H4 H5 H6 H7 H8 H9 _].
  split; rewrite ?Hi, ?Ho, ?Hf, ?Hp; try done.
  - intros o Hin. apply (order_linked_mono s); rewrite ?Hi, ?Hf, ?Hp; eauto.
  - intros i Hin. apply (intent_linked_mono s); rewrite ?Ho; eauto.
  - intros p Hin. apply (position_linked_mono s); rewrite ?Ho; eauto.
  - intros f Hin. apply (fill_linked_mono s); rewrite ?Ho; eauto.
Qed.

Lemma side_same : db_stop_events s' = db_stop_events s -> db_snapshots s' = db_snapshots s -> side_inv s'.
Proof. intros He Hn. destruct (ch_side _ Hinv) as [H1 H2]. split; by rewrite ?He, ?Hn. Qed.

Lemma chain_new_intent i :
  ti_intent_id i ∉ ti_intent_id <$> db_intents s -> ti_status i = IS_SCHEDULED ->
  db_intents s' = db_intents s ++ [i] -> db_orders s' = db_orders s -> db_fills s' = db_fills s ->
  db_positions s' = db_positions s -> side_inv s' -> chain_inv s'.
Proof.
  intros Hid Hst Hi Ho Hf Hp Hs. destruct Hinv as [H1 H2 H3 H4 H5 H6 H7 H8 H9 _].
  split; rewrite ?Hi, ?Ho, ?Hf, ?Hp; try done.
  - rewrite fmap_app. by apply NoDup_snoc.
  - intros o Hin. apply (order_linked_mono s); rewrite ?Hi, ?Hf, ?Hp; eauto. intros j Hj _. apply elem_of_app. by left.
  - intros j [Hin| ->%list_elem_of_singleton]%elem_of_app; [apply (intent_linked_mono s); rewrite ?Ho; eauto|].
    split; rewrite Hst; [set_solver|done].
  - intros p Hin. apply (position_linked_mono s); rewrite ?Ho; eauto.
  - intros f Hin. apply (fill_linked_mono s); rewrite ?Ho; eauto.
Qed.

(** The status of an intent without an order changes to one that is not
    filled. *)
Lemma chain_status id (upd : TradeIntent -> TradeIntent) st :
  (forall i, ti_intent_id (upd i) = ti_intent_id i /\ ti_status (upd i) = st) ->
  st ∈ [IS_SUBMITTED_TO_PAPER_ENGINE; IS_CANCELLED; IS_REJECTED] ->
  id ∉ or_intent_id <$> db_orders s ->
  db_intents s' = update_where (fun i => bool_decide (ti_intent_id i = id)) upd (db_intents s) ->
  db_orders s' = db_orders s -> db_fills s' = db_fills s -> db_positions s' = db_positions s -> side_inv s' -> chain_inv s'.
Proof.
  intros Hu Hst Hno Hi Ho Hf Hp Hs. destruct Hinv as [H1 H2 H3 H4 H5 H6 H7 H8 H9 _].
  split; rewrite ?Hi, ?Ho, ?Hf, ?Hp; try done.
  - rewrite update_keys; [done|]. intros i. apply Hu.
  - intros o Hin. apply (order_linked_mono s); rewrite ?Hi, ?Hf, ?Hp; eauto. intros j Hj Hjo. apply update_false; [done|].
    apply bool_decide_eq_false. intros He. apply Hno. rewrite <- He, Hjo. by apply list_elem_of_fmap_2.
  - intros j [[Hin _]|(i & Hin & _ & ->)]%elem_of_update; [apply (intent_linked_mono s); rewrite ?Ho; eauto|].
    destruct (Hu i) as [_ Hsi]. split; rewrite Hsi; [set_solver|]. intros ->. set_solver.
  - intros p Hin. apply (position_linked_mono s); rewrite ?Ho; eauto.
  - intros f Hin. apply (fill_linked_mono s); rewrite ?Ho; eauto.
Qed.

(** An entry: order, fill and position are new, the intent is filled. *)
Lemma chain_entry o f p i (upd : TradeIntent -> TradeIntent) :
  (forall i, ti_intent_id (upd i) = ti_intent_id i /\ ti_status (upd i) = IS_FILLED) ->
  i ∈ db_intents s -> ti_intent_id i = or_intent_id o ->
  or_paper_order_id o ∉ or_paper_order_id <$> db_orders s -> or_intent_id o ∉ or_intent_id <$> db_orders s ->
  or_status o = PO_FILLED -> order_row_to_domain o = Ok o ->
  entry_fill_of o f -> uuid_text (or_paper_order_id o) ->
  (exists t, fi_deterministic_fill_key f = paper_fill_key (or_paper_order_id o) t 0) ->
  fi_deterministic_fill_key f ∉ fi_deterministic_fill_key <$> db_fills s ->
  pp_entry_intent_id p = or_intent_id o -> pp_status p = PP_OPEN -> pp_average_entry_price p <= pp_highest_close_since_entry p ->
  db_intents s' = update_where (fun j => bool_decide (ti_intent_id j = or_intent_id o)) upd (db_intents s) ->
  db_orders s' = db_orders s ++ [o] -> db_fills s' = db_fills s ++ [f] -> db_positions s' = db_positions s ++ [p] ->
  side_inv s' -> chain_inv s'.
Proof.
  intros Hu Hin Hii Hoid Hoi Hos Hor [Hfk Hfo] Huuid Hnamed Hkey Hpe Hps Hph Hi Ho Hf Hp Hs.
  destruct Hinv as [H1 H2 H3 H4 H5 H6 H7 H8 H9 _].
  assert (Hsub : forall x, x ∈ db_orders s -> x ∈ db_orders s') by (intros x Hx; rewrite Ho; apply elem_of_app; by left).
  assert (Hnew : o ∈ db_orders s') by (rewrite Ho; apply elem_of_app; right; by left).
  assert (Hupd : upd i ∈ db_intents s') by (rewrite Hi; apply update_true; [done|by apply bool_decide_eq_true]).
  split; rewrite ?Ho, ?Hf, ?Hp, ?fmap_app; try done.
  - rewrite Hi, update_keys; [done|]. intros j. apply Hu.
  - by apply NoDup_snoc.
  - by apply NoDup_snoc.
  - apply NoDup_snoc; [done|]. intros (q & He & Hq)%list_elem_of_fmap. destruct (H8 q Hq) as [(o' & Ho' & Hoe) _ _].
    apply Hoi. rewrite <- Hpe, He, <- Hoe. by apply list_elem_of_fmap_2.
  - by apply NoDup_snoc.
  - intros x [Hx| ->%list_elem_of_singleton]%elem_of_app.
    + apply (order_linked_mono s); rewrite ?Hf, ?Hp; [..|by apply H6].
      * intros j Hj Hjx. rewrite Hi. apply update_false; [done|]. apply bool_decide_eq_false. intros He. apply Hoi.
        rewrite <- He, Hjx. by apply list_elem_of_fmap_2.
      * intros g Hg. apply elem_of_app. by left.
      * intros q Hq. exists q. split; [apply elem_of_app; by left|done].
    + split; [done|done| | |].
      * exists (upd i). destruct (Hu i) as [Hui Hus]. split_and!; [done|congruence|done].
      * exists f. rewrite Hf. split; [apply elem_of_app; right; by left|done].
      * exists p. rewrite Hp. split; [apply elem_of_app; right; by left|done].
  - intros j. rewrite Hi. intros [[Hj Hc]|(k & Hk & Hc & ->)]%elem_of_update; [by apply (intent_linked_mono s); auto|].
    destruct (Hu k) as [Huk Hus]. split; rewrite Hus; [set_solver|]. intros _. exists o. split; [done|].
    apply bool_decide_eq_true in Hc. congruence.
  - intros q [Hq| ->%list_elem_of_singleton]%elem_of_app; [by apply (position_linked_mono s); auto|].
    split; [by exists o|by rewrite Hps|done].
  - intros g [Hg| ->%list_elem_of_singleton]%elem_of_app; [by apply (fill_linked_mono s); auto|].
    unfold fill_linked. rewrite Hfk. exists o. by split_and!.
Qed.

(** A position row changes; an exit adds its fill. *)
Lemma chain_replace row p fs :
  row ∈ db_positions s -> NoDup (pp_position_id <$> db_positions s) ->
  pp_position_id p = pp_position_id row -> pp_entry_intent_id p = pp_entry_intent_id row ->
  pp_status p <> PP_CLOSING -> pp_average_entry_price p <= pp_highest_close_since_entry p ->
  (forall f, f ∈ fs -> fi_fill_kind f = FK_EXIT /\ fi_paper_order_id f = None /\ is_Some (fi_position_id f) /\
     exists id t, fi_deterministic_fill_key f = paper_exit_fill_key id t) ->
  NoDup (fi_deterministic_fill_key <$> (db_fills s ++ fs)) ->
  db_intents s' = db_intents s -> db_orders s' = db_orders s -> db_fills s' = db_fills s ++ fs ->
  db_positions s' = replace_position p (db_positions s) -> side_inv s' -> chain_inv s'.
Proof.
  intros Hrow Hnd Hid Hent Hst Hhigh Hfs Hkeys Hi Ho Hf Hp Hs. destruct Hinv as [H1 H2 H3 H4 H5 H6 H7 H8 H9 _].
  assert (Hent' : pp_entry_intent_id <$> replace_position p (db_positions s) = pp_entry_intent_id <$> db_positions s).
  { unfold replace_position, update_where. rewrite <- list_fmap_compose. apply list_fmap_ext. intros k x Hx. cbn.
    case_bool_decide as Hk; [|done]. apply list_elem_of_lookup_2 in Hx.
    rewrite (key_row pp_position_id (db_positions s) x row); [done|done|done|done|congruence]. }
  split; rewrite ?Hi, ?Ho, ?Hf; try done.
  - by rewrite Hp, Hent'.
  - intros o Hin. apply (order_linked_mono s); rewrite ?Hi, ?Hf; [done| | |by apply H6].
    + intros f Hfin. apply elem_of_app. by left.
    + intros q Hq. assert (Hm : pp_entry_intent_id q ∈ pp_entry_intent_id <$> db_positions s').
      { rewrite Hp, Hent'. by apply list_elem_of_fmap_2. }
      apply list_elem_of_fmap in Hm as (r & Hr & Hrin). by exists r.
  - intros i Hin. apply (intent_linked_mono s); rewrite ?Ho; eauto.
  - intros q. rewrite Hp. intros [->|[Hq _]]%(elem_of_replace _ row p); try done.
    + destruct (H8 row Hrow) as [(o & Hoin & Hoe) _ _]. split; [|done|done]. exists o. rewrite Ho. split; [done|congruence].
    + apply (position_linked_mono s); rewrite ?Ho; eauto.
  - intros f [Hin|Hin]%elem_of_app; [apply (fill_linked_mono s); rewrite ?Ho; eauto|].
    destruct (Hfs f Hin) as (Hk & Hn & Hx & Hkey). unfold fill_linked. by rewrite Hk.
Qed.
End Steps.
