(* ===== verification/PaperRecoverable.v ===== *)
(** * Every database the program writes can be recovered (services/paper_trading/)

    The operations keep the chain of PaperChain, so the startup recovery finds
    only what it repairs itself. *)
From Stdlib Require Import ZArith QArith Lqa Lia.
From stdpp Require Import base list gmap sets strings relations.
From S2P Require Import Prelude Decimal StrategyModels RiskModels Stops BtModels BtData BtPortfolio PaperLifecycle MarketModels.
From S2P Require Import PaperModels PaperSession Transitions PaperRuntime PaperRepository PaperAccounting PaperExecution PaperStops.
From S2P Require Import PaperIntents PaperRecovery PaperLedger PaperReconcile PaperChain.
From S2P Require RiskEngine.

Local Open Scope Q_scope.
#[local] Opaque rnd.

Definition books (initial : decimal) (s : PaperStore) : Prop := ledger_inv initial s /\ chain_inv s.

(** ** Snapshots, trailing stops and closes *)

Lemma capture_chain s id t event candles closes c n b s' :
  chain_inv s -> capture_snapshot s id t event candles closes c = Ok (n, b, s') -> chain_inv s'.
Proof.
  intros Hinv. unfold capture_snapshot. intros (w & _ & H)%bind_ok. apply bind_ok in H as (w' & _ & H).
  apply bind_ok in H as (ps & _ & H). apply bind_ok in H as ([[sn cr] s1] & Hi & H). injection H as _ _ <-.
  unfold insert_or_get_portfolio_snapshot in Hi. apply bind_ok in Hi as ([[r b'] rows] & Hi & Hj). injection Hj as _ <- <-.
  pose proof (insert_or_get_ok _ _ _ _ _ _ _ Hi) as Hk. destruct (ch_side _ Hinv) as [H1 H2].
  assert (Hside : NoDup (sn_idempotency_key <$> rows)).
  { destruct b'; [|by destruct Hk as [-> _]]. destruct Hk as [_ [-> _ Hu _]]. rewrite fmap_app. apply NoDup_snoc; [done|].
    intros (x & He & Hx)%list_elem_of_fmap. specialize (Hu x Hx). cbn in Hu. apply orb_false_iff in Hu as [_ Hu].
    apply bool_decide_eq_false in Hu. by apply Hu. }
  apply (chain_side s); [done|by destruct b'|]. split; destruct b'; done.
Qed.

Lemma trailing_high st close atr params tick st' :
  compute_trailing_update st close atr params tick = Ok st' -> ts_highest_close st <= ts_highest_close st'.
Proof.
  unfold compute_trailing_update, compute_trailing_stop_update, update_trailing_stop. intros (t & _ & H)%bind_ok.
  injection H as <-. apply dmax_l.
Qed.

Lemma books_step initial s s' : books initial s -> rtc ledger_step s s' -> chain_inv s' -> books initial s'.
Proof. intros [Hl _] Hr Hc. split; [by eapply ledger_steps_inv|done]. Qed.

(** Runtime, scheduler runs, evaluations and the audit log are beside the books. *)
Definition beside (s s' : PaperStore) : Prop :=
  same_ledger s s' /\ same_chain s s' /\ db_stop_events s' = db_stop_events s /\ db_snapshots s' = db_snapshots s.

Lemma beside_refl s : beside s s.
Proof. done. Qed.

Lemma beside_trans s1 s2 s3 : beside s1 s2 -> beside s2 s3 -> beside s1 s3.
Proof.
  intros (Hl1 & (?&?&?&?) & ? & ?) (Hl2 & (?&?&?&?) & ? & ?).
  split; [by eapply same_ledger_trans|]. unfold same_chain. split_and!; congruence.
Qed.

Lemma beside_books initial s s' : beside s s' -> books initial s -> books initial s'.
Proof.
  intros (Hl & Hch & He & Hn) Hb. eapply books_step; [exact Hb|by apply step_same|]. destruct Hb as [_ Hc].
  apply (chain_side s); [done|done|by apply (side_same s)].
Qed.

Lemma position_of initial s p : books initial s -> p ∈ db_positions s -> position_linked s p.
Proof. intros [_ Hc] Hp. by apply ch_positions. Qed.

Lemma books_snapshot initial s id t event candles closes c n b s' :
  books initial s -> capture_snapshot s id t event candles closes c = Ok (n, b, s') -> books initial s'.
Proof.
  intros Hb H. eapply books_step; [exact Hb|by eapply step_same, capture_snapshot_same|]. by eapply capture_chain, H; apply Hb.
Qed.

Lemma book_trailing_books initial s p id st close atr params tick t c b s' :
  books initial s -> p ∈ db_positions s -> is_open_position p = true ->
  compute_trailing_update (trailing_state p) close atr params tick = Ok st ->
  book_trailing_update s id p st atr t c = Ok (b, s') -> books initial s'.
Proof.
  intros Hb Hin Ho Hst H. eapply books_step; [exact Hb|by eapply book_trailing_steps, H; [apply Hb|..]|].
  destruct Hb as [Hl Hc]. unfold book_trailing_update in H. apply trailing_high in Hst. cbn in Hst.
  apply bind_ok in H as ([[ev created] s1] & Hi & H).
  unfold insert_or_get_stop_event in Hi. apply bind_ok in Hi as ([[r b'] rows] & Hi & Hj). apply bind_ok in Hj as (r' & _ & Hj).
  injection Hj as _ -> <-. apply insert_or_get_ok in Hi. destruct created; cbn [negb] in H.
  2: { injection H as _ <-. destruct Hi as [-> _]. apply (chain_side s); [done|done|]. by apply (side_same s). }
  destruct Hi as [_ [-> Hchk _ _]]. cbn in Hchk. apply dleb_le in Hchk.
  apply bind_ok in H as (row & Hrow & H). apply or_raise_ok in Hrow. cbn in Hrow.
  apply (row_of_position initial) in Hrow as ->; [|done..].
  apply bind_ok in H as (s2 & Hf & H). apply flush_position_ok in Hf as [_ ->]. injection H as _ <-.
  destruct (ch_positions _ Hc p Hin) as [_ Hns Hh].
  apply (chain_replace s _ Hc p (row_with_stop p (ts_effective_stop st) (ts_highest_close st)) []); try done.
  - apply Hl.
  - cbn. lra.
  - by intros f ?%elem_of_nil.
  - rewrite app_nil_r. apply Hc.
  - cbn. by rewrite app_nil_r.
  - split; [|apply Hc]. apply Forall_app. split; [apply Hc|]. by constructor.
Qed.

Lemma trailing_books initial t candles atrs constraints params c ids :
  keeps (books initial) (update_daily_trailing_stops t candles atrs constraints params c ids).
Proof.
  apply trailing_keeps; [apply books_snapshot|]. intros s symbol p tick close st id atr b s' [Hb Hp] Hst H.
  apply open_position_ok in Hp as (Hin & Ho & _ & _). by eapply book_trailing_books.
Qed.

Lemma fill_inserted_fresh s row f s' :
  insert_or_get_paper_fill s row = Ok (f, true, s') -> fi_deterministic_fill_key row ∉ fi_deterministic_fill_key <$> db_fills s.
Proof.
  unfold insert_or_get_paper_fill. intros (e & _ & H)%bind_ok. destruct e as [g|].
  - by apply bind_ok in H as (g' & _ & H).
  - apply bind_ok in H as ([[r b] rows] & Hi & H). apply bind_ok in H as (r' & _ & H). injection H as _ -> _.
    apply insert_or_get_ok in Hi as [-> [_ _ Hu _]]. intros (x & He & Hx)%list_elem_of_fmap. specialize (Hu x Hx). cbn in Hu.
    apply orb_false_iff in Hu as [[_ Hu]%orb_false_iff _]. apply bool_decide_eq_false in Hu. by apply Hu.
Qed.

Lemma fill_existing_chain s row f s' : chain_inv s -> insert_or_get_paper_fill s row = Ok (f, false, s') -> chain_inv s'.
Proof.
  intros Hc H. apply fill_existing_ok in H as [[_ ->]| ->]; [|done]. apply (chain_side s); [done|done|]. by apply (side_same s).
Qed.

Lemma book_exit_chain initial s now id p trigger x t c closed s' :
  books initial s -> p ∈ db_positions s -> book_exit s now id p trigger x t c = Ok (closed, s') -> chain_inv s'.
Proof.
  intros [Hl Hc] Hin H. unfold book_exit in H.
  destruct (get_by _ _ _) as [row|] eqn:Er; [|injection H as _ <-; done].
  apply (row_of_position initial) in Er as ->; [|done..]. case_match; [injection H as _ <-; done|].
  apply bind_ok in H as ([[f created] s1] & Hi & H). destruct created; cbn [negb] in H.
  2: { injection H as _ <-. by eapply fill_existing_chain. }
  pose proof (fill_inserted_fresh _ _ _ _ Hi) as Hkey. apply fill_inserted_ok in Hi as (-> & Hrd & ->).
  apply bind_ok in H as (s2 & H2 & H). apply flush_position_ok in H2 as [_ ->].
  apply bind_ok in H as ([w s3] & H3 & H). apply update_wallet_ok in H3 as (w0 & Hw & ->).
  apply bind_ok in H as (s4 & H4 & H). apply flush_position_ok in H4 as [_ ->]. injection H as _ <-.
  destruct (ch_positions _ Hc p Hin) as [_ Hns Hh].
  apply (chain_replace s _ Hc p (closed_row p t (dsub (xa_gross_pnl x) (xa_fee x))) [exit_fill id p trigger x t]); try done.
  - apply Hl.
  - intros f ->%list_elem_of_singleton. split_and!; [done|done|by eexists|by exists (pp_position_id p), t].
  - rewrite fmap_app. apply NoDup_snoc; [apply Hc|done].
  - cbn. unfold replace_position, update_where. rewrite <- list_fmap_compose. apply list_fmap_ext. intros i b _. cbn.
    destruct (decide (pp_position_id b = pp_position_id p)) as [He|He].
    + rewrite (bool_decide_eq_true_2 _ He). cbn. by rewrite bool_decide_eq_true_2.
    + by rewrite !(bool_decide_eq_false_2 _ He).
  - by apply (side_same s).
Qed.

Lemma triggers_books initial config now t candles constraints c b1 b2 ids l results :
  keeps (books initial) (foldS (stop_trigger_for_symbol config now t candles constraints c b1 b2 ids) l results).
Proof.
  apply triggers_keeps; [apply books_snapshot|]. intros s symbol p id trigger x b s' [Hb Hp] Hx H.
  apply open_position_ok in Hp as (Hin & Ho & _ & _). apply exit_accounting_fields in Hx as [Hg Hn].
  eapply books_step; [exact Hb|by eapply book_exit_steps, H; [apply Hb|..]|by eapply book_exit_chain].
Qed.

(** ** Entries *)

Lemma entry_high inputs a :
  compute_entry_execution inputs = Ok (EntryApproved a) ->
  ts_highest_close (ea_trail_state (eap_accounting a)) = ef_fill_price (eap_fill_prices a).
Proof.
  unfold compute_entry_execution. intros (con & _ & H)%bind_ok. case_match; [done|].
  apply bind_ok in H as (prices & _ & H). apply bind_ok in H as (d & _ & H).
  destruct (rd_approved d), (rd_rounded_quantity d) as [q|]; try done.
  apply bind_ok in H as (acc & Hacc & H). case_match; [done|]. injection H as <-.
  unfold compute_entry_accounting, initialize_trailing_stop in Hacc. apply bind_ok in Hacc as (m & _ & Hacc).
  apply bind_ok in Hacc as (tr & Htr & Hacc). injection Hacc as <-. cbn.
  apply bind_ok in Htr as (t & _ & Htr). by injection Htr as <-.
Qed.

Lemma fill_existing_found s row f s' :
  insert_or_get_paper_fill s row = Ok (f, false, s') ->
  exists g, g ∈ db_fills s /\ (same_order_fill row g = true \/ same_exit_fill row g = true \/ same_fill_key row g = true).
Proof.
  assert (Hsc : forall (c : PaperFill -> bool) g, scalar_one_or_none (List.filter c (db_fills s)) = Ok (Some g) -> g ∈ db_fills s /\ c g = true).
  { intros c g Hg. destruct (List.filter _ _) as [|x [|]] eqn:E; try done. injection Hg as ->.
    apply elem_of_list_filter. rewrite E. by left. }
  unfold insert_or_get_paper_fill, existing_fill. intros (e & He & H)%bind_ok. apply bind_ok in He as (en & Hen & He).
  destruct en as [g|].
  { destruct (fi_paper_order_id row); [|done]. apply Hsc in Hen as [? ?]. exists g. auto. }
  destruct e as [g|].
  { destruct (fi_position_id row), (fi_fill_kind row); try done. apply Hsc in He as [? ?]. exists g. auto. }
  apply bind_ok in H as ([[r b] rows] & Hi & H). apply bind_ok in H as (r' & Hr & H). injection H as _ -> _.
  apply insert_or_get_ok in Hi as (_ & ? & ?). exists r. auto.
Qed.

Lemma new_entry_created s s1 o ids i a ref t f b s' :
  chain_inv s -> db_fills s1 = db_fills s -> uuid_text o -> o ∉ or_paper_order_id <$> db_orders s ->
  insert_or_get_paper_fill s1 (entry_fill ids o i a ref t) = Ok (f, b, s') -> b = true.
Proof.
  intros Hc Hs1 Hu Ho H. destruct b; [done|]. apply fill_existing_found in H as (g & Hg & H). rewrite Hs1 in Hg.
  destruct H as [H|[H|H]].
  - cbn in H. unfold same_order_fill in H. cbn in H. apply andb_true_iff in H as [[H _]%andb_true_iff _].
    apply bool_decide_eq_true in H. pose proof (ch_fills _ Hc g Hg) as Hl. unfold fill_linked in Hl. destruct (fi_fill_kind g).
    + destruct Hl as (o' & Hin & He & _). destruct Ho. rewrite H in He. injection He as ->. by apply list_elem_of_fmap_2.
    + destruct Hl as [Hl _]. congruence.
  - done.
  - destruct (entry_key_fresh s o t Hc Hu Ho). unfold same_fill_key in H. apply bool_decide_eq_true in H. cbn in H.
    rewrite <- H. by apply list_elem_of_fmap_2.
Qed.

(** An intent that no order belongs to. *)
Definition unfilled (s : PaperStore) (id : UUID) : Prop :=
  id ∈ ti_intent_id <$> db_intents s /\ id ∉ or_intent_id <$> db_orders s.

(** What handling one intent does to the others. *)
Definition handles (id : UUID) (s s' : PaperStore) : Prop := forall id', id' <> id -> unfilled s id' -> unfilled s' id'.

Lemma intent_status_ok s now id st q r t i s' :
  update_intent_status s now id st q r t = Ok (i, s') ->
  s' = with_intents s (update_where (fun i => bool_decide (ti_intent_id i = id)) (intent_with_status st q r (default now t)) (db_intents s)).
Proof. unfold update_intent_status. intros (row & _ & H)%bind_ok. by injection H as _ <-. Qed.

Lemma order_inserted s row o b s' :
  row.(or_intent_id) ∉ or_intent_id <$> db_orders s -> insert_or_get_paper_order s row = Ok (o, b, s') ->
  o = row /\ s' = with_orders s (db_orders s ++ [row]) /\ or_paper_order_id row ∉ or_paper_order_id <$> db_orders s /\
  order_row_to_domain row = Ok row.
Proof.
  intros Hn. unfold insert_or_get_paper_order. intros ([[o' b'] rows] & Hi & H)%bind_ok.
  apply bind_ok in H as (o2 & Ho & H). injection H as -> -> <-. apply insert_or_get_ok in Hi. destruct b.
  - destruct Hi as [-> [-> _ Hu _]]. pose proof (order_row_ok _ _ Ho) as ->. split_and!; try done.
    intros (x & He & Hx)%list_elem_of_fmap. specialize (Hu x Hx). cbn in Hu. apply orb_false_iff in Hu as [Hu _].
    apply bool_decide_eq_false in Hu. by apply Hu.
  - destruct Hi as (_ & Hin & Hc). destruct Hn. apply bool_decide_eq_true in Hc. rewrite <- Hc. by apply list_elem_of_fmap_2.
Qed.

Lemma status_books initial s now id st q r t i s' :
  books initial s -> st ∈ [IS_SUBMITTED_TO_PAPER_ENGINE; IS_CANCELLED; IS_REJECTED] -> unfilled s id ->
  update_intent_status s now id st q r t = Ok (i, s') -> books initial s' /\ unfilled s' id /\ handles id s s'.
Proof.
  intros Hb Hst [Hin Hn] H. pose proof (intent_status_same _ _ _ _ _ _ _ _ _ H) as Hsame. apply intent_status_ok in H as ->.
  assert (Hkeys : forall id', unfilled s id' -> unfilled (with_intents s (update_where (fun i => bool_decide (ti_intent_id i = id))
    (intent_with_status st q r (default now t)) (db_intents s))) id').
  { intros id' [H1 H2]. split; [|done]. cbn. by rewrite update_keys. }
  split_and!; [|by apply Hkeys|by intros ???; apply Hkeys].
  eapply books_step; [exact Hb|by apply step_same|]. destruct Hb as [_ Hc].
  apply (chain_status s _ Hc id (intent_with_status st q r (default now t)) st); try done. by apply (side_same s).
Qed.

Lemma persist_books initial s now ids i a ref t atr c r s' :
  books initial s -> unfilled s (ti_intent_id i) -> uuid_text (id_order ids) -> approved_ok a ->
  ts_highest_close (ea_trail_state (eap_accounting a)) = ef_fill_price (eap_fill_prices a) ->
  _persist_successful_fill s now ids i a ref t atr c = Ok (r, s') -> books initial s' /\ handles (ti_intent_id i) s s'.
Proof.
  intros Hb [Hin Hn] Hu Ha Hhigh H. pose proof (persist_steps _ _ _ _ _ _ _ _ _ _ _ Ha H) as Hsteps.
  unfold _persist_successful_fill in H. pose proof Hb as [_ Hc].
  apply bind_ok in H as ([[o oc] s1] & Ho & H). apply order_inserted in Ho as (-> & -> & Hoid & Hor); [|done].
  apply bind_ok in H as ([[f created] s2] & Hf & H).
  assert (created = true) as -> by (eapply (new_entry_created s); [..|exact Hf]; done).
  pose proof (fill_inserted_fresh _ _ _ _ Hf) as Hkey. apply fill_inserted_ok in Hf as (-> & Hrd & ->). cbn [negb] in H.
  apply bind_ok in H as ([w s3] & Hw & H). apply update_wallet_ok in Hw as (w0 & Hw & ->).
  apply bind_ok in H as ([p s4] & Hp & H). apply position_inserted in Hp as (-> & Hrp & -> & _ & _).
  apply bind_ok in H as ([ui s5] & Hi & H). apply intent_status_ok in Hi as ->. injection H as _ <-.
  apply list_elem_of_fmap in Hin as (j & Hj & Hjin). split.
  - eapply books_step; [exact Hb|exact Hsteps|].
    eapply (chain_entry s _ Hc (entry_order ids i (eap_quantity a) t) (entry_fill ids (id_order ids) i a ref t)
      (entry_position ids i a t atr) j (intent_with_status IS_FILLED (Some (eap_quantity a)) None (default now None))); try done.
    + by exists t.
    + cbn. rewrite Hhigh. lra.
    + by apply (side_same s).
  - intros id' Hne [H1 H2]. split; cbn.
    + by rewrite update_keys.
    + rewrite fmap_app. cbn. intros [?|Hx%list_elem_of_singleton]%elem_of_app; done.
Qed.

Lemma load_existing_none s i t : unfilled s (ti_intent_id i) -> _load_existing_fill s i t = Ok None.
Proof. intros [_ Hn]. unfold _load_existing_fill. by rewrite (scalar_none or_intent_id). Qed.

Lemma fill_books initial s now ids i fx processed pending c out s' :
  books initial s -> unfilled s (ti_intent_id i) -> uuid_text (id_order ids) ->
  execute_scheduled_paper_fill s now ids i fx processed pending c = Ok (out, s') ->
  books initial s' /\ handles (ti_intent_id i) s s'.
Proof.
  intros Hb Hun Hu. unfold execute_scheduled_paper_fill. intros (con & _ & H)%bind_ok.
  rewrite load_existing_none in H by done. cbn [mbind res_bind] in H. apply bind_ok in H as (ps & _ & H).
  case_match; [injection H as _ <-; split; [done|by intros ???]|].
  apply bind_ok in H as (w & _ & H). apply bind_ok in H as (w' & _ & H). apply bind_ok in H as (calc & Hc & H). destruct calc as [r|a].
  - apply bind_ok in H as (s1 & Hr & H). injection H as _ <-. unfold reject_fill in Hr.
    apply bind_ok in Hr as ([ri s2] & Hr & H). injection H as <-.
    apply (status_books initial) in Hr as (Hb2 & _ & Hh); [|done|set_solver|done]. split; [|done].
    by eapply beside_books, Hb2.
  - apply bind_ok in H as ([r s1] & Hp & H). injection H as _ <-.
    eapply (persist_books initial); [done..| | |exact Hp]; [by eapply compute_entry_approved|by eapply entry_high].
Qed.

Lemma submit_intent_books initial env ctxs symbol ctx ids i s out s' :
  (forall id, uuid_text (id_order (be_ids env id))) -> books initial s -> unfilled s (ti_intent_id i) ->
  submit_intent env ctxs symbol ctx ids i s = Ok (out, s') -> books initial s' /\ handles (ti_intent_id i) s s'.
Proof.
  unfold submit_intent. intros Hu Hb Hun H. case_match.
  - apply bind_ok in H as (u & _ & H). apply bind_ok in H as ([i' s1] & Hi & H). injection H as _ <-.
    by apply (status_books initial) in Hi as (Hb1 & _ & Hh); [|done|set_solver|done].
  - apply bind_ok in H as (u & _ & H). apply bind_ok in H as ([i' s1] & Hi & H). apply bind_ok in H as ([o s2] & Hf & H).
    injection H as _ <-. apply (status_books initial) in Hi as (Hb1 & Hun1 & Hh1); [|done|set_solver|done].
    apply (fill_books initial) in Hf as [Hb2 Hh2]; [|done|done|done]. split; [done|]. intros id' Hne Hid. apply Hh2, Hh1; done.
Qed.

(** The intents of a batch are distinct and none has an order. *)
Lemma intents_books initial env ctxs symbol ctx l st :
  (forall id, uuid_text (id_order (be_ids env id))) -> NoDup (ti_intent_id <$> l) ->
  hoare (fun s => books initial s /\ Forall (fun i => unfilled s (ti_intent_id i)) l)
    (foldS (process_intent env ctxs symbol ctx) l st) (fun _ => books initial) (fun _ => books initial).
Proof.
  intros Hu. revert st. induction l as [|i l IH]; intros st Hnd; cbn [foldS]; [by intros s [Hb _]|].
  cbn in Hnd. apply NoDup_cons in Hnd as [Hn Hnd].
  eapply (hoare_bind _ _ _ (fun _ s => books initial s /\ Forall (fun i => unfilled s (ti_intent_id i)) l)); [|intros st'; by apply IH].
  intros s [Hb [Hi Hall]%Forall_cons]. unfold process_intent. destruct (negb _); [done|].
  unfold mbind, sx_bind, writes. cbn. destruct (submit_intent _ _ _ _ _ _ _) as [[out s']|e] eqn:E; [|done].
  apply (submit_intent_books initial) in E as [Hb1 Hh]; [|done..].
  assert (Forall (fun i => unfilled s' (ti_intent_id i)) l); [|by destruct out].
  rewrite Forall_forall in Hall. apply Forall_forall. intros j Hj. apply Hh; [|by apply Hall].
  intros He. apply Hn. rewrite <- He. by apply list_elem_of_fmap_2.
Qed.

Lemma scheduled_unfilled s symbol t :
  chain_inv s -> NoDup (ti_intent_id <$> get_scheduled_intents_for_symbol s symbol t) /\
  Forall (fun i => unfilled s (ti_intent_id i)) (get_scheduled_intents_for_symbol s symbol t).
Proof.
  intros Hc. unfold get_scheduled_intents_for_symbol. split.
  - rewrite <- list_fmap_compose. rewrite (sort_by_Permutation ti_created_at). apply (NoDup_fmap_filter ti_intent_id), Hc.
  - apply Forall_forall. intros x (i & -> & Hi)%list_elem_of_fmap. rewrite elem_of_sort_by, elem_of_list_filter in Hi.
    destruct Hi as [Hi Hs]. cbn. split; [by apply list_elem_of_fmap_2|]. intros (o & He & Ho)%list_elem_of_fmap.
    destruct (ol_intent _ _ (ch_orders _ Hc o Ho)) as (j & Hj & Hji & Hjs).
    assert (j = i) as -> by (apply (key_row ti_intent_id (db_intents s)); [apply Hc|done|done|congruence]).
    unfold is_scheduled_for in Hs. rewrite Hjs in Hs. apply andb_true_iff in Hs as [_ Hs]. by apply bool_decide_eq_true in Hs; set_solver.
Qed.

Lemma batch_books initial env delay ctxs :
  (forall id, uuid_text (id_order (be_ids env id))) -> keeps (books initial) (process_scheduled_intents_for_open env delay ctxs).
Proof.
  intros Hu. apply keeps_bind; [|intros [results ids]; apply keeps_ret]. apply keeps_fold. intros [results ids] symbol.
  unfold process_symbol. destruct (od_get ctxs symbol) as [ctx|]; [|apply keeps_ret]. destruct (_ <? _)%Z; [apply keeps_ret|].
  intros s Hb. unfold mbind, sx_bind, gets. destruct (scheduled_unfilled s symbol (fc_candle_open_time ctx)) as [Hnd Hall]; [apply Hb|].
  set (l := get_scheduled_intents_for_symbol _ _ _) in *.
  pose proof (intents_books initial env ctxs symbol ctx l
    {| bs_processed_ids := ids; bs_processed := 0; bs_filled := 0; bs_rejected := 0; bs_skipped := 0 |} Hu Hnd s (conj Hb Hall)) as H.
  by destruct (foldS _ _ _ s) as [[st|e] s'].
Qed.

Lemma evaluation_books initial d1 d2 d3 h s id1 id2 symbol t bundle params config gates at_ ready c r s' :
  books initial s ->
  evaluate_symbol_for_daily_close d1 d2 d3 h s id1 id2 symbol t bundle params config gates at_ ready c = Ok (r, s') ->
  books initial s'.
Proof.
  unfold evaluate_symbol_for_daily_close. intros Hb H. case_match; [done|]. case_match; [done|].
  destruct (last _) as [cd|]; [|done]. case_match; [done|]. apply bind_ok in H as (ev & _ & H). unfold record_evaluation in H.
  apply bind_ok in H as ([[e b] s1] & He & H). unfold insert_or_get_strategy_evaluation in He.
  apply bind_ok in He as ([[e' b'] rows] & _ & He). injection He as _ _ <-.
  case_match; [injection H as _ <-; by eapply beside_books, Hb|]. apply bind_ok in H as ([[[i b2] bl] s2] & Hi & H).
  injection H as _ <-. assert (Hs2 : books initial s2).
  { set (s1 := append_audit_event _ _) in Hi. assert (Hb1 : books initial s1) by (by eapply beside_books, Hb). clearbody s1.
    unfold create_intent_from_evaluation in Hi. case_match; [by injection Hi as _ _ _ <-|].
    apply bind_ok in Hi as (et & _ & Hi). apply bind_ok in Hi as (en & _ & Hi). apply bind_ok in Hi as (st & _ & Hi).
    apply bind_ok in Hi as ([[ti b3] s3] & Ht & Hi). injection Hi as _ _ _ <-. unfold insert_or_get_trade_intent in Ht.
    apply bind_ok in Ht as ([[ti' b4] rows'] & Ht & Hi). injection Hi as _ _ <-. apply insert_or_get_ok in Ht. destruct b4.
    - destruct Ht as [-> [-> _ Hu _]]. eapply books_step; [exact Hb1|by apply step_same|].
      eapply (chain_new_intent s1 _ (proj2 Hb1) (new_intent id2 e ev et en st _)); try done; [|by apply (side_same s1 _ (proj2 Hb1))].
      intros (x & He & Hx)%list_elem_of_fmap. specialize (Hu x Hx). cbn in Hu. apply orb_false_iff in Hu as [[Hu _]%orb_false_iff _].
      apply bool_decide_eq_false in Hu. by apply Hu.
    - destruct Ht as [-> _]. by eapply beside_books, Hb1. }
  destruct i; [|exact Hs2]. destruct b2; [|exact Hs2]. by eapply beside_books, Hs2.
Qed.

(** ** Runtime and recovery *)

Lemma update_runtime_beside s u r s' : update_runtime_state s u = Ok (r, s') -> beside s s'.
Proof. unfold update_runtime_state. intros (row & _ & H)%bind_ok. case_match; [done|]. by injection H as _ <-. Qed.

Lemma transition_beside s now target e c r s' : transition s now target e c = Ok (r, s') -> beside s s'.
Proof.
  unfold transition. intros H. apply bind_ok in H as (cur & _ & H). apply bind_ok in H as (u & _ & H).
  apply bind_ok in H as ([st s1] & Hu & H). injection H as _ <-. by apply update_runtime_beside in Hu.
Qed.

Lemma heartbeat_beside s now r s' : heartbeat s now = Ok (r, s') -> beside s s'.
Proof. unfold heartbeat. intros (cur & _ & H)%bind_ok. by apply update_runtime_beside in H. Qed.

Lemma set_paused_beside s now b r s' : set_paused s now b = Ok (r, s') -> beside s s'.
Proof.
  unfold set_paused. intros (cur & _ & H)%bind_ok. apply bind_ok in H as ([st s1] & Hu & H). injection H as _ <-.
  by apply update_runtime_beside in Hu.
Qed.

Lemma set_kill_switch_beside s now b r s' : set_kill_switch s now b = Ok (r, s') -> beside s s'.
Proof.
  unfold set_kill_switch. intros (cur & _ & H)%bind_ok. apply bind_ok in H as ([st s1] & Hu & H). injection H as _ <-.
  by apply update_runtime_beside in Hu.
Qed.

(** The two kinds of issue a database with the books can have. *)
Definition RUNTIME_ISSUES : list string := ["orphan_scheduler_run"; "stale_runtime_heartbeat"]%string.

Lemma repair_beside now acc i acc' :
  ci_code i ∈ RUNTIME_ISSUES -> repair_issue now acc i = Ok acc' -> beside acc.2 acc'.2.
Proof.
  destruct acc as [repairs s]. unfold repair_issue. intros Hi H. cbn [snd]. case_match; [by injection H as <-|].
  assert (Hc : ci_code i = "orphan_scheduler_run"%string \/ ci_code i = "stale_runtime_heartbeat"%string) by set_solver.
  destruct Hc as [Hc|Hc]; rewrite Hc in H; cbn in H; [by injection H as <-|]. destruct (db_runtime s); [|by injection H as <-].
  apply bind_ok in H as ([o s1] & Ho & H). injection H as <-. by eapply update_runtime_beside.
Qed.

Lemma runtime_issues config now s :
  Forall (fun i => ci_code i ∈ RUNTIME_ISSUES /\ ci_severity i = AUTO_REPAIRABLE)
    (_check_orphan_scheduler_runs s ++ _check_stale_heartbeat config now s).
Proof.
  apply Forall_app. split.
  - apply Forall_forall. intros i (r & -> & _)%list_elem_of_fmap. split; [by left|done].
  - unfold _check_stale_heartbeat. destruct (db_runtime s); [|done]. unfold when. case_match; [|done].
    repeat constructor.
Qed.

Lemma repairs_beside now s issues repairs s' :
  Forall (fun i => ci_code i ∈ RUNTIME_ISSUES /\ ci_severity i = AUTO_REPAIRABLE) issues ->
  apply_auto_repairs now s issues = Ok (repairs, s') -> beside s s'.
Proof.
  rewrite Forall_forall. intros Hall H.
  refine (foldM_inv (repair_issue now) (fun acc => beside s acc.2) issues ([], s) (repairs, s') _ _ H); [done|].
  intros acc i acc' Hi Ha Hr. eapply beside_trans; [exact Ha|]. eapply repair_beside, Hr. by apply Hall.
Qed.

Lemma check_and_repair_beside initial config now s issues repairs s' :
  books initial s -> check_and_repair config now s = Ok (issues, repairs, s') -> beside s s'.
Proof.
  intros [Hl Hc]. unfold check_and_repair. rewrite (consistency_checks initial) by done. cbn [mbind res_bind]. intros H.
  apply bind_ok in H as ([r s1] & Hr & H). apply repairs_beside in Hr; [|apply runtime_issues].
  apply bind_ok in H as (i2 & _ & H). apply bind_ok in H as (a & _ & H). destruct a as [a|].
  - apply bind_ok in H as (s2 & Hs2 & H). injection H as _ _ <-. unfold _record_accounting_incident in Hs2.
    apply bind_ok in Hs2 as (rt & _ & Hs2). injection Hs2 as <-. exact Hr.
  - by injection H as _ _ <-.
Qed.

Lemma fail_beside s now code s' : _fail_recovery s now code = Ok s' -> beside s s'.
Proof.
  unfold _fail_recovery. intros ([r s1] & Ht & H)%bind_ok. apply bind_ok in H as (rt & _ & H). injection H as <-.
  by apply transition_beside in Ht.
Qed.

Lemma degrade_beside s now reason issues repairs r s' : degrade s now reason issues repairs = Ok (r, s') -> beside s s'.
Proof.
  unfold degrade. intros ([x s1] & Ht & H)%bind_ok. apply finish_same in H as ->. by apply transition_beside in Ht.
Qed.

(** What an invariant of the books needs to survive a recovery. *)
Section Recovering.
Context (initial : decimal) (I : PaperStore -> Prop).
Hypothesis I_books : forall s, I s -> books initial s.
Hypothesis I_beside : forall s s', beside s s' -> I s -> I s'.
Hypothesis I_snapshot : forall s id t event candles closes c n b s',
  I s -> capture_snapshot s id t event candles closes c = Ok (n, b, s') -> I s'.

Lemma transition_I s now target e c r s' : I s -> transition s now target e c = Ok (r, s') -> I s'.
Proof. intros Hb H. eapply I_beside, Hb. by eapply transition_beside. Qed.

Lemma check_and_repair_I config now s issues repairs s' :
  I s -> check_and_repair config now s = Ok (issues, repairs, s') -> I s'.
Proof. intros Hb H. eapply I_beside, Hb. eapply (check_and_repair_beside initial); [by apply I_books|done]. Qed.

Lemma fail_I s now code s' : I s -> _fail_recovery s now code = Ok s' -> I s'.
Proof. intros Hb H. eapply I_beside, Hb. by eapply fail_beside. Qed.

Lemma degrade_I s now reason issues repairs r s' : I s -> degrade s now reason issues repairs = Ok (r, s') -> I s'.
Proof. intros Hb H. eapply I_beside, Hb. by eapply degrade_beside. Qed.

Lemma recover_ready_keeps config now s m r s' : I s -> recover_ready config now s m = Ok (r, s') -> I s'.
Proof.
  unfold recover_ready. intros Hb ([[issues repairs] s1] & Hc & H)%bind_ok. apply check_and_repair_I in Hc; [|done].
  destruct (of_severity FATAL issues) as [|f l].
  - destruct (of_severity MANUAL issues); [|by apply degrade_I in H].
    destruct (negb m); [by apply degrade_I in H|]. by apply finish_same in H as ->.
  - apply bind_ok in H as (s2 & Hf & H). apply finish_same in H as ->. by apply fail_I in Hf.
Qed.

Lemma recover_other_keeps config now s rt m head id r s' :
  I s -> recover_other config now s rt m head id = Ok (r, s') -> I s'.
Proof.
  unfold recover_other. intros Hb (s1 & H1 & H)%bind_ok. assert (Hs1 : I s1).
  { case_decide; [|by injection H1 as <-]. apply bind_ok in H1 as ([x s2] & Ht & H1). injection H1 as <-. by eapply transition_I. }
  apply bind_ok in H as ([x s2] & Ht & H). apply transition_I in Ht; [|done]. destruct (negb head).
  { apply bind_ok in H as (s3 & Hf & H). apply finish_same in H as ->. by apply fail_I in Hf. }
  apply bind_ok in H as ([[issues repairs] s3] & Hc & H). apply check_and_repair_I in Hc; [|done].
  destruct (of_severity FATAL issues) as [|f l].
  2: { apply bind_ok in H as (s4 & Hf & H). apply finish_same in H as ->. by apply fail_I in Hf. }
  apply bind_ok in H as ([y s4] & Hy & H). apply transition_I in Hy; [|done].
  destruct (negb m); [by apply degrade_I in H|]. destruct (of_severity MANUAL issues); [|by apply degrade_I in H].
  apply bind_ok in H as ([z s5] & Hz & H). apply transition_I in Hz; [|done].
  apply bind_ok in H as ([[sn b] s6] & Hn & H). apply finish_same in H as ->. by apply I_snapshot in Hn.
Qed.

Lemma recovering_keeps config env s r s' : I s -> recover_and_record config env s = Ok (r, s') -> I s'.
Proof.
  unfold recover_and_record. intros Hb ([res s1] & H1 & H)%bind_ok. assert (Hb1 : I s1).
  { clear H. unfold recover_on_startup in H1. case_match; [done|]. case_match; [done|]. apply bind_ok in H1 as (rt & _ & H1).
    case_decide; [by eapply recover_ready_keeps|by eapply recover_other_keeps]. }
  destruct (db_runtime s1); injection H as _ <-; [by eapply I_beside, Hb1|done].
Qed.
End Recovering.

Lemma recover_books initial config env s r s' :
  books initial s -> recover_and_record config env s = Ok (r, s') -> books initial s'.
Proof.
  apply (recovering_keeps initial (books initial)); [done|intros ? ?; apply beside_books|].
  intros s0 ? ? ? ? ? ? ? ? s1. apply books_snapshot.
Qed.

(** ** Reachable states *)

Lemma paper_step_books initial s s' : books initial s -> paper_step s s' -> books initial s'.
Proof.
  intros Hb []; try by eapply beside_books, Hb.
  - by eapply evaluation_books.
  - by eapply (keeps_run _ _ _ _ _ (batch_books initial _ _ _ ltac:(eassumption))).
  - by eapply (keeps_run _ _ _ _ _ (trailing_books initial _ _ _ _ _ _ _)).
  - by eapply (keeps_run _ _ _ _ _ (triggers_books initial _ _ _ _ _ _ _ _ _ _ _)).
  - by eapply (keeps_run _ _ _ _ _ (triggers_books initial _ _ _ _ _ _ _ _ _ _ _)).
  - by eapply books_snapshot.
  - by eapply recover_books.
  - eapply beside_books, Hb. by eapply transition_beside.
  - eapply beside_books, Hb. by eapply heartbeat_beside.
  - eapply beside_books, Hb. by eapply set_paused_beside.
  - eapply beside_books, Hb. by eapply set_kill_switch_beside.
Qed.

(** A database before the first order: the seeded tables and intents that wait
    for their open. *)
Record fresh_database (initial : decimal) (s : PaperStore) : Prop := {
  fd_seeded : seeded initial s;
  fd_intents : NoDup (ti_intent_id <$> db_intents s) /\ Forall (fun i => ti_status i = IS_SCHEDULED) (db_intents s);
  fd_orders : db_orders s = [];
  fd_stops : db_stop_events s = [];
  fd_snapshots : db_snapshots s = [];
}.

Lemma fresh_books initial s : representable initial -> fresh_database initial s -> books initial s.
Proof.
  intros Hi [Hs [Hnd Hall] Ho Hst Hsn]. split; [by apply seeded_inv|]. destruct Hs as [Hf Hp _ _].
  split; rewrite ?Ho, ?Hf, ?Hp; try done; try apply NoDup_nil_2; try (intros ? []%elem_of_nil).
  - intros i Hin. rewrite Forall_forall in Hall. split; rewrite (Hall i Hin); [by left|done].
  - split; rewrite ?Hst, ?Hsn; [done|apply NoDup_nil_2].
Qed.

Lemma reachable_books initial s0 s :
  representable initial -> fresh_database initial s0 -> rtc paper_step s0 s -> books initial s.
Proof.
  intros Hi Hs H. refine (rtc_closed _ (books initial) _ _ _ H (fresh_books _ _ Hi Hs)).
  intros u v Hu Huv. by eapply paper_step_books.
Qed.

(** ** Recovery reaches READY *)

(** The runtime row with a status, and the operator's controls of another row. *)
Definition runtime_at (rt : RuntimeState) (st : RuntimeStatus) (s : PaperStore) : Prop :=
  exists r, db_runtime s = Some r /\ rs_status r = st /\ rs_paused r = rs_paused rt /\ rs_kill_switch r = rs_kill_switch rt.

Lemma transition_returns rt st s now target e c :
  runtime_at rt st s -> validate_runtime_transition st target = Ok tt ->
  exists x s', transition s now target e c = Ok (x, s') /\ beside s s' /\ runtime_at rt target s' /\
    db_scheduler_runs s' = db_scheduler_runs s.
Proof.
  intros (r & Hr & Hst & Hp & Hk) Hv. rewrite <- Hst in Hv.
  destruct (transition_ok s now target e c r Hr Hv) as ([x s'] & H & _ & Ht). exists x, s'. split; [done|].
  split; [by eapply transition_beside|]. destruct Ht as [Hs Ht1 _ [Ht2 Ht3] _ _]. cbn [fst snd] in *. rewrite Hs. split; [|done].
  exists (tr_state x). split_and!; [done|done|congruence|congruence].
Qed.

Lemma failed_not_running s now : get_running_scheduler_runs (fail_orphan_scheduler_runs s now).2 = [].
Proof.
  unfold get_running_scheduler_runs. cbn. induction (db_scheduler_runs s) as [|r l IH]; [done|]. cbn.
  destruct (bool_decide (sr_status r = SR_RUNNING)) eqn:E; cbn; [done|]. by rewrite E.
Qed.

Definition orphan_issue (run : SchedulerRun) : ConsistencyIssue :=
  issue "orphan_scheduler_run" AUTO_REPAIRABLE "Scheduler run stuck in RUNNING"
    [("run_id", JStr (sr_run_id run)); ("job_name", JStr (sr_job_name run))]%string.

Lemma repair_orphan now reps s run :
  exists reps', repair_issue now (reps, s) (orphan_issue run) = Ok (reps', (fail_orphan_scheduler_runs s now).2).
Proof. eexists. reflexivity. Qed.

Lemma orphan_repairs now runs reps s :
  exists reps' rows,
    foldM (repair_issue now) (orphan_issue <$> runs) (reps, s) = Ok (reps', with_runs s rows) /\
    (runs = [] -> rows = db_scheduler_runs s) /\ (runs <> [] -> get_running_scheduler_runs (with_runs s rows) = []).
Proof.
  revert reps s. induction runs as [|r runs IH]; intros reps s.
  - exists reps, (db_scheduler_runs s). split_and!; [by destruct s|done|done].
  - change (foldM (repair_issue now) (orphan_issue <$> r :: runs) (reps, s)) with
      (acc ← repair_issue now (reps, s) (orphan_issue r); foldM (repair_issue now) (orphan_issue <$> runs) acc).
    destruct (repair_orphan now reps s r) as [reps1 ->]. cbn [mbind res_bind].
    destruct (IH reps1 (fail_orphan_scheduler_runs s now).2) as (reps' & rows & H & Hn & Hc).
    exists reps', rows. split; [exact H|]. split; [done|]. intros _. destruct runs; [|by apply Hc].
    rewrite (Hn eq_refl). apply failed_not_running.
Qed.

Section Recovery.
Context (initial : decimal) (config : PaperTradingConfig) (now : datetime).
Hypothesis Hinitial : pc_paper_initial_equity config = initial.
Hypothesis Hthreshold : (0 <= pc_stale_runtime_threshold_seconds config)%Z.

(** The checks after the repairs find nothing. *)
Lemma check_and_repair_clean rt st s :
  books initial s -> runtime_at rt st s -> (Z.of_nat (length (db_positions s)) <= POSITIONS_LIMIT)%Z ->
  exists repairs s', check_and_repair config now s = Ok ([], repairs, s') /\ beside s s' /\ runtime_at rt st s' /\
    get_running_scheduler_runs s' = [].
Proof.
  intros Hb Hrt Hlen. unfold check_and_repair. rewrite (consistency_checks initial) by apply Hb. cbn [mbind res_bind].
  unfold apply_auto_repairs. rewrite foldM_app.
  destruct (orphan_repairs now (get_running_scheduler_runs s) [] s) as (reps & rows & Ho & Hn & Hc).
  change (_check_orphan_scheduler_runs s) with (orphan_issue <$> get_running_scheduler_runs s). rewrite Ho. cbn [mbind res_bind]. set (s1 := with_runs s rows) in *.
  assert (Hrun1 : get_running_scheduler_runs s1 = []).
  { destruct (get_running_scheduler_runs s) as [|x l] eqn:E; [|by apply Hc]. unfold s1. rewrite Hn by done. by destruct s. }
  assert (Hend : exists reps2 s2, foldM (repair_issue now) (_check_stale_heartbeat config now s) (reps, s1) = Ok (reps2, s2) /\
    beside s s2 /\ runtime_at rt st s2 /\ get_running_scheduler_runs s2 = [] /\ _check_stale_heartbeat config now s2 = []).
  { destruct Hrt as (r & Hr & Hst & Hp & Hk). unfold _check_stale_heartbeat at 1. rewrite Hr. unfold when.
    destruct (_ <? _)%Z eqn:E.
    - cbn. rewrite Hr. rewrite (update_runtime_state_ok _ _ r) by done. cbn. eexists _, _. split; [done|]. split; [done|].
      split; [eexists; split; [done|]; done|]. split; [done|]. unfold _check_stale_heartbeat. cbn. unfold when.
      rewrite (proj2 (Z.ltb_ge _ _)); [done|]. unfold seconds. lia.
    - cbn. exists reps, s1. split; [done|]. split; [done|]. split; [by exists r|]. split; [done|].
      unfold _check_stale_heartbeat, when. cbn. by rewrite Hr, E. }
  destruct Hend as (reps2 & s2 & -> & Hbe & Hrt2 & Hrun2 & Hst2). cbn [mbind res_bind].
  pose proof (beside_books _ _ _ Hbe Hb) as Hb2. rewrite (consistency_checks initial) by apply Hb2. cbn [mbind res_bind].
  unfold run_accounting_verification. rewrite Hinitial, verify_ok.
  2: apply Hb2.
  2: { destruct Hbe as ((_ & _ & -> & _) & _). done. }
  cbn [mbind res_bind]. exists reps2, s2. split; [|done]. unfold _check_orphan_scheduler_runs. by rewrite Hrun2, Hst2.
Qed.

Lemma finish_ready rt s repairs :
  runtime_at rt RS_READY s ->
  finish s RS_READY [] repairs = Ok ({| rr_success := true; rr_final_status := RS_READY; rr_issues := []; rr_repairs_applied := repairs;
    rr_entry_readiness := negb (rs_paused rt) && negb (rs_kill_switch rt) |}, s).
Proof.
  intros (r & Hr & _ & Hp & Hk). unfold finish, _build_result, get_state. rewrite Hr. cbn [or_raise mbind res_bind].
  by rewrite Hp, Hk.
Qed.

Lemma capture_returns s id t event candles closes c :
  books initial s -> id ∉ sn_snapshot_id <$> db_snapshots s ->
  exists n b s', capture_snapshot s id t event candles closes c = Ok (n, b, s') /\
    db_runtime s' = db_runtime s /\ db_scheduler_runs s' = db_scheduler_runs s.
Proof.
  intros [Hl Hc] Hid. unfold capture_snapshot. destruct (get_wallet_inv _ _ Hl) as (w & -> & _). cbn [mbind res_bind or_raise].
  rewrite (get_open_positions_inv initial) by done. cbn [mbind res_bind].
  unfold insert_or_get_portfolio_snapshot, insert_or_get. cbn [snapshot_constraint ct_check negb].
  set (row := Build_PortfolioSnapshot _ _ _ _ _ _ _ _ _ _).
  destruct (List.filter (same_snapshot row) (db_snapshots s)) as [|x l] eqn:E.
  - unfold insert. cbn [snapshot_constraint ct_check ct_unique ct_references negb].
    destruct (existsb _ _) eqn:Ex; [|by eexists _, _, _].
    apply existsb_exists in Ex as (y & Hy & Hu). apply list_elem_of_In in Hy. apply orb_true_iff in Hu as [Hu|Hu].
    + apply bool_decide_eq_true in Hu. destruct Hid. cbn in Hu. rewrite <- Hu. by apply list_elem_of_fmap_2.
    + assert (Hin : y ∈ List.filter (same_snapshot row) (db_snapshots s)) by (by apply elem_of_list_filter).
      rewrite E in Hin. by apply elem_of_nil in Hin.
  - assert (Hone : scalar_one_or_none (x :: l) = Ok (Some x)).
    { rewrite <- E. assert (Hx : x ∈ db_snapshots s /\ same_snapshot row x = true).
      { apply elem_of_list_filter. rewrite E. by left. }
      destruct Hx as [Hx Hk]. apply bool_decide_eq_true in Hk. unfold same_snapshot. rewrite <- Hk.
      apply scalar_unique; [apply Hc|done]. }
    destruct l; [|done]. by eexists _, _, _.
Qed.
(** What a recovery to READY leaves behind. *)
Record recovered (rt : RuntimeState) (s : PaperStore) (r : RecoveryResult) (s' : PaperStore) : Prop := {
  rc_status : rr_final_status r = RS_READY /\ rr_success r = true;
  rc_issues : rr_issues r = [];
  rc_entry : rr_entry_readiness r = negb (rs_paused rt) && negb (rs_kill_switch rt);
  rc_runtime : runtime_at rt RS_READY s';
  rc_runs : get_running_scheduler_runs s' = [];
  rc_ledger : same_ledger s s';
}.

Lemma ready_recovers rt s :
  books initial s -> runtime_at rt RS_READY s -> (Z.of_nat (length (db_positions s)) <= POSITIONS_LIMIT)%Z ->
  exists r s', recover_ready config now s true = Ok (r, s') /\ recovered rt s r s'.
Proof.
  intros Hb Hrt Hlen. unfold recover_ready. destruct (check_and_repair_clean rt RS_READY s Hb Hrt Hlen) as (reps & s1 & -> & Hbe & Hrt1 & Hrun).
  cbn [mbind res_bind of_severity List.filter negb]. rewrite (finish_ready rt) by done. eexists _, _. split; [done|].
  split; try done. apply Hbe.
Qed.

Lemma recovering_recovers rt st s r0 id :
  books initial s -> runtime_at rt st s -> st ∈ [RS_STARTING; RS_RECOVERING; RS_DEGRADED] -> rs_status r0 <> RS_STOPPED ->
  (Z.of_nat (length (db_positions s)) <= POSITIONS_LIMIT)%Z -> id ∉ sn_snapshot_id <$> db_snapshots s ->
  exists r s', recover_other config now s r0 true true id = Ok (r, s') /\ recovered rt s r s'.
Proof.
  intros Hb Hrt Hst Hne Hlen Hid. unfold recover_other. destruct (decide _) as [He|_]; [done|]. cbn [mbind res_bind].
  assert (Hv : validate_runtime_transition st RS_RECOVERING = Ok tt).
  { repeat (apply elem_of_cons in Hst as [->|Hst]; [done|]). by apply elem_of_nil in Hst. }
  destruct (transition_returns rt st s now RS_RECOVERING None None Hrt Hv) as (x1 & s1 & -> & Hb1 & Hrt1 & _).
  cbn [mbind res_bind negb].
  assert (Hlen1 : (Z.of_nat (length (db_positions s1)) <= POSITIONS_LIMIT)%Z) by (destruct Hb1 as ((_ & _ & -> & _) & _); done).
  destruct (check_and_repair_clean rt RS_RECOVERING s1 (beside_books _ _ _ Hb1 Hb) Hrt1 Hlen1) as (reps & s2 & -> & Hb2 & Hrt2 & Hrun2).
  cbn [mbind res_bind of_severity List.filter].
  destruct (transition_returns rt RS_RECOVERING s2 now RS_SYNCING None None Hrt2 eq_refl) as (x3 & s3 & -> & Hb3 & Hrt3 & Hrun3).
  cbn [mbind res_bind negb].
  destruct (transition_returns rt RS_SYNCING s3 now RS_READY (Some ""%string) None Hrt3 eq_refl) as (x4 & s4 & -> & Hb4 & Hrt4 & Hrun4).
  cbn [mbind res_bind]. assert (Hb14 : beside s s4) by (repeat (eapply beside_trans; [eassumption|]); done).
  destruct (capture_returns s4 id now "recovery" [] ∅ None (beside_books _ _ _ Hb14 Hb)) as (n & b & s5 & Hcap & Hr5 & Hrun5).
  { by destruct Hb14 as (_ & _ & _ & ->). }
  rewrite Hcap. cbn [mbind res_bind]. destruct Hrt4 as (r4 & Hr4 & Hrt4). rewrite <- Hr5 in Hr4.
  rewrite (finish_ready rt) by (by exists r4). eexists _, _. split; [done|]. split; try done.
  - by exists r4.
  - unfold get_running_scheduler_runs in *. by rewrite Hrun5, Hrun4, Hrun3.
  - eapply same_ledger_trans; [apply Hb14|by eapply capture_snapshot_same].
Qed.

(** The states of the docstring from which a restart recovers by itself. *)
Definition RESTARTABLE : list RuntimeStatus := [RS_STOPPED; RS_STARTING; RS_RECOVERING; RS_DEGRADED; RS_READY].

Lemma startup_recovers rt s env :
  books initial s -> db_runtime s = Some rt -> rs_status rt ∈ RESTARTABLE ->
  (Z.of_nat (length (db_positions s)) <= POSITIONS_LIMIT)%Z ->
  re_lock_held env = true -> re_recovery_active env = false -> re_migration_at_head env = true ->
  re_market_data_ready env = true -> re_now env = now -> re_snapshot_id env ∉ sn_snapshot_id <$> db_snapshots s ->
  exists r s', recover_on_startup config env s = Ok (r, s') /\ recovered rt s r s'.
Proof.
  intros Hb Hr Hst Hlen Hlock Hact Hhead Hmd Hnow Hid. unfold recover_on_startup, get_state.
  rewrite Hlock, Hact, Hr, Hmd, Hhead, Hnow. cbn [negb or_raise mbind res_bind].
  assert (Hrt : runtime_at rt (rs_status rt) s) by (by exists rt).
  destruct (decide _) as [He|Hne]; [rewrite He in Hrt; by apply ready_recovers|].
  destruct (decide (rs_status rt = RS_STOPPED)) as [Hs|Hs].
  2: { apply (recovering_recovers rt (rs_status rt)); try done. unfold RESTARTABLE in Hst. set_solver. }
  rewrite Hs in Hrt. destruct (transition_returns rt RS_STOPPED s now RS_STARTING None None Hrt eq_refl)
    as (x & s1 & Ht & Hb1 & Hrt1 & _).
  pose proof Hrt1 as (r1 & _ & Hs1 & _).
  destruct (recovering_recovers rt RS_STARTING s1 r1 (re_snapshot_id env)) as (r & s' & Hrec & Hok); try done.
  - by eapply beside_books, Hb.
  - by left.
  - by rewrite Hs1.
  - by destruct Hb1 as ((_ & _ & -> & _) & _).
  - by destruct Hb1 as (_ & _ & _ & ->).
  - exists r, s'. split.
    + unfold recover_other in *. rewrite decide_True by done. rewrite Ht. cbn [mbind res_bind].
      rewrite decide_False in Hrec by (by rewrite Hs1). exact Hrec.
    + destruct Hok. split; try done. eapply same_ledger_trans; [apply Hb1|done].
Qed.
End Recovery.

(** [C4] Every database the program can reach recovers: from a fresh database,
    after any sequence of its operations, a restart in a restartable status,
    with the lock, the schema at head and ready market data, always returns,
    reports READY without an issue and without a running job left over, keeps the
    operator's pause and kill switch and the ledger, and allows entries unless
    one of the two is set. *)
Theorem recovery_reaches_ready initial config env s0 s rt :
  representable initial -> fresh_database initial s0 -> rtc paper_step s0 s ->
  pc_paper_initial_equity config = initial -> (0 <= pc_stale_runtime_threshold_seconds config)%Z ->
  (Z.of_nat (length (db_positions s)) <= POSITIONS_LIMIT)%Z ->
  db_runtime s = Some rt -> rs_status rt ∈ RESTARTABLE ->
  re_lock_held env = true -> re_recovery_active env = false -> re_migration_at_head env = true ->
  re_market_data_ready env = true -> re_snapshot_id env ∉ sn_snapshot_id <$> db_snapshots s ->
  exists r s', recover_on_startup config env s = Ok (r, s') /\ recovered rt s r s'.
Proof.
  intros Hi Hf Hrun Hc Ht Hlen Hrt Hst Hlock Hact Hhead Hmd Hid. pose proof (reachable_books _ _ _ Hi Hf Hrun) as Hb.
  by apply (startup_recovers initial config (re_now env) Hc Ht).
Qed.

(** ** A fill happens once *)

Lemma persist_rows s now ids i a ref t atr c r s' :
  chain_inv s -> unfilled s (ti_intent_id i) -> uuid_text (id_order ids) ->
  _persist_successful_fill s now ids i a ref t atr c = Ok (r, s') ->
  let o := entry_order ids i (eap_quantity a) t in
  let f := entry_fill ids (id_order ids) i a ref t in
  let p := entry_position ids i a t atr in
  tf_created r = true /\ tf_order r = Some o /\ tf_fill r = Some f /\ tf_position r = Some p /\
  order_row_to_domain o = Ok o /\ readable_fill f /\ readable_position p /\
  o ∈ db_orders s' /\ f ∈ db_fills s' /\ p ∈ db_positions s'.
Proof.
  intros Hc [Hin Hn] Hu H. unfold _persist_successful_fill in H.
  apply bind_ok in H as ([[o oc] s1] & Ho & H). pose proof Ho as Hoc. apply order_inserted in Ho as (-> & -> & Hoid & Hor); [|done].
  assert (oc = true) as ->.
  { unfold insert_or_get_paper_order in Hoc. apply bind_ok in Hoc as ([[o' b] rows] & Hi & Hj). apply bind_ok in Hj as (o2 & _ & Hj).
    injection Hj as _ -> _. apply insert_or_get_ok in Hi. destruct oc; [done|]. destruct Hi as (_ & Hx & He).
    destruct Hn. apply bool_decide_eq_true in He. cbn in He. rewrite <- He. by apply list_elem_of_fmap_2. }
  apply bind_ok in H as ([[f created] s2] & Hf & H).
  assert (created = true) as -> by (eapply (new_entry_created s); [..|exact Hf]; done).
  apply fill_inserted_ok in Hf as (-> & Hrd & ->). cbn [negb] in H.
  apply bind_ok in H as ([w s3] & Hw & H). apply update_wallet_ok in Hw as (w0 & Hw & ->).
  apply bind_ok in H as ([p s4] & Hp & H). apply position_inserted in Hp as (-> & Hrp & -> & _ & _).
  apply bind_ok in H as ([ui s5] & Hi & H). apply intent_status_ok in Hi as ->. injection H as <- <-. cbn.
  split_and!; try done; apply elem_of_app; right; by left.
Qed.

(** [C34] A fill happens once: after an intent of a reachable database was
    filled, executing the fill of that intent and candle again, with whatever
    clock, ids, market inputs and batch, returns the same order, fill and position
    as not created and leaves the database as it is. *)
Theorem fill_idempotent initial s0 s now ids i fx processed pending c r s' :
  representable initial -> fresh_database initial s0 -> rtc paper_step s0 s ->
  unfilled s (ti_intent_id i) -> uuid_text (id_order ids) ->
  execute_scheduled_paper_fill s now ids i fx processed pending c = Ok (FillResult r, s') ->
  forall now' ids' fx' processed' pending' c' con,
  validate_symbol_constraints (Some (fx_constraints fx')) = Ok con ->
  fx_candle_open_time fx' = fx_candle_open_time fx ->
  tf_created r = true /\
  exists r', execute_scheduled_paper_fill s' now' ids' i fx' processed' pending' c' = Ok (FillResult r', s') /\
    tf_created r' = false /\ tf_order r' = tf_order r /\ tf_fill r' = tf_fill r /\ tf_position r' = tf_position r.
Proof.
  intros Hi Hf Hrun Hun Hu H now' ids' fx' processed' pending' c' con Hcon Ht.
  pose proof (reachable_books _ _ _ Hi Hf Hrun) as Hb. pose proof (fill_books _ _ _ _ _ _ _ _ _ _ _ Hb Hun Hu H) as [[_ Hc'] _].
  unfold execute_scheduled_paper_fill in H. apply bind_ok in H as (con0 & _ & H).
  rewrite load_existing_none in H by done. cbn [mbind res_bind] in H. apply bind_ok in H as (ps & _ & H).
  case_match; [done|]. apply bind_ok in H as (w & _ & H). apply bind_ok in H as (w' & _ & H).
  apply bind_ok in H as (calc & _ & H). destruct calc as [rj|a]; [by apply bind_ok in H as (s1 & _ & H)|].
  apply bind_ok in H as ([r1 s1] & Hp & H). injection H as -> ->.
  apply persist_rows in Hp as (Hcr & Ho & Hfl & Hpo & Hro & Hrf & Hrp & Hino & Hinf & Hinp); [|apply Hb|done|done].
  split; [done|]. unfold execute_scheduled_paper_fill, _load_existing_fill. rewrite Hcon. cbn [mbind res_bind].
  set (o := entry_order ids i (eap_quantity a) (fx_candle_open_time fx)) in *.
  set (f := entry_fill ids (id_order ids) i a (fx_open_ref fx) (fx_candle_open_time fx)) in *.
  set (p := entry_position ids i a (fx_candle_open_time fx) (fx_atr14 fx)) in *.
  pose proof (scalar_unique or_intent_id _ o (ch_order_intents _ Hc') Hino) as E1.
  pose proof (scalar_unique fi_deterministic_fill_key _ f (ch_keys _ Hc') Hinf) as E2.
  pose proof (scalar_unique pp_entry_intent_id _ p (ch_position_intents _ Hc') Hinp) as E3.
  change (or_intent_id o) with (ti_intent_id i) in E1. change (pp_entry_intent_id p) with (ti_intent_id i) in E3.
  rewrite E1. cbn [mbind res_bind]. rewrite Ht. change (fi_deterministic_fill_key f) with
    (paper_fill_key (or_paper_order_id o) (fx_candle_open_time fx) 0) in E2. rewrite E2. cbn [mbind res_bind]. rewrite E3.
  cbn [mbind res_bind]. rewrite Hrf, Hro, Hrp. cbn [mbind res_bind]. eexists. split; [done|]. cbn. by rewrite Ho, Hfl, Hpo.
Qed.

(** ** The example run recovers *)

Definition example_recovery : RecoveryEnv :=
  {| re_lock_held := true; re_recovery_active := false; re_migration_at_head := true; re_market_data_ready := true;
     re_now := seconds 3600; re_snapshot_id := "n2" |}.

Lemma example_fresh : fresh_database 10000 example_store.
Proof. split; [apply example_seeded|split; [repeat constructor; set_solver|by repeat constructor]|done|done|done]. Qed.

Lemma recovery_reaches_ready_witness :
  exists rt r s', db_runtime example_closed = Some rt /\ length (db_fills example_closed) = 2%nat /\
    recover_on_startup example_trading_config example_recovery example_closed = Ok (r, s') /\ recovered rt example_closed r s'.
Proof.
  edestruct (recovery_reaches_ready 10000 example_trading_config example_recovery example_store example_closed) as (r & s' & H);
    [apply representable_10000|apply example_fresh|apply example_run|reflexivity|done|vm_compute; discriminate|
     vm_compute; reflexivity|vm_compute; set_solver|done|done|done|done| |].
  - apply (bool_decide_unpack _). vm_compute. exact I.
  - eexists _, r, s'. split; [|split; [|exact H]]; vm_compute; reflexivity.
Defined.

Definition example_ids : EntryIds := be_ids example_env "i1".

Definition other_ids : EntryIds := {| id_order := "o9"; id_fill := "f9"; id_position := "p9" |}.

Lemma fill_idempotent_witness :
  exists r s' r',
    execute_scheduled_paper_fill example_store 0 example_ids example_intent example_inputs ∅ [] None = Ok (FillResult r, s') /\
    length (db_fills s') = 1%nat /\
    execute_scheduled_paper_fill s' 7 other_ids example_intent example_inputs ∅ [] None = Ok (FillResult r', s') /\
    tf_created r' = false /\ tf_order r' = tf_order r /\ tf_fill r' = tf_fill r /\ tf_position r' = tf_position r.
Proof.
  assert (H : exists r s', execute_scheduled_paper_fill example_store 0 example_ids example_intent example_inputs ∅ [] None =
    Ok (FillResult r, s') /\ length (db_fills s') = 1%nat) by (eexists _, _; split; vm_compute; reflexivity).
  destruct H as (r & s' & H & Hl). exists r, s'.
  assert (Hun : unfilled example_store (ti_intent_id example_intent)) by (split; [by left|apply not_elem_of_nil]).
  assert (Hu : uuid_text (id_order example_ids)) by by split.
  assert (Hval : validate_symbol_constraints (Some (fx_constraints example_inputs)) = Ok (fx_constraints example_inputs))
    by (vm_compute; reflexivity).
  pose proof (fill_idempotent 10000 example_store example_store 0 example_ids example_intent example_inputs ∅ [] None r s'
    representable_10000 example_fresh (rtc_refl _ _) Hun Hu H 7 other_ids example_inputs ∅ [] None
    (fx_constraints example_inputs) Hval eq_refl) as [_ [r' Hr]].
  exists r'. split; [exact H|]. split; [exact Hl|exact Hr].
Defined.
