(* ===== verification/PaperFrame.v ===== *)
(** * What the trading operations leave alone (services/paper_trading/)

    Evaluations, fills, stop updates, closes, snapshots and the heartbeat never
    write the scheduler runs: their bookkeeping belongs to the scheduler and
    the market event bridge alone.  Each proof walks an operation from one
    statement on the database to the next. *)
From Stdlib Require Import ZArith QArith Lia.
From stdpp Require Import base list gmap sets strings relations.
From S2P Require Import Prelude Decimal StrategyModels RiskModels BtModels BtData MarketModels.
From S2P Require Import PaperModels PaperSession PaperRuntime PaperRepository PaperAccounting PaperExecution PaperStops.
From S2P Require Import PaperIntents PaperLedger PaperReconcile.

Definition same_runs (s s' : PaperStore) : Prop := db_scheduler_runs s' = db_scheduler_runs s.

(** Invert a chain of statements that returned, then compare the runs along
    the chain of databases. *)
Ltac invert_statement :=
  match goal with
  | H : (_ ≫= _) = Ok _ |- _ => apply bind_ok in H as (? & ? & H)
  | H : Ok _ = Ok _ |- _ => injection H; clear H; intros; subst
  | H : Raise _ = Ok _ |- _ => discriminate H
  | H : context [match ?x with _ => _ end] |- _ => is_var x; destruct x
  | H : context [match ?x with _ => _ end] |- _ => lazymatch type of H with @eq (res _) _ _ => destruct x eqn:? end
  end.

Ltac chase :=
  repeat match goal with
  | H : same_runs _ _ |- _ => unfold same_runs in H; cbn in H
  end;
  unfold same_runs, append_audit_event in *; cbn in *;
  repeat match goal with |- context [match ?x with _ => _ end] => destruct x end; cbn; congruence.

Lemma fill_row_runs s row f b s' : insert_or_get_paper_fill s row = Ok (f, b, s') -> same_runs s s'.
Proof. unfold insert_or_get_paper_fill. intros H. repeat invert_statement; done. Qed.

Lemma order_row_runs s row o b s' : insert_or_get_paper_order s row = Ok (o, b, s') -> same_runs s s'.
Proof. unfold insert_or_get_paper_order. intros H. repeat invert_statement; done. Qed.

Lemma evaluation_row_runs s row e b s' : insert_or_get_strategy_evaluation s row = Ok (e, b, s') -> same_runs s s'.
Proof. unfold insert_or_get_strategy_evaluation. intros H. repeat invert_statement; done. Qed.

Lemma intent_row_runs s row i b s' : insert_or_get_trade_intent s row = Ok (i, b, s') -> same_runs s s'.
Proof. unfold insert_or_get_trade_intent. intros H. repeat invert_statement; done. Qed.

Lemma stop_row_runs s row e b s' : insert_or_get_stop_event s row = Ok (e, b, s') -> same_runs s s'.
Proof. unfold insert_or_get_stop_event. intros H. repeat invert_statement; done. Qed.

Lemma snapshot_row_runs s row n b s' : insert_or_get_portfolio_snapshot s row = Ok (n, b, s') -> same_runs s s'.
Proof. unfold insert_or_get_portfolio_snapshot. intros H. repeat invert_statement; done. Qed.

Lemma position_row_runs s row p s' : create_position s row = Ok (p, s') -> same_runs s s'.
Proof. unfold create_position. intros H. repeat invert_statement; done. Qed.

Lemma flush_runs s row s' : flush_position s row = Ok s' -> same_runs s s'.
Proof. unfold flush_position. intros H. repeat invert_statement; done. Qed.

Lemma wallet_runs s now d v t w s' : update_wallet s now d v t = Ok (w, s') -> same_runs s s'.
Proof. unfold update_wallet. intros H. repeat invert_statement; done. Qed.

Lemma status_runs s now id st q r t i s' : update_intent_status s now id st q r t = Ok (i, s') -> same_runs s s'.
Proof. unfold update_intent_status. intros H. repeat invert_statement; done. Qed.

Lemma runtime_runs s u r s' : update_runtime_state s u = Ok (r, s') -> same_runs s s'.
Proof. unfold update_runtime_state. intros H. repeat invert_statement; done. Qed.

(** Read what each statement says of the runs. *)
Ltac note_runs :=
  repeat match goal with
  | H : insert_or_get_paper_fill _ _ = _ |- _ => apply fill_row_runs in H
  | H : insert_or_get_paper_order _ _ = _ |- _ => apply order_row_runs in H
  | H : insert_or_get_strategy_evaluation _ _ = _ |- _ => apply evaluation_row_runs in H
  | H : insert_or_get_trade_intent _ _ = _ |- _ => apply intent_row_runs in H
  | H : insert_or_get_stop_event _ _ = _ |- _ => apply stop_row_runs in H
  | H : insert_or_get_portfolio_snapshot _ _ = _ |- _ => apply snapshot_row_runs in H
  | H : create_position _ _ = _ |- _ => apply position_row_runs in H
  | H : flush_position _ _ = _ |- _ => apply flush_runs in H
  | H : update_wallet _ _ _ _ _ = _ |- _ => apply wallet_runs in H
  | H : update_intent_status _ _ _ _ _ _ _ = _ |- _ => apply status_runs in H
  | H : update_runtime_state _ _ = _ |- _ => apply runtime_runs in H
  end.

Ltac by_statements := repeat invert_statement; note_runs; chase.

Lemma snapshot_runs s id t event candles closes c n b s' :
  capture_snapshot s id t event candles closes c = Ok (n, b, s') -> same_runs s s'.
Proof. unfold capture_snapshot. intros H. by_statements. Qed.

Lemma heartbeat_runs s now r s' : heartbeat s now = Ok (r, s') -> same_runs s s'.
Proof. unfold heartbeat. intros H. by_statements. Qed.

Lemma trailing_row_runs s id p st atr t c b s' : book_trailing_update s id p st atr t c = Ok (b, s') -> same_runs s s'.
Proof. unfold book_trailing_update. intros H. by_statements. Qed.

Lemma exit_runs s now id p trigger x t c b s' : book_exit s now id p trigger x t c = Ok (b, s') -> same_runs s s'.
Proof. unfold book_exit. intros H. by_statements. Qed.

Lemma persist_runs s now ids i a ref t atr c r s' :
  _persist_successful_fill s now ids i a ref t atr c = Ok (r, s') -> same_runs s s'.
Proof. unfold _persist_successful_fill. intros H. by_statements. Qed.

Lemma reject_runs s now i r c s' : reject_fill s now i r c = Ok s' -> same_runs s s'.
Proof. unfold reject_fill. intros H. by_statements. Qed.

Lemma fill_runs s now ids i fx processed pending c out s' :
  execute_scheduled_paper_fill s now ids i fx processed pending c = Ok (out, s') -> same_runs s s'.
Proof.
  unfold execute_scheduled_paper_fill. intros H. repeat invert_statement;
  repeat match goal with
  | H : reject_fill _ _ _ _ _ = _ |- _ => apply reject_runs in H
  | H : _persist_successful_fill _ _ _ _ _ _ _ _ _ = _ |- _ => apply persist_runs in H
  end; chase.
Qed.

Lemma submit_runs env ctxs symbol ctx ids i s out s' :
  submit_intent env ctxs symbol ctx ids i s = Ok (out, s') -> same_runs s s'.
Proof.
  unfold submit_intent. intros H. repeat invert_statement;
  repeat match goal with H : execute_scheduled_paper_fill _ _ _ _ _ _ _ _ = _ |- _ => apply fill_runs in H end;
  note_runs; chase.
Qed.

Lemma evaluation_runs d1 d2 d3 h s id1 id2 symbol t bundle params config gates at_ ready c r s' :
  evaluate_symbol_for_daily_close d1 d2 d3 h s id1 id2 symbol t bundle params config gates at_ ready c = Ok (r, s') ->
  same_runs s s'.
Proof.
  unfold evaluate_symbol_for_daily_close, record_evaluation, create_intent_from_evaluation. intros H. by_statements.
Qed.

(** ** The session operations, also when they raise *)

Section Runs.
Context (rows : list SchedulerRun).

Definition with_rows (s : PaperStore) : Prop := db_scheduler_runs s = rows.

Lemma with_rows_snapshot s id t event candles closes c n b s' :
  with_rows s -> capture_snapshot s id t event candles closes c = Ok (n, b, s') -> with_rows s'.
Proof. intros Hs H. refine (eq_trans _ Hs). by eapply snapshot_runs. Qed.

Lemma trailing_rows t candles atrs constraints params c ids :
  keeps with_rows (update_daily_trailing_stops t candles atrs constraints params c ids).
Proof.
  apply trailing_keeps; [apply with_rows_snapshot|]. intros s symbol p tick close st id atr b s' [Hs _] _ H.
  refine (eq_trans _ Hs). by eapply trailing_row_runs.
Qed.

Lemma triggers_rows config now t candles constraints c b1 b2 ids l results :
  keeps with_rows (foldS (stop_trigger_for_symbol config now t candles constraints c b1 b2 ids) l results).
Proof.
  apply triggers_keeps; [apply with_rows_snapshot|]. intros s symbol p id trigger x b s' [Hs _] _ H.
  refine (eq_trans _ Hs). by eapply exit_runs.
Qed.

Lemma batch_rows env delay ctxs : keeps with_rows (process_scheduled_intents_for_open env delay ctxs).
Proof.
  apply batch_keeps. intros s symbol ctx ids i out s' Hs H. refine (eq_trans _ Hs). by eapply submit_runs.
Qed.
End Runs.
