(* ===== verification/PaperIntentLife.v ===== *)
(** * The life of a trade intent (services/paper_trading/)

    The transition table of intents (transitions.py) is consulted by the batch
    at the open only; the fill service and the recovery write the status of an
    intent directly.  Every write of the program follows the table all the same,
    and an intent that reached a terminal status is never written again. *)
From Stdlib Require Import ZArith QArith Lia.
From stdpp Require Import base list gmap sets strings relations.
From S2P Require Import Prelude Decimal StrategyModels RiskModels BtModels BtData MarketModels.
From S2P Require Import PaperModels PaperSession Transitions PaperRuntime PaperRepository PaperAccounting PaperExecution PaperStops.
From S2P Require Import PaperIntents PaperRecovery PaperLedger PaperReconcile PaperChain PaperRecoverable PaperFrame.

(** ** What a database says of an intent *)

(** Every intent of [s] is still there, its status followed the table, and a
    terminal one is the very same row. *)
Definition advanced (s s' : PaperStore) : Prop :=
  forall i, i ∈ db_intents s ->
  exists i', i' ∈ db_intents s' /\ ti_intent_id i' = ti_intent_id i /\
    rtc intent_step (ti_status i) (ti_status i') /\ (ti_status i ∈ TERMINAL_INTENT_STATUSES -> i' = i).

#[export] Instance advanced_preorder : PreOrder advanced.
Proof.
  split.
  - intros s i Hi. by exists i.
  - intros s1 s2 s3 H1 H2 i Hi. destruct (H1 i Hi) as (j & Hj & Hid & Hst & Hf).
    destruct (H2 j Hj) as (k & Hk & Hid' & Hst' & Hf'). exists k. split_and!; [done|congruence|by etrans|].
    intros Ht. pose proof (Hf Ht) as ->. by apply Hf'.
Qed.

Definition same_intents (s s' : PaperStore) : Prop := db_intents s' = db_intents s.

Lemma same_advanced s s' : same_intents s s' -> advanced s s'.
Proof. unfold same_intents. intros H i Hi. exists i. by rewrite H. Qed.

(** The status of the rows with an id. *)
Definition at_status (s : PaperStore) (id : UUID) (st : TradeIntentStatus) : Prop :=
  forall i, i ∈ db_intents s -> ti_intent_id i = id -> ti_status i = st.

(** The other intents keep their status. *)
Definition spares (id : UUID) (s s' : PaperStore) : Prop :=
  forall id' st, id' <> id -> at_status s id' st -> at_status s' id' st.

#[export] Instance spares_preorder id : PreOrder (spares id).
Proof. split; [by intros ????|]. intros s1 s2 s3 H1 H2 id' st Hne Hs. by apply H2, H1. Qed.

Lemma same_spares id s s' : same_intents s s' -> spares id s s'.
Proof. unfold same_intents. intros H id' st _ Hs i. rewrite H. apply Hs. Qed.

(** ** Writes of a status *)

Lemma status_advances s now id cur st q r t i s' :
  at_status s id cur -> cur ∉ TERMINAL_INTENT_STATUSES -> rtc intent_step cur st ->
  update_intent_status s now id st q r t = Ok (i, s') -> advanced s s' /\ spares id s s' /\ at_status s' id st.
Proof.
  intros Hcur Hterm Hst H. apply intent_status_ok in H as ->. split_and!.
  - intros j Hj. destruct (decide (ti_intent_id j = id)) as [He|He].
    + rewrite (Hcur j Hj He). exists (intent_with_status st q r (default now t) j).
      split_and!; [|done|done|done]. apply update_true; [done|by apply bool_decide_eq_true].
    + exists j. split_and!; [|done..]. apply update_false; [done|by apply bool_decide_eq_false].
  - intros id' st' Hne Hs j [[Hj _]|(k & Hk & Hc & ->)]%elem_of_update Hid; [by apply Hs|].
    apply bool_decide_eq_true in Hc. cbn in Hid. congruence.
  - intros j [[Hj Hc]|(k & Hk & Hc & ->)]%elem_of_update Hid; [|done]. by apply bool_decide_eq_false in Hc.
Qed.

(** ** Rows beside the intents *)

Lemma stop_row_intents s row e b s' : insert_or_get_stop_event s row = Ok (e, b, s') -> same_intents s s'.
Proof. unfold insert_or_get_stop_event. intros H. repeat invert_statement; done. Qed.

Lemma fill_row_intents s row f b s' : insert_or_get_paper_fill s row = Ok (f, b, s') -> same_intents s s'.
Proof. unfold insert_or_get_paper_fill. intros H. repeat invert_statement; done. Qed.

Lemma order_row_intents s row o b s' : insert_or_get_paper_order s row = Ok (o, b, s') -> same_intents s s'.
Proof. unfold insert_or_get_paper_order. intros H. repeat invert_statement; done. Qed.

Lemma evaluation_row_intents s row e b s' : insert_or_get_strategy_evaluation s row = Ok (e, b, s') -> same_intents s s'.
Proof. unfold insert_or_get_strategy_evaluation. intros H. repeat invert_statement; done. Qed.

Lemma position_row_intents s row p s' : create_position s row = Ok (p, s') -> same_intents s s'.
Proof. unfold create_position. intros H. repeat invert_statement; done. Qed.

Lemma flush_intents s row s' : flush_position s row = Ok s' -> same_intents s s'.
Proof. unfold flush_position. intros H. repeat invert_statement; done. Qed.

Lemma wallet_intents s now d v t w s' : update_wallet s now d v t = Ok (w, s') -> same_intents s s'.
Proof. unfold update_wallet. intros H. repeat invert_statement; done. Qed.

Lemma snapshot_intents s id t event candles closes c n b s' :
  capture_snapshot s id t event candles closes c = Ok (n, b, s') -> same_intents s s'.
Proof.
  unfold capture_snapshot. intros H. repeat invert_statement.
  match goal with H : insert_or_get_portfolio_snapshot _ _ = _ |- _ => unfold insert_or_get_portfolio_snapshot in H end.
  repeat invert_statement. by match goal with |- same_intents _ (if ?b then _ else _) => destruct b end.
Qed.

Ltac note_intents :=
  repeat match goal with
  | H : insert_or_get_paper_fill _ _ = _ |- _ => apply fill_row_intents in H
  | H : insert_or_get_paper_order _ _ = _ |- _ => apply order_row_intents in H
  | H : insert_or_get_strategy_evaluation _ _ = _ |- _ => apply evaluation_row_intents in H
  | H : insert_or_get_stop_event _ _ = _ |- _ => apply stop_row_intents in H
  | H : create_position _ _ = _ |- _ => apply position_row_intents in H
  | H : flush_position _ _ = _ |- _ => apply flush_intents in H
  | H : update_wallet _ _ _ _ _ = _ |- _ => apply wallet_intents in H
  end;
  unfold same_intents, append_audit_event in *; cbn in *; try congruence.

Lemma trailing_row_intents s id p st atr t c b s' : book_trailing_update s id p st atr t c = Ok (b, s') -> same_intents s s'.
Proof. unfold book_trailing_update. intros H. repeat invert_statement; note_intents. Qed.

Lemma exit_intents s now id p trigger x t c b s' : book_exit s now id p trigger x t c = Ok (b, s') -> same_intents s s'.
Proof. unfold book_exit. intros H. repeat invert_statement; note_intents. Qed.

(** ** One intent of a batch *)

Definition LIVE_STATUSES : list TradeIntentStatus := [IS_SCHEDULED; IS_SUBMITTED_TO_PAPER_ENGINE].

Lemma live_not_terminal st : st ∈ LIVE_STATUSES -> st ∉ TERMINAL_INTENT_STATUSES.
Proof. unfold LIVE_STATUSES, TERMINAL_INTENT_STATUSES. set_solver. Qed.

(** What the validator accepts is a sequence of steps. *)
Lemma validated_steps st st' : validate_intent_transition st st' = Ok tt -> rtc intent_step st st'.
Proof. intros H. destruct (decide (st = st')) as [->|]; [done|]. by apply rtc_once. Qed.

(** What an operation does to the intent it handles and to the others. *)
Definition handled (id : UUID) (s s' : PaperStore) : Prop := advanced s s' /\ spares id s s'.

#[export] Instance handled_preorder id : PreOrder (handled id).
Proof. split; [by intros s|]. intros s1 s2 s3 [? ?] [? ?]. by split; etrans. Qed.

Lemma same_handled id s s' : same_intents s s' -> handled id s s'.
Proof. intros H. split; [by apply same_advanced|by apply same_spares]. Qed.

Lemma submitted_to st : st ∈ [IS_FILLED; IS_REJECTED] -> rtc intent_step IS_SUBMITTED_TO_PAPER_ENGINE st.
Proof.
  intros Hst. apply rtc_once. split; [set_solver|].
  by repeat (apply elem_of_cons in Hst as [->|Hst]); [..|apply elem_of_nil in Hst].
Qed.

(** The direct write of a final status to a submitted intent. *)
Lemma submitted_handled s now id st q r t i s' :
  at_status s id IS_SUBMITTED_TO_PAPER_ENGINE -> st ∈ [IS_FILLED; IS_REJECTED] ->
  update_intent_status s now id st q r t = Ok (i, s') -> handled id s s'.
Proof.
  intros Hs Hst H. eapply status_advances in H as (? & ? & _); [by split|exact Hs| |by apply submitted_to].
  apply live_not_terminal. unfold LIVE_STATUSES. set_solver.
Qed.

Lemma fill_handled s now ids i fx processed pending c out s' :
  at_status s (ti_intent_id i) IS_SUBMITTED_TO_PAPER_ENGINE ->
  execute_scheduled_paper_fill s now ids i fx processed pending c = Ok (out, s') -> handled (ti_intent_id i) s s'.
Proof.
  intros Hs. unfold execute_scheduled_paper_fill. intros (con & _ & H)%bind_ok. apply bind_ok in H as (o & _ & H).
  destruct o; [by injection H as _ <-|]. apply bind_ok in H as (ps & _ & H). case_match; [by injection H as _ <-|].
  apply bind_ok in H as (w & _ & H). apply bind_ok in H as (w' & _ & H). apply bind_ok in H as (calc & _ & H). destruct calc as [r|a].
  - apply bind_ok in H as (s1 & Hr & H). injection H as _ <-. unfold reject_fill in Hr.
    apply bind_ok in Hr as ([ri s2] & Hr & H). injection H as <-.
    apply submitted_handled in Hr; [|done|set_solver]. etrans; [exact Hr|]. by apply same_handled.
  - apply bind_ok in H as ([r s1] & Hp & H). injection H as _ <-. unfold _persist_successful_fill in Hp.
    apply bind_ok in Hp as ([[o oc] s2] & Ho & Hp). apply order_row_intents in Ho.
    apply bind_ok in Hp as ([[f created] s3] & Hf & Hp). apply fill_row_intents in Hf. destruct created; cbn [negb] in Hp.
    2: { apply bind_ok in Hp as (p & _ & Hp). apply bind_ok in Hp as (p' & _ & Hp). injection Hp as _ <-.
         apply same_handled. unfold same_intents in *. congruence. }
    apply bind_ok in Hp as ([w2 s4] & Hw & Hp). apply wallet_intents in Hw.
    apply bind_ok in Hp as ([p s5] & Hpo & Hp). apply position_row_intents in Hpo.
    apply bind_ok in Hp as ([ui s6] & Hi & Hp). injection Hp as _ <-.
    assert (Hsame : same_intents s s5) by (unfold same_intents in *; congruence).
    etrans; [by apply same_handled|]. apply submitted_handled in Hi; [| |set_solver].
    + etrans; [exact Hi|]. by apply same_handled.
    + unfold at_status. rewrite Hsame. exact Hs.
Qed.

(** The whole transaction: the batch passes the row as it read it. *)
Lemma submit_handled env ctxs symbol ctx ids i s out s' :
  ti_status i ∈ LIVE_STATUSES -> at_status s (ti_intent_id i) (ti_status i) ->
  submit_intent env ctxs symbol ctx ids i s = Ok (out, s') -> handled (ti_intent_id i) s s'.
Proof.
  intros Hl Hs. apply live_not_terminal in Hl. unfold submit_intent. intros H. case_match.
  - apply bind_ok in H as ([] & Hv & H). apply bind_ok in H as ([i' s1] & Hi & H). injection H as _ <-.
    apply (status_advances _ _ _ (ti_status i)) in Hi as (? & ? & _); [by split|done|done|by apply validated_steps].
  - apply bind_ok in H as ([] & Hv & H). apply bind_ok in H as ([i' s1] & Hi & H). apply bind_ok in H as ([o s2] & Hf & H).
    injection H as _ <-. apply (status_advances _ _ _ (ti_status i)) in Hi as (? & ? & Hs1); [|done|done|by apply validated_steps].
    etrans; [by split|]. by apply fill_handled in Hf.
Qed.

(** ** The operations of the program *)

Section Life.
Context (initial : decimal) (s0 : PaperStore).

Definition tracked (s : PaperStore) : Prop := books initial s /\ advanced s0 s.

Lemma tracked_same s s' : tracked s -> books initial s' -> same_intents s s' -> tracked s'.
Proof. intros [_ Ha] Hb Hs. split; [done|]. etrans; [exact Ha|by apply same_advanced]. Qed.

Lemma beside_tracked s s' : beside s s' -> tracked s -> tracked s'.
Proof.
  intros Hs Ht. eapply tracked_same; [exact Ht|eapply beside_books; [exact Hs|apply Ht]|]. apply Hs.
Qed.

Lemma snapshot_tracked s id t event candles closes c n b s' :
  tracked s -> capture_snapshot s id t event candles closes c = Ok (n, b, s') -> tracked s'.
Proof.
  intros Ht H. eapply tracked_same; [exact Ht|eapply books_snapshot, H; apply Ht|by eapply snapshot_intents].
Qed.

Lemma trailing_tracked t candles atrs constraints params c ids :
  keeps tracked (update_daily_trailing_stops t candles atrs constraints params c ids).
Proof.
  apply trailing_keeps; [apply snapshot_tracked|]. intros s symbol p tick close st id atr b s' [Ht Hp] Hst H.
  apply open_position_ok in Hp as (Hin & Ho & _ & _).
  eapply tracked_same; [exact Ht|by eapply book_trailing_books, H; [apply Ht|..]|by eapply trailing_row_intents].
Qed.

Lemma triggers_tracked config now t candles constraints c b1 b2 ids l results :
  keeps tracked (foldS (stop_trigger_for_symbol config now t candles constraints c b1 b2 ids) l results).
Proof.
  apply triggers_keeps; [apply snapshot_tracked|]. intros s symbol p id trigger x b s' [Ht Hp] Hx H.
  apply open_position_ok in Hp as (Hin & Ho & _ & _). apply exit_accounting_fields in Hx as [Hg Hn].
  eapply tracked_same; [exact Ht| |by eapply exit_intents].
  eapply books_step; [apply Ht|by eapply book_exit_steps, H; [apply Ht|..]|by eapply book_exit_chain, H; [apply Ht|]].
Qed.

(** The batch reads its intents once; handling one leaves the status the
    others were read with. *)
Definition as_read (s : PaperStore) (i : TradeIntent) : Prop :=
  unfilled s (ti_intent_id i) /\ at_status s (ti_intent_id i) (ti_status i) /\ ti_status i ∈ LIVE_STATUSES.

Lemma intents_tracked env ctxs symbol ctx l st :
  (forall id, uuid_text (id_order (be_ids env id))) -> NoDup (ti_intent_id <$> l) ->
  hoare (fun s => tracked s /\ Forall (as_read s) l)
    (foldS (process_intent env ctxs symbol ctx) l st) (fun _ => tracked) (fun _ => tracked).
Proof.
  intros Hu. revert st. induction l as [|i l IH]; intros st Hnd; cbn [foldS]; [by intros s [Hb _]|].
  cbn in Hnd. apply NoDup_cons in Hnd as [Hn Hnd].
  eapply (hoare_bind _ _ _ (fun _ s => tracked s /\ Forall (as_read s) l)); [|intros st'; by apply IH].
  intros s [Ht [(Hi & Hst & Hl) Hall]%Forall_cons]. unfold process_intent. destruct (negb _); [done|].
  unfold mbind, sx_bind, writes. cbn. destruct (submit_intent _ _ _ _ _ _ _) as [[out s']|e] eqn:E; [|done].
  pose proof (submit_handled _ _ _ _ _ _ _ _ _ Hl Hst E) as [Ha Hsp].
  apply (submit_intent_books initial) in E as [Hb1 Hh]; [|done|apply Ht|done].
  assert (Ht' : tracked s') by (split; [done|]; etrans; [apply Ht|done]).
  assert (Forall (as_read s') l); [|by destruct out].
  rewrite Forall_forall in Hall. apply Forall_forall. intros j Hj. destruct (Hall j Hj) as (Huj & Hsj & Hlj).
  assert (Hne : ti_intent_id j <> ti_intent_id i).
  { intros He. apply Hn. rewrite <- He. by apply list_elem_of_fmap_2. }
  split_and!; [by apply Hh|by apply Hsp|done].
Qed.

Lemma scheduled_as_read s symbol t :
  chain_inv s -> Forall (as_read s) (get_scheduled_intents_for_symbol s symbol t).
Proof.
  intros Hc. destruct (scheduled_unfilled s symbol t Hc) as [_ Hall]. rewrite Forall_forall in Hall |- *.
  intros x Hx. split; [by apply Hall|]. unfold get_scheduled_intents_for_symbol in Hx.
  apply list_elem_of_fmap in Hx as (i & -> & Hi). rewrite elem_of_sort_by, elem_of_list_filter in Hi.
  destruct Hi as [Hi Hs]. unfold is_scheduled_for in Hs. apply andb_true_iff in Hs as [_ Hs]. apply bool_decide_eq_true in Hs.
  split; [|exact Hs]. intros j Hj He. by rewrite (key_row ti_intent_id (db_intents s) j i (ch_intents _ Hc) Hj Hi He).
Qed.

Lemma batch_tracked env delay ctxs :
  (forall id, uuid_text (id_order (be_ids env id))) -> keeps tracked (process_scheduled_intents_for_open env delay ctxs).
Proof.
  intros Hu. apply keeps_bind; [|intros [results ids]; apply keeps_ret]. apply keeps_fold. intros [results ids] symbol.
  unfold process_symbol. destruct (od_get ctxs symbol) as [ctx|]; [|apply keeps_ret]. destruct (_ <? _)%Z; [apply keeps_ret|].
  intros s Ht. unfold mbind, sx_bind, gets.
  pose proof (scheduled_as_read s symbol (fc_candle_open_time ctx) (proj2 (proj1 Ht))) as Hall.
  destruct (scheduled_unfilled s symbol (fc_candle_open_time ctx)) as [Hnd _]; [apply Ht|].
  set (l := get_scheduled_intents_for_symbol _ _ _) in *.
  pose proof (intents_tracked env ctxs symbol ctx l
    {| bs_processed_ids := ids; bs_processed := 0; bs_filled := 0; bs_rejected := 0; bs_skipped := 0 |} Hu Hnd s (conj Ht Hall)) as H.
  by destruct (foldS _ _ _ s) as [[st|e] s'].
Qed.

Lemma evaluation_advanced d1 d2 d3 h s id1 id2 symbol t bundle params config gates at_ ready c r s' :
  evaluate_symbol_for_daily_close d1 d2 d3 h s id1 id2 symbol t bundle params config gates at_ ready c = Ok (r, s') ->
  advanced s s'.
Proof.
  unfold evaluate_symbol_for_daily_close. intros H. case_match; [done|]. case_match; [done|].
  destruct (last _) as [cd|]; [|done]. case_match; [done|]. apply bind_ok in H as (ev & _ & H). unfold record_evaluation in H.
  apply bind_ok in H as ([[e b] s1] & He & H). apply evaluation_row_intents in He.
  case_match; [injection H as _ <-; by apply same_advanced|]. apply bind_ok in H as ([[[i b2] bl] s2] & Hi & H).
  injection H as _ <-. assert (Hs2 : advanced s s2).
  { etrans; [apply same_advanced, He|]. set (sa := append_audit_event _ _) in Hi.
    assert (Hsa : same_intents s1 sa) by done. etrans; [apply same_advanced, Hsa|]. clearbody sa.
    unfold create_intent_from_evaluation in Hi. case_match; [by injection Hi as _ _ _ <-|].
    apply bind_ok in Hi as (et & _ & Hi). apply bind_ok in Hi as (en & _ & Hi). apply bind_ok in Hi as (st & _ & Hi).
    apply bind_ok in Hi as ([[ti b3] s3] & Ht & Hi). injection Hi as _ _ _ <-. unfold insert_or_get_trade_intent in Ht.
    apply bind_ok in Ht as ([[ti' b4] rows'] & Ht & Hi). injection Hi as _ _ <-. apply insert_or_get_ok in Ht. destruct b4.
    - destruct Ht as [_ [-> _ _ _]]. intros j Hj. exists j. split_and!; [|done..]. apply elem_of_app. by left.
    - destruct Ht as [-> _]. by apply same_advanced. }
  destruct i; [|exact Hs2]. by destruct b2.
Qed.

Lemma recover_tracked config env s r s' : tracked s -> recover_and_record config env s = Ok (r, s') -> tracked s'.
Proof.
  apply (recovering_keeps initial tracked); [by intros s1 []|intros ? ?; apply beside_tracked|].
  intros s1 ? ? ? ? ? ? ? ? s2. apply snapshot_tracked.
Qed.

Lemma paper_step_tracked s s' : tracked s -> paper_step s s' -> tracked s'.
Proof.
  intros Ht Hstep. pose proof (paper_step_books initial _ _ (proj1 Ht) Hstep) as Hb.
  destruct Hstep; try by eapply beside_tracked, Ht.
  - split; [done|]. etrans; [apply Ht|by eapply evaluation_advanced].
  - by eapply (keeps_run _ _ _ _ _ (batch_tracked _ _ _ ltac:(eassumption))).
  - by eapply (keeps_run _ _ _ _ _ (trailing_tracked _ _ _ _ _ _ _)).
  - by eapply (keeps_run _ _ _ _ _ (triggers_tracked _ _ _ _ _ _ _ _ _ _ _)).
  - by eapply (keeps_run _ _ _ _ _ (triggers_tracked _ _ _ _ _ _ _ _ _ _ _)).
  - by eapply snapshot_tracked.
  - by eapply recover_tracked.
  - eapply beside_tracked, Ht. by eapply transition_beside.
  - eapply beside_tracked, Ht. by eapply heartbeat_beside.
  - eapply beside_tracked, Ht. by eapply set_paused_beside.
  - eapply beside_tracked, Ht. by eapply set_kill_switch_beside.
Qed.
End Life.

(** An intent is filled exactly when an order of its own is. *)
Lemma filled_iff_order s i :
  chain_inv s -> i ∈ db_intents s ->
  (ti_status i = IS_FILLED <-> exists o, o ∈ db_orders s /\ or_intent_id o = ti_intent_id i).
Proof.
  intros Hc Hi. split; [apply (il_filled _ _ (ch_intent _ Hc i Hi))|]. intros (o & Ho & He).
  destruct (ol_intent _ _ (ch_orders _ Hc o Ho)) as (j & Hj & Hid & Hst).
  by rewrite (key_row ti_intent_id (db_intents s) i j (ch_intents _ Hc) Hi Hj) by congruence.
Qed.

(** [C17] The life of an intent in the database.  Between any two states of paper
    trading, every intent of the first is still there under its id; its status
    moved along the transition table only, although the fill service and the
    recovery write the status without consulting it; and once the status is
    terminal the row is never written again.  At any time the status is one of
    the five the program uses, and it is FILLED exactly when an order of the
    intent exists. *)
Theorem intents_follow_lifecycle initial s0 s s' :
  representable initial -> fresh_database initial s0 -> rtc paper_step s0 s -> rtc paper_step s s' ->
  (forall i, i ∈ db_intents s -> exists i', i' ∈ db_intents s' /\ ti_intent_id i' = ti_intent_id i /\
     rtc intent_step (ti_status i) (ti_status i') /\ (ti_status i ∈ TERMINAL_INTENT_STATUSES -> i' = i)) /\
  (forall i, i ∈ db_intents s' ->
     ti_status i ∈ [IS_SCHEDULED; IS_SUBMITTED_TO_PAPER_ENGINE; IS_FILLED; IS_CANCELLED; IS_REJECTED] /\
     (ti_status i = IS_FILLED <-> exists o, o ∈ db_orders s' /\ or_intent_id o = ti_intent_id i)).
Proof.
  intros Hi Hs Hr Hr'. pose proof (reachable_books _ _ _ Hi Hs Hr) as Hb.
  assert (Ht : tracked initial s s') by (refine (rtc_closed _ (tracked initial s) _ _ _ Hr' (conj Hb (reflexivity s)));
    intros u v Hu Huv; by eapply paper_step_tracked).
  destruct Ht as [[_ Hc] Ha]. split; [exact Ha|]. intros i Hin. split; [apply (ch_intent _ Hc i Hin)|by apply filled_iff_order].
Qed.

(** ** The example run: the intent is filled, and stays as it is when its
    position is closed. *)

Lemma example_opened_reached : rtc paper_step example_store example_opened.
Proof.
  apply rtc_once. eapply (StepOpen _ example_env 0 example_contexts); [by split|]. apply surjective_pairing.
Qed.

Lemma example_closed_reached : rtc paper_step example_opened example_closed.
Proof. apply rtc_once. eapply (StepIntradayStops _ example_trading_config). apply surjective_pairing. Qed.

Lemma intents_follow_lifecycle_witness :
  (ti_status <$> db_intents example_store) = [IS_SCHEDULED] /\ (ti_status <$> db_intents example_opened) = [IS_FILLED] /\
  (forall i, i ∈ db_intents example_opened -> exists i', i' ∈ db_intents example_closed /\ ti_intent_id i' = ti_intent_id i /\
     rtc intent_step (ti_status i) (ti_status i') /\ (ti_status i ∈ TERMINAL_INTENT_STATUSES -> i' = i)) /\
  (forall i, i ∈ db_intents example_closed ->
     ti_status i ∈ [IS_SCHEDULED; IS_SUBMITTED_TO_PAPER_ENGINE; IS_FILLED; IS_CANCELLED; IS_REJECTED] /\
     (ti_status i = IS_FILLED <-> exists o, o ∈ db_orders example_closed /\ or_intent_id o = ti_intent_id i)).
Proof.
  split; [reflexivity|]. split; [vm_compute; reflexivity|].
  apply (intents_follow_lifecycle 10000 example_store);
    [apply representable_10000|apply example_fresh|apply example_opened_reached|apply example_closed_reached].
Defined.
