(* ===== verification/PaperRuns.v ===== *)
(** * The life of a scheduler run (services/paper_trading/: repository.py,
    scheduler.py, market_events.py)

    The abstract specification of what the scheduler and the market event
    bridge do to the database: [scheduler_write] and [bridge_write] list the
    writes with the conditions they are made under.  A run is only ended while
    it is open, a daily open only after its three parts, and what the recovery
    does without looking is done to recovery attempts alone.  Completed runs
    are therefore final. *)
From Stdlib Require Import ZArith QArith Lia Strings.String.
From stdpp Require Import base list gmap sets strings relations.
From S2P Require Import Prelude Decimal StrategyModels EventFairness MarketModels PaperModels PaperSession PaperRuntime PaperRepository.
From S2P Require Import PaperScheduler PaperEvents PaperLedger PaperReconcile PaperFrame.

(** ** Runs of a key *)

Definition run_key (r : SchedulerRun) : string * datetime := (sr_job_name r, sr_scheduled_for r).

Definition completed (job : string) (t : datetime) (s : PaperStore) : Prop :=
  exists r, r ∈ db_scheduler_runs s /\ run_key r = (job, t) /\ sr_status r = SR_COMPLETED.

Definition open_run (job : string) (t : datetime) (s : PaperStore) : Prop := ~ completed job t s.

Definition unique_runs (s : PaperStore) : Prop := NoDup (run_key <$> db_scheduler_runs s).

Lemma is_run_key job t r : is_run job t r = true <-> run_key r = (job, t).
Proof.
  unfold is_run, run_key. rewrite andb_true_iff, bool_decide_eq_true, Z.eqb_eq. split; [by intros [-> ->]|by intros [= -> ->]].
Qed.

Lemma completed_rows job t s s' : same_runs s s' -> completed job t s -> completed job t s'.
Proof. unfold completed. by intros ->. Qed.

Lemma open_rows job t s s' : same_runs s s' -> open_run job t s -> open_run job t s'.
Proof. intros Hr Ho Hc. apply Ho. eapply completed_rows; [|exact Hc]. unfold same_runs in *. congruence. Qed.

Lemma find_run_found s job t r :
  get_scheduler_run s job t = Ok (Some r) -> List.filter (is_run job t) (db_scheduler_runs s) = [r].
Proof.
  unfold get_scheduler_run, scalar_one_or_none. destruct (List.filter _ _) as [|r0 [|]]; intros H; try done. by injection H as ->.
Qed.

(** What a reader of a run learns. *)
Lemma read_run s job t o :
  get_scheduler_run s job t = Ok o ->
  match o with
  | Some r => r ∈ db_scheduler_runs s /\ run_key r = (job, t) /\ (sr_status r <> SR_COMPLETED -> open_run job t s)
  | None => open_run job t s
  end.
Proof.
  intros H. destruct o as [r|].
  - apply find_run_found in H.
    assert (Hr : r ∈ List.filter (is_run job t) (db_scheduler_runs s)) by (rewrite H; by left).
    apply elem_of_list_filter in Hr as [Hr Hk]. split_and!; [done|by apply is_run_key|].
    intros Hs (r' & Hr' & Hk' & Hs'). apply Hs.
    assert (Hin : r' ∈ List.filter (is_run job t) (db_scheduler_runs s)) by (by apply elem_of_list_filter; rewrite is_run_key).
    rewrite H in Hin. apply list_elem_of_singleton in Hin as ->. done.
  - intros (r & Hr & Hk & _). unfold get_scheduler_run in H.
    assert (Hin : r ∈ List.filter (is_run job t) (db_scheduler_runs s)) by (by apply elem_of_list_filter; rewrite is_run_key).
    destruct (List.filter _ _) as [|? [|]]; try done. by apply elem_of_nil in Hin.
Qed.

(** A unique key is read without an exception. *)
Lemma unique_read s job t : unique_runs s -> exists o, get_scheduler_run s job t = Ok o.
Proof.
  intros Hu. unfold get_scheduler_run. destruct (scalar_one_or_none_unique run_key (List.filter (is_run job t) (db_scheduler_runs s))) as (o & Ho & _).
  - unfold unique_runs in Hu. revert Hu. generalize (db_scheduler_runs s). intros l. induction l as [|r l IH]; cbn; [done|].
    intros [Hn Hd]%NoDup_cons. destruct (is_run job t r); cbn; [|by apply IH]. apply NoDup_cons. split; [|by apply IH].
    intros (x & Hx & Hin)%list_elem_of_fmap. apply elem_of_list_filter in Hin as [Hin _]. apply Hn. rewrite Hx. by apply list_elem_of_fmap_2.
  - intros x y Hx Hy. apply elem_of_list_filter in Hx as [_ Hx], Hy as [_ Hy]. apply is_run_key in Hx, Hy. congruence.
  - by exists o.
Qed.

(** ** The writes *)

(** An update of the rows of a key, as the membership of the new rows. *)
Lemma updated_rows job t f rows r' :
  r' ∈ update_where (is_run job t) f rows <->
  exists r, r ∈ rows /\ r' = if is_run job t r then f r else r.
Proof. unfold update_where. rewrite list_elem_of_fmap. naive_solver. Qed.

Lemma complete_ok s job t st now err r s' :
  complete_scheduler_run s job t st now err = Ok (r, s') ->
  s' = with_runs s (update_where (is_run job t) (run_completed st now err) (db_scheduler_runs s)) /\
  r ∈ db_scheduler_runs s' /\ run_key r = (job, t) /\ sr_status r = st /\ sr_error r = err.
Proof.
  unfold complete_scheduler_run. intros (x & Hx & H)%bind_ok. injection H as <- <-. split; [done|]. apply scalar_one_ok in Hx.
  assert (Hin : x ∈ List.filter (is_run job t) (update_where (is_run job t) (run_completed st now err) (db_scheduler_runs s))) by (rewrite Hx; by left).
  apply elem_of_list_filter in Hin as [Hin Hk]. pose proof Hin as Hrow. apply updated_rows in Hin as (r & Hr & He).
  split_and!; [done|by apply is_run_key|..]; destruct (is_run job t r) eqn:E; subst; try done; congruence.
Qed.

Lemma complete_completed s job t now err r s' :
  complete_scheduler_run s job t SR_COMPLETED now err = Ok (r, s') -> completed job t s'.
Proof. intros (_ & Hr & Hk & Hs & _)%complete_ok. by exists r. Qed.

(** A run that starts, or that exists. *)
Lemma insert_run_ok s id job t now r b s' :
  insert_run id job t now s = Ok (r, b, s') ->
  (b = true /\ s' = with_runs s (db_scheduler_runs s ++ [new_run id job t now]) /\ (job, t) ∉ run_key <$> db_scheduler_runs s) \/
  (b = false /\ s' = with_runs s (db_scheduler_runs s) /\ r ∈ db_scheduler_runs s /\ run_key r = (job, t)).
Proof.
  unfold insert_run, insert_or_get_scheduler_run. intros ([[r0 c] rows] & Hi & H)%bind_ok. injection H as -> -> <-.
  apply insert_or_get_ok in Hi. destruct b.
  - destruct Hi as [-> [-> _ Hu _]]. left. split_and!; try done. intros (x & Hk & Hx)%list_elem_of_fmap.
    specialize (Hu x Hx). cbn in Hu. apply orb_false_iff in Hu as [Hu _]. apply orb_false_iff in Hu as [_ Hu].
    unfold same_run in Hu. cbn in Hu. assert (is_run job t x = true) by (by apply is_run_key). congruence.
  - destruct Hi as [-> [Hr Hc]]. right. split_and!; try done. by apply is_run_key.
Qed.

Lemma insert_run_row s id job t now r b s' :
  insert_run id job t now s = Ok (r, b, s') -> r ∈ db_scheduler_runs s' /\ run_key r = (job, t).
Proof.
  unfold insert_run, insert_or_get_scheduler_run. intros ([[r0 c] rows] & Hi & H)%bind_ok. injection H as -> -> <-.
  apply insert_or_get_ok in Hi. destruct b.
  - destruct Hi as [-> [-> _ _ _]]. split; [cbn; set_solver|done].
  - destruct Hi as [-> [Hr Hc]]. split; [done|by apply is_run_key].
Qed.

(** *** Recovery attempts *)

Definition RECOVERY_PREFIXES : list string := ["me:do:recovery:"; "me:dc:recovery:"; "me:wc:recovery:"; "me:mc:recovery:"]%string.

Definition is_recovery_name (job : string) : bool := existsb (fun p => String.prefix p job) RECOVERY_PREFIXES.

(** The three parts of a daily open, and the runs of its event. *)
Definition parts_completed (m : MarketSymbol) (t : datetime) (s : PaperStore) : Prop :=
  completed (daily_open_gap_job_name (symbol_value m) t) t s /\
  completed (daily_open_fill_job_name (symbol_value m) t) t s /\
  completed (daily_open_snapshot_job_name (symbol_value m) t) t s.

Definition open_event_name (m : MarketSymbol) (t : datetime) : string := event_job "do" (symbol_value m) t.

(** A daily open may end only after its parts. *)
Definition finishable (job : string) (t : datetime) (s : PaperStore) : Prop :=
  forall m, job = open_event_name m t -> parts_completed m t s.

(** An operation of the trading engine. *)
Definition engine_step (s s' : PaperStore) : Prop := paper_step s s' /\ same_runs s s'.

Inductive scheduler_write (jobs : string -> Prop) (s : PaperStore) : PaperStore -> Prop :=
  | WriteEngine s' : engine_step s s' -> scheduler_write jobs s s'
  | WriteStart id job t now r b s' : insert_run id job t now s = Ok (r, b, s') -> scheduler_write jobs s s'
  | WriteFinish job t st now err r s' :
      jobs job -> open_run job t s -> (st = SR_COMPLETED -> finishable job t s) ->
      complete_scheduler_run s job t st now err = Ok (r, s') -> scheduler_write jobs s s'.

Inductive bridge_write (jobs : string -> Prop) (s : PaperStore) : PaperStore -> Prop :=
  | WriteRun s' : scheduler_write jobs s s' -> bridge_write jobs s s'
  | WriteRelease job t b s' : delete_scheduler_run_if_running s job t = Ok (b, s') -> bridge_write jobs s s'
  | WriteAttempt id run name started r b s' :
      is_recovery_name name = true -> create_recovery_attempt s id run name started = Ok (r, b, s') -> bridge_write jobs s s'
  | WriteReactivate job t started :
      is_recovery_name job = true -> bridge_write jobs s (reactivate_scheduler_run s job t started)
  | WriteEndAttempt job t st now err r s' :
      is_recovery_name job = true -> complete_scheduler_run s job t st now err = Ok (r, s') -> bridge_write jobs s s'
  | WriteResolved original recovery s' : mark_run_resolved s original recovery = Ok s' -> bridge_write jobs s s'
  | WriteGroups rows : bridge_write jobs s (with_group_states s rows)
  | WriteCursor cursor : bridge_write jobs s (with_group_rotation_cursor s cursor).

(** ** Every write is a step of the paper trading state machine *)

Lemma scheduler_write_step jobs s s' : scheduler_write jobs s s' -> paper_step s s'.
Proof.
  intros [s1 [H _]|id job t now r b s1 H|job t st now err r s1 _ _ _ H]; [done|..].
  - apply insert_run_ok in H as [(_ & -> & _)|(_ & -> & _)]; constructor.
  - apply complete_ok in H as [-> _]. constructor.
Qed.

Lemma bridge_write_step jobs s s' : bridge_write jobs s s' -> paper_step s s'.
Proof.
  intros [s1 H|job t b s1 H|id run name started r b s1 _ H|job t started _|job t st now err r s1 _ H|o rc s1 H|rows|c].
  - by eapply scheduler_write_step.
  - unfold delete_scheduler_run_if_running in H. case_match; [done|]. injection H as _ <-. constructor.
  - unfold create_recovery_attempt, insert_or_get_scheduler_run in H. apply bind_ok in H as ([[r0 c] rows] & _ & H).
    injection H as _ _ <-. constructor.
  - constructor.
  - apply complete_ok in H as [-> _]. constructor.
  - unfold mark_run_resolved in H. case_match; [done|]. injection H as <-. constructor.
  - constructor.
  - constructor.
Qed.

(** ** Completed runs are final *)

(** A run up to who recovered it. *)
Definition settled_run (r : SchedulerRun) : SchedulerRun :=
  {| sr_run_id := sr_run_id r; sr_job_name := sr_job_name r; sr_scheduled_for := sr_scheduled_for r;
     sr_started_at := sr_started_at r; sr_completed_at := sr_completed_at r; sr_status := sr_status r;
     sr_error := sr_error r; sr_idempotency_key := sr_idempotency_key r;
     sr_recovery_of_run_id := sr_recovery_of_run_id r; sr_resolved_by_run_id := None |}.

Definition final (r : SchedulerRun) : bool :=
  bool_decide (sr_status r = SR_COMPLETED) && negb (is_recovery_name (sr_job_name r)).

Definition kept (s s' : PaperStore) : Prop :=
  forall r, r ∈ db_scheduler_runs s -> final r = true -> exists r', r' ∈ db_scheduler_runs s' /\ settled_run r' = settled_run r.

#[export] Instance kept_preorder : PreOrder kept.
Proof.
  split.
  - intros s r Hr _. by exists r.
  - intros s1 s2 s3 H12 H23 r Hr Hf. destruct (H12 r Hr Hf) as (r2 & Hr2 & He2).
    destruct (H23 r2 Hr2) as (r3 & Hr3 & He3); [|exists r3; split; [done|congruence]].
    revert Hf. unfold final. by injection He2 as _ -> _ _ _ -> _.
Qed.

Lemma kept_same s s' : same_runs s s' -> kept s s'.
Proof. intros Hr r Hin _. exists r. by rewrite Hr. Qed.

Lemma kept_app s rows : kept s (with_runs s (db_scheduler_runs s ++ rows)).
Proof. intros r Hr _. exists r. split; [cbn; set_solver|done]. Qed.

(** An update spares the final runs, or changes who recovered them only. *)
Lemma kept_update s cond f :
  (forall r, r ∈ db_scheduler_runs s -> final r = true -> cond r = true -> settled_run (f r) = settled_run r) ->
  kept s (with_runs s (update_where cond f (db_scheduler_runs s))).
Proof.
  intros Hc r Hr Hf. exists (if cond r then f r else r). split.
  - cbn. unfold update_where. apply list_elem_of_fmap. by exists r.
  - destruct (cond r) eqn:E; [by apply Hc|done].
Qed.

Lemma final_name r job t : final r = true -> run_key r = (job, t) -> is_recovery_name job = false.
Proof. unfold final. intros [_ H]%andb_true_iff [= <- _]. by apply negb_true_iff in H. Qed.

Lemma final_completed r : final r = true -> sr_status r = SR_COMPLETED.
Proof. unfold final. intros [H _]%andb_true_iff. by apply bool_decide_eq_true in H. Qed.

Lemma kept_open s job t f : open_run job t s -> kept s (with_runs s (update_where (is_run job t) f (db_scheduler_runs s))).
Proof. intros Ho. apply kept_update. intros r Hr Hf Hk%is_run_key. destruct Ho. exists r. split_and!; [done..|by apply final_completed]. Qed.

Lemma kept_attempt s job t f :
  is_recovery_name job = true -> kept s (with_runs s (update_where (is_run job t) f (db_scheduler_runs s))).
Proof. intros Hn. apply kept_update. intros r _ Hf Hk%is_run_key. pose proof (final_name _ _ _ Hf Hk). congruence. Qed.

Lemma scheduler_write_kept jobs s s' : scheduler_write jobs s s' -> kept s s'.
Proof.
  intros [s1 [_ H]|id job t now r b s1 H|job t st now err r s1 _ Ho _ H].
  - by apply kept_same.
  - apply insert_run_ok in H as [(_ & -> & _)|(_ & -> & _)]; [apply kept_app|by apply kept_same].
  - apply complete_ok in H as [-> _]. by apply kept_open.
Qed.

Lemma bridge_write_kept jobs s s' : bridge_write jobs s s' -> kept s s'.
Proof.
  intros [s1 H|job t b s1 H|id run name started r b s1 _ H|job t started Hn|job t st now err r s1 Hn H|o rc s1 H|rows|c].
  - by eapply scheduler_write_kept.
  - unfold delete_scheduler_run_if_running in H. case_match; [done|]. injection H as _ <-. intros r Hr Hf. exists r. split; [|done].
    cbn. apply elem_of_list_filter. split; [done|]. unfold is_running_run. rewrite (final_completed _ Hf).
    by rewrite andb_false_r.
  - unfold create_recovery_attempt, insert_or_get_scheduler_run in H. apply bind_ok in H as ([[r0 c] rows] & Hi & H).
    injection H as _ _ <-. apply insert_or_get_ok in Hi. destruct c; [destruct Hi as [_ [-> _ _ _]]; apply kept_app|].
    destruct Hi as [-> _]. by apply kept_same.
  - by apply kept_attempt.
  - apply complete_ok in H as [-> _]. by apply kept_attempt.
  - unfold mark_run_resolved in H. case_match; [done|]. injection H as <-. by apply kept_update.
  - by apply kept_same.
  - by apply kept_same.
Qed.

Lemma writes_kept jobs s s' : rtc (bridge_write jobs) s s' -> kept s s'.
Proof. induction 1; [done|]. etransitivity; [by eapply bridge_write_kept|done]. Qed.

Lemma kept_completed job t s s' : kept s s' -> is_recovery_name job = false -> completed job t s -> completed job t s'.
Proof.
  intros Hk Hn (r & Hr & Hkey & Hs). destruct (Hk r Hr) as (r' & Hr' & He).
  { unfold final. injection Hkey as -> _. by rewrite Hs, Hn. }
  exists r'. injection He as _ Hj Ht _ _ Hst _ _ _. unfold run_key in *. split_and!; [done|congruence|congruence].
Qed.

(** The names of the parts and of the events are no recovery names. *)
Lemma part_names (m : MarketSymbol) t :
  is_recovery_name (daily_open_gap_job_name (symbol_value m) t) = false /\
  is_recovery_name (daily_open_fill_job_name (symbol_value m) t) = false /\
  is_recovery_name (daily_open_snapshot_job_name (symbol_value m) t) = false /\
  is_recovery_name (open_event_name m t) = false.
Proof. by destruct m. Qed.

Lemma kept_parts m t s s' : kept s s' -> parts_completed m t s -> parts_completed m t s'.
Proof.
  intros Hk (Hg & Hf & Hs). destruct (part_names m t) as (? & ? & ? & _). unfold parts_completed. split_and!; by eapply kept_completed.
Qed.

(** ** The invariant of the runs *)

Record runs_inv (s : PaperStore) : Prop := {
  ri_unique : unique_runs s;
  ri_attempts : forall r, r ∈ db_scheduler_runs s -> is_Some (sr_recovery_of_run_id r) -> is_recovery_name (sr_job_name r) = true;
  ri_parts : forall m t, completed (open_event_name m t) t s -> parts_completed m t s;
}.

(** What a write may do to the rows: add a run that is not completed, drop
    some, and change some without touching their keys and what they recover. *)
Lemma runs_inv_add s row :
  runs_inv s -> run_key row ∉ run_key <$> db_scheduler_runs s -> sr_status row = SR_RUNNING ->
  (is_Some (sr_recovery_of_run_id row) -> is_recovery_name (sr_job_name row) = true) ->
  runs_inv (with_runs s (db_scheduler_runs s ++ [row])).
Proof.
  intros [Hu Ha Hp] Hn Hs Hr. split.
  - unfold unique_runs. cbn. rewrite fmap_app. by apply NoDup_snoc.
  - intros r Hin. cbn in Hin. apply elem_of_app in Hin as [Hin| ->%list_elem_of_singleton]; [by apply Ha|done].
  - intros m t (r & Hin & Hk & Hc). cbn in Hin. apply elem_of_app in Hin as [Hin| ->%list_elem_of_singleton]; [|congruence].
    eapply kept_parts; [apply kept_app|]. apply Hp. by exists r.
Qed.

Lemma runs_inv_update s cond f :
  runs_inv s -> kept s (with_runs s (update_where cond f (db_scheduler_runs s))) ->
  (forall r, run_key (f r) = run_key r /\ sr_recovery_of_run_id (f r) = sr_recovery_of_run_id r) ->
  (forall r m t, r ∈ db_scheduler_runs s -> cond r = true -> sr_status (f r) = SR_COMPLETED -> run_key r = (open_event_name m t, t) ->
     sr_status r = SR_COMPLETED \/ parts_completed m t s) ->
  runs_inv (with_runs s (update_where cond f (db_scheduler_runs s))).
Proof.
  intros [Hu Ha Hp] Hk Hf Hd. set (g := fun r => if cond r then f r else r).
  assert (Hg : forall r, run_key (g r) = run_key r /\ sr_recovery_of_run_id (g r) = sr_recovery_of_run_id r).
  { intros r. unfold g. destruct (cond r); [apply Hf|done]. }
  split.
  - unfold unique_runs in *. cbn. unfold update_where. rewrite <- list_fmap_compose. erewrite list_fmap_ext; [exact Hu|].
    intros i r _. apply Hg.
  - intros r' Hr'. cbn in Hr'. apply list_elem_of_fmap in Hr' as (r & -> & Hr). fold (g r). destruct (Hg r) as [Hkey ->]. injection Hkey as -> _. by apply Ha.
  - intros m t (r' & Hr' & Hkey & Hc). cbn in Hr'. apply list_elem_of_fmap in Hr' as (r & -> & Hr). destruct (Hg r) as [Hk' _].
    eapply kept_parts; [exact Hk|]. fold (g r) in Hkey, Hc. rewrite Hk' in Hkey. unfold g in Hc. destruct (cond r) eqn:E.
    + destruct (Hd r m t Hr E Hc Hkey) as [Hs|Hd']; [|done]. apply Hp. by exists r.
    + apply Hp. by exists r.
Qed.

Lemma runs_inv_same s s' : same_runs s s' -> runs_inv s -> runs_inv s'.
Proof.
  unfold same_runs. intros Hr [Hu Ha Hp]. split.
  - unfold unique_runs. by rewrite Hr.
  - by rewrite Hr.
  - intros m t Hc. eapply kept_parts; [apply kept_same, Hr|]. apply Hp. eapply completed_rows; [|exact Hc]. by symmetry.
Qed.

Lemma scheduler_write_inv jobs s s' : scheduler_write jobs s s' -> runs_inv s -> runs_inv s'.
Proof.
  intros [s1 [_ H]|id job t now r b s1 H|job t st now err r s1 _ Ho Hfin H] Hi.
  - by apply (runs_inv_same s).
  - apply insert_run_ok in H as [(_ & -> & Hn)|(_ & -> & _)]; [|by apply (runs_inv_same s)].
    apply runs_inv_add; [done..|]. by intros [? ?].
  - apply complete_ok in H as [-> _]. apply runs_inv_update; [done|by apply kept_open|done|].
    intros x m t' Hx Hk%is_run_key Hs Hkey. right. rewrite Hk in Hkey. injection Hkey as -> ->. by apply (Hfin Hs).
Qed.

Lemma attempt_part (m : MarketSymbol) t job : is_recovery_name job = true -> job <> open_event_name m t.
Proof. intros Hj ->. destruct (part_names m t) as (_ & _ & _ & H). congruence. Qed.

Lemma runs_inv_attempts s job t f :
  is_recovery_name job = true -> runs_inv s ->
  (forall r, run_key (f r) = run_key r /\ sr_recovery_of_run_id (f r) = sr_recovery_of_run_id r) ->
  runs_inv (with_runs s (update_where (is_run job t) f (db_scheduler_runs s))).
Proof.
  intros Hn Hi Hf. apply runs_inv_update; [done|by apply kept_attempt|done|].
  intros r m t' _ Hk%is_run_key _ Hkey. destruct (attempt_part m t' job Hn). congruence.
Qed.

Lemma bridge_write_inv jobs s s' : bridge_write jobs s s' -> runs_inv s -> runs_inv s'.
Proof.
  intros Hw Hi. pose proof (bridge_write_kept _ _ _ Hw) as Hk. revert Hk.
  destruct Hw as [s1 H|job t b s1 H|id run name started r b s1 Hn H|job t started Hn|job t st now err r s1 Hn H|o rc s1 H|rows|c]; intros Hk.
  - by eapply scheduler_write_inv.
  - unfold delete_scheduler_run_if_running in H. case_match; [done|]. injection H as _ <-. destruct Hi as [Hu Ha Hp].
    set (p := fun r => negb (is_running_run job t r)) in *. split.
    + unfold unique_runs in *. cbn. revert Hu. generalize (db_scheduler_runs s). intros l. induction l as [|r l IH]; cbn; [done|].
      intros [Hr Hd]%NoDup_cons. destruct (p r); cbn; [|by apply IH]. apply NoDup_cons. split; [|by apply IH].
      intros (x & Hx & Hin)%list_elem_of_fmap. apply elem_of_list_filter in Hin as [Hin _]. apply Hr. rewrite Hx. by apply list_elem_of_fmap_2.
    + intros r Hr. cbn in Hr. apply elem_of_list_filter in Hr as [Hr _]. by apply Ha.
    + intros m t' (r & Hr & Hkey & Hs). eapply kept_parts; [exact Hk|]. apply Hp. exists r. cbn in Hr. by apply elem_of_list_filter in Hr as [Hr _].
  - unfold create_recovery_attempt, insert_or_get_scheduler_run in H. apply bind_ok in H as ([[r0 c] rows] & Hins & H).
    injection H as _ _ <-. apply insert_or_get_ok in Hins. destruct c.
    + destruct Hins as [-> [-> _ Hu _]]. apply runs_inv_add; [done| |done|done]. intros (x & Hkey & Hx)%list_elem_of_fmap.
      specialize (Hu x Hx). cbn in Hu. apply orb_false_iff in Hu as [Hu _]. apply orb_false_iff in Hu as [_ Hu].
      unfold same_run in Hu. cbn in Hu. assert (is_run name (sr_scheduled_for run) x = true) by (by apply is_run_key). congruence.
    + destruct Hins as [-> _]. by apply (runs_inv_same s).
  - by apply runs_inv_attempts.
  - apply complete_ok in H as [-> _]. by apply runs_inv_attempts.
  - unfold mark_run_resolved in H. case_match; [done|]. injection H as <-. apply runs_inv_update; [done|done|done|].
    intros r m t' _ _ Hs _. by left.
  - by apply (runs_inv_same s).
  - by apply (runs_inv_same s).
Qed.

Lemma writes_inv jobs s s' : runs_inv s -> rtc (bridge_write jobs) s s' -> runs_inv s'.
Proof. intros Hi Hr. induction Hr; [done|]. apply IHHr. by eapply bridge_write_inv. Qed.

(** ** Runs a writer does not know stay open *)

Lemma scheduler_write_open jobs job t s s' : scheduler_write jobs s s' -> ~ jobs job -> open_run job t s -> open_run job t s'.
Proof.
  intros [s1 [_ H]|id j t' now r b s1 H|j t' st now err r s1 Hj _ _ H] Hn Ho.
  - by eapply open_rows.
  - apply insert_run_ok in H as [(_ & -> & _)|(_ & -> & _)]; [|by apply (open_rows _ _ s)].
    intros (x & Hx & Hk & Hs). cbn in Hx. apply elem_of_app in Hx as [Hx| ->%list_elem_of_singleton]; [|done].
    apply Ho. by exists x.
  - apply complete_ok in H as [-> _]. intros (x & Hx & Hk & Hs). cbn in Hx. apply updated_rows in Hx as (y & Hy & ->).
    destruct (is_run j t' y) eqn:E; [|apply Ho; by exists y]. apply is_run_key in E.
    assert (run_key y = (job, t)) as Hy' by done. rewrite Hy' in E. by injection E as ->.
Qed.

Lemma update_attempt_open s j t' f job t :
  is_recovery_name j = true -> is_recovery_name job = false -> (forall r, run_key (f r) = run_key r) -> open_run job t s ->
  open_run job t (with_runs s (update_where (is_run j t') f (db_scheduler_runs s))).
Proof.
  intros Hj Hn Hf Ho (x & Hx & Hk & Hs). cbn in Hx. apply updated_rows in Hx as (y & Hy & ->).
  destruct (is_run j t' y) eqn:E; [|apply Ho; by exists y]. apply is_run_key in E. rewrite Hf, E in Hk. injection Hk as -> _. congruence.
Qed.

Lemma bridge_write_open jobs job t s s' :
  bridge_write jobs s s' -> ~ jobs job -> is_recovery_name job = false -> open_run job t s -> open_run job t s'.
Proof.
  intros [s1 H|j t' b s1 H|id run name started r b s1 Hn H|j t' started Hn|j t' st now err r s1 Hn H|o rc s1 H|rows|c] Hj Hr Ho.
  - by eapply scheduler_write_open.
  - unfold delete_scheduler_run_if_running in H. case_match; [done|]. injection H as _ <-. intros (x & Hx & Hk & Hs).
    cbn in Hx. apply elem_of_list_filter in Hx as [Hx _]. apply Ho. by exists x.
  - unfold create_recovery_attempt, insert_or_get_scheduler_run in H. apply bind_ok in H as ([[r0 c] rows] & Hins & H).
    injection H as _ _ <-. apply insert_or_get_ok in Hins. destruct c; [|destruct Hins as [-> _]; by apply (open_rows _ _ s)].
    destruct Hins as [-> [-> _ _ _]]. intros (x & Hx & Hk & Hs). cbn in Hx.
    apply elem_of_app in Hx as [Hx| ->%list_elem_of_singleton]; [|done]. apply Ho. by exists x.
  - by apply update_attempt_open.
  - apply complete_ok in H as [-> _]. by apply update_attempt_open.
  - unfold mark_run_resolved in H. case_match; [done|]. injection H as <-. intros (x & Hx & Hk & Hs). cbn in Hx.
    apply list_elem_of_fmap in Hx as (y & -> & Hy). apply Ho. exists y. split; [exact Hy|]. revert Hk Hs. destruct (bool_decide _ && _); intros ??; split; done.
  - by apply (open_rows _ _ s).
  - by apply (open_rows _ _ s).
Qed.

Lemma scheduler_write_mono (jobs jobs' : string -> Prop) s s' :
  (forall job, jobs job -> jobs' job) -> scheduler_write jobs s s' -> scheduler_write jobs' s s'.
Proof. intros Hj [s1 H|id job t now r b s1 H|job t st now err r s1 ? ? ? H]; [by apply WriteEngine|eapply WriteStart|eapply WriteFinish]; eauto. Qed.
