(* ===== verification/PaperSchedule.v ===== *)
(** * The scheduler keeps its records (services/paper_trading/scheduler.py)

    Whatever a handler does, also when it raises halfway, it only makes steps of
    the trading engine; a job starts its run, ends the run it found open, and
    touches no other run. *)
From Stdlib Require Import ZArith QArith Lia Strings.String.
From stdpp Require Import base list gmap sets strings relations.
From S2P Require Import Prelude Decimal StrategyModels BtModels BtData EventFairness MarketModels PaperModels PaperSession.
From S2P Require Import Transitions PaperRuntime PaperRepository PaperAccounting PaperExecution PaperStops PaperIntents PaperScheduler.
From S2P Require Import PaperEvents PaperLedger PaperReconcile PaperFrame PaperRuns.

Definition is_job (name : string) : Prop := exists j, name = job_value j.

(** The ids of the orders come from [uuid4]. *)
Definition uuid_ids (world : World) : Prop := forall n id, uuid_text (id_order (wo_entry_ids world n id)).

(** ** The handlers *)

Lemma keeps_consult {A} (J : PaperStore -> Prop) (f : nat -> A) : keeps (on_store J) (consult f).
Proof. by intros s Hs. Qed.

Lemma keeps_state (J : PaperStore -> Prop) f : (forall s, ss_store (f s) = ss_store s) -> keeps (on_store J) (modify f).
Proof. intros Hf. apply keeps_modify. intros s. unfold on_store. cbn. by rewrite Hf. Qed.

Lemma keeps_ready (J : PaperStore -> Prop) world : keeps (on_store J) (market_data_ready world).
Proof. apply keeps_bind; [apply keeps_consult|intros ready; apply keeps_res]. Qed.

Section Handlers.
Context (J : PaperStore -> Prop) (Hengine : forall s s', J s -> engine_step s s' -> J s').

Lemma engine_session {A} (m : sx PaperStore A) :
  (forall s r s', m s = (r, s') -> engine_step s s') -> keeps (on_store (S := SchedulerState) J) (in_session m).
Proof.
  intros Hm. apply keeps_in_session. intros s Hs. destruct (m s) as [[a|e] s'] eqn:E; eapply Hengine; eauto.
Qed.

Lemma engine_writes {A} (f : PaperStore -> res (A * PaperStore)) :
  (forall s a s', f s = Ok (a, s') -> engine_step s s') -> keeps (on_store (S := SchedulerState) J) (writes f).
Proof. intros Hf. apply keeps_writes. intros db a db' Hj H. eauto. Qed.

Context (world : World) (config : PaperTradingConfig) (Hids : uuid_ids world).

Lemma evaluation_keeps t symbols : keeps (on_store J) (foldS (evaluate_symbol world t symbols) SYMBOL_PROCESSING_ORDER tt).
Proof.
  apply keeps_fold. intros u symbol. unfold evaluate_symbol. destruct (od_get symbols symbol) as [inputs|]; [|apply keeps_ret].
  do 4 (apply keeps_bind; [apply keeps_consult|intros ?]).
  apply keeps_bind; [|intros ?; apply keeps_ret]. apply engine_writes. intros s r s' H.
  split; [by eapply StepEvaluate|by eapply evaluation_runs].
Qed.

(** The rows of the session operations, for one run of them. *)
Lemma run_rows {A} (m : sx PaperStore A) s r s' : (forall rows, keeps (with_rows rows) m) -> m s = (r, s') -> same_runs s s'.
Proof. intros Hm E. by apply (keeps_run (with_rows (db_scheduler_runs s)) m s r s'). Qed.

Lemma stop_update_keeps t : keeps (on_store J) (_job_daily_stop_update world config t).
Proof.
  apply keeps_bind; [apply keeps_gets|]. intros ctx. cbv zeta. repeat case_match; try apply keeps_raise.
  apply keeps_bind; [apply keeps_consult|]. intros ids. apply keeps_bind; [|intros ?; apply keeps_ret].
  apply engine_session. intros db r db' E. split; [by eapply StepTrailing|]. eapply run_rows; [intros rows|exact E]. apply trailing_rows.
Qed.

Lemma stop_trigger_keeps : keeps (on_store J) (_job_stop_trigger_processing world config).
Proof.
  apply keeps_bind; [apply keeps_gets|]. intros ctx. apply keeps_bind; [apply keeps_consult|]. intros t.
  cbv zeta. repeat case_match; try apply keeps_raise.
  do 2 (apply keeps_bind; [apply keeps_consult|intros ?]). apply keeps_bind; [|intros ?; apply keeps_ret].
  apply engine_session. intros db r db' E. split; [by eapply StepDailyStops|]. eapply run_rows; [intros rows|exact E]. apply triggers_rows.
Qed.

Lemma intraday_keeps cycle_id : keeps (on_store J) (_job_intraday_stop_processing world config cycle_id).
Proof.
  apply keeps_bind; [apply keeps_gets|]. intros ctx. cbv zeta. destruct (sk_preview_candles _) as [[|c l]|]; try apply keeps_raise.
  apply keeps_bind; [apply keeps_consult|]. intros t. repeat case_match; try apply keeps_raise.
  do 2 (apply keeps_bind; [apply keeps_consult|intros ?]). apply keeps_bind; [|intros ?; apply keeps_ret].
  apply engine_session. intros db r db' E. split; [by eapply StepIntradayStops|]. eapply run_rows; [intros rows|exact E]. apply triggers_rows.
Qed.

Lemma fill_keeps cycle_id : keeps (on_store J) (_job_next_open_fill_processing world config cycle_id).
Proof.
  apply keeps_bind; [apply keeps_gets|]. intros ctxs. do 3 (apply keeps_bind; [apply keeps_consult|intros ?]).
  apply (hoare_bind _ _ _ (fun ids s => on_store J s /\ forall id, uuid_text (id_order (ids id)))).
  { intros s Hs. split; [done|apply Hids]. }
  intros ids s [Hs Hu]. revert s Hs. apply keeps_bind; [|intros ?; apply keeps_ret].
  apply engine_session. intros db r db' E. split; [eapply StepOpen; [|exact E]; exact Hu|]. eapply run_rows; [intros rows|exact E]. apply batch_rows.
Qed.

Lemma handlers_keep name handler t cycle_id :
  handlers world config name = Some handler -> keeps (on_store J) (handler t cycle_id).
Proof.
  unfold handlers. destruct (List.find _ _) as [[]|]; intros [= <-].
  - apply keeps_bind; [apply keeps_ready|]. intros ready. apply keeps_bind; [apply keeps_gets|]. intros enabled.
    apply keeps_bind; [apply keeps_consult|]. intros pb. apply keeps_bind; [apply keeps_reads|]. intros ?. apply keeps_ret.
  - apply keeps_bind; [apply keeps_gets|]. intros ctx. apply evaluation_keeps.
  - apply fill_keeps.
  - apply stop_update_keeps.
  - apply stop_trigger_keeps.
  - apply intraday_keeps.
  - apply keeps_raise.
  - apply keeps_bind; [apply keeps_consult|]. intros id. apply keeps_bind; [|intros ?; apply keeps_ret].
    apply engine_writes. intros s [n b] s' H. split; [by eapply StepSnapshot|by eapply snapshot_runs].
  - apply keeps_bind; [apply keeps_consult|]. intros now. apply keeps_bind; [|intros ?; apply keeps_ret].
    apply engine_writes. intros s r s' H. split; [by eapply StepHeartbeat|by eapply heartbeat_runs].
Qed.
End Handlers.

(** ** Jobs *)

Lemma job_finishable j t s : finishable (job_value j) t s.
Proof. intros m He. by destruct j, m. Qed.

Lemma job_name_final j : is_recovery_name (job_value j) = false.
Proof. by destruct j. Qed.

Lemma engine_steps_write jobs s s' : engine_step s s' -> rtc (scheduler_write jobs) s s'.
Proof. intros H. by apply rtc_once, WriteEngine. Qed.

Section Jobs.
Context (world : World) (config : PaperTradingConfig) (Hids : uuid_ids world).
Context (s0 : PaperStore) (Hs0 : runs_inv s0).

Definition scheduled (s : PaperStore) : Prop := rtc (scheduler_write is_job) s0 s.

Lemma scheduled_inv s : scheduled s -> runs_inv s.
Proof. intros H. refine (rtc_closed _ runs_inv _ _ _ H Hs0). intros u v Hu Hw. by eapply scheduler_write_inv. Qed.

Lemma scheduled_engine s s' : scheduled s -> engine_step s s' -> scheduled s'.
Proof. intros H He. eapply rtc_r; [exact H|by apply WriteEngine]. Qed.

(** The run of the job is known to be open. *)
Definition may_run (job : string) (t : datetime) (s : PaperStore) : Prop := scheduled s /\ open_run job t s.

Lemma may_run_engine job t s s' : may_run job t s -> engine_step s s' -> may_run job t s'.
Proof. intros [H Ho] He. split; [by eapply scheduled_engine|]. eapply open_rows; [apply He|done]. Qed.

Definition recorded (job : string) (t : datetime) (o : JobRunOutcome) (s : PaperStore) : Prop :=
  scheduled s /\ (jo_status o = SR_COMPLETED -> completed job t s).

Lemma complete_run_spec j t st err :
  hoare (on_store (may_run (job_value j) t)) (_complete_run world (job_value j) t st err)
    (fun _ => on_store (fun s => scheduled s /\ (st = SR_COMPLETED -> completed (job_value j) t s)))
    (fun _ => on_store (may_run (job_value j) t)).
Proof.
  eapply hoare_bind; [apply keeps_consult|]. intros now s [Hs Ho]. unfold writes.
  destruct (complete_scheduler_run _ _ _ _ _ _) as [[r db]|e] eqn:E; [|done]. unfold on_store. rewrite store_put. split.
  - eapply rtc_r; [exact Hs|]. eapply WriteFinish; [by exists j|done|intros _; apply job_finishable|exact E].
  - intros ->. by eapply complete_completed.
Qed.

Lemma persisted_spec job t skipped err :
  hoare (on_store scheduled) (_persisted_job_outcome job t skipped err) (fun o => on_store (recorded job t o)) (fun _ _ => False).
Proof.
  intros s Hs. unfold _persisted_job_outcome, reads, mbind, sx_bind.
  destruct (unique_read (ss_store s) job t) as [o Ho]; [by apply scheduled_inv|]. cbn. rewrite Ho. cbn.
  apply read_run in Ho. destruct o as [r|]; cbn; split; try done. intros Hc. exists r. by destruct Ho as (? & ? & _).
Qed.

Lemma execute_spec j t cycle_id handler :
  (forall job t', keeps (on_store (may_run job t')) (handler t cycle_id)) ->
  hoare (on_store (may_run (job_value j) t)) (execute_handler world (job_value j) t cycle_id handler)
    (fun o => on_store (recorded (job_value j) t o)) (fun _ => on_store scheduled).
Proof.
  intros Hh. eapply (hoare_try _ _ _ _ _ (fun _ => on_store (may_run (job_value j) t))).
  - eapply hoare_bind; [apply Hh|]. intros []. eapply hoare_bind; [apply complete_run_spec|]. intros r.
    eapply hoare_mono; [apply persisted_spec|..]; [|done|done]. by intros s [Hs _].
  - intros e. eapply hoare_bind.
    + eapply hoare_mono; [apply complete_run_spec|..]; [done|done|]. by intros ? s [Hs _].
    + intros r. eapply hoare_mono; [apply persisted_spec|..]; [|done|done]. by intros s [Hs _].
Qed.

(** A run that was there is still open. *)
Definition started_run (job : string) (t : datetime) (x : SchedulerRun * bool) (s : PaperStore) : Prop :=
  may_run job t s /\ (x.2 = false -> sr_status x.1 <> SR_COMPLETED).

Lemma insert_run_spec j t run_id started :
  hoare (on_store (S := SchedulerState) (may_run (job_value j) t)) (writes (fun db => insert_run run_id (job_value j) t started db))
    (fun x => on_store (started_run (job_value j) t x)) (fun _ => on_store scheduled).
Proof.
  intros s [Hs Ho]. unfold writes. destruct (insert_run _ _ _ _ _) as [[[r b] db]|e] eqn:H; [|done].
  unfold on_store. rewrite store_put. split; [split|].
  - eapply rtc_r; [exact Hs|]. by eapply WriteStart.
  - apply insert_run_ok in H as [(_ & -> & _)|(_ & -> & _)]; [|by apply (open_rows _ _ (ss_store s))].
    intros (x & Hx & Hk & Hc). cbn in Hx. apply elem_of_app in Hx as [Hx| ->%list_elem_of_singleton]; [|done]. apply Ho. by exists x.
  - cbn. intros ->. apply insert_run_ok in H as [(? & _)|(_ & -> & Hr & Hk)]; [done|]. intros Hc. apply Ho. by exists r.
Qed.

Lemma start_spec j t cycle_id :
  hoare (on_store (may_run (job_value j) t)) (start_job world config (job_value j) t cycle_id)
    (fun o => on_store (recorded (job_value j) t o)) (fun _ => on_store scheduled).
Proof.
  eapply hoare_seq; [apply keeps_consult|by intros e s [Hs _]|]. intros started.
  eapply hoare_seq; [apply keeps_consult|by intros e s [Hs _]|]. intros run_id.
  eapply hoare_seq; [apply insert_run_spec|done|]. intros [run created].
  destruct (negb created && _) eqn:Ec.
  { apply andb_true_iff in Ec as [Hc%negb_true_iff Hs%bool_decide_eq_true]. intros s [_ Ho]. by destruct (Ho Hc). }
  apply (hoare_mono (on_store (may_run (job_value j) t)) _ _ (fun o => on_store (recorded (job_value j) t o)) _ (fun _ => on_store scheduled));
    [|by intros s [Hs _]|done|done].
  destruct (handlers _ _ _) as [handler|] eqn:Eh.
  - apply execute_spec. intros job t'. eapply handlers_keep; [|done..]. intros s s'. apply may_run_engine.
  - eapply hoare_seq; [apply complete_run_spec|by intros e s [Hs _]|]. intros r s [Hs _]. by split.
Qed.

Lemma run_spec j t cycle_id :
  hoare (on_store scheduled) (_run_job world config (job_value j) t cycle_id)
    (fun o => on_store (recorded (job_value j) t o)) (fun _ => on_store scheduled).
Proof.
  eapply hoare_bind; [apply keeps_gets|]. intros enabled. destruct (_ && _).
  { intros s Hs. split; [done|]. by intros. }
  eapply hoare_bind; [by apply hoare_reads|]. intros existing.
  assert (Hread : forall s : SchedulerState, on_store scheduled s /\ get_scheduler_run (store_of s) (job_value j) t = Ok existing ->
    scheduled (ss_store s) /\ match existing with
      | Some r => r ∈ db_scheduler_runs (ss_store s) /\ run_key r = (job_value j, t) /\ (sr_status r <> SR_COMPLETED -> open_run (job_value j) t (ss_store s))
      | None => open_run (job_value j) t (ss_store s) end) by (intros s [Hs H%read_run]; done).
  destruct existing as [r|]; cbn; [destruct (sr_status r) eqn:Est|];
    try (eapply hoare_mono; [apply start_spec| |done|done]; intros s Hs; apply Hread in Hs as [Hs Hr]; split; [exact Hs|]).
  all: try by apply Hr.
  all: try (intros s Hs; apply Hread in Hs as [Hs (Hr & Hk & _)]; split; [exact Hs|]; intros _; by exists r).
  intros s Hs. apply Hread in Hs as [Hs _]. split; [exact Hs|done].
Qed.
(** *** Jobs and sequences are scheduler writes, also when they raise *)

Lemma run_job_spec b j t cycle_id :
  hoare (on_store scheduled) (run_job world config b (job_value j) t cycle_id)
    (fun o => on_store (recorded (job_value j) t o)) (fun _ => on_store scheduled).
Proof.
  unfold run_job. destruct b; [apply run_spec|]. intros s Hs. pose proof (run_spec j t cycle_id s Hs) as H. unfold transaction.
  destruct (_run_job _ _ _ _ _ s) as [[o|e] s']; [done|]. unfold on_store. by rewrite store_put.
Qed.

Lemma run_job_writes b j t cycle_id : keeps (on_store scheduled) (run_job world config b (job_value j) t cycle_id).
Proof. eapply hoare_mono; [apply run_job_spec|done| |done]. by intros o s [Hs _]. Qed.

Lemma run_jobs_writes b jobs t cycle_id : keeps (on_store scheduled) (run_jobs world config b jobs t cycle_id).
Proof.
  apply keeps_fold. intros outcomes j. apply keeps_bind; [apply run_job_writes|]. intros o. apply keeps_ret.
Qed.

Lemma under_lock_writes first t body :
  keeps (on_store scheduled) body -> keeps (on_store scheduled) (under_lock world first t body).
Proof.
  intros Hb. apply keeps_bind; [apply keeps_gets|]. intros held. apply keeps_bind.
  - apply keeps_bind; [apply keeps_gets|]. intros h. destruct h; [apply keeps_ret|].
    apply keeps_bind; [apply keeps_consult|]. intros granted. apply keeps_bind; [by apply keeps_state|]. intros ?. apply keeps_ret.
  - intros acquired. destruct (negb acquired); [apply keeps_ret|]. apply keeps_finally; [done|]. by destruct held.
Qed.

Lemma open_subsequence_writes b t cycle_id j : keeps (on_store scheduled) (_run_open_subsequence world config b t cycle_id j).
Proof. apply under_lock_writes, run_jobs_writes. Qed.

Lemma open_sequence_writes b t cycle_id : keeps (on_store scheduled) (run_daily_open_sequence world config b t cycle_id).
Proof.
  apply keeps_bind; [apply open_subsequence_writes|]. intros gap. apply keeps_bind; [apply keeps_consult|]. intros now.
  destruct (_ <? _)%Z; [apply keeps_ret|]. apply keeps_bind; [apply open_subsequence_writes|]. intros fill.
  apply keeps_bind; [apply open_subsequence_writes|]. intros snap. apply keeps_ret.
Qed.

Lemma close_sequence_writes b t cycle_id : keeps (on_store scheduled) (run_daily_close_sequence world config b t cycle_id).
Proof.
  apply under_lock_writes. apply keeps_bind; [apply keeps_consult|]. intros now.
  destruct (_ <? _)%Z; [apply keeps_ret|]. apply run_jobs_writes.
Qed.
End Jobs.

(** ** What a job leaves behind *)

Lemma unique_row s job t r :
  unique_runs s -> r ∈ db_scheduler_runs s -> run_key r = (job, t) -> List.filter (is_run job t) (db_scheduler_runs s) = [r].
Proof.
  intros Hu Hr Hk. destruct (unique_read s job t Hu) as [[x|] Ho].
  - pose proof (read_run _ _ _ _ Ho) as (Hx & Hkx & _). apply find_run_found in Ho. rewrite Ho. f_equal.
    eapply (key_row run_key); [exact Hu|done..|congruence].
  - unfold get_scheduler_run in Ho. assert (Hin : r ∈ List.filter (is_run job t) (db_scheduler_runs s)) by (by apply elem_of_list_filter; rewrite is_run_key).
    destruct (List.filter _ _) as [|? [|]]; [by apply elem_of_nil in Hin|done..].
Qed.

Lemma filter_updated job t f rows :
  (forall r, run_key (f r) = run_key r) ->
  List.filter (is_run job t) (update_where (is_run job t) f rows) = f <$> List.filter (is_run job t) rows.
Proof.
  intros Hf. assert (Hk : forall r, is_run job t (f r) = is_run job t r).
  { intros r. apply eq_bool_prop_intro. rewrite !Is_true_true, !is_run_key. by rewrite Hf. }
  unfold update_where. induction rows as [|r rows IH]; cbn; [done|]. destruct (is_run job t r) eqn:E; cbn; rewrite ?Hk, E; cbn; [by f_equal|done].
Qed.

(** A run that is there can be ended, and is then found as it was ended. *)
Lemma complete_returns s job t r st now err :
  unique_runs s -> r ∈ db_scheduler_runs s -> run_key r = (job, t) ->
  exists s', complete_scheduler_run s job t st now err = Ok (run_completed st now err r, s') /\
    s' = with_runs s (update_where (is_run job t) (run_completed st now err) (db_scheduler_runs s)) /\
    get_scheduler_run s' job t = Ok (Some (run_completed st now err r)).
Proof.
  intros Hu Hr Hk. pose proof (unique_row s job t r Hu Hr Hk) as Hone.
  pose proof (filter_updated job t (run_completed st now err) (db_scheduler_runs s) (fun _ => eq_refl)) as Hf. rewrite Hone in Hf.
  eexists. split_and!; [|reflexivity|].
  - unfold complete_scheduler_run. by rewrite Hf.
  - unfold get_scheduler_run. cbn. by rewrite Hf.
Qed.

Definition job_status {A} (out : result A) : SchedulerRunStatus := match out with Done _ => SR_COMPLETED | Failed _ => SR_FAILED end.

Definition job_error {A} (world : World) (out : result A) : option string :=
  match out with Done _ => None | Failed e => Some (str_exn world e) end.

(** The state in which the handler of a fresh run starts. *)
Definition started_state (db : PaperStore) (s : SchedulerState) : SchedulerState :=
  with_ss_store db (with_consultation (with_consultation s)).

(** A job is recorded as it went: a job whose run is neither completed nor
    running starts its run and calls its handler once; when the handler
    returns the run is completed, when it raises the run has failed with the
    exception's text, and the outcome says the same.  Everything else in the
    database is as the handler left it, which may be halfway. *)
Theorem run_job_records world config in_transaction j t cycle_id s handler old run created db out s2 :
  uuid_ids world -> runs_inv (ss_store s) -> ss_jobs_enabled s = true ->
  handlers world config (job_value j) = Some handler ->
  get_scheduler_run (ss_store s) (job_value j) t = Ok old ->
  (forall r, old = Some r -> sr_status r <> SR_COMPLETED /\ sr_status r <> SR_RUNNING) ->
  insert_run (wo_uuid world (S (ss_consultations s))) (job_value j) t (wo_now world (ss_consultations s)) (ss_store s)
    = Ok (run, created, db) ->
  handler t cycle_id (started_state db s) = (out, s2) ->
  exists run' s3,
    run_job world config in_transaction (job_value j) t cycle_id s =
      (Done {| jo_job_name := job_value j; jo_scheduled_for := t; jo_status := job_status out; jo_skipped := false;
               jo_error := job_error world out |}, s3) /\
    get_scheduler_run (ss_store s3) (job_value j) t = Ok (Some run') /\
    run' = run_completed (job_status out) (wo_now world (ss_consultations s2)) (job_error world out) run /\
    ss_store s3 = with_runs (ss_store s2)
      (update_where (is_run (job_value j) t) (fun _ => run') (db_scheduler_runs db)).
Proof.
  intros Hids Hi Hen Hh Hold Hopen Hins Hrun.
  assert (Hw : scheduler_write is_job (ss_store s) db) by (by eapply WriteStart).
  pose proof (scheduler_write_inv _ _ _ Hw Hi) as Hdb.
  assert (Hrow : run ∈ db_scheduler_runs db /\ run_key run = (job_value j, t) /\ (created = false -> sr_status run <> SR_COMPLETED)).
  { pose proof (insert_run_row _ _ _ _ _ _ _ _ Hins) as [Hr Hk]. split_and!; [done..|]. intros ->.
    apply insert_run_ok in Hins as [(? & _)|(_ & -> & Hr' & _)]; [done|]. apply read_run in Hold. destruct old as [r|].
    - destruct Hold as (Hr0 & Hk0 & _). assert (run = r) as -> by (eapply (key_row run_key); [apply Hi|done..|congruence]).
      by apply Hopen.
    - intros Hc. apply Hold. by exists run. }
  destruct Hrow as (Hr & Hk & Hns).
  assert (Hrows : with_rows (db_scheduler_runs db) (ss_store s2)).
  { refine (keeps_run (on_store (with_rows (db_scheduler_runs db))) _ _ _ _ _ _ Hrun); [|done].
    eapply handlers_keep; [|done..]. intros x y Hx [_ Hy]. unfold with_rows in *. by rewrite Hy. }
  unfold with_rows in Hrows.
  destruct (complete_returns (ss_store s2) (job_value j) t run (job_status out) (wo_now world (ss_consultations s2)) (job_error world out))
    as (db3 & Hc & Hdb3 & Hget); [unfold unique_runs; rewrite Hrows; apply Hdb|by rewrite Hrows|done|].
  set (outcome := {| jo_job_name := job_value j; jo_scheduled_for := t; jo_status := job_status out; jo_skipped := false;
                     jo_error := job_error world out |}).
  exists (run_completed (job_status out) (wo_now world (ss_consultations s2)) (job_error world out) run), (with_ss_store db3 (with_consultation s2)).
  assert (Hcomplete : forall s', ss_store s' = ss_store s2 -> ss_consultations s' = ss_consultations s2 ->
    _complete_run world (job_value j) t (job_status out) (job_error world out) s' = (Done (run_completed (job_status out) (wo_now world (ss_consultations s2)) (job_error world out) run), with_ss_store db3 (with_consultation s'))).
  { intros s' Hs1 Hs2. unfold _complete_run, mbind, sx_bind, now, consult, writes. cbn. by rewrite Hs1, Hs2, Hc. }
  assert (Hstart : start_job world config (job_value j) t cycle_id s = (Done outcome, with_ss_store db3 (with_consultation s2))).
  { unfold start_job, mbind, sx_bind, now, consult, writes. cbn -[insert_run handlers job_value execute_handler]. rewrite Hins.
    cbn -[handlers job_value execute_handler].
    assert (Hb : negb created && bool_decide (sr_status run = SR_COMPLETED) = false).
    { destruct created; [done|]. by apply bool_decide_eq_false, Hns. }
    rewrite Hb, Hh. unfold execute_handler, try_except, _persisted_job_outcome, reads, mbind, sx_bind.
    change (with_ss_store db (with_consultation (with_consultation s))) with (started_state db s). rewrite Hrun.
    pose proof (Hcomplete s2 eq_refl eq_refl) as Hcs. clear Hcomplete Hrun.
    destruct out as [u|e]; cbn in Hcs, Hget; rewrite Hcs; cbn; rewrite Hget; done. }
  split_and!; [|done|done|].
  - assert (Hr' : _run_job world config (job_value j) t cycle_id s = (Done outcome, with_ss_store db3 (with_consultation s2))).
    { unfold _run_job, reads, gets, mbind, sx_bind. rewrite Hen. cbn -[start_job]. rewrite Hold. cbn -[start_job].
      destruct old as [r|]; [|exact Hstart]. destruct (Hopen r eq_refl) as [H1 H2]. cbn -[start_job]. by destruct (sr_status r). }
    unfold run_job, transaction. destruct in_transaction; by rewrite Hr'.
  - cbn. rewrite Hdb3, Hrows. f_equal. unfold update_where. apply list_fmap_ext. intros i x Hx.
    destruct (is_run (job_value j) t x) eqn:E; [|done]. f_equal. apply is_run_key in E. eapply (key_row run_key); [apply Hdb|..|done|congruence].
    by eapply list_elem_of_lookup_2.
Qed.

(** [C31] A job runs once: after a run that was completed, the same job for the
    same time does nothing any more, in any later state that the scheduler and
    the bridge lead to: it reports the completed run, or that it is disabled,
    and leaves the state alone. *)
Theorem job_runs_once world config in_transaction j t cycle_id s o s1 config' in_transaction' cycle_id' s2 :
  uuid_ids world -> runs_inv (ss_store s) ->
  run_job world config in_transaction (job_value j) t cycle_id s = (Done o, s1) -> jo_status o = SR_COMPLETED ->
  rtc (bridge_write (fun _ => True)) (ss_store s1) (ss_store s2) ->
  exists o', run_job world config' in_transaction' (job_value j) t cycle_id' s2 = (Done o', s2) /\ jo_skipped o' = true.
Proof.
  intros Hids Hi H Ho Hw. pose proof (run_job_spec world config Hids (ss_store s) Hi in_transaction j t cycle_id s (rtc_refl _ _)) as Hp.
  rewrite H in Hp. destruct Hp as [Hs1 Hc]. specialize (Hc Ho). pose proof (scheduled_inv _ Hi _ Hs1) as Hi1.
  pose proof (kept_completed _ _ _ _ (writes_kept _ _ _ Hw) (job_name_final j) Hc) as (r & Hr & Hk & Hst).
  pose proof (writes_inv _ _ _ Hi1 Hw) as Hi2.
  assert (Hget : get_scheduler_run (ss_store s2) (job_value j) t = Ok (Some r)).
  { unfold get_scheduler_run. by rewrite (unique_row _ _ _ r (ri_unique _ Hi2) Hr Hk). }
  unfold run_job, transaction, _run_job, reads, gets, mbind, sx_bind. destruct in_transaction'; cbn -[start_job];
    (destruct (negb _ && _); [by eexists|]; rewrite Hget; cbn -[start_job]; rewrite Hst; by eexists).
Qed.

(** ** Jobs are shared by the symbols *)

Lemma completed_read s job t :
  runs_inv s -> completed job t s -> exists r, get_scheduler_run s job t = Ok (Some r) /\ sr_status r = SR_COMPLETED.
Proof.
  intros Hi (r & Hr & Hk & Hs). exists r. split; [|done]. unfold get_scheduler_run. by rewrite (unique_row _ _ _ r (ri_unique _ Hi) Hr Hk).
Qed.

(** A job of a completed run looks at no context. *)
Lemma completed_job_skips world config b job t cycle_id s :
  runs_inv (ss_store s) -> ss_jobs_enabled s = true -> completed job t (ss_store s) ->
  run_job world config b job t cycle_id s = (Done (already_completed job t), s).
Proof.
  intros Hi Hen Hc. destruct (completed_read _ _ _ Hi Hc) as (r & Hget & Hst).
  unfold run_job, transaction, _run_job, reads, gets, mbind, sx_bind. destruct b; rewrite Hen; cbn -[start_job]; rewrite Hget; cbn -[start_job]; by rewrite Hst.
Qed.

Lemma completed_jobs_skip world config b jobs t cycle_id s :
  runs_inv (ss_store s) -> ss_jobs_enabled s = true -> (forall j, j ∈ jobs -> completed (job_value j) t (ss_store s)) ->
  run_jobs world config b jobs t cycle_id s = (Done ((fun j => already_completed (job_value j) t) <$> jobs), s).
Proof.
  intros Hi Hen Hc. unfold run_jobs.
  enough (H : forall outcomes, foldS (fun outcomes job => o ← run_job world config b (job_value job) t cycle_id; mret (outcomes ++ [o])) jobs outcomes s
    = (Done (outcomes ++ ((fun j => already_completed (job_value j) t) <$> jobs)), s)) by apply (H []).
  induction jobs as [|j jobs IH]; intros outcomes; cbn; [by rewrite app_nil_r|].
  unfold mbind, sx_bind. unfold mbind, sx_bind in IH. rewrite completed_job_skips by (done || (apply Hc; by left)). cbn.
  rewrite IH by (intros; apply Hc; by right). by rewrite <- app_assoc.
Qed.

Definition close_jobs : list SchedulerJobName := [DAILY_SIGNAL_EVALUATION; DAILY_STOP_UPDATE; PORTFOLIO_SNAPSHOT].

(** The close of a day is evaluated for one symbol: the runs of its jobs
    are keyed by the close time and not by the symbol, so once they are
    completed the sequence of the next symbol, whatever evaluation and stop
    contexts were registered for it, reads none of them, writes nothing, and
    still reports success to the event it was run for. *)
Theorem close_sequence_once world config in_transaction t cycle_id evaluation stops s :
  runs_inv (ss_store s) -> ss_jobs_enabled s = true -> ss_lock_held s = true ->
  (t + seconds (pc_evaluation_delay_seconds config) <= wo_now world (ss_consultations s))%Z ->
  (forall j, j ∈ close_jobs -> completed (job_value j) t (ss_store s)) ->
  exists outcomes s',
    run_daily_close_sequence world config in_transaction t cycle_id
      (register_stop_context stops (register_evaluation_context evaluation s)) = (Done outcomes, s') /\
    require_successful_jobs outcomes = Done tt /\ ss_store s' = ss_store s.
Proof.
  intros Hi Hen Hl Hdue Hc. set (s1 := register_stop_context stops (register_evaluation_context evaluation s)).
  exists ((fun j => already_completed (job_value j) t) <$> close_jobs), (with_consultation s1). split_and!; [|done|done].
  unfold run_daily_close_sequence, under_lock, try_acquire, try_finally, gets, now, consult, mbind, sx_bind. cbn -[run_jobs seconds].
  rewrite Hl. cbn -[run_jobs seconds]. rewrite (proj2 (Z.ltb_ge _ _)) by done.
  fold close_jobs. by rewrite (completed_jobs_skip world config in_transaction close_jobs t cycle_id (with_consultation s1)).
Qed.

(** ** An example: snapshots of the example database *)

Definition example_entry_ids : EntryIds :=
  {| id_order := "11111111-2222-4333-8444-555555555555"; id_fill := "f1"; id_position := "p1" |}.

Definition example_world : World :=
  {| wo_now n := (seconds 10 + Z.of_nat n)%Z; wo_uuid n := String.append "run-" (decimal_text 10 (Z.of_nat n));
     wo_market_data_ready _ := Some true; wo_intent_market_data_ready _ _ := Some true; wo_entry_ids _ _ := example_entry_ids;
     wo_stop_ids _ _ := {| id_stop_event := "v1"; id_exit_fill := "x1"; id_snapshot := "n1" |};
     wo_lock_granted _ := true; wo_probe _ := example_probe; wo_session_healthy _ := true; wo_commit _ := true;
     wo_low_digest _ := "digest"; wo_describe _ := "error"; wo_dump_regime _ := []; wo_dump_setup _ := JNull;
     wo_dump_signal _ := JNull; wo_input_hash _ := "hash" |}.

Definition example_scheduler (db : PaperStore) : SchedulerState :=
  {| ss_store := db; ss_jobs_enabled := true; ss_lock_held := true; ss_pending_evaluation := None;
     ss_pending_fill_contexts := None; ss_pending_stop_context := None; ss_consultations := 0 |}.

Lemma example_uuids : uuid_ids example_world.
Proof. intros n id. split; vm_compute; reflexivity. Qed.

Lemma no_runs_inv s : db_scheduler_runs s = [] -> runs_inv s.
Proof.
  intros H. split.
  - unfold unique_runs. rewrite H. apply NoDup_nil_2.
  - rewrite H. by intros r ?%elem_of_nil.
  - intros m t (r & Hr & _). rewrite H in Hr. by apply elem_of_nil in Hr.
Qed.

Definition example_scheduled : SchedulerState :=
  (run_job example_world example_trading_config true (job_value PORTFOLIO_SNAPSHOT) 0 None (example_scheduler example_store)).2.

(** A job that fails: funding is not implemented. *)
Lemma run_job_records_witness :
  let s := example_scheduler example_store in
  exists run' s3,
    run_job example_world example_trading_config true (job_value FUNDING_PROCESSING) 0 None s =
      (Done {| jo_job_name := job_value FUNDING_PROCESSING; jo_scheduled_for := 0; jo_status := SR_FAILED; jo_skipped := false;
               jo_error := Some "funding processing is not implemented in paper trading V1" |}, s3) /\
    get_scheduler_run (ss_store s3) (job_value FUNDING_PROCESSING) 0 = Ok (Some run') /\ sr_status run' = SR_FAILED.
Proof.
  intros s.
  pose proof (run_job_records example_world example_trading_config true FUNDING_PROCESSING 0 None s
    (fun _ _ => _job_funding_processing) None
    (new_run "run-1" (job_value FUNDING_PROCESSING) 0 (seconds 10)) true
    (with_runs example_store [new_run "run-1" (job_value FUNDING_PROCESSING) 0 (seconds 10)])
    (Failed (Base (RuntimeError "funding processing is not implemented in paper trading V1")))
    (started_state (with_runs example_store [new_run "run-1" (job_value FUNDING_PROCESSING) 0 (seconds 10)]) s)) as H.
  destruct H as (run' & s3 & H1 & H2 & H3 & _); [apply example_uuids|by apply no_runs_inv|done|done|done|done|vm_compute; reflexivity|done|].
  exists run', s3. split; [exact H1|]. split; [exact H2|]. rewrite H3. done.
Defined.

Definition example_completed : JobRunOutcome :=
  {| jo_job_name := job_value PORTFOLIO_SNAPSHOT; jo_scheduled_for := 0; jo_status := SR_COMPLETED; jo_skipped := false; jo_error := None |}.

Lemma job_runs_once_witness :
  run_job example_world example_trading_config true (job_value PORTFOLIO_SNAPSHOT) 0 None (example_scheduler example_store) =
    (Done example_completed, example_scheduled) /\
  exists o', run_job example_world example_trading_config true (job_value PORTFOLIO_SNAPSHOT) 0 None example_scheduled =
    (Done o', example_scheduled) /\ jo_skipped o' = true.
Proof.
  assert (H : run_job example_world example_trading_config true (job_value PORTFOLIO_SNAPSHOT) 0 None (example_scheduler example_store) =
    (Done example_completed, example_scheduled)) by (vm_compute; reflexivity).
  split; [exact H|].
  eapply (job_runs_once example_world example_trading_config true PORTFOLIO_SNAPSHOT 0 None (example_scheduler example_store)
    example_completed example_scheduled example_trading_config true None example_scheduled).
  - apply example_uuids.
  - by apply no_runs_inv.
  - exact H.
  - done.
  - apply rtc_refl.
Defined.

(** A close that was evaluated for BTC. *)
Definition example_evaluated : SchedulerState :=
  example_scheduler (with_runs example_store
    ((fun j => run_completed SR_COMPLETED 0 None (new_run (job_value j) (job_value j) 0 0)) <$> close_jobs)).

Lemma close_sequence_once_witness :
  exists outcomes s',
    run_daily_close_sequence example_world example_trading_config true 0 None
      (register_stop_context no_stop_context (register_evaluation_context [] example_evaluated)) = (Done outcomes, s') /\
    require_successful_jobs outcomes = Done tt /\ ss_store s' = ss_store example_evaluated.
Proof.
  assert (Hj : forall j, j ∈ close_jobs -> completed (job_value j) 0 (ss_store example_evaluated)).
  { intros j Hj. exists (run_completed SR_COMPLETED 0 None (new_run (job_value j) (job_value j) 0 0)). split_and!; [|done|done].
    cbn [ss_store example_evaluated example_scheduler db_scheduler_runs with_runs].
    exact (list_elem_of_fmap_2 (fun j => run_completed SR_COMPLETED 0 None (new_run (job_value j) (job_value j) 0 0)) close_jobs j Hj). }
  apply close_sequence_once; [|done|done|vm_compute; discriminate|exact Hj]. split.
  - unfold unique_runs. cbn. repeat (apply NoDup_cons; split; [set_solver|]). apply NoDup_nil_2.
  - cbn. intros r Hr [x Hx]. repeat (apply elem_of_cons in Hr as [->|Hr]; [done|]). by apply elem_of_nil in Hr.
  - intros m t (r & Hr & Hk & _). cbn in Hr. repeat (apply elem_of_cons in Hr as [->|Hr]; [by destruct m|]). by apply elem_of_nil in Hr.
Defined.
