(* ===== verification/PaperBridgeSafety.v ===== *)
(** * The bridge keeps its records (services/paper_trading/market_events.py)

    Every operation of the bridge, also when it raises, only makes the writes
    of PaperRuns; completed runs stay, and what a poll acknowledges is
    completed in the database. *)
From Stdlib Require Import ZArith QArith Lia Strings.String.
From stdpp Require Import base list gmap sets strings relations.
From S2P Require Import Prelude Decimal StrategyModels BtModels BtData EventFairness MarketModels MarketRepository.
From S2P Require Import PaperModels PaperSession Transitions PaperRuntime PaperRepository PaperScheduler PaperContext PaperEvents.
From S2P Require Import PaperBridge PaperLedger PaperReconcile PaperFrame PaperRuns PaperSchedule.

Local Open Scope string_scope.

(** ** Predicates of the bridge *)

(** The recovery contexts in memory name recovery attempts. *)
Definition pending_named (b : BridgeState) : Prop :=
  Forall (fun kv => is_recovery_name (rx_recovery_job_name kv.2) = true) (br_recovery_pending b).

Definition bst (P : PaperStore -> Prop) (b : BridgeState) : Prop := P (store_of b) /\ pending_named b.

(** A predicate that survives the writes that end the given jobs only. *)
Record stable (jobs : string -> Prop) (P : PaperStore -> Prop) : Prop := {
  stable_inv s : P s -> runs_inv s;
  stable_write s s' : P s -> bridge_write jobs s s' -> P s';
}.

Definition any_job (_ : string) : Prop := True.

Lemma stable_sub (jobs jobs' : string -> Prop) P : (forall job, jobs' job -> jobs job) -> stable jobs P -> stable jobs' P.
Proof.
  intros Hj [Hi Hw]. split; [done|]. intros s s' Hs H. apply (Hw s s' Hs).
  destruct H; [apply WriteRun; by eapply scheduler_write_mono|..]; by econstructor.
Qed.

Lemma stable_any jobs P : stable any_job P -> stable jobs P.
Proof. by apply stable_sub. Qed.

Lemma stable_open jobs P job t :
  stable jobs P -> ~ jobs job -> is_recovery_name job = false -> stable jobs (fun s => P s /\ open_run job t s).
Proof.
  intros [Hi Hw] Hj Hn. split; [by intros s [Hs _]; apply Hi|]. intros s s' [Hs Ho] H. split; [by eapply Hw|]. by eapply bridge_write_open.
Qed.

Lemma stable_kept jobs P (Q : PaperStore -> Prop) :
  stable jobs P -> (forall s s', kept s s' -> Q s -> Q s') -> stable jobs (fun s => P s /\ Q s).
Proof.
  intros [Hi Hw] HQ. split; [by intros s [Hs _]; apply Hi|]. intros s s' [Hs Hq] H. split; [by eapply Hw|].
  eapply HQ; [by eapply bridge_write_kept|done].
Qed.

Lemma stable_runs jobs : stable jobs runs_inv.
Proof. split; [done|]. intros s s' Hs H. by eapply bridge_write_inv. Qed.

(** What the writes since a database lead to. *)
Lemma stable_since jobs s0 : runs_inv s0 -> stable jobs (fun s => rtc (bridge_write jobs) s0 s).
Proof.
  intros H0. split; [intros s Hs; by eapply writes_inv|]. intros s s' Hs H. by eapply rtc_r.
Qed.

Lemma stable_scheduled P s s' : stable is_job P -> P s -> rtc (scheduler_write is_job) s s' -> P s'.
Proof. intros [_ Hw] Hs H. refine (rtc_closed _ P _ _ _ H Hs). intros u v Hu Huv. eapply Hw; [done|by apply WriteRun]. Qed.

(** An operation whose writes, with and without an exception, end the given
    jobs only. *)
Definition respects {A} (jobs : string -> Prop) (m : bridge A) : Prop :=
  forall P, stable jobs P -> keeps (bst P) m.

(** ** Rules *)

Lemma bst_mono (P Q : PaperStore -> Prop) b : (forall s, P s -> Q s) -> bst P b -> bst Q b.
Proof. intros H [Hp Hn]. by split; [apply H|]. Qed.

Lemma hoare_scheduler {A} P (m : sched A) (Q : A -> PaperStore -> Prop) (E : error -> PaperStore -> Prop) :
  hoare (on_store P) m (fun a => on_store (Q a)) (fun e => on_store (E e)) ->
  hoare (bst P) (in_scheduler m) (fun a => bst (Q a)) (fun e => bst (E e)).
Proof.
  intros Hm b [Hp Hn]. specialize (Hm (br_scheduler b) Hp). unfold in_scheduler. destruct (m (br_scheduler b)) as [[a|e] ss]; by split.
Qed.

Lemma scheduler_keeps {A} P (m : sched A) : keeps (on_store P) m -> keeps (bst P) (in_scheduler m).
Proof. intros Hm. by apply (hoare_scheduler P m (fun _ => P) (fun _ => P)). Qed.

(** What a scheduler operation does to the records it may do here. *)
Lemma scheduler_respects {A} (m : sched A) :
  (forall s0, runs_inv s0 -> keeps (on_store (scheduled s0)) m) -> respects is_job (in_scheduler m).
Proof.
  intros Hm P HP. apply scheduler_keeps. intros s Hs. assert (Hi : runs_inv (ss_store s)) by (by eapply stable_inv).
  pose proof (Hm (ss_store s) Hi s (rtc_refl _ _)) as H. destruct (m s) as [[a|e] s']; exact (stable_scheduled P _ _ HP Hs H).
Qed.

Lemma respects_sub {A} (jobs jobs' : string -> Prop) (m : bridge A) :
  (forall job, jobs' job -> jobs job) -> respects jobs' m -> respects jobs m.
Proof. intros Hj Hm P HP. apply Hm. by eapply stable_sub. Qed.

Lemma hoare_writes {A} (f : PaperStore -> res (A * PaperStore)) P (Q : A -> PaperStore -> Prop) :
  (forall s a s', P s -> f s = Ok (a, s') -> Q a s') -> hoare (bst P) (writes f) (fun a => bst (Q a)) (fun _ => bst P).
Proof.
  intros Hf b [Hp Hn]. unfold writes. destruct (f (store_of b)) as [[a s']|e] eqn:E; [|done]. split; [|done].
  rewrite store_put. by eapply Hf.
Qed.

Lemma bst_state P f : (forall b, store_of (f b) = store_of b /\ br_recovery_pending (f b) = br_recovery_pending b) -> keeps (bst P) (modify f).
Proof. intros Hf. apply keeps_modify. intros b [Hp Hn]. destruct (Hf b) as [Hs Hr]. unfold bst, pending_named. by rewrite Hs, Hr. Qed.

Lemma bst_clock P world : keeps (bst P) (clock_now world).
Proof. apply scheduler_keeps, keeps_consult. Qed.

Lemma bst_consult {A} P (f : nat -> A) : keeps (bst P) (in_scheduler (consult f)).
Proof. apply scheduler_keeps, keeps_consult. Qed.

(** A pure step that can only raise. *)
Lemma hoare_result {A B} (m : result A) (k : A -> bridge B) P Q E :
  (forall e b, m = Failed e -> P b -> E e b) -> (forall a, m = Done a -> hoare P (k a) Q E) -> hoare P (from_result m ≫= k) Q E.
Proof. intros He Hk b Hb. unfold mbind, sx_bind, from_result. destruct m as [a|e]; [by apply (Hk a)|by apply He]. Qed.

(** ** Runs *)

Definition found (job : string) (t : datetime) (o : option SchedulerRun) (s : PaperStore) : Prop :=
  match o with
  | Some r => r ∈ db_scheduler_runs s /\ run_key r = (job, t) /\ (sr_status r <> SR_COMPLETED -> open_run job t s)
  | None => open_run job t s
  end.

Lemma found_open job t o s : found job t o s -> is_completed_run o = false -> open_run job t s.
Proof. destruct o as [r|]; [|done]. intros (_ & _ & H) Hc. apply H. by apply bool_decide_eq_false in Hc. Qed.

Lemma found_completed job t o s : found job t o s -> is_completed_run o = true -> completed job t s.
Proof. destruct o as [r|]; [|done]. intros (Hr & Hk & _) Hc. exists r. by apply bool_decide_eq_true in Hc. Qed.

Lemma find_run_spec P job t :
  (forall s, P s -> runs_inv s) ->
  hoare (bst P) (find_run job t) (fun o => bst (fun s => P s /\ found job t o s)) (fun _ _ => False).
Proof.
  intros Hi b [Hp Hn]. unfold find_run, reads. destruct (unique_read (store_of b) job t) as [o Ho]; [by apply Hi|].
  rewrite Ho. cbn. split; [|done]. split; [done|]. apply read_run in Ho. by destruct o.
Qed.

(** Reading a run for an operation that keeps what it can. *)
Lemma keeps_find {A} jobs P job t (k : option SchedulerRun -> bridge A) :
  stable jobs P -> (forall o, hoare (bst (fun s => P s /\ found job t o s)) (k o) (fun _ => bst P) (fun _ => bst P)) ->
  keeps (bst P) (find_run job t ≫= k).
Proof. intros [Hi _] Hk. by eapply hoare_seq; [by apply find_run_spec| |]. Qed.

Lemma not_completed {A} P job t o (k : bridge A) Q E :
  is_completed_run o = false -> hoare (bst (fun s => P s /\ open_run job t s)) k Q E ->
  hoare (bst (fun s => P s /\ found job t o s)) k Q E.
Proof.
  intros Hc Hk. eapply hoare_mono; [exact Hk|..]; [|done..]. intros b. apply bst_mono. intros s [Hs Hf]. split; [done|by eapply found_open].
Qed.

Lemma ensure_spec world jobs P job t : stable jobs P ->
  hoare (bst P) (_ensure_scheduler_run world job t)
    (fun x => bst (fun s => P s /\ (x.2 = false -> x.1 ∈ db_scheduler_runs s /\ run_key x.1 = (job, t)))) (fun _ => bst P).
Proof.
  intros [_ Hw]. eapply hoare_bind; [apply bst_clock|]. intros started. eapply hoare_bind; [apply bst_consult|]. intros run_id.
  apply hoare_writes. intros s [r b] s' Hs H. split; [eapply Hw; [exact Hs|]; by eapply WriteRun, WriteStart|].
  cbn. intros ->. by apply insert_run_ok in H as [(? & _)|(_ & -> & ? & ?)].
Qed.

(** What was found is not needed. *)
Lemma keeps_forget {A} P (F : PaperStore -> Prop) (k : bridge A) :
  keeps (bst P) k -> hoare (bst (fun s => P s /\ F s)) k (fun _ => bst P) (fun _ => bst P).
Proof. intros Hk. eapply hoare_mono; [exact Hk|..]; [|done..]. intros b. apply bst_mono. by intros s [Hs _]. Qed.

Lemma keeps_ensure {A} world jobs P job t (k : bridge A) :
  stable jobs P -> keeps (bst P) k -> keeps (bst P) (_ ← _ensure_scheduler_run world job t; k).
Proof.
  intros HP Hk. eapply hoare_bind; [by eapply ensure_spec|]. intros x. by apply keeps_forget.
Qed.

Lemma complete_spec world (jobs : string -> Prop) P job t st err :
  stable jobs P -> jobs job -> (forall s, P s -> st = SR_COMPLETED -> finishable job t s) ->
  hoare (bst (fun s => P s /\ open_run job t s)) (_complete_market_event world job t st err)
    (fun _ => bst (fun s => P s /\ (st = SR_COMPLETED -> completed job t s)))
    (fun _ => bst (fun s => P s /\ open_run job t s)).
Proof.
  intros [Hi Hw] Hj Hf. eapply hoare_bind; [apply bst_clock|]. intros now.
  eapply hoare_bind; [|intros r b Hb; exact Hb]. apply (hoare_writes _ _ (fun _ s => P s /\ (st = SR_COMPLETED -> completed job t s))).
  intros s r s' [Hs Ho] H. split.
  - eapply Hw; [exact Hs|]. eapply WriteRun, WriteFinish; [done..|by apply Hf|exact H].
  - intros ->. by eapply complete_completed.
Qed.

Lemma complete_attempt world jobs P job t st err :
  stable jobs P -> is_recovery_name job = true -> keeps (bst P) (_complete_market_event world job t st err).
Proof.
  intros [Hi Hw] Hj. apply keeps_bind; [apply bst_clock|]. intros now. apply keeps_bind; [|intros r; apply keeps_ret].
  apply (hoare_writes _ P (fun _ => P)). intros s r s' Hs H. eapply Hw; [done|by eapply WriteEndAttempt].
Qed.

(** A run that was not committed is skipped, when it is an attempt, or deleted. *)
Lemma release_spec world jobs P job t e : stable jobs P -> keeps (bst P) (_release_uncommitted_scheduler_run world job t e).
Proof.
  intros HP. eapply keeps_find; [exact HP|]. intros [r|]; [|by apply keeps_forget, keeps_ret].
  destruct (sr_recovery_of_run_id r) as [o|] eqn:Er.
  - eapply (hoare_fact _ _ _ _ (is_recovery_name job = true)).
    { intros b [[Hs (Hr & Hk & _)] _]. injection Hk as <- _. apply (ri_attempts (store_of b)); [by eapply stable_inv|done|by rewrite Er]. }
    intros Hj. apply keeps_forget. apply keeps_bind; [apply bst_clock|]. intros now. apply keeps_bind; [|intros x; apply keeps_ret].
    apply (hoare_writes _ P (fun _ => P)). intros s x s' Hs H. eapply stable_write; [done..|by eapply WriteEndAttempt].
  - apply keeps_forget, keeps_bind; [|intros x; apply keeps_ret]. apply (hoare_writes _ P (fun _ => P)). intros s x s' Hs H.
    eapply stable_write; [done..|by eapply WriteRelease].
Qed.

(** ** Operations that raise no market event error

    The exceptions of the database and of the engine are [Base]. *)

Definition is_base (e : error) : Prop := match e with Base _ => True | _ => False end.

Definition plain {S A} (m : sx S A) : Prop := hoare (fun _ => True) m (fun _ _ => True) (fun e _ => is_base e).

Section Plain.
Context {S : Type}.

Lemma plain_bind {A B} (m : sx S A) (f : A -> sx S B) : plain m -> (forall a, plain (f a)) -> plain (m ≫= f).
Proof. intros Hm Hf. by eapply hoare_bind. Qed.
Lemma plain_ret {A} (a : A) : plain (S := S) (mret a).
Proof. by intros s _. Qed.
Lemma plain_gets {A} (f : S -> A) : plain (gets f).
Proof. by intros s _. Qed.
Lemma plain_modify (f : S -> S) : plain (modify f).
Proof. by intros s _. Qed.
Lemma plain_reads {A} `{HasStore S} (f : PaperStore -> res A) : plain (reads f).
Proof. intros s _. cbn. by destruct (f _). Qed.
Lemma plain_writes {A} `{HasStore S} (f : PaperStore -> res (A * PaperStore)) : plain (writes f).
Proof. intros s _. unfold writes. by destruct (f _) as [[a s']|e]. Qed.
Lemma plain_try {A} (m : sx S A) h : (forall e, plain (h e)) -> plain (try_except m h).
Proof. intros Hh s _. unfold try_except. destruct (m s) as [[a|e] s']; [done|]. by apply Hh. Qed.
Lemma plain_finally {A} (m : sx S A) c : plain m -> plain (try_finally m c).
Proof. intros Hm s Hs. specialize (Hm s Hs). unfold try_finally. by destruct (m s) as [[a|e] s']. Qed.
Lemma plain_fold {A B} (f : B -> A -> sx S B) l b : (forall b a, plain (f b a)) -> plain (foldS f l b).
Proof. intros Hf. by apply (hoare_fold (fun _ _ => True)). Qed.
End Plain.

Lemma plain_consult {A} (f : nat -> A) : plain (consult f).
Proof. by intros s _. Qed.

Lemma plain_scheduler {A} (m : sched A) : plain m -> plain (in_scheduler m).
Proof. intros Hm b _. specialize (Hm (br_scheduler b) I). unfold in_scheduler. by destruct (m _) as [[a|e] ss]. Qed.

Ltac plain_step :=
  first [ apply plain_bind; [|intros ?] | apply plain_consult | apply plain_reads | apply plain_writes | apply plain_gets
        | apply plain_modify | apply plain_ret | apply plain_try; intros ? | apply plain_finally | apply plain_fold; intros ??
        | apply plain_scheduler | case_match ].

Lemma plain_open_subsequence world config t c j : plain (_run_open_subsequence world config true t c j).
Proof.
  unfold _run_open_subsequence, under_lock, try_acquire, run_jobs, run_job, _run_job, start_job, execute_handler,
    _complete_run, _persisted_job_outcome, now. repeat plain_step.
Qed.

Lemma plain_ensure world job t : plain (_ensure_scheduler_run world job t).
Proof. unfold _ensure_scheduler_run, clock_now, now. repeat plain_step. Qed.

Lemma plain_complete world job t st err : plain (_complete_market_event world job t st err).
Proof. unfold _complete_market_event, clock_now, now. repeat plain_step. Qed.

Lemma plain_release world job t e : plain (_release_uncommitted_scheduler_run world job t e).
Proof. unfold _release_uncommitted_scheduler_run, find_run, clock_now, now. repeat plain_step. Qed.

(** Combine what an operation keeps with what it raises. *)
Lemma hoare_plain {S A} P (m : sx S A) Q E :
  plain m -> hoare P m Q E -> hoare P m Q (fun e s => E e s /\ is_base e).
Proof. intros Hp Hm s Hs. specialize (Hm s Hs). specialize (Hp s I). by destruct (m s) as [[a|e] s']. Qed.

Lemma required_error outcomes e :
  require_successful_jobs outcomes = Failed e -> is_base e \/ exists m, e = RetryableSchedulerDeferred m.
Proof.
  induction outcomes as [|o outcomes IH]; cbn; [done|]. case_bool_decide; [intros [= <-]; by left|].
  destruct (is_retryable_skip o); [intros [= <-]; right; by eexists|done].
Qed.

(** ** The handlers *)

(** Pure steps that raise no failure of a part. *)
Definition no_part_failure {A} (m : result A) : Prop := forall sub msg, m <> Failed (DailyOpenSequenceFailure sub msg).

Lemma no_failure_bind {A B} (m : result A) (f : A -> result B) :
  no_part_failure m -> (forall a, no_part_failure (f a)) -> no_part_failure (m ≫= f).
Proof. intros Hm Hf. destruct m as [a|e]; [apply Hf|]. intros sub msg [= ->]. by apply (Hm sub msg). Qed.

Lemma no_failure_lift {A} (m : res A) : no_part_failure (lift m).
Proof. by destruct m. Qed.

Lemma no_failure_constraints builder symbol : no_part_failure (_require_valid_constraints builder symbol).
Proof.
  unfold _require_valid_constraints, require_valid_production_constraints. destruct (provider_get _ _); [|done].
  apply no_failure_bind; [|done]. unfold validate_production_symbol_constraints. apply no_failure_bind; [by case_match|]. intros [].
  apply no_failure_bind; [apply no_failure_lift|]. by intros [].
Qed.

Lemma no_failure_candle candles event msg : no_part_failure (event_candle candles event msg).
Proof. apply no_failure_bind; [apply no_failure_lift|]. intros [c|]; [by destruct (negb _)|done]. Qed.

Lemma no_failure_contexts builder candles symbol candle : no_part_failure (build_open_contexts builder candles symbol candle).
Proof.
  apply no_failure_bind; [apply no_failure_constraints|]. intros con. cbv zeta. apply no_failure_bind; [apply no_failure_lift|].
  intros bundle. destruct (_ || _); [done|]. apply no_failure_bind; [apply no_failure_lift|]. intros ev.
  destruct (ev_atr ev) as [atr|]; [|done]. destruct (atr ≤ᵈ 0%Q); [done|]. by apply no_failure_bind; [apply no_failure_lift|].
Qed.

Section Bridge.
Context (world : World) (config : PaperTradingConfig) (builder : ContextBuilder) (candles : CandleRepository).
Context (max_events_per_poll : nat) (Hids : uuid_ids world).

Lemma respects_open_subsequence t c j : respects is_job (in_scheduler (_run_open_subsequence world config true t c j)).
Proof. apply scheduler_respects. intros s0 H0. by apply open_subsequence_writes. Qed.

(** An exception of a part names the part, which is still open. *)
Definition part_error (P : PaperStore -> Prop) (job : string) (t : datetime) (e : error) (s : PaperStore) : Prop :=
  P s /\ forall sub m, e = DailyOpenSequenceFailure sub m -> sub = job /\ open_run job t s.

(** A name that only the part itself ends. *)
Record part_name (job : string) (t : datetime) : Prop := {
  pn_job : ~ is_job job;
  pn_attempt : is_recovery_name job = false;
  pn_event : forall m, job <> open_event_name m t;
}.

Lemma plain_part_error P job t e s : is_base e -> P s -> part_error P job t e s.
Proof. intros He Hs. split; [done|]. intros sub m ->. done. Qed.

Lemma subjob_spec (jobs : string -> Prop) P job t j :
  stable jobs P -> jobs job -> (forall name, is_job name -> jobs name) -> part_name job t ->
  hoare (bst P) (_run_open_subjob world job t (_run_open_subsequence world config true t None j))
    (fun _ => bst (fun s => P s /\ completed job t s)) (fun e => bst (part_error P job t e)).
Proof.
  intros HP Hjob Hjobs [Hnj Hna Hne].
  eapply hoare_seq; [apply find_run_spec; by eapply stable_inv|done|]. intros existing.
  destruct (is_completed_run existing) eqn:Ec.
  { intros b [[Hs Hf] Hn]. split; [|done]. split; [done|]. by eapply found_completed. }
  apply not_completed; [done|]. assert (Hopen : stable is_job (fun s => P s /\ open_run job t s)).
  { apply stable_open; [by eapply stable_sub|done..]. }
  assert (Hraise : forall e (b : BridgeState), bst (fun s => P s /\ open_run job t s) b /\ is_base e -> bst (part_error P job t e) b).
  { intros e b [[[Hs _] Hn] He]. split; [by apply plain_part_error|done]. }
  eapply hoare_seq; [apply hoare_plain; [apply plain_ensure|by eapply ensure_spec]|exact Hraise|]. intros x.
  eapply (hoare_try _ _ _ _ _ (fun e b => bst (fun s => P s /\ open_run job t s) b /\ (is_base e \/ exists m, e = RetryableSchedulerDeferred m))).
  - eapply hoare_seq; [apply hoare_plain; [apply plain_scheduler, plain_open_subsequence|]| |].
    + eapply hoare_mono; [apply (respects_open_subsequence t None j _ Hopen)| |intros a b Hb; exact Hb|intros e b Hb; exact Hb].
      intros b. apply bst_mono. by intros s [Hs _].
    + cbn. intros e b [Hb He]. split; [done|by left].
    + intros outcomes. apply hoare_result.
      { intros e b He Hb. split; [done|]. by eapply required_error. }
      intros []. intros _. destruct (negb _); [intros b Hb; split; [done|right; by eexists]|].
      eapply hoare_mono; [apply hoare_plain; [apply plain_complete|];
        apply (complete_spec world jobs P); [done|done|intros s _ _ m Hm; by destruct (Hne m)]|done| |].
      * intros u b. apply bst_mono. intros s [Hs Hc]. split; [done|by apply Hc].
      * cbn. intros e b [Hb He]. split; [done|by left].
  - intros e. eapply (hoare_fact _ _ _ _ (is_base e \/ exists m, e = RetryableSchedulerDeferred m)); [by intros b [_ He]|].
    intros [He|[m ->]].
    + assert (Hre : forall m', hoare (fun b : BridgeState => bst (fun s => P s /\ open_run job t s) b /\ (is_base e \/ exists m, e = RetryableSchedulerDeferred m))
        (raise (A := unit) (DailyOpenSequenceFailure job m')) (fun _ => bst (fun s => P s /\ completed job t s)) (fun e => bst (part_error P job t e))).
      { intros m' b [[[Hs Ho] Hn] _]. split; [|done]. split; [done|]. by intros sub m [= -> ->]. }
      destruct e; try done; apply Hre.
    + eapply hoare_seq.
      * apply hoare_plain; [apply plain_release|]. eapply hoare_mono; [apply (release_spec world _ _ _ _ _ Hopen)| |intros a b Hb; exact Hb|intros e b Hb; exact Hb].
        by intros b [Hb _].
      * exact Hraise.
      * intros u b [[Hs _] Hn]. split; [|done]. by split.
Qed.

(** *** The daily open *)

Definition is_part (m : MarketSymbol) (t : datetime) (job : string) : Prop :=
  job ∈ [daily_open_gap_job_name (symbol_value m) t; daily_open_fill_job_name (symbol_value m) t;
         daily_open_snapshot_job_name (symbol_value m) t].

Lemma part_is_part_name m t job : is_part m t job -> part_name job t.
Proof.
  intros [->|[->|[->|H%elem_of_nil]%elem_of_cons]%elem_of_cons]%elem_of_cons; try done;
    (split; [intros [j Hj]; by destruct m, j|by destruct m|intros m'; by destruct m, m']).
Qed.

Definition open_jobs (m : MarketSymbol) (t : datetime) (job : string) : Prop := is_job job \/ is_part m t job.

(** A part that failed is named, and it is open. *)
Definition open_error (P : PaperStore -> Prop) (m : MarketSymbol) (t : datetime) (e : error) (s : PaperStore) : Prop :=
  P s /\ forall sub msg, e = DailyOpenSequenceFailure sub msg -> is_part m t sub /\ open_run sub t s.

Lemma part_spec m t P job j :
  stable (open_jobs m t) P -> is_part m t job ->
  hoare (bst P) (_run_open_subjob world job t (_run_open_subsequence world config true t None j))
    (fun _ => bst (fun s => P s /\ completed job t s)) (fun e => bst (open_error P m t e)).
Proof.
  intros HP Hj. eapply hoare_mono; [apply (subjob_spec (open_jobs m t)); [done|by right|by left|by eapply part_is_part_name]|done|done|].
  intros e b. apply bst_mono. intros s [Hs He]. split; [done|]. by intros sub msg [-> Ho]%He.
Qed.

(** The savepoint: what is open after the writes was open before them. *)
Lemma transaction_spec {A} m t P (op : bridge A) (F : PaperStore -> Prop) :
  (forall P, stable (open_jobs m t) P -> hoare (bst P) op (fun _ => bst (fun s => P s /\ F s)) (fun e => bst (open_error P m t e))) ->
  stable (open_jobs m t) P ->
  hoare (bst P) (transaction op) (fun _ => bst (fun s => P s /\ F s)) (fun e => bst (open_error P m t e)).
Proof.
  intros Hop HP b [Hs Hn]. assert (Hi : runs_inv (store_of b)) by (by eapply stable_inv).
  assert (HP' : stable (open_jobs m t) (fun s => P s /\ kept (store_of b) s)).
  { apply stable_kept; [done|]. intros s s' Hk Hk'. by etransitivity. }
  specialize (Hop _ HP' b (conj (conj Hs (reflexivity _)) Hn)). unfold transaction.
  destruct (op b) as [[a|e] b']; destruct Hop as [Hop Hn'].
  - split; [|done]. by destruct Hop as [[? _] ?].
  - split; [|done]. rewrite store_put. split; [done|]. intros sub msg He. destruct Hop as [[_ Hk] Ho]. destruct (Ho sub msg He) as [Hp Hsub].
    split; [done|]. intros Hc. apply Hsub. eapply kept_completed; [exact Hk|by eapply pn_attempt, part_is_part_name|done].
Qed.

Lemma stable_completed jobs P job t : stable jobs P -> is_recovery_name job = false -> stable jobs (fun s => P s /\ completed job t s).
Proof. intros HP Hn. apply stable_kept; [done|]. intros s s' Hk. by apply kept_completed. Qed.

Lemma open_error_weaken (P Q : PaperStore -> Prop) m t e b : (forall s, P s -> Q s) -> bst (open_error P m t e) b -> bst (open_error Q m t e) b.
Proof. intros H. apply bst_mono. intros s [Hs He]. split; auto. Qed.

Lemma base_open_error P m t e (b : BridgeState) : bst P b /\ is_base e -> bst (open_error P m t e) b.
Proof. intros [Hb He]. revert Hb. apply bst_mono. intros s Hs. split; [done|]. by intros sub msg ->. Qed.

(** The parts after the gap check. *)
Lemma fill_phase_spec m t P :
  stable (open_jobs m t) P ->
  hoare (bst P)
    (due ← _fill_phase_due world config t;
     if negb due then raise FillNotDue
     else transaction
       (_ ← _run_open_subjob world (daily_open_fill_job_name (symbol_value m) t) t (run_daily_open_fill world config true t None);
        _run_open_subjob world (daily_open_snapshot_job_name (symbol_value m) t) t (run_daily_open_snapshot world config true t None)))
    (fun _ => bst (fun s => P s /\ completed (daily_open_fill_job_name (symbol_value m) t) t s /\
                            completed (daily_open_snapshot_job_name (symbol_value m) t) t s))
    (fun e => bst (open_error P m t e)).
Proof.
  intros HP. destruct (part_names m t) as (Hng & Hnf & Hns & _).
  eapply (hoare_seq _ _ _ (fun _ => bst P)); [apply hoare_plain| |].
  - apply plain_bind; [apply plain_scheduler, plain_consult|intros ?; apply plain_ret].
  - apply keeps_bind; [apply bst_clock|]. intros now. apply keeps_ret.
  - apply base_open_error.
  - intros due. destruct (negb due).
    { intros b [Hs Hn]. by repeat split. }
    apply transaction_spec; [|done]. clear P HP. intros P HP.
    eapply hoare_seq; [apply part_spec; [exact HP|set_solver]|done|]. intros [].
    eapply hoare_mono; [apply (part_spec m t _ _ _ (stable_completed _ _ _ t HP Hnf)); set_solver|done| |].
    + intros [] b. apply bst_mono. by intros s [[? ?] ?].
    + intros e b. apply open_error_weaken. by intros s [? _].
Qed.

Lemma handle_daily_open_spec event m P :
  me_symbol event = symbol_value m -> stable (open_jobs m (me_candle_open_time event)) P ->
  hoare (bst P) (_handle_daily_open world config builder candles event)
    (fun _ => bst (fun s => P s /\ parts_completed m (me_candle_open_time event) s))
    (fun e => bst (open_error P m (me_candle_open_time event) e)).
Proof.
  intros Hsym HP. set (t := me_candle_open_time event) in *.
  assert (Hpure : forall A (m' : result A) e b, no_part_failure m' -> m' = Failed e -> bst P b -> bst (open_error P m t e) b).
  { intros A m' e b Hm ->. apply bst_mono. intros s Hs. split; [done|]. intros sub msg ->. by destruct (Hm sub msg). }
  unfold _handle_daily_open. apply hoare_result; [intros e b; apply Hpure, no_failure_candle|]. intros candle _.
  apply hoare_result; [intros e b; apply Hpure, no_failure_contexts|]. intros [fills stops] _.
  do 2 (eapply hoare_seq; [apply hoare_plain; [apply plain_scheduler, plain_modify|]; by apply scheduler_keeps, keeps_state|apply base_open_error|]; intros ?).
  fold t. rewrite Hsym. destruct (part_names m t) as (Hng & _).
  eapply hoare_seq; [eapply transaction_spec; [|exact HP]; intros P' HP'; apply part_spec; [exact HP'|set_solver]|done|]. intros [].
  eapply hoare_mono; [apply (fill_phase_spec m t _ (stable_completed _ _ _ t HP Hng))|done| |].
  - intros [] b. apply bst_mono. by intros s [[? ?] [? ?]].
  - intros e b. apply open_error_weaken. by intros s [? _].
Qed.

(** *** The live update and the close *)

Lemma keeps_pure {A B} P (m : result A) (k : A -> bridge B) : (forall a, keeps (bst P) (k a)) -> keeps (bst P) (from_result m ≫= k).
Proof. intros Hk. by apply keeps_bind; [apply keeps_result|]. Qed.

Lemma register_keeps P f : (forall s, ss_store (f s) = ss_store s) -> keeps (bst P) (in_scheduler (modify f)).
Proof. intros Hf. by apply scheduler_keeps, keeps_state. Qed.

Lemma live_respects event : respects is_job (_handle_daily_live world config builder candles event).
Proof.
  intros P HP. apply keeps_pure. intros candle. apply keeps_pure. intros stops. apply keeps_bind; [by apply register_keeps|]. intros ?.
  apply keeps_bind; [apply scheduler_respects; [|done]; intros s0 H0; apply (run_job_writes world config Hids s0 H0 true INTRADAY_STOP_PROCESSING)|].
  intros o. case_match; [apply keeps_raise|apply keeps_result].
Qed.

Lemma closed_respects event : respects is_job (_handle_daily_closed world config builder candles event).
Proof.
  intros P HP. apply keeps_pure. intros candle. apply keeps_bind; [apply bst_clock|]. intros now.
  destruct (_ <? _)%Z; [apply keeps_raise|].
  apply keeps_bind; [apply scheduler_keeps|intros ctx].
  { apply keeps_bind; [apply keeps_result|]. intros con. apply keeps_bind; [apply keeps_res|]. intros bundle.
    destruct (negb _); [apply keeps_raise|]. apply keeps_bind; [apply keeps_reads|]. intros [[ready paused] kill].
    apply keeps_bind; [apply keeps_ready|]. intros ready'. apply keeps_bind; [apply keeps_reads|]. intros gates. apply keeps_ret. }
  apply keeps_bind; [apply scheduler_keeps|intros stops].
  { apply keeps_bind; [apply keeps_result|]. intros con. apply keeps_bind; [apply keeps_res|]. intros bundle.
    destruct (last _) as [c|]; [|apply keeps_raise]. destruct (negb _); [apply keeps_raise|].
    apply keeps_bind; [apply keeps_reads|]. intros atrs. apply keeps_ret. }
  do 2 (apply keeps_bind; [by apply register_keeps|]; intros ?).
  apply keeps_bind; [|intros outcomes; apply keeps_result]. apply scheduler_respects; [|done]. intros s0 H0. by apply close_sequence_writes.
Qed.

(** ** One event *)

(** What an acknowledged event stands for. *)
Definition event_done (event : MarketEvent) (s : PaperStore) : Prop :=
  let t := me_candle_open_time event in
  match me_event_type event with
  | DAILY_OPEN_AVAILABLE => exists m, me_symbol event = symbol_value m /\ parts_completed m t s
  | _ => exists job, market_event_job_name world event = Ok job /\ completed job t s
  end.

Lemma event_name (event : MarketEvent) m job :
  me_symbol event = symbol_value m -> market_event_job_name world event = Ok job ->
  ~ is_job job /\ is_recovery_name job = false /\
  if bool_decide (me_event_type event = DAILY_OPEN_AVAILABLE) then job = open_event_name m (me_candle_open_time event)
  else forall m' t, job <> open_event_name m' t.
Proof.
  unfold market_event_job_name. intros Hsym H. destruct (me_event_type event) eqn:Et; cbn -[event_job] in H.
  2: apply bind_ok in H as (low & _ & H).
  all: injection H as <-; rewrite Hsym; split_and!; [intros [j Hj]; by destruct m, j|by destruct m|].
  all: try done; intros m' t; by destruct m, m'.
Qed.

Lemma kept_done event m s s' : me_symbol event = symbol_value m -> kept s s' -> event_done event s -> event_done event s'.
Proof.
  intros Hsym Hk. unfold event_done. destruct (me_event_type event) eqn:Et.
  { intros (m' & Hm & Hp). exists m'. split; [done|]. by eapply kept_parts. }
  all: intros (job & Hj & Hc); exists job; split; [done|];
    destruct (event_name event m job Hsym Hj) as (_ & Hn & _); by eapply kept_completed.
Qed.

(** The outcome of an event: acknowledged means done. *)
Definition processed (P : PaperStore -> Prop) (event : MarketEvent) (o : EventProcessOutcome) (s : PaperStore) : Prop :=
  P s /\ (_should_ack o = true -> event_done event s).

Definition processes (P : PaperStore -> Prop) (event : MarketEvent) (m : bridge EventProcessOutcome) : Prop :=
  hoare (bst P) m (fun o => bst (processed P event o)) (fun _ => bst P).

Lemma not_acknowledged P event o : _should_ack o = false -> processes P event (mret o).
Proof. intros Ho b [Hs Hn]. split; [|done]. split; [done|]. congruence. Qed.

Lemma processes_bind {A} P event (m : bridge A) k : keeps (bst P) m -> (forall a, processes P event (k a)) -> processes P event (m ≫= k).
Proof. intros Hm Hk. by eapply hoare_bind. Qed.

Lemma processes_forget P (F : PaperStore -> Prop) event k :
  processes P event k -> hoare (bst (fun s => P s /\ F s)) k (fun o => bst (processed P event o)) (fun _ => bst P).
Proof. intros Hk. eapply hoare_mono; [exact Hk|..]; [|done..]. intros b. apply bst_mono. by intros s [Hs _]. Qed.

Lemma deferred_spec jobs P event e job : stable jobs P -> processes P event (_deferred_outcome world event e job).
Proof.
  intros HP. apply processes_bind; [apply keeps_res|]. intros name. apply processes_bind; [by eapply release_spec|]. intros u.
  by apply not_acknowledged.
Qed.

(** A run that ends without being completed. *)
Lemma fail_spec (jobs : string -> Prop) P job t st err :
  stable jobs P -> jobs job -> st <> SR_COMPLETED ->
  hoare (bst (fun s => P s /\ open_run job t s)) (_complete_market_event world job t st err) (fun _ => bst P) (fun _ => bst P).
Proof.
  intros HP Hj Hst. eapply hoare_mono; [apply (complete_spec world jobs P); [done|done|by intros s _ ?]|done| |].
  - intros u b. apply bst_mono. by intros s [Hs _].
  - intros e b. apply bst_mono. by intros s [Hs _].
Qed.

Section Event.
Context (event : MarketEvent) (m : MarketSymbol) (job : string).
Context (Hsym : me_symbol event = symbol_value m) (Hjob : market_event_job_name world event = Ok job).
Context (P : PaperStore -> Prop) (HP : stable any_job P).

Let t : datetime := me_candle_open_time event.

Lemma completed_done s : runs_inv s -> completed job t s -> event_done event s.
Proof.
  intros Hi Hc. pose proof (event_name event m job Hsym Hjob) as (_ & _ & Hn). unfold event_done.
  destruct (me_event_type event) eqn:Et; cbn in Hn; try (by exists job).
  exists m. split; [done|]. rewrite Hn in Hc. by apply (ri_parts s).
Qed.

Lemma ack_status o : _should_ack o = true -> eo_status o = SR_COMPLETED.
Proof. unfold _should_ack. intros [[H _]%andb_true_iff _]%andb_true_iff. by apply bool_decide_eq_true in H. Qed.

(** The recorded status decides the acknowledgement. *)
Lemma persisted_processes skipped : processes P event (_persisted_outcome event job t skipped).
Proof.
  eapply hoare_seq; [apply (find_run_spec P); by eapply stable_inv|done|]. intros [r|].
  - intros b [[Hs (Hr & Hk & _)] Hn]. split; [|done]. split; [done|]. intros Hc%ack_status.
    apply completed_done; [by eapply stable_inv|]. by exists r.
  - intros b [[Hs _] Hn]. by split.
Qed.

Lemma persisted_completed skipped :
  hoare (bst (fun s => P s /\ completed job t s)) (_persisted_outcome event job t skipped)
    (fun o => bst (processed P event o)) (fun _ _ => False).
Proof.
  eapply hoare_seq; [apply (find_run_spec (fun s => P s /\ completed job t s)); intros s [Hs _]; by eapply stable_inv|done|]. intros [r|].
  - intros b [[[Hs Hc] _] Hn]. split; [|done]. split; [done|]. intros _. apply completed_done; [by eapply stable_inv|done].
  - by intros b [[[_ Hc] Ho] _].
Qed.

(** The run of an event that is no daily open. *)
Lemma event_finishable : me_event_type event <> DAILY_OPEN_AVAILABLE -> forall s, finishable job t s.
Proof.
  intros Ht s m' Hm. pose proof (event_name event m job Hsym Hjob) as (_ & _ & Hn). rewrite bool_decide_eq_false_2 in Hn by done.
  by destruct (Hn m' t).
Qed.

Lemma mark_permanent_spec e :
  hoare (bst (fun s => P s /\ open_run job t s)) (_mark_permanent_failure world event job t e)
    (fun o => bst (processed P event o)) (fun _ => bst P).
Proof. eapply hoare_bind; [by apply (fail_spec any_job P)|]. intros u. by apply not_acknowledged. Qed.

Lemma deferred_processes e release : 
  hoare (bst (fun s => P s /\ open_run job t s)) (_deferred_outcome world event e release)
    (fun o => bst (processed P event o)) (fun _ => bst P).
Proof. apply processes_forget. by eapply deferred_spec. Qed.

Lemma process_daily_spec handler :
  me_event_type event <> DAILY_OPEN_AVAILABLE -> respects is_job handler ->
  hoare (bst (fun s => P s /\ open_run job t s)) (process_daily world event job t handler)
    (fun o => bst (processed P event o)) (fun _ => bst P).
Proof.
  intros Ht Hh. destruct (event_name event m job Hsym Hjob) as (Hnj & Hna & _).
  assert (Hopen : stable is_job (fun s => P s /\ open_run job t s)) by (apply stable_open; [by apply stable_any|done..]).
  eapply (hoare_try _ _ _ _ _ (fun _ => bst (fun s => P s /\ open_run job t s))).
  - eapply hoare_bind; [by apply Hh|]. intros u.
    eapply hoare_bind; [apply (complete_spec world any_job P); [done|done|intros; by apply event_finishable]|]. intros u'.
    eapply hoare_mono; [apply persisted_completed| |done|done]. intros b. apply bst_mono. intros s [Hs Hc]. split; [done|by apply Hc].
  - assert (Hfail : forall err, hoare (bst (fun s => P s /\ open_run job t s))
      (_ ← _complete_market_event world job t SR_FAILED (Some err); _persisted_outcome event job t false)
      (fun o => bst (processed P event o)) (fun _ => bst P)).
    { intros err. eapply hoare_bind; [by apply (fail_spec any_job P)|]. intros u. apply persisted_processes. }
    intros []; first [apply Hfail|apply mark_permanent_spec|apply deferred_processes].
Qed.

Lemma ensure_open :
  hoare (bst (fun s => P s /\ open_run job t s)) (_ensure_scheduler_run world job t)
    (fun x => bst (fun s => (P s /\ open_run job t s) /\ (x.2 = false -> sr_status x.1 <> SR_COMPLETED))) (fun _ => bst P).
Proof.
  destruct (event_name event m job Hsym Hjob) as (Hnj & Hna & _).
  assert (Hopen : stable is_job (fun s => P s /\ open_run job t s)) by (apply stable_open; [by apply stable_any|done..]).
  eapply hoare_mono; [by eapply ensure_spec|done| |].
  - intros x b. apply bst_mono. intros s [[Hs Ho] Hx]. split; [done|]. intros Hf Hc. destruct (Hx Hf) as [Hr Hk].
    apply Ho. by exists x.1.
  - intros e b. apply bst_mono. by intros s [Hs _].
Qed.

Lemma marker_spec : me_event_type event <> DAILY_OPEN_AVAILABLE -> processes P event (_complete_marker_event world event job t).
Proof.
  intros Ht. eapply hoare_seq; [apply (find_run_spec P); by eapply stable_inv|done|]. intros existing.
  destruct (is_completed_run existing) eqn:Ec.
  { intros b [[Hs Hf] Hn]. split; [|done]. split; [done|]. intros _. apply completed_done; [by eapply stable_inv|]. by eapply found_completed. }
  apply not_completed; [done|]. eapply hoare_seq; [apply ensure_open|done|]. intros [run created]. destruct (_ && _) eqn:Ex.
  { intros b [[_ Hx] _]. apply andb_true_iff in Ex as [Hc%negb_true_iff Hs%bool_decide_eq_true]. by destruct (Hx Hc). }
  eapply hoare_seq.
  - eapply hoare_mono; [apply (complete_spec world any_job P); [done|done|intros; by apply event_finishable]| |intros u b Hb; exact Hb|intros e b Hb; exact Hb].
    intros b. apply bst_mono. by intros s [Hs _].
  - intros e b. apply bst_mono. by intros s [Hs _].
  - intros u. eapply hoare_mono; [apply persisted_completed| |done|done]. intros b. apply bst_mono. intros s [Hs Hc]. split; [done|by apply Hc].
Qed.
End Event.

(** *** Recovery attempts *)

Lemma pop_keeps P job t : keeps (bst P) (pop_recovery job t).
Proof.
  apply keeps_modify. intros b [Hs Hn]. split; [done|]. by apply od_del_Forall.
Qed.

Lemma active_attempt (s : PaperStore) id r :
  runs_inv s -> get_active_recovery_attempt s id = Some r -> is_recovery_name (sr_job_name r) = true.
Proof.
  intros Hi H. apply find_some in H as [Hin _]. apply list_elem_of_In in Hin. rewrite elem_of_sort_by in Hin.
  apply elem_of_list_filter in Hin as [Hin Hr]. apply (ri_attempts s Hi); [done|]. apply bool_decide_eq_true in Hr. by rewrite Hr.
Qed.

Definition names_attempt (o : option RecoveryContext) : Prop :=
  match o with Some c => is_recovery_name (rx_recovery_job_name c) = true | None => True end.

Lemma set_pending_keeps P key c :
  is_recovery_name (rx_recovery_job_name c) = true ->
  keeps (bst P) (modify (fun s => with_recovery_pending (od_set (br_recovery_pending s) key c) s)).
Proof. intros Hc. apply keeps_modify. intros b [Hs Hn]. split; [done|]. by apply od_set_Forall. Qed.

Lemma recovery_context_spec P job t :
  (forall s, P s -> runs_inv s) ->
  hoare (bst P) (_active_recovery_context job t) (fun o b => bst P b /\ names_attempt o) (fun _ => bst P).
Proof.
  intros Hi. eapply (hoare_bind _ _ _ (fun o b => bst P b /\ names_attempt o)).
  { intros b [Hs Hn]. split; [done|]. unfold names_attempt. destruct (od_get _ _) as [c|] eqn:E; [|done].
    exact (od_get_Forall _ _ _ _ Hn E). }
  intros [c|]; [by intros b [Hb Hc]|].
  eapply hoare_seq; [eapply hoare_mono; [by apply (find_run_spec P)|by intros b [Hb _]|intros o b Hb; exact Hb|intros e b Hb; exact Hb]|done|].
  intros [run|]; [|by intros b [[Hs _] Hn]].
  eapply (hoare_seq _ _ _ (fun o b => bst P b /\ forall r, o = Some r -> is_recovery_name (sr_job_name r) = true)).
  { intros b [[Hs _] Hn]. split; [done|]. intros r Hr. eapply active_attempt; [by apply Hi|exact Hr]. }
  { intros e b Hb. exact Hb. }
  intros [r|]; [|by intros b [Hb _]].
  eapply (hoare_fact _ _ _ _ (is_recovery_name (sr_job_name r) = true)); [by intros b [_ Hr]; apply Hr|]. intros Hr.
  eapply hoare_seq; [|intros e b Hb; exact Hb|].
  { eapply hoare_mono; [apply (keeps_reads (bst P))|by intros b [Hb _]|intros g b Hb; exact Hb|done]. }
  intros generation. eapply hoare_seq; [by apply (set_pending_keeps P)|done|]. intros u b Hb. by split.
Qed.

Lemma reactivate_keeps P job t :
  stable any_job P -> is_recovery_name job = true -> keeps (bst P) (_reactivate_recovery_attempt world job t).
Proof.
  intros HP Hj. eapply keeps_find; [exact HP|]. intros [r|]; [|by apply keeps_forget, (keeps_ensure world any_job), keeps_ret].
  apply keeps_forget. destruct (_ && _).
  - apply keeps_bind; [apply bst_clock|]. intros started. apply (hoare_writes _ P (fun _ => P)).
    intros s [] s' Hs [= <-]. eapply stable_write; [done..|]. by apply WriteReactivate.
  - destruct (negb _); [by apply (keeps_ensure world any_job), keeps_ret|apply keeps_ret].
Qed.

Section Recovery.
Context (event : MarketEvent) (m : MarketSymbol) (P : PaperStore -> Prop) (HP : stable any_job P).
Context (Hsym : me_symbol event = symbol_value m) (Hopen : me_event_type event = DAILY_OPEN_AVAILABLE).

Let t : datetime := me_candle_open_time event.

Lemma parts_done s : parts_completed m t s -> event_done event s.
Proof. intros Hp. unfold event_done. rewrite Hopen. by exists m. Qed.

(** The handler of the open, where only its success matters. *)
Lemma handle_open_done :
  hoare (bst P) (_handle_daily_open world config builder candles event)
    (fun _ => bst (fun s => P s /\ parts_completed m t s)) (fun _ => bst P).
Proof.
  eapply hoare_mono; [apply (handle_daily_open_spec event m P Hsym); by apply stable_any|done|done|].
  intros e b. apply bst_mono. by intros s [Hs _].
Qed.

Lemma recovery_spec recovery :
  is_recovery_name (rx_recovery_job_name recovery) = true ->
  processes P event (_process_daily_open_recovery world config builder candles event recovery).
Proof.
  intros Hn. unfold _process_daily_open_recovery. cbv zeta.
  assert (Hfailed : forall err o, _should_ack o = false -> processes P event
    (_ ← _complete_market_event world (rx_recovery_job_name recovery) (rx_scheduled_for recovery) SR_FAILED (Some err);
     _ ← pop_recovery (rx_original_job_name recovery) (rx_scheduled_for recovery); mret o)).
  { intros err o Ho. apply processes_bind; [by apply (complete_attempt world any_job)|]. intros u.
    apply processes_bind; [apply pop_keeps|]. intros u'. by apply not_acknowledged. }
  apply processes_bind; [by apply reactivate_keeps|]. intros u.
  assert (HP' : stable any_job (fun s => P s /\ parts_completed m t s)) by (apply stable_kept; [done|]; intros s s'; apply kept_parts).
  eapply (hoare_try _ _ _ _ _ (fun _ => bst P)).
  - assert (Hw : forall (e : error) b, bst (fun s => P s /\ parts_completed m t s) b -> bst P b).
    { intros e b. apply bst_mono. by intros s [Hs _]. }
    eapply hoare_bind; [apply handle_open_done|]. intros u'.
    eapply hoare_seq; [by apply (complete_attempt world any_job _ _ _ _ _ HP')|exact Hw|]. intros u2.
    eapply hoare_seq; [apply (hoare_writes _ _ (fun _ s => P s /\ parts_completed m t s))|exact Hw|].
    { intros s [] s' Hs (db & Hdb & [= <-])%bind_ok. eapply (stable_write _ _ HP'); [exact Hs|by eapply WriteResolved]. }
    intros u3. eapply hoare_seq; [apply pop_keeps|exact Hw|]. intros u4 b [[Hs Hp] Hb]. split; [|done]. split; [done|].
    intros _. by apply parts_done.
  - intros []; first [by eapply deferred_spec|by apply Hfailed].
Qed.

(** *** The daily open *)

Let parent : string := open_event_name m t.

Lemma parent_open_name : is_recovery_name parent = false.
Proof. by destruct (part_names m t) as (_ & _ & _ & H). Qed.

Lemma parent_not_job : ~ is_job parent.
Proof. unfold parent. intros [j Hj]. by destruct m, j. Qed.

(** An open run stays open under writes that end no run. *)
Lemma stable_none_open jobs Q job t' :
  stable jobs Q -> is_recovery_name job = false -> stable (fun _ => False) (fun s => Q s /\ open_run job t' s).
Proof. intros HQ Hn. apply stable_open; [eapply stable_sub; [|exact HQ]; by intros j []|by intros []|done]. Qed.

(** A run that is missing is started before it is ended. *)
Lemma missing_keeps jobs Q job t' (o : option SchedulerRun) :
  stable jobs Q -> keeps (bst Q) (match o with None => _ ← _ensure_scheduler_run world job t'; mret tt | Some _ => mret tt end).
Proof. intros HQ. destruct o; [apply keeps_ret|]. by eapply keeps_ensure, keeps_ret. Qed.

Lemma fail_parent_keeps (jobs : string -> Prop) Q job t' err :
  stable jobs Q -> jobs job -> is_recovery_name job = false -> keeps (bst Q) (_fail_daily_open_parent world job t' err).
Proof.
  intros HQ Hj Hn. eapply keeps_find; [exact HQ|]. intros existing.
  destruct (is_completed_run existing) eqn:Ec; [by apply keeps_forget, keeps_ret|].
  apply not_completed; [done|].
  eapply hoare_seq; [by eapply missing_keeps, stable_none_open| |].
  - intros e b. apply bst_mono. by intros s [Hs _].
  - intros u. by apply (fail_spec jobs Q).
Qed.

(** The record of a failure: the part it names is still open. *)
Lemma audit_spec sub msg :
  hoare (bst (fun s => P s /\ (sub <> parent -> is_part m t sub /\ open_run sub t s)))
    (_persist_daily_open_failure_audit world parent t sub msg) (fun _ => bst P) (fun _ => bst P).
Proof.
  unfold _persist_daily_open_failure_audit. case_bool_decide as Hs.
  - eapply hoare_bind; [by apply keeps_forget, (fail_parent_keeps any_job _ _ _ _ HP I parent_open_name)|]. intros u. apply keeps_ret.
  - assert (Hpart : forall b : BridgeState, bst (fun s => P s /\ (sub <> parent -> is_part m t sub /\ open_run sub t s)) b ->
      is_part m t sub) by (by intros b [[_ H] _]; apply H).
    eapply hoare_fact; [exact Hpart|]. intros Hp. destruct (part_is_part_name _ _ _ Hp) as [Hnj Hna Hne].
    assert (Hpar : stable (fun j => j = parent) (fun s => P s /\ open_run sub t s)).
    { apply stable_open; [by apply stable_any|done..]. }
    assert (Hw : forall (e : error) b, bst (fun s => P s /\ open_run sub t s) b -> bst P b).
    { intros e b. apply bst_mono. by intros s [? _]. }
    eapply hoare_seq; [|exact Hw|].
    { eapply hoare_mono; [apply (fail_parent_keeps _ _ parent t msg Hpar eq_refl parent_open_name)| |intros u b Hb; exact Hb|done].
      intros b. apply bst_mono. intros s [Hs' Ho]. split; [done|by apply Ho]. }
    intros u. eapply hoare_seq; [apply (find_run_spec (fun s => P s /\ open_run sub t s)); intros s [? _]; by apply (stable_inv _ _ HP)|done|].
    intros existing. eapply hoare_seq; [|exact Hw|intros u'; by apply (fail_spec any_job P)].
    apply keeps_forget. eapply missing_keeps, stable_none_open; [exact HP|exact Hna].
Qed.

Lemma parent_completed_keeps :
  hoare (bst (fun s => P s /\ parts_completed m t s)) (_ensure_parent_run_completed world parent t)
    (fun _ => bst (fun s => P s /\ parts_completed m t s)) (fun _ => bst P).
Proof.
  set (Q := fun s => P s /\ parts_completed m t s).
  assert (HQ : stable any_job Q) by (apply stable_kept; [done|]; intros s s'; apply kept_parts).
  assert (Hw : forall (e : error) b, bst Q b -> bst P b) by (intros e b; apply bst_mono; by intros s [? _]).
  assert (Hw' : forall (e : error) b, bst (fun s => Q s /\ open_run parent t s) b -> bst P b).
  { intros e b. apply bst_mono. by intros s [[? _] _]. }
  eapply hoare_seq; [apply (find_run_spec Q); intros s [? _]; by apply (stable_inv _ _ HP)|done|]. intros existing.
  destruct (is_completed_run existing) eqn:Ec; [intros b [[Hs _] Hn]; by split|].
  apply not_completed; [done|].
  eapply hoare_seq; [eapply missing_keeps, stable_none_open; [exact HQ|apply parent_open_name]|exact Hw'|]. intros u.
  eapply hoare_mono; [apply (complete_spec world any_job Q); [done|done|]|done| |exact Hw'].
  - intros s [_ Hp] _ m' Hm. by assert (m' = m) as -> by (by unfold parent in Hm; destruct m, m').
  - intros u' b. apply bst_mono. by intros s [Hs _].
Qed.

Lemma open_job_name : market_event_job_name world event = Ok parent.
Proof. unfold market_event_job_name, parent, open_event_name. by rewrite Hopen, Hsym. Qed.

(** All parts are completed, or the event itself is open. *)
Lemma terminal_complete_spec :
  hoare (bst P) (_daily_open_terminal_complete (symbol_value m) t)
    (fun c => bst (fun s => P s /\ if (c : bool) then parts_completed m t s else open_run parent t s)) (fun _ _ => False).
Proof.
  intros b [Hs Hn]. assert (Hi : runs_inv (store_of b)) by by eapply stable_inv.
  unfold _daily_open_terminal_complete, find_run, reads, mbind, sx_bind.
  destruct (unique_read (store_of b) (daily_open_gap_job_name (symbol_value m) t) t) as [g Hg]; [apply Hi|].
  destruct (unique_read (store_of b) (daily_open_fill_job_name (symbol_value m) t) t) as [f Hf]; [apply Hi|].
  destruct (unique_read (store_of b) (daily_open_snapshot_job_name (symbol_value m) t) t) as [n Hsn]; [apply Hi|].
  pose proof (conj Hg (conj Hf Hsn)) as (Hg' & Hf' & Hn'). cbn in Hg', Hf', Hn'.
  cbn. rewrite Hg'. cbn. rewrite Hf'. cbn. rewrite Hn'. cbn. split; [|done]. split; [done|].
  assert (Hrun : forall job o, get_scheduler_run (store_of b) job t = Ok o ->
    if is_completed_run o then completed job t (store_of b) else open_run job t (store_of b)).
  { intros job o Ho%read_run. destruct (is_completed_run o) eqn:E; [by eapply found_completed|by eapply found_open]. }
  apply Hrun in Hg, Hf, Hsn. destruct (is_completed_run g), (is_completed_run f), (is_completed_run n); cbn;
    try done; intros Hc; destruct (ri_parts _ Hi m t Hc) as (? & ? & ?); auto.
Qed.

Lemma short_circuit_spec job :
  hoare (bst P) (_maybe_short_circuit_permanent_failure event job t)
    (fun o b => bst P b /\ forall x, o = Some x -> _should_ack x = false) (fun _ => bst P).
Proof.
  eapply hoare_seq; [apply (find_run_spec P); by apply (stable_inv _ _ HP)|done|]. intros [run|].
  2: { intros b [[Hs _] Hn]. split; [done|]. by intros x. }
  destruct (negb _). { intros b [[Hs _] Hn]. split; [done|]. by intros x. }
  eapply hoare_bind; [eapply hoare_mono; [apply (recovery_context_spec P)| |intros o b Hb; exact Hb|done]|].
  - by apply (stable_inv _ _ HP).
  - intros b. apply bst_mono. by intros s [Hs _].
  - intros [c|] b [Hb _]; split; try done; by intros x [= <-].
Qed.

Lemma open_attempt_spec :
  hoare (bst (fun s => P s /\ open_run parent t s))
    (_ ← _ensure_scheduler_run world parent t;
     try_except
       (_ ← _handle_daily_open world config builder candles event;
        _ ← _complete_market_event world parent t SR_COMPLETED None;
        _persisted_outcome event parent t false)
       (fun exc =>
        match exc with
        | FillNotDue | RetryableContextNotReady _ | RetryableSchedulerDeferred _ => _deferred_outcome world event exc None
        | PermanentConfigurationFailure _ _ => _mark_permanent_failure world event parent t exc
        | DailyOpenSequenceFailure subjob_name message =>
            _ ← _persist_daily_open_failure_audit world parent t subjob_name message;
            _persisted_outcome event parent t false
        | _ =>
            _ ← _persist_daily_open_failure_audit world parent t parent (str_exn world exc);
            _persisted_outcome event parent t false
        end)) (fun o => bst (processed P event o)) (fun _ => bst P).
Proof.
  set (P1 := fun s => P s /\ open_run parent t s).
  assert (HP1 : stable (open_jobs m t) P1).
  { apply stable_open; [by apply stable_any| |apply parent_open_name]. intros [Hj|Hp]; [by apply parent_not_job|].
    by destruct (pn_event _ _ (part_is_part_name _ _ _ Hp) m). }
  assert (HQ : stable any_job (fun s => P s /\ parts_completed m t s)) by (apply stable_kept; [done|]; intros s s'; apply kept_parts).
  eapply hoare_seq; [apply (ensure_open event m parent Hsym open_job_name P HP)|done|]. intros x.
  apply (hoare_mono (bst P1) _ _ (fun o => bst (processed P event o)) _ (fun _ => bst P));
    [|intros b; apply bst_mono; by intros s [Hs _]|done|done].
  eapply (hoare_try _ _ _ _ _ (fun e => bst (open_error P1 m t e))).
  - eapply hoare_bind; [by apply (handle_daily_open_spec event m P1 Hsym)|]. intros u.
    eapply hoare_seq.
    + eapply (hoare_mono (bst (fun s => (P s /\ parts_completed m t s) /\ open_run parent t s)));
        [apply hoare_plain; [apply plain_complete|]; apply (complete_spec world any_job _ _ _ _ _ HQ)| |intros u' b Hb; exact Hb|intros e b Hb; exact Hb].
      * done.
      * intros s [_ Hp] _ m' Hm. by assert (m' = m) as -> by (by unfold parent in Hm; destruct m, m').
      * intros b. apply bst_mono. by intros s [[Hs Ho] Hp].
    + intros e b [Hb He]. apply base_open_error. split; [|done]. revert Hb. apply bst_mono. by intros s [[Hs _] Ho].
    + intros u'. eapply hoare_mono; [apply (persisted_completed event m parent Hsym open_job_name P HP)| |done|done].
      intros b. apply bst_mono. intros s [[Hs _] Hc]. split; [done|by apply Hc].
  - intros e.
    assert (Ho : forall (k : bridge EventProcessOutcome), hoare (bst P1) k (fun o => bst (processed P event o)) (fun _ => bst P) ->
      hoare (bst (open_error P1 m t e)) k (fun o => bst (processed P event o)) (fun _ => bst P)).
    { intros k Hk. eapply hoare_mono; [exact Hk|..]; [|done..]. intros b. apply bst_mono. by intros s [Hs _]. }
    assert (Hother : hoare (bst P1)
      (_ ← _persist_daily_open_failure_audit world parent t parent (str_exn world e); _persisted_outcome event parent t false)
      (fun o => bst (processed P event o)) (fun _ => bst P)).
    { eapply hoare_bind; [|intros u; apply (persisted_processes event m parent Hsym open_job_name P HP)].
      eapply hoare_mono; [apply audit_spec|..]; [|done..]. intros b. apply bst_mono. by intros s [Hs _]. }
    destruct e as [e|msg|msg code| | |msg|sub msg]; try (by apply Ho); try (by apply Ho, (deferred_processes event parent P HP)).
    + apply Ho, (mark_permanent_spec event parent P HP).
    + eapply hoare_bind; [|intros u; apply (persisted_processes event m parent Hsym open_job_name P HP)].
      eapply hoare_mono; [apply audit_spec|..]; [|done..]. intros b. apply bst_mono. intros s [[Hs _] He]. split; [done|]. intros _. by eapply He.
Qed.

Lemma process_daily_open_spec : processes P event (_process_daily_open world config builder candles event).
Proof.
  unfold _process_daily_open. cbv zeta. rewrite open_job_name, Hsym. fold t.
  apply (hoare_result (lift (Ok parent))); [done|]. intros job [= <-].
  eapply hoare_bind; [apply short_circuit_spec|]. intros [o|].
  { intros b [[Hs Hn] Ho]. split; [|done]. split; [done|]. rewrite (Ho o eq_refl). done. }
  eapply hoare_bind; [eapply hoare_mono; [apply (recovery_context_spec P)|by intros b [Hb _]|intros o b Hb; exact Hb|done]|].
  { by apply (stable_inv _ _ HP). }
  intros [recovery|].
  { eapply (hoare_fact _ _ _ _ (is_recovery_name (rx_recovery_job_name recovery) = true)); [by intros b [_ Hr]|]. intros Hr.
    eapply hoare_mono; [by apply recovery_spec|by intros b [Hb _]|done|done]. }
  eapply hoare_seq; [eapply hoare_mono; [apply terminal_complete_spec|by intros b [Hb _]|intros c b Hb; exact Hb|intros e b Hb; exact Hb]|done|].
  intros [|].
  - eapply hoare_bind; [apply parent_completed_keeps|]. intros u.
    apply processes_forget, (persisted_processes event m parent Hsym open_job_name P HP).
  - apply open_attempt_spec.
Qed.
End Recovery.

(** Every event is processed: what it does is written, and what it acknowledges
    is done. *)
Lemma process_event_spec event m P :
  me_symbol event = symbol_value m -> stable any_job P -> processes P event (_process_event world config builder candles event).
Proof.
  intros Hsym HP. unfold _process_event. cbv zeta.
  apply (hoare_result (lift (market_event_job_name world event))); [done|]. intros job Hjob.
  assert (Hname : market_event_job_name world event = Ok job) by (destruct (market_event_job_name world event); cbn in Hjob; congruence).
  clear Hjob. destruct (bool_decide (me_event_type event = DAILY_OPEN_AVAILABLE)) eqn:Et.
  { apply bool_decide_eq_true in Et. by apply (process_daily_open_spec event m P HP Hsym). }
  apply bool_decide_eq_false in Et.
  eapply hoare_bind; [by apply (short_circuit_spec event P HP)|]. intros [o|].
  { intros b [[Hs Hn] Ho]. split; [|done]. split; [done|]. rewrite (Ho o eq_refl). done. }
  apply (hoare_mono (bst P) _ _ (fun o => bst (processed P event o)) _ (fun _ => bst P)); [|by intros b [Hb _]|done|done].
  eapply hoare_seq; [apply (find_run_spec P); by apply (stable_inv _ _ HP)|done|]. intros existing.
  destruct (is_completed_run existing) eqn:Ec.
  { intros b [[Hs Hf] Hn]. split; [|done]. split; [done|]. intros _.
    eapply completed_done; [done|done|by apply (stable_inv _ _ HP)|by eapply found_completed]. }
  assert (Hdaily : forall handler, respects is_job handler ->
    hoare (bst (fun s => P s /\ found job (me_scheduled_for event) existing s))
      ('(run, created) ← _ensure_scheduler_run world job (me_scheduled_for event);
       if negb created && bool_decide (sr_status run = SR_COMPLETED) then mret (outcome event job SR_COMPLETED true None)
       else process_daily world event job (me_scheduled_for event) handler)
      (fun o => bst (processed P event o)) (fun _ => bst P)).
  { intros handler Hh. apply not_completed; [done|]. eapply hoare_seq; [by apply (ensure_open event m job Hsym Hname P HP)|done|]. intros [run created].
    destruct (_ && _) eqn:Ex.
    { intros b [[_ Hx] _]. apply andb_true_iff in Ex as [Hc%negb_true_iff Hs%bool_decide_eq_true]. by destruct (Hx Hc). }
    eapply hoare_mono; [by apply (process_daily_spec event m job Hsym Hname P HP handler)|..]; [|done..].
    intros b. apply bst_mono. by intros s [Hs _]. }
  destruct (me_event_type event) eqn:Ety; try done.
  - apply Hdaily, live_respects.
  - apply Hdaily, closed_respects.
  - apply processes_forget, (marker_spec event m job Hsym Hname P HP). congruence.
  - apply processes_forget, (marker_spec event m job Hsym Hname P HP). congruence.
Qed.
End Bridge.
