(* ===== verification/PaperPoll.v ===== *)
(** * Polls of the market events (services/paper_trading/: market_events.py,
    application.py)

    Whole polls and recovery requests, in any order and also when they raise or
    their commit fails. *)
From Stdlib Require Import ZArith QArith Lia Strings.String.
From stdpp Require Import base list gmap sets strings relations sorting.
From S2P Require Import Prelude Decimal StrategyModels BtModels BtData Timeframes EventFairness MarketModels MarketRepository.
From S2P Require Import PaperModels PaperSession Transitions PaperRuntime PaperRepository PaperScheduler PaperContext PaperEvents.
From S2P Require Import PaperBridge PaperLedger PaperReconcile PaperFrame PaperRuns PaperSchedule PaperBridgeSafety.

Local Open Scope string_scope.

(** ** Events of a poll *)

Definition market_event (e : MarketEvent) : Prop := exists m, me_symbol e = symbol_value m.

Lemma candle_market_event t candle now low : market_event (candle_event t candle now low).
Proof. by exists (nc_symbol candle). Qed.

(** The detector offers events of the three markets only. *)
Lemma detected_market_events d candles now events :
  detect_candidates d candles now = Ok events -> Forall market_event events.
Proof.
  unfold detect_candidates. intros (l & Hl & H)%bind_ok. injection H as <-. apply Forall_concat.
  apply mapM_ok in Hl. eapply Forall2_Forall_r; [exact Hl|]. apply Forall_forall. intros symbol _ es.
  unfold _detect_symbol. intros (ms & _ & H)%bind_ok. injection H as <-.
  assert (Hhigh : forall ack failed c ty, Forall market_event (_detect_higher_close ack failed c now ty)).
  { intros. unfold _detect_higher_close. repeat case_match; repeat constructor; apply candle_market_event. }
  rewrite !Forall_app. split_and!; destruct (get_latest _ _ _) as [c|]; try constructor; try apply Hhigh.
  unfold _detect_daily, detect_open. apply Forall_app; split; repeat case_match; repeat constructor; apply candle_market_event.
Qed.

(** ** The poll *)

Section Poll.
Context (world : World) (config : PaperTradingConfig) (builder : ContextBuilder) (candles : CandleRepository).
Context (max_events_per_poll : nat) (Hids : uuid_ids world).

(** Every event of the list is done in the database. *)
Definition all_done (P : PaperStore -> Prop) (events : list MarketEvent) (s : PaperStore) : Prop :=
  P s /\ Forall (fun e => market_event e /\ event_done world e s) events.

Lemma stable_done P events : stable any_job P -> stable any_job (all_done P events).
Proof.
  intros HP. apply stable_kept; [done|]. intros s s' Hk H. eapply Forall_impl; [exact H|]. intros e [[m Hm] He].
  split; [by exists m|by eapply kept_done].
Qed.

Lemma all_done_weaken P events b : bst (all_done P events) b -> bst P b.
Proof. apply bst_mono. by intros s [Hs _]. Qed.

Lemma clear_keeps P key : stable any_job P -> keeps (bst P) (_clear_group_fairness_state key).
Proof.
  intros HP. apply (hoare_writes _ P (fun _ => P)). intros s [] s' Hs [= <-]. eapply stable_write; [done..|apply WriteGroups].
Qed.

Lemma clear_when_keeps P key (b : bool) : stable any_job P -> keeps (bst P) (if b then _clear_group_fairness_state key else mret tt).
Proof. intros HP. destruct b; [by apply clear_keeps|apply keeps_ret]. Qed.

Lemma record_deferred_keeps P event key t states : stable any_job P -> keeps (bst P) (_record_group_deferred event key t states).
Proof.
  intros HP. apply keeps_bind; [|intros u; apply keeps_ret]. apply (hoare_writes _ P (fun _ => P)).
  intros s [] s' Hs [= <-]. eapply stable_write; [done..|apply WriteGroups].
Qed.

(** The acknowledged events so far are done. *)
Definition progress_done (P : PaperStore -> Prop) (p : PollProgress) : BridgeState -> Prop :=
  bst (all_done P (pg_events_to_ack p)).

Lemma acked_done P p event o states s :
  market_event event -> processed world (all_done P (pg_events_to_ack p)) event o s ->
  all_done P (pg_events_to_ack (note_outcome p event o states)) s.
Proof.
  intros He [[Hs Hd] Ho]. split; [done|]. cbn. unfold add_when. destruct (_should_ack o); [|done].
  apply Forall_app. split; [done|]. constructor; [|constructor]. split; [done|by apply Ho].
Qed.

Lemma poll_event_spec P t key acc event :
  stable any_job P -> market_event event ->
  hoare (progress_done P acc.1) (poll_event world config builder candles max_events_per_poll t key acc event)
    (fun acc' => progress_done P acc'.1) (fun _ => bst P).
Proof.
  intros HP He. destruct acc as [p blocked]. unfold poll_event, progress_done. cbn [fst]. destruct (_ || _).
  { intros b Hb. exact Hb. }
  set (Q := all_done P (pg_events_to_ack p)). assert (HQ : stable any_job Q) by by apply stable_done.
  assert (Hw : forall (e : error) b, bst Q b -> bst P b) by (intros e; apply all_done_weaken).
  destruct He as [m Hm].
  eapply hoare_seq; [by apply (process_event_spec world config builder candles Hids event m Q)|exact Hw|]. intros o.
  set (Qo := processed world Q event o).
  assert (HQo : stable any_job Qo).
  { apply stable_kept; [done|]. intros s s' Hk Ho Ha. eapply kept_done; [exact Hm|exact Hk|by apply Ho]. }
  assert (Hwo : forall (e : error) b, bst Qo b -> bst P b).
  { intros e b Hb. apply (Hw e). revert Hb. apply bst_mono. by intros s [Hs _]. }
  assert (Hnote : forall states b, bst Qo b -> bst (all_done P (pg_events_to_ack (note_outcome p event o states))) b).
  { intros states b. apply bst_mono. intros s. apply acked_done. by exists m. }
  eapply hoare_seq; [by apply clear_when_keeps|exact Hwo|]. intros u. destruct (is_deferred o).
  - eapply hoare_seq; [by apply (bst_state Qo)|exact Hwo|]. intros u'.
    eapply hoare_seq; [by apply record_deferred_keeps|exact Hwo|]. intros states b. apply Hnote.
  - eapply hoare_seq; [by apply clear_when_keeps|exact Hwo|]. intros u' b. apply Hnote.
Qed.

Lemma poll_group_spec P t candidates p key :
  stable any_job P -> Forall market_event candidates ->
  hoare (progress_done P p) (poll_group world config builder candles max_events_per_poll t (group_events candidates) p key)
    (progress_done P) (fun _ => bst P).
Proof.
  intros HP Hc. unfold poll_group. destruct (_ <=? _)%nat; [by intros b Hb|].
  apply (hoare_result (lift (or_raise (KeyError key) (od_get (group_events candidates) key)))).
  { intros e b _. apply all_done_weaken. }
  intros events He. assert (Hg : od_get (group_events candidates) key = Some events).
  { destruct (od_get (group_events candidates) key); [|done]. by injection He as ->. }
  apply (hoare_bind _ _ _ (fun acc => progress_done P acc.1)); [|by intros [p' blocked] b Hb].
  apply (hoare_fold_in (fun acc => progress_done P acc.1) _ events (rotate_group p, false)).
  intros acc event Hin. apply poll_event_spec; [done|]. rewrite Forall_forall in Hc. apply Hc. by eapply group_candidates.
Qed.

Lemma poll_groups_spec P t candidates :
  stable any_job P -> Forall market_event candidates ->
  hoare (bst P) (poll_groups world config builder candles max_events_per_poll t candidates) (progress_done P) (fun _ => bst P).
Proof.
  intros HP Hc. unfold poll_groups. cbv zeta.
  eapply hoare_bind; [apply (keeps_reads (bst P))|]. intros states. eapply hoare_bind; [apply (keeps_reads (bst P))|]. intros cursor.
  eapply hoare_bind; [by apply (bst_state P)|]. intros u. eapply hoare_bind.
  - eapply hoare_mono; [apply (hoare_fold (progress_done P) _ _ (start_progress states)); intros p key; by apply poll_group_spec|..];
      [|intros p b Hb; exact Hb|done].
    intros b. apply bst_mono. intros s Hs. split; [done|constructor].
  - intros p. assert (HQ : stable any_job (all_done P (pg_events_to_ack p))) by by apply stable_done.
    eapply hoare_seq; [apply (hoare_writes _ _ (fun _ => all_done P (pg_events_to_ack p)))| |].
    + intros s [] s' Hs [= <-]. eapply stable_write; [done..|apply WriteCursor].
    + intros e b. apply all_done_weaken.
    + intros u' b Hb. exact Hb.
Qed.

Lemma no_poll_done P b : bst P b -> bst (all_done P (bp_events_to_ack no_poll)) b.
Proof. apply bst_mono. intros s Hs. split; [done|constructor]. Qed.

Lemma poll_spec P t :
  stable any_job P ->
  hoare (bst P) (process_after_poll world config builder candles max_events_per_poll t)
    (fun r => bst (all_done P (bp_events_to_ack r))) (fun _ => bst P).
Proof.
  intros HP. eapply hoare_bind; [by apply (bst_state P)|]. intros u.
  eapply hoare_bind; [apply scheduler_keeps, keeps_ready|]. intros ready. eapply hoare_bind; [apply keeps_gets|]. intros held.
  destruct (_ || _); [intros b; apply no_poll_done|]. eapply hoare_bind; [apply bst_consult|]. intros healthy.
  destruct (negb _); [intros b; apply no_poll_done|]. eapply hoare_bind; [apply keeps_gets|]. intros detector.
  apply (hoare_result (lift (detect_candidates detector candles t))); [done|]. intros candidates Hc.
  eapply hoare_bind; [apply poll_groups_spec; [exact HP|]|].
  - unfold _sort_market_events. rewrite merge_sort_Permutation.
    destruct (detect_candidates detector candles t) as [l|] eqn:E; cbn in Hc; [|done]. injection Hc as <-.
    by eapply detected_market_events.
  - intros p. eapply hoare_seq; [apply (keeps_gets (progress_done P p))|intros e b; apply all_done_weaken|]. intros deferred b Hb. exact Hb.
Qed.

(** An exception undoes the writes, not the recovery contexts. *)
Lemma bst_transaction {A} P (m : bridge A) Q :
  hoare (bst P) m Q (fun _ => bst P) -> hoare (bst P) (transaction m) Q (fun _ => bst P).
Proof.
  intros Hm b Hb. specialize (Hm b Hb). unfold transaction. destruct (m b) as [[a|e] b']; [done|]. destruct Hm as [_ Hn].
  split; [rewrite store_put; apply Hb|done].
Qed.

(** The commit decides: a failed one leaves the database as it was. *)
Lemma committed_spec P t :
  stable any_job P ->
  hoare (bst P) (committed_poll world config builder candles max_events_per_poll t)
    (fun r => bst (all_done P (bp_events_to_ack r))) (fun _ => bst P).
Proof.
  intros HP. apply bst_transaction. eapply hoare_bind; [by apply poll_spec|]. intros r.
  pose proof (all_done_weaken P (bp_events_to_ack r)) as Hw.
  eapply hoare_seq; [by apply bst_state|intros e; apply Hw|]. intros u.
  eapply hoare_seq; [apply bst_consult|intros e; apply Hw|]. intros committed. destruct (negb committed); [|by intros b' Hb].
  intros b'. apply Hw.
Qed.

Lemma acknowledge_keeps P events : keeps (bst P) (acknowledge_committed events).
Proof. by apply bst_state. Qed.

Lemma acknowledge_failed_keeps P events : keeps (bst P) (acknowledge_terminal_failed_committed events).
Proof.
  apply keeps_fold. intros u event. apply keeps_bind; [apply keeps_gets|]. intros d. apply keeps_bind; [apply keeps_res|].
  intros d'. by apply bst_state.
Qed.

Lemma loop_keeps P t :
  stable any_job P -> keeps (bst P) (_process_committed_market_event_poll world config builder candles max_events_per_poll t).
Proof.
  intros HP. eapply hoare_bind; [by apply committed_spec|]. intros r.
  apply (hoare_mono (bst P) _ _ (fun _ => bst P) _ (fun _ => bst P)); [|apply all_done_weaken|done|done].
  apply keeps_bind; [apply acknowledge_keeps|]. intros u. apply acknowledge_failed_keeps.
Qed.

End Poll.

(** ** Recovery requests *)

Lemma prefix_app p s : String.prefix p (p ++ s) = true.
Proof. induction p as [|c p IH]; [by destruct s|]. simpl. by destruct (Ascii.ascii_dec c c). Qed.

Lemma prefixed_name p s : p ∈ RECOVERY_PREFIXES -> is_recovery_name (p ++ s) = true.
Proof.
  intros Hp. apply existsb_exists. exists p. split; [by apply list_elem_of_In|apply prefix_app].
Qed.

Lemma recovery_name event n name : market_event_recovery_job_name event n = Ok name -> is_recovery_name name = true.
Proof.
  unfold market_event_recovery_job_name. destruct (me_event_type event); intros [= <-].
  - apply (prefixed_name "me:do:recovery:"). set_solver.
  - apply (prefixed_name "me:dc:recovery:"). set_solver.
  - apply (prefixed_name "me:wc:recovery:"). set_solver.
  - apply (prefixed_name "me:mc:recovery:"). set_solver.
Qed.

(** A recovery request adds an attempt. *)
Lemma recover_keeps world builder P event : stable any_job P -> keeps (bst P) (recover_permanent_configuration world builder event).
Proof.
  intros HP. apply keeps_bind; [apply keeps_gets|]. intros held. destruct (negb held); [apply keeps_raise|].
  apply keeps_bind; [apply keeps_res|]. intros job. cbv zeta. eapply keeps_find; [exact HP|]. intros [run|]; [|by apply keeps_forget, keeps_raise].
  apply keeps_forget. do 3 (case_match; [apply keeps_raise|]).
  apply keeps_bind; [apply keeps_result|]. intros u. apply keeps_bind; [apply keeps_gets|]. intros d.
  apply keeps_bind; [apply keeps_res|]. intros d'. apply keeps_bind; [by apply bst_state|]. intros u'.
  apply keeps_bind; [apply keeps_reads|]. intros attempts. cbv zeta.
  apply (hoare_result (lift (market_event_recovery_job_name event (S attempts)))); [done|]. intros name Hname.
  assert (Hn : is_recovery_name name = true).
  { destruct (market_event_recovery_job_name event (S attempts)) as [x|] eqn:E; [|done]. injection Hname as <-. by eapply recovery_name. }
  apply keeps_bind; [apply bst_clock|]. intros started. apply keeps_bind; [apply bst_consult|]. intros id.
  apply keeps_bind; [|intros [attempt created]; by apply set_pending_keeps].
  apply (hoare_writes _ P (fun _ => P)). intros s [r b] s' Hs Hins. eapply stable_write; [done..|by eapply WriteAttempt].
Qed.

(** ** Histories of the bridge *)

(** What happens to a bridge: a poll of the application, with what it takes
    from outside, a recovery request, a restart of the process on the same
    database, and what the rest of paper trading writes in between. *)
Inductive bridge_step (s : BridgeState) : BridgeState -> Prop :=
  | StepPoll world config builder candles max_events_per_poll t r s' :
      uuid_ids world ->
      _process_committed_market_event_poll world config builder candles max_events_per_poll t s = (r, s') -> bridge_step s s'
  | StepRequest world builder event r s' : recover_permanent_configuration world builder event s = (r, s') -> bridge_step s s'
  | StepRestart s' : store_of s' = store_of s -> br_recovery_pending s' = [] -> bridge_step s s'
  | StepOther db : engine_step (store_of s) db -> bridge_step s (put_store db s).

Definition bridge_inv (s : BridgeState) : Prop := bst runs_inv s.

Lemma bridge_step_keeps P s s' : stable any_job P -> bst P s -> bridge_step s s' -> bst P s'.
Proof.
  intros HP Hs [world config builder candles n t r s1 Hids H|world builder event r s1 H|s1 Hst Hp|db H].
  - eapply keeps_run; [by apply loop_keeps|exact Hs|exact H].
  - eapply keeps_run; [exact (recover_keeps world builder P event HP)|exact Hs|exact H].
  - split; [rewrite Hst; apply Hs|]. unfold pending_named. by rewrite Hp.
  - destruct Hs as [Hs Hn]. split; [|done]. rewrite store_put. eapply stable_write; [done..|by apply WriteRun, WriteEngine].
Qed.

Lemma bridge_steps_keep P s s' : stable any_job P -> bst P s -> rtc bridge_step s s' -> bst P s'.
Proof. intros HP Hs H. refine (rtc_closed _ (bst P) _ _ _ H Hs). intros u v. by apply bridge_step_keeps. Qed.

Lemma history_writes s s' : bridge_inv s -> rtc bridge_step s s' -> rtc (bridge_write any_job) (store_of s) (store_of s').
Proof.
  intros [Hi Hn] H. apply (bridge_steps_keep _ _ _ (stable_since any_job _ Hi)) in H as [H _]; [exact H|]. split; [apply rtc_refl|done].
Qed.

(** [C6] The bridge implements its specification: whatever polls, recovery
    requests and restarts happen, in whatever order, and wherever they raise or
    their commit fails, what they did to the database is a sequence of the
    writes of [bridge_write], each made under its condition; the records stay
    well formed, and seen from paper trading every write is one of its steps. *)
Theorem bridge_refines s s' :
  bridge_inv s -> rtc bridge_step s s' ->
  rtc (bridge_write any_job) (store_of s) (store_of s') /\ rtc paper_step (store_of s) (store_of s') /\ bridge_inv s'.
Proof.
  intros Hi H. pose proof (history_writes _ _ Hi H) as Hw. split_and!; [done| |].
  - revert Hw. apply rtc_subrel. intros x y. apply bridge_write_step.
  - eapply bridge_steps_keep; [apply stable_runs|done|done].
Qed.

(** [C30] A completed run is final: no poll, failing or not, no recovery request
    and no restart deletes it, runs it again or changes its outcome; only who
    recovered it may be added.  Recovery attempts, which carry their own names,
    are the exception. *)
Theorem completed_runs_final s s' r :
  bridge_inv s -> rtc bridge_step s s' -> r ∈ db_scheduler_runs (store_of s) -> sr_status r = SR_COMPLETED ->
  is_recovery_name (sr_job_name r) = false ->
  exists r', r' ∈ db_scheduler_runs (store_of s') /\ settled_run r' = settled_run r /\
    forall x, x ∈ db_scheduler_runs (store_of s') -> run_key x = run_key r -> x = r'.
Proof.
  intros Hi H Hr Hs Hn. destruct (writes_kept _ _ _ (history_writes _ _ Hi H) r Hr) as (r' & Hr' & He).
  { unfold final. by rewrite Hs, Hn. }
  exists r'. split_and!; [done..|]. intros x Hx Hk.
  assert (Hi' : bridge_inv s') by (eapply bridge_steps_keep; [apply stable_runs|done|done]). destruct Hi' as [[Hu _ _] _].
  assert (Hk' : run_key x = run_key r').
  { rewrite Hk. unfold run_key. by injection He as _ -> -> _ _ _ _ _ _. }
  by eapply key_row.
Qed.

(** [C7] An acknowledged event is done: what a committed poll hands back to be
    acknowledged has its runs completed in the committed database, for a daily
    open the gap check, the fill and the snapshot of its symbol. *)
Theorem acknowledged_events_done world config builder candles max_events_per_poll t s s' result event :
  bridge_inv s -> uuid_ids world ->
  committed_poll world config builder candles max_events_per_poll t s = (Done result, s') ->
  event ∈ bp_events_to_ack result -> event_done world event (store_of s').
Proof.
  intros Hi Hids H He. pose proof (committed_spec world config builder candles max_events_per_poll Hids runs_inv t (stable_runs _) s Hi) as Hp.
  rewrite H in Hp. destruct Hp as [[_ Hd] _]. rewrite Forall_forall in Hd. by apply Hd.
Qed.

(** ** Acknowledged events are not offered again *)

Definition same_event (a b : MarketEvent) : Prop :=
  me_event_type a = me_event_type b /\ me_symbol a = me_symbol b /\ me_candle_open_time a = me_candle_open_time b /\
  match me_event_type a with
  | DAILY_LIVE_UPDATE => match me_observed_low a, me_observed_low b with Some x, Some y => x == y | None, None => True | _, _ => False end
  | _ => True
  end%Q.

(** The tracker has settled the event. *)
Definition silenced (tk : SymbolSeriesTracker) (e : MarketEvent) : Prop :=
  let at_ t := t = Some (me_candle_open_time e) in
  match me_event_type e with
  | DAILY_OPEN_AVAILABLE => at_ (tk_daily_open_ack_time tk) \/ at_ (tk_daily_open_terminal_failed_time tk)
  | DAILY_LIVE_UPDATE => match me_observed_low e with Some low => same_low (tk_daily_live_ack_low tk) low = true | None => True end
  | DAILY_CLOSED => at_ (tk_daily_closed_ack_time tk) \/ at_ (tk_daily_closed_terminal_failed_time tk)
  | WEEKLY_CLOSED => at_ (tk_weekly_closed_ack_time tk) \/ at_ (tk_weekly_closed_terminal_failed_time tk)
  | MONTHLY_CLOSED => at_ (tk_monthly_closed_ack_time tk) \/ at_ (tk_monthly_closed_terminal_failed_time tk)
  end.

Lemma at_time_false t time : at_time t time = false <-> t <> Some time.
Proof. unfold at_time. by rewrite bool_decide_eq_false. Qed.

Lemma daily_not_silenced delay tk c now e : e ∈ _detect_daily delay tk c now -> ~ silenced tk e.
Proof.
  unfold _detect_daily, detect_open. rewrite elem_of_app. intros [H|H].
  - destruct (negb (nc_is_closed c) && _) eqn:E1.
    + apply andb_true_iff in E1 as [_ E1%negb_true_iff%at_time_false]. destruct (negb _) eqn:E2; [|by apply elem_of_nil in H].
      apply negb_true_iff, at_time_false in E2. apply list_elem_of_singleton in H as ->. cbn. by intros [?|?].
    + destruct (_ && _ && _) eqn:E2; [|by apply elem_of_nil in H]. apply andb_true_iff in E2 as [_ E2%negb_true_iff].
      apply list_elem_of_singleton in H as ->. cbn. congruence.
  - destruct (_ && _) eqn:E; [|by apply elem_of_nil in H]. apply andb_true_iff in E as [[_ E1%negb_true_iff%at_time_false]%andb_true_iff E2%negb_true_iff%at_time_false].
    apply list_elem_of_singleton in H as ->. cbn. by intros [?|?].
Qed.

Lemma higher_not_silenced ack failed c now ty e :
  e ∈ _detect_higher_close ack failed c now ty ->
  me_event_type e = ty /\ ack <> Some (me_candle_open_time e) /\ failed <> Some (me_candle_open_time e).
Proof.
  unfold _detect_higher_close. destruct (_ || _); [by intros ?%elem_of_nil|]. destruct (_ || _) eqn:E; [by intros ?%elem_of_nil|].
  apply orb_false_iff in E as [E1%at_time_false E2%at_time_false]. by intros ->%list_elem_of_singleton.
Qed.

(** The symbol of a candidate is the one its tracker is kept for. *)
Lemma detected_symbol d candles now symbol es e :
  repo_wf candles -> _detect_symbol d candles now symbol = Ok es -> e ∈ es ->
  me_symbol e = symbol /\ ~ silenced (_tracker d symbol) e.
Proof.
  intros Hwf H He. unfold _detect_symbol in H. apply bind_ok in H as (ms & Hms & H). injection H as <-.
  apply or_raise_ok, find_some in Hms as [_ Hms%bool_decide_eq_true].
  assert (Hc : forall tf c, get_latest candles ms tf = Some c -> symbol_value (nc_symbol c) = symbol).
  { intros tf c Hc. unfold get_latest in Hc. apply last_Some_elem_of, elem_of_get_range in Hc as (_ & -> & _); done. }
  rewrite !elem_of_app in He.
  destruct He as [He|[He|He]]; destruct (get_latest candles ms _) as [c|] eqn:Ec; try (by apply elem_of_nil in He).
  - split; [|by eapply daily_not_silenced]. rewrite <- (Hc _ _ Ec). unfold _detect_daily, detect_open in He.
    apply elem_of_app in He as [He|He]; repeat case_match; try (by apply elem_of_nil in He); by apply list_elem_of_singleton in He as ->.
  - pose proof (higher_not_silenced _ _ _ _ _ _ He) as (Ht & Ha & Hf). split.
    + rewrite <- (Hc _ _ Ec). unfold _detect_higher_close in He. repeat case_match; try (by apply elem_of_nil in He); by apply list_elem_of_singleton in He as ->.
    + unfold silenced. rewrite Ht. by intros [?|?].
  - pose proof (higher_not_silenced _ _ _ _ _ _ He) as (Ht & Ha & Hf). split.
    + rewrite <- (Hc _ _ Ec). unfold _detect_higher_close in He. repeat case_match; try (by apply elem_of_nil in He); by apply list_elem_of_singleton in He as ->.
    + unfold silenced. rewrite Ht. by intros [?|?].
Qed.

Lemma detected_not_silenced d candles now events e :
  repo_wf candles -> detect_candidates d candles now = Ok events -> e ∈ events -> ~ silenced (_tracker d (me_symbol e)) e.
Proof.
  intros Hwf. unfold detect_candidates. intros (l & Hl & H)%bind_ok He. injection H as <-. apply mapM_ok in Hl.
  apply list_elem_of_In, in_concat in He as (es & Hes & He). apply list_elem_of_In in Hes, He.
  apply list_elem_of_lookup in Hes as (i & Hi). destruct (Forall2_lookup_r _ _ _ _ _ Hl Hi) as (symbol & _ & H).
  by destruct (detected_symbol d candles now symbol es e Hwf H He) as [-> ?].
Qed.

Lemma tracker_updated d symbol f : _tracker (update_tracker d symbol f) symbol = f (_tracker d symbol).
Proof. unfold _tracker at 1. cbn. by rewrite od_get_set_eq. Qed.

(** [C32] An event that was acknowledged, or acknowledged as failed for good, is
    settled: the detector does not offer it again, whatever the candles and
    the time; a live update with another low is another event. *)
Theorem settled_events_silent d d' candles now event events e :
  repo_wf candles -> acknowledge_completed d event = d' \/ acknowledge_terminal_failed d event = Ok d' ->
  detect_candidates d' candles now = Ok events -> e ∈ events -> ~ same_event event e.
Proof.
  intros Hwf Hd Hc He (Ht & Hs & Hto & Hlow). apply (detected_not_silenced _ _ _ _ _ Hwf Hc He). rewrite <- Hs.
  unfold silenced. rewrite <- Ht, <- Hto. destruct Hd as [<-|Hd].
  - unfold acknowledge_completed. rewrite tracker_updated. destruct (me_event_type event); cbn; try by left.
    destruct (me_observed_low e) as [y|], (me_observed_low event) as [x|]; try done. by apply Qeq_bool_iff.
  - unfold acknowledge_terminal_failed, set_terminal_failed in Hd.
    destruct (me_event_type event); cbn in Hd; try discriminate Hd; injection Hd as <-; rewrite tracker_updated; by right.
Qed.

(** ** An example: a live candle under the stop

    The position of the example is open, the daily open was acknowledged, and
    the low of the live candle is under the stop: the poll closes the position
    and acknowledges the update, together with a weekly close. *)

Definition example_live : NormalizedCandle :=
  {| nc_symbol := BTC; nc_timeframe := DAILY; nc_open_time := 0; nc_close_time := DAY_US - seconds 1;
     nc_open := 100 # 1; nc_high := 101 # 1; nc_low := 90 # 1; nc_close := 95 # 1; nc_volume := 1; nc_is_closed := false |}.

Definition example_week : NormalizedCandle :=
  {| nc_symbol := BTC; nc_timeframe := WEEKLY; nc_open_time := (- 7 * DAY_US)%Z; nc_close_time := (- seconds 1)%Z;
     nc_open := 100 # 1; nc_high := 110 # 1; nc_low := 90 # 1; nc_close := 100 # 1; nc_volume := 7; nc_is_closed := true |}.

Definition example_candles : CandleRepository := (upsert (upsert empty_repository example_live).1.1 example_week).1.1.

Definition example_builder : ContextBuilder :=
  context_builder example_trading_config [("BTC", RiskEngine.example_constraints)] None None None.

Definition example_open_event : MarketEvent :=
  {| me_event_type := DAILY_OPEN_AVAILABLE; me_symbol := "BTC"; me_candle_open_time := 0; me_provider_received_at := 0;
     me_observed_low := Some (99 # 1) |}.

Definition example_detector : MarketEventDetector :=
  acknowledge_completed {| de_symbols := ["BTC"]; de_evaluation_delay_seconds := 5; de_trackers := [] |} example_open_event.

Definition example_bridge_state : BridgeState :=
  {| br_scheduler := example_scheduler example_opened; br_detector := example_detector; br_queue_overflow := false;
     br_deferred_events := false; br_recovery_pending := []; br_last_loop_error := None |}.

Definition example_committed : result BridgePollResult * BridgeState :=
  committed_poll example_world example_trading_config example_builder example_candles DEFAULT_MAX_EVENTS_PER_POLL (seconds 10) example_bridge_state.

Definition example_polled : BridgeState :=
  (_process_committed_market_event_poll example_world example_trading_config example_builder example_candles
     DEFAULT_MAX_EVENTS_PER_POLL (seconds 10) example_bridge_state).2.

Definition acked (r : result BridgePollResult) : list (string * string) :=
  match r with Done r => (fun e => (event_type_value (me_event_type e), me_symbol e)) <$> bp_events_to_ack r | Failed _ => [] end.

(** ** Live updates after the first *)

Lemma bind_done {S A B} (m : sx S A) (f : A -> sx S B) s a s' : m s = (Done a, s') -> (m ≫= f) s = f a s'.
Proof. intros H. unfold mbind, sx_bind. by rewrite H. Qed.

Lemma found_none job t s : get_scheduler_run (store_of s) job t = Ok None -> find_run job t s = (Done None, s).
Proof. intros H. unfold find_run, reads. by rewrite H. Qed.

Lemma handle_live_completed world config builder candles event c stops s :
  runs_inv (store_of s) -> ss_jobs_enabled (br_scheduler s) = true ->
  event_candle candles event "daily live candle missing at processing time" = Done c ->
  build_intraday_stop_context builder (me_symbol event) (observed_candle event c) = Done stops ->
  completed (job_value INTRADAY_STOP_PROCESSING) (me_candle_open_time event) (store_of s) ->
  _handle_daily_live world config builder candles event s =
    (Done tt, with_br_scheduler (register_stop_context stops (br_scheduler s)) s).
Proof.
  intros Hi Hen Hc Hb Hj. unfold _handle_daily_live. rewrite Hc. unfold mbind, sx_bind, from_result. rewrite Hb.
  unfold in_scheduler at 1, modify. cbn -[run_job job_value]. unfold in_scheduler.
  rewrite (completed_job_skips world config true _ _ None (br_scheduler (with_br_scheduler (register_stop_context stops (br_scheduler s)) s))) by done.
  done.
Qed.

Lemma ensure_starts world job t s run created db :
  insert_run (wo_uuid world (S (ss_consultations (br_scheduler s)))) job t (wo_now world (ss_consultations (br_scheduler s)))
    (store_of s) = Ok (run, created, db) ->
  _ensure_scheduler_run world job t s =
    (Done (run, created), with_br_scheduler (with_ss_store db (with_consultation (with_consultation (br_scheduler s)))) s).
Proof.
  intros H. unfold _ensure_scheduler_run, clock_now, now, in_scheduler, consult, writes, mbind, sx_bind. cbn -[insert_run].
  change (ss_store (br_scheduler s)) with (store_of s). by rewrite H.
Qed.

Lemma complete_done world job t st err s run db :
  complete_scheduler_run (store_of s) job t st (wo_now world (ss_consultations (br_scheduler s))) err = Ok (run, db) ->
  exists s', _complete_market_event world job t st err s = (Done tt, s') /\ store_of s' = db.
Proof.
  intros H. unfold _complete_market_event, clock_now, now, in_scheduler, consult, writes, mbind, sx_bind. cbn -[complete_scheduler_run].
  change (ss_store (br_scheduler s)) with (store_of s). rewrite H. by eexists.
Qed.

(** [C33] Intraday stops are checked once a day: the run of the intraday job is
    keyed by the open of the candle alone, so after the first live update of a
    day, of whichever symbol, every further one is acknowledged as completed
    although no stop was looked at: nothing but its own run is written, however
    low the candle and whatever position is open. *)
Theorem later_live_updates_ignored world config builder candles event c stops job run db s :
  let t := me_candle_open_time event in
  let n := ss_consultations (br_scheduler s) in
  runs_inv (store_of s) -> ss_jobs_enabled (br_scheduler s) = true -> me_event_type event = DAILY_LIVE_UPDATE ->
  market_event_job_name world event = Ok job ->
  event_candle candles event "daily live candle missing at processing time" = Done c ->
  build_intraday_stop_context builder (me_symbol event) (observed_candle event c) = Done stops ->
  completed (job_value INTRADAY_STOP_PROCESSING) t (store_of s) ->
  get_scheduler_run (store_of s) job t = Ok None -> insert_run (wo_uuid world (S n)) job t (wo_now world n) (store_of s) = Ok (run, true, db) ->
  exists o s', _process_event world config builder candles event s = (Done o, s') /\ _should_ack o = true /\
    store_of s' = with_runs (store_of s) (db_scheduler_runs (store_of s')).
Proof.
  intros t n Hi Hen Ht Hjob Hc Hb Hdone Hget Hins.
  assert (Hw : scheduler_write any_job (store_of s) db) by (by eapply WriteStart).
  pose proof (scheduler_write_inv _ _ _ Hw Hi) as Hdb.
  assert (Hrow : run ∈ db_scheduler_runs db /\ run_key run = (job, t)) by (by eapply insert_run_row).
  assert (Hdone' : completed (job_value INTRADAY_STOP_PROCESSING) t db).
  { eapply kept_completed; [by eapply scheduler_write_kept|apply job_name_final|done]. }
  set (sdb := with_br_scheduler (with_ss_store db (with_consultation (with_consultation (br_scheduler s)))) s).
  pose proof (ensure_starts _ _ _ _ _ _ _ Hins) as Hensure. change (with_br_scheduler _ _) with sdb in Hensure.
  pose proof (handle_live_completed world config builder candles event c stops sdb Hdb Hen Hc Hb Hdone') as Hlive.
  set (slive := with_br_scheduler (register_stop_context stops (br_scheduler sdb)) sdb) in *.
  destruct (complete_returns db job t run SR_COMPLETED (wo_now world (ss_consultations (br_scheduler slive))) None
    (ri_unique _ Hdb) (proj1 Hrow) (proj2 Hrow)) as (db' & Hcomp & -> & Hget').
  set (db' := with_runs _ _) in *.
  destruct (complete_done world job t SR_COMPLETED None slive _ _ Hcomp) as (s' & Hcomplete & Hs').
  exists (outcome event job SR_COMPLETED false None), s'. split_and!; [|done|].
  - unfold _process_event. rewrite Hjob, Ht. rewrite (bind_done (from_res (Ok job)) _ s job s eq_refl). cbv zeta.
    rewrite bool_decide_eq_false_2 by done. change (me_scheduled_for event) with t.
    pose proof (found_none _ _ _ Hget) as Hfind.
    assert (Hshort : _maybe_short_circuit_permanent_failure event job t s = (Done None, s)).
    { unfold _maybe_short_circuit_permanent_failure. by rewrite (bind_done _ _ _ _ _ Hfind). }
    rewrite (bind_done _ _ _ _ _ Hshort), (bind_done _ _ _ _ _ Hfind). cbn [is_completed_run].
    rewrite (bind_done _ _ _ _ _ Hensure).
    cbn [negb andb]. unfold process_daily, try_except.
    rewrite (bind_done _ _ _ _ _ Hlive), (bind_done _ _ _ _ _ Hcomplete). unfold _persisted_outcome, find_run, reads.
    unfold mbind at 1, sx_bind at 1. by rewrite Hs', Hget'.
  - rewrite Hs'. by destruct (insert_run_ok _ _ _ _ _ _ _ _ Hins) as [(_ & -> & _)|(? & _)].
Qed.

(** ** The examples *)

Lemma example_bridge_inv : bridge_inv example_bridge_state.
Proof. split; [by apply no_runs_inv|apply Forall_nil_2]. Qed.

Lemma example_poll_step : rtc bridge_step example_bridge_state example_polled.
Proof.
  apply rtc_once. unfold example_polled.
  destruct (_process_committed_market_event_poll _ _ _ _ _ _ example_bridge_state) as [r s'] eqn:E.
  eapply StepPoll; [apply example_uuids|exact E].
Qed.

Lemma example_polled_inv : bridge_inv example_polled.
Proof. eapply bridge_steps_keep; [apply stable_runs|apply example_bridge_inv|apply example_poll_step]. Qed.

Lemma bridge_refines_witness :
  rtc (bridge_write any_job) (store_of example_bridge_state) (store_of example_polled) /\
  (pp_status <$> db_positions (store_of example_polled)) = [PP_CLOSED].
Proof.
  split; [|vm_compute; reflexivity].
  apply (bridge_refines example_bridge_state example_polled); [apply example_bridge_inv|apply example_poll_step].
Defined.

(** The run of the intraday check, and the process restarted after it. *)
Definition example_restarted : BridgeState := with_recovery_pending [] example_polled.

Lemma restart_step s : bridge_step s (with_recovery_pending [] s).
Proof. by apply StepRestart. Qed.

Lemma completed_runs_final_witness :
  exists r r', r ∈ db_scheduler_runs (store_of example_polled) /\ sr_job_name r = job_value INTRADAY_STOP_PROCESSING /\
    r' ∈ db_scheduler_runs (store_of example_restarted) /\ settled_run r' = settled_run r.
Proof.
  assert (H : exists r, r ∈ db_scheduler_runs (store_of example_polled) /\ sr_job_name r = job_value INTRADAY_STOP_PROCESSING /\
    sr_status r = SR_COMPLETED).
  { destruct (db_scheduler_runs (store_of example_polled) !! 1%nat) as [r|] eqn:E; [|by vm_compute in E].
    exists r. split; [by eapply list_elem_of_lookup_2|]. vm_compute in E. injection E as <-. by split. }
  destruct H as (r & Hr & Hn & Hs). exists r.
  destruct (completed_runs_final example_polled example_restarted r) as (r' & Hr' & He & _);
    [exact example_polled_inv|exact (rtc_once _ _ (restart_step example_polled))|exact Hr|exact Hs|rewrite Hn; reflexivity|].
  exists r'. split_and!; assumption.
Defined.

Lemma acknowledged_events_done_witness :
  exists result s' event, example_committed = (Done result, s') /\ event ∈ bp_events_to_ack result /\
    me_event_type event = DAILY_LIVE_UPDATE /\ event_done example_world event (store_of s').
Proof.
  unfold example_committed. destruct (committed_poll _ _ _ _ _ _ _) as [[result|e] s'] eqn:E; [|by vm_compute in E].
  assert (Hev : exists event, bp_events_to_ack result !! 0%nat = Some event /\ me_event_type event = DAILY_LIVE_UPDATE).
  { vm_compute in E. injection E as <- _. by eexists. }
  destruct Hev as (event & Hev & Ht). exists result, s', event. apply list_elem_of_lookup_2 in Hev.
  split_and!; [done|done|done|].
  eapply (acknowledged_events_done example_world example_trading_config example_builder example_candles DEFAULT_MAX_EVENTS_PER_POLL
    (seconds 10) example_bridge_state s' result event); [apply example_bridge_inv|apply example_uuids|exact E|done].
Defined.

(** The live candle falls again after its low was acknowledged. *)
Definition example_update : MarketEvent := candle_event DAILY_LIVE_UPDATE example_live 0 (Some (90 # 1)).

Definition example_lower : NormalizedCandle :=
  {| nc_symbol := BTC; nc_timeframe := DAILY; nc_open_time := 0; nc_close_time := DAY_US - seconds 1;
     nc_open := 100 # 1; nc_high := 101 # 1; nc_low := 80 # 1; nc_close := 95 # 1; nc_volume := 2; nc_is_closed := false |}.

Lemma settled_events_silent_witness :
  exists e events, detect_candidates (acknowledge_completed example_detector example_update) (upsert_live example_candles example_lower (seconds 9)).1.1
      (seconds 10) = Ok (e :: events) /\
    me_event_type e = DAILY_LIVE_UPDATE /\ ~ same_event example_update e.
Proof.
  destruct (detect_candidates _ _ _) as [l|x] eqn:E; [|by vm_compute in E].
  destruct l as [|e events]; [by vm_compute in E|]. exists e, events. split; [done|].
  assert (Ht : me_event_type e = DAILY_LIVE_UPDATE) by (vm_compute in E; by injection E as <- _). split; [done|].
  eapply (settled_events_silent example_detector (acknowledge_completed example_detector example_update)); [|by left|exact E|by left].
  apply upsert_live_wf. do 2 apply upsert_wf. apply empty_wf.
Defined.

(** The position is open with its stop at 95 and the check of the day has run;
    the low falls to 90. *)
Definition example_check : SchedulerRun :=
  run_completed SR_COMPLETED 0 None (new_run "run-0" (job_value INTRADAY_STOP_PROCESSING) 0 0).

Definition example_checked : BridgeState :=
  {| br_scheduler := example_scheduler (with_runs example_opened [example_check]);
     br_detector := example_detector; br_queue_overflow := false; br_deferred_events := false; br_recovery_pending := [];
     br_last_loop_error := None |}.

Lemma example_checked_inv : runs_inv (store_of example_checked).
Proof.
  split.
  - unfold unique_runs. cbn. apply NoDup_singleton.
  - cbn. intros r Hr [x Hx]. by apply list_elem_of_singleton in Hr as ->.
  - intros m t (r & Hr & Hk & _). cbn in Hr. apply list_elem_of_singleton in Hr as ->. by destruct m.
Qed.

Lemma later_live_updates_ignored_witness :
  exists o s', _process_event example_world example_trading_config example_builder example_candles example_update example_checked = (Done o, s') /\
    _should_ack o = true /\ (pp_status <$> db_positions (store_of s')) = [PP_OPEN].
Proof.
  destruct (market_event_job_name example_world example_update) as [job|] eqn:Ej; [|by vm_compute in Ej].
  destruct (build_intraday_stop_context example_builder "BTC" (observed_candle example_update example_live)) as [stops|] eqn:Eb; [|by vm_compute in Eb].
  destruct (insert_run (wo_uuid example_world 1) job 0 (wo_now example_world 0) (store_of example_checked)) as [[[run b] db]|] eqn:Ei.
  2: by vm_compute in Ej; injection Ej as <-; vm_compute in Ei.
  destruct b; [|by vm_compute in Ej; injection Ej as <-; vm_compute in Ei].
  destruct (later_live_updates_ignored example_world example_trading_config example_builder example_candles example_update example_live
    stops job run db example_checked) as (o & s' & H1 & H2 & H3); [apply example_checked_inv|done|done|exact Ej| |exact Eb| | |exact Ei|].
  - vm_compute. reflexivity.
  - exists example_check. split; [apply list_elem_of_singleton; reflexivity|split; reflexivity].
  - vm_compute in Ej. injection Ej as <-. vm_compute. reflexivity.
  - exists o, s'. split; [done|]. split; [done|]. rewrite H3. vm_compute. reflexivity.
Defined.
