(* ===== verification/WalkForward.v ===== *)
(** * Walk-forward folds (services/research/walk_forward.py)

    The evaluable part of a period is cut into consecutive windows.  Each window
    has the history before it as feature context, and an embargo between it and
    the labels it may learn from.  A [date] is its day number; the constructor
    and the arithmetic of dates raise outside the years 1 to 9999. *)
From Stdlib Require Import ZArith Lia.
From stdpp Require Import base list strings pretty.
From S2P Require Import Prelude StrategyModels BtData Timeframes.

Local Open Scope Z_scope.

(** ** Dates *)

Definition MINYEAR : Z := 1.
Definition MAXYEAR : Z := 9999.
Definition DATE_MIN : Z := days_from_civil (MINYEAR, 1, 1).
Definition DATE_MAX : Z := days_from_civil (MAXYEAR, 12, 31).

Definition isleap (year : Z) : bool := (year mod 4 =? 0) && (negb (year mod 100 =? 0) || (year mod 400 =? 0)).

(** [calendar.monthrange(year, month)[1]]. *)
Definition monthrange (year month : Z) : Z :=
  if month =? 2 then (if isleap year then 29 else 28)
  else if (month =? 4) || (month =? 6) || (month =? 9) || (month =? 11) then 30 else 31.

(** [date(year, month, day)]. *)
Definition date (year month day : Z) : res Z :=
  if (MINYEAR <=? year) && (year <=? MAXYEAR) && (1 <=? month) && (month <=? 12) && (1 <=? day) && (day <=? monthrange year month)
  then Ok (days_from_civil (year, month, day)) else Raise (ValueError "date out of range").

(** [d + timedelta(days=n)]. *)
Definition date_add (d n : Z) : res Z :=
  if (DATE_MIN <=? d + n) && (d + n <=? DATE_MAX) then Ok (d + n) else Raise OverflowError.

Inductive DateOrTime := IsDate (d : Z) | IsDatetime (t : datetime).

Definition _as_date (value : DateOrTime) : Z :=
  match value with IsDate d => d | IsDatetime t => day_number t end.

Definition _month_start (year month : Z) : res Z := date year month 1.

Definition _month_end (year month : Z) : res Z := date year month (monthrange year month).

Definition _next_month (year month : Z) : Z * Z := if month =? 12 then (year + 1, 1) else (year, month + 1).

(** The month of a date, or the next one when the date is not its first day. *)
Definition first_full_month (d : Z) : Z * Z :=
  let '(y, m, day) := civil_from_days d in
  if day =? 1 then (y, m) else _next_month y m.

(** More rounds than there are months. *)
Definition MONTHS_FUEL : positive := 120002.

Definition run_months {S R} (body : S -> S + res R) (s : S) : res R :=
  match loop body MONTHS_FUEL s with inr r => r | inl _ => Raise LoopFuel end.

(** ** The warmup *)

Definition count_body (context_start context_end : Z) (s : Z * Z * Z) : Z * Z * Z + res Z :=
  let '(y, m, count) := s in
  match _month_start y m with
  | Raise e => inr (Raise e)
  | Ok start_m =>
      match _month_end y m with
      | Raise e => inr (Raise e)
      | Ok end_m =>
          if context_end <? start_m then inr (Ok count)
          else if context_end <? end_m then inr (Ok count)
          else inl (_next_month y m, if context_start <=? start_m then count + 1 else count)
      end
  end.

Definition count_completed_monthly_candles (context_start context_end : Z) : res Z :=
  if context_end <? context_start then Ok 0
  else run_months (count_body context_start context_end) (first_full_month context_start, 0).

Definition earliest_body (range_start monthly_bars : Z) (s : Z * Z * Z) : Z * Z * Z + res Z :=
  let '(y, m, completed) := s in
  if negb (completed <? monthly_bars) then inr (Raise (RuntimeError "monthly warmup search failed"))
  else
    match _month_start y m with
    | Raise e => inr (Raise e)
    | Ok start_m =>
        match _month_end y m with
        | Raise e => inr (Raise e)
        | Ok end_m =>
            let completed' := if range_start <=? start_m then completed + 1 else completed in
            if (range_start <=? start_m) && (completed' =? monthly_bars) then inr (date_add end_m 1)
            else inl (_next_month y m, completed')
        end
    end.

Definition earliest_eval_start_for_monthly_warmup (range_start monthly_bars : Z) : res Z :=
  if monthly_bars <? 1 then Raise (ValueError "monthly_bars must be >= 1")
  else run_months (earliest_body range_start monthly_bars) (first_full_month range_start, 0).

(** ** The folds *)

Record WalkForwardFold := {
  wf_fold_id : string;
  wf_feature_context_start : Z;
  wf_feature_context_end : Z;
  wf_label_context_start : Z;
  wf_label_context_end : Z;
  wf_embargo_start : Z;
  wf_embargo_end : Z;
  wf_eval_start : Z;
  wf_eval_end : Z;
}.

(** [f"fold_{n:02d}"], for less than a hundred folds. *)
Definition fold_id (n : Z) : string := ("fold_" ++ if (n <? 100)%Z then pad_digits 2 n else pretty n)%string.

Definition embargo_window (start eval_start feature_context_end embargo_days : Z) : res (Z * Z) :=
  if embargo_days =? 0 then Ok (eval_start, feature_context_end)
  else
    embargo_start ← date_add eval_start (- embargo_days);
    label_context_end ← date_add embargo_start (-1);
    Ok (embargo_start, label_context_end).

Definition plan_fold (start base rem embargo_days bars : Z) (warmup_days : option Z) (s : Z * list WalkForwardFold) (i : nat)
    : res (Z * list WalkForwardFold) :=
  let '(cursor, folds) := s in
  let length := base + (if Z.of_nat i <? rem then 1 else 0) in
  let eval_start := cursor in
  eval_end ← date_add cursor (length - 1);
  feature_context_end ← date_add eval_start (-1);
  completed ← count_completed_monthly_candles start feature_context_end;
  if completed <? bars then Raise (ValueError "completed monthly candles")
  else if match warmup_days with Some days => feature_context_end - start + 1 <? days | None => false end then
    Raise (ValueError "feature context span")
  else
    '(embargo_start, label_context_end) ← embargo_window start eval_start feature_context_end embargo_days;
    if label_context_end <? start then Raise (ValueError "embargo leaves no label context before eval")
    else
      let fold := {| wf_fold_id := fold_id (Z.of_nat i + 1); wf_feature_context_start := start;
                     wf_feature_context_end := feature_context_end; wf_label_context_start := start;
                     wf_label_context_end := label_context_end; wf_embargo_start := embargo_start;
                     wf_embargo_end := feature_context_end; wf_eval_start := eval_start; wf_eval_end := eval_end |} in
      cursor ← date_add eval_end 1;
      Ok (cursor, folds ++ [fold]).

Definition first_evaluation (start bars : Z) (warmup_days : option Z) : res Z :=
  first ← earliest_eval_start_for_monthly_warmup start bars;
  match warmup_days with
  | None => Ok first
  | Some days => warm ← date_add start days; Ok (Z.max first warm)
  end.

Definition plan_walk_forward_folds (range_start range_end : DateOrTime) (n_folds embargo_days bars : Z)
    (warmup_days : option Z) : res (list WalkForwardFold) :=
  let start := _as_date range_start in
  let stop := _as_date range_end in
  if stop <? start then Raise (ValueError "range_end must be >= range_start")
  else if n_folds <? 1 then Raise (ValueError "n_folds must be >= 1")
  else if embargo_days <? 0 then Raise (ValueError "embargo_days must be >= 0")
  else if bars <? 1 then Raise (ValueError "feature_warmup_monthly_bars must be >= 1")
  else if match warmup_days with Some days => days <? 1 | None => false end then
    Raise (ValueError "feature_warmup_days must be >= 1 when set")
  else
    first ← first_evaluation start bars warmup_days;
    if stop <? first then Raise (ValueError "range too short for feature warmup before first eval")
    else
      let total_days := stop - first + 1 in
      if total_days <? n_folds then Raise (ValueError "evaluable range shorter than n_folds after warmup")
      else
        let base := total_days / n_folds in
        let rem := total_days mod n_folds in
        '(_, folds) ← foldM (plan_fold start base rem embargo_days bars warmup_days) (seq 0 (Z.to_nat n_folds)) (first, []);
        Ok folds.

(** ** Months by their index *)

Definition month_at (k : Z) : Z * Z := (k / 12, k mod 12 + 1).

(** The index of the first month that starts on or after a date. *)
Definition full_month_index (d : Z) : Z :=
  if (civil_from_days d).2 =? 1 then month_index d else month_index d + 1.

Lemma month_at_next k : _next_month (k / 12) (k mod 12 + 1) = month_at (k + 1).
Proof.
  unfold _next_month, month_at. destruct (Z.eqb_spec (k mod 12 + 1) 12) as [E|E]; f_equal; Z.to_euclidean_division_equations; lia.
Qed.

Lemma first_full_month_at d : first_full_month d = month_at (full_month_index d).
Proof.
  unfold first_full_month, full_month_index, month_index. pose proof (proj1 (civil_from_days_ok d)) as [Hm _].
  destruct (civil_from_days d) as [[y m] day]. cbn in *.
  assert (Hk : month_at (12 * y + (m - 1)) = (y, m)) by (unfold month_at; f_equal; Z.to_euclidean_division_equations; lia).
  destruct (day =? 1); [done|]. rewrite <- month_at_next. f_equal; injection Hk; lia.
Qed.

Lemma monthrange_bounds y m : 28 <= monthrange y m <= 31.
Proof. unfold monthrange. repeat case_match; lia. Qed.

Lemma leap_spec y : (if isleap y then 1 else 0) = y / 4 - y / 100 + y / 400 - ((y - 1) / 4 - (y - 1) / 100 + (y - 1) / 400).
Proof.
  unfold isleap. destruct (Z.eqb_spec (y mod 4) 0), (Z.eqb_spec (y mod 100) 0), (Z.eqb_spec (y mod 400) 0); cbn;
    Z.to_euclidean_division_equations; lia.
Qed.

(** Computes the closed comparisons and quotients of the goal. *)
Ltac eval_closed :=
  repeat match goal with
  | |- context [(?a <=? ?b)] => let v := eval vm_compute in (a <=? b) in change (a <=? b) with v
  | |- context [(?a =? ?b)] => let v := eval vm_compute in (a =? b) in change (a =? b) with v
  | |- context [(?a / 5)] => let v := eval vm_compute in (a / 5) in progress change (a / 5) with v
  end.

(** The month of index [k] has [monthrange] days. *)
Lemma month_length k : first_of k + monthrange (k / 12) (k mod 12 + 1) = first_of (k + 1).
Proof.
  pose proof (Z.mod_pos_bound k 12 ltac:(lia)). pose proof (Z.div_mod k 12 ltac:(lia)).
  set (y := k / 12) in *. set (m := k mod 12) in *.
  replace k with (12 * y + (m + 1 - 1)) at 1 2 by lia. rewrite first_of_next, first_of_index by lia.
  assert (Hy : year_start y = year_start (y - 1) + 365 + (if isleap y then 1 else 0)) by (rewrite leap_spec; unfold year_start; lia).
  unfold monthrange. rewrite days_from_civil_start.
  assert (Hc : m = 0 \/ m = 1 \/ m = 2 \/ m = 3 \/ m = 4 \/ m = 5 \/ m = 6 \/ m = 7 \/ m = 8 \/ m = 9 \/ m = 10 \/ m = 11) by lia.
  clear H H0. clearbody m y.
  repeat destruct Hc as [Hc|Hc]; rewrite Hc; eval_closed; cbn [orb]; cbn iota; rewrite days_from_civil_start;
    eval_closed; cbn iota; rewrite ?Z.add_simpl_r; destruct (isleap y); lia.
Qed.

Lemma date_bounds : DATE_MIN = first_of 12 /\ DATE_MAX = first_of 120000 - 1.
Proof. split; vm_compute; reflexivity. Qed.

Lemma date_add_cases d n : date_add d n = Ok (d + n) \/ exists e, date_add d n = Raise e.
Proof. unfold date_add. destruct ((DATE_MIN <=? d + n) && (d + n <=? DATE_MAX)); [by left|right; by eexists]. Qed.

Lemma date_add_ok d n : DATE_MIN <= d + n <= DATE_MAX -> date_add d n = Ok (d + n).
Proof. intros H. unfold date_add. by rewrite !(proj2 (Z.leb_le _ _)) by lia. Qed.

Lemma year_of_month k : (MINYEAR <=? k / 12) && (k / 12 <=? MAXYEAR) = bool_decide (12 <= k < 120000).
Proof.
  unfold MINYEAR, MAXYEAR. case_bool_decide as E.
  - apply andb_true_iff. rewrite !Z.leb_le. Z.to_euclidean_division_equations; lia.
  - apply andb_false_iff. rewrite !Z.leb_gt. Z.to_euclidean_division_equations; lia.
Qed.

Lemma date_in_month k d :
  1 <= d <= monthrange (k / 12) (k mod 12 + 1) ->
  date (k / 12) (k mod 12 + 1) d = if bool_decide (12 <= k < 120000) then Ok (first_of k + d - 1) else Raise (ValueError "date out of range").
Proof.
  intros Hd. unfold date. rewrite year_of_month. pose proof (Z.mod_pos_bound k 12 ltac:(lia)).
  rewrite !(proj2 (Z.leb_le _ _)) by lia. rewrite !andb_true_r. case_bool_decide; [|done].
  unfold first_of. by rewrite !days_from_civil_start, Z.add_simpl_r.
Qed.

Lemma month_start_at k :
  _month_start (k / 12) (k mod 12 + 1) = if bool_decide (12 <= k < 120000) then Ok (first_of k) else Raise (ValueError "date out of range").
Proof.
  unfold _month_start. rewrite date_in_month by (pose proof (monthrange_bounds (k / 12) (k mod 12 + 1)); lia).
  by rewrite Z.add_simpl_r.
Qed.

Lemma month_end_at k :
  _month_end (k / 12) (k mod 12 + 1) = if bool_decide (12 <= k < 120000) then Ok (first_of (k + 1) - 1) else Raise (ValueError "date out of range").
Proof.
  unfold _month_end. rewrite date_in_month by (pose proof (monthrange_bounds (k / 12) (k mod 12 + 1)); lia).
  by rewrite <- month_length.
Qed.

Lemma first_of_le j k : j <= k -> first_of j <= first_of k.
Proof. intros H. destruct (decide (j = k)) as [->|]; [lia|]. pose proof (first_of_mono j k ltac:(lia)). pose proof (first_of_succ j). lia. Qed.

Lemma month_index_unique n k : first_of k <= n < first_of (k + 1) -> month_index n = k.
Proof.
  intros H. pose proof (month_contains n) as Hn. destruct (Z.lt_trichotomy (month_index n) k) as [Hl|[|Hl]]; [|done|].
  - pose proof (first_of_mono _ _ Hl). lia.
  - pose proof (first_of_mono _ _ Hl). lia.
Qed.

Lemma full_month_spec d : first_of (full_month_index d - 1) < d <= first_of (full_month_index d).
Proof.
  unfold full_month_index. pose proof (month_contains d) as H. destruct (Z.eqb_spec (civil_from_days d).2 1) as [E|E].
  - pose proof (first_of_month_index d E). pose proof (first_of_succ (month_index d - 1)). rewrite Z.sub_add in *. lia.
  - rewrite Z.add_simpl_r. split; [|lia]. destruct (decide (d = first_of (month_index d))) as [Heq|]; [|lia].
    destruct E. rewrite Heq. by apply month_index_first.
Qed.

(** ** The warmup in closed form *)

(** The months of the loops lie in the calendar or just after it. *)
Definition month_state (s : Z * Z * Z) (k : Z) : Prop := s.1 = month_at k /\ 12 <= k <= 120000.

(** A loop over months ends: each round moves on by a month. *)
Lemma run_months_returns {S R} (body : S -> S + res R) (index : S -> Z) (P : S -> Prop) (Q : res R -> Prop) s :
  (forall s, P s -> 0 <= index s <= 120000) ->
  (forall s, P s -> match body s with inl s' => P s' /\ index s' = index s + 1 | inr r => Q r end) ->
  P s -> Q (run_months body s).
Proof.
  intros Hb Hstep HP. unfold run_months.
  destruct (loop_total body P Q) with (m := fun s => 120000 - index s) (n := MONTHS_FUEL) (s := s) as (r & -> & Hr); [| |done| | |done].
  - intros u Hu. specialize (Hstep u Hu). destruct (body u); [apply Hstep|done].
  - intros u v Hu E. specialize (Hstep u Hu). rewrite E in Hstep. lia.
  - intros u Hu. specialize (Hb u Hu). lia.
  - specialize (Hb s HP). unfold MONTHS_FUEL. lia.
Qed.

Lemma count_completed_spec cs ce :
  12 <= full_month_index cs < 120000 -> ce < DATE_MAX ->
  count_completed_monthly_candles cs ce = Ok (Z.max 0 (month_index (ce + 1) - full_month_index cs)).
Proof.
  intros Hk Hce. rewrite (proj2 date_bounds) in Hce. pose proof (full_month_spec cs) as Hcs. set (k0 := full_month_index cs) in *.
  unfold count_completed_monthly_candles. destruct (Z.ltb_spec ce cs) as [Hlt|Hge].
  { f_equal. enough (month_index (ce + 1) <= k0) by lia. destruct (Z.le_gt_cases (month_index (ce + 1)) k0) as [|Hgt]; [done|].
    pose proof (first_of_mono _ _ Hgt). pose proof (month_contains (ce + 1)). pose proof (first_of_succ k0). lia. }
  rewrite first_full_month_at. fold k0.
  refine (run_months_returns (count_body cs ce) (fun s => k0 + s.2)
    (fun s => s.1 = month_at (k0 + s.2) /\ 0 <= s.2 /\ (0 < s.2 -> first_of (k0 + s.2) <= ce + 1) /\ k0 + s.2 < 120000)
    (fun r => r = Ok (Z.max 0 (month_index (ce + 1) - k0))) (month_at k0, 0) _ _ _).
  - intros s. lia.
  - intros [ym n] (Hym & Hn & Hfirst & Hlast). cbn [fst snd] in Hym, Hn, Hfirst, Hlast. subst ym. cbn [fst snd]. set (k := k0 + n) in *.
    unfold count_body, month_at. rewrite month_start_at, month_end_at, bool_decide_eq_true_2 by lia.
    pose proof (first_of_succ k). pose proof (first_of_le k0 k ltac:(lia)).
    destruct (Z.ltb_spec ce (first_of k)) as [H1|H1]; [|destruct (Z.ltb_spec ce (first_of (k + 1) - 1)) as [H2|H2]].
    + f_equal. destruct (decide (n = 0)) as [->|].
      * enough (month_index (ce + 1) <= k0) by lia. destruct (Z.le_gt_cases (month_index (ce + 1)) k0) as [|Hgt]; [done|].
        pose proof (first_of_mono _ _ Hgt). pose proof (month_contains (ce + 1)). assert (k = k0) as Hkk by lia. rewrite Hkk in *. lia.
      * rewrite (month_index_unique (ce + 1) k) by lia. lia.
    + f_equal. rewrite (month_index_unique (ce + 1) k) by lia. lia.
    + rewrite (proj2 (Z.leb_le cs (first_of k))) by lia. cbn [fst snd]. rewrite month_at_next.
      replace (k0 + (n + 1)) with (k + 1) by lia. split_and!; [done|lia|lia| |lia].
      destruct (Z.lt_ge_cases (k + 1) 120000) as [|Hge']; [done|]. pose proof (first_of_le _ _ Hge'). lia.
  - cbn [fst snd]. rewrite Z.add_0_r. split_and!; [done|lia|lia|lia].
Qed.

(** The warmup ends where the required months do, unless the calendar ends before. *)
Lemma earliest_spec start bars :
  1 <= bars -> 12 <= full_month_index start <= 120000 ->
  earliest_eval_start_for_monthly_warmup start bars =
    let k := full_month_index start + bars in
    if bool_decide (k < 120000) then Ok (first_of k)
    else if bool_decide (k = 120000) then Raise OverflowError else Raise (ValueError "date out of range").
Proof.
  intros Hbars Hk. pose proof (full_month_spec start) as Hs. unfold earliest_eval_start_for_monthly_warmup.
  rewrite (proj2 (Z.ltb_ge _ _)) by lia. rewrite first_full_month_at. set (k0 := full_month_index start) in *. cbv zeta.
  refine (run_months_returns (earliest_body start bars) (fun s => k0 + s.2)
    (fun s => s.1 = month_at (k0 + s.2) /\ 0 <= s.2 < bars /\ k0 + s.2 <= 120000)
    (fun r => r = if bool_decide (k0 + bars < 120000) then Ok (first_of (k0 + bars))
                  else if bool_decide (k0 + bars = 120000) then Raise OverflowError else Raise (ValueError "date out of range"))
    (month_at k0, 0) _ _ _).
  - intros s. lia.
  - intros [ym n] (Hym & Hn & Hlast). cbn [fst snd] in Hym, Hn, Hlast. subst ym. cbn [fst snd]. set (k := k0 + n) in *.
    unfold earliest_body, month_at. rewrite (proj2 (Z.ltb_lt _ _)) by lia. cbn [negb]. rewrite month_start_at, month_end_at.
    case_bool_decide as Hin.
    2: { rewrite !bool_decide_eq_false_2 by lia. done. }
    pose proof (first_of_le k0 k ltac:(lia)). rewrite (proj2 (Z.leb_le start (first_of k))) by lia. cbn [andb].
    destruct (Z.eqb_spec (n + 1) bars) as [E|E].
    + replace (k0 + bars) with (k + 1) by lia. unfold date_add. rewrite Z.sub_add. destruct date_bounds as [-> ->].
      pose proof (first_of_le 12 (k + 1) ltac:(lia)). rewrite (proj2 (Z.leb_le (first_of 12) _)) by lia. cbn [andb].
      destruct (decide (k + 1 < 120000)) as [Hk1|Hk1].
      * rewrite bool_decide_eq_true_2 by done. pose proof (first_of_mono (k + 1) 120000 Hk1). pose proof (first_of_succ (k + 1)).
        by rewrite (proj2 (Z.leb_le _ _)) by lia.
      * rewrite bool_decide_eq_false_2 by lia. assert (k + 1 = 120000) as -> by lia. rewrite bool_decide_eq_true_2 by done.
        by rewrite (proj2 (Z.leb_gt _ _)) by lia.
    + cbn [fst snd]. rewrite month_at_next. replace (k0 + (n + 1)) with (k + 1) by lia. split_and!; [done|lia|lia|lia|lia].
  - cbn [fst snd]. rewrite Z.add_0_r. split_and!; [done|lia|lia|lia].
Qed.

#[local] Opaque count_completed_monthly_candles first_of days_from_civil month_index DATE_MIN DATE_MAX.

(** ** The plan in closed form *)

Section Plan.
Context (start stop n embargo bars : Z) (warmup : option Z).

Definition first_eval : Z :=
  Z.max (first_of (full_month_index start + bars)) (match warmup with Some days => start + days | None => start end).

Definition evaluable_days : Z := stop - first_eval + 1.

(** The start of window [i]: the first windows are one day longer. *)
Definition window_start (i : Z) : Z := first_eval + i * (evaluable_days / n) + Z.min i (evaluable_days mod n).

Definition planned_fold (i : nat) : WalkForwardFold :=
  let s := window_start (Z.of_nat i) in
  {| wf_fold_id := fold_id (Z.of_nat i + 1); wf_feature_context_start := start; wf_feature_context_end := s - 1;
     wf_label_context_start := start; wf_label_context_end := s - embargo - 1; wf_embargo_start := s - embargo;
     wf_embargo_end := s - 1; wf_eval_start := s; wf_eval_end := window_start (Z.of_nat i + 1) - 1 |}.

Definition planned_folds : list WalkForwardFold := planned_fold <$> seq 0 (Z.to_nat n).

(** The requests that have a plan. *)
Record plannable : Prop := {
  pl_folds : 1 <= n <= evaluable_days;
  pl_bars : 1 <= bars;
  pl_warmup : match warmup with Some days => 1 <= days | None => True end;
  pl_embargo : 0 <= embargo < first_eval - start;
  pl_range : start <= stop;
}.

Context (Hstart : DATE_MIN <= start) (Hstop : stop < DATE_MAX) (Hle : start <= stop).

Lemma full_month_range : 12 <= full_month_index start <= 120000.
Proof.
  pose proof (full_month_spec start) as H. destruct date_bounds as [Hmin Hmax]. split.
  - destruct (Z.lt_ge_cases (full_month_index start) 12) as [Hlt|]; [|lia]. pose proof (first_of_mono _ _ Hlt). pose proof (first_of_succ (full_month_index start)). lia.
  - destruct (Z.le_gt_cases (full_month_index start) 120000) as [|Hgt]; [done|].
    pose proof (first_of_mono 120000 (full_month_index start) Hgt).
    pose proof (first_of_le 120000 (full_month_index start - 1) ltac:(lia)). lia.
Qed.

Lemma first_evaluation_spec :
  1 <= bars -> match warmup with Some days => 1 <= days | None => True end ->
  start < first_eval /\
  (first_evaluation start bars warmup = Ok first_eval \/ DATE_MAX < first_eval /\ exists e, first_evaluation start bars warmup = Raise e).
Proof.
  intros Hb Hw. pose proof full_month_range as Hk. pose proof (full_month_spec start) as Hs.
  pose proof (first_of_mono (full_month_index start) (full_month_index start + bars) ltac:(lia)) as Hm.
  pose proof (first_of_succ (full_month_index start)) as Hsucc. split; [unfold first_eval; lia|].
  unfold first_evaluation. rewrite (earliest_spec start bars Hb Hk). cbv zeta. set (k := full_month_index start + bars) in *.
  destruct date_bounds as [Hmin Hmax]. case_bool_decide as E.
  - destruct warmup as [days|] eqn:Ew; cbn [mbind res_bind].
    + unfold date_add. rewrite (proj2 (Z.leb_le DATE_MIN _)) by lia. cbn [andb]. destruct (Z.leb_spec (start + days) DATE_MAX); cbn [mbind res_bind].
      * left. unfold first_eval. by rewrite Ew.
      * right. split; [unfold first_eval; rewrite Ew; fold k; lia|by eexists].
    + left. unfold first_eval. rewrite Ew. fold k. f_equal. lia.
  - right. split.
    + pose proof (first_of_le 120000 k ltac:(lia)). unfold first_eval. fold k. lia.
    + case_bool_decide; by eexists.
Qed.

Context (Hn : 1 <= n <= evaluable_days).

Lemma window_start_0 : window_start 0 = first_eval.
Proof. unfold window_start. assert (0 <= evaluable_days mod n) by (apply Z.mod_pos_bound; lia). lia. Qed.

Lemma window_start_n : window_start n = stop + 1.
Proof.
  unfold window_start. pose proof (Z.mod_pos_bound evaluable_days n ltac:(lia)). pose proof (Z.div_mod evaluable_days n ltac:(lia)).
  rewrite Z.min_r by lia. unfold evaluable_days in *. lia.
Qed.

Lemma window_length i : 0 <= i ->
  window_start (i + 1) = window_start i + (evaluable_days / n + if i <? evaluable_days mod n then 1 else 0).
Proof. intros Hi. unfold window_start. destruct (Z.ltb_spec i (evaluable_days mod n)); lia. Qed.

Lemma window_nonempty i : 0 <= i -> window_start i < window_start (i + 1).
Proof.
  intros Hi. rewrite window_length by done. assert (1 <= evaluable_days / n) by (apply Z.div_le_lower_bound; lia).
  destruct (_ <? _); lia.
Qed.

Lemma window_mono i j : 0 <= i <= j -> window_start i <= window_start j.
Proof.
  intros H. assert (0 <= evaluable_days / n) by (apply Z.div_pos; lia). unfold window_start.
  assert (i * (evaluable_days / n) <= j * (evaluable_days / n)) by (apply Z.mul_le_mono_nonneg_r; lia). lia.
Qed.

Context (Hbars : 1 <= bars) (Hwarmup : match warmup with Some days => 1 <= days | None => True end).

Lemma warmup_done s :
  first_eval <= s < DATE_MAX ->
  (exists k, count_completed_monthly_candles start (s + -1) = Ok k /\ bars <= k) /\
  match warmup with Some days => s + -1 - start + 1 <? days | None => false end = false.
Proof.
  intros Hs. pose proof (first_evaluation_spec Hbars Hwarmup) as [Hfirst _]. pose proof date_bounds as [Hmin Hmax].
  pose proof full_month_range as Hk. assert (Hwarm : first_of (full_month_index start + bars) <= s) by (unfold first_eval in Hs; lia).
  assert (Hk' : full_month_index start + bars < 120000).
  { destruct (Z.lt_ge_cases (full_month_index start + bars) 120000) as [|Hge]; [done|]. pose proof (first_of_le _ _ Hge). lia. }
  split.
  - rewrite count_completed_spec by lia. eexists. split; [reflexivity|]. rewrite Z.add_simpl_r || replace (s + -1 + 1) with s by lia.
    pose proof (month_contains s). destruct (Z.le_gt_cases (full_month_index start + bars) (month_index s)) as [|Hgt]; [lia|].
    pose proof (first_of_mono _ _ Hgt). lia.
  - destruct warmup as [days|] eqn:Ew; [|done]. apply Z.ltb_ge. unfold first_eval in Hs. rewrite Ew in Hs. lia.
Qed.

Lemma embargo_window_spec s :
  start < s <= DATE_MAX -> 0 <= embargo ->
  if bool_decide (start + embargo < s) then embargo_window start s (s + -1) embargo = Ok (s - embargo, s - embargo - 1)
  else (exists e, embargo_window start s (s + -1) embargo = Raise e) \/
       exists es le, embargo_window start s (s + -1) embargo = Ok (es, le) /\ le < start.
Proof.
  intros Hs Hemb. unfold embargo_window. destruct (Z.eqb_spec embargo 0) as [->|Hne].
  - rewrite bool_decide_eq_true_2 by lia. by rewrite Z.sub_0_r.
  - case_bool_decide as E.
    + rewrite (date_add_ok s (- embargo)) by lia. cbn [mbind res_bind]. by rewrite date_add_ok by lia.
    + destruct (date_add_cases s (- embargo)) as [->|[e ->]]; [|left; by exists e]. cbn [mbind res_bind].
      destruct (date_add_cases (s + - embargo) (-1)) as [->|[e ->]]; [|left; by exists e]. right. eexists _, _. split; [reflexivity|lia].
Qed.

(** One round of the loop. *)
Lemma plan_fold_at base rem s len i folds :
  0 <= embargo -> first_eval <= s < DATE_MAX -> len = base + (if Z.of_nat i <? rem then 1 else 0) -> 1 <= len -> s + len <= DATE_MAX ->
  if bool_decide (start + embargo < s) then
    plan_fold start base rem embargo bars warmup (s, folds) i =
      Ok (s + len, folds ++ [{| wf_fold_id := fold_id (Z.of_nat i + 1); wf_feature_context_start := start;
        wf_feature_context_end := s + -1; wf_label_context_start := start; wf_label_context_end := s - embargo - 1;
        wf_embargo_start := s - embargo; wf_embargo_end := s + -1; wf_eval_start := s; wf_eval_end := s + (len - 1) |}])
  else exists e, plan_fold start base rem embargo bars warmup (s, folds) i = Raise e.
Proof.
  intros Hemb Hs Hlen Hpos Hmax. destruct (warmup_done s Hs) as [(k & Hk & Hle') Hw].
  pose proof (first_evaluation_spec Hbars Hwarmup) as [Hfirst _].
  pose proof (embargo_window_spec s ltac:(lia) Hemb) as Hew.
  unfold plan_fold. rewrite <- Hlen. rewrite (date_add_ok s (len - 1)) by lia. cbn [mbind res_bind]. rewrite (date_add_ok s (-1)) by lia.
  cbn [mbind res_bind]. rewrite Hk. cbn [mbind res_bind]. rewrite (proj2 (Z.ltb_ge k bars)) by lia. rewrite Hw.
  case_bool_decide as E.
  - rewrite Hew. cbn [mbind res_bind]. rewrite (proj2 (Z.ltb_ge _ start)) by lia. rewrite date_add_ok by lia. cbn [mbind res_bind].
    replace (s + (len - 1) + 1) with (s + len) by lia. reflexivity.
  - destruct Hew as [[e ->]|(es & le & -> & Hlt)]; [by exists e|]. cbn [mbind res_bind].
    rewrite (proj2 (Z.ltb_lt le start)) by lia. by eexists.
Qed.

Lemma plan_fold_spec i folds :
  0 <= embargo -> Z.of_nat i < n ->
  let s := window_start (Z.of_nat i) in
  if bool_decide (start + embargo < s) then
    plan_fold start (evaluable_days / n) (evaluable_days mod n) embargo bars warmup (s, folds) i =
      Ok (window_start (Z.of_nat i + 1), folds ++ [planned_fold i])
  else exists e, plan_fold start (evaluable_days / n) (evaluable_days mod n) embargo bars warmup (s, folds) i = Raise e.
Proof.
  intros Hemb Hi. cbv zeta. pose proof (window_mono 0 (Z.of_nat i) ltac:(lia)) as H0. rewrite window_start_0 in H0.
  pose proof (window_mono (Z.of_nat i + 1) n ltac:(lia)) as H1. rewrite window_start_n in H1.
  pose proof (window_nonempty (Z.of_nat i) ltac:(lia)) as H2. pose proof (window_length (Z.of_nat i) ltac:(lia)) as H3.
  unfold planned_fold. rewrite H3. set (s := window_start (Z.of_nat i)) in *.
  set (len := evaluable_days / n + (if Z.of_nat i <? evaluable_days mod n then 1 else 0)) in *.
  pose proof (plan_fold_at (evaluable_days / n) (evaluable_days mod n) s len i folds Hemb ltac:(lia) eq_refl ltac:(lia) ltac:(lia)) as H.
  case_bool_decide; [|done]. rewrite H. rewrite Z.add_sub_assoc. done.
Qed.

Lemma plan_folds_spec :
  0 <= embargo < first_eval - start ->
  foldM (plan_fold start (evaluable_days / n) (evaluable_days mod n) embargo bars warmup) (seq 0 (Z.to_nat n)) (first_eval, []) =
    Ok (stop + 1, planned_folds).
Proof.
  intros Hemb. unfold planned_folds.
  assert (H : forall j i, Z.of_nat (i + j) <= n ->
    foldM (plan_fold start (evaluable_days / n) (evaluable_days mod n) embargo bars warmup) (seq i j)
      (window_start (Z.of_nat i), planned_fold <$> seq 0 i) = Ok (window_start (Z.of_nat (i + j)), planned_fold <$> seq 0 (i + j))).
  { induction j as [|j IH]; intros i Hij; cbn [seq foldM]; [by rewrite Nat.add_0_r|].
    pose proof (plan_fold_spec i (planned_fold <$> seq 0 i) ltac:(lia) ltac:(lia)) as Hf. cbv zeta in Hf.
    pose proof (window_mono 0 (Z.of_nat i) ltac:(lia)) as H0. rewrite window_start_0 in H0.
    rewrite bool_decide_eq_true_2 in Hf by lia. rewrite Hf. cbn [mbind res_bind].
    specialize (IH (S i) ltac:(lia)). rewrite seq_S, fmap_app in IH. cbn [fmap list_fmap Nat.add] in IH.
    rewrite Nat2Z.inj_succ in IH. unfold Z.succ in IH. rewrite IH. by rewrite Nat.add_succ_r. }
  specialize (H (Z.to_nat n) 0%nat ltac:(lia)). cbn [seq fmap list_fmap Nat.add] in H. change (Z.of_nat 0) with 0 in H. rewrite window_start_0 in H.
  rewrite H. by rewrite Z2Nat.id, window_start_n by lia.
Qed.
End Plan.

(** ** Correctness of the plan *)

Lemma plan_closed_form range_start range_end n embargo bars warmup folds :
  let start := _as_date range_start in
  let stop := _as_date range_end in
  DATE_MIN <= start -> stop < DATE_MAX ->
  plan_walk_forward_folds range_start range_end n embargo bars warmup = Ok folds <->
  plannable start stop n embargo bars warmup /\ folds = planned_folds start stop n embargo bars warmup.
Proof.
  intros start stop Hmin Hmax. unfold plan_walk_forward_folds. fold start stop.
  destruct (Z.ltb_spec stop start) as [H1|H1]; [split; [done|intros [[] _]; lia]|].
  destruct (Z.ltb_spec n 1) as [H2|H2]; [split; [done|intros [[] _]; lia]|].
  destruct (Z.ltb_spec embargo 0) as [H3|H3]; [split; [done|intros [[] _]; lia]|].
  destruct (Z.ltb_spec bars 1) as [H4|H4]; [split; [done|intros [[] _]; lia]|].
  destruct (match warmup with Some days => days <? 1 | None => false end) eqn:H5.
  { split; [done|]. intros [[_ _ Hw _ _] _]. destruct warmup; [apply Z.ltb_lt in H5; lia|done]. }
  assert (Hw : match warmup with Some days => 1 <= days | None => True end) by (destruct warmup; [by apply Z.ltb_ge|done]).
  destruct (first_evaluation_spec start stop bars warmup Hmin Hmax H1 H4 Hw) as [Hfirst [-> | [Hbig [e ->]]]].
  2: { split; [done|]. intros [[Hn _ _ _ _] _]. unfold evaluable_days in Hn. lia. }
  cbn [mbind res_bind]. fold (evaluable_days start stop bars warmup).
  destruct (Z.ltb_spec stop (first_eval start bars warmup)) as [H6|H6].
  { split; [done|]. intros [[Hn _ _ _ _] _]. unfold evaluable_days in Hn. lia. }
  destruct (Z.ltb_spec (evaluable_days start stop bars warmup) n) as [H7|H7]; [split; [done|intros [[] _]; lia]|].
  destruct (decide (embargo < first_eval start bars warmup - start)) as [H8|H8].
  - rewrite (plan_folds_spec start stop n embargo bars warmup Hmin Hmax H1 (conj H2 H7) H4 Hw) by lia. cbn [mbind res_bind]. split.
    + intros [= <-]. split; [by constructor|done].
    + by intros [_ ->].
  - split; [|intros [[] _]; lia]. destruct (Z.to_nat n) as [|k] eqn:En; [lia|]. cbn [seq foldM].
    pose proof (plan_fold_spec start stop n embargo bars warmup Hmin Hmax H1 (conj H2 H7) H4 Hw 0 [] H3 ltac:(lia)) as H.
    cbv zeta in H. change (Z.of_nat 0) with 0 in H. rewrite (window_start_0 start stop n bars warmup (conj H2 H7)), bool_decide_eq_false_2 in H by lia.
    destruct H as [e H]. rewrite H. done.
Qed.

(** The windows partition the evaluable days. *)
Lemma windows_cover start stop n bars warmup d :
  1 <= n <= evaluable_days start stop bars warmup -> first_eval start bars warmup <= d <= stop ->
  exists i, (i < Z.to_nat n)%nat /\ window_start start stop n bars warmup (Z.of_nat i) <= d < window_start start stop n bars warmup (Z.of_nat i + 1).
Proof.
  intros Hn Hd. assert (H : forall k : nat, (k <= Z.to_nat n)%nat -> d < window_start start stop n bars warmup (Z.of_nat k) ->
    exists i, (i < k)%nat /\ window_start start stop n bars warmup (Z.of_nat i) <= d < window_start start stop n bars warmup (Z.of_nat i + 1)).
  { induction k as [|k IH]; intros Hk Hlt.
    - change (Z.of_nat 0) with 0 in Hlt. rewrite window_start_0 in Hlt by done. lia.
    - destruct (Z.lt_ge_cases d (window_start start stop n bars warmup (Z.of_nat k))) as [Hlt'|Hge].
      + destruct (IH ltac:(lia) Hlt') as (i & Hi & H). exists i. split; [lia|done].
      + exists k. rewrite Nat2Z.inj_succ in Hlt. unfold Z.succ in Hlt. split; [lia|done]. }
  apply H; [done|]. rewrite Z2Nat.id, window_start_n by lia. lia.
Qed.

(** What a fold promises: it is evaluated on days the labels and features do not see. *)
Record fold_sound (start embargo bars : Z) (f : WalkForwardFold) : Prop := {
  fs_eval : wf_eval_start f <= wf_eval_end f;
  fs_feature : wf_feature_context_start f = start /\ wf_feature_context_end f = wf_eval_start f - 1;
  fs_warm : exists k, count_completed_monthly_candles start (wf_feature_context_end f) = Ok k /\ bars <= k;
  fs_label : wf_label_context_start f = start /\ start <= wf_label_context_end f /\ wf_label_context_end f + embargo < wf_eval_start f;
}.

(** [C22] The folds of a plan do not leak: each one is evaluated after its feature
    context, which has the required complete months, and more than [embargo]
    days after the last label it may learn from; every evaluable day is in
    exactly one evaluation window, and the windows differ by at most a day. *)
Theorem folds_do_not_leak range_start range_end n embargo bars warmup folds :
  let start := _as_date range_start in
  let stop := _as_date range_end in
  DATE_MIN <= start -> stop < DATE_MAX -> plan_walk_forward_folds range_start range_end n embargo bars warmup = Ok folds ->
  Z.of_nat (length folds) = n /\ Forall (fold_sound start embargo bars) folds /\
  (forall d, first_eval start bars warmup <= d <= stop ->
     exists i f, folds !! i = Some f /\ wf_eval_start f <= d <= wf_eval_end f /\
       forall j g, folds !! j = Some g -> wf_eval_start g <= d <= wf_eval_end g -> j = i) /\
  (forall f g, f ∈ folds -> g ∈ folds -> wf_eval_end f - wf_eval_start f <= wf_eval_end g - wf_eval_start g + 1).
Proof.
  intros start stop Hmin Hmax Hplan.
  assert (Hp : plannable start stop n embargo bars warmup /\ folds = planned_folds start stop n embargo bars warmup)
    by (by apply plan_closed_form).
  destruct Hp as [[Hn Hb Hw Hemb Hle] ->]. unfold planned_folds.
  assert (Hl : forall i f, (planned_fold start stop n embargo bars warmup <$> seq 0 (Z.to_nat n)) !! i = Some f ->
    (i < Z.to_nat n)%nat /\ f = planned_fold start stop n embargo bars warmup i).
  { intros i f Hf. apply list_lookup_fmap_Some in Hf as (k & -> & Hk). apply lookup_seq in Hk as [-> Hk]. done. }
  assert (Hlen : forall f, f ∈ planned_fold start stop n embargo bars warmup <$> seq 0 (Z.to_nat n) ->
    exists i, (i < Z.to_nat n)%nat /\ f = planned_fold start stop n embargo bars warmup i) by (intros f (i & Hi)%list_elem_of_lookup; exists i; by apply Hl).
  split_and!.
  - rewrite length_fmap, length_seq. lia.
  - apply Forall_forall. intros f (i & Hi & ->)%Hlen.
    pose proof (window_nonempty start stop n bars warmup Hn (Z.of_nat i) ltac:(lia)) as Hne.
    pose proof (window_mono start stop n bars warmup Hn 0 (Z.of_nat i) ltac:(lia)) as H0. rewrite window_start_0 in H0 by done.
    pose proof (window_mono start stop n bars warmup Hn (Z.of_nat i + 1) n ltac:(lia)) as H1. rewrite window_start_n in H1 by done.
    constructor; cbn [planned_fold wf_eval_start wf_eval_end wf_feature_context_start wf_feature_context_end wf_label_context_start wf_label_context_end]; try lia.
    apply (warmup_done start stop bars warmup Hmin Hmax Hle Hb Hw). lia.
  - intros d Hd. destruct (windows_cover start stop n bars warmup d Hn Hd) as (i & Hi & Hdi).
    exists i, (planned_fold start stop n embargo bars warmup i). split_and!; cbn; [|lia|lia|].
    + rewrite list_lookup_fmap, lookup_seq_lt by done. done.
    + intros j g [Hj ->]%Hl Hdj. cbn in Hdj.
      pose proof (window_mono start stop n bars warmup Hn) as Hm. destruct (lt_eq_lt_dec i j) as [[Hij|]|Hij]; [|done|].
      * pose proof (Hm (Z.of_nat i + 1) (Z.of_nat j) ltac:(lia)). lia.
      * pose proof (Hm (Z.of_nat j + 1) (Z.of_nat i) ltac:(lia)). lia.
  - intros f g (i & Hi & ->)%Hlen (j & Hj & ->)%Hlen. cbn [planned_fold wf_eval_start wf_eval_end].
    rewrite !window_length by (done || lia). destruct (_ <? _), (_ <? _); lia.
Qed.

(** [C20] The planner decides which requests have a plan, and its loop computes
    the closed form: the evaluable days are those after [bars] complete months
    (and the optional days) of history, and they are cut into [n] windows of
    equal length, the first ones a day longer; everything else raises. *)
Theorem plan_walk_forward_exact range_start range_end n embargo bars warmup folds :
  let start := _as_date range_start in
  let stop := _as_date range_end in
  DATE_MIN <= start -> stop < DATE_MAX ->
  plan_walk_forward_folds range_start range_end n embargo bars warmup = Ok folds <->
  plannable start stop n embargo bars warmup /\ folds = planned_folds start stop n embargo bars warmup.
Proof. apply plan_closed_form. Qed.

(** ** An example: three years, twenty months of warmup, four windows *)

Definition example_from : DateOrTime := IsDate (days_from_civil (2022, 1, 1)).
Definition example_to : DateOrTime := IsDatetime (days_from_civil (2024, 12, 31) * DAY_US + seconds 86399).

Lemma example_range : DATE_MIN <= _as_date example_from /\ _as_date example_to < DATE_MAX.
Proof. split; vm_compute; [discriminate|reflexivity]. Qed.

Lemma example_plannable : plannable (_as_date example_from) (_as_date example_to) 4 30 20 None.
Proof.
  assert (He : first_eval 18993 20 None = days_from_civil (2023, 9, 1)) by (vm_compute; reflexivity).
  assert (Hs : _as_date example_from = 18993 /\ _as_date example_to = 20088 /\ days_from_civil (2023, 9, 1) = 19601)
    by (split_and!; vm_compute; reflexivity).
  destruct Hs as (-> & -> & Hd). rewrite Hd in He.
  constructor; [unfold evaluable_days| | | |]; lia.
Qed.

Lemma plan_walk_forward_exact_witness :
  exists folds, plan_walk_forward_folds example_from example_to 4 30 20 None = Ok folds /\
    (civil_from_days <$> (wf_eval_start <$> folds)) = [(2023, 9, 1); (2024, 1, 1); (2024, 5, 2); (2024, 9, 1)].
Proof.
  eexists. split.
  - apply (plan_walk_forward_exact example_from example_to 4 30 20 None); [apply example_range|apply example_range|].
    split; [apply example_plannable|reflexivity].
  - vm_compute. reflexivity.
Defined.

Lemma folds_do_not_leak_witness :
  exists folds, plan_walk_forward_folds example_from example_to 4 30 20 None = Ok folds /\
    Forall (fold_sound (_as_date example_from) 30 20) folds.
Proof.
  assert (H : plan_walk_forward_folds example_from example_to 4 30 20 None =
    Ok (planned_folds (_as_date example_from) (_as_date example_to) 4 30 20 None)) by (vm_compute; reflexivity).
  eexists. split; [exact H|].
  apply (folds_do_not_leak example_from example_to 4 30 20 None _ (proj1 example_range) (proj2 example_range) H).
Defined.
