(* ===== verification/CanonicalJson.v ===== *)
(** * Canonical JSON and SHA-256 (services/research/: gate_policy.py,
    validation_study.py, identity.py and their users)

    The research services identify evidence by the SHA-256 of a canonical JSON
    text: [json.dumps] with sorted keys, the separators ',' and ':' and no
    escaping of Unicode.  A [str] is the string of its UTF-8 bytes, whose order
    is the one of the code points.  The texts are shown to determine their
    values, so two values have the same digest only when they are equal or their
    texts are a collision of the hash; the identified values hold no floats. *)
From Stdlib Require Import ZArith Lia Strings.String Strings.Ascii DecimalString DecimalPos DecimalZ.
From stdpp Require Import base list strings sorting.
From S2P Require Import Prelude.

(** ** JSON values *)

Inductive jvalue :=
  | VNull
  | VBool (b : bool)
  | VInt (z : Z)
  | VFloat (repr : string)
  | VStr (s : string)
  | VArr (l : list jvalue)
  | VObj (o : list (string * jvalue)).

(** The induction principle that reaches the elements. *)
Lemma jvalue_nested_ind (P : jvalue -> Prop) :
  P VNull -> (forall b, P (VBool b)) -> (forall z, P (VInt z)) -> (forall r, P (VFloat r)) -> (forall s, P (VStr s)) ->
  (forall l, Forall P l -> P (VArr l)) -> (forall o, Forall (fun kv => P kv.2) o -> P (VObj o)) -> forall v, P v.
Proof.
  intros Hn Hb Hi Hf Hs Ha Ho. fix go 1. intros [|b|z|r|s|l|o]; [apply Hn|apply Hb|apply Hi|apply Hf|apply Hs| |].
  - apply Ha. induction l as [|x l IH]; constructor; [apply go|exact IH].
  - apply Ho. induction o as [|[k x] o IH]; constructor; [apply go|exact IH].
Qed.

(** ** The text *)

Local Open Scope string_scope.

Definition dquote : ascii := "034".
Definition backslash : ascii := "092".

Definition hex_digit (n : nat) : ascii := match String.get n "0123456789abcdef" with Some c => c | None => "0" end.

(** Control characters, the quote and the backslash are escaped. *)
Definition escape_char (c : ascii) : string :=
  let n := nat_of_ascii c in
  if bool_decide (c = dquote) then String backslash (String dquote "")
  else if bool_decide (c = backslash) then String backslash (String backslash "")
  else if bool_decide (n = 8) then String backslash "b"
  else if bool_decide (n = 9) then String backslash "t"
  else if bool_decide (n = 10) then String backslash "n"
  else if bool_decide (n = 12) then String backslash "f"
  else if bool_decide (n = 13) then String backslash "r"
  else if (n <? 32)%nat then String backslash ("u00" ++ String (hex_digit (n / 16)) (String (hex_digit (n mod 16)) ""))
  else String c "".

Fixpoint escape (s : string) : string :=
  match s with "" => "" | String c s => escape_char c ++ escape s end.

Definition quoted (s : string) : string := String dquote (escape s ++ String dquote "").

Fixpoint comma_separated (l : list string) : string :=
  match l with
  | [] => ""
  | [x] => x
  | x :: l => x ++ "," ++ comma_separated l
  end.

Definition int_text (z : Z) : string := NilEmpty.string_of_int (Z.to_int z).

Fixpoint json_text (v : jvalue) : string :=
  match v with
  | VNull => "null"
  | VBool true => "true"
  | VBool false => "false"
  | VInt z => int_text z
  | VFloat r => r
  | VStr s => quoted s
  | VArr l => "[" ++ comma_separated (json_text <$> l) ++ "]"
  | VObj o => "{" ++ comma_separated ((fun '(k, x) => quoted k ++ ":" ++ json_text x) <$> o) ++ "}"
  end.

(** [sorted(items)] by key, at every level; keys of a dict are distinct. *)
Definition key_le {A} (a b : string * A) : Prop := String.leb a.1 b.1 = true.
#[export] Instance key_le_dec {A} (a b : string * A) : Decision (key_le a b).
Proof. unfold key_le. apply _. Defined.

Definition sort_items {A} (o : list (string * A)) : list (string * A) := merge_sort key_le o.

Fixpoint sort_keys (v : jvalue) : jvalue :=
  match v with
  | VArr l => VArr (sort_keys <$> l)
  | VObj o => VObj (sort_items ((fun '(k, x) => (k, sort_keys x)) <$> o))
  | _ => v
  end.

Definition canonical_json (v : jvalue) : string := json_text (sort_keys v).

(** ** SHA-256 (hashlib.sha256), on the bytes of a string *)

Module Sha256.
Local Open Scope Z_scope.

Definition word (z : Z) : Z := z mod 4294967296.
Definition rotr (n x : Z) : Z := Z.lor (Z.shiftr x n) (word (Z.shiftl x (32 - n))).
Definition xor3 (a b c : Z) : Z := Z.lxor a (Z.lxor b c).

Definition big_sigma_a (x : Z) : Z := xor3 (rotr 2 x) (rotr 13 x) (rotr 22 x).
Definition big_sigma_e (x : Z) : Z := xor3 (rotr 6 x) (rotr 11 x) (rotr 25 x).
Definition small_sigma_0 (x : Z) : Z := xor3 (rotr 7 x) (rotr 18 x) (Z.shiftr x 3).
Definition small_sigma_1 (x : Z) : Z := xor3 (rotr 17 x) (rotr 19 x) (Z.shiftr x 10).
Definition choose (e f g : Z) : Z := Z.lxor (Z.land e f) (Z.land (4294967295 - e) g).
Definition majority (a b c : Z) : Z := xor3 (Z.land a b) (Z.land a c) (Z.land b c).

(** The round constants: fractions of the cube roots of the first 64 primes. *)
Definition round_constants : list Z :=
  [1116352408; 1899447441; 3049323471; 3921009573; 961987163; 1508970993; 2453635748; 2870763221;
   3624381080; 310598401; 607225278; 1426881987; 1925078388; 2162078206; 2614888103; 3248222580;
   3835390401; 4022224774; 264347078; 604807628; 770255983; 1249150122; 1555081692; 1996064986;
   2554220882; 2821834349; 2952996808; 3210313671; 3336571891; 3584528711; 113926993; 338241895;
   666307205; 773529912; 1294757372; 1396182291; 1695183700; 1986661051; 2177026350; 2456956037;
   2730485921; 2820302411; 3259730800; 3345764771; 3516065817; 3600352804; 4094571909; 275423344;
   430227734; 506948616; 659060556; 883997877; 958139571; 1322822218; 1537002063; 1747873779;
   1955562222; 2024104815; 2227730452; 2361852424; 2428436474; 2756734187; 3204031479; 3329325298].

Record state := mkst { sa : Z; sb : Z; sc : Z; sd : Z; se : Z; sf : Z; sg : Z; sh : Z }.

Definition initial : state :=
  mkst 1779033703 3144134277 1013904242 2773480762 1359893119 2600822924 528734635 1541459225.

(** One round with constant [k] and the first word of the schedule window. *)
Definition round (s : state) (k w : Z) : state :=
  let t1 := sh s + big_sigma_e (se s) + choose (se s) (sf s) (sg s) + k + w in
  let t2 := big_sigma_a (sa s) + majority (sa s) (sb s) (sc s) in
  mkst (word (t1 + t2)) (sa s) (sb s) (sc s) (word (sd s + t1)) (se s) (sf s) (sg s).

(** The window holds the last sixteen words of the schedule. *)
Definition next_word (window : list Z) : Z :=
  word (small_sigma_1 (nth 14 window 0) + nth 9 window 0 + small_sigma_0 (nth 1 window 0) + nth 0 window 0).

Fixpoint rounds (ks : list Z) (window : list Z) (s : state) : state :=
  match ks, window with
  | k :: ks, w :: rest => rounds ks (rest ++ [next_word window])%list (round s k w)
  | _, _ => s
  end.

Definition compress (s : state) (block : list Z) : state :=
  let r := rounds round_constants block s in
  mkst (word (sa s + sa r)) (word (sb s + sb r)) (word (sc s + sc r)) (word (sd s + sd r))
       (word (se s + se r)) (word (sf s + sf r)) (word (sg s + sg r)) (word (sh s + sh r)).

Fixpoint bytes_of (s : string) : list Z :=
  match s with "" => [] | String c s => Z.of_N (N_of_ascii c) :: bytes_of s end%string.

(** A one bit, zeros, and the length in bits as eight bytes. *)
Definition padded (msg : list Z) : list Z :=
  let n := Z.of_nat (List.length msg) in
  (msg ++ [128] ++ repeat 0%Z (Z.to_nat ((55 - n) mod 64)) ++ ((fun i => Z.shiftr (8 * n) (8 * i) mod 256)%Z <$> [7; 6; 5; 4; 3; 2; 1; 0]%Z))%list.

Fixpoint words_of (l : list Z) : list Z :=
  match l with
  | a :: b :: c :: d :: l => (16777216 * a + 65536 * b + 256 * c + d) :: words_of l
  | _ => []
  end.

Fixpoint blocks (n : nat) (ws : list Z) (s : state) : state :=
  match n with
  | O => s
  | S n => match ws with [] => s | _ => blocks n (drop 16 ws) (compress s (take 16 ws)) end
  end.

Fixpoint hex_text (digits : nat) (z : Z) : string :=
  match digits with
  | O => ""
  | S n => hex_text n (z / 16) ++ String (hex_digit (Z.to_nat (z mod 16))) ""
  end%string.

Definition state_text (s : state) : string :=
  (hex_text 8 (sa s) ++ hex_text 8 (sb s) ++ hex_text 8 (sc s) ++ hex_text 8 (sd s) ++
   hex_text 8 (se s) ++ hex_text 8 (sf s) ++ hex_text 8 (sg s) ++ hex_text 8 (sh s))%string.

(** [hashlib.sha256(text.encode("utf-8")).hexdigest()]. *)
Definition hexdigest (text : string) : string :=
  let ws := words_of (padded (bytes_of text)) in
  state_text (blocks (List.length ws) ws initial).
End Sha256.

(** The digests of the standard for the empty text and for "abc". *)
Example sha256_empty : Sha256.hexdigest "" = "e3b0c44298fc1c149afbf4c8996fb92427ae41e4649b934ca495991b7852b855".
Proof. vm_compute. reflexivity. Qed.
Example sha256_abc : Sha256.hexdigest "abc" = "ba7816bf8f01cfea414140de5dae2223b00361a396177a9cb410ff61f20015ad".
Proof. vm_compute. reflexivity. Qed.

Definition content_digest (payload : jvalue) : string := Sha256.hexdigest (canonical_json payload).

(** ** The text determines the value *)

Lemma string_app_cons c a b : String c a ++ b = String c (a ++ b).
Proof. reflexivity. Qed.

Lemma string_app_nil s : s ++ "" = s.
Proof. induction s as [|c s IH]; [done|]. by rewrite string_app_cons, IH. Qed.

Lemma string_app_assoc a b c : (a ++ b) ++ c = a ++ b ++ c.
Proof. induction a as [|x a IH]; [done|]. by rewrite !string_app_cons, IH. Qed.

Lemma string_app_empty s : "" ++ s = s.
Proof. reflexivity. Qed.

(** Brings a hypothesis on concatenations to its first character. *)
Ltac texts H := rewrite ?string_app_assoc, ?string_app_cons, ?string_app_empty in H.

(** *** Strings *)

(** The value of a hexadecimal digit. *)
Definition hex_value (c : ascii) : nat := let n := nat_of_ascii c in if (n <? 58)%nat then n - 48 else n - 87.

(** Reads one escaped character. *)
Definition read_char (s : string) : option (ascii * string) :=
  match s with
  | "" => None
  | String c s =>
      if bool_decide (c = dquote) then None
      else if bool_decide (c = backslash) then
        match s with
        | String "u" (String _ (String _ (String h (String l s)))) => Some (ascii_of_nat (16 * hex_value h + hex_value l), s)
        | String "b" s => Some ("008"%char, s)
        | String "t" s => Some ("009"%char, s)
        | String "n" s => Some ("010"%char, s)
        | String "f" s => Some ("012"%char, s)
        | String "r" s => Some ("013"%char, s)
        | String c s => Some (c, s)
        | "" => None
        end
      else Some (c, s)
  end.

Lemma read_escaped c r : read_char (escape_char c ++ r) = Some (c, r).
Proof. destruct c as [[] [] [] [] [] [] [] []]; reflexivity. Qed.

Lemma escape_inj s s' r r' : escape s ++ String dquote r = escape s' ++ String dquote r' -> s = s' /\ r = r'.
Proof.
  assert (Hend : forall c s r r', String dquote r <> (escape_char c ++ escape s) ++ r').
  { intros c u t t' H. rewrite string_app_assoc in H. pose proof (read_escaped c (escape u ++ t')) as Hc. rewrite <- H in Hc. discriminate Hc. }
  revert s'. induction s as [|c s IH]; intros [|c' s'] H; cbn [escape append] in H.
  - injection H as ->. done.
  - by destruct (Hend _ _ _ _ H).
  - symmetry in H. by destruct (Hend _ _ _ _ H).
  - rewrite !string_app_assoc in H. pose proof (read_escaped c (escape s ++ String dquote r)) as Hc. rewrite H, read_escaped in Hc.
    injection Hc as -> Hc. by destruct (IH s' (eq_sym Hc)) as [-> ->].
Qed.

Lemma quoted_inj s s' r r' : quoted s ++ r = quoted s' ++ r' -> s = s' /\ r = r'.
Proof. intros [= H]. rewrite !string_app_assoc in H. by apply escape_inj in H. Qed.

(** *** Integers *)

Definition numeric (c : ascii) : bool := bool_decide (c = "-"%char) || ((48 <=? nat_of_ascii c)%nat && (nat_of_ascii c <=? 57)%nat).

Fixpoint all_numeric (s : string) : bool := match s with "" => true | String c s => numeric c && all_numeric s end.

(** What follows a value in a text. *)
Definition delimited (r : string) : bool := match r with "" => true | String c _ => negb (numeric c) end.

Lemma uint_numeric d : all_numeric (NilEmpty.string_of_uint d) = true.
Proof. induction d; cbn; done. Qed.

Lemma int_text_numeric z : all_numeric (int_text z) = true.
Proof. unfold int_text. destruct (Z.to_int z) as [d|d]; cbn; apply uint_numeric. Qed.

Lemma numeric_prefix a a' r r' :
  all_numeric a = true -> all_numeric a' = true -> delimited r = true -> delimited r' = true -> a ++ r = a' ++ r' -> a = a' /\ r = r'.
Proof.
  intros Ha Ha' Hr Hr'. revert a' Ha'. induction a as [|c a IH]; intros [|c' a'] Ha' H.
  - done.
  - change (r = String c' (a' ++ r')) in H. subst r. cbn in Ha', Hr. apply andb_true_iff in Ha' as [Hc _]. rewrite Hc in Hr. done.
  - change (String c (a ++ r) = r') in H. subst r'. cbn in Ha, Hr'. apply andb_true_iff in Ha as [Hc _]. rewrite Hc in Hr'. done.
  - injection H as -> H. cbn in Ha, Ha'. apply andb_true_iff in Ha as [_ Ha], Ha' as [_ Ha']. by destruct (IH Ha a' Ha' H) as [-> ->].
Qed.

Lemma int_text_inj z z' r r' :
  delimited r = true -> delimited r' = true -> int_text z ++ r = int_text z' ++ r' -> z = z' /\ r = r'.
Proof.
  intros Hr Hr' H. apply numeric_prefix in H as [H ->]; [|apply int_text_numeric|apply int_text_numeric|done|done]. split; [|done].
  unfold int_text in H. assert (Hd : Some (Z.to_int z) = Some (Z.to_int z')) by (by rewrite <- !NilEmpty.isi, H).
  injection Hd as Hd. by apply to_int_inj.
Qed.

Lemma int_text_head z : exists c s, int_text z = String c s /\ numeric c = true.
Proof.
  pose proof (int_text_numeric z) as H. destruct (int_text z) as [|c s] eqn:E; [|cbn in H; apply andb_true_iff in H as [H _]; by exists c, s].
  unfold int_text in E. pose proof (NilEmpty.isi (Z.to_int z)) as Hi. rewrite E in Hi.
  destruct z as [|p|p]; [done| |done]. injection Hi as Hi. by destruct (DecimalPos.Unsigned.to_uint_nonnil p).
Qed.

(** *** Values *)

Fixpoint floatless (v : jvalue) : bool :=
  match v with
  | VFloat _ => false
  | VArr l => forallb floatless l
  | VObj o => forallb (fun '(_, x) => floatless x) o
  | _ => true
  end.

Definition text_inj (v : jvalue) : Prop :=
  forall w r r', floatless v = true -> floatless w = true -> delimited r = true -> delimited r' = true -> json_text v ++ r = json_text w ++ r' -> v = w /\ r = r'.

(** No value starts with a closing bracket. *)
Lemma json_text_head v : floatless v = true -> exists c s, json_text v = String c s /\ c <> "]"%char.
Proof.
  destruct v as [|[]|z|f|s|l|o]; cbn; intros Hf; try done; try (by eexists _, _).
  destruct (int_text_head z) as (c & s & -> & Hc). exists c, s. split; [done|]. by intros ->.
Qed.

Lemma elements_inj l l' r r' :
  Forall text_inj l -> forallb floatless l = true -> forallb floatless l' = true ->
  comma_separated (json_text <$> l) ++ String "]" r = comma_separated (json_text <$> l') ++ String "]" r' -> l = l' /\ r = r'.
Proof.
  intros Hl. revert l'. induction Hl as [|x l Hx Hl IH]; intros [|x' l'] Hf Hf' H; cbn [fmap list_fmap comma_separated] in H.
  - by injection H as ->.
  - apply andb_true_iff in Hf' as [Hx' _]. destruct (json_text_head x' Hx') as (c & s & E & Hc).
    destruct l'; cbn [fmap list_fmap comma_separated] in H; rewrite E in H; texts H; congruence.
  - apply andb_true_iff in Hf as [Hx' _]. destruct (json_text_head x Hx') as (c & s & E & Hc).
    destruct l; cbn [fmap list_fmap comma_separated] in H; rewrite E in H; texts H; congruence.
  - apply andb_true_iff in Hf as [Hfx Hf], Hf' as [Hfx' Hf'].
    destruct l as [|y l], l' as [|y' l']; cbn [fmap list_fmap] in *; cbn [comma_separated] in H; texts H;
      apply (Hx x') in H as [Hxx H]; try done; subst x'.
    + by injection H as ->.
    + injection H as H. destruct (IH (y' :: l') Hf Hf' H) as [-> ->]. done.
Qed.

Definition item_text '(k, x) : string := quoted k ++ ":" ++ json_text x.

Definition item_floatless (kv : string * jvalue) : bool := floatless kv.2.

Lemma items_floatless o : floatless (VObj o) = forallb item_floatless o.
Proof. cbn. induction o as [|[k x] o IH]; cbn; [done|]. by rewrite IH. Qed.

Lemma item_inj k x kx r r' :
  text_inj x -> floatless x = true -> item_floatless kx = true -> delimited r = true -> delimited r' = true ->
  item_text (k, x) ++ r = item_text kx ++ r' -> (k, x) = kx /\ r = r'.
Proof.
  intros Hx Hf Hf' Hr Hr'. destruct kx as [k' x']. unfold item_text. intros H. texts H. apply quoted_inj in H as [-> H].
  injection H as H. by apply Hx in H as [-> ->].
Qed.

Lemma items_inj o o' r r' :
  Forall (fun kv => text_inj kv.2) o -> forallb item_floatless o = true -> forallb item_floatless o' = true ->
  comma_separated (item_text <$> o) ++ String "}" r = comma_separated (item_text <$> o') ++ String "}" r' -> o = o' /\ r = r'.
Proof.
  intros Ho. revert o'. induction Ho as [|[k x] o Hx Ho IH]; intros [|kx' o'] Hf Hf' H; cbn [fmap list_fmap comma_separated] in H.
  - by injection H as ->.
  - destruct kx', o'; discriminate H.
  - destruct o; discriminate H.
  - apply andb_true_iff in Hf as [Hfx Hf], Hf' as [Hfx' Hf'].
    destruct o as [|y o], o' as [|y' o']; cbn [fmap list_fmap] in *; cbn [comma_separated] in H; texts H;
      apply item_inj in H as [<- H]; try done.
    + by injection H as ->.
    + injection H as H. destruct (IH (y' :: o') Hf Hf' H) as [-> ->]. done.
Qed.

(** An integer starts with a digit or a sign. *)
Ltac no_number z :=
  match goal with H : _ |- _ =>
    let c := fresh in let u := fresh in let E := fresh in let Hc := fresh in
    destruct (int_text_head z) as (c & u & E & Hc); cbn [json_text] in H; rewrite E in H; cbn in H; by simplify_eq
  end.

Lemma json_text_inj v : text_inj v.
Proof.
  induction v as [|b|z|f|s|l IH|o IH] using jvalue_nested_ind; intros w r r' Hf Hf' Hr Hr' H; try discriminate Hf.
  - destruct w as [|[]|z'|f'|s'|l'|o']; try discriminate; try (cbn in H; by simplify_eq); no_number z'.
  - destruct b, w as [|[]|z'|f'|s'|l'|o']; try discriminate; try (cbn in H; by simplify_eq); no_number z'.
  - destruct w as [|[]|z'|f'|s'|l'|o']; try discriminate; try no_number z.
    cbn [json_text] in H. by apply int_text_inj in H as [-> ->].
  - destruct w as [|[]|z'|f'|s'|l'|o']; try discriminate; try no_number z'.
    cbn [json_text] in H. by apply quoted_inj in H as [-> ->].
  - destruct w as [|[]|z'|f'|s'|l'|o']; try discriminate; try no_number z'.
    cbn [json_text] in H. texts H. injection H as H. by apply elements_inj in H as [-> ->].
  - destruct w as [|[]|z'|f'|s'|l'|o']; try discriminate; try no_number z'.
    cbn [json_text] in H. texts H. injection H as H. rewrite items_floatless in Hf, Hf'. by apply items_inj in H as [-> ->].
Qed.

(** Sorting keeps the values. *)
Lemma sort_keys_floatless v : floatless v = true -> floatless (sort_keys v) = true.
Proof.
  induction v as [|b|z|f|s|l IH|o IH] using jvalue_nested_ind; try done; intros Hf.
  - cbn in Hf |- *. rewrite forallb_forall in Hf |- *. intros x Hx. apply list_elem_of_In, list_elem_of_fmap in Hx as (y & -> & Hy).
    rewrite Forall_forall in IH. apply IH; [done|]. by apply Hf, list_elem_of_In.
  - rewrite items_floatless in Hf. change (floatless (VObj (sort_items ((fun '(k, x) => (k, sort_keys x)) <$> o))) = true).
    rewrite items_floatless. rewrite forallb_forall in Hf |- *. intros x Hx. apply list_elem_of_In in Hx. unfold sort_items in Hx.
    rewrite merge_sort_Permutation, list_elem_of_fmap in Hx. destruct Hx as ([k y] & -> & Hy). rewrite Forall_forall in IH.
    apply (IH (k, y)); [done|]. by apply (Hf (k, y)), list_elem_of_In.
Qed.

(** Two values with the same canonical text are the same up to the order of
    the entries of their objects. *)
Lemma canonical_json_inj v w :
  floatless v = true -> floatless w = true -> canonical_json v = canonical_json w -> sort_keys v = sort_keys w.
Proof.
  intros Hv Hw H. apply (json_text_inj (sort_keys v) (sort_keys w) "" ""); [by apply sort_keys_floatless..|done|done|]. by rewrite !string_app_nil.
Qed.

(** The digest identifies the value, short of a collision of the hash. *)
Definition collision (a b : string) : Prop := a <> b /\ Sha256.hexdigest a = Sha256.hexdigest b.

Lemma content_digest_inj v w :
  floatless v = true -> floatless w = true -> content_digest v = content_digest w ->
  sort_keys v = sort_keys w \/ collision (canonical_json v) (canonical_json w).
Proof.
  intros Hv Hw H. destruct (decide (canonical_json v = canonical_json w)) as [E|E]; [left; by apply canonical_json_inj|by right].
Qed.
