(* ===== verification/ResearchJobs.v ===== *)
(** * Research job stores (services/research/: jobs.py, robustness_jobs.py)

    A job is one JSON file, owned by the worker that claimed it for as long as
    its lease lives.  Each operation of a store reads the file, decides, and
    writes it back; a [section] is what it decides, from the file it read and
    the readings of the clock.  The two stores have the same operations on jobs
    with different extra fields, so the operations are stated once, for any
    [LeaseJob].  A file that is missing, unreadable or not an object reads as no
    job.  The environment's numbers of seconds are arguments. *)
From Stdlib Require Import ZArith Lia.
From stdpp Require Import base list gmap strings sorting.
From S2P Require Import Prelude CanonicalJson.

Local Open Scope Z_scope.

(** ** Jobs *)

Inductive JobStatus := created | queued | running | completed | failed.
#[export] Instance JobStatus_eq_dec : EqDecision JobStatus.
Proof. solve_decision. Defined.

Definition TerminalStatus : list JobStatus := [completed; failed].
Definition unfinished : list JobStatus := [queued; running].

(** The text of a time: one that [fromisoformat] reads, or another. *)
Inductive stamp := At (t : Z) | NotATime (s : string).
#[export] Instance stamp_eq_dec : EqDecision stamp.
Proof. solve_decision. Defined.

Definition truthy (s : stamp) : bool := match s with At _ => true | NotATime s => negb (bool_decide (s = ""%string)) end.

(** The fields both kinds of job have. *)
Record JobCore := {
  status : JobStatus;
  created_at : stamp;
  updated_at : stamp;
  started_at : option stamp;
  finished_at : option stamp;
  error : option string;
  error_detail : option string;
  worker_id : option string;
  lease_id : option string;
  lease_expires_at : option stamp
}.

Record ResearchJob := {
  experiment_id : string;
  research_core : JobCore;
  run_id : option string;
  attempt_id : option string;
  dataset_catalog_id : option string;
  name : option string
}.

Record RobustnessJob := {
  robustness_id : string;
  base_experiment_id : string;
  base_run_id : string;
  test_type : string;
  robustness_core : JobCore;
  robustness_catalog_id : option string;
  config : option jvalue;
  manifest_content_hash : option string
}.

(** The texts a store reports: (error, error_detail). *)
Record JobTexts := { lease_lost : string * string; stuck_queued : string * string; worker_lost : string * string; orphaned : string * string }.

Class LeaseJob (J : Type) := {
  key : J -> string;
  core : J -> JobCore;
  with_core : J -> JobCore -> J;
  texts : JobTexts;
  core_with : forall j c, core (with_core j c) = c;
  key_with : forall j c, key (with_core j c) = key j
}.

#[export] Instance research_lease_job : LeaseJob ResearchJob.
Proof.
  refine {| key := experiment_id; core := research_core;
    with_core j c := {| experiment_id := experiment_id j; research_core := c; run_id := run_id j; attempt_id := attempt_id j;
      dataset_catalog_id := dataset_catalog_id j; name := name j |};
    texts := {|
      lease_lost := ("Research-Lauf unterbrochen (Ownership-Lease abgelaufen; kein Wiederaufnahme möglich).",
        "V1 limitation: research jobs do not resume mid-run once their ownership lease expires (Issue #245 fail-closed contract). Create a new experiment run instead.");
      stuck_queued := ("Research-Lauf blieb in queued hängen (Prozessneustart vor Worker-Start).",
        "V1 limitation: in-process research jobs do not resume after restart. Create a new experiment (new semantic Spec) or use the CLI; explicit Retry/Re-run is not supported yet.");
      worker_lost := ("Research-Lauf unterbrochen (Prozessneustart oder Worker verloren).",
        "V1 limitation: in-process research jobs do not resume after restart. Create a new experiment (new semantic Spec) or use the CLI; explicit Retry/Re-run is not supported yet.");
      orphaned := ("Research-Lauf durch Prozessneustart unterbrochen (verwaister Job, Lease abgelaufen oder fehlend).",
        "V1 limitation: running jobs do not resume mid-run after a process restart. Fail-closed by design (Issue #245); create a new experiment run instead.") |} |}%string;
  reflexivity.
Defined.

#[export] Instance robustness_lease_job : LeaseJob RobustnessJob.
Proof.
  refine {| key := robustness_id; core := robustness_core;
    with_core j c := {| robustness_id := robustness_id j; base_experiment_id := base_experiment_id j; base_run_id := base_run_id j;
      test_type := test_type j; robustness_core := c; robustness_catalog_id := robustness_catalog_id j; config := config j;
      manifest_content_hash := manifest_content_hash j |};
    texts := {|
      lease_lost := ("Robustheitstest unterbrochen (Ownership-Lease abgelaufen; kein Wiederaufnahme möglich).",
        "V1 limitation: robustness jobs do not resume mid-run once their ownership lease expires (Issue #245/#247 fail-closed contract). Create a new robustness test instead.");
      stuck_queued := ("Robustheitstest blieb in queued hängen (Prozessneustart vor Worker-Start).",
        "V1 limitation: in-process robustness jobs do not resume after restart. Create a new robustness test (new config) instead.");
      worker_lost := ("Robustheitstest unterbrochen (Prozessneustart oder Worker verloren).",
        "V1 limitation: in-process robustness jobs do not resume after restart. Create a new robustness test (new config) instead.");
      orphaned := ("Robustheitstest durch Prozessneustart unterbrochen (verwaister Job, Lease abgelaufen oder fehlend).",
        "V1 limitation: running robustness jobs do not resume mid-run after a process restart. Fail-closed by design (Issue #245/#247); create a new robustness test instead.") |} |}%string;
  reflexivity.
Defined.

(** ** The clock *)

(** The readings of the clock during a section, the n-th consultation first. *)
Definition readings := nat -> Z.

(** [datetime] ends with the year 9999. *)
Definition DATETIME_END : Z := 253402300800000000.

Definition _future_iso (now seconds : Z) : res stamp :=
  let t := now + 1000000 * seconds in
  if (Z.abs seconds <? 86400 * 1000000000) && (-62135596800000000 <=? t) && (t <? DATETIME_END) then Ok (At t) else Raise OverflowError.

Definition _lease_expired (now : Z) (lease_expires_at : option stamp) : bool :=
  match lease_expires_at with Some (At expires) => expires <=? now | _ => true end.

(** ** Sections *)

Inductive job_exn :=
  | JobTransitionError (msg : string) (current_status : option JobStatus)
  | JobKeyError
  | Propagated (e : exn).

(** What a section does with what it read. *)
Inductive verdict (J : Type) :=
  | Commit (j : J) (** writes [j] and returns it *)
  | Keep (j : J) (** returns [j] and writes nothing *)
  | Pass (** goes on with the next job *)
  | Refuse (e : job_exn).
Arguments Commit {_} _.
Arguments Keep {_} _.
Arguments Pass {_}.
Arguments Refuse {_} _.

(** The seconds a job may be stale for. *)
Record stale_config := { stale_running_seconds : Z; stale_queued_seconds : Z; stale_running_grace_seconds : Z }.

Section Store.
Context {J : Type} `{LeaseJob J}.

(** Fails a job that has no worker: the common end of the recoveries. *)
Definition fail_closed (now : Z) (reason : string * string) (job : J) : J :=
  let c := core job in
  with_core job {| status := failed; created_at := created_at c; updated_at := At now; started_at := started_at c; finished_at := Some (At now);
    error := Some reason.1; error_detail := Some reason.2; worker_id := worker_id c; lease_id := lease_id c; lease_expires_at := lease_expires_at c |}.

Definition commit_mutated (mutate : Z -> J -> res J) (now : Z) (job : J) : verdict J :=
  match mutate now job with Ok j => Commit j | Raise e => Refuse (Propagated e) end.

Definition compare_and_set (expected_status : JobStatus) (mutate : Z -> J -> res J) (r : readings) (file : option J) : verdict J :=
  match file with
  | None => Refuse (JobTransitionError "job not found" None)
  | Some job =>
      if bool_decide (status (core job) <> expected_status) then Refuse (JobTransitionError "unexpected status" (Some (status (core job))))
      else commit_mutated mutate (r 0%nat) job
  end.

Definition update (mutate : Z -> J -> res J) (r : readings) (file : option J) : verdict J :=
  match file with
  | None => Refuse JobKeyError
  | Some job => commit_mutated mutate (r 0%nat) job
  end.

(** [thread] is the worker of the job in this process: none registered, or
    whether it is alive. *)
Definition mark_stale_if_needed (cfg : stale_config) (thread : option bool) (job : J) (r : readings) (file : option J) : verdict J :=
  if bool_decide (status (core job) ∉ unfinished) then Keep job
  else match file with
  | None => Keep job
  | Some current =>
      let c := core current in
      if bool_decide (status c ∉ unfinished) then Keep current
      else if bool_decide (status c = running) && bool_decide (lease_expires_at c <> None) then
        if negb (_lease_expired (r 0%nat) (lease_expires_at c)) then Keep current
        else Commit (fail_closed (r 1%nat) (lease_lost texts) current)
      else if bool_decide (thread = Some true) then Keep current
      else
        let anchor := match status c, started_at c with running, Some s => if truthy s then s else updated_at c | _, _ => updated_at c end in
        let anchor_dt := match anchor with At t => t | NotATime _ => r 0%nat end in
        let age := r 1%nat - anchor_dt in
        if bool_decide (status c = queued) then
          if age <? 1000000 * stale_queued_seconds cfg then Keep current
          else Commit (fail_closed (r 2%nat) (stuck_queued texts) current)
        else if age <? 1000000 * stale_running_grace_seconds cfg then Keep current
        else if (age <? 1000000 * stale_running_seconds cfg) && bool_decide (thread <> None) then Keep current
        else Commit (fail_closed (r 2%nat) (worker_lost texts) current)
  end.

(** [lease] is the fresh UUID of the claim. *)
Definition claim (worker : string) (lease_seconds : Z) (lease : string) (r : readings) (file : option J) : verdict J :=
  match file with
  | None => Refuse (JobTransitionError "job not found" None)
  | Some job =>
      let c := core job in
      if bool_decide (status c <> queued) then Refuse (JobTransitionError "expected status 'queued'" (Some (status c)))
      else if bool_decide (lease_expires_at c <> None) && negb (_lease_expired (r 0%nat) (lease_expires_at c)) then
        Refuse (JobTransitionError "job already claimed by a live worker lease" (Some (status c)))
      else match _future_iso (r 2%nat) lease_seconds with
      | Raise e => Refuse (Propagated e)
      | Ok expires =>
          Commit (with_core job {| status := running; created_at := created_at c; updated_at := At (r 1%nat); started_at := Some (At (r 1%nat));
            finished_at := finished_at c; error := error c; error_detail := error_detail c; worker_id := Some worker; lease_id := Some lease;
            lease_expires_at := Some expires |})
      end
  end.

Definition renew_lease (worker lease : string) (lease_seconds : Z) (r : readings) (file : option J) : verdict J :=
  match file with
  | None => Refuse JobKeyError
  | Some job =>
      let c := core job in
      if bool_decide (status c <> running) || bool_decide (worker_id c <> Some worker) || bool_decide (lease_id c <> Some lease) then
        Refuse (JobTransitionError "lease is no longer owned by this worker/attempt" (Some (status c)))
      else if _lease_expired (r 0%nat) (lease_expires_at c) then Refuse (JobTransitionError "lease expired; refusing renewal" (Some (status c)))
      else match _future_iso (r 1%nat) lease_seconds with
      | Raise e => Refuse (Propagated e)
      | Ok expires =>
          Commit (with_core job {| status := status c; created_at := created_at c; updated_at := At (r 2%nat); started_at := started_at c;
            finished_at := finished_at c; error := error c; error_detail := error_detail c; worker_id := worker_id c; lease_id := lease_id c;
            lease_expires_at := Some expires |})
      end
  end.

Definition finish (worker lease : string) (mutate : Z -> J -> res J) (r : readings) (file : option J) : verdict J :=
  match file with
  | None => Refuse JobKeyError
  | Some job =>
      let c := core job in
      if bool_decide (status c ∈ TerminalStatus) then Refuse (JobTransitionError "job already terminal; refusing overwrite" (Some (status c)))
      else if bool_decide (worker_id c <> Some worker) || bool_decide (lease_id c <> Some lease) then
        Refuse (JobTransitionError "stale worker/lease; refusing terminal write" (Some (status c)))
      else if _lease_expired (r 0%nat) (lease_expires_at c) then Refuse (JobTransitionError "lease expired; refusing terminal write" (Some (status c)))
      else commit_mutated mutate (r 1%nat) job
  end.

(** The body of the loop of [recover_orphans]; a job it keeps or commits is one
    of the changed jobs. *)
Definition recover_orphan (r : readings) (file : option J) : verdict J :=
  match file with
  | None => Pass
  | Some current =>
      let c := core current in
      match status c with
      | queued =>
          if bool_decide (lease_expires_at c <> None) && negb (_lease_expired (r 0%nat) (lease_expires_at c)) then Pass
          else if bool_decide (worker_id c <> None) || bool_decide (lease_id c <> None) then
            Commit (with_core current {| status := status c; created_at := created_at c; updated_at := At (r 1%nat); started_at := started_at c;
              finished_at := finished_at c; error := error c; error_detail := error_detail c; worker_id := None; lease_id := None;
              lease_expires_at := None |})
          else Keep current
      | running =>
          if bool_decide (lease_expires_at c <> None) && negb (_lease_expired (r 0%nat) (lease_expires_at c)) then Pass
          else Commit (fail_closed (r 1%nat) (orphaned texts) current)
      | _ => Pass
      end
  end.

(** ** The files *)

Definition apply_verdict (id : string) (v : verdict J) (d : gmap string J) : gmap string J :=
  match v with Commit j => <[id := j]> d | _ => d end.

Definition save (job : J) (d : gmap string J) : gmap string J := <[key job := job]> d.

Definition get (id : string) (d : gmap string J) : option J := d !! id.

(** The files in the order of their names. *)
Definition list_jobs (d : gmap string J) : list J :=
  snd <$> sort_items ((fun '(id, j) => ((id +:+ ".json")%string, j)) <$> map_to_list d).

(** One pass over the jobs listed at its start; no other process writes. *)
Fixpoint recover_orphans_from (r : nat -> readings) (jobs : list J) (d : gmap string J) : gmap string J * list J :=
  match jobs with
  | [] => (d, [])
  | job :: rest =>
      if bool_decide (status (core job) ∉ unfinished) then recover_orphans_from (fun n => r (S n)) rest d
      else
        match recover_orphan (r 0%nat) (get (key job) d) with
        | Commit j => let '(d', changed) := recover_orphans_from (fun n => r (S n)) rest (save j d) in (d', j :: changed)
        | Keep j => let '(d', changed) := recover_orphans_from (fun n => r (S n)) rest d in (d', j :: changed)
        | _ => recover_orphans_from (fun n => r (S n)) rest d
        end
  end.

Definition recover_orphans (r : nat -> readings) (d : gmap string J) : gmap string J * list J := recover_orphans_from r (list_jobs d) d.
End Store.

(** ** The mutations of the services *)

(** [start_experiment]. *)
Definition _to_queued (now : Z) (job : ResearchJob) : res ResearchJob :=
  let c := core job in
  Ok (with_core job {| status := queued; created_at := created_at c; updated_at := At now; started_at := None; finished_at := None; error := None;
    error_detail := None; worker_id := worker_id c; lease_id := lease_id c; lease_expires_at := lease_expires_at c |}).

(** [RobustnessService.start]. *)
Definition robustness_to_queued (now : Z) (job : RobustnessJob) : res RobustnessJob :=
  let c := core job in
  Ok (with_core job {| status := queued; created_at := created_at c; updated_at := At now; started_at := None; finished_at := None; error := None;
    error_detail := None; worker_id := None; lease_id := None; lease_expires_at := None |}).

Definition _mark_unrunnable (reason : string) (now : Z) (job : ResearchJob) : res ResearchJob := Ok (fail_closed now (reason, reason) job).

(** What a run of the engine leaves; [outcome_complete] also says that it has
    artifacts. *)
Record RunOutcome := {
  outcome_run_id : string;
  outcome_attempt_id : string;
  outcome_complete : bool;
  outcome_status : string;
  outcome_error : option string
}.

(** The end of a run; [register] is what [register_complete] does. *)
Definition _finish (outcome : RunOutcome) (register : res unit) (now : Z) (job : ResearchJob) : res ResearchJob :=
  let c := core job in
  let with_result status error error_detail :=
    {| experiment_id := experiment_id job;
       research_core := {| status := status; created_at := created_at c; updated_at := At now; started_at := started_at c; finished_at := Some (At now);
         error := error; error_detail := error_detail; worker_id := worker_id c; lease_id := lease_id c; lease_expires_at := lease_expires_at c |};
       run_id := Some (outcome_run_id outcome); attempt_id := Some (outcome_attempt_id outcome); dataset_catalog_id := dataset_catalog_id job;
       name := name job |} in
  if outcome_complete outcome then _ ← register; Ok (with_result completed None None)
  else
    let error := match outcome_error outcome with Some e => if bool_decide (e = ""%string) then None else Some e | None => None end in
    Ok (with_result failed (Some (default ("Run status: " +:+ outcome_status outcome)%string error)) (outcome_error outcome)).

(** The end of a run that raised. *)
Definition _fail (err_msg err_detail : string) (now : Z) (job : ResearchJob) : res ResearchJob := Ok (fail_closed now (err_msg, err_detail) job).

(** The operations of [RobustnessJobStore]. *)
Definition robustness_compare_and_set := compare_and_set (J := RobustnessJob).
Definition robustness_update := update (J := RobustnessJob).
Definition robustness_mark_stale_if_needed := mark_stale_if_needed (J := RobustnessJob).
Definition robustness_claim := claim (J := RobustnessJob).
Definition robustness_renew_lease := renew_lease (J := RobustnessJob).
Definition robustness_finish := finish (J := RobustnessJob).
Definition robustness_recover_orphans := recover_orphans (J := RobustnessJob).

(** ** The restart *)

Section Restart.
Context {J : Type} `{LeaseJob J}.

Lemma core_fail_closed t reason j : status (core (fail_closed t reason j)) = failed.
Proof. unfold fail_closed. by rewrite core_with. Qed.

(** A live lease at [t]. *)
Definition lease_live (t : Z) (j : J) : Prop := exists x, lease_expires_at (core j) = Some (At x) /\ t < x.

Definition nobody (j : J) : Prop := worker_id (core j) = None /\ lease_id (core j) = None.

(** What the recovery makes of a job, and whether it reports it. *)
Definition recovered (r : readings) (j : J) : J := match recover_orphan r (Some j) with Commit j' => j' | _ => j end.
Definition reported (r : readings) (j : J) : bool := match recover_orphan r (Some j) with Commit _ | Keep _ => true | _ => false end.

Definition between (t0 t1 : Z) (r : readings) : Prop := forall n, t0 <= r n <= t1.

Definition filed (d : gmap string J) : Prop := forall id j, d !! id = Some j -> key j = id.

Lemma recovered_key r j : key (recovered r j) = key j.
Proof.
  unfold recovered, recover_orphan, fail_closed. destruct (status (core j)); try done.
  - destruct (_ && _); [done|]. destruct (_ || _); [|done]. by rewrite key_with.
  - destruct (_ && _); [done|]. by rewrite key_with.
Qed.

Lemma idle_recovered r j : status (core j) ∉ unfinished -> recovered r j = j /\ reported r j = false.
Proof. unfold unfinished, recovered, reported, recover_orphan. intros Hj. destruct (status (core j)); try done; set_solver. Qed.

(** One round of the loop. *)
Lemma recover_round r job rest d :
  d !! key job = Some job ->
  recover_orphans_from r (job :: rest) d =
  let '(d', changed) := recover_orphans_from (fun n => r (S n)) rest (<[key job := recovered (r 0%nat) job]> d) in
  (d', if reported (r 0%nat) job then recovered (r 0%nat) job :: changed else changed).
Proof.
  intros Hd. cbn [recover_orphans_from]. case_bool_decide as Hj.
  - destruct (idle_recovered (r 0%nat) job Hj) as [-> ->]. rewrite (insert_id d (key job) job Hd). by destruct (recover_orphans_from _ rest d).
  - unfold get. rewrite Hd. pose proof (recovered_key (r 0%nat) job) as Hk. unfold recovered, reported in *.
    destruct (recover_orphan (r 0%nat) (Some job)) as [j'|j'| |e] eqn:E; rewrite ?(insert_id d (key job) job Hd).
    + unfold save. rewrite Hk. done.
    + replace j' with job; [done|]. unfold recover_orphan in E. destruct (status (core job)); try done.
      * destruct (_ && _); [done|]. destruct (_ || _); [done|]. by injection E.
      * destruct (_ && _); done.
    + by destruct (recover_orphans_from _ rest d).
    + by destruct (recover_orphans_from _ rest d).
Qed.

Lemma recover_from_spec t0 t1 jobs : forall r d,
  (forall n, between t0 t1 (r n)) -> NoDup (key <$> jobs) -> (forall j, j ∈ jobs -> d !! key j = Some j) ->
  let '(d', changed) := recover_orphans_from r jobs d in
  (forall id, id ∉ key <$> jobs -> d' !! id = d !! id) /\
  (forall j, j ∈ jobs -> exists rr, between t0 t1 rr /\ d' !! key j = Some (recovered rr j) /\ (reported rr j = true -> recovered rr j ∈ changed)).
Proof.
  induction jobs as [|job jobs IH]; intros r d Hr Hnd Hd.
  - cbn. split; [done|]. intros j Hj. by apply not_elem_of_nil in Hj.
  - rewrite fmap_cons in Hnd. apply NoDup_cons in Hnd as [Hn Hnd]. rewrite (recover_round r job jobs d) by (apply Hd; by left).
    assert (Hd' : forall j, j ∈ jobs -> <[key job := recovered (r 0%nat) job]> d !! key j = Some j).
    { intros j Hj. rewrite lookup_insert_ne; [apply Hd; by right|]. intros Hk. apply Hn. rewrite Hk. by apply list_elem_of_fmap_2. }
    pose proof (IH (fun n => r (S n)) (<[key job := recovered (r 0%nat) job]> d) (fun n => Hr (S n)) Hnd Hd') as HI.
    destruct (recover_orphans_from _ jobs _) as [d' changed]. destruct HI as [H1 H2]. split.
    + intros id Hid. rewrite fmap_cons, not_elem_of_cons in Hid. destruct Hid as [Hne Hid]. rewrite H1 by done. by rewrite lookup_insert_ne.
    + intros j [->|Hj]%elem_of_cons.
      * exists (r 0%nat). split_and!; [apply Hr| |intros ->; by left]. rewrite H1 by done. by rewrite lookup_insert_eq.
      * destruct (H2 j Hj) as (rr & Hb & Hl & Hc). exists rr. split_and!; [done|done|]. intros Hrep. destruct (reported (r 0%nat) job); [right|]; auto.
Qed.

Lemma list_jobs_spec d : filed d -> NoDup (key <$> list_jobs d) /\ forall j, j ∈ list_jobs d <-> d !! key j = Some j.
Proof.
  intros Hf. assert (Hp : list_jobs d ≡ₚ snd <$> map_to_list d).
  { unfold list_jobs, sort_items. rewrite merge_sort_Permutation, <- list_fmap_compose. erewrite list_fmap_ext; [reflexivity|]. by intros ? [id j]. }
  assert (Hel : forall j, j ∈ list_jobs d <-> d !! key j = Some j).
  { intros j. rewrite Hp, list_elem_of_fmap. split.
    - intros ([id j'] & -> & Hin). apply elem_of_map_to_list in Hin. cbn. by rewrite (Hf _ _ Hin).
    - intros Hj. exists (key j, j). split; [done|]. by apply elem_of_map_to_list. }
  split; [|done]. rewrite Hp, <- list_fmap_compose. erewrite list_fmap_ext; [apply NoDup_fst_map_to_list|].
  intros i [id j] Hi. cbn. apply Hf, elem_of_map_to_list. by apply list_elem_of_lookup_2 in Hi.
Qed.

(** What a recovered job is like. *)
Lemma recovered_spec t0 t1 rr j :
  between t0 t1 rr -> let j' := recovered rr j in
  (status (core j) ∉ unfinished \/ lease_live t1 j -> j' = j) /\
  (status (core j) = running -> j' <> j -> status (core j') = failed) /\
  (status (core j') = running -> lease_live t0 j') /\
  (status (core j') = queued -> lease_live t0 j' \/ reported rr j = true /\ nobody j').
Proof.
  intros Hb j'. subst j'. unfold recovered, reported, recover_orphan, nobody.
  assert (Hlive : bool_decide (lease_expires_at (core j) <> None) && negb (_lease_expired (rr 0%nat) (lease_expires_at (core j))) = true <-> lease_live (rr 0%nat) j).
  { unfold lease_live. destruct (lease_expires_at (core j)) as [[x|x]|]; cbn; (split; [|intros (y & Hy & Hlt); try done]).
    - destruct (Z.leb_spec x (rr 0%nat)); [done|]. intros _. by exists x.
    - injection Hy as ->. destruct (Z.leb_spec y (rr 0%nat)); [lia|done].
    - done.
    - done. }
  assert (Ht0 : lease_live (rr 0%nat) j -> lease_live t0 j) by (intros (x & Hx & ?); exists x; split; [done|]; specialize (Hb 0%nat); lia).
  assert (Ht1 : lease_live t1 j -> lease_live (rr 0%nat) j) by (intros (x & Hx & ?); exists x; split; [done|]; specialize (Hb 0%nat); lia).
  destruct (status (core j)) eqn:Es; try (split_and!; congruence).
  - destruct (_ && _) eqn:E.
    + split_and!; try congruence. intros _. left. by apply Ht0, Hlive.
    + destruct (bool_decide (worker_id (core j) <> None) || bool_decide (lease_id (core j) <> None)) eqn:Eo.
      * split_and!; try congruence; rewrite ?core_with; cbn; try congruence; [|by right].
        intros [Hn|Hl]; [destruct Hn; unfold unfinished; set_solver|]. apply Ht1, Hlive in Hl. congruence.
      * apply orb_false_iff in Eo as [Ew El]. apply bool_decide_eq_false, dec_stable in Ew. apply bool_decide_eq_false, dec_stable in El.
        split_and!; try congruence. by right.
  - destruct (_ && _) eqn:E.
    + split_and!; try congruence. intros _. by apply Ht0, Hlive.
    + split_and!; rewrite ?core_fail_closed; try congruence.
      intros [Hn|Hl]; [destruct Hn; unfold unfinished; set_solver|]. apply Ht1, Hlive in Hl. congruence.
Qed.

(** [C26] The recovery at a restart leaves alone every job that has finished, was
    not started, or has a live lease; afterwards a running job has a live lease,
    and a queued job has one too or is handed back, without an owner, for a new
    dispatch. *)
Theorem recover_orphans_exact t0 t1 r (d : gmap string J) :
  filed d -> (forall n, between t0 t1 (r n)) ->
  let '(d', changed) := recover_orphans r d in
  forall id,
    (d !! id = None -> d' !! id = None) /\
    forall j, d !! id = Some j -> exists j', d' !! id = Some j' /\
      (status (core j) ∉ unfinished \/ lease_live t1 j -> j' = j) /\
      (status (core j) = running -> j' <> j -> status (core j') = failed) /\
      (status (core j') = running -> lease_live t0 j') /\
      (status (core j') = queued -> lease_live t0 j' \/ j' ∈ changed /\ nobody j').
Proof.
  intros Hf Hr. destruct (list_jobs_spec d Hf) as [Hnd Hel].
  pose proof (recover_from_spec t0 t1 (list_jobs d) r d Hr Hnd (fun j => proj1 (Hel j))) as HR.
  unfold recover_orphans. destruct (recover_orphans_from r (list_jobs d) d) as [d' changed]. destruct HR as [H1 H2].
  intros id. split.
  - intros Hid. rewrite H1; [done|]. intros (j & -> & Hj)%list_elem_of_fmap. apply Hel in Hj. congruence.
  - intros j Hj. pose proof (Hf _ _ Hj) as <-. destruct (H2 j (proj2 (Hel j) Hj)) as (rr & Hb & Hl & Hc).
    destruct (recovered_spec t0 t1 rr j Hb) as (S1 & S2 & S3 & S4). exists (recovered rr j). split_and!; try done.
    intros Hq. destruct (S4 Hq) as [?|[Hrep ?]]; [by left|right]. by split; [apply Hc|].
Qed.
End Restart.

Section RestartWitness.
Local Open Scope string_scope.

Definition orphan_core : JobCore :=
  {| status := running; created_at := At 0; updated_at := At 0; started_at := Some (At 0); finished_at := None; error := None; error_detail := None;
     worker_id := Some "worker-a"; lease_id := Some "lease-a"; lease_expires_at := Some (At 45000000) |}.

Definition orphan : ResearchJob :=
  {| experiment_id := "exp"; research_core := orphan_core; run_id := None; attempt_id := None; dataset_catalog_id := Some "catalog"; name := None |}.

(** The lease of the orphan ran out before the restart. *)
Lemma recover_orphans_exact_witness :
  exists j', fst (recover_orphans (fun _ _ => 60000000) {["exp" := orphan]}) !! "exp" = Some j' /\ status (core j') = failed.
Proof.
  assert (Hf : filed {["exp" := orphan]}) by (intros id j Hj; apply lookup_singleton_Some in Hj as [<- <-]; reflexivity).
  pose proof (recover_orphans_exact 60000000 60000000 (fun _ _ => 60000000) {["exp" := orphan]} Hf (fun n m => conj (Z.le_refl _) (Z.le_refl _))) as H.
  destruct (recover_orphans _ _) as [d' changed] eqn:E. destruct (proj2 (H "exp") orphan eq_refl) as (j' & Hl & _ & Hfail & Hlive & _).
  exists j'. split; [exact Hl|]. apply Hfail; [reflexivity|]. intros ->. destruct (Hlive eq_refl) as (x & Hx & Hlt). injection Hx as <-. lia.
Defined.
End RestartWitness.
