(* ===== verification/ResearchLeases.v ===== *)
(** * Sharing a job store (services/research/: jobs.py, robustness_jobs.py)

    Several processes use one store.  A section enters with the locks it takes,
    loads its file and ends by writing it: other processes act in between,
    wherever the locks allow it.  Every operation holds the lock of its process
    for the job; only four of them also hold the file lock that the processes
    share. *)
From Stdlib Require Import ZArith Lia.
From stdpp Require Import base list gmap strings relations.
From S2P Require Import Prelude CanonicalJson ResearchJobs.

Local Open Scope Z_scope.

Section Sharing.
Context {J : Type} `{LeaseJob J}.

(** ** Operations *)

Inductive operation :=
  | Claim (worker : string) (lease_seconds : Z) (lease : string)
  | RenewLease (worker lease : string) (lease_seconds : Z)
  | Finish (worker lease : string) (mutate : Z -> J -> res J)
  | RecoverOrphan
  | MarkStale (cfg : stale_config) (thread : option bool) (job : J)
  | CompareAndSet (expected : JobStatus) (mutate : Z -> J -> res J)
  | Update (mutate : Z -> J -> res J)
  | Save (job : J).

Definition decides (o : operation) (r : readings) (file : option J) : verdict J :=
  match o with
  | Claim w n l => claim w n l r file
  | RenewLease w l n => renew_lease w l n r file
  | Finish w l m => finish w l m r file
  | RecoverOrphan => recover_orphan r file
  | MarkStale cfg t j => mark_stale_if_needed cfg t j r file
  | CompareAndSet e m => compare_and_set e m r file
  | Update m => update m r file
  | Save j => Commit j
  end.

(** The operations that hold the lease: [claim], [renew_lease], [finish] and
    [recover_orphans]. *)
Definition lease_operation (o : operation) : Prop :=
  match o with Claim _ _ _ | RenewLease _ _ _ | Finish _ _ _ | RecoverOrphan => True | _ => False end.

(** Whose [with] statement takes [_JobFileLock]. *)
Definition file_locked (o : operation) : bool :=
  match o with Claim _ _ _ | RenewLease _ _ _ | Finish _ _ _ | RecoverOrphan => true | _ => false end.

(** ** The processes *)

Inductive section :=
  | Entered (o : operation)
  | Loaded (o : operation) (file : option J) (since : Z).

Definition operation_of (s : section) : operation := match s with Entered o | Loaded o _ _ => o end.

Record system := {
  disk : gmap string J;
  file_locks : gmap string string; (** the process that holds the lock file of a job *)
  sections : gmap (string * string) section; (** by process and job *)
  clock : Z
}.

Inductive event :=
  | Silent
  | Ended (process id : string) (o : operation) (r : readings) (v : verdict J).

Context (allowed : string -> string -> operation -> Prop).

Inductive step (s : system) : event -> system -> Prop :=
  | StepTick t :
      clock s <= t -> step s Silent {| disk := disk s; file_locks := file_locks s; sections := sections s; clock := t |}
  | StepEnter p id o :
      allowed p id o -> sections s !! (p, id) = None -> (file_locked o = true -> file_locks s !! id = None) ->
      step s Silent {| disk := disk s; file_locks := if file_locked o then <[id := p]> (file_locks s) else file_locks s;
        sections := <[(p, id) := Entered o]> (sections s); clock := clock s |}
  | StepLoad p id o :
      sections s !! (p, id) = Some (Entered o) ->
      step s Silent {| disk := disk s; file_locks := file_locks s;
        sections := <[(p, id) := Loaded o (disk s !! id) (clock s)]> (sections s); clock := clock s |}
  | StepEnd p id o file since r :
      sections s !! (p, id) = Some (Loaded o file since) -> (forall n, since <= r n <= clock s /\ r n <= r (S n)) ->
      step s (Ended p id o r (decides o r file))
        {| disk := apply_verdict id (decides o r file) (disk s); file_locks := if file_locked o then delete id (file_locks s) else file_locks s;
           sections := delete (p, id) (sections s); clock := clock s |}
  | StepCrash p : (** the system releases the locks of a dead process *)
      step s Silent {| disk := disk s; file_locks := filter (fun '(_, q) => q <> p) (file_locks s);
        sections := filter (fun '((q, _), _) => q <> p) (sections s); clock := clock s |}.

Inductive execution : system -> list event -> system -> Prop :=
  | ExecNil s : execution s [] s
  | ExecStep s e s' es s'' : step s e s' -> execution s' es s'' -> execution s (e :: es) s''.

(** ** Sections as atomic operations *)

(** Each operation that ends is applied, whole, to the files as they are. *)
Inductive atomic_run : gmap string J -> list event -> gmap string J -> Prop :=
  | AtomicNil d : atomic_run d [] d
  | AtomicSilent d es d' : atomic_run d es d' -> atomic_run d (Silent :: es) d'
  | AtomicOp d p id o r es d' :
      allowed p id o -> atomic_run (apply_verdict id (decides o r (d !! id)) d) es d' ->
      atomic_run d (Ended p id o r (decides o r (d !! id)) :: es) d'.

(** Each job has lease operations only, or one process. *)
Definition disciplined : Prop :=
  forall id, (forall p o, allowed p id o -> lease_operation o) \/ (exists p0, forall p o, allowed p id o -> p = p0).

Lemma lease_locked o : lease_operation o -> file_locked o = true.
Proof. by destruct o. Qed.

Record sections_inv (s : system) : Prop := {
  sections_allowed p id sec : sections s !! (p, id) = Some sec -> allowed p id (operation_of sec);
  sections_locked p id sec : sections s !! (p, id) = Some sec -> file_locked (operation_of sec) = true -> file_locks s !! id = Some p;
  sections_current p id o file since : sections s !! (p, id) = Some (Loaded o file since) -> file = disk s !! id
}.

Lemma sections_exclusive s p q id sec sec' :
  disciplined -> sections_inv s -> sections s !! (p, id) = Some sec -> sections s !! (q, id) = Some sec' -> p = q.
Proof.
  intros Hd Hs Hp Hq. pose proof (sections_allowed _ Hs _ _ _ Hp) as Ap. pose proof (sections_allowed _ Hs _ _ _ Hq) as Aq.
  destruct (Hd id) as [Hl|[p0 H0]].
  - pose proof (sections_locked _ Hs _ _ _ Hp (lease_locked _ (Hl _ _ Ap))). pose proof (sections_locked _ Hs _ _ _ Hq (lease_locked _ (Hl _ _ Aq))). congruence.
  - by rewrite (H0 _ _ Ap), (H0 _ _ Aq).
Qed.

Lemma sections_inv_start d t : sections_inv {| disk := d; file_locks := ∅; sections := ∅; clock := t |}.
Proof. split; intros *; cbn; rewrite lookup_empty; done. Qed.

Lemma step_inv s e s' : disciplined -> sections_inv s -> step s e s' -> sections_inv s'.
Proof.
  intros Hd Hs Hstep. destruct Hstep as [t Ht|p id o Ho Hp Hl|p id o Hp|p id o file since r Hp Hr|p].
  - destruct Hs as [H1 H2 H3]. split; cbn; eauto.
  - destruct Hs as [H1 H2 H3]. split; cbn.
    + intros q i sec [[[= <- <-] <-]|[_ ?]]%lookup_insert_Some; [done|eauto].
    + intros q i sec [[[= <- <-] <-]|[Hne Hq]]%lookup_insert_Some Hf; cbn in Hf.
      * rewrite Hf. by rewrite lookup_insert_eq.
      * pose proof (H2 _ _ _ Hq Hf) as Hlk. destruct (file_locked o) eqn:E; [|done]. destruct (decide (id = i)) as [->|Hi]; [|by rewrite lookup_insert_ne].
        by rewrite (Hl eq_refl) in Hlk.
    + intros q i o' file since [[[= <- <-] ?]|[_ ?]]%lookup_insert_Some; [done|eauto].
  - destruct Hs as [H1 H2 H3]. split; cbn.
    + intros q i sec [[[= <- <-] <-]|[_ ?]]%lookup_insert_Some; [exact (H1 _ _ _ Hp)|eauto].
    + intros q i sec [[[= <- <-] <-]|[_ ?]]%lookup_insert_Some Hf; [exact (H2 _ _ _ Hp Hf)|eauto].
    + intros q i o' file since [[[= <- <-] [= <- <- <-]]|[_ ?]]%lookup_insert_Some; [done|eauto].
  - pose proof (fun q sec => sections_exclusive s p q id (Loaded o file since) sec Hd Hs Hp) as Hx. destruct Hs as [H1 H2 H3].
    split; cbn.
    + intros q i sec [_ ?]%lookup_delete_Some; eauto.
    + intros q i sec [Hne Hq]%lookup_delete_Some Hf. pose proof (H2 _ _ _ Hq Hf) as Hlk.
      destruct (file_locked o) eqn:E; [|done]. rewrite lookup_delete_ne; [done|]. intros ->. apply Hne. by rewrite (Hx _ _ Hq).
    + intros q i o' file' since' [Hne Hq]%lookup_delete_Some. rewrite (H3 _ _ _ _ _ Hq).
      destruct (decide (id = i)) as [->|Hi]; [destruct Hne; by rewrite (Hx _ _ Hq)|].
      unfold apply_verdict. destruct (decides o r file); try done. by rewrite lookup_insert_ne.
  - destruct Hs as [H1 H2 H3]. split; cbn.
    + intros q i sec [Hq _]%map_lookup_filter_Some. eauto.
    + intros q i sec [Hq Hne]%map_lookup_filter_Some Hf. apply map_lookup_filter_Some. split; [eauto|done].
    + intros q i o file since [Hq _]%map_lookup_filter_Some. eauto.
Qed.

Lemma execution_atomic s es s' : disciplined -> sections_inv s -> execution s es s' -> atomic_run (disk s) es (disk s').
Proof.
  intros Hd Hs Hx. induction Hx as [s|s e s1 es s2 Hstep Hx IH]; [constructor|]. specialize (IH (step_inv _ _ _ Hd Hs Hstep)).
  destruct Hstep as [| | |p id o file since r Hp Hr|]; try (by constructor).
  pose proof (sections_current _ Hs _ _ _ _ _ Hp) as ->. constructor; [exact (sections_allowed _ Hs _ _ _ Hp)|exact IH].
Qed.

(** ** The life of a job *)

Definition starts (m : Z -> J -> res J) : Prop :=
  forall t j j', m t j = Ok j' -> status (core j') = queued /\
    (worker_id (core j') = None \/ worker_id (core j') = worker_id (core j) /\ lease_id (core j') = lease_id (core j)).

Definition ends (m : Z -> J -> res J) : Prop := forall t j j', m t j = Ok j' -> status (core j') ∈ TerminalStatus.

(** What the services do with an existing job: they start a created one, give up
    a queued one, and finish with a terminal status. *)
Definition orderly (o : operation) : Prop :=
  match o with
  | Claim _ _ _ | RenewLease _ _ _ | RecoverOrphan | MarkStale _ _ _ => True
  | Finish _ _ m => ends m
  | CompareAndSet created m => starts m
  | CompareAndSet queued m => ends m
  | _ => False
  end.

Definition rank (s : JobStatus) : nat := match s with created => 0 | queued => 1 | running => 2 | completed | failed => 3 end.

Definition claims (id : string) (e : event) : bool :=
  match e with Ended _ i (Claim _ _ _) _ (Commit _) => bool_decide (i = id) | _ => false end.

Definition claimed_by (id worker lease : string) (e : event) : Prop := exists p n r j, e = Ended p id (Claim worker n lease) r (Commit j).

Definition finished_by (id worker lease : string) (j : J) (e : event) : Prop := exists p m r, e = Ended p id (Finish worker lease m) r (Commit j).

Definition writes (id : string) (e : event) : Prop := exists p o r j, e = Ended p id o r (Commit j).

Lemma terminal_rank s : s ∈ TerminalStatus <-> rank s = 3%nat.
Proof. unfold TerminalStatus. rewrite !elem_of_cons, elem_of_nil. destruct s; cbn; naive_solver. Qed.

Lemma stale_commit cfg t arg r f j' :
  mark_stale_if_needed cfg t arg r f = Commit j' -> exists j, f = Some j /\ status (core j) ∈ unfinished /\ status (core j') = failed.
Proof.
  unfold mark_stale_if_needed. case_bool_decide; [done|]. destruct f as [j|]; [|done]. case_bool_decide as Hj; [done|].
  intros Hc. exists j. split_and!; [done|done|]. revert Hc.
  repeat (case_match; try done); intros [= <-]; apply core_fail_closed.
Qed.

Lemma claim_commit w n l r f j' :
  claim w n l r f = Commit j' ->
  exists j, f = Some j /\ status (core j) = queued /\ status (core j') = running /\ worker_id (core j') = Some w /\ lease_id (core j') = Some l.
Proof.
  unfold claim. destruct f as [j|]; [|done]. case_bool_decide; [done|]. destruct (_ && _); [done|]. destruct (_future_iso _ _) as [x|e]; [|done].
  intros [= <-]. exists j. by rewrite core_with.
Qed.

Lemma renew_commit w l n r f j' :
  renew_lease w l n r f = Commit j' ->
  exists j, f = Some j /\ status (core j) = running /\ status (core j') = running /\ worker_id (core j') = worker_id (core j) /\ lease_id (core j') = lease_id (core j).
Proof.
  unfold renew_lease. destruct f as [j|]; [|done]. repeat case_bool_decide; try done; cbn [orb]. destruct (_lease_expired _ _); [done|].
  destruct (_future_iso _ _) as [x|e]; [|done]. intros [= <-]. exists j. by rewrite core_with.
Qed.

(** Only the owner of a live lease writes the end of a job. *)
Lemma finish_commit w l m r f j' :
  finish w l m r f = Commit j' ->
  exists j x, f = Some j /\ status (core j) ∉ TerminalStatus /\ worker_id (core j) = Some w /\ lease_id (core j) = Some l /\
    lease_expires_at (core j) = Some (At x) /\ r 0%nat < x /\ m (r 1%nat) j = Ok j'.
Proof.
  unfold finish. destruct f as [j|]; [|done]. case_bool_decide; [done|]. repeat case_bool_decide; try done; cbn [orb].
  destruct (lease_expires_at (core j)) as [[x|]|] eqn:E; cbn [_lease_expired]; [|done|done]. destruct (Z.leb_spec x (r 0%nat)); [done|].
  unfold commit_mutated. destruct (m (r 1%nat) j) eqn:Em; [|done]. intros [= <-]. by exists j, x.
Qed.

Lemma recover_commit r f j' :
  recover_orphan r f = Commit j' ->
  exists j, f = Some j /\ (status (core j) = queued /\ status (core j') = queued /\ worker_id (core j') = None \/
                         status (core j) = running /\ status (core j') = failed).
Proof.
  unfold recover_orphan. destruct f as [j|]; [|done]. destruct (status (core j)) eqn:E; try done.
  - destruct (_ && _); [done|]. destruct (_ || _); [|done]. intros [= <-]. exists j. rewrite core_with. split; [done|]. by left.
  - destruct (_ && _); [done|]. intros [= <-]. exists j. split; [done|]. right. by rewrite core_fail_closed.
Qed.

Lemma set_commit e m r f j' :
  compare_and_set e m r f = Commit j' -> exists j, f = Some j /\ status (core j) = e /\ m (r 0%nat) j = Ok j'.
Proof.
  unfold compare_and_set. destruct f as [j|]; [|done]. case_bool_decide; [done|]. unfold commit_mutated.
  destruct (m _ _) eqn:Em; [|done]. intros [= <-]. by exists j.
Qed.

(** What a write of an orderly operation does to the job it read. *)
Record orderly_write (o : operation) (j j' : J) : Prop := {
  write_live : (rank (status (core j)) < 3)%nat;
  write_rank : (rank (status (core j)) <= rank (status (core j')))%nat;
  write_claim w n l : o = Claim w n l ->
    status (core j) = queued /\ status (core j') = running /\ worker_id (core j') = Some w /\ lease_id (core j') = Some l;
  write_owner : (rank (status (core j')) < 3)%nat -> (forall w n l, o <> Claim w n l) ->
    worker_id (core j') = None \/ worker_id (core j') = worker_id (core j) /\ lease_id (core j') = lease_id (core j);
  write_finish w l m : o = Finish w l m ->
    worker_id (core j) = Some w /\ lease_id (core j) = Some l /\ rank (status (core j')) = 3%nat
}.

Lemma orderly_commit o r f j' : orderly o -> decides o r f = Commit j' -> exists j, f = Some j /\ orderly_write o j j'.
Proof.
  destruct o as [w n l|w l n|w l m| |cfg t arg|e m|m|j]; cbn [orderly decides]; intros Ho Hc; try done.
  - apply claim_commit in Hc as (j & -> & Hj & Hj' & Hw & Hl). exists j. split; [done|]. split; rewrite ?Hj, ?Hj'; cbn; try lia; [by intros * [= <- <- <-]|naive_solver|done].
  - apply renew_commit in Hc as (j & -> & Hj & Hj' & Hw & Hl). exists j. split; [done|]. split; rewrite ?Hj, ?Hj'; cbn; try lia; try done. intros _ _. by right.
  - apply finish_commit in Hc as (j & x & -> & Hj & Hw & Hl & _ & _ & Hm). exists j. split; [done|]. apply Ho in Hm. apply terminal_rank in Hm.
    rewrite terminal_rank in Hj. assert (rank (status (core j)) <= 3)%nat by (by destruct (status (core j)); cbn; lia).
    split; try lia; [done|by intros * [= <- <- <-]].
  - apply recover_commit in Hc as (j & -> & [(Hj & Hj' & Hw)|[Hj Hj']]); exists j; (split; [done|]); split; rewrite ?Hj, ?Hj'; cbn; try lia; try done. intros _ _. by left.
  - apply stale_commit in Hc as (j & -> & Hj & Hj'). exists j. split; [done|].
    split; rewrite ?Hj'; cbn; try lia; try done; unfold unfinished in Hj; rewrite !elem_of_cons, elem_of_nil in Hj; destruct Hj as [->|[->|[]]]; cbn; lia.
  - apply set_commit in Hc as (j & -> & Hj & Hm). exists j. split; [done|]. destruct e; try done.
    + destruct (Ho _ _ _ Hm) as [Hj' Hw]. split; rewrite ?Hj, ?Hj'; cbn; try lia; done.
    + apply Ho, terminal_rank in Hm. split; rewrite ?Hj; cbn; try lia; done.
Qed.

Lemma atomic_app d es1 es2 d' : atomic_run d (es1 ++ es2) d' <-> exists d1, atomic_run d es1 d1 /\ atomic_run d1 es2 d'.
Proof.
  revert d. induction es1 as [|e es1 IH]; intros d; cbn.
  - split; [intros Hr; exists d; split; [constructor|done]|intros (d1 & H1 & H2); by inversion H1; subst].
  - split.
    + intros Hr. inversion Hr as [|? ? ? Hs|? p id o r ? ? Ho Hs]; subst; apply IH in Hs as (d1 & H1 & H2); exists d1; (split; [by constructor|done]).
    + intros (d1 & H1 & H2). inversion H1; subst; constructor; try done; apply IH; by exists d1.
Qed.

(** ** One job *)

Section OneJob.
Context (id : string) (allowed_orderly : forall p o, allowed p id o -> orderly o).

Definition rank_of (d : gmap string J) : nat := match d !! id with Some j => rank (status (core j)) | None => 3 end.

(** The file of a job changes by the writes of orderly operations only. *)
Lemma atomic_cases d p i o r :
  allowed p i o ->
  let d' := apply_verdict i (decides o r (d !! i)) d in
  d' !! id = d !! id /\ ~ writes id (Ended p i o r (decides o r (d !! i))) \/
  i = id /\ exists j j', decides o r (d !! i) = Commit j' /\ d !! id = Some j /\ d' !! id = Some j' /\ orderly_write o j j'.
Proof.
  intros Ho d'. destruct (decide (i = id)) as [->|Hi].
  - destruct (decides o r (d !! id)) as [j'|j'| |e] eqn:E; subst d'; cbn [apply_verdict];
      try (left; split; [done|]; by intros (? & ? & ? & ? & [= <- <- <- ?])).
    right. split; [done|]. apply allowed_orderly in Ho. destruct (orderly_commit _ _ _ _ Ho E) as (j & Hj & Hw).
    exists j, j'. by rewrite lookup_insert_eq.
  - left. subst d'. split; [|by intros (? & ? & ? & ? & [= <- <- <- ?])]. unfold apply_verdict. destruct (decides _ _ _); try done. by rewrite lookup_insert_ne.
Qed.

(** A finished job is never written again. *)
Lemma terminal_final d es d' j :
  atomic_run d es d' -> d !! id = Some j -> rank (status (core j)) = 3%nat -> d' !! id = Some j /\ Forall (fun e => ~ writes id e) es.
Proof.
  intros Hr. induction Hr as [d|d es d' Hr IH|d p i o r es d' Ho Hr IH]; intros Hj Hk; [done| |].
  - destruct (IH Hj Hk) as [H1 H2]. split; [done|]. constructor; [|done]. by intros (? & ? & ? & ? & ?).
  - destruct (atomic_cases d p i o r Ho) as [[Hd Hw]|(-> & j0 & j' & _ & Hj0 & _ & Hw)].
    + rewrite Hd in IH. destruct (IH Hj Hk) as [H1 H2]. by split; [|constructor].
    + rewrite Hj in Hj0. injection Hj0 as <-. pose proof (write_live _ _ _ Hw). lia.
Qed.

(** A job is claimed at most once. *)
Lemma claims_bound d es d' :
  atomic_run d es d' -> (List.length (filter (fun e => claims id e = true) es) <= if decide (rank_of d <= 1) then 1 else 0)%nat.
Proof.
  intros Hr. induction Hr as [d|d es d' Hr IH|d p i o r es d' Ho Hr IH]; [cbn; lia|by rewrite filter_cons_False|].
  destruct (atomic_cases d p i o r Ho) as [[Hd Hw]|(-> & j & j' & Hc & Hj & Hj' & Hw)].
  - rewrite filter_cons_False; [by unfold rank_of in IH |- *; rewrite Hd in IH|].
    intros Hcl. apply Hw. cbn in Hcl. destruct o; try done. destruct (decides _ _ _) as [j|j| |e]; try done.
    apply bool_decide_eq_true in Hcl as ->. by repeat eexists.
  - unfold rank_of in IH |- *. rewrite Hj' in IH. rewrite Hj. pose proof (write_rank _ _ _ Hw) as Hk.
    destruct (claims id (Ended p id o r (decides o r (d !! id)))) eqn:Ecl.
    + rewrite filter_cons_True by (rewrite <- Hj; exact Ecl). cbn in Ecl. destruct o as [w n l| | | | | | |]; try done.
      destruct (write_claim _ _ _ Hw _ _ _ eq_refl) as (-> & Hrun & _). rewrite Hrun in IH. cbn in IH |- *. repeat destruct (decide _); lia.
    + rewrite filter_cons_False by (rewrite <- Hj, Ecl; done). repeat destruct (decide _); lia.
Qed.

(** The owner of an unfinished job claimed it. *)
Definition owned (past : list event) (d : gmap string J) : Prop :=
  forall j w l, d !! id = Some j -> (rank (status (core j)) < 3)%nat -> worker_id (core j) = Some w -> lease_id (core j) = Some l ->
    exists e, e ∈ past /\ claimed_by id w l e.

Lemma owned_run past d es d' : atomic_run d es d' -> owned past d -> owned (past ++ es) d'.
Proof.
  intros Hr. revert past. induction Hr as [d|d es d' Hr IH|d p i o r es d' Ho Hr IH]; intros past Hp; [by rewrite app_nil_r| |].
  - rewrite cons_middle, app_assoc. apply IH. intros j w l Hj Hk Hw Hl. destruct (Hp j w l Hj Hk Hw Hl) as (e & He & Hc).
    exists e. split; [|done]. apply elem_of_app. by left.
  - rewrite cons_middle, app_assoc. apply IH. intros j w l Hj Hk Hw Hl.
    destruct (atomic_cases d p i o r Ho) as [[Hd Hn]|(-> & j0 & j' & Hc & Hj0 & Hj' & Hwr)].
    + rewrite Hd in Hj. destruct (Hp j w l Hj Hk Hw Hl) as (e & He & Hcb). exists e. split; [|done]. apply elem_of_app. by left.
    + rewrite Hj in Hj'. injection Hj' as <-. assert (Hcase : (exists w n l, o = Claim w n l) \/ forall w n l, o <> Claim w n l).
      { destruct o; try (right; intros; discriminate). left. by repeat eexists. }
      destruct Hcase as [(w' & n & l' & ->)|Hne].
      * destruct (write_claim _ _ _ Hwr _ _ _ eq_refl) as (_ & _ & Hw' & Hl'). rewrite Hw in Hw'. rewrite Hl in Hl'. injection Hw' as <-. injection Hl' as <-.
        eexists. split; [apply elem_of_app; right; apply list_elem_of_singleton; reflexivity|]. rewrite Hc. by repeat eexists.
      * destruct (write_owner _ _ _ Hwr Hk Hne) as [Hnone|[Hw' Hl']]; [by rewrite Hw in Hnone|].
        rewrite Hw in Hw'. rewrite Hl in Hl'. destruct (Hp j0 w l Hj0 (write_live _ _ _ Hwr) (eq_sym Hw') (eq_sym Hl')) as (e & He & Hcb).
        exists e. split; [|done]. apply elem_of_app. by left.
Qed.

(** A job nobody owns yet. *)
Definition unowned (d : gmap string J) : Prop := match d !! id with Some j => worker_id (core j) = None | None => True end.

Lemma finished_once d es1 e es2 d' w l j :
  unowned d -> atomic_run d (es1 ++ e :: es2) d' -> finished_by id w l j e ->
  (exists c, c ∈ es1 /\ claimed_by id w l c) /\ Forall (fun e => ~ writes id e) es2 /\ d' !! id = Some j.
Proof.
  intros Hu Hr (p & m & r & ->). apply atomic_app in Hr as (d1 & H1 & H2). inversion H2 as [| |? ? ? ? ? ? ? Ho Hr']; subst.
  match goal with Hv : decides _ _ _ = Commit _ |- _ => rename Hv into Hc end.
  destruct (atomic_cases d1 p id (Finish w l m) r Ho) as [[_ Hn]|(_ & j0 & j' & Hc' & Hj0 & Hj' & Hw)].
  { destruct Hn. rewrite Hc. by repeat eexists. }
  rewrite Hc in Hc'. injection Hc' as <-. destruct (write_finish _ _ _ Hw _ _ _ eq_refl) as (Hwk & Hls & Hk). split.
  - assert (Hown : owned [] d). { intros j1 w1 l1 Hj1 _ Hw1. unfold unowned in Hu. rewrite Hj1 in Hu. congruence. }
    apply (owned_run [] d es1 d1 H1 Hown j0 w l Hj0 (write_live _ _ _ Hw) Hwk Hls).
  - destruct (terminal_final _ _ _ j Hr' Hj' Hk). done.
Qed.
End OneJob.
End Sharing.

(** ** Running a schedule *)

Section Runner.
Context {J : Type} `{LeaseJob J}.

Inductive command :=
  | Tick (t : Z)
  | Enter (process id : string) (o : operation (J := J))
  | Load (process id : string)
  | End_ (process id : string).

(** The clock stands still during a section. *)
Definition perform (s : system) (c : command) : option (event * system (J := J)) :=
  match c with
  | Tick t =>
      if clock s <=? t then Some (Silent, {| disk := disk s; file_locks := file_locks s; sections := sections s; clock := t |}) else None
  | Enter p id o =>
      match sections s !! (p, id) with
      | Some _ => None
      | None =>
          if file_locked o && bool_decide (file_locks s !! id <> None) then None
          else Some (Silent, {| disk := disk s; file_locks := if file_locked o then <[id := p]> (file_locks s) else file_locks s;
                                sections := <[(p, id) := Entered o]> (sections s); clock := clock s |})
      end
  | Load p id =>
      match sections s !! (p, id) with
      | Some (Entered o) =>
          Some (Silent, {| disk := disk s; file_locks := file_locks s;
                           sections := <[(p, id) := Loaded o (disk s !! id) (clock s)]> (sections s); clock := clock s |})
      | _ => None
      end
  | End_ p id =>
      match sections s !! (p, id) with
      | Some (Loaded o file since) =>
          if since <=? clock s then
            let v := decides o (fun _ => clock s) file in
            Some (Ended p id o (fun _ => clock s) v,
                  {| disk := apply_verdict id v (disk s); file_locks := if file_locked o then delete id (file_locks s) else file_locks s;
                     sections := delete (p, id) (sections s); clock := clock s |})
          else None
      | _ => None
      end
  end.

Fixpoint schedule (s : system) (cs : list command) : option (list event * system (J := J)) :=
  match cs with
  | [] => Some ([], s)
  | c :: cs => '(e, s1) ← perform s c; '(es, s2) ← schedule s1 cs; Some (e :: es, s2)
  end.

Definition entered (c : command) : option (string * string * operation) :=
  match c with Enter p id o => Some (p, id, o) | _ => None end.

Lemma perform_step allowed s c e s' :
  perform s c = Some (e, s') -> (forall p id o, entered c = Some (p, id, o) -> allowed p id o) -> step allowed s e s'.
Proof.
  intros Hp Ha. destruct c as [t|p id o|p id|p id]; cbn in Hp.
  - destruct (Z.leb_spec (clock s) t); [|done]. injection Hp as <- <-. by constructor.
  - destruct (sections s !! (p, id)) eqn:E; [done|]. destruct (file_locked o && _) eqn:Ef; [done|]. injection Hp as <- <-.
    constructor; [by apply Ha|done|]. intros Hl. rewrite Hl in Ef. cbn in Ef. apply bool_decide_eq_false, dec_stable in Ef. done.
  - destruct (sections s !! (p, id)) as [[o|]|] eqn:E; try done. injection Hp as <- <-. by constructor.
  - destruct (sections s !! (p, id)) as [[|o file since]|] eqn:E; try done. destruct (Z.leb_spec since (clock s)); [|done].
    injection Hp as <- <-.
    apply (StepEnd allowed s p id o file since (fun _ => clock s) E). intros n. lia.
Qed.

Lemma schedule_execution allowed s cs es s' :
  schedule s cs = Some (es, s') -> (forall c p id o, c ∈ cs -> entered c = Some (p, id, o) -> allowed p id o) -> execution allowed s es s'.
Proof.
  revert s es. induction cs as [|c cs IH]; intros s es Hs Ha; cbn in Hs; [injection Hs as <- <-; constructor|].
  destruct (perform s c) as [[e s1]|] eqn:E; [|done]. cbn in Hs. destruct (schedule s1 cs) as [[es1 s2]|] eqn:Es; [|done].
  injection Hs as <- <-. econstructor.
  - eapply perform_step; [exact E|]. intros p id o. apply Ha. by left.
  - apply (IH s1); [done|]. intros c' p id o Hc. apply Ha. by right.
Qed.
End Runner.

(** ** What the services run *)

(** The operations the write service and its workers apply to an existing
    research job. *)
Inductive service_operation : operation (J := ResearchJob) -> Prop :=
  | ServiceStart : service_operation (CompareAndSet created _to_queued)
  | ServiceGiveUp reason : service_operation (CompareAndSet queued (_mark_unrunnable reason))
  | ServiceClaim worker seconds lease : service_operation (Claim worker seconds lease)
  | ServiceHeartbeat worker lease seconds : service_operation (RenewLease worker lease seconds)
  | ServiceFinish worker lease outcome register : service_operation (Finish worker lease (_finish outcome register))
  | ServiceFail worker lease msg detail : service_operation (Finish worker lease (_fail msg detail))
  | ServiceRecover : service_operation RecoverOrphan
  | ServiceWatch cfg thread job : service_operation (MarkStale cfg thread job).

Lemma service_orderly o : service_operation o -> orderly o.
Proof.
  intros [|reason| | |w l outcome register|w l msg detail| |]; cbn; try done.
  - intros t j j' [= <-]. cbn. split; [done|by right].
  - intros t j j' [= <-]. unfold fail_closed. cbn. unfold TerminalStatus. set_solver.
  - intros t j j'. unfold _finish, TerminalStatus. destruct (outcome_complete outcome); [destruct register; cbn|]; intros [= <-]; cbn; set_solver.
  - intros t j j' [= <-]. unfold fail_closed. cbn. unfold TerminalStatus. set_solver.
Qed.

(** A store at rest. *)
Definition at_rest {J} (d : gmap string J) (t : Z) : system (J := J) := {| disk := d; file_locks := ∅; sections := ∅; clock := t |}.

(** [C10] The file lock makes the lease operations atomic between processes.
    However the threads of any number of processes interleave claims, renewals,
    ends and recoveries of the jobs of one store, and whenever processes die,
    every operation that ends is applied whole to the files as they are, one after
    the other; so is any other operation on a job that only one process touches.
    In particular a job that only lease operations touch is claimed at most once
    when workers end it with a terminal status: concurrent claims of independent
    processes have one winner. *)
Theorem job_sections_atomic allowed (d : gmap string ResearchJob) t es s' :
  (forall id, (forall p o, allowed p id o -> lease_operation o) \/ (exists p0, forall p o, allowed p id o -> p = p0)) ->
  execution allowed (at_rest d t) es s' ->
  atomic_run allowed d es (disk s') /\
  forall id, (forall p o, allowed p id o -> lease_operation o) -> (forall p w l m, allowed p id (Finish w l m) -> ends m) ->
    (List.length (filter (fun e => claims id e = true) es) <= 1)%nat.
Proof.
  intros Hd Hx. pose proof (execution_atomic allowed _ _ _ Hd (sections_inv_start _ _ _) Hx) as Ha. split; [exact Ha|]. intros id Hl He.
  assert (Hord : forall p o, allowed p id o -> orderly o).
  { intros p o Hpo. pose proof (Hl p o Hpo) as Ho. destruct o; try done. by eapply He. }
  pose proof (claims_bound allowed id Hord _ _ _ Ha) as Hc. destruct (decide _); lia.
Qed.

(** [C11] Under the same discipline (lease operations only, or one process) a
    research job that nobody owns yet is claimed at most once, its result is written only by the worker that claimed it, and
    nothing is written after the result. *)
Theorem research_job_runs_once allowed id (d : gmap string ResearchJob) t es s' :
  disciplined allowed -> (forall p o, allowed p id o -> service_operation o) -> unowned id d -> execution allowed (at_rest d t) es s' ->
  (List.length (filter (fun e => claims id e = true) es) <= 1)%nat /\
  forall es1 e es2 w l j, es = es1 ++ e :: es2 -> finished_by id w l j e ->
    (exists c, c ∈ es1 /\ claimed_by id w l c) /\ Forall (fun e => ~ writes id e) es2 /\ disk s' !! id = Some j.
Proof.
  intros Hd Ho Hu Hx. apply (execution_atomic _ _ _ _ Hd (sections_inv_start _ _ _)) in Hx. cbn in Hx.
  assert (Hord : forall p o, allowed p id o -> orderly o) by (intros p o Ha; by eapply service_orderly, Ho).
  split.
  - pose proof (claims_bound allowed id Hord _ _ _ Hx) as Hc. destruct (decide _); lia.
  - intros es1 e es2 w l j -> Hf. exact (finished_once allowed id Hord _ _ _ _ _ _ _ _ Hu Hx Hf).
Qed.

(** ** Without the file lock *)

Section Races.
Local Open Scope string_scope.

Definition blank_core (s : JobStatus) : JobCore :=
  {| status := s; created_at := At 0; updated_at := At 0; started_at := None; finished_at := None; error := None; error_detail := None;
     worker_id := None; lease_id := None; lease_expires_at := None |}.

Definition blank_job (c : JobCore) : ResearchJob :=
  {| experiment_id := "exp"; research_core := c; run_id := None; attempt_id := None; dataset_catalog_id := Some "catalog"; name := None |}.

Definition one_job (c : JobCore) : gmap string ResearchJob := {["exp" := blank_job c]}.

(** Both processes read the job before either starts it. *)
Definition double_start : list (command (J := ResearchJob)) :=
  [Enter "A" "exp" (CompareAndSet created _to_queued); Enter "B" "exp" (CompareAndSet created _to_queued); Load "A" "exp"; Load "B" "exp"; End_ "A" "exp";
   Enter "A" "exp" (Claim "worker-a" 45 "lease-a"); Load "A" "exp"; End_ "A" "exp"; End_ "B" "exp";
   Enter "B" "exp" (Claim "worker-b" 45 "lease-b"); Load "B" "exp"; End_ "B" "exp"].

Definition running_core : JobCore :=
  {| status := running; created_at := At 0; updated_at := At 0; started_at := Some (At 0); finished_at := None; error := None; error_detail := None;
     worker_id := Some "worker-a"; lease_id := Some "lease-a"; lease_expires_at := Some (At 45000000) |}.

Definition done_outcome : RunOutcome :=
  {| outcome_run_id := "run"; outcome_attempt_id := "attempt"; outcome_complete := true; outcome_status := "complete"; outcome_error := None |}.

Definition defaults : stale_config := {| stale_running_seconds := 900; stale_queued_seconds := 60; stale_running_grace_seconds := 5 |}.

(** The watchdog of another process reads the job before the worker ends it, and
    looks at the lease afterwards. *)
Definition late_watchdog : list (command (J := ResearchJob)) :=
  [Tick 44000000; Enter "B" "exp" (MarkStale defaults None (blank_job running_core)); Load "B" "exp";
   Enter "A" "exp" (Finish "worker-a" "lease-a" (_finish done_outcome (Ok tt))); Load "A" "exp"; End_ "A" "exp";
   Tick 45000000; End_ "B" "exp"].

(** An event that wrote a completed job. *)
Definition completes (id : string) (e : event (J := ResearchJob)) : bool :=
  match e with Ended _ i (Finish _ _ _) _ (Commit j) => bool_decide (i = id) && bool_decide (status (core j) = completed) | _ => false end.

Lemma schedule_of (cs : list command) c (P : list event -> system -> bool) :
  (forall cm p id o, cm ∈ cs -> entered cm = Some (p, id, o) -> service_operation o) ->
  match schedule (at_rest (one_job c) 0) cs with Some (es, s) => P es s | None => false end = true ->
  exists es s, execution (fun _ _ => service_operation) (at_rest (one_job c) 0) es s /\ P es s = true.
Proof.
  intros Ho H. destruct (schedule _ cs) as [[es s]|] eqn:E; [|done]. exists es, s. split; [|done]. by eapply schedule_execution; [exact E|].
Qed.

Ltac service_commands :=
  intros cm p id o Hin Hen; repeat (apply elem_of_cons in Hin as [->|Hin]; [try discriminate Hen; injection Hen as <- <- <-; constructor|]);
  by apply not_elem_of_nil in Hin.

(** [C27] The operations that take the lock of their process only are not atomic
    between processes.  Two processes that start one job can both have it
    claimed, and the watchdog of one process can fail a job that a worker of
    another has completed. *)
Theorem job_races_across_processes :
  (exists es s, execution (fun _ _ => service_operation) (at_rest (one_job (blank_core created)) 0) es s /\
    List.length (filter (fun e => claims "exp" e = true) es) = 2%nat) /\
  (exists es s, execution (fun _ _ => service_operation) (at_rest (one_job running_core) 0) es s /\
    existsb (completes "exp") es = true /\ (status ∘ core) <$> disk s !! "exp" = Some failed).
Proof.
  split.
  - destruct (schedule_of double_start (blank_core created) (fun es _ => bool_decide (List.length (filter (fun e => claims "exp" e = true) es) = 2%nat)))
      as (es & s & Hx & Hp); [service_commands|vm_compute; reflexivity|]. exists es, s. split; [exact Hx|]. exact (bool_decide_eq_true_1 _ Hp).
  - destruct (schedule_of late_watchdog running_core (fun es s => existsb (completes "exp") es && bool_decide ((status ∘ core) <$> disk s !! "exp" = Some failed)))
      as (es & s & Hx & Hp); [service_commands|vm_compute; reflexivity|]. exists es, s. split; [exact Hx|].
    apply andb_true_iff in Hp as [Hc Hs]. split; [exact Hc|exact (bool_decide_eq_true_1 _ Hs)].
Qed.
End Races.

(** ** A process of its own *)

Section Witnesses.
Local Open Scope string_scope.

Definition only_a (p id : string) (o : operation (J := ResearchJob)) : Prop := p = "A" /\ service_operation o.

Lemma only_a_disciplined : disciplined only_a.
Proof. intros id. right. exists "A". by intros p o [-> _]. Qed.

Definition whole_life : list (command (J := ResearchJob)) :=
  [Enter "A" "exp" (CompareAndSet created _to_queued); Load "A" "exp"; End_ "A" "exp";
   Enter "A" "exp" (Claim "worker-a" 45 "lease-a"); Load "A" "exp"; End_ "A" "exp"; Tick 20000000;
   Enter "A" "exp" (RenewLease "worker-a" "lease-a" 45); Load "A" "exp"; End_ "A" "exp"; Tick 50000000;
   Enter "A" "exp" (Finish "worker-a" "lease-a" (_finish done_outcome (Ok tt))); Load "A" "exp"; End_ "A" "exp"].

Lemma whole_life_runs :
  exists es s, execution only_a (at_rest (one_job (blank_core created)) 0) es s /\ existsb (completes "exp") es = true.
Proof.
  destruct (schedule (at_rest (one_job (blank_core created)) 0) whole_life) as [[es s]|] eqn:E; [|vm_compute in E; discriminate E].
  exists es, s. split.
  - eapply schedule_execution; [exact E|]. intros cm p id o Hin Hen. unfold only_a.
    repeat (apply elem_of_cons in Hin as [->|Hin]; [try discriminate Hen; injection Hen as <- <- <-; (split; [reflexivity|constructor])|]).
    destruct (not_elem_of_nil _ Hin).
  - assert (H : match schedule (at_rest (one_job (blank_core created)) 0) whole_life with Some (es, _) => existsb (completes "exp") es | None => false end = true)
      by (vm_compute; reflexivity).
    rewrite E in H. exact H.
Qed.

(** Two processes claim one queued job; the second waits for the lock. *)
Definition two_claims : list (command (J := ResearchJob)) :=
  [Enter "A" "exp" (Claim "worker-a" 45 "lease-a"); Load "A" "exp"; End_ "A" "exp";
   Enter "B" "exp" (Claim "worker-b" 45 "lease-b"); Load "B" "exp"; End_ "B" "exp";
   Enter "A" "exp" (Finish "worker-a" "lease-a" (_finish done_outcome (Ok tt))); Load "A" "exp"; End_ "A" "exp"].

Definition lease_service (p id : string) (o : operation (J := ResearchJob)) : Prop := lease_operation o /\ service_operation o.

Lemma two_claims_run :
  exists es s, execution lease_service (at_rest (one_job (blank_core queued)) 0) es s /\
    List.length (filter (fun e => claims "exp" e = true) es) = 1%nat /\ existsb (completes "exp") es = true.
Proof.
  destruct (schedule (at_rest (one_job (blank_core queued)) 0) two_claims) as [[es s]|] eqn:E; [|vm_compute in E; discriminate E].
  exists es, s. split.
  - eapply schedule_execution; [exact E|]. intros cm p id o Hin Hen. unfold lease_service.
    repeat (apply elem_of_cons in Hin as [->|Hin]; [try discriminate Hen; injection Hen as <- <- <-; (split; [exact I|constructor])|]).
    destruct (not_elem_of_nil _ Hin).
  - assert (H : match schedule (at_rest (one_job (blank_core queued)) 0) two_claims with
      | Some (es, _) => bool_decide (List.length (filter (fun e => claims "exp" e = true) es) = 1%nat) && existsb (completes "exp") es
      | None => false end = true) by (vm_compute; reflexivity).
    rewrite E in H. apply andb_true_iff in H as [H1 H2]. split; [exact (bool_decide_eq_true_1 _ H1)|exact H2].
Qed.

Lemma job_sections_atomic_witness :
  exists es s, existsb (completes "exp") es = true /\ atomic_run lease_service (one_job (blank_core queued)) es (disk s) /\
    (List.length (filter (fun e => claims "exp" e = true) es) <= 1)%nat.
Proof.
  destruct two_claims_run as (es & s & Hx & _ & Hc). exists es, s. split; [exact Hc|].
  destruct (job_sections_atomic lease_service _ 0 es s (fun id => or_introl (fun p o H => proj1 H)) Hx) as [Ha Hone]. split; [exact Ha|].
  apply (Hone "exp"); [exact (fun p o H => proj1 H)|]. intros p w l m [_ Ho]. exact (service_orderly _ Ho).
Defined.

Lemma research_job_runs_once_witness :
  exists es s, existsb (completes "exp") es = true /\ execution only_a (at_rest (one_job (blank_core created)) 0) es s /\
    (List.length (filter (fun e => claims "exp" e = true) es) <= 1)%nat.
Proof.
  destruct whole_life_runs as (es & s & Hx & Hc). exists es, s. split; [exact Hc|]. split; [exact Hx|].
  exact (proj1 (research_job_runs_once only_a "exp" (one_job (blank_core created)) 0 es s only_a_disciplined (fun p o H => proj2 H) eq_refl Hx)).
Defined.
End Witnesses.
