(* ===== verification/GatePolicy.v ===== *)
(** * Gate policies (services/research/gate_policy.py)

    A policy is a versioned list of thresholds on named metrics.  Evidence
    records are bound to the digest of a policy's content, so the digest must
    change with the content. *)
From Stdlib Require Import ZArith QArith Strings.Ascii.
From stdpp Require Import base list strings gmap.
From S2P Require Import Prelude Decimal CanonicalJson.

Local Open Scope string_scope.

(** ** Categories *)

Definition GATE_CATEGORIES : list string :=
  ["sample_sufficiency"; "oos_net"; "drawdown"; "walk_forward"; "cost_stress"; "parameter_fragility"; "bootstrap"; "concentration";
   "regime_coverage"; "execution_realism"; "behaviour"; "other"].

Definition CRITICAL_GATE_CATEGORIES : list string :=
  ["sample_sufficiency"; "oos_net"; "drawdown"; "walk_forward"; "cost_stress"; "parameter_fragility"; "bootstrap"; "concentration";
   "regime_coverage"; "execution_realism"].

(** ** Policies *)

Record GateDefinition := { name : string; metric : string; comparator : string; threshold : string; description : string; category : string }.

Definition gate_post_init (g : GateDefinition) : res GateDefinition :=
  if bool_decide (category g <> "") && bool_decide (category g ∉ GATE_CATEGORIES) then Raise (GatePolicyError "unsupported gate category")
  else Ok g.

Definition gate_to_dict (g : GateDefinition) : jvalue :=
  VObj ([("name", VStr (name g)); ("metric", VStr (metric g)); ("comparator", VStr (comparator g)); ("threshold", VStr (threshold g));
         ("description", VStr (description g))] ++ (if bool_decide (category g <> "") then [("category", VStr (category g))] else []))%list.

Record GatePolicy := { version : string; policy_description : string; gates : list GateDefinition }.

Definition policy_to_dict (p : GatePolicy) : jvalue :=
  VObj [("version", VStr (version p)); ("description", VStr (policy_description p)); ("gates", VArr (gate_to_dict <$> gates p))].

Definition compute_policy_content_hash (p : GatePolicy) : string := Sha256.hexdigest (canonical_json (policy_to_dict p)).

Definition is_critical_category (category : string) : bool :=
  bool_decide (category <> "") && bool_decide (category ∈ CRITICAL_GATE_CATEGORIES).

Definition POLICY_1_0_CONTENT_HASH : string := "a589305b86745cb7ae1e1dde4b8e94e8dc6b6a8fd38a711d44f28415d54070c5".

(** ** The registered versions *)

Definition gate_1_0 (name metric threshold description : string) : GateDefinition :=
  {| name := name; metric := metric; comparator := "gte"; threshold := threshold; description := description; category := "" |}.

Definition _GATES_1_0 : list GateDefinition :=
  [gate_1_0 "min_closed_trades" "closed_trades" "10" "Sample sufficiency floor (generic example default).";
   gate_1_0 "net_pnl_non_negative" "net_pnl" "0" "Net PnL under base costs must not be negative.";
   gate_1_0 "max_drawdown_floor" "max_drawdown" "-0.5"
     "Max drawdown must not be worse than -50% of starting capital (generic example default).";
   gate_1_0 "walk_forward_fold_pass_ratio" "walk_forward_fold_pass_ratio" "0.5"
     "Share of walk-forward folds (robustness manifest, #247) with net PnL >= 0 under base costs.";
   gate_1_0 "cost_stress_combined_elevated_non_negative" "cost_stress_combined_elevated_net_pnl" "0"
     "Cost-stress child 'combined_elevated' net PnL (robustness manifest, #247) must not be negative.";
   gate_1_0 "parameter_neighbor_pass_ratio" "parameter_neighbor_pass_ratio" "0.5"
     "Share of parameter-stability neighbors (robustness manifest, #247) with net PnL >= 0.";
   gate_1_0 "bootstrap_q05_net_pnl_non_negative" "bootstrap_q05_net_pnl" "0"
     "Bootstrap 5% path net-PnL quantile (robustness manifest, #247) must not be negative."].

Definition _CATEGORY_BY_GATE_NAME : list (string * string) :=
  [("min_closed_trades", "sample_sufficiency"); ("net_pnl_non_negative", "oos_net"); ("max_drawdown_floor", "drawdown");
   ("walk_forward_fold_pass_ratio", "walk_forward"); ("cost_stress_combined_elevated_non_negative", "cost_stress");
   ("parameter_neighbor_pass_ratio", "parameter_fragility"); ("bootstrap_q05_net_pnl_non_negative", "bootstrap")].

Fixpoint assoc {A} (k : string) (l : list (string * A)) : option A :=
  match l with [] => None | (k', v) :: l => if bool_decide (k' = k) then Some v else assoc k l end.

(** [d[k]]. *)
Definition item {A} (k : string) (l : list (string * A)) : res A := or_raise (KeyError k) (assoc k l).

Fixpoint each {A B} (f : A -> res B) (l : list A) : res (list B) :=
  match l with [] => Ok [] | x :: l => y ← f x; ys ← each f l; Ok (y :: ys) end.

(** Evaluated when the module is imported. *)
Definition _GATES_1_1 : res (list GateDefinition) :=
  each (fun g => c ← item (name g) _CATEGORY_BY_GATE_NAME;
    gate_post_init {| name := name g; metric := metric g; comparator := comparator g; threshold := threshold g; description := description g; category := c |})
    _GATES_1_0.

Definition policy_1_0 : GatePolicy :=
  {| version := "1.0";
     policy_description := "Generic P4.7c example gate policy: structural sufficiency and sign checks over evidence already produced by the research runner and robustness orchestrator. Not the P5 human decision rules (see docs/research/p5/P5_DECISION_RULES.md, #205).";
     gates := _GATES_1_0 |}.

Definition policy_1_1 (gates_1_1 : list GateDefinition) : GatePolicy :=
  {| version := "1.1";
     policy_description := "Scorecard integrity profile (#286): same generic thresholds as 1.0 plus Layer-1 critical-gate categories. Integrity status is evaluated separately; missing evidence yields NOT_AVAILABLE, never PASS. Not the P5 human decision rules (#205).";
     gates := gates_1_1 |}.

Definition _POLICY_REGISTRY : list (string * GatePolicy) :=
  ("1.0", policy_1_0) :: match _GATES_1_1 with Ok l => [("1.1", policy_1_1 l)] | Raise _ => [] end.

Definition get_policy (version : string) : res GatePolicy :=
  or_raise (GatePolicyError "unknown gate policy version") (assoc version _POLICY_REGISTRY).

Definition verify_policy_content_hash (version expected_content_hash : string) : res unit :=
  policy ← get_policy version;
  if bool_decide (compute_policy_content_hash policy <> expected_content_hash) then Raise (GatePolicyError "policy content hash mismatch") else Ok tt.

(** ** Comparators *)

Definition _COMPARATORS : list (string * (decimal -> decimal -> bool)) :=
  [("gte", fun measured threshold => dleb threshold measured); ("gt", fun measured threshold => dltb threshold measured);
   ("lte", fun measured threshold => dleb measured threshold); ("lt", fun measured threshold => dltb measured threshold);
   ("eq", fun measured threshold => deqb measured threshold)].

Definition evaluate_comparator (comparator : string) (measured threshold : decimal) : res bool :=
  match assoc comparator _COMPARATORS with
  | None => Raise (GatePolicyError "unknown comparator")
  | Some fn => Ok (fn measured threshold)
  end.

(** [Decimal(text)], for a numeral with a sign and a point; [seen] says that a
    digit was read. *)
Fixpoint numeral (seen : bool) (acc : Z) (after_point : option Z) (s : string) : option decimal :=
  match s with
  | "" => if seen then Some match after_point with Some k => ((acc # 1) * p10 (- k))%Q | None => (acc # 1)%Q end else None
  | String c s =>
      if bool_decide (c = "."%char) then match after_point with None => numeral seen acc (Some 0%Z) s | Some _ => None end
      else
        let d := (Z.of_nat (Ascii.nat_of_ascii c) - 48)%Z in
        if (0 <=? d)%Z && (d <=? 9)%Z then numeral true (10 * acc + d) (Z.succ <$> after_point) s else None
  end.

Definition decimal_of_text (s : string) : res decimal :=
  or_raise InvalidOperation match s with
  | String c s' => if bool_decide (c = "-"%char) then Qopp <$> numeral false 0 None s' else numeral false 0 None s
  | "" => None
  end.

Example threshold_texts : decimal_of_text <$> ["10"; "0"; "-0.5"; "-."] = [Ok (10 # 1); Ok (0 # 1); Ok (-5 # 10); Raise InvalidOperation]%Q.
Proof. vm_compute. reflexivity. Qed.

Example policy_1_0_digest : compute_policy_content_hash policy_1_0 = POLICY_1_0_CONTENT_HASH.
Proof. vm_compute. reflexivity. Qed.

(** ** The digest identifies the policy *)

Definition sorted_gate (g : GateDefinition) : jvalue :=
  VObj ((if bool_decide (category g <> "") then [("category", VStr (category g))] else []) ++
        [("comparator", VStr (comparator g)); ("description", VStr (description g)); ("metric", VStr (metric g)); ("name", VStr (name g));
         ("threshold", VStr (threshold g))])%list.

Lemma sort_gate g : sort_keys (gate_to_dict g) = sorted_gate g.
Proof. unfold gate_to_dict, sorted_gate. case_bool_decide; reflexivity. Qed.

Lemma sort_policy p :
  sort_keys (policy_to_dict p) =
  VObj [("description", VStr (policy_description p)); ("gates", VArr (sorted_gate <$> gates p)); ("version", VStr (version p))].
Proof.
  transitivity (VObj [("description", VStr (policy_description p)); ("gates", VArr (sort_keys <$> (gate_to_dict <$> gates p))); ("version", VStr (version p))]);
    [reflexivity|]. rewrite <- list_fmap_compose. do 4 f_equal. f_equal. apply list_fmap_ext. intros _ g _. apply sort_gate.
Qed.

Lemma sorted_gate_inj g h : sorted_gate g = sorted_gate h -> g = h.
Proof.
  destruct g, h. unfold sorted_gate. cbn. repeat case_bool_decide; cbn; intros [=]; subst; try done; f_equal; try done.
  all: by repeat match goal with H : ~ _ <> _ |- _ => apply dec_stable in H end; subst.
Qed.

Lemma policy_floatless p : floatless (policy_to_dict p) = true.
Proof.
  cbn. rewrite andb_true_r. apply forallb_forall. intros x Hx. apply list_elem_of_In, list_elem_of_fmap in Hx as (g & -> & _).
  unfold gate_to_dict. by case_bool_decide.
Qed.

(** [C29] The content hash is the identity of a policy: two policies with the same
    hash are the same, down to the descriptions, unless their texts are a
    collision of SHA-256.  A silent edit of a registered version is seen. *)
Theorem policy_hash_binds p q :
  compute_policy_content_hash p = compute_policy_content_hash q ->
  p = q \/ collision (canonical_json (policy_to_dict p)) (canonical_json (policy_to_dict q)).
Proof.
  intros H. destruct (content_digest_inj _ _ (policy_floatless p) (policy_floatless q) H) as [E|E]; [left|by right].
  rewrite !sort_policy in E. injection E as Ed Eg Ev. apply (list_fmap_eq_inj sorted_gate) in Eg; [|intros ? ?; apply sorted_gate_inj].
  destruct p, q. cbn in *. by subst.
Qed.

Lemma policy_hash_binds_witness :
  policy_1_0 = policy_1_0 \/ collision (canonical_json (policy_to_dict policy_1_0)) (canonical_json (policy_to_dict policy_1_0)).
Proof. exact (policy_hash_binds policy_1_0 policy_1_0 eq_refl). Defined.

(** ** The registered policies can be evaluated *)

Definition evaluable (g : GateDefinition) : bool :=
  match decimal_of_text (threshold g), assoc (comparator g) _COMPARATORS with Ok _, Some _ => true | _, _ => false end.

Lemma registered_evaluable v p :
  get_policy v = Ok p ->
  version p = v /\ gates p <> [] /\ forallb evaluable (gates p) = true /\
  (forallb (fun g => bool_decide (category g = "")) (gates p) = true \/ forallb (fun g => is_critical_category (category g)) (gates p) = true).
Proof.
  unfold get_policy. intros H. apply or_raise_ok in H. unfold _POLICY_REGISTRY in H. cbn [assoc] in H. case_bool_decide as Hv.
  - injection H as <-. split_and!; [done|done|vm_compute; reflexivity|left; vm_compute; reflexivity].
  - assert (H1 : exists l, _GATES_1_1 = Ok l /\ l <> [] /\ forallb evaluable l = true /\ forallb (fun g => is_critical_category (category g)) l = true).
    { eexists. split; [vm_compute; reflexivity|]. split_and!; [done|vm_compute; reflexivity|vm_compute; reflexivity]. }
    destruct H1 as (l & El & Hne & He & Hc). rewrite El in H. cbn [assoc] in H. case_bool_decide as Hv'; [|done].
    injection H as <-. cbn. split_and!; [done|done|done|by right].
Qed.
