(* ===== verification/ResearchRegistry.v ===== *)
(** * Artifacts and the experiment registry (services/research/: artifacts.py,
    registry.py)

    A run directory is the map from the relative paths of its files to their
    bytes.  The registry is an append-only log of entries with the digests of
    the artifacts, and a sidecar file for each invalidated run. *)
From Stdlib Require Import ZArith Strings.Ascii.
From stdpp Require Import base list gmap strings sorting relations.
From S2P Require Import Prelude CanonicalJson.

Local Open Scope string_scope.

(** ** Run directories *)

Notation directory := (gmap string string) (only parsing).
Notation checksums := (gmap string string) (only parsing).

(** The last component of a relative path. *)
Fixpoint path_name_from (acc : string) (s : string) : string :=
  match s with
  | "" => acc
  | String c s => if bool_decide (c = "/"%char) then path_name_from "" s else path_name_from (acc ++ String c "") s
  end.

Definition path_name (rel : string) : string := path_name_from "" rel.

Definition compute_artifact_checksums (run_dir : directory) : checksums :=
  Sha256.hexdigest <$> filter (fun '(rel, _) => path_name rel <> "checksums.json") run_dir.

Fixpoint verify_files (run_dir : directory) (expected : list (string * string)) : res unit :=
  match expected with
  | [] => Ok tt
  | (rel, digest) :: rest =>
      match run_dir !! rel with
      | None => Raise (FileNotFoundError rel)
      | Some bytes => if bool_decide (Sha256.hexdigest bytes <> digest) then Raise (ValueError "checksum mismatch") else verify_files run_dir rest
      end
  end.

Definition unexpected_files (run_dir : directory) (expected : checksums) : directory :=
  filter (fun '(rel, _) => rel <> "checksums.json" /\ expected !! rel = None) run_dir.

Definition verify_checksums_against (run_dir : directory) (expected : checksums) : res unit :=
  if bool_decide (unexpected_files run_dir expected <> ∅) then Raise (ValueError "unexpected artifacts not in trusted checksums")
  else verify_files run_dir (sort_items (map_to_list expected)).

(** ** Logs and sidecars *)

(** A line of a JSONL file. *)
Inductive log_line (A : Type) := Entry (a : A) | BlankLine | CorruptLine.
Arguments Entry {_} _.
Arguments BlankLine {_}.
Arguments CorruptLine {_}.

Fixpoint read_log {A} (l : list (log_line A)) : res (list A) :=
  match l with
  | [] => Ok []
  | BlankLine :: l => read_log l
  | CorruptLine :: _ => Raise (ValueError "not JSON")
  | Entry a :: l => rest ← read_log l; Ok (a :: rest)
  end.

(** A line of a sidecar: an object with its status and id, or something else. *)
Inductive sidecar_line := SidecarObject (status id : string) | SidecarBlank | SidecarOther.

Inductive sidecar := UnreadableFile | SidecarText (lines : list sidecar_line).

Definition blank_line (l : sidecar_line) : bool := match l with SidecarBlank => true | _ => false end.

Fixpoint marks (id : string) (lines : list sidecar_line) : bool :=
  match lines with
  | [] => true
  | SidecarBlank :: lines => marks id lines
  | SidecarOther :: _ => true
  | SidecarObject st i :: lines => if bool_decide (st = "invalidated") then true else if bool_decide (i = id) then true else marks id lines
  end.

Definition sidecar_marks_invalidated (sidecars : gmap string sidecar) (id : string) : bool :=
  match sidecars !! id with
  | None => false
  | Some UnreadableFile => true
  | Some (SidecarText lines) => if forallb blank_line lines then true else marks id lines
  end.

(** Opened for appending; an unreadable file that can be written gets the line
    as well. *)
Definition append_sidecar (id : string) (line : sidecar_line) (sidecars : gmap string sidecar) : gmap string sidecar :=
  match sidecars !! id with
  | Some UnreadableFile => sidecars
  | Some (SidecarText lines) => <[id := SidecarText (lines ++ [line])%list]> sidecars
  | None => <[id := SidecarText [line]]> sidecars
  end.

(** ** The registry *)

Record RegistryEntry := {
  experiment_id : string;
  run_id : string;
  attempt_id : string;
  status : string;
  strategy_version : string;
  dataset_version : string;
  cost_model_version : string;
  benchmark_ref : string;
  created_at : string;
  artifact_path : string;
  entry_checksums : checksums
}.

Definition with_status (s : string) (e : RegistryEntry) : RegistryEntry :=
  {| experiment_id := experiment_id e; run_id := run_id e; attempt_id := attempt_id e; status := s; strategy_version := strategy_version e;
     dataset_version := dataset_version e; cost_model_version := cost_model_version e; benchmark_ref := benchmark_ref e; created_at := created_at e;
     artifact_path := artifact_path e; entry_checksums := entry_checksums e |}.

Record registry := { log : list (log_line RegistryEntry); sidecars : gmap string sidecar }.

(** The run directories, by path. *)
Notation disks := (gmap string (gmap string string)) (only parsing).

Definition run_dir (fs : disks) (path : string) : directory := default ∅ (fs !! path).

Section Registry.
(** [load_checksums]: the JSON of checksums.json. *)
Context (load_checksums : string -> res checksums).

Definition _append (record : RegistryEntry) (r : registry) : res registry :=
  if bool_decide (run_id record <> "") && bool_decide (status record <> "invalidated") && sidecar_marks_invalidated (sidecars r) (run_id record)
  then Raise (ValueError "run_id invalidated: reactivation forbidden")
  else Ok {| log := (log r ++ [Entry record])%list; sidecars := sidecars r |}.

Definition _apply_sidecar (r : registry) (e : RegistryEntry) : RegistryEntry :=
  if sidecar_marks_invalidated (sidecars r) (run_id e) then with_status "invalidated" e else e.

Definition list_entries (r : registry) : res (list RegistryEntry) := entries ← read_log (log r); Ok (_apply_sidecar r <$> (entries : list RegistryEntry)).

(** [record] is the entry to write, with the time of the call. *)
Definition register_complete (fs : disks) (record : RegistryEntry) (r : registry) : res registry :=
  if sidecar_marks_invalidated (sidecars r) (run_id record) then Raise (ValueError "run_id invalidated: reactivation forbidden")
  else
    entries ← list_entries r;
    if existsb (fun e => bool_decide (run_id e = run_id record) && bool_decide (status e = "complete")) entries
    then Raise (ValueError "duplicate complete run_id forbidden")
    else
      let path := run_dir fs (artifact_path record) in
      let on_disk := compute_artifact_checksums path in
      if bool_decide (entry_checksums record <> on_disk) then Raise (ValueError "provided checksums do not match finalized artifact set")
      else
        _ ← (match path !! "checksums.json" with
             | None => Ok tt
             | Some bytes =>
                 seal ← load_checksums bytes;
                 if bool_decide (seal <> on_disk) then Raise (ValueError "checksums.json seal disagrees with artifact files") else Ok tt
             end);
        _ ← verify_checksums_against path (entry_checksums record);
        _append (with_status "complete" record) r.

Definition _verify_entry_artifacts (fs : disks) (e : RegistryEntry) : res unit :=
  match fs !! artifact_path e with
  | None => Raise (FileNotFoundError (artifact_path e))
  | Some dir =>
      if bool_decide (entry_checksums e = ∅) then Raise (ValueError "empty trusted checksums") else verify_checksums_against dir (entry_checksums e)
  end.

(** The first of the list with the id. *)
Definition find_run (id : string) (l : list RegistryEntry) : option RegistryEntry := find (fun e => bool_decide (run_id e = id)) l.

Definition show (fs : disks) (id : string) (verify : bool) (r : registry) : res RegistryEntry :=
  entries ← list_entries r;
  match find_run id (rev entries) with
  | None => Raise (KeyError id)
  | Some e => if verify && bool_decide (status e = "complete") then _ ← _verify_entry_artifacts fs e; Ok e else Ok e
  end.

Definition invalidate (fs : disks) (id now : string) (r : registry) : res registry :=
  e ← show fs id false r;
  if bool_decide (status e = "invalidated") then Raise (ValueError "run already invalidated")
  else
    let r' := {| log := log r; sidecars := append_sidecar id (SidecarObject "invalidated" id) (sidecars r) |} in
    _append {| experiment_id := experiment_id e; run_id := run_id e; attempt_id := attempt_id e; status := "invalidated";
               strategy_version := strategy_version e; dataset_version := dataset_version e; cost_model_version := cost_model_version e;
               benchmark_ref := benchmark_ref e; created_at := now; artifact_path := artifact_path e; entry_checksums := entry_checksums e |} r'.
End Registry.

(** ** What a verification decides *)

Lemma verify_files_ok run_dir l :
  verify_files run_dir l = Ok tt <-> Forall (fun '(rel, digest) => exists bytes, run_dir !! rel = Some bytes /\ Sha256.hexdigest bytes = digest) l.
Proof.
  induction l as [|[rel digest] l IH]; cbn; [done|]. rewrite Forall_cons, <- IH. destruct (run_dir !! rel) as [bytes|]; [|naive_solver].
  case_bool_decide as Hd; naive_solver.
Qed.

Lemma sort_items_elem {A} (o : list (string * A)) x : x ∈ sort_items o <-> x ∈ o.
Proof. unfold sort_items. by rewrite merge_sort_Permutation. Qed.

(** The verification accepts a directory exactly when its files are the trusted
    ones, byte for byte up to the digest. *)
Lemma verify_checksums_exact run_dir expected :
  verify_checksums_against run_dir expected = Ok tt <->
  (forall rel bytes, run_dir !! rel = Some bytes -> rel <> "checksums.json" -> is_Some (expected !! rel)) /\
  (forall rel digest, expected !! rel = Some digest -> exists bytes, run_dir !! rel = Some bytes /\ Sha256.hexdigest bytes = digest).
Proof.
  unfold verify_checksums_against. assert (Hfiles : verify_files run_dir (sort_items (map_to_list expected)) = Ok tt <->
    (forall rel digest, expected !! rel = Some digest -> exists bytes, run_dir !! rel = Some bytes /\ Sha256.hexdigest bytes = digest)).
  { rewrite verify_files_ok, Forall_forall. split.
    - intros H rel digest He. apply (H (rel, digest)), sort_items_elem, elem_of_map_to_list. done.
    - intros H [rel digest] He%sort_items_elem%elem_of_map_to_list. by apply H. }
  case_bool_decide as Hu.
  - split; [done|]. intros [Hx _]. destruct Hu. apply map_empty. intros rel. apply eq_None_not_Some. intros [bytes Hb].
    apply map_lookup_filter_Some in Hb as [Hb [Hne Hno]]. destruct (Hx _ _ Hb Hne) as [? Hs]. congruence.
  - rewrite Hfiles. split; [intros H; split; [|done]|by intros [_ H]].
    intros rel bytes Hb Hne. apply not_eq_None_Some. intros Hno. apply (map_empty _ ) with (i := rel) in Hu.
    assert (Hin : unexpected_files run_dir expected !! rel = Some bytes) by (apply map_lookup_filter_Some; done). congruence.
Qed.

(** Two directories that the same digests accept. *)
Lemma verified_files expected dir0 dir :
  verify_checksums_against dir0 expected = Ok tt -> verify_checksums_against dir expected = Ok tt ->
  forall rel, rel <> "checksums.json" ->
    dir !! rel = dir0 !! rel \/ exists b b0, dir !! rel = Some b /\ dir0 !! rel = Some b0 /\ collision b b0.
Proof.
  intros [H0 Hc]%verify_checksums_exact [H1 H2]%verify_checksums_exact rel Hrel. destruct (expected !! rel) as [digest|] eqn:E.
  - destruct (Hc _ _ E) as (b0 & Hb0 & Hd0). destruct (H2 _ _ E) as (b & Hb & Hd). rewrite Hb, Hb0.
    destruct (decide (b = b0)) as [->|Hne]; [by left|]. right. exists b, b0. split_and!; try done. split; [done|congruence].
  - left. destruct (dir0 !! rel) as [b0|] eqn:E0; [destruct (H0 _ _ E0 Hrel); congruence|].
    destruct (dir !! rel) as [b|] eqn:Eb; [destruct (H1 _ _ Eb Hrel); congruence|done].
Qed.

Lemma marks_true id lines : marks id lines = true.
Proof. induction lines as [|[st i| |] lines IH]; cbn; [done| |done|done]. by repeat case_bool_decide. Qed.

(** A sidecar that exists invalidates, whatever it holds. *)
Lemma sidecar_marks s id : sidecar_marks_invalidated s id = bool_decide (is_Some (s !! id)).
Proof.
  unfold sidecar_marks_invalidated. destruct (s !! id) as [[|lines]|]; [done| |done]. rewrite marks_true. by destruct (forallb blank_line lines).
Qed.

Lemma append_sidecar_marks s id line : is_Some (append_sidecar id line s !! id).
Proof. unfold append_sidecar. destruct (s !! id) as [[|lines]|] eqn:E; [by rewrite E|by rewrite lookup_insert_eq|by rewrite lookup_insert_eq]. Qed.

Lemma append_sidecar_keeps s id line i : is_Some (s !! i) -> is_Some (append_sidecar id line s !! i).
Proof.
  intros Hi. destruct (decide (i = id)) as [->|Hne]; [apply append_sidecar_marks|].
  unfold append_sidecar. destruct (s !! id) as [[|lines]|]; [done| |]; by rewrite lookup_insert_ne.
Qed.

Lemma read_log_app {A} (l1 l2 : list (log_line A)) e1 e2 : read_log l1 = Ok e1 -> read_log l2 = Ok e2 -> read_log (l1 ++ l2)%list = Ok (e1 ++ e2)%list.
Proof.
  revert e1. induction l1 as [|[a| |] l1 IH]; intros e1 H1 H2; cbn in *; [by injection H1 as <-| |by apply IH|done].
  apply bind_ok in H1 as (es & Hes & [= <-]). rewrite (IH es Hes H2). done.
Qed.

Lemma read_log_snoc {A} (l : list (log_line A)) a es : read_log l = Ok es -> read_log (l ++ [Entry a])%list = Ok (es ++ [a])%list.
Proof. intros H. by apply read_log_app. Qed.

(** ** The history of the registry *)

Section History.
Context (load_checksums : string -> res (gmap string string)).

(** The files may change in any way between the calls. *)
Inductive registry_step : registry -> registry -> Prop :=
  | StepRegister fs record r r' : register_complete load_checksums fs record r = Ok r' -> registry_step r r'
  | StepInvalidate fs id now r r' : invalidate fs id now r = Ok r' -> registry_step r r'.

Definition invalidated_run (id : string) (r : registry) : Prop := is_Some (sidecars r !! id).

(** The raw entries of a run. *)
Definition raw (r : registry) : list RegistryEntry := match read_log (log r) with Ok l => l | Raise _ => [] end.
Definition readable (r : registry) : Prop := exists l, read_log (log r) = Ok l.

Lemma register_inv fs record r r' :
  register_complete load_checksums fs record r = Ok r' ->
  readable r /\ ~ invalidated_run (run_id record) r /\ Forall (fun e => run_id e = run_id record -> status e <> "complete") (raw r) /\
  entry_checksums record = compute_artifact_checksums (run_dir fs (artifact_path record)) /\
  verify_checksums_against (run_dir fs (artifact_path record)) (entry_checksums record) = Ok tt /\
  r' = {| log := (log r ++ [Entry (with_status "complete" record)])%list; sidecars := sidecars r |}.
Proof.
  unfold register_complete, readable, invalidated_run, raw, _append. rewrite sidecar_marks. case_bool_decide as Hs; [done|].
  intros (l & Hl & H)%bind_ok. unfold list_entries in Hl. apply bind_ok in Hl as (es & Hes & [= <-]). rewrite Hes.
  destruct (existsb _ _) eqn:Ex in H; [done|]. case_bool_decide as Hc; [done|].
  apply bind_ok in H as ([] & _ & H). apply bind_ok in H as ([] & Hv & H). cbn in H.
  rewrite sidecar_marks, (bool_decide_eq_false_2 (is_Some _)), andb_false_r in H by done. injection H as <-.
  split_and!; try done; [by eexists|]. apply Forall_forall. intros e He Hid Hst.
  assert (Ht : existsb (fun e => bool_decide (run_id e = run_id record) && bool_decide (status e = "complete")) (_apply_sidecar r <$> es) = true).
  { apply existsb_exists. exists e. split.
    - apply list_elem_of_In, list_elem_of_fmap. exists e. split; [|done]. unfold _apply_sidecar. by rewrite sidecar_marks, Hid, bool_decide_eq_false_2.
    - by rewrite !bool_decide_eq_true_2. }
  congruence.
Qed.

Lemma show_inv fs id v r e :
  show fs id v r = Ok e ->
  exists l, read_log (log r) = Ok l /\ find_run id (rev (_apply_sidecar r <$> l)) = Some e /\
    (v = true -> status e = "complete" -> _verify_entry_artifacts fs e = Ok tt).
Proof.
  unfold show, list_entries. intros (l' & (l & Hl & [= <-])%bind_ok & H)%bind_ok. exists l. split; [done|].
  destruct (find_run id _) as [e'|] eqn:E; [|done]. destruct v; cbn [andb] in H.
  - case_bool_decide as Hc; [apply bind_ok in H as ([] & Hv & [= ->]); done|injection H as ->; done].
  - by injection H as ->.
Qed.

Lemma invalidate_inv fs id now r r' :
  invalidate fs id now r = Ok r' ->
  readable r /\ ~ invalidated_run id r /\ invalidated_run id r' /\ (forall i, invalidated_run i r -> invalidated_run i r') /\
  exists e, run_id e = id /\ status e = "invalidated" /\ log r' = (log r ++ [Entry e])%list.
Proof.
  unfold invalidate. intros (e & (l & Hl & Hf & _)%show_inv & H)%bind_ok. apply find_some in Hf as [Hin Hid].
  apply bool_decide_eq_true in Hid. rewrite <- in_rev, <- list_elem_of_In, list_elem_of_fmap in Hin. destruct Hin as (e0 & -> & _).
  case_bool_decide as Hst; [done|]. cbn in H. unfold _append in H. cbn in H. rewrite andb_false_r in H. injection H as <-. cbn.
  unfold invalidated_run. cbn. split_and!.
  - by exists l.
  - intros Hi. apply Hst. unfold _apply_sidecar in Hid |- *. rewrite sidecar_marks in *. revert Hid. case_bool_decide as Hm; [done|]. intros <-. done.
  - apply append_sidecar_marks.
  - intros i. apply append_sidecar_keeps.
  - eexists. split; [|split; [|reflexivity]]; done.
Qed.

Lemma step_readable r r' : registry_step r r' -> readable r'.
Proof.
  intros [fs record r0 r1 H|fs id now r0 r1 H].
  - apply register_inv in H as ((l & Hl) & _ & _ & _ & _ & ->). eexists. cbn. by apply read_log_snoc.
  - apply invalidate_inv in H as ((l & Hl) & _ & _ & _ & e & _ & _ & Hlog). eexists. rewrite Hlog. by apply read_log_snoc.
Qed.

Lemma raw_snoc r r' e : readable r -> log r' = (log r ++ [Entry e])%list -> raw r' = (raw r ++ [e])%list.
Proof. intros [l Hl] Hlog. unfold raw. by rewrite Hlog, (read_log_snoc _ _ _ Hl), Hl. Qed.

(** The sidecar of a run stays, and so do the entries. *)
Lemma step_keeps id r r' : registry_step r r' -> invalidated_run id r -> invalidated_run id r'.
Proof.
  intros [fs record r0 r1 H|fs i now r0 r1 H] Hi.
  - by apply register_inv in H as (_ & _ & _ & _ & _ & ->).
  - apply invalidate_inv in H as (_ & _ & _ & Hk & _). by apply Hk.
Qed.

Lemma step_raw r r' : registry_step r r' -> exists e, raw r' = (raw r ++ [e])%list.
Proof.
  intros [fs record r0 r1 H|fs i now r0 r1 H].
  - apply register_inv in H as (Hr & _ & _ & _ & _ & ->). eexists. by apply raw_snoc.
  - apply invalidate_inv in H as (Hr & _ & _ & _ & e & _ & _ & Hlog). exists e. by apply raw_snoc.
Qed.

(** A run whose only complete entry is [rec]. *)
Definition only_complete (rec : RegistryEntry) (r : registry) : Prop :=
  readable r /\ rec ∈ raw r /\ forall e, e ∈ raw r -> run_id e = run_id rec -> status e = "complete" -> e = rec.

Lemma step_only_complete rec r r' : status rec = "complete" -> registry_step r r' -> only_complete rec r -> only_complete rec r'.
Proof.
  intros Hst Hstep (Hr & Hin & Hu). split; [by eapply step_readable|].
  destruct Hstep as [fs record r0 r1 H|fs i now r0 r1 H].
  - apply register_inv in H as (_ & _ & Hf & _ & _ & ->). rewrite (raw_snoc r0 _ (with_status "complete" record)) by done.
    split; [set_solver|]. intros e [He| ->%list_elem_of_singleton]%elem_of_app Hid Hc; [by apply Hu|].
    rewrite Forall_forall in Hf. destruct (Hf rec Hin); done.
  - apply invalidate_inv in H as (_ & _ & _ & _ & e & Hid & He & Hlog). rewrite (raw_snoc r0 r1 e) by done.
    split; [set_solver|]. intros e' [He'| ->%list_elem_of_singleton]%elem_of_app Hid' Hc; [by apply Hu|]. congruence.
Qed.

Lemma register_only_complete fs record r r' :
  register_complete load_checksums fs record r = Ok r' -> only_complete (with_status "complete" record) r'.
Proof.
  intros H. apply register_inv in H as (Hr & _ & Hf & _ & _ & ->). unfold only_complete. rewrite (raw_snoc r _ (with_status "complete" record)) by done.
  split_and!; [destruct Hr as [l Hl]; eexists; by apply read_log_snoc|set_solver|].
  intros e [He| ->%list_elem_of_singleton]%elem_of_app Hid Hc; [|done]. rewrite Forall_forall in Hf. destruct (Hf e He); done.
Qed.

Lemma show_complete rec fs v r e :
  only_complete rec r -> show fs (run_id rec) v r = Ok e -> status e = "complete" -> e = rec.
Proof.
  intros (Hr & Hin & Hu) (l & Hl & Hf & _)%show_inv Hc. apply find_some in Hf as [Hine Hid]. apply bool_decide_eq_true in Hid.
  rewrite <- in_rev, <- list_elem_of_In, list_elem_of_fmap in Hine. destruct Hine as (e0 & -> & He0).
  unfold _apply_sidecar in Hid, Hc |- *. destruct (sidecar_marks_invalidated _ _); [done|]. apply Hu; [|done|done]. unfold raw. by rewrite Hl.
Qed.

(** [C12] What is shown as complete is what was registered.  However the registry
    and the files have changed since, a run that is shown as complete, with
    verification, has the entry of its registration and the artifacts it had
    then, but for files whose bytes are a collision of SHA-256. *)
Theorem shown_run_is_sealed fs0 record r r1 r2 fs e :
  register_complete load_checksums fs0 record r = Ok r1 -> rtc registry_step r1 r2 ->
  show fs (run_id record) true r2 = Ok e -> status e = "complete" ->
  e = with_status "complete" record /\
  exists dir, fs !! artifact_path record = Some dir /\ forall rel, rel <> "checksums.json" ->
    let sealed := run_dir fs0 (artifact_path record) in
    dir !! rel = sealed !! rel \/ exists b b0, dir !! rel = Some b /\ sealed !! rel = Some b0 /\ collision b b0.
Proof.
  intros Hreg Hsteps Hshow Hc. pose proof (register_only_complete _ _ _ _ Hreg) as H1.
  assert (H2 : only_complete (with_status "complete" record) r2).
  { refine (rtc_closed _ (only_complete (with_status "complete" record)) _ _ _ Hsteps H1). intros u v Hu Huv. by eapply step_only_complete. }
  pose proof (show_complete (with_status "complete" record) fs true r2 e H2 Hshow Hc) as ->. split; [done|].
  apply show_inv in Hshow as (l & _ & _ & Hv). specialize (Hv eq_refl Hc). unfold _verify_entry_artifacts in Hv. cbn in Hv.
  apply register_inv in Hreg as (_ & _ & _ & Hsum & Hv0 & _). destruct (fs !! artifact_path record) as [dir|]; [|done]. exists dir. split; [done|].
  case_bool_decide; [done|]. exact (verified_files _ _ _ Hv0 Hv).
Qed.

(** [C23] Invalidating a run is final.  Whatever happens afterwards, the run is
    shown as invalidated, and neither registered nor invalidated again. *)
Theorem invalidation_is_final fs0 id now r r1 r2 :
  invalidate fs0 id now r = Ok r1 -> rtc registry_step r1 r2 ->
  (forall fs v, returns (show fs id v r2) (fun e => run_id e = id /\ status e = "invalidated")) /\
  (forall fs record, run_id record = id -> register_complete load_checksums fs record r2 = Raise (ValueError "run_id invalidated: reactivation forbidden")) /\
  (forall fs now', invalidate fs id now' r2 = Raise (ValueError "run already invalidated")).
Proof.
  intros Hinv Hsteps. apply invalidate_inv in Hinv as (Hr & _ & Hm & _ & e & Hid & He & Hlog).
  assert (H2 : readable r2 /\ invalidated_run id r2 /\ e ∈ raw r2).
  { refine (rtc_closed _ (fun r => readable r /\ invalidated_run id r /\ e ∈ raw r) _ _ _ Hsteps _).
    - intros u v (H1 & H3 & H4) Huv. split_and!; [by eapply step_readable|by eapply step_keeps|]. destruct (step_raw _ _ Huv) as [e' ->]. set_solver.
    - split_and!; [destruct Hr as [l Hl]; exists (l ++ [e])%list; rewrite Hlog; by apply read_log_snoc|done|]. rewrite (raw_snoc r r1 e) by done. set_solver. }
  destruct H2 as ([l Hl] & Hmark & Hin). unfold raw in Hin. rewrite Hl in Hin.
  assert (Hshow : forall fs v, returns (show fs id v r2) (fun e => run_id e = id /\ status e = "invalidated")).
  { intros fs v. unfold show, list_entries. rewrite Hl. cbn [mbind res_bind].
    destruct (find_run id (rev (_apply_sidecar r2 <$> l))) as [e'|] eqn:E.
    - apply find_some in E as [Hin' Hid']. apply bool_decide_eq_true in Hid'.
      rewrite <- in_rev, <- list_elem_of_In, list_elem_of_fmap in Hin'. destruct Hin' as (e0 & -> & _).
      assert (Hst : status (_apply_sidecar r2 e0) = "invalidated").
      { unfold _apply_sidecar in Hid' |- *. rewrite sidecar_marks in *. revert Hid'. case_bool_decide as Hx; [done|]. intros <-. done. }
      rewrite Hst, andb_false_r. by eexists.
    - exfalso. assert (Hn : bool_decide (run_id (_apply_sidecar r2 e) = id) = false).
      { apply (find_none _ _ E (_apply_sidecar r2 e)). rewrite <- in_rev, <- list_elem_of_In. by apply list_elem_of_fmap_2. }
      apply bool_decide_eq_false in Hn. apply Hn. unfold _apply_sidecar. by destruct (sidecar_marks_invalidated _ _). }
  split_and!; [exact Hshow| |].
  - intros fs record <-. unfold register_complete. by rewrite sidecar_marks, bool_decide_eq_true_2.
  - intros fs now'. unfold invalidate. destruct (Hshow fs false) as (e' & -> & _ & Hst). cbn. by rewrite Hst.
Qed.
End History.

(** ** A registered run *)

Section RegistryWitnesses.

Definition example_files : gmap string string := {["metrics.json" := "{}"; "equity.json" := "[]"]}.
Definition example_fs : gmap string (gmap string string) := {["runs/1" := example_files]}.
Definition example_record : RegistryEntry :=
  {| experiment_id := "exp"; run_id := "run"; attempt_id := "a"; status := ""; strategy_version := "1.0"; dataset_version := "d"; cost_model_version := "1.0";
     benchmark_ref := "b"; created_at := "t"; artifact_path := "runs/1"; entry_checksums := compute_artifact_checksums example_files |}.
Definition example_registry : registry := {| log := [Entry (with_status "complete" example_record)]; sidecars := ∅ |}.
Definition no_seal (_ : string) : res (gmap string string) := Raise (ValueError "not an object").

Lemma example_registered : register_complete no_seal example_fs example_record {| log := []; sidecars := ∅ |} = Ok example_registry.
Proof. vm_compute. reflexivity. Qed.

Lemma shown_run_is_sealed_witness :
  exists e, show example_fs "run" true example_registry = Ok e /\ e = with_status "complete" example_record.
Proof.
  assert (Hs : show example_fs "run" true example_registry = Ok (with_status "complete" example_record)) by (vm_compute; reflexivity).
  exists (with_status "complete" example_record). split; [exact Hs|].
  exact (proj1 (shown_run_is_sealed no_seal example_fs example_record _ _ _ example_fs _ example_registered (rtc_refl _ _) Hs eq_refl)).
Defined.

Lemma invalidation_is_final_witness :
  exists r1, invalidate example_fs "run" "now" example_registry = Ok r1 /\
    invalidate example_fs "run" "later" r1 = Raise (ValueError "run already invalidated").
Proof.
  destruct (invalidate example_fs "run" "now" example_registry) as [r1|x] eqn:E.
  - exists r1. split; [reflexivity|]. exact (proj2 (proj2 (invalidation_is_final no_seal example_fs "run" "now" _ r1 r1 E (rtc_refl _ _))) example_fs "later").
  - exfalso. assert (H : match invalidate example_fs "run" "now" example_registry with Ok _ => true | Raise _ => false end = true) by (vm_compute; reflexivity).
    rewrite E in H. discriminate H.
Defined.
End RegistryWitnesses.
