(* ===== verification/GateVerdict.v ===== *)
(** * Gate verdicts and their log (services/research/gate_evaluator.py)

    The first half of the evaluator: what it concludes from measurements, the
    integrity profile, and the append-only log of gate records.  The texts of
    numbers, [format(_, "f")] and [str], are arguments. *)
From Stdlib Require Import ZArith QArith.
From stdpp Require Import base list gmap strings sorting relations.
From S2P Require Import Prelude Decimal CanonicalJson GatePolicy ResearchRegistry.

Local Open Scope string_scope.

(** ** Results *)

Inductive GateOutcome := PASS | FAIL | INCONCLUSIVE | NOT_AVAILABLE.
#[export] Instance GateOutcome_eq_dec : EqDecision GateOutcome.
Proof. solve_decision. Defined.

Definition outcome_text (o : GateOutcome) : string :=
  match o with PASS => "PASS" | FAIL => "FAIL" | INCONCLUSIVE => "INCONCLUSIVE" | NOT_AVAILABLE => "NOT_AVAILABLE" end.

Inductive IntegrityStatus := VALID | INVALID | NOT_VERIFIABLE.
#[export] Instance IntegrityStatus_eq_dec : EqDecision IntegrityStatus.
Proof. solve_decision. Defined.

Inductive IntegrityCheckStatus := check_pass | check_fail | check_not_verifiable.
#[export] Instance IntegrityCheckStatus_eq_dec : EqDecision IntegrityCheckStatus.
Proof. solve_decision. Defined.

Inductive GateOverallStatus := overall_pass | overall_fail.
#[export] Instance GateOverallStatus_eq_dec : EqDecision GateOverallStatus.
Proof. solve_decision. Defined.

Definition overall_text (s : GateOverallStatus) : string := match s with overall_pass => "pass" | overall_fail => "fail" end.

Inductive GateStatus := active | invalidated.
#[export] Instance GateStatus_eq_dec : EqDecision GateStatus.
Proof. solve_decision. Defined.

Record IntegrityCheckResult := { check_name : string; check_status : IntegrityCheckStatus; check_reason : string }.

Record GateEvaluationResult := {
  result_name : string;
  result_threshold : string;
  measured_value : option string;
  passed : bool;
  reason : string;
  outcome : GateOutcome;
  result_category : string
}.

Definition result_post_init (r : GateEvaluationResult) : res GateEvaluationResult :=
  if bool_decide (passed r <> bool_decide (outcome r = PASS)) then Raise (ValueError "passed contradicts outcome") else Ok r.

Definition _gate_result (name threshold : string) (measured : option string) (o : GateOutcome) (why category : string) : res GateEvaluationResult :=
  result_post_init {| result_name := name; result_threshold := threshold; measured_value := measured; passed := bool_decide (o = PASS); reason := why;
    outcome := o; result_category := category |}.

Record GateRunRecord := {
  schema_version : string;
  gate_run_id : string;
  policy_version : string;
  policy_content_hash : string;
  evaluated_at : string;
  run_code_commit : string;
  evaluation_code_commit : string;
  record_experiment_id : string;
  record_run_id : string;
  robustness_run_ids : list string;
  dataset_id : string;
  dataset_content_hash : string;
  artifact_checksums : gmap string string;
  record_measurements : gmap string string;
  record_gates : list GateEvaluationResult;
  overall_status : GateOverallStatus;
  promotion_action : string;
  record_status : GateStatus;
  invalidation_reason : option string;
  integrity_status : IntegrityStatus;
  integrity_checks : list IntegrityCheckResult
}.

Definition GATE_RUN_RECORD_SCHEMA_VERSION : string := "1.1".

Definition result_to_dict (r : GateEvaluationResult) : jvalue :=
  VObj [("name", VStr (result_name r)); ("threshold", VStr (result_threshold r));
        ("measured_value", match measured_value r with Some s => VStr s | None => VNull end); ("passed", VBool (passed r)); ("reason", VStr (reason r));
        ("outcome", VStr (outcome_text (outcome r))); ("category", VStr (result_category r))].

(** [dict(sorted(d.items()))]. *)
Definition sorted_dict (d : gmap string string) : jvalue := VObj (prod_map id VStr <$> sort_items (map_to_list d)).

Definition evidence_payload (r : GateRunRecord) : jvalue :=
  VObj [("gate_run_id", VStr (gate_run_id r)); ("policy_version", VStr (policy_version r)); ("policy_content_hash", VStr (policy_content_hash r));
        ("run_code_commit", VStr (run_code_commit r)); ("evaluation_code_commit", VStr (evaluation_code_commit r));
        ("experiment_id", VStr (record_experiment_id r)); ("run_id", VStr (record_run_id r));
        ("robustness_run_ids", VArr (VStr <$> robustness_run_ids r)); ("dataset_id", VStr (dataset_id r));
        ("dataset_content_hash", VStr (dataset_content_hash r)); ("artifact_checksums", sorted_dict (artifact_checksums r));
        ("measurements", sorted_dict (record_measurements r)); ("gates", VArr (result_to_dict <$> record_gates r));
        ("overall_status", VStr (overall_text (overall_status r)))].

Definition gate_evidence_content_hash (r : GateRunRecord) : string := content_digest (evidence_payload r).

(** ** Integrity *)

Definition quality_scores_permitted (r : GateRunRecord) : bool := bool_decide (record_status r = active) && bool_decide (integrity_status r = VALID).

Definition _summarize_integrity_status (checks : list IntegrityCheckResult) : IntegrityStatus :=
  if existsb (fun c => bool_decide (check_status c = check_fail)) checks then INVALID
  else if bool_decide (checks = []) || existsb (fun c => bool_decide (check_status c = check_not_verifiable)) checks then NOT_VERIFIABLE
  else VALID.

Fixpoint lower (s : string) : string :=
  match s with
  | "" => ""
  | String c s =>
      let n := Ascii.nat_of_ascii c in String (if (65 <=? n)%nat && (n <=? 90)%nat then Ascii.ascii_of_nat (n + 32) else c) (lower s)
  end.

Definition robustness_key (rid : string) : string := "robustness/" ++ rid ++ "/manifest.json".

Definition starts_with (prefix s : string) : bool := String.prefix prefix s.

(** What the checks read of the sealed manifest of the run. *)
Record RunManifest := { git_commit : string; manifest_dataset_id : string; manifest_dataset_content_hash : string }.

Definition verdict_check (name : string) (ok : bool) (pass_reason fail_reason : string) : IntegrityCheckResult :=
  {| check_name := name; check_status := if ok then check_pass else check_fail; check_reason := if ok then pass_reason else fail_reason |}.

Definition unverified_check (name why : string) : IntegrityCheckResult :=
  {| check_name := name; check_status := check_not_verifiable; check_reason := why |}.

Definition present (s : string) : bool := negb (bool_decide (strip s = "")).

Definition _build_integrity_checks (manifest : RunManifest) (entry : RegistryEntry) (checksums : gmap string string) (commit : string)
    (robustness_ids : list string) : list IntegrityCheckResult :=
  let run_checksums := filter (fun '(k, _) => starts_with "robustness/" k = false) checksums in
  let run_commit := strip (git_commit manifest) in
  let eval_commit := strip commit in
  [verdict_check "dataset_binding" (present (manifest_dataset_id manifest) && present (manifest_dataset_content_hash manifest))
     "sealed RunManifest dataset_id and dataset_content_hash present" "sealed RunManifest missing dataset_id or dataset_content_hash";
   verdict_check "run_artifact_checksums" (bool_decide (run_checksums <> ∅) && bool_decide (entry_checksums entry <> ∅))
     "registry trust-anchor checksums bound for evaluated run" "run artifact_checksums empty or registry checksums missing";
   verdict_check "git_commit_binding"
     (bool_decide (run_commit <> "") && bool_decide (eval_commit <> "") && bool_decide (lower run_commit <> "unknown") &&
      bool_decide (lower eval_commit <> "unknown") && (7 <=? String.length run_commit)%nat && (7 <=? String.length eval_commit)%nat)
     "run_code_commit and evaluation_code_commit bound" "run or evaluation git commit missing/unknown";
   verdict_check "run_status" (bool_decide (status entry = "complete")) "evaluated run status is complete"
     ("run status is '" ++ status entry ++ "', expected complete")] ++
  (if bool_decide (robustness_ids = []) then []
   else [verdict_check "robustness_manifest_seals" (forallb (fun rid => bool_decide (is_Some (checksums !! robustness_key rid))) robustness_ids)
           "all referenced robustness manifests sealed in artifact_checksums" "missing robustness manifest seals"]) ++
  [unverified_check "look_ahead_leakage" "automated look-ahead / future-candle / data-leakage check not yet implemented; fail closed as NOT_VERIFIABLE";
   unverified_check "accounting_fee_spec_identity" "automated fee/funding/slippage identity vs Spec not yet implemented; fail closed as NOT_VERIFIABLE";
   unverified_check "regime_assignment_coverage" "automated trade→regime assignment coverage check not yet implemented; fail closed as NOT_VERIFIABLE"]%list.

(** ** The verdict on measurements *)

Definition _overall_status_from_gates (results : list GateEvaluationResult) : GateOverallStatus :=
  match results with
  | [] => overall_fail
  | _ =>
      if existsb (fun g => bool_decide (result_category g <> "")) results then
        if existsb (fun g => bool_decide (outcome g <> PASS) && (bool_decide (result_category g = "") || is_critical_category (result_category g))) results
        then overall_fail else overall_pass
      else if forallb passed results then overall_pass else overall_fail
  end.

Section Verdict.
Context (format_f str_ : decimal -> string).

(** The body of the loop over the gates of the policy. *)
Definition evaluate_gate (measurements : gmap string decimal) (g : GateDefinition) : res GateEvaluationResult :=
  match measurements !! metric g with
  | None =>
      _gate_result (name g) (threshold g) None NOT_AVAILABLE ("no evidence available for metric '" ++ metric g ++ "' (NOT_AVAILABLE; never PASS)")
        (category g)
  | Some measured =>
      threshold_decimal ← decimal_of_text (threshold g);
      ok ← evaluate_comparator (comparator g) measured threshold_decimal;
      _gate_result (name g) (threshold g) (Some (format_f measured)) (if (ok : bool) then PASS else FAIL)
        (if ok then "pass" else name g ++ ": measured " ++ str_ measured ++ " does not satisfy " ++ comparator g ++ " " ++ threshold g) (category g)
  end.

Definition evaluate_gates (measurements : gmap string decimal) (p : GatePolicy) : res (list GateEvaluationResult) :=
  each (evaluate_gate measurements) (gates p).
End Verdict.

Definition compute_gate_run_id (run_id policy_version policy_content_hash : string) (robustness_run_ids : list string) : string :=
  "gate_" ++ Sha256.hexdigest (canonical_json (VObj
    [("run_id", VStr run_id); ("policy_version", VStr policy_version); ("policy_content_hash", VStr policy_content_hash);
     ("robustness_run_ids", VArr (VStr <$> (fst <$> sort_items ((fun s => (s, tt)) <$> robustness_run_ids))))])).

(** ** The log of gate records *)

Record gate_store := { gate_log : list (log_line GateRunRecord); gate_sidecars : gmap string sidecar }.

Definition with_gate_status (st : GateStatus) (why : option string) (r : GateRunRecord) : GateRunRecord :=
  {| schema_version := schema_version r; gate_run_id := gate_run_id r; policy_version := policy_version r; policy_content_hash := policy_content_hash r;
     evaluated_at := evaluated_at r; run_code_commit := run_code_commit r; evaluation_code_commit := evaluation_code_commit r;
     record_experiment_id := record_experiment_id r; record_run_id := record_run_id r; robustness_run_ids := robustness_run_ids r;
     dataset_id := dataset_id r; dataset_content_hash := dataset_content_hash r; artifact_checksums := artifact_checksums r;
     record_measurements := record_measurements r; record_gates := record_gates r; overall_status := overall_status r;
     promotion_action := promotion_action r; record_status := st; invalidation_reason := why; integrity_status := integrity_status r;
     integrity_checks := integrity_checks r |}.

Definition gate_sidecar_marks_invalidated (s : gate_store) (id : string) : bool := sidecar_marks_invalidated (gate_sidecars s) id.

Definition gate_append_line (r : GateRunRecord) (s : gate_store) : gate_store :=
  {| gate_log := (gate_log s ++ [Entry r])%list; gate_sidecars := gate_sidecars s |}.

Definition gate_list_entries (s : gate_store) : res (list GateRunRecord) := read_log (gate_log s).

Definition gate_apply_sidecar (s : gate_store) (r : GateRunRecord) : GateRunRecord :=
  if gate_sidecar_marks_invalidated s (gate_run_id r) then
    let why := match invalidation_reason r with Some w => if bool_decide (w = "") then "invalidation_sidecar" else w | None => "invalidation_sidecar" end in
    with_gate_status invalidated (Some why) r
  else r.

Definition gate_get (id : string) (s : gate_store) : res (option GateRunRecord) :=
  entries ← gate_list_entries s;
  Ok (gate_apply_sidecar s <$> last (filter (fun r => gate_run_id r = id) (entries : list GateRunRecord))).

(** [dict] of the entries by id: first occurrences give the order, last ones the
    values. *)
Fixpoint set_latest (r : GateRunRecord) (l : list GateRunRecord) : list GateRunRecord :=
  match l with
  | [] => [r]
  | r' :: l => if bool_decide (gate_run_id r' = gate_run_id r) then r :: l else r' :: set_latest r l
  end.

Definition gate_list_latest (s : gate_store) : res (list GateRunRecord) :=
  entries ← gate_list_entries s;
  Ok (gate_apply_sidecar s <$> fold_left (fun l r => set_latest r l) entries []).

Definition gate_list_for_run (run : string) (s : gate_store) : res (list GateRunRecord) :=
  latest ← gate_list_latest s; Ok (filter (fun r => record_run_id r = run) (latest : list GateRunRecord)).

Definition gate_append (r : GateRunRecord) (s : gate_store) : res gate_store :=
  if gate_sidecar_marks_invalidated s (gate_run_id r) then Raise (ValueError "gate_run_id invalidated: reactivation forbidden")
  else
    existing ← gate_get (gate_run_id r) s;
    match existing with
    | Some e => match record_status e with
                | active => Raise (ValueError "duplicate active gate_run_id forbidden")
                | invalidated => Raise (ValueError "gate_run_id invalidated: reactivation forbidden")
                end
    | None => Ok (gate_append_line r s)
    end.

Definition gate_invalidate (id why : string) (s : gate_store) : res gate_store :=
  entry ← gate_get id s;
  match entry with
  | None => Raise (KeyError id)
  | Some e =>
      match record_status e with
      | invalidated => Raise (ValueError "gate result already invalidated")
      | active =>
          let s' := {| gate_log := gate_log s; gate_sidecars := append_sidecar id (SidecarObject "invalidated" id) (gate_sidecars s) |} in
          Ok (gate_append_line (with_gate_status invalidated (Some why) e) s')
      end
  end.

(** ** The life of a gate record *)

Inductive gate_step : gate_store -> gate_store -> Prop :=
  | GateAppended r s s' : gate_append r s = Ok s' -> gate_step s s'
  | GateInvalidated id why s s' : gate_invalidate id why s = Ok s' -> gate_step s s'.

(** The same but for the status. *)
Definition same_evidence (r r' : GateRunRecord) : Prop := with_gate_status active None r = with_gate_status active None r'.

(** The store holds [rec]: as it was appended, or invalidated. *)
Definition holds (rec : GateRunRecord) (s : gate_store) : Prop :=
  exists l, gate_list_entries s = Ok l /\
    (is_Some (gate_sidecars s !! gate_run_id rec) \/ last (filter (fun r => gate_run_id r = gate_run_id rec) l) = Some rec) /\
    exists r, last (filter (fun r => gate_run_id r = gate_run_id rec) l) = Some r /\ same_evidence r rec.

Lemma holds_get rec s :
  record_status rec = active -> holds rec s ->
  exists r, gate_get (gate_run_id rec) s = Ok (Some r) /\
    (is_Some (gate_sidecars s !! gate_run_id rec) /\ record_status r = invalidated /\ same_evidence r rec \/
     gate_sidecars s !! gate_run_id rec = None /\ r = rec).
Proof.
  intros Hact (l & Hl & Hcase & r & Hr & Hsame). unfold gate_get. rewrite Hl. cbn [mbind res_bind]. rewrite Hr. cbn [fmap option_fmap option_map].
  exists (gate_apply_sidecar s r). split; [done|].
  assert (Hid : gate_run_id r = gate_run_id rec) by (by injection Hsame). unfold gate_apply_sidecar, gate_sidecar_marks_invalidated. rewrite sidecar_marks, Hid.
  case_bool_decide as Hs; [left|right].
  - split_and!; [done|done|]. unfold same_evidence in *. rewrite <- Hsame. by destruct r.
  - destruct Hcase as [?|Hrec]; [done|]. split; [by apply eq_None_not_Some|congruence].
Qed.

Lemma gate_append_inv r s s' :
  gate_append r s = Ok s' -> exists l, gate_list_entries s = Ok l /\ filter (fun e => gate_run_id e = gate_run_id r) l = [] /\
    gate_sidecars s !! gate_run_id r = None /\ s' = gate_append_line r s.
Proof.
  unfold gate_append, gate_sidecar_marks_invalidated. rewrite sidecar_marks. case_bool_decide as Hs; [done|].
  intros (e & (l & Hl & [= <-])%bind_ok & H)%bind_ok. exists l. split; [done|].
  destruct (last (filter (fun e => gate_run_id e = gate_run_id r) l)) as [x|] eqn:El; cbn in H; [by destruct (record_status _)|].
  injection H as <-. split_and!; [by apply last_None|by apply eq_None_not_Some|done].
Qed.

Lemma gate_invalidate_inv id why s s' :
  gate_invalidate id why s = Ok s' -> exists l e, gate_list_entries s = Ok l /\ last (filter (fun e => gate_run_id e = id) l) = Some e /\
    gate_run_id e = id /\ is_Some (gate_sidecars s' !! id) /\ (forall i, is_Some (gate_sidecars s !! i) -> is_Some (gate_sidecars s' !! i)) /\
    gate_log s' = (gate_log s ++ [Entry (with_gate_status invalidated (Some why) e)])%list.
Proof.
  unfold gate_invalidate. intros (o & (l & Hl & [= <-])%bind_ok & H)%bind_ok.
  destruct (last (filter (fun e => gate_run_id e = id) l)) as [e|] eqn:El; cbn in H; [|done]. exists l, e.
  assert (Hid : gate_run_id e = id) by (apply last_Some_elem_of, list_elem_of_filter in El as [? _]; done).
  unfold gate_apply_sidecar in H. destruct (gate_sidecar_marks_invalidated s (gate_run_id e)); [done|].
  destruct (record_status e); [|done]. injection H as <-. cbn. split_and!; [done|done|done|apply append_sidecar_marks|intros i; apply append_sidecar_keeps|done].
Qed.

Lemma holds_snoc rec s s' r l :
  gate_list_entries s = Ok l -> gate_log s' = (gate_log s ++ [Entry r])%list -> gate_run_id r <> gate_run_id rec ->
  (forall i, is_Some (gate_sidecars s !! i) -> is_Some (gate_sidecars s' !! i)) -> holds rec s -> holds rec s'.
Proof.
  intros Hl Hlog Hne Hside (l' & Hl' & Hcase & r0 & Hr0 & Hsame). rewrite Hl in Hl'. injection Hl' as <-.
  exists (l ++ [r])%list. unfold gate_list_entries. rewrite Hlog. split; [by apply read_log_snoc|].
  rewrite filter_app, filter_cons_False, filter_nil, app_nil_r by done. split; [destruct Hcase as [?|?]; [left; auto|by right]|]. by exists r0.
Qed.

Lemma gate_step_holds rec s s' : record_status rec = active -> holds rec s -> gate_step s s' -> holds rec s'.
Proof.
  intros Hact Hh Hstep. destruct Hstep as [r s0 s1 Ha|id why s0 s1 Hi].
  - apply gate_append_inv in Ha as (l & Hl & Hno & _ & ->). destruct (decide (gate_run_id r = gate_run_id rec)) as [Heq|Hne].
    + destruct Hh as (l' & Hl' & _ & r0 & Hr0 & _). rewrite Hl in Hl'. injection Hl' as <-. rewrite Heq in Hno. rewrite Hno in Hr0. done.
    + by apply (holds_snoc rec s0 (gate_append_line r s0) r l).
  - apply gate_invalidate_inv in Hi as (l & e & Hl & He & Hid & Hm & Hk & Hlog). destruct (decide (id = gate_run_id rec)) as [->|Hne].
    + destruct Hh as (l' & Hl' & _ & r0 & Hr0 & Hsame). rewrite Hl in Hl'. injection Hl' as <-. rewrite He in Hr0. injection Hr0 as <-.
      exists (l ++ [with_gate_status invalidated (Some why) e])%list. unfold gate_list_entries. rewrite Hlog. split; [by apply read_log_snoc|].
      split; [by left|]. rewrite filter_app, filter_cons_True, filter_nil by done. rewrite last_snoc. eexists. split; [done|].
      unfold same_evidence in *. rewrite <- Hsame. by destruct e.
    + apply (holds_snoc rec s0 s1 (with_gate_status invalidated (Some why) e) l); try done. cbn. congruence.
Qed.

Lemma append_holds r s s' : gate_append r s = Ok s' -> holds r s'.
Proof.
  intros Ha. apply gate_append_inv in Ha as (l & Hl & Hno & _ & ->). exists (l ++ [r])%list. unfold gate_list_entries. cbn.
  split; [by apply read_log_snoc|]. rewrite filter_app, Hno, filter_cons_True, filter_nil by done. cbn. split; [by right|]. by exists r.
Qed.

Lemma gate_steps_hold rec s s' : record_status rec = active -> holds rec s -> rtc gate_step s s' -> holds rec s'.
Proof. intros Hact Hh Hs. refine (rtc_closed _ (holds rec) _ _ _ Hs Hh). intros u v Hu Huv. by eapply gate_step_holds. Qed.

Lemma gate_step_marks id s s' : is_Some (gate_sidecars s !! id) -> gate_step s s' -> is_Some (gate_sidecars s' !! id).
Proof.
  intros Hm Hstep. destruct Hstep as [r s0 s1 Ha|i why s0 s1 Hi].
  - by apply gate_append_inv in Ha as (l & _ & _ & _ & ->).
  - apply gate_invalidate_inv in Hi as (l & e & _ & _ & _ & _ & Hk & _). by apply Hk.
Qed.

(** [C24] A gate record is immutable.  Once it is in the log its id is taken: no
    other record can be appended under it.  It can be read for ever with the
    evidence it was written with, either as it was or invalidated, and once it is
    invalidated it stays so. *)
Theorem gate_record_immutable rec s s1 s2 :
  gate_append rec s = Ok s1 -> record_status rec = active -> rtc gate_step s1 s2 ->
  (forall r, gate_run_id r = gate_run_id rec -> exists msg, gate_append r s2 = Raise (ValueError msg)) /\
  exists r, gate_get (gate_run_id rec) s2 = Ok (Some r) /\ same_evidence r rec /\ (record_status r = active -> r = rec) /\
    (record_status r = invalidated -> forall s3, rtc gate_step s2 s3 ->
      exists r', gate_get (gate_run_id rec) s3 = Ok (Some r') /\ record_status r' = invalidated).
Proof.
  intros Ha Hact Hs. pose proof (gate_steps_hold _ _ _ Hact (append_holds _ _ _ Ha) Hs) as Hh.
  destruct (holds_get rec s2 Hact Hh) as (r & Hget & Hcase). split.
  - intros r' Hid. unfold gate_append. destruct (gate_sidecar_marks_invalidated _ _); [by eexists|]. rewrite Hid, Hget. cbn. destruct (record_status r); by eexists.
  - exists r. split; [done|]. destruct Hcase as [(Hm & Hst & Hsame)|(Hn & ->)].
    + split_and!; [done|congruence|]. intros _ s3 Hs3.
      assert (Hm3 : is_Some (gate_sidecars s3 !! gate_run_id rec)).
      { refine (rtc_closed _ (fun s => is_Some (gate_sidecars s !! gate_run_id rec)) _ _ _ Hs3 Hm). intros u v. apply gate_step_marks. }
      destruct (holds_get rec s3 Hact (gate_steps_hold _ _ _ Hact Hh Hs3)) as (r' & Hget' & [(_ & Hst' & _)|(Hn' & _)]); [by exists r'|].
      rewrite Hn' in Hm3. by destruct Hm3.
    + split_and!; [done|done|]. congruence.
Qed.

Definition stored_record : GateRunRecord :=
  {| schema_version := "1.1"; gate_run_id := "gate_1"; policy_version := "1.0"; policy_content_hash := "h"; evaluated_at := "t"; run_code_commit := "c";
     evaluation_code_commit := "c"; record_experiment_id := "exp"; record_run_id := "run"; robustness_run_ids := []; dataset_id := "d";
     dataset_content_hash := "h"; artifact_checksums := ∅; record_measurements := ∅; record_gates := []; overall_status := overall_fail;
     promotion_action := "none"; record_status := active; invalidation_reason := None; integrity_status := NOT_VERIFIABLE; integrity_checks := [] |}.

Definition empty_gate_store : gate_store := {| gate_log := []; gate_sidecars := ∅ |}.

Lemma gate_record_immutable_witness :
  exists store, gate_append stored_record empty_gate_store = Ok store /\ exists msg, gate_append stored_record store = Raise (ValueError msg).
Proof.
  exists (gate_append_line stored_record empty_gate_store). split; [reflexivity|].
  exact (proj1 (gate_record_immutable stored_record empty_gate_store _ _ eq_refl eq_refl (rtc_refl _ _)) stored_record eq_refl).
Defined.

(** ** What the verdict means *)

(** The measurements satisfy a gate. *)
Definition satisfied (measurements : gmap string decimal) (g : GateDefinition) : Prop :=
  exists x t, measurements !! metric g = Some x /\ decimal_of_text (threshold g) = Ok t /\ evaluate_comparator (comparator g) x t = Ok true.

(** What the verdict says of one gate. *)
Definition verdict_of (format_f : decimal -> string) (measurements : gmap string decimal) (g : GateDefinition) (r : GateEvaluationResult) : Prop :=
  result_name r = name g /\ result_threshold r = threshold g /\ result_category r = category g /\ measured_value r = format_f <$> measurements !! metric g /\
  passed r = bool_decide (outcome r = PASS) /\ (outcome r = PASS <-> satisfied measurements g) /\
  (outcome r = NOT_AVAILABLE <-> measurements !! metric g = None).

Lemma gate_result_ok name threshold measured o why category :
  _gate_result name threshold measured o why category =
  Ok {| result_name := name; result_threshold := threshold; measured_value := measured; passed := bool_decide (o = PASS); reason := why; outcome := o;
        result_category := category |}.
Proof. unfold _gate_result, result_post_init. cbn [passed outcome]. by destruct (bool_decide (o = PASS)). Qed.

Lemma evaluate_gate_spec format_f str_ m g : evaluable g = true -> returns (evaluate_gate format_f str_ m g) (verdict_of format_f m g).
Proof.
  intros He. unfold evaluable in He. destruct (decimal_of_text (threshold g)) as [t|] eqn:Et; [|done].
  destruct (assoc (comparator g) _COMPARATORS) as [fn|] eqn:Ec; [|done].
  unfold evaluate_gate. destruct (m !! metric g) as [x|] eqn:Em.
  - rewrite Et. cbn [mbind res_bind]. unfold evaluate_comparator. rewrite Ec. cbn [mbind res_bind]. rewrite gate_result_ok. eexists. split; [done|].
    unfold verdict_of, satisfied, evaluate_comparator. cbn [result_name result_threshold result_category measured_value passed outcome].
    rewrite Em, Ec, Et. split_and!; try done; destruct (fn x t) eqn:Ef; try done.
    + split; [intros _; exists x, t; by rewrite Ef|done].
    + split; [done|]. intros (x' & t' & [= <-] & [= <-] & Hf). congruence.
  - rewrite gate_result_ok. eexists. split; [done|]. unfold verdict_of, satisfied. cbn. rewrite Em. split_and!; try done. split; [done|naive_solver].
Qed.

Lemma each_spec {A B} (f : A -> res B) (P : A -> B -> Prop) l :
  (forall x, x ∈ l -> returns (f x) (P x)) -> returns (each f l) (Forall2 P l).
Proof.
  induction l as [|x l IH]; intros H; cbn [each]; [by apply returns_ret|].
  destruct (H x (list_elem_of_here _ _)) as (y & -> & Hy). cbn. destruct IH as (ys & -> & Hys); [intros z Hz; apply H; by right|].
  cbn. apply returns_ret. by constructor.
Qed.

Lemma overall_spec results :
  results <> [] ->
  (forallb (fun g => bool_decide (result_category g = "")) results = true \/ forallb (fun g => is_critical_category (result_category g)) results = true) ->
  Forall (fun r => passed r = bool_decide (outcome r = PASS)) results ->
  (_overall_status_from_gates results = overall_pass <-> Forall (fun r => outcome r = PASS) results).
Proof.
  intros Hne Hcat Hp. unfold _overall_status_from_gates. destruct results as [|r0 rest] eqn:E; [done|]. rewrite <- E in *. clear E r0 rest.
  destruct Hcat as [Hc|Hc]; rewrite forallb_forall in Hc.
  - assert (Hex : existsb (fun g => bool_decide (result_category g <> "")) results = false).
    { apply not_true_iff_false. intros (g & Hg & Hx)%existsb_exists. apply Hc, bool_decide_eq_true in Hg. by apply bool_decide_eq_true in Hx. }
    rewrite Hex. rewrite Forall_forall. destruct (forallb passed results) eqn:Ep.
    + split; [intros _|done]. rewrite forallb_forall in Ep. intros g Hg. rewrite Forall_forall in Hp. specialize (Hp g Hg).
      rewrite (Ep g) in Hp by by apply list_elem_of_In. symmetry in Hp. by apply bool_decide_eq_true in Hp.
    + split; [done|]. intros Hall. exfalso. apply not_true_iff_false in Ep. apply Ep, forallb_forall. intros g Hg%list_elem_of_In.
      rewrite Forall_forall in Hp. rewrite (Hp g Hg). apply bool_decide_eq_true_2. by apply Hall.
  - assert (Hcrit : forall g, g ∈ results -> result_category g <> "" /\ is_critical_category (result_category g) = true).
    { intros g Hg%list_elem_of_In. specialize (Hc g Hg). split; [|done]. unfold is_critical_category in Hc. apply andb_true_iff in Hc as [Hx _]. by apply bool_decide_eq_true in Hx. }
    assert (Hex : existsb (fun g => bool_decide (result_category g <> "")) results = true).
    { destruct results as [|g rest]; [done|]. cbn. rewrite bool_decide_eq_true_2; [done|]. apply Hcrit. by left. }
    rewrite Hex, Forall_forall. destruct (existsb (fun g => bool_decide (outcome g <> PASS) && _) results) eqn:Ef.
    + split; [done|]. intros Hall. apply existsb_exists in Ef as (g & Hg & [Hx _]%andb_true_iff). apply bool_decide_eq_true in Hx.
      destruct Hx. apply Hall. by apply list_elem_of_In.
    + split; [intros _|done]. intros g Hg. apply not_true_iff_false in Ef. destruct (decide (outcome g = PASS)) as [|Hnp]; [done|].
      destruct Ef. apply existsb_exists. exists g. split; [by apply list_elem_of_In|]. rewrite bool_decide_eq_true_2 by done. destruct (Hcrit g Hg) as [_ ->].
      cbn. apply orb_true_r.
Qed.
