(* ===== verification/GateEvidence.v ===== *)
(** * Gate evidence and evaluation (services/research/: gate_evaluator.py,
    metrics_contract.py, robustness.py)

    The second half of the evaluator: the run and the robustness manifests it
    trusts, the measurements it takes from them, and the record it writes.
    Reading JSON ([loads]) and validating its fields ([decode_*]), the texts of
    values ([str_of], [format_f], [str_]), the numbers they hold
    ([int_of], [decimal_of_str]) and the bootstrap, a computation with floats and
    its settings, are arguments. *)
From Stdlib Require Import ZArith QArith Strings.Ascii.
From stdpp Require Import base list gmap strings sorting relations.
From S2P Require Import Prelude Decimal CanonicalJson GatePolicy ResearchJobs ResearchRegistry GateVerdict.

Local Open Scope string_scope.

(** ** The metrics contract *)

Record BenchmarkRef := {
  benchmark_id : string;
  benchmark_version : string;
  period_parity : bool;
  dataset_parity : bool;
  cost_parity : bool;
  benchmark_cost_model_version : string;
  gross_return : option decimal
}.

Inductive ReportStatus := report_complete | report_incomplete | report_invalid.
#[export] Instance ReportStatus_eq_dec : EqDecision ReportStatus.
Proof. solve_decision. Defined.

(** The fields the contract and the gates read. *)
Record ResearchMetrics := {
  metrics_schema_version : string;
  metrics_status : ReportStatus;
  gross_pnl : decimal;
  net_pnl : decimal;
  fees : decimal;
  slippage_costs : decimal;
  funding_costs : decimal;
  funding_assumption : string;
  closed_trades : Z;
  max_drawdown : option decimal;
  benchmark : BenchmarkRef;
  benchmark_result : option decimal
}.

Definition SUPPORTED_METRICS_SCHEMA_VERSIONS : list string := ["1.0"; "1.1"; "1.2"].
Definition SUPPORTED_COST_MODEL_VERSIONS : list string := ["1.0"; "1.1"].

Definition compute_gross_pnl (net_pnl fees slippage_costs funding_costs : decimal) : decimal := dadd (dadd (dadd net_pnl fees) slippage_costs) funding_costs.

Definition ensure (b : bool) (e : exn) : res unit := if b then Ok tt else Raise e.

Definition _costs_required_for_complete (m : ResearchMetrics) : res unit :=
  _ ← ensure (bool_decide (metrics_schema_version m ∈ SUPPORTED_METRICS_SCHEMA_VERSIONS)) (ValueError "unsupported metrics schema_version");
  if bool_decide (metrics_status m <> report_complete) then Ok tt
  else
    _ ← ensure (present (funding_assumption m)) (ValueError "funding_assumption must be non-empty for complete metrics");
    _ ← (if bool_decide (metrics_schema_version m = "1.2") then
           let b := benchmark m in
           _ ← ensure (bool_decide (benchmark_result m <> None)) (ValueError "benchmark_result required");
           let cost_ver := strip (benchmark_cost_model_version b) in
           _ ← ensure (bool_decide (cost_ver <> "")) (ValueError "benchmark.cost_model_version required");
           _ ← ensure (bool_decide (cost_ver ∈ SUPPORTED_COST_MODEL_VERSIONS)) (ValueError "benchmark.cost_model_version is not supported");
           _ ← ensure (bool_decide (gross_return b <> None)) (ValueError "benchmark.gross_return required");
           _ ← ensure (cost_parity b) (ValueError "benchmark.cost_parity must be true");
           _ ← ensure (period_parity b) (ValueError "benchmark.period_parity must be true");
           ensure (dataset_parity b) (ValueError "benchmark.dataset_parity must be true")
         else Ok tt);
    if bool_decide (metrics_schema_version m ∈ ["1.1"; "1.2"]) then
      ensure (deqb (gross_pnl m) (compute_gross_pnl (net_pnl m) (fees m) (slippage_costs m) (funding_costs m)))
        (ValueError "gross_pnl must equal net_pnl + fees + slippage_costs + funding_costs")
    else Ok tt.

(** Every failure of the model becomes a [ValueError]. *)
Definition validate_metrics_or_mark_invalid (decoded : res ResearchMetrics) : res ResearchMetrics :=
  match (m ← decoded; _ ← _costs_required_for_complete m; Ok m) with
  | Raise _ => Raise (ValueError "metrics schema/run validation failed")
  | Ok m => _ ← ensure (present (benchmark_id (benchmark m))) (ValueError "benchmark_id missing"); Ok m
  end.

(** ** JSON objects *)

Definition object := list (string * jvalue).

(** [d.get(k)]; a missing key and null are both None. *)
Definition dget (k : string) (d : object) : jvalue := default VNull (assoc k d).

Definition truth (v : jvalue) : bool :=
  match v with
  | VNull => false
  | VBool b => b
  | VInt z => negb (z =? 0)%Z
  | VFloat r => negb (bool_decide (r ∈ ["0.0"; "-0.0"]))
  | VStr s => negb (bool_decide (s = ""))
  | VArr l => match l with [] => false | _ => true end
  | VObj o => match o with [] => false | _ => true end
  end.

Definition is_text (s : string) (v : jvalue) : bool := match v with VStr s' => bool_decide (s' = s) | _ => false end.

(** [v or []], where a list is expected. *)
Definition list_or_empty (v : jvalue) : option (list jvalue) := if truth v then match v with VArr l => Some l | _ => None end else Some [].

(** [v or {}]; None when the value has no [get]. *)
Definition object_or_empty (v : jvalue) : option object := if truth v then match v with VObj o => Some o | _ => None end else Some [].

(** ** The evidence on disk *)

Record DatasetCatalogEntry := { catalog_id : string; catalog_dataset_id : string; catalog_content_hash : string }.

Record world := {
  fs : gmap string (gmap string string);
  runs : registry;
  robustness_jobs : gmap string RobustnessJob;
  robustness_manifests : gmap string string; (** the bytes of manifest.json, by id *)
  robustness_seals : gmap string string; (** the text of manifest.json.sha256 *)
  catalog : list DatasetCatalogEntry;
  git_head : option (res string); (** None when there is no .git *)
  commit_pins : list string (** the environment's evaluation commits, in order *)
}.

Definition read_file (w : world) (path name : string) : res string :=
  or_raise (FileNotFoundError name) (run_dir (fs w) path !! name).

Definition read_sealed_manifest_hash (w : world) (rid : string) : option string :=
  match robustness_seals w !! rid with
  | None => None
  | Some text => if bool_decide (strip text = "") then None else Some (strip text)
  end.

Definition verify_robustness_manifest_seal (w : world) (rid : string) (expected_hash : option string) : res string :=
  match robustness_manifests w !! rid with
  | None => Raise (FileNotFoundError rid)
  | Some bytes =>
      let current := Sha256.hexdigest bytes in
      let given := strip (default "" expected_hash) in
      let expected := if bool_decide (given = "") then read_sealed_manifest_hash w rid else Some given in
      match expected with
      | None => Raise (ValueError "no sealed manifest trust anchor")
      | Some e => if bool_decide (current <> e) then Raise (ValueError "manifest content hash mismatch") else Ok current
      end
  end.

(** [except (KeyError, ValueError, ...) as exc: raise GateEvaluationError]. *)
Definition binding_error {A} (caught : exn -> option string) (field : string) (m : res A) : res A :=
  match m with
  | Ok a => Ok a
  | Raise e => match caught e with Some why => Raise (GateEvaluationError field why) | None => Raise e end
  end.

Definition missing_or_bad (missing bad : string) (e : exn) : option string :=
  match e with KeyError _ => Some missing | ValueError _ => Some bad | _ => None end.

Definition missing_or_unreadable (missing bad : string) (e : exn) : option string :=
  match e with KeyError _ => Some missing | ValueError _ | FileNotFoundError _ => Some bad | _ => None end.

(** ** Keys and digests as texts *)

(** [key.split("/")]. *)
Fixpoint split_slash (acc : string) (s : string) : list string :=
  match s with
  | "" => [acc]
  | String c s => if bool_decide (c = "/"%char) then acc :: split_slash "" s else split_slash (acc ++ String c "") s
  end.

Fixpoint ends_with (suffix s : string) : bool :=
  bool_decide (s = suffix) || match s with "" => false | String _ s => ends_with suffix s end.

Fixpoint all_chars (P : ascii -> bool) (s : string) : bool := match s with "" => true | String c s => P c && all_chars P s end.

Definition no_slash (s : string) : bool := all_chars (fun c => negb (bool_decide (c = "/"%char))) s.

Lemma all_chars_app P a b : all_chars P (a ++ b) = all_chars P a && all_chars P b.
Proof. induction a as [|c a IH]; [done|]. rewrite string_app_cons. cbn. by rewrite IH, andb_assoc. Qed.

Lemma ends_app suffix s : ends_with suffix (s ++ suffix) = true.
Proof.
  induction s as [|c s IH]; [change ("" ++ suffix) with suffix; destruct suffix; cbn; by rewrite bool_decide_eq_true_2|].
  rewrite string_app_cons. cbn [ends_with]. rewrite IH. apply orb_true_r.
Qed.

Lemma split_run acc rid rest : no_slash rid = true -> split_slash acc (rid ++ String "/" rest) = (acc ++ rid) :: split_slash "" rest.
Proof.
  revert acc. induction rid as [|c rid IH]; intros acc H; [by rewrite string_app_empty, string_app_nil|].
  apply andb_true_iff in H as [Hc H]. apply negb_true_iff, bool_decide_eq_false in Hc. rewrite string_app_cons. cbn [split_slash].
  rewrite bool_decide_eq_false_2 by done. rewrite IH by done. by rewrite string_app_assoc, string_app_cons, string_app_empty.
Qed.

Lemma robustness_key_parts rid :
  no_slash rid = true ->
  starts_with "robustness/" (robustness_key rid) = true /\ ends_with "/manifest.json" (robustness_key rid) = true /\
  split_slash "" (robustness_key rid) = ["robustness"; rid; "manifest.json"].
Proof.
  intros H. split_and!.
  - unfold robustness_key, starts_with. apply String.prefix_correct. change 11%nat with (String.length "robustness/"). generalize (rid ++ "/manifest.json").
    intros t. by destruct t.
  - unfold robustness_key. rewrite <- string_app_assoc. apply ends_app.
  - transitivity ("robustness" :: split_slash "" (rid ++ String "/" "manifest.json")); [reflexivity|]. rewrite split_run by done. reflexivity.
Qed.

(** A digest is written in hexadecimal digits. *)
Definition hex_char (c : ascii) : bool := negb (is_space c).

Lemma hex_digit_char n : hex_char (hex_digit n) = true.
Proof. unfold hex_digit. do 16 (destruct n as [|n]; [reflexivity|]). by destruct n. Qed.

Lemma hex_text_chars k z : all_chars hex_char (Sha256.hex_text k z) = true.
Proof.
  revert z. induction k as [|k IH]; intros z; [done|]. cbn [Sha256.hex_text]. rewrite all_chars_app, IH. cbn [all_chars]. by rewrite hex_digit_char.
Qed.

Lemma strip_solid s : all_chars hex_char s = true -> strip s = s.
Proof.
  intros H. unfold strip. assert (Hl : lstrip s = s).
  { destruct s as [|c s]; [done|]. apply andb_true_iff in H as [Hc _]. apply negb_true_iff in Hc. cbn. by rewrite Hc. }
  rewrite Hl. clear Hl. induction s as [|c s IH]; [done|]. apply andb_true_iff in H as [Hc H]. apply negb_true_iff in Hc. cbn [rstrip]. rewrite (IH H).
  destruct s; [by rewrite Hc|done].
Qed.

Lemma strip_digest text : strip (Sha256.hexdigest text) = Sha256.hexdigest text.
Proof. apply strip_solid. unfold Sha256.hexdigest, Sha256.state_text. rewrite !all_chars_app. by rewrite !hex_text_chars. Qed.

Lemma digest_present text : present (Sha256.hexdigest text) = true.
Proof.
  unfold present. rewrite strip_digest. apply negb_true_iff, bool_decide_eq_false. unfold Sha256.hexdigest, Sha256.state_text.
  generalize (Sha256.blocks (List.length (Sha256.words_of (Sha256.padded (Sha256.bytes_of text)))) (Sha256.words_of (Sha256.padded (Sha256.bytes_of text)))
    Sha256.initial). intros st. cbn [Sha256.hex_text]. rewrite !string_app_assoc. generalize (Sha256.hex_text 0 (Sha256.sa st / 16 / 16 / 16 / 16 / 16 / 16 / 16 / 16)).
  intros [|c s]; rewrite ?string_app_empty, !string_app_cons; discriminate.
Qed.

Section Evaluator.
Context (loads : string -> res jvalue) (str_of : jvalue -> string) (int_of : jvalue -> res Z) (decimal_of_str : string -> option decimal).
Context (decode_run_manifest : string -> res RunManifest) (decode_metrics : string -> res ResearchMetrics).
Context {B : Type} (bootstrap_config : object -> res B) (bootstrap_q05 : gmap string string -> B -> res (option decimal)).
Context (format_f str_ : decimal -> string).

Definition load_run_manifest (w : world) (path : string) : res RunManifest :=
  bytes ← read_file w path "run_manifest.json"; decode_run_manifest bytes.

Definition _decimal_measurement (value : jvalue) : option decimal :=
  match value with VNull => None | v => decimal_of_str (str_of v) end.

(** ** The run *)

Definition _resolve_run (w : world) (id : string) : res (RegistryEntry * RunManifest * ResearchMetrics) :=
  entry ← binding_error (fun e => match e with KeyError _ => Some "not found" | _ => None end) "run_id" (show (fs w) id true (runs w));
  _ ← ensure (bool_decide (status entry = "complete")) (GateEvaluationError "run_id" "status");
  manifest ← load_run_manifest w (artifact_path entry);
  bytes ← read_file w (artifact_path entry) "metrics.json";
  metrics ← binding_error (fun e => match e with ValueError _ => Some "invalid metrics contract" | _ => None end) "run_id"
              (validate_metrics_or_mark_invalid (decode_metrics bytes));
  Ok (entry, manifest, metrics).

(** ** The robustness manifests *)

Definition RID : string := "robustness_run_ids".

Definition job_seal (w : world) (rid : string) : option string :=
  match robustness_jobs w !! rid with Some j => manifest_content_hash j | None => None end.

Definition _verify_robustness_job_completed (w : world) (rid : string) : res unit :=
  match robustness_jobs w !! rid with
  | None => Raise (GateEvaluationError RID "job missing")
  | Some j =>
      _ ← ensure (bool_decide (ResearchJobs.status (core j) = ResearchJobs.completed)) (GateEvaluationError RID "status");
      ensure (present (default "" (manifest_content_hash j))) (GateEvaluationError RID "manifest_content_hash missing")
  end.

Definition _verify_robustness_manifest_seal (w : world) (rid : string) : res string :=
  _ ← ensure (present (default "" (job_seal w rid))) (GateEvaluationError RID "job seal missing");
  binding_error (missing_or_unreadable "manifest seal mismatch" "manifest seal mismatch") RID (verify_robustness_manifest_seal w rid (job_seal w rid)).

(** The last entry of an id wins. *)
Definition catalog_entry (w : world) (id : string) : option DatasetCatalogEntry :=
  last (filter (fun e => catalog_id e = id) (catalog w)).

Definition _verify_robustness_dataset_binding (w : world) (manifest : object) (base : RunManifest) : res unit :=
  match dget "dataset_catalog_id" manifest with
  | VNull => Ok tt
  | v =>
      if bool_decide (strip (str_of v) = "") then Ok tt
      else match catalog_entry w (str_of v) with
      | None => Raise (GateEvaluationError RID "unknown dataset_catalog_id")
      | Some e =>
          _ ← ensure (bool_decide (catalog_dataset_id e = manifest_dataset_id base)) (GateEvaluationError RID "dataset_id mismatch");
          ensure (bool_decide (catalog_content_hash e = manifest_dataset_content_hash base)) (GateEvaluationError RID "dataset_content_hash mismatch")
      end
  end.

(** [sum(1 for c in children if c.get("status") != "complete")]; only objects
    have [get]. *)
Fixpoint count_incomplete (children : list jvalue) : res Z :=
  match children with
  | [] => Ok 0%Z
  | VObj c :: rest => n ← count_incomplete rest; Ok (if is_text "complete" (dget "status" c) then n else n + 1)%Z
  | _ :: _ => Raise TypeError
  end.

Definition verify_child (w : world) (base : RunManifest) (child : jvalue) : res unit :=
  match child with
  | VObj c =>
      _ ← ensure (is_text "complete" (dget "status" c)) (GateEvaluationError RID "incomplete children");
      let child_run_id := dget "run_id" c in
      _ ← ensure (truth child_run_id) (GateEvaluationError RID "child run_id missing");
      entry ← binding_error (missing_or_bad "child run missing" "child checksum mismatch") RID (show (fs w) (str_of child_run_id) true (runs w));
      _ ← ensure (bool_decide (status entry = "complete")) (GateEvaluationError RID "child run incomplete");
      manifest ← load_run_manifest w (artifact_path entry);
      _ ← ensure (bool_decide (manifest_dataset_id manifest = manifest_dataset_id base)) (GateEvaluationError RID "child dataset_id mismatch");
      ensure (bool_decide (manifest_dataset_content_hash manifest = manifest_dataset_content_hash base))
        (GateEvaluationError RID "child dataset_content_hash mismatch")
  | _ => Raise (GateEvaluationError RID "invalid child")
  end.

Fixpoint for_each {A} (f : A -> res unit) (l : list A) : res unit :=
  match l with [] => Ok tt | x :: l => _ ← f x; for_each f l end.

Definition _verify_robustness_children (w : world) (manifest : object) (base : RunManifest) : res unit :=
  children ← or_raise (GateEvaluationError RID "invalid children") (list_or_empty (dget "children" manifest));
  summary ← or_raise TypeError (object_or_empty (dget "summary" manifest));
  n_failed ← (match dget "n_failed" summary with VNull => count_incomplete children | v => int_of v end);
  _ ← ensure (n_failed <=? 0)%Z (GateEvaluationError RID "incomplete children");
  for_each (verify_child w base) children.

Definition ROBUSTNESS_MANIFEST_SCHEMA_VERSION : string := "1.0".

(** [str(v or "")]. *)
Definition text_or_empty (v : jvalue) : string := if truth v then str_of v else "".

Definition _validate_robustness_manifest (w : world) (raw : object) (rid run : string) (base : RunManifest) : res unit :=
  _ ← ensure (bool_decide (text_or_empty (dget "schema_version" raw) = ROBUSTNESS_MANIFEST_SCHEMA_VERSION)) (GateEvaluationError RID "unsupported schema_version");
  _ ← ensure (bool_decide (text_or_empty (dget "robustness_id" raw) = rid)) (GateEvaluationError RID "robustness_id mismatch");
  _ ← ensure (match dget "base_run_id" raw with VNull => false | v => bool_decide (str_of v = run) end) (GateEvaluationError RID "base_run_id mismatch");
  _ ← _verify_robustness_dataset_binding w raw base;
  _verify_robustness_children w raw base.

(** What the loop over the ids has gathered: the manifests in order, and their
    digests. *)
Definition manifest_key (rid : string) : string := robustness_key rid.

Definition load_one (w : world) (run : string) (base : RunManifest) (seen : list (string * string)) (rid : string) : res (string * object * string) :=
  bytes ← or_raise (GateEvaluationError RID "missing") (robustness_manifests w !! rid);
  _ ← _verify_robustness_job_completed w rid;
  digest ← _verify_robustness_manifest_seal w rid;
  raw ← loads bytes;
  match raw with
  | VObj o =>
      _ ← _validate_robustness_manifest w o rid run base;
      let test_type := text_or_empty (dget "test_type" o) in
      _ ← ensure (bool_decide (test_type <> "")) (GateEvaluationError RID "missing test_type");
      _ ← ensure (bool_decide (assoc test_type seen = None)) (GateEvaluationError RID "duplicate test_type");
      Ok (test_type, o, digest)
  | _ => Raise (GateEvaluationError RID "invalid manifest")
  end.

Fixpoint load_all (w : world) (run : string) (base : RunManifest) (seen : list (string * string)) (rids : list string) :
    res (list (string * object) * list (string * string)) :=
  match rids with
  | [] => Ok ([], [])
  | rid :: rids =>
      '(test_type, o, digest) ← load_one w run base seen rid;
      '(manifests, sums) ← load_all w run base ((test_type, rid) :: seen) rids;
      Ok ((rid, o) :: manifests, (robustness_key rid, digest) :: sums)
  end.

Definition _load_robustness_evidence (w : world) (rids : list string) (run : string) (base : RunManifest) :
    res (list (string * object) * list (string * string)) :=
  _ ← ensure (bool_decide (NoDup rids)) (GateEvaluationError RID "duplicates");
  load_all w run base [] rids.

(** ** Measurements *)

Definition _measurements_from_metrics (m : ResearchMetrics) : gmap string decimal :=
  let out := <["net_pnl" := net_pnl m]> {["closed_trades" := inject_Z (closed_trades m)]} in
  match max_drawdown m with Some d => <["max_drawdown" := d]> out | None => out end.

Definition _child_net_pnl_from_verified_run (w : world) (child : object) : res decimal :=
  let child_run_id := dget "run_id" child in
  _ ← ensure (truth child_run_id) (GateEvaluationError RID "child run_id missing");
  entry ← binding_error (missing_or_unreadable "child run missing" "child checksum mismatch") RID (show (fs w) (str_of child_run_id) true (runs w));
  metrics ← binding_error (fun e => match e with ValueError _ | FileNotFoundError _ => Some "child metrics invalid" | _ => None end) RID
              (bytes ← read_file w (artifact_path entry) "metrics.json"; validate_metrics_or_mark_invalid (decode_metrics bytes));
  let metrics_pnl := net_pnl metrics in
  match _decimal_measurement (dget "net_pnl" child) with
  | Some manifest_pnl => _ ← ensure (deqb manifest_pnl metrics_pnl) (GateEvaluationError RID "child net_pnl mismatch"); Ok metrics_pnl
  | None => Ok metrics_pnl
  end.

(** The objects of the list that satisfy [p]. *)
Definition objects (p : object -> bool) (l : list jvalue) : list object := omap (fun v => match v with VObj o => if p o then Some o else None | _ => None end) l.

Definition is_complete (c : object) : bool := is_text "complete" (dget "status" c).

(** The share of the children that did not lose. *)
Definition pass_ratio (pnls : list decimal) : res decimal :=
  ddiv (d_of_nat (List.length (filter (fun pnl => dleb 0 pnl = true) pnls))) (d_of_nat (List.length pnls)).

Definition ratio_of (w : world) (metric : string) (children : list object) : res (gmap string decimal) :=
  match children with
  | [] => Ok ∅
  | _ => pnls ← each (_child_net_pnl_from_verified_run w) children; q ← pass_ratio pnls; Ok {[metric := q]}
  end.

Fixpoint combined_elevated (w : world) (out : gmap string decimal) (children : list object) : res (gmap string decimal) :=
  match children with
  | [] => Ok out
  | c :: rest => pnl ← _child_net_pnl_from_verified_run w c; combined_elevated w (<["cost_stress_combined_elevated_net_pnl" := pnl]> out) rest
  end.

Definition _bootstrap_q05_from_sealed_equity (w : world) (manifest : object) (base_run : string) : res decimal :=
  config ← or_raise (GateEvaluationError RID "invalid bootstrap config") (object_or_empty (dget "config" manifest));
  settings ← binding_error (fun e => match e with KeyError _ | TypeError | ValueError _ => Some "incomplete bootstrap config" | _ => None end) RID
               (bootstrap_config config);
  entry ← binding_error (missing_or_unreadable "base run missing" "base checksum mismatch") RID (show (fs w) base_run true (runs w));
  q ← binding_error (fun e => match e with ValueError _ | FileNotFoundError _ => Some "bootstrap recompute failed" | _ => None end) RID
        (bootstrap_q05 (run_dir (fs w) (artifact_path entry)) settings);
  recomputed ← or_raise (GateEvaluationError RID "bootstrap q05 missing") q;
  sealed ← or_raise TypeError (object_or_empty (dget "bootstrap_result" manifest));
  quantiles ← or_raise TypeError (object_or_empty (dget "net_pnl_quantiles" sealed));
  sealed_q05 ← or_raise (GateEvaluationError RID "sealed bootstrap q05 missing") (_decimal_measurement (dget "q05" quantiles));
  _ ← ensure (dleb (dabs (dsub sealed_q05 recomputed)) (1 # 1000000000)) (GateEvaluationError RID "bootstrap q05 mismatch");
  Ok recomputed.

(** The children were checked to be a list. *)
Definition children_of (manifest : object) : list jvalue := default [] (list_or_empty (dget "children" manifest)).

Definition _measurements_from_robustness_manifest (w : world) (manifest : object) (base_run : string) : res (gmap string decimal) :=
  let children := children_of manifest in
  let test_type := dget "test_type" manifest in
  if is_text "walk_forward" test_type then ratio_of w "walk_forward_fold_pass_ratio" (objects is_complete children)
  else if is_text "cost_stress" test_type then
    combined_elevated w ∅ (objects (fun c => is_text "combined_elevated" (dget "child_id" c) && is_complete c) children)
  else if is_text "parameter_stability" test_type then
    ratio_of w "parameter_neighbor_pass_ratio" (objects (fun c => negb (is_text "frozen" (dget "child_id" c)) && is_complete c) children)
  else if is_text "bootstrap" test_type then q ← _bootstrap_q05_from_sealed_equity w manifest base_run; Ok {["bootstrap_q05_net_pnl" := q]}
  else Ok ∅.

(** Merged in the order of the test types. *)
Definition merge_order (manifests : list (string * object)) : list (string * object) :=
  snd <$> sort_items ((fun '(rid, o) => (if truth (dget "test_type" o) then str_of (dget "test_type" o) else rid, (rid, o))) <$> manifests).

Fixpoint merge_measurements (w : world) (base_run : string) (out : gmap string decimal) (manifests : list (string * object)) : res (gmap string decimal) :=
  match manifests with
  | [] => Ok out
  | (_, o) :: rest => m ← _measurements_from_robustness_manifest w o base_run; merge_measurements w base_run (m ∪ out) rest
  end.

(** ** The commit of the evaluation *)

Fixpoint pin_against (head : string) (pins : list string) : res string :=
  match pins with
  | [] => Ok head
  | pin :: pins =>
      let pinned := strip pin in
      if bool_decide (pinned = "") then pin_against head pins
      else if bool_decide (lower pinned = "unknown") || (String.length pinned <? 7)%nat then Raise (GateEvaluationError "evaluation_code_commit" "invalid pin")
      else if bool_decide (lower head = lower pinned) || starts_with (lower pinned) (lower head) || starts_with (lower head) (lower pinned)
      then Ok head else Raise (GateEvaluationError "evaluation_code_commit" "env pin mismatch")
  end.

Fixpoint deploy_pin (pins : list string) : res string :=
  match pins with
  | [] => Raise (GateEvaluationError "evaluation_code_commit" "missing deploy pin")
  | pin :: pins =>
      let pinned := strip pin in
      if bool_decide (pinned = "") then deploy_pin pins
      else if bool_decide (lower pinned = "unknown") || (String.length pinned <? 7)%nat then Raise (GateEvaluationError "evaluation_code_commit" "invalid pin")
      else Ok pinned
  end.

Definition _resolve_evaluation_code_commit (w : world) : res string :=
  match git_head w with
  | Some head =>
      h ← binding_error (fun e => match e with ValueError _ => Some "dirty or unresolved" | _ => None end) "evaluation_code_commit" head;
      pin_against h (commit_pins w)
  | None => deploy_pin (commit_pins w)
  end.

(** ** The evaluation *)

(** The first part of [evaluate]: binds the evidence and builds the record. *)
Definition build_record (w : world) (run policy_ver : string) (rids : list string) (now : string) : res GateRunRecord :=
  policy ← binding_error (fun e => match e with GatePolicyError _ => Some "unknown" | _ => None end) "policy_version" (get_policy policy_ver);
  let policy_hash := compute_policy_content_hash policy in
  '(entry, manifest, metrics) ← _resolve_run w run;
  '(manifests, sums) ← _load_robustness_evidence w rids run manifest;
  measurements ← merge_measurements w run (_measurements_from_metrics metrics) (merge_order manifests);
  results ← evaluate_gates format_f str_ measurements policy;
  commit ← _resolve_evaluation_code_commit w;
  let checksums := list_to_map sums ∪ entry_checksums entry in
  let checks := _build_integrity_checks manifest entry checksums commit rids in
  let sorted_ids := fst <$> sort_items ((fun s => (s, tt)) <$> rids) in
  Ok {|
    schema_version := GATE_RUN_RECORD_SCHEMA_VERSION; gate_run_id := compute_gate_run_id run policy_ver policy_hash sorted_ids;
    policy_version := policy_ver; policy_content_hash := policy_hash; evaluated_at := now; run_code_commit := git_commit manifest;
    evaluation_code_commit := commit; record_experiment_id := experiment_id entry; record_run_id := run; robustness_run_ids := sorted_ids;
    dataset_id := manifest_dataset_id manifest; dataset_content_hash := manifest_dataset_content_hash manifest; artifact_checksums := checksums;
    record_measurements := format_f <$> measurements; record_gates := results; overall_status := _overall_status_from_gates results;
    promotion_action := "none"; record_status := active; invalidation_reason := None; integrity_status := _summarize_integrity_status checks;
    integrity_checks := checks |}.

Definition evaluate (w : world) (run policy_ver : string) (rids : list string) (now : string) (store : gate_store) : res (GateRunRecord * gate_store) :=
  record ← build_record w run policy_ver rids now;
  existing ← gate_get (gate_run_id record) store;
  match existing with
  | Some e =>
      match record_status e with
      | active => Ok (e, store)
      | invalidated => Raise (GateEvaluationError "gate_run_id" "invalidated")
      end
  | None =>
      store' ← binding_error (fun e => match e with ValueError _ => Some "append rejected" | _ => None end) "gate_run_id" (gate_append record store);
      Ok (record, store')
  end.

(** ** Re-verifying a record *)

Definition run_checksums_of (r : GateRunRecord) : gmap string string :=
  filter (fun '(k, _) => starts_with "robustness/" k = false) (artifact_checksums r).

Definition SUMS : string := "artifact_checksums".

Definition verify_seal_item (w : world) (item : string * string) : res unit :=
  let '(key, digest) := item in
  if negb (starts_with "robustness/" key) || negb (ends_with "/manifest.json" key) then Ok tt
  else match split_slash "" key with
  | [_; rid; _] =>
      _ ← binding_error (missing_or_unreadable "robustness seal mismatch" "robustness seal mismatch") SUMS (verify_robustness_manifest_seal w rid (Some digest));
      Ok tt
  | _ => Raise (GateEvaluationError SUMS "malformed robustness key")
  end.

Definition verify_gate_record_artifact_checksums (w : world) (r : GateRunRecord) : res unit :=
  entry ← binding_error (missing_or_unreadable "run missing" "run checksum mismatch") SUMS (show (fs w) (record_run_id r) true (runs w));
  _ ← ensure (bool_decide (run_checksums_of r <> ∅)) (GateEvaluationError SUMS "empty run checksums");
  _ ← binding_error (missing_or_unreadable "run file mismatch" "run file mismatch") SUMS
        (verify_checksums_against (run_dir (fs w) (artifact_path entry)) (run_checksums_of r));
  _ ← for_each (verify_seal_item w) (sort_items (map_to_list (artifact_checksums r)));
  for_each (fun rid => ensure (bool_decide (is_Some (artifact_checksums r !! robustness_key rid))) (GateEvaluationError SUMS "robustness checksum missing"))
    (robustness_run_ids r).

(** ** What the evidence is *)

Lemma binding_error_ok {A} caught field (m : res A) a : binding_error caught field m = Ok a <-> m = Ok a.
Proof. unfold binding_error. destruct m as [x|e]; [done|]. by destruct (caught e). Qed.

Lemma ensure_ok b e : ensure b e = Ok tt <-> b = true.
Proof. by destruct b. Qed.

Lemma for_each_ok {A} (f : A -> res unit) l : for_each f l = Ok tt <-> Forall (fun x => f x = Ok tt) l.
Proof.
  induction l as [|x l IH]; cbn [for_each]; [done|]. rewrite Forall_cons, <- IH, bind_ok. split.
  - intros ([] & H1 & H2). done.
  - intros [H1 H2]. by exists tt.
Qed.

(** A manifest the evaluator trusts: a completed job sealed its bytes, and it is
    about this run. *)
Definition trusted_manifest (w : world) (run : string) (base : RunManifest) (rid : string) (o : object) : Prop :=
  exists bytes job h, robustness_manifests w !! rid = Some bytes /\ loads bytes = Ok (VObj o) /\
    robustness_jobs w !! rid = Some job /\ ResearchJobs.status (core job) = ResearchJobs.completed /\
    manifest_content_hash job = Some h /\ strip h = Sha256.hexdigest bytes /\
    _validate_robustness_manifest w o rid run base = Ok tt.

Lemma seal_ok w rid h d :
  present h = true -> verify_robustness_manifest_seal w rid (Some h) = Ok d ->
  exists bytes, robustness_manifests w !! rid = Some bytes /\ d = Sha256.hexdigest bytes /\ strip h = d.
Proof.
  intros Hp Hv. unfold verify_robustness_manifest_seal in Hv. destruct (robustness_manifests w !! rid) as [bytes|]; [|done].
  cbn [default] in Hv. unfold present in Hp. apply negb_true_iff, bool_decide_eq_false in Hp. rewrite bool_decide_eq_false_2 in Hv by done.
  case_bool_decide as Hd; [done|]. injection Hv as <-. by exists bytes.
Qed.

Lemma load_one_ok w run base seen rid t o d :
  load_one w run base seen rid = Ok (t, o, d) ->
  trusted_manifest w run base rid o /\ (exists bytes, robustness_manifests w !! rid = Some bytes /\ d = Sha256.hexdigest bytes).
Proof.
  unfold load_one. intros (bytes & Hb%or_raise_ok & H)%bind_ok. apply bind_ok in H as ([] & Hjob & H). apply bind_ok in H as (digest & Hseal & H).
  apply bind_ok in H as (raw & Hraw & H). destruct raw as [| | | | | |o']; try done. apply bind_ok in H as ([] & Hval & H).
  apply bind_ok in H as ([] & _ & H). apply bind_ok in H as ([] & _ & [= <- <- <-]).
  unfold _verify_robustness_job_completed in Hjob. destruct (robustness_jobs w !! rid) as [job|] eqn:Ej; [|done].
  apply bind_ok in Hjob as ([] & Hst & Hpres). apply ensure_ok, bool_decide_eq_true in Hst. apply ensure_ok in Hpres.
  unfold _verify_robustness_manifest_seal, job_seal in Hseal. rewrite Ej in Hseal. apply bind_ok in Hseal as ([] & _ & Hseal). apply binding_error_ok in Hseal.
  destruct (manifest_content_hash job) as [h|] eqn:Eh; [|done]. destruct (seal_ok _ _ _ _ Hpres Hseal) as (bytes' & Hb' & Hd & Hs).
  rewrite Hb in Hb'. injection Hb' as <-. split; [|by exists bytes]. exists bytes, job, h. split_and!; try done. rewrite <- Hd. exact Hs.
Qed.

Lemma load_all_ok w run base seen rids manifests sums :
  load_all w run base seen rids = Ok (manifests, sums) ->
  fst <$> manifests = rids /\ Forall (fun '(rid, o) => trusted_manifest w run base rid o) manifests /\
  Forall2 (fun rid '(k, d) => k = robustness_key rid /\ exists bytes, robustness_manifests w !! rid = Some bytes /\ d = Sha256.hexdigest bytes) rids sums.
Proof.
  revert seen manifests sums. induction rids as [|rid rids IH]; intros seen manifests sums H; cbn [load_all] in H; [by injection H as <- <-|].
  apply bind_ok in H as ([[t o] d] & H1 & H). apply bind_ok in H as ([ms ss] & H2 & [= <- <-]).
  destruct (IH _ _ _ H2) as (Hf & Ht & Hs). apply load_one_ok in H1 as [Ht1 Hs1]. split_and!; [cbn; by rewrite Hf|by constructor|by constructor].
Qed.

(** ** What is measured *)

(** The metrics that only a robustness suite yields. *)
Definition suite_metrics : list (string * string) :=
  [("walk_forward", "walk_forward_fold_pass_ratio"); ("cost_stress", "cost_stress_combined_elevated_net_pnl");
   ("parameter_stability", "parameter_neighbor_pass_ratio"); ("bootstrap", "bootstrap_q05_net_pnl")].

Lemma suite_unique suite suite' x : (suite, x) ∈ suite_metrics -> (suite', x) ∈ suite_metrics -> suite = suite'.
Proof.
  unfold suite_metrics. intros H1 H2.
  repeat (apply elem_of_cons in H1 as [[= -> ->]|H1]; [repeat (apply elem_of_cons in H2 as [H2|H2]; [first [discriminate H2|by injection H2]|]); by apply not_elem_of_nil in H2|]).
  by apply not_elem_of_nil in H1.
Qed.

Lemma ratio_of_keys w k children m x : ratio_of w k children = Ok m -> m !! x <> None -> x = k.
Proof.
  unfold ratio_of. destruct children as [|c children]; [intros [= <-]; by rewrite lookup_empty|].
  intros (pnls & _ & H)%bind_ok. apply bind_ok in H as (q & _ & [= <-]). intros Hx. destruct (decide (x = k)) as [|Hne]; [done|]. by rewrite lookup_singleton_ne in Hx.
Qed.

Lemma combined_keys w children : forall out m x,
  combined_elevated w out children = Ok m -> (out !! x <> None -> x = "cost_stress_combined_elevated_net_pnl") -> m !! x <> None ->
  x = "cost_stress_combined_elevated_net_pnl".
Proof.
  induction children as [|c children IH]; intros out m x H Hout; cbn [combined_elevated] in H; [by injection H as <-|].
  apply bind_ok in H as (pnl & _ & H). apply (IH _ _ _ H). destruct (decide (x = "cost_stress_combined_elevated_net_pnl")) as [|Hne]; [done|].
  by rewrite lookup_insert_ne.
Qed.

Lemma manifest_keys w o run m x :
  _measurements_from_robustness_manifest w o run = Ok m -> m !! x <> None -> exists suite, (suite, x) ∈ suite_metrics /\ is_text suite (dget "test_type" o) = true.
Proof.
  unfold _measurements_from_robustness_manifest, suite_metrics. intros H Hx.
  destruct (is_text "walk_forward" _) eqn:E1; [apply (ratio_of_keys _ _ _ _ x) in H as ->; [|done]; exists "walk_forward"; split; [set_solver|done]|].
  destruct (is_text "cost_stress" _) eqn:E2.
  { apply (combined_keys _ _ _ _ x) in H as ->; [|by rewrite lookup_empty|done]. exists "cost_stress". split; [set_solver|done]. }
  destruct (is_text "parameter_stability" _) eqn:E3; [apply (ratio_of_keys _ _ _ _ x) in H as ->; [|done]; exists "parameter_stability"; split; [set_solver|done]|].
  destruct (is_text "bootstrap" _) eqn:E4; [|injection H as <-; by rewrite lookup_empty in Hx].
  apply bind_ok in H as (q & _ & [= <-]). exists "bootstrap". split; [|done].
  destruct (decide (x = "bootstrap_q05_net_pnl")) as [->|Hne]; [set_solver|]. by rewrite lookup_singleton_ne in Hx.
Qed.

Lemma merge_keys w run l : forall out m x,
  merge_measurements w run out l = Ok m -> m !! x <> None ->
  out !! x <> None \/ exists rid o suite, (rid, o) ∈ l /\ (suite, x) ∈ suite_metrics /\ is_text suite (dget "test_type" o) = true.
Proof.
  induction l as [|[rid o] l IH]; intros out m x H Hx; cbn [merge_measurements] in H; [injection H as <-; by left|].
  apply bind_ok in H as (mo & Hmo & H). destruct (IH _ _ _ H Hx) as [Hu|(rid' & o' & suite & Hin & Hs)].
  - destruct (mo !! x) as [q|] eqn:Eq.
    + right. destruct (manifest_keys _ _ _ _ x Hmo) as (suite & Hs); [congruence|]. exists rid, o, suite. split; [by left|done].
    + left. rewrite lookup_union, Eq in Hu. by rewrite (left_id_L None _) in Hu.
  - right. exists rid', o', suite. split; [by right|done].
Qed.

Lemma base_keys metrics suite x : (suite, x) ∈ suite_metrics -> _measurements_from_metrics metrics !! x = None.
Proof.
  unfold suite_metrics. intros Hin. assert (Hx : x <> "max_drawdown" /\ x <> "net_pnl" /\ x <> "closed_trades").
  { repeat (apply elem_of_cons in Hin as [[= -> ->]|Hin]; [done|]). by apply not_elem_of_nil in Hin. }
  destruct Hx as (H1 & H2 & H3). unfold _measurements_from_metrics. destruct (max_drawdown metrics); rewrite ?lookup_insert_ne by done; by rewrite lookup_singleton_ne.
Qed.

Lemma merge_order_elem manifests p : p ∈ merge_order manifests -> p ∈ manifests.
Proof.
  unfold merge_order. intros (q & -> & Hq)%list_elem_of_fmap. apply sort_items_elem, list_elem_of_fmap in Hq as ([rid o] & -> & Hin). done.
Qed.

Lemma registered_suites v p : get_policy v = Ok p -> forallb (fun '(_, x) => existsb (fun g => bool_decide (metric g = x)) (gates p)) suite_metrics = true.
Proof.
  unfold get_policy. intros H. apply or_raise_ok in H. unfold _POLICY_REGISTRY in H. cbn [assoc] in H. case_bool_decide as Hv.
  - injection H as <-. vm_compute. reflexivity.
  - destruct _GATES_1_1 as [l|e] eqn:El; [|done]. cbn [assoc] in H. case_bool_decide; [|done]. injection H as <-.
    revert El. vm_compute. intros [= <-]. reflexivity.
Qed.

Lemma registered_suite v p suite x : get_policy v = Ok p -> (suite, x) ∈ suite_metrics -> exists g, g ∈ gates p /\ metric g = x.
Proof.
  intros Hp Hin. pose proof (registered_suites v p Hp) as H. rewrite forallb_forall in H. specialize (H (suite, x) (proj1 (list_elem_of_In _ _) Hin)).
  apply existsb_exists in H as (g & Hg & Hx). exists g. split; [by apply list_elem_of_In|by apply bool_decide_eq_true in Hx].
Qed.

(** ** The record *)

Lemma integrity_not_valid manifest entry checksums commit rids :
  _summarize_integrity_status (_build_integrity_checks manifest entry checksums commit rids) <> VALID.
Proof.
  unfold _summarize_integrity_status. destruct (existsb _ _); [done|].
  assert (H : existsb (fun c => bool_decide (check_status c = check_not_verifiable)) (_build_integrity_checks manifest entry checksums commit rids) = true).
  { apply existsb_exists. exists (unverified_check "look_ahead_leakage"
      "automated look-ahead / future-candle / data-leakage check not yet implemented; fail closed as NOT_VERIFIABLE"). split; [|done].
    unfold _build_integrity_checks. apply list_elem_of_In, elem_of_app. right. apply elem_of_app. right. by left. }
  rewrite H. by rewrite orb_true_r.
Qed.

Lemma build_record_ok w run ver rids now rec :
  build_record w run ver rids now = Ok rec ->
  exists policy entry manifest metrics manifests sums m commit,
    get_policy ver = Ok policy /\ _resolve_run w run = Ok (entry, manifest, metrics) /\
    _load_robustness_evidence w rids run manifest = Ok (manifests, sums) /\
    merge_measurements w run (_measurements_from_metrics metrics) (merge_order manifests) = Ok m /\
    evaluate_gates format_f str_ m policy = Ok (record_gates rec) /\
    overall_status rec = _overall_status_from_gates (record_gates rec) /\ record_measurements rec = format_f <$> m /\
    integrity_status rec = _summarize_integrity_status (_build_integrity_checks manifest entry (list_to_map sums ∪ entry_checksums entry) commit rids) /\
    artifact_checksums rec = list_to_map sums ∪ entry_checksums entry /\ record_run_id rec = run /\ record_status rec = active /\
    promotion_action rec = "none" /\ robustness_run_ids rec = fst <$> sort_items ((fun s => (s, tt)) <$> rids) /\
    policy_content_hash rec = compute_policy_content_hash policy /\
    gate_run_id rec = compute_gate_run_id run ver (compute_policy_content_hash policy) (robustness_run_ids rec).
Proof.
  unfold build_record. intros (policy & Hp%binding_error_ok & H)%bind_ok. apply bind_ok in H as ([[entry manifest] metrics] & Hr & H).
  apply bind_ok in H as ([manifests sums] & Hl & H). apply bind_ok in H as (m & Hm & H). apply bind_ok in H as (results & Hg & H).
  apply bind_ok in H as (commit & _ & [= <-]). by exists policy, entry, manifest, metrics, manifests, sums, m, commit.
Qed.

Lemma gates_verdict v p m results :
  get_policy v = Ok p -> evaluate_gates format_f str_ m p = Ok results ->
  Forall2 (verdict_of format_f m) (gates p) results /\ (_overall_status_from_gates results = overall_pass <-> Forall (satisfied m) (gates p)).
Proof.
  intros Hp Hr. destruct (registered_evaluable v p Hp) as (_ & Hne & He & Hc). rewrite forallb_forall in He.
  destruct (each_spec (evaluate_gate format_f str_ m) (verdict_of format_f m) (gates p)) as (rs & Hrs & H2).
  { intros g Hg. apply evaluate_gate_spec, He. by apply list_elem_of_In. }
  unfold evaluate_gates in Hr. rewrite Hr in Hrs. injection Hrs as <-. split; [done|].
  assert (Hpass : Forall (satisfied m) (gates p) <-> Forall (fun r => outcome r = PASS) results).
  { clear -H2. induction H2 as [|g r gs rs (_ & _ & _ & _ & _ & Hv & _) _ IH]; [done|]. rewrite !Forall_cons. tauto. }
  rewrite Hpass. apply overall_spec.
  - intros ->. by apply Forall2_nil_inv_r in H2.
  - assert (Hcat : forall P : string -> bool, forallb (fun r => P (result_category r)) results = forallb (fun g => P (category g)) (gates p)).
    { intros P. clear -H2. induction H2 as [|g r gs rs (_ & _ & Hc & _) _ IH]; [done|]. cbn. by rewrite Hc, IH. }
    destruct Hc as [Hc|Hc]; [left|right]; rewrite <- Hc; [exact (Hcat (fun c => bool_decide (c = "")))|exact (Hcat is_critical_category)].
  - clear -H2. induction H2 as [|g r gs rs (_ & _ & _ & _ & Hp & _) _ IH]; by constructor.
Qed.

(** [C9] A gate record says what the trusted evidence says.  Each gate passes
    exactly when its metric was measured and satisfies the threshold, and is not
    available exactly when it was not measured; the run passes exactly when every
    gate does, so a pass needs a sealed manifest of each robustness suite for this
    very run; and no record is good enough for quality scores or promotes. *)
Theorem gate_record_sound w run ver rids now rec :
  build_record w run ver rids now = Ok rec ->
  exists policy manifest m, get_policy ver = Ok policy /\ record_measurements rec = format_f <$> m /\
    Forall2 (verdict_of format_f m) (gates policy) (record_gates rec) /\
    (overall_status rec = overall_pass <-> Forall (satisfied m) (gates policy)) /\
    (overall_status rec = overall_pass -> forall suite metric, (suite, metric) ∈ suite_metrics ->
      exists rid o, rid ∈ rids /\ trusted_manifest w run manifest rid o /\ is_text suite (dget "test_type" o) = true) /\
    quality_scores_permitted rec = false /\ promotion_action rec = "none".
Proof.
  intros H. apply build_record_ok in H
    as (policy & entry & manifest & metrics & manifests & sums & m & commit & Hp & _ & Hl & Hm & Hg & Ho & Hmeas & Hi & _ & _ & _ & Hn & _).
  destruct (gates_verdict ver policy m _ Hp Hg) as [Hv Hall]. rewrite <- Ho in Hall. exists policy, manifest, m. split_and!; try done.
  - intros Hpass suite x Hs. apply Hall in Hpass. destruct (registered_suite ver policy suite x Hp Hs) as (g & Hgin & Hgx).
    rewrite Forall_forall in Hpass. destruct (Hpass g Hgin) as (q & t & Hq & _). rewrite Hgx in Hq.
    destruct (merge_keys w run _ _ _ x Hm) as [Hb|(rid & o & suite' & Hin & Hs' & Ht)]; [congruence|by rewrite (base_keys metrics suite x Hs) in Hb|].
    apply merge_order_elem in Hin. apply bind_ok in Hl as ([] & _ & Hl). destruct (load_all_ok _ _ _ _ _ _ _ Hl) as (Hf & Htr & _).
    exists rid, o. split_and!.
    + rewrite <- Hf. apply (list_elem_of_fmap_2 fst) in Hin. exact Hin.
    + rewrite Forall_forall in Htr. exact (Htr (rid, o) Hin).
    + rewrite (suite_unique _ _ _ Hs Hs'). done.
  - unfold quality_scores_permitted. rewrite Hi. rewrite (bool_decide_eq_false_2 (_ = VALID)); [apply andb_false_r|apply integrity_not_valid].
Qed.

(** The id is the one of the run, the policy and the robustness runs. *)
Lemma build_record_id w w' run ver rids now now' rec rec' :
  build_record w run ver rids now = Ok rec -> build_record w' run ver rids now' = Ok rec' -> gate_run_id rec' = gate_run_id rec.
Proof.
  assert (Hid : forall w now rec, build_record w run ver rids now = Ok rec -> exists policy, get_policy ver = Ok policy /\
    gate_run_id rec = compute_gate_run_id run ver (compute_policy_content_hash policy) (fst <$> sort_items ((fun s => (s, tt)) <$> rids))).
  { clear. intros w now rec. unfold build_record. intros (policy & Hp%binding_error_ok & H)%bind_ok. apply bind_ok in H as ([[entry manifest] metrics] & _ & H).
    apply bind_ok in H as ([manifests sums] & _ & H). apply bind_ok in H as (m & _ & H). apply bind_ok in H as (results & _ & H).
    apply bind_ok in H as (commit & _ & [= <-]). exists policy. by split. }
  intros (policy & Hp & ->)%Hid (policy' & Hp' & ->)%Hid. congruence.
Qed.

Lemma evaluate_ok w run ver rids now store rec store' :
  evaluate w run ver rids now store = Ok (rec, store') ->
  exists built, build_record w run ver rids now = Ok built /\ record_status rec = active /\ gate_get (gate_run_id built) store' = Ok (Some rec) /\
    (rec = built /\ gate_append built store = Ok store' \/ store' = store).
Proof.
  unfold evaluate. intros (built & Hb & H)%bind_ok. exists built. split; [done|]. apply bind_ok in H as (existing & Hget & H).
  destruct existing as [e|].
  - destruct (record_status e) eqn:Es; [|done]. injection H as <- <-. split_and!; [done|done|by right].
  - apply bind_ok in H as (s' & Ha%binding_error_ok & [= <- <-]).
    assert (Hact : record_status built = active).
    { apply build_record_ok in Hb as (? & ? & ? & ? & ? & ? & ? & ? & Hb). apply Hb. }
    split_and!; [done| |by left]. destruct (holds_get built s' Hact (append_holds _ _ _ Ha)) as (r & Hr & [(Hm & _ & _)|(_ & ->)]); [|done].
    apply gate_append_inv in Ha as (l & _ & _ & Hn & ->). cbn in Hm. rewrite Hn in Hm. by destruct Hm.
Qed.

(** What an evaluation returned is in the log under its id. *)
Lemma evaluate_holds w run ver rids now store rec store' :
  evaluate w run ver rids now store = Ok (rec, store') -> record_status rec = active /\ holds rec store' /\
  exists built, build_record w run ver rids now = Ok built /\ gate_run_id rec = gate_run_id built.
Proof.
  intros H. apply evaluate_ok in H as (built & Hb & Hact & Hget & Hcase). split; [done|].
  assert (Hh : holds rec store' /\ gate_run_id rec = gate_run_id built).
  { unfold gate_get in Hget. apply bind_ok in Hget as (l & Hl & [= Hget]).
    destruct (last (filter (fun r => gate_run_id r = gate_run_id built) l)) as [r|] eqn:Er; [|done]. cbn in Hget. injection Hget as Hr.
    assert (Hid : gate_run_id r = gate_run_id built) by (apply last_Some_elem_of, list_elem_of_filter in Er as [? _]; done).
    unfold gate_apply_sidecar in Hr. destruct (gate_sidecar_marks_invalidated store' (gate_run_id r)); [subst rec; done|]. subst r. split; [|done].
    exists l. split; [done|]. rewrite <- Hid in Er. split; [by right|]. by exists rec. }
  destruct Hh as [Hh Hid]. split; [done|]. by exists built.
Qed.

(** [C28] An evaluation is made once.  When an evaluation has returned a record,
    then whatever other evaluations and invalidations the log takes in, and
    whatever has become of the clock and of the evidence, the same evaluation, as
    long as its evidence can be bound, returns that very record and leaves the log
    as it is; unless the record was invalidated: then it is refused. *)
Theorem evaluate_idempotent w run ver rids now store rec store1 :
  evaluate w run ver rids now store = Ok (rec, store1) ->
  forall store2 w' now' built, rtc gate_step store1 store2 -> build_record w' run ver rids now' = Ok built ->
  evaluate w' run ver rids now' store2 =
    if gate_sidecar_marks_invalidated store2 (gate_run_id rec) then Raise (GateEvaluationError "gate_run_id" "invalidated") else Ok (rec, store2).
Proof.
  intros (Hact & Hh & b0 & Hb0 & Hid)%evaluate_holds store2 w' now' built Hs Hb. pose proof (gate_steps_hold _ _ _ Hact Hh Hs) as Hh2.
  pose proof (build_record_id _ _ _ _ _ _ _ _ _ Hb0 Hb) as Hib. unfold evaluate. rewrite Hb. cbn [mbind res_bind]. rewrite Hib, <- Hid.
  destruct (holds_get rec store2 Hact Hh2) as (r & -> & [(Hm & Hst & _)|(Hn & ->)]); cbn [mbind res_bind]; unfold gate_sidecar_marks_invalidated;
    rewrite sidecar_marks.
  - by rewrite Hst, bool_decide_eq_true_2.
  - rewrite Hact, bool_decide_eq_false_2; [done|]. rewrite Hn. by intros [].
Qed.

(** ** A record against the files *)

(** No artifact of a run is filed where the manifests are. *)
Definition run_entry_plain (w : world) (run : string) : Prop :=
  forall entry k, show (fs w) run true (runs w) = Ok entry -> is_Some (entry_checksums entry !! k) -> starts_with "robustness/" k = false.

Lemma robustness_key_inj a b : no_slash a = true -> no_slash b = true -> robustness_key a = robustness_key b -> a = b.
Proof.
  intros Ha Hb H. destruct (robustness_key_parts a Ha) as (_ & _ & Ea), (robustness_key_parts b Hb) as (_ & _ & Eb). congruence.
Qed.

(** The digests of a record: those of the run, and one of each manifest. *)
Lemma built_checksums w run ver rids now rec :
  build_record w run ver rids now = Ok rec -> run_entry_plain w run -> forallb no_slash rids = true ->
  exists entry, show (fs w) run true (runs w) = Ok entry /\ status entry = "complete" /\ run_checksums_of rec = entry_checksums entry /\
    (forall rid, rid ∈ rids -> exists bytes, robustness_manifests w !! rid = Some bytes /\
       artifact_checksums rec !! robustness_key rid = Some (Sha256.hexdigest bytes)) /\
    (forall k d, artifact_checksums rec !! k = Some d -> starts_with "robustness/" k = true -> exists rid, rid ∈ rids /\ k = robustness_key rid) /\
    (forall rid, rid ∈ robustness_run_ids rec <-> rid ∈ rids) /\ record_run_id rec = run.
Proof.
  intros H Hplain Hslash. apply build_record_ok in H
    as (policy & entry & manifest & metrics & manifests & sums & m & commit & _ & Hr & Hl & _ & _ & _ & _ & _ & Hsums & Hrun & _ & _ & Hids & _).
  unfold _resolve_run in Hr. apply bind_ok in Hr as (entry' & Hshow%binding_error_ok & Hr). apply bind_ok in Hr as ([] & Hst & Hr).
  apply ensure_ok, bool_decide_eq_true in Hst. apply bind_ok in Hr as (manifest' & _ & Hr). apply bind_ok in Hr as (raw0 & _ & Hr).
  apply bind_ok in Hr as (metrics' & _ & [= -> -> ->]). apply bind_ok in Hl as ([] & Hnd & Hl). apply ensure_ok, bool_decide_eq_true in Hnd.
  destruct (load_all_ok _ _ _ _ _ _ _ Hl) as (_ & _ & H2). rewrite forallb_forall in Hslash.
  assert (Hsl : forall rid, rid ∈ rids -> no_slash rid = true) by (intros rid Hin; apply Hslash; by apply list_elem_of_In).
  assert (Hkeys : fst <$> sums = robustness_key <$> rids).
  { clear -H2. induction H2 as [|rid [k d] rids sums [-> _] _ IH]; [done|]. cbn. by rewrite IH. }
  assert (Hndk : NoDup (fst <$> sums)).
  { rewrite Hkeys. clear -Hnd Hsl. induction Hnd as [|rid rids Hn Hnd IH]; [constructor|]. cbn. constructor; [|apply IH; intros; apply Hsl; by right].
    intros (rid' & He & Hin)%list_elem_of_fmap. apply robustness_key_inj in He as ->; [done|apply Hsl; by left|apply Hsl; by right]. }
  exists entry. split_and!; [done|done| | | | |done].
  - unfold run_checksums_of. rewrite Hsums. apply map_eq. intros k. destruct (starts_with "robustness/" k) eqn:Ek.
    + transitivity (@None string).
      * apply map_lookup_filter_None. right. intros d _. congruence.
      * symmetry. apply eq_None_not_Some. intros Hs. rewrite (Hplain entry k Hshow Hs) in Ek. done.
    + assert (Hno : (list_to_map sums : gmap string string) !! k = None).
      { apply not_elem_of_list_to_map_1. rewrite Hkeys. intros (rid & -> & Hin)%list_elem_of_fmap.
        destruct (robustness_key_parts rid (Hsl _ Hin)) as (Hp & _). congruence. }
      destruct (entry_checksums entry !! k) as [d|] eqn:Ed.
      * apply map_lookup_filter_Some. split; [|done]. rewrite lookup_union, Hno, Ed. done.
      * apply map_lookup_filter_None. left. rewrite lookup_union, Hno, Ed. done.
  - intros rid Hin. assert (Hd : exists bytes, robustness_manifests w !! rid = Some bytes /\ (robustness_key rid, Sha256.hexdigest bytes) ∈ sums).
    { clear -H2 Hin. induction H2 as [|rid0 [k d] rids sums [-> (bytes & Hb & ->)] _ IH]; [by apply not_elem_of_nil in Hin|].
      apply elem_of_cons in Hin as [->|Hin]; [exists bytes; split; [done|by left]|]. destruct (IH Hin) as (bytes' & Hb' & Hk). exists bytes'. split; [done|by right]. }
    destruct Hd as (bytes & Hb & Hk). exists bytes. split; [done|]. rewrite Hsums. apply lookup_union_Some_l. by apply elem_of_list_to_map_1.
  - intros k d Hk Hs. rewrite Hsums in Hk. apply lookup_union_Some_raw in Hk as [Hk|[_ Hk]].
    + apply elem_of_list_to_map_2 in Hk. assert (Hin : k ∈ fst <$> sums) by (apply list_elem_of_fmap; by exists (k, d)).
      rewrite Hkeys in Hin. apply list_elem_of_fmap in Hin as (rid & -> & Hin). by exists rid.
    + rewrite (Hplain entry k Hshow) in Hs; [done|by exists d].
  - intros rid. rewrite Hids, list_elem_of_fmap. split.
    + intros ([r []] & -> & Hin). rewrite sort_items_elem in Hin. apply list_elem_of_fmap in Hin as (r' & [= ->] & Hin). done.
    + intros Hin. exists (rid, tt). split; [done|]. rewrite sort_items_elem. by apply (list_elem_of_fmap_2 (fun s => (s, tt))) in Hin.
Qed.

Lemma show_verified w run entry :
  show (fs w) run true (runs w) = Ok entry -> status entry = "complete" ->
  entry_checksums entry <> ∅ /\ verify_checksums_against (run_dir (fs w) (artifact_path entry)) (entry_checksums entry) = Ok tt.
Proof.
  intros (l & _ & _ & Hv)%show_inv Hst. specialize (Hv eq_refl Hst). unfold _verify_entry_artifacts, run_dir in *.
  destruct (fs w !! artifact_path entry) as [dir|]; [|done]. case_bool_decide; [done|]. done.
Qed.

Lemma seal_of_digest w rid bytes :
  robustness_manifests w !! rid = Some bytes -> verify_robustness_manifest_seal w rid (Some (Sha256.hexdigest bytes)) = Ok (Sha256.hexdigest bytes).
Proof.
  intros Hb. unfold verify_robustness_manifest_seal. rewrite Hb. change (default "" (Some (Sha256.hexdigest bytes))) with (Sha256.hexdigest bytes).
  rewrite strip_digest. pose proof (digest_present bytes) as Hp. unfold present in Hp. rewrite strip_digest in Hp. apply negb_true_iff in Hp. rewrite Hp.
  by rewrite bool_decide_eq_false_2 by tauto.
Qed.

Lemma verify_item_ok w k d rid :
  no_slash rid = true -> k = robustness_key rid ->
  verify_seal_item w (k, d) = Ok tt <-> exists x, verify_robustness_manifest_seal w rid (Some d) = Ok x.
Proof.
  intros Hs ->. destruct (robustness_key_parts rid Hs) as (Hp & He & Hsp). unfold verify_seal_item. rewrite Hp, He, Hsp. cbn [negb orb].
  rewrite bind_ok. split.
  - intros (x & Hx%binding_error_ok & _). by exists x.
  - intros [x Hx]. exists x. split; [by apply binding_error_ok|done].
Qed.

Lemma verify_item_other w k d : starts_with "robustness/" k = false -> verify_seal_item w (k, d) = Ok tt.
Proof. intros H. unfold verify_seal_item. by rewrite H. Qed.

(** [C21] A record can be checked again.  Right after the evaluation its digests
    verify; and whenever they verify, over whatever became of the registry and
    the files, the artifacts of the run and every manifest are byte for byte
    those that were evaluated, but for collisions of SHA-256. *)
Theorem gate_record_verifies w run ver rids now rec :
  build_record w run ver rids now = Ok rec -> run_entry_plain w run -> forallb no_slash rids = true ->
  verify_gate_record_artifact_checksums w rec = Ok tt /\
  forall w', verify_gate_record_artifact_checksums w' rec = Ok tt ->
    (exists entry entry', show (fs w) run true (runs w) = Ok entry /\ show (fs w') run true (runs w') = Ok entry' /\
      forall rel, rel <> "checksums.json" ->
        let evaluated := run_dir (fs w) (artifact_path entry) in
        let current := run_dir (fs w') (artifact_path entry') in
        current !! rel = evaluated !! rel \/ exists b b0, current !! rel = Some b /\ evaluated !! rel = Some b0 /\ collision b b0) /\
    (forall rid, rid ∈ rids -> exists b b0, robustness_manifests w' !! rid = Some b /\ robustness_manifests w !! rid = Some b0 /\ (b = b0 \/ collision b b0)).
Proof.
  intros H Hplain Hslash. destruct (built_checksums _ _ _ _ _ _ H Hplain Hslash) as (entry & Hshow & Hst & Hrun & Hman & Hkeys & Hids & Hid).
  destruct (show_verified w run entry Hshow Hst) as [Hne Hver]. rewrite forallb_forall in Hslash.
  assert (Hsl : forall rid, rid ∈ rids -> no_slash rid = true) by (intros rid Hin; apply Hslash; by apply list_elem_of_In). split.
  - unfold verify_gate_record_artifact_checksums. rewrite Hid, Hshow. cbn [binding_error mbind res_bind]. rewrite Hrun, bool_decide_eq_true_2 by done.
    cbn [ensure mbind res_bind]. rewrite Hver. cbn [binding_error mbind res_bind].
    assert (Hall : for_each (verify_seal_item w) (sort_items (map_to_list (artifact_checksums rec))) = Ok tt).
    { apply for_each_ok, Forall_forall. intros [k d] Hin. rewrite sort_items_elem in Hin. apply elem_of_map_to_list in Hin.
      destruct (starts_with "robustness/" k) eqn:Ek; [|by apply verify_item_other]. destruct (Hkeys k d Hin Ek) as (rid & Hrid & ->).
      apply (verify_item_ok w _ d rid (Hsl _ Hrid) eq_refl). destruct (Hman rid Hrid) as (bytes & Hb & Hd). rewrite Hin in Hd. injection Hd as ->.
      exists (Sha256.hexdigest bytes). by apply seal_of_digest. }
    rewrite Hall. cbn [mbind res_bind]. apply for_each_ok, Forall_forall. intros rid Hin%Hids. apply ensure_ok, bool_decide_eq_true.
    destruct (Hman rid Hin) as (bytes & _ & ->). by eexists.
  - intros w' Hv. unfold verify_gate_record_artifact_checksums in Hv. rewrite Hid, Hrun in Hv.
    apply bind_ok in Hv as (entry' & Hshow'%binding_error_ok & Hv). apply bind_ok in Hv as ([] & _ & Hv).
    apply bind_ok in Hv as ([] & Hver'%binding_error_ok & Hv). apply bind_ok in Hv as ([] & Hitems%for_each_ok & _). split.
    + exists entry, entry'. split_and!; [done|done|]. intros rel Hrel evaluated now_. exact (verified_files _ _ _ Hver Hver' rel Hrel).
    + intros rid Hrid. destruct (Hman rid Hrid) as (b0 & Hb0 & Hd). rewrite Forall_forall in Hitems.
      assert (Hitem : verify_seal_item w' (robustness_key rid, Sha256.hexdigest b0) = Ok tt).
      { apply Hitems. rewrite sort_items_elem. by apply elem_of_map_to_list. }
      apply (verify_item_ok w' _ _ rid (Hsl _ Hrid) eq_refl) in Hitem as [x Hx].
      destruct (seal_ok w' rid _ x (digest_present b0) Hx) as (b & Hb & -> & Hd'). rewrite strip_digest in Hd'. exists b, b0. split_and!; [done|done|].
      destruct (decide (b = b0)) as [|Hneq]; [by left|right]. split; [done|by symmetry].
Qed.
End Evaluator.

(** ** An evaluation *)

Section EvaluationWitness.

Definition sample_files : gmap string string := {["run_manifest.json" := "rm"; "metrics.json" := "me"]}.

Definition sample_entry : RegistryEntry :=
  {| experiment_id := "exp"; run_id := "run"; attempt_id := "a"; status := "complete"; strategy_version := "1.0"; dataset_version := "d";
     cost_model_version := "1.0"; benchmark_ref := "b"; created_at := "t"; artifact_path := "runs/1";
     entry_checksums := compute_artifact_checksums sample_files |}.

Definition sample_job : RobustnessJob :=
  {| robustness_id := "rob"; base_experiment_id := "exp"; base_run_id := "run"; test_type := "walk_forward";
     robustness_core := {| ResearchJobs.status := completed; ResearchJobs.created_at := At 0; updated_at := At 0; started_at := None; finished_at := None;
       error := None; error_detail := None; worker_id := None; lease_id := None; lease_expires_at := None |};
     robustness_catalog_id := None; config := None; manifest_content_hash := Some (Sha256.hexdigest "wf") |}.

Definition sample_world : world :=
  {| fs := {["runs/1" := sample_files]}; runs := {| log := [Entry sample_entry]; sidecars := ∅ |}; robustness_jobs := {["rob" := sample_job]};
     robustness_manifests := {["rob" := "wf"]}; robustness_seals := ∅; catalog := []; git_head := Some (Ok "0123456789abcdef"); commit_pins := [""; "0123456"] |}.

Definition sample_loads (text : string) : res jvalue :=
  if bool_decide (text = "wf") then
    Ok (VObj [("schema_version", VStr "1.0"); ("robustness_id", VStr "rob"); ("base_run_id", VStr "run"); ("test_type", VStr "walk_forward");
              ("children", VArr [VObj [("child_id", VStr "fold_01"); ("status", VStr "complete"); ("run_id", VStr "run")]]);
              ("summary", VObj [("n_failed", VInt 0)])])
  else Raise (ValueError "not JSON").

Definition sample_str (v : jvalue) : string := match v with VStr s => s | v => json_text v end.
Definition sample_int (v : jvalue) : res Z := match v with VInt z => Ok z | _ => Raise TypeError end.
Definition sample_manifest (_ : string) : res RunManifest :=
  Ok {| git_commit := "0123456789abcdef"; manifest_dataset_id := "d"; manifest_dataset_content_hash := "h" |}.

Definition sample_metrics (_ : string) : res ResearchMetrics :=
  Ok {| metrics_schema_version := "1.1"; metrics_status := report_complete; gross_pnl := 12; net_pnl := 9; fees := 2; slippage_costs := 1; funding_costs := 0;
        funding_assumption := "none"; closed_trades := 12; max_drawdown := Some (-1 # 10)%Q;
        benchmark := {| benchmark_id := "b"; benchmark_version := "1.0"; period_parity := true; dataset_parity := true; cost_parity := true;
                        benchmark_cost_model_version := "1.0"; gross_return := None |}; benchmark_result := None |}.

Definition sample_bootstrap (_ : gmap string string) (_ : unit) : res (option decimal) := Ok None.
Definition number_text (q : decimal) : string := int_text (Qnum q) ++ "/" ++ int_text (Zpos (Qden q)).

Definition sample_build : res GateRunRecord :=
  build_record sample_loads sample_str sample_int (fun _ => None) sample_manifest sample_metrics (fun _ => Ok tt) sample_bootstrap number_text number_text
    sample_world "run" "1.1" ["rob"] "now".

Lemma sample_builds : exists rec, sample_build = Ok rec /\ (outcome <$> record_gates rec) = [PASS; PASS; PASS; PASS; NOT_AVAILABLE; NOT_AVAILABLE; NOT_AVAILABLE].
Proof.
  destruct sample_build as [rec|e] eqn:E.
  - exists rec. split; [done|]. assert (H : match sample_build with Ok rec => bool_decide ((outcome <$> record_gates rec) =
      [PASS; PASS; PASS; PASS; NOT_AVAILABLE; NOT_AVAILABLE; NOT_AVAILABLE]) | Raise _ => false end = true) by (vm_compute; reflexivity).
    rewrite E in H. exact (bool_decide_eq_true_1 _ H).
  - assert (H : match sample_build with Ok _ => true | Raise _ => false end = true) by (vm_compute; reflexivity). rewrite E in H. discriminate H.
Qed.

Lemma gate_record_sound_witness : exists rec, sample_build = Ok rec /\ quality_scores_permitted rec = false.
Proof.
  destruct sample_builds as (rec & E & _). exists rec. split; [exact E|].
  destruct (gate_record_sound _ _ _ _ _ _ _ _ _ _ _ _ _ _ _ _ E) as (policy & manifest & m & _ & _ & _ & _ & _ & Hq & _). exact Hq.
Defined.

Lemma sample_plain : run_entry_plain sample_world "run".
Proof.
  intros entry k Hs Hk. assert (He : entry = sample_entry).
  { assert (Hc : show (fs sample_world) "run" true (runs sample_world) = Ok sample_entry) by (vm_compute; reflexivity). congruence. }
  subst entry. assert (Hin : forallb (fun '(k, _) => negb (starts_with "robustness/" k)) (map_to_list (entry_checksums sample_entry)) = true)
    by (vm_compute; reflexivity). destruct Hk as [d Hd]. apply elem_of_map_to_list in Hd. rewrite forallb_forall in Hin.
  specialize (Hin (k, d) (proj1 (list_elem_of_In _ _) Hd)). by apply negb_true_iff in Hin.
Qed.

Lemma gate_record_verifies_witness :
  exists rec, sample_build = Ok rec /\ verify_gate_record_artifact_checksums sample_world rec = Ok tt.
Proof.
  destruct sample_builds as (rec & E & _). exists rec. split; [exact E|].
  exact (proj1 (gate_record_verifies _ _ _ _ _ _ _ _ _ _ _ _ _ _ _ _ E sample_plain eq_refl)).
Defined.

Definition sample_evaluate (now : string) (store : gate_store) : res (GateRunRecord * gate_store) :=
  evaluate sample_loads sample_str sample_int (fun _ => None) sample_manifest sample_metrics (fun _ => Ok tt) sample_bootstrap number_text number_text
    sample_world "run" "1.1" ["rob"] now store.

Lemma sample_evaluates :
  exists rec store, sample_evaluate "now" {| gate_log := []; gate_sidecars := ∅ |} = Ok (rec, store) /\
    gate_append rec {| gate_log := []; gate_sidecars := ∅ |} = Ok store /\ record_status rec = active.
Proof.
  destruct sample_builds as (rec & E & _). assert (Ha : record_status rec = active).
  { destruct (build_record_ok _ _ _ _ _ _ _ _ _ _ _ _ _ _ _ _ E) as (? & ? & ? & ? & ? & ? & ? & ? & H). apply H. }
  exists rec, (gate_append_line rec {| gate_log := []; gate_sidecars := ∅ |}). split_and!; [|reflexivity|done].
  unfold sample_evaluate, evaluate. unfold sample_build in E. rewrite E. reflexivity.
Qed.

(** The evaluation is repeated, then invalidated, then refused. *)
Lemma evaluate_idempotent_witness :
  exists rec store store', sample_evaluate "later" store = Ok (rec, store) /\ gate_invalidate (gate_run_id rec) "wrong data" store = Ok store' /\
    sample_evaluate "later" store' = Raise (GateEvaluationError "gate_run_id" "invalidated").
Proof.
  destruct sample_evaluates as (rec & store & E & Ha & Hact). assert (Hn : gate_sidecars store !! gate_run_id rec = None).
  { destruct (gate_append_inv _ _ _ Ha) as (l & _ & _ & Hn & ->). exact Hn. }
  assert (Hb : exists built, build_record sample_loads sample_str sample_int (fun _ => None) sample_manifest sample_metrics (fun _ => Ok tt) sample_bootstrap number_text
    number_text sample_world "run" "1.1" ["rob"] "later" = Ok built).
  { destruct (build_record _ _ _ _ _ _ _ _ _ _ sample_world "run" "1.1" ["rob"] "later") as [b|e] eqn:Eb; [by exists b|].
    assert (H : match build_record sample_loads sample_str sample_int (fun _ => None) sample_manifest sample_metrics (fun _ => Ok tt) sample_bootstrap number_text
      number_text sample_world "run" "1.1" ["rob"] "later" with Ok _ => true | Raise _ => false end = true) by (vm_compute; reflexivity).
    rewrite Eb in H. discriminate H. }
  destruct Hb as [built Hb].
  pose proof (evaluate_idempotent _ _ _ _ _ _ _ _ _ _ _ _ _ _ _ _ _ _ E) as Hi.
  assert (Hinv : exists store', gate_invalidate (gate_run_id rec) "wrong data" store = Ok store').
  { destruct (holds_get rec store Hact (append_holds _ _ _ Ha)) as (r & Hr & Hcase). unfold gate_invalidate. rewrite Hr. cbn [mbind res_bind].
    destruct Hcase as [(Hm & _)|(_ & ->)]; [|rewrite Hact; by eexists].
    rewrite Hn in Hm. by destruct Hm. }
  destruct Hinv as [store' Hinv]. exists rec, store, store'. split_and!; [|exact Hinv|].
  - pose proof (Hi store _ _ _ (rtc_refl _ _) Hb) as Hr. unfold gate_sidecar_marks_invalidated in Hr. rewrite sidecar_marks, bool_decide_eq_false_2 in Hr; [exact Hr|].
    rewrite Hn. by intros [].
  - pose proof (Hi store' _ _ _ (rtc_once _ _ (GateInvalidated _ _ _ _ Hinv)) Hb) as Hr. unfold gate_sidecar_marks_invalidated in Hr.
    apply gate_invalidate_inv in Hinv as (? & ? & _ & _ & _ & Hm & _). rewrite sidecar_marks, bool_decide_eq_true_2 in Hr by exact Hm. exact Hr.
Defined.
End EvaluationWitness.
