(* ===== verification/ParameterGraph.v ===== *)
(** * Parameter neighborhoods (services/research/parameter_stability.py and
    services/research/parameter_area/: graph.py, policy.py, classify.py)

    A frozen candidate is run again with one parameter moved at a time.  The
    neighbors are laid out on the axis they move along, and the candidate is
    labelled by how far it can move before the result stops being stable.

    The parameters of an experiment are whole numbers and texts (decimals are
    texts).  Reading a text as a number ([decimal_of_str], [int_of_str]) and
    writing a decimal ([str_]) are arguments. *)
From Stdlib Require Import ZArith QArith Lia.
From stdpp Require Import base list strings gmap sorting.
From S2P Require Import Prelude Decimal CanonicalJson GatePolicy.

Local Open Scope string_scope.

(** ** Parameters *)

Inductive pvalue := PInt (z : Z) | PText (s : string).
#[export] Instance pvalue_eq_dec : EqDecision pvalue.
Proof. solve_decision. Defined.

Definition params := list (string * pvalue).

(** [str(value)]. *)
Definition text_of (v : pvalue) : string := match v with PInt z => int_text z | PText s => s end.

(** ** The points of an axis *)

Record AxisPoint := { child_id : string; axis : string; value : decimal; stable : bool }.

(** [sort(key=lambda p: (p.value, p.child_id))]. *)
Definition point_le (p q : AxisPoint) : Prop :=
  dltb (value p) (value q) || (deqb (value p) (value q) && bool_decide (String.le (child_id p) (child_id q))) = true.
#[export] Instance point_le_dec (p q : AxisPoint) : Decision (point_le p q).
Proof. unfold point_le. apply _. Defined.

(** What the graph reads of a neighbor. *)
Record axis_row := { row_child_id : string; row_parameters : params; row_stable : bool }.

Section Neighborhood.
Context (decimal_of_str : string -> option decimal) (int_of_str : string -> option Z) (str_ : decimal -> string).

(** [Decimal(str(value))]; None when it raises. *)
Definition number_of (v : pvalue) : option decimal := match v with PInt z => Some (inject_Z z) | PText s => decimal_of_str s end.

Definition _to_decimal (v : pvalue) : res decimal := or_raise InvalidOperation (number_of v).

Definition int_value (v : pvalue) : res Z := match v with PInt z => Ok z | PText s => or_raise (ValueError "invalid literal for int()") (int_of_str s) end.

(** ** The neighborhood of a candidate *)

Definition default_int_deltas : list (string * list Z) :=
  [("daily_ema_period", [-2; 2]%Z); ("breakout_lookback", [-2; 2]%Z); ("atr_period", [-2; 2]%Z)].

Definition default_decimal_relative_steps : list (string * list string) :=
  [("stop_initial_atr_mult", ["-0.1"; "0.1"]); ("trail_atr_mult", ["-0.1"; "0.1"]); ("pullback_ema_tolerance", ["-0.001"; "0.001"])].

(** [given or default]: an empty dict falls back to the default too. *)
Definition given_or {A} (given : option (list A)) (default : list A) : list A :=
  match given with Some (x :: l) => x :: l | _ => default end.

Definition int_variants (frozen : params) '((key, deltas) : string * list Z) : res (list params) :=
  match od_get frozen key with
  | None => Ok []
  | Some v => base ← int_value v; Ok ((fun d => od_set frozen key (PInt (base + d))) <$> deltas)
  end.

Definition decimal_variants (frozen : params) '((key, steps) : string * list string) : res (list params) :=
  match od_get frozen key with
  | None => Ok []
  | Some v =>
      base ← _to_decimal v;
      each (fun step => s ← or_raise InvalidOperation (decimal_of_str step); Ok (od_set frozen key (PText (str_ (dadd base s))))) steps
  end.

Definition symmetric_neighborhood (frozen : params) (int_deltas : option (list (string * list Z)))
    (decimal_relative_steps : option (list (string * list string))) : res (list params) :=
  ints ← each (int_variants frozen) (given_or int_deltas default_int_deltas);
  decimals ← each (decimal_variants frozen) (given_or decimal_relative_steps default_decimal_relative_steps);
  Ok (frozen :: mjoin ints ++ mjoin decimals)%list.

(** ** The axes *)

Definition same_value (a b : pvalue) : bool :=
  bool_decide (a = b) || match number_of a, number_of b with Some x, Some y => deqb x y | _, _ => false end.

Definition same_at (left right : params) (key : string) : bool :=
  match od_get left key, od_get right key with Some a, Some b => same_value a b | _, _ => false end.

Definition parameters_equal (left right : params) : bool := forallb (same_at left right) (od_keys left ++ od_keys right)%list.

(** [sorted(set(frozen) | set(params))]. *)
Definition all_keys (frozen params : params) : list string := merge_sort String.le (remove_dups (od_keys frozen ++ od_keys params)%list).

Definition key_changed (frozen params : params) (key : string) : bool :=
  match od_get frozen key, od_get params key with
  | Some a, Some b => negb (parameters_equal [(key, a)] [(key, b)])
  | _, _ => true
  end.

Definition changed_axes (frozen params : params) : list string := List.filter (key_changed frozen params) (all_keys frozen params).

(** The first loop: neighbors that moved along one axis. *)
Definition add_row (frozen : params) (by_axis : list (string * list AxisPoint)) (row : axis_row) : res (list (string * list AxisPoint)) :=
  match changed_axes frozen (row_parameters row) with
  | [ax] =>
      v ← or_raise (KeyError ax) (od_get (row_parameters row) ax);
      q ← _to_decimal v;
      let point := {| child_id := row_child_id row; axis := ax; value := q; stable := row_stable row |} in
      Ok (od_set by_axis ax (default [] (od_get by_axis ax) ++ [point])%list)
  | _ => Ok by_axis
  end.

(** The second loop: the frozen point on each axis it has. *)
Definition place_frozen (frozen_child_id : string) (frozen : params) (frozen_stable : bool) '((ax, points) : string * list AxisPoint) :
    res (string * list AxisPoint) :=
  match od_get frozen ax with
  | None => Ok (ax, points)
  | Some v =>
      q ← _to_decimal v;
      let frozen_point := {| child_id := frozen_child_id; axis := ax; value := q; stable := frozen_stable |} in
      let points := if existsb (fun p => bool_decide (child_id p = frozen_child_id)) points then points else (points ++ [frozen_point])%list in
      Ok (ax, merge_sort point_le points)
  end.

Definition build_axis_points (frozen_child_id : string) (frozen_parameters : params) (frozen_stable : bool) (neighbors : list axis_row) :
    res (list (string * list AxisPoint)) :=
  by_axis ← foldM (add_row frozen_parameters) neighbors [];
  each (place_frozen frozen_child_id frozen_parameters frozen_stable) by_axis.
End Neighborhood.

(** ** The stable run through the frozen point *)

Definition stable_at (points : list AxisPoint) (i : nat) : bool := match points !! i with Some p => stable p | None => false end.

Fixpoint index_of (frozen_child_id : string) (points : list AxisPoint) : option nat :=
  match points with
  | [] => None
  | p :: rest => if bool_decide (child_id p = frozen_child_id) then Some O else S <$> index_of frozen_child_id rest
  end.

(** [while left > 0 and points[left - 1].stable: left -= 1]. *)
Fixpoint walk_left (points : list AxisPoint) (left : nat) : nat :=
  match left with
  | O => O
  | S l => if stable_at points l then walk_left points l else left
  end.

(** [while right + 1 < len(points) and points[right + 1].stable: right += 1];
    the fuel is the number of points. *)
Fixpoint walk_right (fuel : nat) (points : list AxisPoint) (right : nat) : nat :=
  match fuel with
  | O => right
  | S fuel =>
      if (right + 1 <? List.length points)%nat && stable_at points (right + 1) then walk_right fuel points (right + 1) else right
  end.

Definition contiguous_stable_through_frozen (points : list AxisPoint) (frozen_child_id : string) : nat :=
  match index_of frozen_child_id points with
  | None => 0
  | Some idx =>
      if negb (stable_at points idx) then 0
      else walk_right (List.length points) points idx - walk_left points idx + 1
  end.

Record region := {
  region_plateau_size : nat;
  best_axis : option string;
  axis_contiguous_stable : list (string * nat);
  region_includes_frozen : bool
}.

(** [max(items, key=lambda kv: (kv[1], kv[0]))]: the first of the greatest. *)
Definition better (a b : string * nat) : bool :=
  (a.2 <? b.2)%nat || ((a.2 =? b.2)%nat && bool_decide (String.le a.1 b.1 /\ a.1 <> b.1)).

Fixpoint max_item (best : string * nat) (l : list (string * nat)) : string * nat :=
  match l with [] => best | x :: l => max_item (if better best x then x else best) l end.

Definition measure_contiguous_regions (by_axis : list (string * list AxisPoint)) (frozen_child_id : string) : region :=
  let axis_runs := (fun '(ax, points) => (ax, contiguous_stable_through_frozen points frozen_child_id)) <$> sort_items by_axis in
  let plateau_size := match axis_runs with [] => O | _ => foldr Nat.max O (axis_runs.*2) end in
  {| region_plateau_size := plateau_size;
     best_axis := match axis_runs with [] => None | x :: l => Some (max_item x l).1 end;
     axis_contiguous_stable := axis_runs;
     region_includes_frozen := bool_decide (0 < plateau_size)%nat |}.

(** ** The policy *)

Record ParameterAreaPolicy := {
  area_version : string;
  area_description : string;
  min_complete_neighbors : Z;
  min_net_pnl : string;
  max_cost_ratio : string;
  broad_min_contiguous : nat;
  narrow_min_contiguous : nat;
  steep_drop_warn : string;
  broad_min_stable_share : string;
  narrow_min_stable_share : string;
  broad_min_gate_pass_share : string;
  contiguity_rule : string
}.

Definition area_policy_to_dict (p : ParameterAreaPolicy) : jvalue :=
  VObj [("broad_min_contiguous", VInt (Z.of_nat (broad_min_contiguous p))); ("broad_min_gate_pass_share", VStr (broad_min_gate_pass_share p));
        ("broad_min_stable_share", VStr (broad_min_stable_share p)); ("contiguity_rule", VStr (contiguity_rule p));
        ("description", VStr (area_description p)); ("max_cost_ratio", VStr (max_cost_ratio p));
        ("min_complete_neighbors", VInt (min_complete_neighbors p)); ("min_net_pnl", VStr (min_net_pnl p));
        ("narrow_min_contiguous", VInt (Z.of_nat (narrow_min_contiguous p))); ("narrow_min_stable_share", VStr (narrow_min_stable_share p));
        ("steep_drop_warn", VStr (steep_drop_warn p)); ("version", VStr (area_version p))].

Definition compute_area_policy_hash (p : ParameterAreaPolicy) : string := content_digest (area_policy_to_dict p).

Definition area_policy_1_0 : ParameterAreaPolicy :=
  {| area_version := "1.0";
     area_description := "OAT (#247) parameter-area classification. Stable neighbors require complete status, net_pnl floor, and cost-ratio bound; profit alone is insufficient. BROAD also requires gate-pass share. Contiguity = adjacent steps on a single OAT axis including the frozen point.";
     min_complete_neighbors := 2; min_net_pnl := "0"; max_cost_ratio := "0.5"; broad_min_contiguous := 3; narrow_min_contiguous := 2;
     steep_drop_warn := "50"; broad_min_stable_share := "0.6"; narrow_min_stable_share := "0.35"; broad_min_gate_pass_share := "0.5";
     contiguity_rule := "oat_axis_adjacent_including_frozen_v1" |}.

Definition AREA_POLICY_REGISTRY : list (string * ParameterAreaPolicy) := [("1.0", area_policy_1_0)].

Definition get_parameter_area_policy (version : string) : res ParameterAreaPolicy :=
  or_raise (ParameterAreaPolicyError "unknown parameter-area policy version") (assoc version AREA_POLICY_REGISTRY).

Definition verify_parameter_area_policy_content_hash (version expected_hash : string) : res unit :=
  policy ← get_parameter_area_policy version;
  if bool_decide (compute_area_policy_hash policy <> expected_hash) then Raise (ParameterAreaPolicyError "parameter-area policy content hash mismatch")
  else Ok tt.

(** ** The label *)

Inductive AreaLabel := BROAD_STABLE_PLATEAU | NARROW_STABLE_AREA | ISOLATED_PEAK | UNSTABLE | INSUFFICIENT_EVIDENCE.
#[export] Instance AreaLabel_eq_dec : EqDecision AreaLabel.
Proof. solve_decision. Defined.

(** What the classifier is told of the neighborhood. *)
Record area_stats := {
  n_complete_neighbors : Z;
  stable_share : decimal;
  gate_pass_share : option decimal;
  gates_available : bool;
  plateau_size : nat;
  frozen_stable : bool;
  plateau_includes_frozen : bool;
  any_stable_neighbor : bool;
  steepest_drop : option decimal
}.

(** The reasons are told apart; the values some of them print are not kept. *)
Definition classify_parameter_area (policy : ParameterAreaPolicy) (s : area_stats) : res (AreaLabel * string) :=
  if (n_complete_neighbors s <? min_complete_neighbors policy)%Z then Ok (INSUFFICIENT_EVIDENCE, "complete_neighbors < min_complete_neighbors")
  else if negb (frozen_stable s) then
    if any_stable_neighbor s then Ok (UNSTABLE, "frozen_unstable_despite_stable_neighbors") else Ok (UNSTABLE, "no_stable_frozen_or_neighbors")
  else if frozen_stable s && negb (any_stable_neighbor s) then Ok (ISOLATED_PEAK, "frozen_stable_without_stable_neighbors")
  else
    steep_warn ← decimal_of_text (steep_drop_warn policy);
    steep ← match steepest_drop s with
      | Some d => if dltb steep_warn d then narrow ← decimal_of_text (narrow_min_stable_share policy); Ok (dltb (stable_share s) narrow) else Ok false
      | None => Ok false
      end;
    if (steep : bool) then
      Ok (UNSTABLE, "steepest_drop exceeds warn with weak stable_share")
    else if negb (plateau_includes_frozen s) || (plateau_size s <? narrow_min_contiguous policy)%nat then
      if frozen_stable s && negb (any_stable_neighbor s) then Ok (ISOLATED_PEAK, "no_contiguous_frozen_plateau")
      else if frozen_stable s then Ok (ISOLATED_PEAK, "plateau_size < narrow_min_contiguous (frozen-inclusive)")
      else Ok (UNSTABLE, "plateau_size < narrow_min_contiguous")
    else
      broad_share ← decimal_of_text (broad_min_stable_share policy);
      narrow_share ← decimal_of_text (narrow_min_stable_share policy);
      broad_gate ← decimal_of_text (broad_min_gate_pass_share policy);
      if (broad_min_contiguous policy <=? plateau_size s)%nat && plateau_includes_frozen s && frozen_stable s && dleb broad_share (stable_share s) &&
         gates_available s && match gate_pass_share s with Some g => dleb broad_gate g | None => false end then
        Ok (BROAD_STABLE_PLATEAU, "plateau_size, stable_share, gate_pass_share")
      else if (narrow_min_contiguous policy <=? plateau_size s)%nat && plateau_includes_frozen s && frozen_stable s && dleb narrow_share (stable_share s) then
        Ok (NARROW_STABLE_AREA, "plateau_size, stable_share, gates_available")
      else if dltb (stable_share s) narrow_share then Ok (UNSTABLE, "stable_share < narrow")
      else Ok (INSUFFICIENT_EVIDENCE, "neighborhood_does_not_meet_documented_plateau_rules").

(** ** The run is the longest one *)

Definition stable_between (points : list AxisPoint) (a b : nat) : Prop := forall i, (a <= i < b)%nat -> stable_at points i = true.

Lemma index_of_spec fid points :
  match index_of fid points with
  | None => forall p, p ∈ points -> child_id p <> fid
  | Some i => exists p, points !! i = Some p /\ child_id p = fid
  end.
Proof.
  induction points as [|p points IH]; [intros p Hp; by apply elem_of_nil in Hp|]. cbn [index_of]. case_bool_decide as Hc; [by exists p|].
  destruct (index_of fid points) as [i|]; cbn; [exact IH|]. intros q [->|Hq]%elem_of_cons; [done|by apply IH].
Qed.

Lemma stable_at_bound points i : stable_at points i = true -> (i < List.length points)%nat.
Proof. unfold stable_at. destruct (points !! i) eqn:E; [|done]. intros _. by eapply lookup_lt_Some. Qed.

Lemma walk_left_spec points left :
  (walk_left points left <= left)%nat /\ stable_between points (walk_left points left) left /\
  (walk_left points left = O \/ stable_at points (walk_left points left - 1) = false).
Proof.
  induction left as [|l (IHl & IHs & IHe)]; cbn; [split_and!; [done|intros i; lia|by left]|]. destruct (stable_at points l) eqn:E.
  - split_and!; [lia| |done]. intros i Hi. destruct (decide (i = l)) as [->|]; [done|]. apply IHs. lia.
  - split_and!; [done|intros i; lia|right]. by replace (S l - 1)%nat with l by lia.
Qed.

Lemma walk_right_spec points fuel right :
  (right <= walk_right fuel points right)%nat /\ stable_between points (S right) (S (walk_right fuel points right)) /\
  ((List.length points <= right + fuel)%nat -> stable_at points (S (walk_right fuel points right)) = false).
Proof.
  revert right. induction fuel as [|fuel IH]; intros right; cbn [walk_right].
  { split_and!; [done|intros i; lia|]. intros H. unfold stable_at. rewrite lookup_ge_None_2; [done|]. lia. }
  rewrite Nat.add_1_r. destruct ((S right <? List.length points)%nat && stable_at points (S right)) eqn:E.
  - apply andb_true_iff in E as [_ E]. destruct (IH (S right)) as (H1 & H2 & H3). split_and!; [lia| |intros; apply H3; lia].
    intros i Hi. destruct (decide (i = S right)) as [->|]; [done|]. apply H2. lia.
  - split_and!; [done|intros i; lia|]. intros _. destruct (stable_at points (S right)) eqn:Es; [|done]. apply stable_at_bound in Es as Hb.
    apply Nat.ltb_lt in Hb. by rewrite Hb in E.
Qed.

Definition run_length (points : list AxisPoint) (idx : nat) : nat := walk_right (List.length points) points idx - walk_left points idx + 1.

Lemma longest_run points idx :
  stable_at points idx = true ->
  exists a, (a <= idx < a + run_length points idx)%nat /\ (a + run_length points idx <= List.length points)%nat /\
    stable_between points a (a + run_length points idx) /\
    forall c d, (c <= idx < d)%nat -> stable_between points c d -> (a <= c)%nat /\ (d <= a + run_length points idx)%nat.
Proof.
  intros Es. unfold run_length. destruct (walk_left_spec points idx) as (L1 & L2 & L3). destruct (walk_right_spec points (List.length points) idx) as (R1 & R2 & R3).
  specialize (R3 ltac:(lia)). set (l := walk_left points idx) in *. set (r := walk_right _ points idx) in *. exists l.
  replace (l + (r - l + 1))%nat with (S r) by lia. split_and!; [lia..| | |].
  - destruct (decide (r = idx)) as [->|]; [apply stable_at_bound in Es; lia|]. specialize (R2 r ltac:(lia)). apply stable_at_bound in R2. lia.
  - intros i Hi'. destruct (decide (i = idx)) as [->|]; [done|]. destruct (decide (i < idx)%nat); [apply L2|apply R2]; lia.
  - intros c d Hcd Hs. split.
    + destruct L3 as [->|L3]; [lia|]. destruct (decide (c < l)%nat); [|lia]. rewrite Hs in L3 by lia. done.
    + destruct (decide (S r < d)%nat); [|lia]. rewrite Hs in R3 by lia. done.
Qed.

Lemma contiguous_index points fid :
  contiguous_stable_through_frozen points fid =
  match index_of fid points with Some idx => if stable_at points idx then run_length points idx else O | None => O end.
Proof. unfold contiguous_stable_through_frozen. destruct (index_of fid points) as [idx|]; [|done]. by destruct (stable_at points idx). Qed.

(** The measured plateau is the longest stable run through the frozen
    point: its points are stable, it holds the frozen one, and no run of stable
    points that holds it reaches further on either side.  It is empty exactly
    when the frozen point is missing or not stable.  The walk to the right never
    needs more rounds than there are points. *)
Theorem plateau_longest points fid :
  let n := contiguous_stable_through_frozen points fid in
  match index_of fid points with
  | None => n = O /\ forall p, p ∈ points -> child_id p <> fid
  | Some idx =>
      (exists p, points !! idx = Some p /\ child_id p = fid) /\
      (stable_at points idx = false -> n = O) /\
      (stable_at points idx = true ->
       exists a, (a <= idx < a + n)%nat /\ (a + n <= List.length points)%nat /\ stable_between points a (a + n) /\
         forall c d, (c <= idx < d)%nat -> stable_between points c d -> (a <= c)%nat /\ (d <= a + n)%nat)
  end.
Proof.
  cbn zeta. rewrite contiguous_index. pose proof (index_of_spec fid points) as Hi. destruct (index_of fid points) as [idx|]; [|done]. split; [exact Hi|].
  destruct (stable_at points idx) eqn:Es; [|done]. split; [done|]. intros _. by apply longest_run.
Qed.

(** A plateau is the run of one of the axes. *)
Lemma plateau_attained by_axis fid :
  (0 < region_plateau_size (measure_contiguous_regions by_axis fid))%nat ->
  exists ax points, (ax, points) ∈ by_axis /\ contiguous_stable_through_frozen points fid = region_plateau_size (measure_contiguous_regions by_axis fid).
Proof.
  unfold measure_contiguous_regions. cbn [region_plateau_size]. set (run := fun '(ax, points) => (ax : string, contiguous_stable_through_frozen points fid)).
  assert (Hl : forall l : list (string * list AxisPoint), (0 < foldr Nat.max 0 (run <$> l).*2)%nat ->
    exists ax points, (ax, points) ∈ l /\ contiguous_stable_through_frozen points fid = foldr Nat.max O (run <$> l).*2).
  { induction l as [|[ax ps] l IH]; [cbn; lia|]. change ((run <$> (ax, ps) :: l).*2) with (contiguous_stable_through_frozen ps fid :: (run <$> l).*2).
    cbn [foldr]. intros H. destruct (Nat.max_dec (contiguous_stable_through_frozen ps fid) (foldr Nat.max 0 (run <$> l).*2)) as [E|E]; rewrite E in *.
    - exists ax, ps. split; [left|done].
    - destruct (IH H) as (ax' & ps' & Hin & Hr). exists ax', ps'. split; [by right|done]. }
  specialize (Hl (sort_items by_axis)). intros H.
  assert (Hm : match run <$> sort_items by_axis with [] => O | _ => foldr Nat.max O (run <$> sort_items by_axis).*2 end =
               foldr Nat.max O (run <$> sort_items by_axis).*2) by (by destruct (run <$> sort_items by_axis)).
  rewrite Hm in *. destruct (Hl H) as (ax & ps & Hin & Hr). exists ax, ps. split; [|done]. revert Hin. unfold sort_items. by rewrite merge_sort_Permutation.
Qed.

(** ** The labels *)

Lemma thresholds_1_0 :
  decimal_of_text (steep_drop_warn area_policy_1_0) = Ok (50 # 1)%Q /\ decimal_of_text (narrow_min_stable_share area_policy_1_0) = Ok (35 # 100)%Q /\
  decimal_of_text (broad_min_stable_share area_policy_1_0) = Ok (6 # 10)%Q /\ decimal_of_text (broad_min_gate_pass_share area_policy_1_0) = Ok (5 # 10)%Q.
Proof. split_and!; vm_compute; reflexivity. Qed.

(** The neighborhood rises too steeply for its support. *)
Definition steep (s : area_stats) : bool :=
  match steepest_drop s with Some d => dltb (50 # 1) d && dltb (stable_share s) (35 # 100) | None => false end.

Definition supported (s : area_stats) : bool :=
  (2 <=? n_complete_neighbors s)%Z && frozen_stable s && any_stable_neighbor s && plateau_includes_frozen s && (2 <=? plateau_size s)%nat.

Definition broad (s : area_stats) : bool :=
  (3 <=? plateau_size s)%nat && dleb (6 # 10) (stable_share s) && gates_available s && match gate_pass_share s with Some g => dleb (5 # 10) g | None => false end.

Lemma share_order q : dleb (6 # 10) q = true -> dltb q (35 # 100) = false.
Proof. rewrite dleb_le, dltb_ge. intros H. apply (Qle_trans _ (6 # 10)); [done|exact H]. Qed.

Lemma labels_facts_full s :
  exists l reason, classify_parameter_area area_policy_1_0 s = Ok (l, reason) /\ reason <> "neighborhood_does_not_meet_documented_plateau_rules" /\
    (l = INSUFFICIENT_EVIDENCE <-> (n_complete_neighbors s < 2)%Z) /\
    (l = BROAD_STABLE_PLATEAU <-> supported s = true /\ broad s = true) /\
    (l = NARROW_STABLE_AREA <-> supported s = true /\ broad s = false /\ dleb (35 # 100) (stable_share s) = true) /\
    (l = ISOLATED_PEAK <-> (2 <= n_complete_neighbors s)%Z /\ frozen_stable s = true /\ supported s = false /\ (any_stable_neighbor s = true -> steep s = false)).
Proof.
  destruct thresholds_1_0 as (T1 & T2 & T3 & T4). unfold classify_parameter_area, supported, broad, steep. rewrite T1, T2, T3, T4.
  change (min_complete_neighbors area_policy_1_0) with 2%Z. change (narrow_min_contiguous area_policy_1_0) with 2%nat.
  change (broad_min_contiguous area_policy_1_0) with 3%nat.
  pose proof (share_order (stable_share s)) as Ho. rewrite (Nat.ltb_antisym 2 (plateau_size s)). unfold dltb in *.
  assert (HL : (n_complete_neighbors s < 2)%Z <-> (2 <=? n_complete_neighbors s)%Z = false) by (by rewrite Z.leb_gt).
  assert (HG : (2 <= n_complete_neighbors s)%Z <-> (2 <=? n_complete_neighbors s)%Z = true) by (by rewrite Z.leb_le).
  setoid_rewrite HL. setoid_rewrite HG. clear HL HG. rewrite Z.ltb_antisym. cbn [mbind res_bind].
  fold (dleb (35 # 100) (stable_share s)) in *.
  set (weak := match steepest_drop s with Some d => negb (Qle_bool d (50 # 1)) && negb (dleb (35 # 100) (stable_share s)) | None => false end).
  assert (Hw : match steepest_drop s with
    | Some d => if negb (Qle_bool d (50 # 1)) then Ok (negb (dleb (35 # 100) (stable_share s))) else Ok false
    | None => Ok false end = Ok weak) by (unfold weak; destruct (steepest_drop s) as [d|]; [destruct (Qle_bool d (50 # 1))|]; done).
  rewrite Hw. assert (Hwk : weak = true -> dleb (35 # 100) (stable_share s) = false).
  { unfold weak. destruct (steepest_drop s); [|done]. intros [_ H]%andb_true_iff. by apply negb_true_iff in H. }
  clear Hw. generalize dependent weak. intros weak Hwk. revert Ho Hwk. generalize (dleb (35 # 100) (stable_share s)) (dleb (6 # 10) (stable_share s)).
  generalize (2 <=? n_complete_neighbors s)%Z (frozen_stable s) (any_stable_neighbor s) (plateau_includes_frozen s) (2 <=? plateau_size s)%nat.
  generalize (3 <=? plateau_size s)%nat (gates_available s) (match gate_pass_share s with Some g => dleb (5 # 10) g | None => false end).
  intros p3 ga gp n fs any incl p2 nr bs Ho Hwk. cbn [mbind res_bind].
  destruct n, fs, any; cbn [negb andb]; try (do 2 eexists; split; [reflexivity|]; naive_solver).
  destruct weak; [|clear Hwk]. { rewrite Hwk in * by done. destruct bs; [by specialize (Ho eq_refl)|]. do 2 eexists; split; [reflexivity|]. destruct p3; naive_solver. }
  destruct incl, p2; cbn [negb andb orb]; try (do 2 eexists; split; [reflexivity|]; naive_solver).
  destruct p3, bs, ga, gp, nr; cbn [negb andb orb]; try (by specialize (Ho eq_refl)); (do 2 eexists; split; [reflexivity|]; naive_solver).
Qed.

Lemma labels_facts s :
  exists l reason, classify_parameter_area area_policy_1_0 s = Ok (l, reason) /\
    (l = BROAD_STABLE_PLATEAU -> supported s = true /\ broad s = true) /\ (l = NARROW_STABLE_AREA -> supported s = true).
Proof. destruct (labels_facts_full s) as (l & reason & H). exists l, reason. naive_solver. Qed.

(** The classifier of the registered policy is total and says what its
    numbers say: evidence is insufficient only for too few complete neighbors;
    a broad plateau is a supported one of three points with the required shares;
    a narrow area is any other supported one with the smaller share; a peak is
    isolated when the candidate is stable without support.  The last branch, for
    neighborhoods that fit no documented rule, is never taken. *)
Theorem labels_decided s :
  exists l reason, classify_parameter_area area_policy_1_0 s = Ok (l, reason) /\ reason <> "neighborhood_does_not_meet_documented_plateau_rules" /\
    (l = INSUFFICIENT_EVIDENCE <-> (n_complete_neighbors s < 2)%Z) /\
    (l = BROAD_STABLE_PLATEAU <-> supported s = true /\ broad s = true) /\
    (l = NARROW_STABLE_AREA <-> supported s = true /\ broad s = false /\ dleb (35 # 100) (stable_share s) = true) /\
    (l = ISOLATED_PEAK <-> (2 <= n_complete_neighbors s)%Z /\ frozen_stable s = true /\ supported s = false /\ (any_stable_neighbor s = true -> steep s = false)).
Proof. apply labels_facts_full. Qed.

(** ** One parameter at a time *)

Lemma each_ok {A B} (f : A -> res B) l bs : each f l = Ok bs -> forall b, b ∈ bs -> exists a, a ∈ l /\ f a = Ok b.
Proof.
  revert bs. induction l as [|a l IH]; intros bs; cbn [each]; [intros [= <-] b Hb; by apply elem_of_nil in Hb|].
  intros (b0 & H0 & (bs' & H1 & [= <-])%bind_ok)%bind_ok b [->|Hb]%elem_of_cons; [exists a; split; [left|done]|].
  destruct (IH _ H1 b Hb) as (a' & Ha & Hf). exists a'. split; [by right|done].
Qed.

Section OneAtATime.
Context (decimal_of_str : string -> option decimal) (int_of_str : string -> option Z) (str_ : decimal -> string).

Lemma same_value_refl a : same_value decimal_of_str a a = true.
Proof. unfold same_value. by rewrite bool_decide_eq_true_2. Qed.

Lemma key_changed_set frozen key v k :
  k ∈ od_keys frozen -> k <> key -> key_changed decimal_of_str frozen (od_set frozen key v) k = false.
Proof.
  intros Hk Hn. unfold key_changed. rewrite od_get_set_ne by done. apply od_get_is_Some in Hk as [x ->]. apply negb_false_iff.
  unfold parameters_equal, same_at, od_keys. cbn. by rewrite !decide_True, same_value_refl by done.
Qed.

Definition moves_one (frozen v : params) : Prop :=
  od_keys v = od_keys frozen /\ (List.length (changed_axes decimal_of_str frozen v) <= 1)%nat.

Lemma changed_axes_one frozen v key :
  (forall k, k ∈ all_keys frozen v -> k <> key -> key_changed decimal_of_str frozen v k = false) ->
  (List.length (changed_axes decimal_of_str frozen v) <= 1)%nat.
Proof.
  unfold changed_axes. assert (Hnd : NoDup (all_keys frozen v)) by (unfold all_keys; rewrite merge_sort_Permutation; apply NoDup_remove_dups).
  revert Hnd. generalize (all_keys frozen v). intros l Hnd Hk. induction l as [|k l IH]; [cbn; lia|]. apply NoDup_cons in Hnd as [Hn Hnd].
  cbn [List.filter]. destruct (key_changed decimal_of_str frozen v k) eqn:E.
  - assert (k = key) as ->. { destruct (decide (k = key)); [done|]. rewrite Hk in E; [done|left|done]. }
    cbn. enough (List.filter (key_changed decimal_of_str frozen v) l = []) as -> by (cbn; lia).
    clear IH E. induction l as [|x l IHl]; [done|]. cbn. rewrite Hk; [| right; left |set_solver]. apply IHl; [set_solver|by apply NoDup_cons in Hnd as [_ ?]|].
    intros y Hy. apply Hk. set_solver.
  - apply IH; [done|]. intros y Hy. apply Hk. by right.
Qed.

Lemma set_moves_one frozen key v : key ∈ od_keys frozen -> moves_one frozen (od_set frozen key v).
Proof.
  intros Hk. assert (Ho : od_keys (od_set frozen key v) = od_keys frozen) by (by apply od_keys_set_id). split; [done|].
  apply (changed_axes_one _ _ key). intros k Hin Hn. apply key_changed_set; [|done]. revert Hin. unfold all_keys. rewrite merge_sort_Permutation, elem_of_remove_dups, Ho.
  set_solver.
Qed.

Lemma frozen_moves_one frozen : moves_one frozen frozen.
Proof.
  split; [done|]. apply (changed_axes_one _ _ ""). intros k Hin _. revert Hin. unfold all_keys. rewrite merge_sort_Permutation, elem_of_remove_dups.
  intros Hin. assert (Hk : k ∈ od_keys frozen) by set_solver. unfold key_changed. apply od_get_is_Some in Hk as [x ->]. apply negb_false_iff.
  unfold parameters_equal, same_at, od_keys. cbn. by rewrite !decide_True, same_value_refl by done.
Qed.

(** The neighborhood moves one parameter at a time: the candidate itself
    comes first, every variant has the candidate's parameters in the same order,
    and at most one of them differs in value, so the graph finds a neighbor on
    one axis or not at all. *)
Theorem neighborhood_one_at_a_time frozen int_deltas steps variants :
  symmetric_neighborhood decimal_of_str int_of_str str_ frozen int_deltas steps = Ok variants ->
  head variants = Some frozen /\ Forall (moves_one frozen) variants.
Proof.
  unfold symmetric_neighborhood. intros (ints & Hi & (decs & Hd & [= <-])%bind_ok)%bind_ok. split; [done|]. constructor; [apply frozen_moves_one|].
  apply Forall_app. split; apply Forall_forall; intros v (l & Hv & Hl)%list_elem_of_join.
  - destruct (each_ok _ _ _ Hi _ Hl) as ([key ds] & _ & H). cbn in H. destruct (od_get frozen key) as [x|] eqn:E; [|injection H as <-; by apply elem_of_nil in Hv].
    apply bind_ok in H as (base & _ & [= <-]). apply list_elem_of_fmap in Hv as (d & -> & _). apply set_moves_one. by apply od_get_Some_keys in E.
  - destruct (each_ok _ _ _ Hd _ Hl) as ([key ds] & _ & H). cbn in H. destruct (od_get frozen key) as [x|] eqn:E; [|injection H as <-; by apply elem_of_nil in Hv].
    apply bind_ok in H as (base & _ & H). destruct (each_ok _ _ _ H _ Hv) as (st & _ & (s & _ & [= <-])%bind_ok). apply set_moves_one.
    by apply od_get_Some_keys in E.
Qed.
End OneAtATime.

Definition sample_frozen : params := [("daily_ema_period", PInt 20); ("trail_atr_mult", PText "3"); ("strategy_id", PText "trend_v1")].
Definition sample_decimal (s : string) : option decimal := match decimal_of_text s with Ok q => Some q | Raise _ => None end.
Definition sample_text (q : decimal) : string := if deqb q (29 # 10) then "2.9" else if deqb q (31 # 10) then "3.1" else "0".

Lemma neighborhood_one_at_a_time_witness :
  exists variants, symmetric_neighborhood sample_decimal (fun _ => None) sample_text sample_frozen None (Some []) = Ok variants /\
    List.length variants = 5%nat /\ Forall (moves_one sample_decimal sample_frozen) variants.
Proof.
  eexists. split; [vm_compute; reflexivity|]. split; [reflexivity|].
  refine (proj2 (neighborhood_one_at_a_time sample_decimal (fun _ => None) sample_text sample_frozen None (Some []) _ _)). vm_compute. reflexivity.
Defined.
