(* ===== verification/ParameterArea.v ===== *)
(** * Parameter areas (services/research/parameter_area/: evaluator.py,
    artifacts.py)

    The evaluator decides for each run of a neighborhood whether it is stable,
    summarises the neighborhood and labels the candidate.  Evidence counts as
    trusted only when it was read through a manifest whose digest the caller
    pinned.  The arguments are those of GateEvidence and ParameterGraph; the
    parameters in a sealed experiment are whole numbers and texts. *)
From Stdlib Require Import ZArith QArith Lia.
From stdpp Require Import base list strings gmap sorting.
From S2P Require Import Prelude Decimal CanonicalJson GatePolicy ResearchRegistry GateVerdict GateEvidence ParameterGraph.

Local Open Scope string_scope.

Definition PARAMETER_AREA_SCHEMA_VERSION : string := "1.0".
Definition PARAMETER_AREA_FILENAME : string := "parameter_area.json".
Definition NOT_AVAILABLE_TEXT : string := "NOT_AVAILABLE".

(** ** Observations *)

Record NeighborObservation := {
  obs_child_id : string;
  label : string;
  obs_parameters : params;
  obs_status : string;
  obs_net_pnl : option string;
  obs_total_costs : option string;
  obs_gate_pass : option bool
}.

(** The dict [_eval] returns: what was observed and what it means. *)
Record NeighborEval := { observation : NeighborObservation; eval_stable : bool; stable_reason : string; positive : bool }.

Definition is_neighbor_stable (status : string) (net_pnl total_costs : option decimal) (gate_pass : option bool) (require_gate : bool)
    (policy_min_net policy_max_cost_ratio : decimal) : res (bool * string) :=
  if bool_decide (status <> "complete") then Ok (false, "not_complete")
  else match net_pnl with
  | None => Ok (false, "missing_net_pnl")
  | Some net =>
      if dltb net policy_min_net then Ok (false, "net_pnl_below_floor")
      else match total_costs with
      | None => Ok (false, "missing_costs")
      | Some costs =>
          ratio ← ddiv costs (dmax (dabs net) 1);
          if dltb policy_max_cost_ratio ratio then Ok (false, "cost_ratio_exceeded")
          else if require_gate then
            match gate_pass with
            | None => Ok (false, "missing_gate_pass")
            | Some false => Ok (false, "gate_fail")
            | Some true => Ok (true, "stable")
            end
          else Ok (true, "stable")
      end
  end.

(** ** Texts of the artifact *)

Definition json_of_pvalue (v : pvalue) : jvalue := match v with PInt z => VInt z | PText s => VStr s end.

Definition json_of_params (p : params) : jvalue := VObj (prod_map id json_of_pvalue <$> p).

Definition text_or_na (v : option string) : jvalue := VStr (default NOT_AVAILABLE_TEXT v).

Definition json_of_gate (g : option bool) : jvalue := match g with Some b => VBool b | None => VNull end.

Definition optional_text (v : option string) : jvalue := match v with Some s => VStr s | None => VNull end.

Definition eval_to_dict (e : NeighborEval) : jvalue :=
  let o := observation e in
  VObj [("child_id", VStr (obs_child_id o)); ("label", VStr (label o)); ("parameters", json_of_params (obs_parameters o)); ("status", VStr (obs_status o));
        ("net_pnl", text_or_na (obs_net_pnl o)); ("total_costs", text_or_na (obs_total_costs o)); ("gate_pass", json_of_gate (obs_gate_pass o));
        ("stable", VBool (eval_stable e)); ("stable_reason", VStr (stable_reason e)); ("positive", VBool (positive e))].

Definition compute_parameter_area_id (robustness_id policy_version policy_content_hash evidence_hash : string) (trusted_manifest_hash : option string) : string :=
  "pa_" ++ content_digest (VObj [("evidence_hash", VStr evidence_hash); ("policy_content_hash", VStr policy_content_hash);
    ("policy_version", VStr policy_version); ("robustness_id", VStr robustness_id); ("trusted_manifest_hash", optional_text trusted_manifest_hash)]).

Definition region_to_dict (r : region) : jvalue :=
  VObj [("plateau_size", VInt (Z.of_nat (region_plateau_size r))); ("best_axis", optional_text (best_axis r));
        ("axis_contiguous_stable", VObj (prod_map id (fun n => VInt (Z.of_nat n)) <$> axis_contiguous_stable r));
        ("contiguous_region_rule", VStr "oat_axis_adjacent_including_frozen_v1"); ("plateau_includes_frozen", VBool (region_includes_frozen r))].

Definition label_text (l : AreaLabel) : string :=
  match l with
  | BROAD_STABLE_PLATEAU => "BROAD_STABLE_PLATEAU"
  | NARROW_STABLE_AREA => "NARROW_STABLE_AREA"
  | ISOLATED_PEAK => "ISOLATED_PEAK"
  | UNSTABLE => "UNSTABLE"
  | INSUFFICIENT_EVIDENCE => "INSUFFICIENT_EVIDENCE"
  end.

(** [f"neighbor_{index:02d}"]. *)
Definition child_name (index : nat) : string :=
  match index with O => "frozen" | _ => "neighbor_" ++ (if (index <? 10)%nat then "0" else "") ++ int_text (Z.of_nat index) end.

Section Evaluator.
Context (decimal_of_str : string -> option decimal) (int_of_str : string -> option Z) (format_f str_ : decimal -> string).

Definition _optional_dec (value : option string) : res (option decimal) :=
  match value with
  | None => Ok None
  | Some s => if bool_decide (s = NOT_AVAILABLE_TEXT) then Ok None else q ← or_raise InvalidOperation (decimal_of_str s); Ok (Some q)
  end.

Definition _param_variant_label (base variant : params) : string :=
  let changed := List.filter (fun key => match od_get variant key, od_get base key with
                                         | Some a, Some b => negb (same_value decimal_of_str a b) | _, _ => true end)
                   (merge_sort String.le (od_keys variant)) in
  match changed with
  | [] => "baseline"
  | _ => comma_separated ((fun key => key ++ "=" ++ match od_get variant key with Some v => text_of v | None => "" end) <$> changed)
  end.

Record variant_row := { variant_child_id : string; variant_label : string; variant_parameters : params }.

Fixpoint number_variants (base : params) (index : nat) (variants : list params) : list variant_row :=
  match variants with
  | [] => []
  | v :: rest =>
      {| variant_child_id := child_name index; variant_label := _param_variant_label base v; variant_parameters := v |} :: number_variants base (S index) rest
  end.

Definition reconstruct_oat_variants (frozen_parameters : params) (int_deltas : option (list (string * list Z)))
    (decimal_relative_steps : option (list (string * list string))) : res (list variant_row) :=
  variants ← symmetric_neighborhood decimal_of_str int_of_str str_ frozen_parameters int_deltas decimal_relative_steps;
  Ok (number_variants frozen_parameters 0 variants).

(** ** The evaluation *)

Definition _eval (require_gate_for_stable : bool) (min_net max_cost : decimal) (obs : NeighborObservation) : res NeighborEval :=
  net ← _optional_dec (obs_net_pnl obs);
  costs ← _optional_dec (obs_total_costs obs);
  '(st, reason) ← is_neighbor_stable (obs_status obs) net costs (obs_gate_pass obs) require_gate_for_stable min_net max_cost;
  Ok {| observation := obs; eval_stable := st; stable_reason := reason;
        positive := match net with Some n => dltb 0 n | None => false end |}.

Definition is_complete_eval (e : NeighborEval) : bool := bool_decide (obs_status (observation e) = "complete").
Definition gate_known (e : NeighborEval) : bool := bool_decide (obs_gate_pass (observation e) <> None).
Definition gate_passed (e : NeighborEval) : bool := bool_decide (obs_gate_pass (observation e) = Some true).

(** [Decimal(k) / Decimal(n) if n else Decimal("0")]. *)
Definition share (k n : nat) : res decimal := match n with O => Ok 0%Q | _ => ddiv (d_of_nat k) (d_of_nat n) end.

Definition dec_le (a b : decimal) : Prop := dleb a b = true.
#[local] Instance dec_le_dec (a b : decimal) : Decision (dec_le a b).
Proof. unfold dec_le. apply _. Defined.

Definition middle (ordered : list decimal) : res decimal :=
  let mid := (List.length ordered / 2)%nat in
  if Nat.odd (List.length ordered) then or_raise IndexError (ordered !! mid)
  else a ← or_raise IndexError (ordered !! (mid - 1)%nat); b ← or_raise IndexError (ordered !! mid); ddiv (dadd a b) 2.

(** The median and the spread. *)
Definition spread (nets_present : list decimal) : res (string * string) :=
  match merge_sort dec_le nets_present with
  | [] => Ok (NOT_AVAILABLE_TEXT, NOT_AVAILABLE_TEXT)
  | first :: rest =>
      m ← middle (first :: rest);
      Ok (format_f m, format_f (dsub (default first (last (first :: rest))) first))
  end.

Definition steeper (frozen_net : decimal) (steepest : option decimal) (n : decimal) : option decimal :=
  let drop := dsub frozen_net n in
  match steepest with None => Some drop | Some s => if dltb s drop then Some drop else steepest end.

Definition steepest_of (frozen_net : option decimal) (nets_present : list decimal) : option decimal :=
  match frozen_net with None => None | Some f => fold_left (steeper f) nets_present None end.

Definition axis_row_of (e : NeighborEval) : axis_row :=
  {| row_child_id := obs_child_id (observation e); row_parameters := obs_parameters (observation e); row_stable := eval_stable e |}.

(** A stable candidate without axes is a plateau of one point. *)
Definition degenerate_region (frozen_is_stable : bool) (by_axis : list (string * list AxisPoint)) (r : region) : region :=
  if (region_plateau_size r =? 0)%nat && frozen_is_stable && bool_decide (by_axis = [])
  then {| region_plateau_size := 1; best_axis := best_axis r; axis_contiguous_stable := axis_contiguous_stable r; region_includes_frozen := true |}
  else r.

(** What the evaluation computes before it labels. *)
Record area_facts := {
  frozen_eval : NeighborEval;
  neighbor_evals : list NeighborEval;
  positive_share : decimal;
  median_net : string;
  dispersion : string;
  area_axes : list (string * list AxisPoint);
  area_region : region;
  facts : area_stats
}.

Definition measure (policy : ParameterAreaPolicy) (frozen_parameters : params) (observations : list NeighborObservation) (require_gate_for_stable : bool) :
    res area_facts :=
  frozen ← (match List.filter (fun o => bool_decide (obs_child_id o = "frozen")) observations with
            | [o] => Ok o
            | _ => Raise (ParameterAreaError "exactly one frozen observation required")
            end);
  _ ← ensure (parameters_equal decimal_of_str (obs_parameters frozen) frozen_parameters)
        (ParameterAreaError "frozen observation parameters must match frozen_parameters exactly");
  let neighbors := List.filter (fun o => bool_decide (obs_child_id o <> "frozen")) observations in
  min_net ← decimal_of_text (min_net_pnl policy);
  max_cost ← decimal_of_text (max_cost_ratio policy);
  frozen_e ← _eval require_gate_for_stable min_net max_cost frozen;
  evals ← each (_eval require_gate_for_stable min_net max_cost) neighbors;
  let complete := List.filter is_complete_eval evals in
  let n := List.length complete in
  let known := List.filter gate_known complete in
  let available := (List.length known =? n)%nat && (0 <? n)%nat in
  gates ← (if available then g ← share (List.length (List.filter gate_passed known)) n; Ok (Some g) else Ok None);
  stable_sh ← share (List.length (List.filter eval_stable complete)) n;
  positive_sh ← share (List.length (List.filter positive complete)) n;
  nets ← each (fun e => _optional_dec (obs_net_pnl (observation e))) complete;
  let nets_present := omap id nets in
  '(median, disp) ← spread nets_present;
  frozen_net ← _optional_dec (obs_net_pnl frozen);
  by_axis ← build_axis_points decimal_of_str "frozen" frozen_parameters (eval_stable frozen_e) (axis_row_of <$> evals);
  let r := degenerate_region (eval_stable frozen_e) by_axis (measure_contiguous_regions by_axis "frozen") in
  Ok {| frozen_eval := frozen_e; neighbor_evals := evals; positive_share := positive_sh; median_net := median; dispersion := disp; area_axes := by_axis;
        area_region := r;
        facts := {| n_complete_neighbors := Z.of_nat n; stable_share := stable_sh; gate_pass_share := gates; gates_available := available;
                    plateau_size := region_plateau_size r; frozen_stable := eval_stable frozen_e;
                    plateau_includes_frozen := region_includes_frozen r || ((0 <? region_plateau_size r)%nat && eval_stable frozen_e);
                    any_stable_neighbor := existsb eval_stable complete;
                    steepest_drop := steepest_of frozen_net nets_present |} |}.

Record ParameterAreaResult := { artifact : jvalue; parameter_area_id : string; classification : AreaLabel; evidence_trusted : bool; trusted_manifest : option string }.

Definition evidence_payload (f : area_facts) (neighborhood_config : object) (require_gate : bool) (trusted_manifest_hash : option string) : jvalue :=
  VObj [("frozen", eval_to_dict (frozen_eval f)); ("neighbors", VArr (eval_to_dict <$> neighbor_evals f)); ("neighborhood_config", VObj neighborhood_config);
        ("require_gate_for_stable", VBool require_gate); ("trusted_manifest_hash", optional_text trusted_manifest_hash)].

Definition artifact_of (policy : ParameterAreaPolicy) (f : area_facts) (robustness_id area_id evidence_hash reason : string) (l : AreaLabel)
    (frozen_parameters : params) (neighborhood_config : object) (require_gate trusted : bool) (trusted_manifest_hash : option string) : jvalue :=
  let frozen := observation (frozen_eval f) in
  VObj [("schema_version", VStr PARAMETER_AREA_SCHEMA_VERSION); ("parameter_area_id", VStr area_id); ("robustness_id", VStr robustness_id);
        ("policy_version", VStr (area_version policy)); ("policy_content_hash", VStr (compute_area_policy_hash policy)); ("evidence_hash", VStr evidence_hash);
        ("evidence_trusted", VBool trusted); ("trusted_manifest_hash", optional_text trusted_manifest_hash);
        ("neighborhood", VObj [("version_note", VStr "reuse #247 parameter_stability OAT neighborhood"); ("contiguity_rule", VStr (contiguity_rule policy));
                               ("config", VObj neighborhood_config); ("require_gate_for_stable", VBool require_gate)]);
        ("frozen_point", VObj [("child_id", VStr (obs_child_id frozen)); ("label", VStr (label frozen)); ("parameters", json_of_params (sort_items frozen_parameters));
                               ("status", VStr (obs_status frozen)); ("net_pnl", text_or_na (obs_net_pnl frozen)); ("total_costs", text_or_na (obs_total_costs frozen));
                               ("gate_pass", json_of_gate (obs_gate_pass frozen)); ("stable", VBool (eval_stable (frozen_eval f))); ("unchanged", VBool true);
                               ("auto_selected", VBool false)]);
        ("neighbors", VArr (eval_to_dict <$> neighbor_evals f));
        ("stats", VObj [("n_neighbors", VInt (Z.of_nat (List.length (neighbor_evals f)))); ("n_complete_neighbors", VInt (n_complete_neighbors (facts f)));
                        ("share_positive", VStr (format_f (positive_share f))); ("share_stable", VStr (format_f (stable_share (facts f))));
                        ("share_gate_pass", text_or_na (format_f <$> gate_pass_share (facts f))); ("gates_available", VBool (gates_available (facts f)));
                        ("median_neighbor_net_pnl", VStr (median_net f)); ("dispersion_neighbor_net_pnl", VStr (dispersion f));
                        ("steepest_local_drop", text_or_na (format_f <$> steepest_drop (facts f)))]);
        ("plateau", VObj [("size", VInt (Z.of_nat (plateau_size (facts f)))); ("contiguous_region", region_to_dict (area_region f));
                          ("isolated_optimum", VBool (bool_decide (l = ISOLATED_PEAK))); ("includes_frozen", VBool (plateau_includes_frozen (facts f)))]);
        ("classification", VStr (label_text l)); ("classification_reason", VStr reason); ("decision_binding", VBool false); ("auto_promotion", VBool false);
        ("auto_parameter_selection", VBool false); ("oos_holdout_used", VBool false)].

Definition _evaluate_parameter_area (robustness_id : string) (frozen_parameters : params) (observations : list NeighborObservation)
    (neighborhood_config : object) (policy_version : string) (require_gate_for_stable trusted : bool) (trusted_manifest_hash : option string) :
    res ParameterAreaResult :=
  policy ← get_parameter_area_policy policy_version;
  let policy_hash := compute_area_policy_hash policy in
  _ ← ensure (bool_decide (robustness_id <> "")) (ParameterAreaError "robustness_id required");
  _ ← ensure (bool_decide (frozen_parameters <> [])) (ParameterAreaError "frozen_parameters required");
  _ ← ensure (negb (trusted && bool_decide (default "" trusted_manifest_hash = "")))
        (ParameterAreaError "evidence_trusted=true requires trusted_manifest_hash pin");
  f ← measure policy frozen_parameters observations require_gate_for_stable;
  '(l, reason) ← classify_parameter_area policy (facts f);
  let evidence_hash := content_digest (evidence_payload f neighborhood_config require_gate_for_stable trusted_manifest_hash) in
  let area_id := compute_parameter_area_id robustness_id (area_version policy) policy_hash evidence_hash trusted_manifest_hash in
  Ok {| artifact := artifact_of policy f robustness_id area_id evidence_hash reason l frozen_parameters neighborhood_config require_gate_for_stable trusted
                      trusted_manifest_hash;
        parameter_area_id := area_id; classification := l; evidence_trusted := trusted; trusted_manifest := trusted_manifest_hash |}.

Definition evaluate_parameter_area (robustness_id : string) (frozen_parameters : params) (observations : list NeighborObservation)
    (neighborhood_config : object) (policy_version : string) (require_gate_for_stable : bool) : res ParameterAreaResult :=
  _evaluate_parameter_area robustness_id frozen_parameters observations neighborhood_config policy_version require_gate_for_stable false None.

(** ** Sealed evidence *)

Context (loads : string -> res jvalue) (str_of : jvalue -> string) (int_of : jvalue -> res Z).

Definition load_object (text message : string) : res object :=
  v ← loads text; match v with VObj o => Ok o | _ => Raise (ParameterAreaError message) end.

(** [Path.is_file] before [read_text]. *)
Definition sealed_object (w : world) (run name : string) : res object :=
  entry ← show (fs w) run true (runs w);
  text ← or_raise (ParameterAreaError ("missing sealed " ++ name)) (run_dir (fs w) (artifact_path entry) !! name);
  load_object text (name ++ " must be an object").

Definition _load_verified_run_metrics (w : world) (run : string) : res object := sealed_object w run "metrics.json".

(** Only whole numbers and texts are parameters. *)
Definition params_of (o : object) : res params :=
  each (fun '(k, v) => match v with VInt z => Ok (k, PInt z) | VStr s => Ok (k, PText s) | _ => Raise TypeError end) o.

Definition _load_frozen_parameters_from_base_run (w : world) (base_run : string) : res params :=
  experiment ← sealed_object w base_run "experiment.json";
  match dget "parameters" experiment with
  | VObj (p :: o) => params_of (p :: o)
  | _ => Raise (ParameterAreaError "base run missing parameters in experiment.json")
  end.

Definition number_of_json (v : jvalue) : res decimal := or_raise InvalidOperation (decimal_of_str (str_of v)).

Definition add_cost (metrics : object) (total : decimal) (key : string) : res decimal :=
  match dget key metrics with VNull => Ok total | v => q ← number_of_json v; Ok (dadd total q) end.

Definition _total_costs_from_metrics (metrics : object) : res (option string) :=
  let keys := ["fees"; "slippage_costs"; "funding_costs"] in
  if negb (existsb (fun k => match dget k metrics with VNull => false | _ => true end) keys) then Ok None
  else total ← foldM (add_cost metrics) keys 0%Q; Ok (Some (format_f total)).

(** [{k: tuple(f(x) for x in v)}], when the value is a dict. *)
Definition delta_table {A} (f : jvalue -> res A) (v : jvalue) : res (option (list (string * list A))) :=
  match v with
  | VObj o => table ← each (fun '(k, x) => match x with VArr l => xs ← each f l; Ok (k, xs) | _ => Raise TypeError end) o; Ok (Some table)
  | _ => Ok None
  end.

(** [for child in v or []]: of a text or a dict nothing is a dict. *)
Definition iterated (v : jvalue) : res (list jvalue) :=
  if truth v then match v with VArr l => Ok l | VStr _ | VObj _ => Ok [] | _ => Raise TypeError end else Ok [].

Definition find_variant (id : string) (rows : list variant_row) : option variant_row :=
  last (List.filter (fun r => bool_decide (variant_child_id r = id)) rows).

Definition observe_child (w : world) (rows : list variant_row) (child : jvalue) : res (option NeighborObservation) :=
  match child with
  | VObj c =>
      let id := text_or_empty str_of (dget "child_id" c) in
      meta ← or_raise (ParameterAreaError "manifest child not in reconstructed OAT neighborhood") (find_variant id rows);
      let st := text_or_empty str_of (dget "status" c) in
      let lab := if truth (dget "label" c) then str_of (dget "label" c) else variant_label meta in
      let observed net costs gate :=
        {| obs_child_id := id; label := lab; obs_parameters := variant_parameters meta; obs_status := st; obs_net_pnl := net; obs_total_costs := costs;
           obs_gate_pass := gate |} in
      if bool_decide (st = "complete") then
        _ ← ensure (truth (dget "run_id" c)) (ParameterAreaError "complete child missing run_id");
        metrics ← _load_verified_run_metrics w (str_of (dget "run_id" c));
        match dget "net_pnl" metrics with
        | VNull => Raise (ParameterAreaError "sealed metrics missing net_pnl")
        | net =>
            costs ← _total_costs_from_metrics metrics;
            total ← or_raise (ParameterAreaError "sealed metrics missing cost fields") costs;
            pnl ← number_of_json net;
            Ok (Some (observed (Some (str_of net)) (Some total) (Some (dleb 0 pnl))))
        end
      else Ok (Some (observed None None None))
  | _ => Ok None
  end.

Definition observations_from_sealed_manifest (w : world) (manifest : object) (frozen_parameters : params) : res (list NeighborObservation * object) :=
  _ ← ensure (is_text "parameter_stability" (dget "test_type" manifest)) (ParameterAreaError "expected test_type=parameter_stability");
  config ← or_raise TypeError (object_or_empty (dget "config" manifest));
  int_norm ← delta_table int_of (dget "int_deltas" config);
  dec_norm ← delta_table (fun v => Ok (str_of v)) (dget "decimal_relative_steps" config);
  rows ← reconstruct_oat_variants frozen_parameters int_norm dec_norm;
  children ← iterated (dget "children" manifest);
  observed ← each (observe_child w rows) children;
  Ok (omap id (observed : list (option NeighborObservation)), config).

Definition seal_error {A} (m : res A) : res A :=
  match m with Raise (FileNotFoundError _) | Raise (ValueError _) => Raise (ParameterAreaError "robustness seal verify failed") | _ => m end.

Definition evaluate_parameter_area_from_robustness (w : world) (robustness_id trusted_manifest_hash policy_version : string) (require_gate_for_stable : bool) :
    res ParameterAreaResult :=
  _ ← ensure (present trusted_manifest_hash) (ParameterAreaError "trusted_manifest_hash required");
  _ ← seal_error (verify_robustness_manifest_seal w robustness_id (Some (strip trusted_manifest_hash)));
  text ← or_raise (ParameterAreaError "missing robustness manifest") (robustness_manifests w !! robustness_id);
  manifest ← load_object text "missing robustness manifest";
  _ ← ensure (truth (dget "base_run_id" manifest)) (ParameterAreaError "missing base_run_id for frozen parameters");
  frozen_parameters ← _load_frozen_parameters_from_base_run w (str_of (dget "base_run_id" manifest));
  '(observations, config) ← observations_from_sealed_manifest w manifest frozen_parameters;
  _evaluate_parameter_area (if truth (dget "robustness_id" manifest) then str_of (dget "robustness_id" manifest) else robustness_id)
    frozen_parameters observations config policy_version require_gate_for_stable true (Some (strip trusted_manifest_hash)).
End Evaluator.

(** ** The artifact on disk (artifacts.py) *)

Definition seal_name : string := PARAMETER_AREA_FILENAME ++ ".sha256".

Definition write_parameter_area_artifact (dir : directory) (artifact : jvalue) : res directory :=
  match dir !! PARAMETER_AREA_FILENAME with
  | Some _ => Raise (ParameterAreaError "refusing to overwrite existing parameter area artifact")
  | None =>
      let payload := canonical_json artifact in
      let digest := Sha256.hexdigest payload in
      let dir := <[PARAMETER_AREA_FILENAME := payload]> (delete ("." ++ PARAMETER_AREA_FILENAME ++ ".tmp") dir) in
      Ok (<[seal_name := digest ++ "  " ++ PARAMETER_AREA_FILENAME ++ String (Ascii.ascii_of_nat 10) ""]> dir)
  end.

(** [text.split()[0]]. *)
Fixpoint first_word (s : string) : string :=
  match s with "" => "" | String c s => if is_space c then "" else String c (first_word s) end.

Definition split_first (s : string) : res string := match lstrip s with "" => Raise IndexError | t => Ok (first_word t) end.

Definition verify_parameter_area_seal (dir : directory) : res string :=
  match dir !! PARAMETER_AREA_FILENAME, dir !! seal_name with
  | Some payload, Some seal =>
      expected ← split_first seal;
      let actual := Sha256.hexdigest payload in
      if bool_decide (actual <> expected) then Raise (ParameterAreaError "parameter area seal mismatch") else Ok actual
  | _, _ => Raise (ParameterAreaError "missing parameter area artifact or seal")
  end.

(** ** Stable observations *)

Section AreaProofs.
Context (decimal_of_str : string -> option decimal) (format_f : decimal -> string).

(** The run finished, did not lose, and its costs are at most half of what it
    made or lost. *)
Definition stable_observation (require_gate : bool) (o : NeighborObservation) : Prop :=
  obs_status o = "complete" /\
  (exists net, _optional_dec decimal_of_str (obs_net_pnl o) = Ok (Some net) /\ (0 <= net)%Q /\
     exists costs ratio, _optional_dec decimal_of_str (obs_total_costs o) = Ok (Some costs) /\ ddiv costs (dmax (dabs net) 1) = Ok ratio /\ (ratio <= 5 # 10)%Q) /\
  (require_gate = true -> obs_gate_pass o = Some true).

Lemma eval_stable_sound require obs e :
  _eval decimal_of_str require 0%Q (5 # 10)%Q obs = Ok e -> observation e = obs /\ (eval_stable e = true -> stable_observation require obs).
Proof.
  unfold _eval, is_neighbor_stable. intros (net & Hn & (costs & Hc & ([st reason] & H & [= <-])%bind_ok)%bind_ok)%bind_ok. cbn. split; [done|]. intros ->.
  unfold stable_observation. case_bool_decide as Hs; [done|]. split; [done|].
  destruct net as [net|]; [|done]. destruct (dltb net 0%Q) eqn:E0; [done|]. destruct costs as [costs|]; [|done].
  apply bind_ok in H as (ratio & Hr & H). destruct (dltb (5 # 10)%Q ratio) eqn:E1; [done|]. split.
  - exists net. split; [done|]. split; [by apply dltb_ge in E0|]. exists costs, ratio. split_and!; [done..|by apply dltb_ge in E1].
  - intros ->. by destruct (obs_gate_pass obs) as [[]|].
Qed.

(** ** The points of the graph are the observations *)

Definition point_from (frozen_stable : bool) (rows : list axis_row) (p : AxisPoint) : Prop :=
  (child_id p = "frozen" /\ stable p = frozen_stable) \/ exists row, row ∈ rows /\ child_id p = row_child_id row /\ stable p = row_stable row.

Lemma axes_from frozen st rows axes :
  build_axis_points decimal_of_str "frozen" frozen st rows = Ok axes ->
  Forall (fun '(_, points) => Forall (point_from st rows) points) axes.
Proof.
  unfold build_axis_points. intros (by_axis & Hb & He)%bind_ok.
  assert (Hfirst : Forall (fun '(_, points) => Forall (point_from st rows) points) by_axis).
  { refine (foldM_inv _ (Forall (fun '(_, points) => Forall (point_from st rows) points)) _ _ _ _ _ Hb); [constructor|]. intros d row d' Hrow Hd.
    unfold add_row. destruct (changed_axes decimal_of_str frozen (row_parameters row)) as [|ax [|]]; [by intros [= <-]| |by intros [= <-]].
    intros (v & _ & (q & _ & [= <-])%bind_ok)%bind_ok. apply od_set_Forall; [done|]. apply Forall_app. split.
    - destruct (od_get d ax) as [ps|] eqn:E; [|constructor]. by apply (od_get_Forall _ _ _ _ Hd) in E.
    - constructor; [right; by exists row|constructor]. }
  apply Forall_forall. intros [ax points] Hin. destruct (each_ok _ _ _ He _ Hin) as ([ax0 ps] & Hps & H). rewrite Forall_forall in Hfirst. specialize (Hfirst _ Hps).
  cbn in Hfirst, H. destruct (od_get frozen ax0) as [v|]; [|by injection H as <- <-]. apply bind_ok in H as (q & _ & [= <- <-]).
  rewrite merge_sort_Permutation. destruct (existsb _ ps); [done|]. apply Forall_app. split; [done|]. constructor; [by left|constructor].
Qed.

Lemma index_of_frozen st evals points i :
  Forall (point_from st (axis_row_of <$> evals)) points -> Forall (fun e => obs_child_id (observation e) <> "frozen") evals ->
  index_of "frozen" points = Some i -> stable_at points i = true -> st = true.
Proof.
  intros Hf He Hi Hs. pose proof (index_of_spec "frozen" points) as H. rewrite Hi in H. destruct H as (p & Hp & Hc). unfold stable_at in Hs. rewrite Hp in Hs.
  rewrite Forall_forall in Hf. destruct (Hf p (list_elem_of_lookup_2 _ _ _ Hp)) as [[_ <-]|(row & Hr & Hrc & _)]; [done|].
  apply list_elem_of_fmap in Hr as (e & -> & Hr). rewrite Forall_forall in He. by destruct (He e Hr); rewrite <- Hc, Hrc.
Qed.

(** ** What a measurement holds *)

Lemma thresholds_stable : decimal_of_text (min_net_pnl area_policy_1_0) = Ok 0%Q /\ decimal_of_text (max_cost_ratio area_policy_1_0) = Ok (5 # 10)%Q.
Proof. split; vm_compute; reflexivity. Qed.

Record measured (frozen_parameters : params) (observations : list NeighborObservation) (require : bool) (f : area_facts) : Prop := {
  me_frozen : observation (frozen_eval f) ∈ observations /\ obs_child_id (observation (frozen_eval f)) = "frozen" /\
    parameters_equal decimal_of_str (obs_parameters (observation (frozen_eval f))) frozen_parameters = true;
  me_evals : Forall (fun e => observation e ∈ observations /\ obs_child_id (observation e) <> "frozen") (neighbor_evals f);
  me_stable : Forall (fun e => eval_stable e = true -> stable_observation require (observation e)) (frozen_eval f :: neighbor_evals f);
  me_axes : build_axis_points decimal_of_str "frozen" frozen_parameters (eval_stable (frozen_eval f)) (axis_row_of <$> neighbor_evals f) = Ok (area_axes f);
  me_region : area_region f = degenerate_region (eval_stable (frozen_eval f)) (area_axes f) (measure_contiguous_regions (area_axes f) "frozen");
  me_facts : plateau_size (facts f) = region_plateau_size (area_region f) /\ frozen_stable (facts f) = eval_stable (frozen_eval f) /\
    n_complete_neighbors (facts f) = Z.of_nat (List.length (List.filter is_complete_eval (neighbor_evals f)))
}.

Lemma measure_ok frozen_parameters observations require f :
  measure decimal_of_str format_f area_policy_1_0 frozen_parameters observations require = Ok f -> measured frozen_parameters observations require f.
Proof.
  destruct thresholds_stable as [T1 T2]. unfold measure. rewrite T1, T2. intros (frozen & Hf & H)%bind_ok.
  destruct (List.filter _ observations) as [|o [|]] eqn:Efr; [done| |done]. injection Hf as ->.
  assert (Ho : frozen ∈ observations /\ obs_child_id frozen = "frozen").
  { assert (Hin : frozen ∈ List.filter (fun o => bool_decide (obs_child_id o = "frozen")) observations) by (rewrite Efr; left).
    apply list_elem_of_In, filter_In in Hin as [Hin Hb]. apply bool_decide_eq_true in Hb. by apply list_elem_of_In in Hin. }
  apply bind_ok in H as ([] & Hp%ensure_ok & H). cbn [mbind res_bind] in H. apply bind_ok in H as (fe & Hfe & H). apply bind_ok in H as (evals & Hev & H).
  apply bind_ok in H as (gates & _ & H). apply bind_ok in H as (ss & _ & H). apply bind_ok in H as (ps & _ & H). apply bind_ok in H as (nets & _ & H).
  apply bind_ok in H as ([m d] & _ & H). apply bind_ok in H as (fn & _ & H). apply bind_ok in H as (axes & Hax & [= <-]).
  destruct (eval_stable_sound _ _ _ Hfe) as [Hfo Hfs].
  assert (Hall : Forall (fun e => (observation e ∈ observations /\ obs_child_id (observation e) <> "frozen") /\
                                  (eval_stable e = true -> stable_observation require (observation e))) evals).
  { apply Forall_forall. intros e He. destruct (each_ok _ _ _ Hev e He) as (o & Hin & Hee). destruct (eval_stable_sound _ _ _ Hee) as [-> Hst]. split; [|done].
    apply list_elem_of_In, filter_In in Hin as [Hin Hb]. apply bool_decide_eq_true in Hb. by apply list_elem_of_In in Hin. }
  split; cbn [frozen_eval neighbor_evals area_axes area_region facts plateau_size frozen_stable n_complete_neighbors]; rewrite ?Hfo.
  - naive_solver.
  - eapply Forall_impl; [exact Hall|]. by intros e [? _].
  - constructor; [by rewrite Hfo|]. eapply Forall_impl; [exact Hall|]. by intros e [_ ?].
  - done.
  - done.
  - done.
Qed.

Lemma evaluation_ok rid frozen_parameters observations config version require trusted pin r :
  _evaluate_parameter_area decimal_of_str format_f rid frozen_parameters observations config version require trusted pin = Ok r ->
  version = "1.0" /\ evidence_trusted r = trusted /\ trusted_manifest r = pin /\
  exists f reason, measure decimal_of_str format_f area_policy_1_0 frozen_parameters observations require = Ok f /\
    classify_parameter_area area_policy_1_0 (facts f) = Ok (classification r, reason).
Proof.
  unfold _evaluate_parameter_area. intros (policy & Hp & H)%bind_ok. unfold get_parameter_area_policy, AREA_POLICY_REGISTRY in Hp. cbn [assoc] in Hp.
  destruct (bool_decide ("1.0" = version)) eqn:Hv; [|discriminate Hp]. apply bool_decide_eq_true in Hv. injection Hp as <-. apply bind_ok in H as (_ & _ & H). apply bind_ok in H as (_ & _ & H). apply bind_ok in H as (_ & _ & H).
  apply bind_ok in H as (f & Hf & H). apply bind_ok in H as ([l reason] & Hc & [= <-]). split_and!; [done..|]. by exists f, reason.
Qed.

(** A stable run of the graph: [k] neighboring points of an axis, the candidate
    among them, each of them the point of a stable observation. *)
Definition stable_run (require : bool) (f : area_facts) (k : nat) : Prop :=
  exists ax points a idx, (ax, points) ∈ area_axes f /\ (k <= List.length points - a)%nat /\ (a <= idx < a + k)%nat /\
    (exists p, points !! idx = Some p /\ child_id p = "frozen") /\
    forall i, (a <= i < a + k)%nat -> exists p e, points !! i = Some p /\ e ∈ frozen_eval f :: neighbor_evals f /\
      child_id p = obs_child_id (observation e) /\ stable_observation require (observation e).

Lemma plateau_run frozen_parameters observations require f :
  measured frozen_parameters observations require f -> (2 <= plateau_size (facts f))%nat -> stable_run require f (plateau_size (facts f)).
Proof.
  intros [Hfr Hev Hst Hax Hr (Hps & _ & _)] Hk. rewrite Hps, Hr in *. unfold degenerate_region in *.
  destruct ((region_plateau_size _ =? 0)%nat && _ && _) eqn:E; [cbn in Hk; lia|]. clear E.
  destruct (plateau_attained (area_axes f) "frozen") as (ax & points & Hin & Hrun); [lia|]. rewrite <- Hrun in *. rewrite contiguous_index in *.
  pose proof (index_of_spec "frozen" points) as Hi. destruct (index_of "frozen" points) as [idx|]; [|lia]. destruct (stable_at points idx) eqn:Es; [|lia].
  destruct (longest_run points idx Es) as (a & Ha & Hb & Hs & _). exists ax, points, a, idx. split_and!; [done|lia..|done|]. intros i Hii. specialize (Hs i Hii).
  unfold stable_at in Hs. destruct (points !! i) as [p|] eqn:Ep; [|done]. exists p. pose proof (axes_from _ _ _ _ Hax) as Hfrom. rewrite Forall_forall in Hfrom.
  specialize (Hfrom _ Hin). cbn in Hfrom. rewrite Forall_forall in Hfrom. rewrite Forall_forall in Hst.
  destruct (Hfrom p (list_elem_of_lookup_2 _ _ _ Ep)) as [[Hc Hsp]|(row & Hrow & Hc & Hsp)].
  - exists (frozen_eval f). split_and!; [done|left| |apply Hst; [left|]]; [|congruence]. destruct Hfr as (_ & Hfr & _). congruence.
  - apply list_elem_of_fmap in Hrow as (e & -> & He). exists e. split_and!; [done|by right|done|apply Hst; [by right|]]. cbn in Hsp. congruence.
Qed.

(** [C25] A plateau label is earned.  When the evaluator calls the candidate broad
    or narrow, the candidate's own run is among the observations, has exactly the
    frozen parameters and is stable; at least two neighbors finished; and on some
    axis three (two) neighboring points, the candidate among them, are stable
    observations: finished runs that did not lose, whose costs are at most half of
    the result (of one unit for a smaller result), and which passed their gate
    when gates are required. *)
Theorem plateau_label_earned rid frozen_parameters observations config version require trusted pin r :
  _evaluate_parameter_area decimal_of_str format_f rid frozen_parameters observations config version require trusted pin = Ok r ->
  classification r = BROAD_STABLE_PLATEAU \/ classification r = NARROW_STABLE_AREA ->
  exists f k, measure decimal_of_str format_f area_policy_1_0 frozen_parameters observations require = Ok f /\
    (observation (frozen_eval f) ∈ observations /\ parameters_equal decimal_of_str (obs_parameters (observation (frozen_eval f))) frozen_parameters = true /\
     stable_observation require (observation (frozen_eval f))) /\
    (2 <= List.length (List.filter is_complete_eval (neighbor_evals f)))%nat /\
    (classification r = BROAD_STABLE_PLATEAU -> (3 <= k)%nat) /\ (2 <= k)%nat /\ stable_run require f k.
Proof.
  intros (_ & _ & _ & f & reason & Hm & Hc)%evaluation_ok Hl. pose proof (measure_ok _ _ _ _ Hm) as M. pose proof M as [Hfr Hev Hst Hax Hr (Hps & Hfs & Hn)].
  destruct (labels_facts (facts f)) as (l & reason' & Hc' & HB & HN). rewrite Hc in Hc'. injection Hc' as <- <-.
  assert (Hsup : supported (facts f) = true) by (destruct Hl as [Hl|Hl]; [apply HB, Hl|apply HN, Hl]).
  unfold supported in Hsup. rewrite !andb_true_iff, Z.leb_le, Nat.leb_le in Hsup. destruct Hsup as ((((S1 & S2) & S3) & S4) & S5).
  exists f, (plateau_size (facts f)). split_and!; [done|apply Hfr|apply Hfr| |lia| |done|by apply (plateau_run frozen_parameters observations)].
  - rewrite Forall_forall in Hst. apply Hst; [left|]. congruence.
  - intros HBr. apply HB in HBr as [_ HBr]. unfold broad in HBr. rewrite !andb_true_iff, Nat.leb_le in HBr. tauto.
Qed.
End AreaProofs.

(** ** Trust *)

Lemma rstrip_idem s : rstrip (rstrip s) = rstrip s.
Proof.
  induction s as [|c s IH]; [done|]. cbn [rstrip]. destruct (rstrip s) as [|d u]; [destruct (is_space c) eqn:E; cbn; by rewrite ?E|].
  cbn [rstrip] in *. by rewrite IH.
Qed.

Lemma lstrip_solid s : lstrip s = "" \/ exists c t, lstrip s = String c t /\ is_space c = false.
Proof. induction s as [|c s IH]; [by left|]. cbn. destruct (is_space c) eqn:E; [done|]. right. by exists c, s. Qed.

Lemma strip_idem s : strip (strip s) = strip s.
Proof.
  unfold strip. destruct (lstrip_solid s) as [->|(c & t & -> & Hc)]; [done|].
  assert (Hl : lstrip (rstrip (String c t)) = rstrip (String c t)) by (cbn [rstrip]; destruct (rstrip t); rewrite ?Hc; cbn; by rewrite Hc).
  by rewrite Hl, rstrip_idem.
Qed.

Section Trust.
Context (decimal_of_str : string -> option decimal) (int_of_str : string -> option Z) (format_f str_ : decimal -> string).
Context (loads : string -> res jvalue) (str_of : jvalue -> string) (int_of : jvalue -> res Z).

(** A run was read: its entry was shown and, when the entry is complete, its
    files are those that were registered. *)
Definition run_read (w : world) (run : string) : Prop :=
  exists entry, show (fs w) run true (runs w) = Ok entry /\
    (status entry = "complete" -> entry_checksums entry <> ∅ /\ verify_checksums_against (run_dir (fs w) (artifact_path entry)) (entry_checksums entry) = Ok tt).

Lemma sealed_object_read w run name o : sealed_object loads w run name = Ok o -> run_read w run.
Proof. intros (entry & He & _)%bind_ok. exists entry. split; [done|]. intros Hst. by eapply show_verified. Qed.

Lemma observe_child_read w rows c obs :
  observe_child decimal_of_str format_f loads str_of w rows (VObj c) = Ok obs -> text_or_empty str_of (dget "status" c) = "complete" ->
  run_read w (str_of (dget "run_id" c)).
Proof.
  cbn [observe_child]. intros (meta & _ & H)%bind_ok Hs. rewrite bool_decide_eq_true_2 in H by done. apply bind_ok in H as (_ & _ & H).
  apply bind_ok in H as (metrics & Hm & _). by apply sealed_object_read in Hm.
Qed.

(** Trust needs a pin.  Called directly the evaluator never marks evidence as
    trusted.  Through a manifest it does so only when the digest of the bytes it
    read is the pinned one, and every run it counted, the base run and each
    complete child, was shown by the registry, with its files verified whenever
    its entry is complete. *)
Theorem trust_is_pinned w rid pin version require :
  (forall frozen observations config r,
     evaluate_parameter_area decimal_of_str format_f rid frozen observations config version require = Ok r -> evidence_trusted r = false) /\
  (forall r,
     evaluate_parameter_area_from_robustness decimal_of_str int_of_str format_f str_ loads str_of int_of w rid pin version require = Ok r ->
     exists bytes manifest, robustness_manifests w !! rid = Some bytes /\ loads bytes = Ok (VObj manifest) /\
       strip pin = Sha256.hexdigest bytes /\ trusted_manifest r = Some (Sha256.hexdigest bytes) /\
       run_read w (str_of (dget "base_run_id" manifest)) /\
       forall children c, iterated (dget "children" manifest) = Ok children -> VObj c ∈ children ->
         text_or_empty str_of (dget "status" c) = "complete" -> run_read w (str_of (dget "run_id" c))).
Proof.
  split; [by intros frozen observations config r (_ & H & _)%evaluation_ok|]. intros r. unfold evaluate_parameter_area_from_robustness.
  intros ([] & Hp%ensure_ok & (d & Hs & (text & Ht%or_raise_ok & (manifest & Hm & (_ & _ & (frozen & Hf & H)%bind_ok)%bind_ok)%bind_ok)%bind_ok)%bind_ok)%bind_ok.
  apply bind_ok in H as ([observations config] & Hobs & H). apply evaluation_ok in H as (_ & _ & Hpin & _).
  assert (Hseal : verify_robustness_manifest_seal w rid (Some (strip pin)) = Ok d) by (revert Hs; unfold seal_error; destruct (verify_robustness_manifest_seal _ _ _) as [|[]]; congruence).
  assert (Hd : strip pin = Sha256.hexdigest text).
  { revert Hseal. unfold verify_robustness_manifest_seal. rewrite Ht. change (default "" (Some (strip pin))) with (strip pin). cbn zeta. rewrite strip_idem. unfold present in Hp. apply negb_true_iff in Hp. rewrite Hp. clear Hp.
    case_bool_decide as E; [done|]. by intros _. }
  exists text, manifest. split_and!; [done| |done|by rewrite Hpin, Hd| |].
  - revert Hm. unfold load_object. intros (v & -> & Hv)%bind_ok. by destruct v; try done; injection Hv as ->.
  - revert Hf. unfold _load_frozen_parameters_from_base_run. intros (e & He & _)%bind_ok. by apply sealed_object_read in He.
  - intros children c Hc Hin Hst. revert Hobs. unfold observations_from_sealed_manifest. intros (_ & _ & H1)%bind_ok. apply bind_ok in H1 as (cfg & _ & H1).
    apply bind_ok in H1 as (ints & _ & H1). apply bind_ok in H1 as (decs & _ & H1). apply bind_ok in H1 as (rows & _ & H1). rewrite Hc in H1. cbn [mbind res_bind] in H1.
    apply bind_ok in H1 as (obs & He & _). clear -He Hin Hst. revert obs He. induction children as [|x l IH]; intros obs; [by apply elem_of_nil in Hin|].
    cbn [each]. intros (y & Hy & (ys & Hys & _)%bind_ok)%bind_ok. apply elem_of_cons in Hin as [<-|Hin]; [by apply (observe_child_read _ _ _ _ Hy)|by apply (IH Hin _ Hys)].
Qed.
End Trust.

(** ** The artifact on disk *)

Lemma first_word_hex s rest : all_chars hex_char s = true -> first_word (s ++ String (Ascii.ascii_of_nat 32) rest) = s.
Proof.
  induction s as [|c s IH]; intros H; [done|]. apply andb_true_iff in H as [Hc H]. apply negb_true_iff in Hc. rewrite string_app_cons. cbn [first_word].
  by rewrite Hc, IH.
Qed.

Lemma digest_hex text : all_chars hex_char (Sha256.hexdigest text) = true.
Proof. unfold Sha256.hexdigest, Sha256.state_text. rewrite !all_chars_app. by rewrite !hex_text_chars. Qed.

(** A written artifact can be verified: the seal is the digest of the canonical
    text, verification returns it, what is read back determines the artifact's
    text, and a second write is refused. *)
Theorem area_artifact_sealed dir a dir' :
  write_parameter_area_artifact dir a = Ok dir' ->
  dir !! PARAMETER_AREA_FILENAME = None /\ dir' !! PARAMETER_AREA_FILENAME = Some (canonical_json a) /\
  verify_parameter_area_seal dir' = Ok (content_digest a) /\
  forall b, write_parameter_area_artifact dir' b = Raise (ParameterAreaError "refusing to overwrite existing parameter area artifact").
Proof.
  unfold write_parameter_area_artifact, verify_parameter_area_seal. destruct (dir !! PARAMETER_AREA_FILENAME) eqn:E; [done|]. intros [= <-].
  rewrite !(lookup_insert_ne _ seal_name PARAMETER_AREA_FILENAME) by done. rewrite !lookup_insert. rewrite !decide_True by done. split_and!; [done..| |done].
  assert (Hs : split_first (Sha256.hexdigest (canonical_json a) ++ "  " ++ PARAMETER_AREA_FILENAME ++ String (Ascii.ascii_of_nat 10) "") =
    Ok (Sha256.hexdigest (canonical_json a))).
  { unfold split_first. pose proof (digest_hex (canonical_json a)) as Hh. pose proof (digest_present (canonical_json a)) as Hp.
    set (d := Sha256.hexdigest (canonical_json a)) in *. clearbody d. destruct d as [|c d]; [done|]. cbn [all_chars] in Hh.
    apply andb_true_iff in Hh as [Hc Hd]. pose proof Hc as Hc'. apply negb_true_iff in Hc'. rewrite string_app_cons. cbn [lstrip]. rewrite Hc'. f_equal.
    rewrite <- string_app_cons. apply (first_word_hex (String c d)). cbn [all_chars]. by rewrite Hc. }
  rewrite Hs. cbn [mbind res_bind]. rewrite bool_decide_eq_false_2 by tauto. done.
Qed.

Lemma area_artifact_sealed_witness :
  exists dir', write_parameter_area_artifact ∅ (VObj [("schema_version", VStr "1.0")]) = Ok dir' /\
    verify_parameter_area_seal dir' = Ok (content_digest (VObj [("schema_version", VStr "1.0")])).
Proof.
  eexists. split; [reflexivity|]. refine (proj1 (proj2 (proj2 (area_artifact_sealed ∅ (VObj [("schema_version", VStr "1.0")]) _ _)))). reflexivity.
Defined.

(** ** A sample neighborhood *)

Definition sample_area_files : gmap string string := {["experiment.json" := "ex"; "metrics.json" := "me"]}.

Definition sample_area_entry (files : gmap string string) : RegistryEntry :=
  {| experiment_id := "exp"; run_id := "run"; attempt_id := "a"; status := "complete"; strategy_version := "1.0"; dataset_version := "d";
     cost_model_version := "1.0"; benchmark_ref := "b"; created_at := "t"; artifact_path := "runs/1"; entry_checksums := compute_artifact_checksums files |}.

(** The run was registered with the files [registered] and then perhaps
    invalidated. *)
Definition sample_area_world (registered : gmap string string) (invalidated : bool) : world :=
  {| fs := {["runs/1" := sample_area_files]};
     runs := {| log := [Entry (sample_area_entry registered)];
                sidecars := if invalidated then {["run" := SidecarText [SidecarObject "invalidated" "run"]]} else ∅ |};
     robustness_jobs := ∅; robustness_manifests := {["rob" := "ma"]}; robustness_seals := ∅; catalog := []; git_head := None; commit_pins := [] |}.

Definition sample_child (id : string) : jvalue := VObj [("child_id", VStr id); ("status", VStr "complete"); ("run_id", VStr "run")].

Definition sample_area_loads (text : string) : res jvalue :=
  if bool_decide (text = "ma") then
    Ok (VObj [("test_type", VStr "parameter_stability"); ("robustness_id", VStr "rob"); ("base_run_id", VStr "run"); ("config", VObj []);
              ("children", VArr (sample_child <$> ["frozen"; "neighbor_01"; "neighbor_02"]))])
  else if bool_decide (text = "ex") then Ok (VObj [("parameters", VObj [("breakout_lookback", VInt 20)])])
  else if bool_decide (text = "me") then Ok (VObj [("net_pnl", VStr "10"); ("fees", VStr "1")])
  else Raise (ValueError "not JSON").

Definition sample_area_text (v : jvalue) : string := match v with VStr s => s | v => json_text v end.
Definition sample_area_int (v : jvalue) : res Z := match v with VInt z => Ok z | _ => Raise TypeError end.
Definition whole_text (q : decimal) : string := int_text (trunc q).

Definition sample_area (w : world) : res ParameterAreaResult :=
  evaluate_parameter_area_from_robustness sample_decimal (fun _ => None) whole_text whole_text sample_area_loads sample_area_text sample_area_int w "rob"
    (Sha256.hexdigest "ma") "1.0" false.

(** The registry verifies complete entries only, and the evaluator does not ask
    whether an entry still is: the metrics of a run that was invalidated, and
    whose files are no longer those that were registered, are counted and the
    plateau found in them is marked as trusted evidence. *)
Theorem invalidated_evidence_trusted :
  exists w r entry, sample_area w = Ok r /\ evidence_trusted r = true /\ classification r = BROAD_STABLE_PLATEAU /\
    show (fs w) "run" true (runs w) = Ok entry /\ status entry = "invalidated" /\
    verify_checksums_against (run_dir (fs w) (artifact_path entry)) (entry_checksums entry) <> Ok tt.
Proof.
  set (w := sample_area_world {["experiment.json" := "ex"; "metrics.json" := "sealed"]} true).
  assert (Hr : match sample_area w with
    | Ok r => evidence_trusted r && bool_decide (classification r = BROAD_STABLE_PLATEAU)
    | Raise _ => false end = true) by (vm_compute; reflexivity).
  assert (He : match show (fs w) "run" true (runs w) with
    | Ok entry => bool_decide (status entry = "invalidated") &&
        match verify_checksums_against (run_dir (fs w) (artifact_path entry)) (entry_checksums entry) with Ok _ => false | Raise _ => true end
    | Raise _ => false end = true) by (vm_compute; reflexivity).
  destruct (sample_area w) as [r|] eqn:Er; [|discriminate Hr]. destruct (show (fs w) "run" true (runs w)) as [entry|] eqn:Ee; [|discriminate He].
  apply andb_true_iff in Hr as [Ht Hl%bool_decide_eq_true]. apply andb_true_iff in He as [Hs%bool_decide_eq_true Hv]. exists w, r, entry.
  split_and!; [exact Er|exact Ht|exact Hl|exact Ee|exact Hs|]. intros E. rewrite E in Hv. discriminate Hv.
Qed.

Lemma plateau_label_earned_witness :
  exists frozen observations r,
    evaluate_parameter_area sample_decimal whole_text "rob" frozen observations [] "1.0" true = Ok r /\ classification r = BROAD_STABLE_PLATEAU /\
    exists f, measure sample_decimal whole_text area_policy_1_0 frozen observations true = Ok f /\ (2 <= List.length (List.filter is_complete_eval (neighbor_evals f)))%nat.
Proof.
  set (frozen := [("breakout_lookback", PInt 20)]).
  set (obs := fun id n => {| obs_child_id := id; label := id; obs_parameters := [("breakout_lookback", PInt n)]; obs_status := "complete";
    obs_net_pnl := Some "10"; obs_total_costs := Some "1"; obs_gate_pass := Some true |}).
  set (observations := [obs "frozen" 20%Z; obs "neighbor_01" 18%Z; obs "neighbor_02" 22%Z]). exists frozen, observations.
  assert (Hr : match evaluate_parameter_area sample_decimal whole_text "rob" frozen observations [] "1.0" true with
    | Ok r => bool_decide (classification r = BROAD_STABLE_PLATEAU) | Raise _ => false end = true) by (vm_compute; reflexivity).
  destruct (evaluate_parameter_area _ _ _ _ _ _ _ _) as [r|] eqn:Er; [|discriminate Hr]. exists r. apply bool_decide_eq_true in Hr.
  destruct (plateau_label_earned _ _ _ _ _ _ _ _ _ _ _ Er (or_introl Hr)) as (f & k & Hm & _ & Hn & _). split; [reflexivity|]. split; [exact Hr|].
  exists f. split; [exact Hm|exact Hn].
Defined.

Lemma trust_is_pinned_witness :
  exists w r, sample_area w = Ok r /\ trusted_manifest r = Some (Sha256.hexdigest "ma").
Proof.
  set (w := sample_area_world sample_area_files false). exists w.
  assert (Hr : match sample_area w with Ok _ => true | Raise _ => false end = true) by (vm_compute; reflexivity).
  destruct (sample_area w) as [r|] eqn:Er; [|discriminate Hr]. exists r. split; [reflexivity|].
  destruct (trust_is_pinned sample_decimal (fun _ => None) whole_text whole_text sample_area_loads sample_area_text sample_area_int w "rob"
    (Sha256.hexdigest "ma") "1.0" false) as [_ Ht]. destruct (Ht r Er) as (bytes & manifest & Hb & _ & _ & Hm & _).
  assert (E : bytes = "ma"). { assert (Some bytes = Some "ma") by (rewrite <- Hb; reflexivity). congruence. } subst bytes. exact Hm.
Defined.
