(* ===== verification/ContentHash.v ===== *)
(** * Content hashes of datasets (services/market_data/content_hash.py)

    A dataset is identified by the SHA-256 of the canonical text of its candles,
    sorted by symbol, timeframe and open time.  A decimal is written without
    exponent after [normalize], which rounds it to the digits of the context; a
    time with its microseconds.  Negative zero, which rationals do not have, is
    not told from zero; years have four digits. *)
From Stdlib Require Import ZArith QArith Lia Znumtheory DecimalString Strings.Ascii Strings.String Permutation Sorting.Sorted.
From Stdlib Require QArith.Qcanon.
From stdpp Require Import base list strings sorting.
From S2P Require Import Prelude Decimal StrategyModels BtData Timeframes MarketModels MarketValidation CanonicalJson.

Local Open Scope string_scope.

Definition HASH_ALGORITHM : string := "sha256".

Definition EXCLUDED_FROM_CONTENT_HASH : list string :=
  ["created_at"; "import_job_id"; "dataset_id"; "content_hash"; "raw_content_hash"; "quality_status"; "known_issues"; "allow_quality_warnings"; "quality_report"].

(** ** Texts *)

(** The first [k] for which [den] divides [10 ^ k]. *)
Fixpoint places (fuel k : nat) (den : Z) : nat :=
  match fuel with
  | O => k
  | S fuel => if (10 ^ Z.of_nat k mod den =? 0)%Z then k else places fuel (S k) den
  end.

Definition denominator (x : Q) : Z := Zpos (Qden (Qred x)).

(** A decimal has no more places than its denominator has binary digits. *)
Definition places_of (x : Q) : nat := places (S (Z.to_nat (Z.log2 (denominator x)))) 0 (denominator x).

Definition scaled (x : Q) : Z := (Qnum (Qred x) * (10 ^ Z.of_nat (places_of x) / denominator x))%Z.

(** [format(x, "f")] of a normalized decimal. *)
Definition decimal_text (x : Q) : string :=
  let k := places_of x in
  let n := scaled x in
  let p := (10 ^ Z.of_nat k)%Z in
  (if (n <? 0)%Z then "-" else "") ++ int_text (Z.abs n / p) ++ match k with O => "" | _ => "." ++ pad_digits k (Z.abs n mod p) end.

Definition canonical_decimal (value : decimal) : string := decimal_text (rnd value).

(** [strftime("%Y-%m-%dT%H:%M:%S.%fZ")]. *)
Definition canonical_timestamp (t : datetime) : string :=
  let s := (t / 1000000)%Z in
  let '(y, m, d) := civil_from_days (s / 86400) in
  let tod := (s mod 86400)%Z in
  pad_digits 4 y ++ "-" ++ pad_digits 2 m ++ "-" ++ pad_digits 2 d ++ "T" ++
  pad_digits 2 (tod / 3600) ++ ":" ++ pad_digits 2 (tod / 60 mod 60) ++ ":" ++ pad_digits 2 (tod mod 60) ++ "." ++ pad_digits 6 (t mod 1000000) ++ "Z".

Example canonical_texts :
  canonical_decimal <$> [12340 # 100; -5 # 10; 0; 1000000; 1 # 1000]%Q = ["123.4"; "-0.5"; "0"; "1000000"; "0.001"] /\
  canonical_timestamp (seconds 1700000000 + 42)%Z = "2023-11-14T22:13:20.000042Z".
Proof. split; vm_compute; reflexivity. Qed.

(** ** Rows *)

Definition timeframe_value (tf : Timeframe) : string := match tf with DAILY => "1D" | WEEKLY => "1W" | MONTHLY => "1M" end.

Record candle_row := {
  row_symbol : string;
  row_timeframe : string;
  row_open_time : string;
  row_close_time : string;
  row_open : string;
  row_high : string;
  row_low : string;
  row_close : string;
  row_volume : string;
  row_is_closed : string
}.

Definition canonical_candle_row (c : NormalizedCandle) : candle_row :=
  {| row_symbol := symbol_value (nc_symbol c); row_timeframe := timeframe_value (nc_timeframe c);
     row_open_time := canonical_timestamp (nc_open_time c); row_close_time := canonical_timestamp (nc_close_time c);
     row_open := canonical_decimal (nc_open c); row_high := canonical_decimal (nc_high c); row_low := canonical_decimal (nc_low c);
     row_close := canonical_decimal (nc_close c); row_volume := canonical_decimal (nc_volume c);
     row_is_closed := if nc_is_closed c then "true" else "false" |}.

Definition row_to_dict (r : candle_row) : jvalue :=
  VObj [("symbol", VStr (row_symbol r)); ("timeframe", VStr (row_timeframe r)); ("open_time", VStr (row_open_time r)); ("close_time", VStr (row_close_time r));
        ("open", VStr (row_open r)); ("high", VStr (row_high r)); ("low", VStr (row_low r)); ("close", VStr (row_close r)); ("volume", VStr (row_volume r));
        ("is_closed", VStr (row_is_closed r))].

(** The order of the triples [(symbol, timeframe, open_time)]. *)
Definition row_le (a b : candle_row) : Prop :=
  (row_symbol a <> row_symbol b /\ String.le (row_symbol a) (row_symbol b)) \/
  (row_symbol a = row_symbol b /\
   ((row_timeframe a <> row_timeframe b /\ String.le (row_timeframe a) (row_timeframe b)) \/
    (row_timeframe a = row_timeframe b /\ String.le (row_open_time a) (row_open_time b)))).
#[export] Instance row_le_dec (a b : candle_row) : Decision (row_le a b).
Proof. unfold row_le. apply _. Defined.

Definition sort_candle_rows (rows : list candle_row) : list candle_row := merge_sort row_le rows.

Definition rows_payload (candles : list NormalizedCandle) : jvalue :=
  VArr (row_to_dict <$> sort_candle_rows (canonical_candle_row <$> candles)).

(** ** Hashes *)

Definition hash_normalized_candles (candles : list NormalizedCandle) : string := Sha256.hexdigest (canonical_json (rows_payload candles)).

Definition hash_raw_bytes (payload : string) : string := Sha256.hexdigest payload.

Definition hash_aggregate_candles (candles : list NormalizedCandle) : string := hash_normalized_candles candles.

Definition derive_dataset_id (content_hash schema_version source : string) : string :=
  substring 0 32 (Sha256.hexdigest (schema_version ++ ":" ++ source ++ ":" ++ content_hash)).

Definition strip_hash_metadata (manifest_dict : list (string * jvalue)) : list (string * jvalue) :=
  List.filter (fun '(k, _) => negb (bool_decide (k ∈ EXCLUDED_FROM_CONTENT_HASH))) manifest_dict.

(** ** The text of a decimal determines it *)

Local Open Scope Z_scope.

Lemma divides_power_gcd den j : 0 < den -> den <> 1 -> (den | 10 ^ Z.of_nat j) -> 2 <= Z.gcd den 10.
Proof.
  intros Hd H1 Hj. pose proof (Z.gcd_nonneg den 10). destruct (decide (Z.gcd den 10 = 0)) as [E|]; [apply Z.gcd_eq_0_r in E; lia|].
  destruct (decide (Z.gcd den 10 = 1)) as [E|]; [|lia]. exfalso. apply H1. apply Zgcd_1_rel_prime in E.
  assert (Hp : forall i : nat, rel_prime den (10 ^ Z.of_nat i)).
  { intros i. induction i as [|i IH]; [apply rel_prime_sym, rel_prime_1|]. rewrite Nat2Z.inj_succ, Z.pow_succ_r by lia. by apply rel_prime_mult. }
  specialize (Hp j). apply Zgcd_1_rel_prime in Hp. apply Z.divide_gcd_iff in Hj; [|lia]. congruence.
Qed.

Lemma smooth_divides f : forall den j, 0 < den -> den < 2 ^ Z.of_nat (S f) -> (den | 10 ^ Z.of_nat j) -> (den | 10 ^ Z.of_nat f).
Proof.
  induction f as [|f IH]; intros den j Hd Hlt Hj. { replace den with 1 by (cbn in Hlt; lia). apply Z.divide_1_l. }
  destruct (decide (den = 1)) as [->|H1]; [apply Z.divide_1_l|]. pose proof (divides_power_gcd den j Hd H1 Hj) as Hg.
  destruct (Z.gcd_divide_l den 10) as [d Hdd], (Z.gcd_divide_r den 10) as [a Ha]. set (g := Z.gcd den 10) in *. assert (0 < d) by nia.
  rewrite (Nat2Z.inj_succ (S f)), Z.pow_succ_r in Hlt by lia. destruct (IH d j) as [b Hb]; [done|nia| |].
  - transitivity den; [|done]. exists g. lia.
  - exists (a * b). rewrite Nat2Z.inj_succ, Z.pow_succ_r, Hb, Hdd by lia. rewrite Ha at 1. ring.
Qed.

Lemma places_first fuel : forall k den, 0 < den ->
  (exists i, (k <= i < k + fuel)%nat /\ (den | 10 ^ Z.of_nat i)) -> (den | 10 ^ Z.of_nat (places fuel k den)).
Proof.
  induction fuel as [|fuel IH]; intros k den Hd (i & Hi & Hdiv); [lia|]. cbn [places]. destruct (Z.eqb_spec (10 ^ Z.of_nat k mod den) 0) as [E|E].
  - by apply Z.mod_divide; [lia|].
  - apply IH; [done|]. exists i. split; [|done]. destruct (decide (i = k)) as [->|]; [|lia]. apply Z.mod_divide in Hdiv; [|lia]. done.
Qed.

Lemma representable_denominator x : representable x -> exists j, (denominator x | 10 ^ Z.of_nat j).
Proof.
  intros (m & e & Hx & _). unfold denominator. rewrite <- (Qred_correct x) in Hx. pose proof (Qred_complete _ _ (Qred_correct x)) as Hred.
  destruct (Qred x) as [n d]. apply Qcanon.Qred_iff in Hred. cbn [Qden Qnum] in *. destruct (Z_le_gt_dec 0 e) as [He|He].
  - exists 0%nat. rewrite p10_nonneg_Z, <- inject_Z_mult in Hx by lia. unfold Qeq in Hx. cbn in Hx.
    assert (Hdn : (Z.pos d | n)) by (exists (m * 10 ^ e); lia). apply Z.divide_gcd_iff in Hdn; [|lia]. rewrite Z.gcd_comm in Hdn. rewrite Hdn in Hred.
    rewrite Hred. apply Z.divide_1_l.
  - exists (Z.to_nat (- e)). rewrite Z2Nat.id by lia.
    assert (Hxm : (n # d) * inject_Z (10 ^ (- e)) == inject_Z m).
    { rewrite Hx, <- p10_nonneg_Z by lia. rewrite <- Qmult_assoc, <- p10_add. replace (e + - e) with 0 by lia. change (p10 0) with 1%Q. ring. }
    unfold Qeq in Hxm. cbn in Hxm. rewrite Z.gcd_comm in Hred.
    apply (Z.gauss _ n); [|done]. exists m. lia.
Qed.

Lemma places_divides x : representable x -> (denominator x | 10 ^ Z.of_nat (places_of x)).
Proof.
  intros [j Hj]%representable_denominator. assert (Hd : 0 < denominator x) by done. apply places_first; [done|]. set (f := Z.to_nat (Z.log2 (denominator x))).
  exists f. split; [lia|]. apply (smooth_divides f _ j); [done| |done]. rewrite Nat2Z.inj_succ. unfold f. rewrite Z2Nat.id by apply Z.log2_nonneg.
  by apply Z.log2_spec.
Qed.

Lemma scaled_value x : representable x -> x == inject_Z (scaled x) / inject_Z (10 ^ Z.of_nat (places_of x)).
Proof.
  intros Hr. pose proof (places_divides x Hr) as [q Hq]. unfold scaled. pose proof (Z.pow_pos_nonneg 10 (Z.of_nat (places_of x)) ltac:(lia) ltac:(lia)) as Hp.
  rewrite Hq in Hp |- *. assert (Hd : 0 < denominator x) by done. rewrite Z.div_mul by lia. rewrite <- (Qred_correct x) at 1. unfold denominator in *.
  destruct (Qred x) as [n d]. cbn [Qnum Qden] in *. rewrite !inject_Z_mult. assert (0 < q) by nia.
  rewrite (Qmake_Qdiv n d). field. split; intros E; unfold Qeq in E; cbn in E; lia.
Qed.

Lemma int_text_digit z r : 0 <= z -> int_text z <> String "-" r.
Proof.
  intros Hz E. assert (Hi : NilEmpty.int_of_string (int_text z) = Some (Z.to_int z)) by apply NilEmpty.isi. rewrite E in Hi.
  destruct z as [|p|p]; [|unfold Z.to_int in Hi|lia]; cbn in Hi; destruct (NilEmpty.uint_of_string r); cbn in Hi; discriminate Hi.
Qed.

Lemma fraction_delimited k n : delimited (match k with O => ""%string | _ => ("." ++ pad_digits k n)%string end) = true.
Proof. by destruct k. Qed.

Lemma decimal_text_inj x y : representable x -> representable y -> decimal_text x = decimal_text y -> x == y.
Proof.
  intros Hx Hy H. transitivity (inject_Z (scaled x) / inject_Z (10 ^ Z.of_nat (places_of x)))%Q; [by apply scaled_value|].
  transitivity (inject_Z (scaled y) / inject_Z (10 ^ Z.of_nat (places_of y)))%Q; [|symmetry; by apply scaled_value]. revert H. unfold decimal_text.
  pose proof (Z.pow_pos_nonneg 10 (Z.of_nat (places_of x)) ltac:(lia) ltac:(lia)) as Hp.
  pose proof (Z.pow_pos_nonneg 10 (Z.of_nat (places_of y)) ltac:(lia) ltac:(lia)) as Hq.
  generalize dependent (places_of y). generalize dependent (places_of x). generalize (scaled x) (scaled y). clear Hx Hy. intros n m k Hp l Hq H.
  assert (Hn : 0 <= Z.abs n / 10 ^ Z.of_nat k) by (apply Z.div_pos; lia). assert (Hm : 0 <= Z.abs m / 10 ^ Z.of_nat l) by (apply Z.div_pos; lia).
  assert (Hs : (n <? 0) = (m <? 0) /\ (int_text (Z.abs n / 10 ^ Z.of_nat k) ++ match k with O => "" | _ => "." ++ pad_digits k (Z.abs n mod 10 ^ Z.of_nat k) end =
    int_text (Z.abs m / 10 ^ Z.of_nat l) ++ match l with O => "" | _ => "." ++ pad_digits l (Z.abs m mod 10 ^ Z.of_nat l) end)%string).
  { destruct (int_text_head (Z.abs n / 10 ^ Z.of_nat k)) as (c & s & En & _), (int_text_head (Z.abs m / 10 ^ Z.of_nat l)) as (c' & s' & Em & _).
    destruct (n <? 0), (m <? 0); [|exfalso..|]; rewrite ?string_app_empty in H.
    - split; [done|]. rewrite !string_app_cons, !string_app_empty in H. by injection H.
    - rewrite Em, string_app_cons in H. injection H as <- _. by apply (int_text_digit _ _ Hm Em).
    - rewrite En, string_app_cons in H. injection H as -> _. by apply (int_text_digit _ _ Hn En).
    - by split. }
  clear H. destruct Hs as [Hsign H]. apply int_text_inj in H as [Hint Hfr]; [|apply fraction_delimited..].
  pose proof (Z.div_mod (Z.abs n) (10 ^ Z.of_nat k) ltac:(lia)) as Dn. pose proof (Z.div_mod (Z.abs m) (10 ^ Z.of_nat l) ltac:(lia)) as Dm.
  pose proof (Z.mod_pos_bound (Z.abs n) (10 ^ Z.of_nat k) Hp) as Bn. pose proof (Z.mod_pos_bound (Z.abs m) (10 ^ Z.of_nat l) Hq) as Bm.
  assert (E : k = l /\ Z.abs n = Z.abs m).
  { destruct k as [|k], l as [|l]; try discriminate Hfr.
    - split; [done|]. cbn [Z.of_nat] in *. rewrite Z.pow_0_r in *. lia.
    - apply (inj (String.append ".")) in Hfr. pose proof (f_equal String.length Hfr) as Hl. rewrite !pad_digits_length in Hl. injection Hl as ->.
      apply pad_digits_inj in Hfr; [|lia..]. split; [done|]. nia. }
  destruct E as [-> E]. replace m with n; [reflexivity|]. lia.
Qed.

(** ** The texts of a candle determine it *)

Lemma canonical_timestamp_inj t t' : printable t -> printable t' -> canonical_timestamp t = canonical_timestamp t' -> t = t'.
Proof.
  intros Hp Hp' H. assert (Hs : strftime_utc t = strftime_utc t' /\ t mod 1000000 = t' mod 1000000).
  { revert H. unfold canonical_timestamp, strftime_utc. destruct (civil_from_days (t / 1000000 / 86400)) as [[y m] d].
    destruct (civil_from_days (t' / 1000000 / 86400)) as [[y' m'] d']. intros H.
    pose proof (Z.mod_pos_bound t 1000000 ltac:(lia)). pose proof (Z.mod_pos_bound t' 1000000 ltac:(lia)).
    repeat match goal with H : (pad_digits _ _ ++ _)%string = _ |- _ => apply append_inv in H as [? H]; [|by rewrite !pad_digits_length]
           | H : (_ ++ _)%string = _ |- _ => apply (inj (String.append _)) in H end.
    split; [congruence|]. by match goal with H : pad_digits 6 _ = _ |- _ => apply pad_digits_inj in H end. }
  destruct Hs as [Hs Hm]. apply strftime_utc_inj in Hs; [|done..]. rewrite (Z.div_mod t 1000000), (Z.div_mod t' 1000000) by lia. congruence.
Qed.

(** Times and decimals the texts print in full. *)
Definition plain_candle (c : NormalizedCandle) : Prop :=
  printable (nc_open_time c) /\ printable (nc_close_time c) /\ representable (nc_open c) /\ representable (nc_high c) /\ representable (nc_low c) /\
  representable (nc_close c) /\ representable (nc_volume c).

Lemma canonical_decimal_inj x y : representable x -> representable y -> canonical_decimal x = canonical_decimal y -> deqb x y = true.
Proof.
  intros Hx Hy H. apply decimal_text_inj in H; [|apply representable_rnd..]. apply deqb_eq. by rewrite <- (rnd_representable x Hx), <- (rnd_representable y Hy).
Qed.

Lemma row_inj c d : plain_candle c -> plain_candle d -> canonical_candle_row c = canonical_candle_row d -> candles_equal c d = true.
Proof.
  intros (C1 & C2 & C3 & C4 & C5 & C6 & C7) (D1 & D2 & D3 & D4 & D5 & D6 & D7) H. unfold candles_equal.
  rewrite !andb_true_iff, !bool_decide_eq_true, !Z.eqb_eq, eqb_true_iff. split_and!.
  - assert (E : symbol_value (nc_symbol c) = symbol_value (nc_symbol d)) by exact (f_equal row_symbol H). by destruct (nc_symbol c), (nc_symbol d).
  - assert (E : timeframe_value (nc_timeframe c) = timeframe_value (nc_timeframe d)) by exact (f_equal row_timeframe H).
    by destruct (nc_timeframe c), (nc_timeframe d).
  - exact (canonical_timestamp_inj _ _ C1 D1 (f_equal row_open_time H)).
  - exact (canonical_timestamp_inj _ _ C2 D2 (f_equal row_close_time H)).
  - exact (canonical_decimal_inj _ _ C3 D3 (f_equal row_open H)).
  - exact (canonical_decimal_inj _ _ C4 D4 (f_equal row_high H)).
  - exact (canonical_decimal_inj _ _ C5 D5 (f_equal row_low H)).
  - exact (canonical_decimal_inj _ _ C6 D6 (f_equal row_close H)).
  - exact (canonical_decimal_inj _ _ C7 D7 (f_equal row_volume H)).
  - assert (E : (if nc_is_closed c then "true" else "false") = (if nc_is_closed d then "true" else "false")) by exact (f_equal row_is_closed H).
    by destruct (nc_is_closed c), (nc_is_closed d).
Qed.

#[export] Instance row_le_total : Total row_le.
Proof.
  intros a b. unfold row_le. destruct (decide (row_symbol a = row_symbol b)) as [Es|Ns].
  - destruct (decide (row_timeframe a = row_timeframe b)) as [Et|Nt].
    + destruct (total String.le (row_open_time a) (row_open_time b)); naive_solver.
    + destruct (total String.le (row_timeframe a) (row_timeframe b)); naive_solver.
  - destruct (total String.le (row_symbol a) (row_symbol b)); naive_solver.
Qed.

Lemma text_le_strict (a b c : string) : a <> b -> String.le a b -> String.le b c -> a <> c /\ String.le a c.
Proof. intros Hn H1 H2. split; [|by transitivity b]. intros ->. apply Hn. by apply (anti_symm String.le). Qed.

#[export] Instance row_le_trans : Transitive row_le.
Proof.
  intros a b c [[N1 L1]|[E1 H1]] [[N2 L2]|[E2 H2]].
  - left. by apply (text_le_strict _ (row_symbol b)).
  - left. rewrite <- E2. by split.
  - left. rewrite E1. by split.
  - right. split; [congruence|]. destruct H1 as [[N1 L1]|[F1 G1]], H2 as [[N2 L2]|[F2 G2]].
    + left. by apply (text_le_strict _ (row_timeframe b)).
    + left. rewrite <- F2. by split.
    + left. rewrite F1. by split.
    + right. split; [congruence|]. by transitivity (row_open_time b).
Qed.

Definition row_key (r : candle_row) : string * string * string := (row_symbol r, row_timeframe r, row_open_time r).

Lemma row_le_key a b : row_le a b -> row_le b a -> row_key a = row_key b.
Proof.
  intros [[N1 L1]|[E1 H1]] [[N2 L2]|[E2 H2]]; try congruence; [destruct N1; by apply (anti_symm String.le)|].
  destruct H1 as [[N1 L1]|[F1 G1]], H2 as [[N2 L2]|[F2 G2]]; try congruence; [destruct N1; by apply (anti_symm String.le)|].
  unfold row_key. rewrite E1, F1. f_equal. by apply (anti_symm String.le).
Qed.

Lemma row_key_of c d : printable (nc_open_time c) -> printable (nc_open_time d) ->
  row_key (canonical_candle_row c) = row_key (canonical_candle_row d) -> nc_key c = nc_key d.
Proof.
  intros Hc Hd H. assert (E1 : symbol_value (nc_symbol c) = symbol_value (nc_symbol d)) by exact (f_equal (fun k => k.1.1) H).
  assert (E2 : timeframe_value (nc_timeframe c) = timeframe_value (nc_timeframe d)) by exact (f_equal (fun k => k.1.2) H).
  pose proof (canonical_timestamp_inj _ _ Hc Hd (f_equal snd H)) as E3. unfold nc_key. rewrite E3.
  f_equal; [by destruct (nc_symbol c), (nc_symbol d)|by destruct (nc_timeframe c), (nc_timeframe d)].
Qed.

Lemma sort_rows_unique rows rows' :
  (forall a b, a ∈ rows -> b ∈ rows -> row_key a = row_key b -> a = b) -> rows ≡ₚ rows' -> sort_candle_rows rows = sort_candle_rows rows'.
Proof.
  intros Hk Hp. unfold sort_candle_rows. apply (StronglySorted_unique_strong row_le); [|apply (StronglySorted_merge_sort row_le)..|].
  - intros a b Ha Hb Hab Hba. rewrite merge_sort_Permutation in Ha, Hb. rewrite <- Hp in Hb. apply Hk; [done|done|]. by apply row_le_key.
  - by rewrite !merge_sort_Permutation.
Qed.

Lemma row_dict_inj r s : sort_keys (row_to_dict r) = sort_keys (row_to_dict s) -> r = s.
Proof.
  intros H. assert (Hs : forall t, sort_keys (row_to_dict t) = VObj [("close", VStr (row_close t)); ("close_time", VStr (row_close_time t)); ("high", VStr (row_high t));
    ("is_closed", VStr (row_is_closed t)); ("low", VStr (row_low t)); ("open", VStr (row_open t)); ("open_time", VStr (row_open_time t));
    ("symbol", VStr (row_symbol t)); ("timeframe", VStr (row_timeframe t)); ("volume", VStr (row_volume t))]%string) by (intros t; reflexivity).
  rewrite !Hs in H. clear Hs. destruct r, s. cbn in H. by injection H as -> -> -> -> -> -> -> -> -> ->.
Qed.

Lemma payload_floatless cs : floatless (rows_payload cs) = true.
Proof. cbn. apply forallb_forall. intros x Hx. apply list_elem_of_In, list_elem_of_fmap in Hx as (r & -> & _). done. Qed.

(** The content hash identifies a dataset.  It does not depend on the order of
    candles with different keys; and two lists of candles with the same hash are
    the same candles, up to their order and the spelling of their numbers, unless
    their texts are a collision of SHA-256. *)
Theorem content_hash_identifies cs ds :
  Forall plain_candle cs -> Forall plain_candle ds ->
  (NoDup (nc_key <$> cs) -> cs ≡ₚ ds -> hash_normalized_candles cs = hash_normalized_candles ds) /\
  (hash_normalized_candles cs = hash_normalized_candles ds ->
   (exists es, es ≡ₚ ds /\ Forall2 (fun c e => candles_equal c e = true) cs es) \/
   collision (canonical_json (rows_payload cs)) (canonical_json (rows_payload ds))).
Proof.
  intros Hc Hd. split.
  - intros Hnd Hp. unfold hash_normalized_candles, rows_payload. do 4 f_equal. apply sort_rows_unique; [|by apply fmap_Permutation].
    intros a b (c & -> & Hca)%list_elem_of_fmap (d & -> & Hda)%list_elem_of_fmap Hk. rewrite Forall_forall in Hc.
    apply row_key_of in Hk; [|apply Hc; done..]. f_equal. by apply (key_row nc_key cs).
  - intros H. destruct (content_digest_inj _ _ (payload_floatless cs) (payload_floatless ds) H) as [E|E]; [left|by right].
    unfold rows_payload in E. cbn [sort_keys] in E. injection E as E. rewrite <- !list_fmap_compose in E.
    apply (list_fmap_eq_inj (sort_keys ∘ row_to_dict)) in E; [|intros r s; apply row_dict_inj].
    assert (Hp : canonical_candle_row <$> cs ≡ₚ canonical_candle_row <$> ds).
    { transitivity (sort_candle_rows (canonical_candle_row <$> cs)); [symmetry; apply merge_sort_Permutation|]. rewrite E. apply merge_sort_Permutation. }
    apply Permutation_map_inv in Hp as (es & He & Hpe). exists es. split; [by symmetry|]. rewrite Hpe in Hd. clear E H Hpe.
    revert es He Hd. induction Hc as [|c cs Hc0 Hc IH]; intros [|e es] He Hd; try discriminate He; constructor.
    + apply Forall_cons in Hd as [Hd _]. apply row_inj; [done|done|]. exact (f_equal (hd (canonical_candle_row c)) He).
    + apply Forall_cons in Hd as [_ Hd]. apply IH; [exact (f_equal tail He)|done].
Qed.

Definition sample_day (n : Z) : NormalizedCandle := example_candle DAILY (seconds (1700006400 + n * 86400)).

Lemma whole_representable z : Z.pos z <= 10 ^ prec -> representable (Z.pos z # 1)%Q.
Proof. intros H. apply (representable_Z (Z.pos z)). lia. Qed.

Lemma sample_day_plain n : printable (nc_open_time (sample_day n)) -> printable (nc_close_time (sample_day n)) -> plain_candle (sample_day n).
Proof. intros Ho Hc. unfold plain_candle. split_and!; [exact Ho|exact Hc|apply whole_representable; unfold prec; lia..]. Qed.

Lemma content_hash_identifies_witness :
  hash_normalized_candles [sample_day 0; sample_day 1] = hash_normalized_candles [sample_day 1; sample_day 0].
Proof.
  assert (H0 : plain_candle (sample_day 0)) by (apply sample_day_plain; (split; vm_compute; discriminate)).
  assert (H1 : plain_candle (sample_day 1)) by (apply sample_day_plain; (split; vm_compute; discriminate)).
  refine (proj1 (content_hash_identifies [sample_day 0; sample_day 1] [sample_day 1; sample_day 0] _ _) _ _).
  - constructor; [exact H0|constructor; [exact H1|constructor]].
  - constructor; [exact H1|constructor; [exact H0|constructor]].
  - apply (bool_decide_unpack _). vm_compute. reflexivity.
  - apply perm_swap.
Defined.
